(* ===== verification/_CoqProject ===== *)
-Q . S2P
Prelude.v
Params.v
Disk.v
MetaBlocks.v
Inode.v
BlockAlloc.v
FreeStack.v
INodeTable.v
IAlloc.v
Mkfs.v
BlockTree.v
FileBlocks.v
FileData.v
FileIO.v
BlockRelease.v
ICache.v
CacheSpec.v
CacheInv.v
CacheUse.v
CacheHeld.v
Directory.v
DirectorySpec.v
DirUpdate.v
Namei.v
NameiSpec.v
NameiWalk.v
FileTable.v
Files.v
Namespace.v
Main.v
FilesSpec.v
FileAccess.v
AttrSpec.v
DirListing.v
TreeInv.v
AttrTree.v
FreshSystem.v
CreateSpec.v
UnlinkSpec.v
WriteSpec.v
TruncSpec.v
RoundTrip.v
MainSpec.v
RemoveSpec.v
DirRemoval.v
RenameSpec.v
RenameOver.v
Handles.v
AbstractTree.v
Refinement.v
TreeRequests.v
Refusals.v
OpenFiles.v
Sessions.v
Tools.v
StringSplit.v
Samples.v
DiskProps.v
FileProps.v
CacheProps.v
DirProps.v
TreeSamples.v
NamespaceProps.v
NamespaceInst.v
