(* ===== verification/Prelude.v ===== *)
(** * NAOFS: a file system in user space, and what it guarantees

    NAOFS is a Unix-style file system for FUSE, written in C: a super block, a
    list of free disk blocks, a table of inodes, files as trees of index blocks,
    a cache of inodes in core, directories, path lookup, a table of open files
    and the callbacks that FUSE calls. This library models all of that code and
    proves what each layer promises to the next one.

    ** The model

    A C function is a function into the monad [M] of this file: a state is
    passed along, and the outcome of a run is a result with a state ([Ret]),
    undefined behaviour ([Undef]: a null pointer, an access out of bounds, a
    variable nobody has set, a shift by too many bits, a double free), a wait for a mutex that the thread
    holds itself ([Hang]), or a loop that used up its fuel ([NoFuel]). [wp m s Q]
    says that [m] returns from [s] and that the result satisfies [Q]: it is total
    correctness, so that every theorem stated with [wp] also excludes undefined
    behaviour, deadlock and non-termination. Integers are [Z] with the wrap-around
    of their C types written out ([u64], [i32] and so on), bytes are [Z], a buffer
    is a list, a pointer to an in-core inode is the index of its cache node, and a
    pointer that may be null is an option. The state grows with the layers:
    [dstate] (the disk, the parameters, the static mutexes, the clock), [istate]
    (the cache over a disk) and [fstate] (the table of open files over a cache);
    [zoom] runs a statement of one layer inside the next.

    What the program takes from outside is the class [Host] of Disk.v: the
    device file, the clock, the contents of fresh memory, and what the machine
    makes of three things that C leaves undefined. The class [BlockStore] is the interface between the disk and
    everything above it: the theorems hold for every predicate [ok] on disks with
    its two laws (a block in range can be read; a write changes that block and no
    other). The memory disk ([mem_ok]) and a device file whose reads and writes
    are lawful ([device_ok]) are its two instances, and the theorems are
    instantiated on both.

    ** What the code asks of the machine

    On the usual path the code does three things that C leaves undefined and one
    whose result [malloc] leaves open. They are fields of [Host]; the model
    assumes nothing of them, so that each theorem which depends on one has it as
    a premise, and says so:

    - [getHash] (hashQ.c:18) shifts by 64 and more for every inode above 16:
      [shl_over]. With [None] such a shift is [Undef ShiftRange]
      ([getHash_large]); [DefinedShifts] says that the machine defines it, in
      whatever way. Everything that looks an inode up has this premise.
    - [initHashQueues] (hashQ.c:8) reads a counter that nothing has set:
      [stack_word]. With [None] it is [Undef Uninit]. The theorems about the
      start of the program have the premise [is_Some stack_word].
    - [addDirectoryEntry] (directory.c:178) copies 62 bytes from a buffer of 2, 3
      or the length of the path + 1 bytes: [over_reads]. With [false] a shorter
      buffer is [Undef OutOfBounds] ([memcpy_name]). [name_readable n] says that
      a buffer of [n] bytes can be read as one of 62, [names_readable] that those
      of [createFile] can; a new directory, with its ["."] of two bytes, always
      needs a machine that reads behind a buffer.
    - [unlinkFileFromINode] and [removeDestinationIfExists] (unlink.c:23,
      rename.c:22) take an entry from [malloc], of whose number the search sets
      two bytes of eight: [fresh_number], a function of the disk and the clock at
      the allocation. [clean_malloc] says that the other six are clear. [malloc] does
      not promise it, and removals depend on it: [removal_needs_clean_memory] in
      NamespaceInst.v runs the code on memory that is not clear, where a removed
      file keeps its link and is lost.

    [memory_serves] collects the last two for a request: a new name has to be
    readable, a removal or renaming needs clear memory, and all other requests
    need nothing.

    ** The parts, bottom up ([src/src] and [src/include] of the repository)

    - Params.v: [mandsk/params.c], [params.h], [diskParams.h].
    - Disk.v: [dsk/mdisk.c], [dsk/diskAccess.c], [dsk/blkfetch.c].
    - MetaBlocks.v: [mkfs/metaBlocks.c], the layouts of the special blocks.
    - Inode.v: [inode/iNode.c], [inode/inCoreiNode.c], and the 176-byte image of
      an inode on x86-64.
    - BlockAlloc.v, FreeStack.v: [dsk/alloc.c], [dsk/free.c]. [free_list s l]:
      the chain on disk holds the sequence [l]; FreeStack.v is the refinement of
      an abstract stack.
    - INodeTable.v, IAlloc.v: [mkfs/iNodeManager.c], [mkfs/ialloc.c],
      [mkfs/ifree.c].
    - Mkfs.v: [mkfs/mkfs.c], [mkfs/freeBlockList.c]; [new_file_system] is what
      [makeFileSystem] establishes.
    - BlockTree.v, FileBlocks.v, FileData.v: [incoreInodeOps/iNodeManager.c],
      [incoreInodeOps/bmap.c]. [file_ok s l i]: the blocks of the inode [i] are
      its own and none is on the free list [l]; [file_data] is what it contains.
    - FileIO.v: the loops of [interface/read.c], [write.c] and [truncate.c].
      BlockRelease.v: the release of a whole file, block by block, frees the blocks
      that [file_ok] counts.
    - ICache.v, CacheSpec.v, CacheInv.v, CacheUse.v, CacheHeld.v:
      [incoreInodeOps/freeList.c], [hashQ.c], [iget.c], [iput.c]. CacheSpec.v abstracts the pointer structures
      to lists, [cache_ok s F Q] is the invariant ([F] the free nodes, [Q] the hash
      queues), and [inode_view] and [refs] are all that a client can see: what an
      inode number reads as, and its references. CacheHeld.v is about the code that
      runs while the mutex of one inode is held.
    - Directory.v, DirectorySpec.v, DirUpdate.v: [trav/directory.c], with
      directories as lists of (name, number) pairs. DirListing.v is about
      [readDirectory].
    - Namei.v, NameiSpec.v, NameiWalk.v: [trav/namei.c] and the path helpers of
      [utils/utils.c]. [leads] is the abstract lookup, a relation on lists of
      names that goes through directories; [walks] is what the code does, which
      also goes on behind a regular file, at the root; they agree where [leads]
      is defined ([leads_walks]). [tree_ok] is the invariant of the directories.
    - FileTable.v, Files.v: [fdTable/globalFileTable.c], [interface/open.c],
      [close.c], [read.c], [write.c], [truncate.c]. FilesSpec.v has the invariant
      [files_ok] of the table, FileAccess.v reading and writing.
    - Namespace.v: [interface/create.c], [unlink.c], [rename.c], [link.c],
      [getAttr.c]. AttrSpec.v is about attributes, CreateSpec.v about creation,
      UnlinkSpec.v about the removal of names, RoundTrip.v about creation followed
      by removal, RemoveSpec.v about removals that fail, DirRemoval.v about
      [unlinkDir], RenameSpec.v about [renameFile] to a new name and RenameOver.v
      about [renameFile] to the name of a file, which is replaced.
    - TreeInv.v: [fs_ok], the invariant of the whole: no two inodes share a block,
      none uses a free one, every block behind the inode table is free or belongs
      to an inode, and every directory is well-formed and names linked inodes only.
      WriteSpec.v shows that a write keeps it, TruncSpec.v that [truncateFile]
      does, AttrTree.v that a change of attributes does, FreshSystem.v that a
      formatted device has it.
    - Main.v, MainSpec.v: [main.c], the callbacks and the start.
    - Tools.v: [mkfs/exec-mkfs.c] and [mkfs/diskReader.c], the programs that run
      beside the file system.
    - StringSplit.v: [string_split] of [utils/utils.c].
    - Handles.v, AbstractTree.v, Refinement.v, TreeRequests.v, Refusals.v,
      OpenFiles.v, Sessions.v: the
      specification of the whole. A tree [atree] maps inode numbers to nodes with
      attributes and a content (entries or bytes), and keeps the list of free
      numbers, a lower bound of the number of free blocks, and the descriptors of
      the open files. [request_step] is
      what a request does to it and what the reply is, as a function that is
      defined where the code does what is asked for ([permit]) or says that it
      cannot ([refuse]). [tree_state] ties a cache and its disk to a tree (an
      inode has as many references as there are descriptors for it), [models] a
      process (a valid entry of its table is a descriptor of the tree); [serve] is
      the callback that FUSE makes for a request.

    ** The theorems

    The properties proper are in DiskProps.v, FileProps.v, CacheProps.v,
    DirProps.v and NamespaceProps.v, and where nothing builds on them at the end
    of the files FreeStack.v, MainSpec.v, RemoveSpec.v, Tools.v and StringSplit.v; each has a doc comment
    that says what it states. Samples.v, TreeSamples.v and NamespaceInst.v build
    the concrete disks, caches and file systems on which they are instantiated.
    They fall into these groups:

    - the disk: a formatted device has exactly the structures the other layers
      expect; the allocator is a stack; freeing a file releases exactly its
      blocks; numbers of inodes are taken and given back; what is encoded is
      decoded again;
    - files: bytes are where [bmap] says; writing at the end appends, writing
      inside overwrites, reading reads, truncation cuts or pads with zeros; what
      is written is read back;
    - the cache: [iget] and [iput] are transparent: they change references and
      nothing else a client sees, write back what was changed, and delete a file
      without links;
    - directories and paths: search, insertion and removal are those on lists,
      and the lookup of a path is the walk along its names;
    - descriptors and the tree: opening and closing is neutral, reads and writes
      go to the right bytes, attributes are reported and changed one inode at a
      time, a file or directory that is created is found afterwards while
      everything else is as it was, a file that is created and removed leaves no
      trace, and a renamed file is the same under another name, also
      when another file had that name;
    - the whole: from the start of the program on, every session of requests that
      the abstract tree permits and the memory serves is served with the replies of the tree, and the
      process shows the tree at its end; this holds in particular for a device that
      [exec-mkfs] has formatted. [request_step] is undefined outside the
      following bounds, which are those of the other theorems: a directory stays
      within its direct blocks (160 entries), each request has free blocks to
      spare (8 for a new node, 4 for a new name and for each block that a file
      grows by, 128 for a removal, whose freed blocks are not counted again, and
      for a file that shrinks, which it can inside its direct blocks, below 10240
      bytes), the last number of the list of free numbers is never given out, a
      write starts where the file ends or stays inside it, a read is at the start
      of the file or in whole blocks, a directory that is removed is empty, the
      name of a file or directory that is created does not exist yet, a file is
      renamed to a new name or to that of another regular file, at most 28
      different files are open at a time
      (a request itself needs up to four nodes of the cache) and never the root,
      and the last name of a file is removed, or given to another file, when the
      file is not open. The
      failures that it covers are those of paths
      that lead nowhere, of names to be removed that do not exist, of [rmdir], of
      descriptors that stand for nothing, and of a write behind the end of a file;
    - failures: a list of the cases in which the code does not do what it means
      to, each with the state that shows it.

    ** Fuel

    Loops run with [while_do] and a fuel computed from the data: the bytes of a
    request for [readBytes] and [writeBytes], the entries or blocks of a directory
    for searches, the length of a path for the lookup, the number of nodes for a
    hash queue, the 128 entries of a list block for scans. The theorems with [wp]
    show that it is enough. Only the recursion of
    [validateAndEmptyDirectoryIfNeeded] into directories takes a fuel from
    outside, the depth of the tree.

    ** What is not modelled

    Other threads: a run is that of one thread, and a mutex shows when it is taken
    twice. [fdTable/fileTables.c] is commented out as a whole. [printFreeList] of
    [freeList.c] and [writeINodesBlock] are called by nothing; the vendored test
    framework is no part of the program.
    Output to the terminal and the memory that is never freed are left out. *)

From stdpp Require Export base list gmap sets.
From Stdlib Require Export ZArith Lia.

(** * The outcome of running C code

    [Ret a s] is a normal return.  [Undef u] marks behaviour the C standard
    leaves undefined, [Hang] a thread that waits for a mutex it holds itself,
    and [NoFuel] a loop cut off by the fuel the model gives it; the theorems
    show which outcomes occur. *)

Inductive undef : Type :=
| NullDeref
| OutOfBounds
| Uninit
| DoubleFree
| DivByZero
| ShiftRange.

Inductive outcome (S A : Type) : Type :=
| Ret (a : A) (s : S)
| Undef (u : undef)
| Hang
| NoFuel.

Arguments Ret {S A} a s.
Arguments Undef {S A} u.
Arguments Hang {S A}.
Arguments NoFuel {S A}.

Definition M (S A : Type) : Type := S -> outcome S A.

Definition ret {S A} (a : A) : M S A := fun s => Ret a s.

Definition bind {S A B} (m : M S A) (k : A -> M S B) : M S B :=
  fun s => match m s with
           | Ret a s' => k a s'
           | Undef u => Undef u
           | Hang => Hang
           | NoFuel => NoFuel
           end.

Definition undefined {S A} (u : undef) : M S A := fun _ => Undef u.
Definition hang {S A} : M S A := fun _ => Hang.
Definition get {S} : M S S := fun s => Ret s s.
Definition gets {S A} (f : S -> A) : M S A := fun s => Ret (f s) s.
Definition modify {S} (f : S -> S) : M S unit := fun s => Ret tt (f s).

Declare Scope nao_scope.
Delimit Scope nao_scope with nao.

Notation "'let*' p ':=' c 'in' k" := (bind c (fun p => k))
  (at level 10, p pattern, c at level 200, k at level 200) : nao_scope.
Notation "c ;;; k" := (bind c (fun _ => k))
  (at level 100, right associativity) : nao_scope.

Open Scope Z_scope.
Open Scope nao_scope.

(** A statement run on one part of a larger state. *)
Definition zoom {S T A} (get : S -> T) (set : T -> S -> S) (m : M T A) : M S A :=
  fun s => match m (get s) with
           | Ret a t => Ret a (set t s)
           | Undef u => Undef u
           | Hang => Hang
           | NoFuel => NoFuel
           end.

(** A C [while] loop: [cond] is its test, [body] one iteration, which goes on
    ([Next]) or leaves the loop by [break] ([Break]). *)
Inductive ctl (L : Type) : Type :=
| Next (l : L)
| Break (l : L).
Arguments Next {L} l.
Arguments Break {L} l.

Fixpoint while_do {S L} (fuel : nat) (cond : L -> bool) (body : L -> M S (ctl L))
    (l : L) : M S L :=
  if cond l then
    match fuel with
    | O => fun _ => NoFuel
    | Datatypes.S f =>
        let* c := body l in
        match c with
        | Next l' => while_do f cond body l'
        | Break l' => ret l'
        end
    end
  else ret l.

(** * Machine integers *)

Definition u64 (z : Z) : Z := z mod 2 ^ 64.
Definition u32 (z : Z) : Z := z mod 2 ^ 32.
Definition i32 (z : Z) : Z := (z + 2 ^ 31) mod 2 ^ 32 - 2 ^ 31.
Definition i64 (z : Z) : Z := (z + 2 ^ 63) mod 2 ^ 64 - 2 ^ 63.

Definition is_u64 (z : Z) : Prop := 0 <= z < 2 ^ 64.
Definition is_u32 (z : Z) : Prop := 0 <= z < 2 ^ 32.
Definition is_i64 (z : Z) : Prop := - 2 ^ 63 <= z < 2 ^ 63.

#[export] Instance is_u64_dec z : Decision (is_u64 z).
Proof. unfold is_u64. apply _. Defined.
#[export] Instance is_u32_dec z : Decision (is_u32 z).
Proof. unfold is_u32. apply _. Defined.
#[export] Instance is_i64_dec z : Decision (is_i64 z).
Proof. unfold is_i64. apply _. Defined.

(** * Bytes, memcpy and little-endian words *)

Definition is_byte (z : Z) : Prop := 0 <= z < 256.

#[export] Instance is_byte_dec z : Decision (is_byte z).
Proof. unfold is_byte. apply _. Defined.

(** [memcpy(dst + off, src, length src)], inside the buffer [dst]. *)
Definition memcpy_at (dst : list Z) (off : nat) (src : list Z) : list Z :=
  take off dst ++ src ++ drop (off + length src) dst.

(** The [len] bytes at [src + off]. *)
Definition bytes_at (src : list Z) (off len : nat) : list Z :=
  take len (drop off src).

Fixpoint le_enc (w : nat) (z : Z) : list Z :=
  match w with
  | O => []
  | S w' => z mod 256 :: le_enc w' (z / 256)
  end.

Fixpoint le_dec (bs : list Z) : Z :=
  match bs with
  | [] => 0
  | b :: bs' => b + 256 * le_dec bs'
  end.

(** Writing the words [ws] one after the other from offset [off]. *)
Fixpoint write_words (w : nat) (ws : list Z) (off : nat) (dst : list Z) : list Z :=
  match ws with
  | [] => dst
  | x :: ws' => write_words w ws' (off + w) (memcpy_at dst off (le_enc w x))
  end.

(** Reading [n] words of [w] bytes from offset [off]. *)
Fixpoint read_words (w n off : nat) (src : list Z) : list Z :=
  match n with
  | O => []
  | S n' => le_dec (bytes_at src off w) :: read_words w n' (off + w) src
  end.

Definition enc_words (w : nat) (ws : list Z) : list Z := concat (le_enc w <$> ws).

(** * Weakest preconditions: total correctness of a run from [s] *)

Definition wp {S A} (m : M S A) (s : S) (Q : A -> S -> Prop) : Prop :=
  match m s with
  | Ret a s' => Q a s'
  | _ => False
  end.

Create HintDb nao discriminated.
Create HintDb wpdb discriminated.

(** * Lemmas on the monad *)

Lemma bind_Ret {S A B} (m : M S A) (k : A -> M S B) s a s' :
  m s = Ret a s' -> bind m k s = k a s'.
Proof. unfold bind. by intros ->. Qed.

Lemma wp_Ret {S A} (m : M S A) s a s' (Q : A -> S -> Prop) :
  m s = Ret a s' -> Q a s' -> wp m s Q.
Proof. unfold wp. by intros ->. Qed.

Lemma wp_inv {S A} (m : M S A) s (Q : A -> S -> Prop) :
  wp m s Q -> exists a s', m s = Ret a s' /\ Q a s'.
Proof. unfold wp. destruct (m s); naive_solver. Qed.

Lemma wp_ret {S A} (a : A) s (Q : A -> S -> Prop) : Q a s -> wp (ret a) s Q.
Proof. done. Qed.

Lemma wp_bind {S A B} (m : M S A) (k : A -> M S B) s Q :
  wp m s (fun a s' => wp (k a) s' Q) -> wp (bind m k) s Q.
Proof. unfold wp, bind. by destruct (m s). Qed.

Lemma wp_mono {S A} (m : M S A) s (P Q : A -> S -> Prop) :
  wp m s P -> (forall a s', P a s' -> Q a s') -> wp m s Q.
Proof. unfold wp. destruct (m s); naive_solver. Qed.

Lemma wp_zoom {S T A} (get : S -> T) (set : T -> S -> S) (m : M T A) s Q :
  wp m (get s) (fun a t => Q a (set t s)) -> wp (zoom get set m) s Q.
Proof. unfold wp, zoom. by destruct (m (get s)). Qed.

(** The loop rule: an invariant [I] and a measure below the fuel. *)
Lemma wp_while {S L} (I : L -> S -> Prop) (meas : L -> nat)
    (cond : L -> bool) (body : L -> M S (ctl L)) (Q : L -> S -> Prop) :
  (forall l s, I l s -> cond l = true ->
     wp (body l) s (fun c s' =>
       match c with
       | Next l' => I l' s' /\ (meas l' < meas l)%nat
       | Break l' => Q l' s'
       end)) ->
  (forall l s, I l s -> cond l = false -> Q l s) ->
  forall fuel l s, I l s -> (meas l < fuel)%nat ->
  wp (while_do fuel cond body l) s Q.
Proof.
  intros Hbody Hexit fuel.
  induction fuel as [|fuel IH]; intros l s HI Hm; [lia|].
  simpl. destruct (cond l) eqn:Hc; [|by apply Hexit].
  apply wp_bind. eapply wp_mono; [by apply Hbody|].
  intros [l'|l'] s'; simpl; [|done]. intros [HI' Hlt]. apply IH; [done|lia].
Qed.

Lemma bind_ret {S A B} (a : A) (k : A -> M S B) s : bind (ret a) k s = k a s.
Proof. done. Qed.

Lemma bind_get {S B} (k : S -> M S B) s : bind get k s = k s s.
Proof. done. Qed.

Lemma bind_gets {S A B} (f : S -> A) (k : A -> M S B) s :
  bind (gets f) k s = k (f s) s.
Proof. done. Qed.

Lemma bind_modify {S B} (f : S -> S) (k : unit -> M S B) s :
  bind (modify f) k s = k tt (f s).
Proof. done. Qed.

Lemma bind_assoc {S A B C} (m : M S A) (f : A -> M S B) (g : B -> M S C) s :
  bind (bind m f) g s = bind m (fun a => bind (f a) g) s.
Proof. unfold bind. by destruct (m s). Qed.

(** Run the head statement of the goal: a pure step, or one whose result is a
    hypothesis or the lemma given. *)
Ltac mstep :=
  first [ rewrite bind_ret | rewrite bind_get | rewrite bind_gets | rewrite bind_modify
        | rewrite bind_assoc | erewrite bind_Ret by eassumption ].
Tactic Notation "mrun" uconstr(H) := erewrite bind_Ret by (eapply H; eauto).

(** * Lemmas on machine integers *)

Lemma u64_range z : is_u64 (u64 z).
Proof. unfold is_u64, u64. apply Z.mod_pos_bound. lia. Qed.

Lemma u64_id z : is_u64 z -> u64 z = z.
Proof. unfold is_u64, u64. intros. by apply Z.mod_small. Qed.

Lemma u32_id z : is_u32 z -> u32 z = z.
Proof. unfold is_u32, u32. intros. by apply Z.mod_small. Qed.

Lemma i32_id z : - 2 ^ 31 <= z < 2 ^ 31 -> i32 z = z.
Proof. unfold i32. intros. rewrite Z.mod_small; lia. Qed.

Lemma i64_id z : is_i64 z -> i64 z = z.
Proof. unfold is_i64, i64. intros. rewrite Z.mod_small; lia. Qed.

Lemma u64_i64 z : u64 (i64 z) = u64 z.
Proof. unfold u64, i64. Z.to_euclidean_division_equations; lia. Qed.

Lemma i64_of_u64 z : is_i64 z -> i64 (u64 z) = z.
Proof.
  unfold is_i64, i64, u64. intros. rewrite Zplus_mod_idemp_l.
  rewrite Z.mod_small; lia.
Qed.

(** * Lemmas on lists used as buffers *)

Lemma length_memcpy_at dst off src :
  (off + length src <= length dst)%nat ->
  length (memcpy_at dst off src) = length dst.
Proof.
  intros. unfold memcpy_at. rewrite !length_app, length_take, length_drop. lia.
Qed.

Lemma lookup_memcpy_at dst off src i :
  (off + length src <= length dst)%nat ->
  memcpy_at dst off src !! i =
    if decide (off <= i < off + length src)%nat then src !! (i - off)%nat else dst !! i.
Proof.
  intros Hl. unfold memcpy_at. destruct (decide (off <= i < off + length src)%nat) as [Hi|Hi].
  - rewrite lookup_app_r by (rewrite length_take; lia). rewrite length_take, Nat.min_l by lia.
    by rewrite lookup_app_l by lia.
  - destruct (decide (i < off)%nat) as [Hlt|Hge].
    + rewrite lookup_app_l by (rewrite length_take; lia). by rewrite lookup_take_lt.
    + rewrite lookup_app_r by (rewrite length_take; lia). rewrite length_take, Nat.min_l by lia.
      rewrite lookup_app_r by lia. rewrite lookup_drop. f_equal. lia.
Qed.

Lemma bytes_at_memcpy_same dst off src :
  (off + length src <= length dst)%nat ->
  bytes_at (memcpy_at dst off src) off (length src) = src.
Proof.
  intros. unfold bytes_at, memcpy_at.
  rewrite drop_app_ge by (rewrite length_take; lia).
  rewrite length_take, Nat.min_l, Nat.sub_diag, drop_0 by lia.
  by rewrite take_app_length.
Qed.

Lemma bytes_at_memcpy_other dst off src off' len :
  (off + length src <= length dst)%nat ->
  (off' + len <= off \/ off + length src <= off')%nat ->
  bytes_at (memcpy_at dst off src) off' len = bytes_at dst off' len.
Proof.
  intros Hl Hd. unfold bytes_at, memcpy_at.
  destruct Hd as [Hd|Hd].
  - rewrite drop_app_le by (rewrite length_take; lia).
    rewrite take_app_le by (rewrite length_drop, length_take; lia).
    apply list_eq. intros i.
    destruct (decide (i < len)%nat) as [Hi|Hi].
    + rewrite !lookup_take_lt, !lookup_drop, lookup_take_lt by lia. done.
    + rewrite !lookup_take_ge by lia. done.
  - rewrite app_assoc, drop_app_ge; rewrite !length_app, length_take, Nat.min_l by lia; [|lia].
    rewrite drop_drop. do 2 f_equal. lia.
Qed.

Lemma length_bytes_at src off len :
  (off + len <= length src)%nat -> length (bytes_at src off len) = len.
Proof. intros. unfold bytes_at. rewrite length_take, length_drop. lia. Qed.

Lemma Forall_memcpy_at (P : Z -> Prop) dst off src :
  Forall P dst -> Forall P src -> Forall P (memcpy_at dst off src).
Proof.
  intros. unfold memcpy_at.
  auto using Forall_app_2, Forall_take, Forall_drop.
Qed.

Lemma Forall_bytes_at (P : Z -> Prop) src off len :
  Forall P src -> Forall P (bytes_at src off len).
Proof. unfold bytes_at. auto using Forall_take, Forall_drop. Qed.

(** * Lemmas on little-endian words *)

Lemma length_le_enc w z : length (le_enc w z) = w.
Proof. revert z. induction w; simpl; auto. Qed.

Lemma le_enc_bytes w z : Forall is_byte (le_enc w z).
Proof.
  revert z. induction w; intros; simpl; constructor; auto.
  unfold is_byte. apply Z.mod_pos_bound. lia.
Qed.

Lemma le_dec_enc w z : le_dec (le_enc w z) = z mod 256 ^ Z.of_nat w.
Proof.
  revert z. induction w as [|w IH]; intros z; cbn [le_enc le_dec].
  - by rewrite Z.mod_1_r.
  - rewrite IH, Nat2Z.inj_succ, Z.pow_succ_r by lia.
    rewrite Z.rem_mul_r by lia. done.
Qed.

Lemma le_dec_enc_small w z : 0 <= z < 256 ^ Z.of_nat w -> le_dec (le_enc w z) = z.
Proof. intros. rewrite le_dec_enc. by apply Z.mod_small. Qed.

Lemma le_dec_range bs : Forall is_byte bs -> 0 <= le_dec bs < 256 ^ Z.of_nat (length bs).
Proof.
  induction 1 as [|b bs Hb _ IH]; cbn [le_dec length]; [lia|].
  unfold is_byte in Hb. rewrite Nat2Z.inj_succ, Z.pow_succ_r by lia. lia.
Qed.

Lemma le_enc_dec bs : Forall is_byte bs -> le_enc (length bs) (le_dec bs) = bs.
Proof.
  induction 1 as [|b bs Hb _ IH]; cbn [le_dec length le_enc]; [done|].
  unfold is_byte in Hb.
  rewrite (Z.mul_comm 256), Z.mod_add, Z.div_add, Z.mod_small, Z.div_small by lia.
  by rewrite Z.add_0_l, IH.
Qed.

Lemma length_read_words w n off src : length (read_words w n off src) = n.
Proof. revert off. induction n; intros; simpl; auto. Qed.

Lemma length_enc_words w ws : length (enc_words w ws) = (length ws * w)%nat.
Proof.
  unfold enc_words. induction ws as [|x ws IH]; [done|].
  cbn [fmap list_fmap concat]. rewrite length_app, length_le_enc, IH. simpl. lia.
Qed.

Lemma memcpy_at_split p m q src :
  length src = length m -> memcpy_at (p ++ m ++ q) (length p) src = p ++ src ++ q.
Proof.
  intros Hl. unfold memcpy_at. rewrite take_app_length. do 2 f_equal.
  rewrite drop_app_ge by lia.
  replace (length p + length src - length p)%nat with (length m) by lia.
  by rewrite drop_app_length.
Qed.

(** Two adjacent copies are one. *)
Lemma memcpy_at_app dst off a b :
  (off + length a + length b <= length dst)%nat ->
  memcpy_at (memcpy_at dst off a) (off + length a) b = memcpy_at dst off (a ++ b).
Proof.
  intros Hl. assert (exists p m n q, dst = p ++ m ++ n ++ q /\ length p = off /\
    length m = length a /\ length n = length b) as (p & m & n & q & -> & <- & Hm & Hn).
  { exists (take off dst), (take (length a) (drop off dst)),
      (take (length b) (drop (off + length a) dst)), (drop (off + length a + length b) dst).
    rewrite <- !drop_drop, !take_drop, !length_take, !length_drop. split_and!; [done|lia..]. }
  rewrite memcpy_at_split by done.
  rewrite (app_assoc p a), <- length_app, memcpy_at_split, (app_assoc m) by done.
  rewrite memcpy_at_split by (rewrite !length_app; lia). by rewrite <- !app_assoc.
Qed.

Lemma write_words_eq w ws off dst :
  (off + length ws * w <= length dst)%nat ->
  write_words w ws off dst = memcpy_at dst off (enc_words w ws).
Proof.
  revert off dst. induction ws as [|x ws IH]; intros off dst Hl; simpl in *.
  - unfold memcpy_at, enc_words; simpl. by rewrite Nat.add_0_r, take_drop.
  - rewrite IH by (rewrite length_memcpy_at; rewrite ?length_le_enc; lia).
    rewrite <- (length_le_enc w x) at 2.
    by rewrite memcpy_at_app by (rewrite length_enc_words, length_le_enc; lia).
Qed.

Lemma read_words_shift w n off src :
  read_words w n off src = read_words w n 0 (drop off src).
Proof.
  assert (forall n k off src,
    read_words w n (off + k) src = read_words w n k (drop off src)) as H.
  { clear. induction n as [|n IH]; intros; simpl; [done|].
    rewrite <- Nat.add_assoc, IH. unfold bytes_at. by rewrite drop_drop. }
  rewrite <- (Nat.add_0_r off) at 1. apply H.
Qed.

Lemma read_words_enc w ws tl :
  Forall (fun x => 0 <= x < 256 ^ Z.of_nat w) ws ->
  read_words w (length ws) 0 (enc_words w ws ++ tl) = ws.
Proof.
  induction 1 as [|x ws Hx _ IH]; cbn [read_words length]; [done|].
  unfold enc_words in *; cbn [fmap list_fmap concat].
  unfold bytes_at. rewrite drop_0, <- app_assoc.
  rewrite take_app_length' by (by rewrite length_le_enc).
  rewrite le_dec_enc_small by done. f_equal.
  rewrite read_words_shift, drop_app_length' by (by rewrite length_le_enc). apply IH.
Qed.

Lemma enc_read_words w n src :
  length src = (n * w)%nat -> Forall is_byte src ->
  enc_words w (read_words w n 0 src) = src.
Proof.
  revert src. induction n as [|n IH]; intros src Hl Hb; simpl in *.
  - unfold enc_words. simpl. by destruct src.
  - unfold enc_words in *; cbn [fmap list_fmap concat].
    rewrite read_words_shift, IH.
    + unfold bytes_at. rewrite drop_0.
      rewrite <- (length_take_le src w) at 1 by lia.
      rewrite le_enc_dec by auto using Forall_take. by rewrite take_drop.
    + rewrite length_drop. lia.
    + auto using Forall_drop.
Qed.

Lemma read_words_range w n off src :
  (off + n * w <= length src)%nat -> Forall is_byte src ->
  Forall (fun x => 0 <= x < 256 ^ Z.of_nat w) (read_words w n off src).
Proof.
  revert off. induction n as [|n IH]; intros off Hl Hb; simpl in *; constructor.
  - pose proof (le_dec_range (bytes_at src off w) (Forall_bytes_at _ _ _ _ Hb)) as H.
    rewrite length_bytes_at in H by lia. done.
  - apply IH; [lia|done].
Qed.

Lemma enc_words_bytes w ws : Forall is_byte (enc_words w ws).
Proof.
  unfold enc_words. apply Forall_concat, Forall_fmap, Forall_true.
  intros. apply le_enc_bytes.
Qed.

#[export] Hint Resolve u64_range le_enc_bytes enc_words_bytes Forall_memcpy_at
  Forall_bytes_at : nao.
Create Rewrite HintDb len.
#[export] Hint Rewrite length_le_enc length_enc_words length_read_words
  @length_replicate @length_take @length_drop @length_app : len.

(** Lengths of buffers. *)
Ltac len := autorewrite with len in *; simpl in *; try lia.

#[global] Arguments read_words : simpl never.
#[global] Arguments write_words : simpl never.
#[global] Arguments enc_words : simpl never.
#[global] Arguments le_enc : simpl never.
#[global] Arguments le_dec : simpl never.
#[global] Arguments bytes_at : simpl never.
#[global] Arguments memcpy_at : simpl never.
#[global] Arguments u64 : simpl never.
#[global] Arguments u32 : simpl never.
#[global] Arguments i32 : simpl never.
#[global] Arguments i64 : simpl never.
