(* ===== verification/Params.v ===== *)
(** The constants of [include/mandsk/params.h] and
    [include/mkfs/diskParams.h], and the globals that
    [initializeINodeParams] ([src/mandsk/params.c]) computes from the size of
    the on-disk inode. *)

From S2P Require Export Prelude.

(** * Constants *)

Definition BLOCK_ADDRESS_SIZE : Z := 8.
Definition DISK_SIZE_IN_GB : Z := 30.
Definition BLOCK_SIZE : Z := 1024.
Definition INODE_ADDRESS_SIZE : Z := 2.
Definition NUM_OF_INODES : Z := Z.shiftl 1 (INODE_ADDRESS_SIZE * 8).
Definition FILENAME_SIZE : Z := 62.
Definition DIRECTORY_ENTRY_SIZE : Z := FILENAME_SIZE + INODE_ADDRESS_SIZE.
Definition DIRECTORY_ENTRIES_IN_BLOCK : Z := BLOCK_SIZE / DIRECTORY_ENTRY_SIZE.
Definition SINGLE_INDIRECT_BLOCK : Z := 10.
Definition DOUBLE_INDIRECT_BLOCK : Z := 11.
Definition TRIPLE_INDIRECT_BLOCK : Z := 12.
Definition DIRECT_BLOCK_LIMIT : Z := 9.
Definition INODE_BUFFER_SIZE : nat := 32.
Definition INODE_HASH_SIZE : Z := 8.
Definition MAX_FILE_DESCRIPTORS : Z := 10000.
Definition BLOCK_ADDRESSES_PER_BLOCK : Z := BLOCK_SIZE / BLOCK_ADDRESS_SIZE.
Definition INODE_NOS_PER_BLOCK : Z := BLOCK_SIZE / INODE_ADDRESS_SIZE.
Definition BLOCKS_IN_INODE : nat := 13.

(** Blocks with a fixed role ([diskParams.h]). *)
Definition SUPER_BLOCK : Z := 1.
Definition FREE_LIST_BLOCK : Z := 2.
Definition INODE_LIST_BLOCK : Z := 3.
Definition INODE_BLOCKS_HEAD : Z := 4.

(** Unfolds the constants to numerals, for [lia]. *)
Ltac consts :=
  change BLOCK_ADDRESSES_PER_BLOCK with 128 in *;
  change INODE_NOS_PER_BLOCK with 512 in *;
  change DIRECTORY_ENTRIES_IN_BLOCK with 16 in *;
  change DIRECTORY_ENTRY_SIZE with 64 in *;
  change NUM_OF_INODES with 65536 in *;
  unfold BLOCK_ADDRESS_SIZE, DISK_SIZE_IN_GB, BLOCK_SIZE, INODE_ADDRESS_SIZE,
    FILENAME_SIZE, SINGLE_INDIRECT_BLOCK, DOUBLE_INDIRECT_BLOCK,
    TRIPLE_INDIRECT_BLOCK, DIRECT_BLOCK_LIMIT, INODE_BUFFER_SIZE,
    INODE_HASH_SIZE, MAX_FILE_DESCRIPTORS, BLOCKS_IN_INODE, SUPER_BLOCK,
    FREE_LIST_BLOCK, INODE_LIST_BLOCK, INODE_BLOCKS_HEAD in *.

(** [sizeof(iNode)] on x86-64; [Inode.sizeof_iNode_layout] relates it to the
    fields of the structure. *)
Definition sizeof_iNode : Z := 176.

(** * The globals set by [initializeINodeParams] *)

Record params : Type := Params {
  INODE_SIZE : Z;
  INODES_PER_BLOCK : Z;
  NUM_OF_INODE_BLOCKS : Z;
  NUM_OF_BLOCKS : Z
}.

(** The loop that doubles [iNodeSize] once per bit of [iNodeStructSize]. *)
Fixpoint inode_size_loop (fuel : nat) (iNodeStructSize iNodeSize : Z) : option Z :=
  if negb (iNodeStructSize =? 0) then
    match fuel with
    | O => None
    | S f => inode_size_loop f (iNodeStructSize / 2) (u64 (iNodeSize * 2))
    end
  else Some iNodeSize.

Definition initializeINodeParams (iNodeStructSize : Z) : option params :=
  match inode_size_loop 64 iNodeStructSize 1 with
  | None => None
  | Some iNodeSize =>
      Some (Params iNodeSize
                   (BLOCK_SIZE / iNodeSize)
                   (u64 (iNodeSize * NUM_OF_INODES) / BLOCK_SIZE)
                   (DISK_SIZE_IN_GB * Z.shiftl 1 20))
  end.

(** What a run sets the globals to. *)
Definition std_params : params := Params 256 4 16384 31457280.

Lemma inode_size_loop_pow fuel s k :
  0 <= s -> 0 <= k -> s * 2 ^ k < 2 ^ 63 -> s < 2 ^ Z.of_nat fuel ->
  inode_size_loop fuel s (2 ^ k) =
    Some (if s =? 0 then 2 ^ k else 2 ^ (k + Z.log2 s + 1)).
Proof.
  revert s k. induction fuel as [|fuel IH]; intros s k Hs Hk Hlt Hf; simpl.
  { rewrite Z.pow_0_r in Hf. by replace s with 0 by lia. }
  destruct (Z.eqb_spec s 0) as [->|Hne]; simpl; [done|].
  rewrite Nat2Z.inj_succ, Z.pow_succ_r in Hf by lia.
  assert (0 < 2 ^ k) by (apply Z.pow_pos_nonneg; lia).
  pose proof (Z.div_mod s 2 ltac:(lia)) as Hdm.
  pose proof (Z.mod_pos_bound s 2 ltac:(lia)).
  rewrite u64_id by (unfold is_u64; nia).
  rewrite Z.mul_comm, <- Z.pow_succ_r by lia.
  rewrite IH; [|lia|lia|rewrite Z.pow_succ_r by lia; nia|lia].
  f_equal. destruct (Z.eqb_spec (s / 2) 0) as [E|E].
  - assert (s = 1) as -> by lia. simpl. f_equal. lia.
  - replace (Z.log2 s) with (Z.succ (Z.log2 (s / 2))); [f_equal; lia|].
    assert (s mod 2 = 0 \/ s mod 2 = 1) as [Hm|Hm] by lia; rewrite Hm in Hdm.
    + rewrite Hdm at 2. rewrite Z.add_0_r, Z.log2_double by lia. done.
    + rewrite Hdm at 2. rewrite Z.log2_succ_double by lia. done.
Qed.

(** The on-disk size of an inode is the least power of two above the size of
    the structure: every inode fits its slot. *)
Lemma initializeINodeParams_size s :
  0 < s < 2 ^ 63 ->
  exists p, initializeINodeParams s = Some p /\
    INODE_SIZE p = 2 ^ (Z.log2 s + 1) /\ s < INODE_SIZE p <= 2 * s.
Proof.
  intros Hs. unfold initializeINodeParams.
  change 1 with (2 ^ 0) at 1.
  rewrite (inode_size_loop_pow 64 s 0) by (simpl; lia).
  destruct (Z.eqb_spec s 0); [lia|]. eexists. split; [done|]. cbn [INODE_SIZE].
  rewrite Z.add_0_l. split; [done|].
  pose proof (Z.log2_spec s ltac:(lia)) as [Hlo Hhi].
  rewrite Z.add_1_r, Z.pow_succ_r in * by apply Z.log2_nonneg. lia.
Qed.

Lemma initializeINodeParams_std : initializeINodeParams sizeof_iNode = Some std_params.
Proof. reflexivity. Qed.
