(* ===== verification/Disk.v ===== *)
(** The block device: [src/dsk/mdisk.c] (memory), [src/dsk/diskAccess.c]
    (device file) and [src/dsk/blkfetch.c], which picks one of them.

    [Host] gathers what the program takes from outside: the device file, the
    clock, the contents of fresh memory and what the machine makes of three
    things that C leaves undefined.  [BlockStore] is the interface the
    rest of the file system is proved against; the memory disk and a lawful
    device file are its two instances. *)

From S2P Require Export Params.

(** * The outside world *)

Abbreviation block := (list Z).

Definition wf_block (b : block) : Prop := length b = 1024%nat /\ Forall is_byte b.

#[export] Instance wf_block_dec b : Decision (wf_block b).
Proof. unfold wf_block. apply _. Defined.

Definition zero_block : block := replicate 1024 0.

Lemma zero_block_wf : wf_block zero_block.
Proof. by apply (bool_decide_eq_true_1 (wf_block zero_block)). Qed.

Class Host : Type := {
  dev : Type;
  (* [access(path, R_OK | W_OK) == 0] *)
  dev_access : list Z -> dev -> bool;
  (* the bytes [read] delivers after [lseek] to this offset; fewer than
     [BLOCK_SIZE] at the end of the file, none on an error *)
  dev_read : dev -> Z -> list Z;
  (* [write] after [lseek]: whether it returned something else than -1, and
     the device afterwards *)
  dev_write : dev -> Z -> block -> bool * dev;
  (* the n-th answer of [time] *)
  time_at : nat -> Z;
  time_at_range : forall n, is_i64 (time_at n);
  (* the contents of a block-sized buffer fresh from [malloc] *)
  junk_block : block;
  junk_block_wf : wf_block junk_block;
  (* a word that nothing has set, where its value is not used *)
  junk_word : Z;
  (* [iNodeNum] of an entry fresh from [malloc]: any function of the disk and
     the number of times that the clock was read *)
  fresh_number : dev -> gmap Z block -> nat -> Z;
  (* the bytes that follow a C string in memory *)
  junk_bytes : list Z;
  junk_bytes_ok : Forall is_byte junk_bytes;
  (* Three things that C leaves undefined.  With [None] and [false] they are
     undefined here too; a machine can define them.
     [x << n] for [n >= 64] *)
  shl_over : option (Z -> Z -> Z);
  (* the value of an automatic variable that nothing has set *)
  stack_word : option Z;
  (* whether [memcpy] reads what is behind an object in memory *)
  over_reads : bool
}.

(** The machine gives a result for shifts by 64 and more: x86-64 takes the count
    modulo 64. Every lookup of an inode above 16 depends on this. *)
Class DefinedShifts `{Host} : Prop := defined_shifts : is_Some shl_over.

(** An object of [size] bytes can be read as one of 62, the size of the name in
    a directory entry. *)
Definition name_readable `{Host} (size : nat) : Prop := over_reads = true \/ (62 <= size)%nat.

(** * The state of the disk layer *)

(** The four mutexes, one in each of [alloc.c], [free.c], [ialloc.c] and
    [ifree.c], that are all called [iNodeListMutex]. *)
Inductive mutex : Type := AllocMutex | FreeMutex | IAllocMutex | IFreeMutex.

#[export] Instance mutex_eq_dec : EqDecision mutex.
Proof. solve_decision. Defined.

Section disk.
Context `{Host}.

Record dstate : Type := DState {
  isDiskAvailable : bool;
  devName : option (list Z);
  device : dev;
  mem_disk : gmap Z block;
  prm : params;
  held : list mutex;
  time_calls : nat
}.

Definition set_device (d : dev) (s : dstate) : dstate :=
  DState (isDiskAvailable s) (devName s) d (mem_disk s) (prm s) (held s) (time_calls s).
Definition set_mem (m : gmap Z block) (s : dstate) : dstate :=
  DState (isDiskAvailable s) (devName s) (device s) m (prm s) (held s) (time_calls s).
Definition set_prm (p : params) (s : dstate) : dstate :=
  DState (isDiskAvailable s) (devName s) (device s) (mem_disk s) p (held s) (time_calls s).
Definition set_held (l : list mutex) (s : dstate) : dstate :=
  DState (isDiskAvailable s) (devName s) (device s) (mem_disk s) (prm s) l (time_calls s).
Definition set_calls (n : nat) (s : dstate) : dstate :=
  DState (isDiskAvailable s) (devName s) (device s) (mem_disk s) (prm s) (held s) n.

Definition DM (A : Type) : Type := M dstate A.

(** ** Mutexes and the clock *)

Definition mutex_lock (m : mutex) : DM unit :=
  fun s => if decide (m ∈ held s) then Hang else Ret tt (set_held (m :: held s) s).

Definition mutex_unlock (m : mutex) : DM unit :=
  modify (fun s => set_held (filter (fun m' => m' <> m) (held s)) s).

(** A function body that runs between [pthread_mutex_lock(&m)] and
    [pthread_mutex_unlock(&m)]. *)
Definition locked {A} (m : mutex) (body : DM A) : DM A :=
  mutex_lock m ;;;
  let* a := body in
  mutex_unlock m ;;;
  ret a.

Definition time_NULL : DM Z :=
  fun s => Ret (time_at (time_calls s)) (set_calls (S (time_calls s)) s).

(** ** The memory disk: [mdisk.c] *)

Definition NUM_OF_BLOCKS_IN_MEM : Z := 65536.

(** The static array is zero until written. *)
Definition mem_get (m : gmap Z block) (n : Z) : block := default zero_block (m !! n).

Definition fetchMemoryDiskBlock (blockNumber : Z) (blockData : block) : DM (Z * block) :=
  let* s := get in
  if NUM_OF_BLOCKS_IN_MEM <=? blockNumber then ret (-1, blockData)
  else ret (0, mem_get (mem_disk s) blockNumber).

Definition writeMemoryDiskBlock (blockNumber : Z) (blockData : block) : DM Z :=
  if NUM_OF_BLOCKS_IN_MEM <=? blockNumber then ret (-1)
  else
    modify (fun s => set_mem (<[blockNumber := blockData]> (mem_disk s)) s) ;;;
    ret 0.

(** ** The device file: [diskAccess.c] *)

Definition initDeviceAccessor (inputDev : list Z) : DM Z :=
  let* s := get in
  match devName s with
  | Some _ => ret (-1)
  | None =>
      if negb (dev_access inputDev (device s)) then ret (-1)
      else
        modify (fun s => DState (isDiskAvailable s) (Some inputDev) (device s)
                           (mem_disk s) (prm s) (held s) (time_calls s)) ;;;
        ret 0
  end.

Definition fetchDeviceDiskBlock (blockNumber : Z) (blockData : block) : DM (Z * block) :=
  let* s := get in
  if NUM_OF_BLOCKS (prm s) <=? blockNumber then ret (-1, blockData)
  else
    let bytes := take 1024 (dev_read (device s) (u64 (blockNumber * BLOCK_SIZE))) in
    let blockData := memcpy_at blockData 0 bytes in
    if negb (Z.of_nat (length bytes) =? BLOCK_SIZE) then ret (-1, blockData)
    else ret (0, blockData).

Definition writeDeviceDiskBlock (blockNumber : Z) (blockData : block) : DM Z :=
  let* s := get in
  if NUM_OF_BLOCKS (prm s) <=? blockNumber then ret (-1)
  else
    let '(ok, d) := dev_write (device s) (u64 (blockNumber * BLOCK_SIZE)) blockData in
    modify (set_device d) ;;;
    if negb ok then ret (-1) else ret 0.

(** ** Dispatch: [blkfetch.c] *)

Definition setupDisk (inputDev : list Z) : DM Z :=
  let* s := get in
  if isDiskAvailable s then ret (-1)
  else
    let* retValue := initDeviceAccessor inputDev in
    (if retValue =? 0 then
       modify (fun s => DState true (devName s) (device s) (mem_disk s) (prm s)
                          (held s) (time_calls s))
     else ret tt) ;;;
    ret retValue.

Definition getDiskBlock (blockNumber : Z) (blockData : block) : DM (Z * block) :=
  let* s := get in
  if isDiskAvailable s then fetchDeviceDiskBlock blockNumber blockData
  else fetchMemoryDiskBlock blockNumber blockData.

Definition writeDiskBlock (blockNumber : Z) (blockData : block) : DM Z :=
  let* s := get in
  if isDiskAvailable s then writeDeviceDiskBlock blockNumber blockData
  else writeMemoryDiskBlock blockNumber blockData.

(** * The disk as the other components see it *)

(** Number of blocks that can be accessed. *)
Definition capacity (s : dstate) : Z :=
  if isDiskAvailable s then NUM_OF_BLOCKS (prm s) else NUM_OF_BLOCKS_IN_MEM.

Definition in_disk (s : dstate) (n : Z) : Prop := 0 <= n < capacity s.

#[global] Instance in_disk_dec s n : Decision (in_disk s n).
Proof. unfold in_disk. apply _. Defined.

(** The contents of a block; [None] when a read fails. *)
Definition view (s : dstate) (n : Z) : option block :=
  if decide (in_disk s n) then
    if isDiskAvailable s then
      let bytes := take 1024 (dev_read (device s) (u64 (n * BLOCK_SIZE))) in
      if negb (Z.of_nat (length bytes) =? BLOCK_SIZE) then None else Some bytes
    else Some (mem_get (mem_disk s) n)
  else None.

(** What disk accesses leave alone. *)
Definition same_env (s s' : dstate) : Prop :=
  isDiskAvailable s' = isDiskAvailable s /\ devName s' = devName s /\
  prm s' = prm s /\ held s' = held s.

(** [s'] is [s] except for the blocks in [X]. *)
Definition changes (X : Z -> Prop) (s s' : dstate) : Prop :=
  same_env s s' /\ forall n, ~ X n -> view s' n = view s n.

End disk.

#[export] Instance same_env_preorder `{Host} : PreOrder same_env.
Proof.
  split; unfold same_env; [done|].
  intros x y z (?&?&?&?) (?&?&?&?). split_and!; congruence.
Qed.

#[export] Instance capacity_proper `{Host} : Proper (same_env ==> eq) capacity.
Proof. unfold same_env, capacity. by intros s s' (E1 & _ & E2 & _); rewrite E1, E2. Qed.

Lemma in_disk_env `{Host} s s' n : same_env s s' -> in_disk s' n <-> in_disk s n.
Proof. intros E. unfold in_disk. by rewrite (capacity_proper _ _ E). Qed.

Lemma changes_refl `{Host} X s : changes X s s.
Proof. split; [reflexivity|done]. Qed.

Lemma changes_trans `{Host} (X Y Z' : Z -> Prop) s s' s'' :
  (forall n, X n -> Z' n) -> (forall n, Y n -> Z' n) ->
  changes X s s' -> changes Y s' s'' -> changes Z' s s''.
Proof.
  intros HX HY [E1 V1] [E2 V2]. split; [by etrans|].
  intros n Hn. rewrite V2, V1; naive_solver.
Qed.

Lemma changes_mono `{Host} (X Y : Z -> Prop) s s' :
  (forall n, X n -> Y n) -> changes X s s' -> changes Y s s'.
Proof. intros HX [E V]. split; [done|]. naive_solver. Qed.

Lemma changes_env `{Host} X s s' : changes X s s' -> same_env s s'.
Proof. by intros [? _]. Qed.

(** The interface: a class [ok] of disk states in which every block below the
    capacity can be read and written, and a write changes its block alone. *)
Class BlockStore `{Host} (ok : dstate -> Prop) : Prop := {
  store_get : forall s n buf, ok s -> in_disk s n ->
    exists b, wf_block b /\ view s n = Some b /\
      (wf_block buf -> getDiskBlock n buf s = Ret (0, b) s);
  store_put : forall s n b, ok s -> in_disk s n -> wf_block b ->
    exists s', writeDiskBlock n b s = Ret 0 s' /\ ok s' /\ view s' n = Some b /\
      changes (eq n) s s';
  store_held : forall s l, ok s -> ok (set_held l s);
  store_calls : forall s n, ok s -> ok (set_calls n s)
}.

(** Accesses beyond the capacity fail and change nothing. *)
Lemma getDiskBlock_out `{Host} n buf s :
  ~ in_disk s n -> 0 <= n -> getDiskBlock n buf s = Ret (-1, buf) s.
Proof.
  unfold in_disk, capacity, getDiskBlock. intros Hn Hp.
  mstep. destruct (isDiskAvailable s) eqn:E; simpl.
  - unfold fetchDeviceDiskBlock. mstep. by rewrite (proj2 (Z.leb_le _ _)) by (simpl; lia).
  - unfold fetchMemoryDiskBlock. mstep. by rewrite (proj2 (Z.leb_le _ _)) by (simpl; lia).
Qed.

Lemma writeDiskBlock_out `{Host} n b s :
  ~ in_disk s n -> 0 <= n -> writeDiskBlock n b s = Ret (-1) s.
Proof.
  unfold in_disk, capacity, writeDiskBlock. intros Hn Hp.
  mstep. destruct (isDiskAvailable s) eqn:E; simpl.
  - unfold writeDeviceDiskBlock. mstep. by rewrite (proj2 (Z.leb_le _ _)) by (simpl; lia).
  - unfold writeMemoryDiskBlock. by rewrite (proj2 (Z.leb_le _ _)) by (simpl; lia).
Qed.

(** ** The memory disk implements the interface *)

Definition mem_ok `{Host} (s : dstate) : Prop :=
  isDiskAvailable s = false /\ map_Forall (fun _ b => wf_block b) (mem_disk s).

Lemma mem_get_wf m n : map_Forall (fun _ b => wf_block b) m -> wf_block (mem_get m n).
Proof.
  intros Hm. unfold mem_get. destruct (m !! n) eqn:E; simpl.
  - by apply (Hm n).
  - apply zero_block_wf.
Qed.

#[export] Instance mem_store `{Host} : BlockStore mem_ok.
Proof.
  split.
  - intros s n buf [Hm Hwf] Hn. exists (mem_get (mem_disk s) n).
    unfold view, getDiskBlock. rewrite decide_True, Hm by done.
    unfold in_disk, capacity in Hn. rewrite Hm in Hn.
    split_and!; [by apply mem_get_wf|done|].
    intros _. mstep. simpl. rewrite Hm. unfold fetchMemoryDiskBlock. mstep.
    by rewrite (proj2 (Z.leb_gt _ _)) by lia.
  - intros s n b [Hm Hwf] Hin Hb. pose proof Hin as Hn.
    unfold in_disk, capacity in Hn. rewrite Hm in Hn.
    exists (set_mem (<[n := b]> (mem_disk s)) s). unfold writeDiskBlock. mstep. simpl.
    rewrite Hm. unfold writeMemoryDiskBlock. rewrite (proj2 (Z.leb_gt _ _)) by lia.
    split_and!; [done| |..].
    + split; [done|]. by apply map_Forall_insert_2.
    + unfold view. rewrite decide_True by done. simpl. rewrite Hm.
      unfold mem_get. by rewrite lookup_insert_eq.
    + split; [done|]. intros m Hne. unfold view, mem_get; simpl. rewrite Hm.
      by rewrite lookup_insert_ne.
  - by intros s l [? ?].
  - by intros s l [? ?].
Qed.

(** ** A lawful device file implements the interface *)

(** The device behaves as a file of [n] blocks: reads inside it are complete
    and writes are read back. *)
Class DeviceLaws `{Host} (dev_ok : Z -> dev -> Prop) : Prop := {
  dev_read_full : forall n d k, dev_ok n d -> 0 <= k < n ->
    exists b, dev_read d (k * BLOCK_SIZE) = b /\ wf_block b;
  dev_write_ok : forall n d k b, dev_ok n d -> 0 <= k < n -> wf_block b ->
    exists d', dev_write d (k * BLOCK_SIZE) b = (true, d') /\ dev_ok n d' /\
      forall j, 0 <= j < n ->
        dev_read d' (j * BLOCK_SIZE) =
          if decide (j = k) then b else dev_read d (j * BLOCK_SIZE)
}.

Definition device_ok `{Host} (dev_ok : Z -> dev -> Prop) (s : dstate) : Prop :=
  isDiskAvailable s = true /\ dev_ok (NUM_OF_BLOCKS (prm s)) (device s) /\
  NUM_OF_BLOCKS (prm s) < 2 ^ 54.

Section device_store.
Context `{Host} (dev_ok : Z -> dev -> Prop) `{!DeviceLaws dev_ok}.

Lemma device_view s k b :
  device_ok dev_ok s -> 0 <= k < NUM_OF_BLOCKS (prm s) ->
  dev_read (device s) (k * BLOCK_SIZE) = b -> wf_block b -> view s k = Some b.
Proof.
  intros (Ha & _ & Hlt) Hk Hr [Hl _]. unfold view.
  rewrite decide_True, Ha by (unfold in_disk, capacity; by rewrite Ha).
  rewrite u64_id by (unfold is_u64; consts; lia).
  rewrite Hr, take_ge, Hl by lia. done.
Qed.

Lemma device_get s k b buf :
  device_ok dev_ok s -> 0 <= k < NUM_OF_BLOCKS (prm s) ->
  dev_read (device s) (k * BLOCK_SIZE) = b -> wf_block b -> wf_block buf ->
  getDiskBlock k buf s = Ret (0, b) s.
Proof.
  intros (Ha & _ & Hlt) Hk Hr [Hl _] [Hl' _].
  unfold getDiskBlock. mstep. simpl. rewrite Ha.
  unfold fetchDeviceDiskBlock. mstep. simpl.
  rewrite (proj2 (Z.leb_gt _ _)) by lia.
  rewrite u64_id by (unfold is_u64; consts; lia).
  rewrite Hr, take_ge, Hl by lia. simpl. unfold memcpy_at. simpl.
  by rewrite drop_ge, app_nil_r by lia.
Qed.

#[export] Instance device_store : BlockStore (device_ok dev_ok).
Proof.
  split.
  - intros s n buf Hok Hn. pose proof Hok as (Ha & Hd & Hlt).
    unfold in_disk, capacity in Hn. rewrite Ha in Hn.
    destruct (dev_read_full _ _ n Hd Hn) as (b & Hr & Hb).
    exists b. eauto using device_view, device_get.
  - intros s n b Hok Hn Hb. pose proof Hok as (Ha & Hd & Hlt).
    unfold in_disk, capacity in Hn. rewrite Ha in Hn.
    destruct (dev_write_ok _ _ n b Hd Hn Hb) as (d' & Hw & Hd' & Hr').
    assert (device_ok dev_ok (set_device d' s)) as Hok' by done.
    exists (set_device d' s). split_and!; [|done|..].
    + unfold writeDiskBlock. mstep. simpl. rewrite Ha. unfold writeDeviceDiskBlock.
      mstep. simpl. rewrite (proj2 (Z.leb_gt _ _)) by lia.
      rewrite u64_id by (unfold is_u64; consts; lia). by rewrite Hw.
    + apply device_view; [done..| |done]. simpl. by rewrite Hr', decide_True.
    + split; [done|]. intros m Hne.
      destruct (decide (0 <= m < NUM_OF_BLOCKS (prm s))) as [Hm|Hm].
      * destruct (dev_read_full _ _ m Hd Hm) as (bm & Hrm & Hbm).
        rewrite (device_view s m bm) by done. apply device_view; [done..| |done].
        simpl. by rewrite Hr', decide_False.
      * unfold view. rewrite !decide_False by (unfold in_disk, capacity; simpl; by rewrite Ha).
        done.
  - done.
  - done.
Qed.

End device_store.

(** * Reasoning rules over the interface *)

Section rules.
Context `{BlockStore ok}.

Lemma wp_getDiskBlock n buf s (Q : Z * block -> dstate -> Prop) :
  ok s -> in_disk s n -> wf_block buf ->
  (forall b, wf_block b -> view s n = Some b -> Q (0, b) s) ->
  wp (getDiskBlock n buf) s Q.
Proof.
  intros Hok Hn Hbuf HQ. destruct (store_get s n buf Hok Hn) as (b & Hb & Hv & Hr).
  eapply wp_Ret; eauto.
Qed.

Lemma wp_writeDiskBlock n b s (Q : Z -> dstate -> Prop) :
  ok s -> in_disk s n -> wf_block b ->
  (forall s', ok s' -> view s' n = Some b -> changes (eq n) s s' -> Q 0 s') ->
  wp (writeDiskBlock n b) s Q.
Proof.
  intros Hok Hn Hb HQ. destruct (store_put s n b Hok Hn Hb) as (s' & Hw & Hok' & Hv & Hc).
  eapply wp_Ret; eauto.
Qed.

(** A read whose result is known. *)
Lemma getDiskBlock_view n buf b s :
  ok s -> wf_block buf -> view s n = Some b -> getDiskBlock n buf s = Ret (0, b) s.
Proof.
  intros Hok Hbuf Hv. assert (in_disk s n) as Hn.
  { unfold view in Hv. by destruct (decide (in_disk s n)). }
  destruct (store_get s n buf Hok Hn) as (b' & _ & Hv' & Hr).
  rewrite Hr by done. congruence.
Qed.

Lemma view_wf n b s : ok s -> view s n = Some b -> wf_block b.
Proof.
  intros Hok Hv. assert (in_disk s n) as Hn.
  { unfold view in Hv. by destruct (decide (in_disk s n)). }
  destruct (store_get s n b Hok Hn) as (b' & Hb & Hv' & _). congruence.
Qed.

(** ** Mutexes *)

Lemma lock_Ret m s :
  m ∉ held s -> mutex_lock m s = Ret tt (set_held (m :: held s) s).
Proof. intros Hm. unfold mutex_lock. by rewrite decide_False. Qed.

(** A second [pthread_mutex_lock] by the same thread waits for ever. *)
Lemma lock_held_Hang m s : m ∈ held s -> mutex_lock m s = Hang.
Proof. intros Hm. unfold mutex_lock. by rewrite decide_True. Qed.

End rules.

Lemma view_in_disk `{Host} s n b : view s n = Some b -> in_disk s n.
Proof. unfold view. by destruct (decide (in_disk s n)). Qed.

Lemma view_set_held `{Host} l s n : view (set_held l s) n = view s n.
Proof. done. Qed.

(** Taking a mutex and giving it back restores the list of held ones. *)
Lemma unlock_held m (l : list mutex) :
  m ∉ l -> filter (fun m' => m' <> m) (m :: l) = l.
Proof.
  intros Hm. rewrite filter_cons_False by naive_solver.
  induction l as [|x l IH]; [done|].
  apply not_elem_of_cons in Hm as [Hx Hl].
  rewrite filter_cons_True by done. by rewrite IH.
Qed.

(** The effect of a critical section, seen from outside. *)
Lemma changes_via `{Host} X s s1 s2 s3 :
  changes X s1 s2 -> (forall n, view s1 n = view s n) ->
  same_env s s3 -> (forall n, view s3 n = view s2 n) -> changes X s s3.
Proof.
  intros [_ H12] H1 He H3. split; [done|]. intros n Hn. by rewrite H3, H12, H1.
Qed.

(** Reasoning inside a critical section: the body runs with [m] held and keeps
    it, and the state afterwards shows the same blocks. *)
Lemma wp_locked `{BlockStore ok} {A} m (body : DM A) s (Q : A -> dstate -> Prop) :
  ok s -> m ∉ held s ->
  (forall s1, ok s1 -> same_env (set_held (m :: held s) s) s1 ->
     (forall n, view s1 n = view s n) -> time_calls s1 = time_calls s ->
     wp body s1 (fun a s' => ok s' /\ same_env s1 s' /\
       forall s'', ok s'' -> same_env s s'' ->
         (forall n, view s'' n = view s' n) -> Q a s'')) ->
  wp (locked m body) s Q.
Proof.
  intros Hok Hm Hbody. unfold locked. apply wp_bind.
  unfold wp at 1, mutex_lock. rewrite decide_False by done.
  apply wp_bind. eapply wp_mono; [apply Hbody; [by apply store_held|done..]|].
  intros a s' (Hok' & (E1&E2&E3&E4) & HQ). apply wp_bind. unfold wp at 1, mutex_unlock, modify.
  apply wp_ret. apply HQ; [by apply store_held| |done].
  simpl in *. unfold same_env. simpl. by rewrite E4, unlock_held.
Qed.

#[export] Hint Resolve zero_block_wf junk_block_wf view_in_disk : nao.
#[export] Hint Resolve changes_refl : nao.

(** * A concrete host

    The device is a sparse file of zeros; the clock stands still; shifts use
    the low six bits of the count, as x86-64 does.  The witnesses of the
    theorems run on it. *)

Definition sim_host : Host := {|
  dev := gmap Z block;
  dev_access := fun _ _ => true;
  dev_read := fun d off => mem_get d off;
  dev_write := fun d off b => (true, <[off := b]> d);
  time_at := fun _ => 1500000000;
  time_at_range := fun _ => bool_decide_eq_true_1 (is_i64 1500000000) eq_refl;
  junk_block := zero_block;
  junk_block_wf := zero_block_wf;
  junk_word := 0;
  fresh_number := fun _ _ _ => 0;
  junk_bytes := [];
  junk_bytes_ok := Forall_nil_2 _;
  shl_over := Some (fun x n => Z.shiftl x (n mod 64));
  stack_word := Some 0;
  over_reads := true
|}.

#[export] Instance sim_shifts : DefinedShifts (H := sim_host).
Proof. by eexists. Qed.

Definition sim_dev_ok (n : Z) (d : dev (Host := sim_host)) : Prop :=
  map_Forall (fun _ b => wf_block b) (d : gmap Z block).

#[export] Instance sim_device : DeviceLaws (H := sim_host) sim_dev_ok.
Proof.
  split.
  - intros n d k Hd _. eexists; split; [done|]. by apply mem_get_wf.
  - intros n d k b Hd _ Hb. eexists; split_and!; [done|by apply map_Forall_insert_2|].
    intros j _. simpl. unfold mem_get, BLOCK_SIZE. destruct (decide (j = k)) as [->|Hne].
    + by rewrite lookup_insert_eq.
    + rewrite lookup_insert_ne; [done|]. lia.
Qed.

(** A memory disk with the given blocks, and a device file. *)
Definition sim_mem (p : params) (m : gmap Z block) : dstate (H := sim_host) :=
  @DState sim_host false None ∅ m p [] 0.
Definition sim_dev (p : params) (d : gmap Z block) : dstate (H := sim_host) :=
  @DState sim_host true None d ∅ p [] 0.

Lemma sim_mem_ok p m : map_Forall (fun _ b => wf_block b) m -> mem_ok (sim_mem p m).
Proof. done. Qed.

Lemma sim_dev_store p d :
  NUM_OF_BLOCKS p < 2 ^ 54 -> map_Forall (fun _ b => wf_block b) d ->
  device_ok sim_dev_ok (sim_dev p d).
Proof. done. Qed.
