(* ===== verification/MetaBlocks.v ===== *)
(** The special blocks of [src/mkfs/metaBlocks.c] and their byte layouts: the
    super block, a block of the free list (also used for indirect blocks) and
    the block of free inode numbers. *)

From S2P Require Export Disk.

Record superBlock : Type := SuperBlock { rememberedINode : Z }.

(** [size_t blkNos[BLOCK_ADDRESSES_PER_BLOCK]] *)
Record freeDiskListBlock : Type := FreeDiskListBlock { blkNos : list Z }.

(** [size_t iNodeNos[INODE_NOS_PER_BLOCK]] *)
Record iNodeListBlock : Type := INodeListBlock { iNodeNos : list Z }.

Definition makeSuperBlock (blockPtr : block) : superBlock :=
  SuperBlock (le_dec (bytes_at blockPtr 0 2)).

Definition writeSuperBlock (theBlock : superBlock) (blockPtr : block) : block :=
  memcpy_at blockPtr 0 (le_enc 2 (rememberedINode theBlock)).

Definition makeFreeDiskListBlock (blockPtr : block) : freeDiskListBlock :=
  FreeDiskListBlock (read_words 8 128 0 blockPtr).

Definition writeFreeDiskListBlock (theBlock : freeDiskListBlock) (blockPtr : block) : block :=
  write_words 8 (blkNos theBlock) 0 blockPtr.

Definition makeINodeListBlock (blockPtr : block) : iNodeListBlock :=
  INodeListBlock (read_words 2 512 0 blockPtr).

Definition writeINodeListBlock (theBlock : iNodeListBlock) (blockPtr : block) : block :=
  write_words 2 (iNodeNos theBlock) 0 blockPtr.

(** * Well-formed arrays *)

Definition wf_blkNos (l : list Z) : Prop := length l = 128%nat /\ Forall is_u64 l.
Definition wf_iNodeNos (l : list Z) : Prop :=
  length l = 512%nat /\ Forall (fun x => 0 <= x < NUM_OF_INODES) l.

#[export] Instance wf_blkNos_dec l : Decision (wf_blkNos l).
Proof. unfold wf_blkNos. apply _. Defined.
#[export] Instance wf_iNodeNos_dec l : Decision (wf_iNodeNos l).
Proof. unfold wf_iNodeNos. apply _. Defined.

Lemma wf_block_enc w ws :
  (length ws * w = 1024)%nat -> wf_block (enc_words w ws).
Proof. intros. split; [by rewrite length_enc_words|apply enc_words_bytes]. Qed.

(** A whole block of words overwrites the buffer it is written to. *)
Lemma write_words_full w ws b :
  (length ws * w = 1024)%nat -> length b = 1024%nat -> write_words w ws 0 b = enc_words w ws.
Proof.
  intros Hl Hb. rewrite write_words_eq by lia. unfold memcpy_at.
  rewrite take_0, drop_ge by (rewrite length_enc_words; lia). by rewrite app_nil_r.
Qed.

Lemma writeFreeDiskListBlock_wf t b :
  length (blkNos t) = 128%nat -> wf_block b -> wf_block (writeFreeDiskListBlock t b).
Proof.
  intros Hl [Hb _]. unfold writeFreeDiskListBlock.
  rewrite write_words_full by lia. apply wf_block_enc. lia.
Qed.

Lemma writeINodeListBlock_wf t b :
  length (iNodeNos t) = 512%nat -> wf_block b -> wf_block (writeINodeListBlock t b).
Proof.
  intros Hl [Hb _]. unfold writeINodeListBlock.
  rewrite write_words_full by lia. apply wf_block_enc. lia.
Qed.

Lemma make_blkNos_wf b : wf_block b -> wf_blkNos (blkNos (makeFreeDiskListBlock b)).
Proof.
  intros [Hl Hb]. split; cbn [blkNos makeFreeDiskListBlock]; [apply length_read_words|].
  eapply Forall_impl; [apply read_words_range; [lia|done]|].
  intros x Hx. exact Hx.
Qed.

Lemma make_iNodeNos_wf b : wf_block b -> wf_iNodeNos (iNodeNos (makeINodeListBlock b)).
Proof.
  intros [Hl Hb]. split; cbn [iNodeNos makeINodeListBlock]; [apply length_read_words|].
  eapply Forall_impl; [apply read_words_range; [lia|done]|].
  intros x Hx. exact Hx.
Qed.

(** * Round trips *)

(** Reading back a free-list block gives the addresses written. *)
Lemma make_write_freeList t b :
  wf_blkNos (blkNos t) -> length b = 1024%nat ->
  makeFreeDiskListBlock (writeFreeDiskListBlock t b) = t.
Proof.
  intros [Hl Ht] Hb. unfold writeFreeDiskListBlock, makeFreeDiskListBlock.
  rewrite write_words_full by lia. destruct t as [l]; simpl in *.
  f_equal. rewrite <- (app_nil_r (enc_words 8 l)), <- Hl. by apply read_words_enc.
Qed.

(** Writing back what was read leaves the bytes as they were. *)
Lemma write_make_freeList b b' :
  wf_block b -> length b' = 1024%nat ->
  writeFreeDiskListBlock (makeFreeDiskListBlock b) b' = b.
Proof.
  intros [Hl Hb] Hb'. unfold writeFreeDiskListBlock, makeFreeDiskListBlock.
  cbn [blkNos]. rewrite write_words_full by (rewrite ?length_read_words; lia).
  by apply enc_read_words.
Qed.

Lemma make_write_iNodeList t b :
  wf_iNodeNos (iNodeNos t) -> length b = 1024%nat ->
  makeINodeListBlock (writeINodeListBlock t b) = t.
Proof.
  intros [Hl Ht] Hb. unfold writeINodeListBlock, makeINodeListBlock.
  rewrite write_words_full by lia. destruct t as [l]; simpl in *.
  f_equal. rewrite <- (app_nil_r (enc_words 2 l)), <- Hl. by apply read_words_enc.
Qed.

Lemma write_make_iNodeList b b' :
  wf_block b -> length b' = 1024%nat ->
  writeINodeListBlock (makeINodeListBlock b) b' = b.
Proof.
  intros [Hl Hb] Hb'. unfold writeINodeListBlock, makeINodeListBlock.
  cbn [iNodeNos]. rewrite write_words_full by (rewrite ?length_read_words; lia).
  by apply enc_read_words.
Qed.

Lemma make_write_superBlock t b :
  0 <= rememberedINode t < NUM_OF_INODES -> length b = 1024%nat ->
  makeSuperBlock (writeSuperBlock t b) = t.
Proof.
  intros Hr Hb. destruct t as [r]. unfold makeSuperBlock, writeSuperBlock in *; cbn [rememberedINode] in *.
  rewrite <- (length_le_enc 2 r), bytes_at_memcpy_same by (rewrite length_le_enc; lia).
  by rewrite le_dec_enc_small.
Qed.

(** The three layouts store every well-formed value without loss, and every
    free-list or inode-list block on disk is the image of one. *)
Theorem meta_blocks_roundtrip :
  (forall t b, wf_blkNos (blkNos t) -> wf_block b ->
     makeFreeDiskListBlock (writeFreeDiskListBlock t b) = t) /\
  (forall b b', wf_block b -> wf_block b' ->
     writeFreeDiskListBlock (makeFreeDiskListBlock b) b' = b) /\
  (forall t b, wf_iNodeNos (iNodeNos t) -> wf_block b ->
     makeINodeListBlock (writeINodeListBlock t b) = t) /\
  (forall b b', wf_block b -> wf_block b' ->
     writeINodeListBlock (makeINodeListBlock b) b' = b) /\
  (forall t b, 0 <= rememberedINode t < NUM_OF_INODES -> wf_block b ->
     makeSuperBlock (writeSuperBlock t b) = t).
Proof.
  split_and!.
  - intros t b Ht [Hb _]. by apply make_write_freeList.
  - intros b b' Hb [Hb' _]. by apply write_make_freeList.
  - intros t b Ht [Hb _]. by apply make_write_iNodeList.
  - intros b b' Hb [Hb' _]. by apply write_make_iNodeList.
  - intros t b Ht [Hb _]. by apply make_write_superBlock.
Qed.

#[export] Hint Resolve writeFreeDiskListBlock_wf writeINodeListBlock_wf
  make_blkNos_wf make_iNodeNos_wf : nao.
