(* ===== verification/Inode.v ===== *)
(** Inodes: the on-disk structure and its 176-byte image
    ([include/inode/iNode.h], [src/inode/iNode.c]), the in-core structure
    ([include/inode/inCoreiNode.h]) and the copies between the two
    ([src/inode/inCoreiNode.c]). *)

From S2P Require Export MetaBlocks.

(** A C enum object can hold any 32-bit value read from the disk. *)
Inductive iNodeType : Type :=
| T_FREE
| T_REGULAR
| T_DIRECTORY
| T_OTHER (n : Z).

#[export] Instance iNodeType_eq_dec : EqDecision iNodeType.
Proof. solve_decision. Defined.

Definition type_code (t : iNodeType) : Z :=
  match t with
  | T_FREE => 0
  | T_REGULAR => 1
  | T_DIRECTORY => 2
  | T_OTHER n => n
  end.

Definition type_of_code (n : Z) : iNodeType :=
  if n =? 0 then T_FREE
  else if n =? 1 then T_REGULAR
  else if n =? 2 then T_DIRECTORY
  else T_OTHER n.

Record iNode : Type := INode {
  device_number : Z;
  inode_number : Z;
  access : Z;
  modification : Z;
  status_change : Z;
  linksCount : Z;
  type : iNodeType;
  file_mode : Z;
  owner_uid : Z;
  group_uid : Z;
  dataBlockNums : list Z;
  size : Z
}.

Record inCoreiNode : Type := InCoreINode {
  iNodeMutex : bool;
  reference_count : Z;
  ic_device_number : Z;
  ic_inode_number : Z;
  ic_access : Z;
  ic_modification : Z;
  ic_status_change : Z;
  ic_linksCount : Z;
  ic_type : iNodeType;
  ic_file_mode : Z;
  ic_owner_uid : Z;
  ic_group_uid : Z;
  ic_dataBlockNums : list Z;
  inode_changed : bool;
  file_data_changed : bool;
  ic_size : Z
}.

(** Assignments to one field. *)
Definition ic_set_mutex (b : bool) (i : inCoreiNode) : inCoreiNode :=
  InCoreINode b (reference_count i) (ic_device_number i) (ic_inode_number i) (ic_access i)
    (ic_modification i) (ic_status_change i) (ic_linksCount i) (ic_type i) (ic_file_mode i)
    (ic_owner_uid i) (ic_group_uid i) (ic_dataBlockNums i) (inode_changed i)
    (file_data_changed i) (ic_size i).
Definition ic_set_refs (v : Z) (i : inCoreiNode) : inCoreiNode :=
  InCoreINode (iNodeMutex i) v (ic_device_number i) (ic_inode_number i) (ic_access i)
    (ic_modification i) (ic_status_change i) (ic_linksCount i) (ic_type i) (ic_file_mode i)
    (ic_owner_uid i) (ic_group_uid i) (ic_dataBlockNums i) (inode_changed i)
    (file_data_changed i) (ic_size i).
Definition ic_set_modification (v : Z) (i : inCoreiNode) : inCoreiNode :=
  InCoreINode (iNodeMutex i) (reference_count i) (ic_device_number i) (ic_inode_number i)
    (ic_access i) v (ic_status_change i) (ic_linksCount i) (ic_type i) (ic_file_mode i)
    (ic_owner_uid i) (ic_group_uid i) (ic_dataBlockNums i) (inode_changed i)
    (file_data_changed i) (ic_size i).
Definition ic_set_links (v : Z) (i : inCoreiNode) : inCoreiNode :=
  InCoreINode (iNodeMutex i) (reference_count i) (ic_device_number i) (ic_inode_number i)
    (ic_access i) (ic_modification i) (ic_status_change i) v (ic_type i) (ic_file_mode i)
    (ic_owner_uid i) (ic_group_uid i) (ic_dataBlockNums i) (inode_changed i)
    (file_data_changed i) (ic_size i).
Definition ic_set_mode (v : Z) (i : inCoreiNode) : inCoreiNode :=
  InCoreINode (iNodeMutex i) (reference_count i) (ic_device_number i) (ic_inode_number i)
    (ic_access i) (ic_modification i) (ic_status_change i) (ic_linksCount i) (ic_type i) v
    (ic_owner_uid i) (ic_group_uid i) (ic_dataBlockNums i) (inode_changed i)
    (file_data_changed i) (ic_size i).
Definition ic_set_owner (v : Z) (i : inCoreiNode) : inCoreiNode :=
  InCoreINode (iNodeMutex i) (reference_count i) (ic_device_number i) (ic_inode_number i)
    (ic_access i) (ic_modification i) (ic_status_change i) (ic_linksCount i) (ic_type i)
    (ic_file_mode i) v (ic_group_uid i) (ic_dataBlockNums i) (inode_changed i)
    (file_data_changed i) (ic_size i).
Definition ic_set_group (v : Z) (i : inCoreiNode) : inCoreiNode :=
  InCoreINode (iNodeMutex i) (reference_count i) (ic_device_number i) (ic_inode_number i)
    (ic_access i) (ic_modification i) (ic_status_change i) (ic_linksCount i) (ic_type i)
    (ic_file_mode i) (ic_owner_uid i) v (ic_dataBlockNums i) (inode_changed i)
    (file_data_changed i) (ic_size i).
Definition ic_set_blocks (v : list Z) (i : inCoreiNode) : inCoreiNode :=
  InCoreINode (iNodeMutex i) (reference_count i) (ic_device_number i) (ic_inode_number i)
    (ic_access i) (ic_modification i) (ic_status_change i) (ic_linksCount i) (ic_type i)
    (ic_file_mode i) (ic_owner_uid i) (ic_group_uid i) v (inode_changed i)
    (file_data_changed i) (ic_size i).
Definition ic_set_changed (v : bool) (i : inCoreiNode) : inCoreiNode :=
  InCoreINode (iNodeMutex i) (reference_count i) (ic_device_number i) (ic_inode_number i)
    (ic_access i) (ic_modification i) (ic_status_change i) (ic_linksCount i) (ic_type i)
    (ic_file_mode i) (ic_owner_uid i) (ic_group_uid i) (ic_dataBlockNums i) v
    (file_data_changed i) (ic_size i).
Definition ic_set_data_changed (v : bool) (i : inCoreiNode) : inCoreiNode :=
  InCoreINode (iNodeMutex i) (reference_count i) (ic_device_number i) (ic_inode_number i)
    (ic_access i) (ic_modification i) (ic_status_change i) (ic_linksCount i) (ic_type i)
    (ic_file_mode i) (ic_owner_uid i) (ic_group_uid i) (ic_dataBlockNums i)
    (inode_changed i) v (ic_size i).
Definition ic_set_size (v : Z) (i : inCoreiNode) : inCoreiNode :=
  InCoreINode (iNodeMutex i) (reference_count i) (ic_device_number i) (ic_inode_number i)
    (ic_access i) (ic_modification i) (ic_status_change i) (ic_linksCount i) (ic_type i)
    (ic_file_mode i) (ic_owner_uid i) (ic_group_uid i) (ic_dataBlockNums i)
    (inode_changed i) (file_data_changed i) v.

(** * The 176-byte image of the structure *)

(** Widths of the fields, in order; the structure has no padding. *)
Definition iNode_layout : list nat :=
  [8; 8; 8; 8; 8; 8; 4; 4; 4; 4]%nat ++ replicate BLOCKS_IN_INODE 8%nat ++ [8%nat].

Lemma sizeof_iNode_layout : Z.of_nat (foldr Nat.add 0%nat iNode_layout) = sizeof_iNode.
Proof. reflexivity. Qed.

Definition iNode_bytes (i : iNode) : list Z :=
  le_enc 8 (device_number i) ++ le_enc 8 (inode_number i) ++
  le_enc 8 (access i) ++ le_enc 8 (modification i) ++ le_enc 8 (status_change i) ++
  le_enc 8 (linksCount i) ++ le_enc 4 (type_code (type i)) ++
  le_enc 4 (file_mode i) ++ le_enc 4 (owner_uid i) ++ le_enc 4 (group_uid i) ++
  enc_words 8 (dataBlockNums i) ++ le_enc 8 (size i).

Definition iNode_of_bytes (bs : list Z) : iNode := {|
  device_number := le_dec (bytes_at bs 0 8);
  inode_number := le_dec (bytes_at bs 8 8);
  access := i64 (le_dec (bytes_at bs 16 8));
  modification := i64 (le_dec (bytes_at bs 24 8));
  status_change := i64 (le_dec (bytes_at bs 32 8));
  linksCount := le_dec (bytes_at bs 40 8);
  type := type_of_code (le_dec (bytes_at bs 48 4));
  file_mode := le_dec (bytes_at bs 52 4);
  owner_uid := le_dec (bytes_at bs 56 4);
  group_uid := le_dec (bytes_at bs 60 4);
  dataBlockNums := read_words 8 13 64 bs;
  size := le_dec (bytes_at bs 168 8)
|}.

Definition wf_iNode (i : iNode) : Prop :=
  is_u64 (device_number i) /\ is_u64 (inode_number i) /\
  is_i64 (access i) /\ is_i64 (modification i) /\ is_i64 (status_change i) /\
  is_u64 (linksCount i) /\
  (is_u32 (type_code (type i)) /\ type_of_code (type_code (type i)) = type i) /\
  is_u32 (file_mode i) /\ is_u32 (owner_uid i) /\ is_u32 (group_uid i) /\
  (length (dataBlockNums i) = 13%nat /\ Forall is_u64 (dataBlockNums i)) /\
  is_u64 (size i).

#[export] Instance wf_iNode_dec i : Decision (wf_iNode i).
Proof. unfold wf_iNode. apply _. Defined.

(** * [iNode.c] *)

Definition zero_iNode : iNode :=
  INode 0 0 0 0 0 0 T_FREE 0 0 0 (replicate 13 0) 0.

Definition initializeINode (iNodeNum : Z) : iNode :=
  if NUM_OF_INODES <=? iNodeNum then zero_iNode
  else INode 0 iNodeNum 0 0 0 0 T_FREE 0 0 0 (replicate 13 0) 0.

(** The loop of [populateINodesIn], with [ptrIntoBlock] as an offset. *)
Fixpoint populate_loop (fuel : nat) (inodeSize : Z) (ptrIntoBlock iNodeCounter : Z)
    (blockPtr : block) : option (Z * block) :=
  if ptrIntoBlock <? BLOCK_SIZE then
    match fuel with
    | O => None
    | S f =>
        let blockPtr := memcpy_at blockPtr (Z.to_nat ptrIntoBlock)
                          (iNode_bytes (initializeINode iNodeCounter)) in
        populate_loop f inodeSize (ptrIntoBlock + inodeSize) (iNodeCounter + 1) blockPtr
    end
  else Some (iNodeCounter, blockPtr).

Definition populateINodesIn (inodeSize iNodeNum : Z) : option (Z * block) :=
  populate_loop 1024 inodeSize 0 iNodeNum zero_block.

(** [iNodeList] has [listSize] elements; the result is the inode number to
    remember and the block. *)
Definition initINodeListBlock (iNodeList : list Z) : Z * block :=
  let blockPtr := write_words 2 iNodeList 0 zero_block in
  let counter := length iNodeList in
  let nextINode :=
    if Z.of_nat counter * INODE_ADDRESS_SIZE =? BLOCK_SIZE
    then default 0 (last iNodeList) else 0 in
  (nextINode, blockPtr).

(** * [inCoreiNode.c] *)

Definition insertDiskInodeData (disk_inode : iNode) (in_core : inCoreiNode) : inCoreiNode :=
  InCoreINode (iNodeMutex in_core) (reference_count in_core)
    (device_number disk_inode) (inode_number disk_inode) (access disk_inode)
    (modification disk_inode) (status_change disk_inode) (linksCount disk_inode)
    (type disk_inode) (file_mode disk_inode) (owner_uid disk_inode)
    (group_uid disk_inode) (dataBlockNums disk_inode)
    (inode_changed in_core) (file_data_changed in_core) (size disk_inode).

Definition getDiskINodeData (in_core : inCoreiNode) : iNode :=
  INode (ic_device_number in_core) (ic_inode_number in_core) (ic_access in_core)
    (ic_modification in_core) (ic_status_change in_core) (ic_linksCount in_core)
    (ic_type in_core) (ic_file_mode in_core) (ic_owner_uid in_core)
    (ic_group_uid in_core) (ic_dataBlockNums in_core) (ic_size in_core).

(** * Lemmas *)

Lemma bytes_at_skip a r off len :
  (length a <= off)%nat -> bytes_at (a ++ r) off len = bytes_at r (off - length a) len.
Proof. intros. unfold bytes_at. by rewrite drop_app_ge. Qed.

Lemma bytes_at_head a r len : length a = len -> bytes_at (a ++ r) 0 len = a.
Proof. intros <-. unfold bytes_at. by rewrite drop_0, take_app_length. Qed.

Lemma read_words_skip w n a r off :
  (length a <= off)%nat -> read_words w n off (a ++ r) = read_words w n (off - length a) r.
Proof. intros. by rewrite read_words_shift, drop_app_ge, <- read_words_shift. Qed.

Lemma length_iNode_bytes i :
  length (dataBlockNums i) = 13%nat -> length (iNode_bytes i) = 176%nat.
Proof.
  intros Hl. unfold iNode_bytes.
  rewrite !length_app, !length_le_enc, length_enc_words, Hl. done.
Qed.

Lemma iNode_bytes_bytes i : Forall is_byte (iNode_bytes i).
Proof.
  unfold iNode_bytes. repeat apply Forall_app_2; auto using le_enc_bytes, enc_words_bytes.
Qed.

Lemma i64_le_dec z : is_i64 z -> i64 (le_dec (le_enc 8 z)) = z.
Proof. intros Hz. rewrite le_dec_enc. by apply i64_of_u64. Qed.

(** The field at an offset of the image. *)
Ltac field :=
  repeat (first [rewrite bytes_at_skip by (rewrite ?length_le_enc, ?length_enc_words; lia)
                |rewrite read_words_skip by (rewrite ?length_le_enc, ?length_enc_words; lia)];
          rewrite ?length_le_enc, ?length_enc_words; cbn [Nat.sub]);
  first [rewrite bytes_at_head by apply length_le_enc | idtac];
  first [by apply i64_le_dec | by apply le_dec_enc_small | idtac].

(** The image of an inode holds it without loss, whatever follows it. *)
Theorem iNode_of_bytes_of i tl : wf_iNode i -> iNode_of_bytes (iNode_bytes i ++ tl) = i.
Proof.
  intros (H1&H2&H3&H4&H5&H6&[H7 H7']&H8&H9&H10&[H11 H11']&H12).
  destruct i as [d n a m sc l t fm ou gu db sz].
  unfold iNode_of_bytes, iNode_bytes.
  cbn [device_number inode_number access modification status_change linksCount type
    file_mode owner_uid group_uid dataBlockNums size] in *. rewrite <- !app_assoc.
  f_equal; try field.
  - by rewrite le_dec_enc_small.
  - rewrite <- H11. by apply read_words_enc.
  - rewrite H11; cbn [Nat.sub Nat.mul Nat.add]. rewrite bytes_at_head by apply length_le_enc. by apply le_dec_enc_small.
Qed.

Lemma type_of_code_code z : type_of_code (type_code (type_of_code z)) = type_of_code z.
Proof.
  unfold type_of_code. destruct (z =? 0) eqn:E0; [done|].
  destruct (z =? 1) eqn:E1; [done|]. destruct (z =? 2) eqn:E2; [done|].
  cbn [type_code]. by rewrite E0, E1, E2.
Qed.

Lemma iNode_of_bytes_wf bs :
  (176 <= length bs)%nat -> Forall is_byte bs -> wf_iNode (iNode_of_bytes bs).
Proof.
  intros Hl Hb.
  assert (forall off len, (off + len <= 176)%nat ->
    0 <= le_dec (bytes_at bs off len) < 256 ^ Z.of_nat len) as Hr.
  { intros off len Hol. rewrite <- (length_bytes_at bs off len) at 3 by lia.
    apply le_dec_range. auto with nao. }
  assert (forall z, is_i64 (i64 z)) as Hi.
  { intros z. unfold is_i64, i64. pose proof (Z.mod_pos_bound (z + 2 ^ 63) (2 ^ 64)). lia. }
  unfold wf_iNode, iNode_of_bytes.
  cbn [device_number inode_number access modification status_change linksCount type
    file_mode owner_uid group_uid dataBlockNums size].
  split_and!; try apply Hi; try (apply (Hr _ 8%nat); lia); try (apply (Hr _ 4%nat); lia).
  - pose proof (Hr 48%nat 4%nat ltac:(lia)) as H4. unfold type_of_code, is_u32.
    repeat case_match; simpl; lia.
  - apply type_of_code_code.
  - apply length_read_words.
  - eapply Forall_impl; [apply read_words_range; [lia|done]|]. intros x Hx. exact Hx.
Qed.

Lemma initializeINode_wf n : 0 <= n -> wf_iNode (initializeINode n).
Proof.
  intros Hn. unfold initializeINode. destruct (Z.leb_spec NUM_OF_INODES n) as [Hle|Hlt].
  - by apply (bool_decide_eq_true_1 (wf_iNode zero_iNode)).
  - change NUM_OF_INODES with 65536 in Hlt.
    unfold wf_iNode, is_u64, is_u32, is_i64; simpl. split_and!; try done; try lia.
    repeat constructor; unfold is_u64; lia.
Qed.

(** Loading a disk inode and storing it back gives the inode read; storing an
    in-core inode and loading it again keeps all of it that is on disk. *)
Theorem incore_disk_roundtrip d c :
  getDiskINodeData (insertDiskInodeData d c) = d /\
  insertDiskInodeData (getDiskINodeData c) c = c.
Proof. by destruct d, c. Qed.
