(* ===== verification/BlockAlloc.v ===== *)
(** The free list of disk blocks: [blockAlloc] ([src/dsk/alloc.c]), [blockFree]
    and the release of a file's blocks ([src/dsk/free.c]).

    The free list is a chain of blocks of 128 addresses that starts at
    [FREE_LIST_BLOCK]; the last address of a block is both free and the next
    block of the chain.  [free_list s l] says that the disk [s] holds the chain
    for the sequence [l]; [blockAlloc] takes its head and [blockFree] puts a
    block in front. *)

From S2P Require Export Inode.

(** * [alloc.c] *)

(** The [for] loop: the first address that is not 0, its index (128 if there
    is none) and the array with that address cleared. *)
Fixpoint alloc_scan (blkNos : list Z) (counter : Z) : Z * Z * list Z :=
  match blkNos with
  | [] => (0, counter, [])
  | x :: l =>
      if negb (x =? 0) then (x, counter, 0 :: l)
      else let '(new_block, counter', l') := alloc_scan l (counter + 1) in
           (new_block, counter', x :: l')
  end.

Definition blockAlloc `{Host} : DM Z :=
  locked AllocMutex (
    let* (_, freeListBlock) := getDiskBlock FREE_LIST_BLOCK junk_block in
    let diskBlock := makeFreeDiskListBlock freeListBlock in
    let '(new_block, counter, nos) := alloc_scan (blkNos diskBlock) 0 in
    let* freeListBlock :=
      (if counter =? BLOCK_ADDRESSES_PER_BLOCK - 1 then
         let* (_, b) := getDiskBlock new_block freeListBlock in ret b
       else ret (writeFreeDiskListBlock (FreeDiskListBlock nos) freeListBlock)) in
    writeDiskBlock FREE_LIST_BLOCK freeListBlock ;;;
    ret new_block).

(** * [free.c] *)

(** The [for] loop of [_freeInto], from index [i - 1] down to 0. *)
Fixpoint free_slot (i : nat) (blkNos : list Z) (blockNumber : Z) : list Z :=
  match i with
  | O => blkNos
  | S i' =>
      if default 0 (blkNos !! i') =? 0 then <[i' := blockNumber]> blkNos
      else free_slot i' blkNos blockNumber
  end.

Definition _freeInto `{Host} (freeListBlockNumber blockNumber : Z) : DM unit :=
  let* (_, freeListBlock) := getDiskBlock freeListBlockNumber junk_block in
  let nos := blkNos (makeFreeDiskListBlock freeListBlock) in
  let* nos :=
    (if negb (default 0 (nos !! 0%nat) =? 0) then
       writeDiskBlock blockNumber freeListBlock ;;;
       ret (replicate 127 0 ++ drop 127 (<[127%nat := blockNumber]> nos))
     else ret (free_slot 128 nos blockNumber)) in
  writeDiskBlock freeListBlockNumber
    (writeFreeDiskListBlock (FreeDiskListBlock nos) freeListBlock) ;;;
  ret tt.

Definition blockFree `{Host} (blockNumber : Z) : DM unit :=
  locked FreeMutex (_freeInto FREE_LIST_BLOCK blockNumber).

(** The loop over the addresses of an index block, which stops when
    [leftSize] is used up; [free_child] frees one subtree. *)
Fixpoint free_children `{Host} (free_child : Z -> Z -> DM Z) (blkNos : list Z)
    (leftSize : Z) : DM Z :=
  match blkNos with
  | [] => ret leftSize
  | b :: l =>
      if 0 <? leftSize then
        let* leftSize := free_child b leftSize in
        free_children free_child l leftSize
      else ret leftSize
  end.

Fixpoint diskBlockFree `{Host} (recursionLevel : nat) (diskBlockNumber leftSize : Z) : DM Z :=
  match recursionLevel with
  | O =>
      blockFree diskBlockNumber ;;;
      ret (leftSize - BLOCK_SIZE)
  | S level =>
      let* (_, blockToBeFreed) := getDiskBlock diskBlockNumber junk_block in
      let diskBlocks := makeFreeDiskListBlock blockToBeFreed in
      let* leftSize := free_children (diskBlockFree level) (blkNos diskBlocks) leftSize in
      blockFree diskBlockNumber ;;;
      ret leftSize
  end.

(** The direct blocks of [inodeBlocksFree]: [i] counts up to
    [DIRECT_BLOCK_LIMIT]; [n] is the number of indices left. *)
Fixpoint free_direct `{Host} (n i : nat) (nums : list Z) (leftSize : Z) : DM (list Z * Z) :=
  match n with
  | O => ret (nums, leftSize)
  | S n' =>
      if 0 <? leftSize then
        blockFree (default 0 (nums !! i)) ;;;
        free_direct n' (S i) (<[i := 0]> nums) (leftSize - BLOCK_SIZE)
      else ret (nums, leftSize)
  end.

(** The indirect blocks: [indirectBlocks] has the slots 10, 11 and 12. *)
Fixpoint free_indirect `{Host} (n i : nat) (nums : list Z) (leftSize : Z) : DM (list Z * Z) :=
  if 0 <? leftSize then
    match n with
    | O => undefined OutOfBounds
    | S n' =>
        let slot := (10 + i)%nat in
        let* leftSize := diskBlockFree (S i) (default 0 (nums !! slot)) leftSize in
        free_indirect n' (S i) (<[slot := 0]> nums) leftSize
    end
  else ret (nums, leftSize).

Definition inodeBlocksFree `{Host} (inode : inCoreiNode) : DM inCoreiNode :=
  let leftSize := i64 (ic_size inode) in
  let* (nums, leftSize) := free_direct 10 0 (ic_dataBlockNums inode) leftSize in
  let* (nums, _) := free_indirect 3 0 nums leftSize in
  ret (ic_set_blocks nums inode).

(** * The abstract free list *)

Definition entries (b : block) : list Z := blkNos (makeFreeDiskListBlock b).

(** The addresses in use in an array. *)
Definition live (l : list Z) : list Z := filter (fun x => x <> 0) l.

(** Empty slots first. *)
Definition compact (e : list Z) : Prop :=
  exists k xs, e = replicate k 0 ++ xs /\ Forall (fun x => x <> 0) xs.

(** [chain v e l]: the array [e] starts a chain that lists [l]. *)
Inductive chain (v : Z -> option block) : list Z -> list Z -> Prop :=
| chain_last e :
    e !! 127%nat = Some 0 -> chain v e (live e)
| chain_next e nxt b l :
    e !! 127%nat = Some nxt -> nxt <> 0 -> compact e ->
    v nxt = Some b -> chain v (entries b) l ->
    chain v e (live e ++ l).

Definition free_list `{Host} (s : dstate) (l : list Z) : Prop :=
  exists b, view s FREE_LIST_BLOCK = Some b /\ chain (view s) (entries b) l /\
    NoDup l /\ ~ In FREE_LIST_BLOCK l /\ Forall (in_disk s) l.

(** [blockFree] finds room: the first block of the chain is full, or its last
    address is in use. *)
Definition free_room `{Host} (s : dstate) : Prop :=
  exists b, view s FREE_LIST_BLOCK = Some b /\
    (entries b !! 0%nat <> Some 0 \/ entries b !! 127%nat <> Some 0).

(** * Lemmas on arrays of addresses *)

Lemma live_app l1 l2 : live (l1 ++ l2) = live l1 ++ live l2.
Proof. apply filter_app. Qed.

Lemma live_zeros k : live (replicate k 0) = [].
Proof. induction k; [done|]. unfold live in *. simpl. by rewrite filter_cons_False by auto. Qed.

Lemma live_cons x l : x <> 0 -> live (x :: l) = x :: live l.
Proof. intros. unfold live. by rewrite filter_cons_True. Qed.

Lemma live_cons_0 l : live (0 :: l) = live l.
Proof. unfold live. by rewrite filter_cons_False by auto. Qed.

Lemma live_all l : Forall (fun x => x <> 0) l -> live l = l.
Proof. induction 1 as [|x l Hx _ IH]; [done|]. by rewrite live_cons, IH. Qed.

Lemma elem_of_live x l : In x (live l) <-> In x l /\ x <> 0.
Proof. rewrite <- !list_elem_of_In. unfold live. rewrite list_elem_of_filter. tauto. Qed.

(** Where the first address in use is. *)
Lemma live_split l :
  (live l = [] /\ l = replicate (length l) 0) \/
  exists k x tl, l = replicate k 0 ++ x :: tl /\ x <> 0 /\ live l = x :: live tl.
Proof.
  induction l as [|y l IH]; [by left|].
  destruct (decide (y = 0)) as [->|Hy].
  - rewrite live_cons_0. destruct IH as [[Hl He]|(k & x & tl & -> & Hx & Hl)].
    + left. split; [done|]. simpl. by rewrite He at 1.
    + right. exists (S k), x, tl. done.
  - right. exists 0%nat, y, l. split_and!; [done..|]. by apply live_cons.
Qed.

Lemma alloc_scan_zeros k c :
  alloc_scan (replicate k 0) c = (0, c + Z.of_nat k, replicate k 0).
Proof.
  revert c. induction k as [|k IH]; intros c; simpl.
  - by rewrite Z.add_0_r.
  - rewrite IH. by replace (c + 1 + Z.of_nat k) with (c + Z.of_nat (S k)) by lia.
Qed.

Lemma alloc_scan_first k x tl c :
  x <> 0 -> alloc_scan (replicate k 0 ++ x :: tl) c = (x, c + Z.of_nat k, replicate (S k) 0 ++ tl).
Proof.
  intros Hx. revert c. induction k as [|k IH]; intros c.
  - simpl. destruct (Z.eqb_spec x 0); [done|]. simpl. by rewrite Z.add_0_r.
  - cbn [replicate app alloc_scan]. simpl. rewrite IH.
    by replace (c + 1 + Z.of_nat k) with (c + Z.of_nat (S k)) by lia.
Qed.

(** The last empty slot of a compact array is the one before its addresses. *)
Lemma free_slot_compact k xs b :
  Forall (fun x => x <> 0) xs ->
  free_slot (S k + length xs) (replicate (S k) 0 ++ xs) b = replicate k 0 ++ b :: xs.
Proof.
  intros Hxs.
  assert (forall m, (m <= length xs)%nat ->
    free_slot (S k + m) (replicate (S k) 0 ++ xs) b = replicate k 0 ++ b :: xs) as Hm; [|by apply Hm].
  induction m as [|m IH]; intros Hm.
  - rewrite Nat.add_0_r. cbn [free_slot].
    rewrite lookup_app_l by (rewrite length_replicate; lia).
    rewrite lookup_replicate_2 by lia. simpl (default 0 _ =? 0).
    replace (replicate (S k) 0) with (replicate k 0 ++ [0]) by (by rewrite <- replicate_cons_app).
    rewrite <- app_assoc. cbn iota.
    rewrite insert_app_r_alt by (rewrite length_replicate; lia).
    by rewrite length_replicate, Nat.sub_diag.
  - rewrite Nat.add_succ_r. cbn [free_slot].
    rewrite lookup_app_r by (rewrite length_replicate; lia).
    rewrite length_replicate. replace (S k + m - S k)%nat with m by lia.
    destruct (xs !! m) as [y|] eqn:Ey; [|apply lookup_ge_None in Ey; lia].
    simpl. pose proof (Forall_lookup_1 _ _ _ _ Hxs Ey). destruct (Z.eqb_spec y 0); [done|].
    apply IH. lia.
Qed.

(** * Lemmas on chains *)

Lemma chain_frame v v' e l :
  chain v e l -> (forall n, In n l -> v' n = v n) -> chain v' e l.
Proof.
  induction 1 as [e He|e nxt b l He Hn Hc Hv _ IH]; intros Hf.
  - by apply chain_last.
  - assert (In nxt (live e)) as Hin.
    { apply elem_of_live. split; [|done]. rewrite <- list_elem_of_In.
      by eapply list_elem_of_lookup_2. }
    eapply chain_next; eauto.
    + rewrite Hf; [done|]. apply in_or_app. by left.
    + apply IH. intros n Hl. apply Hf. apply in_or_app. by right.
Qed.

Lemma chain_nonzero v e l : chain v e l -> ~ In 0 l.
Proof.
  induction 1; intros Hin.
  - by apply elem_of_live in Hin as [_ ?].
  - apply in_app_iff in Hin as [[_ ?]%elem_of_live|?]; auto.
Qed.

Lemma compact_tail k x tl :
  compact (replicate k 0 ++ x :: tl) -> x <> 0 -> Forall (fun x => x <> 0) tl.
Proof.
  intros (k' & xs & E & Hxs) Hx.
  destruct (Nat.lt_trichotomy k k') as [Hlt|[->|Hlt]].
  - assert ((replicate k 0 ++ x :: tl) !! k = Some 0) as H.
    { rewrite E, lookup_app_l by (rewrite length_replicate; lia). by apply lookup_replicate_2. }
    rewrite lookup_app_r, length_replicate, Nat.sub_diag in H by (rewrite length_replicate; lia).
    simpl in H. congruence.
  - apply app_inv_head in E. subst xs. by inversion Hxs.
  - replace k with (k' + (k - k'))%nat in E by lia.
    rewrite replicate_add, <- app_assoc in E. apply app_inv_head in E. subst xs.
    apply Forall_app in Hxs as [_ Hxs]. by inversion Hxs.
Qed.

Lemma compact_pop k tl : Forall (fun x => x <> 0) tl -> compact (replicate k 0 ++ tl).
Proof. intros. by exists k, tl. Qed.

(** Taking the first address of an array that starts a chain. *)
Lemma chain_pop v e b l :
  length e = 128%nat -> chain v e (b :: l) ->
  exists k tl, e = replicate k 0 ++ b :: tl /\ b <> 0 /\
    ((k < 127)%nat /\ chain v (replicate (S k) 0 ++ tl) l \/
     k = 127%nat /\ exists nb, v b = Some nb /\ chain v (entries nb) l).
Proof.
  intros Hlen Hc.
  assert (forall k tl, length (replicate k 0 ++ b :: tl) = 128%nat ->
    (k < 127)%nat -> (replicate (S k) 0 ++ tl) !! 127%nat = (replicate k 0 ++ b :: tl) !! 127%nat) as Hl.
  { intros k tl Ht Hk. rewrite !lookup_app_r by (rewrite length_replicate; lia).
    rewrite !length_replicate. by replace (127 - k)%nat with (S (127 - S k)) by lia. }
  remember (b :: l) as bl eqn:El.
  destruct Hc as [e He|e nxt nb l' He Hn Hcp Hv Hch].
  - destruct (live_split e) as [[H0 _]|(k & x & tl & -> & Hx & Hlv)]; [congruence|].
    rewrite Hlv in El. injection El as -> <-.
    exists k, tl. split_and!; [done..|].
    assert (k < 127)%nat as Hk.
    { destruct (decide (k < 127)%nat); [done|]. rewrite length_app, length_replicate in Hlen. simpl in Hlen.
      assert (k = 127%nat) as -> by lia.
      rewrite lookup_app_r, length_replicate in He by (rewrite length_replicate; lia). simpl in He. congruence. }
    left. split; [done|].
    replace (live tl) with (live (replicate (S k) 0 ++ tl)) by (by rewrite live_app, live_zeros).
    apply chain_last. by rewrite (Hl k tl Hlen Hk).
  - destruct (live_split e) as [[H0 Hz]|(k & x & tl & -> & Hx & Hlv)].
    { rewrite Hz in He. rewrite lookup_replicate_2 in He by lia. congruence. }
    rewrite Hlv in El. injection El as -> <-.
    exists k, tl. split_and!; [done..|].
    rewrite length_app, length_replicate in Hlen. simpl in Hlen.
    pose proof (compact_tail _ _ _ Hcp Hx) as Htl.
    destruct (decide (k < 127)%nat) as [Hk|Hk].
    + left. split; [done|].
      replace (live tl) with (live (replicate (S k) 0 ++ tl)) by (by rewrite live_app, live_zeros).
      apply (chain_next _ _ nxt nb); auto using compact_pop.
      by rewrite (Hl k tl) by (rewrite ?length_app, ?length_replicate; simpl; lia).
    + right. assert (k = 127%nat) as -> by lia. split; [done|].
      destruct tl; [|simpl in Hlen; lia].
      rewrite lookup_app_r, length_replicate in He by (rewrite length_replicate; lia).
      simpl in He. injection He as ->. by exists nb.
Qed.

(** ** Arrays written to a block *)

Lemma entries_wf b : wf_block b -> wf_blkNos (entries b).
Proof. apply make_blkNos_wf. Qed.

Lemma entries_write e b :
  wf_blkNos e -> wf_block b ->
  entries (writeFreeDiskListBlock (FreeDiskListBlock e) b) = e.
Proof. intros He [Hb _]. unfold entries. by rewrite make_write_freeList. Qed.

Lemma entries_block e b :
  wf_block e -> wf_block b ->
  writeFreeDiskListBlock (FreeDiskListBlock (entries e)) b = e.
Proof.
  intros He [Hb _]. pose proof (write_make_freeList e b He Hb) as H.
  unfold entries. by destruct (makeFreeDiskListBlock e).
Qed.

#[export] Hint Resolve entries_wf : nao.

(** * [blockAlloc] takes the first block of the free list *)

Section alloc.
Context `{BlockStore ok}.

Lemma free_list_frame s s' l :
  free_list s l -> same_env s s' ->
  (forall n, n = FREE_LIST_BLOCK \/ In n l -> view s' n = view s n) -> free_list s' l.
Proof.
  intros (b & Hv & Hc & Hnd & Hni & Hin) He Hf.
  exists b. split_and!; [by rewrite Hf by auto| |done|done|].
  - eapply chain_frame; eauto.
  - eapply Forall_impl; [exact Hin|]. intros n Hn. by apply (in_disk_env _ _ _ He).
Qed.

(** A new first block of the chain. *)
Lemma free_list_put s s' b l :
  view s' FREE_LIST_BLOCK = Some b -> changes (eq FREE_LIST_BLOCK) s s' ->
  chain (view s) (entries b) l -> NoDup l -> ~ In FREE_LIST_BLOCK l ->
  Forall (in_disk s) l -> free_list s' l.
Proof.
  intros Hv [He Hch] Hc Hnd Hni Hin. exists b. split_and!; try done.
  - eapply chain_frame; [done|]. intros n Hn. apply Hch. by intros <-.
  - eapply Forall_impl; [exact Hin|]. intros n Hn. by apply (in_disk_env _ _ _ He).
Qed.

Lemma wf_replicate_app k x tl :
  wf_blkNos (replicate k 0 ++ x :: tl) -> wf_blkNos (replicate (S k) 0 ++ tl).
Proof.
  intros [Hl Hf]. split.
  - rewrite length_app, length_replicate in *. simpl in *. lia.
  - apply Forall_app in Hf as [_ Hf]. inversion Hf; subst.
    apply Forall_app_2; [|done]. apply Forall_replicate. unfold is_u64; lia.
Qed.

Lemma blockAlloc_pop s b l :
  ok s -> AllocMutex ∉ held s -> free_list s (b :: l) ->
  wp blockAlloc s (fun r s' => r = b /\ ok s' /\ free_list s' l /\
    changes (eq FREE_LIST_BLOCK) s s').
Proof.
  intros Hok Hheld Hfl. pose proof Hfl as (raw & Hv & Hc & Hnd & Hni & Hin).
  pose proof (view_wf _ _ _ Hok Hv) as Hraw.
  destruct (chain_pop _ _ _ _ (proj1 (entries_wf _ Hraw)) Hc) as (k & tl & He & Hb & Hcase).
  apply NoDup_cons in Hnd as [Hbl Hnd]. apply Forall_cons in Hin as [Hib Hin].
  assert (~ In FREE_LIST_BLOCK l) as Hni' by (simpl in Hni; tauto).
  unfold blockAlloc. apply wp_locked; [done..|].
  intros s1 Hok1 He1 Hview1 _. apply wp_bind. eapply wp_Ret.
  { apply (getDiskBlock_view _ _ raw); [done|auto with nao|by rewrite Hview1]. }
  cbn beta iota. fold (entries raw). rewrite He, alloc_scan_first by done. cbn beta iota.
  assert (in_disk s1 FREE_LIST_BLOCK) as Hi2 by (rewrite <- Hview1 in Hv; eauto with nao).
  pose proof (entries_wf _ Hraw) as Hwe. rewrite He in Hwe.
  destruct Hcase as [[Hk Hc']|[-> (nb & Hnb & Hc')]].
  - destruct (Z.eqb_spec (0 + Z.of_nat k) (BLOCK_ADDRESSES_PER_BLOCK - 1)) as [E|_];
      [exfalso; consts; lia|].
    apply wp_bind, wp_ret, wp_bind. apply wf_replicate_app in Hwe.
    apply wp_writeDiskBlock; [done|done| |].
    { apply writeFreeDiskListBlock_wf; [apply Hwe|done]. }
    intros s2 Hok2 Hv2 Hch2. apply wp_ret. split_and!; [done|by eapply changes_env|].
    intros s3 Hok3 He3 Hv3. pose proof (changes_via _ _ _ _ _ Hch2 Hview1 He3 Hv3).
    split_and!; try done.
    apply (free_list_put s _ _ l ltac:(rewrite Hv3; exact Hv2)); [done| |done..].
    by rewrite entries_write.
  - simpl (_ =? _). cbn iota. apply wp_bind, wp_bind. eapply wp_Ret.
    { apply (getDiskBlock_view _ _ nb); [done|done|by rewrite Hview1]. }
    apply wp_ret, wp_bind.
    apply wp_writeDiskBlock; [done|done|exact (view_wf _ _ _ Hok Hnb)|].
    intros s2 Hok2 Hv2 Hch2. apply wp_ret. split_and!; [done|by eapply changes_env|].
    intros s3 Hok3 He3 Hv3. pose proof (changes_via _ _ _ _ _ Hch2 Hview1 He3 Hv3).
    split_and!; try done.
    by apply (free_list_put s _ _ l ltac:(rewrite Hv3; exact Hv2)).
Qed.

(** ** An exhausted free list *)

Lemma chain_nil v e : length e = 128%nat -> chain v e [] -> e = replicate 128 0.
Proof.
  intros Hl Hc. remember [] as l eqn:El. destruct Hc as [e He|e nxt b l He Hn _ _ _].
  - destruct (live_split e) as [[_ Hz]|(k & x & tl & _ & _ & Hlv)]; [by rewrite <- Hl|congruence].
  - apply app_eq_nil in El as [El _].
    destruct (live_split e) as [[_ Hz]|(k & x & tl & _ & _ & Hlv)]; [|congruence].
    rewrite Hz, lookup_replicate_2 in He by lia. congruence.
Qed.

Lemma changes_same s s' n b :
  changes (eq n) s s' -> view s n = Some b -> view s' n = Some b ->
  changes (fun _ => False) s s'.
Proof.
  intros [He Hch] H1 H2. split; [done|]. intros m _.
  destruct (decide (n = m)) as [<-|]; [congruence|by apply Hch].
Qed.

Lemma blockAlloc_empty s :
  ok s -> AllocMutex ∉ held s -> free_list s [] ->
  wp blockAlloc s (fun r s' => r = 0 /\ ok s' /\ changes (fun _ => False) s s').
Proof.
  intros Hok Hheld (raw & Hv & Hc & _).
  pose proof (view_wf _ _ _ Hok Hv) as Hraw.
  apply chain_nil in Hc; [|apply entries_wf, Hraw].
  unfold blockAlloc. apply wp_locked; [done..|].
  intros s1 Hok1 He1 Hview1 _. rewrite <- Hview1 in Hv. apply wp_bind. eapply wp_Ret.
  { by apply (getDiskBlock_view _ _ raw); auto with nao. }
  cbn beta iota. fold (entries raw). rewrite Hc, alloc_scan_zeros. cbn beta iota.
  simpl (_ =? _). cbn iota. apply wp_bind, wp_ret, wp_bind.
  rewrite <- Hc, entries_block by done.
  apply wp_writeDiskBlock; [done|eauto with nao|done|].
  intros s2 Hok2 Hv2 Hch2. apply wp_ret. split_and!; [done|by eapply changes_env|].
  intros s3 Hok3 He3 Hv3. split_and!; [done..|].
  eapply changes_via; eauto using changes_same.
Qed.

(** * [blockFree] puts a block in front of the free list *)

(** The full first block [raw] of the chain has moved to [b]. *)
Lemma blockFree_full raw buf s s' b l :
  wf_block buf -> chain (view s) (entries raw) l ->
  NoDup (b :: l) -> ~ In FREE_LIST_BLOCK (b :: l) -> Forall (in_disk s) (b :: l) ->
  b <> 0 -> is_u64 b ->
  view s' b = Some raw ->
  view s' FREE_LIST_BLOCK = Some (writeFreeDiskListBlock (FreeDiskListBlock (replicate 127 0 ++ [b])) buf) ->
  changes (fun n => n = b \/ n = FREE_LIST_BLOCK) s s' ->
  free_list s' (b :: l) /\ free_room s'.
Proof.
  intros Hraw Hc Hnd Hni Hin Hb Hu Hvb Hv2 [He Hch].
  assert (wf_blkNos (replicate 127 0 ++ [b])) as Hwf.
  { split; [done|]. apply Forall_app_2; [|by constructor].
    apply Forall_replicate. unfold is_u64; lia. }
  split; [|eexists; split; [exact Hv2|right; by rewrite entries_write by done; injection]].
  eexists; split_and!; [exact Hv2| |done|done|].
  - rewrite entries_write by done.
    assert (chain (view s') (replicate 127 0 ++ [b]) (live (replicate 127 0 ++ [b]) ++ l)) as Hch'.
    { apply (chain_next _ _ b raw); [done|done|by exists 127%nat, [b]; auto|done|].
      eapply chain_frame; [exact Hc|]. intros n Hn. apply Hch.
      apply NoDup_cons in Hnd as [Hnd _]. rewrite list_elem_of_In in Hnd.
      intros [->| ->]; [done|]. apply Hni. by right. }
    by rewrite live_app, live_zeros, live_cons in Hch'.
  - eapply Forall_impl; [exact Hin|]. intros n Hn. by apply (in_disk_env _ _ _ He).
Qed.

Lemma chain_insert v e nxt b l :
  length e = 128%nat -> chain v e l -> e !! 0%nat = Some 0 -> e !! 127%nat = Some nxt -> nxt <> 0 ->
  b <> 0 ->
  chain v (free_slot 128 e b) (b :: l) /\
  free_slot 128 e b !! 127%nat = Some nxt /\ (is_u64 b -> Forall is_u64 e -> Forall is_u64 (free_slot 128 e b)) /\
  length (free_slot 128 e b) = 128%nat.
Proof.
  intros Hl Hc Hz H127 Hn Hb. destruct Hc as [e He|e nxt' raw l He _ Hcp Hv Hc]; [congruence|].
  assert (nxt' = nxt) as -> by congruence. destruct Hcp as (k & xs & -> & Hxs).
  destruct k as [|k].
  { simpl in Hz. destruct xs as [|y xs]; [done|]. inversion Hxs; subst. simpl in Hz. congruence. }
  assert (128 = S k + length xs)%nat as E.
  { rewrite length_app, length_replicate in Hl. lia. }
  rewrite E, free_slot_compact by done.
  assert ((replicate k 0 ++ b :: xs) !! 127%nat = Some nxt) as H127'.
  { assert (xs <> []) as Hne.
    { intros ->. rewrite app_nil_r, lookup_replicate_2 in H127 by (simpl in E; lia). congruence. }
    destruct xs as [|x xs]; [done|]. simpl in E.
    rewrite lookup_app_r, length_replicate in H127 by (rewrite length_replicate; lia).
    rewrite lookup_app_r, length_replicate by (rewrite length_replicate; lia).
    replace (127 - k)%nat with (S (127 - S k)) by lia. done. }
  split_and!; [|done| |].
  - replace (b :: live (replicate (S k) 0 ++ xs) ++ l) with (live (replicate k 0 ++ b :: xs) ++ l)
      by (by rewrite !live_app, !live_zeros, live_cons).
    eapply chain_next; eauto. exists k, (b :: xs). auto.
  - intros Hu Hf. apply Forall_app in Hf as [_ Hf]. apply Forall_app_2; [|by constructor].
    apply Forall_replicate. unfold is_u64; lia.
  - rewrite length_app, length_replicate. simpl. lia.
Qed.

Lemma drop_insert_last (e : list Z) b :
  length e = 128%nat -> drop 127 (<[127%nat := b]> e) = [b].
Proof.
  intros Hl. rewrite drop_insert_ge by lia.
  pose proof (length_drop e 127) as Hd. rewrite Hl in Hd.
  by destruct (drop 127 e) as [|x [|y tl]].
Qed.

Lemma blockFree_push s b l :
  ok s -> FreeMutex ∉ held s -> free_list s l -> free_room s ->
  in_disk s b -> b <> 0 -> is_u64 b -> b <> FREE_LIST_BLOCK -> ~ In b l ->
  wp (blockFree b) s (fun _ s' => ok s' /\ free_list s' (b :: l) /\ free_room s' /\
    changes (fun n => n = b \/ n = FREE_LIST_BLOCK) s s').
Proof.
  intros Hok Hheld (raw & Hv & Hc & Hnd & Hni & Hin) (raw' & Hv' & Hroom) Hib Hb0 Hbu Hb2 Hbl.
  rewrite Hv in Hv'. injection Hv' as <-.
  pose proof (view_wf _ _ _ Hok Hv) as Hraw. pose proof (entries_wf _ Hraw) as [Hlen Hu].
  assert (NoDup (b :: l)) as Hnd' by (constructor; [by rewrite list_elem_of_In|done]).
  assert (~ In FREE_LIST_BLOCK (b :: l)) as Hni' by (simpl; intuition).
  unfold blockFree. apply wp_locked; [done..|].
  intros s1 Hok1 He1 Hview1 _.
  assert (in_disk s1 FREE_LIST_BLOCK) as Hi2 by (rewrite <- Hview1 in Hv; eauto with nao).
  assert (in_disk s1 b) as Hib1 by by apply (in_disk_env _ _ _ He1).
  unfold _freeInto. apply wp_bind. eapply wp_Ret.
  { apply (getDiskBlock_view _ _ raw); [done|auto with nao|by rewrite Hview1]. }
  cbn beta iota. fold (entries raw).
  destruct (entries raw !! 0%nat) as [e0|] eqn:Hz; [|apply lookup_ge_None in Hz; lia].
  simpl (default 0 _). destruct (Z.eqb_spec e0 0) as [->|He0]; cbn [negb].
  - destruct Hroom as [|H127]; [done|].
    destruct (entries raw !! 127%nat) as [nxt|] eqn:Hl127; [|apply lookup_ge_None in Hl127; lia].
    destruct (chain_insert _ _ nxt b l Hlen Hc Hz Hl127) as (Hc' & H127' & Hu' & Hlen'); [congruence|done|].
    assert (wf_blkNos (free_slot 128 (entries raw) b)) as Hwf by (split; auto).
    apply wp_bind, wp_ret, wp_bind.
    apply wp_writeDiskBlock; [done|done|by apply writeFreeDiskListBlock_wf|].
    intros s2 Hok2 Hv2 Hch2. apply wp_ret. split_and!; [done|by eapply changes_env|].
    intros s3 Hok3 He3 Hv3. pose proof (changes_via _ _ _ _ _ Hch2 Hview1 He3 Hv3) as Hch3.
    rewrite <- Hv3 in Hv2. split_and!; [done| | |eapply changes_mono; [|exact Hch3]; auto].
    + apply (free_list_put s _ _ _ Hv2 Hch3); [by rewrite entries_write|done..|by constructor].
    + eexists. split; [exact Hv2|]. rewrite entries_write, H127' by done. right. congruence.
  - apply wp_bind, wp_bind.
    apply wp_writeDiskBlock; [done..|]. intros s2 Hok2 Hv2 Hch2. apply wp_ret, wp_bind.
    rewrite drop_insert_last by done.
    apply wp_writeDiskBlock; [done|by apply (in_disk_env _ _ _ (changes_env _ _ _ Hch2))| |].
    { by apply writeFreeDiskListBlock_wf. }
    intros s3 Hok3 Hv3 Hch3. apply wp_ret.
    split_and!; [done|etrans; by eapply changes_env|].
    intros s4 Hok4 He4 Hv4.
    assert (changes (fun n => n = b \/ n = FREE_LIST_BLOCK) s s4) as Hch4.
    { eapply changes_via; eauto. eapply changes_trans; [| |exact Hch2|exact Hch3]; auto. }
    assert (view s4 b = Some raw) as Hvb4.
    { rewrite Hv4. destruct Hch3 as [_ Hch3]. by rewrite Hch3. }
    rewrite <- Hv4 in Hv3.
    destruct (blockFree_full raw raw s s4 b l) as [Hl4 Hr4]; try done; by constructor.
Qed.

(** A block that is freed is the next one allocated. *)
Lemma free_then_alloc s b l :
  ok s -> AllocMutex ∉ held s -> FreeMutex ∉ held s -> free_list s l -> free_room s ->
  in_disk s b -> b <> 0 -> is_u64 b -> b <> FREE_LIST_BLOCK -> ~ In b l ->
  wp (blockFree b ;;; blockAlloc) s (fun r s' => r = b /\ ok s' /\ free_list s' l).
Proof.
  intros Hok Ha Hf Hl Hr Hb H1 H2 H3 H4. apply wp_bind.
  eapply wp_mono; [by apply (blockFree_push _ _ l)|].
  intros _ s1 (Hok1 & Hl1 & _ & Hch1).
  eapply wp_mono; [apply (blockAlloc_pop _ b l); [done| |done]|].
  - destruct (changes_env _ _ _ Hch1) as (_ & _ & _ & ->). done.
  - by intros r s2 (?&?&?&?).
Qed.

(** ** What happens outside these conditions *)

(** The last address of the chain lies outside the disk: it is handed out
    again and again, because the list is written back as it was. *)
Lemma blockAlloc_off_disk s raw b :
  ok s -> AllocMutex ∉ held s -> view s FREE_LIST_BLOCK = Some raw ->
  entries raw = replicate 127 0 ++ [b] -> 0 < b -> ~ in_disk s b ->
  wp blockAlloc s (fun r s' => r = b /\ ok s' /\ changes (fun _ => False) s s').
Proof.
  intros Hok Hheld Hv He Hb Hib. pose proof (view_wf _ _ _ Hok Hv) as Hraw.
  unfold blockAlloc. apply wp_locked; [done..|].
  intros s1 Hok1 He1 Hview1 _. rewrite <- Hview1 in Hv. apply wp_bind. eapply wp_Ret.
  { by apply (getDiskBlock_view _ _ raw); auto with nao. }
  cbn beta iota. fold (entries raw). rewrite He, alloc_scan_first by lia.
  cbn beta iota. simpl (_ =? _). cbn iota. apply wp_bind, wp_bind. eapply wp_Ret.
  { apply getDiskBlock_out; [|lia]. intros Hx. apply Hib. by apply (in_disk_env _ _ _ He1). }
  apply wp_ret, wp_bind.
  apply wp_writeDiskBlock; [done|eauto with nao|done|].
  intros s2 Hok2 Hv2 Hch2. apply wp_ret. split_and!; [done|by eapply changes_env|].
  intros s3 Hok3 He3 Hv3. split_and!; [done..|].
  eapply changes_via; eauto using changes_same.
Qed.

(** Freeing a block into an exhausted list makes it the head of the chain, and
    the next allocation installs its contents, whatever they are, as the free
    list. *)
Lemma free_exhausted_installs_data s raw b data :
  ok s -> AllocMutex ∉ held s -> FreeMutex ∉ held s ->
  view s FREE_LIST_BLOCK = Some raw -> entries raw = replicate 128 0 ->
  view s b = Some data -> b <> 0 -> is_u64 b -> b <> FREE_LIST_BLOCK ->
  wp (blockFree b ;;; blockAlloc) s (fun r s' => r = b /\ view s' FREE_LIST_BLOCK = Some data).
Proof.
  intros Hok Hha Hhf Hv He Hvb Hb0 Hbu Hb2. pose proof (view_wf _ _ _ Hok Hv) as Hraw.
  pose proof (view_wf _ _ _ Hok Hvb) as Hdata.
  assert (wf_blkNos (replicate 127 0 ++ [b])) as Hwf.
  { split; [done|]. apply Forall_app_2; [|by constructor].
    apply Forall_replicate. unfold is_u64; lia. }
  apply wp_bind. unfold blockFree. apply wp_locked; [done..|].
  intros s1 Hok1 He1 Hview1 _. rewrite <- Hview1 in Hv. apply wp_bind. eapply wp_Ret.
  { by apply (getDiskBlock_view _ _ raw); auto with nao. }
  cbn beta iota. fold (entries raw). rewrite He. simpl (negb _). cbn iota.
  apply wp_bind, wp_ret, wp_bind. change (free_slot 128 (replicate 128 0) b) with (replicate 127 0 ++ [b]).
  apply wp_writeDiskBlock; [done|eauto with nao|by apply writeFreeDiskListBlock_wf|].
  intros s2 Hok2 Hv2 Hch2. apply wp_ret. split_and!; [done|by eapply changes_env|].
  intros s3 Hok3 He3 Hv3. pose proof (changes_via _ _ _ _ _ Hch2 Hview1 He3 Hv3) as Hch3.
  rewrite <- Hv3 in Hv2.
  unfold blockAlloc. apply wp_locked; [done|by destruct He3 as (_ & _ & _ & ->)|].
  intros s4 Hok4 He4 Hview4 _. rewrite <- Hview4 in Hv2. apply wp_bind. eapply wp_Ret.
  { by eapply getDiskBlock_view; auto with nao. }
  cbn beta iota. fold (entries (writeFreeDiskListBlock (FreeDiskListBlock (replicate 127 0 ++ [b])) raw)).
  rewrite entries_write, alloc_scan_first by done.
  cbn beta iota. simpl (_ =? _). cbn iota. apply wp_bind, wp_bind. eapply wp_Ret.
  { apply (getDiskBlock_view _ _ data); [done|by eapply view_wf|].
    rewrite Hview4. destruct Hch3 as [_ Hch3]. rewrite Hch3; [done|]. by intros <-. }
  apply wp_ret, wp_bind. apply wp_writeDiskBlock; [done|eauto with nao|done|].
  intros s5 Hok5 Hv5 Hch5. apply wp_ret. split_and!; [done|by eapply changes_env|].
  intros s6 Hok6 He6 Hv6. by rewrite Hv6.
Qed.
End alloc.

(** * Releasing the blocks of a file

    [inode_blocks v nums size] is the specification: the blocks a file of
    [size] bytes owns, data and index blocks, in the order of a post-order
    walk of its index trees. *)

Section tree.
Context (v : Z -> option block).

Fixpoint children_blocks (child : Z -> Z -> option (list Z * Z)) (l : list Z) (left : Z)
  : option (list Z * Z) :=
  match l with
  | [] => Some ([], left)
  | c :: l' =>
      if 0 <? left then
        match child c left with
        | None => None
        | Some (bs, left1) =>
            match children_blocks child l' left1 with
            | None => None
            | Some (bs', left2) => Some (bs ++ bs', left2)
            end
        end
      else Some ([], left)
  end.

Fixpoint tree_blocks (level : nat) (n left : Z) : option (list Z * Z) :=
  match level with
  | O => Some ([n], left - BLOCK_SIZE)
  | S level' =>
      match v n with
      | None => None
      | Some b =>
          match children_blocks (tree_blocks level') (entries b) left with
          | None => None
          | Some (bs, left') => Some (bs ++ [n], left')
          end
      end
  end.

Fixpoint direct_blocks (n i : nat) (nums : list Z) (left : Z) : list Z * list Z * Z :=
  match n with
  | O => ([], nums, left)
  | S n' =>
      if 0 <? left then
        let '(bs, nums', left') := direct_blocks n' (S i) (<[i := 0]> nums) (left - BLOCK_SIZE) in
        (default 0 (nums !! i) :: bs, nums', left')
      else ([], nums, left)
  end.

Fixpoint indirect_blocks (n i : nat) (nums : list Z) (left : Z) : option (list Z * list Z) :=
  if 0 <? left then
    match n with
    | O => None
    | S n' =>
        match tree_blocks (S i) (default 0 (nums !! (10 + i)%nat)) left with
        | None => None
        | Some (bs, left') =>
            match indirect_blocks n' (S i) (<[(10 + i)%nat := 0]> nums) left' with
            | None => None
            | Some (bs', nums') => Some (bs ++ bs', nums')
            end
        end
    end
  else Some ([], nums).

(** The blocks, and the array of block numbers with the freed slots cleared. *)
Definition inode_blocks (nums : list Z) (size : Z) : option (list Z * list Z) :=
  let '(bs, nums1, left1) := direct_blocks 10 0 nums size in
  match indirect_blocks 3 0 nums1 left1 with
  | None => None
  | Some (bs', nums2) => Some (bs ++ bs', nums2)
  end.

End tree.

(** The walk reads only blocks it lists. *)
Lemma children_blocks_frame (f g : Z -> Z -> option (list Z * Z)) l left bs left' P :
  (forall c left bs left', f c left = Some (bs, left') -> (forall n, In n bs -> P n) ->
     g c left = Some (bs, left')) ->
  children_blocks f l left = Some (bs, left') -> (forall n, In n bs -> P n) ->
  children_blocks g l left = Some (bs, left').
Proof.
  intros Hfg. revert left bs left'. induction l as [|c l IH]; intros left bs left' H HP; simpl in *; [done|].
  destruct (0 <? left); [|done].
  destruct (f c left) as [[bs1 left1]|] eqn:E1; [|done].
  destruct (children_blocks f l left1) as [[bs2 left2]|] eqn:E2; [|done].
  injection H as <- <-. rewrite (Hfg _ _ _ _ E1) by (intros; apply HP, in_app_iff; auto).
  rewrite (IH _ _ _ E2) by (intros; apply HP, in_app_iff; auto). done.
Qed.

Lemma tree_blocks_frame v v' level n left bs left' :
  tree_blocks v level n left = Some (bs, left') ->
  (forall n, In n bs -> v' n = v n) -> tree_blocks v' level n left = Some (bs, left').
Proof.
  revert n left bs left'. induction level as [|level IH]; intros n left bs left' H Hf; cbn [tree_blocks] in *; [done|].
  destruct (v n) as [b|] eqn:Hv; [|done].
  destruct (children_blocks (tree_blocks v level) (entries b) left) as [[bs1 left1]|] eqn:E; [|done].
  injection H as <- <-.
  rewrite Hf, Hv by (apply in_app_iff; simpl; auto).
  erewrite children_blocks_frame; [done| |exact E|].
  - intros c l0 bs0 l0' Hc HP. apply IH; [exact Hc|exact HP].
  - intros m Hm. apply Hf, in_app_iff. auto.
Qed.

Lemma indirect_blocks_frame v v' n i nums left bs nums' :
  indirect_blocks v n i nums left = Some (bs, nums') ->
  (forall n, In n bs -> v' n = v n) -> indirect_blocks v' n i nums left = Some (bs, nums').
Proof.
  revert i nums left bs nums'. induction n as [|n IH]; intros i nums left bs nums' H Hf;
    cbn [indirect_blocks] in *; destruct (0 <? left); try done.
  destruct (tree_blocks v (S i) _ left) as [[bs1 left1]|] eqn:E1; [|done].
  destruct (indirect_blocks v n (S i) _ left1) as [[bs2 nums2]|] eqn:E2; [|done].
  injection H as <- <-.
  rewrite (tree_blocks_frame _ _ _ _ _ _ _ E1) by (intros; apply Hf, in_app_iff; auto).
  by rewrite (IH _ _ _ _ _ E2) by (intros; apply Hf, in_app_iff; auto).
Qed.

(** Blocks that may be put on the free list [l]. *)
Definition freeable `{Host} (s : dstate) (l bs : list Z) : Prop :=
  NoDup bs /\
  Forall (fun b => in_disk s b /\ b <> 0 /\ b <> FREE_LIST_BLOCK /\ is_u64 b /\ ~ In b l) bs.

Section release.
Context `{BlockStore ok}.

(** The state between two releases: [bs] is still to be freed. *)
Definition releasing (s : dstate) (l bs : list Z) : Prop :=
  ok s /\ (FreeMutex ∉ held s) /\ free_list s l /\ free_room s /\ freeable s l bs.

(** [done] has been freed since [s]. *)
Definition released (s s' : dstate) (l done bs : list Z) : Prop :=
  releasing s' (reverse done ++ l) bs /\
  changes (fun n => n = FREE_LIST_BLOCK \/ In n done) s s'.

Lemma released_view s s' l done bs n :
  freeable s l (done ++ bs) -> released s s' l done bs -> In n bs -> view s' n = view s n.
Proof.
  intros [Hnd Hf] [_ [_ Hch]] Hn. apply Hch. intros [->|Hd].
  - rewrite Forall_forall in Hf. by destruct (Hf FREE_LIST_BLOCK) as (_ & _ & ? & _);
      [apply list_elem_of_In, in_app_iff; auto|].
  - apply NoDup_app in Hnd as (_ & Hx & _). apply (Hx n); by apply list_elem_of_In.
Qed.

Lemma released_trans s s1 s2 l d1 d2 bs :
  released s s1 l d1 (d2 ++ bs) -> released s1 s2 (reverse d1 ++ l) d2 bs ->
  released s s2 l (d1 ++ d2) bs.
Proof.
  intros [_ H1] [H2 H3]. split.
  - by rewrite reverse_app, <- app_assoc.
  - eapply changes_trans; [| |exact H1|exact H3]; intros n; rewrite in_app_iff; tauto.
Qed.

Lemma blockFree_releases s l b bs (Q : unit -> dstate -> Prop) :
  releasing s l (b :: bs) ->
  (forall s', released s s' l [b] bs -> Q tt s') ->
  wp (blockFree b) s Q.
Proof.
  intros (Hok & Hh & Hl & Hr & Hnd & Hf) HQ.
  apply NoDup_cons in Hnd as [Hb Hnd]. apply Forall_cons in Hf as [(H1&H2&H3&H4&H5) Hf].
  eapply wp_mono; [by apply (blockFree_push s b l)|].
  intros [] s' (Hok' & Hl' & Hr' & Hch). apply HQ.
  pose proof (changes_env _ _ _ Hch) as He. split.
  - split_and!; try done; [by destruct He as (_&_&_&->)|]. split; [done|].
    apply Forall_forall. intros x Hx. rewrite Forall_forall in Hf.
    destruct (Hf x Hx) as (?&?&?&?&?). split_and!; try done.
    + by apply (in_disk_env _ _ _ He).
    + simpl. intros [->|]; auto.
  - eapply changes_mono; [|exact Hch]. simpl. intuition.
Qed.

Lemma releasing_nil s l : releasing s l [] -> released s s l [] [].
Proof. intros. split; [done|apply changes_refl]. Qed.

Lemma released_refl s l bs : releasing s l bs -> released s s l [] bs.
Proof. intros. split; [done|apply changes_refl]. Qed.

(** What freeing one subtree promises. *)
Definition frees (level : nat) : Prop :=
  forall s l n left bs left' rest (Q : Z -> dstate -> Prop),
    tree_blocks (view s) level n left = Some (bs, left') ->
    releasing s l (bs ++ rest) ->
    (forall s', released s s' l bs rest -> Q left' s') ->
    wp (diskBlockFree level n left) s Q.

Lemma free_children_spec level es :
  frees level ->
  forall s l left bs left' rest (Q : Z -> dstate -> Prop),
    children_blocks (tree_blocks (view s) level) es left = Some (bs, left') ->
    releasing s l (bs ++ rest) ->
    (forall s', released s s' l bs rest -> Q left' s') ->
    wp (free_children (diskBlockFree level) es left) s Q.
Proof.
  intros Hlev. induction es as [|c es IH]; intros s l left bs left' rest Q Hb Hr HQ; simpl in *.
  { injection Hb as <- <-. apply wp_ret, HQ. by apply released_refl. }
  destruct (0 <? left); [|injection Hb as <- <-; apply wp_ret, HQ; by apply released_refl].
  destruct (tree_blocks (view s) level c left) as [[bs1 left1]|] eqn:E1; [|done].
  destruct (children_blocks _ es left1) as [[bs2 left2]|] eqn:E2; [|done].
  injection Hb as <- <-. rewrite <- app_assoc in Hr. apply wp_bind.
  eapply Hlev; [exact E1|exact Hr|]. intros s1 Hr1. pose proof Hr1 as [Hrel1 _].
  eapply (IH s1 (reverse bs1 ++ l) left1 bs2 left2 rest); [|exact Hrel1|].
  - eapply children_blocks_frame; [|exact E2|].
    + intros c' l0 bs0 l0' Hc HP. eapply tree_blocks_frame; [exact Hc|exact HP].
    + intros n Hn. eapply released_view; [apply Hr|exact Hr1|]. apply in_app_iff; auto.
  - intros s2 Hr2. apply HQ. by eapply released_trans.
Qed.

Lemma diskBlockFree_frees level : frees level.
Proof.
  induction level as [|level IH]; intros s l n left bs left' rest Q Hb Hr HQ.
  - cbn in Hb. injection Hb as <- <-. cbn [diskBlockFree]. apply wp_bind.
    eapply blockFree_releases; [exact Hr|]. intros s1 Hr1. by apply wp_ret, HQ.
  - cbn [tree_blocks diskBlockFree] in *.
    destruct (view s n) as [b|] eqn:Hv; [|done].
    destruct (children_blocks _ (entries b) left) as [[bs1 left1]|] eqn:E1; [|done].
    injection Hb as <- <-. rewrite <- app_assoc in Hr. simpl in Hr.
    apply wp_bind. eapply wp_Ret.
    { apply (getDiskBlock_view _ _ b); [apply Hr|auto with nao|done]. }
    cbn beta iota. apply wp_bind.
    eapply (free_children_spec level (entries b) IH s l left); [exact E1|exact Hr|].
    intros s1 Hr1. pose proof Hr1 as [Hrel1 _]. apply wp_bind.
    eapply blockFree_releases; [exact Hrel1|]. intros s2 Hr2.
    apply wp_ret, HQ. by eapply released_trans.
Qed.

Lemma free_direct_spec n : forall i s l nums left bs nums' left' rest (Q : list Z * Z -> dstate -> Prop),
  direct_blocks n i nums left = (bs, nums', left') ->
  releasing s l (bs ++ rest) ->
  (forall s', released s s' l bs rest -> Q (nums', left') s') ->
  wp (free_direct n i nums left) s Q.
Proof.
  induction n as [|n IH]; intros i s l nums left bs nums' left' rest Q Hb Hr HQ; simpl in *.
  { injection Hb as <- <- <-. apply wp_ret, HQ. by apply released_refl. }
  destruct (0 <? left); [|injection Hb as <- <- <-; apply wp_ret, HQ; by apply released_refl].
  destruct (direct_blocks n (S i) _ _) as [[bs1 nums1] left1] eqn:E1.
  injection Hb as <- <- <-. apply wp_bind.
  eapply blockFree_releases; [exact Hr|]. intros s1 Hr1. pose proof Hr1 as [Hrel1 _].
  eapply (IH (S i) s1); [exact E1|exact Hrel1|]. intros s2 Hr2. apply HQ.
  by apply (released_trans _ s1 _ _ [_]).
Qed.

Lemma free_indirect_spec n : forall i s l nums left bs nums' rest (Q : list Z * Z -> dstate -> Prop),
  indirect_blocks (view s) n i nums left = Some (bs, nums') ->
  releasing s l (bs ++ rest) ->
  (forall s' left', released s s' l bs rest -> Q (nums', left') s') ->
  wp (free_indirect n i nums left) s Q.
Proof.
  induction n as [|n IH]; intros i s l nums left bs nums' rest Q Hb Hr HQ;
    cbn [indirect_blocks free_indirect] in *; destruct (0 <? left);
    try (injection Hb as <- <-; apply wp_ret, HQ; by apply released_refl); [done|].
  destruct (tree_blocks (view s) (S i) _ left) as [[bs1 left1]|] eqn:E1; [|done].
  destruct (indirect_blocks (view s) n (S i) _ left1) as [[bs2 nums2]|] eqn:E2; [|done].
  injection Hb as <- <-. rewrite <- app_assoc in Hr. apply wp_bind.
  eapply diskBlockFree_frees; [exact E1|exact Hr|]. intros s1 Hr1. pose proof Hr1 as [Hrel1 _].
  eapply (IH (S i) s1); [|exact Hrel1|].
  - eapply indirect_blocks_frame; [exact E2|]. intros m Hm.
    eapply released_view; [apply Hr|exact Hr1|]. apply in_app_iff; auto.
  - intros s2 left2 Hr2. apply HQ. by eapply released_trans.
Qed.

(** [inodeBlocksFree] puts every block of the file on the free list, each of
    them once, and clears the slots of the in-core inode. *)
Lemma inodeBlocksFree_releases s l i bs nums' :
  is_i64 (ic_size i) ->
  inode_blocks (view s) (ic_dataBlockNums i) (ic_size i) = Some (bs, nums') ->
  releasing s l bs ->
  wp (inodeBlocksFree i) s (fun i' s' => i' = ic_set_blocks nums' i /\ released s s' l bs []).
Proof.
  intros Hs Hb Hr. unfold inodeBlocksFree, inode_blocks in *. rewrite i64_id by done.
  destruct (direct_blocks 10 0 _ _) as [[bs1 nums1] left1] eqn:E1.
  destruct (indirect_blocks (view s) 3 0 nums1 left1) as [[bs2 nums2]|] eqn:E2; [|done].
  injection Hb as <- <-. apply wp_bind.
  eapply free_direct_spec; [exact E1|exact Hr|]. intros s1 Hr1. pose proof Hr1 as [Hrel1 _].
  apply wp_bind. rewrite <- (app_nil_r bs2) in Hrel1.
  eapply (free_indirect_spec 3 0 s1); [|exact Hrel1|].
  - eapply indirect_blocks_frame; [exact E2|]. intros m Hm.
    eapply released_view; [apply Hr|exact Hr1|done].
  - intros s2 left2 Hr2. apply wp_ret. split; [done|].
    eapply released_trans; [|exact Hr2]. by rewrite app_nil_r.
Qed.
End release.
