(* ===== verification/FreeStack.v ===== *)
(** The allocator as a stack: any sequence of allocations and releases that is
    possible on a list of block numbers runs on the disk with the same results
    ([blockAlloc] of [src/dsk/alloc.c], [blockFree] of [src/dsk/free.c]). *)

From S2P Require Export BlockAlloc.

Inductive block_op : Type := OpAlloc | OpFree (b : Z).

(** * The specification *)

(** A release is possible while 128 blocks at least are free: then the head of
    the chain has a link, so that [_freeInto] finds room. [C] is the number of
    blocks of the disk. *)
Inductive stack_step (C : Z) : list Z -> block_op -> option Z -> list Z -> Prop :=
| stack_pop b l : stack_step C (b :: l) OpAlloc (Some b) l
| stack_push b l :
    ~ In b l -> 0 < b < C -> is_u64 b -> b <> FREE_LIST_BLOCK -> (128 <= length l)%nat ->
    stack_step C l (OpFree b) None (b :: l).

Inductive stack_run (C : Z) : list Z -> list block_op -> list (option Z) -> list Z -> Prop :=
| run_nil l : stack_run C l [] [] l
| run_cons l o r l1 os rs l2 :
    stack_step C l o r l1 -> stack_run C l1 os rs l2 -> stack_run C l (o :: os) (r :: rs) l2.

Section stack.
Context `{BlockStore ok}.

(** * The implementation *)

Definition run_op (o : block_op) : DM (option Z) :=
  match o with
  | OpAlloc => let* b := blockAlloc in ret (Some b)
  | OpFree b => blockFree b ;;; ret None
  end.

Fixpoint run_ops (os : list block_op) : DM (list (option Z)) :=
  match os with
  | [] => ret []
  | o :: os => let* r := run_op o in let* rs := run_ops os in ret (r :: rs)
  end.

(** A list this long is not that of one block. *)
Lemma free_room_long s l : free_list s l -> (128 <= length l)%nat -> free_room s.
Proof.
  intros (b & Hv & Hc & _) Hl. exists b. split; [done|]. right. inversion Hc as [e E|e nxt b' l' E Hn]; subst.
  - exfalso. assert (length (live (entries b)) < length (entries b))%nat as Hlt.
    { apply list_elem_of_split_length in E as (l1 & l2 & -> & _).
      rewrite live_app, live_cons_0, !length_app. simpl.
      pose proof (length_filter (fun x => x <> 0) l1). pose proof (length_filter (fun x => x <> 0) l2).
      unfold live. lia. }
    assert (length (entries b) = 128)%nat as Hlen by done. lia.
  - rewrite E. congruence.
Qed.

Definition stack_state (C : Z) (l : list Z) (s : dstate) : Prop :=
  ok s /\ (AllocMutex ∉ held s) /\ (FreeMutex ∉ held s) /\ capacity s = C /\ free_list s l.

Lemma stack_state_env C l l' s s' :
  stack_state C l s -> ok s' -> free_list s' l' -> same_env s s' -> stack_state C l' s'.
Proof.
  intros (_ & Ha & Hf & Hc & _) Hok Hl He. pose proof (capacity_proper _ _ He) as E.
  destruct He as (_ & _ & _ & Eh). unfold stack_state. rewrite Eh, <- E. done.
Qed.

(** One step of the specification is one call. *)
Lemma run_op_step C l s o r l' :
  stack_state C l s -> stack_step C l o r l' ->
  wp (run_op o) s (fun r' s' => r' = r /\ stack_state C l' s').
Proof.
  intros Hs Hstep. pose proof Hs as (Hok & Ha & Hf & Hc & Hl).
  destruct Hstep as [b l|b l Hb Hr Hu H2 Hlen]; apply wp_bind; eapply wp_mono.
  - by apply blockAlloc_pop.
  - intros b' s' (-> & Hok' & Hl' & Hch). apply wp_ret. split; [done|].
    eapply stack_state_env; [exact Hs|done|done|by eapply changes_env].
  - apply (blockFree_push _ _ l); try done.
    + by eapply free_room_long.
    + unfold in_disk. lia.
    + lia.
  - intros [] s' (Hok' & Hl' & _ & Hch). apply wp_ret. split; [done|].
    eapply stack_state_env; [exact Hs|done|done|by eapply changes_env].
Qed.

(** C10: refinement. The block allocator implements a stack of block numbers:
    whenever a sequence of allocations and releases is possible on the abstract
    list, running it on the disk returns the same blocks, terminates, and leaves
    a disk whose free list is the abstract list. *)
Theorem run_ops_refines_stack C l s os rs l' :
  stack_state C l s -> stack_run C l os rs l' ->
  wp (run_ops os) s (fun rs' s' => rs' = rs /\ stack_state C l' s').
Proof.
  intros Hs Hr. revert s Hs. induction Hr as [l|l o r l1 os rs l2 Hstep _ IH]; intros s Hs; cbn [run_ops].
  - by apply wp_ret.
  - apply wp_bind. eapply wp_mono; [by eapply run_op_step|]. intros r' s1 [-> Hs1].
    apply wp_bind. eapply wp_mono; [by apply IH|]. intros rs' s2 [-> Hs2]. by apply wp_ret.
Qed.

End stack.
