(* ===== verification/INodeTable.v ===== *)
(** The inode table on disk, [src/mkfs/iNodeManager.c]: reading and writing
    inode number [n], which lives in block [INODE_BLOCKS_HEAD + n / 4] at the
    offset [(n mod 4) * 256], and the search for free inodes. *)

From S2P Require Export BlockAlloc.

(** [iNodesBlock]: the inodes that [makeINodesBlock] copies out of a block. It
    copies the bytes as one run of structures, one every [sizeof(iNode)]. *)
Record iNodesBlock : Type := INodesBlock { iNodesList : list iNode }.

Definition makeINodesBlock (inodesPerBlock : nat) (blockPtr : block) : iNodesBlock :=
  INodesBlock
    ((fun k => iNode_of_bytes (bytes_at blockPtr (k * 176) 176)) <$> seq 0 inodesPerBlock).

Inductive iNodeAccessType : Type := INODE_READ | INODE_WRITE.

Section inode_table.
Context `{Host}.

(** What a fresh [malloc(sizeof(iNode))] holds. *)
Definition junk_iNode : iNode := iNode_of_bytes junk_block.

(** The buffer is the caller's [blockPtr], or a fresh one for [NULL]. *)
Definition accessINodeAndItsBlock (iNodeNum : Z) (inode : iNode) (blockPtr : option block)
    (accessType : iNodeAccessType) : DM (Z * iNode) :=
  if NUM_OF_INODES <=? iNodeNum then ret (-1, inode)
  else
    let metaBlock := default junk_block blockPtr in
    let* s := get in
    if INODES_PER_BLOCK (prm s) =? 0 then undefined DivByZero
    else
      let blockNum := iNodeNum / INODES_PER_BLOCK (prm s) + INODE_BLOCKS_HEAD in
      let* (_, metaBlock) := getDiskBlock blockNum metaBlock in
      let index := iNodeNum mod INODES_PER_BLOCK (prm s) in
      let off := Z.to_nat (index * INODE_SIZE (prm s)) in
      match accessType with
      | INODE_READ => ret (0, iNode_of_bytes (bytes_at metaBlock off 176))
      | INODE_WRITE =>
          let metaBlock := memcpy_at metaBlock off (replicate (Z.to_nat (INODE_SIZE (prm s))) 0) in
          let metaBlock := memcpy_at metaBlock off (iNode_bytes inode) in
          writeDiskBlock blockNum metaBlock ;;;
          ret (0, inode)
      end.

Definition updateINodeData (iNodeNum : Z) (iType : iNodeType)
    (mode o_uid g_uid size linksCount : Z) : DM unit :=
  let* (_, inode) := accessINodeAndItsBlock iNodeNum junk_iNode None INODE_READ in
  let* now := time_NULL in
  let inode := INode (device_number inode) (inode_number inode) (access inode)
                 (modification inode) now linksCount iType mode o_uid g_uid
                 (dataBlockNums inode) size in
  accessINodeAndItsBlock iNodeNum inode None INODE_WRITE ;;;
  ret tt.

Definition getDiskInode (iNodeNum : Z) (inode : iNode) : DM (Z * iNode) :=
  accessINodeAndItsBlock iNodeNum inode None INODE_READ.

Definition writeDiskInode (iNodeNum : Z) (inode : iNode) : DM Z :=
  let* (r, _) := accessINodeAndItsBlock iNodeNum inode None INODE_WRITE in ret r.

(** ** The search for free inodes *)

Definition getReturnValue (iNodeNums : list Z) (freeINodeCounter : Z) : DM Z :=
  if freeINodeCounter =? 0 then ret 0
  else if freeINodeCounter <? INODE_NOS_PER_BLOCK then ret 0
  else
    match iNodeNums !! Z.to_nat (freeINodeCounter - 1) with
    | Some n => ret n
    | None => undefined OutOfBounds
    end.

(** The free inodes among [inodes] are stored from index [at_] of the buffer;
    the result is their number and the buffer. *)
Fixpoint getFromBlock (inodes : list iNode) (at_ : nat) (buf : list Z) (collectedCount : Z)
  : DM (Z * list Z) :=
  match inodes with
  | [] => ret (collectedCount, buf)
  | theINode :: rest =>
      if decide (type theINode = T_FREE) then
        if decide (at_ < length buf)%nat then
          getFromBlock rest (S at_) (<[at_ := inode_number theINode]> buf) (collectedCount + 1)
        else undefined OutOfBounds
      else getFromBlock rest at_ buf collectedCount
  end.

Definition endOfINodeBlocks (s : dstate) : Z :=
  INODE_BLOCKS_HEAD + u64 (INODE_SIZE (prm s) * NUM_OF_INODES) / BLOCK_SIZE.

(** The loop runs once per inode block at most. *)
Definition searchINodes (startINodeNum : Z) (iNodeNos : list Z) : DM (Z * list Z) :=
  if startINodeNum =? 0 then ret (0, iNodeNos)
  else
    let* s := get in
    if INODES_PER_BLOCK (prm s) =? 0 then undefined DivByZero
    else
      let perBlock := Z.to_nat (INODES_PER_BLOCK (prm s)) in
      let blockCounter := startINodeNum / INODES_PER_BLOCK (prm s) + INODE_BLOCKS_HEAD in
      let* (_, freeINodeCounter, nos) :=
        while_do (S (Z.to_nat (endOfINodeBlocks s)))
          (fun '(_, freeINodeCounter, _) => freeINodeCounter <? INODE_NOS_PER_BLOCK)
          (fun '(blockCounter, freeINodeCounter, nos) =>
             if endOfINodeBlocks s <=? blockCounter then
               ret (Break (blockCounter, freeINodeCounter, nos))
             else
               let* (_, iNodesData) := getDiskBlock blockCounter junk_block in
               let blk := makeINodesBlock perBlock iNodesData in
               let* (n, nos) := getFromBlock (iNodesList blk) (Z.to_nat freeINodeCounter) nos 0 in
               ret (Next (blockCounter + 1, freeINodeCounter + n, nos)))
          (blockCounter, 0, iNodeNos) in
      let* r := getReturnValue nos freeINodeCounter in
      ret (r, nos).

End inode_table.

(** * The table as a map from inode numbers to inodes *)

Definition inode_block (n : Z) : Z := n / 4 + INODE_BLOCKS_HEAD.

Definition disk_inode `{Host} (s : dstate) (n : Z) : option iNode :=
  match view s (inode_block n) with
  | Some b => Some (iNode_of_bytes (bytes_at b (Z.to_nat (n mod 4 * 256)) 176))
  | None => None
  end.

(** The sizes computed by [initializeINodeParams], and room for the table. *)
Definition inode_area `{Host} (s : dstate) : Prop :=
  INODE_SIZE (prm s) = 256 /\ INODES_PER_BLOCK (prm s) = 4 /\ 16388 <= capacity s.

Definition inode_num (n : Z) : Prop := 0 <= n < NUM_OF_INODES.

#[export] Instance inode_num_dec n : Decision (inode_num n).
Proof. unfold inode_num. apply _. Defined.

Section table_lemmas.
Context `{BlockStore ok}.

Lemma inode_area_env s s' : same_env s s' -> inode_area s -> inode_area s'.
Proof.
  intros He (H1 & H2 & H3). pose proof (capacity_proper _ _ He) as Hc.
  destruct He as (_ & _ & Hp & _). unfold inode_area. rewrite Hp, <- Hc. done.
Qed.

Lemma inode_block_in_disk s n : inode_area s -> inode_num n -> in_disk s (inode_block n).
Proof.
  intros (_ & _ & Hc) Hn. unfold inode_num in Hn. unfold in_disk, inode_block. consts.
  pose proof (Z.div_pos n 4). pose proof (Z.div_lt_upper_bound n 4 16384). lia.
Qed.

Lemma inode_off n : 0 <= n -> (Z.to_nat (n mod 4 * 256) + 256 <= 1024)%nat.
Proof. intros. pose proof (Z.mod_pos_bound n 4). lia. Qed.

Lemma access_read s n inode :
  ok s -> inode_area s -> inode_num n ->
  exists i, wf_iNode i /\ disk_inode s n = Some i /\
    accessINodeAndItsBlock n inode None INODE_READ s = Ret (0, i) s.
Proof.
  intros Hok Ha Hn. pose proof Ha as (H1 & H2 & _).
  destruct (store_get s (inode_block n) junk_block Hok) as (b & Hb & Hv & Hg);
    [by apply inode_block_in_disk|].
  unfold disk_inode. rewrite Hv.
  pose proof Hn as [Hn0 Hn1].
  exists (iNode_of_bytes (bytes_at b (Z.to_nat (n mod 4 * 256)) 176)). split_and!; [|done|].
  - pose proof (inode_off n Hn0). destruct Hb as [Hl Hbytes]. apply iNode_of_bytes_wf.
    + rewrite length_bytes_at; lia.
    + by apply Forall_bytes_at.
  - unfold accessINodeAndItsBlock. rewrite (proj2 (Z.leb_gt _ _)) by lia.
    mstep. rewrite H2. simpl (_ =? _). cbn iota. fold (inode_block n).
    erewrite bind_Ret by (apply Hg; auto with nao). cbn beta iota. by rewrite H1.
Qed.

Lemma access_beyond s n inode bp t :
  NUM_OF_INODES <= n -> accessINodeAndItsBlock n inode bp t s = Ret (-1, inode) s.
Proof. intros Hn. unfold accessINodeAndItsBlock. by rewrite (proj2 (Z.leb_le _ _)). Qed.

(** The block with inode [n] replaced, as the write branch builds it. *)
Definition put_inode (b : block) (n : Z) (i : iNode) : block :=
  let off := Z.to_nat (n mod 4 * 256) in
  memcpy_at (memcpy_at b off (replicate (Z.to_nat 256) 0)) off (iNode_bytes i).

Lemma put_inode_wf b n i :
  wf_block b -> inode_num n -> wf_iNode i -> wf_block (put_inode b n i).
Proof.
  intros [Hl Hb] [Hn _] (_&_&_&_&_&_&_&_&_&_&[Hd _]&_). pose proof (inode_off n Hn).
  unfold put_inode. split.
  - rewrite !length_memcpy_at; rewrite ?length_memcpy_at;
      rewrite ?length_replicate, ?length_iNode_bytes by done; lia.
  - apply Forall_memcpy_at; [|apply iNode_bytes_bytes].
    apply Forall_memcpy_at; [done|]. apply Forall_replicate. unfold is_byte; lia.
Qed.

Lemma put_inode_same b n i :
  wf_block b -> inode_num n -> wf_iNode i ->
  iNode_of_bytes (bytes_at (put_inode b n i) (Z.to_nat (n mod 4 * 256)) 176) = i.
Proof.
  intros [Hl Hb] [Hn _] Hi. pose proof Hi as (_&_&_&_&_&_&_&_&_&_&[Hd _]&_).
  pose proof (inode_off n Hn). unfold put_inode.
  rewrite <- (length_iNode_bytes i Hd), bytes_at_memcpy_same.
  - rewrite <- (app_nil_r (iNode_bytes i)). by apply iNode_of_bytes_of.
  - rewrite length_memcpy_at; rewrite ?length_replicate, ?length_iNode_bytes by done; lia.
Qed.

Lemma put_inode_other b n m i :
  wf_block b -> inode_num n -> inode_num m -> wf_iNode i -> n mod 4 <> m mod 4 ->
  bytes_at (put_inode b n i) (Z.to_nat (m mod 4 * 256)) 176 =
  bytes_at b (Z.to_nat (m mod 4 * 256)) 176.
Proof.
  intros [Hl Hb] [Hn _] [Hm _] (_&_&_&_&_&_&_&_&_&_&[Hd _]&_) Hne.
  pose proof (inode_off n Hn). pose proof (inode_off m Hm).
  pose proof (Z.mod_pos_bound n 4). pose proof (Z.mod_pos_bound m 4).
  unfold put_inode.
  rewrite !bytes_at_memcpy_other; rewrite ?length_memcpy_at;
    rewrite ?length_replicate, ?length_iNode_bytes by done; try done; lia.
Qed.

Lemma access_write s n i (Q : Z * iNode -> dstate -> Prop) :
  ok s -> inode_area s -> inode_num n -> wf_iNode i ->
  (forall s', ok s' -> changes (eq (inode_block n)) s s' ->
     disk_inode s' n = Some i ->
     (forall m, inode_num m -> m <> n -> disk_inode s' m = disk_inode s m) -> Q (0, i) s') ->
  wp (accessINodeAndItsBlock n i None INODE_WRITE) s Q.
Proof.
  intros Hok Ha Hn Hi HQ. pose proof Ha as (H1 & H2 & _).
  pose proof (inode_block_in_disk s n Ha Hn) as Hib.
  destruct (store_get s (inode_block n) junk_block Hok Hib) as (b & Hb & Hv & Hg).
  pose proof Hn as [Hn0 Hn1].
  unfold accessINodeAndItsBlock. rewrite (proj2 (Z.leb_gt _ _)) by lia.
  apply wp_bind. eapply wp_Ret; [done|]. rewrite H1, H2. simpl (_ =? _). cbn iota.
  fold (inode_block n). apply wp_bind. eapply wp_Ret; [apply Hg; auto with nao|].
  cbn beta iota. fold (put_inode b n i). apply wp_bind.
  apply wp_writeDiskBlock; [done|done|by apply put_inode_wf|].
  intros s' Hok' Hv' Hch. apply wp_ret, HQ; [done|done|..].
  - unfold disk_inode. rewrite Hv'. f_equal. by apply put_inode_same.
  - intros m Hm Hne. unfold disk_inode.
    destruct (decide (inode_block m = inode_block n)) as [E|E].
    + rewrite E, Hv, Hv'. do 2 f_equal. apply put_inode_other; try done.
      unfold inode_block in E. pose proof (Z.div_mod n 4). pose proof (Z.div_mod m 4). lia.
    + destruct Hch as [_ Hch]. rewrite Hch by congruence. done.
Qed.

(** ** [updateINodeData] *)

Definition updated_inode (i : iNode) (now : Z) (t : iNodeType) (mode uid gid sz links : Z) : iNode :=
  INode (device_number i) (inode_number i) (access i) (modification i) now links t mode uid gid
    (dataBlockNums i) sz.

Lemma updateINodeData_spec s n t mode uid gid sz links i (Q : unit -> dstate -> Prop) :
  ok s -> inode_area s -> inode_num n -> disk_inode s n = Some i ->
  wf_iNode (updated_inode i (time_at (time_calls s)) t mode uid gid sz links) ->
  (forall s', ok s' -> changes (eq (inode_block n)) s s' ->
     disk_inode s' n = Some (updated_inode i (time_at (time_calls s)) t mode uid gid sz links) ->
     (forall m, inode_num m -> m <> n -> disk_inode s' m = disk_inode s m) -> Q tt s') ->
  wp (updateINodeData n t mode uid gid sz links) s Q.
Proof.
  intros Hok Ha Hn Hi Hwf HQ. unfold updateINodeData.
  destruct (access_read s n junk_iNode Hok Ha Hn) as (i' & Hwfi & Hi' & Hr).
  rewrite Hi in Hi'. injection Hi' as <-.
  apply wp_bind. eapply wp_Ret; [exact Hr|]. cbn beta iota.
  apply wp_bind. eapply wp_Ret; [done|].
  fold (updated_inode i (time_at (time_calls s)) t mode uid gid sz links).
  apply wp_bind. apply access_write; [by apply store_calls|done|done|done|].
  intros s' Hok' Hch Hd Ho. by apply wp_ret, HQ.
Qed.

Lemma updateINodeData_beyond s n t mode uid gid sz links :
  NUM_OF_INODES <= n ->
  updateINodeData n t mode uid gid sz links s = Ret tt (set_calls (S (time_calls s)) s).
Proof.
  intros Hn. unfold updateINodeData.
  erewrite bind_Ret by by apply access_beyond. cbn beta iota.
  erewrite bind_Ret by done. erewrite bind_Ret by by apply access_beyond. done.
Qed.
End table_lemmas.

(** * Properties *)

Section table_properties.
Context `{BlockStore ok}.

(** The inode table stores inodes: an inode written with [writeDiskInode]
    is the one [getDiskInode] reads back, and the other inodes, those of the
    same block included, are untouched. *)
Theorem writeDiskInode_getDiskInode s n i buf :
  ok s -> inode_area s -> inode_num n -> wf_iNode i ->
  exists s', writeDiskInode n i s = Ret 0 s' /\ ok s' /\
    getDiskInode n buf s' = Ret (0, i) s' /\
    forall m, inode_num m -> m <> n ->
      exists j, getDiskInode m buf s = Ret (0, j) s /\ getDiskInode m buf s' = Ret (0, j) s'.
Proof.
  intros Hok Ha Hn Hi. unfold getDiskInode, writeDiskInode.
  destruct (wp_inv _ _ _ (access_write s n i (fun r s' => r = (0, i) /\ ok s' /\
    inode_area s' /\ disk_inode s' n = Some i /\
    forall m, inode_num m -> m <> n -> disk_inode s' m = disk_inode s m) Hok Ha Hn Hi
    ltac:(intros s' ? Hch ??; split_and!; try done;
          by eapply inode_area_env; [eapply changes_env|]))) as (r & s' & Hw & -> & Hok' & Ha' & Hd & Ho).
  exists s'. rewrite (bind_Ret _ _ _ _ _ Hw). split_and!; [done|done|..].
  - destruct (access_read s' n buf Hok' Ha' Hn) as (i' & _ & Hd' & ->). congruence.
  - intros m Hm Hne. destruct (access_read s m buf Hok Ha Hm) as (j & _ & Hj & Hr).
    destruct (access_read s' m buf Hok' Ha' Hm) as (j' & _ & Hj' & Hr').
    exists j. split; [done|]. rewrite Ho in Hj' by done. congruence.
Qed.

End table_properties.
