(* ===== verification/IAlloc.v ===== *)
(** Allocation and release of inode numbers: [src/mkfs/ialloc.c] and
    [src/mkfs/ifree.c].  Block [INODE_LIST_BLOCK] caches up to 512 free inode
    numbers, used slots being 0. *)

From S2P Require Export INodeTable.

(** The value [(size_t)-1]. *)
Definition SIZE_MAX : Z := u64 (-1).

(** * [ialloc.c] *)

(** The [while] loop of [checkAndGetFreeINode]: [counter] and [freeINode]. *)
Fixpoint free_inode_scan (iNodeNos : list Z) (counter freeINode : Z) : Z * Z :=
  match iNodeNos with
  | [] => (counter, freeINode)
  | x :: l =>
      if freeINode =? 0 then free_inode_scan l (counter + 1) x
      else (counter, freeINode)
  end.

Definition checkAndGetFreeINode (iNodeList : iNodeListBlock) : Z * iNodeListBlock :=
  let '(counter, freeINode) := free_inode_scan (iNodeNos iNodeList) 0 0 in
  if counter =? INODE_NOS_PER_BLOCK then (SIZE_MAX, iNodeList)
  else (freeINode, INodeListBlock (<[Z.to_nat (counter - 1) := 0]> (iNodeNos iNodeList))).

Section ialloc.
Context `{Host}.

Definition fetchFreeINodes (iNodeList : iNodeListBlock) : DM iNodeListBlock :=
  let* (_, superBlockData) := getDiskBlock SUPER_BLOCK junk_block in
  let theSuperBlock := makeSuperBlock superBlockData in
  let* (remembered, nos) := searchINodes (rememberedINode theSuperBlock) (iNodeNos iNodeList) in
  let superBlockData := writeSuperBlock (SuperBlock remembered) superBlockData in
  writeDiskBlock SUPER_BLOCK superBlockData ;;;
  ret (INodeListBlock nos).

Definition getNewINode (fileType : iNodeType) (fileMode uid gid : Z) : DM Z :=
  locked IAllocMutex (
    let* (_, iNodeListData) := getDiskBlock INODE_LIST_BLOCK junk_block in
    let iNodeList := makeINodeListBlock iNodeListData in
    let (freeINode, iNodeList) := checkAndGetFreeINode iNodeList in
    let* (freeINode, iNodeList) :=
      (if freeINode =? 0 then
         let* iNodeList := fetchFreeINodes iNodeList in
         ret (checkAndGetFreeINode iNodeList)
       else ret (freeINode, iNodeList)) in
    updateINodeData freeINode fileType fileMode uid gid 0 0 ;;;
    writeDiskBlock INODE_LIST_BLOCK (writeINodeListBlock iNodeList iNodeListData) ;;;
    ret freeINode).

(** * [ifree.c] *)

(** The loop: the index of the first number that is not 0, 512 if none. *)
Fixpoint first_used (iNodeNos : list Z) (counter : nat) : nat :=
  match iNodeNos with
  | [] => counter
  | x :: l => if negb (x =? 0) then counter else first_used l (S counter)
  end.

Definition saveInListIfPossible (iNodeNum : Z) (iNodeList : iNodeListBlock)
  : bool * iNodeListBlock :=
  let nos := iNodeNos iNodeList in
  let counter := first_used nos 0 in
  let nos :=
    if (counter <? length nos)%nat && (0 <? counter)%nat
    then <[(counter - 1)%nat := iNodeNum]> nos else nos in
  (negb (counter =? 0)%nat, INodeListBlock nos).

Definition rememberIfNeeded (iNodeNum : Z) (iNodeList : iNodeListBlock) : DM unit :=
  let lastINodeNum := default 0 (iNodeNos iNodeList !! 511%nat) in
  if lastINodeNum <? iNodeNum then ret tt
  else
    let* (_, superBlockData) := getDiskBlock SUPER_BLOCK junk_block in
    let superBlockData := writeSuperBlock (SuperBlock iNodeNum) superBlockData in
    writeDiskBlock SUPER_BLOCK superBlockData ;;;
    ret tt.

(** [freed] is whether [iNodeListData] has been given back to [free]. *)
Definition freeINode (iNodeNum : Z) : DM unit :=
  locked IFreeMutex (
    updateINodeData iNodeNum T_FREE 0 0 0 0 0 ;;;
    let* (_, iNodeListData) := getDiskBlock INODE_LIST_BLOCK junk_block in
    let iNodeList := makeINodeListBlock iNodeListData in
    let (isSavedInList, iNodeList) := saveInListIfPossible iNodeNum iNodeList in
    let* freed :=
      (if negb isSavedInList then
         rememberIfNeeded iNodeNum iNodeList ;;;
         ret true
       else
         writeDiskBlock INODE_LIST_BLOCK (writeINodeListBlock iNodeList iNodeListData) ;;;
         ret false) in
    if freed : bool then undefined DoubleFree else ret tt).

End ialloc.

(** * The list of free numbers *)

(** The cached numbers, [INODE_LIST_BLOCK] being readable. *)
Definition inode_list `{Host} (s : dstate) (nos : list Z) : Prop :=
  exists b, view s INODE_LIST_BLOCK = Some b /\ iNodeNos (makeINodeListBlock b) = nos.

Lemma free_inode_scan_zeros k c :
  free_inode_scan (replicate k 0) c 0 = (c + Z.of_nat k, 0).
Proof.
  revert c. induction k as [|k IH]; intros c; simpl; [by rewrite Z.add_0_r|].
  rewrite IH. f_equal. lia.
Qed.

Lemma free_inode_scan_first k x tl c :
  x <> 0 -> free_inode_scan (replicate k 0 ++ x :: tl) c 0 = (c + Z.of_nat (S k), x).
Proof.
  intros Hx. revert c. induction k as [|k IH]; intros c.
  - simpl. destruct tl; simpl; destruct (Z.eqb_spec x 0); try done; f_equal; lia.
  - cbn [replicate app free_inode_scan]. simpl (0 =? 0). cbn iota. rewrite IH. f_equal. lia.
Qed.

Lemma checkAndGet_first k x tl :
  x <> 0 -> (k < 511)%nat ->
  checkAndGetFreeINode (INodeListBlock (replicate k 0 ++ x :: tl)) =
    (x, INodeListBlock (replicate (S k) 0 ++ tl)).
Proof.
  intros Hx Hk. unfold checkAndGetFreeINode; cbn [iNodeNos].
  rewrite free_inode_scan_first by done. cbn beta iota.
  destruct (Z.eqb_spec (0 + Z.of_nat (S k)) INODE_NOS_PER_BLOCK) as [E|_]; [consts; lia|].
  do 2 f_equal. replace (Z.to_nat (0 + Z.of_nat (S k) - 1)) with k by lia.
  rewrite insert_app_r_alt by (rewrite length_replicate; lia).
  rewrite length_replicate, Nat.sub_diag. by rewrite (replicate_S_end k), <- app_assoc.
Qed.

(** Nothing is handed out of an empty list, nor out of the last slot. *)
Lemma checkAndGet_none l :
  length l = 512%nat -> live (take 511 l) = [] ->
  checkAndGetFreeINode (INodeListBlock l) = (SIZE_MAX, INodeListBlock l).
Proof.
  intros Hl H0. unfold checkAndGetFreeINode; cbn [iNodeNos].
  destruct (live_split l) as [[_ Hz]|(k & x & tl & -> & Hx & _)].
  - rewrite Hz, free_inode_scan_zeros, Hl. by simpl (_ =? _).
  - rewrite free_inode_scan_first by done. cbn beta iota.
    rewrite length_app, length_replicate in Hl. simpl in Hl.
    assert (k = 511%nat) as ->; [|by simpl (_ =? _)].
    destruct (decide (k = 511%nat)); [done|]. exfalso.
    rewrite take_app, live_app, length_replicate in H0.
    apply app_eq_nil in H0 as [_ H0].
    replace (511 - k)%nat with (S (510 - k)) in H0 by lia. simpl in H0.
    by rewrite live_cons in H0.
Qed.

Lemma first_used_split k x tl c :
  x <> 0 -> first_used (replicate k 0 ++ x :: tl) c = (c + k)%nat.
Proof.
  intros Hx. revert c. induction k as [|k IH]; intros c; simpl.
  - destruct (Z.eqb_spec x 0); [done|]. simpl. lia.
  - rewrite IH. lia.
Qed.

Lemma first_used_zeros k c : first_used (replicate k 0) c = (c + k)%nat.
Proof. revert c. induction k as [|k IH]; intros c; simpl; [lia|]. rewrite IH. lia. Qed.

Lemma saveInList_room k x tl n :
  x <> 0 ->
  saveInListIfPossible n (INodeListBlock (replicate (S k) 0 ++ x :: tl)) =
    (true, INodeListBlock (replicate k 0 ++ n :: x :: tl)).
Proof.
  intros Hx. unfold saveInListIfPossible; cbn [iNodeNos].
  rewrite first_used_split by done. rewrite length_app, length_replicate. simpl length.
  rewrite (proj2 (Nat.ltb_lt _ _)) by lia. simpl andb. cbn iota.
  rewrite Nat.add_0_l, Nat.sub_succ, Nat.sub_0_r, replicate_S_end, <- app_assoc.
  rewrite insert_app_r_alt by (rewrite length_replicate; lia).
  rewrite length_replicate, Nat.sub_diag. done.
Qed.

Lemma saveInList_empty n :
  saveInListIfPossible n (INodeListBlock (replicate 512 0)) =
    (true, INodeListBlock (replicate 512 0)).
Proof. reflexivity. Qed.

Lemma saveInList_full x tl n :
  x <> 0 -> saveInListIfPossible n (INodeListBlock (x :: tl)) = (false, INodeListBlock (x :: tl)).
Proof.
  intros Hx. unfold saveInListIfPossible; cbn [iNodeNos first_used].
  destruct (Z.eqb_spec x 0); [done|]. simpl. done.
Qed.

Section ialloc_lemmas.
Context `{BlockStore ok}.

Lemma inode_list_wf s nos : ok s -> inode_list s nos -> wf_iNodeNos nos.
Proof. intros Hok (b & Hv & <-). apply make_iNodeNos_wf. by eapply view_wf. Qed.

Lemma inode_list_frame s s' nos :
  inode_list s nos -> view s' INODE_LIST_BLOCK = view s INODE_LIST_BLOCK -> inode_list s' nos.
Proof. intros (b & Hv & Hl) E. exists b. by rewrite E. Qed.

Lemma inode_list_write s b nos :
  wf_iNodeNos nos -> wf_block b ->
  view s INODE_LIST_BLOCK = Some (writeINodeListBlock (INodeListBlock nos) b) ->
  inode_list s nos.
Proof.
  intros Hn [Hb _] Hv. eexists. split; [exact Hv|]. by rewrite make_write_iNodeList.
Qed.

Lemma updated_inode_wf i k t mode uid gid sz links :
  wf_iNode i -> is_u32 (type_code t) -> type_of_code (type_code t) = t ->
  is_u32 mode -> is_u32 uid -> is_u32 gid -> is_u64 sz -> is_u64 links ->
  wf_iNode (updated_inode i (time_at k) t mode uid gid sz links).
Proof.
  intros (?&?&?&?&?&?&?&?&?&?&?&?) ???????. unfold wf_iNode, updated_inode.
  cbn [device_number inode_number access modification status_change linksCount type
    file_mode owner_uid group_uid dataBlockNums size].
  split_and!; try done; try tauto. apply time_at_range.
Qed.

Lemma disk_inode_wf s n i : ok s -> disk_inode s n = Some i -> 0 <= n -> wf_iNode i.
Proof.
  unfold disk_inode. intros Hok Hd Hn. destruct (view s (inode_block n)) as [b|] eqn:E; [|done].
  injection Hd as <-. destruct (view_wf _ _ _ Hok E) as [Hl Hb].
  pose proof (inode_off n Hn). apply iNode_of_bytes_wf.
  - rewrite length_bytes_at; lia.
  - by apply Forall_bytes_at.
Qed.

Lemma disk_inode_frame s s' n :
  view s' (inode_block n) = view s (inode_block n) -> disk_inode s' n = disk_inode s n.
Proof. unfold disk_inode. by intros ->. Qed.

Lemma inode_block_ge n : inode_num n -> INODE_BLOCKS_HEAD <= inode_block n.
Proof. intros [Hn _]. unfold inode_block. pose proof (Z.div_pos n 4). lia. Qed.

Lemma wf_iNodeNos_app k x tl :
  wf_iNodeNos (replicate k 0 ++ x :: tl) ->
  inode_num x /\ wf_iNodeNos (replicate (S k) 0 ++ tl) /\ (k + S (length tl) = 512)%nat.
Proof.
  intros [Hl Hf]. rewrite length_app, length_replicate in Hl. simpl in Hl.
  apply Forall_app in Hf as [Hz Hf]. inversion Hf; subst. split_and!; [done| |done].
  split; [rewrite length_app, length_replicate; lia|]. apply Forall_app_2; [|done].
  apply Forall_replicate. consts. lia.
Qed.

(** A new inode takes the first number of the list. *)
Lemma getNewINode_pop s k x tl i t mode uid gid :
  ok s -> IAllocMutex ∉ held s -> inode_area s ->
  inode_list s (replicate k 0 ++ x :: tl) -> x <> 0 -> (k < 511)%nat ->
  disk_inode s x = Some i -> is_u32 (type_code t) -> type_of_code (type_code t) = t ->
  is_u32 mode -> is_u32 uid -> is_u32 gid ->
  wp (getNewINode t mode uid gid) s (fun r s' => r = x /\ ok s' /\
    inode_list s' (replicate (S k) 0 ++ tl) /\
    disk_inode s' x = Some (updated_inode i (time_at (time_calls s)) t mode uid gid 0 0) /\
    (forall m, inode_num m -> m <> x -> disk_inode s' m = disk_inode s m) /\
    changes (fun n => n = INODE_LIST_BLOCK \/ n = inode_block x) s s').
Proof.
  intros Hok Hh Ha Hl Hx Hk Hi Ht Ht' Hm Hu Hg. pose proof (inode_list_wf _ _ Hok Hl) as Hwf.
  pose proof Hl as (b & Hv & Hnos). pose proof (view_wf _ _ _ Hok Hv) as Hb.
  destruct (wf_iNodeNos_app _ _ _ Hwf) as (Hnx & Hwf' & _).
  pose proof (inode_block_ge x Hnx) as Hge.
  unfold getNewINode. apply wp_locked; [done..|].
  intros s1 Hok1 He1 Hview1 Htc1. apply wp_bind. eapply wp_Ret.
  { apply (getDiskBlock_view _ _ b); [done|auto with nao|by rewrite Hview1]. }
  cbn beta iota. destruct (makeINodeListBlock b) as [nos] eqn:Hmk. cbn [iNodeNos] in Hnos. subst nos.
  rewrite checkAndGet_first by done. cbn beta iota.
  destruct (Z.eqb_spec x 0) as [|_]; [done|]. cbn iota. apply wp_bind, wp_ret, wp_bind.
  apply (updateINodeData_spec _ _ _ _ _ _ _ _ i); [done|by eapply inode_area_env|done| | |].
  { by rewrite (disk_inode_frame s). }
  { apply updated_inode_wf; try done. eapply disk_inode_wf; [exact Hok|exact Hi|apply Hnx]. }
  rewrite Htc1. intros s2 Hok2 Hch2 Hd2 Ho2. apply wp_bind.
  assert (view s2 INODE_LIST_BLOCK = Some b) as Hv2.
  { destruct Hch2 as [_ Hch2]. rewrite Hch2, Hview1 by (consts; lia). done. }
  apply wp_writeDiskBlock; [done|eauto with nao|by apply writeINodeListBlock_wf; [apply Hwf'|]|].
  intros s3 Hok3 Hv3 Hch3. apply wp_ret.
  split_and!; [done|etrans; by eapply changes_env|].
  intros s4 Hok4 He4 Hv4.
  assert (forall n, inode_num n -> view s4 (inode_block n) = view s2 (inode_block n)) as Hib.
  { intros n Hn. pose proof (inode_block_ge n Hn). destruct Hch3 as [_ Hch3].
    rewrite Hv4, Hch3; [done|]. consts; lia. }
  split_and!; [done|done| | | |].
  - rewrite <- Hv4 in Hv3. by eapply inode_list_write.
  - by rewrite (disk_inode_frame s2) by auto.
  - intros m Hm' Hne. rewrite (disk_inode_frame s2), Ho2 by auto. by rewrite (disk_inode_frame s).
  - eapply changes_via; eauto. eapply changes_trans; [| |exact Hch2|exact Hch3]; auto.
Qed.

(** When the list is empty up to its last slot, the refill is not tried: the
    result is [(size_t)-1] and nothing on disk changes. *)
Lemma getNewINode_exhausted s nos t mode uid gid :
  ok s -> IAllocMutex ∉ held s -> inode_area s ->
  inode_list s nos -> live (take 511 nos) = [] ->
  wp (getNewINode t mode uid gid) s (fun r s' => r = SIZE_MAX /\ ok s' /\
    changes (fun _ => False) s s').
Proof.
  intros Hok Hh Ha Hl Hlive. pose proof (inode_list_wf _ _ Hok Hl) as Hwf.
  pose proof Hl as (b & Hv & Hnos). pose proof (view_wf _ _ _ Hok Hv) as Hb.
  unfold getNewINode. apply wp_locked; [done..|].
  intros s1 Hok1 He1 Hview1 Htc1. rewrite <- Hview1 in Hv. apply wp_bind. eapply wp_Ret.
  { by apply (getDiskBlock_view _ _ b); auto with nao. }
  cbn beta iota. destruct (makeINodeListBlock b) as [nos'] eqn:Hmk. cbn [iNodeNos] in Hnos. subst nos'.
  rewrite checkAndGet_none by (done || apply Hwf). cbn beta iota.
  simpl (_ =? _). cbn iota. apply wp_bind, wp_ret, wp_bind.
  eapply wp_Ret; [by apply updateINodeData_beyond|]. apply wp_bind.
  assert (writeINodeListBlock (INodeListBlock nos) b = b) as ->.
  { rewrite <- Hmk. apply write_make_iNodeList; [done|apply Hb]. }
  apply wp_writeDiskBlock; [by apply store_calls|by eauto with nao|done|].
  intros s3 Hok3 Hv3 Hch3. apply wp_ret.
  split_and!; [done|by apply changes_env in Hch3|].
  intros s4 Hok4 He4 Hv4. split_and!; [done..|].
  eapply changes_via; eauto. eapply changes_same; eauto.
Qed.

(** ** Release *)

(** The effect of the first part of [freeINode]. *)
Lemma freeINode_common s n i nos (Q : unit -> dstate -> Prop) :
  ok s -> IFreeMutex ∉ held s -> inode_area s -> inode_num n ->
  disk_inode s n = Some i -> inode_list s nos ->
  (forall b s1 s2, wf_block b -> makeINodeListBlock b = INodeListBlock nos ->
     ok s2 -> same_env (set_held (IFreeMutex :: held s) s) s1 ->
     (forall m, view s1 m = view s m) ->
     changes (eq (inode_block n)) s1 s2 ->
     view s2 INODE_LIST_BLOCK = Some b ->
     disk_inode s2 n = Some (updated_inode i (time_at (time_calls s)) T_FREE 0 0 0 0 0) ->
     (forall m, inode_num m -> m <> n -> disk_inode s2 m = disk_inode s m) ->
     wp (let (isSavedInList, iNodeList) := saveInListIfPossible n (INodeListBlock nos) in
         let* freed :=
           (if negb isSavedInList then rememberIfNeeded n iNodeList ;;; ret true
            else writeDiskBlock INODE_LIST_BLOCK (writeINodeListBlock iNodeList b) ;;; ret false) in
         if freed : bool then undefined DoubleFree else ret tt) s2
       (fun _ s' => ok s' /\ same_env s1 s' /\
         forall s'', ok s'' -> same_env s s'' ->
           (forall n, view s'' n = view s' n) -> Q tt s'')) ->
  wp (freeINode n) s Q.
Proof.
  intros Hok Hh Ha Hn Hi (b & Hv & Hnos) Hk. pose proof (view_wf _ _ _ Hok Hv) as Hb.
  pose proof (inode_block_ge n Hn) as Hge.
  unfold freeINode. apply wp_locked; [done..|].
  intros s1 Hok1 He1 Hview1 Htc1. apply wp_bind.
  apply (updateINodeData_spec _ _ _ _ _ _ _ _ i); [done|by eapply inode_area_env|done| | |].
  { by rewrite (disk_inode_frame s). }
  { apply updated_inode_wf; try done; [eapply disk_inode_wf; [exact Hok|exact Hi|apply Hn]|..];
      unfold is_u32, is_u64; simpl; lia. }
  rewrite Htc1. intros s2 Hok2 Hch2 Hd2 Ho2. apply wp_bind.
  assert (view s2 INODE_LIST_BLOCK = Some b) as Hv2.
  { destruct Hch2 as [_ Hch2]. rewrite Hch2, Hview1 by (consts; lia). done. }
  eapply wp_Ret; [by apply (getDiskBlock_view _ _ b); auto with nao|]. cbn beta iota.
  assert (makeINodeListBlock b = INodeListBlock nos) as Hmk.
  { by destruct (makeINodeListBlock b); simpl in *; subst. }
  rewrite Hmk. eapply wp_mono; [apply (Hk b s1 s2); try done|by intros []].
  intros m Hm Hne. rewrite Ho2 by done. by rewrite (disk_inode_frame s).
Qed.

Lemma freeINode_push s n i k x tl :
  ok s -> IFreeMutex ∉ held s -> inode_area s -> inode_num n ->
  disk_inode s n = Some i -> inode_list s (replicate (S k) 0 ++ x :: tl) -> x <> 0 ->
  wp (freeINode n) s (fun _ s' => ok s' /\ inode_list s' (replicate k 0 ++ n :: x :: tl) /\
    disk_inode s' n = Some (updated_inode i (time_at (time_calls s)) T_FREE 0 0 0 0 0) /\
    (forall m, inode_num m -> m <> n -> disk_inode s' m = disk_inode s m) /\
    changes (fun m => m = INODE_LIST_BLOCK \/ m = inode_block n) s s').
Proof.
  intros Hok Hh Ha Hn Hi Hl Hx. pose proof (inode_list_wf _ _ Hok Hl) as Hwf.
  eapply freeINode_common; [done..|].
  intros b s1 s2 Hb Hmk Hok2 He1 Hview1 Hch2 Hv2 Hd2 Ho2.
  rewrite saveInList_room by done. cbn [negb]. cbn iota.
  assert (wf_iNodeNos (replicate k 0 ++ n :: x :: tl)) as Hwf'.
  { destruct (wf_iNodeNos_app _ _ _ Hwf) as (Hx' & [_ Hf] & Hlen). split.
    - rewrite length_app, length_replicate. simpl. lia.
    - apply Forall_app in Hf as [_ Hf]. apply Forall_app_2; [|by repeat constructor; try apply Hn; try apply Hx'].
      apply Forall_replicate. consts. lia. }
  apply wp_bind, wp_bind.
  apply wp_writeDiskBlock; [done|eauto with nao|by apply writeINodeListBlock_wf; [apply Hwf'|]|].
  intros s3 Hok3 Hv3 Hch3. apply wp_ret. cbn iota. apply wp_ret.
  split_and!; [done|etrans; by eapply changes_env|].
  intros s4 Hok4 He4 Hv4.
  assert (forall m, inode_num m -> disk_inode s4 m = disk_inode s2 m) as Hib.
  { intros m Hm. pose proof (inode_block_ge m Hm). destruct Hch3 as [_ Hch3].
    apply disk_inode_frame. rewrite Hv4, Hch3; [done|]. consts; lia. }
  split_and!; [done| | | |].
  - rewrite <- Hv4 in Hv3. by eapply inode_list_write.
  - by rewrite Hib.
  - intros m Hm Hne. rewrite Hib; auto.
  - eapply changes_via; eauto. eapply changes_trans; [| |exact Hch2|exact Hch3]; auto.
Qed.
(** With an empty list the number is reported as saved but is not. *)
Lemma freeINode_lost s n i :
  ok s -> IFreeMutex ∉ held s -> inode_area s -> inode_num n ->
  disk_inode s n = Some i -> inode_list s (replicate 512 0) ->
  wp (freeINode n) s (fun _ s' => ok s' /\ inode_list s' (replicate 512 0) /\
    disk_inode s' n = Some (updated_inode i (time_at (time_calls s)) T_FREE 0 0 0 0 0) /\
    changes (eq (inode_block n)) s s').
Proof.
  intros Hok Hh Ha Hn Hi Hl. pose proof (inode_list_wf _ _ Hok Hl) as Hwf.
  eapply freeINode_common; [done..|].
  intros b s1 s2 Hb Hmk Hok2 He1 Hview1 Hch2 Hv2 Hd2 Ho2.
  rewrite saveInList_empty. cbn [negb]. cbn iota. apply wp_bind, wp_bind.
  rewrite <- Hmk, write_make_iNodeList by (done || apply Hb).
  apply wp_writeDiskBlock; [done|eauto with nao|done|].
  intros s3 Hok3 Hv3 Hch3. apply wp_ret. cbn iota. apply wp_ret.
  split_and!; [done|etrans; by eapply changes_env|].
  intros s4 Hok4 He4 Hv4. pose proof (changes_same _ _ _ _ Hch3 Hv2 Hv3) as Hch3'.
  split_and!; [done| | |].
  - exists b. rewrite Hv4, Hv3, Hmk. done.
  - rewrite (disk_inode_frame s2); [done|]. rewrite Hv4. apply Hch3'. tauto.
  - apply (changes_via _ s s1 s3); [|done..].
    by apply (changes_trans (eq (inode_block n)) (fun _ => False) _ s1 s2 s3).
Qed.

Lemma writeSuperBlock_wf t b : wf_block b -> wf_block (writeSuperBlock t b).
Proof.
  intros [Hl Hb]. unfold writeSuperBlock. split.
  - rewrite length_memcpy_at; [done|]. rewrite length_le_enc. lia.
  - auto using Forall_memcpy_at, le_enc_bytes.
Qed.

Lemma rememberIfNeeded_returns s n l :
  ok s -> inode_area s -> exists s', rememberIfNeeded n l s = Ret tt s'.
Proof.
  intros Hok (_ & _ & Hc). unfold rememberIfNeeded. destruct (_ <? n); [by eexists|].
  assert (in_disk s SUPER_BLOCK) as Hi by (unfold in_disk; consts; lia).
  edestruct (wp_inv (S := dstate) (A := unit)) as ([] & s' & Hr & _); [|by exists s'].
  apply wp_bind, wp_getDiskBlock; [done..|auto with nao|]. intros d Hd _. cbn beta iota.
  apply wp_bind, wp_writeDiskBlock; [done..|by apply writeSuperBlock_wf|].
  intros s' _ _ _. by apply (wp_ret tt s' (fun _ _ => True)).
Qed.

(** With a full list the block buffer is given to [free] twice. *)
Lemma freeINode_full s n x tl :
  ok s -> IFreeMutex ∉ held s -> inode_area s -> inode_num n ->
  inode_list s (x :: tl) -> x <> 0 -> freeINode n s = Undef DoubleFree.
Proof.
  intros Hok Hh Ha Hn (b & Hv & Hnos) Hx. pose proof (inode_block_ge n Hn) as Hge.
  unfold freeINode, locked. rewrite (bind_Ret _ _ _ _ _ (lock_Ret _ _ Hh)).
  set (s1 := set_held _ s). assert (ok s1) as Hok1 by by apply store_held.
  destruct (access_read s1 n junk_iNode Hok1 Ha Hn) as (i & Hwfi & Hi & _).
  assert (wp (updateINodeData n T_FREE 0 0 0 0 0) s1 (fun _ s2 => ok s2 /\ inode_area s2 /\
    view s2 INODE_LIST_BLOCK = Some b)) as Hw.
  { apply (updateINodeData_spec s1 n T_FREE 0 0 0 0 0 i); [done..| |].
    - apply updated_inode_wf; try done; unfold is_u32, is_u64; simpl; lia.
    - intros s2 Hok2 Hch2 _ _. split_and!; [done|eapply inode_area_env; [by eapply changes_env|done]|].
      destruct Hch2 as [_ Hch2]. rewrite Hch2; [done|consts; lia]. }
  apply wp_inv in Hw as ([] & s2 & Hr & Hok2 & Ha2 & Hv2).
  rewrite bind_assoc, (bind_Ret _ _ _ _ _ Hr). cbn beta. rewrite bind_assoc.
  rewrite (bind_Ret _ _ _ _ _ (getDiskBlock_view INODE_LIST_BLOCK junk_block b s2 Hok2
    junk_block_wf Hv2)). cbn beta iota.
  destruct (makeINodeListBlock b) as [nos]. simpl in Hnos. subst nos.
  rewrite saveInList_full by done. cbn [negb]. cbn iota.
  destruct (rememberIfNeeded_returns s2 n (INodeListBlock (x :: tl)) Hok2 Ha2) as [s3 Hr3].
  rewrite !bind_assoc, (bind_Ret _ _ _ _ _ Hr3). done.
Qed.
End ialloc_lemmas.
