(* ===== verification/Mkfs.v ===== *)
(** Making a file system: [src/mkfs/freeBlockList.c] and [src/mkfs/mkfs.c]. *)

From S2P Require Export IAlloc.

(** * [freeBlockList.c] *)

(** The loop of [makeOneBlock] with [n] slots left before the end of the
    block: whether the end was reached, the next node number, the block. *)
Fixpoint make_one_loop (n : nat) (numOfBlocks nodeCounter : Z) (ptrIntoBlock : nat)
    (blockPtr : block) : bool * Z * block :=
  match n with
  | O => (true, nodeCounter, blockPtr)
  | S n' =>
      if nodeCounter <? numOfBlocks then
        make_one_loop n' numOfBlocks (nodeCounter + 1) (ptrIntoBlock + 8)
          (memcpy_at blockPtr ptrIntoBlock (le_enc 8 nodeCounter))
      else (false, nodeCounter, blockPtr)
  end.

Definition makeOneBlock (numOfBlocks startNode : Z) : Z * block :=
  let '(atEnd, nodeCounter, blockPtr) := make_one_loop 128 numOfBlocks startNode 0 zero_block in
  (if atEnd then nodeCounter - 1 else 0, blockPtr).

(** * [mkfs.c] *)

Definition S_IFDIR : Z := 16384.

Section mkfs.
Context `{Host}.

Definition assignRootData : DM unit :=
  let rootINodeNum := 0 in
  let* (_, rootINode) := getDiskInode rootINodeNum junk_iNode in
  let* blockNum := blockAlloc in
  let rootINode :=
    INode (device_number rootINode) (inode_number rootINode) (access rootINode)
      (modification rootINode) (status_change rootINode) (linksCount rootINode)
      T_DIRECTORY (Z.lor S_IFDIR 511) (owner_uid rootINode) (group_uid rootINode)
      (<[0%nat := blockNum]> (dataBlockNums rootINode)) (size rootINode) in
  writeDiskInode rootINodeNum rootINode ;;;
  ret tt.

Definition writeINodeListToDisk (freeBlockNum iNodeListSize : Z) : DM Z :=
  assignRootData ;;;
  let iNodeList := seqZ 1 iNodeListSize in
  let (rememberedINode, metaBlock) := initINodeListBlock iNodeList in
  writeDiskBlock freeBlockNum metaBlock ;;;
  ret rememberedINode.

Definition getINodeListSize : Z :=
  let iNodeAddressesPerBlock := BLOCK_SIZE / INODE_ADDRESS_SIZE in
  if NUM_OF_INODES <? iNodeAddressesPerBlock then NUM_OF_INODES else iNodeAddressesPerBlock.

Definition createINodes (startPos : Z) : DM unit :=
  let* s := get in
  let endOfINodeBlocks := startPos + NUM_OF_INODE_BLOCKS (prm s) in
  while_do (S (Z.to_nat (NUM_OF_INODE_BLOCKS (prm s))))
    (fun '(blockCounter, _) => blockCounter <? endOfINodeBlocks)
    (fun '(blockCounter, iNodeCounter) =>
       match populateINodesIn (INODE_SIZE (prm s)) iNodeCounter with
       | None => fun _ => NoFuel
       | Some (iNodeCounter, metaBlock) =>
           writeDiskBlock blockCounter metaBlock ;;;
           ret (Next (blockCounter + 1, iNodeCounter))
       end)
    (startPos, 0) ;;;
  ret tt.

Definition initializeINodeData (freeBlockNum startPos : Z) : DM Z :=
  createINodes startPos ;;;
  let iNodeListSize := getINodeListSize in
  writeINodeListToDisk freeBlockNum iNodeListSize.

(** Each iteration of the loop uses up 128 block numbers. *)
Definition initializeDiskBlocks (freeBlockNum startPos : Z) : DM unit :=
  let* s := get in
  let freeBlocksPerBlock := BLOCK_SIZE / BLOCK_ADDRESS_SIZE in
  while_do (2 + Z.to_nat (NUM_OF_BLOCKS (prm s) / 128))
    (fun '(pointerBlockNumber, _) => pointerBlockNumber <? NUM_OF_BLOCKS (prm s))
    (fun '(pointerBlockNumber, startPos) =>
       let (nextFreeListNumber, metaBlock) := makeOneBlock (NUM_OF_BLOCKS (prm s)) startPos in
       writeDiskBlock pointerBlockNumber metaBlock ;;;
       if nextFreeListNumber =? 0 then ret (Break (pointerBlockNumber, startPos))
       else ret (Next (nextFreeListNumber, startPos + freeBlocksPerBlock)))
    (freeBlockNum, startPos) ;;;
  ret tt.

Definition makeFileSystem : DM unit :=
  match initializeINodeParams sizeof_iNode with
  | None => fun _ => NoFuel
  | Some p =>
      modify (set_prm p) ;;;
      let* iNodeToRemember := initializeINodeData INODE_LIST_BLOCK INODE_BLOCKS_HEAD in
      initializeDiskBlocks FREE_LIST_BLOCK (4 + NUM_OF_INODE_BLOCKS p) ;;;
      let superBlockData := writeSuperBlock (SuperBlock iNodeToRemember) junk_block in
      writeDiskBlock SUPER_BLOCK superBlockData ;;;
      ret tt
  end.

End mkfs.

(** * The block that [makeOneBlock] builds *)

Lemma make_one_loop_eq n numBlocks c p b :
  c <= numBlocks ->
  make_one_loop n numBlocks c p b =
    let m := Z.min (Z.of_nat n) (numBlocks - c) in
    (bool_decide (m = Z.of_nat n), c + m, write_words 8 (seqZ c m) p b).
Proof.
  revert c p b. induction n as [|n IH]; intros c p b Hc; cbn [make_one_loop].
  - rewrite Z.min_l by lia. simpl. by rewrite Z.add_0_r.
  - destruct (Z.ltb_spec c numBlocks) as [Hlt|Hge].
    + rewrite IH by lia. cbv zeta.
      assert (Z.min (Z.of_nat (S n)) (numBlocks - c) =
        Z.succ (Z.min (Z.of_nat n) (numBlocks - (c + 1)))) as -> by lia.
      set (m := Z.min (Z.of_nat n) (numBlocks - (c + 1))).
      rewrite (seqZ_cons c (Z.succ m)) by (subst m; lia). rewrite Z.pred_succ, <- Z.add_1_r.
      f_equal. f_equal; [|lia]. apply bool_decide_ext. lia.
    + rewrite Z.min_r by lia. replace (numBlocks - c) with 0 by lia. cbv zeta.
      rewrite (bool_decide_eq_false_2 (0 = Z.of_nat (S n))) by lia. by rewrite Z.add_0_r.
Qed.

Lemma zero_block_words : zero_block = enc_words 8 (replicate 128 0).
Proof. reflexivity. Qed.

Lemma enc_words_app w a b : enc_words w (a ++ b) = enc_words w a ++ enc_words w b.
Proof. unfold enc_words. by rewrite fmap_app, concat_app. Qed.

Lemma write_words_zero ws :
  (length ws <= 128)%nat ->
  write_words 8 ws 0 zero_block = enc_words 8 (ws ++ replicate (128 - length ws) 0).
Proof.
  intros Hl. rewrite write_words_eq by (rewrite zero_block_words, length_enc_words, length_replicate; lia).
  unfold memcpy_at. rewrite take_0, enc_words_app, length_enc_words. cbn [app]. f_equal.
  rewrite zero_block_words. replace 128%nat with (length ws + (128 - length ws))%nat at 1 by lia.
  rewrite replicate_add, enc_words_app.
  by rewrite drop_app_length' by (rewrite length_enc_words, length_replicate; lia).
Qed.

Lemma entries_enc ws : wf_blkNos ws -> entries (enc_words 8 ws) = ws.
Proof.
  intros [Hl Hf]. unfold entries, makeFreeDiskListBlock; cbn [blkNos].
  rewrite <- (app_nil_r (enc_words 8 ws)), <- Hl. by apply read_words_enc.
Qed.

Lemma makeOneBlock_spec numBlocks start :
  0 <= start <= numBlocks -> numBlocks < 2 ^ 63 ->
  let m := Z.min 128 (numBlocks - start) in
  exists b, makeOneBlock numBlocks start = (if decide (m = 128) then start + 127 else 0, b) /\
    wf_block b /\ entries b = seqZ start m ++ replicate (Z.to_nat (128 - m)) 0.
Proof.
  intros Hs Hn m. unfold makeOneBlock. rewrite make_one_loop_eq by lia.
  change (Z.of_nat 128) with 128. cbv zeta. fold m.
  assert (length (seqZ start m) = Z.to_nat m) as Hl by apply length_seqZ.
  rewrite write_words_zero by lia. rewrite Hl.
  replace (128 - Z.to_nat m)%nat with (Z.to_nat (128 - m)) by lia.
  eexists; split_and!.
  - f_equal. destruct (decide (m = 128)) as [E|E].
    + rewrite bool_decide_eq_true_2 by done. lia.
    + by rewrite bool_decide_eq_false_2.
  - apply wf_block_enc. rewrite length_app, length_replicate. lia.
  - apply entries_enc. split; [rewrite length_app, length_replicate; lia|].
    apply Forall_app_2; [|apply Forall_replicate; unfold is_u64; lia].
    apply Forall_forall. intros x Hx%elem_of_seqZ. unfold is_u64. lia.
Qed.

(** * The free list of a new file system *)

Section mkfs_blocks.
Context `{BlockStore ok}.

Lemma live_seqZ a n : 0 < a -> live (seqZ a n) = seqZ a n.
Proof. intros Ha. apply live_all, Forall_forall. intros x Hx%elem_of_seqZ. lia. Qed.

(** The loop lists the blocks from [start] on in a chain that begins at [ptr]. *)
Lemma initializeDiskBlocks_loop N fuel : forall ptr start s (Q : Z * Z -> dstate -> Prop),
  ok s -> N <= capacity s -> N < 2 ^ 63 -> 0 <= ptr < start -> start <= N -> ptr < N ->
  (Z.to_nat ((N - start) / 128) < fuel)%nat ->
  (forall r s' raw, ok s' -> changes (fun n => n = ptr \/ start <= n < N) s s' ->
     view s' ptr = Some raw -> chain (view s') (entries raw) (seqZ start (N - start)) -> Q r s') ->
  wp (while_do fuel (fun '(pointerBlockNumber, _) => pointerBlockNumber <? N)
    (fun '(pointerBlockNumber, startPos) =>
       let (nextFreeListNumber, metaBlock) := makeOneBlock N startPos in
       writeDiskBlock pointerBlockNumber metaBlock ;;;
       if nextFreeListNumber =? 0 then ret (Break (pointerBlockNumber, startPos))
       else ret (Next (nextFreeListNumber, startPos + BLOCK_SIZE / BLOCK_ADDRESS_SIZE)))
    (ptr, start)) s Q.
Proof.
  induction fuel as [|fuel IH]; intros ptr start s Q Hok HN HN' Hptr Hst Hp Hfuel HQ; [lia|].
  cbn [while_do]. rewrite (proj2 (Z.ltb_lt _ _)) by lia.
  destruct (makeOneBlock_spec N start) as (b & -> & Hb & He); [lia..|].
  apply wp_bind, wp_bind. apply wp_writeDiskBlock; [done|unfold in_disk; lia|done|].
  intros s1 Hok1 Hv1 Hch1. pose proof (changes_env _ _ _ Hch1) as He1.
  assert (changes (fun n => n = ptr \/ start <= n < N) s s1) as Hch1'.
  { eapply changes_mono; [|exact Hch1]. intros n <-. by left. }
  destruct (decide (Z.min 128 (N - start) = 128)) as [E|E].
  - destruct (Z.eqb_spec (start + 127) 0); [lia|]. apply wp_ret. cbn iota.
    change (BLOCK_SIZE / BLOCK_ADDRESS_SIZE) with 128.
    assert ((N - start) / 128 = (N - (start + 128)) / 128 + 1) as Hdiv.
    { replace (N - start) with (N - (start + 128) + 1 * 128) by lia. by rewrite Z.div_add. }
    pose proof (Z.div_pos (N - (start + 128)) 128).
    apply IH; try lia; [done|by rewrite <- (capacity_proper _ _ He1)|].
    intros r s' raw Hok' Hch' Hv' Hc'. apply (HQ r s' b); [done| | |].
    + eapply changes_trans; [| |exact Hch1'|exact Hch']; simpl; [auto|lia].
    + destruct Hch' as [_ Hch']. by rewrite Hch' by lia.
    + rewrite E, Z.sub_diag, app_nil_r in He.
      replace (seqZ start (N - start)) with (live (entries b) ++ seqZ (start + 128) (N - (start + 128))).
      2:{ rewrite He, live_seqZ by lia. rewrite <- (seqZ_app start 128 (N - (start + 128))) by lia.
          f_equal. lia. }
      apply (chain_next _ _ (start + 127) raw); try done.
      * rewrite He. apply lookup_seqZ. lia.
      * exists 0%nat, (seqZ start 128). split; [done|].
        apply Forall_forall. intros x Hx%elem_of_seqZ. lia.
  - rewrite Z.eqb_refl. apply wp_ret. cbn iota. apply wp_ret.
    apply (HQ _ s1 b); [done..|]. rewrite Z.min_r in He by lia.
    replace (seqZ start (N - start)) with (live (entries b)).
    2:{ by rewrite He, live_app, live_zeros, app_nil_r, live_seqZ by lia. }
    apply chain_last. rewrite He, lookup_app_r; rewrite length_seqZ; [|lia].
    apply lookup_replicate_2. lia.
Qed.

Lemma initializeDiskBlocks_chain start s :
  ok s -> NUM_OF_BLOCKS (prm s) <= capacity s -> NUM_OF_BLOCKS (prm s) < 2 ^ 63 ->
  FREE_LIST_BLOCK < start <= NUM_OF_BLOCKS (prm s) ->
  wp (initializeDiskBlocks FREE_LIST_BLOCK start) s (fun _ s' => ok s' /\
    free_list s' (seqZ start (NUM_OF_BLOCKS (prm s) - start)) /\
    changes (fun n => n = FREE_LIST_BLOCK \/ start <= n < NUM_OF_BLOCKS (prm s)) s s').
Proof.
  intros Hok Hc HN Hst. set (N := NUM_OF_BLOCKS (prm s)) in *.
  unfold initializeDiskBlocks. apply wp_bind. eapply wp_Ret; [done|]. cbv zeta. fold N.
  apply wp_bind.
  apply initializeDiskBlocks_loop; try done; try (consts; lia).
  { pose proof (Z.div_le_mono (N - start) N 128). pose proof (Z.div_pos (N - start) 128). consts; lia. }
  intros r s' raw Hok' Hch Hv Hchain. apply wp_ret. split_and!; [done| |done].
  exists raw. split_and!; [done|done|apply NoDup_seqZ| |].
  - rewrite <- list_elem_of_In, elem_of_seqZ. lia.
  - apply Forall_forall. intros x Hx%elem_of_seqZ. unfold in_disk.
    rewrite <- (capacity_proper _ _ (changes_env _ _ _ Hch)). consts; lia.
Qed.

(** ** The inode table *)

Lemma initializeINode_lt n : n < NUM_OF_INODES ->
  initializeINode n = INode 0 n 0 0 0 0 T_FREE 0 0 0 (replicate 13 0) 0.
Proof. intros Hn. unfold initializeINode. by rewrite (proj2 (Z.leb_gt _ _)). Qed.

Lemma populate_loop_step f sz p c b :
  p < BLOCK_SIZE ->
  populate_loop (S f) sz p c b =
    populate_loop f sz (p + sz) (c + 1)
      (memcpy_at b (Z.to_nat p) (iNode_bytes (initializeINode c))).
Proof. intros Hp. cbn [populate_loop]. by rewrite (proj2 (Z.ltb_lt _ _)). Qed.

Lemma populate_loop_end f sz p c b :
  BLOCK_SIZE <= p -> populate_loop f sz p c b = Some (c, b).
Proof. intros Hp. destruct f; cbn [populate_loop]; by rewrite (proj2 (Z.ltb_ge _ _)). Qed.

(** One block of four fresh inodes. *)
Lemma populateINodesIn_spec n :
  0 <= n -> n + 3 < NUM_OF_INODES ->
  exists b, populateINodesIn 256 n = Some (n + 4, b) /\ wf_block b /\ forall k, 0 <= k < 4 ->
      iNode_of_bytes (bytes_at b (Z.to_nat (k * 256)) 176) = initializeINode (n + k).
Proof.
  intros Hn Hn3.
  assert (forall k, 0 <= k -> length (iNode_bytes (initializeINode (n + k))) = 176%nat) as Hlen.
  { intros k Hk. apply length_iNode_bytes.
    destruct (initializeINode_wf (n + k)) as (_&_&_&_&_&_&_&_&_&_&[Hd _]&_); [lia|exact Hd]. }
  set (B k := iNode_bytes (initializeINode (n + k))).
  set (b := memcpy_at (memcpy_at (memcpy_at (memcpy_at zero_block 0 (B 0)) 256 (B 1)) 512 (B 2)) 768 (B 3)).
  assert (length b = 1024%nat /\ forall off k, (0 <= k < 4) -> off = Z.to_nat (k * 256) ->
    bytes_at b off 176 = B k) as [Hb Hbk].
  { assert (forall x, (0 <= x) -> length (B x) = 176%nat) as HB by done.
    subst b. split.
    - repeat (rewrite length_memcpy_at; rewrite ?HB by lia); simpl; lia.
    - intros off k Hk ->.
      assert (k = 0 \/ k = 1 \/ k = 2 \/ k = 3) as Hcase by lia.
      assert (forall d o x, length d = 1024%nat -> (0 <= x) -> (o + 176 <= 1024)%nat ->
        length (memcpy_at d o (B x)) = 1024%nat) as HL.
      { intros d o x Hd Hx Ho. rewrite length_memcpy_at; rewrite ?HB; lia. }
      assert (forall d o o' x, length d = 1024%nat -> (0 <= x) -> (o + 176 <= 1024)%nat ->
        (o' + 176 <= o)%nat -> bytes_at (memcpy_at d o (B x)) o' 176 = bytes_at d o' 176) as HO.
      { intros d o o' x Hd Hx Ho Ho'. apply bytes_at_memcpy_other; rewrite HB; lia. }
      assert (forall d o x, length d = 1024%nat -> (0 <= x) -> (o + 176 <= 1024)%nat ->
        bytes_at (memcpy_at d o (B x)) o 176 = B x) as HS.
      { intros d o x Hd Hx Ho. rewrite <- (HB x Hx) at 1. apply bytes_at_memcpy_same.
        rewrite HB; lia. }
      destruct Hcase as [->|[->|[->| ->]]]; simpl Z.to_nat;
        repeat (rewrite HO; [|repeat (apply HL; [|lia..]); reflexivity|lia..]);
        (apply HS; [repeat (apply HL; [|lia..]); reflexivity|lia..]). }
  exists b. split_and!; [|split; [done|]|].
  - unfold populateINodesIn. change 1024%nat with (4 + 1020)%nat. generalize 1020%nat as f. intros f.
    cbn [Nat.add]. rewrite !populate_loop_step, populate_loop_end by (unfold BLOCK_SIZE; lia).
    unfold b, B. rewrite Z.add_0_r, <- !Z.add_assoc. reflexivity.
  - subst b. repeat (apply Forall_memcpy_at; [|apply iNode_bytes_bytes]). apply zero_block_wf.
  - intros k Hk. rewrite (Hbk _ k Hk eq_refl). rewrite <- (app_nil_r (B k)).
    apply iNode_of_bytes_of, initializeINode_wf. lia.
Qed.

Definition std_disk (s : dstate) : Prop :=
  INODE_SIZE (prm s) = 256 /\ NUM_OF_INODE_BLOCKS (prm s) = 16384 /\ 16388 <= capacity s.

Definition inode_zone (n : Z) : Prop := INODE_BLOCKS_HEAD <= n < 16388.

(** The inodes below [k] are fresh. *)
Definition fresh_inodes (s : dstate) (k : Z) : Prop :=
  forall n, 0 <= n < k -> disk_inode s n = Some (initializeINode n).

Lemma disk_inode_same s n b :
  view s (inode_block n) = Some b ->
  disk_inode s n = Some (iNode_of_bytes (bytes_at b (Z.to_nat (n mod 4 * 256)) 176)).
Proof. intros Hv. unfold disk_inode. by rewrite Hv. Qed.

Lemma fresh_inodes_step s s' c b :
  0 <= c -> fresh_inodes s (4 * c) -> changes (eq (c + INODE_BLOCKS_HEAD)) s s' ->
  view s' (c + INODE_BLOCKS_HEAD) = Some b ->
  (forall k, 0 <= k < 4 ->
     iNode_of_bytes (bytes_at b (Z.to_nat (k * 256)) 176) = initializeINode (4 * c + k)) ->
  fresh_inodes s' (4 * c + 4).
Proof.
  intros Hc Hf [_ Hch] Hv Hb n Hn. destruct (decide (n < 4 * c)) as [Hlt|Hge].
  - rewrite <- Hf by lia. apply disk_inode_frame, Hch. unfold inode_block.
    pose proof (Z.div_lt_upper_bound n 4 c). lia.
  - assert (n / 4 = c) as Hd by (symmetry; apply (Z.div_unique n 4 c (n - 4 * c)); lia).
    assert (n mod 4 = n - 4 * c) as Hm by (symmetry; apply (Z.mod_unique n 4 c); lia).
    rewrite (disk_inode_same _ _ b) by (unfold inode_block; rewrite Hd; exact Hv).
    rewrite Hm, Hb by lia. do 2 f_equal. lia.
Qed.

Lemma createINodes_spec s :
  ok s -> std_disk s ->
  wp (createINodes INODE_BLOCKS_HEAD) s (fun _ s' =>
    ok s' /\ changes inode_zone s s' /\ fresh_inodes s' NUM_OF_INODES).
Proof.
  intros Hok (Hsz & Hnb & Hcap). unfold createINodes. apply wp_bind. eapply wp_Ret; [done|].
  cbv zeta. rewrite Hsz, Hnb. apply wp_bind.
  apply (wp_while (fun '(bc, ic) s' => exists c, 0 <= c <= 16384 /\ bc = c + INODE_BLOCKS_HEAD /\
      ic = 4 * c /\ ok s' /\ changes inode_zone s s' /\ fresh_inodes s' (4 * c))
    (fun '(bc, _) => Z.to_nat (16388 - bc))).
  - intros [bc ic] s1 (c & Hc & -> & -> & Hok1 & Hch1 & Hf1) Hlt%Z.ltb_lt.
    destruct (populateINodesIn_spec (4 * c)) as (b & -> & Hb & Hbk); [lia|consts; lia|].
    pose proof (changes_env _ _ _ Hch1) as He1.
    apply wp_bind, wp_writeDiskBlock; [done| |done|].
    { apply (in_disk_env _ _ _ He1). unfold in_disk. consts; lia. }
    intros s2 Hok2 Hv2 Hch2. apply wp_ret. split; [|consts; lia].
    exists (c + 1). split_and!; try done; try (consts; lia).
    + eapply changes_trans; [| |exact Hch1|exact Hch2]; [done|]. unfold inode_zone. consts; lia.
    + replace (4 * (c + 1)) with (4 * c + 4) by lia.
      apply (fresh_inodes_step s1 s2 c b); try done. lia.
  - intros [bc ic] s1 (c & Hc & -> & -> & Hok1 & Hch1 & Hf1) Hge%Z.ltb_ge. apply wp_ret.
    split_and!; try done. intros n Hn. apply Hf1. consts; lia.
  - exists 0. split_and!; try done. intros n Hn. lia.
  - consts; lia.
Qed.

(** ** Allocation from a list with any contents *)

Lemma alloc_scan_wf l c :
  Forall is_u64 l ->
  let '(b, _, l') := alloc_scan l c in is_u64 b /\ length l' = length l.
Proof.
  intros Hl. revert c. induction Hl as [|x l Hx Hl IH]; intros c; simpl; [done|].
  destruct (x =? 0); simpl; [|done]. specialize (IH (c + 1)).
  destruct (alloc_scan l (c + 1)) as [[b c'] l']. destruct IH as [IH1 IH2].
  simpl. by rewrite IH2.
Qed.

Lemma wp_getDiskBlock_any n buf s (Q : Z * block -> dstate -> Prop) :
  ok s -> 0 <= n -> wf_block buf -> (forall r b, wf_block b -> Q (r, b) s) ->
  wp (getDiskBlock n buf) s Q.
Proof.
  intros Hok Hn Hbuf HQ. destruct (decide (in_disk s n)) as [Hi|Hi].
  - apply wp_getDiskBlock; auto.
  - eapply wp_Ret; [by apply getDiskBlock_out|]. auto.
Qed.

Lemma blockAlloc_any s :
  ok s -> AllocMutex ∉ held s -> in_disk s FREE_LIST_BLOCK ->
  wp blockAlloc s (fun r s' => is_u64 r /\ ok s' /\ changes (eq FREE_LIST_BLOCK) s s').
Proof.
  intros Hok Hh Hin. unfold blockAlloc. apply wp_locked; [done..|].
  intros s1 Hok1 He1 Hv1 _.
  assert (in_disk s1 FREE_LIST_BLOCK) as Hin1 by by apply (in_disk_env _ _ _ He1).
  apply wp_bind, wp_getDiskBlock; [done..|auto with nao|]. intros raw Hraw Hv.
  cbn beta iota. fold (entries raw).
  pose proof (entries_wf _ Hraw) as [Hl Hu]. pose proof (alloc_scan_wf _ 0 Hu) as Hs.
  destruct (alloc_scan (entries raw) 0) as [[b c] l']. destruct Hs as [Hb Hl'].
  assert (forall raw', wf_block raw' -> wp (writeDiskBlock FREE_LIST_BLOCK raw' ;;; ret b) s1
    (fun a s' => ok s' /\ same_env s1 s' /\ forall s'', ok s'' -> same_env s s'' ->
       (forall n, view s'' n = view s' n) ->
       is_u64 a /\ ok s'' /\ changes (eq FREE_LIST_BLOCK) s s'')) as Hw.
  { intros raw' Hraw'. apply wp_bind, wp_writeDiskBlock; [done..|].
    intros s2 Hok2 Hv2 Hch2. apply wp_ret. split_and!; [done|by eapply changes_env|].
    intros s3 Hok3 He3 Hv3. split_and!; [done..|]. by eapply changes_via. }
  apply wp_bind. destruct (c =? _).
  - apply wp_bind, wp_getDiskBlock_any; [done|apply Hb|done|]. intros r b' Hb'.
    by apply wp_ret, Hw.
  - apply wp_ret, Hw. apply writeFreeDiskListBlock_wf; [simpl; lia|done].
Qed.

(** ** The root directory, the list of free inodes and the whole *)

(** The inode of the root directory, whose first block is [r]. *)
Definition root_iNode (r : Z) : iNode :=
  INode 0 0 0 0 0 0 T_DIRECTORY (Z.lor S_IFDIR 511) 0 0 (r :: replicate 12 0) 0.

Lemma root_iNode_wf r : is_u64 r -> wf_iNode (root_iNode r).
Proof.
  intros Hr. unfold wf_iNode, root_iNode; simpl.
  split_and!; try done. repeat constructor; try done; apply Hr.
Qed.

Lemma initINodeListBlock_spec l :
  wf_iNodeNos l -> exists b, initINodeListBlock l = (default 0 (last l), b) /\
    wf_block b /\ iNodeNos (makeINodeListBlock b) = l.
Proof.
  intros Hl. pose proof Hl as [Hlen _]. exists (write_words 2 l 0 zero_block). split_and!.
  - unfold initINodeListBlock. by rewrite Hlen.
  - apply (writeINodeListBlock_wf (INodeListBlock l)); auto with nao.
  - change (write_words 2 l 0 zero_block) with (writeINodeListBlock (INodeListBlock l) zero_block).
    by rewrite make_write_iNodeList.
Qed.

Lemma seqZ_nos_wf : wf_iNodeNos (seqZ 1 getINodeListSize).
Proof. by apply (bool_decide_eq_true_1 (wf_iNodeNos (seqZ 1 getINodeListSize))). Qed.

Lemma assignRootData_spec s (Q : unit -> dstate -> Prop) :
  ok s -> inode_area s -> AllocMutex ∉ held s -> disk_inode s 0 = Some (initializeINode 0) ->
  (forall r s', ok s' -> is_u64 r -> disk_inode s' 0 = Some (root_iNode r) ->
     (forall m, inode_num m -> m <> 0 -> disk_inode s' m = disk_inode s m) ->
     changes (fun n => n = FREE_LIST_BLOCK \/ n = INODE_BLOCKS_HEAD) s s' -> Q tt s') ->
  wp assignRootData s Q.
Proof.
  intros Hok Ha Hh Hi HQ. unfold assignRootData. cbv zeta.
  destruct (access_read s 0 junk_iNode Hok Ha) as (i & _ & Hi' & Hr); [done|].
  rewrite Hi in Hi'. injection Hi' as <-.
  apply wp_bind. eapply wp_Ret; [exact Hr|]. cbn beta iota. apply wp_bind.
  eapply wp_mono; [apply blockAlloc_any; [done..|]|].
  { destruct Ha as (_ & _ & Hc). unfold in_disk. consts; lia. }
  intros r s1 (Hr64 & Hok1 & Hch1). apply wp_bind. pose proof (changes_env _ _ _ Hch1) as He1.
  assert (forall m, inode_num m -> disk_inode s1 m = disk_inode s m) as Hd1.
  { intros m Hm. apply disk_inode_frame. destruct Hch1 as [_ Hch1]. apply Hch1.
    pose proof (inode_block_ge m Hm). consts; lia. }
  unfold writeDiskInode. apply wp_bind.
  apply access_write; [done|by eapply inode_area_env|done|by apply root_iNode_wf|].
  intros s2 Hok2 Hch2 Hd2 Ho2. apply wp_ret, wp_ret. apply (HQ r); try done.
  - intros m Hm Hne. by rewrite Ho2, Hd1.
  - eapply changes_trans; [| |exact Hch1|exact Hch2]; [auto|]. intros n <-. by right.
Qed.

(** What [makeFileSystem] leaves on a disk large enough. *)
Definition new_file_system (s : dstate) : Prop :=
  prm s = std_params /\
  free_list s (seqZ 16388 (31457280 - 16388)) /\
  inode_list s (seqZ 1 512) /\
  (exists b, view s SUPER_BLOCK = Some b /\ makeSuperBlock b = SuperBlock 512) /\
  (exists r, disk_inode s 0 = Some (root_iNode r)) /\
  (forall n, 1 <= n < NUM_OF_INODES -> disk_inode s n = Some (initializeINode n)).

Lemma writeINodeListToDisk_spec s (Q : Z -> dstate -> Prop) :
  ok s -> inode_area s -> AllocMutex ∉ held s -> fresh_inodes s NUM_OF_INODES ->
  (forall s' r, ok s' -> same_env s s' -> inode_list s' (seqZ 1 512) ->
     disk_inode s' 0 = Some (root_iNode r) ->
     (forall n, 1 <= n < NUM_OF_INODES -> disk_inode s' n = Some (initializeINode n)) ->
     Q 512 s') ->
  wp (writeINodeListToDisk INODE_LIST_BLOCK getINodeListSize) s Q.
Proof.
  intros Hok Ha Hh Hf HQ. unfold writeINodeListToDisk. apply wp_bind.
  apply assignRootData_spec; [done..|by apply Hf|].
  intros r s1 Hok1 Hr Hd1 Ho1 Hch1. cbv zeta. pose proof (changes_env _ _ _ Hch1) as He1.
  destruct (initINodeListBlock_spec _ seqZ_nos_wf) as (b & -> & Hb & Hnos).
  apply wp_bind, wp_writeDiskBlock; [done| |done|].
  { apply (in_disk_env _ _ _ He1). destruct Ha as (_ & _ & Hc). unfold in_disk. consts; lia. }
  intros s2 Hok2 Hv2 Hch2. apply wp_ret. change (default 0 _) with 512.
  assert (forall m, inode_num m -> disk_inode s2 m = disk_inode s1 m) as Hd2.
  { intros m Hm. apply disk_inode_frame. destruct Hch2 as [_ Hch2]. apply Hch2.
    pose proof (inode_block_ge m Hm). consts; lia. }
  apply (HQ s2 r); [done|etrans; [exact He1|by eapply changes_env]|by exists b|by rewrite Hd2|].
  intros n Hn. rewrite Hd2, Ho1 by (unfold inode_num; lia). apply Hf. lia.
Qed.

Lemma makeFileSystem_spec s :
  ok (set_prm std_params s) -> 31457280 <= capacity (set_prm std_params s) ->
  AllocMutex ∉ held s ->
  wp makeFileSystem s (fun _ s' => ok s' /\ new_file_system s' /\
    same_env (set_prm std_params s) s').
Proof.
  intros Hok Hcap Hh. unfold makeFileSystem. rewrite initializeINodeParams_std.
  apply wp_bind. eapply wp_Ret; [done|]. set (s0 := set_prm std_params s) in *.
  apply wp_bind. unfold initializeINodeData. apply wp_bind.
  assert (std_disk s0) as Hstd by (split_and!; [done|done|lia]).
  eapply wp_mono; [by apply createINodes_spec|]. intros _ s1 (Hok1 & Hch1 & Hf1). cbv zeta.
  pose proof (changes_env _ _ _ Hch1) as He1.
  assert (inode_area s1) as Ha1.
  { apply (inode_area_env s0); [done|]. split_and!; [done|done|lia]. }
  apply writeINodeListToDisk_spec; [done|done|by destruct He1 as (_&_&_&->)|done|].
  intros s2 r Hok2 He2 Hl2 Hr2 Hd2.
  assert (same_env s0 s2) as He02 by (etrans; eassumption).
  assert (prm s2 = std_params) as Hp2 by (by destruct He02 as (_&_&->&_)).
  pose proof (capacity_proper _ _ He02) as Hc2.
  apply wp_bind. change (4 + NUM_OF_INODE_BLOCKS std_params) with 16388.
  eapply wp_mono; [apply initializeDiskBlocks_chain; rewrite ?Hp2; cbn [NUM_OF_BLOCKS std_params];
    [done|lia|lia|consts; lia]|].
  rewrite Hp2. cbn [NUM_OF_BLOCKS std_params]. intros _ s3 (Hok3 & Hl3 & Hch3).
  cbv zeta. pose proof (changes_env _ _ _ Hch3) as He3.
  apply wp_bind, wp_writeDiskBlock; [done| |apply writeSuperBlock_wf, junk_block_wf|].
  { apply (in_disk_env _ _ _ He3). unfold in_disk. consts; lia. }
  intros s4 Hok4 Hv4 Hch4. apply wp_ret. split; [done|].
  pose proof (changes_env _ _ _ Hch4) as He4. destruct Hch3 as [_ Hch3], Hch4 as [_ Hch4].
  split; [|etrans; [exact He02|by etrans]].
  assert (forall n, 3 <= n < 16388 -> view s4 n = view s2 n) as Hv.
  { intros n Hn. rewrite Hch4, Hch3; [done|consts; lia|consts; lia]. }
  assert (forall m, inode_num m -> disk_inode s4 m = disk_inode s2 m) as Hd4.
  { intros m Hm. apply disk_inode_frame, Hv. pose proof (inode_block_ge m Hm).
    unfold inode_num in Hm. unfold inode_block in *.
    pose proof (Z.div_lt_upper_bound m 4 16384). consts; lia. }
  split_and!.
  - destruct He3 as (_&_&Hp3&_), He4 as (_&_&Hp4&_). congruence.
  - eapply free_list_frame; [exact Hl3|done|]. intros n Hn. apply Hch4.
    destruct Hn as [->|Hn]; [done|]. rewrite <- list_elem_of_In in Hn.
    apply elem_of_seqZ in Hn. consts; lia.
  - apply (inode_list_frame s2); [done|]. apply Hv. consts; lia.
  - eexists. split; [exact Hv4|]. apply make_write_superBlock; [done|apply junk_block_wf].
  - exists r. by rewrite Hd4.
  - intros n Hn. rewrite Hd4 by (unfold inode_num; lia). by apply Hd2.
Qed.
End mkfs_blocks.
