(* ===== verification/BlockTree.v ===== *)
(** The blocks of a file: [src/incoreInodeOps/iNodeManager.c] (index
    computation, growth and release) and [src/incoreInodeOps/bmap.c] (from a
    byte offset to a disk block).

    The in-core inode is passed and returned as a value; the cache that holds
    it is in [ICache.v]. *)

From S2P Require Export Mkfs.

(** * [incoreInodeOps/iNodeManager.c] *)

Definition ERROR_BLOCK : Z := 0.
Definition SINGLE_INDIRECT_LIMIT : Z := DIRECT_BLOCK_LIMIT + BLOCK_ADDRESSES_PER_BLOCK.
Definition DOUBLE_INDIRECT_LIMIT : Z :=
  SINGLE_INDIRECT_LIMIT + BLOCK_ADDRESSES_PER_BLOCK * BLOCK_ADDRESSES_PER_BLOCK.
Definition TRIPLE_INDIRECT_LIMIT : Z :=
  DOUBLE_INDIRECT_LIMIT +
  BLOCK_ADDRESSES_PER_BLOCK * BLOCK_ADDRESSES_PER_BLOCK * BLOCK_ADDRESSES_PER_BLOCK.
Definition blkAddrNos : Z := BLOCK_ADDRESSES_PER_BLOCK.

Inductive indirectionLevel : Type :=
| DIRECT
| SINGLE_INDIRECT
| DOUBLE_INDIRECT
| TRIPLE_INDIRECT.

#[export] Instance indirectionLevel_eq_dec : EqDecision indirectionLevel.
Proof. solve_decision. Defined.

Definition level_nat (l : indirectionLevel) : nat :=
  match l with
  | DIRECT => 0
  | SINGLE_INDIRECT => 1
  | DOUBLE_INDIRECT => 2
  | TRIPLE_INDIRECT => 3
  end.

Record blkTreeOffset : Type := BlkTreeOffset {
  offsets : list Z;
  offsetIndirection : indirectionLevel
}.

Definition blkTreeOffsetConstructor (directOffset firstOffset secondOffset thirdOffset : Z)
    (indirection : indirectionLevel) : blkTreeOffset :=
  BlkTreeOffset [i32 directOffset; i32 firstOffset; i32 secondOffset; i32 thirdOffset] indirection.

(** [None] when the structure is left as [malloc] returned it. *)
Definition calculateOffset (offset : Z) : option blkTreeOffset :=
  let blkIndex := offset / BLOCK_SIZE in
  if blkIndex <=? DIRECT_BLOCK_LIMIT then
    Some (blkTreeOffsetConstructor blkIndex (-1) (-1) (-1) DIRECT)
  else if blkIndex <=? SINGLE_INDIRECT_LIMIT then
    let firstOffset := blkIndex - DIRECT_BLOCK_LIMIT - 1 in
    Some (blkTreeOffsetConstructor (-1) firstOffset (-1) (-1) SINGLE_INDIRECT)
  else if blkIndex <=? DOUBLE_INDIRECT_LIMIT then
    let firstOffset := (blkIndex - SINGLE_INDIRECT_LIMIT - 1) / blkAddrNos in
    let secondOffset := blkIndex - firstOffset * blkAddrNos - SINGLE_INDIRECT_LIMIT - 1 in
    Some (blkTreeOffsetConstructor (-1) firstOffset secondOffset (-1) DOUBLE_INDIRECT)
  else if blkIndex <=? TRIPLE_INDIRECT_LIMIT then
    let firstOffset := (blkIndex - DOUBLE_INDIRECT_LIMIT - 1) / (blkAddrNos * blkAddrNos) in
    let secondOffset :=
      (blkIndex - firstOffset * (blkAddrNos * blkAddrNos) - DOUBLE_INDIRECT_LIMIT - 1)
        / blkAddrNos in
    let thirdOffset :=
      blkIndex - secondOffset * blkAddrNos - firstOffset * (blkAddrNos * blkAddrNos)
        - DOUBLE_INDIRECT_LIMIT - 1 in
    Some (blkTreeOffsetConstructor (-1) firstOffset secondOffset thirdOffset TRIPLE_INDIRECT)
  else None.

(** The offsets [blkOffset->offsets + 1] up to the indirection level. *)
Definition indirect_offsets (t : blkTreeOffset) : list Z :=
  take (level_nat (offsetIndirection t)) (drop 1 (offsets t)).

(** The loop of [allocateIfNeeded] and of [freeNeeded]. *)
Fixpoint all_offsets_zero (indirOffsets : list Z) : bool :=
  match indirOffsets with
  | [] => true
  | o :: l => if negb (o =? 0) then false else all_offsets_zero l
  end.

(** What [curBlock] points to: a slot of the inode or of [workingData]. *)
Inductive block_ptr : Type :=
| InINode (slot : nat)
| InWork (index : nat).

Definition load_ptr (p : block_ptr) (nums work : list Z) : Z :=
  match p with
  | InINode i => default 0 (nums !! i)
  | InWork i => default 0 (work !! i)
  end.

Definition store_ptr (p : block_ptr) (v : Z) (nums work : list Z) : list Z * list Z :=
  match p with
  | InINode i => (<[i := v]> nums, work)
  | InWork i => (nums, <[i := v]> work)
  end.

Section blocktree.
Context `{Host}.

Definition allocateIfNeeded (indirOffsets : list Z) : DM Z :=
  if all_offsets_zero indirOffsets then blockAlloc else ret ERROR_BLOCK.

(** The loop of [allocateAllNeededBlocks]; [counter] is the number of offsets
    passed and [parentBlock] is unset until one is. *)
Fixpoint allocate_loop (indirOffsets : list Z) (counter : nat) (curBlock : block_ptr)
    (parentBlock : Z) (nums work : list Z) (dataBlock : block)
  : DM (block_ptr * Z * list Z * list Z * block) :=
  match indirOffsets with
  | [] => ret (curBlock, parentBlock, nums, work, dataBlock)
  | o :: rest =>
      let* newAllocBlock := allocateIfNeeded indirOffsets in
      let* (nums, work, dataBlock) :=
        (if negb (ERROR_BLOCK =? newAllocBlock) then
           let (nums, work) := store_ptr curBlock newAllocBlock nums work in
           if negb (counter =? 0)%nat then
             let dataBlock := writeFreeDiskListBlock (FreeDiskListBlock work) dataBlock in
             writeDiskBlock parentBlock dataBlock ;;;
             ret (nums, work, dataBlock)
           else ret (nums, work, dataBlock)
         else ret (nums, work, dataBlock)) in
      let tmp := load_ptr curBlock nums work in
      let* (_, dataBlock) := getDiskBlock tmp dataBlock in
      let work := blkNos (makeFreeDiskListBlock dataBlock) in
      allocate_loop rest (S counter) (InWork (Z.to_nat o)) tmp nums work dataBlock
  end.

(** [slot] is where [curBlock] points in [nums]; the result is the array
    afterwards. *)
Definition allocateAllNeededBlocks (slot : nat) (blockNumToAdd : Z) (indirOffsets nums : list Z)
  : DM (list Z) :=
  let* (curBlock, parentBlock, nums, work, dataBlock) :=
    allocate_loop indirOffsets 0 (InINode slot) 0 nums [] junk_block in
  let (nums, work) := store_ptr curBlock blockNumToAdd nums work in
  writeDiskBlock parentBlock (writeFreeDiskListBlock (FreeDiskListBlock work) dataBlock) ;;;
  ret nums.

Definition updateINodeMetadata (inode : inCoreiNode) (sizeDifference linkCount : Z)
  : DM inCoreiNode :=
  let inode := ic_set_size (u64 (ic_size inode + sizeDifference)) inode in
  let inode := ic_set_links linkCount inode in
  let* inode :=
    (if negb (sizeDifference =? 0) then
       let* now := time_NULL in
       ret (ic_set_data_changed true (ic_set_modification now inode))
     else ret inode) in
  ret (ic_set_changed true inode).

Definition updateIndex (inode : inCoreiNode) (blockNumToAdd : Z) (blkOffset : blkTreeOffset)
  : DM inCoreiNode :=
  if decide (offsetIndirection blkOffset = DIRECT) then
    let slot := Z.to_nat (default 0 (offsets blkOffset !! 0%nat)) in
    ret (ic_set_blocks (<[slot := blockNumToAdd]> (ic_dataBlockNums inode)) inode)
  else
    let indirection := level_nat (offsetIndirection blkOffset) in
    let slot := (Z.to_nat DIRECT_BLOCK_LIMIT + indirection)%nat in
    let* nums := allocateAllNeededBlocks slot blockNumToAdd (indirect_offsets blkOffset)
                   (ic_dataBlockNums inode) in
    let inode := ic_set_blocks nums inode in
    updateINodeMetadata inode 0 (ic_linksCount inode).

Definition insertDataBlockInINode (inode : inCoreiNode) (blockNumToAdd : Z) : DM inCoreiNode :=
  if negb (ic_size inode mod BLOCK_SIZE =? 0) then ret inode
  else
    match calculateOffset (ic_size inode) with
    | None => undefined Uninit
    | Some blkOffset => updateIndex inode blockNumToAdd blkOffset
    end.

(** The first loop of [freeNeededBlocks]: the index blocks to be freed, from
    the root down. *)
Fixpoint blocks_to_be_freed (indirOffsets : list Z) (blockIndex : Z) (dataBlock : block)
  : DM (list Z) :=
  match indirOffsets with
  | [] => ret []
  | o :: rest =>
      let* (_, dataBlock) := getDiskBlock blockIndex dataBlock in
      let work := blkNos (makeFreeDiskListBlock dataBlock) in
      let* l := blocks_to_be_freed rest (default 0 (work !! Z.to_nat o)) dataBlock in
      ret (if all_offsets_zero indirOffsets then blockIndex :: l else l)
  end.

Fixpoint free_blocks (l : list Z) : DM unit :=
  match l with
  | [] => ret tt
  | b :: l => blockFree b ;;; free_blocks l
  end.

Definition freeNeededBlocks (inode : inCoreiNode) (blockNumToRemove : Z)
    (blkOffset : blkTreeOffset) : DM unit :=
  blockFree blockNumToRemove ;;;
  if decide (offsetIndirection blkOffset = DIRECT) then ret tt
  else
    let indirection := level_nat (offsetIndirection blkOffset) in
    let slot := (Z.to_nat DIRECT_BLOCK_LIMIT + indirection)%nat in
    let* l := blocks_to_be_freed (indirect_offsets blkOffset)
                (default 0 (ic_dataBlockNums inode !! slot)) junk_block in
    free_blocks l.

Definition freeDataBlockInINode (inode : inCoreiNode) (blockNumToRemove : Z) : DM unit :=
  match calculateOffset (ic_size inode) with
  | None => blockFree blockNumToRemove ;;; undefined Uninit
  | Some blkOffset => freeNeededBlocks inode blockNumToRemove blkOffset
  end.

(** * [incoreInodeOps/bmap.c] *)

Record bmapResponse : Type := BmapResponse {
  blockNumber : Z;
  byteOffsetInBlock : Z;
  bytesLeftInBlock : Z;
  readAheadBlockNum : Z
}.

Inductive bmapMode : Type := READ_MODE | APPEND_MODE.

#[global] Instance bmapMode_eq_dec : EqDecision bmapMode.
Proof. solve_decision. Defined.

(** The loop, over the offsets below the indirection level. *)
Fixpoint process_loop (offs : list Z) (indirectBlockIndex : Z) (dataBlock : block) : DM Z :=
  match offs with
  | [] => ret indirectBlockIndex
  | o :: rest =>
      let* (_, dataBlock) := getDiskBlock indirectBlockIndex dataBlock in
      let workingData := blkNos (makeFreeDiskListBlock dataBlock) in
      process_loop rest (default 0 (workingData !! Z.to_nat o)) dataBlock
  end.

Definition processAndGetDiskBlock (indirectionOffsets : blkTreeOffset) (startBlockNum : Z) : DM Z :=
  process_loop (indirect_offsets indirectionOffsets) startBlockNum junk_block.

Definition createBMapResponse (blockNum offset : Z) (response : bmapResponse) : bmapResponse :=
  BmapResponse blockNum offset (u64 (BLOCK_SIZE - offset)) (readAheadBlockNum response).

Definition bmap (inode : inCoreiNode) (offset : Z) (response : bmapResponse) (mode : bmapMode)
  : DM (Z * inCoreiNode * bmapResponse) :=
  let fileSize := ic_size inode in
  if (fileSize <=? offset) && (bool_decide (mode = READ_MODE) || (fileSize <? offset)) then
    ret (-1, inode, response)
  else if (offset =? fileSize) && (offset mod BLOCK_SIZE =? 0) && bool_decide (mode = APPEND_MODE)
  then
    let* newBlock := blockAlloc in
    let* inode := insertDataBlockInINode inode newBlock in
    ret (0, inode, createBMapResponse newBlock 0 response)
  else
    match calculateOffset offset with
    | None => undefined Uninit
    | Some indirectionOffsets =>
        let* dataBlockNum :=
          (if decide (offsetIndirection indirectionOffsets = DIRECT) then
             ret (default 0 (ic_dataBlockNums inode !!
                    Z.to_nat (default 0 (offsets indirectionOffsets !! 0%nat))))
           else
             let iNodeBlockIndex :=
               (Z.to_nat DIRECT_BLOCK_LIMIT + level_nat (offsetIndirection indirectionOffsets))%nat in
             processAndGetDiskBlock indirectionOffsets
               (default 0 (ic_dataBlockNums inode !! iNodeBlockIndex))) in
        ret (0, inode, createBMapResponse dataBlockNum (offset mod BLOCK_SIZE) response)
    end.

End blocktree.

(** * The tree of blocks

    [leaf E d n i] is the [i]-th data block below [n], an index tree of depth
    [d]; [E] gives the addresses in a block. *)

Definition cap (d : nat) : Z := 128 ^ Z.of_nat d.

Fixpoint digits (d : nat) (i : Z) : list Z :=
  match d with
  | O => []
  | S d' => i / cap d' :: digits d' (i mod cap d')
  end.

(** The first block of each level. *)
Definition level_base (d : nat) : Z :=
  match d with
  | O => 0
  | 1%nat => 10
  | 2%nat => 138
  | _ => 16522
  end.

Definition level_cap (d : nat) : Z := match d with O => 10 | _ => cap d end.

Definition nth_entry (l : list Z) (i : Z) : Z := default 0 (l !! Z.to_nat i).

Fixpoint leaf (E : Z -> list Z) (d : nat) (n i : Z) : Z :=
  match d with
  | O => n
  | S d' => leaf E d' (nth_entry (E n) (i / cap d')) (i mod cap d')
  end.

Lemma cap_S d : cap (S d) = 128 * cap d.
Proof. unfold cap. rewrite Nat2Z.inj_succ, Z.pow_succ_r by lia. lia. Qed.

Lemma cap_pos d : 0 < cap d.
Proof. unfold cap. apply Z.pow_pos_nonneg; lia. Qed.

#[export] Hint Resolve cap_pos : nao.

Lemma level_of_index i :
  0 <= i <= TRIPLE_INDIRECT_LIMIT ->
  exists d, (d <= 3)%nat /\ level_base d <= i < level_base d + level_cap d.
Proof.
  change TRIPLE_INDIRECT_LIMIT with 2113673. intros Hi.
  destruct (decide (i < 10)); [exists 0%nat; simpl; lia|].
  destruct (decide (i < 138)); [exists 1%nat; simpl; change (cap 1) with 128; lia|].
  destruct (decide (i < 16522)); [exists 2%nat; simpl; change (cap 2) with 16384; lia|].
  exists 3%nat. simpl. change (cap 3) with 2097152. lia.
Qed.

Lemma digits_range d i : 0 <= i < cap d -> Forall (fun o => 0 <= o < 128) (digits d i).
Proof.
  revert i. induction d as [|d IH]; intros i Hi; cbn [digits]; constructor.
  - rewrite cap_S in Hi. pose proof (cap_pos d). split; [apply Z.div_pos; lia|].
    apply Z.div_lt_upper_bound; lia.
  - apply IH, Z.mod_pos_bound, cap_pos.
Qed.

Lemma length_digits d i : length (digits d i) = d.
Proof. revert i. induction d; intros; simpl; auto. Qed.

(** The offsets are all 0 for the first block of a tree only. *)
Lemma all_zero_digits d i : 0 <= i < cap d -> all_offsets_zero (digits d i) = (i =? 0).
Proof.
  revert i. induction d as [|d IH]; intros i Hi; cbn [digits all_offsets_zero].
  - change (cap 0) with 1 in Hi. by replace i with 0 by lia.
  - pose proof (cap_pos d) as Hc. pose proof (Z.div_mod i (cap d)) as Hdm.
    pose proof (Z.mod_pos_bound i (cap d) Hc) as Hm.
    rewrite IH by done. destruct (Z.eqb_spec (i / cap d) 0) as [E|E]; cbn [negb].
    + f_equal. lia.
    + destruct (Z.eqb_spec i 0) as [->|]; [|done]. by rewrite Z.div_0_l in E by lia.
Qed.

(** [calculateOffset] computes the level and the digits of a block index. *)
Lemma calculateOffset_level offset d i :
  i = offset / BLOCK_SIZE -> (d <= 3)%nat ->
  level_base d <= i < level_base d + level_cap d ->
  exists t, calculateOffset offset = Some t /\ level_nat (offsetIndirection t) = d /\
    match d with
    | O => offsets t !! 0%nat = Some i
    | _ => indirect_offsets t = digits d (i - level_base d)
    end.
Proof.
  intros -> Hd Hi. set (i := offset / BLOCK_SIZE) in *.
  assert (forall z, 0 <= z < 128 -> i32 z = z) as Hi32 by (intros; apply i32_id; lia).
  unfold calculateOffset. fold i.
  change SINGLE_INDIRECT_LIMIT with 137. change DOUBLE_INDIRECT_LIMIT with 16521.
  change TRIPLE_INDIRECT_LIMIT with 2113673. change DIRECT_BLOCK_LIMIT with 9.
  change blkAddrNos with 128. change (128 * 128) with 16384.
  destruct d as [|[|[|[|d]]]]; [| | | |lia]; cbn [level_base level_cap] in Hi;
    unfold cap in Hi; cbn [Z.of_nat] in Hi; simpl Z.pow in Hi; cbv zeta;
    repeat (rewrite (proj2 (Z.leb_gt _ _)) by lia);
    rewrite (proj2 (Z.leb_le _ _)) by lia; eexists; (split; [reflexivity|]); (split; [reflexivity|]).
  - cbn. rewrite Hi32 by lia. done.
  - unfold indirect_offsets; cbn. change (cap 0) with 1. rewrite Z.div_1_r.
    f_equal. rewrite Hi32; lia.
  - unfold indirect_offsets; cbn. change (cap 0) with 1. change (cap 1) with 128. rewrite Z.div_1_r.
    replace (i - 137 - 1) with (i - 138) by lia.
    pose proof (Z.div_mod (i - 138) 128) as Hdm. pose proof (Z.mod_pos_bound (i - 138) 128).
    pose proof (Z.div_pos (i - 138) 128). pose proof (Z.div_lt_upper_bound (i - 138) 128 128).
    f_equal; [|f_equal]; rewrite Hi32; lia.
  - unfold indirect_offsets; cbn. change (cap 0) with 1. change (cap 1) with 128. change (cap 2) with 16384.
    rewrite Z.div_1_r. replace (i - 16521 - 1) with (i - 16522) by lia.
    set (j := i - 16522) in *. set (a := j / 16384).
    pose proof (Z.div_mod j 16384) as Hdm. pose proof (Z.mod_pos_bound j 16384) as Hm.
    fold a in Hdm. replace (i - a * 16384 - 16521 - 1) with (j mod 16384) by lia.
    set (m := j mod 16384) in *. set (b := m / 128).
    pose proof (Z.div_mod m 128) as Hdm'. pose proof (Z.mod_pos_bound m 128). fold b in Hdm'.
    replace (i - b * 128 - a * 16384 - 16521 - 1) with (m mod 128) by lia.
    assert (0 <= a < 128) by lia. assert (0 <= b < 128) by lia.
    by rewrite !Hi32 by lia.
Qed.

(** ** The blocks of an index tree

    [subtree E d n cnt] lists the index and data blocks of the tree of depth
    [d] below [n] whose first [cnt] data blocks are in use, [cnt > 0]. *)

Fixpoint kids (f : Z -> Z -> list Z) (c : Z) (l : list Z) (cnt : Z) : list Z :=
  match l with
  | [] => []
  | x :: l' => if 0 <? cnt then f x (Z.min cnt c) ++ kids f c l' (cnt - c) else []
  end.

Fixpoint subtree (E : Z -> list Z) (d : nat) (n cnt : Z) : list Z :=
  match d with
  | O => [n]
  | S d' => n :: kids (subtree E d') (cap d') (E n) cnt
  end.

Definition tree_in_use (E : Z -> list Z) (d : nat) (n cnt : Z) : list Z :=
  if 0 <? cnt then subtree E d n cnt else [].

(** The index blocks on the way to data block [i], and that block. *)
Fixpoint index_path (E : Z -> list Z) (d : nat) (n i : Z) : list Z :=
  match d with
  | O => []
  | S d' => n :: index_path E d' (nth_entry (E n) (i / cap d')) (i mod cap d')
  end.

Lemma kids_nonpos f c l cnt : cnt <= 0 -> kids f c l cnt = [].
Proof. intros H. destruct l; simpl; [done|]. by rewrite (proj2 (Z.ltb_ge _ _)). Qed.

Lemma nth_entry_cons x l o : 0 < o -> nth_entry (x :: l) o = nth_entry l (o - 1).
Proof.
  intros Ho. unfold nth_entry. replace (Z.to_nat o) with (S (Z.to_nat (o - 1))) by lia. done.
Qed.

(** The children in use: the full ones before the [o]-th, and the [o]-th. *)
Lemma kids_split f c l o q :
  0 < c -> 0 <= q <= c -> 0 <= o < Z.of_nat (length l) ->
  kids f c l (o * c + q) =
    kids f c (take (Z.to_nat o) l) (o * c) ++ (if 0 <? q then f (nth_entry l o) q else []).
Proof.
  intros Hc Hq. revert o. induction l as [|x l IH]; intros o Ho; simpl length in Ho; [lia|].
  destruct (decide (o = 0)) as [->|Hne].
  - rewrite Z.mul_0_l, Z.add_0_l. cbn [kids]. rewrite kids_nonpos by lia.
    destruct (Z.ltb_spec 0 q); [|done].
    rewrite Z.min_l, kids_nonpos by lia. unfold nth_entry. simpl. by rewrite app_nil_r.
  - replace (Z.to_nat o) with (S (Z.to_nat (o - 1))) by lia. cbn [take kids].
    rewrite !(proj2 (Z.ltb_lt 0 _)) by nia. rewrite !Z.min_r by nia.
    replace (o * c + q - c) with ((o - 1) * c + q) by lia.
    replace (o * c - c) with ((o - 1) * c) by lia.
    rewrite IH by lia. by rewrite nth_entry_cons, app_assoc by lia.
Qed.

Lemma div_mod_cap d cnt :
  0 <= cnt < cap (S d) ->
  cnt = cnt / cap d * cap d + cnt mod cap d /\ 0 <= cnt mod cap d < cap d /\
  0 <= cnt / cap d < 128.
Proof.
  intros Hc. pose proof (cap_pos d) as Hp. rewrite cap_S in Hc.
  pose proof (Z.div_mod cnt (cap d)). pose proof (Z.mod_pos_bound cnt (cap d) Hp).
  split_and!; try lia; [apply Z.div_pos; lia|apply Z.div_lt_upper_bound; lia].
Qed.

(** The entries below the [o]-th are those of the list before an update. *)
Lemma take_insert_entries (l : list Z) o x :
  take (Z.to_nat o) (<[Z.to_nat o := x]> l) = take (Z.to_nat o) l.
Proof. by rewrite take_insert_ge by lia. Qed.

Lemma nth_entry_insert l o x :
  0 <= o < Z.of_nat (length l) -> nth_entry (<[Z.to_nat o := x]> l) o = x.
Proof. intros Ho. unfold nth_entry. by rewrite list_lookup_insert_eq by lia. Qed.

Lemma nth_entry_insert_ne l o o' x :
  0 <= o -> 0 <= o' -> o <> o' -> nth_entry (<[Z.to_nat o := x]> l) o' = nth_entry l o'.
Proof. intros Ho Ho' Hne. unfold nth_entry. by rewrite list_lookup_insert_ne by lia. Qed.

(** ** Trees in a changed disk *)

Lemma kids_frame f g c l cnt :
  (forall x k, 0 < k <= c -> In x l -> (forall n, In n (f x k) -> In n (kids f c l cnt)) ->
     f x k = g x k) ->
  0 < c -> kids f c l cnt = kids g c l cnt.
Proof.
  intros Hfg Hc. revert cnt Hfg. induction l as [|x l IH]; intros cnt Hfg; simpl in *; [done|].
  destruct (Z.ltb_spec 0 cnt) as [Hlt|]; [|done]. f_equal.
  - apply Hfg; [lia|by left|]. intros n Hn. apply in_app_iff. by left.
  - apply IH. intros y k Hk Hy Hin. apply Hfg; [done|by right|].
    intros n Hn. apply in_app_iff. right. by apply Hin.
Qed.

Lemma subtree_frame E E' d n cnt :
  (forall m, In m (subtree E d n cnt) -> E' m = E m) ->
  subtree E' d n cnt = subtree E d n cnt.
Proof.
  revert n cnt. induction d as [|d IH]; intros n cnt HE; cbn [subtree] in *; [done|].
  rewrite HE by by left. f_equal. symmetry. apply kids_frame; [|apply cap_pos].
  intros x k Hk Hx Hin. symmetry. apply IH. intros m Hm. apply HE. right. by apply Hin.
Qed.

Lemma kids_subtree_frame E E' d l cnt :
  (forall m, In m (kids (subtree E d) (cap d) l cnt) -> E' m = E m) ->
  kids (subtree E' d) (cap d) l cnt = kids (subtree E d) (cap d) l cnt.
Proof.
  intros HE. symmetry. apply kids_frame; [|apply cap_pos].
  intros x k Hk Hx Hin. symmetry. apply subtree_frame. auto.
Qed.

(** The [o]-th child is among the children in use. *)
Lemma kids_child f c l cnt o :
  0 < c -> 0 <= o < Z.of_nat (length l) -> o * c < cnt <= Z.of_nat (length l) * c ->
  exists l1 l2, kids f c l cnt = l1 ++ f (nth_entry l o) (Z.min (cnt - o * c) c) ++ l2.
Proof.
  intros Hc. revert o cnt. induction l as [|x l IH]; intros o cnt Ho Hcnt; simpl length in *; [lia|].
  cbn [kids]. rewrite (proj2 (Z.ltb_lt _ _)) by nia.
  destruct (decide (o = 0)) as [->|Hne].
  - exists [], (kids f c l (cnt - c)). by replace (cnt - 0 * c) with cnt by lia.
  - destruct (IH (o - 1) (cnt - c)) as (l1 & l2 & ->); [lia|nia|].
    exists (f x (cnt `min` c) ++ l1), l2. rewrite nth_entry_cons, <- app_assoc by lia.
    do 4 f_equal. lia.
Qed.

(** Children of an index block all of whose addresses are present. *)
Definition full_nodes (E : Z -> list Z) (l : list Z) : Prop :=
  Forall (fun n => length (E n) = 128%nat) l.

Lemma subtree_child E d n cnt i :
  length (E n) = 128%nat -> 0 <= i < cnt -> cnt <= cap (S d) ->
  let o := i / cap d in let k := Z.min (cnt - o * cap d) (cap d) in
  0 <= i mod cap d < k /\ k <= cap d /\
  exists l1 l2, subtree E (S d) n cnt = n :: l1 ++ subtree E d (nth_entry (E n) o) k ++ l2.
Proof.
  intros Hl Hi Hcnt o k. destruct (div_mod_cap d i) as (Hdm & Hm & Ho); [lia|]. fold o in Hdm, Ho.
  split_and!; [lia|lia|lia|]. cbn [subtree].
  destruct (kids_child (subtree E d) (cap d) (E n) cnt o) as (l1 & l2 & ->); auto with nao.
  - rewrite Hl. lia.
  - rewrite Hl, cap_S in *. lia.
  - by exists l1, l2.
Qed.

Lemma full_nodes_app E l1 l2 : full_nodes E (l1 ++ l2) <-> full_nodes E l1 /\ full_nodes E l2.
Proof. unfold full_nodes. by rewrite Forall_app. Qed.

Lemma full_nodes_cons E n l : full_nodes E (n :: l) <-> length (E n) = 128%nat /\ full_nodes E l.
Proof. unfold full_nodes. by rewrite Forall_cons. Qed.

(** Every data block in use and the way to it are blocks of the tree. *)
Lemma path_in_subtree E d : forall n cnt i,
  full_nodes E (subtree E d n cnt) -> 0 <= i < cnt -> cnt <= cap d ->
  forall m, In m (index_path E d n i) \/ m = leaf E d n i -> In m (subtree E d n cnt).
Proof.
  induction d as [|d IH]; intros n cnt i Hf Hi Hcnt m Hm.
  - simpl in *. intuition.
  - assert (length (E n) = 128%nat) as Hl by (cbn [subtree] in Hf; apply full_nodes_cons in Hf; apply Hf).
    destruct (subtree_child E d n cnt i Hl Hi Hcnt) as (Hi' & Hk & l1 & l2 & Heq).
    rewrite Heq in *. cbn [index_path leaf] in Hm.
    rewrite full_nodes_cons, !full_nodes_app in Hf. destruct Hf as (_ & _ & Hf & _).
    assert (m = n \/ In m (subtree E d (nth_entry (E n) (i / cap d))
      (Z.min (cnt - i / cap d * cap d) (cap d)))) as [->|Hin].
    { destruct Hm as [[->|Hm]|Hm]; [by left|right..];
        apply (IH _ _ (i mod cap d)); auto. }
    + by left.
    + right. apply in_app_iff. right. apply in_app_iff. by left.
Qed.

Lemma leaf_frame E E' d : forall n cnt i,
  full_nodes E (subtree E d n cnt) -> 0 <= i < cnt -> cnt <= cap d ->
  (forall m, In m (index_path E d n i) -> E' m = E m) ->
  leaf E' d n i = leaf E d n i /\ index_path E' d n i = index_path E d n i.
Proof.
  induction d as [|d IH]; intros n cnt i Hf Hi Hcnt HE; [done|].
  assert (length (E n) = 128%nat) as Hl by (cbn [subtree] in Hf; apply full_nodes_cons in Hf; apply Hf).
  destruct (subtree_child E d n cnt i Hl Hi Hcnt) as (Hi' & Hk & l1 & l2 & Heq).
  rewrite Heq, full_nodes_cons, !full_nodes_app in Hf. destruct Hf as (_ & _ & Hf & _).
  cbn [leaf index_path] in *. rewrite HE by by left.
  destruct (IH _ _ (i mod cap d) Hf Hi' Hk) as [-> ->]; [|done].
  intros m Hm. apply HE. by right.
Qed.

(** Two children of a tree without sharing have no block in common. *)
Lemma kids_disjoint_lt f c l cnt o1 o2 n :
  0 < c -> NoDup (kids f c l cnt) ->
  0 <= o1 < o2 -> o2 < Z.of_nat (length l) -> o2 * c < cnt <= Z.of_nat (length l) * c ->
  In n (f (nth_entry l o1) (Z.min (cnt - o1 * c) c)) ->
  In n (f (nth_entry l o2) (Z.min (cnt - o2 * c) c)) -> False.
Proof.
  intros Hc. revert o1 o2 cnt. induction l as [|x l IH]; intros o1 o2 cnt Hnd Ho Ho2 Hcnt H1 H2;
    simpl length in *; [lia|].
  cbn [kids] in Hnd. rewrite (proj2 (Z.ltb_lt _ _)) in Hnd by nia.
  apply NoDup_app in Hnd as (_ & Hx & Hnd). rewrite (nth_entry_cons x l o2) in H2 by lia.
  replace (cnt - o2 * c) with (cnt - c - (o2 - 1) * c) in H2 by lia.
  destruct (decide (o1 = 0)) as [->|Hne].
  - replace (cnt - 0 * c) with cnt in H1 by lia. apply (Hx n); [by apply list_elem_of_In|].
    apply list_elem_of_In.
    destruct (kids_child f c l (cnt - c) (o2 - 1)) as (l1 & l2 & ->); [lia|lia|nia|].
    apply in_app_iff. right. apply in_app_iff. by left.
  - rewrite nth_entry_cons in H1 by lia.
    replace (cnt - o1 * c) with (cnt - c - (o1 - 1) * c) in H1 by lia.
    apply (IH (o1 - 1) (o2 - 1) (cnt - c)); try done; nia.
Qed.

(** In a tree without sharing a data block is on no other way. *)
Lemma leaf_not_on_path E d : forall n cnt i j,
  NoDup (subtree E d n cnt) -> full_nodes E (subtree E d n cnt) ->
  0 <= i < cnt -> 0 <= j < cnt -> cnt <= cap d ->
  In (leaf E d n j) (index_path E d n i) \/ leaf E d n j = leaf E d n i -> i = j.
Proof.
  induction d as [|d IH]; intros n cnt i j Hnd Hf Hi Hj Hcnt Hin.
  - change (cap 0) with 1 in Hcnt. lia.
  - assert (length (E n) = 128%nat) as Hl by (cbn [subtree] in Hf; apply full_nodes_cons in Hf; apply Hf).
    destruct (subtree_child E d n cnt i Hl Hi Hcnt) as (Hi' & Hki & l1 & l2 & Heqi).
    destruct (subtree_child E d n cnt j Hl Hj Hcnt) as (Hj' & Hkj & l3 & l4 & Heqj).
    destruct (div_mod_cap d i) as (Hdi & _ & Hoi); [lia|].
    destruct (div_mod_cap d j) as (Hdj & _ & Hoj); [lia|].
    pose proof Hf as Hfi. rewrite Heqi, full_nodes_cons, !full_nodes_app in Hfi.
    pose proof Hf as Hfj. rewrite Heqj, full_nodes_cons, !full_nodes_app in Hfj.
    destruct Hfi as (_ & _ & Hfi & _), Hfj as (_ & _ & Hfj & _).
    pose proof (path_in_subtree E d _ _ _ Hfi Hi' Hki) as Hpi.
    pose proof (path_in_subtree E d _ _ _ Hfj Hj' Hkj) as Hpj.
    cbn [leaf index_path] in Hin. cbn [subtree] in Hnd. apply NoDup_cons in Hnd as [Hn Hnd].
    set (lf := leaf E d (nth_entry (E n) (j / cap d)) (j mod cap d)) in *.
    specialize (Hpj lf (or_intror eq_refl)).
    assert (lf <> n) as Hne.
    { assert (In lf (kids (subtree E d) (cap d) (E n) cnt)) as Hk.
      { cbn [subtree] in Heqj. injection Heqj as ->.
        apply in_app_iff. right. apply in_app_iff. by left. }
      intros E0. apply Hn, list_elem_of_In. by rewrite E0 in Hk. }
    assert (In lf (index_path E d (nth_entry (E n) (i / cap d)) (i mod cap d)) \/
      lf = leaf E d (nth_entry (E n) (i / cap d)) (i mod cap d)) as Hin'.
    { destruct Hin as [[E0|]|]; [congruence|by left|by right]. }
    specialize (Hpi lf Hin').
    destruct (decide (i / cap d = j / cap d)) as [Ho|Ho].
    + enough (i mod cap d = j mod cap d) by lia.
      eapply (IH _ _ (i mod cap d) (j mod cap d)); [| |exact Hi'| |exact Hki|].
      * cbn [subtree] in Heqi. injection Heqi as Heqi. rewrite Heqi in Hnd.
        apply NoDup_app in Hnd as (_ & _ & (Hnd & _ & _)%NoDup_app). exact Hnd.
      * done.
      * rewrite Ho in *. lia.
      * unfold lf in Hin'. rewrite Ho in *. exact Hin'.
    + exfalso. pose proof (cap_pos d). rewrite cap_S in Hcnt.
      assert (i / cap d < j / cap d \/ j / cap d < i / cap d) as [Hlt|Hlt] by lia.
      * eapply (kids_disjoint_lt (subtree E d) (cap d) (E n) cnt (i / cap d) (j / cap d) lf);
          rewrite ?Hl; try done; nia.
      * eapply (kids_disjoint_lt (subtree E d) (cap d) (E n) cnt (j / cap d) (i / cap d) lf);
          rewrite ?Hl; try done; nia.
Qed.

(** * Growth: [allocateAllNeededBlocks] extends the tree *)

Section growth.
Context `{BlockStore ok}.

(** The addresses in block [n]. *)
Definition addrs (s : dstate) (n : Z) : list Z :=
  match view s n with Some b => entries b | None => [] end.

Lemma addrs_full s l : ok s -> Forall (in_disk s) l -> full_nodes (addrs s) l.
Proof.
  intros Hok Hl. eapply Forall_impl; [exact Hl|]. intros n Hn. unfold addrs.
  destruct (store_get s n zero_block Hok Hn) as (b & Hb & -> & _). by apply entries_wf.
Qed.

Lemma addrs_frame s s' n : view s' n = view s n -> addrs s' n = addrs s n.
Proof. unfold addrs. by intros ->. Qed.

(** [new] and the blocks of the free list [l] can be added to the tree [T]. *)
Definition may_grow (s : dstate) (l : list Z) (new : Z) (T : list Z) : Prop :=
  ok s /\ (AllocMutex ∉ held s) /\ free_list s l /\ NoDup (T ++ new :: l) /\
  Forall (in_disk s) (new :: T) /\ (FREE_LIST_BLOCK ∉ new :: T) /\ Forall is_u64 (new :: l).

Lemma may_grow_sub s l new T T' :
  T' `sublist_of` T -> may_grow s l new T -> may_grow s l new T'.
Proof.
  intros Hs (H1 & H2 & H3 & H4 & H5 & H6 & H7). split_and!; try done.
  - eapply sublist_NoDup; [exact H4|]. by apply sublist_app.
  - apply Forall_cons in H5 as [H5 H5']. apply Forall_cons. split; [done|].
    apply Forall_forall. intros x Hx. rewrite Forall_forall in H5'. apply H5'.
    by eapply elem_of_sublist.
  - rewrite elem_of_cons in H6 |- *. intros [|Hx]; [tauto|]. apply H6. right. by eapply elem_of_sublist.
Qed.

Lemma may_grow_in_disk s l new T : may_grow s l new T -> Forall (in_disk s) (T ++ new :: l).
Proof.
  intros (_ & _ & (b & _ & _ & _ & _ & Hl) & _ & HT & _).
  apply Forall_cons in HT as [? ?]. apply Forall_app. by rewrite Forall_cons.
Qed.

Lemma may_grow_not_2 s l new T : may_grow s l new T -> FREE_LIST_BLOCK ∉ T ++ new :: l.
Proof.
  intros (_ & _ & (b & _ & _ & _ & Hl & _) & _ & _ & H2 & _).
  rewrite <- list_elem_of_In in Hl. set_solver.
Qed.

Lemma may_grow_frame s s' l new T :
  may_grow s l new T -> ok s' -> free_list s' l -> same_env s s' -> may_grow s' l new T.
Proof.
  intros (H1 & H2 & H3 & H4 & H5 & H6 & H7) Hok' Hl' He. split_and!; try done.
  - by destruct He as (_ & _ & _ & ->).
  - eapply Forall_impl; [exact H5|]. intros x Hx. by apply (in_disk_env _ _ _ He).
Qed.

(** What growing the tree below [c], of blocks [base], by [new] leaves: the
    tree below [c'].  It takes at most [m] index blocks; other blocks changed are
    those in [X]. *)
Definition grown (m : nat) (X : Z -> Prop) (s s' : dstate) (l base : list Z) (d : nat)
    (c c' cnt new : Z) : Prop :=
  exists alloc l', l = alloc ++ l' /\ (length alloc <= m)%nat /\ ok s' /\ free_list s' l' /\
    subtree (addrs s') d c' (cnt + 1) ≡ₚ base ++ new :: alloc /\
    (forall i, 0 <= i < cnt -> leaf (addrs s') d c' i = leaf (addrs s) d c i) /\
    leaf (addrs s') d c' cnt = new /\
    changes (fun n => X n \/ In n (index_path (addrs s') d c' cnt)) s s'.

Lemma grown_path k X s s' l base d c c' cnt new n :
  grown k X s s' l base d c c' cnt new -> may_grow s l new base -> 0 <= cnt < cap d ->
  In n (index_path (addrs s') d c' cnt) -> n ∈ base ++ new :: l.
Proof.
  intros (alloc & l' & -> & _ & Hok & _ & HP & _ & _ & Hch) Hm Hc Hn.
  pose proof (may_grow_in_disk _ _ _ _ Hm) as Hin.
  assert (n ∈ base ++ new :: alloc) as Hx; [|set_solver].
  rewrite <- HP. apply list_elem_of_In. apply (path_in_subtree _ _ _ _ cnt); [|lia|lia|by left].
  apply addrs_full; [done|]. rewrite HP.
  apply Forall_forall. intros x Hx. apply (in_disk_env _ _ _ (changes_env _ _ _ Hch)).
  rewrite Forall_forall in Hin. apply Hin. set_solver.
Qed.

(** The end of [allocateAllNeededBlocks], after the loop. *)
Definition grow_finish (new : Z) (r : block_ptr * Z * list Z * list Z * block) : DM (list Z) :=
  let '(curBlock, parentBlock, nums, work, dataBlock) := r in
  let (nums, work) := store_ptr curBlock new nums work in
  writeDiskBlock parentBlock (writeFreeDiskListBlock (FreeDiskListBlock work) dataBlock) ;;;
  ret nums.

(** The loop and the end, from an entry [o] of the index block [p]. *)
Definition grows_child (d : nat) : Prop :=
  forall s l p raw o cnt new counter nums (Q : list Z -> dstate -> Prop),
    let c := nth_entry (entries raw) o in
    view s p = Some raw -> 0 <= o < 128 -> 0 <= cnt < cap d -> (d <= length l)%nat ->
    counter <> 0%nat ->
    may_grow s l new (p :: tree_in_use (addrs s) d c cnt) ->
    (forall s' c', grown d (fun n => n = FREE_LIST_BLOCK \/ n = p) s s' l
         (tree_in_use (addrs s) d c cnt) d c c' cnt new ->
       addrs s' p = <[Z.to_nat o := c']> (entries raw) -> Q nums s') ->
    wp (allocate_loop (digits d cnt) counter (InWork (Z.to_nat o)) p nums (entries raw) raw) s
      (fun r s' => wp (grow_finish new r) s' Q).

(** The same from the index block [c] of a tree of depth [S d]. *)
Definition grows_node (d : nat) : Prop :=
  forall s l c raw cnt new counter nums (Q : list Z -> dstate -> Prop),
    view s c = Some raw -> 0 <= cnt < cap (S d) -> (d <= length l)%nat ->
    may_grow s l new (subtree (addrs s) (S d) c cnt) ->
    (forall s', grown d (eq FREE_LIST_BLOCK) s s' l (subtree (addrs s) (S d) c cnt)
         (S d) c c cnt new -> Q nums s') ->
    wp (allocate_loop (digits d (cnt mod cap d)) (S counter) (InWork (Z.to_nat (cnt / cap d)))
          c nums (entries raw) raw) s
      (fun r s' => wp (grow_finish new r) s' Q).

Lemma addrs_view s n raw : view s n = Some raw -> addrs s n = entries raw.
Proof. unfold addrs. by intros ->. Qed.

Lemma length_addrs s n raw : ok s -> view s n = Some raw -> length (addrs s n) = 128%nat.
Proof.
  intros Hok Hv. rewrite (addrs_view _ _ _ Hv). apply entries_wf. by eapply view_wf.
Qed.

(** The blocks of a node: itself, the full children, and the child that grows. *)
Lemma subtree_node E d c cnt :
  length (E c) = 128%nat -> 0 <= cnt < cap (S d) ->
  subtree E (S d) c cnt =
    c :: kids (subtree E d) (cap d) (take (Z.to_nat (cnt / cap d)) (E c)) (cnt / cap d * cap d) ++
      tree_in_use E d (nth_entry (E c) (cnt / cap d)) (cnt mod cap d).
Proof.
  intros Hl Hc. destruct (div_mod_cap d cnt Hc) as (Hdm & Hm & Ho). cbn [subtree]. f_equal.
  rewrite Hdm at 1. apply kids_split; rewrite ?Hl; auto with nao; lia.
Qed.

Lemma subtree_node_grown E E' d c c' cnt A :
  length (E c) = 128%nat -> 0 <= cnt < cap (S d) ->
  A = kids (subtree E d) (cap d) (take (Z.to_nat (cnt / cap d)) (E c)) (cnt / cap d * cap d) ->
  (forall m, In m A -> E' m = E m) -> E' c = <[Z.to_nat (cnt / cap d) := c']> (E c) ->
  subtree E' (S d) c (cnt + 1) = c :: A ++ subtree E' d c' (cnt mod cap d + 1).
Proof.
  intros Hl Hc -> HA Hc'. destruct (div_mod_cap d cnt Hc) as (Hdm & Hm & Ho). cbn [subtree]. f_equal.
  rewrite Hdm at 1.
  rewrite <- Z.add_assoc, kids_split, Hc'
    by (first [apply cap_pos | rewrite ?Hc', ?length_insert, ?Hl; lia]).
  rewrite (proj2 (Z.ltb_lt _ _)) by lia. rewrite take_insert_entries, nth_entry_insert by lia.
  by rewrite (kids_subtree_frame E E').
Qed.

(** A leaf of a tree that has grown below its [cnt / cap d]-th child. *)
Lemma leaf_node_grown E E' d c x' cnt A i :
  length (E c) = 128%nat -> 0 <= cnt < cap (S d) ->
  A = kids (subtree E d) (cap d) (take (Z.to_nat (cnt / cap d)) (E c)) (cnt / cap d * cap d) ->
  full_nodes E A -> (forall m, In m A -> E' m = E m) ->
  E' c = <[Z.to_nat (cnt / cap d) := x']> (E c) ->
  (forall j, 0 <= j < cnt mod cap d ->
     leaf E' d x' j = leaf E d (nth_entry (E c) (cnt / cap d)) j) ->
  0 <= i < cnt -> leaf E' (S d) c i = leaf E (S d) c i.
Proof.
  intros Hl Hc -> Hf HA Hc' Hx Hi.
  destruct (div_mod_cap d cnt Hc) as (Hdm & Hm & Ho).
  destruct (div_mod_cap d i) as (Hdi & Hmi & Hoi); [lia|].
  cbn [leaf]. rewrite Hc'.
  destruct (decide (i / cap d = cnt / cap d)) as [E0|Hne].
  - rewrite E0, nth_entry_insert by lia. apply Hx. rewrite E0 in Hdi. lia.
  - rewrite nth_entry_insert_ne by lia. assert (i / cap d < cnt / cap d) as Hlt by nia.
    set (o := cnt / cap d) in *. set (oi := i / cap d) in *.
    destruct (kids_child (subtree E d) (cap d) (take (Z.to_nat o) (E c)) (o * cap d) oi)
      as (l1 & l2 & HA').
    { apply cap_pos. }
    { rewrite length_take, Hl. lia. }
    { rewrite length_take, Hl. split; [nia|]. apply Z.mul_le_mono_nonneg_r; lia. }
    assert (nth_entry (take (Z.to_nat o) (E c)) oi = nth_entry (E c) oi) as Hy.
    { unfold nth_entry. rewrite lookup_take_lt by lia. done. }
    rewrite Hy, Z.min_r in HA' by nia. rewrite HA' in *.
    rewrite !full_nodes_app in Hf. destruct Hf as (_ & Hf & _).
    apply (leaf_frame E E' d _ (cap d) (i mod cap d)); [done|lia|lia|].
    intros m Hm'. apply HA. apply in_app_iff. right. apply in_app_iff. left.
    apply (path_in_subtree E d _ _ (i mod cap d)); auto; lia.
Qed.

Lemma grow_node d : grows_child d -> grows_node d.
Proof.
  intros IH s l c raw cnt new counter nums Q Hv Hcnt Hlen Hm HQ.
  pose proof Hm as (Hok & _). pose proof (length_addrs _ _ _ Hok Hv) as Hl.
  pose proof (subtree_node (addrs s) d c cnt Hl Hcnt) as Heq.
  destruct (div_mod_cap d cnt Hcnt) as (Hdm & Hmod & Ho).
  rewrite (addrs_view _ _ _ Hv) in Heq, Hl.
  set (o := cnt / cap d) in *. set (r := cnt mod cap d) in *.
  set (A := kids _ _ _ _) in Heq. set (x := nth_entry (entries raw) o) in *.
  rewrite Heq in Hm.
  apply (IH s l c raw o r new (S counter) nums Q); [done|done|done|done|done| |].
  { eapply may_grow_sub; [|exact Hm]. apply sublist_skip, sublist_inserts_l. done. }
  intros s' x' Hg Hp. apply HQ.
  pose proof Hm as (_ & _ & _ & Hnd & _).
  assert (forall m, In m A -> addrs s' m = addrs s m) as HA.
  { intros m Hin. apply list_elem_of_In in Hin.
    pose proof (may_grow_not_2 _ _ _ _ Hm) as H2.
    pose proof (grown_path _ _ _ _ _ _ _ _ _ _ _ m Hg) as Hgp.
    destruct Hg as (alloc & l' & -> & _ & _ & _ & _ & _ & _ & Hch).
    apply addrs_frame, Hch. intros [[->| ->]|Hpath].
    - apply H2. set_solver.
    - cbn [app] in Hnd. apply NoDup_cons in Hnd as [Hnd _]. apply Hnd. set_solver.
    - apply Hgp in Hpath; [|eapply may_grow_sub; [|exact Hm]|done].
      + cbn [app] in Hnd. apply NoDup_cons in Hnd as [_ Hnd]. rewrite <- app_assoc in Hnd.
        apply NoDup_app in Hnd as (_ & Hd & _). by apply (Hd m).
      + apply sublist_cons, sublist_inserts_l. done. }
  destruct Hg as (alloc & l' & -> & Hla & Hok' & Hl' & HP & Hlf & Hnew & Hch).
  exists alloc, l'. split_and!; try done.
  - rewrite (subtree_node_grown (addrs s) (addrs s') d c x' cnt A);
      rewrite ?(addrs_view _ _ _ Hv); try done.
    fold r. rewrite HP, Heq. cbn [app]. by rewrite app_assoc.
  - intros i Hi.
    apply (leaf_node_grown _ _ d c x' cnt A i); rewrite ?(addrs_view _ _ _ Hv); try done.
    apply addrs_full; [done|]. apply may_grow_in_disk in Hm.
    apply Forall_app in Hm as [Hm _]. apply Forall_cons in Hm as [_ Hm].
    by apply Forall_app in Hm as [Hm _].
  - cbn [leaf]. fold o r. rewrite Hp, nth_entry_insert by lia. done.
  - eapply changes_mono; [|exact Hch]. cbn [index_path]. fold o r.
    rewrite Hp, nth_entry_insert by lia. simpl. intros n [[->| ->]|]; auto.
Qed.

Lemma wf_blkNos_insert l i v : wf_blkNos l -> is_u64 v -> wf_blkNos (<[i := v]> l).
Proof.
  intros [Hl Hf] Hv. split; [by rewrite length_insert|]. by apply Forall_insert.
Qed.

(** Writing the address [v] into the parent block [p]. *)
Lemma wp_write_parent s l new p raw o v T (Q : Z -> dstate -> Prop) :
  may_grow s l new T -> p ∈ T -> is_u64 v -> view s p = Some raw ->
  (forall s' raw', may_grow s' l new T -> changes (eq p) s s' ->
     view s' p = Some raw' -> entries raw' = <[o := v]> (entries raw) -> Q 0 s') ->
  wp (writeDiskBlock p (writeFreeDiskListBlock (FreeDiskListBlock (<[o := v]> (entries raw))) raw))
    s Q.
Proof.
  intros Hm Hp Hu Hv HQ. pose proof (may_grow_not_2 _ _ _ _ Hm) as Hn2.
  pose proof Hm as (Hok & _ & Hl & Hnd & _).
  pose proof (view_wf _ _ _ Hok Hv) as Hraw.
  assert (wf_blkNos (<[o := v]> (entries raw))) as Hwf.
  { apply wf_blkNos_insert; [by apply entries_wf|done]. }
  apply wp_writeDiskBlock; [done|eauto with nao|by apply writeFreeDiskListBlock_wf; [apply Hwf|]|].
  intros s' Hok' Hv' Hch. eapply HQ; [|exact Hch|exact Hv'|by apply entries_write].
  eapply may_grow_frame; [exact Hm|done| |by eapply changes_env].
  eapply free_list_frame; [exact Hl|by eapply changes_env|].
  intros n Hn. destruct Hch as [_ Hch]. apply Hch. intros <-.
  destruct Hn as [->|Hn]; [set_solver|]. apply list_elem_of_In in Hn.
  apply NoDup_app in Hnd as (_ & Hnd & _). apply (Hnd p); [done|]. by right.
Qed.

(** [blockAlloc] gives the tree a new index block. *)
Lemma blockAlloc_grows s b l new T (Q : Z -> dstate -> Prop) :
  may_grow s (b :: l) new T ->
  (forall s', may_grow s' l new (b :: T) -> b <> 0 -> changes (eq FREE_LIST_BLOCK) s s' -> Q b s') ->
  wp blockAlloc s Q.
Proof.
  intros Hm HQ. pose proof (may_grow_in_disk _ _ _ _ Hm) as Hall.
  pose proof (may_grow_not_2 _ _ _ _ Hm) as Hn2.
  pose proof Hm as (Hok & Hh & Hl & Hnd & Hin & H2 & Hu).
  eapply wp_mono; [by apply (blockAlloc_pop s b l)|].
  intros r s' (-> & Hok' & Hl' & Hch). pose proof (changes_env _ _ _ Hch) as He. apply HQ; [|clear HQ|done].
  - split_and!; [done|by destruct He as (_&_&_&->)|done| | | |].
    + assert (T ++ new :: b :: l ≡ₚ (b :: T) ++ new :: l) as HP.
      { cbn [app]. by rewrite (perm_swap b new l), <- (Permutation_middle T). }
      by rewrite HP in Hnd.
    + assert (Forall (in_disk s) (new :: b :: T)) as Hx.
      { rewrite Forall_app, !Forall_cons in Hall. apply Forall_cons in Hin as [? ?].
        rewrite !Forall_cons. naive_solver. }
      eapply Forall_impl; [exact Hx|]. intros x Hx'. by apply (in_disk_env _ _ _ He).
    + set_solver.
    + apply Forall_cons in Hu as [Hu1 Hu]. apply Forall_cons in Hu as [_ Hu].
      by apply Forall_cons.
  - destruct Hl as (raw & _ & Hc & _). intros ->. apply chain_nonzero in Hc. apply Hc. by left.
Qed.

Lemma grown_trans (m m1 : nat) (X Y Z' : Z -> Prop) s s1 s' l l1 alloc base base1 d c c1 c' cnt new :
  grown m1 Y s1 s' l1 base1 d c1 c' cnt new -> (m1 + length alloc <= m)%nat -> changes X s s1 ->
  l = alloc ++ l1 -> base1 ≡ₚ base ++ alloc ->
  (forall n, X n -> Z' n) -> (forall n, Y n -> Z' n) ->
  (forall i, 0 <= i < cnt -> leaf (addrs s1) d c1 i = leaf (addrs s) d c i) ->
  grown m Z' s s' l base d c c' cnt new.
Proof.
  intros (al & l' & -> & Hla & Hok & Hl & HP & Hlf & Hnew & Hch) Hm Hch1 -> HB HX HY Hl1.
  exists (alloc ++ al), l'. split_and!; try done.
  - by rewrite app_assoc.
  - rewrite length_app. lia.
  - rewrite HP, HB, <- app_assoc. by rewrite (Permutation_middle alloc al new).
  - intros i Hi. rewrite Hlf by done. by apply Hl1.
  - eapply changes_trans; [| |exact Hch1|exact Hch]; simpl; [auto|]. intuition.
Qed.

Lemma not_on_grown_path m X s s' l base d c c' cnt new p T :
  grown m X s s' l base d c c' cnt new -> may_grow s l new (p :: T) -> base `sublist_of` T ->
  0 <= cnt < cap d -> ~ In p (index_path (addrs s') d c' cnt).
Proof.
  intros Hg Hm Hs Hc Hin. eapply grown_path in Hin; [|exact Hg| |done].
  - destruct Hm as (_ & _ & _ & Hnd & _). cbn [app] in Hnd. apply NoDup_cons in Hnd as [Hnd _].
    apply Hnd. eapply elem_of_sublist; [exact Hin|]. by apply sublist_app.
  - eapply may_grow_sub; [|exact Hm]. by apply sublist_cons.
Qed.

Lemma grow_child_0 : grows_child 0.
Proof.
  intros s l p raw o cnt new counter nums Q c Hv Ho Hcnt _ _ Hm HQ.
  change (cap 0) with 1 in Hcnt. assert (cnt = 0) as -> by lia.
  cbn [digits allocate_loop]. apply wp_ret. unfold grow_finish. cbn [store_ptr].
  apply wp_bind. change (tree_in_use (addrs s) 0 c 0) with (@nil Z) in *.
  pose proof Hm as (_ & _ & _ & _ & _ & _ & Hu).
  eapply (wp_write_parent s l new p raw _ new); [exact Hm|set_solver|by apply Forall_cons in Hu as [? _]|done|].
  intros s' raw' Hm' Hch Hv' He. apply wp_ret. apply (HQ s' new).
  - exists [], l. destruct Hm' as (Hok' & _ & Hl' & _).
    split_and!; try done; [lia|]. eapply changes_mono; [|exact Hch]. simpl. auto.
  - by rewrite (addrs_view _ _ _ Hv').
Qed.

(** An entry that has no block yet. *)
Lemma grow_new_child d s l p raw o new counter nums (Q : list Z -> dstate -> Prop) :
  let c := nth_entry (entries raw) o in
  grows_node d -> view s p = Some raw -> 0 <= o < 128 -> (S d <= length l)%nat -> counter <> 0%nat ->
  may_grow s l new (p :: tree_in_use (addrs s) (S d) c 0) ->
  (forall s' c', grown (S d) (fun n => n = FREE_LIST_BLOCK \/ n = p) s s' l
       (tree_in_use (addrs s) (S d) c 0) (S d) c c' 0 new ->
     addrs s' p = <[Z.to_nat o := c']> (entries raw) -> Q nums s') ->
  wp (allocate_loop (digits (S d) 0) counter (InWork (Z.to_nat o)) p nums (entries raw) raw) s
    (fun r s' => wp (grow_finish new r) s' Q).
Proof.
  intros c Hnode Hv Ho Hlen Hctr Hm HQ.
  pose proof Hm as (Hok & _ & _ & _ & Hin & _ & Hu).
  pose proof (view_wf _ _ _ Hok Hv) as Hraw.
  cbn [allocate_loop digits]. apply wp_bind. unfold allocateIfNeeded.
  change (0 / cap d :: digits d (0 mod cap d)) with (digits (S d) 0).
  assert (0 <= 0 < cap (S d)) as Hcnt by (by split; [|apply cap_pos]).
  rewrite all_zero_digits by done. rewrite Z.eqb_refl.
  destruct l as [|b l]; [simpl in Hlen; lia|].
  change (tree_in_use (addrs s) (S d) c 0) with (@nil Z) in *.
  apply (blockAlloc_grows s b l new [p]); [done|]. intros s1 Hm1 Hb Hch1.
  assert (view s1 p = Some raw) as Hv1.
  { destruct Hch1 as [_ Hch1]. rewrite Hch1; [done|]. intros <-.
    destruct Hm as (_ & _ & _ & _ & _ & H2 & _). set_solver. }
  apply wp_bind. destruct (Z.eqb_spec ERROR_BLOCK b) as [E|_]; [unfold ERROR_BLOCK in E; lia|].
  cbn [negb store_ptr]. destruct counter as [|counter]; [done|]. cbn [Nat.eqb negb].
  apply wp_bind. eapply wp_write_parent; [exact Hm1|set_solver| |exact Hv1|].
  { apply Forall_cons in Hu as [_ Hu]. by apply Forall_cons in Hu as [? _]. }
  intros s2 raw2 Hm2 Hch2 Hv2 He2. apply wp_ret.
  cbn [load_ptr]. pose proof (entries_wf _ Hraw) as [Hlr _].
  rewrite list_lookup_insert_eq by lia. cbn [default].
  pose proof Hm2 as (Hok2 & _ & _ & _ & Hin2 & _).
  apply Forall_cons in Hin2 as [_ Hin2]. apply Forall_cons in Hin2 as [Hib _].
  apply wp_bind, wp_getDiskBlock; [done..| |].
  { apply writeFreeDiskListBlock_wf; [|done]. simpl. by rewrite length_insert. }
  intros rawb Hrawb Hvb. cbn beta iota. fold (entries rawb).
  apply (Hnode s2 l b rawb 0 new); [done|done|simpl in Hlen; lia| |].
  { cbn [subtree]. rewrite kids_nonpos by lia. eapply may_grow_sub; [|exact Hm2].
    by apply sublist_skip, sublist_nil_l. }
  intros s' Hg. apply (HQ s' b).
  - eapply (grown_trans (S d) d _ _ _ _ _ _ _ _ [b]); [exact Hg|simpl; lia| |done| | | |].
    + eapply (changes_trans (eq FREE_LIST_BLOCK) (eq p)
        (fun n => n = FREE_LIST_BLOCK \/ n = p)); [| |exact Hch1|exact Hch2]; auto.
    + cbn [subtree]. by rewrite kids_nonpos by lia.
    + done.
    + auto.
    + lia.
  - pose proof (not_on_grown_path _ _ _ _ _ _ _ _ _ _ _ p [b] Hg) as Hnp.
    cbn [subtree] in Hnp. rewrite kids_nonpos in Hnp by lia.
    destruct Hg as (al & l' & _ & _ & _ & _ & _ & _ & _ & Hch).
    rewrite <- He2, <- (addrs_view _ _ _ Hv2). apply addrs_frame, Hch.
    intros [<-|Hpath]; [destruct Hm as (_ & _ & _ & _ & _ & H2 & _); set_solver|].
    apply Hnp in Hpath; try done.
    destruct Hm2 as (A1 & A2 & A3 & A4 & A5 & A6 & A7). split_and!; try done.
    + cbn [app] in *. by rewrite perm_swap.
    + by rewrite (perm_swap b p []).
    + set_solver.
Qed.

(** An entry whose subtree has room. *)
Lemma grow_old_child d s l p raw o cnt new counter nums (Q : list Z -> dstate -> Prop) :
  let c := nth_entry (entries raw) o in
  grows_node d -> view s p = Some raw -> 0 <= o < 128 -> 0 < cnt < cap (S d) ->
  (S d <= length l)%nat -> counter <> 0%nat ->
  may_grow s l new (p :: tree_in_use (addrs s) (S d) c cnt) ->
  (forall s' c', grown (S d) (fun n => n = FREE_LIST_BLOCK \/ n = p) s s' l
       (tree_in_use (addrs s) (S d) c cnt) (S d) c c' cnt new ->
     addrs s' p = <[Z.to_nat o := c']> (entries raw) -> Q nums s') ->
  wp (allocate_loop (digits (S d) cnt) counter (InWork (Z.to_nat o)) p nums (entries raw) raw) s
    (fun r s' => wp (grow_finish new r) s' Q).
Proof.
  intros c Hnode Hv Ho [Hpos Hcap] Hlen Hctr Hm HQ.
  pose proof Hm as (Hok & _ & _ & _ & Hin & _ & Hu).
  pose proof (view_wf _ _ _ Hok Hv) as Hraw.
  cbn [allocate_loop digits]. apply wp_bind. unfold allocateIfNeeded.
  change (cnt / cap d :: digits d (cnt mod cap d)) with (digits (S d) cnt).
  assert (0 <= cnt < cap (S d)) as Hcnt by lia.
  rewrite all_zero_digits by done. rewrite (proj2 (Z.eqb_neq _ _)) by lia.
  assert (tree_in_use (addrs s) (S d) c cnt = subtree (addrs s) (S d) c cnt) as Htree.
  { unfold tree_in_use. by rewrite (proj2 (Z.ltb_lt _ _)) by lia. }
  rewrite Htree in *. apply wp_ret, wp_bind. simpl (negb _). cbn iota. apply wp_ret.
  cbn [load_ptr]. fold (nth_entry (entries raw) o). fold c.
  assert (in_disk s c) as Hic.
  { apply Forall_cons in Hin as [_ Hin]. apply Forall_cons in Hin as [_ Hin].
    cbn [subtree] in Hin. by apply Forall_cons in Hin as [? _]. }
  apply wp_bind, wp_getDiskBlock; [done..|]. intros rawc Hrawc Hvc. cbn beta iota.
  fold (entries rawc).
  apply (Hnode s l c rawc cnt new); [done|done|lia| |].
  { eapply may_grow_sub; [|exact Hm]. by apply sublist_cons. }
  intros s' Hg. apply (HQ s' c).
  - eapply (grown_trans (S d) d (fun _ => False) _ _ _ s _ _ _ []); [exact Hg|simpl; lia|apply changes_refl|done| | | |].
    + by rewrite app_nil_r.
    + done.
    + auto.
    + done.
  - assert (In p (index_path (addrs s') (S d) c cnt) -> False) as Hnp
      by (eapply not_on_grown_path; eauto).
    destruct Hg as (al & l' & _ & _ & _ & _ & _ & _ & _ & Hch).
    rewrite list_insert_id.
    + rewrite <- (addrs_view _ _ _ Hv). apply addrs_frame, Hch.
      intros [<-|Hpath]; [destruct Hm as (_ & _ & _ & _ & _ & H2 & _); set_solver|auto].
    + unfold c, nth_entry. pose proof (entries_wf _ Hraw) as [Hlr _].
      destruct (entries raw !! Z.to_nat o) eqn:E; [done|]. apply lookup_ge_None in E. lia.
Qed.

Lemma grow_child_S d : grows_node d -> grows_child (S d).
Proof.
  intros Hnode s l p raw o cnt new counter nums Q c Hv Ho Hcnt Hlen Hctr Hm HQ.
  destruct (Z.eqb_spec cnt 0) as [->|Hne]; [by apply (grow_new_child d s l)|].
  apply (grow_old_child d s l); try done. lia.
Qed.

Lemma grow_nodes d : grows_node d.
Proof.
  apply grow_node. induction d as [|d IH]; [exact grow_child_0|].
  by apply grow_child_S, grow_node.
Qed.

(** ** Growth from a slot of the inode *)

Lemma grow_root s l new slot d cnt nums (Q : list Z -> dstate -> Prop) :
  let c := default 0 (nums !! slot) in
  (slot < length nums)%nat -> 0 <= cnt < cap (S d) -> (S d <= length l)%nat ->
  may_grow s l new (tree_in_use (addrs s) (S d) c cnt) ->
  (forall s' c', c' = c \/ c' ∈ l ->
     grown (S d) (eq FREE_LIST_BLOCK) s s' l (tree_in_use (addrs s) (S d) c cnt)
       (S d) c c' cnt new -> Q (<[slot := c']> nums) s') ->
  wp (allocateAllNeededBlocks slot new (digits (S d) cnt) nums) s Q.
Proof.
  intros c Hslot Hcnt Hlen Hm HQ. unfold allocateAllNeededBlocks.
  pose proof Hm as (Hok & _ & _ & _ & Hin & _).
  apply wp_bind. cbn [allocate_loop digits]. apply wp_bind. unfold allocateIfNeeded.
  change (cnt / cap d :: digits d (cnt mod cap d)) with (digits (S d) cnt).
  rewrite all_zero_digits by done. destruct (Z.eqb_spec cnt 0) as [->|Hne].
  - destruct l as [|b l]; [simpl in Hlen; lia|].
    change (tree_in_use (addrs s) (S d) c 0) with (@nil Z) in *.
    apply (blockAlloc_grows s b l new []); [done|]. intros s1 Hm1 Hb Hch1.
    apply wp_bind. destruct (Z.eqb_spec ERROR_BLOCK b) as [E|_]; [unfold ERROR_BLOCK in E; lia|].
    cbn [negb store_ptr Nat.eqb]. apply wp_ret.
    cbn [load_ptr]. rewrite list_lookup_insert_eq by done. cbn [default].
    pose proof Hm1 as (Hok1 & _ & _ & _ & Hin1 & _).
    apply Forall_cons in Hin1 as [_ Hin1]. apply Forall_cons in Hin1 as [Hib _].
    apply wp_bind, wp_getDiskBlock; [done|done|auto with nao|].
    intros rawb Hrawb Hvb. cbn beta iota. fold (entries rawb).
    apply (grow_nodes d s1 l b rawb 0 new); [done|done|simpl in Hlen; lia| |].
    { cbn [subtree]. by rewrite kids_nonpos by lia. }
    intros s' Hg. apply (HQ s' b); [right; by left|].
    eapply (grown_trans (S d) d (eq FREE_LIST_BLOCK) _ _ _ _ _ _ _ [b]); [exact Hg|simpl; lia|done|done| | | |].
    + cbn [subtree]. by rewrite kids_nonpos by lia.
    + done.
    + auto.
    + lia.
  - assert (tree_in_use (addrs s) (S d) c cnt = subtree (addrs s) (S d) c cnt) as Htree.
    { unfold tree_in_use. by rewrite (proj2 (Z.ltb_lt _ _)) by lia. }
    rewrite Htree in *. apply wp_ret, wp_bind. simpl (negb _). cbn iota. apply wp_ret.
    cbn [load_ptr]. fold c.
    assert (in_disk s c) as Hic.
    { apply Forall_cons in Hin as [_ Hin]. cbn [subtree] in Hin. by apply Forall_cons in Hin as [? _]. }
    apply wp_bind, wp_getDiskBlock; [done|done|auto with nao|]. intros rawc Hrawc Hvc.
    cbn beta iota. fold (entries rawc).
    apply (grow_nodes d s l c rawc cnt new); [done|done|lia|done|].
    intros s' Hg. assert (grown (S d) (eq FREE_LIST_BLOCK) s s' l (subtree (addrs s) (S d) c cnt) (S d) c c cnt new)
      as Hg'.
    { destruct Hg as (al & l' & H1 & H2 & H3). exists al, l'. split; [done|]. split; [lia|done]. }
    specialize (HQ s' c (or_introl eq_refl) Hg'). rewrite list_insert_id in HQ; [exact HQ|].
    unfold c. destruct (nums !! slot) eqn:E; [done|]. apply lookup_ge_None in E. lia.
Qed.
End growth.
