(* ===== verification/FileBlocks.v ===== *)
(** Files as sequences of blocks: the blocks a file owns, reading through
    [bmap], growth by [insertDataBlockInINode] and the link to
    [inodeBlocksFree], which releases exactly these blocks. *)

From S2P Require Export BlockTree.

(** * The blocks of a file *)

Definition level_of (i : Z) : nat :=
  if i <? 10 then 0 else if i <? 138 then 1 else if i <? 16522 then 2 else 3.

(** Where data block [i] of a file is. *)
Definition file_block (E : Z -> list Z) (nums : list Z) (i : Z) : Z :=
  match level_of i with
  | O => nth_entry nums i
  | d => leaf E d (nth_entry nums (9 + Z.of_nat d)) (i - level_base d)
  end.

Definition level_tree (E : Z -> list Z) (nums : list Z) (d : nat) (k : Z) : list Z :=
  tree_in_use E d (nth_entry nums (9 + Z.of_nat d)) (Z.min (k - level_base d) (cap d)).

(** All the blocks, index blocks included, of a file of [k] data blocks. *)
Definition file_blocks (E : Z -> list Z) (nums : list Z) (k : Z) : list Z :=
  take (Z.to_nat (Z.min k 10)) nums ++
  level_tree E nums 1 k ++ level_tree E nums 2 k ++ level_tree E nums 3 k.

Lemma tree_in_use_nil E d n cnt : cnt <= 0 -> tree_in_use E d n cnt = [].
Proof. intros. unfold tree_in_use. by rewrite (proj2 (Z.ltb_ge _ _)). Qed.

Lemma tree_in_use_pos E d n cnt : 0 < cnt -> tree_in_use E d n cnt = subtree E d n cnt.
Proof. intros. unfold tree_in_use. by rewrite (proj2 (Z.ltb_lt _ _)). Qed.

(** The trees of the other levels when the file grows by a block. *)
Lemma level_tree_frame E E' nums nums' d k :
  (cap d <= k - level_base d \/ k + 1 <= level_base d) ->
  nth_entry nums' (9 + Z.of_nat d) = nth_entry nums (9 + Z.of_nat d) ->
  (forall m, m ∈ level_tree E nums d k -> E' m = E m) ->
  level_tree E' nums' d (k + 1) = level_tree E nums d k.
Proof.
  intros Hk Hn HE. unfold level_tree in *. rewrite Hn. destruct Hk as [Hk|Hk].
  - pose proof (cap_pos d). rewrite !Z.min_r in * by lia. rewrite !tree_in_use_pos in * by done.
    apply subtree_frame. intros m Hm. apply HE. by apply list_elem_of_In.
  - by rewrite !tree_in_use_nil by lia.
Qed.

Lemma level_of_base i : 0 <= i <= TRIPLE_INDIRECT_LIMIT ->
  (level_of i <= 3)%nat /\
  level_base (level_of i) <= i < level_base (level_of i) + level_cap (level_of i).
Proof.
  change TRIPLE_INDIRECT_LIMIT with 2113673. intros Hi. unfold level_of.
  destruct (Z.ltb_spec i 10); [|destruct (Z.ltb_spec i 138); [|destruct (Z.ltb_spec i 16522)]];
    cbn [level_base level_cap];
    change (cap 1) with 128; change (cap 2) with 16384; change (cap 3) with 2097152; lia.
Qed.

(** The blocks of the levels below level [d]. *)
Definition below (E : Z -> list Z) (nums : list Z) (d : nat) (k : Z) : list Z :=
  take (Z.to_nat (Z.min k 10)) nums ++
  (if (1 <? d)%nat then level_tree E nums 1 k else []) ++
  (if (2 <? d)%nat then level_tree E nums 2 k else []).

(** Evaluates the bounds of the levels. *)
Ltac levels :=
  cbn [level_base level_cap] in *;
  change (cap 1) with 128 in *; change (cap 2) with 16384 in *; change (cap 3) with 2097152 in *.

Lemma level_tree_nil E nums d k : k <= level_base d -> level_tree E nums d k = [].
Proof. intros. unfold level_tree. apply tree_in_use_nil. lia. Qed.

Lemma file_blocks_below E nums d k :
  (1 <= d <= 3)%nat -> level_base d <= k <= level_base d + cap d ->
  file_blocks E nums k = below E nums d k ++ level_tree E nums d k.
Proof.
  intros Hd Hk. unfold file_blocks, below.
  assert (d = 1%nat \/ d = 2%nat \/ d = 3%nat) as [->|[->| ->]] by lia; cbn [Nat.ltb Nat.leb]; levels;
    rewrite ?(level_tree_nil E nums 2), ?(level_tree_nil E nums 3) by (levels; lia);
    by rewrite ?app_nil_r, <- ?app_assoc.
Qed.

Lemma below_frame E E' nums d k c' :
  (1 <= d <= 3)%nat -> level_base d <= k ->
  (forall m, m ∈ below E nums d k -> E' m = E m) ->
  below E' (<[(9 + d)%nat := c']> nums) d (k + 1) = below E nums d k.
Proof.
  intros Hd Hk HE. unfold below in *.
  assert (forall i : nat, (0 < i)%nat -> i <> d ->
    nth_entry (<[(9 + d)%nat := c']> nums) (9 + Z.of_nat i) = nth_entry nums (9 + Z.of_nat i)) as Hn.
  { intros i Hi Hne. unfold nth_entry. by rewrite list_lookup_insert_ne by lia. }
  assert (d = 1%nat \/ d = 2%nat \/ d = 3%nat) as Hcase by lia. f_equal.
  - rewrite !Z.min_r by (destruct Hcase as [->|[->| ->]]; levels; lia).
    by rewrite take_insert_ge by lia.
  - assert (forall i, (0 < i < d)%nat ->
      (forall m, m ∈ level_tree E nums i k -> E' m = E m) ->
      level_tree E' (<[(9 + d)%nat := c']> nums) i (k + 1) = level_tree E nums i k) as Hi.
    { intros i Hi HE'. apply level_tree_frame; [|apply Hn; lia|done].
      destruct Hcase as [->|[->| ->]], i as [|[|[|]]]; levels; lia. }
    destruct Hcase as [->|[->| ->]]; cbn [Nat.ltb Nat.leb] in *; levels; [done| |];
      rewrite !Hi; try lia; try done; intros m Hm; apply HE; set_solver.
Qed.

Lemma level_of_level d k :
  (1 <= d <= 3)%nat -> level_base d <= k < level_base d + cap d -> level_of k = d.
Proof.
  intros Hd Hk. unfold level_of.
  destruct (Z.ltb_spec k 10); [|destruct (Z.ltb_spec k 138); [|destruct (Z.ltb_spec k 16522)]];
    destruct d as [|[|[|[|]]]]; levels; try lia; done.
Qed.

(** A block of a file at level [d > 0]. *)
Lemma file_block_level E nums d j :
  (1 <= d)%nat -> level_of j = d ->
  file_block E nums j = leaf E d (nth_entry nums (9 + Z.of_nat d)) (j - level_base d).
Proof. intros Hd Hj. unfold file_block. rewrite Hj. by destruct d; [lia|]. Qed.

(** The way to data block [j] through index blocks. *)
Definition file_path (E : Z -> list Z) (nums : list Z) (j : Z) : list Z :=
  match level_of j with
  | O => []
  | d => index_path E d (nth_entry nums (9 + Z.of_nat d)) (j - level_base d)
  end.

Lemma level_tree_path E nums d j k m :
  (1 <= d <= 3)%nat -> level_base d <= j < k -> j < level_base d + cap d ->
  full_nodes E (level_tree E nums d k) ->
  In m (index_path E d (nth_entry nums (9 + Z.of_nat d)) (j - level_base d)) \/
    m = leaf E d (nth_entry nums (9 + Z.of_nat d)) (j - level_base d) ->
  m ∈ level_tree E nums d k.
Proof.
  intros Hd Hj Hjc Hf Hm. unfold level_tree in *. rewrite tree_in_use_pos in * by lia.
  apply list_elem_of_In. apply (path_in_subtree E d _ _ (j - level_base d)); [done|lia|lia|done].
Qed.

Lemma level_of_lt d j : (1 <= d <= 3)%nat -> j < level_base d -> (level_of j < d)%nat.
Proof.
  intros Hd Hj. unfold level_of. assert (d = 1%nat \/ d = 2%nat \/ d = 3%nat) as Hc by lia.
  destruct (Z.ltb_spec j 10); [|destruct (Z.ltb_spec j 138); [|destruct (Z.ltb_spec j 16522)]];
    destruct Hc as [->|[->| ->]]; levels; lia.
Qed.

Lemma below_path E nums d j k m :
  (1 <= d <= 3)%nat -> level_base d <= k -> 0 <= j < level_base d -> length nums = 13%nat ->
  full_nodes E (below E nums d k) ->
  In m (file_path E nums j) \/ m = file_block E nums j -> m ∈ below E nums d k.
Proof.
  intros Hd Hk Hj Hl Hf Hm. pose proof (level_of_lt d j Hd ltac:(lia)) as Hlt.
  destruct (level_of_base j) as [_ Hb].
  { change TRIPLE_INDIRECT_LIMIT with 2113673. destruct d as [|[|[|[|]]]]; levels; lia. }
  assert (10 <= k) as Hk10 by (destruct d as [|[|[|[|]]]]; levels; lia).
  unfold below, file_path, file_block in *. rewrite !full_nodes_app in Hf.
  destruct Hf as (Hf0 & Hf1 & Hf2).
  destruct (level_of j) as [|[|[|l]]]; [| | |lia]; rewrite ?elem_of_app.
  - left. destruct Hm as [[]| ->]. rewrite Z.min_r by lia. levels.
    unfold nth_entry. destruct (nums !! Z.to_nat j) eqn:E0; [|apply lookup_ge_None in E0; lia].
    apply (list_elem_of_lookup_2 _ (Z.to_nat j)). rewrite lookup_take_lt by lia. exact E0.
  - right; left. rewrite (proj2 (Nat.ltb_lt 1 d)) in * by lia.
    apply (level_tree_path E nums 1 j k); try done; [lia|..];
      destruct d as [|[|[|[|]]]]; levels; lia.
  - right; right. rewrite (proj2 (Nat.ltb_lt 2 d)) in * by lia.
    apply (level_tree_path E nums 2 j k); try done; [lia|..];
      destruct d as [|[|[|[|]]]]; levels; lia.
Qed.

(** Where a data block is does not change with blocks away from its path. *)
Lemma file_block_frame E E' nums nums' d j k :
  (1 <= d <= 3)%nat -> level_base d <= k -> 0 <= j < level_base d -> length nums = 13%nat ->
  full_nodes E (below E nums d k) -> (forall m, m ∈ below E nums d k -> E' m = E m) ->
  (forall i, i <> 9 + Z.of_nat d -> 0 <= i -> nth_entry nums' i = nth_entry nums i) ->
  file_block E' nums' j = file_block E nums j.
Proof.
  intros Hd Hk Hj Hl Hf HE Hn.
  assert (forall m, In m (file_path E nums j) -> E' m = E m) as HP.
  { intros m Hm. apply HE. apply (below_path E nums d j k); auto. }
  pose proof (level_of_lt d j Hd ltac:(lia)) as Hlt.
  destruct (level_of_base j) as [_ Hb].
  { change TRIPLE_INDIRECT_LIMIT with 2113673. destruct d as [|[|[|[|]]]]; levels; lia. }
  unfold file_path, file_block in *.
  unfold below in Hf. rewrite !full_nodes_app in Hf. destruct Hf as (_ & Hf1 & Hf2).
  destruct (level_of j) as [|[|[|l]]]; [| | |lia]; levels; rewrite Hn by lia; [done|..].
  - rewrite (proj2 (Nat.ltb_lt 1 d)) in * by lia. unfold level_tree in Hf1.
    assert (138 <= k) by (destruct d as [|[|[|[|]]]]; levels; lia).
    rewrite tree_in_use_pos in Hf1 by (levels; lia).
    eapply leaf_frame; [exact Hf1|levels; lia|lia|done].
  - rewrite (proj2 (Nat.ltb_lt 2 d)) in * by lia. unfold level_tree in Hf2.
    assert (16522 <= k) by (destruct d as [|[|[|[|]]]]; levels; lia).
    rewrite tree_in_use_pos in Hf2 by (levels; lia).
    eapply leaf_frame; [exact Hf2|levels; lia|lia|done].
Qed.

Lemma leaf_not_on_own_path E d : forall n cnt i,
  NoDup (subtree E d n cnt) -> full_nodes E (subtree E d n cnt) ->
  0 <= i < cnt -> cnt <= cap d -> ~ In (leaf E d n i) (index_path E d n i).
Proof.
  induction d as [|d IH]; intros n cnt i Hnd Hf Hi Hcnt; [by intros []|].
  assert (length (E n) = 128%nat) as Hl by (cbn [subtree] in Hf; apply full_nodes_cons in Hf; apply Hf).
  destruct (subtree_child E d n cnt i Hl Hi Hcnt) as (Hi' & Hk & l1 & l2 & Heq).
  rewrite Heq in Hnd. rewrite Heq, full_nodes_cons, !full_nodes_app in Hf.
  destruct Hf as (_ & _ & Hf & _).
  apply NoDup_cons in Hnd as [Hn (_ & _ & (Hnd & _ & _)%NoDup_app)%NoDup_app].
  cbn [leaf index_path]. intros [E0|Hin].
  - apply Hn. rewrite E0 at 1. rewrite !elem_of_app. right. left. apply list_elem_of_In.
    eapply path_in_subtree; [done|exact Hi'|done|by right].
  - by eapply IH in Hin.
Qed.

(** * [insertDataBlockInINode] appends a block to a file *)

Section file_growth.
Context `{BlockStore ok}.
Local Abbreviation may_grow := (may_grow (ok := ok)).
Local Abbreviation grown := (grown (ok := ok)).

(** The disk [s] with the file [nums] of [k] blocks has become [s'] with
    [nums']; [new] is the new last block. *)
Definition file_grows (s s' : dstate) (l nums nums' : list Z) (k new : Z) : Prop :=
  exists alloc l', l = alloc ++ l' /\ (length alloc <= 3)%nat /\ ok s' /\ free_list s' l' /\
    same_env s s' /\ length nums' = 13%nat /\ Forall is_u64 nums' /\
    file_blocks (addrs s') nums' (k + 1) ≡ₚ file_blocks (addrs s) nums k ++ new :: alloc /\
    (forall j, 0 <= j < k -> file_block (addrs s') nums' j = file_block (addrs s) nums j) /\
    file_block (addrs s') nums' k = new /\
    (forall j, 0 <= j <= k ->
       view s' (file_block (addrs s') nums' j) = view s (file_block (addrs s') nums' j)) /\
    (forall n, n <> FREE_LIST_BLOCK -> n ∉ file_blocks (addrs s') nums' (k + 1) ->
       view s' n = view s n).

Lemma file_block_direct E nums j : j < 10 -> file_block E nums j = nth_entry nums j.
Proof. intros Hj. unfold file_block, level_of. by rewrite (proj2 (Z.ltb_lt _ _)). Qed.

(** The direct blocks. *)
Lemma direct_grows s l nums k new :
  0 <= k < 10 -> length nums = 13%nat -> Forall is_u64 nums ->
  may_grow s l new (file_blocks (addrs s) nums k) ->
  file_grows s s l nums (<[Z.to_nat k := new]> nums) k new.
Proof.
  intros Hk Hl Hu (Hok & _ & Hfl & _ & _ & _ & Hul). apply Forall_cons in Hul as [Hnew _].
  assert (forall E n j, j <= 10 -> file_blocks E n j = take (Z.to_nat j) n) as Hfb.
  { intros E n j Hj. unfold file_blocks. rewrite Z.min_l, !level_tree_nil by (levels; lia).
    by rewrite !app_nil_r. }
  exists [], l. split_and!; try done; [simpl; lia|..].
  - by rewrite length_insert.
  - by apply Forall_insert.
  - rewrite !Hfb by lia. replace (Z.to_nat (k + 1)) with (S (Z.to_nat k)) by lia.
    erewrite take_S_r by (apply list_lookup_insert_eq; lia). by rewrite take_insert_ge by lia.
  - intros j Hj. rewrite !file_block_direct by lia. apply nth_entry_insert_ne; lia.
  - rewrite file_block_direct by lia. apply nth_entry_insert. lia.
Qed.

(** Growth in one level of indirect blocks. *)
Section level_growth.
Context (s s' : dstate) (l nums : list Z) (k new : Z) (d : nat) (c' : Z).
Context (Hd : (1 <= d <= 3)%nat) (Hk : level_base d <= k < level_base d + cap d).
Context (Hl : length nums = 13%nat).
Context (Hm : may_grow s l new (file_blocks (addrs s) nums k)).
Context (Hg : grown d (eq FREE_LIST_BLOCK) s s' l (level_tree (addrs s) nums d k) d
  (nth_entry nums (9 + Z.of_nat d)) c' (k - level_base d) new).
Let nums' := <[(9 + d)%nat := c']> nums.
Let B := below (addrs s) nums d k.
Let T := level_tree (addrs s) nums d k.

Lemma level_may_grow : may_grow s l new (B ++ T).
Proof. rewrite (file_blocks_below _ _ d) in Hm by lia. exact Hm. Qed.

Lemma level_slot : nth_entry nums' (9 + Z.of_nat d) = c'.
Proof.
  unfold nums'. replace (9 + d)%nat with (Z.to_nat (9 + Z.of_nat d)) by lia. apply nth_entry_insert. lia.
Qed.

Lemma level_tree_grown : level_tree (addrs s') nums' d (k + 1) = subtree (addrs s') d c' (k - level_base d + 1).
Proof. unfold level_tree. rewrite level_slot, tree_in_use_pos by lia. f_equal. lia. Qed.

Lemma level_high j : level_base d <= j <= k ->
  file_block (addrs s') nums' j = leaf (addrs s') d c' (j - level_base d).
Proof.
  intros Hj. rewrite (file_block_level _ _ d) by (try apply level_of_level; lia). by rewrite level_slot.
Qed.

(** The blocks in front of the level. *)
Lemma level_kept m : m ∈ B -> view s' m = view s m.
Proof.
  pose proof level_may_grow as Hm'. pose proof (may_grow_not_2 _ _ _ _ Hm') as H2.
  assert (forall m, In m (index_path (addrs s') d c' (k - level_base d)) -> m ∈ T ++ new :: l) as Hpath.
  { intros x. eapply grown_path; [exact Hg| |lia].
    eapply may_grow_sub; [|exact Hm']. by apply sublist_inserts_l. }
  pose proof Hm' as (_ & _ & _ & Hnd & _). destruct Hg as (_ & _ & _ & _ & _ & _ & _ & _ & _ & Hch).
  intros Hmb. apply Hch. intros [<-|Hp].
  - apply H2. set_solver.
  - apply Hpath in Hp. rewrite <- app_assoc in Hnd. apply NoDup_app in Hnd as (_ & Hx & _).
    by apply (Hx m).
Qed.

Lemma level_blocks : file_blocks (addrs s') nums' (k + 1) = B ++ level_tree (addrs s') nums' d (k + 1).
Proof.
  rewrite (file_blocks_below _ _ d) by lia. f_equal.
  apply below_frame; [lia|lia|]. intros m Hmb. by apply addrs_frame, level_kept.
Qed.

Lemma level_front_full : full_nodes (addrs s) B.
Proof.
  pose proof level_may_grow as Hm'. pose proof (may_grow_in_disk _ _ _ _ Hm') as Hin.
  apply addrs_full; [by destruct Hm'|]. rewrite <- app_assoc in Hin. by apply Forall_app in Hin as [? _].
Qed.

Lemma level_low j : 0 <= j < level_base d -> file_block (addrs s') nums' j = file_block (addrs s) nums j.
Proof.
  intros Hj. apply (file_block_frame _ _ _ _ d _ k); try done; [lia|..].
  - exact level_front_full.
  - intros m Hmb. by apply addrs_frame, level_kept.
  - intros i Hi Hi0. unfold nums', nth_entry. by rewrite list_lookup_insert_ne by lia.
Qed.

(** The tree of the level has each block once. *)
Lemma level_tree_ok :
  NoDup (subtree (addrs s') d c' (k - level_base d + 1)) /\
  full_nodes (addrs s') (subtree (addrs s') d c' (k - level_base d + 1)).
Proof.
  pose proof level_may_grow as Hm'. pose proof (may_grow_in_disk _ _ _ _ Hm') as Hin.
  pose proof Hm' as (_ & _ & _ & Hnd & _).
  destruct Hg as (alloc & l' & El & _ & Hok' & _ & HP & _ & _ & Hch).
  pose proof (changes_env _ _ _ Hch) as He. fold T in HP. rewrite El in *. split.
  - rewrite HP. eapply sublist_NoDup; [exact Hnd|]. apply sublist_app; [by apply sublist_inserts_l|].
    by apply sublist_skip, sublist_inserts_r.
  - apply addrs_full; [done|]. rewrite HP. apply Forall_forall. intros x Hx.
    apply (in_disk_env _ _ _ He). rewrite Forall_forall in Hin. apply Hin. set_solver.
Qed.

End level_growth.

(** The indirect blocks. *)
Lemma level_grows s s' l nums k new d c' :
  (1 <= d <= 3)%nat -> level_base d <= k < level_base d + cap d ->
  length nums = 13%nat -> Forall is_u64 nums -> is_u64 c' ->
  may_grow s l new (file_blocks (addrs s) nums k) ->
  grown d (eq FREE_LIST_BLOCK) s s' l (level_tree (addrs s) nums d k) d
    (nth_entry nums (9 + Z.of_nat d)) c' (k - level_base d) new ->
  file_grows s s' l nums (<[(9 + d)%nat := c']> nums) k new.
Proof.
  intros Hd Hk Hl Hu Huc Hm Hg. set (nums' := <[(9 + d)%nat := c']> nums).
  pose proof (level_may_grow s l nums k new d Hd Hk Hl Hm) as Hm'. pose proof (may_grow_not_2 _ _ _ _ Hm') as H2.
  pose proof (level_front_full s l nums k new d Hd Hk Hl Hm) as HfB.
  pose proof (level_tree_grown s' nums k d c' Hd Hk Hl) as HT. fold nums' in HT.
  pose proof (level_blocks s s' l nums k new d c' Hd Hk Hl Hm Hg) as Hfb. fold nums' in Hfb.
  pose proof (level_low s s' l nums k new d c' Hd Hk Hl Hm Hg) as Hlow.
  pose proof (level_high s' nums k d c' Hd Hk Hl) as Hhigh.
  pose proof (level_kept s s' l nums k new d c' Hd Hk Hl Hm Hg) as HB.
  destruct (level_tree_ok s s' l nums k new d c' Hd Hk Hl Hm Hg) as [Hndn Hfull].
  destruct Hg as (alloc & l' & -> & Hla & Hok' & Hfl' & HP & Hlf & Hnew & Hch).
  pose proof (changes_env _ _ _ Hch) as He. destruct Hch as [_ Hch]. rewrite HT in *.
  assert (0 <= k - level_base d < cap d) as Hkr by (destruct d as [|[|[|[|]]]]; levels; lia).
  assert (k - level_base d < k - level_base d + 1) as Hkr1 by lia.
  assert (k - level_base d + 1 <= cap d) as Hkr2 by lia.
  exists alloc, l'. split_and!; try done; [lia|..].
  - unfold nums'. by rewrite length_insert.
  - by apply Forall_insert.
  - rewrite Hfb, HP, (file_blocks_below _ _ d) by lia. by rewrite app_assoc.
  - intros j Hj. destruct (decide (j < level_base d)) as [Hlt|Hge]; [apply Hlow; lia|].
    rewrite Hhigh, Hlf by lia. by rewrite (file_block_level _ _ d) by (try apply level_of_level; lia).
  - rewrite Hhigh by lia. done.
  - intros j Hj. destruct (decide (j < level_base d)) as [Hlt|Hge].
    + apply HB. rewrite Hlow by lia. apply (below_path _ _ d j k); auto; lia.
    + rewrite Hhigh by lia. apply Hch.
      pose proof (path_in_subtree (addrs s') d c' _ (j - level_base d) Hfull ltac:(lia) Hkr2) as Hpj.
      set (lf := leaf (addrs s') d c' (j - level_base d)) in *.
      specialize (Hpj lf (or_intror eq_refl)). apply list_elem_of_In in Hpj.
      intros [E2|Hx].
      * apply H2. rewrite HP in Hpj. rewrite E2. set_solver.
      * destruct (decide (j = k)) as [->|Hne].
        -- by apply (leaf_not_on_own_path _ _ _ _ _ Hndn Hfull (conj (proj1 Hkr) Hkr1) Hkr2) in Hx.
        -- apply Hne. enough (k - level_base d = j - level_base d) by lia.
           apply (leaf_not_on_path _ _ _ _ _ _ Hndn Hfull); [lia|lia|lia|by left].
  - intros n Hn2 Hn. apply Hch. intros [<-|Hx]; [done|]. apply Hn. rewrite Hfb.
    apply elem_of_app. right. apply list_elem_of_In.
    apply (path_in_subtree _ _ _ _ _ Hfull (conj (proj1 Hkr) Hkr1) Hkr2). by left.
Qed.

(** The inode after a block has been added. *)
Definition grown_inode (i : inCoreiNode) (k : Z) (nums : list Z) : inCoreiNode :=
  ic_set_changed ((10 <=? k) || inode_changed i) (ic_set_blocks nums i).

Lemma updateINodeMetadata_0 i s :
  is_u64 (ic_size i) ->
  updateINodeMetadata i 0 (ic_linksCount i) s = Ret (ic_set_changed true i) s.
Proof.
  intros Hs. unfold updateINodeMetadata. rewrite Z.add_0_r, u64_id by done.
  destruct i. reflexivity.
Qed.

Lemma insertDataBlockInINode_spec s l i new k (Q : inCoreiNode -> dstate -> Prop) :
  ic_size i = 1024 * k -> 0 <= k <= TRIPLE_INDIRECT_LIMIT -> (3 <= length l)%nat ->
  length (ic_dataBlockNums i) = 13%nat -> Forall is_u64 (ic_dataBlockNums i) ->
  may_grow s l new (file_blocks (addrs s) (ic_dataBlockNums i) k) ->
  (forall nums' s', file_grows s s' l (ic_dataBlockNums i) nums' k new ->
     Q (grown_inode i k nums') s') ->
  wp (insertDataBlockInINode i new) s Q.
Proof.
  intros Hs Hk Hlen Hl Hu Hm HQ. unfold insertDataBlockInINode. rewrite Hs.
  assert ((1024 * k) mod BLOCK_SIZE = 0) as ->.
  { unfold BLOCK_SIZE. by rewrite Z.mul_comm, Z.mod_mul by lia. }
  cbn [Z.eqb negb]. destruct (level_of_base k Hk) as [Hd3 Hb].
  assert (k = 1024 * k / BLOCK_SIZE) as Hkd.
  { unfold BLOCK_SIZE. by rewrite Z.mul_comm, Z.div_mul by lia. }
  destruct (calculateOffset_level (1024 * k) (level_of k) k Hkd Hd3 Hb) as (t & -> & Ht & Hoff).
  unfold updateIndex. set (nums := ic_dataBlockNums i) in *.
  destruct (level_of k) as [|d] eqn:Hlev.
  - rewrite decide_True by (by destruct (offsetIndirection t)). rewrite Hoff. cbn [default].
    levels. apply wp_ret.
    replace (ic_set_blocks _ i) with (grown_inode i k (<[Z.to_nat k := new]> nums)).
    + apply HQ. apply direct_grows; try done; lia.
    + unfold grown_inode. rewrite (proj2 (Z.leb_gt _ _)) by lia. by destruct i.
  - rewrite decide_False by (by destruct (offsetIndirection t)). rewrite Ht, Hoff.
    apply wp_bind. change (Z.to_nat DIRECT_BLOCK_LIMIT) with 9%nat. cbn [Nat.add].
    change (S (S (S (S (S (S (S (S (S (S d)))))))))) with (9 + S d)%nat.
    cbn [level_cap] in Hb. pose proof (cap_pos (S d)) as Hcp.
    assert (1 <= S d <= 3)%nat as Hd by lia.
    rewrite (file_blocks_below _ _ (S d)) in Hm by lia.
    assert (default 0 (nums !! (9 + S d)%nat) = nth_entry nums (9 + Z.of_nat (S d))) as Hc.
    { unfold nth_entry. do 2 f_equal. lia. }
    assert (Z.min (k - level_base (S d)) (cap (S d)) = k - level_base (S d)) as Hmin by lia.
    apply (grow_root s l new (9 + S d)%nat d); [lia|lia|lia| |].
    { rewrite Hc. eapply may_grow_sub; [|exact Hm]. unfold level_tree. rewrite Hmin.
      by apply sublist_inserts_l. }
    rewrite Hc. intros s' c' Hc' Hg.
    eapply wp_Ret; [apply (updateINodeMetadata_0 (ic_set_blocks (<[(9 + S d)%nat := c']> nums) i))|].
    { destruct i; simpl in *. subst. unfold is_u64. change TRIPLE_INDIRECT_LIMIT with 2113673 in Hk. lia. }
    assert (10 <= k) as Hk10 by (destruct d as [|[|[|]]]; levels; lia).
    replace (ic_set_changed true _) with (grown_inode i k (<[(9 + S d)%nat := c']> nums)).
    + apply HQ. apply (level_grows s s' l nums k new (S d) c'); try done.
      * destruct Hc' as [->|Hin].
        -- unfold nth_entry.
           destruct (nums !! Z.to_nat (9 + Z.of_nat (S d))) as [v|] eqn:E0; [|by split].
           by apply (Forall_lookup_1 _ _ _ _ Hu E0).
        -- destruct Hm as (_ & _ & _ & _ & _ & _ & Hul). rewrite Forall_forall in Hul.
           apply Hul. by right.
      * by rewrite (file_blocks_below _ _ (S d)) by lia.
      * unfold level_tree. by rewrite Hmin.
    + unfold grown_inode. by rewrite (proj2 (Z.leb_le _ _)) by lia.
Qed.
End file_growth.

(** * [bmap] *)

Section bmap.
Context `{BlockStore ok}.

(** Number of blocks of a file of [size] bytes. *)
Definition nblocks (size : Z) : Z := (size + 1023) / 1024.

Lemma process_loop_leaf s d : forall n i buf,
  ok s -> wf_block buf -> (forall m, In m (index_path (addrs s) d n i) -> in_disk s m) ->
  process_loop (digits d i) n buf s = Ret (leaf (addrs s) d n i) s.
Proof.
  induction d as [|d IH]; intros n i buf Hok Hbuf Hin; [done|].
  cbn [digits process_loop leaf index_path] in *.
  destruct (store_get s n buf Hok) as (b & Hb & Hv & Hg); [by apply Hin; left|].
  erewrite bind_Ret by by apply Hg. cbn beta iota. fold (entries b).
  fold (nth_entry (entries b) (i / cap d)). rewrite (addrs_view _ _ _ Hv).
  rewrite IH; auto. intros m Hm. apply Hin. right. by rewrite (addrs_view _ _ _ Hv).
Qed.

(** An offset inside the last block of a file, or at its end when that is
    inside a block, is found in the file's blocks. *)
Lemma bmap_found s i offset resp mode :
  let j := offset / 1024 in
  ok s -> 0 <= offset -> j <= TRIPLE_INDIRECT_LIMIT ->
  (offset < ic_size i \/ offset = ic_size i /\ mode = APPEND_MODE /\ offset mod 1024 <> 0) ->
  (forall m, In m (file_path (addrs s) (ic_dataBlockNums i) j) -> in_disk s m) ->
  bmap i offset resp mode s =
    Ret (0, i, BmapResponse (file_block (addrs s) (ic_dataBlockNums i) j) (offset mod 1024)
                 (1024 - offset mod 1024) (readAheadBlockNum resp)) s.
Proof.
  intros j Hok Ho Hj Hcase Hin. unfold bmap.
  assert ((ic_size i <=? offset) && (bool_decide (mode = READ_MODE) || (ic_size i <? offset)) = false) as ->.
  { destruct Hcase as [Hlt|(-> & -> & _)]; [by rewrite (proj2 (Z.leb_gt _ _)) by lia|].
    by rewrite Z.ltb_irrefl, andb_false_r. }
  unfold BLOCK_SIZE.
  assert ((offset =? ic_size i) && (offset mod 1024 =? 0) && bool_decide (mode = APPEND_MODE) = false) as ->.
  { destruct Hcase as [Hlt|(-> & -> & Hm)]; [by rewrite (proj2 (Z.eqb_neq _ _)) by lia|].
    by rewrite (proj2 (Z.eqb_neq _ _) Hm), andb_false_r. }
  cbn iota. assert (0 <= j) as Hj0 by (apply Z.div_pos; lia).
  destruct (level_of_base j (conj Hj0 Hj)) as [Hd3 Hb].
  destruct (calculateOffset_level offset (level_of j) j eq_refl Hd3 Hb) as (t & -> & Ht & Hoff).
  pose proof (Z.mod_pos_bound offset 1024 ltac:(lia)) as Hm.
  unfold createBMapResponse, BLOCK_SIZE. rewrite (u64_id (1024 - _)) by (unfold is_u64; lia).
  unfold file_block, file_path in *. destruct (level_of j) as [|d].
  - rewrite decide_True by (by destruct (offsetIndirection t)). rewrite Hoff. done.
  - rewrite decide_False by (by destruct (offsetIndirection t)).
    unfold processAndGetDiskBlock. rewrite Ht, Hoff.
    assert (default 0 (ic_dataBlockNums i !! (Z.to_nat DIRECT_BLOCK_LIMIT + S d)%nat) =
      nth_entry (ic_dataBlockNums i) (9 + Z.of_nat (S d))) as ->.
    { unfold nth_entry. do 2 f_equal. consts. lia. }
    erewrite bind_Ret by by apply process_loop_leaf; auto with nao. done.
Qed.

(** At the end of a file of whole blocks [bmap] allocates. *)
Lemma bmap_append_eq s i k resp :
  ic_size i = 1024 * k -> 0 <= k ->
  bmap i (1024 * k) resp APPEND_MODE s =
    bind blockAlloc (fun b => bind (insertDataBlockInINode i b) (fun i' =>
      ret (0, i', BmapResponse b 0 1024 (readAheadBlockNum resp)))) s.
Proof.
  intros Hs Hk. unfold bmap. rewrite Hs, Z.ltb_irrefl, andb_false_r.
  rewrite Z.eqb_refl. unfold BLOCK_SIZE. rewrite Z.mul_comm, Z.mod_mul by lia. done.
Qed.

(** Beyond the end, and at the end in read mode, there is an error. *)
Lemma bmap_beyond s i offset resp mode :
  ic_size i < offset \/ ic_size i = offset /\ mode = READ_MODE ->
  bmap i offset resp mode s = Ret (-1, i, resp) s.
Proof.
  intros Hcase. unfold bmap.
  assert ((ic_size i <=? offset) && (bool_decide (mode = READ_MODE) || (ic_size i <? offset)) = true) as ->; [|done].
  apply andb_true_iff. split; [apply Z.leb_le; lia|]. apply orb_true_iff.
  destruct Hcase as [Hlt|[_ ->]]; [right; by apply Z.ltb_lt|by left].
Qed.
End bmap.

(** * Index blocks and data blocks

    The blocks of a tree are its index blocks and its data blocks; writing a
    data block leaves the tree as it is. *)

Fixpoint inner (E : Z -> list Z) (d : nat) (n cnt : Z) : list Z :=
  match d with
  | O => []
  | S d' => n :: kids (inner E d') (cap d') (E n) cnt
  end.

Fixpoint leaves (E : Z -> list Z) (d : nat) (n cnt : Z) : list Z :=
  match d with
  | O => [n]
  | S d' => kids (leaves E d') (cap d') (E n) cnt
  end.

Lemma kids_perm f g h c l cnt :
  (forall x k, f x k ≡ₚ g x k ++ h x k) -> kids f c l cnt ≡ₚ kids g c l cnt ++ kids h c l cnt.
Proof.
  intros Hf. revert cnt. induction l as [|x l IH]; intros cnt; cbn [kids]; [done|].
  destruct (0 <? cnt); [|done]. rewrite Hf, IH, <- !app_assoc. apply Permutation_app_head.
  rewrite !app_assoc. apply Permutation_app_tail. apply Permutation_app_comm.
Qed.

Lemma subtree_split E d n cnt : subtree E d n cnt ≡ₚ inner E d n cnt ++ leaves E d n cnt.
Proof.
  revert n cnt. induction d as [|d IH]; intros n cnt; cbn [subtree inner leaves]; [done|].
  cbn [app]. apply Permutation_cons; [done|]. by apply kids_perm.
Qed.

(** The way to a data block in use is through index blocks. *)
Lemma path_inner E d : forall n cnt i m,
  full_nodes E (subtree E d n cnt) -> 0 <= i < cnt -> cnt <= cap d ->
  (In m (index_path E d n i) -> In m (inner E d n cnt)) /\ In (leaf E d n i) (leaves E d n cnt).
Proof.
  induction d as [|d IH]; intros n cnt i m Hf Hi Hcnt; [split; [done|by left]|].
  assert (length (E n) = 128%nat) as Hl by (cbn [subtree] in Hf; apply full_nodes_cons in Hf; apply Hf).
  destruct (subtree_child E d n cnt i Hl Hi Hcnt) as (Hi' & Hk & l1 & l2 & Heq).
  rewrite Heq, full_nodes_cons, !full_nodes_app in Hf. destruct Hf as (_ & _ & Hf & _).
  destruct (IH _ _ (i mod cap d) m Hf Hi' Hk) as [IH1 IH2].
  destruct (div_mod_cap d i) as (Hdm & Hm & Ho); [lia|]. rewrite cap_S in Hcnt.
  cbn [index_path inner leaf leaves]. split.
  - intros [->|Hin]; [by left|right].
    destruct (kids_child (inner E d) (cap d) (E n) cnt (i / cap d)) as (l3 & l4 & ->);
      rewrite ?Hl; auto with nao; [lia|].
    apply in_app_iff. right. apply in_app_iff. left. auto.
  - destruct (kids_child (leaves E d) (cap d) (E n) cnt (i / cap d)) as (l3 & l4 & ->);
      rewrite ?Hl; auto with nao; [lia|].
    apply in_app_iff. right. apply in_app_iff. by left.
Qed.

Lemma kids_frame_by h f g c l cnt :
  (forall x k, 0 < k <= c -> In x l -> (forall n, In n (h x k) -> In n (kids h c l cnt)) ->
     f x k = g x k) ->
  0 < c -> kids f c l cnt = kids g c l cnt.
Proof.
  intros Hfg Hc. revert cnt Hfg. induction l as [|x l IH]; intros cnt Hfg; simpl in *; [done|].
  destruct (Z.ltb_spec 0 cnt) as [Hlt|]; [|done]. f_equal.
  - apply Hfg; [lia|by left|]. intros n Hn. apply in_app_iff. by left.
  - apply IH. intros y k Hk Hy Hin. apply Hfg; [done|by right|].
    intros n Hn. apply in_app_iff. right. by apply Hin.
Qed.

(** A tree depends on its index blocks only. *)
Lemma subtree_inner_frame E E' d n cnt :
  (forall m, In m (inner E d n cnt) -> E' m = E m) ->
  subtree E' d n cnt = subtree E d n cnt.
Proof.
  revert n cnt. induction d as [|d IH]; intros n cnt HE; cbn [subtree inner] in *; [done|].
  rewrite HE by by left. f_equal. symmetry. apply (kids_frame_by (inner E d)); [|apply cap_pos].
  intros x k Hk Hx Hin. symmetry. apply IH. intros m Hm. apply HE. right. by apply Hin.
Qed.

Definition level_inner (E : Z -> list Z) (nums : list Z) (d : nat) (k : Z) : list Z :=
  let cnt := Z.min (k - level_base d) (cap d) in
  if 0 <? cnt then inner E d (nth_entry nums (9 + Z.of_nat d)) cnt else [].

Definition level_leaves (E : Z -> list Z) (nums : list Z) (d : nat) (k : Z) : list Z :=
  let cnt := Z.min (k - level_base d) (cap d) in
  if 0 <? cnt then leaves E d (nth_entry nums (9 + Z.of_nat d)) cnt else [].

Definition file_inner (E : Z -> list Z) (nums : list Z) (k : Z) : list Z :=
  level_inner E nums 1 k ++ level_inner E nums 2 k ++ level_inner E nums 3 k.

Definition file_leaves (E : Z -> list Z) (nums : list Z) (k : Z) : list Z :=
  take (Z.to_nat (Z.min k 10)) nums ++
  level_leaves E nums 1 k ++ level_leaves E nums 2 k ++ level_leaves E nums 3 k.

Lemma level_split E nums d k :
  level_tree E nums d k ≡ₚ level_inner E nums d k ++ level_leaves E nums d k.
Proof.
  unfold level_tree, level_inner, level_leaves, tree_in_use.
  destruct (0 <? _); [apply subtree_split|done].
Qed.

Lemma file_blocks_split E nums k :
  file_blocks E nums k ≡ₚ file_inner E nums k ++ file_leaves E nums k.
Proof.
  unfold file_blocks, file_inner, file_leaves. rewrite !level_split.
  set (A := take _ _). generalize (level_inner E nums 1 k) (level_inner E nums 2 k)
    (level_inner E nums 3 k) (level_leaves E nums 1 k) (level_leaves E nums 2 k)
    (level_leaves E nums 3 k). intros i1 i2 i3 l1 l2 l3. solve_Permutation.
Qed.

Lemma file_inner_frame E E' nums k :
  (forall m, m ∈ file_inner E nums k -> E' m = E m) ->
  file_blocks E' nums k = file_blocks E nums k.
Proof.
  intros HE.
  assert (forall d, (forall m, m ∈ level_inner E nums d k -> E' m = E m) ->
    level_tree E' nums d k = level_tree E nums d k) as Hl.
  { intros d Hd. unfold level_tree, level_inner, tree_in_use in *. destruct (0 <? _); [|done].
    apply subtree_inner_frame. intros m Hm. by apply Hd, list_elem_of_In. }
  unfold file_blocks, file_inner in *. rewrite !Hl; [done|..]; intros m Hm; apply HE; set_solver.
Qed.

(** * Files and their contents *)

Section files.
Context `{BlockStore ok}.

(** The blocks of the file [i] are its own: none occurs twice, none is on the
    free list [l], and all can be read. *)
Definition file_ok (s : dstate) (l : list Z) (i : inCoreiNode) : Prop :=
  let nums := ic_dataBlockNums i in
  let blocks := file_blocks (addrs s) nums (nblocks (ic_size i)) in
  ok s /\ (AllocMutex ∉ held s) /\ free_list s l /\ NoDup (blocks ++ l) /\
  Forall (in_disk s) blocks /\ (FREE_LIST_BLOCK ∉ blocks) /\ Forall is_u64 l /\
  length nums = 13%nat /\ Forall is_u64 nums /\ 0 <= ic_size i <= 1024 * (TRIPLE_INDIRECT_LIMIT + 1).

(** Byte [n] of the file, and the first [size] bytes. *)
Definition file_byte (s : dstate) (nums : list Z) (n : nat) : Z :=
  match view s (file_block (addrs s) nums (Z.of_nat n / 1024)) with
  | Some b => default 0 (b !! Z.to_nat (Z.of_nat n mod 1024))
  | None => 0
  end.

Definition file_data (s : dstate) (nums : list Z) (size : Z) : list Z :=
  file_byte s nums <$> seq 0 (Z.to_nat size).

Lemma nblocks_mul k : nblocks (1024 * k) = k.
Proof.
  unfold nblocks. replace (1024 * k + 1023) with (k * 1024 + 1023) by lia.
  rewrite Z.div_add_l by lia. change (1023 / 1024) with 0. lia.
Qed.

Lemma nblocks_bounds size : 1024 * (nblocks size - 1) < size <= 1024 * nblocks size.
Proof.
  unfold nblocks. pose proof (Z.div_mod (size + 1023) 1024). 
  pose proof (Z.mod_pos_bound (size + 1023) 1024). lia.
Qed.

Lemma nblocks_eq size k : 1024 * (k - 1) < size <= 1024 * k -> nblocks size = k.
Proof. intros Hk. pose proof (nblocks_bounds size). lia. Qed.

Lemma file_data_app s nums a n :
  0 <= a -> 0 <= n ->
  file_data s nums (a + n) =
    file_data s nums a ++ (file_byte s nums <$> seq (Z.to_nat a) (Z.to_nat n)).
Proof.
  intros Ha Hn. unfold file_data. rewrite Z2Nat.inj_add, seq_app, fmap_app by lia. done.
Qed.

(** Two files with the same bytes. *)
Lemma file_data_ext s s' nums nums' size :
  (forall n, Z.of_nat n < size -> file_byte s' nums' n = file_byte s nums n) ->
  file_data s' nums' size = file_data s nums size.
Proof.
  intros Hb. unfold file_data. apply list_fmap_ext. intros i n Hi%lookup_seq.
  apply Hb. lia.
Qed.

(** A byte is unchanged when its block is. *)
Lemma file_byte_frame s s' nums nums' n :
  let j := Z.of_nat n / 1024 in
  file_block (addrs s') nums' j = file_block (addrs s) nums j ->
  view s' (file_block (addrs s') nums' j) = view s (file_block (addrs s') nums' j) ->
  file_byte s' nums' n = file_byte s nums n.
Proof. intros j He Hv. unfold file_byte. fold j. by rewrite Hv, He. Qed.

Lemma length_file_data s nums size : length (file_data s nums size) = Z.to_nat size.
Proof. unfold file_data. by rewrite length_fmap, length_seq. Qed.

(** The shape of a file of [k] blocks. *)
Definition wf_file (E : Z -> list Z) (nums : list Z) (k : Z) : Prop :=
  length nums = 13%nat /\ k <= TRIPLE_INDIRECT_LIMIT + 1 /\ full_nodes E (file_blocks E nums k).

(** Level [d > 0] of block [j]. *)
Lemma level_path E nums d j k m :
  (1 <= d <= 3)%nat -> level_base d <= j < level_base d + cap d -> j < k ->
  full_nodes E (level_tree E nums d k) ->
  (In m (index_path E d (nth_entry nums (9 + Z.of_nat d)) (j - level_base d)) ->
     m ∈ level_inner E nums d k) /\
  leaf E d (nth_entry nums (9 + Z.of_nat d)) (j - level_base d) ∈ level_leaves E nums d k.
Proof.
  intros Hd Hj Hjk Hf. unfold level_tree, level_inner, level_leaves in *.
  rewrite tree_in_use_pos in Hf by lia. rewrite (proj2 (Z.ltb_lt _ _)) by lia.
  rewrite !list_elem_of_In.
  apply (path_inner E d _ _ (j - level_base d) m Hf); lia.
Qed.

Lemma file_path_leaves E nums j k m :
  wf_file E nums k -> 0 <= j < k ->
  (In m (file_path E nums j) -> m ∈ file_inner E nums k) /\
  file_block E nums j ∈ file_leaves E nums k.
Proof.
  change TRIPLE_INDIRECT_LIMIT with 2113673. intros (Hl & Hk & Hf) Hj.
  change TRIPLE_INDIRECT_LIMIT with 2113673 in Hk.
  destruct (level_of_base j) as [Hd3 Hb]; [change TRIPLE_INDIRECT_LIMIT with 2113673; lia|].
  unfold file_blocks in Hf. rewrite !full_nodes_app in Hf. destruct Hf as (_ & Hf1 & Hf2 & Hf3).
  unfold file_inner, file_leaves, file_path, file_block. rewrite !elem_of_app.
  destruct (level_of j) as [|[|[|[|l]]]] eqn:Hlj; cbn [level_cap] in Hb; [| | | |lia].
  - split; [done|]. left. levels. unfold nth_entry.
    destruct (nums !! Z.to_nat j) eqn:E0; [|apply lookup_ge_None in E0; lia].
    apply (list_elem_of_lookup_2 _ (Z.to_nat j)). rewrite lookup_take_lt by lia. exact E0.
  - destruct (level_path E nums 1 j k m) as [H1 H2]; [lia|lia|lia|done|tauto].
  - destruct (level_path E nums 2 j k m) as [H1 H2]; [lia|lia|lia|done|tauto].
  - destruct (level_path E nums 3 j k m) as [H1 H2]; [lia|lia|lia|done|tauto].
Qed.

Lemma file_path_blocks E nums j k m :
  wf_file E nums k -> 0 <= j < k ->
  In m (file_path E nums j) \/ m = file_block E nums j -> m ∈ file_blocks E nums k.
Proof.
  intros Hw Hj Hm. destruct (file_path_leaves E nums j k m Hw Hj) as [H1 H2].
  rewrite file_blocks_split, elem_of_app. destruct Hm as [Hm| ->]; auto.
Qed.

(** Other blocks than those on the way to [j] do not matter for it. *)
Lemma file_block_stable E E' nums j k :
  wf_file E nums k -> 0 <= j < k -> (forall m, m ∈ file_inner E nums k -> E' m = E m) ->
  file_block E' nums j = file_block E nums j /\ file_path E' nums j = file_path E nums j.
Proof.
  intros Hw Hj HE.
  assert (forall m, In m (file_path E nums j) -> E' m = E m) as HP.
  { intros m Hm. apply HE. by apply (file_path_leaves E nums j k m Hw Hj). }
  destruct Hw as (Hl & Hk & Hf). change TRIPLE_INDIRECT_LIMIT with 2113673 in Hk.
  destruct (level_of_base j) as [Hd3 Hb]; [change TRIPLE_INDIRECT_LIMIT with 2113673; lia|].
  unfold file_blocks in Hf. rewrite !full_nodes_app in Hf. destruct Hf as (_ & Hf1 & Hf2 & Hf3).
  unfold file_path, file_block in *.
  assert (forall d, (1 <= d <= 3)%nat -> level_base d <= j < level_base d + cap d ->
    full_nodes E (level_tree E nums d k) ->
    (forall m, In m (index_path E d (nth_entry nums (9 + Z.of_nat d)) (j - level_base d)) -> E' m = E m) ->
    leaf E' d (nth_entry nums (9 + Z.of_nat d)) (j - level_base d) =
      leaf E d (nth_entry nums (9 + Z.of_nat d)) (j - level_base d) /\
    index_path E' d (nth_entry nums (9 + Z.of_nat d)) (j - level_base d) =
      index_path E d (nth_entry nums (9 + Z.of_nat d)) (j - level_base d)) as Hlf.
  { intros d Hd Hjd Hfd. unfold level_tree in Hfd. rewrite tree_in_use_pos in Hfd by lia.
    intros Hm. eapply leaf_frame; [exact Hfd|lia|lia|exact Hm]. }
  destruct (level_of j) as [|[|[|[|l]]]] eqn:Hlj; cbn [level_cap] in Hb; [done| | | |lia];
    apply Hlf; auto; lia.
Qed.

(** Data blocks do not repeat. *)
Lemma file_block_inj E nums i j k :
  wf_file E nums k -> NoDup (file_blocks E nums k) -> 0 <= i < k -> 0 <= j < k ->
  file_block E nums i = file_block E nums j -> i = j.
Proof.
  intros (Hl & Hk & Hf) Hnd Hi Hj Heq. change TRIPLE_INDIRECT_LIMIT with 2113673 in Hk.
  destruct (level_of_base i) as [Hi3 Hbi]; [change TRIPLE_INDIRECT_LIMIT with 2113673; lia|].
  destruct (level_of_base j) as [Hj3 Hbj]; [change TRIPLE_INDIRECT_LIMIT with 2113673; lia|].
  unfold file_blocks in *. rewrite !full_nodes_app in Hf. destruct Hf as (_ & Hf1 & Hf2 & Hf3).
  set (part d := match d with O => take (Z.to_nat (Z.min k 10)) nums | _ => level_tree E nums d k end).
  assert (forall x, 0 <= x < k -> level_base (level_of x) <= x < level_base (level_of x) + level_cap (level_of x) ->
    (level_of x <= 3)%nat -> file_block E nums x ∈ part (level_of x)) as Hpart.
  { intros x Hx Hbx Hx3. unfold file_block, part. destruct (level_of x) as [|d] eqn:Ex.
    - levels. unfold nth_entry.
      destruct (nums !! Z.to_nat x) eqn:E0; [|apply lookup_ge_None in E0; lia].
      apply (list_elem_of_lookup_2 _ (Z.to_nat x)). rewrite lookup_take_lt by lia. exact E0.
    - cbn [level_cap] in Hbx. apply (level_tree_path E nums (S d) x k); [lia|lia|lia| |by right].
      destruct d as [|[|[|d]]]; [done..|lia]. }
  pose proof (Hpart i Hi Hbi Hi3) as Hpi. pose proof (Hpart j Hj Hbj Hj3) as Hpj.
  rewrite Heq in Hpi.
  assert (level_of i = level_of j) as Hlev.
  { destruct (decide (level_of i = level_of j)) as [|Hne]; [done|exfalso].
    apply NoDup_app in Hnd as (_ & Hn0 & Hnd). apply NoDup_app in Hnd as (_ & Hn1 & Hnd).
    apply NoDup_app in Hnd as (_ & Hn2 & _).
    set (b := file_block E nums j) in *.
    specialize (Hn0 b). specialize (Hn1 b). specialize (Hn2 b). rewrite !elem_of_app in *.
    destruct (level_of i) as [|[|[|[|]]]], (level_of j) as [|[|[|[|]]]]; unfold part in *;
      solve [lia|tauto|done]. }
  unfold file_block in Heq. rewrite Hlev in *. destruct (level_of j) as [|d] eqn:Ej.
  - levels. unfold nth_entry in Heq.
    destruct (nums !! Z.to_nat i) as [a|] eqn:Ea; [|apply lookup_ge_None in Ea; lia].
    destruct (nums !! Z.to_nat j) as [b|] eqn:Eb; [|apply lookup_ge_None in Eb; lia].
    simpl in Heq. subst b. apply NoDup_app in Hnd as (Hnd & _).
    enough (Z.to_nat i = Z.to_nat j) by lia.
    eapply (NoDup_lookup _ _ _ a Hnd); rewrite lookup_take_lt by lia; done.
  - cbn [level_cap] in *. assert (NoDup (level_tree E nums (S d) k) /\ full_nodes E (level_tree E nums (S d) k)) as [Hn Hfn].
    { apply NoDup_app in Hnd as (_ & _ & Hnd). apply NoDup_app in Hnd as (? & _ & Hnd).
      apply NoDup_app in Hnd as (? & _ & ?). destruct d as [|[|[|]]]; [done..|lia]. }
    unfold level_tree in Hn, Hfn. rewrite tree_in_use_pos in Hn, Hfn by lia.
    enough (i - level_base (S d) = j - level_base (S d)) by lia. symmetry.
    apply (leaf_not_on_path _ _ _ _ _ _ Hn Hfn); lia.
Qed.
End files.
