(* ===== verification/FileData.v ===== *)
(** Reasoning about the contents of a file: a write to one of its blocks, the
    addition of a block, and changes elsewhere on the disk. *)

From S2P Require Export FileBlocks.

Section filedata.
Context `{BlockStore ok}.
Local Abbreviation may_grow := (may_grow (ok := ok)).
Local Abbreviation file_ok := (file_ok (ok := ok)).
Local Abbreviation file_grows := (file_grows (ok := ok)).

Definition MAX_FILE_SIZE : Z := 1024 * (TRIPLE_INDIRECT_LIMIT + 1).

Lemma file_ok_wf s l i :
  file_ok s l i -> wf_file (addrs s) (ic_dataBlockNums i) (nblocks (ic_size i)).
Proof.
  intros (Hok & _ & _ & _ & Hin & _ & _ & Hl & _ & Hs). split_and!; [done| |by apply addrs_full].
  pose proof (nblocks_bounds (ic_size i)). lia.
Qed.

Lemma file_ok_nodup s l i :
  file_ok s l i -> NoDup (file_blocks (addrs s) (ic_dataBlockNums i) (nblocks (ic_size i))).
Proof. intros (_ & _ & _ & Hnd & _). by apply NoDup_app in Hnd as (Hnd & _). Qed.

(** A file survives changes away from its index blocks and the free list. *)
Lemma file_ok_frame s s' l i i' :
  file_ok s l i -> ok s' -> same_env s s' -> ic_dataBlockNums i' = ic_dataBlockNums i ->
  nblocks (ic_size i') = nblocks (ic_size i) -> 0 <= ic_size i' <= MAX_FILE_SIZE ->
  (forall n, n = FREE_LIST_BLOCK \/ In n l \/
     n ∈ file_inner (addrs s) (ic_dataBlockNums i) (nblocks (ic_size i)) -> view s' n = view s n) ->
  file_ok s' l i' /\
  file_blocks (addrs s') (ic_dataBlockNums i') (nblocks (ic_size i')) =
    file_blocks (addrs s) (ic_dataBlockNums i) (nblocks (ic_size i)).
Proof.
  intros Hf Hok' He Hn Hk Hsz Hv. pose proof Hf as (Hok & Hh & Hl & Hnd & Hin & H2 & Hu & Hlen & Hun & _).
  assert (file_blocks (addrs s') (ic_dataBlockNums i') (nblocks (ic_size i')) =
    file_blocks (addrs s) (ic_dataBlockNums i) (nblocks (ic_size i))) as Hb.
  { rewrite Hk, Hn. apply file_inner_frame. intros m Hm. apply addrs_frame, Hv. auto. }
  split; [|done]. unfold FileBlocks.file_ok. rewrite Hb, Hn. split_and!; try done.
  - by destruct He as (_ & _ & _ & ->).
  - eapply free_list_frame; [exact Hl|done|]. intros n [->|Hin']; apply Hv; auto.
  - eapply Forall_impl; [exact Hin|]. intros n Hin'. by apply (in_disk_env _ _ _ He).
  - apply Hsz.
  - apply Hsz.
Qed.

(** The blocks in use. *)
Definition blocks_of (s : dstate) (i : inCoreiNode) : list Z :=
  file_blocks (addrs s) (ic_dataBlockNums i) (nblocks (ic_size i)).

(** A file whose blocks are not written keeps its blocks and its contents, also
    when the free list becomes another one. *)
Lemma file_kept s s' l l' i (W : Z -> Prop) :
  file_ok s l i -> ok s' -> changes W s s' -> (forall b, b ∈ blocks_of s i -> ~ W b) ->
  free_list s' l' -> NoDup (blocks_of s i ++ l') -> Forall is_u64 l' ->
  file_ok s' l' i /\ blocks_of s' i = blocks_of s i /\
  file_data s' (ic_dataBlockNums i) (ic_size i) = file_data s (ic_dataBlockNums i) (ic_size i).
Proof.
  intros Hf Hok' [He Hch] Hdis Hl' Hnd' Hu'.
  pose proof Hf as (Hok & Hh & Hl & Hnd & Hin & H2 & Hu & Hlen & Hun & Hs).
  assert (forall m, m ∈ blocks_of s i -> view s' m = view s m) as Hv by (intros m Hm; by apply Hch, Hdis).
  assert (forall m, m ∈ file_inner (addrs s) (ic_dataBlockNums i) (nblocks (ic_size i)) ->
    addrs s' m = addrs s m) as Hinner.
  { intros m Hm. apply addrs_frame, Hv. unfold blocks_of. rewrite file_blocks_split, elem_of_app. by left. }
  assert (blocks_of s' i = blocks_of s i) as Hb by (by apply file_inner_frame).
  split_and!; [|done|].
  - unfold FileBlocks.file_ok. fold (blocks_of s' i). rewrite Hb. fold (blocks_of s i) in *.
    split; [done|]. split; [by destruct He as (_ & _ & _ & ->)|]. split; [done|]. split; [done|].
    split; [|tauto].
    eapply Forall_impl; [exact Hin|]. intros n Hin'. by apply (in_disk_env _ _ _ He).
  - pose proof (file_ok_wf _ _ _ Hf) as Hw. apply file_data_ext. intros x Hx.
    assert (0 <= Z.of_nat x / 1024 < nblocks (ic_size i)) as Hj.
    { pose proof (nblocks_bounds (ic_size i)). split; [apply Z.div_pos; lia|].
      apply Z.div_lt_upper_bound; lia. }
    destruct (file_block_stable (addrs s) (addrs s') (ic_dataBlockNums i) _ _ Hw Hj Hinner) as [Eb _].
    apply file_byte_frame; [exact Eb|]. rewrite Eb. apply Hv.
    eapply file_path_blocks; [exact Hw|exact Hj|by right].
Qed.

(** The data block [j] of a file is not an index block, nor free. *)
Lemma file_block_apart s l i j :
  file_ok s l i -> 0 <= j < nblocks (ic_size i) ->
  let b := file_block (addrs s) (ic_dataBlockNums i) j in
  in_disk s b /\ b <> FREE_LIST_BLOCK /\ ~ In b l /\
  b ∉ file_inner (addrs s) (ic_dataBlockNums i) (nblocks (ic_size i)).
Proof.
  intros Hf Hj b. pose proof (file_ok_wf _ _ _ Hf) as Hw.
  pose proof Hf as (_ & _ & _ & Hnd & Hin & H2 & _).
  assert (b ∈ file_blocks (addrs s) (ic_dataBlockNums i) (nblocks (ic_size i))) as Hb.
  { eapply file_path_blocks; eauto. }
  assert (b ∈ file_leaves (addrs s) (ic_dataBlockNums i) (nblocks (ic_size i))) as Hlv.
  { by apply (file_path_leaves _ _ j _ b Hw). }
  split_and!.
  - rewrite Forall_forall in Hin. by apply Hin.
  - intros E. by rewrite E in Hb.
  - rewrite <- list_elem_of_In. apply NoDup_app in Hnd as (_ & Hnd & _). by apply Hnd.
  - apply NoDup_app in Hnd as (Hnd & _). rewrite file_blocks_split in Hnd.
    apply NoDup_app in Hnd as (_ & Hnd & _). intros Hi. by apply (Hnd b).
Qed.

(** A change of data block [j] leaves the tree and the free list alone. *)
Lemma file_write_frame s s' l i j :
  file_ok s l i -> 0 <= j < nblocks (ic_size i) ->
  changes (eq (file_block (addrs s) (ic_dataBlockNums i) j)) s s' ->
  (forall n, n = FREE_LIST_BLOCK \/ In n l \/
     n ∈ file_inner (addrs s) (ic_dataBlockNums i) (nblocks (ic_size i)) -> view s' n = view s n) /\
  file_blocks (addrs s') (ic_dataBlockNums i) (nblocks (ic_size i)) =
    file_blocks (addrs s) (ic_dataBlockNums i) (nblocks (ic_size i)).
Proof.
  intros Hf Hj [_ Hch]. destruct (file_block_apart _ _ _ _ Hf Hj) as (_ & Hb2 & Hbl & Hbi).
  assert (forall n, n = FREE_LIST_BLOCK \/ In n l \/
    n ∈ file_inner (addrs s) (ic_dataBlockNums i) (nblocks (ic_size i)) -> view s' n = view s n) as Hvs.
  { intros n Hn. apply Hch. intros <-. destruct Hn as [?|[?|?]]; done. }
  split; [done|]. apply file_inner_frame. intros m Hm. apply addrs_frame, Hvs. auto.
Qed.

(** New contents [b'] for data block [j]. *)
Lemma file_write_block s s' l i j b' :
  file_ok s l i -> 0 <= j < nblocks (ic_size i) ->
  let b := file_block (addrs s) (ic_dataBlockNums i) j in
  ok s' -> changes (eq b) s s' -> view s' b = Some b' ->
  file_ok s' l i /\
  forall n, Z.of_nat n < 1024 * nblocks (ic_size i) ->
    file_byte s' (ic_dataBlockNums i) n =
      if decide (Z.of_nat n / 1024 = j) then default 0 (b' !! Z.to_nat (Z.of_nat n mod 1024))
      else file_byte s (ic_dataBlockNums i) n.
Proof.
  intros Hf Hj b Hok' Hchb Hv. destruct (file_write_frame _ _ _ _ _ Hf Hj Hchb) as [Hvs _].
  destruct Hchb as [He Hch].
  pose proof Hf as (_ & _ & _ & _ & _ & _ & _ & _ & _ & Hsz).
  split; [by eapply file_ok_frame|].
  intros n Hn. pose proof (file_ok_wf _ _ _ Hf) as Hw.
  assert (0 <= Z.of_nat n / 1024 < nblocks (ic_size i)) as Hnj.
  { split; [apply Z.div_pos; lia|]. apply Z.div_lt_upper_bound; lia. }
  assert (forall x, 0 <= x < nblocks (ic_size i) ->
    file_block (addrs s') (ic_dataBlockNums i) x = file_block (addrs s) (ic_dataBlockNums i) x) as Hst.
  { intros x Hx. apply (file_block_stable _ _ _ x _ Hw Hx).
    intros m Hm. apply addrs_frame, Hvs. auto. }
  unfold file_byte. rewrite Hst by done. destruct (decide (Z.of_nat n / 1024 = j)) as [->|Hne].
  - fold b. by rewrite Hv.
  - rewrite Hch; [done|]. intros E. apply Hne. symmetry. 
    by apply (file_block_inj _ _ _ _ _ Hw (file_ok_nodup _ _ _ Hf) Hj Hnj).
Qed.

(** ** Growth by a block *)

Lemma file_ok_may_grow s s1 b l i k :
  file_ok s (b :: l) i -> nblocks (ic_size i) = k ->
  ok s1 -> free_list s1 l -> changes (eq FREE_LIST_BLOCK) s s1 ->
  may_grow s1 l b (file_blocks (addrs s1) (ic_dataBlockNums i) k) /\
  file_blocks (addrs s1) (ic_dataBlockNums i) k = file_blocks (addrs s) (ic_dataBlockNums i) k.
Proof.
  intros Hf Hk Hok1 Hl1 [He Hch].
  pose proof Hf as (Hok & Hh & Hl & Hnd & Hin & H2 & Hu & Hlen & Hun & Hsz). rewrite Hk in *.
  assert (file_blocks (addrs s1) (ic_dataBlockNums i) k = file_blocks (addrs s) (ic_dataBlockNums i) k) as Hb.
  { apply file_inner_frame. intros m Hm. apply addrs_frame, Hch. intros <-.
    apply H2. rewrite file_blocks_split. set_solver. }
  split; [|done]. rewrite Hb. pose proof Hl as (_ & _ & _ & _ & Hl2 & Hlin).
  split_and!; try done.
  - by destruct He as (_ & _ & _ & ->).
  - apply Forall_cons in Hlin as [Hbin _]. apply Forall_cons. split.
    + by apply (in_disk_env _ _ _ He).
    + eapply Forall_impl; [exact Hin|]. intros n Hn. by apply (in_disk_env _ _ _ He).
  - simpl in Hl2. rewrite elem_of_cons. intros [E|]; [apply Hl2; by left|done].
Qed.

Lemma file_grows_ok s s' l i i' k new :
  may_grow s l new (file_blocks (addrs s) (ic_dataBlockNums i) k) ->
  file_grows s s' l (ic_dataBlockNums i) (ic_dataBlockNums i') k new ->
  nblocks (ic_size i') = k + 1 -> 0 <= ic_size i' <= MAX_FILE_SIZE ->
  exists l', (length l <= length l' + 3)%nat /\ file_ok s' l' i' /\ same_env s s' /\
    (exists alloc, l = alloc ++ l' /\
       file_blocks (addrs s') (ic_dataBlockNums i') (k + 1) ≡ₚ
         file_blocks (addrs s) (ic_dataBlockNums i) k ++ new :: alloc) /\
    changes (fun n => n = FREE_LIST_BLOCK \/
      n ∈ file_blocks (addrs s') (ic_dataBlockNums i') (k + 1)) s s' /\
    forall n, Z.of_nat n < 1024 * k ->
      file_byte s' (ic_dataBlockNums i') n = file_byte s (ic_dataBlockNums i) n.
Proof.
  intros Hm (alloc & l' & -> & Hla & Hok' & Hl' & He & Hlen & Hu & HP & Hst & Hnew & Hview & Hfr) Hk Hsz.
  pose proof (may_grow_in_disk _ _ _ _ Hm) as Hin. pose proof (may_grow_not_2 _ _ _ _ Hm) as H2.
  pose proof Hm as (Hok & Hh & _ & Hnd & _ & _ & Hul).
  exists l'. split_and!; [rewrite length_app; lia| |done|by exists alloc| |].
  - unfold FileBlocks.file_ok. rewrite Hk. split_and!; try done.
    + by destruct He as (_ & _ & _ & ->).
    + rewrite HP. rewrite <- app_assoc. exact Hnd.
    + rewrite HP. apply Forall_forall. intros x Hx. apply (in_disk_env _ _ _ He).
      rewrite Forall_forall in Hin. apply Hin. set_solver.
    + rewrite HP. set_solver.
    + apply Forall_cons in Hul as [_ Hul]. by apply Forall_app in Hul as [_ ?].
    + apply Hsz.
    + apply Hsz.
  - split; [done|]. intros n Hn. apply Hfr; [intros E; apply Hn; by left|intros Hb; apply Hn; by right].
  - intros n Hn. assert (0 <= Z.of_nat n / 1024 < k) as Hj.
    { split; [apply Z.div_pos; lia|]. apply Z.div_lt_upper_bound; lia. }
    apply file_byte_frame; [by apply Hst|]. apply Hview. lia.
Qed.

(** ** Bytes added at the end of a file *)

(** A file that has grown: it has its old blocks and those from the front of the
    free list, and only these and the head of the free list may have changed. *)
Definition gained (s : dstate) (l : list Z) (i : inCoreiNode) (s2 : dstate) (l2 : list Z)
    (i2 : inCoreiNode) : Prop :=
  exists alloc, l = alloc ++ l2 /\
    blocks_of s2 i2 ≡ₚ blocks_of s i ++ alloc /\
    changes (fun b => b = FREE_LIST_BLOCK \/ b ∈ blocks_of s i ++ alloc) s s2.

Lemma gained_trans s l i s1 l1 i1 s2 l2 i2 :
  gained s l i s1 l1 i1 -> gained s1 l1 i1 s2 l2 i2 -> gained s l i s2 l2 i2.
Proof.
  intros (a1 & -> & B1 & C1) (a2 & -> & B2 & C2). exists (a1 ++ a2). split_and!.
  - by rewrite app_assoc.
  - by rewrite B2, B1, app_assoc.
  - eapply changes_trans; [| |exact C1|exact C2]; cbv beta; intros b [->|Hb]; auto; right; [set_solver|].
    rewrite B1 in Hb. by rewrite app_assoc.
Qed.

(** [chunk] has been appended to [i], giving [i2]; four free blocks at most are
    used per block that the file gains. *)
Definition appended (s : dstate) (l : list Z) (i : inCoreiNode) (s2 : dstate) (l2 : list Z)
    (i2 : inCoreiNode) (chunk : list Z) : Prop :=
  file_ok s2 l2 i2 /\ same_env s s2 /\ gained s l i s2 l2 i2 /\
  ic_size i2 = ic_size i + Z.of_nat (length chunk) /\
  Z.of_nat (length l) + 4 * nblocks (ic_size i) <= Z.of_nat (length l2) + 4 * nblocks (ic_size i2) /\
  file_data s2 (ic_dataBlockNums i2) (ic_size i2) =
    file_data s (ic_dataBlockNums i) (ic_size i) ++ chunk.

Lemma appended_trans s l i s1 l1 i1 c1 s2 l2 i2 c2 :
  appended s l i s1 l1 i1 c1 -> appended s1 l1 i1 s2 l2 i2 c2 ->
  appended s l i s2 l2 i2 (c1 ++ c2).
Proof.
  intros (F1 & E1 & A1 & S1 & L1 & D1) (F2 & E2 & A2 & S2 & L2 & D2).
  split_and!; [done|by etrans|by eapply gained_trans| | |].
  - rewrite length_app. lia.
  - lia.
  - rewrite D2, D1. by rewrite app_assoc.
Qed.

(** The last block holds the bytes before [size] and the chunk after it. *)
Lemma chunk_data s s2 nums nums2 size raw chunk :
  0 <= size -> wf_block raw -> (length chunk <= Z.to_nat (1024 - size mod 1024))%nat ->
  let j := size / 1024 in
  let b' := memcpy_at raw (Z.to_nat (size mod 1024)) chunk in
  (forall n, Z.of_nat n < size -> Z.of_nat n / 1024 = j ->
     file_byte s nums n = default 0 (raw !! Z.to_nat (Z.of_nat n mod 1024))) ->
  (forall n, Z.of_nat n < 1024 * (j + 1) ->
     file_byte s2 nums2 n = if decide (Z.of_nat n / 1024 = j)
       then default 0 (b' !! Z.to_nat (Z.of_nat n mod 1024)) else file_byte s nums n) ->
  file_data s2 nums2 (size + Z.of_nat (length chunk)) = file_data s nums size ++ chunk.
Proof.
  intros Hs [Hraw _] Hc j b' Hold Hnew.
  pose proof (Z.mod_pos_bound size 1024) as Hm. pose proof (Z.div_mod size 1024) as Hdm.
  assert (forall i, b' !! i = if decide (Z.to_nat (size mod 1024) <= i <
    Z.to_nat (size mod 1024) + length chunk)%nat then chunk !! (i - Z.to_nat (size mod 1024))%nat
    else raw !! i) as Hb'.
  { intros i. apply lookup_memcpy_at. lia. }
  rewrite file_data_app by lia. f_equal.
  - apply file_data_ext. intros n Hn. rewrite Hnew by lia.
    destruct (decide (Z.of_nat n / 1024 = j)) as [E|]; [|done].
    rewrite Hold by done. rewrite Hb', decide_False; [done|].
    pose proof (Z.div_mod (Z.of_nat n) 1024). pose proof (Z.mod_pos_bound (Z.of_nat n) 1024). lia.
  - apply list_eq. intros i. rewrite list_lookup_fmap, Nat2Z.id.
    destruct (decide (i < length chunk)%nat) as [Hi|Hi].
    + rewrite lookup_seq_lt by done. cbn [fmap option_fmap option_map].
      assert (Z.of_nat (Z.to_nat size + i) = j * 1024 + (size mod 1024 + Z.of_nat i)) as Hp by lia.
      assert (Z.of_nat (Z.to_nat size + i) / 1024 = j) as Hd.
      { rewrite Hp, Z.div_add_l, Z.div_small by lia. lia. }
      assert (Z.of_nat (Z.to_nat size + i) mod 1024 = size mod 1024 + Z.of_nat i) as Hmd.
      { rewrite Hp, Z.add_comm, Z.mod_add, Z.mod_small by lia. done. }
      rewrite Hnew, decide_True, Hmd, Hb', decide_True by lia.
      replace (Z.to_nat (size mod 1024 + Z.of_nat i) - Z.to_nat (size mod 1024))%nat with i by lia.
      destruct (chunk !! i) eqn:E; [done|]. apply lookup_ge_None in E. lia.
    + rewrite lookup_seq_ge by lia. symmetry. apply lookup_ge_None. lia.
Qed.

(** What [bmap] promises at the end of a file of [size] bytes, for the caller
    that then puts [chunk] into the block and adds its length to the size. *)
Definition append_ready (s : dstate) (l : list Z) (i : inCoreiNode) (chunk : list Z)
    (r : Z * inCoreiNode * bmapResponse) (s1 : dstate) : Prop :=
  let '(ret, i1, resp1) := r in
  let off := ic_size i mod 1024 in
  ret = 0 /\ byteOffsetInBlock resp1 = off /\ bytesLeftInBlock resp1 = 1024 - off /\
  ic_size i1 = ic_size i /\ ic_linksCount i1 = ic_linksCount i /\ ok s1 /\
  exists raw, view s1 (blockNumber resp1) = Some raw /\
    forall i2 s2, ic_dataBlockNums i2 = ic_dataBlockNums i1 ->
      ic_size i2 = ic_size i + Z.of_nat (length chunk) -> ok s2 ->
      changes (eq (blockNumber resp1)) s1 s2 ->
      view s2 (blockNumber resp1) = Some (memcpy_at raw (Z.to_nat off) chunk) ->
      exists l2, appended s l i s2 l2 i2 chunk.

(** Inside the last block. *)
Lemma append_within s l i resp chunk :
  file_ok s l i -> ic_size i mod 1024 <> 0 ->
  (0 < length chunk <= Z.to_nat (1024 - ic_size i mod 1024))%nat ->
  ic_size i + Z.of_nat (length chunk) <= MAX_FILE_SIZE ->
  wp (bmap i (ic_size i) resp APPEND_MODE) s (append_ready s l i chunk).
Proof.
  intros Hf Hm Hc Hmax. pose proof (file_ok_wf _ _ _ Hf) as Hw.
  pose proof Hf as (Hok & _ & _ & _ & Hin & _ & _ & _ & _ & Hsz).
  set (size := ic_size i) in *. set (j := size / 1024).
  pose proof (Z.mod_pos_bound size 1024) as Hmb. pose proof (Z.div_mod size 1024) as Hdm. fold j in Hdm.
  assert (nblocks size = j + 1) as Hk by (apply nblocks_eq; lia).
  assert (nblocks (size + Z.of_nat (length chunk)) = j + 1) as Hk2 by (apply nblocks_eq; lia).
  unfold MAX_FILE_SIZE in *. change TRIPLE_INDIRECT_LIMIT with 2113673 in *.
  assert (0 <= j < nblocks size) as Hj by lia.
  destruct (file_block_apart _ _ _ _ Hf Hj) as (Hbin & _).
  eapply wp_Ret.
  { apply bmap_found; fold size; fold j; [done|lia|change TRIPLE_INDIRECT_LIMIT with 2113673; lia|auto|].
    intros m Hm'. rewrite Forall_forall in Hin. apply Hin.
    eapply file_path_blocks; [exact Hw|exact Hj|by left]. }
  fold size; fold j. unfold append_ready. fold size. split_and!; try done.
  cbn [blockNumber]. set (b := file_block (addrs s) (ic_dataBlockNums i) j) in *.
  destruct (store_get s b zero_block Hok Hbin) as (raw & Hraw & Hv & _).
  exists raw. split; [done|]. intros i2 s2 Hn2 Hs2 Hok2 Hch2 Hv2.
  destruct (file_write_block s s2 l i j _ Hf Hj Hok2 Hch2 Hv2) as [Hf2 Hb2]. fold size in Hb2.
  exists l. split_and!.
  - eapply file_ok_frame; try exact Hf2; try done.
    + fold size. by rewrite Hs2, Hk, Hk2.
    + rewrite Hs2. unfold MAX_FILE_SIZE. change TRIPLE_INDIRECT_LIMIT with 2113673. lia.
  - by eapply changes_env.
  - exists []. destruct (file_write_frame _ _ _ _ _ Hf Hj Hch2) as [_ Hbl2]. fold size in Hbl2.
    assert (b ∈ blocks_of s i) as Hbin'.
    { eapply file_path_blocks; [exact Hw|exact Hj|by right]. }
    split_and!; [done| |].
    + unfold blocks_of. rewrite app_nil_r, Hn2, Hs2, Hk2, <- Hk, Hbl2. done.
    + eapply changes_mono; [|exact Hch2]. intros m <-. right. by rewrite app_nil_r.
  - done.
  - rewrite Hs2, Hk2. fold size. lia.
  - rewrite Hs2, Hn2. apply (chunk_data _ _ _ _ _ raw); [lia|done|lia| |].
    + intros n Hn Hnj. unfold file_byte. fold j in Hnj. rewrite Hnj. fold b. by rewrite Hv.
    + intros n Hn. apply Hb2. rewrite Hk. exact Hn.
Qed.

(** Taking a block off the free list leaves the bytes of a file alone. *)
Lemma bytes_kept s s1 l i n :
  file_ok s l i -> changes (eq FREE_LIST_BLOCK) s s1 -> 0 <= Z.of_nat n / 1024 < nblocks (ic_size i) ->
  file_byte s1 (ic_dataBlockNums i) n = file_byte s (ic_dataBlockNums i) n.
Proof.
  intros Hf [_ Hch] Hj. pose proof (file_ok_wf _ _ _ Hf) as Hw.
  pose proof Hf as (_ & _ & _ & _ & _ & H2 & _). set (k := nblocks (ic_size i)) in *.
  assert (forall m, m = file_block (addrs s) (ic_dataBlockNums i) (Z.of_nat n / 1024) \/
    m ∈ file_inner (addrs s) (ic_dataBlockNums i) k -> view s1 m = view s m) as Hv1.
  { intros m Hmm. apply Hch. intros <-. apply H2.
    destruct Hmm as [->|Hmm]; [|rewrite file_blocks_split; set_solver].
    eapply file_path_blocks; [exact Hw|exact Hj|by right]. }
  destruct (file_block_stable (addrs s) (addrs s1) _ (Z.of_nat n / 1024) k Hw Hj) as [Hst _].
  { intros m Hmm. apply addrs_frame, Hv1. auto. }
  apply file_byte_frame; [done|]. rewrite Hst. apply Hv1. auto.
Qed.

(** The file after a block [b] was added to it and written. *)
Lemma new_block_appended s s1 s2 s3 b l i i2 chunk k raw :
  file_ok s (b :: l) i -> ic_size i = 1024 * k -> (0 < length chunk <= 1024)%nat ->
  ic_size i + Z.of_nat (length chunk) <= MAX_FILE_SIZE ->
  ok s1 -> free_list s1 l -> changes (eq FREE_LIST_BLOCK) s s1 ->
  file_grows s1 s2 l (ic_dataBlockNums i) (ic_dataBlockNums i2) k b ->
  ic_size i2 = ic_size i + Z.of_nat (length chunk) -> ok s3 -> changes (eq b) s2 s3 -> wf_block raw ->
  view s3 b = Some (memcpy_at raw 0 chunk) -> exists l2, appended s (b :: l) i s3 l2 i2 chunk.
Proof.
  intros Hf Hs Hc Hmax Hok1 Hl1 Hch1 Hg Hs2 Hok3 Hch3 Hraw Hv3.
  pose proof Hf as (_ & _ & _ & _ & _ & _ & _ & _ & _ & Hsz).
  unfold MAX_FILE_SIZE in *. change TRIPLE_INDIRECT_LIMIT with 2113673 in *.
  assert (nblocks (ic_size i) = k) as Hk by (rewrite Hs; apply nblocks_mul).
  assert (ic_size i mod 1024 = 0) as Hm by (by rewrite Hs, Z.mul_comm, Z.mod_mul by lia).
  destruct (file_ok_may_grow _ _ _ _ _ _ Hf Hk Hok1 Hl1 Hch1) as [Hmg Hfb].
  pose proof Hg as (alloc & l' & El & _ & Hok2 & _ & He2 & _ & _ & HP & _ & Hnew & Hvn & _).
  assert (nblocks (ic_size i2) = k + 1) as Hk2 by (apply nblocks_eq; lia).
  assert (0 <= ic_size i2 <= MAX_FILE_SIZE) as Hsz2.
  { unfold MAX_FILE_SIZE. change TRIPLE_INDIRECT_LIMIT with 2113673. lia. }
  destruct (file_grows_ok _ _ _ _ i2 k b Hmg Hg Hk2 Hsz2) as (l2 & Hll & Hf2 & He12 & (al & Hal & HPb) & Hch12 & Hbytes).
  assert (b = file_block (addrs s2) (ic_dataBlockNums i2) k) as Hb by by symmetry.
  rewrite Hb in Hch3, Hv3.
  destruct (file_write_block s2 s3 l2 i2 k _ Hf2 ltac:(lia) Hok3 Hch3 Hv3) as [Hf3 Hb3].
  exists l2. split_and!.
  - done.
  - etrans; [by eapply changes_env|]. etrans; [done|]. by eapply changes_env.
  - exists (b :: al). destruct (file_write_frame s2 s3 l2 i2 k Hf2 ltac:(lia) Hch3) as [_ Hbl3].
    assert (blocks_of s2 i2 ≡ₚ blocks_of s i ++ b :: al) as HP2.
    { unfold blocks_of. by rewrite Hk2, Hk, HPb, Hfb. }
    unfold blocks_of in HP2 |- * at 1. split_and!; [by rewrite Hal| |].
    + by rewrite Hbl3, HP2.
    + eapply (changes_trans (eq FREE_LIST_BLOCK)); [intros x <-; by left|intros x Hx; exact Hx|exact Hch1|].
      eapply changes_trans; [| |exact Hch12|exact Hch3]; cbv beta.
      * intros x [->|Hx]; [by left|right]. rewrite <- HP2. by rewrite Hk2.
      * intros x <-. right. rewrite <- HP2. eapply file_path_blocks; [by eapply file_ok_wf| |by right]. lia.
  - done.
  - rewrite Hk2, Hk. simpl length. lia.
  - rewrite Hs2, Hs.
    assert ((1024 * k) / 1024 = k) as Hd by (by rewrite Z.mul_comm, Z.div_mul by lia).
    apply (chunk_data _ _ _ _ _ raw); [lia|done| | |].
    + rewrite Hs in Hm. rewrite Hm. lia.
    + intros n Hn Hnj. rewrite Hd in Hnj. pose proof (Z.div_mod (Z.of_nat n) 1024).
      pose proof (Z.mod_pos_bound (Z.of_nat n) 1024). lia.
    + rewrite Hd. rewrite Hs in Hm. rewrite Hm. intros n Hn. rewrite Hb3 by lia.
      destruct (decide (Z.of_nat n / 1024 = k)); [done|].
      assert (Z.of_nat n < 1024 * k) as Hlt.
      { pose proof (Z.div_mod (Z.of_nat n) 1024). pose proof (Z.mod_pos_bound (Z.of_nat n) 1024). lia. }
      rewrite Hbytes by done. apply (bytes_kept _ _ (b :: l)); [done|done|]. rewrite Hk.
      split; [apply Z.div_pos; lia|apply Z.div_lt_upper_bound; lia].
Qed.

(** In a new block. *)
Lemma append_new_block s b l i resp chunk k :
  file_ok s (b :: l) i -> ic_size i = 1024 * k -> (3 <= length l)%nat ->
  (0 < length chunk <= 1024)%nat -> ic_size i + Z.of_nat (length chunk) <= MAX_FILE_SIZE ->
  wp (bmap i (ic_size i) resp APPEND_MODE) s (append_ready s (b :: l) i chunk).
Proof.
  intros Hf Hs Hlen Hc Hmax.
  pose proof Hf as (Hok & Hh & Hl & _ & Hin & _ & _ & Hl13 & Hu & Hsz).
  unfold MAX_FILE_SIZE in *. change TRIPLE_INDIRECT_LIMIT with 2113673 in *.
  assert (nblocks (ic_size i) = k) as Hk by (rewrite Hs; apply nblocks_mul).
  assert (ic_size i mod 1024 = 0) as Hm by (by rewrite Hs, Z.mul_comm, Z.mod_mul by lia).
  rewrite Hs. unfold wp. rewrite (bmap_append_eq s i k resp Hs) by lia.
  apply wp_bind. eapply wp_mono; [by apply (blockAlloc_pop s b l)|].
  intros r s1 (-> & Hok1 & Hl1 & Hch1).
  destruct (file_ok_may_grow _ _ _ _ _ _ Hf Hk Hok1 Hl1 Hch1) as [Hmg Hfb].
  apply wp_bind. eapply insertDataBlockInINode_spec; [exact Hs| |done|done|done|exact Hmg|].
  { change TRIPLE_INDIRECT_LIMIT with 2113673. lia. }
  intros nums' s2 Hg. apply wp_ret. unfold append_ready. rewrite Hm.
  assert (ic_size (grown_inode i k nums') = ic_size i /\
    ic_linksCount (grown_inode i k nums') = ic_linksCount i /\
    ic_dataBlockNums (grown_inode i k nums') = nums') as (Hs' & Hlk & Hn') by (by destruct i).
  split_and!; try done; [by destruct Hg as (?&?&?&?&?&?&_)|].
  cbn [blockNumber]. pose proof Hg as (alloc & l' & El & _ & Hok2 & _ & He2 & _ & _ & HP & _ & Hnew & Hvn & _).
  assert (in_disk s2 b) as Hbin2.
  { apply (in_disk_env _ _ _ He2). pose proof Hmg as (_ & _ & _ & _ & Hx & _). by apply Forall_cons in Hx as [? _]. }
  destruct (store_get s2 b zero_block Hok2 Hbin2) as (raw & Hraw & Hv & _).
  exists raw. split; [done|]. intros i2 s3 Hn2 Hs2 Hok3 Hch3 Hv3. rewrite Hn' in Hn2.
  rewrite <- Hn2 in Hg. by eapply (new_block_appended s s1 s2 s3 b l i i2 chunk k raw).
Qed.

(** Both cases. *)
Lemma append_step s l i resp chunk :
  file_ok s l i ->
  (0 < length chunk <= Z.to_nat (1024 - ic_size i mod 1024))%nat ->
  ic_size i + Z.of_nat (length chunk) <= MAX_FILE_SIZE ->
  4 * nblocks (ic_size i + Z.of_nat (length chunk)) <= Z.of_nat (length l) + 4 * nblocks (ic_size i) ->
  wp (bmap i (ic_size i) resp APPEND_MODE) s (append_ready s l i chunk).
Proof.
  intros Hf Hc Hmax Hroom. destruct (decide (ic_size i mod 1024 = 0)) as [Hm|Hm].
  - pose proof (Z.div_mod (ic_size i) 1024) as Hdm. set (k := ic_size i / 1024) in *.
    assert (ic_size i = 1024 * k) as Hs by lia.
    assert (nblocks (ic_size i + Z.of_nat (length chunk)) = k + 1) as Hk by (apply nblocks_eq; lia).
    assert (nblocks (ic_size i) = k) as Hk0 by (rewrite Hs; apply nblocks_mul).
    destruct l as [|b l]; [simpl in Hroom; lia|]. simpl in Hroom.
    apply (append_new_block s b l i resp chunk k); try done; lia.
  - by apply append_within.
Qed.
End filedata.
