(* ===== verification/FileIO.v ===== *)
(** Contents of files: the loops of [src/interface/read.c],
    [src/interface/write.c] and [src/interface/truncate.c] that move bytes
    between a buffer and the blocks of one inode.

    They run on the inode as a value while its mutex is held; [Files.v] has the
    entry points with paths, file descriptors and the inode cache. *)

From S2P Require Export FileData.

Section fileio.
Context `{Host}.

(** What [malloc(sizeof(bmapResponse))] returns. *)
Definition junk_response : bmapResponse := BmapResponse junk_word junk_word junk_word junk_word.

(** * [read.c] *)

(** [memcpy(buf + at, data, length data)] into the caller's buffer. *)
Definition buffer_write (buf : list Z) (at_ : Z) (data : list Z) : DM (list Z) :=
  if at_ + Z.of_nat (length data) <=? Z.of_nat (length buf)
  then ret (memcpy_at buf (Z.to_nat at_) data)
  else undefined OutOfBounds.

Definition readInBlock (bmapResp : bmapResponse) (buf : list Z) (at_ size : Z) : DM (list Z) :=
  let* (_, blockPtr) := getDiskBlock (blockNumber bmapResp) junk_block in
  buffer_write buf at_
    (bytes_at blockPtr (Z.to_nat (byteOffsetInBlock bmapResp)) (Z.to_nat size)).

Record read_state : Type := ReadState {
  rd_bytesRead : Z;
  rd_bytesLeft : Z;
  rd_offset : Z;
  rd_file_offset : Z;
  rd_resp : bmapResponse;
  rd_buf : list Z
}.

Definition read_body (fileINode : inCoreiNode) (lastByte : Z) (st : read_state)
  : DM (ctl read_state) :=
  let 'ReadState bytesRead bytesLeft offset file_offset bmapResp buf := st in
  let* (retValue, _, bmapResp) := bmap fileINode offset bmapResp READ_MODE in
  if retValue =? -1 then
    ret (Break (ReadState bytesRead bytesLeft offset file_offset bmapResp buf))
  else
    let bytesToReadFromBlock := Z.min (bytesLeftInBlock bmapResp) (u64 (lastByte - bytesRead)) in
    let* buf := readInBlock bmapResp buf bytesRead bytesToReadFromBlock in
    ret (Next (ReadState (u64 (bytesRead + bytesToReadFromBlock))
                 (i64 (bytesLeft - bytesToReadFromBlock))
                 (u64 (offset + bytesToReadFromBlock))
                 (u64 (file_offset + bytesToReadFromBlock)) bmapResp buf)).

(** The number of bytes read, [file->offset] and the buffer. Each iteration
    reads a byte at least. *)
Definition readBytes (fileINode : inCoreiNode) (file_offset : Z) (buf : list Z) (size offset : Z)
  : DM (Z * Z * list Z) :=
  let bytesLeft := Z.min (i64 size) (i64 (i64 (ic_size fileINode) - i64 offset)) in
  let lastByte := Z.min (ic_size fileINode) (u64 (size + offset)) in
  let* st := while_do (S (Z.to_nat bytesLeft)) (fun st => 0 <? rd_bytesLeft st)
               (read_body fileINode lastByte)
               (ReadState 0 bytesLeft offset file_offset junk_response buf) in
  ret (rd_bytesRead st, rd_file_offset st, rd_buf st).

(** * [write.c] *)

(** [src] is [buf]; its bytes from [at_] on are copied. *)
Definition writeToBlock (bmapResp : bmapResponse) (src : list Z) (at_ size : Z) : DM unit :=
  let* (_, blockPtr) := getDiskBlock (blockNumber bmapResp) junk_block in
  let blockPtr := memcpy_at blockPtr (Z.to_nat (byteOffsetInBlock bmapResp))
                    (bytes_at src (Z.to_nat at_) (Z.to_nat size)) in
  writeDiskBlock (blockNumber bmapResp) blockPtr ;;;
  ret tt.

Record write_state : Type := WriteState {
  wr_inode : inCoreiNode;
  wr_bytesWritten : Z;
  wr_offset : Z;
  wr_file_offset : Z;
  wr_resp : bmapResponse
}.

(** [bytesWritten] is an [int]. *)
Definition write_body (buf : list Z) (size : Z) (st : write_state) : DM (ctl write_state) :=
  let 'WriteState inode bytesWritten offset file_offset bmapResp := st in
  let* (retValue, inode, bmapResp) := bmap inode offset bmapResp APPEND_MODE in
  if retValue <? 0 then
    ret (Break (WriteState inode bytesWritten offset file_offset bmapResp))
  else
    let bytesToWrite := Z.min (bytesLeftInBlock bmapResp) (u64 (size - u64 bytesWritten)) in
    writeToBlock bmapResp buf bytesWritten bytesToWrite ;;;
    let* inode :=
      (if offset =? ic_size inode then
         updateINodeMetadata inode (i32 bytesToWrite) (ic_linksCount inode)
       else if u64 (ic_size inode - u64 bytesWritten) <? u64 (size - u64 bytesWritten) then
         updateINodeMetadata inode (i32 (bytesToWrite - ic_size inode)) (ic_linksCount inode)
       else ret inode) in
    ret (Next (WriteState inode (i32 (bytesWritten + bytesToWrite))
                 (u64 (offset + bytesToWrite)) (u64 (file_offset + bytesToWrite)) bmapResp)).

(** The loop of [writeToFile]: the inode, the bytes written and
    [file->offset]. Each iteration writes a byte at least. *)
Definition writeBytes (inode : inCoreiNode) (file_offset : Z) (buf : list Z) (size offset : Z)
  : DM (inCoreiNode * Z * Z) :=
  let* st := while_do (S (Z.to_nat size)) (fun st => u64 (wr_bytesWritten st) <? size)
               (write_body buf size) (WriteState inode 0 offset file_offset junk_response) in
  ret (wr_inode st, wr_bytesWritten st, wr_file_offset st).

(** * [truncate.c] *)

Definition writeNullBytes (blockNumber offset bytesToWrite : Z) : DM unit :=
  let* (_, blockPtr) := getDiskBlock blockNumber junk_block in
  let blockPtr := memcpy_at blockPtr (Z.to_nat offset) (replicate (Z.to_nat bytesToWrite) 0) in
  writeDiskBlock blockNumber blockPtr ;;;
  ret tt.

Definition increase_body (size : Z) (st : inCoreiNode * Z * Z * bmapResponse)
  : DM (ctl (inCoreiNode * Z * Z * bmapResponse)) :=
  let '(inode, bytesWritten, offset, bmapResp) := st in
  let* (_, inode, bmapResp) := bmap inode offset bmapResp APPEND_MODE in
  let bytesToWrite := Z.min (bytesLeftInBlock bmapResp) (u64 (size - bytesWritten)) in
  writeNullBytes (blockNumber bmapResp) (byteOffsetInBlock bmapResp) bytesToWrite ;;;
  let* inode := updateINodeMetadata inode (i32 bytesToWrite) (ic_linksCount inode) in
  ret (Next (inode, u64 (bytesWritten + bytesToWrite), u64 (offset + bytesToWrite), bmapResp)).

Definition increaseFileSizeBy (inode : inCoreiNode) (size : Z) : DM inCoreiNode :=
  let* (inode, _, _, _) :=
    while_do (S (Z.to_nat size)) (fun '(_, bytesWritten, _, _) => bytesWritten <? size)
      (increase_body size) (inode, 0, ic_size inode, junk_response) in
  ret inode.

Definition decrease_body (size : Z) (st : inCoreiNode * Z * Z * bmapResponse)
  : DM (ctl (inCoreiNode * Z * Z * bmapResponse)) :=
  let '(inode, bytesReduced, offset, bmapResp) := st in
  let* (_, inode, bmapResp) := bmap inode offset bmapResp READ_MODE in
  if u64 (size - bytesReduced) <? u64 (byteOffsetInBlock bmapResp + 1) then
    let* inode := updateINodeMetadata inode (i32 (- (size - bytesReduced))) (ic_linksCount inode) in
    ret (Break (inode, size, offset, bmapResp))
  else
    freeDataBlockInINode inode (blockNumber bmapResp) ;;;
    let* inode := updateINodeMetadata inode (i32 (- (byteOffsetInBlock bmapResp + 1)))
                    (ic_linksCount inode) in
    ret (Next (inode, u64 (bytesReduced + (byteOffsetInBlock bmapResp + 1)),
               u64 (offset - (byteOffsetInBlock bmapResp + 1)), bmapResp)).

Definition decreaseFileSizeBy (inode : inCoreiNode) (size : Z) : DM inCoreiNode :=
  let* (inode, _, _, _) :=
    while_do (S (Z.to_nat size)) (fun '(_, bytesReduced, _, _) => bytesReduced <? size)
      (decrease_body size) (inode, 0, u64 (ic_size inode - 1), junk_response) in
  ret inode.

Definition truncateINode (inode : inCoreiNode) (size : Z) : DM inCoreiNode :=
  if ic_size inode =? size then ret inode
  else if size <? ic_size inode then decreaseFileSizeBy inode (u64 (ic_size inode - size))
  else increaseFileSizeBy inode (u64 (size - ic_size inode)).

End fileio.

(** * Lemmas *)

Section fileio_lemmas.
Context `{BlockStore ok}.
Local Abbreviation file_ok := (file_ok (ok := ok)).
Local Abbreviation appended := (appended (ok := ok)).

Lemma updateINodeMetadata_spec i d links s (Q : inCoreiNode -> dstate -> Prop) :
  ok s ->
  (forall i' s', ok s' -> same_env s s' -> (forall n, view s' n = view s n) ->
     ic_dataBlockNums i' = ic_dataBlockNums i -> ic_size i' = u64 (ic_size i + d) ->
     ic_linksCount i' = links -> ic_inode_number i' = ic_inode_number i ->
     ic_type i' = ic_type i -> inode_changed i' = true -> Q i' s') ->
  wp (updateINodeMetadata i d links) s Q.
Proof.
  intros Hok HQ. unfold updateINodeMetadata. apply wp_bind.
  destruct (negb (d =? 0)).
  - apply wp_bind. eapply wp_Ret; [done|]. apply wp_ret, wp_ret.
    apply HQ; try done; try (by destruct i). by apply store_calls.
  - apply wp_ret, wp_ret. apply HQ; try done; by destruct i.
Qed.

Lemma appended_frame s l i s2 l2 i2 c s3 i3 :
  appended s l i s2 l2 i2 c -> ok s3 -> same_env s2 s3 -> (forall n, view s3 n = view s2 n) ->
  ic_dataBlockNums i3 = ic_dataBlockNums i2 -> ic_size i3 = ic_size i2 ->
  appended s l i s3 l2 i3 c.
Proof.
  intros (F & E & A & Sz & L & D) Hok He Hv Hn Hs.
  assert (file_data s3 (ic_dataBlockNums i3) (ic_size i3) =
    file_data s2 (ic_dataBlockNums i2) (ic_size i2)) as HD.
  { rewrite Hs, Hn. apply file_data_ext. intros n _.
    assert (forall j, file_block (addrs s3) (ic_dataBlockNums i2) j =
      file_block (addrs s2) (ic_dataBlockNums i2) j) as Hfb.
    { intros j. unfold file_block. destruct (level_of j); [done|]. generalize (S n0) as d. clear -Hv.
      intros d; generalize (nth_entry (ic_dataBlockNums i2) (9 + Z.of_nat d)) (j - level_base d).
      induction d as [|d IH]; intros n x; cbn [leaf]; [done|].
      rewrite (addrs_frame s2 s3) by done. apply IH. }
    apply file_byte_frame; auto. }
  pose proof F as (_ & _ & _ & _ & _ & _ & _ & _ & _ & Hsz).
  destruct (file_ok_frame s2 s3 l2 i2 i3 F Hok He Hn ltac:(by rewrite Hs) ltac:(by rewrite Hs) ltac:(done))
    as [F3 B3].
  split_and!; try done; [by etrans| |congruence|congruence|congruence].
  destruct A as (al & A1 & A2 & A3 & A4). exists al. split_and!; [done| |split].
  - unfold blocks_of. rewrite B3. apply A2.
  - by etrans.
  - intros n Hnn. rewrite Hv. by apply A4.
Qed.

Lemma i32_small z : 0 <= z <= 1024 -> i32 z = z.
Proof. intros. apply i32_id. lia. Qed.

Lemma file_size_u64 s l i : file_ok s l i -> 0 <= ic_size i <= 2164402176.
Proof.
  intros (_ & _ & _ & _ & _ & _ & _ & _ & _ & Hs). change TRIPLE_INDIRECT_LIMIT with 2113673 in Hs.
  lia.
Qed.

(** ** [writeToBlock] and [writeNullBytes] *)

Lemma wp_put_bytes n off data raw s (Q : unit -> dstate -> Prop) :
  ok s -> view s n = Some raw -> Forall is_byte data -> (Z.to_nat off + length data <= 1024)%nat ->
  (forall s', ok s' -> changes (eq n) s s' ->
     view s' n = Some (memcpy_at raw (Z.to_nat off) data) -> Q tt s') ->
  wp (let* (_, blockPtr) := getDiskBlock n junk_block in
      writeDiskBlock n (memcpy_at blockPtr (Z.to_nat off) data) ;;; ret tt) s Q.
Proof.
  intros Hok Hv Hd Hl HQ. pose proof (view_wf _ _ _ Hok Hv) as [Hraw Hrb].
  apply wp_bind. eapply wp_Ret; [apply (getDiskBlock_view _ _ raw); auto with nao|].
  cbn beta iota. apply wp_bind, wp_writeDiskBlock; [done|eauto with nao| |].
  { split; [rewrite length_memcpy_at; lia|auto with nao]. }
  intros s' Hok' Hv' Hch. by apply wp_ret, HQ.
Qed.

(** One iteration at the end of the file: [chunk] is stored and the size
    follows. *)
Lemma append_iteration s l i resp chunk (Q : inCoreiNode * bmapResponse -> dstate -> Prop) :
  file_ok s l i -> Forall is_byte chunk ->
  (0 < length chunk <= Z.to_nat (1024 - ic_size i mod 1024))%nat ->
  ic_size i + Z.of_nat (length chunk) <= MAX_FILE_SIZE ->
  4 * nblocks (ic_size i + Z.of_nat (length chunk)) <= Z.of_nat (length l) + 4 * nblocks (ic_size i) ->
  (forall i' resp' s' l', appended s l i s' l' i' chunk -> inode_changed i' = true ->
     Q (i', resp') s') ->
  wp (bmap i (ic_size i) resp APPEND_MODE) s (fun '(r, i1, resp1) s1 =>
    r = 0 /\ bytesLeftInBlock resp1 = 1024 - ic_size i mod 1024 /\ ic_size i1 = ic_size i /\
    wp (let* (_, blockPtr) := getDiskBlock (blockNumber resp1) junk_block in
        writeDiskBlock (blockNumber resp1)
          (memcpy_at blockPtr (Z.to_nat (byteOffsetInBlock resp1)) chunk) ;;; ret tt) s1
      (fun _ s2 => wp (updateINodeMetadata i1 (Z.of_nat (length chunk)) (ic_linksCount i1)) s2
        (fun i2 s3 => Q (i2, resp1) s3))).
Proof.
  intros Hf Hb Hc Hmax Hroom HQ. pose proof (file_size_u64 _ _ _ Hf) as Hsz.
  eapply wp_mono; [by apply append_step|].
  intros [[r i1] resp1] s1 (-> & Hoff & Hleft & Hs1 & Hlk & Hok1 & raw & Hv & Hput).
  split_and!; try done. pose proof (Z.mod_pos_bound (ic_size i) 1024).
  rewrite Hoff. eapply wp_put_bytes; [done|exact Hv|done|lia|].
  intros s2 Hok2 Hch2 Hv2. apply updateINodeMetadata_spec; [done|].
  intros i2 s3 Hok3 He3 Hv3 Hn2 Hs2 _ _ _ Hch3.
  unfold MAX_FILE_SIZE in Hmax. change TRIPLE_INDIRECT_LIMIT with 2113673 in Hmax.
  rewrite Hs1, u64_id in Hs2 by (unfold is_u64; lia).
  destruct (Hput i2 s2 Hn2 Hs2 Hok2 Hch2 Hv2) as (l2 & Happ).
  apply (HQ i2 resp1 s3 l2); [by eapply appended_frame|done].
Qed.

(** ** The loops that append *)

Lemma appended_refl s l i : file_ok s l i -> appended s l i s l i [].
Proof.
  intros Hf. split_and!; [done|done| | |done|].
  - exists []. rewrite app_nil_r. split_and!; [done|done|auto with nao].
  - simpl. lia.
  - by rewrite app_nil_r.
Qed.

Lemma nblocks_mono a b : a <= b -> nblocks a <= nblocks b.
Proof. intros. unfold nblocks. apply Z.div_le_mono; lia. Qed.

(** Room for [n] more bytes. *)
Definition room (l : list Z) (size n : Z) : Prop :=
  size + n <= MAX_FILE_SIZE /\ 4 * nblocks (size + n) <= Z.of_nat (length l) + 4 * nblocks size.

Lemma room_step s l i s' l' i' c n m :
  appended s l i s' l' i' c -> room l (ic_size i) n ->
  0 <= m <= n - Z.of_nat (length c) -> room l' (ic_size i') m.
Proof.
  intros (_ & _ & _ & Hs & Hl & _) [H1 H2] Hm. rewrite Hs in *. split; [lia|].
  pose proof (nblocks_mono (ic_size i + Z.of_nat (length c) + m) (ic_size i + n)). lia.
Qed.

Lemma take_app_bytes (buf : list Z) w m :
  take w buf ++ bytes_at buf w m = take (w + m) buf.
Proof. unfold bytes_at. by rewrite take_take_drop. Qed.

Lemma writeBytes_append s l i fo buf (Q : inCoreiNode * Z * Z -> dstate -> Prop) :
  let n := Z.of_nat (length buf) in
  file_ok s l i -> Forall is_byte buf -> n < 2 ^ 31 -> room l (ic_size i) n ->
  (forall i' fo' s' l', appended s l i s' l' i' buf ->
     buf = [] \/ inode_changed i' = true -> Q (i', n, fo') s') ->
  wp (writeBytes i fo buf n (ic_size i)) s Q.
Proof.
  intros n Hf Hb Hn Hroom HQ. unfold writeBytes. apply wp_bind.
  apply (wp_while (fun st s' => 0 <= wr_bytesWritten st <= n /\
      wr_offset st = ic_size (wr_inode st) /\
      (wr_bytesWritten st = 0 \/ inode_changed (wr_inode st) = true) /\ exists l',
      appended s l i s' l' (wr_inode st) (take (Z.to_nat (wr_bytesWritten st)) buf))
    (fun st => Z.to_nat (n - wr_bytesWritten st))).
  - intros [inode w off fo1 resp] s1 (Hw & Hoff & Hchg & l1 & Happ). cbn [wr_inode wr_bytesWritten wr_offset] in *.
    rewrite u64_id by (unfold is_u64; lia). intros Hlt%Z.ltb_lt. subst off.
    pose proof Happ as (Hf1 & _). pose proof (file_size_u64 _ _ _ Hf1) as Hsz.
    pose proof (Z.mod_pos_bound (ic_size inode) 1024) as Hmb.
    set (m := Z.min (1024 - ic_size inode mod 1024) (n - w)).
    assert (length (bytes_at buf (Z.to_nat w) (Z.to_nat m)) = Z.to_nat m) as Hlc.
    { apply length_bytes_at. lia. }
    assert (length (take (Z.to_nat w) buf) = Z.to_nat w) as Hlw by (rewrite length_take; lia).
    assert (room l1 (ic_size inode) m) as [Hr1 Hr2] by (eapply room_step; [exact Happ|exact Hroom|lia]).
    apply wp_bind.
    eapply wp_mono; [apply (append_iteration s1 l1 inode resp (bytes_at buf (Z.to_nat w) (Z.to_nat m))
      (fun '(i2, _) s2 => inode_changed i2 = true /\ exists l2,
         appended s1 l1 inode s2 l2 i2 (bytes_at buf (Z.to_nat w) (Z.to_nat m))));
      rewrite ?Hlc, ?Z2Nat.id by lia; auto with nao; [lia|]|].
    { intros i2 resp2 s2 l2 Happ2 Hc2. split; [done|]. by exists l2. }
    intros [[r i1] resp1] s2 (-> & Hleft & Hs1 & Hw2). cbn [Z.ltb Z.compare].
    rewrite Hleft, (u64_id w), (u64_id (n - w)) by (unfold is_u64; lia). fold m.
    unfold writeToBlock. rewrite Hs1, Z.eqb_refl, i32_small by lia.
    apply wp_bind. eapply wp_mono; [exact Hw2|]. intros [] s3 Hw3. apply wp_bind.
    rewrite Hlc, Z2Nat.id in Hw3 by lia.
    eapply wp_mono; [exact Hw3|]. intros i3 s4 (Hc3 & l3 & Happ3). apply wp_ret.
    cbn [wr_inode wr_bytesWritten wr_offset].
    pose proof (appended_trans _ _ _ _ _ _ _ _ _ _ _ Happ Happ3) as Happ'.
    rewrite take_app_bytes in Happ'.
    pose proof Happ3 as (Hf3 & _ & _ & Hs3 & _). pose proof (file_size_u64 _ _ _ Hf3).
    rewrite Hlc, Z2Nat.id in Hs3 by lia.
    rewrite i32_id by lia. rewrite u64_id by (unfold is_u64; lia).
    split; [split_and!; [lia|lia|lia|by right|]|lia].
    exists l3. by replace (Z.to_nat (w + m)) with (Z.to_nat w + Z.to_nat m)%nat by lia.
  - intros [inode w off fo1 resp] s1 (Hw & Hoff & Hchg & l1 & Happ). cbn [wr_inode wr_bytesWritten wr_offset] in *.
    rewrite u64_id by (unfold is_u64; lia). intros Hge%Z.ltb_ge. apply wp_ret.
    cbn [wr_inode wr_bytesWritten wr_file_offset]. replace w with n in * by lia.
    unfold n in Happ. rewrite Nat2Z.id, take_ge in Happ by lia. eapply HQ; [exact Happ|].
    destruct Hchg as [E|]; [left|by right]. unfold n in E. destruct buf; [done|cbn in E; lia].
  - cbn [wr_inode wr_bytesWritten wr_offset]. split_and!; [lia|lia|done|by left|]. exists l.
    by apply appended_refl.
  - cbn [wr_bytesWritten]. lia.
Qed.

Lemma zeros_bytes m : Forall is_byte (replicate m 0).
Proof. apply Forall_replicate. unfold is_byte. lia. Qed.

Lemma increaseFileSizeBy_zeros s l i n (Q : inCoreiNode -> dstate -> Prop) :
  file_ok s l i -> 0 <= n -> room l (ic_size i) n ->
  (forall i' s' l', appended s l i s' l' i' (replicate (Z.to_nat n) 0) -> Q i' s') ->
  wp (increaseFileSizeBy i n) s Q.
Proof.
  intros Hf Hn Hroom HQ. pose proof (file_size_u64 _ _ _ Hf) as Hsz0.
  assert (n <= 2164402176) as Hn2.
  { destruct Hroom as [Hr _]. unfold MAX_FILE_SIZE in Hr.
    change TRIPLE_INDIRECT_LIMIT with 2113673 in Hr. lia. }
  unfold increaseFileSizeBy. apply wp_bind.
  apply (wp_while (fun '(i1, w, off, _) s' => 0 <= w <= n /\ off = ic_size i1 /\
      exists l', appended s l i s' l' i1 (replicate (Z.to_nat w) 0))
    (fun '(_, w, _, _) => Z.to_nat (n - w))).
  - intros [[[inode w] off] resp] s1 (Hw & -> & l1 & Happ) Hlt%Z.ltb_lt.
    pose proof Happ as (Hf1 & _). pose proof (file_size_u64 _ _ _ Hf1) as Hsz.
    pose proof (Z.mod_pos_bound (ic_size inode) 1024) as Hmb.
    set (m := Z.min (1024 - ic_size inode mod 1024) (n - w)).
    assert (length (replicate (Z.to_nat m) 0) = Z.to_nat m) as Hlc by apply length_replicate.
    assert (room l1 (ic_size inode) m) as [Hr1 Hr2].
    { eapply room_step; [exact Happ|exact Hroom|]. rewrite length_replicate. lia. }
    apply wp_bind.
    eapply wp_mono; [apply (append_iteration s1 l1 inode resp (replicate (Z.to_nat m) 0)
      (fun '(i2, _) s2 => exists l2,
         appended s1 l1 inode s2 l2 i2 (replicate (Z.to_nat m) 0)));
      rewrite ?Hlc, ?Z2Nat.id by lia; auto using zeros_bytes; [lia|]|].
    { intros i2 resp2 s2 l2 Happ2 _. by exists l2. }
    intros [[r i1] resp1] s2 (-> & Hleft & Hs1 & Hw2). cbn beta iota zeta.
    rewrite Hleft, (u64_id (n - w)) by (unfold is_u64; lia). fold m.
    rewrite i32_small by lia. apply wp_bind.
    eapply wp_mono; [exact Hw2|]. intros [] s3 Hw3. apply wp_bind.
    rewrite Hlc, Z2Nat.id in Hw3 by lia.
    eapply wp_mono; [exact Hw3|]. intros i3 s4 (l3 & Happ3). apply wp_ret.
    pose proof (appended_trans _ _ _ _ _ _ _ _ _ _ _ Happ Happ3) as Happ'.
    rewrite <- replicate_add in Happ'.
    pose proof Happ3 as (Hf3 & _ & _ & Hs3 & _). pose proof (file_size_u64 _ _ _ Hf3).
    rewrite Hlc, Z2Nat.id in Hs3 by lia.
    rewrite !u64_id by (unfold is_u64; lia). split; [split_and!; [lia|lia|lia|]|lia].
    exists l3. by replace (Z.to_nat (w + m)) with (Z.to_nat w + Z.to_nat m)%nat by lia.
  - intros [[[inode w] off] resp] s1 (Hw & -> & l1 & Happ) Hge%Z.ltb_ge. apply wp_ret.
    replace w with n in * by lia. by eapply HQ.
  - split_and!; [lia|lia|done|]. exists l. by apply appended_refl.
  - lia.
Qed.

(** ** Reading *)

Lemma file_bytes_in_block s l i j off m b :
  file_ok s l i -> view s (file_block (addrs s) (ic_dataBlockNums i) j) = Some b -> wf_block b ->
  0 <= off -> 0 <= m -> off + m <= 1024 -> 0 <= j ->
  bytes_at b (Z.to_nat off) (Z.to_nat m) =
    file_byte s (ic_dataBlockNums i) <$> seq (Z.to_nat (1024 * j + off)) (Z.to_nat m).
Proof.
  intros Hf Hv [Hb _] Hoff Hm Hom Hj. apply list_eq. intros x.
  unfold bytes_at. destruct (decide (x < Z.to_nat m)%nat) as [Hx|Hx].
  - rewrite lookup_take_lt, lookup_drop, list_lookup_fmap, lookup_seq_lt by lia.
    cbn [fmap option_fmap option_map]. unfold file_byte.
    assert (Z.of_nat (Z.to_nat (1024 * j + off) + x) = j * 1024 + (off + Z.of_nat x)) as -> by lia.
    rewrite Z.div_add_l, (Z.div_small (off + _)), Z.add_0_r, Hv by lia.
    rewrite Z.add_comm, Z.mod_add, Z.mod_small by lia.
    replace (Z.to_nat (off + Z.of_nat x)) with (Z.to_nat off + x)%nat by lia.
    destruct (b !! (Z.to_nat off + x)%nat) eqn:E; [done|]. apply lookup_ge_None in E. lia.
  - rewrite lookup_take_ge, list_lookup_fmap, lookup_seq_ge by lia. done.
Qed.

(** The [n] bytes of a file from [off] on. *)
Definition file_range (s : dstate) (nums : list Z) (off n : Z) : list Z :=
  file_byte s nums <$> seq (Z.to_nat off) (Z.to_nat n).

Lemma file_range_data s nums off n size :
  0 <= off -> 0 <= n -> off + n <= size ->
  file_range s nums off n = bytes_at (file_data s nums size) (Z.to_nat off) (Z.to_nat n).
Proof.
  intros Ho Hn Hs. unfold file_range, file_data, bytes_at.
  rewrite <- fmap_drop, <- fmap_take. f_equal. apply list_eq. intros x.
  destruct (decide (x < Z.to_nat n)%nat).
  - rewrite lookup_take_lt, lookup_drop, !lookup_seq_lt by lia. done.
  - rewrite lookup_take_ge, lookup_seq_ge by lia. done.
Qed.

Lemma file_range_app s nums off a b :
  0 <= off -> 0 <= a -> 0 <= b ->
  file_range s nums off (a + b) = file_range s nums off a ++ file_range s nums (off + a) b.
Proof.
  intros. unfold file_range. rewrite Z2Nat.inj_add, seq_app, fmap_app by lia.
  by rewrite Z2Nat.inj_add by lia.
Qed.

Lemma length_file_range s nums off n : length (file_range s nums off n) = Z.to_nat n.
Proof. unfold file_range. by rewrite length_fmap, length_seq. Qed.

Lemma bmap_in_file s l i offset resp mode (Q : Z * inCoreiNode * bmapResponse -> dstate -> Prop) :
  file_ok s l i -> 0 <= offset < ic_size i ->
  (forall b, let n := file_block (addrs s) (ic_dataBlockNums i) (offset / 1024) in
     view s n = Some b -> wf_block b -> in_disk s n ->
     Q (0, i, BmapResponse n (offset mod 1024) (1024 - offset mod 1024) (readAheadBlockNum resp)) s) ->
  wp (bmap i offset resp mode) s Q.
Proof.
  intros Hf Ho HQ. pose proof (file_ok_wf _ _ _ Hf) as Hw.
  pose proof Hf as (Hok & _ & _ & _ & Hin & _ & _ & _ & _ & Hsz).
  change TRIPLE_INDIRECT_LIMIT with 2113673 in *.
  assert (0 <= offset / 1024 < nblocks (ic_size i)) as Hj.
  { pose proof (nblocks_bounds (ic_size i)). split; [apply Z.div_pos; lia|].
    apply Z.div_lt_upper_bound; lia. }
  destruct (file_block_apart _ _ _ _ Hf Hj) as (Hbin & _).
  destruct (store_get s _ zero_block Hok Hbin) as (b & Hb & Hv & _).
  eapply wp_Ret; [|by apply (HQ b)].
  apply bmap_found; [done|lia| |by left; lia|].
  - change TRIPLE_INDIRECT_LIMIT with 2113673. apply Z.lt_succ_r, Z.div_lt_upper_bound; lia.
  - intros m Hm. rewrite Forall_forall in Hin. apply Hin. eapply file_path_blocks; [done|exact Hj|by left].
Qed.

(** The requests for which [readBytes] counts right: from the start of the
    file, or whole blocks inside it. *)
Definition read_request (i : inCoreiNode) (o n : Z) : Prop :=
  o = 0 \/ (o mod 1024 = 0 /\ n mod 1024 = 0 /\ o + n <= ic_size i).

(** The bytes one iteration reads. *)
Lemma read_chunk i o n r :
  read_request i o n -> 0 <= o <= ic_size i -> 0 <= n < 2 ^ 62 -> 0 <= ic_size i < 2 ^ 62 ->
  let m := Z.min n (ic_size i - o) in
  0 <= r < m -> (o = 0 \/ r mod 1024 = 0) ->
  let c := Z.min (1024 - (o + r) mod 1024) (u64 (Z.min (ic_size i) (u64 (n + o)) - r)) in
  0 < c /\ r + c <= m /\ (o + r) mod 1024 + c <= 1024 /\ (o = 0 \/ (r + c) mod 1024 = 0).
Proof.
  intros Hreq Ho Hn Hs m Hr Hal c. unfold c. pose proof (Z.mod_pos_bound (o + r) 1024) as Hmb.
  rewrite (u64_id (n + o)) by (unfold is_u64; lia).
  rewrite u64_id by (unfold is_u64; lia).
  destruct Hreq as [->|(Ho1 & Hn1 & Hin)]; [lia|].
  destruct (decide (o = 0)) as [->|Hne]; [lia|]. destruct Hal as [|Hal]; [lia|].
  assert (m = n) as Hm by (unfold m; lia). rewrite Hm in *.
  pose proof (Z.div_mod n 1024) as Hn2. pose proof (Z.div_mod r 1024) as Hr2.
  assert ((o + r) mod 1024 = 0) as Hor.
  { rewrite Z.add_mod, Ho1, Hal by lia. done. }
  rewrite Hor in *. split_and!; [lia|nia|lia|right].
  rewrite Z.min_l by nia. change (1024 - 0) with (1 * 1024). by rewrite Z.mod_add.
Qed.

Lemma readBytes_spec s l i fo buf o (Q : Z * Z * list Z -> dstate -> Prop) :
  let n := Z.of_nat (length buf) in
  let m := Z.min n (ic_size i - o) in
  file_ok s l i -> n < 2 ^ 62 -> 0 <= o <= ic_size i -> read_request i o n ->
  (forall fo', Q (m, fo', memcpy_at buf 0 (file_range s (ic_dataBlockNums i) o m)) s) ->
  wp (readBytes i fo buf n o) s Q.
Proof.
  intros n m Hf Hn Ho Hreq HQ. pose proof (file_size_u64 _ _ _ Hf) as Hsz.
  assert (0 <= ic_size i < 2 ^ 62) as Hsz2 by lia. assert (0 <= n < 2 ^ 62) as Hn2 by lia.
  set (nums := ic_dataBlockNums i) in *.
  unfold readBytes. rewrite !(i64_id (ic_size i)), (i64_id o), (i64_id n) by (unfold is_i64; lia).
  rewrite (i64_id (ic_size i - o)) by (unfold is_i64; lia). fold m. cbv zeta. apply wp_bind.
  apply (wp_while (fun st s' => s' = s /\ 0 <= rd_bytesRead st <= m /\
      rd_bytesLeft st = m - rd_bytesRead st /\ rd_offset st = o + rd_bytesRead st /\
      (o = 0 \/ rd_bytesRead st mod 1024 = 0) /\
      rd_buf st = memcpy_at buf 0 (file_range s nums o (rd_bytesRead st)))
    (fun st => Z.to_nat (rd_bytesLeft st))).
  - intros [r left off fo1 resp b] s1; cbn [rd_bytesRead rd_bytesLeft rd_offset rd_buf].
    intros (-> & Hr & -> & -> & Hal & ->) Hlt%Z.ltb_lt.
    assert (0 <= r < m) as Hr' by lia.
    destruct (read_chunk i o n r Hreq Ho Hn2 Hsz2 Hr' Hal) as (Hc0 & Hcm & Hcb & Hal').
    set (c := Z.min (1024 - (o + r) mod 1024) (u64 (Z.min (ic_size i) (u64 (n + o)) - r))) in *.
    unfold read_body. apply wp_bind. apply (bmap_in_file s l); [done|lia|].
    intros raw b Hv Hraw Hbin. cbn beta iota zeta. simpl (0 =? -1). cbn iota.
    cbn [bytesLeftInBlock]. fold c. apply wp_bind. unfold readInBlock. cbn [blockNumber byteOffsetInBlock].
    apply wp_bind. pose proof Hf as (Hok & _).
    eapply wp_Ret; [apply (getDiskBlock_view _ _ raw); auto with nao|]. cbn beta iota.
    pose proof (Z.mod_pos_bound (o + r) 1024) as Hmb.
    pose proof (Z.div_mod (o + r) 1024 ltac:(lia)) as Hdm.
    rewrite (file_bytes_in_block s l i ((o + r) / 1024) ((o + r) mod 1024) c raw Hf Hv Hraw)
      by (try lia; apply Z.div_pos; lia).
    rewrite <- Hdm. fold nums. fold (file_range s nums (o + r) c).
    unfold buffer_write. rewrite length_file_range, length_memcpy_at
      by (rewrite length_file_range; unfold n in *; lia).
    rewrite (proj2 (Z.leb_le _ _)) by lia. apply wp_ret, wp_ret.
    cbn [rd_bytesRead rd_bytesLeft rd_offset rd_buf].
    rewrite !u64_id by (unfold is_u64; lia). rewrite i64_id by (unfold is_i64; lia).
    split; [split_and!; [done|lia|lia|lia|lia|done|]|lia].
    rewrite file_range_app by lia. rewrite <- memcpy_at_app by (rewrite !length_file_range; unfold n in *; lia).
    rewrite length_file_range. done.
  - intros [r left off fo1 resp b] s1; cbn [rd_bytesRead rd_bytesLeft rd_offset rd_buf].
    intros (-> & Hr & -> & -> & Hal & ->) Hge%Z.ltb_ge. apply wp_ret.
    cbn [rd_bytesRead rd_buf rd_file_offset]. replace r with m by lia. apply HQ.
  - cbn [rd_bytesRead rd_bytesLeft rd_offset rd_buf]. split_and!; try done; try lia.
    by right.
  - cbn [rd_bytesLeft]. lia.
Qed.

(** Inside one block and past the start of the file, the count is taken from
    the start of the file: more bytes are copied than asked for. *)
Lemma readBytes_overrun s l i fo buf o :
  let n := Z.of_nat (length buf) in
  file_ok s l i -> 0 < o -> 0 < n -> o + n <= ic_size i -> n < 1024 - o mod 1024 ->
  readBytes i fo buf n o s = Undef OutOfBounds.
Proof.
  intros n Hf Ho Hn Hin Hblk. pose proof (file_size_u64 _ _ _ Hf) as Hsz.
  pose proof (Z.mod_pos_bound o 1024) as Hmb.
  unfold readBytes. rewrite !(i64_id (ic_size i)), (i64_id o), (i64_id n) by (unfold is_i64; lia).
  rewrite (i64_id (ic_size i - o)) by (unfold is_i64; lia). rewrite Z.min_l by lia. cbv zeta.
  rewrite (u64_id (n + o)) by (unfold is_u64; lia). rewrite Z.min_r by lia.
  unfold bind at 1. set (f := Z.to_nat n). cbn [while_do rd_bytesLeft].
  rewrite (proj2 (Z.ltb_lt _ _)) by lia. unfold read_body.
  destruct (wp_inv _ _ _ (bmap_in_file s l i o junk_response READ_MODE (fun r s' => s' = s /\
    exists b raw, r = (0, i, BmapResponse b (o mod 1024) (1024 - o mod 1024) (readAheadBlockNum junk_response)) /\
      view s b = Some raw /\ wf_block raw) Hf ltac:(lia)
    ltac:(intros raw b Hv Hraw _; split; [done|]; by exists b, raw)))
    as (r & s' & Hrun & -> & b & raw & -> & Hv & Hraw).
  rewrite bind_assoc, (bind_Ret _ _ _ _ _ Hrun). cbn beta iota zeta. simpl (0 =? -1). cbn iota.
  cbn [bytesLeftInBlock]. rewrite (u64_id (n + o - 0)) by (unfold is_u64; lia).
  rewrite bind_assoc. unfold readInBlock. cbn [blockNumber byteOffsetInBlock].
  rewrite bind_assoc. pose proof Hf as (Hok & _).
  rewrite (bind_Ret _ _ _ _ _ (getDiskBlock_view b junk_block raw s Hok junk_block_wf Hv)).
  cbn beta iota. unfold buffer_write.
  rewrite length_bytes_at by (destruct Hraw; lia).
  rewrite (proj2 (Z.leb_gt _ _)) by (fold n; lia). done.
Qed.

(** ** Writing inside a file *)

(** The file after [buf] has been put at [o]: the inode is the same, and only
    blocks of the file have been written. *)
Definition overwritten (s s' : dstate) (l : list Z) (i : inCoreiNode) (o : Z) (buf : list Z) : Prop :=
  file_ok s' l i /\
  (changes (fun b => b ∈ blocks_of s i) s s' /\ blocks_of s' i = blocks_of s i) /\
  forall x, Z.of_nat x < 1024 * nblocks (ic_size i) ->
    file_byte s' (ic_dataBlockNums i) x =
      if decide (o <= Z.of_nat x < o + Z.of_nat (length buf))
      then default 0 (buf !! Z.to_nat (Z.of_nat x - o)) else file_byte s (ic_dataBlockNums i) x.

Lemma overwritten_data s s' l i o buf size :
  overwritten s s' l i o buf -> size <= ic_size i -> 0 <= o -> o + Z.of_nat (length buf) <= size ->
  file_data s' (ic_dataBlockNums i) size =
    memcpy_at (file_data s (ic_dataBlockNums i) size) (Z.to_nat o) buf.
Proof.
  intros (_ & _ & Hb) Hs Ho Hin. pose proof (nblocks_bounds (ic_size i)) as Hk.
  apply list_eq. intros x. rewrite lookup_memcpy_at by (rewrite length_file_data; lia).
  unfold file_data. rewrite !list_lookup_fmap.
  destruct (decide (x < Z.to_nat size)%nat) as [Hx|Hx].
  - rewrite lookup_seq_lt by lia. cbn [fmap option_fmap option_map Nat.add]. rewrite Hb by lia.
    destruct (decide _) as [Hd|Hd]; destruct (decide (Z.to_nat o <= x < Z.to_nat o + length buf)%nat);
      try lia; [|done].
    replace (Z.to_nat (Z.of_nat x - o)) with (x - Z.to_nat o)%nat by lia.
    destruct (buf !! (x - Z.to_nat o)%nat) eqn:E; [done|]. apply lookup_ge_None in E. lia.
  - rewrite lookup_seq_ge by lia. rewrite decide_False by lia. done.
Qed.

(** Nothing put anywhere. *)
Lemma overwritten_nil s l i o : file_ok s l i -> overwritten s s l i o [].
Proof.
  intros Hf. split; [done|]. split; [split; [apply changes_refl|done]|].
  intros x _. by rewrite decide_False by (simpl; lia).
Qed.

(** A block of the file is written. *)
Lemma file_write_blocks s s' l i j :
  file_ok s l i -> 0 <= j < nblocks (ic_size i) ->
  changes (eq (file_block (addrs s) (ic_dataBlockNums i) j)) s s' ->
  changes (fun b => b ∈ blocks_of s i) s s' /\ blocks_of s' i = blocks_of s i.
Proof.
  intros Hf Hj Hch. destruct (file_write_frame _ _ _ _ _ Hf Hj Hch) as [Hvs _]. split.
  - eapply changes_mono; [|exact Hch]. intros b <-. pose proof (file_ok_wf _ _ _ Hf) as Hw.
    destruct (file_path_leaves _ _ _ _ 0 Hw Hj) as [_ Hl].
    unfold blocks_of. rewrite file_blocks_split, elem_of_app. by right.
  - apply file_inner_frame. intros m Hm. apply addrs_frame, Hvs. auto.
Qed.

(** One block of it. *)
Lemma overwrite_block s l i o chunk fo buf0 (Q : unit -> dstate -> Prop) s0 :
  overwritten s0 s l i fo buf0 -> Forall is_byte chunk -> 0 <= fo ->
  o = fo + Z.of_nat (length buf0) -> o < ic_size i ->
  (0 < length chunk <= Z.to_nat (1024 - o mod 1024))%nat ->
  (forall s', overwritten s0 s' l i fo (buf0 ++ chunk) -> Q tt s') ->
  let b := file_block (addrs s) (ic_dataBlockNums i) (o / 1024) in
  wp (let* (_, blockPtr) := getDiskBlock b junk_block in
      writeDiskBlock b (memcpy_at blockPtr (Z.to_nat (o mod 1024)) chunk) ;;; ret tt) s Q.
Proof.
  intros (Hf & He & Hby) Hch Hfo Ho Hlt Hlen HQ b.
  assert (0 <= o / 1024 < nblocks (ic_size i)) as Hj.
  { pose proof (nblocks_bounds (ic_size i)). split; [apply Z.div_pos; lia|].
    apply Z.div_lt_upper_bound; lia. }
  destruct (file_block_apart _ _ _ _ Hf Hj) as (Hbin & _). fold b in Hbin.
  pose proof Hf as (Hok & _). pose proof (Z.mod_pos_bound o 1024) as Hmb.
  pose proof (Z.div_mod o 1024 ltac:(lia)) as Hdm.
  destruct (store_get s b zero_block Hok Hbin) as (raw & Hraw & Hv & _).
  eapply wp_put_bytes; [done|exact Hv|done|lia|]. intros s' Hok' Hchg Hv'. apply HQ.
  destruct (file_write_block s s' l i (o / 1024) _ Hf Hj Hok' Hchg Hv') as [Hf' Hb'].
  destruct (file_write_blocks s s' l i (o / 1024) Hf Hj Hchg) as [Hc' Eb']. destruct He as [Hc0 Eb].
  split; [done|]. split; [split; [|congruence]|].
  { eapply changes_trans; [| |exact Hc0|exact Hc']; cbv beta; [done|by rewrite Eb]. }
  intros x Hx. rewrite Hb' by done. rewrite length_app.
  pose proof (Z.div_mod (Z.of_nat x) 1024 ltac:(lia)) as Hxd.
  pose proof (Z.mod_pos_bound (Z.of_nat x) 1024 ltac:(lia)) as Hxm.
  destruct (decide (Z.of_nat x / 1024 = o / 1024)) as [E|E].
  - destruct Hraw as [Hraw _]. rewrite lookup_memcpy_at by lia.
    destruct (decide (Z.to_nat (o mod 1024) <= _ < _)%nat) as [Hc|Hc].
    + rewrite decide_True by lia. f_equal. rewrite lookup_app_r by lia. f_equal. lia.
    + assert (default 0 (raw !! Z.to_nat (Z.of_nat x mod 1024)) = file_byte s (ic_dataBlockNums i) x) as ->.
      { unfold file_byte. rewrite E. fold b. by rewrite Hv. }
      rewrite Hby by done. destruct (decide (fo <= Z.of_nat x < fo + Z.of_nat (length buf0))) as [Hd|Hd].
      * rewrite decide_True by lia. f_equal. by rewrite lookup_app_l by lia.
      * rewrite decide_False by lia. done.
  - rewrite Hby by done. destruct (decide (fo <= Z.of_nat x < fo + Z.of_nat (length buf0))) as [Hd|Hd].
    + rewrite decide_True by lia. f_equal. by rewrite lookup_app_l by lia.
    + rewrite decide_False; [done|]. intros Hd'. apply E.
      assert (o <= Z.of_nat x < o + Z.of_nat (length chunk)) as Hx' by lia.
      symmetry. apply (Z.div_unique _ 1024 _ (Z.of_nat x - 1024 * (o / 1024))); lia.
Qed.

Lemma writeBytes_inside s l i fo buf o (Q : inCoreiNode * Z * Z -> dstate -> Prop) :
  let n := Z.of_nat (length buf) in
  file_ok s l i -> Forall is_byte buf -> n < 2 ^ 31 -> 0 <= o -> o + n <= ic_size i ->
  (forall fo' s', overwritten s s' l i o buf -> Q (i, n, fo') s') ->
  wp (writeBytes i fo buf n o) s Q.
Proof.
  intros n Hf Hb Hn Ho Hin HQ. unfold writeBytes. apply wp_bind.
  pose proof (file_size_u64 _ _ _ Hf) as Hsz.
  apply (wp_while (fun st s' => 0 <= wr_bytesWritten st <= n /\ wr_inode st = i /\
      wr_offset st = o + wr_bytesWritten st /\
      overwritten s s' l i o (take (Z.to_nat (wr_bytesWritten st)) buf))
    (fun st => Z.to_nat (n - wr_bytesWritten st))).
  - intros [inode w off fo1 resp] s1. cbn [wr_inode wr_bytesWritten wr_offset].
    intros (Hw & -> & -> & Hov). rewrite u64_id by (unfold is_u64; lia). intros Hlt%Z.ltb_lt.
    pose proof (Z.mod_pos_bound (o + w) 1024) as Hmb. pose proof Hov as (Hf1 & _).
    set (m := Z.min (1024 - (o + w) mod 1024) (n - w)).
    assert (length (bytes_at buf (Z.to_nat w) (Z.to_nat m)) = Z.to_nat m) as Hlc.
    { apply length_bytes_at. lia. }
    assert (length (take (Z.to_nat w) buf) = Z.to_nat w) as Hlw by (rewrite length_take; lia).
    unfold write_body. apply wp_bind. apply (bmap_in_file s1 l); [done|lia|].
    intros raw b Hv Hraw _. cbn beta iota zeta. simpl (0 <? 0). cbn iota.
    cbn [bytesLeftInBlock]. rewrite (u64_id w), (u64_id (n - w)) by (unfold is_u64; lia). fold m.
    apply wp_bind. unfold writeToBlock. cbn [blockNumber byteOffsetInBlock].
    apply (overwrite_block s1 l i (o + w) _ o (take (Z.to_nat w) buf) _ s); try done;
      rewrite ?Hlc, ?Hlw; auto with nao; try lia.
    intros s2 Hov2. apply wp_bind. rewrite (proj2 (Z.eqb_neq _ _)) by lia.
    rewrite (u64_id (ic_size i - w)) by (unfold is_u64; lia).
    rewrite (proj2 (Z.ltb_ge _ _)) by lia. apply wp_ret, wp_ret.
    cbn [wr_inode wr_bytesWritten wr_offset].
    rewrite i32_id by lia. rewrite u64_id by (unfold is_u64; lia).
    split; [split_and!; [lia|lia|done|lia|]|lia].
    rewrite take_app_bytes in Hov2. by replace (Z.to_nat (w + m)) with (Z.to_nat w + Z.to_nat m)%nat by lia.
  - intros [inode w off fo1 resp] s1. cbn [wr_inode wr_bytesWritten wr_offset].
    intros (Hw & -> & -> & Hov). rewrite u64_id by (unfold is_u64; lia). intros Hge%Z.ltb_ge.
    apply wp_ret. cbn [wr_inode wr_bytesWritten wr_file_offset]. replace w with n in * by lia.
    apply HQ. unfold n in Hov. by rewrite Nat2Z.id, take_ge in Hov by lia.
  - cbn [wr_inode wr_bytesWritten wr_offset]. split; [lia|]. split; [done|]. split; [lia|].
    by apply overwritten_nil.
  - cbn [wr_bytesWritten]. lia.
Qed.

(** Across the end of the file, inside its last block: all the bytes are
    reported as written, but the size does not change. *)
Lemma writeBytes_across_end s l i fo buf o :
  let n := Z.of_nat (length buf) in
  file_ok s l i -> Forall is_byte buf -> 0 <= o < ic_size i -> ic_size i < o + n ->
  n <= ic_size i -> o mod 1024 + n <= 1024 ->
  wp (writeBytes i fo buf n o) s (fun '(i', w, _) s' => w = n /\ i' = i /\ file_ok s' l i).
Proof.
  intros n Hf Hb Ho Hend Hni Hblk. pose proof (file_size_u64 _ _ _ Hf) as Hsz.
  pose proof (Z.mod_pos_bound o 1024) as Hmb.
  unfold writeBytes. apply wp_bind. set (f := Z.to_nat n). cbn [while_do wr_bytesWritten].
  rewrite (u64_id 0) by (unfold is_u64; lia). rewrite (proj2 (Z.ltb_lt _ _)) by lia.
  apply wp_bind. unfold write_body. apply wp_bind. apply (bmap_in_file s l); [done|lia|].
  intros raw b Hv Hraw _. cbn beta iota zeta. simpl (0 <? 0). cbn iota.
  cbn [bytesLeftInBlock]. rewrite (u64_id 0), (u64_id (n - 0)) by (unfold is_u64; lia).
  rewrite Z.min_r by lia. apply wp_bind. unfold writeToBlock. cbn [blockNumber byteOffsetInBlock].
  replace (bytes_at buf (Z.to_nat 0) (Z.to_nat (n - 0))) with buf.
  2:{ unfold bytes_at. simpl (Z.to_nat 0). by rewrite drop_0, take_ge by lia. }
  apply (overwrite_block s l i o buf o [] _ s); try done; simpl; try lia.
  { by apply overwritten_nil. }
  intros s2 (Hf2 & _). apply wp_bind. rewrite (proj2 (Z.eqb_neq _ _)) by lia.
  rewrite (u64_id (ic_size i - 0)) by (unfold is_u64; lia).
  rewrite (proj2 (Z.ltb_ge _ _)) by lia. apply wp_ret, wp_ret. cbn iota.
  rewrite i32_id by lia. replace (0 + (n - 0)) with n by lia.
  destruct f; cbn [while_do wr_bytesWritten];
    rewrite u64_id, (proj2 (Z.ltb_ge _ _)) by (unfold is_u64; lia); by apply wp_ret, wp_ret.
Qed.

(** ** Shrinking *)

Lemma file_blocks_direct E nums k : 0 <= k <= 10 -> file_blocks E nums k = take (Z.to_nat k) nums.
Proof.
  intros Hk. unfold file_blocks. rewrite Z.min_l, !level_tree_nil by (levels; lia).
  by rewrite !app_nil_r.
Qed.

Lemma calculateOffset_direct offset :
  0 <= offset < 10240 -> exists t, calculateOffset offset = Some t /\ offsetIndirection t = DIRECT.
Proof.
  intros Ho. unfold calculateOffset, BLOCK_SIZE.
  assert (offset / 1024 < 10) by (apply Z.div_lt_upper_bound; lia).
  rewrite (proj2 (Z.leb_le _ _)) by (consts; lia). by eexists.
Qed.

(** Below the first indirect block only the data block is freed. *)
Lemma freeDataBlock_direct i b :
  0 <= ic_size i < 10240 -> freeDataBlockInINode i b = bind (blockFree b) (fun _ => ret tt).
Proof.
  intros Hs. unfold freeDataBlockInINode.
  destruct (calculateOffset_direct _ Hs) as (t & -> & Ht).
  unfold freeNeededBlocks. by rewrite decide_True.
Qed.

Lemma take_nth_entry nums k :
  0 <= k < Z.of_nat (length nums) -> take (Z.to_nat (k + 1)) nums = take (Z.to_nat k) nums ++ [nth_entry nums k].
Proof.
  intros Hk. replace (Z.to_nat (k + 1)) with (S (Z.to_nat k)) by lia. unfold nth_entry.
  destruct (nums !! Z.to_nat k) as [x|] eqn:E; [|apply lookup_ge_None in E; lia].
  by rewrite (take_S_r _ _ x).
Qed.

(** The blocks may also go back on the free list. *)
Definition shrinkable (s : dstate) (l : list Z) (i : inCoreiNode) : Prop :=
  file_ok s l i /\ (FreeMutex ∉ held s) /\ free_room s /\
  0 ∉ file_blocks (addrs s) (ic_dataBlockNums i) (nblocks (ic_size i)).

Lemma shrink_block s l i k (Q : unit -> dstate -> Prop) :
  let b := nth_entry (ic_dataBlockNums i) k in
  shrinkable s l i -> nblocks (ic_size i) = k + 1 -> 0 <= k < 10 ->
  (forall s', (forall i', ic_dataBlockNums i' = ic_dataBlockNums i -> ic_size i' = 1024 * k ->
      shrinkable s' (b :: l) i') ->
     changes (fun m => m = FREE_LIST_BLOCK \/ m = b) s s' ->
     (forall x, Z.of_nat x < 1024 * k ->
        file_byte s' (ic_dataBlockNums i) x = file_byte s (ic_dataBlockNums i) x) -> Q tt s') ->
  wp (blockFree b) s Q.
Proof.
  intros b (Hf & Hh & Hr & Hz0) Hk Hk10 HQ.
  pose proof Hf as (Hok & Hha & Hl & Hnd & Hin & H2 & Hu & Hl13 & Hun & Hsz).
  set (nums := ic_dataBlockNums i) in *. rewrite Hk in *.
  rewrite file_blocks_direct in * by lia.
  assert (take (Z.to_nat (k + 1)) nums = take (Z.to_nat k) nums ++ [b]) as Ht by (apply take_nth_entry; lia).
  rewrite Ht in *. rewrite <- app_assoc in Hnd. cbn [app] in Hnd.
  assert (NoDup (take (Z.to_nat k) nums ++ b :: l)) as Hnd2 by done.
  apply NoDup_app in Hnd as (_ & Hdis & Hnd). apply NoDup_cons in Hnd as [Hbl Hndl].
  apply Forall_app in Hin as [Hin Hib]. apply Forall_cons in Hib as [Hib _].
  assert (is_u64 b) as Hub.
  { unfold b, nth_entry. destruct (nums !! Z.to_nat k) as [x|] eqn:E; [|by split].
    by apply (Forall_lookup_1 _ _ _ _ Hun E). }
  eapply wp_mono; [apply (blockFree_push s b l); try done; [set_solver|set_solver|]|].
  { by rewrite <- list_elem_of_In. }
  intros [] s' (Hok' & Hl' & Hr' & Hch). pose proof (changes_env _ _ _ Hch) as He.
  apply HQ; [|eapply changes_mono; [|exact Hch]; cbv beta; naive_solver|].
  - intros i' Hn' Hs'. unfold shrinkable, FileBlocks.file_ok. rewrite Hn', Hs', nblocks_mul.
    fold nums. rewrite file_blocks_direct by lia.
    split_and!; try done; try (by destruct He as (_&_&_&->)); try lia.
    + eapply Forall_impl; [exact Hin|]. intros n Hn. by apply (in_disk_env _ _ _ He).
    + set_solver.
    + by apply Forall_cons.
    + change TRIPLE_INDIRECT_LIMIT with 2113673. lia.
    + set_solver.
  - intros x Hx. assert (0 <= Z.of_nat x / 1024 < k) as Hj.
    { split; [apply Z.div_pos; lia|apply Z.div_lt_upper_bound; lia]. }
    apply file_byte_frame; rewrite !file_block_direct by lia; [done|].
    destruct Hch as [_ Hch]. apply Hch.
    assert (nth_entry nums (Z.of_nat x / 1024) ∈ take (Z.to_nat k) nums) as Hxin.
    { unfold nth_entry. destruct (nums !! Z.to_nat (Z.of_nat x / 1024)) as [y|] eqn:E;
        [|apply lookup_ge_None in E; lia].
      apply (list_elem_of_lookup_2 _ (Z.to_nat (Z.of_nat x / 1024))).
      rewrite lookup_take_lt by lia. exact E. }
    intros [E|E].
    + apply (Hdis _ Hxin). rewrite E. by left.
    + apply H2. rewrite <- E. set_solver.
Qed.

(** Blocks taken from a file: together with those that it keeps they are those
    that it had. *)
Definition shed (s : dstate) (i : inCoreiNode) (s' : dstate) (i' : inCoreiNode) (freed : list Z) : Prop :=
  freed ++ blocks_of s' i' ≡ₚ blocks_of s i /\
  changes (fun b => b = FREE_LIST_BLOCK \/ b ∈ blocks_of s i) s s'.

Lemma shed_same s i s1 i1 s2 i2 freed :
  shed s i s1 i1 freed -> same_env s1 s2 -> (forall n, view s2 n = view s1 n) ->
  blocks_of s2 i2 = blocks_of s1 i1 -> shed s i s2 i2 freed.
Proof.
  intros [Hf [He1 Hc]] He Hv Hb. split; [by rewrite Hb|]. split; [by etrans|].
  intros n Hn. rewrite Hv. by apply Hc.
Qed.

Lemma shed_block s i s1 i1 s2 i2 freed b :
  shed s i s1 i1 freed -> blocks_of s1 i1 = blocks_of s2 i2 ++ [b] ->
  changes (fun m => m = FREE_LIST_BLOCK \/ m = b) s1 s2 -> shed s i s2 i2 (b :: freed).
Proof.
  intros [Hf Hc] Hb Hc2. assert (b :: freed ++ blocks_of s2 i2 ≡ₚ blocks_of s i) as P.
  { rewrite <- Hf, Hb, app_assoc, (Permutation_app_comm _ [b]). done. }
  split; [done|]. eapply changes_trans; [intros m Hm; exact Hm| |exact Hc|exact Hc2]. cbv beta.
  intros m [->| ->]; [by left|right]. rewrite <- P. by left.
Qed.

(** [red] of the [n] bytes that are to be taken from the inode [i] are gone. *)
Definition cutting (s : dstate) (l : list Z) (i : inCoreiNode) (n : Z) (freed : list Z) (i1 : inCoreiNode)
  (red : Z) (s1 : dstate) : Prop :=
  shrinkable s1 (freed ++ l) i1 /\ ic_dataBlockNums i1 = ic_dataBlockNums i /\ 0 <= red <= n /\
  ic_size i1 = ic_size i - red /\ Z.of_nat (length freed) = nblocks (ic_size i) - nblocks (ic_size i1) /\
  shed s i s1 i1 freed /\
  forall x, Z.of_nat x < ic_size i1 ->
    file_byte s1 (ic_dataBlockNums i) x = file_byte s (ic_dataBlockNums i) x.

Section cutting_steps.
Context (s : dstate) (l : list Z) (i : inCoreiNode) (n : Z).
Context (Hsz : 0 < ic_size i < 10240) (Hn : 0 <= n <= ic_size i).

(** The last step takes bytes of a block that stays. *)
Lemma cut_inside freed i1 red s1 (Q : inCoreiNode -> dstate -> Prop) :
  cutting s l i n freed i1 red s1 -> red < n -> n - red <= (ic_size i1 - 1) mod 1024 ->
  (forall i2 s2, cutting s l i n freed i2 n s2 -> Q i2 s2) ->
  wp (updateINodeMetadata i1 (i32 (- (n - red))) (ic_linksCount i1)) s1 Q.
Proof.
  intros (Hs1 & Hn1 & Hred & Hsz1 & Hfl & Hshed & Hby) Hlt Hp HQ. pose proof Hs1 as (Hf1 & _).
  set (o := ic_size i1 - 1) in *. pose proof (Z.mod_pos_bound o 1024 ltac:(lia)) as Hmb.
  pose proof (Z.div_mod o 1024 ltac:(lia)) as Hdm.
  assert (nblocks (ic_size i1) = o / 1024 + 1) as Hk by (apply nblocks_eq; lia).
  rewrite i32_id by lia. apply updateINodeMetadata_spec; [apply Hf1|].
  intros i2 s2 Hok2 He2 Hv2 Hn2 Hs2 _ _ _ _. rewrite Hsz1, u64_id in Hs2 by (unfold is_u64; lia).
  assert (nblocks (ic_size i2) = nblocks (ic_size i1)) as Hk2 by (rewrite Hk; apply nblocks_eq; lia).
  destruct (file_ok_frame s1 s2 (freed ++ l) i1 i2 Hf1 Hok2 He2 Hn2 Hk2) as [Hf2 Hb2]; [|done|].
  { unfold MAX_FILE_SIZE. change TRIPLE_INDIRECT_LIMIT with 2113673. lia. }
  apply HQ. split_and!; try lia; [|congruence| |].
  - destruct Hs1 as (_ & H1 & (rb & Hrv & Hrm) & Hz0). split_and!; [done| | |by rewrite Hb2].
    + by destruct He2 as (_ & _ & _ & ->).
    + exists rb. by rewrite Hv2.
  - eapply shed_same; [exact Hshed|exact He2|exact Hv2|]. exact Hb2.
  - intros x Hx. rewrite <- Hby by lia. pose proof (file_ok_wf _ _ _ Hf1) as Hw. rewrite Hn1 in Hw.
    assert (0 <= Z.of_nat x / 1024 < nblocks (ic_size i1)) as Hj.
    { pose proof (nblocks_bounds (ic_size i1)).
      split; [apply Z.div_pos; lia|apply Z.div_lt_upper_bound; lia]. }
    apply file_byte_frame; [|done].
    apply (file_block_stable _ _ _ _ _ Hw Hj). intros m _. by apply addrs_frame.
Qed.

(** Any other step releases the last block. *)
Lemma cut_block freed i1 red s1 (Q : inCoreiNode -> dstate -> Prop) :
  let o := ic_size i1 - 1 in
  cutting s l i n freed i1 red s1 -> red < n -> o mod 1024 + 1 <= n - red ->
  (forall freed' i2 s2, cutting s l i n freed' i2 (red + (o mod 1024 + 1)) s2 -> Q i2 s2) ->
  wp (freeDataBlockInINode i1 (file_block (addrs s1) (ic_dataBlockNums i1) (o / 1024))) s1 (fun _ s2 =>
    wp (updateINodeMetadata i1 (i32 (- (o mod 1024 + 1))) (ic_linksCount i1)) s2 Q).
Proof.
  intros o (Hs1 & Hn1 & Hred & Hsz1 & Hfl & Hshed & Hby) Hlt Hp HQ. pose proof Hs1 as (Hf1 & _).
  pose proof (Z.mod_pos_bound o 1024 ltac:(lia)) as Hmb. pose proof (Z.div_mod o 1024 ltac:(lia)) as Hdm.
  assert (nblocks (ic_size i1) = o / 1024 + 1) as Hk by (apply nblocks_eq; lia).
  rewrite freeDataBlock_direct by lia.
  assert (o / 1024 < 10) by (apply Z.div_lt_upper_bound; lia).
  assert (0 <= o / 1024) by (apply Z.div_pos; lia).
  rewrite file_block_direct by lia. apply wp_bind.
  apply (shrink_block s1 (freed ++ l) i1 (o / 1024)); [done|done|lia|].
  intros s2 Hsh2 He2 Hby2. apply wp_ret. rewrite i32_id by lia.
  assert (ok s2) as Hok2.
  { destruct (Hsh2 (ic_set_size (1024 * (o / 1024)) i1)) as ((Hx & _) & _); [by destruct i1..|exact Hx]. }
  apply updateINodeMetadata_spec; [done|].
  intros i2 s3 Hok3 He3 Hv3 Hn3 Hs3 _ _ _ _. rewrite Hsz1, u64_id in Hs3 by (unfold is_u64; lia).
  assert (ic_size i2 = 1024 * (o / 1024)) as Hsz2 by lia.
  destruct (Hsh2 i2 Hn3 Hsz2) as (Hf2 & Hh2 & (rb & Hrv & Hrm) & H02).
  apply (HQ (nth_entry (ic_dataBlockNums i1) (o / 1024) :: freed)).
  destruct (file_ok_frame s2 s3 _ i2 i2 Hf2 Hok3 He3) as [Hf3 Hb3]; try done.
  { pose proof Hf2 as (_&_&_&_&_&_&_&_&_&Hx). exact Hx. }
  split_and!; try lia; try congruence.
  - split_and!; [done|by destruct He3 as (_&_&_&->)|exists rb; by rewrite Hv3|].
    rewrite Hb3. done.
  - rewrite Hsz2, nblocks_mul. simpl length. lia.
  - eapply (shed_same _ _ s2 i2); [|exact He3|exact Hv3|unfold blocks_of; by rewrite Hb3].
    eapply shed_block; [exact Hshed| |exact He2].
    unfold blocks_of. rewrite Hn3, Hk, Hsz2, nblocks_mul, !file_blocks_direct by lia.
    apply take_nth_entry. pose proof Hf1 as (_&_&_&_&_&_&_&Hl13&_). lia.
  - intros x Hx. rewrite <- Hby by lia. rewrite <- Hn1, <- Hby2 by lia.
    assert (0 <= Z.of_nat x / 1024 < 10) as Hj.
    { split; [apply Z.div_pos; lia|apply Z.div_lt_upper_bound; lia]. }
    apply file_byte_frame; [by rewrite !file_block_direct by lia|done].
Qed.

End cutting_steps.

Lemma decreaseFileSizeBy_direct s l i n (Q : inCoreiNode -> dstate -> Prop) :
  shrinkable s l i -> 0 < ic_size i < 10240 -> 0 <= n <= ic_size i ->
  (forall i' s' freed, shrinkable s' (freed ++ l) i' -> ic_size i' = ic_size i - n ->
     ic_dataBlockNums i' = ic_dataBlockNums i ->
     file_data s' (ic_dataBlockNums i') (ic_size i') =
       file_data s (ic_dataBlockNums i) (ic_size i - n) ->
     Z.of_nat (length freed) = nblocks (ic_size i) - nblocks (ic_size i') ->
     shed s i s' i' freed -> Q i' s') ->
  wp (decreaseFileSizeBy i n) s Q.
Proof.
  intros Hf Hsz Hn HQ. unfold decreaseFileSizeBy. apply wp_bind.
  assert (forall freed i1 s1, cutting s l i n freed i1 n s1 -> Q i1 s1) as Hfin.
  { intros freed i1 s1 (Hs1 & Hn1 & _ & Hsz1 & Hfl & Hshed & Hby). apply (HQ i1 s1 freed); try done.
    rewrite Hn1, <- Hsz1. by apply file_data_ext. }
  apply (wp_while (fun '(i1, red, off, _) s1 => exists freed, cutting s l i n freed i1 red s1 /\
      (red < n -> off = ic_size i1 - 1))
    (fun '(_, red, _, _) => Z.to_nat (n - red))).
  - intros [[[i1 red] off] resp] s1 (freed & Hcut & Hoff) Hlt%Z.ltb_lt.
    rewrite Hoff by lia. pose proof Hcut as ((Hf1 & _) & _ & Hred & Hsz1 & _).
    unfold decrease_body. apply wp_bind. apply (bmap_in_file s1 (freed ++ l)); [done|lia|].
    intros raw b Hv Hraw _. cbn beta iota zeta. cbn [byteOffsetInBlock blockNumber].
    set (o := ic_size i1 - 1) in *. pose proof (Z.mod_pos_bound o 1024 ltac:(lia)) as Hmb.
    pose proof (Z.div_mod o 1024 ltac:(lia)) as Hdm. assert (0 <= o / 1024) by (apply Z.div_pos; lia).
    rewrite !(u64_id (n - red)), !(u64_id (o mod 1024 + 1)) by (unfold is_u64; lia).
    destruct (Z.ltb_spec (n - red) (o mod 1024 + 1)) as [Hp|Hp]; apply wp_bind.
    + apply (cut_inside s l i n Hsz Hn freed i1 red s1); [done|done|unfold o in *; lia|].
      intros i2 s2 Hcut2. apply wp_ret, wp_ret. by eapply Hfin.
    + eapply wp_mono; [apply (cut_block s l i n Hsz Hn freed i1 red s1); [done|done|done|]|].
      2:{ intros [] s2 Hs2. apply wp_bind. exact Hs2. }
      intros freed' i2 s2 Hcut2. fold o in Hcut2. pose proof Hcut2 as (_ & _ & _ & Hsz2 & _).
      apply wp_ret. rewrite u64_id by (unfold is_u64; lia). split; [|lia]. exists freed'. split; [done|].
      intros Hr. rewrite u64_id by (unfold is_u64; lia). lia.
  - intros [[[i1 red] off] resp] s1 (freed & Hcut & _) Hge%Z.ltb_ge.
    apply wp_ret. pose proof Hcut as (_ & _ & Hred & _). replace red with n in * by lia. by eapply Hfin.
  - exists []. split; [split_and!; try done; try lia; simpl; lia|].
    intros _. apply u64_id. unfold is_u64. lia.
  - lia.
Qed.
End fileio_lemmas.
