(* ===== verification/BlockRelease.v ===== *)
(** The blocks that [inodeBlocksFree] gives up are those the file has got while
    it grew: the walk by which the release counts down the bytes of the file
    meets every block of its index trees once. *)

From S2P Require Export FileIO.

(** * One tree *)

Section trees.
Context (v : Z -> option block).
Context (Hv : forall n b, v n = Some b -> length (entries b) = 128%nat).

Definition addresses (n : Z) : list Z := match v n with Some b => entries b | None => [] end.

Definition readable (bs : list Z) : Prop := Forall (fun n => v n <> None) bs.

(** The blocks of [left] bytes, up to [c]. *)
Definition used (left c : Z) : Z := Z.min (nblocks left) c.

Lemma nblocks_sub left k : nblocks (left - 1024 * k) = nblocks left - k.
Proof.
  apply nblocks_eq. pose proof (nblocks_bounds left). lia.
Qed.

Lemma nblocks_nonneg left : -1024 < left -> 0 <= nblocks left.
Proof. intros Hl. pose proof (nblocks_bounds left). lia. Qed.

(** What a walk over [left] bytes finds: [bs] in some order, and the bytes that
    are left after at most [c] blocks. *)
Definition walked (r : option (list Z * Z)) (left c : Z) (bs : list Z) : Prop :=
  exists l, r = Some (l, left - 1024 * used left c) /\ l ≡ₚ bs.

Lemma children_walked level l left :
  (forall n left, 0 < left -> readable (subtree addresses level n (used left (cap level))) ->
     walked (tree_blocks v level n left) left (cap level) (subtree addresses level n (used left (cap level)))) ->
  -1024 < left ->
  let cnt := used left (cap level * Z.of_nat (length l)) in
  readable (kids (subtree addresses level) (cap level) l cnt) ->
  walked (children_blocks (tree_blocks v level) l left) left (cap level * Z.of_nat (length l))
    (kids (subtree addresses level) (cap level) l cnt).
Proof.
  intros IH. pose proof (cap_pos level) as Hc. revert left.
  induction l as [|x l IHl]; intros left Hleft; cbv zeta; intros Hr.
  - exists []. pose proof (nblocks_nonneg _ Hleft). unfold used. cbn. split; [|done]. do 2 f_equal. lia.
  - set (N := Z.of_nat (length l)) in *. assert (0 <= N) as HN by lia. cbn [length] in *. rewrite Nat2Z.inj_succ in *. fold N in Hr |- *.
    clearbody N.
    pose proof (nblocks_nonneg _ Hleft) as Hnn. pose proof (nblocks_bounds left) as Hb.
    assert (cap level * Z.succ N = cap level + cap level * N) as Hmul by lia.
    assert (0 <= cap level * N) as HcN by (apply Z.mul_nonneg_nonneg; lia).
    set (M := cap level * Z.succ N) in *. set (A := cap level * N) in *. clearbody M A.
    cbn [children_blocks kids] in *. destruct (Z.ltb_spec 0 left) as [Hpos|Hneg].
    + assert (0 < used left (M)) as Hu by (unfold used; lia).
      rewrite (proj2 (Z.ltb_lt _ _) Hu) in *.
      assert (Z.min (used left (M)) (cap level) = used left (cap level)) as E1
        by (unfold used; lia).
      set (left1 := left - 1024 * used left (cap level)).
      assert (-1024 < left1) as Hl1 by (unfold left1, used; lia).
      assert (kids (subtree addresses level) (cap level) l (used left M - cap level) =
        kids (subtree addresses level) (cap level) l (used left1 A)) as E2.
      { unfold left1, used. rewrite nblocks_sub. destruct (decide (nblocks left <= cap level)).
        - rewrite !kids_nonpos by lia. done.
        - f_equal. lia. }
      rewrite E1, E2 in *. apply Forall_app in Hr as [Hr1 Hr2].
      destruct (IH x left Hpos Hr1) as (l1 & -> & P1). fold left1.
      destruct (IHl left1 Hl1 Hr2) as (l2 & -> & P2). exists (l1 ++ l2). split; [|by rewrite P1, P2].
      do 2 f_equal. unfold left1, used. rewrite nblocks_sub. lia.
    + assert (nblocks left = 0) as E0 by lia. unfold walked, used. rewrite E0.
      exists []. rewrite Z.min_l by lia. split; [do 2 f_equal; lia|done].
Qed.

Lemma tree_walked level n left :
  0 < left -> readable (subtree addresses level n (used left (cap level))) ->
  walked (tree_blocks v level n left) left (cap level) (subtree addresses level n (used left (cap level))).
Proof.
  revert n left. induction level as [|level IH]; intros n left Hpos Hr.
  - cbn [tree_blocks subtree]. exists [n]. split; [|done]. do 2 f_equal.
    pose proof (nblocks_bounds left). unfold used. change (cap 0) with 1. consts. lia.
  - cbn [tree_blocks subtree] in *. apply Forall_cons in Hr as [Hn Hr].
    unfold addresses in Hr at 2. unfold addresses at 2. destruct (v n) as [b|] eqn:E; [|done].
    pose proof (Hv _ _ E) as Hlen. rewrite cap_S in *.
    assert (128 * cap level = cap level * Z.of_nat (length (entries b))) as Ec by (rewrite Hlen; lia).
    rewrite Ec in *. destruct (children_walked level (entries b) left IH ltac:(lia) Hr) as (l & -> & P).
    exists (l ++ [n]). split; [done|]. rewrite P. by rewrite <- Permutation_cons_append.
Qed.

(** * The direct slots *)

Lemma direct_walked n i nums left :
  -1024 < left -> (i + n <= length nums)%nat ->
  exists nums', direct_blocks n i nums left =
      (take (Z.to_nat (used left (Z.of_nat n))) (drop i nums), nums', left - 1024 * used left (Z.of_nat n)) /\
    (forall j, (i + n <= j)%nat -> nums' !! j = nums !! j).
Proof.
  revert i nums left. induction n as [|n IH]; intros i nums left Hleft Hlen; cbn [direct_blocks];
    pose proof (nblocks_nonneg _ Hleft) as Hnn; pose proof (nblocks_bounds left) as Hb.
  - exists nums. split; [|done]. f_equal; [|unfold used; lia]. f_equal. unfold used. by rewrite Z.min_r by lia.
  - destruct (Z.ltb_spec 0 left) as [Hpos|Hneg].
    + destruct (IH (Datatypes.S i) (<[i := 0]> nums) (left - BLOCK_SIZE)) as (nums' & E & Hn');
        [consts; lia|rewrite length_insert; lia|].
      rewrite E. destruct (nums !! i) as [x|] eqn:Ex; [|apply lookup_ge_None in Ex; lia].
      exists nums'. split.
      * replace (left - BLOCK_SIZE) with (left - 1024 * 1) by (consts; lia). unfold used.
        rewrite nblocks_sub. rewrite (drop_S _ _ _ Ex). rewrite drop_insert_lt by lia.
        replace (Z.to_nat (nblocks left `min` Z.of_nat (Datatypes.S n)))
          with (Datatypes.S (Z.to_nat ((nblocks left - 1) `min` Z.of_nat n))) by lia.
        cbn [take default]. f_equal. lia.
      * intros j Hj. rewrite Hn' by lia. rewrite list_lookup_insert_ne by lia. done.
    + exists nums. unfold used. rewrite Z.min_l by lia. replace (nblocks left) with 0 by lia.
      split; [|done]. cbn. f_equal. lia.
Qed.

(** * The indirect slots *)

Fixpoint level_trees (n i : nat) (nums : list Z) (k : Z) : list Z :=
  match n with
  | O => []
  | S n' => level_tree addresses nums (S i) k ++ level_trees n' (S i) nums k
  end.

Lemma level_trees_past n i nums k : k <= level_base (S i) -> (i + n <= 3)%nat -> level_trees n i nums k = [].
Proof.
  revert i. induction n as [|n IH]; intros i Hk Hi; cbn [level_trees]; [done|].
  rewrite level_tree_nil by done. apply IH; [|lia].
  assert (i = 0 \/ i = 1 \/ i = 2)%nat as [->|[->| ->]] by lia; levels; lia.
Qed.

(** The data blocks before tree [i], and before its end for the last. *)
Definition blocks_before (i : nat) : Z :=
  match i with O => 10 | 1%nat => 138 | 2%nat => 16522 | _ => 2113674 end.

Lemma indirect_walked n i nums0 nums left k :
  -1024 < left -> (i + n = 3)%nat -> (13 <= length nums)%nat -> nblocks left = Z.max 0 (k - blocks_before i) ->
  k <= 2113674 -> (forall j, (10 + i <= j)%nat -> nums !! j = nums0 !! j) ->
  readable (level_trees n i nums0 k) ->
  exists bs nums', indirect_blocks v n i nums left = Some (bs, nums') /\ bs ≡ₚ level_trees n i nums0 k.
Proof.
  revert i nums left. induction n as [|n IH]; intros i nums left Hleft Hi Hlen Hk Hmax Hn Hr;
    cbn [indirect_blocks level_trees] in *; pose proof (nblocks_bounds left) as Hb.
  - assert (i = 3%nat) as -> by lia. rewrite (proj2 (Z.ltb_ge _ _)).
    + by exists [], nums.
    + cbn [blocks_before] in Hk. lia.
  - assert (blocks_before i = level_base (S i) /\ blocks_before (S i) = level_base (S i) + cap (S i)) as [Ei Ei'].
    { assert (i = 0 \/ i = 1 \/ i = 2)%nat as [->|[->| ->]] by lia; done. }
    rewrite Ei in Hk. destruct (Z.ltb_spec 0 left) as [Hpos|Hneg].
    + assert (level_base (S i) < k) as Hk1 by lia. apply Forall_app in Hr as [Hr1 Hr2].
      assert (used left (cap (S i)) = Z.min (k - level_base (S i)) (cap (S i))) as Eu by (unfold used; lia).
      assert (default 0 (nums !! (10 + i)%nat) = nth_entry nums0 (9 + Z.of_nat (S i))) as Es.
      { rewrite Hn by lia. unfold nth_entry. by replace (Z.to_nat (9 + Z.of_nat (S i))) with (10 + i)%nat by lia. }
      pose proof (cap_pos (S i)) as Hc.
      assert (level_tree addresses nums0 (S i) k =
        subtree addresses (S i) (default 0 (nums !! (10 + i)%nat)) (used left (cap (S i)))) as Et.
      { unfold level_tree. rewrite tree_in_use_pos by lia. by rewrite Es, Eu. }
      rewrite Et in Hr1. destruct (tree_walked (S i) _ left Hpos Hr1) as (l1 & -> & P1).
      destruct (IH (S i) (<[(10 + i)%nat := 0]> nums) (left - 1024 * used left (cap (S i))))
        as (l2 & nums' & -> & P2).
      * unfold used. lia.
      * lia.
      * by rewrite length_insert.
      * rewrite nblocks_sub, Eu, Ei'. lia.
      * done.
      * intros j Hj. rewrite list_lookup_insert_ne by lia. apply Hn. lia.
      * done.
      * exists (l1 ++ l2), nums'. split; [done|]. by rewrite P1, P2, Et.
    + exists [], nums. split; [done|]. assert (k <= level_base (S i)) as Hk0 by lia.
      rewrite level_tree_nil by done.
      rewrite level_trees_past; [done| |lia].
      assert (i = 0 \/ i = 1 \/ i = 2)%nat as [->|[->| ->]] by lia; levels; lia.
Qed.

(** * The whole file *)

Lemma inode_blocks_file nums size :
  0 <= size <= 1024 * (TRIPLE_INDIRECT_LIMIT + 1) -> length nums = 13%nat ->
  readable (file_blocks addresses nums (nblocks size)) ->
  exists bs nums', inode_blocks v nums size = Some (bs, nums') /\
    bs ≡ₚ file_blocks addresses nums (nblocks size).
Proof.
  change TRIPLE_INDIRECT_LIMIT with 2113673. intros Hsz Hlen Hr. unfold inode_blocks.
  pose proof (nblocks_bounds size) as Hb.
  assert (0 <= nblocks size <= 2113674) as Hk.
  { split; [lia|]. unfold nblocks. pose proof (Z.div_mod (size + 1023) 1024).
    pose proof (Z.mod_pos_bound (size + 1023) 1024). lia. }
  destruct (direct_walked 10 0 nums size ltac:(lia) ltac:(lia)) as (nums1 & -> & Hn1).
  unfold file_blocks in *. change (Z.of_nat 10) with 10. rewrite drop_0.
  set (T := level_tree _ _ 1 _ ++ _) in *. apply Forall_app in Hr as [Hr0 Hr].
  assert (T = level_trees 3 0 nums (nblocks size)) as ET by (unfold T; cbn [level_trees]; by rewrite app_nil_r).
  rewrite ET in *.
  destruct (indirect_walked 3 0 nums nums1 (size - 1024 * used size 10) (nblocks size)) as (bs & nums' & -> & P).
  - unfold used. lia.
  - done.
  - destruct (decide (13 <= length nums1)%nat) as [|Hlt]; [done|]. exfalso.
    destruct (lookup_lt_is_Some_2 nums 12) as [x Hx]; [lia|]. rewrite <- Hn1 in Hx by lia.
    apply lookup_lt_Some in Hx. lia.
  - rewrite nblocks_sub. unfold used. cbn [blocks_before]. lia.
  - lia.
  - intros j Hj. apply Hn1. lia.
  - done.
  - eexists _, nums'. split; [reflexivity|]. unfold used. by rewrite P.
Qed.

End trees.

(** * A file that can shrink *)

Section files.
Context `{BlockStore ok}.
Local Abbreviation shrinkable := (shrinkable (ok := ok)).
Local Abbreviation releasing := (releasing (ok := ok)).

Lemma addrs_u64 s n : ok s -> Forall is_u64 (addrs s n).
Proof.
  intros Hok. unfold addrs. destruct (view s n) as [b|] eqn:E; [|constructor].
  by destruct (entries_wf b (view_wf _ _ _ Hok E)).
Qed.

Lemma kids_u64 f c l cnt :
  (forall x k, is_u64 x -> Forall is_u64 (f x k)) -> Forall is_u64 l -> Forall is_u64 (kids f c l cnt).
Proof.
  intros Hf Hl. revert cnt. induction Hl as [|x l Hx Hl IH]; intros cnt; cbn [kids]; [constructor|].
  destruct (0 <? cnt); [|constructor]. apply Forall_app_2; auto.
Qed.

Lemma subtree_u64 s d n cnt : ok s -> is_u64 n -> Forall is_u64 (subtree (addrs s) d n cnt).
Proof.
  intros Hok. revert n cnt. induction d as [|d IH]; intros n cnt Hn; cbn [subtree]; constructor; try done.
  apply kids_u64; [|by apply addrs_u64]. intros x k. apply IH.
Qed.

Lemma blocks_of_u64 s l i : file_ok (ok := ok) s l i -> Forall is_u64 (blocks_of s i).
Proof.
  intros (Hok & _ & _ & _ & _ & _ & _ & Hlen & Hu & _). unfold blocks_of, file_blocks.
  assert (forall d k, Forall is_u64 (level_tree (addrs s) (ic_dataBlockNums i) d k)) as Ht.
  { intros d k. unfold level_tree, tree_in_use. destruct (0 <? _); [|constructor].
    apply subtree_u64; [done|]. unfold nth_entry. destruct (_ !! _) as [x|] eqn:E; [|by split].
    rewrite Forall_forall in Hu. apply Hu. by eapply list_elem_of_lookup_2. }
  repeat apply Forall_app_2; try apply Ht. by apply Forall_take.
Qed.

(** The release frees the blocks of the file, and it can. *)
Lemma file_releasing s l i :
  shrinkable s l i -> exists bs nums',
    inode_blocks (view s) (ic_dataBlockNums i) (ic_size i) = Some (bs, nums') /\
    bs ≡ₚ blocks_of s i /\ releasing s l bs /\ is_i64 (ic_size i).
Proof.
  intros (Hf & Hh & Hr & H0n). pose proof (blocks_of_u64 _ _ _ Hf) as Hu.
  pose proof Hf as (Hok & _ & Hl & Hnd & Hin & H2 & _ & Hlen & _ & Hsz). fold (blocks_of s i) in *.
  destruct (inode_blocks_file (view s) (fun n b Hb => proj1 (entries_wf b (view_wf _ _ _ Hok Hb)))
    (ic_dataBlockNums i) (ic_size i) Hsz Hlen) as (bs & nums' & Hb & P).
  { eapply Forall_impl; [exact Hin|]. intros n Hn. cbv beta.
    destruct (store_get s n zero_block Hok Hn) as (b & _ & -> & _). done. }
  change (file_blocks _ _ _) with (blocks_of s i) in P. exists bs, nums'. split_and!; [done|done| |].
  - split_and!; [done..|]. split.
    + rewrite P. by apply NoDup_app in Hnd as (? & _ & _).
    + apply NoDup_app in Hnd as (_ & Hd & _). rewrite P. rewrite Forall_forall in *. intros b Hbi.
      split_and!; [by apply Hin|by intros ->|by intros ->|by apply Hu|].
      rewrite <- list_elem_of_In. by apply Hd.
  - change TRIPLE_INDIRECT_LIMIT with 2113673 in Hsz. unfold is_i64. lia.
Qed.

End files.
