(* ===== verification/ICache.v ===== *)
(** The in-core inode cache: the free list ([src/incoreInodeOps/freeList.c]),
    the hash queues ([hashQ.c]), [iget.c] and [iput.c].

    A node is its number in the order of [initFreeInCoreINodeList]; a pointer
    to a node or to its inode is that number. *)

From S2P Require Export FileIO.

(** [struct Node], the inode it points to included. *)
Record Node : Type := MkNode {
  inode : inCoreiNode;
  prev : option nat;
  next : option nat;
  hash_prev : option nat;
  hash_next : option nat
}.

Definition set_inode (i : inCoreiNode) (n : Node) : Node :=
  MkNode i (prev n) (next n) (hash_prev n) (hash_next n).
Definition set_prev (p : option nat) (n : Node) : Node :=
  MkNode (inode n) p (next n) (hash_prev n) (hash_next n).
Definition set_next (p : option nat) (n : Node) : Node :=
  MkNode (inode n) (prev n) p (hash_prev n) (hash_next n).
Definition set_hash_prev (p : option nat) (n : Node) : Node :=
  MkNode (inode n) (prev n) (next n) p (hash_next n).
Definition set_hash_next (p : option nat) (n : Node) : Node :=
  MkNode (inode n) (prev n) (next n) (hash_prev n) p.

Definition zero_inCoreiNode : inCoreiNode :=
  InCoreINode false 0 0 0 0 0 0 0 T_FREE 0 0 0 (replicate 13 0) false false 0.

Section icache.
Context `{Host}.

Record istate : Type := IState {
  ds : dstate;
  nodes : list Node;
  freeList : option nat;
  hashQ : list (option nat)
}.

Definition set_ds (d : dstate) (s : istate) : istate := IState d (nodes s) (freeList s) (hashQ s).
Definition set_nodes (l : list Node) (s : istate) : istate := IState (ds s) l (freeList s) (hashQ s).
Definition set_freeList (p : option nat) (s : istate) : istate := IState (ds s) (nodes s) p (hashQ s).
Definition set_hashQ (l : list (option nat)) (s : istate) : istate :=
  IState (ds s) (nodes s) (freeList s) l.

Definition IM (A : Type) : Type := M istate A.

Definition on_disk {A} (m : DM A) : IM A := zoom ds set_ds m.

(** Memory accesses through pointers. *)
Definition deref (p : option nat) : IM nat :=
  match p with Some k => ret k | None => undefined NullDeref end.
Definition get_node (k : nat) : IM Node :=
  let* s := get in
  match nodes s !! k with Some n => ret n | None => undefined NullDeref end.
Definition on_node (f : Node -> Node) (k : nat) : IM unit :=
  modify (fun s => set_nodes (alter f k (nodes s)) s).
Definition get_inode (k : nat) : IM inCoreiNode :=
  let* n := get_node k in ret (inode n).
Definition put_inode_at (k : nat) (i : inCoreiNode) : IM unit := on_node (set_inode i) k.

(** A routine on the inode of node [k]. *)
Definition with_inode (k : nat) (f : inCoreiNode -> DM inCoreiNode) : IM unit :=
  let* i := get_inode k in
  let* i := on_disk (f i) in
  put_inode_at k i.

(** The mutex of an inode: a thread that waits for it while it holds it itself
    does not go on. *)
Definition inode_lock (k : nat) : IM unit :=
  let* i := get_inode k in
  if iNodeMutex i then hang else put_inode_at k (ic_set_mutex true i).
Definition inode_unlock (k : nat) : IM unit :=
  let* i := get_inode k in put_inode_at k (ic_set_mutex false i).

(** * [freeList.c] *)

Definition freeListInsert (node : nat) : IM unit :=
  let* s := get in
  match freeList s with
  | None =>
      modify (set_freeList (Some node)) ;;;
      on_node (set_next (Some node)) node ;;;
      on_node (set_prev (Some node)) node
  | Some head =>
      on_node (set_next (Some head)) node ;;;
      let* h := get_node head in
      on_node (set_prev (prev h)) node ;;;
      let* h := get_node head in
      let* last := deref (prev h) in
      on_node (set_next (Some node)) last ;;;
      on_node (set_prev (Some node)) head
  end.

(** The [for] loop, from node [counter] on. *)
Fixpoint init_free_loop (n counter : nat) : IM unit :=
  match n with
  | O => ret tt
  | S n' =>
      modify (fun s => set_nodes (nodes s ++ [MkNode zero_inCoreiNode None None None None]) s) ;;;
      freeListInsert counter ;;;
      init_free_loop n' (S counter)
  end.

Definition initFreeInCoreINodeList : IM unit :=
  modify (set_freeList None) ;;;
  init_free_loop INODE_BUFFER_SIZE 0.

Definition popFreeList : IM (option nat) :=
  let* s := get in
  match freeList s with
  | None => ret None
  | Some head =>
      let* h := get_node head in
      if decide (next h = Some head) then
        modify (set_freeList None) ;;; ret (Some head)
      else
        let* p := deref (prev h) in
        on_node (set_next (next h)) p ;;;
        let* h := get_node head in
        let* n := deref (next h) in
        on_node (set_prev (prev h)) n ;;;
        let* h := get_node head in
        modify (set_freeList (next h)) ;;;
        on_node (set_next None) head ;;;
        on_node (set_prev None) head ;;;
        ret (Some head)
  end.

(** The unlinking of [node] in the loop of [freeListRemove]. *)
Definition free_unlink (node : nat) : IM unit :=
  let* s := get in
  let* nd := get_node node in
  (if decide (freeList s = Some node) then modify (set_freeList (next nd)) else ret tt) ;;;
  let* nd := get_node node in
  let* n := deref (next nd) in
  on_node (set_prev (prev nd)) n ;;;
  let* nd := get_node node in
  let* p := deref (prev nd) in
  on_node (set_next (next nd)) p ;;;
  on_node (set_next None) node ;;;
  on_node (set_prev None) node.

(** [workingNode] visits each node once at most. *)
Definition freeListRemove (node : nat) : IM unit :=
  let* s := get in
  let* single :=
    match freeList s with
    | None => ret false
    | Some head =>
        if decide (node = head) then
          let* h := get_node head in ret (bool_decide (next h = Some head))
        else ret false
    end in
  if single : bool then
    modify (set_freeList None) ;;;
    on_node (set_next None) node ;;;
    on_node (set_prev None) node
  else
    while_do (S (length (nodes s))) (fun w => bool_decide (w <> None))
      (fun w =>
         let* w := deref w in
         if decide (node = w) then free_unlink node ;;; ret (Break (Some w))
         else
           let* n := get_node w in
           let* s := get in
           if decide (next n = freeList s) then ret (Break (next n)) else ret (Next (next n)))
      (freeList s) ;;;
    ret tt.

Definition checkFreeListEmpty : IM bool :=
  let* s := get in ret (bool_decide (freeList s = None)).

Definition getFreeINodeFromList : IM (option nat) := gets freeList.

(** * [hashQ.c] *)

(** The [counter] of [initHashQueues] is not initialised. *)
Definition initHashQueues : IM unit :=
  match stack_word with
  | None => undefined Uninit
  | Some counter =>
      while_do 9 (fun counter => counter <? INODE_HASH_SIZE)
        (fun counter =>
           modify (fun s => set_hashQ (<[Z.to_nat counter := None]> (hashQ s)) s) ;;;
           ret (Next (counter + 1)))
        (u64 counter) ;;;
      ret tt
  end.

(** [x << n] for 64-bit words. *)
Definition shl64 (x n : Z) : IM Z :=
  if n <? 64 then ret (u64 (Z.shiftl x n))
  else
    match shl_over with
    | Some f => ret (u64 (f x n))
    | None => undefined ShiftRange
    end.

(** [deviceNumber + iNodeNumber << 6 + iNodeNumber << 16 - iNodeNumber]: the
    shifts bind weaker than the sums. *)
Definition getHash (iNodeNumber deviceNumber : Z) : IM Z :=
  let* x := shl64 (u64 (deviceNumber + iNodeNumber)) (u64 (6 + iNodeNumber)) in
  let* x := shl64 x (u64 (16 - iNodeNumber)) in
  ret (x mod INODE_HASH_SIZE).

Definition hash_head (h : Z) : IM (option nat) :=
  let* s := get in ret (default None (hashQ s !! Z.to_nat h)).
Definition set_hash_head (h : Z) (p : option nat) : IM unit :=
  modify (fun s => set_hashQ (<[Z.to_nat h := p]> (hashQ s)) s).

Definition removeFromHashQ (node : nat) : IM unit :=
  let* nd := get_node node in
  let* hashIndex := getHash (ic_inode_number (inode nd)) (ic_device_number (inode nd)) in
  let* head := hash_head hashIndex in
  (if decide (head = Some node) then set_hash_head hashIndex (hash_next nd) else ret tt) ;;;
  let* nd := get_node node in
  match hash_next nd with
  | Some n => on_node (set_hash_prev (hash_prev nd)) n
  | None => ret tt
  end ;;;
  let* nd := get_node node in
  match hash_prev nd with
  | Some p => on_node (set_hash_next (hash_next nd)) p
  | None => ret tt
  end ;;;
  on_node (set_hash_next None) node ;;;
  on_node (set_hash_prev None) node.

Definition insertInHash (node : nat) (iNodeNumber deviceNumber : Z) : IM unit :=
  let* hashIndex := getHash iNodeNumber deviceNumber in
  let* head := hash_head hashIndex in
  on_node (set_hash_next head) node ;;;
  match head with
  | Some h => on_node (set_hash_prev (Some node)) h
  | None => ret tt
  end ;;;
  on_node (set_hash_prev None) node ;;;
  set_hash_head hashIndex (Some node).

Definition updateInHashQ (node : nat) (iNodeNumber deviceNumber : Z) : IM unit :=
  removeFromHashQ node ;;;
  insertInHash node iNodeNumber deviceNumber.

(** [head] visits each node of the queue once. *)
Fixpoint hash_walk (fuel : nat) (head : option nat) (iNodeNumber : Z) : IM (option nat) :=
  match head with
  | None => ret None
  | Some k =>
      match fuel with
      | O => fun _ => NoFuel
      | S f =>
          let* nd := get_node k in
          if ic_inode_number (inode nd) =? iNodeNumber then ret (Some k)
          else hash_walk f (hash_next nd) iNodeNumber
      end
  end.

Definition hashLookup (iNodeNumber deviceNumber : Z) : IM (option nat) :=
  let* s := get in
  let* hash_number := getHash iNodeNumber deviceNumber in
  let* head := hash_head hash_number in
  hash_walk (length (nodes s)) head iNodeNumber.

(** * [iget.c] *)

Definition fetchInodeFromDisk (iNodeNumber : Z) (i : inCoreiNode) : DM inCoreiNode :=
  let* (_, disk_inode) := getDiskInode iNodeNumber junk_iNode in
  ret (insertDiskInodeData disk_inode i).

Definition updateAndGetINode (node : nat) : IM nat :=
  let* i := get_inode node in
  put_inode_at node (ic_set_refs (u64 (reference_count i + 1)) i) ;;;
  inode_unlock node ;;;
  ret node.

Definition iget (iNodeNumber deviceNumber : Z) : IM (option nat) :=
  let* found := hashLookup iNodeNumber deviceNumber in
  match found with
  | None =>
      let* node := popFreeList in
      match node with
      | None => ret None
      | Some node =>
          inode_lock node ;;;
          updateInHashQ node iNodeNumber deviceNumber ;;;
          with_inode node (fetchInodeFromDisk iNodeNumber) ;;;
          let* r := updateAndGetINode node in ret (Some r)
      end
  | Some node =>
      inode_lock node ;;;
      let* i := get_inode node in
      (if reference_count i =? 0 then freeListRemove node else ret tt) ;;;
      let* i := get_inode node in
      (if ic_linksCount i =? 0 then with_inode node (fetchInodeFromDisk iNodeNumber) else ret tt) ;;;
      let* r := updateAndGetINode node in ret (Some r)
  end.

(** * [iput.c] *)

Definition writeINodeToDisk (i : inCoreiNode) : DM unit :=
  writeDiskInode (ic_inode_number i) (getDiskINodeData i) ;;; ret tt.

(** The part of [iput] that runs when the last reference goes. *)
Definition iput_last (k : nat) : IM Z :=
  let* i := get_inode k in
  (if inode_changed i || file_data_changed i then
     on_disk (writeINodeToDisk i) ;;;
     put_inode_at k (ic_set_data_changed false (ic_set_changed false i))
   else ret tt) ;;;
  let* i := get_inode k in
  (if (ic_linksCount i =? 0) && negb (ic_inode_number i =? 0) then
     with_inode k inodeBlocksFree ;;;
     on_disk (freeINode (ic_inode_number i))
   else ret tt) ;;;
  let* i := get_inode k in
  let* node := hashLookup (ic_inode_number i) (ic_device_number i) in
  match node with
  | None => ret (-1)
  | Some node => freeListInsert node ;;; ret 0
  end.

Definition iput (k : nat) : IM Z :=
  inode_lock k ;;;
  let* i := get_inode k in
  if reference_count i =? 0 then inode_unlock k ;;; ret (-1)
  else
    put_inode_at k (ic_set_refs (reference_count i - 1) i) ;;;
    let* r := (if reference_count i - 1 =? 0 then iput_last k else ret 0) in
    inode_unlock k ;;;
    ret r.

End icache.
