(* ===== verification/CacheSpec.v ===== *)
(** What the pointer structures of the inode cache represent: the circular
    free list is a queue of nodes, a hash queue a list of nodes; the operations
    of [freeList.c] and [hashQ.c] refine those on lists. *)

From S2P Require Export ICache.

(** * Pointers as functions *)

Definition nx (ns : list Node) (k : nat) : option nat := match ns !! k with Some n => next n | None => None end.
Definition pv (ns : list Node) (k : nat) : option nat := match ns !! k with Some n => prev n | None => None end.
Definition hn (ns : list Node) (k : nat) : option nat := match ns !! k with Some n => hash_next n | None => None end.
Definition hp (ns : list Node) (k : nat) : option nat := match ns !! k with Some n => hash_prev n | None => None end.

(** The fields that the free list, and the hash queues, leave alone. *)
Definition core (n : Node) : inCoreiNode * option nat * option nat := (inode n, hash_prev n, hash_next n).
Definition fcore (n : Node) : inCoreiNode * option nat * option nat := (inode n, prev n, next n).

Lemma lookup_alter_nodes (f : Node -> Node) (ns : list Node) (k j : nat) :
  alter f k ns !! j = if decide (j = k) then f <$> ns !! j else ns !! j.
Proof.
  destruct (decide (j = k)) as [->|Hne]; [apply list_lookup_alter_eq|by apply list_lookup_alter_ne].
Qed.

Ltac ptrs :=
  unfold nx, pv, hn, hp; intros; rewrite lookup_alter_nodes;
  destruct (decide _); [subst|done]; match goal with |- context [?l !! ?k] => destruct (l !! k) end; done.

Lemma nx_next p (k : nat) (ns : list Node) (j : nat) : (k < length ns)%nat ->
  nx (alter (set_next p) k ns) j = if decide (j = k) then p else nx ns j.
Proof.
  intros Hk. unfold nx. rewrite lookup_alter_nodes. destruct (decide (j = k)) as [->|]; [|done].
  destruct (lookup_lt_is_Some_2 ns k Hk) as [n ->]. done.
Qed.
Lemma pv_prev p (k : nat) (ns : list Node) (j : nat) : (k < length ns)%nat ->
  pv (alter (set_prev p) k ns) j = if decide (j = k) then p else pv ns j.
Proof.
  intros Hk. unfold pv. rewrite lookup_alter_nodes. destruct (decide (j = k)) as [->|]; [|done].
  destruct (lookup_lt_is_Some_2 ns k Hk) as [n ->]. done.
Qed.
Lemma hn_next p (k : nat) (ns : list Node) (j : nat) : (k < length ns)%nat ->
  hn (alter (set_hash_next p) k ns) j = if decide (j = k) then p else hn ns j.
Proof.
  intros Hk. unfold hn. rewrite lookup_alter_nodes. destruct (decide (j = k)) as [->|]; [|done].
  destruct (lookup_lt_is_Some_2 ns k Hk) as [n ->]. done.
Qed.
Lemma hp_prev p (k : nat) (ns : list Node) (j : nat) : (k < length ns)%nat ->
  hp (alter (set_hash_prev p) k ns) j = if decide (j = k) then p else hp ns j.
Proof.
  intros Hk. unfold hp. rewrite lookup_alter_nodes. destruct (decide (j = k)) as [->|]; [|done].
  destruct (lookup_lt_is_Some_2 ns k Hk) as [n ->]. done.
Qed.
Lemma nx_prev p (k : nat) (ns : list Node) (j : nat) : nx (alter (set_prev p) k ns) j = nx ns j.
Proof. ptrs. Qed.
Lemma pv_next p (k : nat) (ns : list Node) (j : nat) : pv (alter (set_next p) k ns) j = pv ns j.
Proof. ptrs. Qed.
Lemma hn_prev p (k : nat) (ns : list Node) (j : nat) : hn (alter (set_hash_prev p) k ns) j = hn ns j.
Proof. ptrs. Qed.
Lemma hp_next p (k : nat) (ns : list Node) (j : nat) : hp (alter (set_hash_next p) k ns) j = hp ns j.
Proof. ptrs. Qed.

Lemma fmap_alter_same {B} (g : Node -> B) (f : Node -> Node) (k : nat) (ns : list Node) :
  (forall n, g (f n) = g n) -> g <$> alter f k ns = g <$> ns.
Proof.
  intros Hg. apply list_eq. intros j. rewrite !list_lookup_fmap, lookup_alter_nodes.
  destruct (decide (j = k)); [|done]. destruct (ns !! j); [|done]. simpl. by rewrite Hg.
Qed.

Lemma core_next p (k : nat) (ns : list Node) : core <$> alter (set_next p) k ns = core <$> ns.
Proof. by apply fmap_alter_same. Qed.
Lemma core_prev p (k : nat) (ns : list Node) : core <$> alter (set_prev p) k ns = core <$> ns.
Proof. by apply fmap_alter_same. Qed.
Lemma fcore_hnext p (k : nat) (ns : list Node) : fcore <$> alter (set_hash_next p) k ns = fcore <$> ns.
Proof. by apply fmap_alter_same. Qed.
Lemma fcore_hprev p (k : nat) (ns : list Node) : fcore <$> alter (set_hash_prev p) k ns = fcore <$> ns.
Proof. by apply fmap_alter_same. Qed.

Create Rewrite HintDb ptr.
#[export] Hint Rewrite nx_prev pv_next hn_prev hp_next @length_alter core_next core_prev
  fcore_hnext fcore_hprev : ptr.
#[export] Hint Rewrite nx_next pv_prev hn_next hp_prev using (autorewrite with ptr; lia) : ptr.

(** * The circular list *)

(** [path ns a l b]: the links from [a] through [l] to [b], both ways. *)
Fixpoint path (ns : list Node) (a : nat) (l : list nat) (b : nat) : Prop :=
  match l with
  | [] => nx ns a = Some b /\ pv ns b = Some a
  | x :: l' => nx ns a = Some x /\ pv ns x = Some a /\ path ns x l' b
  end.

Definition ring (ns : list Node) (F : list nat) : Prop :=
  match F with [] => True | h :: T => path ns h T h end.

Lemma path_app ns a l1 x l2 b : path ns a (l1 ++ x :: l2) b <-> path ns a l1 x /\ path ns x l2 b.
Proof. revert a. induction l1 as [|y l1 IH]; intros a; simpl; [|rewrite IH]; tauto. Qed.

Lemma path_ext ns ns' a l b :
  (forall k, k ∈ a :: l -> nx ns' k = nx ns k) -> (forall k, k ∈ l ++ [b] -> pv ns' k = pv ns k) ->
  path ns a l b -> path ns' a l b.
Proof.
  revert a. induction l as [|x l IH]; intros a Hn Hp; simpl in *.
  - rewrite Hn, Hp by (by left). done.
  - rewrite Hn, Hp by (by left). intros (H1 & H2 & H3). split_and!; [done..|].
    apply IH; [| |done]; intros k Hk; [apply Hn|apply Hp]; by right.
Qed.

(** The last node of a ring comes before its head. *)
Lemma ring_last ns h T :
  ring ns (h :: T) -> exists l, pv ns h = Some l /\ nx ns l = Some h /\
    ((T = [] /\ l = h) \/ exists T', T = T' ++ [l] /\ path ns h T' l).
Proof.
  simpl. intros Hp. destruct T as [|y T _] using rev_ind.
  - exists h. simpl in Hp. destruct Hp. auto.
  - apply path_app in Hp as [H1 [H2 H3]]. exists y. split_and!; [done..|]. right. by exists T.
Qed.

(** The second node comes after the head. *)
Lemma ring_second ns h T :
  ring ns (h :: T) -> exists x, nx ns h = Some x /\ pv ns x = Some h /\ x = hd h T.
Proof. destruct T as [|x T]; simpl; intros Hp; eexists; naive_solver. Qed.

Lemma ring_single ns h T : NoDup (h :: T) -> ring ns (h :: T) -> nx ns h = Some h <-> T = [].
Proof.
  intros Hnd Hr. destruct T as [|x T]; simpl in Hr.
  - naive_solver.
  - destruct Hr as (-> & _). split; [|done]. intros [= ->].
    apply NoDup_cons in Hnd as [Hnd _]. exfalso. apply Hnd. by left.
Qed.

(** The last link of a path. *)
Lemma path_last ns a l k :
  path ns a l k -> let p := List.last (a :: l) a in
  exists pre, (l = [] /\ p = a /\ pre = True \/ exists l', l = l' ++ [p] /\ pre = path ns a l' p) /\
    nx ns p = Some k /\ pv ns k = Some p /\ pre.
Proof.
  destruct l as [|y l _] using rev_ind; intros Hp.
  - exists True. simpl in *. destruct Hp. auto 10.
  - cbn zeta. rewrite app_comm_cons, List.last_last. apply path_app in Hp as [H1 [H3 H4]].
    exists (path ns a l y). split_and!; [right; by exists l|done..].
Qed.

(** Taking [k] out of a ring: its neighbours become linked. *)
Lemma path_unlink ns ns' a l1 k l2 :
  NoDup (a :: l1 ++ k :: l2) -> path ns a (l1 ++ k :: l2) a ->
  let p := List.last (a :: l1) a in let n := hd a l2 in
  pv ns k = Some p /\ nx ns k = Some n /\
  ((forall j, j <> k -> nx ns' j = if decide (j = p) then Some n else nx ns j) ->
   (forall j, j <> k -> pv ns' j = if decide (j = n) then Some p else pv ns j) ->
   path ns' a (l1 ++ l2) a).
Proof.
  intros Hnd Hp p n. apply path_app in Hp as [H1 H2].
  destruct (path_last ns a l1 k H1) as (pre & Hpre & Hnp & Hpk & Hpre'). fold p in Hpre, Hnp, Hpk.
  assert (nx ns k = Some n /\ pv ns n = Some k /\
    (l2 = [] /\ n = a \/ exists l2', l2 = n :: l2' /\ path ns n l2' a)) as (Hnk & Hpn & Hsuf).
  { unfold n. destruct l2 as [|y l2]; simpl in *; [naive_solver|].
    destruct H2 as (? & ? & ?). split_and!; [done..|right; by exists l2]. }
  split_and!; [done..|]. intros Hn Hv. clearbody p n.
  assert (p <> k) as Hpk'.
  { intros E. destruct Hpre as [(-> & -> & _)|(l1' & -> & _)].
    - apply NoDup_cons in Hnd as [Hnd _]. apply Hnd. subst. set_solver.
    - rewrite <- E in Hnd. apply NoDup_cons in Hnd as [_ Hnd].
      apply NoDup_app in Hnd as (_ & Hnd & _). apply (Hnd p); set_solver. }
  assert (n <> k) as Hnk'.
  { intros E. apply NoDup_cons in Hnd as [Ha Hnd]. apply NoDup_app in Hnd as (_ & _ & Hnd).
    apply NoDup_cons in Hnd as [Hk _]. destruct Hsuf as [(-> & E')|(l2' & -> & _)]; set_solver. }
  assert (nx ns' p = Some n /\ pv ns' n = Some p) as [Hlk1 Hlk2].
  { rewrite Hn, Hv by done. by rewrite !decide_True. }
  apply NoDup_cons in Hnd as [Ha Hnd]. apply NoDup_app in Hnd as (Hnd1 & Hdis & Hnd2).
  apply NoDup_cons in Hnd2 as [Hk2 Hnd2].
  assert (forall l1', l1 = l1' ++ [p] -> path ns a l1' p -> path ns' a l1' p) as Hpref.
  { intros l1' -> Hp. apply NoDup_app in Hnd1 as (_ & Hnd1 & _). eapply path_ext; [| |exact Hp].
    - intros j Hj. rewrite Hn, decide_False; [done| |].
      + intros ->. apply elem_of_cons in Hj as [->|Hj]; set_solver.
      + intros ->. apply elem_of_cons in Hj as [->|Hj]; set_solver.
    - intros j Hj. rewrite Hv, decide_False; [done| |].
      + intros ->. destruct Hsuf as [(-> & E)|(l2' & -> & _)]; [rewrite E in Hj; set_solver|].
        apply (Hdis n); [done|]. right. by left.
      + intros ->. apply (Hdis k); [done|by left]. }
  assert (forall l2', l2 = n :: l2' -> path ns n l2' a -> path ns' n l2' a) as Hsuff.
  { intros l2' -> Hp. apply NoDup_cons in Hnd2 as [Hn2 Hnd2]. eapply path_ext; [| |exact Hp].
    - intros j Hj. rewrite Hn, decide_False; [done| |].
      + intros ->. destruct Hpre as [(-> & E & _)|(l1' & -> & _)].
        * rewrite E in Hj. set_solver.
        * apply (Hdis p); [set_solver|by right].
      + intros ->. set_solver.
    - intros j Hj. rewrite Hv, decide_False; [done| |].
      + intros ->. apply elem_of_app in Hj as [Hj|Hj]; [done|].
        apply list_elem_of_singleton in Hj. set_solver.
      + intros ->. set_solver. }
  destruct Hpre as [(-> & E & _)|(l1' & El1 & Epre)]; destruct Hsuf as [(-> & E')|(l2' & El2 & Hp2)].
  - simpl. rewrite E, E' in *. done.
  - rewrite El2 in *. cbn [app path]. rewrite E in *. auto.
  - rewrite app_nil_r. rewrite El1. apply path_app. rewrite Epre in Hpre'. split; [by apply Hpref|].
    simpl. rewrite E' in *. done.
  - rewrite El1, El2, <- app_assoc. cbn [app]. apply path_app. rewrite Epre in Hpre'.
    split; [by apply Hpref|]. simpl. auto.
Qed.

Section freelist.
Context `{Host}.

(** The free list of [s] is the queue [F]. *)
Definition freelist_ok (s : istate) (F : list nat) : Prop :=
  freeList s = head F /\ NoDup F /\ Forall (fun k => (k < length (nodes s))%nat) F /\
  ring (nodes s) F.

(** Everything but the free list is as before. *)
Definition free_frame (s s' : istate) : Prop :=
  ds s' = ds s /\ hashQ s' = hashQ s /\ core <$> nodes s' = core <$> nodes s.

Lemma core_length (ns ns' : list Node) : core <$> ns' = core <$> ns -> length ns' = length ns.
Proof. intros E. by rewrite <- (length_fmap core ns'), E, length_fmap. Qed.

Lemma nx_node s k p : nx (nodes s) k = Some p -> exists n, get_node k s = Ret n s /\ next n = Some p.
Proof.
  unfold nx, get_node. destruct (nodes s !! k) as [n|] eqn:E; [|done]. intros Hp.
  exists n. split; [|done]. mstep. by rewrite E.
Qed.

Lemma pv_node s k p : pv (nodes s) k = Some p -> exists n, get_node k s = Ret n s /\ prev n = Some p.
Proof.
  unfold pv, get_node. destruct (nodes s !! k) as [n|] eqn:E; [|done]. intros Hp.
  exists n. split; [|done]. mstep. by rewrite E.
Qed.

Lemma get_node_lt s k : (k < length (nodes s))%nat ->
  exists n, get_node k s = Ret n s /\ nodes s !! k = Some n.
Proof.
  intros Hk. destruct (lookup_lt_is_Some_2 _ _ Hk) as [n Hn]. exists n. split; [|done].
  unfold get_node. mstep. by rewrite Hn.
Qed.

Lemma freeListInsert_ok s F x :
  freelist_ok s F -> x ∉ F -> (x < length (nodes s))%nat ->
  wp (freeListInsert x) s (fun _ s' => freelist_ok s' (F ++ [x]) /\ free_frame s s').
Proof.
  intros (Hh & Hnd & Hv & Hr) Hx Hlen. unfold freeListInsert.
  apply wp_bind. eapply wp_Ret; [done|]. rewrite Hh.
  assert (NoDup (F ++ [x])) as Hnd' by (apply NoDup_app; split_and!; [done|set_solver|apply NoDup_singleton]).
  assert (Forall (fun k => (k < length (nodes s))%nat) (F ++ [x])) as Hv' by (apply Forall_app_2; auto).
  destruct F as [|h T]; cbn [head].
  - repeat (apply wp_bind; eapply wp_Ret; [done|]). eapply wp_Ret; [done|].
    unfold freelist_ok, free_frame. cbn [app head freeList nodes set_nodes set_freeList ring path ds hashQ].
    autorewrite with ptr. rewrite !decide_True by done. split_and!; try done.
  - destruct (ring_last _ _ _ Hr) as (l & Hpl & Hnl & Hcase).
    apply Forall_cons in Hv as [Hvh HvT].
    assert (l ∈ h :: T) as Hl by (destruct Hcase as [[_ ->]|(T' & -> & _)]; set_solver).
    assert (l < length (nodes s))%nat as Hvl.
    { destruct Hcase as [[_ ->]|(T' & -> & _)]; [done|].
      apply Forall_app in HvT as [_ HvT]. by apply Forall_cons in HvT as [? _]. }
    assert (x <> h) as Hxh by set_solver. assert (x <> l) as Hxl by (intros ->; done).
    apply wp_bind. eapply wp_Ret; [done|].
    set (s1 := set_nodes (alter (set_next (Some h)) x (nodes s)) s).
    destruct (pv_node s1 h l) as (n1 & Hg1 & Hn1).
    { unfold s1. cbn [nodes set_nodes]. by autorewrite with ptr. }
    apply wp_bind. eapply wp_Ret; [exact Hg1|]. rewrite Hn1. apply wp_bind. eapply wp_Ret; [done|].
    set (s2 := set_nodes (alter (set_prev (Some l)) x (nodes s1)) s1).
    destruct (pv_node s2 h l) as (n2 & Hg2 & Hn2).
    { unfold s2, s1. cbn [nodes set_nodes]. autorewrite with ptr. by rewrite decide_False. }
    apply wp_bind. eapply wp_Ret; [exact Hg2|]. rewrite Hn2. apply wp_bind. eapply wp_Ret; [done|].
    apply wp_bind. eapply wp_Ret; [done|]. eapply wp_Ret; [done|].
    unfold freelist_ok, free_frame, s2, s1. cbn [freeList nodes set_nodes ds hashQ].
    autorewrite with ptr. split_and!; try done.
    set (ns := alter (set_prev (Some x)) h _).
    assert (forall k, nx ns k = if decide (k = l) then Some x else if decide (k = x) then Some h
      else nx (nodes s) k) as Hnx.
    { intros k. unfold ns. autorewrite with ptr. destruct (decide (k = l)), (decide (k = x)); done. }
    assert (forall k, pv ns k = if decide (k = h) then Some x else if decide (k = x) then Some l
      else pv (nodes s) k) as Hpv.
    { intros k. unfold ns. autorewrite with ptr. destruct (decide (k = h)), (decide (k = x)); done. }
    cbn [app ring]. destruct Hcase as [[-> ->]|(T' & -> & Hp')].
    + simpl. rewrite !Hnx, !Hpv. repeat rewrite ?decide_True, ?decide_False by done. done.
    + rewrite <- app_assoc. cbn [app]. apply path_app.
      assert (l ∉ h :: T') as Hlh.
      { intros Hin. apply NoDup_cons in Hnd as [Hnd1 Hnd2].
        apply NoDup_app in Hnd2 as (_ & Hnd2 & _). set_solver. }
      apply NoDup_cons in Hnd as [Hnd _]. split.
      * eapply path_ext; [| |exact Hp'].
        -- intros k Hk. rewrite Hnx, !decide_False; [done|set_solver|set_solver].
        -- intros k Hk. rewrite Hpv, !decide_False; [done|set_solver|set_solver].
      * simpl. rewrite !Hnx, !Hpv.
        assert (l <> h) by set_solver.
        rewrite !(decide_True (P := l = l)), !(decide_True (P := h = h)), !(decide_True (P := x = x)) by done.
        rewrite (decide_False (P := x = l)), (decide_False (P := x = h)) by done. done.
Qed.

(** The ring of a list without [k], read from a node other than [k]. *)
Lemma ring_around ns F1 k F2 :
  NoDup (F1 ++ k :: F2) -> ring ns (F1 ++ k :: F2) -> F1 ++ F2 <> [] ->
  exists a l1 l2, NoDup (a :: l1 ++ k :: l2) /\ path ns a (l1 ++ k :: l2) a /\
    (forall ns', path ns' a (l1 ++ l2) a -> ring ns' (F1 ++ F2)) /\ a ∈ F1 ++ F2 /\
    (forall x, x ∈ l1 ++ l2 -> x ∈ F1 ++ F2) /\ (F1 = [] -> hd a l2 = hd 0%nat F2).
Proof.
  intros Hnd Hr Hne. destruct F1 as [|h G].
  - destruct F2 as [|x T]; [done|]. simpl in Hr. destruct Hr as (Hl1 & Hl2 & Hpx).
    exists x, T, []. split_and!.
    + cbn [app] in Hnd. change (NoDup ((x :: T) ++ [k])).
      rewrite (Permutation_app_comm (x :: T) [k]). exact Hnd.
    + apply path_app. split; [done|]. simpl. done.
    + intros ns'. by rewrite app_nil_r.
    + by left.
    + rewrite app_nil_r. intros y Hy. by right.
    + done.
  - exists h, G, F2. split_and!; try done; [by left|]. intros y Hy. by right.
Qed.

(** Removal of a node that has neighbours; [free_unlink] is that step of
    [freeListRemove], and [popFreeList] does the same for the head. *)
Lemma free_unlink_ok s F1 k F2 :
  freelist_ok s (F1 ++ k :: F2) -> F1 ++ F2 <> [] ->
  wp (free_unlink k) s (fun _ s' => freelist_ok s' (F1 ++ F2) /\ free_frame s s').
Proof.
  intros (Hh & Hnd & Hv & Hr) Hne.
  assert (NoDup (F1 ++ F2)) as Hnd' by (rewrite <- Permutation_middle in Hnd; by apply NoDup_cons in Hnd as [_ ?]).
  assert (Forall (fun k => (k < length (nodes s))%nat) (F1 ++ F2)) as Hv'.
  { rewrite <- Permutation_middle in Hv. by apply Forall_cons in Hv as [_ ?]. }
  assert (k ∉ F1 ++ F2) as Hk by (rewrite <- Permutation_middle in Hnd; by apply NoDup_cons in Hnd as [? _]).
  assert (k < length (nodes s))%nat as Hkv.
  { rewrite <- Permutation_middle in Hv. by apply Forall_cons in Hv as [? _]. }
  destruct (ring_around _ _ _ _ Hnd Hr Hne) as (a & l1 & l2 & Hnda & Hpa & Hring & Hav & Hsub & Hhd).
  set (p := List.last (a :: l1) a). set (n := hd a l2).
  destruct (path_unlink (nodes s) (nodes s) a l1 k l2 Hnda Hpa) as (Hpk & Hnk & _). fold p n in Hpk, Hnk.
  assert (p ∈ F1 ++ F2) as Hpin.
  { unfold p. destruct l1 as [|y l1 _] using rev_ind; [done|].
    rewrite app_comm_cons, List.last_last. apply Hsub. set_solver. }
  assert (n ∈ F1 ++ F2) as Hnin.
  { unfold n. destruct l2; [done|]. apply Hsub. set_solver. }
  assert (p <> k) as Hpk' by (intros E; rewrite E in Hpin; done).
  assert (n <> k) as Hnk' by (intros E; rewrite E in Hnin; done).
  assert (p < length (nodes s))%nat as Hpv by (rewrite Forall_forall in Hv'; by apply Hv').
  assert (n < length (nodes s))%nat as Hnv by (rewrite Forall_forall in Hv'; by apply Hv').
  unfold free_unlink. apply wp_bind. eapply wp_Ret; [done|].
  destruct (get_node_lt s k Hkv) as (nd & Hg & Hlk).
  assert (next nd = Some n /\ prev nd = Some p) as [Hndn Hndp].
  { unfold nx in Hnk. unfold pv in Hpk. by rewrite Hlk in Hnk, Hpk. }
  apply wp_bind. eapply wp_Ret; [exact Hg|].
  set (s1 := if decide (freeList s = Some k) then set_freeList (Some n) s else s).
  assert (nodes s1 = nodes s /\ ds s1 = ds s /\ hashQ s1 = hashQ s /\ freeList s1 = head (F1 ++ F2)) as (En & Ed & Eq & Ef).
  { unfold s1. rewrite Hh. destruct F1 as [|h G]; cbn [app head].
    - rewrite decide_True by done. split_and!; try done. cbn [freeList set_freeList].
      specialize (Hhd eq_refl). fold n in Hhd. destruct F2 as [|x T]; [done|]. by rewrite Hhd.
    - rewrite decide_False; [done|]. intros [= ->]. apply Hk. by left. }
  apply wp_bind. eapply wp_Ret.
  { rewrite Hndn. instantiate (1 := s1). unfold s1. destruct (decide _); done. }
  destruct (get_node_lt s1 k) as (nd1 & Hg1 & Hlk1); [by rewrite En|].
  rewrite En, Hlk in Hlk1. injection Hlk1 as <-.
  apply wp_bind. eapply wp_Ret; [exact Hg1|]. rewrite Hndn, Hndp.
  apply wp_bind. eapply wp_Ret; [done|]. apply wp_bind. eapply wp_Ret; [done|].
  set (s2 := set_nodes (alter (set_prev (Some p)) n (nodes s1)) s1).
  destruct (get_node_lt s2 k) as (nd2 & Hg2 & Hlk2).
  { unfold s2. cbn [nodes set_nodes]. rewrite length_alter, En. done. }
  assert (next nd2 = Some n /\ prev nd2 = Some p) as [Hnd2n Hnd2p].
  { unfold s2 in Hlk2. cbn [nodes set_nodes] in Hlk2.
    rewrite lookup_alter_nodes, decide_False, En, Hlk in Hlk2 by done. injection Hlk2 as <-. done. }
  apply wp_bind. eapply wp_Ret; [exact Hg2|]. rewrite Hnd2n, Hnd2p.
  apply wp_bind. eapply wp_Ret; [done|]. apply wp_bind. eapply wp_Ret; [done|].
  apply wp_bind. eapply wp_Ret; [done|]. eapply wp_Ret; [done|].
  unfold freelist_ok, free_frame, s2. cbn [freeList nodes set_nodes ds hashQ].
  rewrite Ed, Eq, Ef, En. autorewrite with ptr. split_and!; try done.
  set (ns := alter (set_prev None) k _).
  apply Hring. apply (path_unlink (nodes s) ns a l1 k l2 Hnda Hpa).
  - intros j Hj. fold p n. unfold ns. autorewrite with ptr. by rewrite (decide_False (P := j = k)).
  - intros j Hj. fold p n. unfold ns. autorewrite with ptr. by rewrite (decide_False (P := j = k)).
Qed.

Lemma popFreeList_empty s : freelist_ok s [] -> popFreeList s = Ret None s.
Proof. intros (Hh & _). unfold popFreeList. mstep. by rewrite Hh. Qed.

Lemma popFreeList_ok s h T :
  freelist_ok s (h :: T) ->
  wp popFreeList s (fun r s' => r = Some h /\ freelist_ok s' T /\ free_frame s s').
Proof.
  intros (Hh & Hnd & Hv & Hr). cbn [head] in Hh.
  apply NoDup_cons in Hnd as [Hk Hnd']. apply Forall_cons in Hv as [Hkv Hv'].
  unfold popFreeList. apply wp_bind. eapply wp_Ret; [done|]. rewrite Hh.
  destruct (get_node_lt s h Hkv) as (nd & Hg & Hlk).
  apply wp_bind. eapply wp_Ret; [exact Hg|].
  destruct T as [|x T].
  { simpl in Hr. destruct Hr as [Hn _]. unfold nx in Hn. rewrite Hlk in Hn.
    rewrite decide_True by done. apply wp_bind. eapply wp_Ret; [done|]. eapply wp_Ret; [done|].
    split_and!; done. }
  assert (Hp : path (nodes s) x (T ++ [h]) x).
  { simpl in Hr. destruct Hr as (Hl1 & Hl2 & Hpx). apply path_app. split; [done|]. simpl. done. }
  assert (Hnda : NoDup (x :: T ++ [h])).
  { change (NoDup ((x :: T) ++ [h])). rewrite (Permutation_app_comm (x :: T) [h]). by constructor. }
  destruct (path_unlink (nodes s) (nodes s) x T h [] Hnda Hp) as (Hpk & Hnk & _).
  set (p := List.last (x :: T) x) in *. cbn [hd] in Hnk.
  assert (p ∈ x :: T) as Hpin.
  { unfold p. destruct T as [|y T _] using rev_ind; [by left|].
    rewrite app_comm_cons, List.last_last. set_solver. }
  assert (p <> h) as Hph by (intros E; rewrite E in Hpin; done).
  assert (x <> h) as Hxh by set_solver.
  assert (p < length (nodes s))%nat as Hpv by (rewrite Forall_forall in Hv'; by apply Hv').
  assert (x < length (nodes s))%nat as Hxv by (rewrite Forall_forall in Hv'; apply Hv'; by left).
  assert (next nd = Some x /\ prev nd = Some p) as [Hndn Hndp].
  { unfold nx in Hnk. unfold pv in Hpk. by rewrite Hlk in Hnk, Hpk. }
  rewrite Hndn, Hndp, decide_False by congruence.
  apply wp_bind. eapply wp_Ret; [done|]. apply wp_bind. eapply wp_Ret; [done|].
  set (s1 := set_nodes (alter (set_next (Some x)) p (nodes s)) s).
  assert (Hg1 : get_node h s1 = Ret nd s1).
  { unfold get_node. mstep. unfold s1. cbn [nodes set_nodes].
    by rewrite lookup_alter_nodes, decide_False, Hlk. }
  apply wp_bind. eapply wp_Ret; [exact Hg1|]. rewrite Hndn, Hndp.
  apply wp_bind. eapply wp_Ret; [done|]. apply wp_bind. eapply wp_Ret; [done|].
  set (s2 := set_nodes (alter (set_prev (Some p)) x (nodes s1)) s1).
  assert (Hg2 : get_node h s2 = Ret nd s2).
  { unfold get_node. mstep. unfold s2, s1. cbn [nodes set_nodes].
    by rewrite !lookup_alter_nodes, !decide_False, Hlk. }
  apply wp_bind. eapply wp_Ret; [exact Hg2|]. rewrite Hndn.
  do 3 (apply wp_bind; eapply wp_Ret; [done|]). eapply wp_Ret; [done|].
  split; [done|]. unfold freelist_ok, free_frame, s2, s1.
  cbn [freeList nodes set_nodes set_freeList ds hashQ].
  autorewrite with ptr. split_and!; try done.
  set (ns := alter (set_prev None) h _).
  cbn [ring]. rewrite <- (app_nil_r T). apply (path_unlink (nodes s) ns x T h [] Hnda Hp).
  - intros j Hj. cbn [hd]. fold p. unfold ns. autorewrite with ptr. by rewrite (decide_False (P := j = h)).
  - intros j Hj. cbn [hd]. fold p. unfold ns. autorewrite with ptr. by rewrite (decide_False (P := j = h)).
Qed.

Lemma ring_next ns F1 y z F2 : ring ns (F1 ++ y :: z :: F2) -> nx ns y = Some z.
Proof.
  destruct F1 as [|h F1]; cbn [app ring].
  - simpl. naive_solver.
  - intros Hp. apply path_app in Hp as [_ Hp]. simpl in Hp. naive_solver.
Qed.

(** The walk of [freeListRemove]: started at a node of the ring in front of [k] it
    reaches [k] and takes it out. *)
Lemma freeListRemove_walk s F1 k F2 (Q : option nat -> istate -> Prop) :
  freelist_ok s (F1 ++ k :: F2) -> wp (free_unlink k) s (fun _ s' => forall w, Q w s') ->
  forall G pre fuel, F1 = pre ++ G -> (length G < fuel)%nat ->
  wp (while_do fuel (fun w => bool_decide (w <> None))
    (fun w =>
     let* w := deref w in
     if decide (k = w) then free_unlink k ;;; ret (Break (Some w))
     else
       let* n := get_node w in
       let* s := get in
       if decide (next n = freeList s) then ret (Break (next n)) else ret (Next (next n)))
    (Some (hd k G))) s Q.
Proof.
  intros (Hh & Hnd & _ & Hr) HQ G.
  induction G as [|y G IH]; intros pre fuel HF1 Hf;
    (destruct fuel as [|fuel]; [simpl in Hf; lia|]); cbn [while_do hd];
    rewrite bool_decide_eq_true_2 by done; apply wp_bind, wp_bind; (eapply wp_Ret; [done|]).
  - rewrite decide_True by done. apply wp_bind. eapply wp_mono; [exact HQ|].
    intros [] s' Hs'. eapply wp_Ret; [done|]. eapply wp_Ret; [done|]. apply Hs'.
  - assert (k <> y) as Hky.
    { intros ->. apply NoDup_app in Hnd as (_ & Hnd & _). apply (Hnd y); subst; set_solver. }
    rewrite decide_False by done.
    assert (nx (nodes s) y = Some (hd k G)) as Hny.
    { destruct G as [|z G]; cbn [hd]; subst F1; rewrite <- app_assoc in Hr;
        [apply (ring_next _ pre y k F2 Hr)|apply (ring_next _ pre y z _ Hr)]. }
    destruct (nx_node s y _ Hny) as (ny & Hgy & Eny).
    apply wp_bind. eapply wp_Ret; [exact Hgy|]. apply wp_bind. eapply wp_Ret; [done|].
    rewrite Eny, decide_False.
    { eapply wp_Ret; [done|]. apply (IH (pre ++ [y])); [by rewrite <- app_assoc|simpl in Hf; lia]. }
    rewrite Hh. subst F1. destruct pre as [|p pre]; cbn [app head]; intros [= E];
      apply NoDup_cons in Hnd as [Hnd _]; apply Hnd; rewrite <- E; destruct G; set_solver.
Qed.

Lemma freeListRemove_ok s F1 k F2 :
  freelist_ok s (F1 ++ k :: F2) ->
  wp (freeListRemove k) s (fun _ s' => freelist_ok s' (F1 ++ F2) /\ free_frame s s').
Proof.
  intros Hok. pose proof Hok as (Hh & Hnd & Hv & Hr).
  assert (k < length (nodes s))%nat as Hkv.
  { apply Forall_app in Hv as [_ Hv]. by apply Forall_cons in Hv as [? _]. }
  destruct (get_node_lt s k Hkv) as (nd & Hg & Hlk).
  assert (length F1 < S (length (nodes s)))%nat as Hfuel.
  { assert (length (F1 ++ k :: F2) <= length (nodes s))%nat; [|rewrite length_app in *; lia].
    rewrite <- (length_seq (length (nodes s)) 0). apply submseteq_length, NoDup_submseteq; [done|].
    intros j Hj. rewrite Forall_forall in Hv. apply Hv in Hj. apply elem_of_seq. lia. }
  unfold freeListRemove. apply wp_bind. eapply wp_Ret; [done|].
  pose proof (fun Q HQ => freeListRemove_walk s F1 k F2 Q Hok HQ F1 [] _ eq_refl Hfuel) as Hwalk.
  assert (F1 ++ F2 <> [] -> wp (free_unlink k) s (fun _ s' => forall w : option nat,
    wp (ret tt) s' (fun _ s' => freelist_ok s' (F1 ++ F2) /\ free_frame s s'))) as Hloop.
  { intros Hne. eapply wp_mono; [by apply free_unlink_ok|]. intros [] s' Hs' w. by apply wp_ret. }
  rewrite Hh. destruct F1 as [|h F1]; cbn [app head].
  - rewrite decide_True by done. apply wp_bind, wp_bind. eapply wp_Ret; [exact Hg|].
    apply wp_ret. cbn [app] in *.
    destruct F2 as [|x F2].
    + simpl in Hr. destruct Hr as [Hn _]. unfold nx in Hn. rewrite Hlk in Hn.
      rewrite bool_decide_eq_true_2 by done.
      do 2 (apply wp_bind; eapply wp_Ret; [done|]). eapply wp_Ret; [done|].
      unfold freelist_ok, free_frame. cbn [freeList nodes set_nodes set_freeList ds hashQ].
      autorewrite with ptr. split_and!; done || constructor.
    + rewrite bool_decide_eq_false_2; [apply wp_bind, Hwalk; by apply Hloop|].
      simpl in Hr. destruct Hr as [Hn _]. unfold nx in Hn. rewrite Hlk in Hn. rewrite Hn.
      intros [= ->]. apply NoDup_cons in Hnd as [Hnd _]. set_solver.
  - rewrite decide_False; [apply wp_bind, wp_ret, wp_bind, Hwalk; by apply Hloop|].
    intros ->. apply NoDup_cons in Hnd as [Hnd _]. set_solver.
Qed.
End freelist.

(** * The hash queues *)

(** [chain ns p l]: the hash links of the nodes of [l], the first of which
    comes after [p]. *)
Fixpoint chain (ns : list Node) (p : option nat) (l : list nat) : Prop :=
  match l with
  | [] => True
  | x :: l' => hp ns x = p /\ hn ns x = head l' /\ chain ns (Some x) l'
  end.

Lemma chain_ext ns ns' p l :
  (forall j, j ∈ l -> hp ns' j = hp ns j /\ hn ns' j = hn ns j) -> chain ns p l -> chain ns' p l.
Proof.
  revert p. induction l as [|x l IH]; intros p He; simpl; [done|].
  destruct (He x) as [-> ->]; [by left|]. intros (H1 & H2 & H3). split_and!; [done..|].
  apply IH; [|done]. intros j Hj. apply He. by right.
Qed.

(** The links after [k] has been taken out. *)
Definition unlinked (ns ns' : list Node) (k : nat) : Prop :=
  forall j,
    hn ns' j = (if decide (j = k) then None else if decide (hp ns k = Some j) then hn ns k else hn ns j) /\
    hp ns' j = (if decide (j = k) then None else if decide (hn ns k = Some j) then hp ns k else hp ns j).

Lemma chain_at ns p l1 k l2 :
  chain ns p (l1 ++ k :: l2) ->
  hp ns k = match last l1 with Some y => Some y | None => p end /\ hn ns k = head l2.
Proof.
  revert p. induction l1 as [|x l1 IH]; intros p.
  - simpl. naive_solver.
  - intros (_ & _ & Hc). apply IH in Hc as [-> ->]. rewrite last_cons. by destruct (last l1).
Qed.

Lemma chain_unlink ns ns' p l1 k l2 :
  NoDup (l1 ++ k :: l2) -> (forall x, p = Some x -> x ∉ l1 ++ k :: l2) ->
  chain ns p (l1 ++ k :: l2) -> unlinked ns ns' k -> chain ns' p (l1 ++ l2).
Proof.
  intros Hnd Hp Hc Hu. revert p Hnd Hp Hc. induction l1 as [|x l1 IH]; intros p Hnd Hp Hc.
  - destruct (chain_at ns p [] k l2 Hc) as [Hpk Hnk]. cbn [last app] in *.
    destruct l2 as [|y l2]; [done|]. cbn [chain head] in *.
    apply NoDup_cons in Hnd as [Hk Hnd]. apply NoDup_cons in Hnd as [Hy Hnd].
    destruct Hc as (_ & _ & Hpy & Hny & Hc).
    destruct (Hu y) as [Hny' Hpy']. rewrite decide_False in Hny', Hpy' by set_solver.
    rewrite Hnk, decide_True in Hpy' by done.
    rewrite decide_False in Hny' by (rewrite Hpk; intros ->; apply (Hp y); set_solver).
    split_and!; [congruence..|]. eapply chain_ext; [|exact Hc]. intros j Hj. destruct (Hu j) as [-> ->].
    rewrite !(decide_False (P := j = k)) by set_solver.
    rewrite !decide_False; [done| |].
    + rewrite Hpk. intros ->. apply (Hp j); set_solver.
    + rewrite Hnk. intros E. injection E as ->. done.
  - cbn [app chain] in Hc |- *. destruct Hc as (Hpx & Hnx & Hc).
    destruct (chain_at _ _ _ _ _ Hc) as [Hpk Hnk].
    apply NoDup_cons in Hnd as [Hx Hnd].
    destruct (Hu x) as [Hnx' Hpx'].
    rewrite decide_False in Hnx', Hpx' by set_solver.
    split_and!.
    + rewrite Hpx', decide_False; [done|]. rewrite Hnk. destruct l2; set_solver.
    + rewrite Hnx'. destruct l1 as [|z l1 _] using rev_ind.
      * simpl in Hpk. by rewrite decide_True.
      * rewrite last_snoc in Hpk. rewrite decide_False, Hnx by (rewrite Hpk; set_solver).
        destruct l1; done.
    + apply IH; [done|set_solver|done].
Qed.

(** Taking [k] out of all queues. *)
Definition rm (k : nat) (Q : Z -> list nat) : Z -> list nat := fun h => filter (fun j => j <> k) (Q h).

Lemma filter_notin (k : nat) (l : list nat) : k ∉ l -> filter (fun j => j <> k) l = l.
Proof.
  induction l as [|x l IH]; intros Hk; [done|].
  rewrite filter_cons_True by set_solver. f_equal. apply IH. set_solver.
Qed.

Lemma filter_middle (k : nat) (l1 l2 : list nat) :
  NoDup (l1 ++ k :: l2) -> filter (fun j => j <> k) (l1 ++ k :: l2) = l1 ++ l2.
Proof.
  intros Hnd. assert (k ∉ l1 ++ l2) as Hk.
  { rewrite <- Permutation_middle in Hnd. by apply NoDup_cons in Hnd as [? _]. }
  rewrite filter_app, filter_cons_False by (intros E; by apply E).
  by rewrite !filter_notin by set_solver.
Qed.

(** The queues of [Q], with node [k] in queue [hv k] if in any. *)
Definition queues (ns : list Node) (hq : list (option nat)) (hv : nat -> Z) (Q : Z -> list nat) : Prop :=
  (forall h, 0 <= h < INODE_HASH_SIZE ->
     hq !! Z.to_nat h = Some (head (Q h)) /\ chain ns None (Q h) /\ NoDup (Q h)) /\
  (forall h k, k ∈ Q h -> 0 <= h < INODE_HASH_SIZE /\ (k < length ns)%nat /\ hv k = h) /\
  (forall k, (forall h, k ∉ Q h) -> hn ns k = None /\ hp ns k = None).

(** The neighbours of a node are in the same queue. *)
Lemma queues_node ns hq hv Q k :
  queues ns hq hv Q ->
  (forall h, k ∉ Q h) /\ hn ns k = None /\ hp ns k = None \/
  exists l1 l2, Q (hv k) = l1 ++ k :: l2 /\ 0 <= hv k < INODE_HASH_SIZE /\ NoDup (l1 ++ k :: l2) /\
    chain ns None (l1 ++ k :: l2) /\ hp ns k = last l1 /\ hn ns k = head l2 /\
    (forall h, k ∈ Q h -> h = hv k).
Proof.
  intros (HQ & Hm & Hout). destruct (decide (k ∈ Q (hv k))) as [Hin|Hin].
  - right. destruct (Hm _ _ Hin) as (Hr & _ & _).
    apply list_elem_of_split in Hin as (l1 & l2 & E). exists l1, l2.
    destruct (HQ _ Hr) as (_ & Hc & Hnd). rewrite E in Hc, Hnd.
    destruct (chain_at _ _ _ _ _ Hc) as [H1 H2].
    split_and!; try done; try (destruct Hr; done).
    + rewrite H1. by destruct (last l1).
    + intros h Hh. apply Hm in Hh. naive_solver.
  - left. assert (forall h, k ∉ Q h) as Hno.
    { intros h Hh. destruct (Hm _ _ Hh) as (_ & _ & <-). done. }
    split; [done|]. by apply Hout.
Qed.

Lemma elem_of_rm (k j : nat) Q h : j ∈ rm k Q h <-> j ∈ Q h /\ j <> k.
Proof. unfold rm. rewrite list_elem_of_filter. naive_solver. Qed.

Lemma queues_rm ns ns' hq hq' hv Q k :
  queues ns hq hv Q -> unlinked ns ns' k -> length ns' = length ns ->
  hq' = (if decide (hq !! Z.to_nat (hv k) = Some (Some k)) then <[Z.to_nat (hv k) := hn ns k]> hq else hq) ->
  queues ns' hq' hv (rm k Q).
Proof.
  intros Hqs Hu Hlen ->. pose proof (queues_node _ _ _ _ k Hqs) as Hk.
  pose proof Hqs as (HQ & Hm & Hout).
  assert (forall j, hp ns k = Some j \/ hn ns k = Some j -> k ∈ Q (hv k) /\ j ∈ Q (hv k)) as Hnb.
  { intros j Hj. destruct Hk as [(_ & E1 & E2)|(l1 & l2 & E & _ & _ & _ & E1 & E2 & _)].
    { rewrite E1, E2 in Hj. naive_solver. }
    rewrite E. split; [set_solver|]. rewrite E1, E2 in Hj. destruct Hj as [Hj|Hj].
    - apply last_Some in Hj as [l ->]. set_solver.
    - apply head_Some in Hj as [l ->]. set_solver. }
  split_and!.
  - intros h Hh. destruct (HQ h Hh) as (Hhq & Hc & Hnd). unfold rm.
    destruct (decide (k ∈ Q h)) as [Hin|Hin].
    + destruct Hk as [(Hno & _)|(l1 & l2 & E & Hr & Hnd' & Hc' & E1 & E2 & Huniq)]; [by apply Hno in Hin|].
      apply Huniq in Hin as ->. rewrite E, filter_middle by done. split_and!.
      * rewrite Hhq, E. destruct l1 as [|x l1]; cbn [app head].
        -- rewrite decide_True by done. rewrite list_lookup_insert_eq by (by eapply lookup_lt_Some).
           by rewrite E2.
        -- rewrite decide_False; [by rewrite Hhq, E|]. intros [= ->].
           apply NoDup_cons in Hnd' as [Hnd' _]. set_solver.
      * by apply (chain_unlink ns ns' None l1 k l2).
      * rewrite <- Permutation_middle in Hnd'. by apply NoDup_cons in Hnd' as [_ ?].
    + rewrite filter_notin by done. split_and!; [|eapply chain_ext; [|exact Hc]|done].
      * destruct (decide _) as [Hd|Hd]; [|done].
        destruct (decide (Z.to_nat h = Z.to_nat (hv k))) as [E|E]; [|by rewrite list_lookup_insert_ne].
        exfalso. apply Hin. rewrite E in Hhq. rewrite Hd in Hhq. injection Hhq as Hhq.
        destruct (Q h); simplify_eq/=. by left.
      * intros j Hj. destruct (Hu j) as [-> ->].
        rewrite !(decide_False (P := j = k)) by (intros ->; done).
        rewrite !decide_False; [done| |]; intros Hn; destruct (Hnb j) as [H1 H2]; auto;
          apply Hm in H2 as (_ & _ & H2); apply Hm in Hj as (_ & _ & Hj); congruence.
  - intros h j Hj. apply elem_of_rm in Hj as [Hj _]. rewrite Hlen. by apply Hm.
  - intros j Hj. destruct (Hu j) as [-> ->]. destruct (decide (j = k)) as [|Hne]; [done|].
    assert (forall h, j ∉ Q h) as Hno by (intros h Hin; apply (Hj h), elem_of_rm; done).
    rewrite !decide_False; [by apply Hout| |]; intros Hn; destruct (Hnb j) as [_ H2]; auto;
      by apply Hno in H2.
Qed.

(** Putting [k] in front of queue [h]. *)
Definition push (k : nat) (h : Z) (Q : Z -> list nat) : Z -> list nat :=
  fun h' => if decide (h' = h) then k :: Q h else Q h'.

Lemma queues_push ns ns' hq hv hv' Q k h :
  queues ns hq hv Q -> (forall h', k ∉ Q h') -> (k < length ns)%nat -> 0 <= h < INODE_HASH_SIZE ->
  (forall j, hn ns' j = (if decide (j = k) then head (Q h) else hn ns j) /\
    hp ns' j = (if decide (j = k) then None else if decide (head (Q h) = Some j) then Some k else hp ns j)) ->
  length ns' = length ns -> (forall j, hv' j = if decide (j = k) then h else hv j) ->
  queues ns' (<[Z.to_nat h := Some k]> hq) hv' (push k h Q).
Proof.
  intros (HQ & Hm & Hout) Hno Hk Hh Hu Hlen Hhv. unfold push. split_and!.
  - intros h' Hh'. destruct (HQ h' Hh') as (Hhq & Hc & Hnd). destruct (decide (h' = h)) as [->|Hne].
    + split_and!.
      * by rewrite list_lookup_insert_eq by (by eapply lookup_lt_Some).
      * cbn [chain]. destruct (Hu k) as [-> ->]. rewrite !decide_True by done. split_and!; [done..|].
        destruct (Q h) as [|x l] eqn:E; [done|]. cbn [head chain] in *.
        apply NoDup_cons in Hnd as [Hx Hnd].
        assert (x <> k) by (intros ->; apply (Hno h); rewrite E; by left).
        destruct (Hu x) as [-> ->]. rewrite !(decide_False (P := x = k)), decide_True by done.
        destruct Hc as (_ & Hnx & Hc). split_and!; [done..|].
        eapply chain_ext; [|exact Hc]. intros j Hj. destruct (Hu j) as [-> ->].
        assert (j <> k) by (intros ->; apply (Hno h); rewrite E; by right).
        assert (Some x <> Some j) by (intros Ej; injection Ej as ->; done).
        by rewrite !decide_False by done.
      * apply NoDup_cons. done.
    + split_and!; [|eapply chain_ext; [|exact Hc]|done].
      * rewrite list_lookup_insert_ne by lia. done.
      * intros j Hj. destruct (Hu j) as [-> ->].
        rewrite !(decide_False (P := j = k)) by (intros ->; by apply (Hno h')).
        rewrite decide_False; [done|]. intros E. apply Hne.
        apply Hm in Hj as (_ & _ & <-). assert (j ∈ Q h) as Hj by (destruct (Q h); simplify_eq/=; by left).
        by apply Hm in Hj as (_ & _ & <-).
  - intros h' j. rewrite Hlen, Hhv. destruct (decide (h' = h)) as [->|Hne].
    + intros Hj. apply elem_of_cons in Hj as [->|Hj]; [by rewrite decide_True|].
      rewrite decide_False; [by apply Hm|]. intros ->. by apply (Hno h).
    + intros Hj. rewrite decide_False; [by apply Hm|]. intros ->. by apply (Hno h').
  - intros j Hj. destruct (Hu j) as [-> ->].
    assert (j <> k) by (intros ->; apply (Hj h); rewrite decide_True by done; by left).
    assert (forall h', j ∉ Q h') as Hno'.
    { intros h' Hin. apply (Hj h'). destruct (decide _) as [->|]; [by right|done]. }
    rewrite !(decide_False (P := j = k)) by done. rewrite decide_False; [by apply Hout|].
    intros E. apply (Hno' h). destruct (Q h); simplify_eq/=. by left.
Qed.

Section hashq.
Context `{Host}.

(** The value of [getHash] where the machine defines the shifts. *)
Definition shl_value (x n : Z) : Z :=
  u64 (if n <? 64 then Z.shiftl x n else default (fun _ _ => 0) shl_over x n).
Definition hash_of (n d : Z) : Z :=
  shl_value (shl_value (u64 (d + n)) (u64 (6 + n))) (u64 (16 - n)) mod INODE_HASH_SIZE.

Lemma shl64_Ret `{shifts : !DefinedShifts} x n s : shl64 x n s = Ret (shl_value x n) s.
Proof.
  destruct defined_shifts as [f Hf]. unfold shl64, shl_value. rewrite Hf. by destruct (n <? 64).
Qed.

Lemma getHash_Ret `{shifts : !DefinedShifts} n d s : getHash n d s = Ret (hash_of n d) s.
Proof. unfold getHash, bind. by rewrite !shl64_Ret. Qed.

(** Without it no inode above 16 can be looked up. *)
Lemma shl64_undefined x n s : shl_over = None -> 64 <= n -> shl64 x n s = Undef ShiftRange.
Proof. intros Hno Hn. unfold shl64. by rewrite (proj2 (Z.ltb_ge _ _) Hn), Hno. Qed.

Lemma getHash_undefined n d s : shl_over = None -> 17 <= n < 2 ^ 63 -> getHash n d s = Undef ShiftRange.
Proof.
  intros Hno Hn. unfold getHash, bind. destruct (Z.ltb_spec (u64 (6 + n)) 64) as [Hs|Hs].
  - unfold shl64 at 1. rewrite (proj2 (Z.ltb_lt _ _) Hs). cbn [ret].
    rewrite shl64_undefined; [done|done|]. unfold u64. rewrite <- (Z_mod_plus_full _ 1), Z.mod_small; lia.
  - by rewrite shl64_undefined.
Qed.

Definition node_hash (n : Node) : Z := hash_of (ic_inode_number (inode n)) (ic_device_number (inode n)).

(** The queue that a node belongs in. *)
Definition queue_of (s : istate) (k : nat) : Z :=
  match nodes s !! k with Some n => node_hash n | None => 0 end.

Definition hash_ok (s : istate) (Q : Z -> list nat) : Prop :=
  queues (nodes s) (hashQ s) (queue_of s) Q.

(** Everything but the hash queues is as before. *)
Definition hash_frame (s s' : istate) : Prop :=
  ds s' = ds s /\ freeList s' = freeList s /\ fcore <$> nodes s' = fcore <$> nodes s.

Lemma hash_range n d : 0 <= hash_of n d < INODE_HASH_SIZE.
Proof. unfold hash_of. apply Z.mod_pos_bound. done. Qed.

Lemma fcore_length (ns ns' : list Node) : fcore <$> ns' = fcore <$> ns -> length ns' = length ns.
Proof. intros E. by rewrite <- (length_fmap fcore ns'), E, length_fmap. Qed.

Lemma hash_head_ok s Q h : hash_ok s Q -> 0 <= h < INODE_HASH_SIZE -> hash_head h s = Ret (head (Q h)) s.
Proof. intros (HQ & _) Hh. destruct (HQ h Hh) as (E & _). unfold hash_head. mstep. by rewrite E. Qed.

Context `{shifts : !DefinedShifts}.

Lemma removeFromHashQ_ok s Q k :
  hash_ok s Q -> (k < length (nodes s))%nat ->
  wp (removeFromHashQ k) s (fun _ s' =>
    queues (nodes s') (hashQ s') (queue_of s) (rm k Q) /\ hash_frame s s').
Proof.
  intros Hok Hk. destruct (lookup_lt_is_Some_2 _ _ Hk) as [nd Hnd].
  assert (Hg : get_node k s = Ret nd s) by (unfold get_node; mstep; by rewrite Hnd).
  assert (Hhv : queue_of s k = node_hash nd) by (unfold queue_of; by rewrite Hnd).
  assert (hn (nodes s) k = hash_next nd /\ hp (nodes s) k = hash_prev nd) as [En Ep]
    by (unfold hn, hp; by rewrite Hnd).
  unfold removeFromHashQ. apply wp_bind. eapply wp_Ret; [exact Hg|].
  apply wp_bind. eapply wp_Ret; [apply getHash_Ret|]. fold (node_hash nd).
  pose proof (hash_range (ic_inode_number (inode nd)) (ic_device_number (inode nd))) as Hr.
  fold (node_hash nd) in Hr.
  apply wp_bind. eapply wp_Ret; [by apply (hash_head_ok s Q)|].
  set (s1 := set_hashQ (if decide (hashQ s !! Z.to_nat (node_hash nd) = Some (Some k)) then
    <[Z.to_nat (node_hash nd) := hash_next nd]> (hashQ s) else hashQ s) s).
  assert (Hg1 : get_node k s1 = Ret nd s1)
    by (unfold get_node, s1; mstep; cbn [nodes set_hashQ]; by rewrite Hnd).
  apply wp_bind. eapply wp_Ret.
  { instantiate (1 := s1). instantiate (1 := tt). unfold s1. pose proof Hok as (HQ & _).
    destruct (HQ _ Hr) as (-> & _). destruct (decide (head _ = Some k)) as [Hd|Hd].
    - rewrite Hd, decide_True by done. done.
    - rewrite decide_False by congruence. by destruct s. }
  apply wp_bind. eapply wp_Ret; [exact Hg1|].
  assert (forall j, hash_next nd = Some j \/ hash_prev nd = Some j -> j <> k /\ (j < length (nodes s))%nat) as Hnb.
  { intros j Hj. destruct (queues_node _ _ _ _ k Hok) as [(_ & E1 & E2)|
      (l1 & l2 & E & Hhr & Hnd' & _ & E1 & E2 & _)]; rewrite En in *; rewrite Ep in *.
    { rewrite E1, E2 in Hj. naive_solver. }
    assert (j ∈ l1 ++ l2) as Hin.
    { rewrite E1, E2 in Hj. destruct Hj as [Hj|Hj].
      - apply head_Some in Hj as [l ->]. set_solver.
      - apply last_Some in Hj as [l ->]. set_solver. }
    split.
    - intros ->. rewrite <- Permutation_middle in Hnd'. by apply NoDup_cons in Hnd' as [? _].
    - destruct Hok as (_ & Hm & _). apply (Hm (queue_of s k) j). rewrite E. set_solver. }
  set (s2 := set_nodes (match hash_next nd with Some n => alter (set_hash_prev (hash_prev nd)) n (nodes s)
    | None => nodes s end) s1).
  apply wp_bind. eapply wp_Ret.
  { instantiate (1 := s2). instantiate (1 := tt). unfold s2. by destruct (hash_next nd). }
  destruct (get_node_lt s2 k) as (nd2 & Hg2 & Hnd2).
  { unfold s2. cbn [nodes set_nodes]. destruct (hash_next nd); by rewrite ?length_alter. }
  assert (nd2 = nd) as ->.
  { unfold s2 in Hnd2. cbn [nodes set_nodes] in Hnd2. destruct (hash_next nd) as [n|] eqn:E.
    - rewrite lookup_alter_nodes, decide_False in Hnd2; [congruence|]. intros ->.
      destruct (Hnb n) as [Hx _]; auto.
    - congruence. }
  apply wp_bind. eapply wp_Ret; [exact Hg2|].
  set (s3 := set_nodes (match hash_prev nd with Some p => alter (set_hash_next (hash_next nd)) p (nodes s2)
    | None => nodes s2 end) s2).
  apply wp_bind. eapply wp_Ret.
  { instantiate (1 := s3). instantiate (1 := tt). unfold s3. by destruct (hash_prev nd). }
  apply wp_bind. eapply wp_Ret; [done|]. eapply wp_Ret; [done|].
  set (ns' := alter (set_hash_prev None) k _). cbn [nodes set_nodes hashQ].
  assert (length ns' = length (nodes s) /\ fcore <$> ns' = fcore <$> nodes s) as [Hlen Hfc].
  { unfold ns', s3, s2. cbn [nodes set_nodes]. autorewrite with ptr.
    destruct (hash_next nd), (hash_prev nd); autorewrite with ptr; done. }
  split; [|done]. apply (queues_rm (nodes s) ns' (hashQ s)); [done| |done|].
  - intros j. rewrite En, Ep. unfold ns', s3, s2. cbn [nodes set_nodes].
    destruct (hash_next nd) as [n|] eqn:E1; destruct (hash_prev nd) as [p|] eqn:E2; cbn [nodes set_nodes];
      try (destruct (Hnb n) as [Hn1 Hn2]; [by auto|]); try (destruct (Hnb p) as [Hp1 Hp2]; [by auto|]);
      autorewrite with ptr; split; repeat (destruct (decide _)); congruence.
  - rewrite Hhv, En. done.
Qed.

Lemma insertInHash_ok s hv Q k n d :
  queues (nodes s) (hashQ s) hv Q -> (forall h, k ∉ Q h) -> (k < length (nodes s))%nat ->
  wp (insertInHash k n d) s (fun _ s' =>
    queues (nodes s') (hashQ s') (fun j => if decide (j = k) then hash_of n d else hv j)
      (push k (hash_of n d) Q) /\ hash_frame s s').
Proof.
  intros Hqs Hno Hk. pose proof (hash_range n d) as Hr. pose proof Hqs as (HQ & Hm & _).
  destruct (HQ _ Hr) as (Hhq & _ & _).
  assert (forall j, head (Q (hash_of n d)) = Some j -> j <> k /\ (j < length (nodes s))%nat) as Hnb.
  { intros j Hj. assert (j ∈ Q (hash_of n d)) as Hin by (apply head_Some in Hj as [l ->]; by left).
    split; [intros ->; by apply Hno in Hin|by apply Hm in Hin as (_ & ? & _)]. }
  unfold insertInHash. apply wp_bind. eapply wp_Ret; [apply getHash_Ret|]. apply wp_bind. eapply wp_Ret.
  { unfold hash_head. mstep. rewrite Hhq. done. }
  cbn [default from_option]. apply wp_bind. eapply wp_Ret; [done|].
  set (s1 := set_nodes (alter (set_hash_next (head (Q (hash_of n d)))) k (nodes s)) s).
  set (s2 := set_nodes (match head (Q (hash_of n d)) with Some x => alter (set_hash_prev (Some k)) x (nodes s1)
    | None => nodes s1 end) s1).
  apply wp_bind. eapply wp_Ret.
  { instantiate (1 := s2). instantiate (1 := tt). unfold s2. by destruct (head _). }
  apply wp_bind. eapply wp_Ret; [done|]. eapply wp_Ret; [done|].
  cbn [nodes set_nodes hashQ set_hashQ ds freeList].
  set (ns' := alter (set_hash_prev None) k _).
  assert (length ns' = length (nodes s) /\ fcore <$> ns' = fcore <$> nodes s) as [Hlen Hfc].
  { unfold ns', s2, s1. cbn [nodes set_nodes]. autorewrite with ptr.
    destruct (head _); autorewrite with ptr; done. }
  split; [|done]. apply (queues_push (nodes s) ns' (hashQ s) hv); try done.
  intros j. unfold ns', s2, s1. cbn [nodes set_nodes].
  destruct (head (Q (hash_of n d))) as [x|] eqn:E; cbn [nodes set_nodes];
    try (destruct (Hnb x) as [Hx1 Hx2]; [done|]);
    autorewrite with ptr; split; repeat (destruct (decide _)); congruence.
Qed.

(** The first node of its queue that caches inode [n]. *)
Lemma hashLookup_ok s Q n d :
  hash_ok s Q ->
  exists r, hashLookup n d s = Ret r s /\
    match r with
    | Some k => k ∈ Q (hash_of n d) /\ exists nd, nodes s !! k = Some nd /\ ic_inode_number (inode nd) = n
    | None => forall k nd, k ∈ Q (hash_of n d) -> nodes s !! k = Some nd -> ic_inode_number (inode nd) <> n
    end.
Proof.
  intros Hok. pose proof (hash_range n d) as Hr. pose proof Hok as (HQ & Hm & _).
  destruct (HQ _ Hr) as (_ & Hc & Hnd). unfold hashLookup. mstep.
  rewrite (bind_Ret _ _ _ _ _ (getHash_Ret n d s)).
  erewrite bind_Ret by (by apply (hash_head_ok s Q)).
  assert (length (Q (hash_of n d)) <= length (nodes s))%nat as Hlen.
  { rewrite <- (length_seq (length (nodes s)) 0). apply submseteq_length, NoDup_submseteq; [done|].
    intros j Hj. apply Hm in Hj as (_ & Hj & _). apply elem_of_seq. lia. }
  assert (forall j, j ∈ Q (hash_of n d) -> exists nd, nodes s !! j = Some nd) as Hv.
  { intros j Hj. apply Hm in Hj as (_ & Hj & _). destruct (lookup_lt_is_Some_2 _ _ Hj). eauto. }
  clear HQ Hm Hnd. generalize dependent (length (nodes s)). generalize (@None nat) as p, Hc.
  revert Hv. generalize (Q (hash_of n d)) as l. clear Hc.
  induction l as [|x l IH]; intros Hv p Hc fuel Hlen; simpl in Hlen.
  - exists None. split; [by destruct fuel|]. intros k nd Hk. by apply elem_of_nil in Hk.
  - destruct fuel as [|fuel]; [lia|]. cbn [head hash_walk chain] in *.
    destruct (Hv x) as [nd Hx]; [by left|].
    assert (Hg : get_node x s = Ret nd s) by (unfold get_node; mstep; by rewrite Hx).
    rewrite (bind_Ret _ _ _ _ _ Hg).
    destruct (Z.eqb_spec (ic_inode_number (inode nd)) n) as [E|E].
    + exists (Some x). split; [done|]. split; [by left|]. eauto.
    + destruct Hc as (_ & Hnx & Hc).
      assert (hash_next nd = head l) as -> by (unfold hn in Hnx; by rewrite Hx in Hnx).
      destruct (IH ltac:(intros j Hj; apply Hv; by right) _ Hc fuel ltac:(lia)) as (r & Hrun & Hpost).
      exists r. split; [done|]. destruct r as [k|].
      * destruct Hpost. split; [by right|done].
      * intros k nd' Hk Hnd'. apply elem_of_cons in Hk as [->|Hk]; [congruence|]. by eapply Hpost.
Qed.


(** ** Where the hash function sends a number *)

Lemma u64_mod8 z : u64 z mod 8 = z mod 8.
Proof. unfold u64. apply Z.mod_mod_divide. by exists (2 ^ 61). Qed.

Lemma shiftl_mod8 x k : 0 <= k -> 3 <= k \/ x mod 8 = 0 -> Z.shiftl x k mod 8 = 0.
Proof.
  intros Hk Hor. rewrite Z.shiftl_mul_pow2 by done. destruct Hor as [H3|Hx].
  - replace k with ((k - 3) + 3) by lia. rewrite Z.pow_add_r by lia. change (2 ^ 3) with 8.
    rewrite Z.mul_assoc. apply Z.mod_mul. lia.
  - rewrite Z.mul_mod, Hx by lia. by rewrite Z.mul_0_l.
Qed.

(** The count of a 64-bit shift is taken modulo 64. *)
Definition masked_shifts : Prop :=
  exists f, shl_over = Some f /\ forall x n, f x n = Z.shiftl x (n mod 64).

Lemma shl_value_mod8 x n :
  masked_shifts -> 0 <= n -> 3 <= n mod 64 \/ x mod 8 = 0 -> shl_value x n mod 8 = 0.
Proof.
  intros (f & Ef & Hm) Hn Hor. unfold shl_value. rewrite u64_mod8. destruct (Z.ltb_spec n 64) as [Hlt|Hge].
  - rewrite Z.mod_small in Hor by lia. by apply shiftl_mod8.
  - rewrite Ef. cbn [default from_option]. rewrite Hm. apply shiftl_mod8; [|done]. by apply Z.mod_pos_bound.
Qed.

(** The two shift counts add up to 22 modulo 64. *)
Lemma getHash_masked n d s : masked_shifts -> getHash n d s = Ret 0 s.
Proof.
  intros Hm. assert (DefinedShifts) as Hd by (destruct Hm as (f & Ef & _); by exists f).
  rewrite getHash_Ret. f_equal. unfold hash_of. change INODE_HASH_SIZE with 8.
  pose proof (u64_range (6 + n)) as [H1 _]. pose proof (u64_range (16 - n)) as [H2 _].
  apply shl_value_mod8; [done|done|].
  assert (forall z, u64 z mod 64 = z mod 64) as Hu.
  { intros z. unfold u64. apply Z.mod_mod_divide. by exists (2 ^ 58). }
  destruct (decide (3 <= u64 (16 - n) mod 64)) as [Hge|Hlt]; [by left|]. right.
  apply shl_value_mod8; [done|done|]. left. rewrite Hu in *. Z.to_euclidean_division_equations; lia.
Qed.

End hashq.
