(* ===== verification/CacheInv.v ===== *)
(** The inode cache as a whole: the invariant that ties the nodes, the free
    list, the hash queues and the inode table together, and what [iget] and
    [iput] do to it. *)

From S2P Require Export CacheSpec.

(** * Moving the two list invariants over a step *)

Lemma queues_proper ns ns' hq hv hv' Q :
  (forall j, hn ns' j = hn ns j /\ hp ns' j = hp ns j) -> length ns' = length ns ->
  (forall j, hv' j = hv j) -> queues ns hq hv Q -> queues ns' hq hv' Q.
Proof.
  intros Hp Hl Hv (HQ & Hm & Hout). split_and!.
  - intros h Hh. destruct (HQ h Hh) as (E & Hc & Hnd). split_and!; [done| |done].
    eapply chain_ext; [|exact Hc]. intros j _. destruct (Hp j). auto.
  - intros h k Hk. rewrite Hl, Hv. by apply Hm.
  - intros k Hk. destruct (Hp k) as [-> ->]. by apply Hout.
Qed.

Lemma path_proper ns ns' a l b :
  (forall j, nx ns' j = nx ns j /\ pv ns' j = pv ns j) -> path ns a l b -> path ns' a l b.
Proof. intros Hp. apply path_ext; intros k _; by destruct (Hp k). Qed.

Lemma core_links (ns ns' : list Node) : core <$> ns' = core <$> ns ->
  forall j, hn ns' j = hn ns j /\ hp ns' j = hp ns j /\ (inode <$> ns' !! j) = (inode <$> ns !! j).
Proof.
  intros E j. assert (core <$> (ns' !! j) = core <$> (ns !! j)) as Ej.
  { pose proof (f_equal (lookup j) E) as Ej. by rewrite !list_lookup_fmap in Ej. }
  unfold hn, hp, core in *. destruct (ns' !! j), (ns !! j); simpl in *; try done.
  injection Ej. intros. split_and!; congruence.
Qed.

Lemma fcore_links (ns ns' : list Node) : fcore <$> ns' = fcore <$> ns ->
  forall j, nx ns' j = nx ns j /\ pv ns' j = pv ns j /\ (inode <$> ns' !! j) = (inode <$> ns !! j).
Proof.
  intros E j. assert (fcore <$> (ns' !! j) = fcore <$> (ns !! j)) as Ej.
  { pose proof (f_equal (lookup j) E) as Ej. by rewrite !list_lookup_fmap in Ej. }
  unfold nx, pv, fcore in *. destruct (ns' !! j), (ns !! j); simpl in *; try done.
  injection Ej. intros. split_and!; congruence.
Qed.

Section cache.
Context `{BlockStore ok} `{shifts : !DefinedShifts}.

(** The inode of node [k]. *)
Definition inode_at (s : istate) (k : nat) : option inCoreiNode := inode <$> nodes s !! k.

Definition inode_hash (i : inCoreiNode) : Z := hash_of (ic_inode_number i) (ic_device_number i).

Lemma queue_of_inode s k : queue_of s k = match inode_at s k with Some i => inode_hash i | None => 0 end.
Proof. unfold queue_of, inode_at. by destruct (nodes s !! k). Qed.

Lemma hash_ok_free s s' Q : free_frame s s' -> hash_ok s Q -> hash_ok s' Q.
Proof.
  intros (_ & Eq & Ec). pose proof (core_links _ _ Ec) as Hl. unfold hash_ok. rewrite Eq.
  apply queues_proper.
  - intros j. destruct (Hl j) as (? & ? & _). done.
  - by apply core_length.
  - intros j. rewrite !queue_of_inode. unfold inode_at. by destruct (Hl j) as (_ & _ & ->).
Qed.

Lemma freelist_ok_hash s s' F : hash_frame s s' -> freelist_ok s F -> freelist_ok s' F.
Proof.
  intros (_ & Eq & Ec) (Hh & Hnd & Hv & Hr). pose proof (fcore_links _ _ Ec) as Hl.
  unfold freelist_ok. rewrite Eq, (fcore_length _ _ Ec). split_and!; [done..|].
  destruct F as [|h T]; [done|]. eapply path_proper; [|exact Hr].
  intros j. destruct (Hl j) as (? & ? & _). done.
Qed.

Lemma inode_at_free s s' k : free_frame s s' -> inode_at s' k = inode_at s k.
Proof. intros (_ & _ & Ec). unfold inode_at. by destruct (core_links _ _ Ec k) as (_ & _ & ->). Qed.

Lemma inode_at_hash s s' k : hash_frame s s' -> inode_at s' k = inode_at s k.
Proof. intros (_ & _ & Ec). unfold inode_at. by destruct (fcore_links _ _ Ec k) as (_ & _ & ->). Qed.

(** ** Changing one inode *)

(** [s'] is [s] with the inode of node [k] replaced by [i]. *)
Definition inode_set (k : nat) (i : inCoreiNode) (s : istate) : istate :=
  set_nodes (alter (set_inode i) k (nodes s)) s.

Lemma inode_at_set k i s j : (k < length (nodes s))%nat ->
  inode_at (inode_set k i s) j = if decide (j = k) then Some i else inode_at s j.
Proof.
  intros Hk. unfold inode_at, inode_set. cbn [nodes set_nodes]. rewrite lookup_alter_nodes.
  destruct (decide (j = k)) as [->|]; [|done]. destruct (lookup_lt_is_Some_2 _ _ Hk) as [n ->]. done.
Qed.

Lemma inode_set_links k i s j :
  nx (nodes (inode_set k i s)) j = nx (nodes s) j /\ pv (nodes (inode_set k i s)) j = pv (nodes s) j /\
  hn (nodes (inode_set k i s)) j = hn (nodes s) j /\ hp (nodes (inode_set k i s)) j = hp (nodes s) j.
Proof.
  unfold nx, pv, hn, hp, inode_set. cbn [nodes set_nodes]. rewrite lookup_alter_nodes.
  destruct (decide _); [|done]. by destruct (nodes s !! j).
Qed.

Lemma freelist_ok_set k i s F : freelist_ok s F -> freelist_ok (inode_set k i s) F.
Proof.
  intros (Hh & Hnd & Hv & Hr). unfold freelist_ok. cbn [inode_set freeList nodes set_nodes].
  rewrite length_alter. split_and!; [done..|]. destruct F as [|h T]; [done|].
  eapply path_proper; [|exact Hr]. intros j. destruct (inode_set_links k i s j) as (? & ? & _). done.
Qed.

(** The state a hash invariant may leave between the insertion of a node and
    the arrival of its inode. *)
Lemma queues_set k i s hv Q :
  queues (nodes s) (hashQ s) hv Q -> (k < length (nodes s))%nat ->
  (forall j, queue_of (inode_set k i s) j = hv j) -> hash_ok (inode_set k i s) Q.
Proof.
  intros Hq Hk Hv. unfold hash_ok. eapply queues_proper; [| |exact Hv|exact Hq].
  - intros j. destruct (inode_set_links k i s j) as (_ & _ & ? & ?). done.
  - cbn [inode_set nodes set_nodes]. by rewrite length_alter.
Qed.

Lemma hash_ok_set k i i0 s Q :
  hash_ok s Q -> inode_at s k = Some i0 -> inode_hash i = inode_hash i0 -> hash_ok (inode_set k i s) Q.
Proof.
  intros Hq Hi E. assert (k < length (nodes s))%nat as Hk.
  { unfold inode_at in Hi. destruct (nodes s !! k) eqn:El; [|done]. by eapply lookup_lt_Some. }
  eapply queues_set; [exact Hq|done|]. intros j. rewrite !queue_of_inode, inode_at_set by done.
  destruct (decide (j = k)) as [->|]; [|done]. by rewrite Hi.
Qed.

Lemma get_inode_Ret s k i : inode_at s k = Some i -> get_inode k s = Ret i s.
Proof.
  unfold inode_at, get_inode, get_node. destruct (nodes s !! k) as [n|] eqn:E; [|done].
  intros [= <-]. mstep. mstep. by rewrite E.
Qed.

Lemma inode_at_lt s k i : inode_at s k = Some i -> (k < length (nodes s))%nat.
Proof. unfold inode_at. destruct (nodes s !! k) eqn:E; [|done]. intros _. by eapply lookup_lt_Some. Qed.

Lemma put_inode_Ret s k i : put_inode_at k i s = Ret tt (inode_set k i s).
Proof. done. Qed.

Lemma inode_lock_Ret s k i :
  inode_at s k = Some i -> iNodeMutex i = false ->
  inode_lock k s = Ret tt (inode_set k (ic_set_mutex true i) s).
Proof. intros Hi Hm. unfold inode_lock. rewrite (bind_Ret _ _ _ _ _ (get_inode_Ret _ _ _ Hi)), Hm. done. Qed.

(** A thread that locks an inode it has locked does not go on. *)
Lemma inode_lock_twice s k i :
  inode_at s k = Some i -> iNodeMutex i = true -> inode_lock k s = Hang.
Proof. intros Hi Hm. unfold inode_lock. by rewrite (bind_Ret _ _ _ _ _ (get_inode_Ret _ _ _ Hi)), Hm. Qed.

(** * The invariant of the cache between two calls *)

Definition clean (i : inCoreiNode) : Prop := inode_changed i = false /\ file_data_changed i = false.

#[export] Instance clean_dec i : Decision (clean i).
Proof. unfold clean. apply _. Defined.

Definition hashed (Q : Z -> list nat) (k : nat) : Prop := exists h, k ∈ Q h.

(** Node [k] caches inode number [n], with contents [i]. *)
Definition caches (s : istate) (Q : Z -> list nat) (n : Z) (k : nat) (i : inCoreiNode) : Prop :=
  inode_at s k = Some i /\ hashed Q k /\ ic_inode_number i = n.

(** A cached inode agrees with the disk once its changes have been written. *)
Definition coherent (s : istate) (i : inCoreiNode) : Prop :=
  clean i -> ic_linksCount i <> 0 ->
  disk_inode (ds s) (ic_inode_number i) = Some (getDiskINodeData i).

Record cache_ok (s : istate) (F : list nat) (Q : Z -> list nat) : Prop := {
  c_free : freelist_ok s F;
  c_hash : hash_ok s Q;
  c_quiet : forall k i, inode_at s k = Some i -> iNodeMutex i = false;
  c_refs : forall k i, inode_at s k = Some i ->
    is_u64 (reference_count i) /\ (k ∈ F <-> reference_count i = 0);
  c_live : forall k i, inode_at s k = Some i -> reference_count i <> 0 -> hashed Q k;
  c_hashed : forall n k i, caches s Q n k i ->
    inode_num n /\ ic_device_number i = 0 /\ wf_iNode (getDiskINodeData i) /\
    (reference_count i = 0 -> clean i) /\ coherent s i;
  c_uniq : forall n k k' i i', caches s Q n k i -> caches s Q n k' i' -> k = k';
  c_disk : ok (ds s);
  c_area : inode_area (ds s);
  c_table : forall n d, inode_num n -> disk_inode (ds s) n = Some d ->
    inode_number d = n /\ device_number d = 0;
  c_nodes : forall k, is_Some (inode_at s k) <-> (k < INODE_BUFFER_SIZE)%nat
}.

(** The contents of inode [n] as the cache and the disk give them together. *)
Definition inode_view (s : istate) (Q : Z -> list nat) (n : Z) (d : iNode) : Prop :=
  (exists k i, caches s Q n k i /\ ic_linksCount i <> 0 /\ d = getDiskINodeData i) \/
  ((forall k i, caches s Q n k i -> ic_linksCount i = 0) /\ disk_inode (ds s) n = Some d).

Lemma inode_view_unique s F Q n d d' :
  cache_ok s F Q -> inode_view s Q n d -> inode_view s Q n d' -> d = d'.
Proof.
  intros Hc [(k & i & Hk & Hl & ->)|[Hl Hd]] [(k' & i' & Hk' & Hl' & ->)|[Hl' Hd']].
  - pose proof (c_uniq _ _ _ Hc _ _ _ _ _ Hk Hk') as ->. destruct Hk as [E _], Hk' as [E' _]. congruence.
  - by apply Hl' in Hk.
  - by apply Hl in Hk'.
  - congruence.
Qed.

(** ** Node [k] takes a reference to inode [n] *)

(** What [iget] does to the cache, whether [k] already cached [n] or not. *)
Record acquires (s s' : istate) (F F' : list nat) (Q Q' : Z -> list nat) (n : Z) (k : nat)
    (i0 i : inCoreiNode) : Prop := {
  a_ds : ds s' = ds s;
  a_old : inode_at s k = Some i0;
  a_at : forall j, inode_at s' j = if decide (j = k) then Some i else inode_at s j;
  a_free : freelist_ok s' F';
  a_hash : hash_ok s' Q';
  a_freeset : forall j, j ∈ F' <-> j ∈ F /\ j <> k;
  a_hashset : forall j, hashed Q' j <-> j = k \/ hashed Q j;
  a_mutex : iNodeMutex i = false;
  a_refs : reference_count i = reference_count i0 + 1 /\ is_u64 (reference_count i);
  a_number : ic_inode_number i = n /\ ic_device_number i = 0 /\ inode_num n;
  a_wf : wf_iNode (getDiskINodeData i);
  a_coherent : coherent s i;
  a_other : forall j j', caches s Q n j j' -> j = k;
  a_evict : caches s Q n k i0 \/ reference_count i0 = 0;
  a_view : inode_view s Q n (getDiskINodeData i)
}.

Lemma acquires_caches s s' F F' Q Q' n k i0 i m j i' :
  acquires s s' F F' Q Q' n k i0 i ->
  caches s' Q' m j i' <-> (j = k /\ i' = i /\ m = n) \/ (j <> k /\ caches s Q m j i').
Proof.
  intros Ha. destruct (a_number _ _ _ _ _ _ _ _ _ _ Ha) as (Hn & _).
  unfold caches. rewrite (a_at _ _ _ _ _ _ _ _ _ _ Ha), (a_hashset _ _ _ _ _ _ _ _ _ _ Ha).
  destruct (decide (j = k)) as [->|]; naive_solver.
Qed.

Lemma acquires_ok s s' F F' Q Q' n k i0 i :
  cache_ok s F Q -> acquires s s' F F' Q Q' n k i0 i -> cache_ok s' F' Q'.
Proof.
  intros Hc Ha. pose proof (fun m j i' => acquires_caches _ _ _ _ _ _ _ _ _ _ m j i' Ha) as Hcs.
  destruct Ha. destruct a_refs0 as [Hr Hr64]. pose proof (c_refs _ _ _ Hc _ _ a_old0) as [[Hr0 _] _].
  split; try done.
  - intros j i'. rewrite a_at0. destruct (decide (j = k)); [naive_solver|apply (c_quiet _ _ _ Hc)].
  - intros j i'. rewrite a_at0, a_freeset0. destruct (decide (j = k)) as [->|Hne].
    + intros [= <-]. split; [done|]. split; [naive_solver|lia].
    + intros Hj. destruct (c_refs _ _ _ Hc _ _ Hj). naive_solver.
  - intros j i'. rewrite a_at0, a_hashset0. destruct (decide (j = k)) as [->|Hne]; [naive_solver|].
    intros Hj Hi. right. by eapply (c_live _ _ _ Hc).
  - intros m j i' Hj. apply Hcs in Hj as [(-> & -> & ->)|[Hne Hj]].
    + destruct a_number0 as (Hn & Hd & Hnum). split_and!; [done..|lia|].
      unfold coherent in *. by rewrite a_ds0.
    + destruct (c_hashed _ _ _ Hc _ _ _ Hj) as (?&?&?&?&?). unfold coherent in *. rewrite a_ds0. done.
  - intros m j j' i1 i2 H1 H2. apply Hcs in H1 as [(-> & -> & ->)|[Hne1 H1]];
      apply Hcs in H2 as [(-> & -> & E)|[Hne2 H2]]; try done.
    + by apply a_other0 in H2.
    + subst m. by apply a_other0 in H1.
    + by eapply (c_uniq _ _ _ Hc).
  - rewrite a_ds0. apply (c_disk _ _ _ Hc).
  - rewrite a_ds0. apply (c_area _ _ _ Hc).
  - rewrite a_ds0. apply (c_table _ _ _ Hc).
  - intros j. rewrite a_at0, <- (c_nodes _ _ _ Hc). by destruct (decide (j = k)) as [->|]; rewrite ?a_old0.
Qed.

(** The cache stays transparent. *)
Lemma acquires_view s s' F F' Q Q' n k i0 i m d :
  cache_ok s F Q -> acquires s s' F F' Q Q' n k i0 i -> inode_view s Q m d -> inode_view s' Q' m d.
Proof.
  intros Hc Ha Hv. pose proof (acquires_ok _ _ _ _ _ _ _ _ _ _ Hc Ha) as Hc'.
  pose proof (fun m j i' => acquires_caches _ _ _ _ _ _ _ _ _ _ m j i' Ha) as Hcs.
  destruct (decide (m = n)) as [->|Hmn].
  - pose proof (inode_view_unique _ _ _ _ _ _ Hc Hv (a_view _ _ _ _ _ _ _ _ _ _ Ha)) as ->.
    destruct (decide (ic_linksCount i = 0)) as [Hl|Hl].
    + right. split.
      * intros j i' Hj. apply Hcs in Hj as [(-> & -> & _)|[Hne Hj]]; [done|].
        by apply (a_other _ _ _ _ _ _ _ _ _ _ Ha) in Hj.
      * rewrite (a_ds _ _ _ _ _ _ _ _ _ _ Ha).
        destruct (a_view _ _ _ _ _ _ _ _ _ _ Ha) as [(k' & i' & Hk' & Hl' & E)|[_ Hd]]; [|done].
        exfalso. apply Hl'. change (linksCount (getDiskINodeData i') = 0). by rewrite <- E.
    + left. exists k, i. split_and!; [|done..]. apply Hcs. by left.
  - destruct Hv as [(j & i' & Hj & Hl & ->)|[Hl Hd]].
    + destruct (decide (j = k)) as [->|Hne].
      * destruct (a_evict _ _ _ _ _ _ _ _ _ _ Ha) as [(_ & _ & E)|Hr].
        { destruct Hj as (Hj & _ & E'). rewrite (a_old _ _ _ _ _ _ _ _ _ _ Ha) in Hj. naive_solver. }
        right. split.
        -- intros j i1 Hj1. apply Hcs in Hj1 as [(_ & _ & E)|[Hne Hj1]]; [done|].
           exfalso. by pose proof (c_uniq _ _ _ Hc _ _ _ _ _ Hj Hj1).
        -- destruct (c_hashed _ _ _ Hc _ _ _ Hj) as (_ & _ & _ & Hcl & Hco).
           destruct Hj as (Hj & _ & E). rewrite (a_old _ _ _ _ _ _ _ _ _ _ Ha) in Hj.
           injection Hj as <-. rewrite (a_ds _ _ _ _ _ _ _ _ _ _ Ha), <- E. by apply Hco; [apply Hcl|].
      * left. exists j, i'. split_and!; [|done..]. apply Hcs. by right.
    + right. rewrite (a_ds _ _ _ _ _ _ _ _ _ _ Ha). split; [|done].
      intros j i' Hj. apply Hcs in Hj as [(_ & _ & E)|[Hne Hj]]; [done|]. by eapply Hl.
Qed.

(** ** [iget] *)

Lemma getDiskInode_Ret s n buf :
  ok s -> inode_area s -> inode_num n ->
  exists d, wf_iNode d /\ disk_inode s n = Some d /\ getDiskInode n buf s = Ret (0, d) s.
Proof. apply access_read. Qed.

Lemma with_fetch s F Q n k i :
  cache_ok s F Q -> inode_num n -> exists d,
  disk_inode (ds s) n = Some d /\ wf_iNode d /\ inode_number d = n /\ device_number d = 0 /\
  forall s', ds s' = ds s -> inode_at s' k = Some i ->
    with_inode k (fetchInodeFromDisk n) s' = Ret tt (inode_set k (insertDiskInodeData d i) s').
Proof.
  intros Hc Hn. destruct (getDiskInode_Ret (ds s) n junk_iNode (c_disk _ _ _ Hc) (c_area _ _ _ Hc) Hn)
    as (d & Hd & Hdn & Hrun).
  destruct (c_table _ _ _ Hc _ _ Hn Hdn) as [E1 E2]. exists d. split_and!; [done..|].
  intros s' Es Hi. unfold with_inode. rewrite (bind_Ret _ _ _ _ _ (get_inode_Ret _ _ _ Hi)).
  erewrite bind_Ret; [done|]. unfold on_disk, zoom. rewrite Es.
  unfold fetchInodeFromDisk. rewrite (bind_Ret _ _ _ _ _ Hrun). cbn.
  rewrite <- Es. by destruct s'.
Qed.

Lemma updateAndGet_Ret s k i :
  inode_at s k = Some i ->
  updateAndGetINode k s = Ret k (inode_set k (ic_set_mutex false (ic_set_refs (u64 (reference_count i + 1)) i))
    (inode_set k (ic_set_refs (u64 (reference_count i + 1)) i) s)).
Proof.
  intros Hi. pose proof (inode_at_lt _ _ _ Hi) as Hk. unfold updateAndGetINode.
  rewrite (bind_Ret _ _ _ _ _ (get_inode_Ret _ _ _ Hi)), (bind_Ret _ _ _ _ _ (put_inode_Ret _ _ _)).
  set (s1 := inode_set k _ s). assert (inode_at s1 k = Some (ic_set_refs (u64 (reference_count i + 1)) i)) as H1.
  { unfold s1. rewrite inode_at_set by done. by rewrite decide_True. }
  unfold inode_unlock. rewrite bind_assoc, (bind_Ret _ _ _ _ _ (get_inode_Ret _ _ _ H1)). done.
Qed.

Lemma wf_data_ext i i' :
  getDiskINodeData i' = getDiskINodeData i -> wf_iNode (getDiskINodeData i) -> wf_iNode (getDiskINodeData i').
Proof. by intros ->. Qed.

Lemma cache_uniq_hashLookup s F Q n :
  cache_ok s F Q -> inode_num n ->
  (exists k i, caches s Q n k i /\ hashLookup n 0 s = Ret (Some k) s) \/
  ((forall k i, ~ caches s Q n k i) /\ hashLookup n 0 s = Ret None s).
Proof.
  intros Hc Hn. pose proof (c_hash _ _ _ Hc) as Hh.
  destruct (hashLookup_ok s Q n 0 Hh) as ([k|] & Hr & Hpost).
  - left. destruct Hpost as (Hin & nd & Hnd & E). exists k, (inode nd). split; [|done].
    split_and!; [by unfold inode_at; rewrite Hnd|by eexists|done].
  - right. split; [|done]. intros k i Hk. pose proof Hk as (Hi & [h Hin] & E).
    unfold inode_at in Hi. destruct (nodes s !! k) as [nd|] eqn:Hnd; [|done]. injection Hi as <-.
    destruct (c_hashed _ _ _ Hc _ _ _ Hk) as (_ & Hd & _).
    pose proof Hh as (_ & Hm & _). pose proof (Hm _ _ Hin) as (_ & _ & Eh).
    unfold queue_of in Eh. rewrite Hnd in Eh. unfold node_hash in Eh. rewrite E, Hd in Eh.
    eapply (Hpost k); [by rewrite Eh|exact Hnd|exact E].
Qed.

(** A node with references is on no free list, and one without is taken off. *)
Lemma take_off s F k c :
  freelist_ok s F -> (c = 0 <-> k ∈ F) ->
  wp (if c =? 0 then freeListRemove k else ret tt) s (fun _ s2 =>
    freelist_ok s2 (filter (fun j => j <> k) F) /\ free_frame s s2).
Proof.
  intros Hf Hfree. destruct (Z.eqb_spec c 0) as [E|E].
  - apply Hfree in E. apply list_elem_of_split in E as (F1 & F2 & E). rewrite E in *.
    rewrite filter_middle; [by apply freeListRemove_ok|]. by destruct Hf as (_ & ? & _).
  - apply wp_ret. rewrite filter_notin by (rewrite <- Hfree; done). done.
Qed.

(** [iget] reads an inode without links again. *)
Lemma hit_refreshes s s2 F Q n k i :
  let il := ic_set_mutex true i in
  cache_ok s F Q -> caches s Q n k i -> inode_at s2 k = Some il -> ds s2 = ds s ->
  exists i3, ic_inode_number i3 = n /\ ic_device_number i3 = 0 /\ wf_iNode (getDiskINodeData i3) /\
    reference_count i3 = reference_count i /\ coherent s i3 /\ inode_view s Q n (getDiskINodeData i3) /\
    (if ic_linksCount il =? 0 then with_inode k (fetchInodeFromDisk n) else ret tt) s2 =
      Ret tt (if ic_linksCount il =? 0 then inode_set k i3 s2 else s2) /\
    (ic_linksCount il <> 0 -> i3 = il).
Proof.
  intros il Hc Hk Hi2 Ed2. pose proof Hk as (Hi & Hin & En).
  destruct (c_hashed _ _ _ Hc _ _ _ Hk) as (Hnum & Hdev & Hwf & _ & Hco).
  change (ic_linksCount il) with (ic_linksCount i). destruct (Z.eqb_spec (ic_linksCount i) 0) as [E|E].
  - destruct (with_fetch s F Q n k il Hc Hnum) as (d & Hd & Hdwf & Hdn & Hdd & Hrun).
    assert (getDiskINodeData (insertDiskInodeData d il) = d) as Erd by by destruct d.
    exists (insertDiskInodeData d il). split_and!; [exact Hdn|exact Hdd|by rewrite Erd|done|..].
    + intros _ _. rewrite Erd. cbn. by rewrite Hdn.
    + right. split; [|by rewrite Erd].
      intros k' i' Hk'. pose proof (c_uniq _ _ _ Hc _ _ _ _ _ Hk Hk') as <-.
      destruct Hk' as (Hi' & _). congruence.
    + by apply Hrun.
    + intros E'. by destruct (E' E).
  - exists il. split_and!; try done. left. exists k, i. done.
Qed.

(** A hit. *)
Lemma iget_hit s F Q n k i :
  cache_ok s F Q -> caches s Q n k i -> reference_count i + 1 < 2 ^ 64 ->
  hashLookup n 0 s = Ret (Some k) s ->
  wp (iget n 0) s (fun r s' => r = Some k /\ exists i',
    acquires s s' F (filter (fun j => j <> k) F) Q Q n k i i').
Proof.
  intros Hc Hk Hmax Hl. pose proof Hk as (Hi & Hin & En).
  pose proof (inode_at_lt _ _ _ Hi) as Hlt.
  destruct (c_hashed _ _ _ Hc _ _ _ Hk) as (Hnum & Hdev & Hwf & _ & Hco).
  pose proof (c_quiet _ _ _ Hc _ _ Hi) as Hq. destruct (c_refs _ _ _ Hc _ _ Hi) as [Hr64 Hfree].
  unfold iget. apply wp_bind. eapply wp_Ret; [exact Hl|].
  apply wp_bind. eapply wp_Ret; [by apply inode_lock_Ret|].
  set (il := ic_set_mutex true i). set (s1 := inode_set k il s).
  assert (inode_at s1 k = Some il) as Hi1 by (unfold s1; rewrite inode_at_set by done; by rewrite decide_True).
  assert (hash_ok s1 Q) as Hh1 by (eapply hash_ok_set; [apply (c_hash _ _ _ Hc)|exact Hi|reflexivity]).
  apply wp_bind. eapply wp_Ret; [by apply get_inode_Ret|].
  pose proof (freelist_ok_set k il s F (c_free _ _ _ Hc)) as Hf1. fold s1 in Hf1.
  assert (reference_count i = 0 <-> k ∈ F) as Hfree' by (by rewrite Hfree).
  apply wp_bind. eapply wp_mono; [exact (take_off s1 F k _ Hf1 Hfree')|]. intros [] s2 [Hf2 Hfr2].
  assert (inode_at s2 k = Some il) as Hi2 by by rewrite (inode_at_free _ _ _ Hfr2).
  assert (ds s2 = ds s) as Ed2 by (destruct Hfr2 as (-> & _); done).
  pose proof (hash_ok_free _ _ _ Hfr2 Hh1) as Hh2.
  apply wp_bind. eapply wp_Ret; [by apply get_inode_Ret|].
  destruct (hit_refreshes s s2 F Q n k i Hc Hk Hi2 Ed2) as (i3 & E3 & Ed3 & Hwf3 & Er3 & Hco3 & Hv3 & Hrun & Eil).
  fold il in Hrun, Eil.
  apply wp_bind. eapply wp_Ret; [exact Hrun|].
  set (s3 := if _ =? 0 then _ else _).
  assert (inode_at s3 k = Some i3 /\ (forall j, j <> k -> inode_at s3 j = inode_at s j) /\
    ds s3 = ds s /\ freelist_ok s3 (filter (fun j => j <> k) F) /\ hash_ok s3 Q)
    as (Hi3 & Ho3 & Eds3 & Hf3 & Hh3).
  { assert (forall j, j <> k -> inode_at s2 j = inode_at s j) as Ho2.
    { intros j Hj. rewrite (inode_at_free _ _ _ Hfr2). unfold s1. rewrite inode_at_set by done.
      by rewrite decide_False. }
    unfold s3. destruct (Z.eqb_spec (ic_linksCount il) 0) as [E|E].
    - pose proof (inode_at_lt _ _ _ Hi2) as Hlt2. split_and!.
      + rewrite inode_at_set by done. by rewrite decide_True.
      + intros j Hj. rewrite inode_at_set by done. rewrite decide_False by done. by apply Ho2.
      + done.
      + by apply freelist_ok_set.
      + eapply hash_ok_set; [done..|]. unfold inode_hash. cbn. by rewrite E3, Ed3, En, Hdev.
    - rewrite (Eil E). split_and!; try done. }
  clearbody s3. apply wp_bind. eapply wp_Ret; [by apply updateAndGet_Ret|]. apply wp_ret.
  split; [done|]. rewrite Er3, u64_id by (unfold is_u64 in *; lia).
  pose proof (inode_at_lt _ _ _ Hi3) as Hlt3.
  set (i4 := ic_set_refs _ i3). set (i5 := ic_set_mutex false i4).
  exists i5. split; try done.
  - intros j. rewrite inode_at_set by (cbn [inode_set nodes set_nodes]; by rewrite length_alter).
    rewrite inode_at_set by done. destruct (decide (j = k)); [done|]. by apply Ho3.
  - by do 2 apply freelist_ok_set.
  - eapply hash_ok_set; [eapply hash_ok_set; [exact Hh3|exact Hi3|done]| |].
    + rewrite inode_at_set by done. by rewrite decide_True.
    + done.
  - intros j. rewrite list_elem_of_filter. tauto.
  - intros j. split; [by right|]. intros [->|Hj]; done.
  - split; [done|]. cbn. unfold is_u64 in *. lia.
  - intros j j' Hj. symmetry. by eapply (c_uniq _ _ _ Hc).
  - by left.
Qed.


Lemma updateInHashQ_ok s Q k n d :
  hash_ok s Q -> (k < length (nodes s))%nat ->
  wp (updateInHashQ k n d) s (fun _ s' =>
    queues (nodes s') (hashQ s') (fun j => if decide (j = k) then hash_of n d else queue_of s j)
      (push k (hash_of n d) (rm k Q)) /\ hash_frame s s').
Proof.
  intros Hh Hk. unfold updateInHashQ. apply wp_bind.
  eapply wp_mono; [by apply (removeFromHashQ_ok s Q k)|]. intros [] s1 [Hq1 Hfr1].
  assert (length (nodes s1) = length (nodes s)) as El by (destruct Hfr1 as (_ & _ & E); by apply fcore_length).
  eapply wp_mono; [apply (insertInHash_ok s1 _ (rm k Q) k n d Hq1); [|lia]|].
  { intros h Hin. by apply elem_of_rm in Hin as [_ Hin]. }
  intros [] s2 [Hq2 Hfr2]. split; [done|]. destruct Hfr1 as (E1 & E2 & E3), Hfr2 as (G1 & G2 & G3).
  split_and!; by etrans.
Qed.

Lemma hashed_push k h Q j : hashed (push k h (rm k Q)) j <-> j = k \/ hashed Q j.
Proof.
  unfold hashed, push. split.
  - intros [h' Hh]. destruct (decide (h' = h)) as [->|].
    + apply elem_of_cons in Hh as [->|Hh]; [by left|]. apply elem_of_rm in Hh as [Hh _]. right. by eexists.
    + apply elem_of_rm in Hh as [Hh _]. right. by eexists.
  - intros [->|[h' Hh]].
    + exists h. rewrite decide_True by done. by left.
    + destruct (decide (j = k)) as [->|Hne].
      * exists h. rewrite decide_True by done. by left.
      * exists h'. destruct (decide (h' = h)) as [->|]; [right|]; by apply elem_of_rm.
Qed.

(** A miss: the head of the free list is given to inode [n]. *)
Lemma iget_miss s F Q n k T :
  cache_ok s F Q -> inode_num n -> (forall j i, ~ caches s Q n j i) -> F = k :: T ->
  hashLookup n 0 s = Ret None s ->
  wp (iget n 0) s (fun r s' => r = Some k /\ exists i i',
    acquires s s' F T Q (push k (hash_of n 0) (rm k Q)) n k i i' /\ reference_count i' = 1).
Proof.
  intros Hc Hn Hno EF Hl. pose proof (c_free _ _ _ Hc) as Hf. rewrite EF in Hf.
  pose proof Hf as (_ & Hnd & Hv & _). apply Forall_cons in Hv as [Hk _].
  apply NoDup_cons in Hnd as [HkT _].
  destruct (lookup_lt_is_Some_2 _ _ Hk) as [nd Hlk].
  assert (inode_at s k = Some (inode nd)) as Hi by (unfold inode_at; by rewrite Hlk).
  set (i := inode nd) in *. destruct (c_refs _ _ _ Hc _ _ Hi) as [Hr64 Hr0].
  assert (reference_count i = 0) as Hrefs by (apply Hr0; rewrite EF; by left).
  pose proof (c_quiet _ _ _ Hc _ _ Hi) as Hq.
  unfold iget. apply wp_bind. eapply wp_Ret; [exact Hl|].
  apply wp_bind. eapply wp_mono; [by apply (popFreeList_ok s k T)|].
  intros r s1 (-> & Hf1 & Hfr1). pose proof (hash_ok_free _ _ _ Hfr1 (c_hash _ _ _ Hc)) as Hh1.
  assert (inode_at s1 k = Some i) as Hi1 by by rewrite (inode_at_free _ _ _ Hfr1).
  pose proof (inode_at_lt _ _ _ Hi1) as Hk1.
  apply wp_bind. eapply wp_Ret; [by apply inode_lock_Ret|].
  set (il := ic_set_mutex true i). set (s2 := inode_set k il s1).
  assert (hash_ok s2 Q) as Hh2 by (eapply hash_ok_set; [exact Hh1|exact Hi1|done]).
  pose proof (freelist_ok_set k il s1 T Hf1) as Hf2. fold s2 in Hf2.
  assert (length (nodes s2) = length (nodes s1)) as El2 by (cbn [s2 inode_set nodes set_nodes]; by rewrite length_alter).
  apply wp_bind. eapply wp_mono; [apply (updateInHashQ_ok s2 Q k n 0 Hh2); lia|].
  intros [] s4 [Hq4 Hfr4]. pose proof (freelist_ok_hash _ _ _ Hfr4 Hf2) as Hf4.
  assert (forall j, inode_at s4 j = if decide (j = k) then Some il else inode_at s j) as Hat4.
  { intros j. rewrite (inode_at_hash _ _ _ Hfr4).
    unfold s2. rewrite inode_at_set by done. by rewrite (inode_at_free _ _ _ Hfr1). }
  assert (inode_at s4 k = Some il) as Hi4 by by rewrite Hat4, decide_True.
  assert (ds s4 = ds s) as Ed4.
  { destruct Hfr4 as (-> & _), Hfr1 as (E & _). done. }
  destruct (with_fetch s F Q n k il Hc Hn) as (d & Hd & Hdwf & Hdn & Hdd & Hrun).
  apply wp_bind. eapply wp_Ret; [by apply Hrun|].
  set (i5 := insertDiskInodeData d il). set (s5 := inode_set k i5 s4).
  assert (getDiskINodeData i5 = d) as Erd by by destruct d.
  pose proof (inode_at_lt _ _ _ Hi4) as Hk4.
  assert (hash_ok s5 (push k (hash_of n 0) (rm k Q))) as Hh5.
  { eapply queues_set; [exact Hq4|done|]. intros j. rewrite queue_of_inode, inode_at_set by done.
    destruct (decide (j = k)) as [->|Hne].
    - unfold inode_hash. cbn. by rewrite Hdn, Hdd.
    - rewrite Hat4, decide_False, queue_of_inode by done. unfold s2. rewrite inode_at_set, decide_False by done.
      by rewrite (inode_at_free _ _ _ Hfr1). }
  assert (inode_at s5 k = Some i5) as Hi5 by (unfold s5; rewrite inode_at_set by done; by rewrite decide_True).
  apply wp_bind. eapply wp_Ret; [by apply updateAndGet_Ret|]. apply wp_ret. split; [done|].
  change (reference_count i5) with (reference_count i). rewrite Hrefs.
  set (i6 := ic_set_refs _ i5). set (i7 := ic_set_mutex false i6). exists i, i7.
  assert (length (nodes s5) = length (nodes s4)) as El5 by (cbn [s5 inode_set nodes set_nodes]; by rewrite length_alter).
  split; [|done]. split; try done.
  - intros j. rewrite inode_at_set by (cbn [inode_set nodes set_nodes]; rewrite length_alter; lia).
    rewrite inode_at_set by lia. destruct (decide (j = k)) as [|Hne]; [done|]. unfold s5.
    rewrite inode_at_set, decide_False, Hat4, decide_False by done. done.
  - by do 3 apply freelist_ok_set.
  - eapply hash_ok_set; [eapply hash_ok_set; [exact Hh5|exact Hi5|done]| |].
    + rewrite inode_at_set by lia. by rewrite decide_True.
    + done.
  - intros j. rewrite EF. set_solver.
  - intros j. apply hashed_push.
  - by rewrite Hrefs.
  - intros _ _. change (getDiskINodeData i7) with (getDiskINodeData i5). rewrite Erd. cbn. by rewrite Hdn.
  - intros j j' Hj. by apply Hno in Hj.
  - by right.
  - change (getDiskINodeData i7) with (getDiskINodeData i5). rewrite Erd. right.
    split; [|done]. intros j j' Hj. by apply Hno in Hj.
Qed.

(** No free node is left. *)
Lemma iget_none s Q n :
  cache_ok s [] Q -> hashLookup n 0 s = Ret None s -> iget n 0 s = Ret None s.
Proof.
  intros Hc Hl. unfold iget. rewrite (bind_Ret _ _ _ _ _ Hl).
  rewrite (bind_Ret _ _ _ _ _ (popFreeList_empty s (c_free _ _ _ Hc))). done.
Qed.

(** What [iget] returns on a cache in a valid state. *)
Lemma iget_ok s F Q n :
  cache_ok s F Q -> inode_num n ->
  (forall k i, caches s Q n k i -> reference_count i + 1 < 2 ^ 64) ->
  wp (iget n 0) s (fun r s' =>
    match r with
    | None => F = [] /\ s' = s /\ forall k i, ~ caches s Q n k i
    | Some k => exists F' Q' i i', acquires s s' F F' Q Q' n k i i'
    end).
Proof.
  intros Hc Hn Hmax. destruct (cache_uniq_hashLookup _ _ _ _ Hc Hn) as [(k & i & Hk & Hl)|[Hno Hl]].
  - eapply wp_mono; [eapply iget_hit; eauto|]. intros r s' [-> [i' Ha]]. eauto 10.
  - destruct F as [|k T].
    + eapply wp_Ret; [by apply (iget_none s Q)|]. done.
    + eapply wp_mono; [by eapply iget_miss|]. intros r s' (-> & i & i' & Ha & _). eauto 10.
Qed.


(** ** Node [k] changes the contents of inode [n], and the disk only there *)

Record updates (s s' : istate) (F F' : list nat) (Q : Z -> list nat) (n : Z) (k : nat)
    (i : inCoreiNode) : Prop := {
  u_at : forall j, inode_at s' j = if decide (j = k) then Some i else inode_at s j;
  u_free : freelist_ok s' F';
  u_hash : hash_ok s' Q;
  u_freeset : forall j, j <> k -> j ∈ F' <-> j ∈ F;
  u_refs : is_u64 (reference_count i) /\ (k ∈ F' <-> reference_count i = 0);
  u_mutex : iNodeMutex i = false;
  u_number : ic_inode_number i = n /\ ic_device_number i = 0;
  u_wf : wf_iNode (getDiskINodeData i);
  u_clean : reference_count i = 0 -> clean i;
  u_coherent : coherent s' i;
  u_ok : ok (ds s');
  u_area : inode_area (ds s');
  u_disk : forall m, inode_num m -> m <> n -> disk_inode (ds s') m = disk_inode (ds s) m;
  u_table : forall d, disk_inode (ds s') n = Some d -> inode_number d = n /\ device_number d = 0
}.

Lemma updates_caches s s' F F' Q n k i i0 m j i' :
  updates s s' F F' Q n k i -> caches s Q n k i0 ->
  caches s' Q m j i' <-> (j = k /\ i' = i /\ m = n) \/ (j <> k /\ caches s Q m j i').
Proof.
  intros Hu (_ & Hh & _). destruct (u_number _ _ _ _ _ _ _ _ Hu) as (Hn & _).
  unfold caches. rewrite (u_at _ _ _ _ _ _ _ _ Hu).
  destruct (decide (j = k)) as [->|]; naive_solver.
Qed.

Lemma updates_ok s s' F F' Q n k i i0 :
  cache_ok s F Q -> caches s Q n k i0 -> updates s s' F F' Q n k i -> cache_ok s' F' Q.
Proof.
  intros Hc Hk Hu. pose proof (fun m j i' => updates_caches _ _ _ _ _ _ _ _ _ m j i' Hu Hk) as Hcs.
  destruct (c_hashed _ _ _ Hc _ _ _ Hk) as (Hnum & _). destruct Hu. split; try done.
  - intros j i'. rewrite u_at0. destruct (decide (j = k)); [naive_solver|apply (c_quiet _ _ _ Hc)].
  - intros j i'. rewrite u_at0. destruct (decide (j = k)) as [->|Hne]; [naive_solver|].
    intros Hj. destruct (c_refs _ _ _ Hc _ _ Hj). rewrite u_freeset0; done.
  - intros j i'. rewrite u_at0. destruct (decide (j = k)) as [->|Hne]; [by destruct Hk as (_ & ? & _)|].
    apply (c_live _ _ _ Hc).
  - intros m j i' Hj. apply Hcs in Hj as [(-> & -> & ->)|[Hne Hj]].
    + destruct u_number0. done.
    + destruct (c_hashed _ _ _ Hc _ _ _ Hj) as (Hm&Hdev&Hwf&Hcl&Hco). split_and!; [done..|].
      intros H1 H2. destruct Hj as (Hj1 & Hj2 & Hj3). rewrite u_disk0; [by apply Hco|by rewrite Hj3|].
      intros E. apply Hne. eapply (c_uniq _ _ _ Hc n); [|exact Hk]. by rewrite <- E.
  - intros m j j' i1 i2 H1 H2. apply Hcs in H1 as [(-> & -> & ->)|[Hne1 H1]];
      apply Hcs in H2 as [(-> & -> & E)|[Hne2 H2]]; try done.
    + by eapply (c_uniq _ _ _ Hc).
    + subst m. by eapply (c_uniq _ _ _ Hc).
    + by eapply (c_uniq _ _ _ Hc).
  - intros m d Hm Hd. destruct (decide (m = n)) as [->|Hne]; [by apply u_table0|].
    rewrite u_disk0 in Hd by done. by apply (c_table _ _ _ Hc).
  - intros j. rewrite u_at0, <- (c_nodes _ _ _ Hc). destruct Hk as (Hk & _).
    by destruct (decide (j = k)) as [->|]; rewrite ?Hk.
Qed.

(** If the data of the inode stay, and it is still linked, nothing changes for
    a reader. *)
Lemma updates_view s s' F F' Q n k i i0 m d :
  cache_ok s F Q -> caches s Q n k i0 -> updates s s' F F' Q n k i ->
  getDiskINodeData i = getDiskINodeData i0 -> ic_linksCount i0 <> 0 -> inode_num m ->
  inode_view s Q m d -> inode_view s' Q m d.
Proof.
  intros Hc Hk Hu Hd Hl Hm Hv. pose proof (fun m j i' => updates_caches _ _ _ _ _ _ _ _ _ m j i' Hu Hk) as Hcs.
  destruct Hv as [(j & i' & Hj & Hl' & ->)|[Hl' Hd']].
  - destruct (decide (j = k)) as [->|Hne].
    + left. exists k, i. destruct Hj as (Hj & _ & E), Hk as (Hk & _ & E0).
      rewrite Hk in Hj. injection Hj as <-. split_and!.
      * apply Hcs. left. split_and!; congruence.
      * change (linksCount (getDiskINodeData i) <> 0). by rewrite Hd.
      * done.
    + left. exists j, i'. split_and!; [|done..]. apply Hcs. by right.
  - assert (m <> n) as Hne by (intros ->; by apply Hl' in Hk).
    right. rewrite (u_disk _ _ _ _ _ _ _ _ Hu) by done. split; [|done].
    intros j i' Hj. apply Hcs in Hj as [(_ & _ & E)|[_ Hj]]; [done|]. by eapply Hl'.
Qed.

(** ** [iput] *)

Lemma lookup_cached s s' F Q n k i :
  cache_ok s F Q -> caches s Q n k i -> hash_ok s' Q ->
  (forall j, ic_inode_number <$> inode_at s' j = ic_inode_number <$> inode_at s j) ->
  hashLookup n 0 s' = Ret (Some k) s'.
Proof.
  intros Hc Hk Hh Hat. assert (hashLookup n 0 s = Ret (Some k) s) as Hl.
  { destruct (c_hashed _ _ _ Hc _ _ _ Hk) as (Hn & _).
    destruct (cache_uniq_hashLookup _ _ _ _ Hc Hn) as [(k' & i' & Hk' & Hl)|[Hno _]]; [|by apply Hno in Hk].
    by rewrite (c_uniq _ _ _ Hc _ _ _ _ _ Hk Hk'). }
  assert (k ∈ Q (hash_of n 0)) as Hin.
  { destruct (hashLookup_ok s Q n 0 (c_hash _ _ _ Hc)) as (r & Hr & Hp). rewrite Hl in Hr.
    injection Hr as <-. by destruct Hp. }
  assert (forall j nd, nodes s' !! j = Some nd -> exists j0, inode_at s j = Some j0 /\
    ic_inode_number j0 = ic_inode_number (inode nd)) as Hold.
  { intros j nd Hnd. specialize (Hat j). unfold inode_at in *. rewrite Hnd in Hat. simpl in Hat.
    destruct (nodes s !! j) as [n0|]; simplify_eq/=. eauto. }
  destruct (hashLookup_ok s' Q n 0 Hh) as ([k'|] & Hr & Hp).
  - destruct Hp as (Hin' & nd & Hnd & E). destruct (Hold _ _ Hnd) as (j0 & Hj0 & E0).
    rewrite Hr. do 2 f_equal. eapply (c_uniq _ _ _ Hc n k' k j0 i); [|done].
    split_and!; [done|by eexists|congruence].
  - exfalso. destruct Hk as (Hi & _ & E). specialize (Hat k). rewrite Hi in Hat.
    unfold inode_at in Hat. destruct (nodes s' !! k) as [nd|] eqn:Hnd; [|done].
    eapply (Hp k nd Hin Hnd). simplify_eq/=. done.
Qed.

(** A call without a reference leaves everything as it is. *)
Lemma iput_unreferenced s F Q k i :
  cache_ok s F Q -> inode_at s k = Some i -> reference_count i = 0 -> iput k s = Ret (-1) s.
Proof.
  intros Hc Hi Hr. pose proof (c_quiet _ _ _ Hc _ _ Hi) as Hq. pose proof (inode_at_lt _ _ _ Hi) as Hk.
  unfold iput. rewrite (bind_Ret _ _ _ _ _ (inode_lock_Ret _ _ _ Hi Hq)).
  set (il := ic_set_mutex true i). set (s1 := inode_set k il s).
  assert (inode_at s1 k = Some il) as Hi1 by (unfold s1; rewrite inode_at_set by done; by rewrite decide_True).
  rewrite (bind_Ret _ _ _ _ _ (get_inode_Ret _ _ _ Hi1)).
  change (reference_count il) with (reference_count i). rewrite Hr. simpl (_ =? _). cbn iota.
  unfold inode_unlock. rewrite bind_assoc, (bind_Ret _ _ _ _ _ (get_inode_Ret _ _ _ Hi1)).
  rewrite (bind_Ret _ _ _ _ _ (put_inode_Ret _ _ _)). unfold ret. f_equal.
  unfold s1, inode_set. destruct s as [d ns fl hq]. unfold set_nodes. cbn [nodes ds freeList hashQ] in *. f_equal.
  apply list_eq. intros j. rewrite !lookup_alter_nodes. destruct (decide (j = k)) as [->|]; [|done].
  unfold inode_at in Hi. cbn [nodes] in Hi. destruct (ns !! k) as [nd|] eqn:E; [|done]. simpl in *. f_equal.
  injection Hi as <-. unfold set_inode, ic_set_mutex. destruct nd as [i0 ? ? ? ?]. cbn in *.
  rewrite <- Hq. by destruct i0.
Qed.

(** One of several references goes: only the count changes. *)
Lemma iput_shared s F Q n k i :
  cache_ok s F Q -> caches s Q n k i -> 1 < reference_count i ->
  wp (iput k) s (fun r s' => r = 0 /\ ds s' = ds s /\ exists i', updates s s' F F Q n k i' /\
    getDiskINodeData i' = getDiskINodeData i /\ reference_count i' = reference_count i - 1).
Proof.
  intros Hc Hk Hr. pose proof Hk as (Hi & Hh & En). pose proof (c_quiet _ _ _ Hc _ _ Hi) as Hq.
  pose proof (inode_at_lt _ _ _ Hi) as Hlt. destruct (c_refs _ _ _ Hc _ _ Hi) as [Hr64 Hfree].
  destruct (c_hashed _ _ _ Hc _ _ _ Hk) as (Hnum & Hdev & Hwf & _ & Hco).
  unfold iput. apply wp_bind. eapply wp_Ret; [by apply inode_lock_Ret|].
  set (il := ic_set_mutex true i). set (s1 := inode_set k il s).
  assert (inode_at s1 k = Some il) as Hi1 by (unfold s1; rewrite inode_at_set by done; by rewrite decide_True).
  assert (length (nodes s1) = length (nodes s)) as El1 by (cbn [s1 inode_set nodes set_nodes]; by rewrite length_alter).
  apply wp_bind. eapply wp_Ret; [by apply get_inode_Ret|].
  change (reference_count il) with (reference_count i). rewrite (proj2 (Z.eqb_neq _ _)) by lia.
  apply wp_bind. eapply wp_Ret; [done|]. rewrite (proj2 (Z.eqb_neq _ _)) by lia.
  set (i2 := ic_set_refs _ il). fold (inode_set k i2 s1). set (s2 := inode_set k i2 s1).
  assert (inode_at s2 k = Some i2) as Hi2 by (unfold s2; rewrite inode_at_set by lia; by rewrite decide_True).
  assert (length (nodes s2) = length (nodes s1)) as El2 by (cbn [s2 inode_set nodes set_nodes]; by rewrite length_alter).
  apply wp_bind, wp_ret, wp_bind. unfold inode_unlock. apply wp_bind.
  eapply wp_Ret; [by apply get_inode_Ret|]. eapply wp_Ret; [apply put_inode_Ret|]. apply wp_ret.
  split_and!; [done|done|]. exists (ic_set_mutex false i2). split_and!; [|done|done]. split; try done.
  - intros j. rewrite inode_at_set by lia. destruct (decide (j = k)) as [|Hne]; [done|].
    unfold s2. rewrite inode_at_set by lia. rewrite decide_False by done.
    unfold s1. rewrite inode_at_set by lia. by rewrite decide_False.
  - do 3 apply freelist_ok_set. apply (c_free _ _ _ Hc).
  - eapply hash_ok_set; [eapply hash_ok_set; [eapply hash_ok_set; [apply (c_hash _ _ _ Hc)|exact Hi|done]|exact Hi1|done]|exact Hi2|done].
  - cbn. rewrite Hfree. unfold is_u64 in *. lia.
  - cbn. lia.
  - apply (c_disk _ _ _ Hc).
  - apply (c_area _ _ _ Hc).
  - intros d. by apply (c_table _ _ _ Hc n d).
Qed.


(** The write-back: a changed inode goes to its place in the table. *)
Lemma write_back_ok s n k i :
  ok (ds s) -> inode_area (ds s) -> inode_num n -> inode_at s k = Some i -> ic_inode_number i = n ->
  wf_iNode (getDiskINodeData i) ->
  wp (if inode_changed i || file_data_changed i then
        on_disk (writeINodeToDisk i) ;;;
        put_inode_at k (ic_set_data_changed false (ic_set_changed false i))
      else ret tt) s (fun _ s' => exists d', ok d' /\ inode_area d' /\
    changes (eq (inode_block n)) (ds s) d' /\
    s' = inode_set k (ic_set_data_changed false (ic_set_changed false i)) (set_ds d' s) /\
    (~ clean i -> disk_inode d' n = Some (getDiskINodeData i)) /\
    (clean i -> d' = ds s) /\
    forall m, inode_num m -> m <> n -> disk_inode d' m = disk_inode (ds s) m).
Proof.
  intros Hok Ha Hn Hi En Hwf. destruct (inode_changed i || file_data_changed i) eqn:E.
  - apply wp_bind. unfold on_disk. apply wp_zoom. unfold writeINodeToDisk. apply wp_bind.
    unfold writeDiskInode. apply wp_bind. rewrite En.
    apply access_write; [done..|]. intros d' Hok' Hch Hd Ho. apply wp_ret, wp_ret.
    eapply wp_Ret; [apply put_inode_Ret|]. exists d'. split_and!; try done.
    + eapply inode_area_env; [by eapply changes_env|done].
    + intros [E1 E2]. by rewrite E1, E2 in E.
  - apply orb_false_iff in E as [E1 E2]. apply wp_ret. exists (ds s). split_and!; try done.
    + assert (ic_set_data_changed false (ic_set_changed false i) = i) as ->.
      { destruct i. cbn in *. by rewrite E1, E2. }
      unfold inode_set, set_nodes, set_ds. destruct s as [d ns fl hq]. cbn [ds nodes freeList hashQ].
      f_equal. apply list_eq. intros j. rewrite lookup_alter_nodes. destruct (decide (j = k)) as [->|]; [|done].
      unfold inode_at in Hi. cbn [nodes] in Hi. destruct (ns !! k) as [nd|]; [|done].
      simpl in *. injection Hi as <-. by destruct nd.
    + intros Hcl. by destruct Hcl.
Qed.

Lemma hash_ok_ds d s Q : hash_ok (set_ds d s) Q <-> hash_ok s Q.
Proof. done. Qed.

Lemma freelist_ok_ds d s F : freelist_ok (set_ds d s) F <-> freelist_ok s F.
Proof. done. Qed.

Lemma inode_at_ds d s k : inode_at (set_ds d s) k = inode_at s k.
Proof. done. Qed.

Lemma length_inode_set k i s : length (nodes (inode_set k i s)) = length (nodes s).
Proof. cbn [inode_set nodes set_nodes]. by rewrite length_alter. Qed.

Lemma length_set_ds d s : length (nodes (set_ds d s)) = length (nodes s).
Proof. done. Qed.

(** The end of the last [iput]: the node goes to the tail of the free list. *)
Lemma iput_tail s s' F Q n k i i' :
  cache_ok s F Q -> caches s Q n k i -> k ∉ F ->
  hash_ok s' Q -> freelist_ok s' F -> inode_at s' k = Some i' ->
  ic_inode_number i' = n -> ic_device_number i' = 0 ->
  (forall j, j <> k -> inode_at s' j = inode_at s j) ->
  wp (let* r := (let* i := get_inode k in
      let* node := hashLookup (ic_inode_number i) (ic_device_number i) in
      match node with
      | None => ret (-1)
      | Some node => freeListInsert node ;;; ret 0
      end) in
      inode_unlock k ;;; ret r) s' (fun r s2 => r = 0 /\ ds s2 = ds s' /\
    freelist_ok s2 (F ++ [k]) /\ hash_ok s2 Q /\
    forall j, inode_at s2 j = if decide (j = k) then Some (ic_set_mutex false i') else inode_at s' j).
Proof.
  intros Hc Hk HkF Hh Hf Hi' En Ed Hat. pose proof Hk as (Hi & _ & En0).
  apply wp_bind, wp_bind. eapply wp_Ret; [by apply get_inode_Ret|]. rewrite En, Ed.
  apply wp_bind. eapply wp_Ret.
  { eapply lookup_cached; [exact Hc|exact Hk|exact Hh|].
    intros j. destruct (decide (j = k)) as [->|Hne]; [|by rewrite Hat].
    rewrite Hi', Hi. simpl. congruence. }
  cbn beta iota. apply wp_bind. eapply wp_mono.
  { apply (freeListInsert_ok s' F k Hf HkF). by eapply inode_at_lt. }
  intros [] s2 [Hf2 Hfr2]. apply wp_ret.
  assert (inode_at s2 k = Some i') as Hi2 by by rewrite (inode_at_free _ _ _ Hfr2).
  pose proof (hash_ok_free _ _ _ Hfr2 Hh) as Hh2. pose proof (inode_at_lt _ _ _ Hi2) as Hk2.
  apply wp_bind. unfold inode_unlock. apply wp_bind. eapply wp_Ret; [by apply get_inode_Ret|].
  eapply wp_Ret; [apply put_inode_Ret|]. apply wp_ret. split_and!; [done|by destruct Hfr2|..].
  - by apply freelist_ok_set.
  - eapply hash_ok_set; [exact Hh2|exact Hi2|done].
  - intros j. rewrite inode_at_set by done. by rewrite (inode_at_free _ _ _ Hfr2).
Qed.


Lemma inode_set_set k i i' s : inode_set k i' (inode_set k i s) = inode_set k i' s.
Proof.
  unfold inode_set, set_nodes. cbn [nodes ds freeList hashQ]. f_equal. apply list_eq. intros j.
  rewrite !lookup_alter_nodes. destruct (decide (j = k)) as [->|]; [|done].
  by destruct (nodes s !! k).
Qed.

(** The inode while the last [iput] works on it. *)
Definition leaving (i : inCoreiNode) : inCoreiNode := ic_set_refs 0 (ic_set_mutex true i).

Lemma iput_last_Ret s F Q n k i :
  cache_ok s F Q -> caches s Q n k i -> reference_count i = 1 ->
  iput k s = bind (iput_last k) (fun r => inode_unlock k ;;; ret r) (inode_set k (leaving i) s).
Proof.
  intros Hc Hk Hr. pose proof Hk as (Hi & _ & _). pose proof (c_quiet _ _ _ Hc _ _ Hi) as Hq.
  pose proof (inode_at_lt _ _ _ Hi) as Hlt.
  unfold iput. rewrite (bind_Ret _ _ _ _ _ (inode_lock_Ret _ _ _ Hi Hq)).
  set (s1 := inode_set k (ic_set_mutex true i) s).
  assert (inode_at s1 k = Some (ic_set_mutex true i)) as Hi1
    by (unfold s1; rewrite inode_at_set by done; by rewrite decide_True).
  rewrite (bind_Ret _ _ _ _ _ (get_inode_Ret _ _ _ Hi1)).
  change (reference_count (ic_set_mutex true i)) with (reference_count i). rewrite Hr.
  simpl (1 =? 0). cbn iota. rewrite (bind_Ret _ _ _ _ _ (put_inode_Ret _ _ _)).
  unfold s1. rewrite inode_set_set. done.
Qed.

(** The inode after the write-back. *)
Definition written (i : inCoreiNode) : inCoreiNode :=
  ic_set_data_changed false (ic_set_changed false (leaving i)).

(** The state after the write-back, in which the deletion, if any, starts. *)
Lemma iput_written s F Q n k i :
  cache_ok s F Q -> caches s Q n k i -> reference_count i = 1 ->
  exists d', ok d' /\ inode_area d' /\ changes (eq (inode_block n)) (ds s) d' /\
    (~ clean i \/ ic_linksCount i <> 0 -> disk_inode d' n = Some (getDiskINodeData i)) /\
    (clean i -> d' = ds s) /\
    (forall m, inode_num m -> m <> n -> disk_inode d' m = disk_inode (ds s) m) /\
    iput k s = bind (let* i := get_inode k in
      (if (ic_linksCount i =? 0) && negb (ic_inode_number i =? 0) then
         with_inode k inodeBlocksFree ;;; on_disk (freeINode (ic_inode_number i))
       else ret tt) ;;;
      (let* i := get_inode k in
       let* node := hashLookup (ic_inode_number i) (ic_device_number i) in
       match node with
       | None => ret (-1)
       | Some node => freeListInsert node ;;; ret 0
       end)) (fun r => inode_unlock k ;;; ret r) (inode_set k (written i) (set_ds d' s)).
Proof.
  intros Hc Hk Hr. pose proof Hk as (Hi & _ & En). pose proof (inode_at_lt _ _ _ Hi) as Hlt.
  destruct (c_hashed _ _ _ Hc _ _ _ Hk) as (Hnum & Hdev & Hwf & _ & Hco).
  rewrite (iput_last_Ret _ _ _ _ _ _ Hc Hk Hr). set (s2 := inode_set k (leaving i) s).
  assert (inode_at s2 k = Some (leaving i)) as Hi2
    by (unfold s2; rewrite inode_at_set by done; by rewrite decide_True).
  destruct (wp_inv _ _ _ (write_back_ok s2 n k (leaving i) (c_disk _ _ _ Hc) (c_area _ _ _ Hc) Hnum Hi2 En Hwf))
    as ([] & s3 & Hrun & d' & Hok' & Ha' & Hch & -> & Hdirty & Hcl & Ho).
  exists d'. split_and!; [done|done|exact Hch| |exact Hcl|exact Ho|].
  - intros Hor. destruct (inode_changed i) eqn:E1; [apply Hdirty; intros [? _]; cbn in *; congruence|].
    destruct (file_data_changed i) eqn:E2; [apply Hdirty; intros [_ ?]; cbn in *; congruence|].
    assert (clean i) as Hcl' by (split; done). destruct Hor as [Hx|Hx]; [done|].
    rewrite (Hcl Hcl'), <- En. by apply Hco.
  - unfold iput_last. rewrite !bind_assoc. rewrite (bind_Ret _ _ _ _ _ (get_inode_Ret _ _ _ Hi2)).
    rewrite bind_assoc. rewrite (bind_Ret _ _ _ _ _ Hrun). unfold s2.
    change (set_ds d' (inode_set k (leaving i) s)) with (inode_set k (leaving i) (set_ds d' s)).
    rewrite inode_set_set. by rewrite !bind_assoc.
Qed.

(** The last reference to an inode that keeps a link, or to the root. *)
Lemma iput_release s F Q n k i :
  cache_ok s F Q -> caches s Q n k i -> reference_count i = 1 ->
  ic_linksCount i <> 0 \/ n = 0 ->
  wp (iput k) s (fun r s' => r = 0 /\ changes (eq (inode_block n)) (ds s) (ds s') /\
    (~ clean i \/ ic_linksCount i <> 0 -> disk_inode (ds s') n = Some (getDiskINodeData i)) /\
    (clean i -> ds s' = ds s) /\
    exists i', updates s s' F (F ++ [k]) Q n k i' /\
      getDiskINodeData i' = getDiskINodeData i /\ reference_count i' = 0).
Proof.
  intros Hc Hk Hr Hlk. pose proof Hk as (Hi & Hh & En). pose proof (inode_at_lt _ _ _ Hi) as Hlt.
  destruct (c_hashed _ _ _ Hc _ _ _ Hk) as (Hnum & Hdev & Hwf & _ & Hco).
  destruct (c_refs _ _ _ Hc _ _ Hi) as [_ Hfree].
  assert (k ∉ F) as HkF by (rewrite Hfree; lia).
  destruct (iput_written _ _ _ _ _ _ Hc Hk Hr) as (d' & Hok' & Ha' & Hch & Hdisk & Hcl & Ho & Hrun).
  unfold wp. rewrite Hrun. clear Hrun. set (s3 := inode_set k (written i) (set_ds d' s)).
  assert (inode_at s3 k = Some (written i)) as Hi3
    by (unfold s3; rewrite inode_at_set by done; by rewrite decide_True).
  assert (forall j, j <> k -> inode_at s3 j = inode_at s j) as Ho3
    by (intros j Hj; unfold s3; rewrite inode_at_set by done; by rewrite decide_False).
  rewrite !bind_assoc, (bind_Ret _ _ _ _ _ (get_inode_Ret _ _ _ Hi3)).
  assert ((ic_linksCount (written i) =? 0) && negb (ic_inode_number (written i) =? 0) = false) as ->.
  { change (ic_linksCount (written i)) with (ic_linksCount i).
    change (ic_inode_number (written i)) with (ic_inode_number i). rewrite En.
    destruct Hlk as [Hl| ->]; [by rewrite (proj2 (Z.eqb_neq _ _) Hl)|by rewrite andb_false_r]. }
  rewrite !bind_assoc, bind_ret.
  assert (hash_ok s3 Q) as Hh3 by (eapply (hash_ok_set k _ i); [apply (c_hash _ _ _ Hc)|exact Hi|done]).
  assert (freelist_ok s3 F) as Hf3 by (apply freelist_ok_set, (c_free _ _ _ Hc)).
  destruct (wp_inv _ _ _ (iput_tail s s3 F Q n k i (written i) Hc Hk HkF Hh3 Hf3 Hi3 En Hdev Ho3))
    as (r & s4 & -> & -> & Ed4 & Hf4 & Hh4 & Hat4).
  change (ds s3) with d' in Ed4. rewrite Ed4. split_and!; [done|done|done|done|].
  exists (ic_set_mutex false (written i)). split_and!; [|done|done]. split; rewrite ?Ed4; try done.
  - intros j. rewrite Hat4. destruct (decide (j = k)) as [|Hne]; [done|by apply Ho3].
  - intros j Hj. set_solver.
  - split; [done|]. split; [done|]. intros _. set_solver.
  - intros _ Hl. rewrite Ed4. cbn in Hl |- *. rewrite En. apply Hdisk. by right.
  - intros d Hd. destruct (decide (clean i)) as [Hcli|Hncl]; [|].
    + rewrite (Hcl Hcli) in Hd. by apply (c_table _ _ _ Hc n d).
    + rewrite Hdisk in Hd by auto. injection Hd as <-. done.
Qed.


(** ** The last [iput] of an unlinked inode *)

Local Abbreviation releasing := (releasing (ok := ok)).

(** The blocks above the inode table. *)
Definition data_area (n : Z) : Prop := 16388 <= n.

Lemma inode_block_below n : inode_num n -> inode_block n < 16388.
Proof.
  intros [H1 H2]. unfold inode_block. consts. pose proof (Z.div_lt_upper_bound n 4 16384). lia.
Qed.

Lemma releasing_frame s s' l bs X :
  releasing s l bs -> ok s' -> changes X s s' -> ~ X FREE_LIST_BLOCK -> (forall b, In b l -> ~ X b) ->
  releasing s' l bs.
Proof.
  intros (Hok & Hh & Hl & Hr & Hnd & Hf) Hok' [He Hch] HX HXl. split_and!; [done| | | |split; [done|]].
  - by destruct He as (_ & _ & _ & ->).
  - eapply free_list_frame; [done|done|]. intros m [->|Hm]; apply Hch; auto.
  - destruct Hr as (b & Hb & Hb'). exists b. split; [|done]. by rewrite Hch.
  - eapply Forall_impl; [exact Hf|]. intros b (H1 & H2 & H3 & H4 & H5). split_and!; try done.
    by apply (in_disk_env _ _ _ He).
Qed.

Lemma direct_blocks_wf n i nums left bs nums' left' :
  direct_blocks n i nums left = (bs, nums', left') -> Forall is_u64 nums ->
  length nums' = length nums /\ Forall is_u64 nums'.
Proof.
  revert i nums left bs nums' left'. induction n as [|n IH]; intros i nums left bs nums' left' E Hf;
    cbn [direct_blocks] in E; [by simplify_eq|].
  destruct (0 <? left); [|by simplify_eq].
  destruct (direct_blocks n (S i) _ _) as [[bs1 nums1] left1] eqn:E1. simplify_eq.
  apply IH in E1 as [E1 E2]; [by rewrite E1, length_insert|]. apply Forall_insert; [done|done].
Qed.

Lemma indirect_blocks_wf v n i nums left bs nums' :
  indirect_blocks v n i nums left = Some (bs, nums') -> Forall is_u64 nums ->
  length nums' = length nums /\ Forall is_u64 nums'.
Proof.
  revert i nums left bs nums'. induction n as [|n IH]; intros i nums left bs nums' E Hf;
    cbn [indirect_blocks] in E; (destruct (0 <? left); [|by simplify_eq]); [done|].
  destruct (tree_blocks v (S i) _ left) as [[bs1 left1]|]; [|done].
  destruct (indirect_blocks v n (S i) _ left1) as [[bs2 nums2]|] eqn:E2; [|done]. simplify_eq.
  apply IH in E2 as [E2 E3]; [by rewrite E2, length_insert|]. apply Forall_insert; [done|done].
Qed.

Lemma inode_blocks_wf v nums sz bs nums' :
  inode_blocks v nums sz = Some (bs, nums') -> Forall is_u64 nums ->
  length nums' = length nums /\ Forall is_u64 nums'.
Proof.
  unfold inode_blocks. intros E Hf. destruct (direct_blocks 10 0 nums sz) as [[bs1 nums1] left1] eqn:E1.
  destruct (indirect_blocks v 3 0 nums1 left1) as [[bs2 nums2]|] eqn:E2; [|done]. simplify_eq.
  apply direct_blocks_wf in E1 as [E1 F1]; [|done]. apply indirect_blocks_wf in E2 as [E2 F2]; [|done].
  split; [congruence|done].
Qed.

Lemma inode_blocks_frame v v' nums sz bs nums' :
  inode_blocks v nums sz = Some (bs, nums') -> (forall n, In n bs -> v' n = v n) ->
  inode_blocks v' nums sz = Some (bs, nums').
Proof.
  unfold inode_blocks. intros E Hf. destruct (direct_blocks 10 0 nums sz) as [[bs1 nums1] left1].
  destruct (indirect_blocks v 3 0 nums1 left1) as [[bs2 nums2]|] eqn:E2; [|done]. simplify_eq.
  erewrite indirect_blocks_frame; [done|exact E2|]. intros m Hm. apply Hf, in_app_iff. by right.
Qed.

(** A deleted inode in the table. *)
Definition deleted (e : iNode) : Prop :=
  type e = T_FREE /\ file_mode e = 0 /\ linksCount e = 0 /\ size e = 0.

(** What the deletion of inode [n] with the blocks [bs] writes. *)
Definition deletion_writes (n : Z) (bs : list Z) (m : Z) : Prop :=
  m = FREE_LIST_BLOCK \/ In m bs \/ m = INODE_LIST_BLOCK \/ m = inode_block n.

(** The two frees, on a disk with room for the blocks and the number. *)
Lemma delete_ok d l bs nums' i n x tl j :
  ok d -> inode_area d -> inode_num n -> ic_inode_number i = n -> is_i64 (ic_size i) ->
  inode_blocks (view d) (ic_dataBlockNums i) (ic_size i) = Some (bs, nums') ->
  releasing d l bs -> Forall data_area (l ++ bs) -> IFreeMutex ∉ held d ->
  inode_list d (replicate (S j) 0 ++ x :: tl) -> x <> 0 ->
  (forall e, disk_inode d n = Some e -> inode_number e = n /\ device_number e = 0) ->
  exists d1, wp (inodeBlocksFree i) d (fun i' d1' => i' = ic_set_blocks nums' i /\ d1' = d1) /\
  wp (freeINode n) d1 (fun _ d2 => ok d2 /\ inode_area d2 /\ free_list d2 (reverse bs ++ l) /\
    inode_list d2 (replicate j 0 ++ n :: x :: tl) /\
    (exists e, disk_inode d2 n = Some e /\ deleted e /\
       inode_number e = n /\ device_number e = 0) /\ changes (deletion_writes n bs) d d2 /\
    forall m, inode_num m -> m <> n -> disk_inode d2 m = disk_inode d m).
Proof.
  intros Hok Ha Hn En Hsz Hb Hrel Hda Hh Hil Hx Htab.
  apply Forall_app in Hda as [Hdl Hdb]. rewrite Forall_forall in Hdl, Hdb.
  destruct (wp_inv _ _ _ (inodeBlocksFree_releases d l i bs nums' Hsz Hb Hrel))
    as (i' & d1 & Hrun & -> & Hrel1 & Hch1).
  exists d1. split; [eapply wp_Ret; [exact Hrun|done]|].
  pose proof Hrel1 as (Hok1 & Hfh1 & Hl1 & _). pose proof (changes_env _ _ _ Hch1) as He1.
  assert (forall m, m < 16388 -> m <> FREE_LIST_BLOCK -> view d1 m = view d m) as Hv1.
  { intros m Hm Hne. destruct Hch1 as [_ Hch1]. apply Hch1. intros [->|Hin]; [done|].
    apply list_elem_of_In, Hdb in Hin. unfold data_area in Hin. lia. }
  assert (forall m, inode_num m -> disk_inode d1 m = disk_inode d m) as Hd1.
  { intros m Hm. apply disk_inode_frame, Hv1; [by apply inode_block_below|].
    pose proof (inode_block_ge m Hm). consts. lia. }
  destruct (getDiskInode_Ret d n junk_iNode Hok Ha Hn) as (e & _ & He & _).
  destruct (Htab _ He) as [Ee1 Ee2].
  eapply wp_mono; [apply (freeINode_push d1 n e j x tl)|].
  - done.
  - by destruct He1 as (_ & _ & _ & ->).
  - by eapply inode_area_env.
  - done.
  - by rewrite Hd1.
  - eapply inode_list_frame; [exact Hil|]. apply Hv1; done.
  - done.
  - intros _ d2 (Hok2 & Hil2 & He2 & Ho2 & Hch2). pose proof (changes_env _ _ _ Hch2) as Henv2. split_and!.
    + done.
    + eapply inode_area_env; [exact Henv2|]. by eapply inode_area_env.
    + eapply free_list_frame; [exact Hl1|done|]. destruct Hch2 as [_ Hch2]. intros m Hm. apply Hch2.
      assert (m = FREE_LIST_BLOCK \/ data_area m) as Hm'.
      { destruct Hm as [|Hm]; [by left|right]. apply in_app_iff in Hm as [Hm|Hm].
        - apply list_elem_of_In in Hm. rewrite elem_of_reverse in Hm. by apply Hdb.
        - apply Hdl. by apply list_elem_of_In. }
      pose proof (inode_block_below n Hn). pose proof (inode_block_ge n Hn). unfold data_area in Hm'.
      consts. lia.
    + done.
    + eexists. split; [exact He2|]. cbn. done.
    + unfold deletion_writes. eapply changes_trans; [| |exact Hch1|exact Hch2]; cbv beta; tauto.
    + intros m Hm Hne. rewrite Ho2 by done. by apply Hd1.
Qed.


(** The deletion starts in the state after the write-back. *)
Lemma delete_written s d' F Q n k i l bs nums' x tl j :
  cache_ok s F Q -> caches s Q n k i -> is_i64 (ic_size i) ->
  inode_blocks (view (ds s)) (ic_dataBlockNums i) (ic_size i) = Some (bs, nums') ->
  releasing (ds s) l bs -> Forall data_area (l ++ bs) -> IFreeMutex ∉ held (ds s) ->
  inode_list (ds s) (replicate (S j) 0 ++ x :: tl) -> x <> 0 ->
  ok d' -> inode_area d' -> changes (eq (inode_block n)) (ds s) d' ->
  (~ clean i \/ ic_linksCount i <> 0 -> disk_inode d' n = Some (getDiskINodeData i)) -> (clean i -> d' = ds s) ->
  exists d1, wp (inodeBlocksFree (written i)) d' (fun i' d1' => i' = ic_set_blocks nums' (written i) /\ d1' = d1) /\
  wp (freeINode n) d1 (fun _ d2 => ok d2 /\ inode_area d2 /\ free_list d2 (reverse bs ++ l) /\
    inode_list d2 (replicate j 0 ++ n :: x :: tl) /\
    (exists e, disk_inode d2 n = Some e /\ deleted e /\
       inode_number e = n /\ device_number e = 0) /\ changes (deletion_writes n bs) d' d2 /\
    forall m, inode_num m -> m <> n -> disk_inode d2 m = disk_inode d' m).
Proof.
  intros Hc Hk Hsz Hb Hrel Hda Hfh Hil Hx Hok' Ha' Hch Hdisk Hcl. pose proof Hk as (_ & _ & En).
  destruct (c_hashed _ _ _ Hc _ _ _ Hk) as (Hnum & Hdev & _).
  pose proof (inode_block_below n Hnum) as Hbelow. pose proof (inode_block_ge n Hnum) as Hge.
  pose proof Hda as Hda'. apply Forall_app in Hda' as [Hdl Hdb]. rewrite Forall_forall in Hdl, Hdb.
  assert (forall m, In m l \/ In m bs -> inode_block n <> m) as Hapart.
  { intros m [Hm|Hm] E; apply list_elem_of_In in Hm; [apply Hdl in Hm|apply Hdb in Hm];
      unfold data_area in Hm; lia. }
  apply (delete_ok d' l bs nums' (written i) n x tl j Hok' Ha' Hnum En Hsz); [| |exact Hda| | |exact Hx|].
  - eapply inode_blocks_frame; [exact Hb|]. intros m Hm. destruct Hch as [_ Hch]. apply Hch; auto.
  - eapply releasing_frame; [exact Hrel|done|exact Hch|consts; lia|]. intros m Hm. apply Hapart. auto.
  - by destruct (changes_env _ _ _ Hch) as (_ & _ & _ & ->).
  - eapply inode_list_frame; [exact Hil|]. destruct Hch as [_ Hch]. apply Hch. consts. lia.
  - intros e He. destruct (decide (clean i)) as [Hcli|Hncl].
    + rewrite (Hcl Hcli) in He. by apply (c_table _ _ _ Hc n e).
    + rewrite Hdisk in He by auto. injection He as <-. done.
Qed.

Lemma iput_deletes s F Q n k i l bs nums' x tl j :
  cache_ok s F Q -> caches s Q n k i -> reference_count i = 1 ->
  ic_linksCount i = 0 -> n <> 0 -> is_i64 (ic_size i) ->
  inode_blocks (view (ds s)) (ic_dataBlockNums i) (ic_size i) = Some (bs, nums') ->
  releasing (ds s) l bs -> Forall data_area (l ++ bs) -> IFreeMutex ∉ held (ds s) ->
  inode_list (ds s) (replicate (S j) 0 ++ x :: tl) -> x <> 0 ->
  wp (iput k) s (fun r s' => r = 0 /\ free_list (ds s') (reverse bs ++ l) /\
    inode_list (ds s') (replicate j 0 ++ n :: x :: tl) /\
    (exists e, disk_inode (ds s') n = Some e /\ deleted e) /\
    changes (deletion_writes n bs) (ds s) (ds s') /\
    exists i', updates s s' F (F ++ [k]) Q n k i' /\ ic_dataBlockNums i' = nums' /\ ic_linksCount i' = 0 /\
      reference_count i' = 0).
Proof.
  intros Hc Hk Hr Hlk Hn0 Hsz Hb Hrel Hda Hfh Hil Hx.
  pose proof Hk as (Hi & Hh & En). pose proof (inode_at_lt _ _ _ Hi) as Hlt.
  destruct (c_hashed _ _ _ Hc _ _ _ Hk) as (Hnum & Hdev & Hwf & _ & Hco).
  destruct (c_refs _ _ _ Hc _ _ Hi) as [_ Hfree].
  assert (k ∉ F) as HkF by (rewrite Hfree; lia).
  destruct (iput_written _ _ _ _ _ _ Hc Hk Hr) as (d' & Hok' & Ha' & Hch & Hdisk & Hcl & Ho & Hrun).
  unfold wp. rewrite Hrun. clear Hrun. set (s3 := inode_set k (written i) (set_ds d' s)).
  assert (inode_at s3 k = Some (written i)) as Hi3
    by (unfold s3; rewrite inode_at_set by done; by rewrite decide_True).
  destruct (delete_written _ _ _ _ _ _ _ _ _ _ _ _ _ Hc Hk Hsz Hb Hrel Hda Hfh Hil Hx Hok' Ha' Hch Hdisk Hcl)
    as (d1 & Hfree1 & Hfree2).
  destruct (wp_inv _ _ _ Hfree1) as (i1 & d1' & Hrun1 & -> & ->).
  destruct (wp_inv _ _ _ Hfree2) as ([] & d2 & Hrun2 & Hok2 & Ha2 & Hl2 & Hil2 & (e & He & Hdel & Hen & Hed) & Hch2 & Ho2).
  rewrite !bind_assoc, (bind_Ret _ _ _ _ _ (get_inode_Ret _ _ _ Hi3)).
  change (ic_linksCount (written i)) with (ic_linksCount i).
  change (ic_inode_number (written i)) with (ic_inode_number i). rewrite En, Hlk.
  rewrite (proj2 (Z.eqb_neq _ _) Hn0). cbn [negb andb]. change (0 =? 0) with true. cbn [andb]. cbn iota.
  rewrite !bind_assoc. unfold with_inode. rewrite ?bind_assoc. rewrite (bind_Ret _ _ _ _ _ (get_inode_Ret _ _ _ Hi3)).
  rewrite !bind_assoc. erewrite (bind_Ret (on_disk _)); cycle 1.
  { unfold on_disk, zoom. change (ds s3) with d'. rewrite Hrun1. done. }
  cbn beta iota. rewrite (bind_Ret _ _ _ _ _ (put_inode_Ret _ _ _)).
  set (i4 := ic_set_blocks nums' (written i)).
  erewrite (bind_Ret (on_disk _)); cycle 1.
  { unfold on_disk, zoom. cbn [ds set_ds inode_set set_nodes]. rewrite Hrun2. done. }
  cbn beta iota. set (s4 := set_ds d2 _).
  assert (inode_at s4 k = Some i4) as Hi4.
  { unfold s4. rewrite inode_at_ds, inode_at_set by (by eapply inode_at_lt). by rewrite decide_True. }
  assert (forall j, j <> k -> inode_at s4 j = inode_at s j) as Ho4.
  { intros m Hm. unfold s4. rewrite inode_at_ds, inode_at_set by (by eapply inode_at_lt).
    rewrite decide_False by done. rewrite inode_at_ds. unfold s3. rewrite inode_at_set by done.
    by rewrite decide_False. }
  assert (hash_ok s3 Q) as Hh3 by (eapply (hash_ok_set k _ i); [apply (c_hash _ _ _ Hc)|exact Hi|done]).
  assert (hash_ok s4 Q) as Hh4 by (eapply (hash_ok_set k _ (written i)); [exact Hh3|exact Hi3|done]).
  assert (freelist_ok s4 F) as Hf4 by (do 2 apply freelist_ok_set; apply (c_free _ _ _ Hc)).
  destruct (wp_inv _ _ _ (iput_tail s s4 F Q n k i i4 Hc Hk HkF Hh4 Hf4 Hi4 En Hdev Ho4))
    as (r & s5 & -> & -> & Ed5 & Hf5 & Hh5 & Hat5).
  change (ds s4) with d2 in Ed5. rewrite Ed5. split_and!; [done|done|done|by eauto| |].
  { eapply changes_trans; [|intros m Hm; exact Hm|exact Hch|exact Hch2]. unfold deletion_writes. naive_solver. }
  exists (ic_set_mutex false i4). split; [|done]. split; rewrite ?Ed5; try done.
  - intros m. rewrite Hat5. destruct (decide (m = k)) as [|Hne]; [done|by apply Ho4].
  - intros m Hm. set_solver.
  - split; [done|]. split; [done|]. intros _. set_solver.
  - destruct Hwf as (?&?&?&?&?&?&[? ?]&?&?&?&[Hw1 Hw2]&?).
    destruct (inode_blocks_wf _ _ _ _ _ Hb Hw2) as [Hw3 Hw4]. unfold wf_iNode. split_and!; try done.
    change (length nums' = 13%nat). rewrite Hw3. exact Hw1.
  - intros _ Hl. by destruct Hl.
  - intros m Hm Hne. rewrite Ho2 by done. by apply Ho.
  - intros e' He'. rewrite He in He'. injection He' as <-. done.
Qed.


(** * The cache after its initialisation *)

Lemma freelist_ok_snoc s nd F :
  freelist_ok s F -> freelist_ok (set_nodes (nodes s ++ [nd]) s) F.
Proof.
  intros (Hh & Hnd & Hv & Hr). unfold freelist_ok. cbn [freeList nodes set_nodes].
  rewrite length_app. split_and!; [done|done| |].
  - eapply Forall_impl; [exact Hv|]. simpl. lia.
  - destruct F as [|h T]; [done|]. rewrite Forall_forall in Hv. eapply path_ext; [| |exact Hr].
    + intros k Hk. unfold nx. by rewrite lookup_app_l by (by apply Hv).
    + intros k Hk. unfold pv. rewrite lookup_app_l; [done|]. apply Hv. set_solver.
Qed.

(** The free nodes of the cache so far: none has an inode, none is hashed. *)
Definition blank (s : istate) (c : nat) : Prop :=
  length (nodes s) = c /\ freelist_ok s (seq 0 c) /\
  forall k nd, nodes s !! k = Some nd ->
    inode nd = zero_inCoreiNode /\ hash_next nd = None /\ hash_prev nd = None.

Lemma init_free_loop_ok n c s :
  blank s c ->
  wp (init_free_loop n c) s (fun _ s' => blank s' (c + n) /\ ds s' = ds s /\ hashQ s' = hashQ s).
Proof.
  revert c s. induction n as [|n IH]; intros c s (Hl & Hf & Hz); cbn [init_free_loop].
  - apply wp_ret. rewrite Nat.add_0_r. done.
  - apply wp_bind. eapply wp_Ret; [done|]. set (nd := MkNode zero_inCoreiNode None None None None).
    set (s1 := set_nodes (nodes s ++ [nd]) s).
    assert (length (nodes s1) = S c) as Hl1 by (unfold s1; cbn; rewrite length_app, Hl; simpl; lia).
    apply wp_bind. eapply wp_mono.
    { apply (freeListInsert_ok s1 (seq 0 c) c); [by apply freelist_ok_snoc| |lia].
      rewrite elem_of_seq. lia. }
    intros [] s2 [Hf2 (Ed & Eq & Ec)]. eapply wp_mono; [apply IH|].
    + split_and!.
      * by rewrite (core_length _ _ Ec).
      * by rewrite seq_S.
      * intros k nd' Hk. pose proof (f_equal (lookup k) Ec) as E. rewrite !list_lookup_fmap, Hk in E.
        assert (exists nd1, nodes s1 !! k = Some nd1 /\ core nd' = core nd1) as (nd1 & Hk1 & E1).
        { destruct (nodes s1 !! k) as [nd1|]; simpl in E; [|done]. exists nd1. split; [done|]. congruence. }
        assert (inode nd1 = zero_inCoreiNode /\ hash_next nd1 = None /\ hash_prev nd1 = None) as (E2 & E3 & E4).
        { unfold s1 in Hk1. cbn [nodes set_nodes] in Hk1. apply lookup_app_Some in Hk1 as [Hk1|[_ Hk1]].
          - by eapply Hz.
          - apply list_lookup_singleton_Some in Hk1 as [_ <-]. done. }
        unfold core in E1. injection E1 as -> -> ->. done.
    + intros [] s3 (Hb & Ed3 & Eq3). rewrite Nat.add_succ_r. split_and!; [done|by rewrite Ed3, Ed|by rewrite Eq3, Eq].
Qed.

Lemma initHashQueues_ok s :
  is_Some stack_word -> hashQ s = replicate 8 None -> exists s', initHashQueues s = Ret tt s' /\ s' = s.
Proof.
  intros [j Ej] Hq. unfold initHashQueues. rewrite Ej. pose proof (u64_range j) as [Hj _].
  edestruct (wp_inv (while_do 9 (fun counter => counter <? INODE_HASH_SIZE)
    (fun counter =>
       modify (fun s => set_hashQ (<[Z.to_nat counter := None]> (hashQ s)) s) ;;;
       ret (Next (counter + 1))) (u64 j)) s (fun _ s' => s' = s)) as (c & s' & Hrun & ->).
  - apply (wp_while (fun c s' => 0 <= c /\ s' = s) (fun c => Z.to_nat (INODE_HASH_SIZE - c))).
    + intros c s' [Hc ->] Hlt. apply Z.ltb_lt in Hlt. eapply wp_Ret; [done|]. split; [|consts; lia].
      split; [lia|]. unfold set_hashQ. rewrite Hq.
      assert (<[Z.to_nat c := None]> (replicate 8 (@None nat)) = replicate 8 None) as ->; [|rewrite <- Hq; by destruct s].
      by rewrite insert_replicate.
    + naive_solver.
    + done.
    + change INODE_HASH_SIZE with 8. lia.
  - exists s. rewrite (bind_Ret _ _ _ _ _ Hrun). done.
Qed.

(** A cache over a disk whose inode table is sound. *)
Definition table_sound (d : dstate) : Prop :=
  forall n e, inode_num n -> disk_inode d n = Some e -> inode_number e = n /\ device_number e = 0.

Lemma boot_cache_ok d :
  is_Some stack_word -> ok d -> inode_area d -> table_sound d ->
  wp (initFreeInCoreINodeList ;;; initHashQueues) (IState d [] None (replicate 8 None)) (fun _ s' =>
    ds s' = d /\ cache_ok s' (seq 0 INODE_BUFFER_SIZE) (fun _ => []) /\
    forall n e, disk_inode d n = Some e -> inode_view s' (fun _ => []) n e).
Proof.
  intros Hstack Hok Ha Ht. unfold initFreeInCoreINodeList. apply wp_bind, wp_bind. eapply wp_Ret; [done|].
  eapply wp_mono; [apply (init_free_loop_ok INODE_BUFFER_SIZE 0)|].
  { split_and!; try done. split_and!; try done; constructor. }
  intros [] s1 ((Hl & Hf & Hz) & Ed & Eq). cbn [ds hashQ set_freeList] in *.
  destruct (initHashQueues_ok s1 Hstack Eq) as (s2 & Hr & ->). eapply wp_Ret; [exact Hr|].
  assert (forall n k i, ~ caches s1 (fun _ => []) n k i) as Hno.
  { intros n k i (_ & [h Hh] & _). by apply elem_of_nil in Hh. }
  assert (forall k i, inode_at s1 k = Some i -> i = zero_inCoreiNode /\ k ∈ seq 0 INODE_BUFFER_SIZE) as Hat.
  { intros k i Hi. pose proof (inode_at_lt _ _ _ Hi). unfold inode_at in Hi.
    destruct (nodes s1 !! k) as [nd|] eqn:E; [|done]. injection Hi as <-.
    split; [by eapply Hz|]. apply elem_of_seq. simpl in Hl. lia. }
  split_and!; [done| |].
  - split; try done.
    + split_and!; try done.
      * intros h Hh. split_and!; [|done|constructor]. rewrite Eq. apply lookup_replicate_2.
        change INODE_HASH_SIZE with 8 in Hh. lia.
      * intros h k Hk. by apply elem_of_nil in Hk.
      * intros k _. unfold hn, hp. destruct (nodes s1 !! k) as [nd|] eqn:E; [|done].
        destruct (Hz _ _ E) as (_ & ? & ?). done.
    + intros k i Hi. by destruct (Hat _ _ Hi) as [-> _].
    + intros k i Hi. destruct (Hat _ _ Hi) as [-> Hk]. done.
    + intros k i Hi Hr0. by destruct (Hat _ _ Hi) as [-> _].
    + intros n k i Hk. by apply Hno in Hk.
    + intros n k k' i i' Hk. by apply Hno in Hk.
    + by rewrite Ed.
    + by rewrite Ed.
    + by rewrite Ed.
    + intros k. unfold inode_at. rewrite fmap_is_Some, lookup_lt_is_Some. cbn in Hl. cbn. lia.
  - intros n e He. right. rewrite Ed. split; [|done]. intros k i Hk. by apply Hno in Hk.
Qed.

(** [main]'s initialisation of the cache over a file system whose inode
    table is sound ends in a state that satisfies the cache invariant: all 32
    nodes are on the circular free list, every hash queue is empty, and each
    inode reads as it is on disk. *)
Theorem init_cache_ok d :
  is_Some stack_word -> ok d -> inode_area d -> table_sound d ->
  wp (initFreeInCoreINodeList ;;; initHashQueues) (IState d [] None (replicate 8 None)) (fun _ s' =>
    ds s' = d /\ cache_ok s' (seq 0 INODE_BUFFER_SIZE) (fun _ => []) /\
    forall n e, disk_inode d n = Some e -> inode_view s' (fun _ => []) n e).
Proof. apply boot_cache_ok. Qed.

End cache.
