(* ===== verification/CacheUse.v ===== *)
(** The cache as its clients see it: what each inode number reads as, and how
    many references there are to it. [iget] adds one reference and [iput] takes
    one away; no client can tell which node holds an inode, or that another one
    was evicted. *)

From S2P Require Export CacheInv.

Section cache_use.
Context `{BlockStore ok} `{shifts : !DefinedShifts}.
Local Abbreviation cache_ok := (cache_ok (ok := ok)).
Local Abbreviation updates := (updates (ok := ok)).

(** The references to inode [n]. *)
Definition refs (s : istate) (Q : Z -> list nat) (n c : Z) : Prop :=
  (exists k i, caches s Q n k i /\ reference_count i = c) \/
  (c = 0 /\ forall k i, ~ caches s Q n k i).

Lemma refs_unique s F Q n c c' : cache_ok s F Q -> refs s Q n c -> refs s Q n c' -> c = c'.
Proof.
  intros Hc [(k & i & Hk & <-)|[-> Hno]] [(k' & i' & Hk' & <-)|[-> Hno']]; try done.
  - pose proof (c_uniq _ _ _ Hc _ _ _ _ _ Hk Hk') as ->. destruct Hk as [E _], Hk' as [E' _]. congruence.
  - by apply Hno' in Hk.
  - by apply Hno in Hk'.
Qed.

Lemma refs_cached s F Q n k i c :
  cache_ok s F Q -> caches s Q n k i -> refs s Q n c -> reference_count i = c.
Proof. intros Hc Hk Hr. eapply refs_unique; [done| |exact Hr]. left. by exists k, i. Qed.

(** Every number is cached or not, and reads as something. *)
Lemma cached_or_not s F Q n :
  cache_ok s F Q -> inode_num n -> (exists k i, caches s Q n k i) \/ (forall k i, ~ caches s Q n k i).
Proof.
  intros Hc Hn. destruct (cache_uniq_hashLookup _ _ _ _ Hc Hn) as [(k & i & Hk & _)|[Hno _]]; eauto.
Qed.

Lemma inode_view_total s F Q n :
  cache_ok s F Q -> inode_num n -> exists d, inode_view s Q n d.
Proof.
  intros Hc Hn.
  destruct (getDiskInode_Ret (ds s) n junk_iNode (c_disk _ _ _ Hc) (c_area _ _ _ Hc) Hn) as (e & _ & He & _).
  destruct (cached_or_not _ _ _ _ Hc Hn) as [(k & i & Hk)|Hno].
  - destruct (decide (ic_linksCount i = 0)) as [Hl|Hl].
    + exists e. right. split; [|done]. intros k' i' Hk'.
      pose proof (c_uniq _ _ _ Hc _ _ _ _ _ Hk Hk') as <-. destruct Hk as [E _], Hk' as [E' _]. congruence.
    + eexists. left. by exists k, i.
  - exists e. right. split; [|done]. intros k i Hk. by apply Hno in Hk.
Qed.

Lemma refs_total s F Q m : cache_ok s F Q -> inode_num m -> exists c, refs s Q m c.
Proof.
  intros Hc Hm. destruct (cached_or_not _ _ _ _ Hc Hm) as [(k & i & Hk)|Hno].
  - exists (reference_count i). left. by exists k, i.
  - exists 0. by right.
Qed.

(** So it is enough to show one direction. *)
Lemma views_agree s s' F F' Q Q' :
  cache_ok s F Q -> cache_ok s' F' Q' ->
  (forall m d, inode_num m -> inode_view s Q m d -> inode_view s' Q' m d) ->
  forall m d, inode_num m -> inode_view s' Q' m d <-> inode_view s Q m d.
Proof.
  intros Hc Hc' Hv m d Hm. split; [|by apply Hv]. intros Hd.
  destruct (inode_view_total _ _ _ _ Hc Hm) as [d0 Hd0].
  by rewrite (inode_view_unique _ _ _ _ _ _ Hc' Hd (Hv _ _ Hm Hd0)).
Qed.

(** Two states that a client cannot tell apart but for the references. *)
Record same_inodes (s s' : istate) (F' : list nat) (Q Q' : Z -> list nat) (dr : Z -> Z) : Prop := {
  si_ok : cache_ok s' F' Q';
  si_view : forall m d, inode_num m -> inode_view s' Q' m d <-> inode_view s Q m d;
  si_refs : forall m c, refs s Q m c -> refs s' Q' m (c + dr m)
}.

(** The nodes that keep their inode, and its links: those with more than [lo]
    references. *)
Definition stays (s s' : istate) (Q Q' : Z -> list nat) (lo : Z -> Z) : Prop :=
  forall m k i, caches s Q m k i -> lo m < reference_count i ->
    exists i', caches s' Q' m k i' /\ (ic_linksCount i <> 0 -> ic_linksCount i' <> 0).

Lemma acquires_stays s s' F F' Q Q' n k i0 i :
  cache_ok s F Q -> acquires s s' F F' Q Q' n k i0 i -> stays s s' Q Q' (fun _ => 0).
Proof.
  intros Hc Ha m j i' Hj Hpos. pose proof (fun m j i' => acquires_caches _ _ _ _ _ _ _ _ _ _ m j i' Ha) as Hcs.
  destruct (decide (j = k)) as [->|Hjk].
  - pose proof Hj as (Hj1 & _ & <-).
    pose proof (a_old _ _ _ _ _ _ _ _ _ _ Ha) as Ho. rewrite Hj1 in Ho. injection Ho as ->.
    assert (ic_inode_number i0 = n) as En.
    { destruct (a_evict _ _ _ _ _ _ _ _ _ _ Ha) as [(_ & _ & E)|E]; [done|lia]. }
    exists i. split; [apply Hcs; by left|]. intros Hl.
    assert (getDiskINodeData i = getDiskINodeData i0) as E.
    { eapply (inode_view_unique s F Q n); [done|apply (a_view _ _ _ _ _ _ _ _ _ _ Ha)|].
      left. exists k, i0. by rewrite <- En. }
    change (linksCount (getDiskINodeData i) <> 0). by rewrite E.
  - exists i'. split; [|done]. apply Hcs. by right.
Qed.

Lemma acquires_length s s' F F' Q Q' n k i0 i :
  cache_ok s F Q -> acquires s s' F F' Q Q' n k i0 i -> (length F <= length F' + 1)%nat.
Proof.
  intros Hc Ha. rewrite Nat.add_1_r. change (Datatypes.S (length F')) with (length (k :: F')).
  apply submseteq_length, NoDup_submseteq; [by destruct (c_free _ _ _ Hc) as (_ & ? & _)|].
  intros j Hj. apply elem_of_cons. destruct (decide (j = k)); [by left|right].
  by apply (a_freeset _ _ _ _ _ _ _ _ _ _ Ha).
Qed.

Lemma updates_stays s s' F F' Q n k i i0 lo :
  caches s Q n k i0 -> updates s s' F F' Q n k i -> getDiskINodeData i = getDiskINodeData i0 ->
  stays s s' Q Q lo.
Proof.
  intros Hk Hu Hd m j i' Hj _. pose proof (fun m j i' => updates_caches _ _ _ _ _ _ _ _ _ m j i' Hu Hk) as Hcs.
  destruct (decide (j = k)) as [->|Hjk].
  - exists i. destruct Hj as (Hj & _ & <-), Hk as (Hk & _ & <-). rewrite Hj in Hk. injection Hk as ->.
    split; [apply Hcs; by left|]. change (linksCount (getDiskINodeData i0) <> 0 -> linksCount (getDiskINodeData i) <> 0).
    by rewrite Hd.
  - exists i'. split; [|done]. apply Hcs. by right.
Qed.

Lemma updates_others s s' F F' Q n k i i0 m j i1 :
  caches s Q n k i0 -> updates s s' F F' Q n k i -> m <> n -> caches s Q m j i1 -> caches s' Q m j i1.
Proof.
  intros Hk Hu Hne Hj. apply (updates_caches _ _ _ _ _ _ _ _ _ _ _ _ Hu Hk). right. split; [|done].
  intros ->. destruct Hk as (Hk & _ & E), Hj as (Hj & _ & E'). congruence.
Qed.

Definition one (n m : Z) : Z := if decide (m = n) then 1 else 0.

Lemma one_self n : one n n = 1.
Proof. unfold one. by rewrite decide_True. Qed.

Lemma one_nonneg n m : 0 <= one n m.
Proof. unfold one. destruct (decide _); lia. Qed.

Lemma acquires_refs s s' F F' Q Q' n k i0 i m c :
  cache_ok s F Q -> acquires s s' F F' Q Q' n k i0 i -> refs s Q m c -> refs s' Q' m (c + one n m).
Proof.
  intros Hc Ha Hr. pose proof (fun m j i' => acquires_caches _ _ _ _ _ _ _ _ _ _ m j i' Ha) as Hcs.
  unfold one. destruct (decide (m = n)) as [->|Hne].
  - left. exists k, i. split; [apply Hcs; by left|].
    destruct (a_refs _ _ _ _ _ _ _ _ _ _ Ha) as [-> _]. f_equal.
    destruct (a_evict _ _ _ _ _ _ _ _ _ _ Ha) as [Hk|Hz].
    + by eapply refs_cached.
    + rewrite Hz. destruct Hr as [(j & i' & Hj & Hr)|[-> _]]; [|done].
      pose proof (a_other _ _ _ _ _ _ _ _ _ _ Ha _ _ Hj) as ->.
      destruct Hj as (Hj & _). rewrite (a_old _ _ _ _ _ _ _ _ _ _ Ha) in Hj. congruence.
  - rewrite Z.add_0_r. destruct Hr as [(j & i' & Hj & Hr)|[-> Hno]].
    + destruct (decide (j = k)) as [->|Hjk].
      * right. pose proof Hj as (Hj1 & _ & Hj3). rewrite (a_old _ _ _ _ _ _ _ _ _ _ Ha) in Hj1.
        injection Hj1 as <-. destruct (a_evict _ _ _ _ _ _ _ _ _ _ Ha) as [(_ & _ & E)|Hz]; [congruence|].
        split; [congruence|]. intros j i' Hj'. apply Hcs in Hj' as [(_ & _ & E)|[Hjk Hj']]; [done|].
        apply Hjk. by eapply (c_uniq _ _ _ Hc).
      * left. exists j, i'. split; [|done]. apply Hcs. by right.
    + right. split; [done|]. intros j i' Hj. apply Hcs in Hj as [(_ & _ & E)|[_ Hj]]; [done|].
      by apply Hno in Hj.
Qed.

Lemma acquires_same s s' F F' Q Q' n k i0 i :
  cache_ok s F Q -> acquires s s' F F' Q Q' n k i0 i -> same_inodes s s' F' Q Q' (one n).
Proof.
  intros Hc Ha. pose proof (acquires_ok _ _ _ _ _ _ _ _ _ _ Hc Ha) as Hc'. split.
  - done.
  - eapply views_agree; [done..|]. intros m d _. by eapply acquires_view.
  - intros m c. by eapply acquires_refs.
Qed.

(** ** [iput] *)

Lemma updates_refs_by delta s s' F F' Q n k i i0 m c :
  cache_ok s F Q -> caches s Q n k i0 -> updates s s' F F' Q n k i ->
  reference_count i = reference_count i0 + delta -> refs s Q m c ->
  refs s' Q m (c + delta * one n m).
Proof.
  intros Hc Hk Hu Hr Hm. pose proof (fun m j i' => updates_caches _ _ _ _ _ _ _ _ _ m j i' Hu Hk) as Hcs.
  unfold one. destruct (decide (m = n)) as [->|Hne].
  - left. exists k, i. split; [apply Hcs; by left|]. rewrite Hr.
    rewrite (refs_cached _ _ _ _ _ _ _ Hc Hk Hm). lia.
  - rewrite Z.mul_0_r, Z.add_0_r. destruct Hm as [(j & i' & Hj & Hm)|[-> Hno]].
    + left. exists j, i'. split; [|done]. apply Hcs. right. split; [|done]. intros ->.
      destruct Hj as (Hj & _ & Ej), Hk as (Hk & _ & Ek). congruence.
    + right. split; [done|]. intros j i' Hj. apply Hcs in Hj as [(_ & _ & E)|[_ Hj]]; [done|].
      by apply Hno in Hj.
Qed.

Lemma updates_refs s s' F F' Q n k i i0 m c :
  cache_ok s F Q -> caches s Q n k i0 -> updates s s' F F' Q n k i ->
  reference_count i = reference_count i0 - 1 -> refs s Q m c -> refs s' Q m (c + - one n m).
Proof.
  intros Hc Hk Hu Hr Hm. replace (- one n m) with (-1 * one n m) by lia.
  by eapply updates_refs_by.
Qed.

Lemma updates_refs_same s s' F F' Q n k i i0 m c :
  cache_ok s F Q -> caches s Q n k i0 -> updates s s' F F' Q n k i ->
  reference_count i = reference_count i0 -> refs s Q m c -> refs s' Q m c.
Proof.
  intros Hc Hk Hu Hr Hm. replace c with (c + 0 * one n m) by lia.
  eapply updates_refs_by; eauto. lia.
Qed.

(** An inode without links reads as on disk: if that stays, so does its view. *)
Lemma updates_view_unlinked s s' F F' Q n k i i0 m d :
  cache_ok s F Q -> caches s Q n k i0 -> updates s s' F F' Q n k i ->
  getDiskINodeData i = getDiskINodeData i0 -> ic_linksCount i0 = 0 -> inode_num m ->
  disk_inode (ds s') n = disk_inode (ds s) n -> inode_view s Q m d -> inode_view s' Q m d.
Proof.
  intros Hc Hk Hu Hd Hl Hm Hn Hv. pose proof (fun m j i' => updates_caches _ _ _ _ _ _ _ _ _ m j i' Hu Hk) as Hcs.
  assert (ic_linksCount i = 0) as Hl'.
  { change (linksCount (getDiskINodeData i) = 0). by rewrite Hd. }
  destruct Hv as [(j & i' & Hj & Hj' & ->)|[Hno Hd']].
  - left. exists j, i'. split_and!; [|done..]. apply Hcs. right. split; [|done]. intros ->.
    destruct Hj as (Hj & _), Hk as (Hk & _). congruence.
  - right. split.
    + intros j i' Hj. apply Hcs in Hj as [(-> & -> & _)|[_ Hj]]; [done|by eapply Hno].
    + destruct (decide (m = n)) as [->|Hne]; [by rewrite Hn|].
      by rewrite (u_disk _ _ _ _ _ _ _ _ Hu).
Qed.

(** One reference less, and nothing else changes for a client: unless the
    inode has no link left, which [iput] then deletes. *)
Lemma iput_keeps s F Q n k i :
  cache_ok s F Q -> caches s Q n k i -> 0 < reference_count i ->
  ic_linksCount i <> 0 \/ n = 0 -> inode_view s Q n (getDiskINodeData i) ->
  wp (iput k) s (fun r s' => r = 0 /\ changes (eq (inode_block n)) (ds s) (ds s') /\
    exists F', same_inodes s s' F' Q Q (fun m => - one n m) /\ stays s s' Q Q (fun _ => -1) /\
      length F' = (length F + if decide (reference_count i = 1%Z) then 1 else 0)%nat /\
      (forall m j i1, m <> n -> caches s Q m j i1 -> caches s' Q m j i1)).
Proof.
  intros Hc Hk Hpos Hlk Hview.
  destruct (c_hashed _ _ _ Hc _ _ _ Hk) as (Hnum & _).
  assert (forall s' F' i', updates s s' F F' Q n k i' -> getDiskINodeData i' = getDiskINodeData i ->
    reference_count i' = reference_count i - 1 ->
    (ic_linksCount i = 0 -> disk_inode (ds s') n = disk_inode (ds s) n) ->
    same_inodes s s' F' Q Q (fun m => - one n m)) as Hsame.
  { intros s' F' i' Hu Hd Hr Hdisk. pose proof (updates_ok _ _ _ _ _ _ _ _ _ Hc Hk Hu) as Hc'. split.
    - done.
    - eapply views_agree; [done..|]. intros m d Hm.
      destruct (decide (ic_linksCount i = 0)) as [Hl|Hl].
      + eapply updates_view_unlinked; eauto.
      + eapply updates_view; eauto.
    - intros m c. by eapply updates_refs. }
  destruct (decide (reference_count i = 1)) as [H1'|H1'].
  - eapply wp_mono; [by eapply iput_release|].
    intros r s' (-> & Hch & Hdisk & Hcl & i' & Hu & Hd & Hr). split_and!; [done|done|].
    exists (F ++ [k]). split_and!; [|by eapply updates_stays|by rewrite length_app|exact (fun m j i1 => updates_others _ _ _ _ _ _ _ _ _ m j i1 Hk Hu)].
    eapply Hsame; [done|done|lia|]. intros Hl.
    destruct (decide (clean i)) as [Hc1|Hc1]; [by rewrite Hcl|].
    rewrite Hdisk by auto. destruct Hview as [(j & i2 & Hj & Hl2 & E)|[_ ->]]; [|done].
    pose proof (c_uniq _ _ _ Hc _ _ _ _ _ Hk Hj) as ->. destruct Hj as (Hj & _), Hk as (Hk & _). congruence.
  - eapply wp_mono; [eapply iput_shared; [done|done|lia]|].
    intros r s' (-> & Hds & i' & Hu & Hd & Hr). split_and!; [done|rewrite Hds; auto with nao|].
    exists F. split_and!; [|by eapply updates_stays|lia|exact (fun m j i1 => updates_others _ _ _ _ _ _ _ _ _ m j i1 Hk Hu)]. eapply Hsame; [done|done|done|]. by rewrite Hds.
Qed.

Lemma updates_view_other s s' F F' Q n k i i0 m d :
  cache_ok s F Q -> caches s Q n k i0 -> updates s s' F F' Q n k i ->
  inode_num m -> m <> n -> inode_view s Q m d -> inode_view s' Q m d.
Proof.
  intros Hc Hk Hu Hm Hne Hv. pose proof (fun m j i' => updates_caches _ _ _ _ _ _ _ _ _ m j i' Hu Hk) as Hcs.
  destruct Hv as [(j & i' & Hj & Hl & ->)|[Hl Hd]].
  - left. exists j, i'. split_and!; [|done..]. apply Hcs. right. split; [|done]. intros ->.
    destruct Hj as (Hj & _ & E), Hk as (Hk & _ & E'). congruence.
  - right. rewrite (u_disk _ _ _ _ _ _ _ _ Hu) by done. split; [|done].
    intros j i' Hj. apply Hcs in Hj as [(_ & _ & E)|[_ Hj]]; [done|]. by eapply Hl.
Qed.

(** The contents of a node that is given back are what the inode reads as from
    then on, whatever it read as before: also for a root without links, if it is
    the last reference. *)
Lemma iput_gives_back s F Q n k i :
  cache_ok s F Q -> caches s Q n k i -> 0 < reference_count i ->
  ic_linksCount i <> 0 \/
    (n = 0 /\ reference_count i = 1 /\ (~ clean i \/ inode_view s Q n (getDiskINodeData i))) ->
  wp (iput k) s (fun r s' => r = 0 /\ changes (eq (inode_block n)) (ds s) (ds s') /\
    stays s s' Q Q (fun _ => -1) /\ exists F',
      cache_ok s' F' Q /\ inode_view s' Q n (getDiskINodeData i) /\
      (forall m d, inode_num m -> m <> n -> inode_view s Q m d -> inode_view s' Q m d) /\
      (forall m c, refs s Q m c -> refs s' Q m (c + - one n m)) /\ (length F <= length F')%nat /\
      (forall m j i1, m <> n -> caches s Q m j i1 -> caches s' Q m j i1)).
Proof.
  intros Hc Hk Hpos Hcase. destruct (c_hashed _ _ _ Hc _ _ _ Hk) as (Hnum & _).
  destruct (decide (ic_linksCount i = 0)) as [Hl|Hl].
  - destruct Hcase as [|(-> & H1' & Hv)]; [done|].
    eapply wp_mono; [by eapply iput_release; eauto|].
    intros r s' (-> & Hch & Hdisk & Hcl & i' & Hu & Hd & Hr). split_and!; [done|done|by eapply updates_stays|].
    pose proof (updates_ok _ _ _ _ _ _ _ _ _ Hc Hk Hu) as Hc'.
    exists (F ++ [k]). split_and!; [done| | | |rewrite length_app; lia|exact (fun m j i1 => updates_others _ _ _ _ _ _ _ _ _ m j i1 Hk Hu)].
    + right. split.
      * intros j i1 Hj. apply (updates_caches _ _ _ _ _ _ _ _ _ _ _ _ Hu Hk) in Hj as [(_ & -> & _)|[Hjk Hj]].
        -- change (linksCount (getDiskINodeData i') = 0). by rewrite Hd.
        -- by pose proof (c_uniq _ _ _ Hc _ _ _ _ _ Hk Hj).
      * destruct (decide (clean i)) as [Hci|Hci]; [|by apply Hdisk; left].
        rewrite Hcl by done. destruct Hv as [|[(j & ij & Hj & Hlj & E)|[_ E]]]; [done| |done].
        pose proof (c_uniq _ _ _ Hc _ _ _ _ _ Hk Hj) as <-. destruct Hk as [E1 _], Hj as [E2 _]. congruence.
    + intros m d Hm Hne. exact (updates_view_other _ _ _ _ _ _ _ _ _ m d Hc Hk Hu Hm Hne).
    + intros m c Hm. eapply (updates_refs s s' F (F ++ [k]) Q 0 k i' i); [done..|lia|done].
  - assert (inode_view s Q n (getDiskINodeData i)) as Hv by (left; by exists k, i).
    eapply wp_mono; [by eapply iput_keeps; eauto|].
    intros r s' (-> & Hch & F' & [Hc' V R] & Hst & HF & Hot). split_and!; [done|done|done|].
    exists F'. split_and!; [done|by apply V| |done|destruct (decide (reference_count i = 1)); lia|done].
    intros m d Hm _ Hd. by apply V.
Qed.

(** ** [iget] *)

Lemma iget_same s F Q n :
  cache_ok s F Q -> inode_num n -> (forall c, refs s Q n c -> c + 1 < 2 ^ 64) ->
  wp (iget n 0) s (fun r s' =>
    match r with
    | None => F = [] /\ s' = s /\ refs s Q n 0
    | Some k => exists F' Q' i, same_inodes s s' F' Q Q' (one n) /\
        stays s s' Q Q' (fun _ => 0) /\ ds s' = ds s /\ caches s' Q' n k i /\
        inode_view s Q n (getDiskINodeData i) /\ 0 < reference_count i /\
        (length F <= length F' + 1)%nat /\ (reference_count i = 1 \/ (length F <= length F')%nat) /\
        (forall m j i1, m <> n -> caches s Q m j i1 -> 0 < reference_count i1 -> caches s' Q' m j i1)
    end).
Proof.
  intros Hc Hn Hmax. eapply wp_mono; [apply (iget_ok _ F Q); [done|done|]|].
  { intros k i Hk. apply Hmax. left. by exists k, i. }
  intros [k|] s'.
  - intros (F' & Q' & i & i' & Ha). exists F', Q', i'. split_and!.
    + by eapply acquires_same.
    + by eapply acquires_stays.
    + apply (a_ds _ _ _ _ _ _ _ _ _ _ Ha).
    + apply (acquires_caches _ _ _ _ _ _ _ _ _ _ _ _ _ Ha). by left.
    + apply (a_view _ _ _ _ _ _ _ _ _ _ Ha).
    + destruct (a_refs _ _ _ _ _ _ _ _ _ _ Ha) as [-> _].
      destruct (c_refs _ _ _ Hc _ _ (a_old _ _ _ _ _ _ _ _ _ _ Ha)) as [[? _] _]. lia.
    + by eapply acquires_length.
    + destruct (decide (k ∈ F)) as [Hin|Hout].
      * left. destruct (a_refs _ _ _ _ _ _ _ _ _ _ Ha) as [-> _].
        apply (c_refs _ _ _ Hc _ _ (a_old _ _ _ _ _ _ _ _ _ _ Ha)) in Hin. lia.
      * right. apply submseteq_length, NoDup_submseteq; [by destruct (c_free _ _ _ Hc) as (_ & ? & _)|].
        intros j Hj. apply (a_freeset _ _ _ _ _ _ _ _ _ _ Ha). split; [done|]. by intros ->.
    + intros m j i1 Hne Hj Hpos. apply (acquires_caches _ _ _ _ _ _ _ _ _ _ _ _ _ Ha). right. split; [|done].
      intros ->. pose proof Hj as (Hj1 & _ & Ej). pose proof (a_old _ _ _ _ _ _ _ _ _ _ Ha) as Ho.
      rewrite Hj1 in Ho. injection Ho as ->.
      destruct (a_evict _ _ _ _ _ _ _ _ _ _ Ha) as [(_ & _ & E)|E]; [congruence|lia].
  - intros (-> & -> & Hno). split_and!; [done|done|]. right. by split.
Qed.

(** ** Nodes that stay in place *)

(** The nodes with more than [lo] references keep their inode, and its links. *)
Definition kept (lo : Z) (s s' : istate) (Q Q' : Z -> list nat) : Prop := stays s s' Q Q' (fun _ => lo).

Lemma stays_mono lo lo' s s' Q Q' : stays s s' Q Q' lo -> (forall m, lo m <= lo' m) -> stays s s' Q Q' lo'.
Proof. intros Hs Hl m k i Hk Hlt. apply (Hs m k i Hk). specialize (Hl m). lia. Qed.

Lemma kept_refl lo s Q : kept lo s s Q Q.
Proof. intros m k i Hk _. by exists i. Qed.

Lemma updates_kept lo s s' F F' Q n k i i0 :
  caches s Q n k i0 -> updates s s' F F' Q n k i -> (ic_linksCount i0 <> 0 -> ic_linksCount i <> 0) ->
  kept lo s s' Q Q.
Proof.
  intros Hk Hu Hl m j i' Hj _. destruct (decide (j = k)) as [->|Hjk].
  - exists i. pose proof Hj as (Hj1 & _ & Em). pose proof Hk as (Hk1 & _ & En). rewrite Hj1 in Hk1. injection Hk1 as ->.
    split; [|done]. apply (updates_caches _ _ _ _ _ _ _ _ _ _ _ _ Hu Hk). left. split; [done|]. split; congruence.
  - exists i'. split; [|done]. apply (updates_caches _ _ _ _ _ _ _ _ _ _ _ _ Hu Hk). by right.
Qed.

(** In between no reference is given up. *)
Lemma kept_trans s s1 s2 F1 Q Q1 Q2 dr :
  cache_ok s1 F1 Q1 -> kept 0 s s1 Q Q1 -> (forall m c, refs s Q m c -> refs s1 Q1 m (c + dr m)) ->
  (forall m, 0 <= dr m) -> kept 0 s1 s2 Q1 Q2 -> kept 0 s s2 Q Q2.
Proof.
  intros Hc1 K1 R1 Hdr K2 m k i Hk Hpos. destruct (K1 m k i Hk Hpos) as (i1 & Hk1 & Hl1).
  assert (refs s Q m (reference_count i)) as Hr by (left; by exists k, i).
  destruct (K2 m k i1 Hk1) as (i2 & Hk2 & Hl2); [|exists i2; auto].
  rewrite (refs_cached _ _ _ _ _ _ _ Hc1 Hk1 (R1 _ _ Hr)). specialize (Hdr m). lia.
Qed.

(** The second step keeps every node. *)
Lemma kept_then lo s s1 s2 F1 Q Q1 Q2 :
  cache_ok s1 F1 Q1 -> kept lo s s1 Q Q1 -> kept (-1) s1 s2 Q1 Q2 -> kept lo s s2 Q Q2.
Proof.
  intros Hc1 K1 K2 m k i Hk Hlt. destruct (K1 m k i Hk Hlt) as (i1 & Hk1 & Hl1).
  destruct (K2 m k i1 Hk1) as (i2 & Hk2 & Hl2); [|exists i2; auto].
  destruct (c_refs _ _ _ Hc1 _ _ (proj1 Hk1)) as [[? _] _]. lia.
Qed.

(** An inode whose mutex is held is waited for. *)
Lemma iget_held_hangs s F Q n k i :
  cache_ok s F Q -> caches s Q n k i -> iget n 0 (inode_set k (ic_set_mutex true i) s) = Hang.
Proof.
  intros Hc Hk. pose proof Hk as (Hi & _ & En). pose proof (inode_at_lt _ _ _ Hi) as Hlt.
  set (i1 := ic_set_mutex true i). set (s1 := inode_set k i1 s).
  assert (inode_at s1 k = Some i1) as Hi1 by (unfold s1; rewrite inode_at_set by done; by rewrite decide_True).
  unfold iget. erewrite bind_Ret; cycle 1.
  { eapply (lookup_cached s s1); [done|exact Hk| |].
    - eapply (hash_ok_set k _ i); [apply (c_hash _ _ _ Hc)|exact Hi|done].
    - intros j. unfold s1. rewrite inode_at_set by done.
      destruct (decide (j = k)) as [->|]; [|done]. by rewrite Hi. }
  unfold bind at 1. by rewrite (inode_lock_twice _ _ _ Hi1).
Qed.

(** ** A client that holds a reference works on the inode *)

(** It may change the contents, marking the inode, and the disk outside the
    inode table. *)
Lemma client_updates s F Q n k i i' d' :
  cache_ok s F Q -> caches s Q n k i -> 0 < reference_count i ->
  reference_count i' = reference_count i -> iNodeMutex i' = false ->
  ic_inode_number i' = n -> ic_device_number i' = 0 -> wf_iNode (getDiskINodeData i') ->
  inode_changed i' = true \/ (inode_changed i' = inode_changed i /\
    file_data_changed i' = file_data_changed i /\ getDiskINodeData i' = getDiskINodeData i) ->
  ok d' -> inode_area d' -> (forall m, inode_num m -> disk_inode d' m = disk_inode (ds s) m) ->
  updates s (inode_set k i' (set_ds d' s)) F F Q n k i'.
Proof.
  intros Hc Hk Hpos Hr Hm Hn Hd Hw Hch Hok Ha Hdisk.
  pose proof Hk as (Hi & _ & En). pose proof (inode_at_lt _ _ _ Hi) as Hlt.
  destruct (c_refs _ _ _ Hc _ _ Hi) as [Hr64 Hfree].
  destruct (c_hashed _ _ _ Hc _ _ _ Hk) as (Hnum & Hdev & _ & _ & Hco).
  split; try done.
  - intros j. rewrite inode_at_set by done. done.
  - apply freelist_ok_set. exact (c_free _ _ _ Hc).
  - eapply (hash_ok_set k _ i); [exact (c_hash _ _ _ Hc)|exact Hi|unfold inode_hash; by rewrite Hn, Hd, En, Hdev].
  - by rewrite Hr.
  - rewrite Hr. lia.
  - intros Hcl Hl. destruct Hch as [Hch|(E1 & E2 & E3)]; [by destruct Hcl; congruence|].
    cbn [ds inode_set set_nodes set_ds]. rewrite Hn, Hdisk, E3, <- En by done.
    apply Hco; [unfold clean in *; by rewrite <- E1, <- E2|].
    change (linksCount (getDiskINodeData i) <> 0). by rewrite <- E3.
  - intros m Hm' _. by apply Hdisk.
  - intros e He. cbn [ds inode_set set_nodes set_ds] in He. rewrite Hdisk in He by done.
    by eapply (c_table _ _ _ Hc).
Qed.

(** * Counting nodes *)

(** The nodes in use, and the inodes they hold. *)
Definition busy (F : list nat) : list nat := filter (fun k => k ∉ F) (seq 0 INODE_BUFFER_SIZE).
Definition held_number (s : istate) (k : nat) : Z :=
  match inode_at s k with Some i => ic_inode_number i | None => 0 end.

(** A node is free or in use. *)
Lemma nodes_counted s F Q : cache_ok s F Q -> (length F + length (busy F))%nat = INODE_BUFFER_SIZE.
Proof.
  intros Hc. destruct (c_free _ _ _ Hc) as (_ & Hnd & Hlt & _).
  rewrite <- length_app. etransitivity; [|apply (length_seq INODE_BUFFER_SIZE 0)]. apply Permutation_length.
  apply NoDup_Permutation.
  - apply NoDup_app. split; [done|]. split; [|apply NoDup_filter, NoDup_seq].
    intros k Hk Hb. by apply list_elem_of_filter in Hb as [? _].
  - apply NoDup_seq.
  - intros k. unfold busy. rewrite elem_of_app, list_elem_of_filter, elem_of_seq. split; [|destruct (decide (k ∈ F)); naive_solver].
    intros [Hk|[_ Hk]]; [|done]. rewrite Forall_forall in Hlt. apply Hlt in Hk. split; [lia|].
    apply (c_nodes _ _ _ Hc). unfold inode_at. by apply fmap_is_Some, lookup_lt_is_Some.
Qed.

Lemma busy_caches s F Q k :
  cache_ok s F Q -> k ∈ busy F -> exists i, caches s Q (held_number s k) k i /\ reference_count i <> 0.
Proof.
  intros Hc [Hk Hs]%list_elem_of_filter. apply elem_of_seq in Hs as [_ Hs].
  apply (c_nodes _ _ _ Hc) in Hs as [i Hi]. destruct (c_refs _ _ _ Hc _ _ Hi) as [_ Hf].
  assert (reference_count i <> 0) as Hr by naive_solver. exists i. split; [|done].
  split; [done|]. split; [by eapply (c_live _ _ _ Hc)|]. unfold held_number. by rewrite Hi.
Qed.

Lemma busy_numbers s F Q n :
  cache_ok s F Q -> n ∈ held_number s <$> busy F <-> inode_num n /\ exists c, refs s Q n c /\ c <> 0.
Proof.
  intros Hc. rewrite list_elem_of_fmap. split.
  - intros (k & -> & Hk). destruct (busy_caches _ _ _ _ Hc Hk) as (i & Hi & Hr).
    split; [by apply (c_hashed _ _ _ Hc _ _ _ Hi)|]. exists (reference_count i). split; [|done]. left. by exists k, i.
  - intros (Hn & c & [(k & i & Hk & <-)|[-> _]] & Hr); [|done]. exists k. pose proof Hk as (Hi & _ & <-).
    split; [unfold held_number; by rewrite Hi|]. apply list_elem_of_filter.
    destruct (c_refs _ _ _ Hc _ _ Hi) as [_ Hf]. split; [naive_solver|]. apply elem_of_seq.
    split; [lia|]. apply (c_nodes _ _ _ Hc). by rewrite Hi.
Qed.

Lemma busy_nodup s F Q : cache_ok s F Q -> NoDup (held_number s <$> busy F).
Proof.
  intros Hc. apply NoDup_fmap_2_strong; [|apply NoDup_filter, NoDup_seq].
  intros k k' Hk Hk' E. destruct (busy_caches _ _ _ _ Hc Hk) as (i & Hi & _).
  destruct (busy_caches _ _ _ _ Hc Hk') as (i' & Hi' & _). rewrite <- E in Hi'. by eapply (c_uniq _ _ _ Hc).
Qed.

(** Two caches with the same references have as many free nodes: what the
    capacity of the cache is to a client follows from what it sees. *)
Lemma free_nodes_same s s' F F' Q Q' :
  cache_ok s F Q -> cache_ok s' F' Q' -> (forall m c, refs s Q m c -> refs s' Q' m c) -> length F' = length F.
Proof.
  intros Hc Hc' Hr. pose proof (nodes_counted _ _ _ Hc). pose proof (nodes_counted _ _ _ Hc').
  assert (length (busy F) = length (busy F')); [|lia].
  rewrite <- (length_fmap (held_number s)), <- (length_fmap (held_number s') (busy F')).
  apply Permutation_length, NoDup_Permutation; [by eapply busy_nodup..|]. intros n.
  rewrite (busy_numbers _ _ _ _ Hc), (busy_numbers _ _ _ _ Hc'). split; intros (Hn & c & Hcn & Hc0); split; try done.
  - exists c. auto.
  - destruct (refs_total _ _ _ _ Hc Hn) as [c0 Hr0]. exists c0. split; [done|].
    by rewrite (refs_unique _ _ _ _ _ _ Hc' (Hr _ _ Hr0) Hcn).
Qed.

End cache_use.
