(* ===== verification/CacheHeld.v ===== *)
(** A thread that holds the mutex of one inode while it works on others: nothing
    but [inode_lock] looks at a mutex, so that [iget] and [iput] of other inodes
    do what they do when it is free. *)

From S2P Require Export CacheUse.

Section held.
Context `{BlockStore ok} `{shifts : !DefinedShifts}.
Local Abbreviation cache_ok := (cache_ok (ok := ok)).

(** The state in which the mutex of node [w] is held. *)
Definition node_hold (n : Node) : Node := set_inode (ic_set_mutex true (inode n)) n.
Definition hold (w : nat) (s : istate) : istate := set_nodes (alter node_hold w (nodes s)) s.

Definition held_outcome {A} (w : nat) (o : outcome istate A) : outcome istate A :=
  match o with Ret a s => Ret a (hold w s) | Undef u => Undef u | Hang => Hang | NoFuel => NoFuel end.

(** [m] runs from [s] as if node [w] was not locked. *)
Definition blind_at {A} (w : nat) (m : IM A) (s : istate) : Prop := m (hold w s) = held_outcome w (m s).

Lemma wp_held {A} w (m : IM A) s (P : A -> istate -> Prop) :
  blind_at w m s -> wp m s P -> wp m (hold w s) (fun a s' => exists s0, s' = hold w s0 /\ P a s0).
Proof. unfold blind_at, wp. intros ->. destruct (m s); naive_solver. Qed.

(** ** Rules *)

Section rules.
Context (w : nat).

Lemma blind_bind {A B} (m : IM A) (k : A -> IM B) s :
  blind_at w m s -> (forall a s1, m s = Ret a s1 -> blind_at w (k a) s1) -> blind_at w (bind m k) s.
Proof.
  unfold blind_at, bind. intros -> Hk. destruct (m s) as [a s1| | |]; cbn; try done. by apply Hk.
Qed.

Lemma blind_ret {A} (a : A) s : blind_at w (ret a) s.
Proof. done. Qed.

Lemma blind_undefined {A} u s : blind_at w (@undefined _ A u) s.
Proof. done. Qed.

Lemma blind_disk {A} (m : DM A) s : blind_at w (on_disk m) s.
Proof. unfold blind_at, on_disk, zoom. cbn. by destruct (m (ds s)). Qed.

Lemma blind_freeList p s : blind_at w (modify (set_freeList p)) s.
Proof. done. Qed.

Lemma blind_deref p s : blind_at w (deref p) s.
Proof. by destruct p. Qed.

Lemma blind_hash_head h s : blind_at w (hash_head h) s.
Proof. done. Qed.

Lemma blind_set_hash_head h p s : blind_at w (set_hash_head h p) s.
Proof. done. Qed.

(** What the program reads from the state or from a node, mutexes apart. *)
Lemma blind_get {A} (k : istate -> IM A) s :
  k (hold w s) (hold w s) = k s (hold w s) -> blind_at w (k s) s -> blind_at w (bind get k) s.
Proof. unfold blind_at. rewrite !bind_get. by intros ->. Qed.

Lemma blind_node {A} j (k : Node -> IM A) s :
  (forall n s1, k (node_hold n) s1 = k n s1) -> (forall n, blind_at w (k n) s) ->
  blind_at w (bind (get_node j) k) s.
Proof.
  intros Hk Hb. unfold blind_at, get_node. rewrite !bind_assoc, !bind_get. cbn [nodes hold set_nodes].
  destruct (decide (j = w)) as [->|Hne].
  - rewrite list_lookup_alter_eq. destruct (nodes s !! w) as [n|]; cbn; [|done].
    unfold bind, ret. rewrite Hk. apply Hb.
  - rewrite list_lookup_alter_ne by done. destruct (nodes s !! j) as [n|]; cbn; [|done].
    unfold bind, ret. apply Hb.
Qed.

Lemma blind_alter f j s :
  alter f j (alter node_hold w (nodes s)) = alter node_hold w (alter f j (nodes s)) ->
  blind_at w (on_node f j) s.
Proof.
  intros E. unfold blind_at, on_node, modify, hold, set_nodes. cbn -[alter]. by rewrite E.
Qed.

Lemma blind_on_node f j s : (forall n, f (node_hold n) = node_hold (f n)) -> blind_at w (on_node f j) s.
Proof.
  intros Hf. apply blind_alter. destruct (decide (j = w)) as [->|Hne]; [|by apply list_alter_alter_ne].
  rewrite !list_alter_alter_eq. apply list_alter_ext; [|done]. intros n _. apply Hf.
Qed.

(** The inode of another node. *)
Lemma blind_inode {A} j (k : inCoreiNode -> IM A) s :
  j <> w -> (forall i, blind_at w (k i) s) -> blind_at w (bind (get_inode j) k) s.
Proof.
  intros Hne Hb. unfold blind_at, get_inode, get_node. rewrite !bind_assoc, !bind_get.
  cbn [nodes hold set_nodes]. rewrite list_lookup_alter_ne by done.
  destruct (nodes s !! j) as [n|]; cbn; [|done]. unfold bind, ret. apply Hb.
Qed.

Lemma blind_put j i s : j <> w -> blind_at w (put_inode_at j i) s.
Proof. intros Hne. apply blind_alter. by apply list_alter_alter_ne. Qed.

Lemma blind_lock j s : j <> w -> blind_at w (inode_lock j) s.
Proof.
  intros Hne. apply blind_inode; [done|]. intros i. destruct (iNodeMutex i); [done|by apply blind_put].
Qed.

Lemma blind_unlock j s : j <> w -> blind_at w (inode_unlock j) s.
Proof. intros Hne. apply blind_inode; [done|]. intros i. by apply blind_put. Qed.

Lemma blind_with j f s : j <> w -> blind_at w (with_inode j f) s.
Proof.
  intros Hne. apply blind_inode; [done|]. intros i. apply blind_bind; [apply blind_disk|].
  intros i' s1 _. by apply blind_put.
Qed.

Lemma blind_while {L} fuel cond (body : L -> IM (ctl L)) l s :
  (forall l s, blind_at w (body l) s) -> blind_at w (while_do fuel cond body l) s.
Proof.
  intros Hb. revert l s. induction fuel as [|fuel IH]; intros l s; cbn [while_do]; destruct (cond l); try done.
  apply blind_bind; [apply Hb|]. intros [l'|l'] s1 _; [apply IH|apply blind_ret].
Qed.

End rules.

Lemma blind_getHash w n d s : blind_at w (getHash n d) s.
Proof.
  unfold getHash, shl64. apply blind_bind; [|intros x s1 _; apply blind_bind; [|by intros]];
    destruct (_ <? 64), shl_over; done.
Qed.

Create HintDb blind discriminated.
#[local] Hint Resolve blind_ret blind_undefined blind_disk blind_freeList blind_deref blind_getHash blind_hash_head
  blind_set_hash_head blind_on_node blind_put blind_lock blind_unlock blind_with : blind.

(** Step through a program: reads of nodes by [blind_node], everything else by
    the rules. *)
Ltac blind_step :=
  match goal with
  | |- blind_at _ (bind (get_node _) _) _ => apply blind_node; [done|intros ?]
  | |- blind_at _ (bind (get_inode _) _) _ => apply blind_inode; [done|intros ?]
  | |- blind_at _ (bind get _) _ => apply blind_get; [try done|]
  | |- blind_at _ (bind _ _) _ => apply blind_bind; [|intros ? ? ?]
  | |- blind_at _ (if ?b then _ else _) _ => destruct b
  | |- blind_at _ (match ?o with Some _ => _ | None => _ end) _ => destruct o
  | |- _ => solve [eauto with blind]
  end.

(** ** The routines of the cache *)

Section routines.
Context (w : nat).

Lemma blind_hash_walk n fuel p s : blind_at w (hash_walk fuel p n) s.
Proof.
  revert p. induction fuel as [|fuel IH]; intros [k|]; cbn [hash_walk]; try done.
  blind_step. destruct (_ =? _); [done|apply IH].
Qed.

Lemma blind_hashLookup n d s : blind_at w (hashLookup n d) s.
Proof.
  unfold hashLookup. apply blind_get; [cbn [hold nodes set_nodes]; by rewrite length_alter|].
  repeat blind_step. apply blind_hash_walk.
Qed.

Lemma blind_popFreeList s : blind_at w popFreeList s.
Proof. unfold popFreeList. repeat blind_step. Qed.

Lemma blind_freeListInsert k s : blind_at w (freeListInsert k) s.
Proof. unfold freeListInsert. repeat blind_step. Qed.

Lemma blind_freeListRemove k s : blind_at w (freeListRemove k) s.
Proof.
  unfold freeListRemove. apply blind_get.
  { cbn [hold nodes set_nodes freeList]. by rewrite length_alter. }
  apply blind_bind; [|intros [] s1 _].
  - repeat blind_step.
  - repeat blind_step.
  - apply blind_bind; [|intros; apply blind_ret]. apply blind_while. intros p s2. unfold free_unlink.
    repeat blind_step.
Qed.

Lemma blind_updateInHashQ k n d s : blind_at w (updateInHashQ k n d) s.
Proof. unfold updateInHashQ, removeFromHashQ, insertInHash. repeat blind_step. Qed.

Lemma blind_updateAndGet k s : k <> w -> blind_at w (updateAndGetINode k) s.
Proof. intros Hk. unfold updateAndGetINode. repeat blind_step. Qed.

End routines.

#[local] Hint Resolve blind_hashLookup blind_popFreeList blind_freeListInsert blind_freeListRemove
  blind_updateInHashQ blind_updateAndGet : blind.

(** ** [iget] and [iput] of the other inodes *)

(** Node [w] is in use, and holds another inode than the one asked for. *)
Lemma blind_iget s F Q p w i n :
  cache_ok s F Q -> caches s Q p w i -> 0 < reference_count i -> n <> p -> inode_num n ->
  blind_at w (iget n 0) s.
Proof.
  intros Hc Hw Hpos Hne Hn. pose proof Hw as (Hi & _ & Ew).
  unfold iget. apply blind_bind; [auto with blind|]. intros found s1 Hf.
  destruct (cache_uniq_hashLookup _ _ _ _ Hc Hn) as [(k & ik & Hk & Hl)|[_ Hl]];
    rewrite Hl in Hf; injection Hf as <- <-.
  - assert (k <> w) as Hkw by (intros ->; destruct Hk as (Hk & _ & Ek); congruence).
    repeat blind_step.
  - apply blind_bind; [auto with blind|]. intros o s1 Hp. destruct F as [|k T].
    + rewrite (popFreeList_empty s (c_free _ _ _ Hc)) in Hp. injection Hp as <- <-. done.
    + pose proof (popFreeList_ok s k T (c_free _ _ _ Hc)) as Hw'. unfold wp in Hw'. rewrite Hp in Hw'.
      destruct Hw' as (-> & _). assert (k <> w) as Hkw.
      { intros ->. assert (reference_count i = 0); [|lia]. apply (c_refs _ _ _ Hc _ _ Hi). by left. }
      repeat blind_step.
Qed.

Lemma blind_iput s k w : k <> w -> blind_at w (iput k) s.
Proof.
  intros Hk. unfold iput, iput_last. repeat blind_step.
Qed.

End held.
