(* ===== verification/Directory.v ===== *)
(** Directories: [src/trav/directory.c].

    A directory is a file of 64-byte entries, a name of 62 bytes and an inode
    number of two. The routines run on the inode of the directory as a value;
    [searchINodeDirectoryEntries] reads it only, the two that append an entry
    return it with its new size. *)

From S2P Require Export CacheInv.

(** * Names and entries *)

(** [strcmp(p, name) == 0] for a C string [name]; [None] when the comparison
    runs past the end of the buffer that [p] points into. *)
Fixpoint str_eq (p name : list Z) : option bool :=
  match p, name with
  | [], _ => None
  | c :: _, [] => Some (c =? 0)
  | c :: p', d :: name' => if c =? d then str_eq p' name' else Some false
  end.

Definition is_char (c : Z) : Prop := 0 < c < 256.

(** The characters of a C string, without its terminator. *)
Definition c_string (l : list Z) : Prop := Forall is_char l.

#[export] Instance is_char_dec c : Decision (is_char c).
Proof. unfold is_char. apply _. Defined.
#[export] Instance c_string_dec l : Decision (c_string l).
Proof. unfold c_string. apply _. Defined.

(** The characters before the terminator. *)
Fixpoint c_str (bs : list Z) : list Z :=
  match bs with
  | [] => []
  | c :: bs' => if c =? 0 then [] else c :: c_str bs'
  end.

(** [struct directoryEntry]: [iNodeNum] is a [ssize_t]. *)
Record directoryEntry : Type := DirectoryEntry {
  name : list Z;
  iNodeNum : Z
}.

Definition zero_entry : directoryEntry := DirectoryEntry (replicate 62 0) 0.

(** [memcpy(&entry->iNodeNum, ptr, INODE_ADDRESS_SIZE)]: the low two bytes. *)
Definition low_bytes (old v : Z) : Z := i64 (u64 old / 65536 * 65536 + v).

(** [memcpy] of the 64 bytes at [off] into an entry. *)
Definition read_entry (b : block) (off : nat) (e : directoryEntry) : directoryEntry :=
  DirectoryEntry (bytes_at b off 62) (low_bytes (iNodeNum e) (le_dec (bytes_at b (off + 62) 2))).

(** [memcpy] of a name of 62 bytes and the low bytes of a number to [off]. *)
Definition write_entry (b : block) (off : nat) (nm : list Z) (num : Z) : block :=
  memcpy_at (memcpy_at b off nm) (off + 62) (le_enc 2 num).

(** [directoryTable] and [makeDirectoryTable]. *)
Record directoryTable : Type := DirectoryTable { entries : list directoryEntry }.

Definition makeDirectoryTable (blockPtr : block) (theBlock : directoryTable) : directoryTable :=
  DirectoryTable (imap (fun k e => read_entry blockPtr (k * 64) e) (entries theBlock)).

Definition S_IFMT : Z := 61440.
Definition S_ISDIR (mode : Z) : bool := Z.land mode S_IFMT =? S_IFDIR.
Definition S_IXUSR : Z := 64.

(** [file_mode & S_IXUSR != S_IXUSR] is [file_mode & (S_IXUSR != S_IXUSR)]. *)
Definition validateSearch (iNodePtr : inCoreiNode) : Z :=
  if negb (S_ISDIR (ic_file_mode iNodePtr)) ||
     negb (Z.land (ic_file_mode iNodePtr) (if S_IXUSR =? S_IXUSR then 0 else 1) =? 0)
  then -1 else 0.

Section directory.
Context `{Host}.

(** An entry fresh from [malloc]. *)
Definition junk_entry (s : dstate) : directoryEntry :=
  DirectoryEntry (take 62 junk_block) (i64 (fresh_number (device s) (mem_disk s) (time_calls s))).
Definition malloc_entry : DM directoryEntry := gets junk_entry.

(** Storing at [entryBuffer + at_]. *)
Definition put_entry (buf : list directoryEntry) (at_ : nat) (e : directoryEntry -> directoryEntry)
  : DM (list directoryEntry) :=
  match buf !! at_ with
  | Some old => ret (<[at_ := e old]> buf)
  | None => undefined OutOfBounds
  end.

(** The loop of [searchBlockDirectoryEntries] in search mode: [n] entries from
    [off] on; the result says whether one was found. *)
Fixpoint search_block (blockPtr : block) (entryName : list Z) (off : nat)
    (entryBuffer : list directoryEntry) (at_ : nat) (n : nat) (lastEntry : option directoryEntry)
  : DM (Z * list directoryEntry * block) :=
  match n with
  | O => ret (0, entryBuffer, blockPtr)
  | S n' =>
      match str_eq (drop off blockPtr) entryName with
      | None => undefined OutOfBounds
      | Some true =>
          let* entryBuffer := put_entry entryBuffer at_ (read_entry blockPtr off) in
          match lastEntry with
          | Some last =>
              if negb (iNodeNum last =? -1) then
                ret (1, entryBuffer, write_entry blockPtr off (name last) (iNodeNum last))
              else ret (1, entryBuffer, blockPtr)
          | None => ret (1, entryBuffer, blockPtr)
          end
      | Some false =>
          search_block blockPtr entryName (off + 64) entryBuffer at_ n' lastEntry
      end
  end.

(** The same loop in collect mode: entry [counter] goes to the buffer. *)
Fixpoint collect_block (blockPtr : block) (off : nat) (entryBuffer : list directoryEntry)
    (at_ : nat) (n : nat) (counter : Z) : DM (Z * list directoryEntry) :=
  match n with
  | O => ret (counter, entryBuffer)
  | S n' =>
      let* entryBuffer := put_entry entryBuffer at_ (read_entry blockPtr off) in
      collect_block blockPtr (off + 64) entryBuffer (S at_) n' (counter + 1)
  end.

Definition searchBlockDirectoryEntries (blockPtr : block) (entryName : option (list Z))
    (offset : Z) (entryBuffer : list directoryEntry) (at_ : nat) (numOfEntries : Z)
    (lastEntry : option directoryEntry) : DM (Z * list directoryEntry * block) :=
  match entryName with
  | Some nm =>
      search_block blockPtr nm (Z.to_nat offset) entryBuffer at_ (Z.to_nat numOfEntries) lastEntry
  | None =>
      let* (r, entryBuffer) :=
        collect_block blockPtr (Z.to_nat offset) entryBuffer at_ (Z.to_nat numOfEntries) 0 in
      ret (r, entryBuffer, blockPtr)
  end.

Definition checkInBlock (tillEndOfFile : Z) (bmapResp : bmapResponse)
    (entryName : option (list Z)) (entryBuffer : list directoryEntry) (at_ : nat)
    (lastEntry : option directoryEntry) : DM (Z * list directoryEntry) :=
  let* (_, blockPtr) := getDiskBlock (blockNumber bmapResp) junk_block in
  let entriesInBlock :=
    if tillEndOfFile <? bytesLeftInBlock bmapResp then tillEndOfFile / DIRECTORY_ENTRY_SIZE
    else bytesLeftInBlock bmapResp / DIRECTORY_ENTRY_SIZE in
  let* (retValue, entryBuffer, blockPtr) :=
    searchBlockDirectoryEntries blockPtr entryName (byteOffsetInBlock bmapResp) entryBuffer at_
      entriesInBlock lastEntry in
  match lastEntry with
  | Some last =>
      if negb (iNodeNum last =? -1) && (retValue =? 1) then
        writeDiskBlock (blockNumber bmapResp) blockPtr ;;;
        ret (retValue, entryBuffer)
      else ret (retValue, entryBuffer)
  | None => ret (retValue, entryBuffer)
  end.

(** The case of a directory of at most two entries does not return. *)
Definition getLastEntry (iNodePtr : inCoreiNode) (entry : directoryEntry) : DM directoryEntry :=
  let entry :=
    if ic_size iNodePtr <=? 2 * DIRECTORY_ENTRY_SIZE then DirectoryEntry (replicate 62 0) (-1)
    else entry in
  let* (_, _, bmapResp) :=
    bmap iNodePtr (u64 (ic_size iNodePtr - DIRECTORY_ENTRY_SIZE)) junk_response READ_MODE in
  let* (_, data_block) := getDiskBlock (blockNumber bmapResp) junk_block in
  if byteOffsetInBlock bmapResp + DIRECTORY_ENTRY_SIZE <=? BLOCK_SIZE
  then ret (read_entry data_block (Z.to_nat (byteOffsetInBlock bmapResp)) entry)
  else undefined OutOfBounds.

Record search_state : Type := SearchState {
  sr_offset : Z;
  sr_read : Z;
  sr_resp : bmapResponse;
  sr_buf : list directoryEntry
}.

Definition search_body (iNodePtr : inCoreiNode) (entryName : option (list Z))
    (lastEntry : option directoryEntry) (st : search_state) : DM (ctl search_state) :=
  let 'SearchState directoryOffset entriesReadTillNow bmapResp entryBuffer := st in
  let* (retValue, _, bmapResp) := bmap iNodePtr directoryOffset bmapResp READ_MODE in
  if retValue =? -1 then
    ret (Break (SearchState directoryOffset entriesReadTillNow bmapResp entryBuffer))
  else
    let* (entriesRead, entryBuffer) :=
      checkInBlock (u64 (ic_size iNodePtr - directoryOffset)) bmapResp entryName entryBuffer
        (Z.to_nat entriesReadTillNow) lastEntry in
    let entriesReadTillNow := u64 (entriesReadTillNow + entriesRead) in
    if bool_decide (entryName <> None) && (entriesRead =? 1) then
      ret (Break (SearchState directoryOffset entriesReadTillNow bmapResp entryBuffer))
    else
      ret (Next (SearchState (u64 (directoryOffset + DIRECTORY_ENTRIES_IN_BLOCK * DIRECTORY_ENTRY_SIZE))
                   entriesReadTillNow bmapResp entryBuffer)).

(** The number of entries put in the buffer, or -1, and the buffer. One block
    of the directory is looked at per iteration. *)
Definition searchINodeDirectoryEntries (iNodePtr : inCoreiNode) (entryName : option (list Z))
    (offset : Z) (entryBuffer : list directoryEntry) (numOfEntries : Z) (forUnlink : bool)
  : DM (Z * list directoryEntry) :=
  if validateSearch iNodePtr =? -1 then ret (-1, entryBuffer)
  else
    let* lastEntry :=
      (if forUnlink then
         let* e := malloc_entry in
         let* e := getLastEntry iNodePtr e in
         ret (Some e)
       else ret None) in
    let* st :=
      while_do (S (S (Z.to_nat (ic_size iNodePtr / BLOCK_SIZE))))
        (fun st => bool_decide (entryName <> None) || (sr_read st <? numOfEntries))
        (search_body iNodePtr entryName lastEntry)
        (SearchState (u64 (offset * DIRECTORY_ENTRY_SIZE)) 0 junk_response entryBuffer) in
    ret (i32 (sr_read st), sr_buf st).

(** The 62 bytes at [filename]: the string, its terminator, and what is behind
    it in memory, in the same object or not. *)
Definition name_bytes (filename : list Z) : list Z :=
  take 62 (filename ++ 0 :: junk_bytes ++ replicate 62 0).

(** [memcpy(ptrIntoBlock, filename, FILENAME_SIZE)] for a string in an object of
    [size] bytes. *)
Definition memcpy_name (filename : list Z) (size : nat) : DM (list Z) :=
  if over_reads || (62 <=? size)%nat then ret (name_bytes filename) else undefined OutOfBounds.

Definition addDirectoryEntry (blockNum blockOffset : Z) (filename : list Z) (size : nat) (iNodeNum : Z)
  : DM unit :=
  let* (_, blockPtr) := getDiskBlock blockNum junk_block in
  let* nm := memcpy_name filename size in
  let blockPtr := write_entry blockPtr (Z.to_nat blockOffset) nm iNodeNum in
  writeDiskBlock blockNum blockPtr ;;;
  ret tt.

(** The value of a call that succeeds is not set; nothing uses it. *)
Definition getAndUpdateDirectoryTable (parentINode : inCoreiNode) (newInodeNumber : Z)
    (filename : list Z) (size : nat) : DM (Z * inCoreiNode) :=
  if validateSearch parentINode =? -1 then ret (-1, parentINode)
  else
    let* (retValue, parentINode, bmapResp) :=
      bmap parentINode (ic_size parentINode) junk_response APPEND_MODE in
    if retValue =? -1 then ret (-1, parentINode)
    else
      addDirectoryEntry (blockNumber bmapResp) (byteOffsetInBlock bmapResp) filename size newInodeNumber ;;;
      let* parentINode :=
        updateINodeMetadata parentINode DIRECTORY_ENTRY_SIZE (ic_linksCount parentINode) in
      ret (junk_word, parentINode).

(** ["."] and [".."], objects of two and three bytes. *)
Definition dot : list Z := [46].
Definition dot_dot : list Z := [46; 46].

Definition updateNewDirMetaData (iNode : inCoreiNode) (parentINodeNumber : Z)
  : DM (Z * inCoreiNode) :=
  let* (retValue, iNode, bmapResp) := bmap iNode (ic_size iNode) junk_response APPEND_MODE in
  if retValue =? -1 then ret (-1, iNode)
  else
    addDirectoryEntry (blockNumber bmapResp) (byteOffsetInBlock bmapResp) dot 2 (ic_inode_number iNode) ;;;
    addDirectoryEntry (blockNumber bmapResp)
      (u64 (byteOffsetInBlock bmapResp + DIRECTORY_ENTRY_SIZE)) dot_dot 3 parentINodeNumber ;;;
    let* iNode := updateINodeMetadata iNode (2 * DIRECTORY_ENTRY_SIZE) 2 in
    ret (junk_word, iNode).

End directory.
