(* ===== verification/DirectorySpec.v ===== *)
(** Directories as lists of entries: searching one, adding one, and replacing
    one by the last, as [src/trav/directory.c] does them, are these operations
    on the list of (name, number) pairs the file holds. *)

From S2P Require Export Directory.

(** * Names *)

Lemma str_eq_terminated (p rest nm : list Z) :
  0 ∈ p -> c_string nm -> str_eq (p ++ rest) nm = Some (bool_decide (c_str p = nm)).
Proof.
  revert nm. induction p as [|c p IH]; intros nm H0 Hnm; [by apply elem_of_nil in H0|].
  cbn [app str_eq c_str]. destruct nm as [|d nm].
  - f_equal. destruct (Z.eqb_spec c 0); symmetry; [by apply bool_decide_eq_true_2|by apply bool_decide_eq_false_2].
  - apply Forall_cons in Hnm as [Hd Hnm]. unfold is_char in Hd.
    destruct (Z.eqb_spec c d) as [->|Hne].
    + rewrite (proj2 (Z.eqb_neq d 0)) by lia.
      rewrite IH; [|apply elem_of_cons in H0 as [H0|H0]; [lia|done]|done].
      f_equal. apply bool_decide_ext. naive_solver.
    + f_equal. symmetry. apply bool_decide_eq_false_2. destruct (Z.eqb_spec c 0); naive_solver.
Qed.

Lemma low_bytes_le_enc old v : 0 <= v < 65536 -> le_enc 2 (low_bytes old v) = le_enc 2 v.
Proof.
  intros Hv. unfold low_bytes, i64.
  assert (forall z, le_enc 2 z = [z mod 256; z / 256 mod 256]) as Hle by done.
  rewrite !Hle. pose proof (u64_range old) as Ho. unfold is_u64 in Ho.
  set (q := u64 old / 65536). assert (0 <= q) by (apply Z.div_pos; lia).
  f_equal; [|f_equal]; Z.to_euclidean_division_equations; lia.
Qed.

(** Numbers fit the field: the upper bytes are those of a cleared entry. *)
Lemma low_bytes_zero v : 0 <= v < 65536 -> low_bytes 0 v = v.
Proof.
  intros Hv. unfold low_bytes. change (u64 0 / 65536 * 65536) with 0. apply i64_id. unfold is_i64. lia.
Qed.

Lemma low_bytes_not_minus_one old v : 0 <= v < 65535 -> low_bytes old v <> -1.
Proof.
  intros Hv E. assert (le_enc 2 (low_bytes old v) = le_enc 2 v) as E' by (apply low_bytes_le_enc; lia).
  rewrite E in E'. assert (forall z, le_enc 2 z = [z mod 256; z / 256 mod 256]) as Hle by done.
  rewrite !Hle in E'. injection E' as E1 E2. change (-1 mod 256) with 255 in E1.
  change (-1 / 256 mod 256) with 255 in E2. Z.to_euclidean_division_equations. lia.
Qed.

(** * The list of entries *)

(** Entry [k] of the bytes of a directory: the name field and the number. *)
Definition entry_at (data : list Z) (k : nat) : list Z * Z :=
  (bytes_at data (64 * k) 62, le_dec (bytes_at data (64 * k + 62) 2)).

Definition entry_list (data : list Z) : list (list Z * Z) :=
  entry_at data <$> seq 0 (length data / 64).

Definition entry_name (e : list Z * Z) : list Z := c_str (fst e).

(** The bytes of one entry. *)
Definition entry_bytes (nm : list Z) (num : Z) : list Z := nm ++ le_enc 2 num.

Definition named (nm : list Z) (e : list Z * Z) : Prop := entry_name e = nm.

#[export] Instance named_dec nm e : Decision (named nm e).
Proof. unfold named. apply _. Defined.

(** The first entry with a name. *)
Definition find_entry (nm : list Z) (es : list (list Z * Z)) : option (nat * (list Z * Z)) :=
  list_find (named nm) es.

Lemma length_entry_list data : length (entry_list data) = (length data / 64)%nat.
Proof. unfold entry_list. by rewrite length_fmap, length_seq. Qed.

Lemma lookup_entry_list data k e :
  entry_list data !! k = Some e -> (k < length data / 64)%nat /\ e = entry_at data k.
Proof.
  unfold entry_list. rewrite list_lookup_fmap. intros Hk.
  apply fmap_Some in Hk as (j & Hj & ->). apply lookup_seq in Hj as [-> Hlt]. done.
Qed.

Lemma lookup_entry_list_lt data k :
  (k < length data / 64)%nat -> entry_list data !! k = Some (entry_at data k).
Proof. intros Hk. unfold entry_list. rewrite list_lookup_fmap, lookup_seq_lt by done. done. Qed.

Lemma entry_list_ext data data' :
  length data' = length data ->
  (forall k, (k < length data / 64)%nat -> entry_at data' k = entry_at data k) ->
  entry_list data' = entry_list data.
Proof.
  intros Hl He. unfold entry_list. rewrite Hl. apply list_fmap_ext. intros i k Hk.
  apply lookup_seq in Hk as [-> Hk]. apply He. done.
Qed.

Lemma entry_at_app_l data tl k : (64 * k + 64 <= length data)%nat -> entry_at (data ++ tl) k = entry_at data k.
Proof.
  intros Hk. unfold entry_at, bytes_at. rewrite !drop_app_le by lia.
  by rewrite !take_app_le by (rewrite length_drop; lia).
Qed.

Lemma entry_at_bytes data nm num tl k :
  length data = (64 * k)%nat -> length nm = 62%nat -> 0 <= num < 65536 ->
  entry_at (data ++ entry_bytes nm num ++ tl) k = (nm, num).
Proof.
  intros Hd Hn Hnum. unfold entry_at, entry_bytes, bytes_at.
  rewrite <- Hd, drop_app_length. rewrite drop_app_ge by lia.
  replace (length data + 62 - length data)%nat with 62%nat by lia.
  rewrite <- app_assoc, take_app_length' by done.
  rewrite drop_app_length' by done. rewrite take_app_length' by (by rewrite length_le_enc).
  f_equal. by apply le_dec_enc_small.
Qed.

(** Appending an entry. *)
Lemma entry_list_snoc data nm num :
  (length data mod 64 = 0)%nat -> length nm = 62%nat -> 0 <= num < 65536 ->
  entry_list (data ++ entry_bytes nm num) = entry_list data ++ [(nm, num)].
Proof.
  intros Hd Hn Hnum. pose proof (Nat.div_mod (length data) 64 ltac:(lia)) as Hdm.
  set (k := (length data / 64)%nat) in *.
  assert (length (entry_bytes nm num) = 64%nat) as Hl.
  { unfold entry_bytes. rewrite length_app, length_le_enc. lia. }
  unfold entry_list. rewrite length_app, Hl.
  replace ((length data + 64) / 64)%nat with (S k).
  2: { replace (length data + 64)%nat with ((k + 1) * 64)%nat by lia. rewrite Nat.div_mul by lia. lia. }
  fold k. rewrite seq_S, fmap_app. f_equal.
  - apply list_fmap_ext. intros i j Hj. apply lookup_seq in Hj as [-> Hj]. apply entry_at_app_l. lia.
  - cbn [fmap list_fmap Nat.add]. f_equal. rewrite <- (app_nil_r (entry_bytes nm num)).
    apply entry_at_bytes; [lia|done|done].
Qed.

Lemma bytes_at_ext (a b : list Z) off len :
  (forall x, (off <= x < off + len)%nat -> a !! x = b !! x) -> bytes_at a off len = bytes_at b off len.
Proof.
  intros He. unfold bytes_at. apply list_eq. intros x. destruct (decide (x < len)%nat).
  - rewrite !lookup_take_lt, !lookup_drop by lia. apply He. lia.
  - by rewrite !lookup_take_ge by lia.
Qed.

(** Overwriting entry [k]. *)
Lemma entry_list_insert data nm num k :
  (64 * k + 64 <= length data)%nat -> length nm = 62%nat -> 0 <= num < 65536 ->
  entry_list (memcpy_at data (64 * k) (entry_bytes nm num)) = <[k := (nm, num)]> (entry_list data).
Proof.
  intros Hk Hn Hnum.
  assert (length (entry_bytes nm num) = 64%nat) as Hl.
  { unfold entry_bytes. rewrite length_app, length_le_enc. lia. }
  assert (length (memcpy_at data (64 * k) (entry_bytes nm num)) = length data) as Hlen
    by (apply length_memcpy_at; lia).
  assert (k < length data / 64)%nat as Hkd by (apply Nat.div_le_lower_bound; lia).
  apply list_eq. intros j. destruct (decide (j < length data / 64)%nat) as [Hj|Hj].
  - rewrite lookup_entry_list_lt by (by rewrite Hlen). destruct (decide (j = k)) as [->|Hne].
    + rewrite list_lookup_insert_eq by (by rewrite length_entry_list). f_equal.
      unfold memcpy_at. apply entry_at_bytes; [rewrite length_take; lia|done|done].
    + rewrite list_lookup_insert_ne, lookup_entry_list_lt by done. f_equal. unfold entry_at.
      f_equal; [|f_equal]; apply bytes_at_ext; intros x Hx; rewrite lookup_memcpy_at by lia;
        rewrite decide_False by lia; done.
  - transitivity (@None (list Z * Z)); [|symmetry]; apply lookup_ge_None_2.
    + rewrite length_entry_list, Hlen. lia.
    + rewrite length_insert, length_entry_list. lia.
Qed.

(** Dropping the last entry. *)
Lemma entry_list_take data k :
  (64 * k <= length data)%nat -> entry_list (take (64 * k) data) = take k (entry_list data).
Proof.
  intros Hk. assert (k <= length data / 64)%nat as Hkd by (apply Nat.div_le_lower_bound; lia).
  apply list_eq. intros j. destruct (decide (j < k)%nat) as [Hj|Hj].
  - assert ((length (take (64 * k) data) / 64)%nat = k) as Hl.
    { rewrite length_take, Nat.min_l, Nat.mul_comm, Nat.div_mul by lia. done. }
    rewrite lookup_entry_list_lt by lia. rewrite lookup_take_lt, lookup_entry_list_lt by lia.
    f_equal. unfold entry_at. f_equal; [|f_equal]; apply bytes_at_ext; intros x Hx;
      rewrite lookup_take_lt by lia; done.
  - rewrite lookup_take_ge by lia. apply lookup_ge_None_2. rewrite length_entry_list, length_take.
    apply Nat.Div0.div_le_upper_bound; lia.
Qed.

(** * Searching *)

Section search.
Context `{BlockStore ok}.
Local Abbreviation file_ok := (file_ok (ok := ok)).
Local Abbreviation appended := (appended (ok := ok)).
Local Abbreviation overwritten := (overwritten (ok := ok)).

(** The contents of a directory. *)
Definition dir_data (s : dstate) (i : inCoreiNode) : list Z :=
  file_data s (ic_dataBlockNums i) (ic_size i).

Definition dir_list (s : dstate) (i : inCoreiNode) : list (list Z * Z) := entry_list (dir_data s i).

(** A directory whose names are all terminated inside their field. *)
Definition dir_ok (s : dstate) (l : list Z) (i : inCoreiNode) : Prop :=
  file_ok s l i /\ S_ISDIR (ic_file_mode i) = true /\ ic_size i mod 64 = 0 /\
  Forall (fun e => 0 ∈ fst e /\ 0 <= snd e < 65535) (dir_list s i).

(** Entry [m] of the block with number [j] of the directory. *)
Lemma block_entry s l i j b m :
  file_ok s l i -> view s (file_block (addrs s) (ic_dataBlockNums i) j) = Some b -> wf_block b ->
  0 <= j -> (m < 16)%nat -> 1024 * j + 64 * Z.of_nat m + 64 <= ic_size i ->
  (bytes_at b (64 * m) 62, le_dec (bytes_at b (64 * m + 62) 2)) =
    entry_at (dir_data s i) (16 * Z.to_nat j + m).
Proof.
  intros Hf Hv Hb Hj Hm Hin. unfold entry_at, dir_data.
  assert (forall o len, 0 <= o -> 0 <= len -> o + len <= 1024 -> 1024 * j + o + len <= ic_size i ->
    bytes_at b (Z.to_nat o) (Z.to_nat len) =
    bytes_at (file_data s (ic_dataBlockNums i) (ic_size i)) (Z.to_nat (1024 * j + o)) (Z.to_nat len)) as Hba.
  { intros o len Ho Hl H1 H2. rewrite (file_bytes_in_block s l i j o len b) by done.
    rewrite <- file_range_data by lia. done. }
  pose proof (Hba (64 * Z.of_nat m) 62 ltac:(lia) ltac:(lia) ltac:(lia) ltac:(lia)) as H1.
  pose proof (Hba (64 * Z.of_nat m + 62) 2 ltac:(lia) ltac:(lia) ltac:(lia) ltac:(lia)) as H2.
  change (Z.to_nat 62) with 62%nat in H1. change (Z.to_nat 2) with 2%nat in H2.
  replace (Z.to_nat (64 * Z.of_nat m)) with (64 * m)%nat in H1 by lia.
  replace (Z.to_nat (64 * Z.of_nat m + 62)) with (64 * m + 62)%nat in H2 by lia.
  rewrite H1, H2. f_equal; [f_equal; lia|]. do 2 f_equal. lia.
Qed.

(** What the search of one block finds among its first [n] entries [es], and
    what it leaves in the block. *)
Definition replaced (b : block) (off m : nat) (last : option directoryEntry) : block :=
  match last with
  | Some le => if negb (iNodeNum le =? -1)
               then write_entry b (off + 64 * m) (name le) (iNodeNum le) else b
  | None => b
  end.

Lemma search_block_spec (s : dstate) b nm buf old at_ last n off es :
  length b = 1024%nat -> (off + 64 * n <= 1024)%nat -> length es = n ->
  (forall m e, es !! m = Some e ->
     e = (bytes_at b (off + 64 * m) 62, le_dec (bytes_at b (off + 64 * m + 62) 2)) /\ 0 ∈ fst e) ->
  c_string nm -> buf !! at_ = Some old ->
  search_block b nm off buf at_ n last s =
    match find_entry nm es with
    | None => Ret (0, buf, b) s
    | Some (m, e) =>
        Ret (1, <[at_ := DirectoryEntry (fst e) (low_bytes (iNodeNum old) (snd e))]> buf,
             replaced b off m last) s
    end.
Proof.
  intros Hb. revert off es. induction n as [|n IH]; intros off es Hoff Hlen Hes Hnm Hold;
    (destruct es as [|e es]; simpl in Hlen; try lia); [done|].
  cbn [search_block]. destruct (Hes 0%nat e eq_refl) as [He Hz]. rewrite Nat.mul_0_r, Nat.add_0_r in He.
  assert (drop off b = fst e ++ drop (off + 62) b) as Hd.
  { rewrite He. cbn [fst]. unfold bytes_at. by rewrite <- drop_drop, take_drop. }
  rewrite Hd, str_eq_terminated by done. fold (entry_name e).
  unfold find_entry. cbn [list_find]. destruct (decide (named nm e)) as [Hn|Hn]; unfold named in Hn.
  - rewrite bool_decide_eq_true_2 by done. unfold put_entry. rewrite Hold, bind_ret.
    unfold read_entry. rewrite He. cbn [fst snd]. unfold replaced. rewrite Nat.mul_0_r, Nat.add_0_r.
    destruct last as [le|]; [|done]. by destruct (negb _).
  - rewrite bool_decide_eq_false_2 by done.
    rewrite (IH (off + 64)%nat es); [|lia|lia| |done|done].
    + unfold find_entry. destruct (list_find (named nm) es) as [[m e']|]; [|done]. cbn. do 2 f_equal.
      unfold replaced. destruct last; [|done]. by replace (off + 64 + 64 * m)%nat with (off + 64 * S m)%nat by lia.
    + intros m e' Hm. destruct (Hes (S m) e' Hm) as [-> Hz']. split; [|done].
      by replace (off + 64 + 64 * m)%nat with (off + 64 * S m)%nat by lia.
Qed.


(** The entries in the block with number [j], and where they are in it. *)
Definition in_block (i : inCoreiNode) (j : Z) : nat :=
  Z.to_nat (if ic_size i - 1024 * j <? 1024 then (ic_size i - 1024 * j) / 64 else 16).

Lemma block_entries s l i j :
  dir_ok s l i -> 0 <= j -> 1024 * j < ic_size i ->
  let es := take 16 (drop (16 * Z.to_nat j) (dir_list s i)) in
  exists raw, view s (file_block (addrs s) (ic_dataBlockNums i) j) = Some raw /\ wf_block raw /\
    length es = in_block i j /\ (64 * in_block i j <= 1024)%nat /\
    forall m e, es !! m = Some e ->
      e = (bytes_at raw (0 + 64 * m) 62, le_dec (bytes_at raw (0 + 64 * m + 62) 2)) /\ 0 ∈ fst e.
Proof.
  intros (Hf & _ & Hal & Hterm) Hj Hin es. pose proof (file_size_u64 _ _ _ Hf) as Hsz.
  set (nb := file_block _ _ _).
  assert (1024 * j / 1024 = j) as Hdj by (by rewrite Z.mul_comm, Z.div_mul by lia).
  assert (exists raw, view s nb = Some raw /\ wf_block raw) as (raw & Hv & Hraw).
  { destruct (wp_inv _ _ _ (bmap_in_file s l i (1024 * j) junk_response READ_MODE
      (fun _ _ => exists raw, view s nb = Some raw /\ wf_block raw) Hf ltac:(lia)
      ltac:(rewrite Hdj; intros raw b Hv Hraw _; by exists raw))) as (_ & _ & _ & Hr). exact Hr. }
  exists raw. pose proof (Z.div_mod (ic_size i) 64 ltac:(lia)) as Hdm64. rewrite Hal in Hdm64.
  assert (length (dir_data s i) = Z.to_nat (ic_size i)) as Hld by apply length_file_data.
  assert ((length (dir_data s i) / 64)%nat = Z.to_nat (ic_size i / 64)) as Hcnt.
  { rewrite Hld. replace (Z.to_nat (ic_size i)) with (Z.to_nat (ic_size i / 64) * 64)%nat by lia.
    by rewrite Nat.div_mul by lia. }
  assert (length es = in_block i j) as Hlen.
  { unfold es, in_block. rewrite length_take, length_drop. unfold dir_list. rewrite length_entry_list, Hcnt.
    destruct (Z.ltb_spec (ic_size i - 1024 * j) 1024) as [Hlt|Hge]; [|lia].
    assert ((ic_size i - 1024 * j) / 64 = ic_size i / 64 - 16 * j) as ->; [|lia].
    replace (ic_size i - 1024 * j) with ((ic_size i / 64 - 16 * j) * 64) by lia.
    by rewrite Z.div_mul by lia. }
  do 3 (split; [done|]). split; [rewrite <- Hlen; unfold es; rewrite length_take; lia|].
  intros m e He. pose proof (lookup_lt_Some _ _ _ He) as Hm. unfold es in He, Hm. rewrite length_take in Hm.
  rewrite lookup_take_lt in He by lia. rewrite lookup_drop in He.
  split; [|rewrite Forall_forall in Hterm; by destruct (Hterm e (list_elem_of_lookup_2 _ _ _ He))].
  apply lookup_entry_list in He as [Hk ->]. symmetry. apply (block_entry s l i j raw m Hf Hv Hraw Hj); lia.
Qed.

(** The disk after a search that found entry [k]: with [forUnlink] the last
    entry has been put in its place. *)
Definition swapped (s s' : dstate) (l : list Z) (i : inCoreiNode) (k : nat)
    (last : option directoryEntry) : Prop :=
  match last with
  | Some le => if decide (iNodeNum le = -1) then s' = s
               else overwritten s s' l i (64 * Z.of_nat k) (entry_bytes (name le) (iNodeNum le))
  | None => s' = s
  end.

Definition wf_last (last : option directoryEntry) : Prop :=
  match last with Some le => length (name le) = 62%nat /\ Forall is_byte (name le) | None => True end.

Lemma entry_bytes_ok nm num :
  length nm = 62%nat -> Forall is_byte nm ->
  length (entry_bytes nm num) = 64%nat /\ Forall is_byte (entry_bytes nm num).
Proof.
  intros Hl Hb. unfold entry_bytes. split; [rewrite length_app, length_le_enc; lia|].
  apply Forall_app_2; [done|apply le_enc_bytes].
Qed.

Lemma write_entry_bytes b off nm num :
  length nm = 62%nat -> (off + 64 <= length b)%nat ->
  write_entry b off nm num = memcpy_at b off (entry_bytes nm num).
Proof.
  intros Hn Hl. unfold write_entry, entry_bytes. rewrite <- Hn.
  apply memcpy_at_app. rewrite length_le_enc. lia.
Qed.

Lemma checkInBlock_spec s l i nm buf old at_ last j ra :
  dir_ok s l i -> c_string nm -> buf !! at_ = Some old -> wf_last last ->
  0 <= j -> 1024 * j < ic_size i ->
  wp (checkInBlock (u64 (ic_size i - 1024 * j))
        (BmapResponse (file_block (addrs s) (ic_dataBlockNums i) j) 0 1024 ra) (Some nm) buf at_ last) s
     (fun '(r, buf') s' =>
        match find_entry nm (take 16 (drop (16 * Z.to_nat j) (dir_list s i))) with
        | None => r = 0 /\ buf' = buf /\ s' = s
        | Some (m, e) =>
            r = 1 /\ buf' = <[at_ := DirectoryEntry (fst e) (low_bytes (iNodeNum old) (snd e))]> buf /\
            swapped s s' l i (16 * Z.to_nat j + m) last
        end).
Proof.
  intros Hd Hnm Hold Hlast Hj Hin. pose proof (block_entries s l i j Hd Hj Hin) as Hblock. cbv zeta in Hblock.
  set (es := take 16 _) in *. set (nb := file_block _ _ _) in *. destruct Hblock as (raw & Hv & Hraw & Hlen & Hn & Hes).
  pose proof Hd as (Hf & _). pose proof (file_size_u64 _ _ _ Hf) as Hsz.
  rewrite u64_id by (unfold is_u64; lia). set (n := in_block i j) in *.
  unfold checkInBlock. cbn [blockNumber bytesLeftInBlock byteOffsetInBlock].
  pose proof Hf as (Hok & _). apply wp_bind.
  eapply wp_Ret; [by apply (getDiskBlock_view _ _ raw); auto with nao|]. cbn beta iota.
  apply wp_bind. unfold searchBlockDirectoryEntries. change (Z.to_nat 0) with 0%nat.
  change (1024 / DIRECTORY_ENTRY_SIZE) with 16. change DIRECTORY_ENTRY_SIZE with 64.
  change (Z.to_nat (if ic_size i - 1024 * j <? 1024 then (ic_size i - 1024 * j) / 64 else 16)) with n.
  pose proof (search_block_spec s raw nm buf old at_ last n 0 es ltac:(by destruct Hraw)
    ltac:(lia) Hlen Hes Hnm Hold) as Hrun.
  destruct (find_entry nm es) as [[m e]|] eqn:Hfind.
  - eapply wp_Ret; [exact Hrun|]. cbn beta iota.
    assert (m < n)%nat as Hm.
    { apply list_find_Some in Hfind as (Hm & _). apply lookup_lt_Some in Hm. lia. }
    destruct last as [le|]; [|apply wp_ret; done].
    cbn [swapped replaced]. destruct (decide (iNodeNum le = -1)) as [E|E].
    + rewrite E. cbn [Z.eqb Pos.eqb negb andb]. apply wp_ret. done.
    + rewrite (proj2 (Z.eqb_neq _ _) E). cbn [negb andb]. change (1 =? 1) with true. cbn iota.
      destruct Hlast as [Hl62 Hlb]. destruct (entry_bytes_ok (name le) (iNodeNum le) Hl62 Hlb) as [Hl64 Hbb].
      rewrite write_entry_bytes by (try done; destruct Hraw; lia).
      pose proof (overwrite_block s l i (1024 * j + 64 * Z.of_nat m) (entry_bytes (name le) (iNodeNum le))
        (1024 * j + 64 * Z.of_nat m) [] (fun _ s' => overwritten s s' l i (1024 * j + 64 * Z.of_nat m)
          (entry_bytes (name le) (iNodeNum le))) s) as Hw. cbv zeta in Hw.
      pose proof (overwritten_nil s l i (1024 * j + 64 * Z.of_nat m) Hf) as Hrefl.
      assert ((1024 * j + 64 * Z.of_nat m) mod 1024 = 64 * Z.of_nat m) as Hmod.
      { rewrite Z.mul_comm, Z.add_comm, Z.mod_add by lia. apply Z.mod_small. lia. }
      assert ((1024 * j + 64 * Z.of_nat m) / 1024 = j) as Hdiv.
      { rewrite Z.mul_comm, Z.div_add_l by lia. rewrite Z.div_small by lia. lia. }
      rewrite Hmod, Hdiv in Hw. fold nb in Hw.
      assert (1024 * j + 64 * Z.of_nat m < ic_size i) as Hlt.
      { unfold find_entry in Hfind. apply list_find_Some in Hfind as (He & _). unfold es in He.
        rewrite lookup_take_lt in He by lia. rewrite lookup_drop in He. apply lookup_entry_list in He as [He _].
        pose proof (length_file_data s (ic_dataBlockNums i) (ic_size i)) as Hld. unfold dir_data in He.
        pose proof (Nat.Div0.mul_div_le (length (file_data s (ic_dataBlockNums i) (ic_size i))) 64). lia. }
      specialize (Hw Hrefl Hbb ltac:(lia) ltac:(simpl; lia) Hlt ltac:(rewrite Hl64; lia) ltac:(intros s' Hs'; exact Hs')).
      unfold wp in Hw. rewrite (bind_Ret _ _ _ _ _ (getDiskBlock_view nb junk_block raw s Hok junk_block_wf Hv)) in Hw.
      cbn beta iota in Hw. replace (Z.to_nat (64 * Z.of_nat m)) with (0 + 64 * m)%nat in Hw by lia.
      apply wp_bind. unfold wp. unfold bind in Hw. destruct (writeDiskBlock nb _ s) as [w s1| | |]; try done.
      change (overwritten s s1 l i (1024 * j + 64 * Z.of_nat m) (entry_bytes (name le) (iNodeNum le))) in Hw.
      apply wp_ret. split_and!; [done|done|].
      replace (64 * Z.of_nat (16 * Z.to_nat j + m)) with (1024 * j + 64 * Z.of_nat m) by lia. exact Hw.
  - eapply wp_Ret; [exact Hrun|]. cbn beta iota. destruct last as [le|]; [|by apply wp_ret].
    change (0 =? 1) with false. rewrite andb_false_r. by apply wp_ret.
Qed.


(** ** The last entry *)

Lemma dir_count s l i :
  dir_ok s l i -> length (dir_list s i) = Z.to_nat (ic_size i / 64) /\ ic_size i = 64 * (ic_size i / 64).
Proof.
  intros (Hf & _ & Hal & _). pose proof (file_size_u64 _ _ _ Hf) as Hsz.
  pose proof (Z.div_mod (ic_size i) 64 ltac:(lia)) as Hdm. rewrite Hal in Hdm.
  split; [|lia]. unfold dir_list, dir_data. rewrite length_entry_list, length_file_data.
  replace (Z.to_nat (ic_size i)) with (Z.to_nat (ic_size i / 64) * 64)%nat by lia.
  by rewrite Nat.div_mul by lia.
Qed.

(** The number field before the copy of the low bytes. *)
Definition last_base (i : inCoreiNode) (entry : directoryEntry) : Z :=
  if ic_size i <=? 128 then -1 else iNodeNum entry.

Lemma getLastEntry_spec s l i entry :
  dir_ok s l i -> 64 <= ic_size i ->
  exists e, last (dir_list s i) = Some e /\
    getLastEntry i entry s =
      Ret (DirectoryEntry (fst e) (low_bytes (last_base i entry) (snd e))) s.
Proof.
  intros Hd Hs. pose proof (dir_count _ _ _ Hd) as [Hcnt Hsz64]. pose proof Hd as (Hf & _ & Hal & _).
  pose proof (file_size_u64 _ _ _ Hf) as Hsz.
  set (q := ic_size i / 64) in *.
  set (j := (q - 1) / 16). set (m := Z.to_nat ((q - 1) mod 16)).
  pose proof (Z.div_mod (q - 1) 16 ltac:(lia)) as Hdm. pose proof (Z.mod_pos_bound (q - 1) 16 ltac:(lia)) as Hm.
  assert (0 <= j) as Hj by (apply Z.div_pos; lia).
  assert ((ic_size i - 64) mod 1024 = 64 * Z.of_nat m) as Hmod.
  { replace (ic_size i - 64) with (64 * ((q - 1) mod 16) + j * 1024) by (unfold j; lia).
    rewrite Z.mod_add by lia. rewrite Z.mod_small by lia. unfold m. lia. }
  assert ((ic_size i - 64) / 1024 = j) as Hdiv.
  { replace (ic_size i - 64) with (j * 1024 + 64 * ((q - 1) mod 16)) by (unfold j; lia).
    rewrite Z.div_add_l, Z.div_small by lia. lia. }
  set (nb := file_block (addrs s) (ic_dataBlockNums i) j).
  destruct (wp_inv _ _ _ (bmap_in_file s l i (ic_size i - 64) junk_response READ_MODE
    (fun r s' => s' = s /\ r = (0, i, BmapResponse nb (64 * Z.of_nat m) (1024 - 64 * Z.of_nat m)
       (readAheadBlockNum junk_response)) /\ exists raw, view s nb = Some raw /\ wf_block raw) Hf ltac:(lia)
    ltac:(rewrite Hdiv, Hmod; intros raw b Hv Hraw _; split_and!; [done|done|by exists raw])))
    as (r & s' & Hrun & -> & -> & raw & Hv & Hraw).
  exists (entry_at (dir_data s i) (16 * Z.to_nat j + m)). split.
  - rewrite last_lookup, Hcnt. replace (pred (Z.to_nat q)) with (16 * Z.to_nat j + m)%nat by (unfold m; lia).
    apply lookup_entry_list_lt. unfold dir_list in Hcnt. rewrite length_entry_list in Hcnt. unfold m in *. lia.
  - unfold getLastEntry. change DIRECTORY_ENTRY_SIZE with 64. change (2 * 64) with 128.
    rewrite (u64_id (ic_size i - 64)) by (unfold is_u64; lia).
    rewrite (bind_Ret _ _ _ _ _ Hrun). cbn [blockNumber byteOffsetInBlock]. pose proof Hf as (Hok & _).
    rewrite (bind_Ret _ _ _ _ _ (getDiskBlock_view nb junk_block raw s Hok junk_block_wf Hv)).
    cbn beta iota. rewrite (proj2 (Z.leb_le _ _)) by (unfold BLOCK_SIZE, m; lia).
    rewrite <- (block_entry s l i j raw m Hf Hv Hraw Hj) by (unfold m; lia). unfold ret. f_equal.
    unfold read_entry, last_base. replace (Z.to_nat (64 * Z.of_nat m)) with (64 * m)%nat by lia.
    cbn [fst snd]. by destruct (ic_size i <=? 128).
Qed.

(** ** The whole directory *)

Lemma validateSearch_dir i : S_ISDIR (ic_file_mode i) = true -> validateSearch i = 0.
Proof. intros Hd. unfold validateSearch. rewrite Hd. cbn [negb orb]. change (S_IXUSR =? S_IXUSR) with true.
  cbn iota. rewrite Z.land_0_r. done. Qed.

Lemma validateSearch_file i : S_ISDIR (ic_file_mode i) = false -> validateSearch i = -1.
Proof. intros Hd. unfold validateSearch. by rewrite Hd. Qed.

Lemma find_entry_skip nm (es : list (list Z * Z)) (j : nat) :
  find_entry nm (take (16 * j) es) = None ->
  find_entry nm (take (16 * S j) es) = prod_map (fun m => 16 * j + m)%nat id <$> find_entry nm (take 16 (drop (16 * j) es)) /\
  (forall m e, find_entry nm (take 16 (drop (16 * j) es)) = Some (m, e) ->
     find_entry nm es = Some (16 * j + m, e)%nat).
Proof.
  intros Hn. unfold find_entry in *. destruct (decide (16 * j <= length es)%nat) as [Hl|Hl].
  - assert (length (take (16 * j) es) = 16 * j)%nat as Hlt by (rewrite length_take; lia).
    split.
    + replace (16 * S j)%nat with (16 * j + 16)%nat by lia.
      rewrite <- take_take_drop. rewrite list_find_app_r by done. rewrite Hlt.
      destruct (list_find _ (take 16 _)) as [[m e]|]; [|done]. cbn. do 2 f_equal. lia.
    + intros m e Hm. rewrite <- (take_drop (16 * j) es), list_find_app_r by done. rewrite Hlt.
      rewrite <- (take_drop 16 (drop (16 * j) es)). erewrite list_find_app_l by exact Hm.
      cbn. do 2 f_equal. lia.
  - rewrite drop_ge, take_nil by lia. cbn. split; [|done]. rewrite take_ge in Hn |- * by lia. done.
Qed.

(** Searching by name, with or without the replacement of the entry found. *)
Lemma search_loop s l i nm e0 last num :
  dir_ok s l i -> c_string nm -> wf_last last ->
  wp (while_do (S (S (Z.to_nat (ic_size i / BLOCK_SIZE))))
        (fun st => bool_decide (Some nm <> None) || (sr_read st <? num))
        (search_body i (Some nm) last) (SearchState 0 0 junk_response [e0])) s
     (fun st s' =>
        match find_entry nm (dir_list s i) with
        | None => sr_read st = 0 /\ sr_buf st = [e0] /\ s' = s
        | Some (k, e) =>
            sr_read st = 1 /\
            sr_buf st = [DirectoryEntry (fst e) (low_bytes (iNodeNum e0) (snd e))] /\
            swapped s s' l i k last
        end).
Proof.
  intros Hd Hnm Hlast. pose proof Hd as (Hf & _). pose proof (file_size_u64 _ _ _ Hf) as Hsz.
  pose proof (dir_count _ _ _ Hd) as [Hcnt Hsz64].
  unfold BLOCK_SIZE. pose proof (Z.div_mod (ic_size i) 1024 ltac:(lia)) as Hdm.
  pose proof (Z.mod_pos_bound (ic_size i) 1024 ltac:(lia)) as Hmb.
  assert (0 <= ic_size i / 1024) as Hq by (apply Z.div_pos; lia).
  apply (wp_while (fun st s' => s' = s /\ sr_read st = 0 /\ sr_buf st = [e0] /\
      exists j, sr_offset st = 1024 * Z.of_nat j /\ Z.of_nat j <= ic_size i / 1024 + 1 /\
        find_entry nm (take (16 * j) (dir_list s i)) = None)
    (fun st => Z.to_nat (ic_size i / 1024 + 1 - sr_offset st / 1024))).
  - intros [off r resp buf] s1. cbn [sr_read sr_buf sr_offset].
    intros (-> & -> & -> & j & -> & Hjb & Hnone) _. unfold search_body.
    destruct (decide (1024 * Z.of_nat j < ic_size i)) as [Hlt|Hge].
    + destruct (wp_inv _ _ _ (bmap_in_file s l i (1024 * Z.of_nat j) resp READ_MODE
        (fun r s' => s' = s /\ r = (0, i, BmapResponse (file_block (addrs s) (ic_dataBlockNums i) (Z.of_nat j)) 0 1024
           (readAheadBlockNum resp))) Hf ltac:(lia)
        ltac:(rewrite Z.mul_comm, Z.div_mul, Z.mod_mul by lia; done)))
        as (r & s' & Hrun & -> & ->).
      apply wp_bind. eapply wp_Ret; [exact Hrun|]. cbn beta iota zeta. change (0 =? -1) with false. cbn iota.
      apply wp_bind. change (Z.to_nat 0) with 0%nat.
      eapply wp_mono; [apply (checkInBlock_spec s l i nm [e0] e0 0 last (Z.of_nat j)); done || lia|].
      intros [r buf'] s'. rewrite Nat2Z.id. destruct (find_entry_skip nm (dir_list s i) j Hnone) as [Hskip Hfound].
      destruct (find_entry nm (take 16 (drop (16 * j) (dir_list s i)))) as [[m e]|] eqn:Hfe.
      * intros (-> & -> & Hsw). rewrite bool_decide_eq_true_2 by done. change (1 =? 1) with true. cbn [andb].
        apply wp_ret. cbn [sr_read sr_buf]. rewrite (Hfound m e eq_refl). split_and!; [done|done|done].
      * intros (-> & -> & ->). change (0 =? 1) with false. rewrite andb_false_r. apply wp_ret.
        cbn [sr_read sr_buf sr_offset]. change (DIRECTORY_ENTRIES_IN_BLOCK * DIRECTORY_ENTRY_SIZE) with 1024.
        rewrite !u64_id by (unfold is_u64; lia). assert (Z.of_nat j <= ic_size i / 1024) as Hjq.
        { apply Z.div_le_lower_bound; lia. }
        split; [split_and!; [done|done|done|]|].
        -- exists (S j). split_and!; [lia|lia|]. rewrite Hskip. done.
        -- replace (1024 * Z.of_nat j + 1024) with ((Z.of_nat j + 1) * 1024) by lia.
           rewrite (Z.mul_comm 1024), !Z.div_mul by lia. lia.
    + assert (find_entry nm (dir_list s i) = None) as Hall.
      { rewrite take_ge in Hnone; [done|]. rewrite Hcnt. lia. }
      apply wp_bind. eapply wp_Ret; [apply bmap_beyond; destruct (Z.eq_dec (ic_size i) (1024 * Z.of_nat j)); [right; done|left; lia]|].
      cbn beta iota zeta. change (-1 =? -1) with true. cbn iota. apply wp_ret. cbn [sr_read sr_buf].
      rewrite Hall. done.
  - intros [off r resp buf] s1 _. rewrite bool_decide_eq_true_2 by done. done.
  - cbn [sr_read sr_buf sr_offset]. split_and!; [done|done|done|]. exists 0%nat. split_and!; [done|lia|done].
  - cbn [sr_offset]. change (0 / 1024) with 0. lia.
Qed.


(** What a search by name returns. *)
Definition search_result (es : list (list Z * Z)) (nm : list Z) (e0 : directoryEntry)
    (r : Z * list directoryEntry) : Prop :=
  match find_entry nm es with
  | None => r = (0, [e0])
  | Some (_, e) => r = (1, [DirectoryEntry (fst e) (low_bytes (iNodeNum e0) (snd e))])
  end.

Lemma search_by_name s l i nm e0 num :
  dir_ok s l i -> c_string nm ->
  wp (searchINodeDirectoryEntries i (Some nm) 0 [e0] num false) s (fun r s' =>
    s' = s /\ search_result (dir_list s i) nm e0 r).
Proof.
  intros Hd Hnm. unfold searchINodeDirectoryEntries.
  rewrite validateSearch_dir by (by destruct Hd as (_ & ? & _)). change (0 =? -1) with false. cbn iota.
  apply wp_bind, wp_ret, wp_bind. change (u64 (0 * DIRECTORY_ENTRY_SIZE)) with 0.
  eapply wp_mono; [by apply (search_loop s l i nm e0 None)|].
  intros st s' Hst. apply wp_ret. unfold search_result.
  destruct (find_entry nm (dir_list s i)) as [[k e]|].
  - destruct Hst as (-> & -> & Hsw). split; [exact Hsw|done].
  - destruct Hst as (-> & -> & ->). done.
Qed.

Lemma search_not_directory s i nm off buf num u :
  S_ISDIR (ic_file_mode i) = false ->
  searchINodeDirectoryEntries i nm off buf num u s = Ret (-1, buf) s.
Proof. intros Hd. unfold searchINodeDirectoryEntries. by rewrite validateSearch_file. Qed.

(** With [forUnlink] the last entry takes the place of the one found. *)
Lemma search_for_unlink s l i nm e0 num :
  dir_ok s l i -> c_string nm -> 64 <= ic_size i ->
  wp (searchINodeDirectoryEntries i (Some nm) 0 [e0] num true) s (fun r s' =>
    search_result (dir_list s i) nm e0 r /\
    match find_entry nm (dir_list s i) with
    | None => s' = s
    | Some (k, _) => exists e, last (dir_list s i) = Some e /\
        overwritten s s' l i (64 * Z.of_nat k) (entry_bytes (fst e) (snd e))
    end).
Proof.
  intros Hd Hnm H64. unfold searchINodeDirectoryEntries.
  rewrite validateSearch_dir by (by destruct Hd as (_ & ? & _)). change (0 =? -1) with false. cbn iota.
  destruct (getLastEntry_spec s l i (junk_entry s) Hd H64) as (e & He & Hg).
  apply wp_bind, wp_bind. eapply wp_Ret; [done|]. apply wp_bind. eapply wp_Ret; [exact Hg|]. apply wp_ret, wp_bind.
  change (u64 (0 * DIRECTORY_ENTRY_SIZE)) with 0.
  set (le := DirectoryEntry _ _).
  assert (e ∈ dir_list s i) as Hin.
  { apply last_Some in He as [es' ->]. set_solver. }
  pose proof Hd as (Hf & _ & _ & Hterm). rewrite Forall_forall in Hterm. destruct (Hterm e Hin) as [_ Hnum].
  assert (length (fst e) = 62%nat /\ Forall is_byte (fst e)) as [Hl62 Hbytes].
  { apply list_elem_of_lookup in Hin as [k Hk]. apply lookup_entry_list in Hk as [Hk ->]. cbn [fst entry_at].
    assert (64 * k + 64 <= length (dir_data s i))%nat.
    { pose proof (Nat.div_mod (length (dir_data s i)) 64 ltac:(lia)). lia. }
    split; [apply length_bytes_at; lia|]. apply Forall_bytes_at. unfold dir_data, file_data.
    apply Forall_fmap, Forall_true. intros x. cbn. unfold file_byte. pose proof Hf as (Hok & _).
    destruct (view s _) as [b|] eqn:Hv; [|unfold is_byte; lia]. apply view_wf in Hv as [_ Hb]; [|done].
    destruct (b !! _) eqn:Hb'; cbn; [by eapply (Forall_lookup_1 _ _ _ _ Hb)|unfold is_byte; lia]. }
  assert (wf_last (Some le)) as Hwf by done.
  eapply wp_mono; [by apply (search_loop s l i nm e0 (Some le))|].
  intros st s' Hst. apply wp_ret. unfold search_result.
  destruct (find_entry nm (dir_list s i)) as [[k e1]|].
  - destruct Hst as (-> & -> & Hsw). split; [done|]. exists e. split; [done|].
    unfold swapped, le in Hsw. cbn [name iNodeNum] in Hsw.
    rewrite decide_False in Hsw by (by apply low_bytes_not_minus_one).
    unfold entry_bytes in Hsw |- *. by rewrite low_bytes_le_enc in Hsw by lia.
  - destruct Hst as (-> & -> & ->). done.
Qed.

(** ** Adding an entry *)

Lemma name_bytes_ok filename :
  c_string filename ->
  length (name_bytes filename) = 62%nat /\ Forall is_byte (name_bytes filename).
Proof.
  intros Hn. unfold name_bytes. split.
  - rewrite length_take, length_app. cbn [length]. rewrite length_app, length_replicate. lia.
  - apply Forall_take, Forall_app_2.
    + eapply Forall_impl; [exact Hn|]. unfold is_char, is_byte. lia.
    + constructor; [unfold is_byte; lia|]. apply Forall_app_2; [apply junk_bytes_ok|apply zeros_bytes].
Qed.

(** A name of at most 61 characters is stored with its terminator. *)
Lemma name_bytes_name filename :
  c_string filename -> (length filename <= 61)%nat ->
  0 ∈ name_bytes filename /\ c_str (name_bytes filename) = filename.
Proof.
  intros Hn Hl. unfold name_bytes. set (tl := junk_bytes ++ _). clearbody tl.
  rewrite take_app_ge by lia. destruct (62 - length filename)%nat eqn:E; [lia|]. cbn [take].
  split; [apply elem_of_app; right; by left|]. clear E Hl.
  induction Hn as [|c f Hc _ IH]; [done|]. cbn [app c_str]. unfold is_char in Hc.
  rewrite (proj2 (Z.eqb_neq _ _)) by lia. by rewrite IH.
Qed.

Lemma memcpy_name_Ret nm size s : name_readable size -> memcpy_name nm size s = Ret (name_bytes nm) s.
Proof.
  intros Hr. unfold memcpy_name. destruct Hr as [->|Hs]; [done|]. rewrite (proj2 (Nat.leb_le _ _) Hs).
  by rewrite orb_true_r.
Qed.

(** A machine on which nothing behind an object can be read has no result for a
    name in a shorter one. *)
Lemma memcpy_name_undefined nm size s :
  over_reads = false -> (size < 62)%nat -> memcpy_name nm size s = Undef OutOfBounds.
Proof. intros Hno Hs. unfold memcpy_name. by rewrite Hno, (proj2 (Nat.leb_gt _ _) Hs). Qed.

Lemma addDirectoryEntry_spec s b off filename size num raw (Q : unit -> dstate -> Prop) :
  ok s -> view s b = Some raw -> c_string filename -> name_readable size -> 0 <= off -> off + 64 <= 1024 ->
  (forall s', ok s' -> changes (eq b) s s' ->
     view s' b = Some (memcpy_at raw (Z.to_nat off) (entry_bytes (name_bytes filename) num)) -> Q tt s') ->
  wp (addDirectoryEntry b off filename size num) s Q.
Proof.
  intros Hok Hv Hn Hrd Ho0 Ho1 HQ. destruct (name_bytes_ok filename Hn) as [Hl Hb].
  destruct (entry_bytes_ok (name_bytes filename) num Hl Hb) as [Hl64 Hb64].
  pose proof (view_wf _ _ _ Hok Hv) as Hraw. unfold addDirectoryEntry.
  pose proof (wp_put_bytes b off (entry_bytes (name_bytes filename) num) raw s Q Hok Hv Hb64
    ltac:(lia) HQ) as Hw.
  pose proof (getDiskBlock_view b junk_block raw s Hok junk_block_wf Hv) as Hg.
  unfold wp in *. rewrite (bind_Ret _ _ _ _ _ Hg) in Hw. rewrite (bind_Ret _ _ _ _ _ Hg).
  cbn beta iota in *. rewrite (bind_Ret _ _ _ _ _ (memcpy_name_Ret filename size s Hrd)).
  by rewrite write_entry_bytes by (try done; destruct Hraw; lia).
Qed.

(** The identity of an inode, which the growth of its file leaves alone. *)
Definition same_id (i i' : inCoreiNode) : Prop :=
  ic_inode_number i' = ic_inode_number i /\ ic_device_number i' = ic_device_number i /\
  ic_file_mode i' = ic_file_mode i /\ ic_type i' = ic_type i /\
  ic_owner_uid i' = ic_owner_uid i /\ ic_group_uid i' = ic_group_uid i /\
  reference_count i' = reference_count i /\ iNodeMutex i' = iNodeMutex i.

Lemma updateINodeMetadata_id i d links s i' s' :
  updateINodeMetadata i d links s = Ret i' s' -> same_id i i'.
Proof.
  unfold updateINodeMetadata. destruct (negb (d =? 0)).
  - rewrite bind_assoc. unfold bind, time_NULL, ret. intros [= <- _]. done.
  - rewrite bind_ret. unfold ret. intros [= <- _]. done.
Qed.

Lemma bind_Ret_inv {S A B} (m : M S A) (k : A -> M S B) s b s' :
  bind m k s = Ret b s' -> exists a s1, m s = Ret a s1 /\ k a s1 = Ret b s'.
Proof. unfold bind. destruct (m s); try done. eauto. Qed.

(** Everything but the size, the blocks, the time of modification and the marks. *)
Definition touched (i i' : inCoreiNode) : Prop :=
  same_id i i' /\ ic_linksCount i' = ic_linksCount i /\
  ic_access i' = ic_access i /\ ic_status_change i' = ic_status_change i /\
  (is_i64 (ic_modification i) -> is_i64 (ic_modification i')).

#[export] Instance touched_preorder : PreOrder touched.
Proof.
  split; [by intros i|].
  intros i1 i2 i3 ((?&?&?&?&?&?&?&?)&?&?&?&?) ((?&?&?&?&?&?&?&?)&?&?&?&?).
  unfold touched, same_id. split_and!; try congruence. auto.
Qed.

(** The links may be set at the same time. *)
Lemma updateINodeMetadata_relinked i d links s i' s' :
  updateINodeMetadata i d links s = Ret i' s' -> touched (ic_set_links links i) i'.
Proof.
  intros Hr. split; [by apply updateINodeMetadata_id in Hr|]. revert Hr.
  unfold updateINodeMetadata. destruct (negb (d =? 0)).
  - rewrite bind_assoc. unfold bind, time_NULL, ret. intros [= <- _].
    split_and!; [done..|]. intros _. apply time_at_range.
  - rewrite bind_ret. unfold ret. intros [= <- _]. done.
Qed.

Lemma updateINodeMetadata_touched i d s i' s' :
  updateINodeMetadata i d (ic_linksCount i) s = Ret i' s' -> touched i i'.
Proof. intros Hr. apply updateINodeMetadata_relinked in Hr. by destruct i. Qed.

Lemma insertDataBlock_touched i b s i' s' :
  insertDataBlockInINode i b s = Ret i' s' -> touched i i'.
Proof.
  unfold insertDataBlockInINode. destruct (negb _); [unfold ret; by intros [= <- _]|].
  destruct (calculateOffset _) as [t|]; [|done]. unfold updateIndex.
  destruct (decide _); [unfold ret; by intros [= <- _]|]. intros Hr.
  apply bind_Ret_inv in Hr as (nums & s1 & _ & Hr). by apply updateINodeMetadata_touched in Hr.
Qed.

Lemma bmap_touched i off resp mode s r i' resp' s' :
  bmap i off resp mode s = Ret (r, i', resp') s' -> touched i i'.
Proof.
  unfold bmap. destruct (_ && (_ || _)); [unfold ret; by intros [= _ <- _ _]|].
  destruct (_ && _ && _).
  - intros Hr. apply bind_Ret_inv in Hr as (b & s1 & _ & Hr).
    apply bind_Ret_inv in Hr as (i1 & s2 & Hi & Hr). apply insertDataBlock_touched in Hi.
    unfold ret in Hr. by injection Hr as _ <- _ _.
  - destruct (calculateOffset off) as [t|]; [|done]. intros Hr.
    apply bind_Ret_inv in Hr as (b & s1 & _ & Hr). unfold ret in Hr. by injection Hr as _ <- _ _.
Qed.

Lemma bmap_id i off resp mode s r i' resp' s' :
  bmap i off resp mode s = Ret (r, i', resp') s' -> same_id i i'.
Proof. intros Hr. by apply bmap_touched in Hr as [Hr _]. Qed.

(** Total correctness and identity together. *)
Lemma wp_ret_info {S A} (m : M S A) s (P : A -> S -> Prop) :
  wp m s P -> wp m s (fun a s' => m s = Ret a s' /\ P a s').
Proof. unfold wp. by destruct (m s). Qed.

Lemma getAndUpdateDirectoryTable_spec s l i num filename size :
  file_ok s l i -> S_ISDIR (ic_file_mode i) = true -> ic_size i mod 64 = 0 ->
  c_string filename -> name_readable size -> 0 <= num < 65536 -> room l (ic_size i) 64 ->
  wp (getAndUpdateDirectoryTable i num filename size) s (fun '(_, i') s' =>
    exists l', appended s l i s' l' i' (entry_bytes (name_bytes filename) num) /\
      dir_list s' i' = dir_list s i ++ [(name_bytes filename, num)] /\
      touched i i' /\ inode_changed i' = true).
Proof.
  intros Hf Hdir Hal Hn Hrd Hnum [Hr1 Hr2]. destruct (name_bytes_ok filename Hn) as [Hl Hb].
  destruct (entry_bytes_ok (name_bytes filename) num Hl Hb) as [Hl64 Hb64].
  pose proof (file_size_u64 _ _ _ Hf) as Hsz.
  set (chunk := entry_bytes (name_bytes filename) num) in *.
  unfold getAndUpdateDirectoryTable. rewrite validateSearch_dir by done. change (0 =? -1) with false. cbn iota.
  pose proof (Z.mod_pos_bound (ic_size i) 1024 ltac:(lia)) as Hmb.
  assert (ic_size i mod 1024 <= 960) as Hm.
  { assert (ic_size i mod 1024 mod 64 = 0) as Hmm.
    { rewrite Z.mod_mod_divide; [done|]. by exists 16. }
    pose proof (Z.div_mod (ic_size i mod 1024) 64 ltac:(lia)). lia. }
  apply wp_bind. eapply wp_mono; [apply wp_ret_info, (append_step s l i junk_response chunk Hf); rewrite Hl64; try change (Z.of_nat 64) with 64; lia|].
  intros [[r i1] resp1] s1 (Hrun & -> & Hoff & Hleft & Hs1 & Hlk & Hok1 & raw & Hv & Hput).
  apply bmap_touched in Hrun. change (0 =? -1) with false. cbn iota. rewrite Hoff. apply wp_bind.
  eapply addDirectoryEntry_spec; [done|exact Hv|done|done|lia|lia|]. intros s2 Hok2 Hch2 Hv2. fold chunk in Hv2.
  change DIRECTORY_ENTRY_SIZE with 64. apply wp_bind.
  eapply wp_mono; [apply wp_ret_info, (updateINodeMetadata_spec i1 64 (ic_linksCount i1) s2
    (fun i2 s3 => ok s3 /\ same_env s2 s3 /\ (forall n, view s3 n = view s2 n) /\
       ic_dataBlockNums i2 = ic_dataBlockNums i1 /\ ic_size i2 = ic_size i + 64 /\
       inode_changed i2 = true)); [done|]|].
  { intros i2 s3 Hok3 He3 Hv3 Hn2 Hs2 _ _ _ Hch2'. unfold MAX_FILE_SIZE in Hr1.
    change TRIPLE_INDIRECT_LIMIT with 2113673 in Hr1.
    rewrite Hs1, u64_id in Hs2 by (unfold is_u64; lia). by split_and!. }
  intros i2 s3 (Hid & Hok3 & He3 & Hv3 & Hn2 & Hs2 & Hl2). apply updateINodeMetadata_touched in Hid. apply wp_ret.
  destruct (Hput i2 s2 Hn2 ltac:(rewrite Hl64; exact Hs2) Hok2 Hch2 Hv2) as (l2 & Happ).
  exists l2. assert (appended s l i s3 l2 i2 chunk) as Happ3 by (by eapply appended_frame).
  split_and!; [done| |by etrans|done].
  unfold dir_list, dir_data. pose proof Happ3 as (_ & _ & _ & _ & _ & ->).
  apply entry_list_snoc; [|done|done]. rewrite length_file_data.
  change 64%nat with (Z.to_nat 64). rewrite <- Z2Nat.inj_mod by lia. by rewrite Hal.
Qed.

(** The directory with its new entry is well-formed, and has the name. *)
Lemma added_dir_ok s l i s' l' i' num nm :
  dir_ok s l i -> c_string nm -> (length nm <= 61)%nat -> 0 <= num < 65535 ->
  appended s l i s' l' i' (entry_bytes (name_bytes nm) num) ->
  dir_list s' i' = dir_list s i ++ [(name_bytes nm, num)] -> touched i i' -> dir_ok s' l' i'.
Proof.
  intros (Hf & Hdir & Hal & Hterm) Hnm Hlen Hnum (Hf' & _ & _ & Hsz & _ & _) Hdl ((_ & _ & Hm & _) & _).
  destruct (name_bytes_name nm Hnm Hlen) as [Hz Hcs].
  split_and!; [done|by rewrite Hm| |].
  - rewrite Hsz. unfold entry_bytes. destruct (name_bytes_ok nm Hnm) as [Hl62 _].
    rewrite length_app, length_le_enc, Hl62.
    change (Z.of_nat (62 + 2)) with (1 * 64). by rewrite Z.mod_add.
  - rewrite Hdl. apply Forall_app_2; [done|]. constructor; [by split|constructor].
Qed.

Lemma find_added es nm num :
  c_string nm -> (length nm <= 61)%nat -> find_entry nm es = None ->
  find_entry nm (es ++ [(name_bytes nm, num)]) = Some (length es, (name_bytes nm, num)).
Proof.
  intros Hnm Hlen Hno. destruct (name_bytes_name nm Hnm Hlen) as [Hz Hcs]. unfold find_entry in *.
  rewrite list_find_app_r by done. cbn [list_find]. rewrite decide_True by done. cbn.
  do 2 f_equal.
Qed.

(** ** The entries of a new directory *)

Lemma c_string_dot : c_string dot /\ c_string dot_dot.
Proof. split; by repeat constructor. Qed.

Lemma updateNewDirMetaData_spec s l i parent :
  file_ok s l i -> ic_size i = 0 -> 0 <= ic_inode_number i < 65536 -> 0 <= parent < 65536 ->
  room l 0 128 -> over_reads = true ->
  wp (updateNewDirMetaData i parent) s (fun '(_, i') s' =>
    exists l', appended s l i s' l' i'
        (entry_bytes (name_bytes dot) (ic_inode_number i) ++ entry_bytes (name_bytes dot_dot) parent) /\
      dir_list s' i' = [(name_bytes dot, ic_inode_number i); (name_bytes dot_dot, parent)] /\
      touched (ic_set_links 2 i) i' /\ inode_changed i' = true).
Proof.
  intros Hf Hsz Hnum Hpar [Hr1 Hr2] Hor. destruct c_string_dot as [Hd1 Hd2].
  destruct (name_bytes_ok dot Hd1) as [Hl1 Hb1]. destruct (name_bytes_ok dot_dot Hd2) as [Hl2 Hb2].
  destruct (entry_bytes_ok (name_bytes dot) (ic_inode_number i) Hl1 Hb1) as [Hc1 Hcb1].
  destruct (entry_bytes_ok (name_bytes dot_dot) parent Hl2 Hb2) as [Hc2 Hcb2].
  set (c1 := entry_bytes (name_bytes dot) (ic_inode_number i)) in *.
  set (c2 := entry_bytes (name_bytes dot_dot) parent) in *.
  assert (length (c1 ++ c2) = 128%nat) as Hl128 by (rewrite length_app; lia).
  unfold updateNewDirMetaData. apply wp_bind.
  eapply wp_mono; [apply wp_ret_info, (append_step s l i junk_response (c1 ++ c2) Hf)|].
  { rewrite Hl128, Hsz. change (0 mod 1024) with 0. lia. }
  { rewrite Hl128, Hsz. exact Hr1. }
  { rewrite Hl128, Hsz. exact Hr2. }
  intros [[r i1] resp1] s1 (Hrun & -> & Hoff & Hleft & Hs1 & Hlk & Hok1 & raw & Hv & Hput).
  rewrite Hsz in Hoff. change (0 mod 1024) with 0 in *.
  apply bmap_touched in Hrun. change (0 =? -1) with false. cbn iota. rewrite Hoff. apply wp_bind.
  pose proof Hrun as ((Enum & _) & _). rewrite Enum.
  eapply addDirectoryEntry_spec; [done|exact Hv|done|by left|lia|lia|]. intros s2 Hok2 Hch2 Hv2. fold c1 in Hv2.
  change (u64 (0 + DIRECTORY_ENTRY_SIZE)) with 64. apply wp_bind.
  eapply addDirectoryEntry_spec; [done|exact Hv2|done|by left|lia|lia|]. intros s3 Hok3 Hch3 Hv3. fold c2 in Hv3.
  change (Z.to_nat 0) with 0%nat in *. change (Z.to_nat 64) with 64%nat in *.
  assert (memcpy_at (memcpy_at raw 0 c1) 64 c2 = memcpy_at raw 0 (c1 ++ c2)) as Happ2.
  { rewrite <- Hc1. rewrite <- (memcpy_at_app raw 0 c1 c2); [done|].
    destruct (view_wf _ _ _ Hok1 Hv). lia. }
  rewrite Happ2 in Hv3.
  assert (changes (eq (blockNumber resp1)) s1 s3) as Hch13 by (eapply changes_trans; [| |exact Hch2|exact Hch3]; auto).
  apply wp_bind. change (2 * DIRECTORY_ENTRY_SIZE) with 128.
  eapply wp_mono; [apply wp_ret_info, (updateINodeMetadata_spec i1 128 2 s3
    (fun i2 s4 => ok s4 /\ same_env s3 s4 /\ (forall n, view s4 n = view s3 n) /\
       ic_dataBlockNums i2 = ic_dataBlockNums i1 /\ ic_size i2 = 128 /\
       inode_changed i2 = true)); [done|]|].
  { intros i2 s4 Hok4 He4 Hv4 Hn2 Hs2 _ _ _ Hmk. rewrite Hs1, Hsz in Hs2. split_and!; try done. }
  intros i2 s4 (Hid & Hok4 & He4 & Hv4 & Hn2 & Hs2 & Hmk). apply updateINodeMetadata_relinked in Hid. apply wp_ret.
  destruct (Hput i2 s3 Hn2 ltac:(rewrite Hl128, Hsz; exact Hs2) Hok3 Hch13 ltac:(rewrite Hsz; exact Hv3)) as (l2 & Happ).
  assert (appended s l i s4 l2 i2 (c1 ++ c2)) as Happ4 by (by eapply appended_frame).
  exists l2. pose proof Happ4 as (Hf4 & He & _ & _ & _ & Hdata).
  split_and!; [done| | |done].
  2: { destruct Hrun as ((?&?&?&?&?&?&?&?)&?&?&?&?), Hid as ((?&?&?&?&?&?&?&?)&?&?&?&?).
    unfold touched, same_id. cbn in *. split_and!; try congruence. auto. }
  unfold dir_list, dir_data. rewrite Hdata, Hsz. change (file_data s (ic_dataBlockNums i) 0) with (@nil Z).
  rewrite app_nil_l. unfold c2. rewrite (entry_list_snoc c1) by (try done; by rewrite Hc1).
  unfold c1. rewrite <- (app_nil_l (entry_bytes (name_bytes dot) _)), (entry_list_snoc []) by done. done.
Qed.

(** ** Removing an entry: the last one moves, then the file shrinks *)

Definition removed (es : list (list Z * Z)) (k : nat) : list (list Z * Z) :=
  match last es with Some e => take (pred (length es)) (<[k := e]> es) | None => es end.

Lemma dir_list_overwritten s s' l i k e :
  dir_ok s l i -> (k < length (dir_list s i))%nat -> length (fst e) = 62%nat -> 0 <= snd e < 65536 ->
  overwritten s s' l i (64 * Z.of_nat k) (entry_bytes (fst e) (snd e)) ->
  dir_list s' i = <[k := e]> (dir_list s i).
Proof.
  intros Hd Hk Hl Hn Hov. destruct (dir_count _ _ _ Hd) as [Hcnt Hsz64]. rewrite Hcnt in Hk.
  assert (length (entry_bytes (fst e) (snd e)) = 64%nat) as H64.
  { unfold entry_bytes. rewrite length_app, length_le_enc. lia. }
  unfold dir_list, dir_data.
  rewrite (overwritten_data s s' l i _ _ (ic_size i) Hov) by (rewrite ?H64; lia).
  replace (Z.to_nat (64 * Z.of_nat k)) with (64 * k)%nat by lia.
  rewrite entry_list_insert; [by destruct e| |done|done]. rewrite length_file_data. lia.
Qed.

(** The name and number fields of an entry in a directory. *)
Lemma dir_entry_wf s l i e :
  dir_ok s l i -> e ∈ dir_list s i -> length (fst e) = 62%nat /\ 0 ∈ fst e /\ 0 <= snd e < 65535.
Proof.
  intros Hd Hin. pose proof Hd as (_ & _ & _ & Hterm). rewrite Forall_forall in Hterm.
  destruct (Hterm e Hin) as [H1' H2']. split_and!; [|done|lia..].
  apply list_elem_of_lookup in Hin as [k Hk]. apply lookup_entry_list in Hk as [Hk ->]. cbn [fst entry_at].
  pose proof (Nat.div_mod (length (dir_data s i)) 64 ltac:(lia)). apply length_bytes_at. lia.
Qed.

(** A directory that has lost its last entry. *)
Lemma dir_list_cut s s' l l' i i' :
  dir_ok s l i -> 64 <= ic_size i -> ic_size i' = ic_size i - 64 ->
  ic_dataBlockNums i' = ic_dataBlockNums i ->
  file_data s' (ic_dataBlockNums i') (ic_size i') = file_data s (ic_dataBlockNums i) (ic_size i - 64) ->
  file_ok s' l' i' -> ic_file_mode i' = ic_file_mode i ->
  dir_list s' i' = take (pred (length (dir_list s i))) (dir_list s i) /\ dir_ok s' l' i'.
Proof.
  intros Hd H64 Hsz Hnums Hdata Hf' Hmode. destruct (dir_count _ _ _ Hd) as [Hcnt Hsz64].
  pose proof Hd as (Hf & Hdir & Hal & Hterm).
  assert (dir_list s' i' = take (pred (length (dir_list s i))) (dir_list s i)) as E.
  { set (k := pred (length (dir_list s i))). pose proof (file_size_u64 _ _ _ Hf).
    assert (file_data s (ic_dataBlockNums i) (ic_size i - 64) = take (64 * k) (dir_data s i)) as Ed.
    { unfold dir_data, file_data. rewrite <- fmap_take, take_seq. do 2 f_equal. lia. }
    unfold dir_list at 1, dir_data at 1. rewrite Hdata, Ed. apply entry_list_take.
    unfold dir_data. rewrite length_file_data. lia. }
  split; [done|]. split_and!; [done|by rewrite Hmode| |].
  - rewrite Hsz, Hsz64. replace (64 * (ic_size i / 64) - 64) with ((ic_size i / 64 - 1) * 64) by lia.
    apply Z.mod_mul. lia.
  - rewrite E. by apply Forall_take.
Qed.

End search.
