(* ===== verification/DirUpdate.v ===== *)
(** Directories that lose an entry: the search that puts the last entry in the
    place of the one found, followed by the truncation that cuts the last entry
    off, as [unlinkFileFromINode] of [src/interface/unlink.c] combines them. *)

From S2P Require Export DirectorySpec FreeStack.

(** * What truncation leaves alone *)

(** A loop keeps what its body keeps. *)
Lemma while_do_keeps {S L} (I : L -> Prop) fuel cond (body : L -> M S (ctl L)) l s l' s' :
  (forall l s c s', I l -> body l s = Ret c s' -> match c with Next a | Break a => I a end) ->
  I l -> while_do fuel cond body l s = Ret l' s' -> I l'.
Proof.
  intros Hb. revert l s. induction fuel as [|fuel IH]; intros l s Hl; cbn [while_do];
    (destruct (cond l); [|unfold ret; by intros [= <- _]]); [done|].
  intros Hr. apply bind_Ret_inv in Hr as (c & s1 & Hc & Hr).
  pose proof (Hb _ _ _ _ Hl Hc) as Hl1. destruct c as [a|a].
  - by eapply IH.
  - unfold ret in Hr. by injection Hr as <- _.
Qed.

Section dir_update.
Context `{BlockStore ok}.
Local Abbreviation file_ok := (file_ok (ok := ok)).
Local Abbreviation dir_ok := (dir_ok (ok := ok)).
Local Abbreviation shrinkable := (shrinkable (ok := ok)).

Lemma bmap_read_same i off resp s r i' resp' s' :
  bmap i off resp READ_MODE s = Ret (r, i', resp') s' -> i' = i.
Proof.
  unfold bmap. destruct (_ && (_ || _)); [unfold ret; by intros [= _ <- _ _]|].
  rewrite andb_false_r. destruct (calculateOffset off) as [t|]; [|done]. intros Hr.
  apply bind_Ret_inv in Hr as (b & s1 & _ & Hr). unfold ret in Hr. by injection Hr as _ <- _ _.
Qed.

(** The new size is marked. *)
Definition resized (i i' : inCoreiNode) : Prop :=
  touched i i' /\ (ic_size i' = ic_size i \/ inode_changed i' = true).

Lemma resized_step i i1 d s i2 s' :
  touched i i1 -> updateINodeMetadata i1 d (ic_linksCount i1) s = Ret i2 s' -> resized i i2.
Proof.
  intros Ht Hr. split.
  - etrans; [exact Ht|]. by eapply updateINodeMetadata_touched.
  - right. unfold updateINodeMetadata in Hr. apply bind_Ret_inv in Hr as (i3 & s1 & _ & Hr).
    unfold ret in Hr. by injection Hr as <- _.
Qed.

Lemma decreaseFileSizeBy_resized i n s i' s' : decreaseFileSizeBy i n s = Ret i' s' -> resized i i'.
Proof.
  unfold decreaseFileSizeBy. intros Hr. apply bind_Ret_inv in Hr as ([[[i1 red] off] resp] & s1 & Hw & Hr).
  unfold ret in Hr. injection Hr as <- _.
  apply (while_do_keeps (fun '(i1, _, _, _) => resized i i1)) in Hw; [done| |by split; [|left]].
  clear. intros [[[i1 red] off] resp] s c s' Hk Hr. unfold decrease_body in Hr.
  apply bind_Ret_inv in Hr as ([[r i2] resp'] & s1 & Hb & Hr). apply bmap_read_same in Hb as ->.
  destruct (_ <? _).
  - apply bind_Ret_inv in Hr as (i3 & s2 & Hu & Hr). apply (resized_step _ _ _ _ _ _ (proj1 Hk)) in Hu.
    unfold ret in Hr. by injection Hr as <- _.
  - apply bind_Ret_inv in Hr as (u & s2 & _ & Hr).
    apply bind_Ret_inv in Hr as (i3 & s3 & Hu & Hr). apply (resized_step _ _ _ _ _ _ (proj1 Hk)) in Hu.
    unfold ret in Hr. by injection Hr as <- _.
Qed.

Lemma increaseFileSizeBy_resized i n s i' s' : increaseFileSizeBy i n s = Ret i' s' -> resized i i'.
Proof.
  unfold increaseFileSizeBy. intros Hr. apply bind_Ret_inv in Hr as ([[[i1 w] off] resp] & s1 & Hw & Hr).
  unfold ret in Hr. injection Hr as <- _.
  apply (while_do_keeps (fun '(i1, _, _, _) => resized i i1)) in Hw; [done| |by split; [|left]].
  clear. intros [[[i1 w] off] resp] s c s' [Ht _] Hr. unfold increase_body in Hr.
  apply bind_Ret_inv in Hr as ([[r i2] resp'] & s1 & Hb & Hr). apply bmap_touched in Hb.
  apply bind_Ret_inv in Hr as (u & s2 & _ & Hr). apply bind_Ret_inv in Hr as (i3 & s3 & Hu & Hr).
  assert (touched i i2) as Ht2 by (by etrans). apply (resized_step _ _ _ _ _ _ Ht2) in Hu.
  unfold ret in Hr. by injection Hr as <- _.
Qed.

(** The last entry is cut off. *)
Lemma cut_last_entry s l i :
  dir_ok s l i -> shrinkable s l i -> 64 <= ic_size i < 10240 ->
  wp (truncateINode i (u64 (ic_size i - DIRECTORY_ENTRY_SIZE))) s (fun i' s' =>
    touched i i' /\ inode_changed i' = true /\ ic_size i' = ic_size i - 64 /\
    exists freed, dir_list s' i' = take (pred (length (dir_list s i))) (dir_list s i) /\
      dir_ok s' (freed ++ l) i' /\ shrinkable s' (freed ++ l) i' /\
      ic_dataBlockNums i' = ic_dataBlockNums i /\
      Z.of_nat (length freed) = nblocks (ic_size i) - nblocks (ic_size i') /\ shed s i s' i' freed).
Proof.
  intros Hd Hsh Hsz. unfold truncateINode. change DIRECTORY_ENTRY_SIZE with 64.
  rewrite !(u64_id (ic_size i - 64)) by (unfold is_u64; lia).
  rewrite (proj2 (Z.eqb_neq _ _)), (proj2 (Z.ltb_lt _ _)) by lia.
  replace (ic_size i - (ic_size i - 64)) with 64 by lia. change (u64 64) with 64.
  set (P := fun (i' : inCoreiNode) s' => exists freed, shrinkable s' (freed ++ l) i' /\
    ic_size i' = ic_size i - 64 /\ ic_dataBlockNums i' = ic_dataBlockNums i /\
    file_data s' (ic_dataBlockNums i') (ic_size i') = file_data s (ic_dataBlockNums i) (ic_size i - 64) /\
    Z.of_nat (length freed) = nblocks (ic_size i) - nblocks (ic_size i') /\ shed s i s' i' freed).
  eapply wp_mono; [apply wp_ret_info, (decreaseFileSizeBy_direct s l i 64 P); [done|lia|lia|]|].
  { intros i' s' freed ? ? ? ? ? ?. by exists freed. }
  intros i' s' (Hrun & freed & Hsh' & Hsz' & Hnums & Hdata & Hfr & Hs).
  apply decreaseFileSizeBy_resized in Hrun as [Ht Hch].
  destruct (dir_list_cut s s' l (freed ++ l) i i' Hd ltac:(lia) Hsz' Hnums Hdata) as [Hdl' Hdok'].
  { by destruct Hsh'. }
  { by destruct Ht as [(_&_&?&_) _]. }
  split; [done|]. split; [destruct Hch; [lia|done]|]. split; [done|]. exists freed.
  split; [done|]. split; [done|]. split; [done|]. done.
Qed.

(** * Removing the entry with a name *)

(** The two steps on the directory alone; what happens to the removed inode in
    between does not touch it. *)
Definition remove_entry (i : inCoreiNode) (nm : list Z) (e0 : directoryEntry)
  : DM (Z * list directoryEntry * inCoreiNode) :=
  let* (r, buf) := searchINodeDirectoryEntries i (Some nm) 0 [e0] 0 true in
  if r =? 1 then
    let* i := truncateINode i (u64 (ic_size i - DIRECTORY_ENTRY_SIZE)) in
    ret (r, buf, i)
  else ret (r, buf, i).

(** The search leaves a directory that can shrink. *)
Lemma overwritten_shrinkable s s' l i o buf :
  shrinkable s l i -> (128 <= length l)%nat ->
  overwritten (ok := ok) s s' l i o buf -> shrinkable s' l i.
Proof.
  intros (Hf & Hh & _ & H0') Hl (Hf' & [[He _] Eb] & _).
  split; [done|]. split; [by destruct He as (_ & _ & _ & ->)|]. split.
  - pose proof Hf' as (_ & _ & Hfl & _). by eapply free_room_long.
  - fold (blocks_of s i) in H0'. fold (blocks_of s' i). by rewrite Eb.
Qed.

(** The entry found is overwritten with the last one. *)
Lemma search_overwrites s l i nm k e e0 :
  dir_ok s l i -> c_string nm -> 64 <= ic_size i -> find_entry nm (dir_list s i) = Some (k, e) ->
  wp (searchINodeDirectoryEntries i (Some nm) 0 [e0] 0 true) s (fun r s1 =>
    r = (1, [DirectoryEntry (fst e) (low_bytes (iNodeNum e0) (snd e))]) /\
    exists e' o buf, last (dir_list s i) = Some e' /\ dir_list s1 i = <[k := e']> (dir_list s i) /\
      (k < length (dir_list s i))%nat /\ dir_ok s1 l i /\ overwritten (ok := ok) s s1 l i o buf).
Proof.
  intros Hd Hnm Hsz Ef. eapply wp_mono; [by apply (search_for_unlink s l i nm e0 0)|].
  intros r s1 [Hres Hcase]. unfold search_result in Hres. rewrite Ef in Hres, Hcase. split; [done|].
  destruct Hcase as (e' & Hlast & Hov).
  assert (k < length (dir_list s i))%nat as Hk.
  { unfold find_entry in Ef. apply list_find_Some in Ef as (Hk & _). by eapply lookup_lt_Some. }
  destruct (dir_entry_wf s l i e' Hd) as (Hl62 & Hz & Hnum); [by apply last_Some_elem_of|].
  pose proof (dir_list_overwritten s s1 l i k e' Hd Hk Hl62 ltac:(lia) Hov) as Hd1.
  eexists e', _, _. split; [done|]. split; [done|]. split; [done|]. split; [|exact Hov].
  pose proof Hd as (_ & Hm & Hal & Hterm). split; [by destruct Hov|]. split; [done|]. split; [done|].
  rewrite Hd1. by apply Forall_insert.
Qed.

Lemma remove_entry_spec s l i nm e0 :
  dir_ok s l i -> shrinkable s l i -> c_string nm -> 64 <= ic_size i < 10240 ->
  (128 <= length l)%nat ->
  wp (remove_entry i nm e0) s (fun '(r, buf, i') s' =>
    search_result (dir_list s i) nm e0 (r, buf) /\ touched i i' /\
    match find_entry nm (dir_list s i) with
    | None => i' = i /\ s' = s
    | Some (k, _) => exists freed, dir_list s' i' = removed (dir_list s i) k /\
        dir_ok s' (freed ++ l) i' /\ shrinkable s' (freed ++ l) i' /\
        ic_size i' = ic_size i - 64 /\ Z.of_nat (length freed) = nblocks (ic_size i) - nblocks (ic_size i')
    end).
Proof.
  intros Hd Hsh Hnm Hsz Hl. unfold remove_entry. apply wp_bind.
  destruct (find_entry nm (dir_list s i)) as [[k e]|] eqn:Ef.
  - eapply wp_mono; [apply (search_overwrites s l i nm k e e0); [done|done|lia|done]|].
    intros r s1 (-> & e' & o & b & Hlast & Hd1 & _ & Hdok1 & Hov).
    change (1 =? 1) with true. cbn iota.
    pose proof (overwritten_shrinkable _ _ _ _ _ _ Hsh Hl Hov) as Hsh1.
    apply wp_bind. eapply wp_mono; [by apply (cut_last_entry s1 l i)|].
    intros i' s' (Ht & _ & Hsz' & freed & Hdl' & Hdok' & Hsh' & _ & Hfr & _). apply wp_ret.
    unfold search_result. rewrite Ef. split; [done|]. split; [done|]. exists freed.
    split; [|done]. rewrite Hdl', Hd1, length_insert. unfold removed. by rewrite Hlast.
  - eapply wp_mono; [apply (search_for_unlink s l i nm e0 0); [done|done|lia]|].
    intros [r buf] s1 [Hres Hcase]. pose proof Hres as Hres0. unfold search_result in Hres. rewrite Ef in Hres, Hcase.
    injection Hres as -> ->. change (0 =? 1) with false. cbn iota. subst s1. by apply wp_ret.
Qed.

End dir_update.
