(* ===== verification/Namei.v ===== *)
(** Path names: [src/trav/namei.c], and the two path helpers of
    [src/utils/utils.c]. A path is a C string, the list of its characters. *)

From S2P Require Export DirectorySpec.

(** * Characters of a path *)

Definition slash : Z := 47.

(** [path[k]]; behind the terminator there is nothing to read. *)
Definition path_at {S} (path : list Z) (k : nat) : M S Z :=
  match path !! k with
  | Some c => ret c
  | None => if decide (k = length path) then ret 0 else undefined OutOfBounds
  end.

(** [isalnum] of the C locale. *)
Definition isalnum (c : Z) : bool :=
  ((48 <=? c) && (c <=? 57)) || ((65 <=? c) && (c <=? 90)) || ((97 <=? c) && (c <=? 122)).

(** The loop of [checkAndGetLen]: [buf] is what [pathBuf] holds so far. Of the
    three tests only the last one leaves the loop. *)
Fixpoint check_loop {S} (path : list Z) (fuel counter : nat) (buf : list Z) : M S (nat * list Z) :=
  match fuel with
  | O => ret (counter, buf)
  | Datatypes.S f =>
      let* c := path_at path counter in
      let buf := buf ++ [c] in
      if isalnum c then check_loop path f (Datatypes.S counter) buf
      else if (c =? 95) || (c =? 45) || (c =? slash) then check_loop path f (Datatypes.S counter) buf
      else if c =? 0 then ret (counter, take counter buf)
      else check_loop path f (Datatypes.S counter) buf
  end.

(** The length and the characters of [pathBuf]. *)
Definition checkAndGetLen {S} (path : list Z) (bufLen : nat) : M S (nat * list Z) :=
  check_loop path bufLen 0 [].

(** * [utils.c] *)

(** The part of a path behind the last occurrence of [c], if there is one. *)
Fixpoint strrchr (l : list Z) (c : Z) : option nat :=
  match l with
  | [] => None
  | x :: l' => match strrchr l' c with
               | Some k => Some (S k)
               | None => if x =? c then Some O else None
               end
  end.

(** [strrchr(dest, '/') + 1] is not a pointer into the string when there is
    no slash. *)
Definition getParentDirectory {S} (path : list Z) : M S (list Z) :=
  match strrchr path slash with
  | Some k => ret (take (Datatypes.S k) path)
  | None => undefined NullDeref
  end.

Definition getFilenameFromPath {S} (path : list Z) : M S (list Z) :=
  match strrchr path slash with
  | Some k => ret (drop (Datatypes.S k) path)
  | None => undefined NullDeref
  end.

Section namei.
Context `{Host}.

(** A read-only routine on the inode of a node. *)
Definition look_inode {A} (k : nat) (f : inCoreiNode -> DM A) : IM A :=
  let* i := get_inode k in on_disk (f i).

(** A routine that returns a value and the changed inode. *)
Definition update_inode {A} (k : nat) (f : inCoreiNode -> DM (A * inCoreiNode)) : IM A :=
  let* i := get_inode k in
  let* (a, i) := on_disk (f i) in
  put_inode_at k i ;;;
  ret a.

(** The entry in a buffer of one. *)
Definition the_entry (buf : list directoryEntry) : directoryEntry := default zero_entry (head buf).

(** [retValue] is a [size_t]: it is not above 0 only when it is 0. *)
Definition operate (path : list Z) (workingINode : option nat) : IM (option nat) :=
  if decide (length path = 0%nat) then ret workingINode
  else
    let* working := deref workingINode in
    let* (r, entryBuffer) := look_inode working (fun i =>
      searchINodeDirectoryEntries i (Some path) 0 [zero_entry] 0 false) in
    let retValue := u64 r in
    let num := u64 (iNodeNum (the_entry entryBuffer)) in
    iput working ;;;
    if retValue <=? 0 then ret None
    else iget num 0.

(** The characters from [k] on up to a slash or the end. *)
Fixpoint component (l : list Z) : nat :=
  match l with
  | [] => O
  | c :: l' => if c =? slash then O else S (component l')
  end.

(** [workingINode] is the new value, [None] for [NULL]; the result is the
    [int] that the function returns. *)
Definition processNextLevel (path : list Z) (workingINode : option nat) : IM (Z * option nat) :=
  let endAt := component path in
  let* w := operate (take endAt path) workingINode in
  match w with
  | None => ret (-1, None)
  | Some k =>
      if decide (endAt = length path) then ret (Z.of_nat endAt - 1, Some k)
      else ret (Z.of_nat endAt, Some k)
  end.

(** The loop of [getFileINode]; every round moves on. *)
Fixpoint namei_loop (fuel : nat) (path : list Z) (counter : nat) (workingINode : option nat)
  : IM (option nat) :=
  match fuel with
  | O => fun _ => NoFuel
  | S f =>
      let* c := path_at path counter in
      if c =? 0 then ret workingINode
      else
        let* (r, w) := processNextLevel (drop counter path) workingINode in
        if r =? -1 then ret None
        else namei_loop f path (counter + Z.to_nat r + 1) w
  end.

Definition getFileINode (path : list Z) (bufLen : nat) : IM (option nat) :=
  let* (_, _) := checkAndGetLen path bufLen in
  let* workingINode := iget 0 0 in
  namei_loop (S (length path)) path 1 workingINode.

End namei.
