(* ===== verification/NameiSpec.v ===== *)
(** What the lookup of a path means: a walk from the root along the names of
    the path, through the directories that the cache and the disk show. *)

From S2P Require Export Namei CacheUse.

(** * Splitting a path at its last slash *)

Lemma strrchr_spec (l : list Z) c k :
  strrchr l c = Some k -> l !! k = Some c /\ c ∉ drop (S k) l.
Proof.
  revert k. induction l as [|x l IH]; intros k; [done|]. cbn [strrchr].
  destruct (strrchr l c) as [j|] eqn:E.
  - intros [= <-]. destruct (IH j eq_refl) as [H1 H2]. done.
  - destruct (Z.eqb_spec x c) as [->|]; [|done]. intros [= <-]. split; [done|]. cbn [drop].
    clear IH. intros Hin. induction l as [|y l IHl]; [by apply elem_of_nil in Hin|].
    cbn [strrchr] in E. destruct (strrchr l c); [done|]. destruct (Z.eqb_spec y c); [done|].
    apply elem_of_cons in Hin as [Hin|Hin]; [done|]. by apply IHl.
Qed.

Lemma strrchr_None (l : list Z) c : strrchr l c = None -> c ∉ l.
Proof.
  induction l as [|x l IH]; cbn [strrchr]; [intros _; apply not_elem_of_nil|].
  destruct (strrchr l c); [done|]. destruct (Z.eqb_spec x c); [done|]. intros _.
  apply not_elem_of_cons. split; [done|]. by apply IH.
Qed.

(** The parent directory and the file name make up the path again. *)
Lemma split_path {St} (path : list Z) (s : St) :
  slash ∈ path ->
  exists dir file, getParentDirectory path s = Ret dir s /\ getFilenameFromPath path s = Ret file s /\
    path = (dir ++ file) /\ (slash ∉ file) /\ last dir = Some slash.
Proof.
  intros Hin. unfold getParentDirectory, getFilenameFromPath.
  destruct (strrchr path slash) as [k|] eqn:E; [|by apply strrchr_None in E].
  apply strrchr_spec in E as [Hk Hno]. eexists _, _. split_and!; [done|done| |done|].
  - by rewrite take_drop.
  - rewrite last_lookup, length_take. pose proof (lookup_lt_Some _ _ _ Hk).
    rewrite Nat.min_l by lia. cbn [pred]. by rewrite lookup_take_lt by lia.
Qed.

(** [checkAndGetLen] accepts every character. *)
Lemma checkAndGetLen_any {St} (path : list Z) (s : St) :
  c_string path -> checkAndGetLen path (length path) s = Ret (length path, path) s.
Proof.
  intros Hp. unfold checkAndGetLen.
  assert (forall (n k : nat), (k + n = length path)%nat ->
    check_loop path n k (take k path) s = Ret (length path, path) s) as Hl; [|by apply (Hl _ 0%nat)].
  induction n as [|n IH]; intros k Hk; cbn [check_loop].
  - rewrite take_ge by lia. unfold ret. do 2 f_equal. lia.
  - destruct (lookup_lt_is_Some_2 path k) as [c Hc]; [lia|].
    unfold path_at. rewrite Hc, bind_ret. cbv zeta. rewrite <- (take_S_r _ _ _ Hc).
    assert (c <> 0) as Hc0.
    { apply (Forall_lookup_1 _ _ _ _ Hp) in Hc. unfold is_char in Hc. lia. }
    rewrite (proj2 (Z.eqb_neq _ _) Hc0).
    destruct (isalnum c); [|destruct (_ || _)]; apply (IH (Datatypes.S k)); lia.
Qed.

(** * The names along a path *)

Fixpoint split_names (fuel : nat) (l : list Z) : list (list Z) :=
  match fuel with
  | O => []
  | S f =>
      match l with
      | [] => []
      | _ => take (component l) l :: split_names f (drop (S (component l)) l)
      end
  end.

(** The components behind the leading character; empty ones mean nothing. *)
Definition path_names (path : list Z) : list (list Z) :=
  filter (fun nm => nm <> []) (split_names (length path) (drop 1 path)).

Lemma component_le l : (component l <= length l)%nat.
Proof. induction l as [|c l IH]; cbn; [lia|]. destruct (c =? slash); lia. Qed.

(** * The tree of directories *)

Section walk.
Context `{BlockStore ok} `{shifts : !DefinedShifts}.
Local Abbreviation file_ok := (file_ok (ok := ok)).
Local Abbreviation dir_ok := (dir_ok (ok := ok)).
Local Abbreviation cache_ok := (cache_ok (ok := ok)).
Local Abbreviation same_inodes := (same_inodes (ok := ok)).

(** An inode of the table as a directory. *)
Definition dir_of (d : iNode) : inCoreiNode := insertDiskInodeData d zero_inCoreiNode.

Lemma dir_ok_data s l i i' :
  getDiskINodeData i' = getDiskINodeData i ->
  (dir_ok s l i -> dir_ok s l i') /\ dir_list s i' = dir_list s i /\ blocks_of s i' = blocks_of s i.
Proof.
  intros E. assert (ic_dataBlockNums i' = ic_dataBlockNums i /\ ic_size i' = ic_size i /\
    ic_file_mode i' = ic_file_mode i) as (E1 & E2 & E3) by (unfold getDiskINodeData in E; by injection E).
  unfold DirectorySpec.dir_ok, dir_list, dir_data, blocks_of, FileBlocks.file_ok. by rewrite E1, E2, E3.
Qed.

(** Writes to the inode table and the list of inode numbers do not touch a
    directory. *)
Definition meta_zone (n : Z) : Prop := INODE_LIST_BLOCK <= n < 16388.

Lemma inode_zone_meta n : inode_zone n -> meta_zone n.
Proof. unfold inode_zone, meta_zone. consts. lia. Qed.

Lemma inode_block_zone n m : inode_num n -> inode_block n = m -> inode_zone m.
Proof. intros Hn <-. split; [by apply inode_block_ge|by apply inode_block_below]. Qed.

(** A directory whose blocks are not written. *)
Lemma dir_kept s s' l l' i (W : Z -> Prop) :
  dir_ok s l i -> ok s' -> changes W s s' -> (forall b, b ∈ blocks_of s i -> ~ W b) ->
  free_list s' l' -> NoDup (blocks_of s i ++ l') -> Forall is_u64 l' ->
  dir_ok s' l' i /\ dir_list s' i = dir_list s i /\ blocks_of s' i = blocks_of s i.
Proof.
  intros (Hf & Hdir & Hal & Hterm) Hok Hch HW Hl Hnd Hu.
  destruct (file_kept s s' l l' i W Hf Hok Hch HW Hl Hnd Hu) as (Hf' & Hb & Hdata).
  assert (dir_list s' i = dir_list s i) as Hdl by (unfold dir_list, dir_data; by rewrite Hdata).
  split_and!; [|done|done]. unfold DirectorySpec.dir_ok. by rewrite Hdl.
Qed.

(** In the data area, writes to the inode table are elsewhere. *)
Lemma free_list_meta s s' l :
  free_list s l -> Forall data_area l -> changes meta_zone s s' -> free_list s' l.
Proof.
  intros Hl Hda [He Hch]. rewrite Forall_forall in Hda. eapply free_list_frame; [exact Hl|done|].
  intros n Hn. apply Hch. unfold meta_zone. intros Hz. destruct Hn as [->|Hn]; [consts; lia|].
  apply list_elem_of_In, Hda in Hn. unfold data_area in Hn. lia.
Qed.

Lemma dir_frame_meta s s' l i :
  dir_ok s l i -> Forall data_area (l ++ blocks_of s i) -> ok s' -> changes meta_zone s s' ->
  dir_ok s' l i /\ dir_list s' i = dir_list s i /\ blocks_of s' i = blocks_of s i.
Proof.
  intros Hd Hda Hok Hch. apply Forall_app in Hda as [Hdl Hdb]. rewrite Forall_forall in Hdb.
  pose proof Hd as ((_ & _ & Hl & Hnd & _ & _ & Hu & _) & _).
  eapply dir_kept; [done|done|exact Hch| |by eapply free_list_meta|done|done].
  intros b Hb Hz. apply Hdb in Hb. unfold data_area, meta_zone in *. lia.
Qed.

Lemma dir_frame s s' l i :
  dir_ok s l i -> Forall data_area (l ++ blocks_of s i) -> ok s' -> changes inode_zone s s' ->
  dir_ok s' l i /\ dir_list s' i = dir_list s i /\ blocks_of s' i = blocks_of s i.
Proof.
  intros Hd Hda Hok Hch. apply (dir_frame_meta s); [done..|].
  eapply changes_mono; [|exact Hch]. apply inode_zone_meta.
Qed.

(** An inode that [iput] may release: it is linked, or the root. *)
Definition linked (s : istate) (Q : Z -> list nat) (n : Z) : Prop :=
  n = 0 \/ forall d, inode_view s Q n d -> linksCount d <> 0.

(** Every directory is well-formed and lies in the data area with the free
    blocks [l], and what its entries name is linked. *)
Definition tree_ok (s : istate) (Q : Z -> list nat) (l : list Z) : Prop :=
  forall n d, inode_num n -> inode_view s Q n d -> S_ISDIR (file_mode d) = true ->
    dir_ok (ds s) l (dir_of d) /\ Forall data_area (l ++ blocks_of (ds s) (dir_of d)) /\
    Forall (fun e => linked s Q (snd e)) (dir_list (ds s) (dir_of d)).

(** The entries of directory [n], and inodes that are not directories. *)
Definition entries_in (s : istate) (Q : Z -> list nat) (n : Z) (es : list (list Z * Z)) : Prop :=
  exists d, inode_view s Q n d /\ S_ISDIR (file_mode d) = true /\ es = dir_list (ds s) (dir_of d).
Definition not_directory (s : istate) (Q : Z -> list nat) (n : Z) : Prop :=
  exists d, inode_view s Q n d /\ S_ISDIR (file_mode d) = false.

(** Where a list of names leads from inode [n]: [None] when a directory does
    not have the name. A name looked up in something that is no directory leads
    to the root, since the error of the search is taken for a success and the
    number for that of the cleared buffer. *)
Inductive walks (s : istate) (Q : Z -> list nat) : Z -> list (list Z) -> option Z -> Prop :=
| walks_end n : walks s Q n [] (Some n)
| walks_into n nm nms es k e r :
    entries_in s Q n es -> find_entry nm es = Some (k, e) -> walks s Q (snd e) nms r ->
    walks s Q n (nm :: nms) r
| walks_missing n nm nms es :
    entries_in s Q n es -> find_entry nm es = None -> walks s Q n (nm :: nms) None
| walks_through_file n nm nms r :
    not_directory s Q n -> walks s Q 0 nms r -> walks s Q n (nm :: nms) r.

(** The lookup as it is meant: along directories only, to nothing when one of
    them has not got the next name. A path that goes on behind a file that is no
    directory leads nowhere; the code starts such a path again at the root, which
    is [walks_through_file]. *)
Inductive leads (s : istate) (Q : Z -> list nat) : Z -> list (list Z) -> option Z -> Prop :=
| leads_end n : leads s Q n [] (Some n)
| leads_into n nm nms es k e r :
    entries_in s Q n es -> find_entry nm es = Some (k, e) -> leads s Q (snd e) nms r ->
    leads s Q n (nm :: nms) r
| leads_missing n nm nms es :
    entries_in s Q n es -> find_entry nm es = None -> leads s Q n (nm :: nms) None.

Lemma leads_walks s Q n nms r : leads s Q n nms r -> walks s Q n nms r.
Proof.
  induction 1; [constructor|by eapply walks_into|by eapply walks_missing].
Qed.

(** The characters that [checkAndGetLen] means to let through. It passes all
    others too, and its copy of the path is not used. *)
Definition path_char (c : Z) : bool := isalnum c || (c =? 95) || (c =? 45) || (c =? slash).
Definition clean_path (path : list Z) : Prop := Forall (fun c => path_char c = true) path.

Lemma clean_path_c_string path : clean_path path -> c_string path.
Proof.
  intros Hp. eapply Forall_impl; [exact Hp|]. unfold path_char, isalnum, is_char, slash. intros c Hc.
  repeat (apply orb_prop in Hc as [Hc|Hc]); try apply andb_prop in Hc as [? ?]; lia.
Qed.

(** ** States that show the same tree *)

(** Inode [m] has [dr m] references more; on the way at most [lo m] of those it
    had were given up. *)
Record moves (s s' : istate) (F' : list nat) (Q Q' : Z -> list nat) (lo dr : Z -> Z) : Prop := {
  m_same : same_inodes s s' F' Q Q' dr;
  m_stays : stays s s' Q Q' lo;
  m_disk : changes inode_zone (ds s) (ds s')
}.

Lemma moves_trans s s1 s2 F F1 F2 Q Q1 Q2 lo1 dr1 lo2 dr2 lo dr :
  cache_ok s F Q -> moves s s1 F1 Q Q1 lo1 dr1 -> moves s1 s2 F2 Q1 Q2 lo2 dr2 ->
  (forall m, dr m = dr1 m + dr2 m) -> (forall m, lo1 m <= lo m /\ lo2 m - dr1 m <= lo m) ->
  moves s s2 F2 Q Q2 lo dr.
Proof.
  intros Hc [[C1 V1 R1] S1 D1] [[C2 V2 R2] S2 D2] Hdr Hlo. split; [split|..].
  - done.
  - intros m d Hm. by rewrite V2, V1.
  - intros m c Hm. rewrite Hdr, Z.add_assoc. by apply R2, R1.
  - intros m k i Hk Hpos. destruct (Hlo m) as [L1 L2].
    destruct (S1 m k i Hk) as (i1 & Hk1 & Hl1); [lia|]. destruct (S2 m k i1 Hk1) as (i2 & Hk2 & Hl2).
    { rewrite (refs_cached _ _ _ _ _ _ _ C1 Hk1 (R1 m (reference_count i) ltac:(left; by exists k, i))). lia. }
    exists i2. auto.
  - by eapply changes_trans; [| |exact D1|exact D2].
Qed.

Lemma moves_kept s s' F' Q Q' dr : moves s s' F' Q Q' (fun _ => 0) dr -> kept 0 s s' Q Q'.
Proof. intros Hm. apply Hm. Qed.

Lemma moves_refl s F Q : cache_ok s F Q -> moves s s F Q Q (fun _ => 0) (fun _ => 0).
Proof.
  intros Hc. split; [split|..]; [done|done| |intros m k i Hk _; by exists i|auto with nao].
  intros m c. by rewrite Z.add_0_r.
Qed.

Lemma moves_weaken s s' F' Q Q' lo lo' dr dr' :
  moves s s' F' Q Q' lo dr -> (forall m, dr m = dr' m) -> (forall m, lo m <= lo' m) ->
  moves s s' F' Q Q' lo' dr'.
Proof.
  intros [[Hc V R] St D] E L. split; [split|..]; [done|done| | |done].
  - intros m c Hm. rewrite <- E. by apply R.
  - intros m k i Hk Hpos. apply (St m k i Hk). specialize (L m). lia.
Qed.

Lemma entries_in_moves s s' F' Q Q' lo dr l n es :
  moves s s' F' Q Q' lo dr -> tree_ok s Q l -> inode_num n -> entries_in s Q n es -> entries_in s' Q' n es.
Proof.
  intros [[Hc V _] _ D] Ht Hn (d & Hv & Hdir & ->). destruct (Ht n d Hn Hv Hdir) as (Hd & Hda & _).
  exists d. split_and!; [by apply V|done|]. symmetry.
  by apply (dir_frame _ _ l _ Hd Hda (c_disk _ _ _ Hc) D).
Qed.

Lemma tree_ok_moves s s' F' Q Q' lo dr l :
  moves s s' F' Q Q' lo dr -> tree_ok s Q l -> tree_ok s' Q' l.
Proof.
  intros [[Hc V _] _ D] Ht n d Hn Hv Hdir. apply V in Hv; [|done].
  destruct (Ht n d Hn Hv Hdir) as (Hd & Hda & Hl).
  destruct (dir_frame _ _ l _ Hd Hda (c_disk _ _ _ Hc) D) as (Hd' & -> & ->).
  split_and!; [done|done|]. pose proof Hd as (_ & _ & _ & Hterm).
  apply Forall_forall. intros e He. rewrite Forall_forall in Hl, Hterm.
  destruct (Hl e He) as [Hz|Hl']; [by left|right]. intros d' Hd1. apply Hl'. apply V; [|done].
  destruct (Hterm e He) as [_ Hr]. unfold inode_num. consts. lia.
Qed.

(** The numbers of entries are numbers of inodes. *)
Lemma entry_num s Q l n es nm k e :
  tree_ok s Q l -> inode_num n -> entries_in s Q n es -> find_entry nm es = Some (k, e) ->
  inode_num (snd e) /\ linked s Q (snd e).
Proof.
  intros Ht Hn (d & Hv & Hdir & ->) Hf. destruct (Ht n d Hn Hv Hdir) as ((_ & _ & _ & Hterm) & _ & Hl).
  unfold find_entry in Hf. apply list_find_Some in Hf as (Hk & _).
  apply list_elem_of_lookup_2 in Hk. rewrite Forall_forall in Hterm, Hl.
  destruct (Hterm e Hk) as [_ Hr]. split; [unfold inode_num; consts; lia|by apply Hl].
Qed.

Lemma walks_moves s s' F' Q Q' lo dr l n nms r :
  moves s s' F' Q Q' lo dr -> tree_ok s Q l -> inode_num n -> walks s Q n nms r -> walks s' Q' n nms r.
Proof.
  intros Hm Ht Hn Hw. revert Hn.
  induction Hw as [n|n nm nms es k e r He Hf Hw IH|n nm nms es He Hf|n nm nms r Hnd Hw IH]; intros Hn.
  - constructor.
  - eapply walks_into; [by eapply entries_in_moves|done|]. apply IH. by eapply entry_num.
  - eapply walks_missing; [by eapply entries_in_moves|done].
  - eapply walks_through_file; [|by apply IH]. destruct Hnd as (d & Hv & Hd). exists d.
    split; [|done]. by apply (si_view _ _ _ _ _ _ (m_same _ _ _ _ _ _ _ Hm)).
Qed.

(** Every list of names leads somewhere, and to one place only. *)
Lemma walks_total s F Q l n nms :
  cache_ok s F Q -> tree_ok s Q l -> inode_num n -> exists r, walks s Q n nms r.
Proof.
  intros Hc Ht. revert n. induction nms as [|nm nms IH]; intros n Hn; [by eexists; constructor|].
  destruct (inode_view_total _ _ _ _ Hc Hn) as [d Hv].
  destruct (S_ISDIR (file_mode d)) eqn:Hd.
  - assert (entries_in s Q n (dir_list (ds s) (dir_of d))) as He by (by exists d).
    destruct (find_entry nm (dir_list (ds s) (dir_of d))) as [[k e]|] eqn:Hf.
    + destruct (entry_num _ _ _ _ _ _ _ _ Ht Hn He Hf) as [Hn' _]. destruct (IH _ Hn') as [r Hr].
      exists r. by eapply walks_into.
    + exists None. by eapply walks_missing.
  - destruct (IH 0 ltac:(done)) as [r Hr]. exists r. apply walks_through_file; [by exists d|done].
Qed.

Lemma walks_unique s F Q n nms r r' :
  cache_ok s F Q -> walks s Q n nms r -> walks s Q n nms r' -> r' = r.
Proof.
  intros Hc Hw. revert r'.
  assert (forall m d d', inode_view s Q m d -> inode_view s Q m d' -> d = d') as Hu
    by (intros m d d' X Y; exact (inode_view_unique _ _ _ _ _ _ Hc X Y)).
  induction Hw as [n|n nm nms es k e r He Hf Hw IH|n nm nms es He Hf|n nm nms r Hnd Hw IH];
    intros r' Hw'; inversion Hw' as [|? ? ? es' k' e' ? He' Hf' Hw1|? ? ? es' He' Hf'|? ? ? ? Hnd' Hw1];
    subst; try done.
  all: repeat match goal with
    | X : entries_in _ _ _ _ |- _ => destruct X as (? & ? & ? & ->)
    | X : not_directory _ _ _ |- _ => destruct X as (? & ? & ?)
    end.
  all: repeat match goal with
    | X : inode_view ?s0 ?Q0 ?n0 ?d, Y : inode_view ?s0 ?Q0 ?n0 ?d' |- _ =>
        assert (d = d') as <- by (by eapply Hu); clear Y
    end; try congruence.
  - rewrite Hf in Hf'. injection Hf' as <- <-. by apply IH.
  - by apply IH.
Qed.

End walk.
