(* ===== verification/NameiWalk.v ===== *)
(** [getFileINode] walks the tree: it returns the inode that the names of the
    path lead to, in use once more, and otherwise changes nothing that a client
    can see; every reference it takes on the way is given back. *)

From S2P Require Export NameiSpec.

Section namei_walk.
Context `{BlockStore ok} `{shifts : !DefinedShifts}.
Local Abbreviation dir_ok := (dir_ok (ok := ok)).
Local Abbreviation cache_ok := (cache_ok (ok := ok)).
Local Abbreviation tree_ok := (tree_ok (ok := ok)).
Local Abbreviation moves := (moves (ok := ok)).

(** Counts that can still grow. *)
Definition few_refs (s : istate) (Q : Z -> list nat) : Prop :=
  forall m c, inode_num m -> refs s Q m c -> c + 1 < 2 ^ 64.

(** The same for a client that holds one reference to inode [n] and will give
    it back first. *)
Definition spare (s : istate) (Q : Z -> list nat) (n : Z) : Prop :=
  forall m c, inode_num m -> refs s Q m c -> c - one n m + 1 < 2 ^ 64.

Lemma spare_moves s s' F F' Q Q' n n' :
  cache_ok s F Q -> moves s s' F' Q Q' (one n) (fun m => one n' m - one n m) -> spare s Q n -> spare s' Q' n'.
Proof.
  intros Hc [[Hc' _ Hr] _ _] Hroom m c Hm Hcs. destruct (refs_total _ _ _ _ Hc Hm) as [c0 Hc0].
  rewrite (refs_unique _ _ _ _ _ _ Hc' Hcs (Hr _ _ Hc0)). specialize (Hroom _ _ Hm Hc0). cbv beta. lia.
Qed.

Lemma spare_given_back s s' F F' Q Q' lo n :
  cache_ok s F Q -> moves s s' F' Q Q' lo (fun m => - one n m) -> spare s Q n -> few_refs s' Q'.
Proof.
  intros Hc [[Hc' _ Hr] _ _] Hroom m c Hm Hcs. destruct (refs_total _ _ _ _ Hc Hm) as [c0 Hc0].
  rewrite (refs_unique _ _ _ _ _ _ Hc' Hcs (Hr _ _ Hc0)). specialize (Hroom _ _ Hm Hc0). cbv beta. lia.
Qed.

Lemma spare_taken s s' F F' Q Q' lo n :
  cache_ok s F Q -> moves s s' F' Q Q' lo (one n) -> few_refs s Q -> spare s' Q' n.
Proof.
  intros Hc [[Hc' _ Hr] _ _] Hfew m c Hm Hcs. destruct (refs_total _ _ _ _ Hc Hm) as [c0 Hc0].
  rewrite (refs_unique _ _ _ _ _ _ Hc' Hcs (Hr _ _ Hc0)). specialize (Hfew _ _ Hm Hc0). lia.
Qed.

(** Node [w] is the client's reference to inode [n]; [N] nodes are free once it
    has been given back. *)
Definition in_hand (N : nat) (s : istate) (F : list nat) (Q : Z -> list nat) (n : Z) (w : nat) : Prop :=
  exists i, caches s Q n w i /\ 0 < reference_count i /\ linked s Q n /\
    inode_view s Q n (getDiskINodeData i) /\
    ((N <= length F)%nat \/ ((N <= length F + 1)%nat /\ reference_count i = 1)).

Lemma linked_moves s s' F' Q Q' lo dr n :
  moves s s' F' Q Q' lo dr -> inode_num n -> linked s Q n -> linked s' Q' n.
Proof.
  intros [[_ V _] _ _] Hn [->|Hl]; [by left|right]. intros d Hd. apply Hl. by apply V.
Qed.

(** ** Giving a node back, and taking one *)

Context (N : nat).

Lemma iput_moves s F Q n w :
  cache_ok s F Q -> in_hand N s F Q n w ->
  wp (iput w) s (fun r s' => r = 0 /\ exists F', moves s s' F' Q Q (fun _ => 0) (fun m => - one n m) /\
    (N <= length F')%nat).
Proof.
  intros Hc (i & Hk & Hpos & Hl & Hv & HF). destruct (c_hashed _ _ _ Hc _ _ _ Hk) as (Hn & _).
  eapply wp_mono; [apply (iput_keeps s F Q n w i); try done|].
  - destruct Hl as [->|Hl]; [by right|left]. apply (Hl _ Hv).
  - intros r s' (-> & Hch & F' & Hs & Hst & HF' & _). split; [done|]. exists F'. split; [|rewrite HF'; destruct HF as [?|[? HF]]; [lia|rewrite decide_True by done; lia]].
    split; [done|eapply stays_mono; [exact Hst|done]|]. eapply changes_mono; [|exact Hch]. intros m <-. unfold inode_zone.
    split; [by apply inode_block_ge|by apply inode_block_below].
Qed.

Context (Npos : (0 < N)%nat).

Lemma iget_moves s F Q n :
  cache_ok s F Q -> (N <= length F)%nat -> inode_num n -> few_refs s Q -> linked s Q n ->
  wp (iget n 0) s (fun o s' => exists w F' Q', o = Some w /\ moves s s' F' Q Q' (fun _ => 0) (one n) /\
    ds s' = ds s /\ in_hand N s' F' Q' n w).
Proof.
  intros Hc HN Hn Hfew Hl. eapply wp_mono; [by apply (iget_same s F Q n); [..|intros c; by apply Hfew]|].
  intros [w|] s'; [|by intros (-> & _); cbn in HN; lia].
  intros (F' & Q' & i & Hs & Hst & Hd & Hk & Hv & Hpos & HF1 & HF2 & _). exists w, F', Q'.
  assert (moves s s' F' Q Q' (fun _ => 0) (one n)) as Hm by (split; [done..|rewrite Hd; auto with nao]).
  split_and!; [done|done|done|]. exists i. split_and!; [done|done|by eapply linked_moves| |].
  - by apply (si_view _ _ _ _ _ _ Hs).
  - destruct HF2 as [E|Hle]; [right; split; [lia|done]|left; lia].
Qed.

(** ** One name *)

(** What looking up one name from node [w] on inode [n] leads to. *)
Definition stepped (s s' : istate) (Q : Z -> list nat) (n : Z) (r : option Z) (o : option nat) : Prop :=
  match r with
  | None => o = None /\ exists F' Q', moves s s' F' Q Q' (one n) (fun m => - one n m)
  | Some n' => exists w' F' Q', o = Some w' /\
      moves s s' F' Q Q' (one n) (fun m => one n' m - one n m) /\ in_hand N s' F' Q' n' w'
  end.

Lemma look_inode_Ret {A} s k i (f : inCoreiNode -> DM A) a :
  inode_at s k = Some i -> f i (ds s) = Ret a (ds s) -> look_inode k f s = Ret a s.
Proof.
  intros Hi Hf. unfold look_inode. rewrite (bind_Ret _ _ _ _ _ (get_inode_Ret _ _ _ Hi)).
  unfold on_disk, zoom. rewrite Hf. by destruct s.
Qed.

(** The search that [operate] does, for a directory and for anything else. *)
Lemma operate_search s F Q l n w nm :
  cache_ok s F Q -> tree_ok s Q l -> in_hand N s F Q n w -> c_string nm ->
  exists r buf, look_inode w (fun i =>
      searchINodeDirectoryEntries i (Some nm) 0 [zero_entry] 0 false) s = Ret (r, buf) s /\
    ((exists es, entries_in s Q n es /\ search_result es nm zero_entry (r, buf)) \/
     (not_directory s Q n /\ (r, buf) = (-1, [zero_entry]))).
Proof.
  intros Hc Ht (i & Hk & _ & _ & Hv & _) Hnm. pose proof Hk as (Hi & _ & _).
  destruct (c_hashed _ _ _ Hc _ _ _ Hk) as (Hn & _).
  destruct (S_ISDIR (ic_file_mode i)) eqn:Hdir.
  - destruct (Ht n _ Hn Hv Hdir) as (Hd & _ & _).
    destruct (dir_ok_data (ok := ok) (ds s) l (dir_of (getDiskINodeData i)) i) as (Hd' & Hl & _); [done|].
    destruct (wp_inv _ _ _ (search_by_name (ds s) l i nm zero_entry 0 (Hd' Hd) Hnm))
      as ([r buf] & s1 & Hrun & -> & Hres).
    exists r, buf. split; [by apply (look_inode_Ret s w i)|]. left.
    exists (dir_list (ds s) i). split; [|done]. exists (getDiskINodeData i). by rewrite Hl.
  - exists (-1), [zero_entry]. split; [|right; split; [by exists (getDiskINodeData i)|done]].
    apply (look_inode_Ret s w i); [done|]. by apply search_not_directory.
Qed.

Lemma operate_step s F Q l n w nm r :
  cache_ok s F Q -> tree_ok s Q l -> spare s Q n -> in_hand N s F Q n w ->
  c_string nm -> nm <> [] -> walks s Q n [nm] r ->
  wp (operate nm (Some w)) s (fun o s' => stepped s s' Q n r o).
Proof.
  intros Hc Ht Hroom Hh Hnm Hne Hr. unfold operate.
  assert (forall r', walks s Q n [nm] r' -> r' = r) as Hdet by (intros r'; by eapply walks_unique).
  rewrite decide_False by (by destruct nm).
  apply wp_bind, wp_ret.
  destruct (operate_search _ _ _ _ _ _ _ Hc Ht Hh Hnm) as (v & buf & Hrun & Hcase).
  apply wp_bind. eapply wp_Ret; [exact Hrun|].
  assert (inode_num n) as Hn.
  { destruct Hh as (i & Hk & _). by destruct (c_hashed _ _ _ Hc _ _ _ Hk). }
  apply wp_bind. eapply wp_mono; [by eapply iput_moves|].
  intros r0 s1 (_ & F1 & Hm1 & HF1).
  assert (forall n', inode_num n' -> linked s Q n' -> walks s Q n [nm] (Some n') ->
    wp (iget n' 0) s1 (fun o s' => stepped s s' Q n r o)) as Hget.
  { intros n' Hn' Hl' Hw. rewrite <- (Hdet _ Hw).
    eapply wp_mono; [apply (iget_moves s1 F1 Q n')|].
    - apply Hm1.
    - done.
    - done.
    - by eapply spare_given_back.
    - by eapply linked_moves.
    - intros o s2 (w' & F2 & Q2 & -> & Hm2 & _ & Hh2). exists w', F2, Q2.
      split_and!; [done| |done]. eapply moves_trans; [exact Hc|exact Hm1|exact Hm2|..]; intros m; cbv beta; [lia|].
      pose proof (one_nonneg n m). lia. }
  destruct Hcase as [(es & Hes & Hres)|[Hnd E]].
  - unfold search_result in Hres. destruct (find_entry nm es) as [[k e]|] eqn:Hf.
    + injection Hres as -> ->. change (u64 1 <=? 0) with false. cbn iota.
      destruct (entry_num _ _ _ _ _ _ _ _ Ht Hn Hes Hf) as [Hn' Hl'].
      cbn [the_entry head default iNodeNum zero_entry]. unfold id. cbn [iNodeNum].
      assert (u64 (low_bytes 0 (snd e)) = snd e) as ->.
      { unfold inode_num in Hn'. change NUM_OF_INODES with 65536 in Hn'.
        rewrite low_bytes_zero by lia. apply u64_id. unfold is_u64. lia. }
      apply Hget; [done|done|]. eapply walks_into; [done|done|constructor].
    + injection Hres as -> ->. change (u64 0 <=? 0) with true. cbn iota. apply wp_ret.
      assert (walks s Q n [nm] None) as Hw by (by eapply walks_missing).
      rewrite <- (Hdet _ Hw). split; [done|]. exists F1, Q.
      eapply moves_weaken; [exact Hm1|done|]. apply one_nonneg.
  - injection E as -> ->. change (u64 (-1) <=? 0) with false. cbn iota.
    change (u64 (iNodeNum (the_entry [zero_entry]))) with 0.
    apply Hget; [done|by left|]. apply walks_through_file; [done|constructor].
Qed.

(** A lookup of no name leaves everything as it is. *)
Lemma walks_one s Q n nm nms r :
  walks s Q n (nm :: nms) r ->
  exists r1, walks s Q n [nm] r1 /\
    match r1 with None => r = None | Some n1 => walks s Q n1 nms r end.
Proof.
  intros Hw. inversion Hw as [|? ? ? es k e ? He Hf Hw'|? ? ? es He Hf|? ? ? ? Hnd Hw']; subst.
  - exists (Some (snd e)). split; [|done]. eapply walks_into; [done|done|constructor].
  - exists None. split; [|done]. by eapply walks_missing.
  - exists (Some 0). split; [|done]. apply walks_through_file; [done|constructor].
Qed.

(** ** The loop *)

Lemma stepped_end s F Q n w :
  cache_ok s F Q -> in_hand N s F Q n w -> stepped s s Q n (Some n) (Some w).
Proof.
  intros Hc Hh. exists w, F, Q. split_and!; [done| |done].
  eapply moves_weaken; [by apply moves_refl|..]; intros m; cbv beta; unfold one; destruct (decide _); lia.
Qed.

Lemma stepped_trans s s1 s2 F F1 Q Q1 n n1 r o :
  cache_ok s F Q -> moves s s1 F1 Q Q1 (one n) (fun m => one n1 m - one n m) ->
  stepped s1 s2 Q1 n1 r o -> stepped s s2 Q n r o.
Proof.
  intros Hc Hm. destruct r as [n2|].
  - intros (w2 & F2 & Q2 & -> & Hm2 & Hh). exists w2, F2, Q2. split_and!; [done| |done].
    eapply moves_trans; [exact Hc|exact Hm|exact Hm2|..]; intros m; cbv beta; [lia|]; pose proof (one_nonneg 0 m); pose proof (one_nonneg n m); lia.
  - intros (-> & F2 & Q2 & Hm2). split; [done|]. exists F2, Q2.
    eapply moves_trans; [exact Hc|exact Hm|exact Hm2|..]; intros m; cbv beta; [lia|]; pose proof (one_nonneg 0 m); pose proof (one_nonneg n m); lia.
Qed.

Lemma component_clean l : c_string l -> c_string (take (component l) l).
Proof. intros Hl. by apply Forall_take. Qed.

Lemma path_at_Ret {St} path k (s : St) :
  (k <= length path)%nat -> path_at path k s = Ret (default 0 (path !! k)) s.
Proof.
  intros Hk. unfold path_at. destruct (path !! k) as [c|] eqn:E; [done|].
  apply lookup_ge_None in E. by rewrite decide_True by lia.
Qed.

(** One round: [processNextLevel] on the rest of the path. *)
Lemma processNextLevel_step s F Q l n w p r :
  cache_ok s F Q -> tree_ok s Q l -> spare s Q n -> in_hand N s F Q n w -> c_string p -> p <> [] ->
  walks s Q n (filter (fun nm => nm <> []) [take (component p) p]) r ->
  wp (processNextLevel p (Some w)) s (fun z s' => stepped s s' Q n r (snd z) /\
    fst z = match r with
            | None => -1
            | Some _ => Z.of_nat (component p) - if decide (component p = length p) then 1 else 0
            end).
Proof.
  intros Hc Ht Hroom Hh Hp Hne Hw. unfold processNextLevel.
  assert (wp (operate (take (component p) p) (Some w)) s (fun o s' => stepped s s' Q n r o)) as Hop.
  { destruct (decide (component p = 0%nat)) as [E|E].
    - rewrite E in *. cbn in Hw. inversion Hw; subst. cbn [take]. by eapply stepped_end.
    - eapply operate_step; try done; [by apply component_clean| |].
      + destruct p; [done|]. by destruct (component (z :: p)).
      + rewrite filter_cons_True in Hw; [done|]. destruct p; [done|]. by destruct (component (z :: p)). }
  apply wp_bind. eapply wp_mono; [exact Hop|]. intros o s1 Hst. destruct r as [n1|].
  - pose proof Hst as (w1 & F1 & Q1 & -> & _ & _). destruct (decide _); apply wp_ret; cbn [fst snd];
      (split; [exact Hst|lia]).
  - pose proof Hst as (-> & _). by apply wp_ret.
Qed.

Lemma namei_loop_walks path f : forall n0 k s F Q l n w r,
  c_string path -> (k <= length path)%nat -> (length path < k + f)%nat ->
  cache_ok s F Q -> tree_ok s Q l -> spare s Q n -> in_hand N s F Q n w ->
  walks s Q n (filter (fun nm => nm <> []) (split_names n0 (drop k path))) r ->
  (length path - k <= n0)%nat ->
  wp (namei_loop f path k (Some w)) s (fun o s' => stepped s s' Q n r o).
Proof.
  induction f as [|f IH]; intros n0 k s F Q l n w r Hp Hk Hf Hc Ht Hroom Hh Hw Hn0; [lia|].
  cbn [namei_loop]. apply wp_bind. eapply wp_Ret; [by apply path_at_Ret|].
  destruct (decide (k = length path)) as [->|Hk'].
  { rewrite lookup_ge_None_2 by lia. cbn. rewrite drop_all in Hw.
    assert (r = Some n) as ->.
    { destruct n0; cbn in Hw; by inversion Hw. }
    by eapply stepped_end. }
  destruct (lookup_lt_is_Some_2 path k) as [c Hck]; [lia|]. rewrite Hck. cbn [default id].
  assert (c <> 0) as Hc0.
  { apply (Forall_lookup_1 _ _ _ _ Hp) in Hck. unfold is_char in Hck. lia. }
  rewrite (proj2 (Z.eqb_neq _ _) Hc0).
  assert (drop k path <> []) as Hne.
  { intros E. apply (f_equal length) in E. rewrite length_drop in E. cbn in E. lia. }
  destruct n0 as [|n0]; [lia|].
  set (p := drop k path) in *.
  assert (length p = (length path - k)%nat) as Hlp by apply length_drop.
  assert (split_names (Datatypes.S n0) p = take (component p) p :: split_names n0 (drop (Datatypes.S (component p)) p)) as E
    by (by destruct p).
  rewrite E in Hw. clear E. pose proof (component_le p) as Hcl.
  assert (c_string p) as Hcp by (by apply Forall_drop).
  assert (exists r1, walks s Q n (filter (fun nm => nm <> []) [take (component p) p]) r1 /\
    match r1 with
    | None => r = None
    | Some n1 => walks s Q n1 (filter (fun nm => nm <> []) (split_names n0 (drop (Datatypes.S (component p)) p))) r
    end) as (r1 & Hw1 & Hrest).
  { destruct (decide (take (component p) p <> [])) as [Hd|Hd].
    - rewrite filter_cons_True in Hw by done. rewrite filter_cons_True by done. by apply walks_one.
    - rewrite filter_cons_False in Hw by done. rewrite filter_cons_False by done.
      exists (Some n). split; [constructor|done]. }
  apply wp_bind. eapply wp_mono; [by eapply processNextLevel_step|].
  intros [z o] s1 (Hst & Hz). cbn [fst snd] in *. destruct r1 as [n1|].
  2: { subst z r. cbn. by destruct Hst as (_ & Hst). }
  pose proof Hst as (w1 & F1 & Q1 & -> & Hm & Hh1).
  assert (component p = length p -> (0 < component p)%nat) as Hpos by lia.
  assert (z <> -1) as Hz1 by (destruct (decide (component p = length p)); lia).
  rewrite (proj2 (Z.eqb_neq _ _) Hz1).
  pose proof Hh as (i & Hk0 & _). destruct (c_hashed _ _ _ Hc _ _ _ Hk0) as (Hn & _).
  pose proof (si_ok _ _ _ _ _ _ (m_same _ _ _ _ _ _ _ Hm)) as Hc1.
  pose proof Hh1 as (i1 & Hk1 & _). destruct (c_hashed _ _ _ Hc1 _ _ _ Hk1) as (Hn1 & _).
  eapply wp_mono; [|intros o s2; by apply (stepped_trans _ _ _ _ _ _ _ _ _ _ _ Hc Hm)].
  apply (IH n0 _ s1 F1 Q1 l n1 w1 r); try done; try (destruct (decide (component p = length p)); lia).
  - by eapply tree_ok_moves.
  - eapply spare_moves; [exact Hc|exact Hm|done].
  - eapply walks_moves; [exact Hm|exact Ht|done|].
    replace (drop (k + Z.to_nat z + 1) path) with (drop (Datatypes.S (component p)) p); [done|].
    destruct (decide (component p = length p)) as [E|E].
    + rewrite (drop_ge p) by lia. symmetry. apply drop_ge. lia.
    + unfold p. rewrite drop_drop. f_equal. fold p. lia.
Qed.

(** ** The whole lookup *)

Lemma getFileINode_spec s F Q l path r :
  cache_ok s F Q -> tree_ok s Q l -> (N <= length F)%nat -> few_refs s Q -> c_string path -> path <> [] ->
  walks s Q 0 (path_names path) r ->
  wp (getFileINode path (length path)) s (fun o s' =>
    match r with
    | None => o = None /\ exists F' Q', moves s s' F' Q Q' (fun _ => 0) (fun _ => 0)
    | Some n => exists w F' Q', o = Some w /\
        moves s s' F' Q Q' (fun _ => 0) (one n) /\ in_hand N s' F' Q' n w
    end).
Proof.
  intros Hc Ht HF Hfew Hp Hne Hw. unfold getFileINode. apply wp_bind.
  eapply wp_Ret; [by apply checkAndGetLen_any|]. cbn beta iota. apply wp_bind.
  eapply wp_mono; [apply (iget_moves s F Q 0); try done; by left|].
  intros o s1 (w0 & F1 & Q1 & -> & Hm & _ & Hh).
  eapply wp_mono; [eapply (namei_loop_walks _ _ (length path) 1 s1 F1 Q1 l 0 w0 r)|].
  all: try done.
  - destruct path; [done|]. cbn. lia.
  - lia.
  - apply Hm.
  - by eapply tree_ok_moves.
  - by eapply spare_taken.
  - by eapply walks_moves.
  - lia.
  - intros o s2. destruct r as [n|].
    + intros (w & F2 & Q2 & -> & Hm2 & Hh2). exists w, F2, Q2. split_and!; [done| |done].
      eapply moves_trans; [exact Hc|exact Hm|exact Hm2|..]; intros m; cbv beta; [lia|]; pose proof (one_nonneg 0 m); lia.
    + intros (-> & F2 & Q2 & Hm2). split; [done|]. exists F2, Q2.
      eapply moves_trans; [exact Hc|exact Hm|exact Hm2|..]; intros m; cbv beta; [lia|]; pose proof (one_nonneg 0 m); lia.
Qed.

End namei_walk.
