(* ===== verification/FileTable.v ===== *)
(** The table of open files, [src/fdTable/globalFileTable.c], and the state of
    the whole program: the inode cache over the disk, and this table. *)

From S2P Require Export Namei.

(** * Error numbers of Linux, and flags *)

Definition ENOENT : Z := 2.
Definition EBADF : Z := 9.
Definition EACCES : Z := 13.
Definition ENOTDIR : Z := 20.
Definition EISDIR : Z := 21.
Definition ENFILE : Z := 23.
Definition ENOTEMPTY : Z := 39.
Definition O_RDONLY : Z := 0.
Definition O_APPEND : Z := 1024.

(** [a && b] on integers. *)
Definition c_and (a b : Z) : bool := negb (a =? 0) && negb (b =? 0).

(** * Entries *)

(** [inode] points to the inode of a node. *)
Record fileTableEntry : Type := FileTableEntry {
  fte_inode : option nat;
  fte_pid : Z;
  fte_flags : Z;
  fte_offset : Z;
  validEntry : bool
}.

(** Static storage. *)
Definition zero_fte : fileTableEntry := FileTableEntry None 0 0 0 false.

Definition fte_set_valid (b : bool) (e : fileTableEntry) : fileTableEntry :=
  FileTableEntry (fte_inode e) (fte_pid e) (fte_flags e) (fte_offset e) b.
Definition fte_set_offset (v : Z) (e : fileTableEntry) : fileTableEntry :=
  FileTableEntry (fte_inode e) (fte_pid e) (fte_flags e) v (validEntry e).

(** What FUSE passes: the caller, and the open file. *)
Record fuse_context : Type := FuseContext { fc_pid : Z; fc_uid : Z; fc_gid : Z }.
Record fuse_file_info : Type := FuseFileInfo { fi_flags : Z; fi_fh : Z }.

Section file_table.
Context `{Host}.

Record fstate : Type := FState {
  cache : istate;
  fileTable : list fileTableEntry
}.

Definition set_cache (c : istate) (s : fstate) : fstate := FState c (fileTable s).
Definition set_table (t : list fileTableEntry) (s : fstate) : fstate := FState (cache s) t.

Definition FM (A : Type) : Type := M fstate A.

Definition on_cache {A} (m : IM A) : FM A := zoom cache set_cache m.

(** The entry at a pointer into the table, and an assignment to it. *)
Definition get_entry (fd : nat) : FM fileTableEntry :=
  let* s := get in
  match fileTable s !! fd with Some e => ret e | None => undefined OutOfBounds end.
Definition put_entry_at (fd : nat) (e : fileTableEntry) : FM unit :=
  modify (fun s => set_table (<[fd := e]> (fileTable s)) s).

(** * [globalFileTable.c] *)

(** The loop clears the flag of every entry. *)
Definition initGlobalFileTable : FM unit :=
  modify (fun s => set_table (fte_set_valid false <$> fileTable s) s).

Definition initFdTableEntry (inode : option nat) (pid flags offset : Z) : fileTableEntry :=
  FileTableEntry inode pid flags offset true.

(** The first free entry from [counter] on. *)
Fixpoint free_entry (l : list fileTableEntry) (counter : nat) : option nat :=
  match l with
  | [] => None
  | e :: l => if validEntry e then free_entry l (S counter) else Some counter
  end.

Definition createAndGetFileDescriptor (pid : Z) (inode : option nat) (flags offset : Z) : FM Z :=
  let* s := get in
  match free_entry (fileTable s) 0 with
  | Some counter =>
      put_entry_at counter (initFdTableEntry inode pid flags offset) ;;;
      ret (Z.of_nat counter)
  | None => ret (- ENFILE)
  end.

(** The index of the entry, or the error; a negative [fd] points in front of
    the table. *)
Definition getFileDescriptor (pid fd : Z) : FM (Z + nat) :=
  if MAX_FILE_DESCRIPTORS <=? fd then ret (inl (- EBADF))
  else if fd <? 0 then undefined OutOfBounds
  else
    let* entry := get_entry (Z.to_nat fd) in
    if negb (validEntry entry) then ret (inl (- EBADF)) else ret (inr (Z.to_nat fd)).

End file_table.
