(* ===== verification/Files.v ===== *)
(** Files by path and by descriptor: the entry points of
    [src/interface/open.c], [close.c], [read.c], [write.c] and [truncate.c].
    The loops that move the bytes are in [FileIO.v]. *)

From S2P Require Export FileTable.

Section files.
Context `{Host}.

(** * [open.c] and [close.c] *)

Definition calculateFileOffset (iNode : inCoreiNode) (flags : Z) : Z :=
  if c_and flags O_APPEND then ic_size iNode else 0.

(** The value and [fi] afterwards; the descriptor, an [int], goes to a field
    of 64 bits without sign. *)
Definition openFile (path : list Z) (fi : fuse_file_info) (ctx : fuse_context)
  : FM (Z * fuse_file_info) :=
  let* fileINode := on_cache (getFileINode path (length path)) in
  match fileINode with
  | None => ret (- ENOENT, fi)
  | Some k =>
      on_cache (inode_lock k) ;;;
      let* i := on_cache (get_inode k) in
      let offset := calculateFileOffset i (fi_flags fi) in
      let* fd := createAndGetFileDescriptor (fc_pid ctx) (Some k) (fi_flags fi) offset in
      let fi := FuseFileInfo (fi_flags fi) (u64 fd) in
      on_cache (inode_unlock k) ;;;
      ret (0, fi)
  end.

Definition closeFile (fi : fuse_file_info) (ctx : fuse_context) : FM Z :=
  let* r := getFileDescriptor (fc_pid ctx) (i32 (fi_fh fi)) in
  match r with
  | inl _ => ret 0
  | inr fd =>
      let* file := get_entry fd in
      put_entry_at fd (fte_set_valid false file) ;;;
      on_cache (let* k := deref (fte_inode file) in iput k)
  end.

(** * [read.c] *)

Definition validateFile (file : fileTableEntry) (inode : inCoreiNode) : Z :=
  if decide (ic_type inode = T_DIRECTORY) then - EISDIR
  else if c_and (fte_flags file) O_RDONLY then 0
  else - EBADF.

(** The value of [validateFile] is not used. *)
Definition readFile (buf : list Z) (size offset : Z) (fi : fuse_file_info) (ctx : fuse_context)
  : FM (Z * list Z) :=
  let* r := getFileDescriptor (fc_pid ctx) (i32 (fi_fh fi)) in
  match r with
  | inl retVal => ret (retVal, buf)
  | inr fd =>
      let* file := get_entry fd in
      let* k := on_cache (deref (fte_inode file)) in
      on_cache (inode_lock k) ;;;
      let* i := on_cache (get_inode k) in
      let retVal := validateFile file i in
      let* (bytesRead, file_offset, buf) := on_cache (look_inode k (fun i =>
        readBytes i (fte_offset file) buf size (u64 offset))) in
      put_entry_at fd (fte_set_offset file_offset file) ;;;
      on_cache (inode_unlock k) ;;;
      ret (i32 bytesRead, buf)
  end.

(** The name fields that [filler] is given, in order. A number of entries that
    is not that of the buffer makes the loop read behind it. *)
Definition fill_body (iNodePtr : inCoreiNode) (st : Z * list (list Z))
  : DM (ctl (Z * list (list Z))) :=
  let '(entriesOffset, names) := st in
  let entriesPerIteration := BLOCK_SIZE / DIRECTORY_ENTRY_SIZE in
  let entryBuffer := replicate (Z.to_nat entriesPerIteration) zero_entry in
  let* (r, entryBuffer) :=
    searchINodeDirectoryEntries iNodePtr None entriesOffset entryBuffer entriesPerIteration false in
  let entriesRead := u64 r in
  if entriesPerIteration <? entriesRead then undefined OutOfBounds
  else
    ret (Next (u64 (entriesOffset + entriesRead),
               names ++ (name <$> take (Z.to_nat entriesRead) entryBuffer))).

Definition fillDirectoryEntries (iNodePtr : inCoreiNode) : DM (list (list Z)) :=
  let entriesInDirectory := ic_size iNodePtr / DIRECTORY_ENTRY_SIZE in
  let* (_, names) :=
    while_do (S (Z.to_nat entriesInDirectory)) (fun st => fst st <? entriesInDirectory)
      (fill_body iNodePtr) (0, []) in
  ret names.

Definition readDirectory (path : list Z) : FM (Z * list (list Z)) :=
  let* iNodeOfPath := on_cache (getFileINode path (length path)) in
  match iNodeOfPath with
  | None => ret (-1, [])
  | Some k =>
      let* names := on_cache (look_inode k fillDirectoryEntries) in
      on_cache (iput k) ;;;
      ret (0, names)
  end.

(** * [write.c] *)

(** [fi->fh] has no sign: the first test of the function never holds. *)
Definition writeToFile (buf : list Z) (size offset : Z) (fi : fuse_file_info) (ctx : fuse_context)
  : FM Z :=
  let* r := getFileDescriptor (fc_pid ctx) (i32 (fi_fh fi)) in
  match r with
  | inl _ => ret (-1)
  | inr fd =>
      let* file := get_entry fd in
      let* k := on_cache (deref (fte_inode file)) in
      on_cache (inode_lock k) ;;;
      let* i := on_cache (get_inode k) in
      if ic_size i <? u64 offset then
        on_cache (inode_unlock k) ;;;
        ret (-1)
      else
        let* (bytesWritten, file_offset) := on_cache (update_inode k (fun i =>
          let* (i, bytesWritten, file_offset) :=
            writeBytes i (fte_offset file) buf size (u64 offset) in
          ret (bytesWritten, file_offset, i))) in
        put_entry_at fd (fte_set_offset file_offset file) ;;;
        on_cache (inode_unlock k) ;;;
        ret bytesWritten
  end.

(** * [truncate.c] *)

(** The early return for a directory keeps the mutex and the reference. *)
Definition truncateFile (path : list Z) (size : Z) : FM Z :=
  let* fileINode := on_cache (getFileINode path (length path)) in
  match fileINode with
  | None => ret (- ENOENT)
  | Some k =>
      on_cache (inode_lock k) ;;;
      let* i := on_cache (get_inode k) in
      if decide (ic_type i = T_DIRECTORY) then ret (- EISDIR)
      else
        on_cache (with_inode k (fun i => truncateINode i size)) ;;;
        on_cache (inode_unlock k) ;;;
        on_cache (iput k) ;;;
        ret 0
  end.

End files.
