(* ===== verification/Namespace.v ===== *)
(** Operations on the tree of names: [create.c], [unlink.c], [rename.c],
    [link.c] and [getAttr.c] of [src/interface/]. They work on the inode cache
    alone; a pointer to an in-core inode is the index of its node. *)

From S2P Require Export Files.

Section namespace.
Context `{Host}.

(** [iNode->field] through a pointer that may be [NULL]. *)
Definition inode_of (p : option nat) : IM inCoreiNode :=
  let* k := deref p in get_inode k.

(** The string in a name field; with no terminator the characters behind the
    field are read, which nothing has set. *)
Definition name_string (nm : list Z) : IM (list Z) :=
  if decide (0 ∈ nm) then ret (c_str nm) else undefined Uninit.

(** * [create.c] *)

Definition getParentINode (path : list Z) : IM (option nat) :=
  let* parentDirPath := getParentDirectory path in
  getFileINode parentDirPath (length parentDirPath).

Definition doesFileExistIn (filename : list Z) (parentINode : nat) : IM bool :=
  let* (retValue, _) := look_inode parentINode (fun i =>
    let* entry := malloc_entry in
    searchINodeDirectoryEntries i (Some filename) 0 [entry] 0 false) in
  ret (0 <? retValue).

(** The parent and the file name; a parent in which the name exists is not
    released. *)
Definition validateThenGetParentINode (fileType : iNodeType) (path : list Z)
  : IM (option (nat * list Z)) :=
  if negb (bool_decide (fileType = T_DIRECTORY)) && negb (bool_decide (fileType = T_REGULAR)) then
    ret None
  else
    let* parentINode := getParentINode path in
    match parentINode with
    | None => ret None
    | Some parent =>
        let* filename := getFilenameFromPath path in
        let* exists_ := doesFileExistIn filename parent in
        if exists_ : bool then ret None else ret (Some (parent, filename))
    end.

Definition createFile (path : list Z) (fileType : iNodeType) (mode : Z) (ctx : fuse_context)
  : IM Z :=
  let* r := validateThenGetParentINode fileType path in
  match r with
  | None => ret (-1)
  | Some (parent, filename) =>
      let mode := if decide (fileType = T_DIRECTORY) then Z.lor S_IFDIR mode else mode in
      let* iNodeNum := on_disk (getNewINode fileType mode (fc_uid ctx) (fc_gid ctx)) in
      update_inode parent (fun i =>
        getAndUpdateDirectoryTable i iNodeNum filename (length path + 1)) ;;;
      let* newINode := iget iNodeNum 0 in
      let* new := deref newINode in
      (if decide (fileType = T_REGULAR) then
         with_inode new (fun i => updateINodeMetadata i 0 1)
       else ret tt) ;;;
      (if decide (fileType = T_DIRECTORY) then
         let* p := get_inode parent in
         update_inode new (fun i => updateNewDirMetaData i (ic_inode_number p)) ;;;
         ret tt
       else ret tt) ;;;
      iput parent ;;;
      iput new ;;;
      ret 0
  end.

(** * [unlink.c] *)

(** The mutex of the parent is held. *)
Definition unlinkFileFromINode (parentINode : nat) (filename : list Z) : IM Z :=
  let* (retVal, buf) := look_inode parentINode (fun i =>
    let* entry := malloc_entry in
    searchINodeDirectoryEntries i (Some filename) 0 [entry] 0 true) in
  if negb (retVal =? 1) then ret (-1)
  else
    let* deletedFile := iget (u64 (iNodeNum (the_entry buf))) 0 in
    let* k := deref deletedFile in
    inode_lock k ;;;
    with_inode k (fun i => updateINodeMetadata i 0 (u64 (ic_linksCount i - 1))) ;;;
    inode_unlock k ;;;
    iput k ;;;
    with_inode parentINode (fun i => truncateINode i (u64 (ic_size i - DIRECTORY_ENTRY_SIZE))) ;;;
    ret 0.

Definition unlinkFile (path : list Z) : IM Z :=
  let* parentINode := getParentINode path in
  match parentINode with
  | None => ret (- ENOENT)
  | Some parent =>
      inode_lock parent ;;;
      let* filename := getFilenameFromPath path in
      let* retVal := unlinkFileFromINode parent filename in
      if retVal =? -1 then
        inode_unlock parent ;;;
        iput parent ;;;
        ret (-1)
      else
        inode_unlock parent ;;;
        iput parent ;;;
        ret 0
  end.

(** One round of the loop of [emptyDir]; [validate] is
    [validateAndEmptyDirectoryIfNeeded] for the directories inside. The loop
    state is [entriesOffset] and the value returned early, if any. *)
Definition empty_body (validate : nat -> bool -> IM Z) (fileINode : nat) (st : Z * option Z)
  : IM (ctl (Z * option Z)) :=
  let '(entriesOffset, _) := st in
  let* entry := look_inode fileINode (fun i => getLastEntry i zero_entry) in
  let* fileEntry := iget (u64 (iNodeNum entry)) 0 in
  let* k := deref fileEntry in
  inode_lock k ;;;
  let* i := get_inode k in
  let* retVal := (if decide (ic_type i = T_DIRECTORY) then validate k true else ret 0) in
  if retVal <? 0 then
    inode_unlock k ;;;
    iput k ;;;
    ret (Break (entriesOffset, Some retVal))
  else
    inode_unlock k ;;;
    iput k ;;;
    unlinkFileFromINode fileINode (c_str (name entry)) ;;;
    ret (Next (u64 (entriesOffset + DIRECTORY_ENTRY_SIZE), None)).

(** [fuel] bounds the depth of the directories. *)
Fixpoint validateAndEmptyDirectoryIfNeeded (fuel : nat) (fileINode : nat) (force : bool) : IM Z :=
  match fuel with
  | O => fun _ => NoFuel
  | S f =>
      let* i := get_inode fileINode in
      if ic_inode_number i =? 0 then ret (- EACCES)
      else if (2 * DIRECTORY_ENTRY_SIZE <? ic_size i) && negb force then ret (- ENOTEMPTY)
      else if negb (bool_decide (ic_type i = T_DIRECTORY)) then ret (- ENOTDIR)
      else if force && (2 * DIRECTORY_ENTRY_SIZE <? ic_size i) then
        (* emptyDir *)
        let entriesInDirectory := ic_size i / DIRECTORY_ENTRY_SIZE in
        let* st := while_do (S (Z.to_nat entriesInDirectory))
          (fun st => fst st <? entriesInDirectory)
          (empty_body (validateAndEmptyDirectoryIfNeeded f) fileINode)
          (2 * DIRECTORY_ENTRY_SIZE, None) in
        ret (default 0 (snd st))
      else ret 0
  end.

Definition unlinkDir (fuel : nat) (path : list Z) (force : bool) : IM Z :=
  let* fileINode := getFileINode path (length path) in
  let* k := deref fileINode in
  inode_lock k ;;;
  let* retVal := validateAndEmptyDirectoryIfNeeded fuel k force in
  if retVal <? 0 then
    inode_unlock k ;;;
    iput k ;;;
    ret retVal
  else
    inode_unlock k ;;;
    iput k ;;;
    unlinkFile path.

(** * [rename.c] *)

(** The mutex of the parent is held. *)
Definition removeDestinationIfExists (fuel : nat) (parentINode : nat) (filename : list Z) : IM Z :=
  let* (retVal, buf) := look_inode parentINode (fun i =>
    let* entry := malloc_entry in
    searchINodeDirectoryEntries i (Some filename) 0 [entry] 0 false) in
  if retVal =? 1 then
    let entry := the_entry buf in
    let* destination := iget (u64 (iNodeNum entry)) 0 in
    let* k := deref destination in
    inode_lock k ;;;
    let* i := get_inode k in
    let* retVal :=
      (if decide (ic_type i = T_DIRECTORY)
       then validateAndEmptyDirectoryIfNeeded fuel k true else ret 0) in
    if retVal <? 0 then
      inode_unlock k ;;;
      iput k ;;;
      ret retVal
    else
      inode_unlock k ;;;
      iput k ;;;
      let* nm := name_string (name entry) in
      let* retVal := unlinkFileFromINode parentINode nm in
      if retVal <? 0 then ret retVal else ret 0
  else ret 0.

(** A missing destination directory leaves the source in use. *)
Definition renameFile (fuel : nat) (from to : list Z) : IM Z :=
  let* fileINode := getFileINode from (length from) in
  match fileINode with
  | None => ret (- ENOENT)
  | Some file =>
      let* toParentINode := getParentINode to in
      match toParentINode with
      | None => ret (- ENOENT)
      | Some parent =>
          inode_lock parent ;;;
          let* newFilename := getFilenameFromPath to in
          let* retVal := removeDestinationIfExists fuel parent newFilename in
          if retVal <? 0 then
            iput file ;;;
            inode_unlock parent ;;;
            iput parent ;;;
            ret retVal
          else
            inode_lock file ;;;
            let* i := get_inode file in
            update_inode parent (fun p =>
              getAndUpdateDirectoryTable p (ic_inode_number i) newFilename (length to + 1)) ;;;
            with_inode file (fun i => updateINodeMetadata i 0 (u64 (ic_linksCount i + 1))) ;;;
            inode_unlock parent ;;;
            iput parent ;;;
            inode_unlock file ;;;
            iput file ;;;
            let* retVal := unlinkFile from in
            if negb (retVal =? 0) then ret (-1) else ret 0
      end
  end.

(** * [link.c] *)

Definition linkFiles (source target : list Z) : IM Z := ret 0.

(** * [getAttr.c] *)

(** The fields of [struct stat] that are set; the others are cleared by the
    caller. *)
Record stat : Type := Stat {
  st_atime : Z; st_mtime : Z; st_ctime : Z;
  st_mode : Z; st_size : Z; st_uid : Z; st_gid : Z
}.

Definition zero_stat : stat := Stat 0 0 0 0 0 0 0.

Definition attrPopulate (path : list Z) (stbuf : stat) : IM (Z * stat) :=
  let* p := getFileINode path (length path) in
  match p with
  | None => ret (- ENOENT, stbuf)
  | Some k =>
      let* i := get_inode k in
      let stbuf := Stat (ic_access i) (ic_modification i) (ic_status_change i)
                     (ic_file_mode i) (ic_size i) (ic_owner_uid i) (ic_group_uid i) in
      iput k ;;;
      ret (0, stbuf)
  end.

(** A change of the inode at the end of a path, under its mutex. *)
Definition change_at (path : list Z) (f : inCoreiNode -> inCoreiNode) : IM Z :=
  let* p := getFileINode path (length path) in
  match p with
  | None => ret (- ENOENT)
  | Some k =>
      inode_lock k ;;;
      with_inode k (fun i => ret (f i)) ;;;
      inode_unlock k ;;;
      iput k ;;;
      ret 0
  end.

Definition changeMode (path : list Z) (mode : Z) : IM Z :=
  change_at path (fun i =>
    ic_set_changed true
      (ic_set_mode (if decide (ic_type i = T_DIRECTORY) then Z.lor S_IFDIR mode else mode) i)).

(** -1 as a 32-bit number without sign. *)
Definition NO_ID : Z := u32 (-1).

Definition changeOwner (path : list Z) (uid gid : Z) : IM Z :=
  change_at path (fun i =>
    if negb (uid =? NO_ID) then
      let i := ic_set_owner uid i in
      let i := if negb (gid =? NO_ID) then ic_set_group gid i else i in
      ic_set_changed true i
    else if negb (gid =? NO_ID) then ic_set_changed true (ic_set_group gid i)
    else i).

End namespace.
