(* ===== verification/Main.v ===== *)
(** [src/main.c]: the functions that FUSE calls, and what runs before it. *)

From S2P Require Export Namespace.

Section main.
Context `{Host}.

(** * Callbacks

    [ctx] is what [fuse_get_context] returns; [fuel] bounds the depth of a
    directory tree that is removed. *)

Definition write_callback (path buf : list Z) (size offset : Z) (fi : fuse_file_info)
    (ctx : fuse_context) : FM Z := writeToFile buf size offset fi ctx.

Definition access_callback (path : list Z) (mode : Z) : FM Z := ret 0.

Definition getattr_callback (path : list Z) : FM (Z * stat) :=
  on_cache (attrPopulate path zero_stat).

Definition mkdir_callback (path : list Z) (mode : Z) (ctx : fuse_context) : FM Z :=
  on_cache (createFile path T_DIRECTORY mode ctx).

Definition readdir_callback (path : list Z) : FM (Z * list (list Z)) := readDirectory path.

Definition create_callback (path : list Z) (mode : Z) (fi : fuse_file_info) (ctx : fuse_context)
  : FM (Z * fuse_file_info) :=
  let* retVal := on_cache (createFile path T_REGULAR mode ctx) in
  if negb (retVal =? 0) then ret (retVal, fi) else openFile path fi ctx.

Definition open_callback (path : list Z) (fi : fuse_file_info) (ctx : fuse_context)
  : FM (Z * fuse_file_info) := openFile path fi ctx.

Definition read_callback (path buf : list Z) (size offset : Z) (fi : fuse_file_info)
    (ctx : fuse_context) : FM (Z * list Z) := readFile buf size offset fi ctx.

Definition release_callback (path : list Z) (fi : fuse_file_info) (ctx : fuse_context) : FM Z :=
  closeFile fi ctx ;;; ret 0.

Definition truncate_callback (path : list Z) (size : Z) : FM Z := truncateFile path (u64 size).

Definition utimens_callback (path : list Z) : FM Z := ret 0.

Definition chown_callback (path : list Z) (uid gid : Z) : FM Z :=
  on_cache (changeOwner path uid gid) ;;; ret 0.

Definition chmod_callback (path : list Z) (mode : Z) : FM Z :=
  on_cache (changeMode path mode) ;;; ret 0.

Definition link_callback (source target : list Z) : FM Z := on_cache (linkFiles source target).

Definition unlink_callback (file : list Z) : FM Z := on_cache (unlinkFile file).

Definition unlink_dir_callback (fuel : nat) (file : list Z) : FM Z :=
  on_cache (unlinkDir fuel file false).

Definition rename_callback (fuel : nat) (from to : list Z) : FM Z :=
  on_cache (renameFile fuel from to).

(** * Start-up *)

(** ["fsname"]. *)
Definition fsname : list Z := [102; 115; 110; 97; 109; 101].

(** [strstr(s, fsname) == s]. *)
Definition starts_with_fsname (s : list Z) : bool := bool_decide (take 6 s = fsname).

(** The name of the device, copied to a buffer of 20 characters from the
    eighth character of the argument on. *)
Fixpoint parseCmdArg (argv : list (list Z)) : DM (option (list Z)) :=
  match argv with
  | [] => ret None
  | s :: argv =>
      if starts_with_fsname s then
        if (length s <? 7)%nat then undefined OutOfBounds
        else
          let devName := drop 7 s in
          if (length devName <? 20)%nat then ret (Some devName) else undefined OutOfBounds
      else parseCmdArg argv
  end.

Definition checkDevMode (argv : list (list Z)) : DM Z :=
  let* r := parseCmdArg argv in
  match r with
  | Some devName =>
      let* ok := setupDisk devName in
      ret (if ok =? -1 then -1 else 0)
  | None => makeFileSystem ;;; ret 0
  end.

(** [initializeINodeParams] as [main] calls it. *)
Definition set_params : DM unit :=
  match initializeINodeParams sizeof_iNode with
  | None => fun _ => NoFuel
  | Some p => modify (set_prm p)
  end.

(** Whether [fuse_main] is called. *)
Definition main (argv : list (list Z)) : FM bool :=
  let* r := on_cache (on_disk (checkDevMode argv)) in
  if r =? -1 then ret false
  else
    on_cache (on_disk set_params) ;;;
    on_cache initFreeInCoreINodeList ;;;
    on_cache initHashQueues ;;;
    initGlobalFileTable ;;;
    ret true.

End main.
