(* ===== verification/FilesSpec.v ===== *)
(** Open files: each valid entry of the table holds a reference to its inode.
    [openFile] and [closeFile] keep that, and the cache stays as [NameiWalk.v]
    describes. *)

From S2P Require Export NameiWalk Files.

(** * The table *)

(** The valid entries that point to node [k]. *)
Definition opened (k : nat) (e : fileTableEntry) : Prop :=
  validEntry e = true /\ fte_inode e = Some k.

#[export] Instance opened_dec k e : Decision (opened k e).
Proof. unfold opened. apply _. Defined.

Definition opens (t : list fileTableEntry) (k : nat) : Z := Z.of_nat (length (filter (opened k) t)).

Definition counts (k : nat) (e : fileTableEntry) : Z := if decide (opened k e) then 1 else 0.

Lemma opens_cons e t k : opens (e :: t) k = counts k e + opens t k.
Proof.
  unfold opens, counts. rewrite filter_cons. destruct (decide (opened k e)); cbn [length]; lia.
Qed.

Lemma opens_insert t fd e e' k :
  t !! fd = Some e -> opens (<[fd := e']> t) k = opens t k - counts k e + counts k e'.
Proof.
  revert fd. induction t as [|x t IH]; intros [|fd]; try done.
  - intros [= ->]. change (<[0%nat := e']> (e :: t)) with (e' :: t). rewrite !opens_cons. lia.
  - intros Hfd. change (<[Datatypes.S fd := e']> (x :: t)) with (x :: <[fd := e']> t).
    rewrite !opens_cons, (IH fd) by exact Hfd. lia.
Qed.

Lemma opens_lookup t fd e k : t !! fd = Some e -> opened k e -> 0 < opens t k.
Proof.
  intros Hfd He. unfold opens.
  assert (e ∈ filter (opened k) t) as Hin.
  { apply list_elem_of_filter. split; [done|]. by eapply list_elem_of_lookup_2. }
  destruct (filter (opened k) t); [by apply elem_of_nil in Hin|]. cbn [length]. lia.
Qed.

(** The first entry that is not valid, if there is one. *)
Lemma free_entry_spec t : forall c,
  match free_entry t c with
  | Some fd => exists j e, fd = (c + j)%nat /\ t !! j = Some e /\ validEntry e = false /\
      Forall (fun x => validEntry x = true) (take j t)
  | None => Forall (fun x => validEntry x = true) t
  end.
Proof.
  induction t as [|e t IH]; intros c; cbn [free_entry]; [constructor|].
  destruct (validEntry e) eqn:He.
  - specialize (IH (Datatypes.S c)). destruct (free_entry t (Datatypes.S c)) as [fd|]; [|by constructor].
    destruct IH as (j & x & -> & Hj & Hx & Hall). exists (Datatypes.S j), x.
    split_and!; [lia|done|done|]. cbn [take]. by constructor.
  - exists 0%nat, e. split_and!; [lia|done|done|constructor].
Qed.

(** * Locking and unlocking *)

Section files_spec.
Context `{BlockStore ok} `{shifts : !DefinedShifts}.
Local Abbreviation cache_ok := (cache_ok (ok := ok)).
Local Abbreviation tree_ok := (tree_ok (ok := ok)).
Local Abbreviation moves := (moves (ok := ok)).

Lemma inode_set_same k i s : inode_at s k = Some i -> inode_set k i s = s.
Proof.
  unfold inode_at, inode_set, set_nodes. intros Hi. destruct (nodes s !! k) as [n|] eqn:E; [|done].
  injection Hi as <-. destruct s as [d ns fl hq]. cbn in *. f_equal.
  apply list_eq. intros j. rewrite lookup_alter_nodes. destruct (decide (j = k)) as [->|]; [|done].
  rewrite E. cbn. by destruct n.
Qed.

Lemma inode_unlock_Ret s k i :
  inode_at s k = Some i -> inode_unlock k s = Ret tt (inode_set k (ic_set_mutex false i) s).
Proof. intros Hi. unfold inode_unlock. by rewrite (bind_Ret _ _ _ _ _ (get_inode_Ret _ _ _ Hi)). Qed.

Lemma mutex_mutex b b' i : ic_set_mutex b (ic_set_mutex b' i) = ic_set_mutex b i.
Proof. done. Qed.

Lemma mutex_same i : iNodeMutex i = false -> ic_set_mutex false i = i.
Proof. destruct i. cbn. by intros ->. Qed.

Lemma inode_at_set_eq k i i0 s : inode_at s k = Some i0 -> inode_at (inode_set k i s) k = Some i.
Proof. intros Hi. rewrite inode_at_set by (by eapply inode_at_lt). by rewrite decide_True. Qed.

(** The state with the mutex of node [k] taken. *)
Definition held_inode (k : nat) (i : inCoreiNode) (s : istate) : istate :=
  inode_set k (ic_set_mutex true i) s.

Lemma unlock_held_inode s k i :
  inode_at s k = Some i -> iNodeMutex i = false -> inode_unlock k (held_inode k i s) = Ret tt s.
Proof.
  intros Hi Hm. unfold held_inode.
  rewrite (inode_unlock_Ret _ k (ic_set_mutex true i)) by (by eapply inode_at_set_eq).
  by rewrite inode_set_set, mutex_mutex, mutex_same, inode_set_same.
Qed.

Lemma on_cache_Ret {A} (m : IM A) (s : fstate) a c :
  m (cache s) = Ret a c -> on_cache m s = Ret a (set_cache c s).
Proof. unfold on_cache, zoom. by intros ->. Qed.

Lemma on_cache_same {A} (m : IM A) (s : fstate) a :
  m (cache s) = Ret a (cache s) -> on_cache m s = Ret a s.
Proof. intros E. rewrite (on_cache_Ret _ _ _ _ E). by destruct s. Qed.

Lemma wp_on_cache {A} (m : IM A) (s : fstate) Q :
  wp m (cache s) (fun a c => Q a (set_cache c s)) -> wp (on_cache m) s Q.
Proof. apply wp_zoom. Qed.

(** * The invariant *)

Record files_ok (s : fstate) (F : list nat) (Q : Z -> list nat) : Prop := {
  f_cache : cache_ok (cache s) F Q;
  f_size : length (fileTable s) = Z.to_nat MAX_FILE_DESCRIPTORS;
  f_open : forall fd e, fileTable s !! fd = Some e -> validEntry e = true -> fte_inode e <> None;
  f_held : forall k, 0 < opens (fileTable s) k ->
    exists n i, caches (cache s) Q n k i /\ opens (fileTable s) k <= reference_count i
}.

Lemma refs_of_caches (s : istate) Q n k i : caches s Q n k i -> refs s Q n (reference_count i).
Proof. intros Hk. left. by exists k, i. Qed.

(** A step of the cache that gives up no reference of the table. *)
Lemma files_ok_moves s c F F' Q Q' dr :
  files_ok s F Q -> moves (cache s) c F' Q Q' (fun _ => 0) dr -> (forall m, 0 <= dr m) ->
  files_ok (set_cache c s) F' Q'.
Proof.
  intros [Hc Hsz Ho Hh] [[Hc' _ Hr] Hst _] Hdr. split; [done|done|done|].
  intros k Hk. destruct (Hh k Hk) as (n & i & Hki & Hle). cbn [cache fileTable set_cache] in *.
  destruct (Hst n k i Hki) as (i' & Hk' & _); [lia|]. exists n, i'. split; [done|].
  rewrite (refs_cached _ _ _ _ _ _ _ Hc' Hk' (Hr _ _ (refs_of_caches _ _ _ _ _ Hki))).
  specialize (Hdr n). lia.
Qed.

(** * [openFile] *)

Lemma createAndGet_Ret (s : fstate) pid inode flags offset :
  createAndGetFileDescriptor pid inode flags offset s =
    match free_entry (fileTable s) 0 with
    | Some fd => Ret (Z.of_nat fd)
        (set_table (<[fd := FileTableEntry inode pid flags offset true]> (fileTable s)) s)
    | None => Ret (- ENFILE) s
    end.
Proof.
  unfold createAndGetFileDescriptor. rewrite bind_get. by destruct (free_entry (fileTable s) 0).
Qed.

(** The entry that [openFile] makes for node [w]. *)
Definition new_entry (w : nat) (i : inCoreiNode) (fi : fuse_file_info) (ctx : fuse_context)
  : fileTableEntry :=
  FileTableEntry (Some w) (fc_pid ctx) (fi_flags fi) (calculateFileOffset i (fi_flags fi)) true.

(** The descriptor, and the table with the new entry: without a free entry the
    error number goes into the descriptor. *)
Definition opened_table (t : list fileTableEntry) (e : fileTableEntry) (flags : Z)
  : fuse_file_info * list fileTableEntry :=
  match free_entry t 0 with
  | Some fd => (FuseFileInfo flags (Z.of_nat fd), <[fd := e]> t)
  | None => (FuseFileInfo flags (2 ^ 64 - ENFILE), t)
  end.

Lemma free_entry_lt (s : fstate) fd :
  length (fileTable s) = Z.to_nat MAX_FILE_DESCRIPTORS -> free_entry (fileTable s) 0 = Some fd ->
  (fd < Z.to_nat MAX_FILE_DESCRIPTORS)%nat /\
  exists e, fileTable s !! fd = Some e /\ validEntry e = false.
Proof.
  intros Hl Hf. pose proof (free_entry_spec (fileTable s) 0) as Hs. rewrite Hf in Hs.
  destruct Hs as (j & e & -> & Hj & He & _). cbn [Nat.add]. rewrite <- Hl.
  split; [by eapply lookup_lt_Some|]. by exists e.
Qed.

(** What follows the lookup: the table changes, the cache does not. *)
Lemma open_node s F Q k n i fi ctx :
  files_ok s F Q -> caches (cache s) Q n k i ->
  (on_cache (inode_lock k) ;;;
   let* i := on_cache (get_inode k) in
   let* fd := createAndGetFileDescriptor (fc_pid ctx) (Some k) (fi_flags fi)
                (calculateFileOffset i (fi_flags fi)) in
   on_cache (inode_unlock k) ;;;
   ret (0, FuseFileInfo (fi_flags fi) (u64 fd))) s =
  Ret (0, fst (opened_table (fileTable s) (new_entry k i fi ctx) (fi_flags fi)))
    (set_table (snd (opened_table (fileTable s) (new_entry k i fi ctx) (fi_flags fi))) s).
Proof.
  intros Hf (Hi & _ & _). pose proof (c_quiet _ _ _ (f_cache _ _ _ Hf) _ _ Hi) as Hq.
  rewrite (bind_Ret _ _ _ _ _ (on_cache_Ret _ _ _ _ (inode_lock_Ret _ _ _ Hi Hq))).
  erewrite bind_Ret; [|apply on_cache_same, get_inode_Ret; by eapply inode_at_set_eq].
  unfold bind at 1. rewrite createAndGet_Ret. cbn [fileTable set_cache].
  unfold opened_table. destruct (free_entry (fileTable s) 0) as [fd|] eqn:E; cbn [fst snd].
  - erewrite bind_Ret; [|apply on_cache_Ret; cbn [cache set_table set_cache]; by apply unlock_held_inode].
    destruct (free_entry_lt _ _ (f_size _ _ _ Hf) E) as [Hlt _]. unfold ret.
    rewrite u64_id; [by destruct s|]. change MAX_FILE_DESCRIPTORS with 10000 in Hlt.
    unfold is_u64. lia.
  - erewrite bind_Ret; [|apply on_cache_Ret; cbn [cache set_table set_cache]; by apply unlock_held_inode].
    unfold ret. change (u64 (- ENFILE)) with (2 ^ 64 - ENFILE). by destruct s.
Qed.

Lemma opens_fresh t fd e e' k :
  t !! fd = Some e -> validEntry e = false -> opens (<[fd := e']> t) k = opens t k + counts k e'.
Proof.
  intros Hfd He. rewrite (opens_insert _ _ _ _ _ Hfd). unfold counts at 1.
  rewrite decide_False; [lia|]. intros [E _]. congruence.
Qed.

(** The table may take over a reference that the client holds. *)
Lemma files_ok_open s F Q w n i fi ctx :
  files_ok s F Q -> caches (cache s) Q n w i ->
  opens (fileTable s) w + 1 <= reference_count i ->
  files_ok (set_table (snd (opened_table (fileTable s) (new_entry w i fi ctx) (fi_flags fi))) s) F Q.
Proof.
  intros [Hc Hsz Ho Hh] Hw Href. unfold opened_table.
  destruct (free_entry (fileTable s) 0) as [fd|] eqn:E; cbn [snd]; [|by destruct s].
  destruct (free_entry_lt _ _ Hsz E) as (_ & e & Hfd & He).
  split; cbn [cache fileTable set_table].
  - done.
  - by rewrite length_insert.
  - intros j e' [(-> & <- & _)|[_ Hj]]%list_lookup_insert_Some; [done|]. by eapply Ho.
  - intros k. rewrite (opens_fresh _ _ _ _ _ Hfd He). unfold counts, opened, new_entry.
    cbn [validEntry fte_inode]. destruct (decide _) as [[_ Ek]|_].
    + injection Ek as <-. intros _. by exists n, i.
    + rewrite Z.add_0_r. apply Hh.
Qed.

Lemma getFileDescriptor_valid (s : fstate) pid fd e :
  length (fileTable s) = Z.to_nat MAX_FILE_DESCRIPTORS ->
  fileTable s !! fd = Some e -> validEntry e = true ->
  getFileDescriptor pid (i32 (Z.of_nat fd)) s = Ret (inr fd) s.
Proof.
  intros Hsz Hfd He. pose proof (lookup_lt_Some _ _ _ Hfd) as Hlt. rewrite Hsz in Hlt.
  change MAX_FILE_DESCRIPTORS with 10000 in Hlt.
  rewrite i32_id by lia. unfold getFileDescriptor. change MAX_FILE_DESCRIPTORS with 10000.
  rewrite (proj2 (Z.leb_gt _ _)), (proj2 (Z.ltb_ge _ _)) by lia. rewrite Nat2Z.id.
  unfold get_entry. rewrite bind_assoc, bind_get, Hfd, bind_ret, He. done.
Qed.

Lemma get_entry_Ret (s : fstate) fd e : fileTable s !! fd = Some e -> get_entry fd s = Ret e s.
Proof. intros Hfd. unfold get_entry. by rewrite bind_get, Hfd. Qed.

(** The entry goes, and with it the reference. *)
Lemma files_ok_close s c F F' Q n fd e k :
  files_ok s F Q -> fileTable s !! fd = Some e -> opened k e ->
  (exists i, caches (cache s) Q n k i) ->
  moves (cache s) c F' Q Q (fun _ => 0) (fun m => - one n m) ->
  files_ok (FState c (<[fd := fte_set_valid false e]> (fileTable s))) F' Q.
Proof.
  intros [Hc Hsz Ho Hh] Hfd He [i Hk] [[Hc' _ Hr] Hst _]. split; cbn [cache fileTable].
  - done.
  - by rewrite length_insert.
  - intros j e' [(-> & <- & _)|[_ Hj]]%list_lookup_insert_Some; [done|]. by eapply Ho.
  - intros j. rewrite (opens_insert _ _ _ _ _ Hfd).
    assert (counts j (fte_set_valid false e) = 0) as ->.
    { unfold counts. by rewrite decide_False by (by intros [? _]). }
    intros Hj. assert (0 <= counts j e) as Hcj by (unfold counts; destruct (decide _); lia).
    destruct (Hh j ltac:(lia)) as (m & i' & Hj' & Hle). destruct (Hst m j i' Hj') as (i2 & Hi2 & _); [lia|].
    exists m, i2. split; [done|].
    rewrite (refs_cached _ _ _ _ _ _ _ Hc' Hi2 (Hr _ _ (refs_of_caches _ _ _ _ _ Hj'))).
    assert (counts j e = one n m) as ->; [|cbv beta; lia].
    unfold counts, one. destruct (decide (opened j e)) as [[_ E]|Hno].
    + destruct He as [_ E']. assert (j = k) as -> by congruence.
      destruct Hk as (Hk & _ & En), Hj' as (Hj' & _ & Em). by rewrite decide_True by congruence.
    + rewrite decide_False; [done|]. intros ->.
      pose proof (c_uniq _ _ _ Hc _ _ _ _ _ Hj' Hk) as ->. done.
Qed.

Context (N : nat) (Npos : (0 < N)%nat).

(** What [openFile] does when the path leads to [r]. *)
Definition opens_as (s : fstate) (Q : Z -> list nat) (r : option Z) (fi : fuse_file_info)
    (ctx : fuse_context) (v : Z * fuse_file_info) (s' : fstate) : Prop :=
  match r with
  | None => v = (- ENOENT, fi) /\ fileTable s' = fileTable s /\ exists F' Q',
      files_ok s' F' Q' /\ moves (cache s) (cache s') F' Q Q' (fun _ => 0) (fun _ => 0)
  | Some n => exists w i F' Q', files_ok s' F' Q' /\
      moves (cache s) (cache s') F' Q Q' (fun _ => 0) (one n) /\
      in_hand N (cache s') F' Q' n w /\ caches (cache s') Q' n w i /\
      v = (0, fst (opened_table (fileTable s) (new_entry w i fi ctx) (fi_flags fi))) /\
      fileTable s' = snd (opened_table (fileTable s) (new_entry w i fi ctx) (fi_flags fi))
  end.

(** A client that takes a reference of its own leaves room for it. *)
Lemma own_reference s c F F' Q Q' n w i :
  files_ok s F Q -> moves (cache s) c F' Q Q' (fun _ => 0) (one n) ->
  caches c Q' n w i -> 0 < reference_count i -> opens (fileTable s) w + 1 <= reference_count i.
Proof.
  intros [_ _ _ Hh] [[Hc' _ Hr] Hst _] Hw Hpos.
  destruct (decide (0 < opens (fileTable s) w)) as [Ho|Ho].
  - destruct (Hh w Ho) as (n0 & i0 & Hw0 & Hle).
    destruct (Hst n0 w i0 Hw0) as (i' & Hw' & _); [lia|].
    destruct Hw as (Hw & Hq & En), Hw' as (Hw' & Hq' & En'). rewrite Hw in Hw'. injection Hw' as <-.
    assert (n0 = n) as -> by congruence.
    rewrite (refs_cached c F' Q' n w i _ Hc' ltac:(done) (Hr _ _ (refs_of_caches _ _ _ _ _ Hw0))).
    unfold one. rewrite decide_True by done. lia.
  - unfold opens in *. lia.
Qed.

Lemma openFile_spec s F Q l path fi ctx r :
  files_ok s F Q -> tree_ok (cache s) Q l -> (N <= length F)%nat -> few_refs (cache s) Q ->
  c_string path -> path <> [] -> walks (cache s) Q 0 (path_names path) r ->
  wp (openFile path fi ctx) s (opens_as s Q r fi ctx).
Proof.
  intros Hf Ht HF Hfew Hp Hne Hw. unfold openFile. apply wp_bind, wp_on_cache.
  eapply wp_mono; [by eapply (getFileINode_spec N Npos (cache s) F Q l); [apply Hf|..]|].
  intros o c. destruct r as [n|].
  - intros (w & F1 & Q1 & -> & Hm & Hh). pose proof Hh as (i & Hk & Hpos & _).
    assert (files_ok (set_cache c s) F1 Q1) as Hf1.
    { eapply files_ok_moves; [exact Hf|exact Hm|apply one_nonneg]. }
    eapply wp_Ret; [by eapply (open_node (set_cache c s) F1 Q1 w n i)|].
    exists w, i, F1, Q1. cbn [fileTable cache set_cache set_table]. split_and!; try done.
    apply (files_ok_open _ _ _ _ n _ _ _ Hf1 Hk). cbn [fileTable set_cache].
    by eapply own_reference.
  - intros (-> & F1 & Q1 & Hm). apply wp_ret. split_and!; [done|done|]. exists F1, Q1.
    split; [|done]. eapply files_ok_moves; [exact Hf|exact Hm|done].
Qed.

(** * [closeFile] *)

Lemma closeFile_spec s F Q n k fd e flags ctx :
  files_ok s F Q -> fileTable s !! fd = Some e -> opened k e -> in_hand N (cache s) F Q n k ->
  wp (closeFile (FuseFileInfo flags (Z.of_nat fd)) ctx) s (fun v s' =>
    v = 0 /\ fileTable s' = <[fd := fte_set_valid false e]> (fileTable s) /\
    exists F', (N <= length F')%nat /\ files_ok s' F' Q /\
      moves (cache s) (cache s') F' Q Q (fun _ => 0) (fun m => - one n m)).
Proof.
  intros Hf Hfd He Hh. pose proof He as [Hv Hi]. unfold closeFile. cbn [fi_fh].
  apply wp_bind. eapply wp_Ret; [by eapply getFileDescriptor_valid; [apply Hf|..]|]. cbn iota.
  apply wp_bind. eapply wp_Ret; [by apply get_entry_Ret|].
  apply wp_bind. eapply wp_Ret; [reflexivity|]. rewrite Hi. apply wp_on_cache.
  apply wp_bind, wp_ret. cbn [cache set_table].
  eapply wp_mono; [by eapply (iput_moves N); [apply Hf|]|].
  intros r c (-> & F1 & Hm & HF1). cbn [fileTable set_cache set_table cache]. split_and!; [done|done|].
  exists F1. split_and!; [done| |done].
  pose proof Hh as (i & Hk & _). by eapply files_ok_close; [exact Hf|exact Hfd|exact He|by exists i|].
Qed.

(** * Opening and closing again *)

Lemma open_then_close s F Q l path fi ctx n fd :
  files_ok s F Q -> tree_ok (cache s) Q l -> (N <= length F)%nat -> few_refs (cache s) Q ->
  c_string path -> path <> [] -> walks (cache s) Q 0 (path_names path) (Some n) ->
  free_entry (fileTable s) 0 = Some fd ->
  wp (openFile path fi ctx) s (fun '(v, fi') s1 => v = 0 /\ wp (closeFile fi' ctx) s1 (fun v' s' =>
    v' = 0 /\ (exists e, validEntry e = false /\ fileTable s' = <[fd := e]> (fileTable s)) /\
    exists F' Q', files_ok s' F' Q' /\
      moves (cache s) (cache s') F' Q Q' (fun _ => 0) (fun _ => 0))).
Proof.
  intros Hf Ht HF Hfew Hp Hne Hw Hfd.
  eapply wp_mono; [by eapply openFile_spec|].
  intros [v fi'] s1 (w & i & F1 & Q1 & Hf1 & Hm1 & Hh & Hk & Hv & Htab).
  unfold opened_table in Hv, Htab. rewrite Hfd in Hv, Htab. injection Hv as -> ->. cbn [fst snd] in *.
  split; [done|].
  destruct (free_entry_lt _ _ (f_size _ _ _ Hf) Hfd) as [Hlt _]. rewrite <- (f_size _ _ _ Hf) in Hlt.
  eapply wp_mono; [eapply (closeFile_spec s1 F1 Q1 n w fd (new_entry w i fi ctx)); try done|].
  - rewrite Htab. by apply list_lookup_insert_eq.
  - intros v2 s2 (-> & Htab2 & F2 & _ & Hf2 & Hm2). split_and!; [done| |].
    + eexists. split; [|rewrite Htab2, Htab; apply list_insert_insert_eq]. done.
    + exists F2, Q1. split; [done|].
      eapply moves_trans; [apply Hf|exact Hm1|exact Hm2|..]; intros m; cbv beta; [lia|].
      pose proof (one_nonneg n m). lia.
Qed.

Lemma open_close s F Q l path fi ctx n fd :
  files_ok s F Q -> tree_ok (cache s) Q l -> (N <= length F)%nat -> few_refs (cache s) Q ->
  c_string path -> path <> [] -> walks (cache s) Q 0 (path_names path) (Some n) ->
  free_entry (fileTable s) 0 = Some fd ->
  wp (let* (_, fi) := openFile path fi ctx in closeFile fi ctx) s (fun v s' =>
    v = 0 /\ (exists e, validEntry e = false /\ fileTable s' = <[fd := e]> (fileTable s)) /\
    exists F' Q', files_ok s' F' Q' /\
      moves (cache s) (cache s') F' Q Q' (fun _ => 0) (fun _ => 0)).
Proof.
  intros Hf Ht HF Hfew Hp Hne Hw Hfd. apply wp_bind.
  eapply wp_mono; [by eapply open_then_close|]. by intros [v fi'] s1 [_ Hwp].
Qed.

End files_spec.
