(* ===== verification/FileAccess.v ===== *)
(** Reading and writing an open file: what [readFile] and [writeToFile] do to
    the bytes of the file, to the cache and to the table. *)

From S2P Require Export FilesSpec DirUpdate.

Section file_access.
Context `{BlockStore ok} `{shifts : !DefinedShifts}.
Local Abbreviation cache_ok := (cache_ok (ok := ok)).
Local Abbreviation files_ok := (files_ok (ok := ok)).
Local Abbreviation file_ok := (file_ok (ok := ok)).
Local Abbreviation appended := (appended (ok := ok)).
Local Abbreviation updates := (updates (ok := ok)).

(** * Writing leaves the rest of the inode alone *)

Lemma write_body_touched buf size st s c s' :
  write_body buf size st s = Ret c s' ->
  touched (wr_inode st) (wr_inode match c with Next a | Break a => a end).
Proof.
  destruct st as [i w off fo resp]. unfold write_body. intros Hr.
  apply bind_Ret_inv in Hr as ([[r i1] resp1] & s1 & Hb & Hr). apply bmap_touched in Hb.
  destruct (r <? 0); [unfold ret in Hr; by injection Hr as <- _|].
  apply bind_Ret_inv in Hr as (u & s2 & _ & Hr).
  apply bind_Ret_inv in Hr as (i2 & s3 & Hu & Hr). unfold ret in Hr. injection Hr as <- _.
  cbn [wr_inode]. etrans; [exact Hb|].
  destruct (off =? ic_size i1); [by apply updateINodeMetadata_touched in Hu|].
  destruct (_ <? _); [by apply updateINodeMetadata_touched in Hu|]. unfold ret in Hu. by injection Hu as <- _.
Qed.

Lemma writeBytes_touched i fo buf n o s i' w fo' s' :
  writeBytes i fo buf n o s = Ret (i', w, fo') s' -> touched i i'.
Proof.
  unfold writeBytes. intros Hr. apply bind_Ret_inv in Hr as (st & s1 & Hw & Hr).
  unfold ret in Hr. injection Hr as <- _ _ _.
  apply (while_do_keeps (fun st => touched i (wr_inode st))) in Hw; [done| |done].
  intros st1 s2 c s3 Hst Hb. apply write_body_touched in Hb. destruct c; by etrans.
Qed.

Lemma touched_wf s l i i' :
  touched i i' -> file_ok s l i' -> wf_iNode (getDiskINodeData i) -> wf_iNode (getDiskINodeData i').
Proof.
  intros ((E1&E2&E3&E4&E5&E6&_)&E7&E8&E9&E10) Hf (?&?&?&?&?&?&[? ?]&?&?&?&_&_).
  pose proof (file_size_u64 _ _ _ Hf). destruct Hf as (_&_&_&_&_&_&_&?&?&_).
  unfold wf_iNode in *. cbn [device_number inode_number access modification status_change linksCount type
    file_mode owner_uid group_uid dataBlockNums size getDiskINodeData] in *.
  rewrite E1, E2, E3, E4, E5, E6, E7, E8, E9. split_and!; try done; [by apply E10|..];
    unfold is_u64; lia.
Qed.

(** * What a change of the contents leaves alone *)

(** Writes to data blocks and to the head of the free list. *)
Lemma data_writes s s' (W : Z -> Prop) :
  changes W s s' -> (forall b, W b -> b = FREE_LIST_BLOCK \/ data_area b) -> inode_area s ->
  inode_area s' /\ (forall m, inode_num m -> disk_inode s' m = disk_inode s m) /\
  forall nos, inode_list s nos -> inode_list s' nos.
Proof.
  intros Hch HW Ha. pose proof (changes_env _ _ _ Hch) as He. destruct Hch as [_ Hch]. split_and!.
  - by eapply inode_area_env.
  - intros m Hm. apply disk_inode_frame, Hch. intros Hb. apply HW in Hb.
    pose proof (inode_block_below m Hm). pose proof (inode_block_ge m Hm). unfold data_area in Hb. consts. lia.
  - intros nos Hl. eapply inode_list_frame; [exact Hl|]. apply Hch. intros Hb. apply HW in Hb.
    unfold data_area in Hb. consts. lia.
Qed.

(** Nothing happens to the list of free numbers and to the mutexes. *)
Definition numbers_kept (s s' : dstate) : Prop :=
  held s' = held s /\ forall nos, inode_list s nos -> inode_list s' nos.

Lemma numbers_kept_trans s s1 s2 : numbers_kept s s1 -> numbers_kept s1 s2 -> numbers_kept s s2.
Proof. intros [E1 N1] [E2 N2]. split; [congruence|auto]. Qed.

Lemma numbers_kept_changes (W : Z -> Prop) s s' :
  changes W s s' -> ~ W INODE_LIST_BLOCK -> numbers_kept s s'.
Proof.
  intros Hch HW. split; [by destruct (changes_env _ _ _ Hch) as (_ & _ & _ & ->)|].
  intros nos Hl. eapply inode_list_frame; [exact Hl|]. by apply Hch.
Qed.

(** The data blocks and the free blocks are distributed anew. *)
Definition reworked (s : dstate) (l : list Z) (i : inCoreiNode) (s' : dstate) (l' : list Z) (i' : inCoreiNode) : Prop :=
  blocks_of s' i' ++ l' ≡ₚ blocks_of s i ++ l /\
  changes (fun b => b = FREE_LIST_BLOCK \/ b ∈ blocks_of s i ++ l) s s'.

Lemma gained_reworked s l i s' l' i' : gained s l i s' l' i' -> reworked s l i s' l' i'.
Proof.
  intros (al & -> & Hb & Hch). split; [by rewrite Hb, app_assoc|].
  eapply changes_mono; [|exact Hch]. intros b. cbv beta. rewrite !elem_of_app. tauto.
Qed.

Lemma overwritten_reworked s s' l i o buf : overwritten (ok := ok) s s' l i o buf -> reworked s l i s' l i.
Proof.
  intros (_ & [Hch Eb] & _). split; [by rewrite Eb|]. eapply changes_mono; [|exact Hch].
  intros b Hb. right. apply elem_of_app. by left.
Qed.

Lemma reworked_writes s l i s' l' i' :
  reworked s l i s' l' i' -> Forall data_area (l ++ blocks_of s i) -> inode_area s ->
  inode_area s' /\ (forall m, inode_num m -> disk_inode s' m = disk_inode s m) /\ numbers_kept s s'.
Proof.
  intros [_ Hch] Hda Ha. destruct (data_writes s s' _ Hch) with (2 := Ha) as (? & ? & Hn).
  - intros b [->|Hin]; [by left|right]. rewrite Forall_forall in Hda. apply Hda. set_solver.
  - split; [done|]. split; [done|]. split; [|done].
    by destruct (changes_env _ _ _ Hch) as (_ & _ & _ & ->).
Qed.

(** * [readFile] *)

Lemma held_reference s F Q fd e k n i :
  files_ok s F Q -> fileTable s !! fd = Some e -> opened k e -> caches (cache s) Q n k i ->
  0 < reference_count i.
Proof.
  intros Hf Hfd He Hk. pose proof (opens_lookup _ _ _ _ Hfd He) as Hpos.
  destruct (f_held _ _ _ Hf k Hpos) as (m & i' & (Hi' & _) & Hle). destruct Hk as (Hk & _).
  rewrite Hk in Hi'. injection Hi' as <-. lia.
Qed.

(** A new offset in an entry does not matter to the cache. *)
Lemma files_ok_offset s F Q fd e off :
  files_ok s F Q -> fileTable s !! fd = Some e ->
  files_ok (set_table (<[fd := fte_set_offset off e]> (fileTable s)) s) F Q.
Proof.
  intros [Hc Hsz Ho Hh] Hfd. split; cbn [cache fileTable set_table].
  - done.
  - by rewrite length_insert.
  - intros j e' [(-> & <- & _)|[_ Hj]]%list_lookup_insert_Some; [|by eapply Ho].
    intros Hv. by apply (Ho _ _ Hfd).
  - intros k. rewrite (opens_insert _ _ _ _ _ Hfd).
    assert (counts k (fte_set_offset off e) = counts k e) as -> by done.
    replace (opens (fileTable s) k - counts k e + counts k e) with (opens (fileTable s) k) by lia.
    apply Hh.
Qed.

Lemma readFile_spec s F Q l n k i fd e flags ctx buf o :
  let len := Z.of_nat (length buf) in
  let m := Z.min len (ic_size i - o) in
  files_ok s F Q -> fileTable s !! fd = Some e -> opened k e -> caches (cache s) Q n k i ->
  file_ok (ds (cache s)) l i -> len < 2 ^ 31 -> 0 <= o <= ic_size i -> read_request i o len ->
  wp (readFile buf len o (FuseFileInfo flags (Z.of_nat fd)) ctx) s (fun v s' =>
    v = (m, memcpy_at buf 0 (file_range (ds (cache s)) (ic_dataBlockNums i) o m)) /\
    cache s' = cache s /\ exists off, fileTable s' = <[fd := fte_set_offset off e]> (fileTable s)).
Proof.
  intros len m Hf Hfd He Hk Hfile Hlen Ho Hreq. pose proof He as [Hv Hi].
  pose proof (file_size_u64 _ _ _ Hfile) as Hsz. pose proof Hk as (Hik & _ & _).
  pose proof (c_quiet _ _ _ (f_cache _ _ _ Hf) _ _ Hik) as Hq. unfold readFile. cbn [fi_fh].
  apply wp_bind. eapply wp_Ret; [by eapply getFileDescriptor_valid; [apply Hf|..]|]. cbn iota.
  apply wp_bind. eapply wp_Ret; [by apply get_entry_Ret|]. rewrite Hi.
  apply wp_bind. eapply wp_Ret; [by apply on_cache_same|].
  apply wp_bind. eapply wp_Ret; [apply on_cache_Ret; by apply inode_lock_Ret|].
  fold (held_inode k i (cache s)).
  apply wp_bind. eapply wp_Ret; [apply on_cache_same, get_inode_Ret; by eapply inode_at_set_eq|].
  rewrite (u64_id o) by (unfold is_u64; lia).
  apply wp_bind, wp_on_cache. unfold look_inode. apply wp_bind.
  eapply wp_Ret; [apply get_inode_Ret; by eapply inode_at_set_eq|]. unfold on_disk. apply wp_zoom.
  apply (readBytes_spec (ds (cache s)) l (ic_set_mutex true i)); [exact Hfile|lia|exact Ho|exact Hreq|].
  intros fo'. cbn beta iota. apply wp_bind. eapply wp_Ret; [reflexivity|].
  apply wp_bind. eapply wp_Ret.
  { apply on_cache_Ret. exact (unlock_held_inode (cache s) k i Hik Hq). }
  change (ic_size (ic_set_mutex true i)) with (ic_size i).
  apply wp_ret. rewrite i32_id by (unfold len in *; lia). cbn [cache fileTable set_table set_cache].
  split_and!; [done|done|]. by exists fo'.
Qed.

(** * [writeToFile] *)

(** The node after such a change, in a state whose disk is [d']. *)
Lemma reworked_updates s F Q l n k i i' l' d' :
  cache_ok s F Q -> caches s Q n k i -> 0 < reference_count i ->
  Forall data_area (l ++ blocks_of (ds s) i) -> file_ok d' l' i' -> reworked (ds s) l i d' l' i' ->
  same_id i i' -> wf_iNode (getDiskINodeData i') -> i' = i \/ inode_changed i' = true ->
  updates s (inode_set k i' (set_ds d' s)) F F Q n k i'.
Proof.
  intros Hc Hk Hpos Hda Hf' Hre (E1&E2&_&_&_&_&E7&E8) Hw Hch. pose proof Hk as (Hi & _ & En).
  destruct (c_hashed _ _ _ Hc _ _ _ Hk) as (_ & Hd & _).
  destruct (reworked_writes _ _ _ _ _ _ Hre Hda (c_area _ _ _ Hc)) as (Ha' & Hdi & _).
  apply (client_updates s F Q n k i i' d'); try done; try congruence.
  - rewrite E8. by eapply (c_quiet _ _ _ Hc).
  - destruct Hch as [->|?]; [by right|by left].
  - by destruct Hf'.
Qed.

Lemma grow_updates s F Q l n k i i' l' d' buf :
  cache_ok s F Q -> caches s Q n k i -> 0 < reference_count i ->
  Forall data_area (l ++ blocks_of (ds s) i) ->
  appended (ds s) l i d' l' i' buf -> same_id i i' -> wf_iNode (getDiskINodeData i') ->
  i' = i \/ inode_changed i' = true ->
  updates s (inode_set k i' (set_ds d' s)) F F Q n k i'.
Proof.
  intros Hc Hk Hpos Hda (Hf' & _ & Hg & _) Hid Hw Hch.
  eapply reworked_updates; [done..|exact Hf'|by apply gained_reworked|done|done|done].
Qed.

Lemma append_updates s F Q l n k i i' l' d' buf :
  cache_ok s F Q -> caches s Q n k i -> 0 < reference_count i ->
  Forall data_area (l ++ blocks_of (ds s) i) ->
  appended (ds s) l i d' l' i' buf -> touched i i' -> i' = i \/ inode_changed i' = true ->
  updates s (inode_set k i' (set_ds d' s)) F F Q n k i'.
Proof.
  intros Hc Hk Hpos Hda Happ Ht Hch. destruct (c_hashed _ _ _ Hc _ _ _ Hk) as (_ & _ & Hw & _).
  eapply grow_updates; [done..|by destruct Ht| |done].
  eapply touched_wf; [exact Ht|by destruct Happ|done].
Qed.

(** The run of [writeToFile], for what [writeBytes] is known to do. *)
Lemma writeToFile_run s F Q n k i fd e flags ctx buf o (P : inCoreiNode -> dstate -> Prop) :
  let len := Z.of_nat (length buf) in
  files_ok s F Q -> fileTable s !! fd = Some e -> opened k e -> caches (cache s) Q n k i ->
  0 <= o <= ic_size i -> is_u64 (ic_size i) ->
  wp (writeBytes (ic_set_mutex true i) (fte_offset e) buf len o) (ds (cache s))
    (fun '(i1, w, _) d1 => w = len /\ P i1 d1) ->
  wp (writeToFile buf len o (FuseFileInfo flags (Z.of_nat fd)) ctx) s (fun v s' =>
    v = len /\ exists i1 d1 off, P i1 d1 /\ touched i (ic_set_mutex false i1) /\
      s' = FState (inode_set k (ic_set_mutex false i1) (set_ds d1 (cache s)))
        (<[fd := fte_set_offset off e]> (fileTable s))).
Proof.
  intros len Hf Hfd He Hk Ho Hsz Hwrite. pose proof He as [Hv Hi]. pose proof Hk as (Hik & _ & _).
  pose proof (f_cache _ _ _ Hf) as Hc. unfold is_u64 in Hsz.
  pose proof (c_quiet _ _ _ Hc _ _ Hik) as Hq. unfold writeToFile. cbn [fi_fh].
  apply wp_bind. eapply wp_Ret; [by eapply getFileDescriptor_valid; [apply Hf|..]|]. cbn iota.
  apply wp_bind. eapply wp_Ret; [by apply get_entry_Ret|]. rewrite Hi.
  apply wp_bind. eapply wp_Ret; [by apply on_cache_same|].
  apply wp_bind. eapply wp_Ret; [apply on_cache_Ret; by apply inode_lock_Ret|].
  fold (held_inode k i (cache s)).
  apply wp_bind. eapply wp_Ret; [apply on_cache_same, get_inode_Ret; by eapply inode_at_set_eq|].
  change (ic_size (ic_set_mutex true i)) with (ic_size i).
  rewrite (u64_id o) by (unfold is_u64; lia). rewrite (proj2 (Z.ltb_ge _ _)) by lia.
  apply wp_bind, wp_on_cache. unfold update_inode. apply wp_bind.
  eapply wp_Ret; [apply get_inode_Ret; by eapply inode_at_set_eq|].
  apply wp_bind. unfold on_disk. apply wp_zoom, wp_bind.
  eapply wp_mono; [apply wp_ret_info; exact Hwrite|].
  intros [[i1 w] fo1] d1 (Hrun & -> & HP). apply wp_ret. cbn [cache set_cache] in Hrun.
  assert (touched (ic_set_mutex true i) i1) as Ht by (by eapply writeBytes_touched).
  set (i' := ic_set_mutex false i1).
  assert (touched i i') as Ht'.
  { destruct Ht as ((?&?&?&?&?&?&?&?)&?&?&?&?). by split_and!. }
  apply wp_bind. eapply wp_Ret; [reflexivity|]. cbn beta iota. apply wp_ret.
  cbn beta iota. apply wp_bind. eapply wp_Ret; [reflexivity|].
  apply wp_bind. eapply wp_Ret.
  { apply on_cache_Ret. apply (inode_unlock_Ret _ k i1). cbn [cache set_table set_cache].
    eapply (inode_at_set_eq _ _ (ic_set_mutex true i)). by eapply inode_at_set_eq. }
  apply wp_ret. split; [done|]. exists i1, d1, fo1. split; [done|]. split; [done|].
  unfold set_cache at 1. cbn [cache fileTable set_table set_cache]. f_equal.
  change (inode_set k i' (inode_set k i1 (inode_set k (ic_set_mutex true i) (set_ds d1 (cache s)))) =
    inode_set k i' (set_ds d1 (cache s))). by rewrite !inode_set_set.
Qed.

(** The table of open files after the inode has changed. *)
Lemma files_ok_updates s c F Q n k i i' fd e off :
  files_ok s F Q -> fileTable s !! fd = Some e -> caches (cache s) Q n k i ->
  updates (cache s) c F F Q n k i' -> reference_count i' = reference_count i ->
  files_ok (FState c (<[fd := fte_set_offset off e]> (fileTable s))) F Q.
Proof.
  intros Hf Hfd Hk Hu Er. pose proof Hk as (Hik & _ & _). pose proof (f_cache _ _ _ Hf) as Hc.
  pose proof (files_ok_offset s F Q fd e off Hf Hfd) as [_ Hsz' Ho' Hh']. cbn [cache fileTable set_table] in *.
  split; cbn [cache fileTable]; [by eapply updates_ok|done|done|].
  intros j Hj. destruct (Hh' j Hj) as (m & ij & Hij & Hle).
  destruct (decide (j = k)) as [->|Hne].
  - exists n, i'. split; [apply (updates_caches _ _ _ _ _ _ _ _ _ _ _ _ Hu Hk); by left|].
    rewrite Er. destruct Hij as (Hij & _). rewrite Hik in Hij. by injection Hij as <-.
  - exists m, ij. split; [|done]. apply (updates_caches _ _ _ _ _ _ _ _ _ _ _ _ Hu Hk). by right.
Qed.

(** [R] relates the disk, the free list and the inode after [writeBytes] to those
    before it. *)
Lemma writeToFile_by (R : dstate -> list Z -> inCoreiNode -> Prop) s F Q l n k i fd e flags ctx buf o :
  let len := Z.of_nat (length buf) in
  files_ok s F Q -> fileTable s !! fd = Some e -> opened k e -> caches (cache s) Q n k i ->
  file_ok (ds (cache s)) l i -> Forall data_area (l ++ blocks_of (ds (cache s)) i) -> 0 <= o <= ic_size i ->
  (forall d1 l1 i1, R d1 l1 i1 ->
     let i' := ic_set_mutex false i1 in R d1 l1 i' /\ file_ok d1 l1 i' /\ reworked (ds (cache s)) l i d1 l1 i') ->
  wp (writeBytes (ic_set_mutex true i) (fte_offset e) buf len o) (ds (cache s)) (fun '(i1, w, _) d1 => w = len /\
    (i1 = ic_set_mutex true i \/ inode_changed i1 = true) /\ exists l1, R d1 l1 i1) ->
  wp (writeToFile buf len o (FuseFileInfo flags (Z.of_nat fd)) ctx) s (fun v s' =>
    v = len /\ exists i' l' off,
      caches (cache s') Q n k i' /\ touched i i' /\ R (ds (cache s')) l' i' /\ files_ok s' F Q /\
      fileTable s' = <[fd := fte_set_offset off e]> (fileTable s) /\
      updates (cache s) (cache s') F F Q n k i').
Proof.
  intros len Hf Hfd He Hk Hfile Hda Ho HR Hwrite. pose proof (file_size_u64 _ _ _ Hfile) as Hsz.
  pose proof (held_reference _ _ _ _ _ _ _ _ Hf Hfd He Hk) as Hpos. pose proof (f_cache _ _ _ Hf) as Hc.
  pose proof Hk as (Hik & _ & _). pose proof (c_quiet _ _ _ Hc _ _ Hik) as Hq.
  destruct (c_hashed _ _ _ Hc _ _ _ Hk) as (_ & _ & Hw & _).
  eapply wp_mono; [apply (writeToFile_run s F Q n k i fd e flags ctx buf o (fun i1 d1 =>
    (i1 = ic_set_mutex true i \/ inode_changed i1 = true) /\ exists l1, R d1 l1 i1)); try done; unfold is_u64; lia|].
  intros v s' (-> & i1 & d1 & off & (Hch & l1 & H1) & Ht & ->). split; [done|].
  destruct (HR _ _ _ H1) as (H1' & Hf' & Hre). set (i' := ic_set_mutex false i1) in *.
  assert (i' = i \/ inode_changed i' = true) as Hch'.
  { destruct Hch as [->|?]; [left|by right]. unfold i'. by rewrite mutex_mutex, mutex_same. }
  assert (updates (cache s) (inode_set k i' (set_ds d1 (cache s))) F F Q n k i') as Hu.
  { eapply reworked_updates; [done..|exact Hf'|exact Hre|by destruct Ht|by eapply touched_wf|done]. }
  exists i', l1, off. cbn [cache fileTable]. split; [apply (updates_caches _ _ _ _ _ _ _ _ _ _ _ _ Hu Hk); by left|].
  split; [done|]. split; [exact H1'|]. split; [|done].
  eapply files_ok_updates; [exact Hf|exact Hfd|exact Hk|exact Hu|]. by destruct Ht as ((_&_&_&_&_&_&?&_)&_).
Qed.

(** What [writeBytes] says of an inode that it has changed. *)
Lemma writeBytes_appends_changed s l i fo buf :
  let len := Z.of_nat (length buf) in
  file_ok s l i -> Forall is_byte buf -> len < 2 ^ 31 -> room l (ic_size i) len ->
  wp (writeBytes i fo buf len (ic_size i)) s (fun '(i', w, _) s' => w = len /\
    (i' = i \/ inode_changed i' = true) /\ exists l', appended s l i s' l' i' buf).
Proof.
  intros len Hf Hb Hlen Hroom.
  eapply wp_mono; [apply wp_ret_info, (writeBytes_append s l i fo buf (fun '(i1, w, _) s' => w = len /\
    (buf = [] \/ inode_changed i1 = true) /\ exists l1, appended s l i s' l1 i1 buf)); [done|done|done|done|]|].
  - intros i1 fo1 d1 l1 Happ Hch. split_and!; [done|done|]. by exists l1.
  - intros [[i1 w] fo1] d1 (Hrun & -> & Hch & Happ). split; [done|]. split; [|done].
    destruct Hch as [->|?]; [left|by right]. cbn in Hrun. by injection Hrun as <- _ _.
Qed.

Lemma writeToFile_spec s F Q l n k i fd e flags ctx buf :
  let len := Z.of_nat (length buf) in
  files_ok s F Q -> fileTable s !! fd = Some e -> opened k e -> caches (cache s) Q n k i ->
  file_ok (ds (cache s)) l i -> Forall data_area (l ++ blocks_of (ds (cache s)) i) ->
  Forall is_byte buf -> len < 2 ^ 31 -> room l (ic_size i) len ->
  wp (writeToFile buf len (ic_size i) (FuseFileInfo flags (Z.of_nat fd)) ctx) s (fun v s' =>
    v = len /\ exists i' l' off,
      caches (cache s') Q n k i' /\ touched i i' /\
      appended (ds (cache s)) l i (ds (cache s')) l' i' buf /\ files_ok s' F Q /\
      fileTable s' = <[fd := fte_set_offset off e]> (fileTable s) /\
      updates (cache s) (cache s') F F Q n k i').
Proof.
  intros len Hf Hfd He Hk Hfile Hda Hb Hlen Hroom. pose proof (file_size_u64 _ _ _ Hfile) as Hsz.
  apply (writeToFile_by (fun d1 l1 i1 => appended (ds (cache s)) l i d1 l1 i1 buf) s F Q l n k i fd e); try done; [lia| |].
  - intros d1 l1 i1 Happ i'. split; [exact Happ|]. split; [by destruct Happ|].
    apply gained_reworked. by destruct Happ as (_ & _ & ? & _).
  - exact (writeBytes_appends_changed (ds (cache s)) l (ic_set_mutex true i) (fte_offset e) buf Hfile Hb Hlen Hroom).
Qed.

(** * Writing at the end of a file, or inside it *)

(** Where a write may start, and what it leaves: the bytes from [o] on are those
    of [buf], and a file that grows takes its blocks from the free list. *)
Definition can_write (l : list Z) (size o len : Z) : Prop :=
  (o = size /\ room l size len) \/ (0 <= o /\ o + len <= size).

Definition written (s : dstate) (l : list Z) (i : inCoreiNode) (s' : dstate) (l' : list Z) (i' : inCoreiNode)
    (o : Z) (buf : list Z) : Prop :=
  let new := Z.max (ic_size i) (o + Z.of_nat (length buf)) in
  file_ok s' l' i' /\ reworked s l i s' l' i' /\ ic_size i' = new /\
  file_data s' (ic_dataBlockNums i') new = memcpy_at (file_data s (ic_dataBlockNums i) (ic_size i)) (Z.to_nat o) buf /\
  Z.of_nat (length l) - 4 * (nblocks new - nblocks (ic_size i)) <= Z.of_nat (length l').

Lemma appended_written s l i s' l' i' buf :
  0 <= ic_size i -> appended s l i s' l' i' buf -> written s l i s' l' i' (ic_size i) buf.
Proof.
  intros Hsz (Hf & _ & Hg & Es & Hl & Ed). unfold written. rewrite Z.max_r by lia. split; [done|].
  split; [by apply gained_reworked|]. split; [done|]. rewrite <- Es. split; [|lia].
  rewrite Ed. unfold memcpy_at. pose proof (length_file_data s (ic_dataBlockNums i) (ic_size i)) as Hlen.
  rewrite take_ge, drop_ge by lia. by rewrite app_nil_r.
Qed.

Lemma overwritten_written s s' l i o buf :
  0 <= o -> o + Z.of_nat (length buf) <= ic_size i -> overwritten (ok := ok) s s' l i o buf ->
  written s l i s' l i o buf.
Proof.
  intros Ho Hin Hov. unfold written. rewrite Z.max_l by lia. pose proof Hov as (Hf & _).
  split; [done|]. split; [by eapply overwritten_reworked|]. split; [done|]. split; [|lia].
  apply (overwritten_data (ok := ok) s s' l i o buf); [done|lia..].
Qed.

Lemma writeBytes_writes s l i fo buf o :
  let len := Z.of_nat (length buf) in
  file_ok s l i -> Forall is_byte buf -> len < 2 ^ 31 -> can_write l (ic_size i) o len ->
  wp (writeBytes i fo buf len o) s (fun '(i', w, _) s' => w = len /\
    (i' = i \/ inode_changed i' = true) /\ exists l', written s l i s' l' i' o buf).
Proof.
  intros len Hf Hb Hlen Hcan. pose proof (file_size_u64 _ _ _ Hf) as Hsz. destruct Hcan as [[-> Hroom]|[Ho Hin]].
  - eapply wp_mono; [by apply (writeBytes_appends_changed s l)|]. intros [[i1 w] fo1] d1 (-> & Hch & l1 & Happ).
    split; [done|]. split; [done|]. exists l1. apply appended_written; [lia|done].
  - apply (writeBytes_inside s l i fo buf o); [done..|]. intros fo' s' Hov. split; [done|]. split; [by left|].
    exists l. by apply overwritten_written.
Qed.

Lemma writeToFile_writes s F Q l n k i fd e flags ctx buf o :
  let len := Z.of_nat (length buf) in
  files_ok s F Q -> fileTable s !! fd = Some e -> opened k e -> caches (cache s) Q n k i ->
  file_ok (ds (cache s)) l i -> Forall data_area (l ++ blocks_of (ds (cache s)) i) ->
  Forall is_byte buf -> len < 2 ^ 31 -> can_write l (ic_size i) o len ->
  wp (writeToFile buf len o (FuseFileInfo flags (Z.of_nat fd)) ctx) s (fun v s' =>
    v = len /\ exists i' l' off,
      caches (cache s') Q n k i' /\ touched i i' /\
      written (ds (cache s)) l i (ds (cache s')) l' i' o buf /\ files_ok s' F Q /\
      fileTable s' = <[fd := fte_set_offset off e]> (fileTable s) /\
      updates (cache s) (cache s') F F Q n k i').
Proof.
  intros len Hf Hfd He Hk Hfile Hda Hb Hlen Hcan. pose proof (file_size_u64 _ _ _ Hfile) as Hsz.
  apply (writeToFile_by (fun d1 l1 i1 => written (ds (cache s)) l i d1 l1 i1 o buf) s F Q l n k i fd e); try done.
  - destruct Hcan as [[-> _]|?]; lia.
  - intros d1 l1 i1 Hwr i'. split; [exact Hwr|]. by destruct Hwr as (? & ? & _).
  - exact (writeBytes_writes (ds (cache s)) l (ic_set_mutex true i) (fte_offset e) buf o Hfile Hb Hlen Hcan).
Qed.

End file_access.
