(* ===== verification/AttrSpec.v ===== *)
(** Attributes by path: what [attrPopulate] reports, and what [changeMode] and
    [changeOwner] change. *)

From S2P Require Export FileAccess Namespace.

(** Both operands fit into 32 bits. *)
Lemma lor_u32 a b : is_u32 a -> is_u32 b -> is_u32 (Z.lor a b).
Proof.
  intros [Ha Ha'] [Hb Hb']. split; [by apply Z.lor_nonneg|].
  destruct (decide (Z.lor a b = 0)) as [->|]; [done|].
  apply Z.log2_lt_pow2; [pose proof (proj2 (Z.lor_nonneg a b) (conj Ha Hb)); lia|].
  rewrite Z.log2_lor by done. apply Z.max_lub_lt.
  - destruct (decide (a = 0)) as [->|]; [done|]. apply Z.log2_lt_pow2; lia.
  - destruct (decide (b = 0)) as [->|]; [done|]. apply Z.log2_lt_pow2; lia.
Qed.

Section attr.
Context `{BlockStore ok} `{shifts : !DefinedShifts}.
Local Abbreviation cache_ok := (cache_ok (ok := ok)).
Local Abbreviation tree_ok := (tree_ok (ok := ok)).
Local Abbreviation moves := (moves (ok := ok)).
Local Abbreviation updates := (updates (ok := ok)).

Context (N : nat) (Npos : (0 < N)%nat).

(** * Reading *)

Definition stat_of (d : iNode) : stat :=
  Stat (access d) (modification d) (status_change d) (file_mode d) (size d) (owner_uid d) (group_uid d).

Lemma attrPopulate_spec s F Q l path st r :
  cache_ok s F Q -> tree_ok s Q l -> (N <= length F)%nat -> few_refs s Q -> c_string path -> path <> [] ->
  walks s Q 0 (path_names path) r ->
  wp (attrPopulate path st) s (fun v s' =>
    (exists F' Q', moves s s' F' Q Q' (fun _ => 0) (fun _ => 0)) /\
    match r with
    | None => v = (- ENOENT, st)
    | Some n => exists d, inode_view s Q n d /\ v = (0, stat_of d)
    end).
Proof.
  intros Hc Ht HF Hfew Hp Hne Hw. unfold attrPopulate. apply wp_bind.
  eapply wp_mono; [by eapply (getFileINode_spec N Npos)|]. intros o s1. destruct r as [n|].
  - intros (w & F1 & Q1 & -> & Hm1 & Hh). pose proof Hh as (i & Hk & _ & _ & Hv & _).
    pose proof (si_ok _ _ _ _ _ _ (m_same _ _ _ _ _ _ _ Hm1)) as Hc1.
    destruct (c_hashed _ _ _ Hc1 _ _ _ Hk) as (Hn & _).
    apply wp_bind. eapply wp_Ret; [apply get_inode_Ret, Hk|]. cbv zeta.
    apply wp_bind. eapply wp_mono; [by eapply (iput_moves N)|].
    intros z s2 (_ & F2 & Hm2 & _). apply wp_ret. split.
    + exists F2, Q1. eapply moves_trans; [exact Hc|exact Hm1|exact Hm2|..]; intros m; cbv beta; [lia|].
      pose proof (one_nonneg n m). lia.
    + exists (getDiskINodeData i). split; [|done].
      by apply (si_view _ _ _ _ _ _ (m_same _ _ _ _ _ _ _ Hm1)).
  - intros (-> & F1 & Q1 & Hm1). apply wp_ret. split; [|done]. by exists F1, Q1.
Qed.

(** * Changing *)

(** A change of the inode that keeps it well-formed, linked and in its place,
    and marks it. *)
Record sound_change (f : inCoreiNode -> inCoreiNode) (g : iNode -> iNode) : Prop := {
  sc_data : forall i, getDiskINodeData (f i) = g (getDiskINodeData i);
  sc_place : forall i, reference_count (f i) = reference_count i /\ iNodeMutex (f i) = iNodeMutex i;
  sc_number : forall d, inode_number (g d) = inode_number d /\ device_number (g d) = device_number d /\
    linksCount (g d) = linksCount d;
  sc_wf : forall d, wf_iNode d -> wf_iNode (g d);
  sc_marks : forall i, inode_changed (f i) = true \/
    (inode_changed (f i) = inode_changed i /\ file_data_changed (f i) = file_data_changed i /\
     getDiskINodeData (f i) = getDiskINodeData i);
  sc_mutex : forall i b, f (ic_set_mutex b i) = ic_set_mutex b (f i)
}.

(** The step under the mutex. *)
Lemma change_node s F Q n k i f g :
  cache_ok s F Q -> caches s Q n k i -> 0 < reference_count i -> sound_change f g ->
  (inode_lock k ;;; with_inode k (fun i => ret (f i)) ;;; inode_unlock k) s =
    Ret tt (inode_set k (f i) s) /\
  updates s (inode_set k (f i) s) F F Q n k (f i).
Proof.
  intros Hc Hk Hpos Hf. pose proof Hk as (Hi & _ & En). pose proof (c_quiet _ _ _ Hc _ _ Hi) as Hq.
  destruct (sc_place _ _ Hf i) as [Hr Hm]. destruct (c_hashed _ _ _ Hc _ _ _ Hk) as (_ & Hdev & Hw & _).
  destruct (sc_number _ _ Hf (getDiskINodeData i)) as (E1 & E2 & _).
  split.
  - rewrite (bind_Ret _ _ _ _ _ (inode_lock_Ret _ _ _ Hi Hq)). fold (held_inode k i s).
    assert (inode_at (held_inode k i s) k = Some (ic_set_mutex true i)) as Hi1 by (by eapply inode_at_set_eq).
    erewrite bind_Ret; cycle 1.
    { unfold with_inode. rewrite (bind_Ret _ _ _ _ _ (get_inode_Ret _ _ _ Hi1)).
      erewrite bind_Ret; [apply put_inode_Ret|]. unfold on_disk, zoom, ret. reflexivity. }
    erewrite inode_unlock_Ret; cycle 1.
    { apply (inode_at_set_eq _ _ (ic_set_mutex true i)). exact Hi1. }
    f_equal. rewrite inode_set_set. change (set_ds _ ?x) with x.
    unfold held_inode. rewrite (sc_mutex _ _ Hf), mutex_mutex, mutex_same by (by rewrite Hm).
    transitivity (inode_set k (f i) (inode_set k (ic_set_mutex true i) s)); [done|]. apply inode_set_set.
  - change (inode_set k (f i) s) with (inode_set k (f i) (set_ds (ds s) s)) at 1.
    rewrite <- (sc_data _ _ Hf) in E1, E2.
    replace (set_ds (ds s) s) with s in * by (by destruct s).
    replace (inode_set k (f i) s) with (inode_set k (f i) (set_ds (ds s) s)) by (by destruct s).
    apply (client_updates s F Q n k i (f i) (ds s)); try done.
    + by rewrite Hm.
    + rewrite <- En. exact E1.
    + rewrite <- Hdev. exact E2.
    + rewrite (sc_data _ _ Hf). by apply (sc_wf _ _ Hf).
    + apply (sc_marks _ _ Hf).
    + apply (c_disk _ _ _ Hc).
    + apply (c_area _ _ _ Hc).
Qed.

Lemma seq3_Ret {B} (a b c : IM unit) (d : IM B) s s1 :
  (a ;;; b ;;; c) s = Ret tt s1 -> (a ;;; b ;;; c ;;; d) s = d s1.
Proof.
  unfold bind. destruct (a s) as [? sa| | |]; try done. destruct (b sa) as [? sb| | |]; try done.
  by intros ->.
Qed.

(** After a change of inode [n] alone. *)
Definition changed_only (s s' : istate) (F' : list nat) (Q Q' : Z -> list nat) (n : Z) (d : iNode) : Prop :=
  cache_ok s' F' Q' /\ inode_view s' Q' n d /\
  (forall m d', inode_num m -> m <> n -> inode_view s Q m d' -> inode_view s' Q' m d') /\
  (forall m c, refs s Q m c -> refs s' Q' m c) /\ kept 0 s s' Q Q' /\ changes inode_zone (ds s) (ds s').

(** An inode that is given back in the end is not deleted: it has links, or it
    is the root; and it can be changed under the eyes of the cache: a root
    without links only by its sole user, since [iget] reads it again. *)
Definition changeable (n : Z) (i : inCoreiNode) : Prop :=
  ic_linksCount i <> 0 \/ (n = 0 /\ reference_count i = 1).

(** The node is given back afterwards. *)
Lemma change_and_put s F Q n k i f g :
  cache_ok s F Q -> caches s Q n k i -> 0 < reference_count i -> inode_view s Q n (getDiskINodeData i) ->
  changeable n i -> sound_change f g ->
  wp (inode_lock k ;;; with_inode k (fun i => ret (f i)) ;;; inode_unlock k ;;; iput k ;;; ret 0) s
    (fun v s' => v = 0 /\ exists F',
      cache_ok s' F' Q /\ inode_view s' Q n (g (getDiskINodeData i)) /\
      (forall m d', inode_num m -> m <> n -> inode_view s Q m d' -> inode_view s' Q m d') /\
      (forall m c, refs s Q m c -> refs s' Q m (c + - one n m)) /\ kept (-1) s s' Q Q /\ changes inode_zone (ds s) (ds s')).
Proof.
  intros Hc Hk Hpos Hv Hl Hf.
  destruct (change_node s F Q n k i f g Hc Hk Hpos Hf) as [Hrun Hu].
  pose proof (updates_ok _ _ _ _ _ _ _ _ _ Hc Hk Hu) as Hc2.
  set (s2 := inode_set k (f i) s) in *.
  assert (caches s2 Q n k (f i)) as Hk2.
  { apply (updates_caches _ _ _ _ _ _ _ _ _ _ _ _ Hu Hk). by left. }
  assert (ic_linksCount (f i) = ic_linksCount i) as El.
  { change (linksCount (getDiskINodeData (f i)) = linksCount (getDiskINodeData i)).
    rewrite (sc_data _ _ Hf). by destruct (sc_number _ _ Hf (getDiskINodeData i)) as (_ & _ & ->). }
  destruct (sc_place _ _ Hf i) as [Hr _].
  unfold wp at 1. rewrite (seq3_Ret _ _ _ _ _ _ Hrun). apply wp_bind.
  eapply wp_mono; [apply (iput_gives_back s2 F Q n k (f i)); [done|done|by rewrite Hr|]|].
  - rewrite El, Hr. destruct Hl as [?|[-> Hr1]]; [by left|].
    destruct (decide (ic_linksCount i = 0)) as [Hl0|]; [right|by left]. split_and!; [done|done|].
    destruct (sc_marks _ _ Hf i) as [E|(_ & _ & E)]; [left; intros [E' _]; congruence|right].
    rewrite E. right. split.
    + intros j ij Hj. pose proof (c_uniq _ _ _ Hc2 _ _ _ _ _ Hk2 Hj) as <-.
      destruct Hj as [E1 _], Hk2 as [E2 _]. rewrite E1 in E2. injection E2 as ->. by rewrite El.
    + destruct Hv as [(j & ij & Hj & Hlj & Ev)|[_ Hv]]; [|exact Hv].
      pose proof (c_uniq _ _ _ Hc _ _ _ _ _ Hk Hj) as <-. destruct Hk as [E1 _], Hj as [E2 _]. congruence.
  - intros z s3 (_ & Hch3 & Hst3 & F3 & Hc3 & Hv3 & Ho3 & Hr3 & _). apply wp_ret. split; [done|]. exists F3.
    split; [|split; [|split; [|split; [|split]]]].
    + done.
    + by rewrite <- (sc_data _ _ Hf).
    + intros m d' Hm Hmn Hd'. apply Ho3; [done|done|].
      exact (updates_view_other s s2 F F Q n k (f i) i m d' Hc Hk Hu Hm Hmn Hd').
    + intros m c Hm. apply Hr3. exact (updates_refs_same s s2 F F Q n k (f i) i m c Hc Hk Hu Hr Hm).
    + eapply kept_then; [exact Hc2|eapply updates_kept; [exact Hk|exact Hu|by rewrite El]|exact Hst3].
    + change (ds s2) with (ds s) in Hch3. eapply changes_mono; [|exact Hch3]. intros b.
      apply inode_block_zone, (c_hashed _ _ _ Hc _ _ _ Hk).
Qed.

Lemma change_at_spec s F Q l path f g r :
  cache_ok s F Q -> tree_ok s Q l -> (N <= length F)%nat -> few_refs s Q -> c_string path -> path <> [] ->
  walks s Q 0 (path_names path) r -> sound_change f g ->
  (forall n d, r = Some n -> inode_view s Q n d -> linksCount d <> 0 \/ (n = 0 /\ refs s Q 0 0)) ->
  wp (change_at path f) s (fun v s' => exists F' Q',
    match r with
    | None => v = - ENOENT /\ moves s s' F' Q Q' (fun _ => 0) (fun _ => 0)
    | Some n => exists d, inode_view s Q n d /\ v = 0 /\ changed_only s s' F' Q Q' n (g d)
    end).
Proof.
  intros Hc Ht HF Hfew Hp Hne Hw Hf Hl. unfold change_at. apply wp_bind.
  eapply wp_mono; [by eapply (getFileINode_spec N Npos)|]. intros o s1. destruct r as [n|].
  - intros (w & F1 & Q1 & -> & Hm1 & Hh). pose proof Hh as (i & Hk & Hpos & _ & Hv1 & _).
    pose proof (m_same _ _ _ _ _ _ _ Hm1) as [Hc1 V1 R1].
    destruct (c_hashed _ _ _ Hc1 _ _ _ Hk) as (Hn & _). pose proof (proj1 (V1 _ _ Hn) Hv1) as Hv.
    assert (changeable n i) as Hch.
    { destruct (Hl n _ eq_refl Hv) as [?|[-> Hr0]]; [by left|right]. split; [done|].
      apply (refs_cached _ _ _ _ _ _ _ Hc1 Hk). apply R1 in Hr0. exact Hr0. }
    eapply wp_mono; [by apply (change_and_put s1 F1 Q1 n w i f g)|].
    intros v s2 (-> & F2 & Hc2 & Hvn & Hvo & Hr2 & Hkept & Hch2). exists F2, Q1, (getDiskINodeData i).
    split; [done|]. split; [done|]. split; [done|]. split; [done|]. split; [|split; [|split]].
    + intros m d' Hm Hmn Hd'. apply Hvo; [done|done|]. by apply V1.
    + intros m c Hcm. replace c with (c + one n m + - one n m) by lia. by apply Hr2, R1.
    + eapply kept_then; [exact Hc1|by eapply moves_kept|done].
    + eapply changes_trans; [| |apply (m_disk _ _ _ _ _ _ _ Hm1)|exact Hch2]; done.
  - intros (-> & F1 & Q1 & Hm1). apply wp_ret. by exists F1, Q1.
Qed.

(** * [changeMode] and [changeOwner] *)

Definition d_set_mode (m : Z) (d : iNode) : iNode :=
  INode (device_number d) (inode_number d) (access d) (modification d) (status_change d) (linksCount d)
    (type d) m (owner_uid d) (group_uid d) (dataBlockNums d) (size d).
Definition d_set_owner (u g : Z) (d : iNode) : iNode :=
  INode (device_number d) (inode_number d) (access d) (modification d) (status_change d) (linksCount d)
    (type d) (file_mode d) u g (dataBlockNums d) (size d).

Definition new_mode (mode : Z) (d : iNode) : iNode :=
  d_set_mode (if decide (type d = T_DIRECTORY) then Z.lor S_IFDIR mode else mode) d.

(** -1 leaves an owner as it is. *)
Definition new_owner (uid gid : Z) (d : iNode) : iNode :=
  d_set_owner (if decide (uid = NO_ID) then owner_uid d else uid)
    (if decide (gid = NO_ID) then group_uid d else gid) d.

Lemma changeMode_sound mode :
  is_u32 mode ->
  sound_change (fun i => ic_set_changed true
    (ic_set_mode (if decide (ic_type i = T_DIRECTORY) then Z.lor S_IFDIR mode else mode) i)) (new_mode mode).
Proof.
  intros Hm. split; try done; [|by left].
  intros d (?&?&?&?&?&?&?&_&?&?&?&?). unfold wf_iNode, new_mode. cbn.
  split_and!; try tauto. destruct (decide _); [|done]. by apply lor_u32.
Qed.

Lemma changeOwner_sound uid gid :
  is_u32 uid -> is_u32 gid ->
  sound_change (fun i =>
    if negb (uid =? NO_ID) then
      let i := ic_set_owner uid i in
      let i := if negb (gid =? NO_ID) then ic_set_group gid i else i in
      ic_set_changed true i
    else if negb (gid =? NO_ID) then ic_set_changed true (ic_set_group gid i)
    else i) (new_owner uid gid).
Proof.
  intros Hu Hg. unfold new_owner.
  destruct (decide (uid = NO_ID)) as [->|E%Z.eqb_neq], (decide (gid = NO_ID)) as [->|E'%Z.eqb_neq];
    rewrite ?Z.eqb_refl, ?E, ?E'; cbn [negb];
    (split; try done; try (by intros []); try (by left); try (by right);
     intros d (?&?&?&?&?&?&?&?&?&?&?&?); unfold wf_iNode; cbn; tauto).
Qed.

(** * The number of links *)

(** The inode with [v] links, marked. *)
Definition relinked (v : Z) (i : inCoreiNode) : inCoreiNode := ic_set_changed true (ic_set_links v i).

Lemma set_links_Ret s k i (L : inCoreiNode -> Z) :
  inode_at s k = Some i -> is_u64 (ic_size i) ->
  with_inode k (fun i => updateINodeMetadata i 0 (L i)) s = Ret tt (inode_set k (relinked (L i) i) s).
Proof.
  intros Hi Hsz. unfold with_inode. rewrite (bind_Ret _ _ _ _ _ (get_inode_Ret _ _ _ Hi)).
  erewrite bind_Ret; cycle 1.
  { unfold on_disk, zoom, updateINodeMetadata. rewrite Z.add_0_r, u64_id by done.
    change (negb (0 =? 0)) with false. cbn iota. rewrite bind_ret. reflexivity. }
  rewrite put_inode_Ret. unfold relinked. destruct i, s. reflexivity.
Qed.

Lemma set_links_updates s F Q n k i v :
  cache_ok s F Q -> caches s Q n k i -> 0 < reference_count i -> is_u64 v ->
  updates s (inode_set k (relinked v i) s) F F Q n k (relinked v i).
Proof.
  intros Hc Hk Hpos Hu. pose proof Hk as (Hi & _ & En).
  destruct (c_hashed _ _ _ Hc _ _ _ Hk) as (_ & Hdev & (?&?&?&?&?&?&?&?&?&?&?&?) & _).
  replace (inode_set k (relinked v i) s) with (inode_set k (relinked v i) (set_ds (ds s) s)) by (by destruct s).
  apply (client_updates s F Q n k i (relinked v i) (ds s)); try done.
  - exact (c_quiet _ _ _ Hc _ _ Hi).
  - by left.
  - exact (c_disk _ _ _ Hc).
  - exact (c_area _ _ _ Hc).
Qed.

(** Under the mutex. *)
Lemma locked_links_Ret s k i (L : inCoreiNode -> Z) :
  inode_at s k = Some i -> iNodeMutex i = false -> is_u64 (ic_size i) ->
  (forall b j, L (ic_set_mutex b j) = L j) ->
  (inode_lock k ;;; with_inode k (fun i => updateINodeMetadata i 0 (L i)) ;;; inode_unlock k) s =
    Ret tt (inode_set k (relinked (L i) i) s).
Proof.
  intros Hi Hm Hsz HL. rewrite (bind_Ret _ _ _ _ _ (inode_lock_Ret _ _ _ Hi Hm)).
  fold (held_inode k i s).
  assert (inode_at (held_inode k i s) k = Some (ic_set_mutex true i)) as Hi1 by (by eapply inode_at_set_eq).
  rewrite (bind_Ret _ _ _ _ _ (set_links_Ret _ _ _ L Hi1 Hsz)). rewrite HL.
  erewrite inode_unlock_Ret by (by apply (inode_at_set_eq _ _ (ic_set_mutex true i))).
  unfold held_inode. rewrite !inode_set_set. f_equal. f_equal. destruct i. cbn in Hm. by subst.
Qed.

End attr.
