(* ===== verification/DirListing.v ===== *)
(** Listing a directory: [fillDirectoryEntries] and [readDirectory] of
    [src/interface/read.c] hand every name to FUSE, each once and in order. *)

From S2P Require Export AttrSpec.

(** What is put into the cleared entry of a buffer. *)
Definition collected (e : list Z * Z) : directoryEntry := DirectoryEntry (fst e) (low_bytes 0 (snd e)).

Lemma collect_block_spec `{Host} b off es pre k c (s : dstate) :
  (forall m e, es !! m = Some e ->
     e = (bytes_at b (off + 64 * m) 62, le_dec (bytes_at b (off + 64 * m + 62) 2))) ->
  collect_block b off (pre ++ replicate (length es + k) zero_entry) (length pre) (length es) c s =
    Ret (c + Z.of_nat (length es), pre ++ (collected <$> es) ++ replicate k zero_entry) s.
Proof.
  revert off pre c. induction es as [|e es IH]; intros off pre c Hes; cbn [collect_block length Nat.add replicate].
  { unfold ret. f_equal. f_equal. lia. }
  pose proof (Hes 0%nat e eq_refl) as He. rewrite Nat.mul_0_r, Nat.add_0_r in He.
  unfold put_entry. rewrite (list_lookup_middle _ _ _ _ eq_refl), bind_ret. rewrite insert_app_r_alt, Nat.sub_diag by lia.
  cbn [insert list_insert]. replace (read_entry b off zero_entry) with (collected e) by (rewrite He; done).
  change (collected e :: ?x) with ([collected e] ++ x). rewrite app_assoc.
  replace (Datatypes.S (length pre)) with (length (pre ++ [collected e])) by (rewrite length_app; cbn; lia).
  rewrite IH.
  - f_equal. f_equal; [lia|]. by rewrite <- app_assoc.
  - intros m e' Hm. rewrite (Hes (Datatypes.S m) e' Hm).
    by replace (off + 64 + 64 * m)%nat with (off + 64 * Datatypes.S m)%nat by lia.
Qed.

Section listing.
Context `{BlockStore ok} `{shifts : !DefinedShifts}.
Local Abbreviation dir_ok := (dir_ok (ok := ok)).
Local Abbreviation file_ok := (file_ok (ok := ok)).

(** The entries of the block with number [j]. *)
Definition block_list (s : dstate) (i : inCoreiNode) (j : nat) : list (list Z * Z) :=
  take 16 (drop (16 * j) (dir_list s i)).

Lemma length_block_list s i j : (length (block_list s i j) <= 16)%nat.
Proof. unfold block_list. rewrite length_take. lia. Qed.

(** A cleared buffer with the entries in front. *)
Definition listed (es : list (list Z * Z)) : list directoryEntry :=
  (collected <$> es) ++ replicate (16 - length es) zero_entry.

Lemma checkInBlock_collects s l i j ra :
  dir_ok s l i -> 1024 * Z.of_nat j < ic_size i ->
  checkInBlock (u64 (ic_size i - 1024 * Z.of_nat j))
    (BmapResponse (file_block (addrs s) (ic_dataBlockNums i) (Z.of_nat j)) 0 1024 ra) None
    (replicate 16 zero_entry) 0 None s =
  Ret (Z.of_nat (length (block_list s i j)), listed (block_list s i j)) s.
Proof.
  intros Hd Hin. pose proof (block_entries s l i (Z.of_nat j) Hd ltac:(lia) Hin) as Hblock. cbv zeta in Hblock.
  rewrite Nat2Z.id in Hblock. fold (block_list s i j) in Hblock. set (es := block_list s i j) in *.
  destruct Hblock as (raw & Hv & Hraw & Hlen & Hn & Hes).
  pose proof Hd as (Hf & _). pose proof (file_size_u64 _ _ _ Hf) as Hsz. pose proof Hf as (Hok & _).
  rewrite u64_id by (unfold is_u64; lia).
  unfold checkInBlock. cbn [blockNumber bytesLeftInBlock byteOffsetInBlock].
  rewrite (bind_Ret _ _ _ _ _ (getDiskBlock_view _ _ raw s Hok junk_block_wf Hv)). cbn beta iota.
  unfold searchBlockDirectoryEntries. change (Z.to_nat 0) with 0%nat.
  change (1024 / DIRECTORY_ENTRY_SIZE) with 16. change DIRECTORY_ENTRY_SIZE with 64.
  change (Z.to_nat (if ic_size i - 1024 * Z.of_nat j <? 1024 then _ else 16)) with (in_block i (Z.of_nat j)).
  rewrite <- Hlen in *. replace 16%nat with (length es + (16 - length es))%nat at 1 by lia.
  rewrite bind_assoc. erewrite bind_Ret; [|apply (collect_block_spec raw 0 es [] (16 - length es) 0); intros m e Hm; by apply Hes].
  done.
Qed.

(** The search without a name from the entry [16 * j] on. *)
Lemma search_collects s l i j :
  dir_ok s l i -> 1024 * Z.of_nat j < ic_size i ->
  searchINodeDirectoryEntries i None (16 * Z.of_nat j) (replicate 16 zero_entry) 16 false s =
    Ret (Z.of_nat (length (block_list s i j)), listed (block_list s i j)) s.
Proof.
  intros Hd Hin. pose proof Hd as (Hf & Hdir & _). pose proof (file_size_u64 _ _ _ Hf) as Hsz.
  pose proof (dir_count _ _ _ Hd) as [Hcnt Hsz64]. pose proof (length_block_list s i j) as Hle.
  unfold searchINodeDirectoryEntries. rewrite (validateSearch_dir _ Hdir). change (0 =? -1) with false. cbn iota.
  rewrite bind_ret. change DIRECTORY_ENTRY_SIZE with 64. rewrite u64_id by (unfold is_u64; lia).
  assert (forall resp, bmap i (1024 * Z.of_nat j) resp READ_MODE s = Ret (0, i, BmapResponse
    (file_block (addrs s) (ic_dataBlockNums i) (Z.of_nat j)) 0 1024 (readAheadBlockNum resp)) s) as Hbmap.
  { intros resp. destruct (wp_inv _ _ _ (bmap_in_file s l i (1024 * Z.of_nat j) resp READ_MODE
      (fun r s' => s' = s /\ r = (0, i, BmapResponse (file_block (addrs s) (ic_dataBlockNums i) (Z.of_nat j)) 0 1024
         (readAheadBlockNum resp))) Hf ltac:(lia)
      ltac:(rewrite Z.mul_comm, Z.div_mul, Z.mod_mul by lia; done))) as (r & s' & Hrun & -> & ->). exact Hrun. }
  replace (16 * Z.of_nat j * 64) with (1024 * Z.of_nat j) by lia.
  assert (0 < length (block_list s i j))%nat as Hpos.
  { unfold block_list. rewrite length_take, length_drop, Hcnt. lia. }
  cbn [while_do]. change (bool_decide (None <> None)) with false. cbn [orb sr_read].
  change (0 <? 16) with true. cbn iota. unfold search_body at 1. rewrite !bind_assoc.
  rewrite (bind_Ret _ _ _ _ _ (Hbmap _)). cbn beta iota zeta. change (0 =? -1) with false. cbn iota.
  change (Z.to_nat 0) with 0%nat. rewrite !bind_assoc.
  rewrite (bind_Ret _ _ _ _ _ (checkInBlock_collects s l i j _ Hd Hin)). cbn beta iota zeta.
  change (bool_decide (None <> None)) with false. cbn [andb]. cbn iota. rewrite bind_ret.
  rewrite Z.add_0_l, (u64_id (Z.of_nat (length (block_list s i j)))) by (unfold is_u64; lia). cbn [sr_read].
  change (DIRECTORY_ENTRIES_IN_BLOCK * DIRECTORY_ENTRY_SIZE) with 1024.
  rewrite (u64_id (1024 * Z.of_nat j + 1024)) by (unfold is_u64; lia).
  destruct (Z.ltb_spec (Z.of_nat (length (block_list s i j))) 16) as [Hlt|Hge].
  - assert (ic_size i <= 1024 * Z.of_nat j + 1024) as Hend.
    { unfold block_list in Hlt. rewrite length_take, length_drop, Hcnt in Hlt. lia. }
    unfold search_body at 1. rewrite !bind_assoc. erewrite bind_Ret.
    2: { apply bmap_beyond. destruct (Z.eq_dec (ic_size i) (1024 * Z.of_nat j + 1024)); [right; done|left; lia]. }
    cbn beta iota zeta. change (-1 =? -1) with true. cbn iota. rewrite !bind_ret. cbn [sr_read sr_buf].
    by rewrite i32_id by lia.
  - rewrite bind_ret. cbn [sr_read sr_buf]. by rewrite i32_id by lia.
Qed.

(** The part of the list in front of a block. *)
Lemma take_blocks s i j :
  take (16 * j + length (block_list s i j)) (dir_list s i) = take (16 * j) (dir_list s i) ++ block_list s i j.
Proof.
  unfold block_list. rewrite <- take_take_drop. f_equal.
  rewrite length_take. destruct (Nat.min_spec 16 (length (drop (16 * j) (dir_list s i)))) as [[_ ->]|[Hle ->]]; [done|].
  by rewrite !take_ge by lia.
Qed.

Lemma fill_step s l i j names :
  dir_ok s l i -> (16 * j < length (dir_list s i))%nat -> names = fst <$> take (16 * j) (dir_list s i) ->
  let m := (16 * j + length (block_list s i j))%nat in
  fill_body i (Z.of_nat (16 * j), names) s = Ret (Next (Z.of_nat m, fst <$> take m (dir_list s i))) s.
Proof.
  intros Hd Hj -> m. pose proof Hd as (Hf & _). pose proof (file_size_u64 _ _ _ Hf) as Hsz.
  pose proof (dir_count _ _ _ Hd) as [Hcnt Hsz64]. pose proof (length_block_list s i j) as Hle.
  unfold fill_body. change (BLOCK_SIZE / DIRECTORY_ENTRY_SIZE) with 16. change (Z.to_nat 16) with 16%nat.
  rewrite Nat2Z.inj_mul. change (Z.of_nat 16) with 16.
  rewrite (bind_Ret _ _ _ _ _ (search_collects s l i j Hd ltac:(lia))). cbn beta iota zeta.
  rewrite (u64_id (Z.of_nat _)) by (unfold is_u64; lia). rewrite (proj2 (Z.ltb_ge _ _)) by lia.
  rewrite u64_id by (unfold is_u64; lia). rewrite Nat2Z.id. unfold ret, listed. do 2 f_equal. f_equal.
  - unfold m. lia.
  - rewrite take_app_length', <- list_fmap_compose by (by rewrite length_fmap). unfold m. by rewrite take_blocks, fmap_app.
Qed.

Lemma fillDirectoryEntries_spec s l i :
  dir_ok s l i -> fillDirectoryEntries i s = Ret (fst <$> dir_list s i) s.
Proof.
  intros Hd. pose proof Hd as (Hf & _). pose proof (file_size_u64 _ _ _ Hf) as Hsz.
  pose proof (dir_count _ _ _ Hd) as [Hcnt Hsz64]. set (total := length (dir_list s i)) in *.
  unfold fillDirectoryEntries. change DIRECTORY_ENTRY_SIZE with 64.
  replace (ic_size i / 64) with (Z.of_nat total) in * by lia.
  assert (wp (while_do (S (Z.to_nat (Z.of_nat total))) (fun st => fst st <? Z.of_nat total) (fill_body i) (0, [])) s
    (fun st s' => s' = s /\ snd st = fst <$> dir_list s i)) as Hw.
  { apply (wp_while (fun st s' => s' = s /\ exists m j, fst st = Z.of_nat m /\ snd st = fst <$> take m (dir_list s i) /\
        ((m < total)%nat -> m = (16 * j)%nat)) (fun st => Z.to_nat (Z.of_nat total - fst st))).
    - intros [off names] s'. cbn [fst snd]. intros (-> & m & j & -> & -> & Hm) Hlt%Z.ltb_lt.
      rewrite (Hm ltac:(lia)) in *. eapply wp_Ret; [eapply (fill_step s l i j); done || (fold total; lia)|]. cbn beta iota.
      assert (length (block_list s i j) = Nat.min 16 (total - 16 * j)) as Hl.
      { unfold block_list. by rewrite length_take, length_drop. }
      split; [split; [done|]; do 2 eexists; split; [done|]; split; [done|]|cbn [fst]; lia].
      intros Ht. instantiate (1 := S j). lia.
    - intros [off names] s'. cbn [fst snd]. intros (-> & m & j & -> & -> & _) Hge%Z.ltb_ge. split; [done|].
      by rewrite take_ge by (fold total; lia).
    - split; [done|]. by exists 0%nat, 0%nat.
    - cbn [fst]. lia. }
  destruct (wp_inv _ _ _ Hw) as ([off names] & s' & Hrun & -> & E). cbn [snd] in E. subst names.
  by rewrite (bind_Ret _ _ _ _ _ Hrun).
Qed.

(** * By path *)

Context (N : nat) (Npos : (0 < N)%nat).
Local Abbreviation cache_ok := (cache_ok (ok := ok)).
Local Abbreviation tree_ok := (tree_ok (ok := ok)).
Local Abbreviation moves := (moves (ok := ok)).

Lemma readDirectory_spec s F Q l path r :
  cache_ok (cache s) F Q -> tree_ok (cache s) Q l -> (N <= length F)%nat -> few_refs (cache s) Q ->
  c_string path -> path <> [] -> walks (cache s) Q 0 (path_names path) r ->
  (forall n, r = Some n -> exists es, entries_in (cache s) Q n es) ->
  wp (readDirectory path) s (fun v s' =>
    fileTable s' = fileTable s /\ (exists F' Q', moves (cache s) (cache s') F' Q Q' (fun _ => 0) (fun _ => 0)) /\
    match r with
    | None => v = (-1, [])
    | Some n => exists es, entries_in (cache s) Q n es /\ v = (0, fst <$> es)
    end).
Proof.
  intros Hc Ht HF Hfew Hp Hne Hw Hdir. unfold readDirectory. apply wp_bind, wp_on_cache.
  eapply wp_mono; [by eapply (getFileINode_spec N Npos)|]. intros o s1. destruct r as [n|].
  - intros (w & F1 & Q1 & -> & Hm1 & Hh). pose proof Hh as (i & Hk & _ & _ & Hv & _).
    pose proof (m_same _ _ _ _ _ _ _ Hm1) as [Hc1 V1 _].
    destruct (c_hashed _ _ _ Hc1 _ _ _ Hk) as (Hn & _). destruct (Hdir n eq_refl) as (es & He).
    pose proof (entries_in_moves _ _ _ _ _ _ _ _ _ _ Hm1 Ht Hn He) as (d & Hd & Hdd & Ees).
    rewrite (inode_view_unique _ _ _ _ _ _ Hc1 Hd Hv) in Hdd, Ees.
    destruct (tree_ok_moves _ _ _ _ _ _ _ _ Hm1 Ht n _ Hn Hv Hdd) as (Hdok & _).
    destruct (dir_ok_data (ok := ok) (ds s1) l (dir_of (getDiskINodeData i)) i) as (Hd' & Hl & _); [done|].
    apply wp_bind, wp_on_cache. cbn [cache set_cache].
    eapply wp_Ret; [apply (look_inode_Ret s1 w i); [apply Hk|by apply (fillDirectoryEntries_spec (ds s1) l), Hd']|].
    apply wp_bind, wp_on_cache. cbn [cache set_cache]. eapply wp_mono; [by eapply (iput_moves N)|].
    intros z s2 (_ & F2 & Hm2 & _). apply wp_ret. cbn [cache fileTable set_cache]. split; [done|]. split.
    + exists F2, Q1. eapply moves_trans; [exact Hc|exact Hm1|exact Hm2|..]; intros m; cbv beta; [lia|].
      pose proof (one_nonneg n m). lia.
    + exists es. split; [done|]. by rewrite Ees, Hl.
  - intros (-> & F1 & Q1 & Hm1). apply wp_ret. split_and!; [done| |done]. by exists F1, Q1.
Qed.

End listing.
