(* ===== verification/TreeInv.v ===== *)
(** The invariant of the whole file system: every inode owns its blocks, no two
    inodes share one, and none is free. It survives the growth, the shrinking and
    the creation of files, and then the contents of all the other files are the
    same. *)

From S2P Require Export AttrSpec.

(** * Names along a path that has one name more *)

Lemma component_app a b : last a = Some slash -> component (a ++ b) = component a.
Proof.
  induction a as [|x a IH]; [done|]. intros Hl. cbn [component app]. destruct (x =? slash) eqn:E; [done|].
  f_equal. apply IH. destruct a; [|exact Hl]. cbn in Hl. injection Hl as ->. done.
Qed.

Lemma component_lt a : last a = Some slash -> (component a < length a)%nat.
Proof.
  induction a as [|x a IH]; [done|]. intros Hl. cbn. destruct (x =? slash) eqn:E; [lia|].
  destruct a; [cbn in Hl; by injection Hl as ->|]. specialize (IH Hl). cbn [length] in *. lia.
Qed.

Lemma component_all a : slash ∉ a -> component a = length a.
Proof.
  induction a as [|x a IH]; [done|]. rewrite not_elem_of_cons. intros [Hx Ha]. cbn.
  rewrite (proj2 (Z.eqb_neq x slash)) by congruence. by rewrite IH.
Qed.

Lemma split_names_fuel f f' l :
  (length l <= f)%nat -> (length l <= f')%nat -> split_names f l = split_names f' l.
Proof.
  revert f' l. induction f as [|f IH]; intros [|f'] [|x l] Hf Hf'; cbn in Hf, Hf'; try done; try lia.
  cbn [split_names]. f_equal. apply IH; rewrite length_drop; cbn; lia.
Qed.

Lemma split_names_app d file f :
  d = [] \/ last d = Some slash -> slash ∉ file -> file <> [] -> (length (d ++ file) <= f)%nat ->
  split_names f (d ++ file) = split_names (length d) d ++ [file].
Proof.
  intros Hd Hfile Hne. revert d Hd. induction f as [|f IH]; intros d Hd Hlen.
  { destruct d, file; cbn in Hlen; try lia. done. }
  destruct d as [|x d].
  - cbn [app]. destruct file as [|y file]; [done|]. cbn [split_names]. rewrite component_all by done.
    rewrite take_ge by done. rewrite drop_ge by (cbn; lia). by destruct f.
  - destruct Hd as [|Hd]; [done|]. pose proof (component_lt _ Hd) as Hlt.
    change ((x :: d) ++ file) with (x :: (d ++ file)) at 1. cbn [split_names].
    change (x :: (d ++ file)) with ((x :: d) ++ file). rewrite component_app by done.
    set (c := component (x :: d)) in *. rewrite take_app_le by lia. rewrite drop_app_le by lia.
    rewrite IH.
    + cbn [split_names length]. fold c. rewrite <- app_comm_cons. f_equal. f_equal.
      rewrite length_app in Hlen. cbn in Hlen. apply split_names_fuel; rewrite length_drop; cbn; lia.
    + destruct (decide (length (drop (S c) (x :: d)) = 0)%nat) as [E|E]; [left; by apply nil_length_inv|right].
      rewrite length_drop in E. rewrite last_lookup, lookup_drop, length_drop.
      rewrite last_lookup in Hd. rewrite <- Hd. f_equal. lia.
    + rewrite length_app, length_drop in *. cbn in *. lia.
Qed.

Lemma path_names_app dir file :
  last dir = Some slash -> slash ∉ file -> file <> [] ->
  path_names (dir ++ file) = path_names dir ++ [file].
Proof.
  intros Hd Hf Hne. destruct dir as [|x d]; [done|]. unfold path_names.
  change (drop 1 ((x :: d) ++ file)) with (d ++ file). change (drop 1 (x :: d)) with d.
  rewrite split_names_app; [| |done|done|cbn [length app]; lia].
  - rewrite filter_app, filter_cons_True, filter_nil by done. f_equal.
    f_equal. apply split_names_fuel; cbn; lia.
  - destruct d; [by left|right; exact Hd].
Qed.

Section tree_inv.
Context `{BlockStore ok} `{shifts : !DefinedShifts}.
Local Abbreviation cache_ok := (cache_ok (ok := ok)).
Local Abbreviation tree_ok := (tree_ok (ok := ok)).
Local Abbreviation moves := (moves (ok := ok)).
Local Abbreviation file_ok := (file_ok (ok := ok)).
Local Abbreviation dir_ok := (dir_ok (ok := ok)).

(** * One file *)

(** The blocks of a file and the free blocks after some blocks went from one to
    the other; only these, the head of the free list and the inode table may
    have been written. *)
Definition rearranged (s : dstate) (l : list Z) (i : inCoreiNode) (s' : dstate) (l' : list Z)
    (i' : inCoreiNode) : Prop :=
  blocks_of s' i' ++ l' ≡ₚ blocks_of s i ++ l /\
  changes (fun b => meta_zone b \/ b = FREE_LIST_BLOCK \/ b ∈ blocks_of s i ++ l) s s'.

Lemma rearranged_trans s l i s1 l1 i1 s2 l2 i2 :
  rearranged s l i s1 l1 i1 -> rearranged s1 l1 i1 s2 l2 i2 -> rearranged s l i s2 l2 i2.
Proof.
  intros [B1 C1] [B2 C2]. split; [by rewrite B2|]. eapply changes_trans; [|intros b Hb; exact Hb|exact C1|].
  - done.
  - eapply changes_mono; [|exact C2]. cbv beta. intros b. rewrite B1. naive_solver.
Qed.

Lemma gained_rearranged s l i s' l' i' : gained s l i s' l' i' -> rearranged s l i s' l' i'.
Proof.
  intros (al & -> & Hb & Hch). split.
  - by rewrite Hb, app_assoc.
  - eapply changes_mono; [|exact Hch]. intros b. cbv beta. rewrite !elem_of_app. tauto.
Qed.

(** The inode table alone. *)
Lemma meta_rearranged s l i s' :
  changes meta_zone s s' -> blocks_of s' i = blocks_of s i -> rearranged s l i s' l i.
Proof.
  intros Hch Hb. split; [by rewrite Hb|]. eapply changes_mono; [|exact Hch]. tauto.
Qed.

Lemma rearranged_area s l i s' l' i' :
  rearranged s l i s' l' i' -> Forall data_area (l ++ blocks_of s i) ->
  Forall data_area (l' ++ blocks_of s' i').
Proof.
  intros [Hb _] Hda. by rewrite Permutation_app_comm, Hb, Permutation_app_comm.
Qed.

(** Another file meanwhile. *)
Lemma bystander s l p s' l' p' i :
  rearranged s l p s' l' p' -> file_ok s' l' p' -> file_ok s l i -> Forall data_area (l ++ blocks_of s i) ->
  (forall b, b ∈ blocks_of s i -> b ∉ blocks_of s p) ->
  file_ok s' l' i /\ blocks_of s' i = blocks_of s i /\
  file_data s' (ic_dataBlockNums i) (ic_size i) = file_data s (ic_dataBlockNums i) (ic_size i) /\
  (forall b, b ∈ blocks_of s' i -> b ∉ blocks_of s' p').
Proof.
  intros [Hperm Hch] Hp Hi Hda Hap. apply Forall_app in Hda as [_ Hda]. rewrite Forall_forall in Hda.
  pose proof Hi as (_ & _ & _ & Hnd & _ & Hnf & _). fold (blocks_of s i) in *.
  apply NoDup_app in Hnd as (Hnd & Hdis & _).
  assert (forall b, b ∈ blocks_of s' p' ++ l' -> b ∈ blocks_of s p ++ l) as Hb by (intros b; by rewrite Hperm).
  pose proof Hp as (Hok' & _ & Hl' & _ & _ & _ & Hu' & _). pose proof Hl' as (bl & _ & _ & Hnd' & _).
  assert (forall b, b ∈ blocks_of s i -> b ∉ blocks_of s p ++ l) as Haway.
  { intros b Hin. rewrite elem_of_app. intros [Hp'|Hp']; [by eapply Hap|by eapply Hdis]. }
  destruct (file_kept s s' l l' i _ Hi Hok' Hch) as (Hf & Hbl & Hdata); [|done| |done|].
  - intros b Hin [Hz|[->|Hz]]; [|done|by eapply Haway].
    apply Hda in Hin. unfold data_area, meta_zone in *. lia.
  - apply NoDup_app. split_and!; [done| |done]. intros b Hin Hin'. apply (Haway b Hin), Hb.
    apply elem_of_app. by right.
  - split_and!; [done|done|done|]. rewrite Hbl. intros b Hin Hin'. apply (Haway b Hin), Hb.
    apply elem_of_app. by left.
Qed.

(** A file without bytes has no blocks. *)
Lemma empty_blocks s i : ic_size i = 0 -> blocks_of s i = [].
Proof.
  intros Hz. unfold blocks_of. rewrite Hz. change (nblocks 0) with 0. unfold file_blocks.
  by rewrite !level_tree_nil by done.
Qed.

Lemma empty_file_ok s l i :
  ok s -> AllocMutex ∉ held s -> free_list s l -> Forall is_u64 l ->
  length (ic_dataBlockNums i) = 13%nat -> Forall is_u64 (ic_dataBlockNums i) -> ic_size i = 0 ->
  file_ok s l i.
Proof.
  intros Hok Hh Hfl Hl Hn Hu Hz. unfold FileBlocks.file_ok.
  change (file_blocks _ _ _) with (blocks_of s i). rewrite (empty_blocks _ _ Hz), Hz.
  pose proof Hfl as (b & _ & _ & Hnd & _). split_and!; try done; try apply not_elem_of_nil; constructor.
Qed.

Lemma inode_view_wf s F Q n d :
  cache_ok s F Q -> inode_num n -> inode_view s Q n d -> wf_iNode d.
Proof.
  intros Hc Hn [(k & i & Hk & _ & ->)|[_ Hd]]; [by apply (c_hashed _ _ _ Hc _ _ _ Hk)|].
  eapply (disk_inode_wf (ok := ok)); [apply (c_disk _ _ _ Hc)|exact Hd|]. unfold inode_num in Hn. lia.
Qed.

(** * All files *)

(** What the inodes read as; a client that holds an inode may have newer
    contents in mind than the cache shows. *)
Record view_ok (V : Z -> iNode -> Prop) : Prop := {
  v_unique : forall n d e, inode_num n -> V n d -> V n e -> d = e;
  v_wf : forall n d, inode_num n -> V n d -> wf_iNode d;
  v_total : forall n, inode_num n -> exists d, V n d
}.

Lemma cache_view_ok s F Q : cache_ok s F Q -> view_ok (inode_view s Q).
Proof.
  intros Hc. split.
  - intros n d e _. by apply (inode_view_unique _ _ _ _ _ _ Hc).
  - intros n d. by apply (inode_view_wf _ _ _ _ _ Hc).
  - intros n. by apply (inode_view_total _ _ _ _ Hc).
Qed.

(** The view of a client that holds inode [p] with the data [dp]. *)
Definition with_view (p : Z) (dp : iNode) (V : Z -> iNode -> Prop) (n : Z) (d : iNode) : Prop :=
  if decide (n = p) then d = dp else V n d.

Lemma with_view_ok p dp V : view_ok V -> wf_iNode dp -> view_ok (with_view p dp V).
Proof.
  unfold with_view. intros [Hu Hw Ht] Hdp. split; intros n; destruct (decide (n = p)) as [->|]; naive_solver.
Qed.

(** The blocks behind the inode table of a file system of the standard size. *)
Definition data_block (b : Z) : Prop := 16388 <= b < 31457280.

(** Block [b] is free or belongs to an inode. *)
Definition accounted (s : dstate) (V : Z -> iNode -> Prop) (l : list Z) (b : Z) : Prop :=
  b ∈ l \/ exists n d, inode_num n /\ V n d /\ b ∈ blocks_of s (dir_of d).

(** Every inode has its own blocks, none of them is free, and no block is lost. *)
Record blocks_ok (s : dstate) (V : Z -> iNode -> Prop) (l : list Z) : Prop := {
  b_view : view_ok V;
  b_file : forall n d, inode_num n -> V n d -> file_ok s l (dir_of d);
  b_area : forall n d, inode_num n -> V n d -> Forall data_area (l ++ blocks_of s (dir_of d));
  b_apart : forall n m d e b, inode_num n -> inode_num m -> n <> m -> V n d -> V m e ->
    b ∈ blocks_of s (dir_of d) -> b ∉ blocks_of s (dir_of e);
  b_all : forall b, data_block b -> accounted s V l b
}.

(** An inode that has become empty was empty. *)
Definition same_or_empty (V V' : Z -> iNode -> Prop) (m : Z) : Prop :=
  forall d', V' m d' -> V m d' \/ (size d' = 0 /\ forall d, V m d -> size d = 0).

(** What [d] holds is the same on both disks. *)
Definition same_contents (s s' : dstate) (d : iNode) : Prop :=
  blocks_of s' (dir_of d) = blocks_of s (dir_of d) /\
  file_data s' (dataBlockNums d) (size d) = file_data s (dataBlockNums d) (size d).

Lemma same_contents_trans s1 s2 s3 d :
  same_contents s1 s2 d -> same_contents s2 s3 d -> same_contents s1 s3 d.
Proof. intros [E1 D1] [E2 D2]. split; congruence. Qed.

(** An inode other than [p] after the step: as before, or empty. *)
Lemma others_step s V l s' V' l' p dp dp' m d :
  blocks_ok s V l -> view_ok V' -> inode_num p -> V p dp ->
  rearranged s l (dir_of dp) s' l' (dir_of dp') -> file_ok s' l' (dir_of dp') ->
  inode_num m -> m <> p -> V' m d -> same_or_empty V V' m ->
  file_ok s' l' (dir_of d) /\
  (forall b, b ∈ blocks_of s' (dir_of d) -> b ∉ blocks_of s' (dir_of dp')) /\
  (blocks_of s' (dir_of d) = [] \/ (V m d /\ same_contents s s' d)).
Proof.
  intros Hb HV' Hp Hv Hre Hf' Hm Hmp Hd' Hsame. destruct (Hsame d Hd') as [Hd|[Hz _]].
  - destruct (bystander s l (dir_of dp) s' l' (dir_of dp') (dir_of d) Hre Hf'
      (b_file _ _ _ Hb _ _ Hm Hd) (b_area _ _ _ Hb _ _ Hm Hd)) as (? & ? & ? & ?).
    { intros b. by apply (b_apart _ _ _ Hb m p). }
    split_and!; [done|done|by right].
  - pose proof Hf' as (Hok & Hh & Hl & _ & _ & _ & Hu & _).
    destruct (v_wf _ HV' m d Hm Hd') as (_&_&_&_&_&_&_&_&_&_&[? ?]&_).
    rewrite (empty_blocks _ (dir_of d)) by done. split_and!; [by apply empty_file_ok|set_solver|by left].
Qed.

Lemma blocks_step s V l s' V' l' p dp dp' :
  blocks_ok s V l -> view_ok V' -> inode_num p -> V p dp -> V' p dp' ->
  rearranged s l (dir_of dp) s' l' (dir_of dp') -> file_ok s' l' (dir_of dp') ->
  (forall m, inode_num m -> m <> p -> same_or_empty V V' m) ->
  blocks_ok s' V' l'.
Proof.
  intros Hb HV' Hp Hv Hv' Hre Hf' Hold.
  pose proof (fun m d Hm Hmp Hd => others_step s V l s' V' l' p dp dp' m d Hb HV' Hp Hv Hre Hf'
    Hm Hmp Hd (Hold m Hm Hmp)) as Hoth.
  pose proof (rearranged_area _ _ _ _ _ _ Hre (b_area _ _ _ Hb _ _ Hp Hv)) as Ha'.
  assert (forall d, V' p d -> d = dp') as Hpu by (intros d Hd; by eapply (v_unique _ HV' p)).
  split; [done|..].
  - intros n d Hn Hd. destruct (decide (n = p)) as [->|Hnp]; [by rewrite (Hpu d)|]. by eapply Hoth.
  - intros n d Hn Hd. destruct (decide (n = p)) as [->|Hnp]; [by rewrite (Hpu d)|].
    apply Forall_app in Ha' as [Ha' _]. apply Forall_app. split; [done|].
    destruct (Hoth n d Hn Hnp Hd) as (_ & _ & [->|[Hd0 [-> _]]]); [constructor|].
    by apply (b_area _ _ _ Hb) in Hd0 as [_ ?]%Forall_app.
  - intros n m d e b Hn Hm Hnm Hd He Hbd Hbe.
    destruct (decide (n = p)) as [->|Hnp]; [|destruct (decide (m = p)) as [->|Hmp]].
    + rewrite (Hpu d) in Hbd by done. by eapply (Hoth m e).
    + rewrite (Hpu e) in Hbe by done. by eapply (Hoth n d).
    + destruct (Hoth n d Hn Hnp Hd) as (_ & _ & [E|[Hd0 [E _]]]); rewrite E in Hbd; [by apply elem_of_nil in Hbd|].
      destruct (Hoth m e Hm Hmp He) as (_ & _ & [E'|[He0 [E' _]]]); rewrite E' in Hbe; [by apply elem_of_nil in Hbe|].
      by eapply (b_apart _ _ _ Hb n m).
  - intros b Hdb. assert (b ∈ blocks_of s (dir_of dp) ++ l -> accounted s' V' l' b) as Hmine.
    { destruct Hre as [P _]. rewrite <- P, elem_of_app. intros [Hin|Hin]; [right|by left]. by exists p, dp'. }
    destruct (b_all _ _ _ Hb b Hdb) as [Hin|(n & d & Hn & Hd & Hin)].
    { apply Hmine. set_solver. }
    destruct (decide (n = p)) as [->|Hnp].
    { apply Hmine. rewrite (v_unique _ (b_view _ _ _ Hb) _ d dp) in Hin by done. set_solver. }
    destruct (v_total _ HV' n Hn) as [d' Hd'].
    destruct (Hold n Hn Hnp d' Hd') as [Hd0|[_ Hz]].
    + rewrite (v_unique _ (b_view _ _ _ Hb) _ d d') in Hin by done. right. exists n, d'.
      split; [done|]. split; [done|]. destruct (bystander s l (dir_of dp) s' l' (dir_of dp') (dir_of d') Hre Hf'
        (b_file _ _ _ Hb _ _ Hn Hd0) (b_area _ _ _ Hb _ _ Hn Hd0)) as (_ & -> & _); [|done].
      intros b'. by apply (b_apart _ _ _ Hb n p).
    + rewrite empty_blocks in Hin by (by apply (Hz d)). by apply elem_of_nil in Hin.
Qed.

(** The contents of the other inodes. *)
(** To name the view of an inode changes nothing. *)
Lemma blocks_ok_with_view s V l p dp :
  blocks_ok s V l -> inode_num p -> V p dp -> blocks_ok s (with_view p dp V) l.
Proof.
  intros [HV Hf Ha Hap Hall] Hp Hv.
  assert (forall m d, with_view p dp V m d <-> V m d) as E.
  { unfold with_view. intros m d. destruct (decide (m = p)) as [->|]; [|done]. split; [by intros ->|].
    intros Hd. by apply (v_unique _ HV p). }
  split.
  - apply with_view_ok; [done|]. by apply (v_wf _ HV p).
  - intros m d Hm Hd%E. by eapply Hf.
  - intros m d Hm Hd%E. by eapply Ha.
  - intros m n d e b Hm Hn Hmn Hd%E He%E. by eapply (Hap m n).
  - intros b Hb. destruct (Hall b Hb) as [?|(m & d & Hm & Hd & Hin)]; [by left|right]. exists m, d. by rewrite E.
Qed.

Lemma contents_step s V l s' l' p dp dp' m d :
  blocks_ok s V l -> inode_num p -> V p dp ->
  rearranged s l (dir_of dp) s' l' (dir_of dp') -> file_ok s' l' (dir_of dp') ->
  inode_num m -> m <> p -> V m d -> same_contents s s' d.
Proof.
  intros Hb Hp Hv Hre Hf' Hm Hmp Hd.
  destruct (bystander s l (dir_of dp) s' l' (dir_of dp') (dir_of d) Hre Hf'
    (b_file _ _ _ Hb _ _ Hm Hd) (b_area _ _ _ Hb _ _ Hm Hd)) as (_ & ? & ? & _); [|by split].
  intros b. by apply (b_apart _ _ _ Hb m p).
Qed.

(** The inode table alone is written: a lookup, or a new inode. *)
Lemma file_meta s l s' i :
  file_ok s l i -> Forall data_area (l ++ blocks_of s i) -> ok s' -> changes meta_zone s s' ->
  file_ok s' l i /\ blocks_of s' i = blocks_of s i /\
  file_data s' (ic_dataBlockNums i) (ic_size i) = file_data s (ic_dataBlockNums i) (ic_size i).
Proof.
  intros Hf [Hdl Hdb]%Forall_app Hok Hch.
  rewrite Forall_forall in Hdb. pose proof Hf as (_ & _ & Hl & Hnd & _ & _ & Hu & _).
  apply (file_kept s s' l l i _ Hf Hok Hch); try done.
  - intros b Hin Hz. apply Hdb in Hin. unfold data_area, meta_zone in *. lia.
  - by eapply free_list_meta.
Qed.

Lemma contents_meta s V l s' m d :
  blocks_ok s V l -> ok s' -> changes meta_zone s s' -> inode_num m -> V m d ->
  file_ok s' l (dir_of d) /\ same_contents s s' d.
Proof.
  intros Hb Hok Hch Hm Hd. destruct (file_meta s l s' (dir_of d) (b_file _ _ _ Hb _ _ Hm Hd)
    (b_area _ _ _ Hb _ _ Hm Hd) Hok Hch) as (? & ? & ?). by split_and!.
Qed.

Lemma blocks_meta s V l s' V' :
  blocks_ok s V l -> view_ok V' -> ok s' -> changes meta_zone s s' ->
  (forall m, inode_num m -> same_or_empty V V' m) -> blocks_ok s' V' l.
Proof.
  intros Hb HV' Hok Hch Hold.
  pose proof (fun m d => contents_meta s V l s' m d Hb Hok Hch) as Hsame.
  destruct (v_total _ (b_view _ _ _ Hb) 0 ltac:(done)) as [d0 Hd0].
  pose proof (proj1 (Hsame 0 d0 ltac:(done) Hd0)) as (_ & Hh & Hl & _ & _ & _ & Hu & _).
  pose proof (b_area _ _ _ Hb 0 d0 ltac:(done) Hd0) as [Hdl _]%Forall_app.
  split; [done|..].
  - intros n d Hn Hd. destruct (Hold n Hn d Hd) as [Hd1|[Hz _]]; [by eapply Hsame|].
    destruct (v_wf _ HV' n d Hn Hd) as (_&_&_&_&_&_&_&_&_&_&[? ?]&_). by apply empty_file_ok.
  - intros n d Hn Hd. destruct (Hold n Hn d Hd) as [Hd1|[Hz _]].
    + destruct (Hsame n d Hn Hd1) as [_ [-> _]]. by apply (b_area _ _ _ Hb n).
    + rewrite empty_blocks by done. by rewrite app_nil_r.
  - intros n m d e b Hn Hm Hnm Hd He Hbd Hbe.
    destruct (Hold n Hn d Hd) as [Hd1|[Hz _]]; [|rewrite empty_blocks in Hbd by done; by apply elem_of_nil in Hbd].
    destruct (Hold m Hm e He) as [He1|[Hz _]]; [|rewrite empty_blocks in Hbe by done; by apply elem_of_nil in Hbe].
    destruct (Hsame n d Hn Hd1) as [_ [E _]]. destruct (Hsame m e Hm He1) as [_ [E' _]].
    rewrite E in Hbd. rewrite E' in Hbe. by eapply (b_apart _ _ _ Hb n m).
  - intros b Hdb. destruct (b_all _ _ _ Hb b Hdb) as [Hin|(n & d & Hn & Hd & Hin)]; [by left|].
    destruct (v_total _ HV' n Hn) as [d' Hd']. destruct (Hold n Hn d' Hd') as [Hd1|[_ Hz]].
    + rewrite (v_unique _ (b_view _ _ _ Hb) _ d d') in Hin by done. right. exists n, d'.
      split; [done|]. split; [done|]. by destruct (Hsame n d' Hn Hd1) as [_ [-> _]].
    + rewrite empty_blocks in Hin by (by apply (Hz d)). by apply elem_of_nil in Hin.
Qed.

(** * The tree *)

Record fs_ok (s : istate) (F : list nat) (Q : Z -> list nat) (l : list Z) : Prop := {
  fs_cache : cache_ok s F Q;
  fs_tree : tree_ok s Q l;
  fs_blocks : blocks_ok (ds s) (inode_view s Q) l
}.

Lemma fs_moves s s' F F' Q Q' lo dr l :
  fs_ok s F Q l -> moves s s' F' Q Q' lo dr ->
  fs_ok s' F' Q' l /\ forall m d, inode_num m -> inode_view s Q m d -> same_contents (ds s) (ds s') d.
Proof.
  intros [Hc Ht Hb] Hm. pose proof Hm as [[Hc' V _] _ D].
  assert (changes meta_zone (ds s) (ds s')) as D' by (eapply changes_mono; [|exact D]; apply inode_zone_meta).
  pose proof (c_disk _ _ _ Hc') as Hok'. split.
  - split; [done|by eapply tree_ok_moves|].
    apply (blocks_meta _ _ _ _ _ Hb); [by eapply cache_view_ok|done|done|].
    intros m Hn d Hd. left. by apply V.
  - intros m d Hn Hd. by eapply contents_meta.
Qed.

(** A directory whose contents are the same. *)
Lemma same_dir_list s s' d : same_contents s s' d -> dir_list s' (dir_of d) = dir_list s (dir_of d).
Proof. intros [_ Hd]. unfold dir_list, dir_data. f_equal. exact Hd. Qed.

(** The tree after a step: some directories are as they were, and what they name
    is still linked; the others are shown to be well-formed. *)
Lemma tree_step s Q l s' Q' l' :
  tree_ok s Q l -> blocks_ok (ds s') (inode_view s' Q') l' ->
  (forall m d, inode_num m -> inode_view s' Q' m d -> S_ISDIR (file_mode d) = true ->
     (inode_view s Q m d /\ same_contents (ds s) (ds s') d /\
      forall e, e ∈ dir_list (ds s) (dir_of d) -> inode_num (snd e) -> linked s Q (snd e) -> linked s' Q' (snd e)) \/
     (dir_ok (ds s') l' (dir_of d) /\
      Forall (fun e => linked s' Q' (snd e)) (dir_list (ds s') (dir_of d)))) ->
  tree_ok s' Q' l'.
Proof.
  intros Ht Hb' Hold n d Hn Hd Hdir. pose proof (b_area _ _ _ Hb' _ _ Hn Hd) as Ha.
  destruct (Hold n d Hn Hd Hdir) as [(Hd0 & Hs & Hlink)|[? ?]]; [|by split_and!].
  destruct (Ht n d Hn Hd0 Hdir) as ((_ & _ & Hal & Hterm) & _ & Hl).
  pose proof (same_dir_list _ _ _ Hs) as E. split; [|split; [done|]].
  - split; [by apply (b_file _ _ _ Hb' n)|]. split; [done|]. split; [done|]. by rewrite E.
  - rewrite E. rewrite Forall_forall in *. intros e He. apply Hlink; [done| |by apply Hl].
    apply Hterm in He as [_ Hr]. unfold inode_num. consts. lia.
Qed.

(** * Walks *)

Lemma walks_app s Q n nms m nms' r :
  walks s Q n nms (Some m) -> walks s Q m nms' r -> walks s Q n (nms ++ nms') r.
Proof.
  remember (Some m) as o eqn:E. intros Hw. revert E.
  induction Hw as [n|n nm nms es k e r0 He Hf Hw IH|n nm nms es He Hf|n nm nms r0 Hnd Hw IH]; intros E Hm.
  - by injection E as ->.
  - cbn [app]. eapply walks_into; [done|done|]. by apply IH.
  - done.
  - cbn [app]. eapply walks_through_file; [done|]. by apply IH.
Qed.

(** Directories that keep their entries let every walk that succeeds go on. *)
Lemma walks_step s Q l s' Q' n nms m :
  tree_ok s Q l -> inode_num n -> linked s Q n ->
  (forall n es, inode_num n -> linked s Q n -> entries_in s Q n es -> exists es',
     entries_in s' Q' n es' /\
     forall nm k e, find_entry nm es = Some (k, e) -> find_entry nm es' = Some (k, e)) ->
  (forall n, inode_num n -> linked s Q n -> not_directory s Q n -> not_directory s' Q' n) ->
  walks s Q n nms (Some m) -> walks s' Q' n nms (Some m).
Proof.
  intros Ht Hn Hl Hes Hnd Hw. remember (Some m) as o eqn:E. revert Hn Hl E.
  induction Hw as [n|n nm nms es k e r0 He Hf Hw IH|n nm nms es He Hf|n nm nms r0 Hno Hw IH];
    intros Hn Hl E; subst; [constructor| |done|].
  - destruct (Hes _ _ Hn Hl He) as (es' & He' & Hk).
    destruct (entry_num _ _ _ _ _ _ _ _ Ht Hn He Hf) as [He1 He2].
    eapply walks_into; [exact He'|by apply Hk|by apply IH].
  - eapply walks_through_file; [by apply Hnd|]. apply IH; [done|by left|done].
Qed.

End tree_inv.
