(* ===== verification/AttrTree.v ===== *)
(** A change of attributes keeps the invariant of the file system. *)

From S2P Require Export TreeInv AttrSpec.

(** The same file: its blocks, its size, its kind and its links. *)
Definition same_file (d d' : iNode) : Prop :=
  dataBlockNums d' = dataBlockNums d /\ size d' = size d /\
  S_ISDIR (file_mode d') = S_ISDIR (file_mode d) /\ linksCount d' = linksCount d.

#[export] Instance same_file_equiv : Equivalence same_file.
Proof.
  split; unfold same_file; [done|intros x y (?&?&?&?); done|].
  intros x y z (?&?&?&?) (?&?&?&?). split_and!; congruence.
Qed.

Lemma same_file_blocks `{Host} s d d' : same_file d d' -> blocks_of s (dir_of d') = blocks_of s (dir_of d).
Proof. intros (E1 & E2 & _). unfold blocks_of. cbn. by rewrite E1, E2. Qed.

Lemma same_file_entries `{Host} s d d' : same_file d d' -> dir_list s (dir_of d') = dir_list s (dir_of d).
Proof. intros (E1 & E2 & _). unfold dir_list, dir_data. cbn. by rewrite E1, E2. Qed.

Section attr_tree.
Context `{BlockStore ok} `{shifts : !DefinedShifts}.
Local Abbreviation cache_ok := (cache_ok (ok := ok)).
Local Abbreviation fs_ok := (fs_ok (ok := ok)).
Local Abbreviation file_ok := (file_ok (ok := ok)).
Local Abbreviation dir_ok := (dir_ok (ok := ok)).
Local Abbreviation blocks_ok := (blocks_ok (ok := ok)).
Local Abbreviation changed_only := (changed_only (ok := ok)).

Lemma same_file_ok s l d d' : same_file d d' -> file_ok s l (dir_of d) -> file_ok s l (dir_of d').
Proof. intros (E1 & E2 & _). unfold FileBlocks.file_ok. cbn. by rewrite E1, E2. Qed.

Lemma same_file_dir s l d d' : same_file d d' -> dir_ok s l (dir_of d) -> dir_ok s l (dir_of d').
Proof.
  intros Hs (Hf & Hdir & Hal & Hterm). pose proof Hs as (_ & E2 & E3 & _). unfold DirectorySpec.dir_ok.
  rewrite (same_file_entries _ _ _ Hs). change (ic_size (dir_of ?x)) with (size x) in *.
  change (ic_file_mode (dir_of ?x)) with (file_mode x) in *. rewrite E2, E3. split; [by eapply same_file_ok|done].
Qed.

(** Another view of the same files. *)
Lemma blocks_relabel s V l V' :
  blocks_ok s V l -> view_ok V' ->
  (forall m d', inode_num m -> V' m d' -> exists d, V m d /\ same_file d d') -> blocks_ok s V' l.
Proof.
  intros Hb HV' Hold. split; [done|..].
  - intros n d' Hn Hd'. destruct (Hold n d' Hn Hd') as (d & Hd & Hs). eapply same_file_ok; [exact Hs|].
    by apply (b_file _ _ _ Hb n).
  - intros n d' Hn Hd'. destruct (Hold n d' Hn Hd') as (d & Hd & Hs). rewrite (same_file_blocks _ _ _ Hs).
    by apply (b_area _ _ _ Hb n).
  - intros n m d' e' b Hn Hm Hnm Hd' He'. destruct (Hold n d' Hn Hd') as (d & Hd & Hs).
    destruct (Hold m e' Hm He') as (e & He & Hs'). rewrite (same_file_blocks _ _ _ Hs), (same_file_blocks _ _ _ Hs').
    by apply (b_apart _ _ _ Hb n m).
  - intros b Hdb. destruct (b_all _ _ _ Hb b Hdb) as [Hin|(n & d & Hn & Hd & Hin)]; [by left|right].
    destruct (v_total _ HV' n Hn) as [d' Hd']. destruct (Hold n d' Hn Hd') as (d0 & Hd0 & Hs).
    exists n, d'. split; [done|]. split; [done|]. rewrite (same_file_blocks _ _ _ Hs).
    by rewrite (v_unique _ (b_view _ _ _ Hb) _ d0 d Hn Hd0 Hd).
Qed.

Lemma changed_fs_ok s F Q l s' F' Q' n d d' :
  fs_ok s F Q l -> inode_num n -> inode_view s Q n d -> changed_only s s' F' Q Q' n d' -> same_file d d' ->
  fs_ok s' F' Q' l /\ forall m e, inode_num m -> inode_view s Q m e -> same_contents (ds s) (ds s') e.
Proof.
  intros [Hc Ht Hb] Hn Hd (Hc' & Hd' & Ho & Hr & _ & Hch) Hs.
  assert (changes meta_zone (ds s) (ds s')) as Hch' by (eapply changes_mono; [|exact Hch]; apply inode_zone_meta).
  pose proof (c_disk _ _ _ Hc') as Hok'. pose proof (cache_view_ok _ _ _ Hc') as HV'.
  assert (forall m e, inode_num m -> inode_view s Q m e -> same_contents (ds s) (ds s') e) as Hsame.
  { intros m e Hm He. by eapply contents_meta. }
  assert (forall m e', inode_num m -> inode_view s' Q' m e' -> exists e, inode_view s Q m e /\ same_file e e') as Hback.
  { intros m e' Hm He'. destruct (decide (m = n)) as [->|Hmn].
    - exists d. split; [done|]. by rewrite (inode_view_unique _ _ _ _ _ _ Hc' He' Hd').
    - destruct (v_total _ (cache_view_ok _ _ _ Hc) m Hm) as [e He]. exists e. split; [done|].
      by rewrite (inode_view_unique _ _ _ _ _ _ Hc' He' (Ho m e Hm Hmn He)). }
  split; [|done]. split; [done| |].
  - intros m e' Hm He' Hdir'. destruct (Hback m e' Hm He') as (e & He & Hse). pose proof Hse as (_ & _ & Em & _).
    rewrite Em in Hdir'. destruct (Ht m e Hm He Hdir') as (Hdok & Hda & Hl).
    destruct (dir_frame _ _ l _ Hdok Hda Hok' Hch) as (Hdok' & Ebl & Eel).
    rewrite (same_file_blocks _ _ _ Hse), (same_file_entries _ _ _ Hse), Ebl, Eel.
    split; [by eapply same_file_dir|]. split; [done|]. pose proof Hdok as (_ & _ & _ & Hterm).
    rewrite Forall_forall in Hl, Hterm |- *. intros x Hx. destruct (Hl x Hx) as [?|Hlx]; [by left|right].
    intros e2' He2'. assert (inode_num (snd x)) as Hnx.
    { destruct (Hterm x Hx) as [_ Hrx]. unfold inode_num. consts. lia. }
    destruct (Hback _ e2' Hnx He2') as (e2 & He2 & (_ & _ & _ & ->)). by apply Hlx.
  - apply (blocks_relabel _ (inode_view s Q)); [|done|done].
    apply (blocks_meta _ _ _ _ _ Hb); [by eapply cache_view_ok|done|done|]. intros m _ e He. by left.
Qed.

End attr_tree.
