(* ===== verification/FreshSystem.v ===== *)
(** A cache that has just been set up over a new file system: the invariant of the
    whole holds, nothing is in use, and the data area is free. *)

From S2P Require Export TreeInv Mkfs.

(** The data area of a new device is free. *)
Definition all_free : list Z := seqZ 16388 (31457280 - 16388).

Lemma all_free_area : Forall data_area all_free.
Proof. apply Forall_forall. intros m Hm. apply elem_of_seqZ in Hm. unfold data_area. lia. Qed.

Lemma all_free_u64 : Forall is_u64 all_free.
Proof. apply Forall_forall. intros m Hm. apply elem_of_seqZ in Hm. unfold is_u64. lia. Qed.

Lemma length_all_free : Z.of_nat (length all_free) = 31440892.
Proof. unfold all_free. rewrite length_seqZ. lia. Qed.

(** A new inode table is sound, and there is room for it. *)
Lemma new_table_sound `{Host} d : new_file_system d -> table_sound d.
Proof.
  intros (_ & _ & _ & _ & (r & Hr) & Hn) n e Hnum He.
  destruct (decide (n = 0)) as [->|Hne]; [by rewrite Hr in He; injection He as <-|].
  unfold inode_num in Hnum. rewrite Hn in He by lia. injection He as <-.
  by rewrite initializeINode_lt by lia.
Qed.

Lemma new_inode_area `{Host} d : new_file_system d -> inode_area d.
Proof.
  intros (Hp & (b & _ & _ & _ & _ & Hin) & _). unfold inode_area. rewrite Hp. split_and!; [done..|].
  rewrite Forall_forall in Hin. pose proof (Hin 16388) as [_ Hc]; [apply elem_of_seqZ; lia|lia].
Qed.

Section nothing_cached.
Context `{Host}.

Lemma nothing_cached (s : istate) n k i : ~ caches s (fun _ => []) n k i.
Proof. intros (_ & [h Hh] & _). by apply elem_of_nil in Hh. Qed.

Lemma no_refs (s : istate) n : refs s (fun _ => []) n 0.
Proof. right. split; [done|]. intros k i Hk. by apply nothing_cached in Hk. Qed.

Lemma nothing_in_use (s : istate) : few_refs s (fun _ => []).
Proof. intros m c _ [(k & i & Hk & _)|[-> _]]; [by apply nothing_cached in Hk|done]. Qed.

End nothing_cached.

Section fresh.
Context `{BlockStore ok} `{shifts : !DefinedShifts}.
Local Abbreviation cache_ok := (cache_ok (ok := ok)).
Local Abbreviation fs_ok := (fs_ok (ok := ok)).
Local Abbreviation file_ok := (file_ok (ok := ok)).
Context (s : istate) (F : list nat).
Context (Hc : cache_ok s F (fun _ => [])) (Hnew : new_file_system (ds s)) (Hh : held (ds s) = []).

Lemma fresh_root : exists r, inode_view s (fun _ => []) 0 (root_iNode r).
Proof.
  destruct Hnew as (_ & _ & _ & _ & (r & Hr) & _). exists r. right.
  split; [intros k i Hk; by apply nothing_cached in Hk|done].
Qed.

(** The other inodes are as [makeFileSystem] made them. *)
Lemma fresh_view n d :
  inode_num n -> inode_view s (fun _ => []) n d -> n <> 0 -> d = initializeINode n.
Proof.
  intros Hn Hd Hne. destruct Hnew as (_ & _ & _ & _ & _ & Hi). unfold inode_num in Hn.
  destruct Hd as [(k & i & Hk & _)|[_ Hd]]; [by apply nothing_cached in Hk|].
  rewrite Hi in Hd by lia. by injection Hd as <-.
Qed.

Lemma fresh_empty n d :
  inode_num n -> inode_view s (fun _ => []) n d ->
  size d = 0 /\ (S_ISDIR (file_mode d) = true -> n = 0).
Proof.
  intros Hn Hd. destruct (decide (n = 0)) as [->|Hne].
  - destruct fresh_root as [r Hr]. by rewrite (inode_view_unique _ _ _ _ _ _ Hc Hd Hr).
  - rewrite (fresh_view n d Hn Hd Hne). unfold inode_num in Hn. by rewrite initializeINode_lt by lia.
Qed.

Lemma fresh_blocks n d :
  inode_num n -> inode_view s (fun _ => []) n d -> file_ok (ds s) all_free (dir_of d) /\ blocks_of (ds s) (dir_of d) = [].
Proof.
  intros Hn Hd. destruct (fresh_empty n d Hn Hd) as [Hz _]. pose proof Hnew as (_ & Hfl & _).
  destruct (v_wf _ (cache_view_ok _ _ _ Hc) n d Hn Hd) as (_&_&_&_&_&_&_&_&_&_&[? ?]&_). split; [|by apply empty_blocks].
  apply empty_file_ok; [apply (c_disk _ _ _ Hc)|rewrite Hh; apply not_elem_of_nil|exact Hfl|apply all_free_u64|done|done|done].
Qed.

Lemma fresh_dir n d :
  inode_num n -> inode_view s (fun _ => []) n d -> dir_list (ds s) (dir_of d) = [].
Proof.
  intros Hn Hd. destruct (fresh_empty n d Hn Hd) as [Hz _]. unfold dir_list, dir_data.
  change (ic_size (dir_of d)) with (size d). by rewrite Hz.
Qed.

Lemma fresh_fs_ok : fs_ok s F (fun _ => []) all_free.
Proof.
  split; [exact Hc| |].
  - intros n d Hn Hd Hdir. destruct (fresh_blocks n d Hn Hd) as [Hf Hb]. destruct (fresh_empty n d Hn Hd) as [Hz _].
    pose proof (fresh_dir n d Hn Hd) as El.
    rewrite Hb, El, app_nil_r. split; [|split; [apply all_free_area|constructor]].
    split; [done|]. split; [done|]. split; [|rewrite El; constructor].
    change (size d mod 64 = 0). by rewrite Hz.
  - split; [by eapply cache_view_ok|..].
    + intros n d Hn Hd. by eapply fresh_blocks.
    + intros n d Hn Hd. destruct (fresh_blocks n d Hn Hd) as [_ ->]. rewrite app_nil_r. apply all_free_area.
    + intros n m d e b Hn _ _ Hd _ Hb. destruct (fresh_blocks n d Hn Hd) as [_ E]. rewrite E in Hb.
      by apply elem_of_nil in Hb.
    + intros b Hb. left. apply elem_of_seqZ. unfold data_block in Hb. lia.
Qed.

End fresh.
