(* ===== verification/CreateSpec.v ===== *)
(** New files and directories: [createFile] puts an entry into the parent
    directory and an inode into the table, keeps the invariant of the file
    system, and a lookup of the path then leads to the new inode. *)

From S2P Require Export TreeInv.

Section create.
Context `{BlockStore ok} `{shifts : !DefinedShifts}.
Local Abbreviation cache_ok := (cache_ok (ok := ok)).
Local Abbreviation tree_ok := (tree_ok (ok := ok)).
Local Abbreviation moves := (moves (ok := ok)).
Local Abbreviation updates := (updates (ok := ok)).
Local Abbreviation dir_ok := (dir_ok (ok := ok)).
Local Abbreviation file_ok := (file_ok (ok := ok)).
Local Abbreviation fs_ok := (fs_ok (ok := ok)).
Local Abbreviation blocks_ok := (blocks_ok (ok := ok)).
Local Abbreviation appended := (appended (ok := ok)).

(** * The disk changes under the cache *)

(** The inode of a number that no node caches with links, written anew. *)
Lemma table_changes s F Q n d' e :
  cache_ok s F Q -> inode_num n -> (forall k i, caches s Q n k i -> ic_linksCount i = 0) ->
  ok d' -> inode_area d' -> disk_inode d' n = Some e -> inode_number e = n -> device_number e = 0 ->
  (forall m, inode_num m -> m <> n -> disk_inode d' m = disk_inode (ds s) m) ->
  cache_ok (set_ds d' s) F Q /\
  inode_view (set_ds d' s) Q n e /\
  (forall m d, inode_num m -> m <> n -> inode_view s Q m d -> inode_view (set_ds d' s) Q m d).
Proof.
  intros Hc Hn Hl Hok Ha He En Ed Ho. split_and!.
  - destruct Hc as [A1 A2 A3 A4 A5 Ahash A7 A8 A9 Atab Anod]. split; try done.
    + intros m k i Hk. destruct (Ahash m k i Hk) as (Hm & Hd & Hw & Hcl & Hco). split_and!; [done..|].
      intros Hci Hli. destruct Hk as (Hi & Hq & Em). cbn [ds set_ds].
      destruct (decide (m = n)) as [->|Hne]; [by destruct (Hl k i)|].
      rewrite Ho by (rewrite ?Em; done). by apply Hco.
    + intros m d Hm Hmd. cbn [ds set_ds] in Hmd. destruct (decide (m = n)) as [->|Hne].
      * rewrite He in Hmd. by injection Hmd as <-.
      * rewrite Ho in Hmd by done. by apply Atab.
  - right. split; [exact Hl|done].
  - intros m d Hm Hne [(k & i & Hk & Hli & ->)|[Hno Hd]].
    + left. by exists k, i.
    + right. split; [exact Hno|]. cbn [ds set_ds]. by rewrite Ho.
Qed.

Lemma gained_keeps_numbers s l i s' l' i' :
  gained s l i s' l' i' -> Forall data_area (l ++ blocks_of s i) -> numbers_kept s s'.
Proof.
  intros (alloc & -> & _ & Hch) Hda. eapply numbers_kept_changes; [exact Hch|].
  intros [?|Hin]; [done|]. rewrite Forall_forall in Hda.
  assert (data_area INODE_LIST_BLOCK) as Hd; [|unfold data_area in Hd; consts; lia].
  apply Hda. set_solver.
Qed.

(** An inode that reads as unlinked is not cached with links. *)
Lemma unlinked_caches s Q n d k i :
  (forall d', inode_view s Q n d' -> d' = d) -> linksCount d = 0 -> caches s Q n k i -> ic_linksCount i = 0.
Proof.
  intros Hu Hd Hk. destruct (decide (ic_linksCount i = 0)) as [|Hl]; [done|].
  assert (getDiskINodeData i = d) as E by (apply Hu; left; by exists k, i).
  change (linksCount (getDiskINodeData i) = 0). by rewrite E.
Qed.

(** * A directory gets an entry *)

(** The inode [p] in node [k] has become [i'], with an entry more. *)
Record entry_added (s s' : istate) (F : list nat) (Q : Z -> list nat) (l l' : list Z) (p : Z) (k : nat)
    (i i' : inCoreiNode) (nm : list Z) (num : Z) : Prop := {
  ea_updates : updates s s' F F Q p k i';
  ea_caches : caches s' Q p k i';
  ea_touched : touched i i' /\ inode_changed i' = true /\ ic_size i' = ic_size i + 64;
  ea_gained : gained (ds s) l i (ds s') l' i';
  ea_dir : dir_ok (ds s') l' i';
  ea_free : (length l <= length l' + 4)%nat;
  ea_list : dir_list (ds s') i' = dir_list (ds s) i ++ [(name_bytes nm, num)]
}.

Lemma append_adds_entry s F Q l l' p k i i' d' num nm :
  cache_ok s F Q -> caches s Q p k i -> 0 < reference_count i -> dir_ok (ds s) l i ->
  Forall data_area (l ++ blocks_of (ds s) i) -> c_string nm -> (length nm <= 61)%nat -> 0 <= num < 65535 ->
  appended (ds s) l i d' l' i' (entry_bytes (name_bytes nm) num) ->
  dir_list d' i' = dir_list (ds s) i ++ [(name_bytes nm, num)] -> touched i i' -> inode_changed i' = true ->
  entry_added s (inode_set k i' (set_ds d' s)) F Q l l' p k i i' nm num.
Proof.
  intros Hc Hk Hpos Hd Hda Hnm Hlen Hnum Happ Hdl Ht Hch.
  assert (updates s (inode_set k i' (set_ds d' s)) F F Q p k i') as Hu.
  { eapply (append_updates s F Q l); [done|exact Hk|done|done|exact Happ|done|by right]. }
  pose proof Happ as (_ & _ & Hg & Hsz & Hlen' & _). destruct (name_bytes_ok nm Hnm) as [Hl62 _].
  unfold entry_bytes in Hsz. rewrite length_app, length_le_enc, Hl62 in Hsz.
  change (Z.of_nat (62 + 2)) with 64 in Hsz. split.
  - exact Hu.
  - apply (updates_caches _ _ _ _ _ _ _ _ _ _ _ _ Hu Hk). by left.
  - done.
  - exact Hg.
  - by eapply added_dir_ok.
  - pose proof (nblocks_bounds (ic_size i)). pose proof (nblocks_bounds (ic_size i')). lia.
  - exact Hdl.
Qed.

(** The step of [createFile] on the node [k] of the parent. *)
Lemma add_entry_step s F Q l p k i num nm size :
  cache_ok s F Q -> caches s Q p k i -> 0 < reference_count i -> dir_ok (ds s) l i ->
  Forall data_area (l ++ blocks_of (ds s) i) -> c_string nm -> (length nm <= 61)%nat ->
  name_readable size -> 0 <= num < 65535 -> room l (ic_size i) 64 ->
  wp (update_inode k (fun i => getAndUpdateDirectoryTable i num nm size)) s (fun _ s' => exists i' l',
    entry_added s s' F Q l l' p k i i' nm num).
Proof.
  intros Hc Hk Hpos Hd Hda Hnm Hlen Hrd Hnum Hroom. pose proof Hk as (Hi & _ & _).
  pose proof Hd as (Hf & Hdir & Hal & _).
  unfold update_inode. apply wp_bind. eapply wp_Ret; [by apply get_inode_Ret|].
  apply wp_bind. unfold on_disk. apply wp_zoom.
  eapply wp_mono; [by eapply (getAndUpdateDirectoryTable_spec (ds s) l); [..|lia|]|].
  intros [r i'] d' (l' & Happ & Hdl & Ht & Hch). apply wp_bind. eapply wp_Ret; [apply put_inode_Ret|].
  apply wp_ret. exists i', l'. by apply append_adds_entry.
Qed.

(** * The parent *)

Lemma parent_and_name {St} dir file (s : St) :
  last dir = Some slash -> slash ∉ file ->
  getParentDirectory (dir ++ file) s = Ret dir s /\ getFilenameFromPath (dir ++ file) s = Ret file s.
Proof.
  intros Hl Hf. destruct (split_path (dir ++ file) s) as (d & f & Hd & Hn & E & Hf' & Hl').
  { apply elem_of_app. left. apply last_Some in Hl as [d ->]. set_solver. }
  assert (d = dir /\ f = file) as [-> ->]; [|done].
  apply last_Some in Hl as [d0 ->], Hl' as [d1 ->]. clear Hd Hn.
  rewrite <- !app_assoc in E. cbn in E. revert d1 E.
  induction d0 as [|x d0 IH]; intros [|y d1] E; cbn in E.
  - by injection E as ->.
  - injection E as E1 E2. exfalso. apply Hf. rewrite E2. apply elem_of_app. right. by left.
  - injection E as E1 E2. exfalso. apply Hf'. rewrite <- E2. apply elem_of_app. right. by left.
  - injection E as -> E2. destruct (IH d1 E2) as [E3 ->]. split; [|done]. cbn. by rewrite E3.
Qed.

Lemma dir_of_data d : getDiskINodeData (dir_of d) = d.
Proof. by destruct d. Qed.

(** The directory at the end of a walk, in the hand of the client. *)
Lemma parent_in_hand s s1 F F1 Q Q1 l lo dr N p w dp :
  cache_ok s F Q -> tree_ok s Q l -> moves s s1 F1 Q Q1 lo dr -> in_hand N s1 F1 Q1 p w ->
  inode_view s Q p dp -> S_ISDIR (file_mode dp) = true ->
  exists i, caches s1 Q1 p w i /\ 0 < reference_count i /\ getDiskINodeData i = dp /\
    dir_ok (ds s1) l i /\ Forall data_area (l ++ blocks_of (ds s1) i) /\
    dir_list (ds s1) i = dir_list (ds s) (dir_of dp) /\ inode_num p /\
    ((N <= length F1)%nat \/ ((N <= length F1 + 1)%nat /\ reference_count i = 1)).
Proof.
  intros Hc Ht Hm (i & Hk & Hpos & _ & Hv & HF) Hvp Hdir.
  pose proof (m_same _ _ _ _ _ _ _ Hm) as [Hc1 V1 _].
  destruct (c_hashed _ _ _ Hc1 _ _ _ Hk) as (Hp & _).
  pose proof (inode_view_unique _ _ _ _ _ _ Hc (proj1 (V1 _ _ Hp) Hv) Hvp) as E.
  destruct (Ht p dp Hp Hvp Hdir) as (Hd & Hda & _).
  destruct (dir_frame _ _ l _ Hd Hda (c_disk _ _ _ Hc1) (m_disk _ _ _ _ _ _ _ Hm)) as (Hd1 & El & Eb).
  destruct (dir_ok_data (ok := ok) (ds s1) l (dir_of dp) i ltac:(by rewrite dir_of_data)) as (Hd' & El' & Eb').
  exists i. split_and!; try done; [by apply Hd'|..].
  - change (Forall data_area (l ++ blocks_of (ds s1) i)). by rewrite Eb', Eb.
  - by rewrite El'.
Qed.

Lemma validate_spec t s F Q l dir file p dp :
  t = T_REGULAR \/ t = T_DIRECTORY -> cache_ok s F Q -> tree_ok s Q l -> few_refs s Q -> (2 <= length F)%nat ->
  c_string (dir ++ file) -> last dir = Some slash -> slash ∉ file ->
  walks s Q 0 (path_names dir) (Some p) -> inode_view s Q p dp -> S_ISDIR (file_mode dp) = true ->
  find_entry file (dir_list (ds s) (dir_of dp)) = None ->
  wp (validateThenGetParentINode t (dir ++ file)) s (fun r s1 => exists w F1 Q1,
    r = Some (w, file) /\ moves s s1 F1 Q Q1 (fun _ => 0) (one p) /\ in_hand 2 s1 F1 Q1 p w).
Proof.
  intros Htype Hc Ht Hfew HF Hp Hdir Hfile Hw Hv Hd Hno. apply Forall_app in Hp as [Hpd Hpf].
  unfold validateThenGetParentINode, getParentINode.
  replace (negb (bool_decide (t = T_DIRECTORY)) && negb (bool_decide (t = T_REGULAR))) with false
    by (by destruct Htype as [-> | ->]).
  cbn iota. apply wp_bind. destruct (parent_and_name dir file s Hdir Hfile) as [E1 _].
  apply wp_bind. eapply wp_Ret; [exact E1|].
  eapply wp_mono; [eapply (getFileINode_spec 2 ltac:(lia) s F Q l dir (Some p)); try done|].
  { intros ->. done. }
  intros o s1 (w & F1 & Q1 & -> & Hm & Hh).
  destruct (parent_in_hand _ _ _ _ _ _ _ _ _ _ _ _ _ Hc Ht Hm Hh Hv Hd)
    as (i & Hk & _ & _ & Hdok & _ & El & _).
  destruct (parent_and_name dir file s1 Hdir Hfile) as [_ E2].
  apply wp_bind. eapply wp_Ret; [exact E2|]. apply wp_bind. unfold doesFileExistIn. apply wp_bind.
  destruct (wp_inv _ _ _ (search_by_name (ds s1) l i file (junk_entry (ds s1)) 0 Hdok Hpf))
    as ([r buf] & d1 & Hrun & -> & Hres).
  pose proof Hk as (Hi & _ & _).
  eapply wp_Ret; [by apply (look_inode_Ret s1 w i)|]. cbn beta iota. apply wp_ret.
  unfold search_result in Hres. rewrite El, Hno in Hres. injection Hres as -> ->.
  change (0 <? 0) with false. cbn iota. apply wp_ret. by exists w, F1, Q1.
Qed.

(** * The two inodes are given back *)

(** What is left of the cache and the disk when both are back. *)
Definition both_back (s s' : istate) (Q : Z -> list nat) (p : Z) (i : inCoreiNode) (n : Z) (i' : inCoreiNode) : Prop :=
  exists F', cache_ok s' F' Q /\ changes inode_zone (ds s) (ds s') /\
    inode_view s' Q p (getDiskINodeData i) /\ inode_view s' Q n (getDiskINodeData i') /\
    (forall m d, inode_num m -> m <> p -> m <> n -> inode_view s Q m d -> inode_view s' Q m d) /\
    (forall m c, refs s Q m c -> refs s' Q m (c + - one p m + - one n m)) /\ kept (-1) s s' Q Q.

Lemma put_both s F Q p w i n w' i' :
  cache_ok s F Q -> p <> n -> caches s Q p w i -> caches s Q n w' i' ->
  0 < reference_count i -> 0 < reference_count i' ->
  changeable p i -> inode_changed i = true -> ic_linksCount i' <> 0 ->
  wp (iput w) s (fun _ s1 => (exists F1, cache_ok s1 F1 Q) /\ caches s1 Q n w' i' /\
    wp (iput w') s1 (fun _ s' => both_back s s' Q p i n i')).
Proof.
  intros Hc Hpn Hk Hk' Hpos Hpos' Hch Hmark Hl'.
  destruct (c_hashed _ _ _ Hc _ _ _ Hk) as (Hp & _). destruct (c_hashed _ _ _ Hc _ _ _ Hk') as (Hn & _).
  eapply wp_mono; [apply (iput_gives_back s F Q p w i); [done|done|done|]|].
  { destruct Hch as [?|[-> Hr]]; [by left|right]. split_and!; [done|done|left]. intros [E _]. congruence. }
  intros z s1 (_ & D1 & S1 & F1 & Hc1 & Hv1 & Ho1 & Hr1 & _ & Hk1).
  assert (caches s1 Q n w' i') as Hk1' by (by apply Hk1; [by intros ->|]).
  split; [by exists F1|]. split; [done|].
  eapply wp_mono; [apply (iput_gives_back s1 F1 Q n w' i'); [done|done|done|by left]|].
  intros z' s2 (_ & D2 & S2 & F2 & Hc2 & Hv2 & Ho2 & Hr2 & _). exists F2. split_and!.
  - done.
  - eapply changes_trans; [| |exact D1|exact D2]; intros m; by apply inode_block_zone.
  - by apply Ho2.
  - done.
  - intros m d Hm Hmp Hmn Hd. apply Ho2; [done|done|]. by apply Ho1.
  - intros m c Hm. by apply Hr2, Hr1.
  - eapply kept_then; [exact Hc1|exact S1|exact S2].
Qed.

Lemma put_two s F Q p w i n w' i' :
  cache_ok s F Q -> p <> n -> caches s Q p w i -> caches s Q n w' i' ->
  0 < reference_count i -> 0 < reference_count i' ->
  changeable p i -> inode_changed i = true -> ic_linksCount i' <> 0 ->
  wp (iput w ;;; iput w' ;;; ret 0) s (fun v s' => v = 0 /\ both_back s s' Q p i n i').
Proof.
  intros Hc Hpn Hk Hk' Hpos Hpos' Hch Hmark Hl'. apply wp_bind.
  eapply wp_mono; [by apply (put_both s F Q p w i n w' i')|]. intros z s1 (_ & _ & Hput). apply wp_bind.
  eapply wp_mono; [exact Hput|]. intros z' s2 Hb. by apply wp_ret.
Qed.

(** * The new inode *)

(** The number of the new file is free: nobody uses it, and it has neither links
    nor contents. *)
Definition free_number (s : istate) (Q : Z -> list nat) (j : nat) (num : Z) (tl : list Z) (e : iNode) : Prop :=
  inode_list (ds s) (replicate j 0 ++ num :: tl) /\ num <> 0 /\ (j < 511)%nat /\ inode_num num /\
  inode_view s Q num e /\ linksCount e = 0 /\ refs s Q num 0 /\ (IAllocMutex ∉ held (ds s)) /\ size e = 0.

Lemma free_number_moves s s' F F' Q Q' lo dr j num tl e :
  cache_ok s F Q -> moves s s' F' Q Q' lo dr -> dr num = 0 ->
  free_number s Q j num tl e -> free_number s' Q' j num tl e.
Proof.
  intros Hc [[Hc' V R] _ [He Hch]] Hdr (Hl & Hz & Hj & Hn & Hv & Hlk & Hr & Hh & Hsz). split_and!; try done.
  - eapply inode_list_frame; [exact Hl|]. apply Hch. unfold inode_zone. consts. lia.
  - by apply V.
  - replace 0 with (0 + dr num) by lia. by apply R.
  - by destruct He as (_ & _ & _ & ->).
Qed.

(** What the cache and the disk have for it. *)
Lemma free_number_disk s F Q j num tl e :
  cache_ok s F Q -> free_number s Q j num tl e ->
  disk_inode (ds s) num = Some e /\ (forall k i, caches s Q num k i -> ic_linksCount i = 0) /\
  inode_number e = num /\ device_number e = 0.
Proof.
  intros Hc (_ & _ & _ & Hn & Hv & Hl & _).
  assert (disk_inode (ds s) num = Some e /\ (forall k i, caches s Q num k i -> ic_linksCount i = 0)) as [Hd Hk].
  { destruct Hv as [(k & i & Hk & Hli & ->)|[Hno Hd]]; [done|by split]. }
  split_and!; [done|done|..]; by destruct (c_table _ _ _ Hc num e Hn Hd).
Qed.

Lemma getNewINode_step t s F Q j num tl e mode uid gid :
  t = T_REGULAR \/ t = T_DIRECTORY ->
  cache_ok s F Q -> free_number s Q j num tl e -> is_u32 mode -> is_u32 uid -> is_u32 gid ->
  wp (on_disk (getNewINode t mode uid gid)) s (fun r s' => r = num /\ exists d' now,
    s' = set_ds d' s /\ cache_ok s' F Q /\ changes meta_zone (ds s) d' /\
    inode_list d' (replicate (Datatypes.S j) 0 ++ tl) /\
    inode_view s' Q num (updated_inode e now t mode uid gid 0 0) /\
    (forall m d, inode_num m -> m <> num -> inode_view s Q m d -> inode_view s' Q m d)).
Proof.
  intros Htype Hc Hf Hm Hu Hg. pose proof Hf as (Hl & Hz & Hj & Hn & _ & _ & _ & Hh & _).
  destruct (free_number_disk _ _ _ _ _ _ _ Hc Hf) as (Hd & Hk & En & Ed).
  assert (is_u32 (type_code t) /\ type_of_code (type_code t) = t) as [Ht1 Ht2] by (by destruct Htype as [-> | ->]).
  unfold on_disk. apply wp_zoom.
  eapply wp_mono; [apply (getNewINode_pop (ds s) j num tl e); try done; [apply Hc|apply Hc]|].
  intros r d' (-> & Hok & Hl' & Hd' & Ho & Hch). split; [done|].
  pose proof (changes_env _ _ _ Hch) as He.
  assert (inode_area d') as Ha by (eapply inode_area_env; [exact He|apply Hc]).
  destruct (table_changes s F Q num d' _ Hc Hn Hk Hok Ha Hd' En Ed Ho) as (Hc' & Hv' & Hvo).
  eexists d', _. split_and!; [done|done| |done|exact Hv'|done].
  eapply changes_mono; [|exact Hch]. intros m [->|Hm2]; [split; consts; lia|].
  apply inode_zone_meta. by eapply inode_block_zone.
Qed.

(** ** Links and first entries *)

(** What a new file or directory gets after its number. *)
Definition filled (t : iNodeType) (i i' : inCoreiNode) : Prop :=
  same_id i i' /\ ic_linksCount i' = (if decide (t = T_DIRECTORY) then 2 else 1) /\
  ic_size i' = (if decide (t = T_DIRECTORY) then 128 else 0).

Definition first_entries (t : iNodeType) (num p : Z) : list (list Z * Z) :=
  if decide (t = T_DIRECTORY) then [(name_bytes dot, num); (name_bytes dot_dot, p)] else [].

Definition fill_links (t : iNodeType) (new : nat) : IM unit :=
  if decide (t = T_REGULAR) then with_inode new (fun i => updateINodeMetadata i 0 1) else ret tt.

Definition fill_entries (t : iNodeType) (new parent : nat) : IM unit :=
  if decide (t = T_DIRECTORY) then
    let* p := get_inode parent in
    update_inode new (fun i => updateNewDirMetaData i (ic_inode_number p)) ;;;
    ret tt
  else ret tt.

Definition fill (t : iNodeType) (new parent : nat) : IM unit := fill_links t new ;;; fill_entries t new parent.

Lemma wp_seq {S A} (m m' : M S unit) (k : M S A) s P :
  wp (m ;;; m') s (fun _ s1 => wp k s1 P) -> wp (m ;;; m' ;;; k) s P.
Proof. unfold wp, bind. destruct (m s) as [u s1| | |]; try done. by destruct (m' s1). Qed.

Lemma fill_regular s F Q n k i parent :
  cache_ok s F Q -> caches s Q n k i -> 0 < reference_count i -> ic_size i = 0 ->
  wp (fill T_REGULAR k parent) s (fun _ s' => exists i',
    updates s s' F F Q n k i' /\ filled T_REGULAR i i' /\ ds s' = ds s /\
    ic_dataBlockNums i' = ic_dataBlockNums i).
Proof.
  intros Hc Hk Hpos Hz. unfold fill, fill_links, fill_entries. rewrite decide_True, decide_False by done. apply wp_bind.
  pose proof Hk as (Hi & _ & _).
  eapply wp_Ret; [apply (set_links_Ret s k i (fun _ => 1) Hi); by rewrite Hz|]. apply wp_ret.
  exists (relinked 1 i). split; [by apply set_links_updates|]. by split_and!.
Qed.

Lemma fill_directory s F Q l p w ip n k i :
  cache_ok s F Q -> caches s Q p w ip -> caches s Q n k i -> 0 < reference_count i ->
  file_ok (ds s) l i -> Forall data_area (l ++ blocks_of (ds s) i) -> ic_size i = 0 -> (4 <= length l)%nat ->
  over_reads = true ->
  wp (fill T_DIRECTORY k w) s (fun _ s' => exists i' l',
    updates s s' F F Q n k i' /\ filled T_DIRECTORY i i' /\ gained (ds s) l i (ds s') l' i' /\
    file_ok (ds s') l' i' /\ dir_list (ds s') i' = first_entries T_DIRECTORY n p /\
    (length l <= length l' + 4)%nat).
Proof.
  intros Hc Hw Hk Hpos Hf Hda Hz Hl Hor. pose proof Hk as (Hi & _ & En). pose proof Hw as (Hiw & _ & Ep).
  destruct (c_hashed _ _ _ Hc _ _ _ Hk) as (Hn & _ & Hwf & _). destruct (c_hashed _ _ _ Hc _ _ _ Hw) as (Hp & _).
  unfold fill, fill_links, fill_entries. rewrite decide_False, decide_True by done.
  apply wp_bind, wp_ret, wp_bind. eapply wp_Ret; [by apply get_inode_Ret|].
  apply wp_bind. unfold update_inode. apply wp_bind. eapply wp_Ret; [by apply get_inode_Ret|].
  apply wp_bind. unfold on_disk. apply wp_zoom. unfold inode_num in *. consts.
  eapply wp_mono; [apply (updateNewDirMetaData_spec (ds s) l i); [done|done|lia|lia| |done]|].
  { unfold room. change MAX_FILE_SIZE with 2164402176. change (nblocks (0 + 128)) with 1.
    change (nblocks 0) with 0. lia. }
  intros [r i'] d' (l' & Happ & Hdl & Ht & Hch). apply wp_bind. eapply wp_Ret; [apply put_inode_Ret|].
  apply wp_ret, wp_ret. exists i', l'.
  pose proof Happ as (Hf' & _ & Hg & Hsz & Hroom & _).
  assert (ic_size i' = 128) as Hsz'.
  { rewrite Hsz, Hz, length_app. unfold entry_bytes. rewrite !length_app, !length_le_enc.
    destruct c_string_dot as [Hd1 Hd2]. destruct (name_bytes_ok dot Hd1) as [-> _].
    destruct (name_bytes_ok dot_dot Hd2) as [-> _]. done. }
  split_and!; [| |done|done| |].
  - eapply (grow_updates s F Q l n k i i'); [done|exact Hk|done|done|exact Happ|by destruct Ht| |by right].
    eapply touched_wf; [exact Ht|exact Hf'|]. destruct Hwf as (?&?&?&?&?&_&?).
    do 5 (split; [assumption|]). by split.
  - destruct Ht as (? & Hlk & _). split; [done|]. by split; [exact Hlk|].
  - etransitivity; [exact Hdl|]. rewrite En. unfold first_entries. rewrite decide_True by done. by rewrite Ep.
  - rewrite Hsz', Hz in Hroom. change (nblocks 128) with 1 in Hroom. change (nblocks 0) with 0 in Hroom. lia.
Qed.

(** Both cases. *)
Lemma fill_stage t s F Q l p w ip n k i :
  t = T_REGULAR \/ t = T_DIRECTORY ->
  cache_ok s F Q -> caches s Q p w ip -> caches s Q n k i -> 0 < reference_count i ->
  file_ok (ds s) l i -> Forall data_area (l ++ blocks_of (ds s) i) -> ic_size i = 0 -> (4 <= length l)%nat ->
  (t = T_DIRECTORY -> over_reads = true) ->
  wp (fill t k w) s (fun _ s' => exists i' l',
    updates s s' F F Q n k i' /\ filled t i i' /\ rearranged (ds s) l i (ds s') l' i' /\
    file_ok (ds s') l' i' /\ dir_list (ds s') i' = first_entries t n p /\
    (length l <= length l' + 4)%nat /\ numbers_kept (ds s) (ds s')).
Proof.
  intros [-> | ->] Hc Hw Hk Hpos Hf Hda Hz Hl Hor.
  - eapply wp_mono; [by apply (fill_regular s F Q n k i)|]. intros u s' (i' & Hu & Hfl & Eds & En).
    exists i', l. rewrite Eds. pose proof Hfl as (_ & _ & Hz'). rewrite decide_False in Hz' by done.
    assert (blocks_of (ds s) i' = blocks_of (ds s) i) as Eb by (unfold blocks_of; by rewrite En, Hz', Hz).
    split; [done|]. split; [done|]. split; [|split].
    + split; [by rewrite Eb|apply changes_refl].
    + unfold FileBlocks.file_ok in *. rewrite En. by replace (ic_size i') with (ic_size i) by lia.
    + split; [unfold dir_list, dir_data; by rewrite Hz'|]. split; [lia|]. by split.
  - eapply wp_mono; [eapply (fill_directory s F Q l p w ip n k i); try done; by apply Hor|].
    intros u s' (i' & l' & Hu & Hfl & Hg & Hf' & El & Hl'). exists i', l'.
    split; [done|]. split; [done|]. split; [by apply gained_rearranged|]. do 3 (split; [done|]).
    by eapply gained_keeps_numbers.
Qed.

(** * The two stages under the parent *)

(** The number is taken and the parent, inode [p] in node [w], gets its entry. *)
Record entered (s s3 : istate) (F : list nat) (Q : Z -> list nat) (l l3 : list Z)
    (p : Z) (w : nat) (i i3 : inCoreiNode) (file : list Z) (num : Z) (dn : iNode) : Prop := {
  en_cache : cache_ok s3 F Q;
  en_parent : caches s3 Q p w i3;
  en_touched : touched i i3 /\ inode_changed i3 = true /\ ic_size i3 = ic_size i + 64;
  en_free : (length l <= length l3 + 4)%nat;
  en_blocks : blocks_ok (ds s3) (with_view p (getDiskINodeData i3) (inode_view s3 Q)) l3;
  en_dir : dir_ok (ds s3) l3 i3;
  en_view : inode_view s3 Q num dn;
  en_list : dir_list (ds s3) i3 = dir_list (ds s) i ++ [(name_bytes file, num)];
  en_others : forall m d, inode_num m -> m <> p -> m <> num -> inode_view s Q m d ->
    inode_view s3 Q m d /\ same_contents (ds s) (ds s3) d;
  en_refs : forall m c, refs s Q m c -> refs s3 Q m c;
  en_kept : kept 0 s s3 Q Q;
  en_count : (length (blocks_of (ds s3) i3) + length l3 = length (blocks_of (ds s) i) + length l)%nat
}.

(** What was there before a step, from what is there after it. *)
Lemma view_back s s' F F' Q Q' m d :
  cache_ok s F Q -> cache_ok s' F' Q' -> inode_num m ->
  (forall e, inode_view s Q m e -> inode_view s' Q' m e) -> inode_view s' Q' m d -> inode_view s Q m d.
Proof.
  intros Hc Hc' Hm Hv Hd. destruct (inode_view_total _ _ _ _ Hc Hm) as [e He].
  by rewrite (inode_view_unique _ _ _ _ _ _ Hc' Hd (Hv e He)).
Qed.

(** The disk after the number has been taken. *)
Lemma numbered_blocks t s d2 F Q l num e now mode uid gid :
  cache_ok s F Q -> blocks_ok (ds s) (inode_view s Q) l -> cache_ok (set_ds d2 s) F Q -> inode_num num ->
  changes meta_zone (ds s) d2 -> inode_view s Q num e -> size e = 0 ->
  inode_view (set_ds d2 s) Q num (updated_inode e now t mode uid gid 0 0) ->
  (forall m d, inode_num m -> m <> num -> inode_view s Q m d -> inode_view (set_ds d2 s) Q m d) ->
  blocks_ok d2 (inode_view (set_ds d2 s) Q) l /\
  forall m d, inode_num m -> inode_view s Q m d -> same_contents (ds s) d2 d.
Proof.
  intros Hc Hb Hc2 Hn Hch Hve Hze Hv Ho. pose proof (c_disk _ _ _ Hc2) as Hok. split.
  - apply (blocks_meta (ds s) (inode_view s Q) l); [done|by eapply cache_view_ok|done|done|].
    intros m Hm d Hd. destruct (decide (m = num)) as [->|Hne].
    + right. split; [by rewrite (inode_view_unique _ _ _ _ _ _ Hc2 Hd Hv)|].
      intros d0 Hd0. by rewrite (inode_view_unique _ _ _ _ _ _ Hc Hd0 Hve).
    + left. eapply (view_back s); [done|done|done| |done]. intros e'. by apply Ho.
  - intros m d Hm Hd. by apply (contents_meta (ds s) (inode_view s Q) l d2 m d).
Qed.

Lemma enter_stage {A} t s F Q l p w i file size j num tl e mode uid gid (K : Z -> IM A)
    (P : A -> istate -> Prop) :
  t = T_REGULAR \/ t = T_DIRECTORY ->
  cache_ok s F Q -> blocks_ok (ds s) (inode_view s Q) l -> caches s Q p w i -> 0 < reference_count i ->
  inode_view s Q p (getDiskINodeData i) -> dir_ok (ds s) l i ->
  c_string file -> (length file <= 61)%nat -> name_readable size -> room l (ic_size i) 64 ->
  free_number s Q j num tl e -> num < 65535 -> num <> p -> is_u32 mode -> is_u32 uid -> is_u32 gid ->
  (forall s3 i3 l3 now,
     entered s s3 F Q l l3 p w i i3 file num (updated_inode e now t mode uid gid 0 0) ->
     held (ds s3) = held (ds s) -> inode_list (ds s3) (replicate (Datatypes.S j) 0 ++ tl) -> wp (K num) s3 P) ->
  wp (let* n := on_disk (getNewINode t mode uid gid) in
      update_inode w (fun i => getAndUpdateDirectoryTable i n file size) ;;; K n) s P.
Proof.
  intros Ht Hc Hb Hk Hpos Hv Hd Hfile Hlen Hrd Hroom Hf Hnum Hnp Hm Hu Hg HK.
  pose proof Hf as (_ & Hz & _ & Hn & Hve & _ & _ & _ & Hze). destruct (c_hashed _ _ _ Hc _ _ _ Hk) as (Hp & _).
  apply wp_bind. eapply wp_mono; [by eapply getNewINode_step|].
  intros r s2 (-> & d2 & now & -> & Hc2 & Hch2 & Hnos2 & Hv2 & Hvo2).
  destruct (numbered_blocks _ _ _ _ _ _ _ _ _ _ _ _ Hc Hb Hc2 Hn Hch2 Hve Hze Hv2 Hvo2) as [Hb2 Hs2].
  pose proof (b_area _ _ _ Hb _ _ Hp Hv) as Hda.
  destruct (dir_frame_meta (ds s) d2 l i Hd Hda (c_disk _ _ _ Hc2) Hch2) as (Hd2 & El2 & Eb2).
  pose proof (Hvo2 p _ Hp ltac:(done) Hv) as Hvp2. pose proof (b_area _ _ _ Hb2 _ _ Hp Hvp2) as Hda2.
  set (s2 := set_ds d2 s) in *. apply wp_bind.
  eapply wp_mono; [eapply (add_entry_step s2 F Q l p w i num file size); try done; unfold inode_num in Hn; lia|].
  intros u s3 (i3 & l3 & [Hu3 Hk3 (Ht3 & Hmark3 & Esz3) Hg3 Hd3 Hl3 El3]).
  destruct (gained_keeps_numbers _ _ _ _ _ _ Hg3 Hda2) as [Eh3 Hnos3].
  pose proof (updates_ok _ _ _ _ _ _ _ _ _ Hc2 Hk Hu3) as Hc3.
  assert (forall m d, inode_num m -> m <> p -> inode_view s2 Q m d -> inode_view s3 Q m d) as Ho3.
  { intros m d Hm' Hmp. by apply (updates_view_other s2 s3 F F Q p w i3 i m d Hc2 Hk Hu3 Hm' Hmp). }
  pose proof (gained_rearranged _ _ _ _ _ _ Hg3) as Hre.
  pose proof Hd3 as (Hf3 & _).
  apply (HK s3 i3 l3 now).
  2:{ rewrite Eh3. by destruct (changes_env _ _ _ Hch2) as (_ & _ & _ & Eh2). }
  2:{ by apply Hnos3. }
  split.
  - done.
  - done.
  - done.
  - done.
  - apply (blocks_step (ds s2) (inode_view s2 Q) l _ _ _ p (getDiskINodeData i) (getDiskINodeData i3));
      [exact Hb2| |done|done| |exact Hre|exact Hf3|].
    + apply with_view_ok; [by eapply cache_view_ok|]. by apply (c_hashed _ _ _ Hc3 _ _ _ Hk3).
    + unfold with_view. by rewrite decide_True.
    + unfold with_view. intros m Hm' Hmp d Hmd. rewrite decide_False in Hmd by done. left.
      eapply (view_back s2 s3); [done|done|done| |done]. intros d'. by apply Ho3.
  - done.
  - by apply Ho3.
  - rewrite El3. cbn [ds set_ds s2]. by rewrite El2.
  - intros m d Hm' Hmp Hmn Hmd. pose proof (Hvo2 m d Hm' Hmn Hmd) as Hmd2. split; [by apply Ho3|].
    eapply same_contents_trans; [by apply (Hs2 m)|].
    apply (contents_step (ds s2) (inode_view s2 Q) l _ l3 p (getDiskINodeData i) (getDiskINodeData i3) m d Hb2);
      done.
  - intros m c Hmc. pose proof Ht3 as ((_&_&_&_&_&_&Er3&_)&_).
    exact (updates_refs_same s2 s3 F F Q p w i3 i m c Hc2 Hk Hu3 Er3 Hmc).
  - apply (updates_kept 0 s2 s3 F F Q p w i3 i Hk Hu3). by destruct Ht3 as (_ & -> & _).
  - destruct Hre as [Pm _]. apply Permutation_length in Pm. rewrite !length_app in Pm. rewrite Pm.
    cbn [ds set_ds s2]. by rewrite Eb2.
Qed.

(** The times, the size and the blocks may have changed. *)
Definition same_attributes (d d' : iNode) : Prop :=
  type d' = type d /\ file_mode d' = file_mode d /\ owner_uid d' = owner_uid d /\ group_uid d' = group_uid d /\
  linksCount d' = linksCount d.

Lemma touched_attributes i i' : touched i i' -> same_attributes (getDiskINodeData i) (getDiskINodeData i').
Proof. intros ((_&_&?&?&?&?&_&_)&?&_). by split_and!. Qed.

#[export] Instance same_attributes_preorder : PreOrder same_attributes.
Proof.
  split; [by intros d|]. intros d1 d2 d3 (?&?&?&?&?) (?&?&?&?&?). unfold same_attributes. split_and!; congruence.
Qed.

Lemma same_mode d d' : same_attributes d d' -> file_mode d' = file_mode d.
Proof. by intros (_ & ? & _). Qed.

(** What a client sees after the creation of inode [num] in directory [p]. *)
Record created (t : iNodeType) (s s' : istate) (F' : list nat) (Q Q' : Z -> list nat) (l' : list Z)
    (p : Z) (dp : iNode) (file : list Z) (num : Z) (dn dp' : iNode) : Prop := {
  cr_cache : cache_ok s' F' Q';
  cr_blocks : blocks_ok (ds s') (inode_view s' Q') l';
  cr_new : inode_view s' Q' num dn;
  cr_entries : dir_list (ds s') (dir_of dn) = first_entries t num p;
  cr_parent : inode_view s' Q' p dp' /\ file_mode dp' = file_mode dp /\ linksCount dp' = linksCount dp /\
    size dp' mod 64 = 0 /\ same_attributes dp dp';
  cr_list : dir_list (ds s') (dir_of dp') = dir_list (ds s) (dir_of dp) ++ [(name_bytes file, num)];
  cr_others : forall m d, inode_num m -> m <> p -> m <> num -> inode_view s Q m d ->
    inode_view s' Q' m d /\ same_contents (ds s) (ds s') d
}.

(** The new inode. *)
Definition new_inode (t : iNodeType) (mode uid gid num : Z) (d : iNode) : Prop :=
  inode_number d = num /\ type d = t /\ file_mode d = mode /\ owner_uid d = uid /\ group_uid d = gid /\
  linksCount d = (if decide (t = T_DIRECTORY) then 2 else 1) /\
  size d = (if decide (t = T_DIRECTORY) then 128 else 0).

Lemma filled_inode t i i' e now mode uid gid num :
  filled t i i' -> getDiskINodeData i = updated_inode e now t mode uid gid 0 0 -> inode_number e = num ->
  new_inode t mode uid gid num (getDiskINodeData i').
Proof.
  intros ((E1&_&E3&E4&E5&E6&_)&E7&E8) E En. unfold getDiskINodeData, updated_inode in E.
  injection E as ? ? ? ? ? ? ? ? ? ? ? ?. unfold new_inode, getDiskINodeData. cbn. split_and!; congruence.
Qed.

(** One inode is rearranged, then the inode table is written. *)
Lemma rearrange_then_write s3 s5 s6 V3 V6 l3 l5 n d4 d5 :
  blocks_ok s3 V3 l3 -> inode_num n -> V3 n d4 -> rearranged s3 l3 (dir_of d4) s5 l5 (dir_of d5) ->
  file_ok s5 l5 (dir_of d5) -> wf_iNode d5 -> changes inode_zone s5 s6 -> ok s6 -> view_ok V6 -> V6 n d5 ->
  (forall m d, inode_num m -> m <> n -> V6 m d -> V3 m d) ->
  blocks_ok s6 V6 l5 /\ same_contents s5 s6 d5 /\
  forall m d, inode_num m -> m <> n -> V3 m d -> same_contents s3 s6 d.
Proof.
  intros Hb Hn H4 Hre Hf Hwf Hch Hok HV6 H5 Hback. set (V5 := with_view n d5 V3).
  assert (V5 n d5) as H5' by (unfold V5, with_view; by rewrite decide_True).
  assert (blocks_ok s5 V5 l5) as Hb5.
  { apply (blocks_step s3 V3 l3 s5 V5 l5 n d4 d5); [done|by apply with_view_ok; [apply Hb|]|done..|].
    unfold V5, with_view. intros m _ Hmn d. rewrite decide_False by done. by left. }
  assert (changes meta_zone s5 s6) as Hch' by (eapply changes_mono; [|exact Hch]; apply inode_zone_meta).
  split; [|split].
  - apply (blocks_meta s5 V5 l5); [done..|]. intros m Hm d Hd. left. unfold V5, with_view.
    destruct (decide (m = n)) as [->|Hmn]; [by apply (v_unique _ HV6 n)|by apply Hback].
  - by eapply contents_meta.
  - intros m d Hm Hmn Hd. eapply same_contents_trans.
    + apply (contents_step s3 V3 l3 s5 l5 n d4 d5 m d); done.
    + apply (contents_meta s5 V5 l5 s6 m d); [done..|]. unfold V5, with_view. by rewrite decide_False.
Qed.

(** The new inode, in node [w'], has been fetched and filled. *)
Record fetched (t : iNodeType) (s3 s5 : istate) (F : list nat) (Q Q' : Z -> list nat) (l3 l5 : list Z)
    (p : Z) (w w' : nat) (i3 i4 i5 : inCoreiNode) (num : Z) : Prop := {
  fe_cache : cache_ok s5 F Q';
  fe_parent : caches s5 Q' p w i3;
  fe_new : caches s5 Q' num w' i5;
  fe_data : inode_view s3 Q num (getDiskINodeData i4);
  fe_filled : filled t i4 i5 /\ 0 < reference_count i4;
  fe_moved : rearranged (ds s3) l3 i4 (ds s5) l5 i5;
  fe_file : file_ok (ds s5) l5 i5;
  fe_list : dir_list (ds s5) i5 = first_entries t num p;
  fe_others : forall m d, inode_num m -> m <> num -> inode_view s3 Q m d -> inode_view s5 Q' m d;
  fe_refs : forall m c, refs s3 Q m c -> refs s5 Q' m (c + one num m);
  fe_kept : kept 0 s3 s5 Q Q'
}.

Lemma fetch_stage {A} t s s3 F Q l l3 p w i i3 file num dn (K : nat -> IM A) (P : A -> istate -> Prop) :
  t = T_REGULAR \/ t = T_DIRECTORY -> entered s s3 F Q l l3 p w i i3 file num dn -> size dn = 0 ->
  refs s3 Q num 0 -> (0 < length F)%nat -> (8 <= length l)%nat ->
  0 < reference_count i -> inode_num num -> num <> p -> (t = T_DIRECTORY -> over_reads = true) ->
  (forall s5 F' Q' l5 w' i4 i5, fetched t s3 s5 F' Q Q' l3 l5 p w w' i3 i4 i5 num ->
     numbers_kept (ds s3) (ds s5) -> (length l3 <= length l5 + 4)%nat -> wp (K w') s5 P) ->
  wp (let* newINode := iget num 0 in
      let* new := deref newINode in
      fill_links t new ;;; fill_entries t new w ;;; K new) s3 P.
Proof.
  intros Ht [Hc3 Hk3 (Ht3 & _) Hfree Hb3 Hd3 Hv3 _ _ _ _ _] Hz Hr0 HF Hlen Hpos Hn Hnp Hor HK.
  apply wp_bind. eapply wp_mono; [apply (iget_same s3 F Q num); [done|done|]|].
  { intros c Hcn. rewrite (refs_unique _ _ _ _ _ _ Hc3 Hcn Hr0). lia. }
  intros [w'|] s4; [|intros (-> & _); cbn in HF; lia].
  intros (F4 & Q4 & i4 & [Hc4 V4 R4] & S4 & Ed4 & Hk4' & Hv4 & Hpos4 & _ & _ & Hot4).
  pose proof (inode_view_unique _ _ _ _ _ _ Hc3 Hv4 Hv3) as Ei4.
  pose proof Ht3 as ((_&_&_&_&_&_&Er3&_)&_).
  assert (caches s4 Q4 p w i3) as Hk4 by (apply Hot4; [by intros ->|done|lia]).
  assert (with_view p (getDiskINodeData i3) (inode_view s3 Q) num (getDiskINodeData i4)) as Hvn3.
  { unfold with_view. by rewrite decide_False. }
  assert (ic_size i4 = 0) as Hz4 by (change (size (getDiskINodeData i4) = 0); by rewrite Ei4).
  apply wp_bind. eapply wp_Ret; [reflexivity|]. apply wp_seq.
  eapply wp_mono; [eapply (fill_stage t s4 F4 Q4 l3 p w i3 num w' i4); try done; rewrite ?Ed4|].
  { exact (b_file _ _ _ Hb3 _ _ Hn Hvn3). }
  { exact (b_area _ _ _ Hb3 _ _ Hn Hvn3). }
  { lia. }
  intros u s5 (i5 & l5 & Hu5 & Hfl5 & Hre5 & Hf5 & El5 & Hl5 & Hno5). rewrite Ed4 in Hre5, Hno5.
  apply (HK s5 F4 Q4 l5 w' i4 i5); [|done|done]. pose proof Hfl5 as ((_&_&_&_&_&_&Er5&_)&_). split.
  - exact (updates_ok _ _ _ _ _ _ _ _ _ Hc4 Hk4' Hu5).
  - exact (updates_others s4 s5 F4 F4 Q4 num w' i5 i4 p w i3 Hk4' Hu5 ltac:(by intros ->) Hk4).
  - apply (updates_caches _ _ _ _ _ _ _ _ _ _ _ _ Hu5 Hk4'). by left.
  - done.
  - by split.
  - done.
  - done.
  - done.
  - intros m d Hm Hmn Hd. apply (updates_view_other s4 s5 F4 F4 Q4 num w' i5 i4 m d Hc4 Hk4' Hu5 Hm Hmn).
    by apply V4.
  - intros m c Hmc. refine (updates_refs_same s4 s5 F4 F4 Q4 num w' i5 i4 m _ Hc4 Hk4' Hu5 Er5 _). by apply R4.
  - eapply kept_then; [exact Hc4|exact S4|apply (updates_kept _ _ _ _ _ _ _ _ _ _ Hk4' Hu5)].
    destruct Hfl5 as (_ & -> & _). by destruct (decide _).
Qed.

(** Both are given back. *)
Lemma finish_stage t s s3 s5 F F4 Q Q4 l l3 l5 p w w' i i3 i4 i5 file num e now mode uid gid :
  entered s s3 F Q l l3 p w i i3 file num (updated_inode e now t mode uid gid 0 0) ->
  fetched t s3 s5 F4 Q Q4 l3 l5 p w w' i3 i4 i5 num ->
  inode_number e = num -> changeable p i -> 0 < reference_count i -> inode_num p -> inode_num num -> num <> p ->
  wp (iput w ;;; iput w' ;;; ret 0) s5 (fun v s' => v = 0 /\ exists F' l' dn dp',
    new_inode t mode uid gid num dn /\ (forall m c, refs s3 Q m c -> refs s' Q4 m (c + - one p m)) /\
    numbers_kept (ds s5) (ds s') /\ l' = l5 /\ size dp' = ic_size i + 64 /\
    (length (blocks_of (ds s') (dir_of dp')) + length (blocks_of (ds s') (dir_of dn)) + length l' =
     length (blocks_of (ds s) i) + length l)%nat /\ kept 0 s s' Q Q4 /\
    created t s s' F' Q Q4 l' p (getDiskINodeData i) file num dn dp').
Proof.
  intros [Hc3 Hk3 (Ht3 & Hmark & Esz3) _ Hb3 Hd3 Hv3 El3 Ho3 Hr3 K3 Hcnt3] [Hc5 Hk5 Hk5' Hv4 [Hfl5 Hpos4] Hre5 Hf5 El5 Ho5 Hr5 K5]
    Een Hch Hpos Hp Hn Hnp.
  pose proof Hfl5 as ((_&_&_&_&_&_&Er5&_)&Elk5&_). pose proof Ht3 as ((_&_&_&_&_&_&Er3&_)&Elk3&_).
  pose proof (inode_view_unique _ _ _ _ _ _ Hc3 Hv4 Hv3) as Ei4.
  eapply wp_mono; [apply (put_two s5 F4 Q4 p w i3 num w' i5); try done; try (rewrite ?Er3, ?Er5; done)|].
  { destruct Hch as [?|[-> ?]]; [left; congruence|right; split; congruence]. }
  { rewrite Elk5. by destruct (decide _). }
  intros v s6 (-> & F6 & Hc6 & Hch6 & Hvp6 & Hvn6 & Hvo6 & Hr6 & K6). split; [done|].
  assert (forall m d, inode_num m -> m <> p -> m <> num -> inode_view s3 Q m d -> inode_view s6 Q4 m d) as Ho6.
  { intros m d Hm Hmp Hmn Hd. apply Hvo6; [done..|]. by apply Ho5. }
  destruct (rearrange_then_write (ds s3) (ds s5) (ds s6) (with_view p (getDiskINodeData i3) (inode_view s3 Q))
    (inode_view s6 Q4) l3 l5 num (getDiskINodeData i4) (getDiskINodeData i5)) as (Hb6 & Hs6 & Hso6); try done.
  { unfold with_view. by rewrite decide_False. }
  { apply (c_hashed _ _ _ Hc5 _ _ _ Hk5'). }
  { apply (c_disk _ _ _ Hc6). }
  { by eapply cache_view_ok. }
  { intros m d Hm Hmn Hd. unfold with_view. destruct (decide (m = p)) as [->|Hmp].
    - by eapply inode_view_unique.
    - eapply (view_back s3 s6); [done|done|done| |done]. intros d'. by apply Ho6. }
  assert (same_contents (ds s3) (ds s6) (getDiskINodeData i3)) as Hsp6.
  { apply (Hso6 p); [done|done|]. unfold with_view. by rewrite decide_True. }
  exists F6, l5, (getDiskINodeData i5), (getDiskINodeData i3). split_and!.
  - by eapply filled_inode.
  - intros m c Hmc. replace (c + - one p m) with (c + one num m + - one p m + - one num m) by lia.
    by apply Hr6, Hr5.
  - eapply numbers_kept_changes; [exact Hch6|]. unfold inode_zone. consts. lia.
  - done.
  - exact Esz3.
  - destruct Hre5 as [P _]. apply Permutation_length in P. rewrite !length_app in P.
    rewrite (empty_blocks _ i4) in P by (change (size (getDiskINodeData i4) = 0); by rewrite Ei4).
    destruct Hs6 as [-> _], Hsp6 as [-> _]. change (length (blocks_of (ds s3) (dir_of (getDiskINodeData i3))))
      with (length (blocks_of (ds s3) i3)). change (length (blocks_of (ds s5) (dir_of (getDiskINodeData i5))))
      with (length (blocks_of (ds s5) i5)). cbn [length] in P. lia.
  - eapply kept_then; [exact Hc5| |exact K6]. eapply (kept_trans s s3 s5 _ _ _ _ (fun _ => 0)); [exact Hc3|done| |done|done].
    intros m c Hmc. rewrite Z.add_0_r. by apply Hr3.
  - split; [done|done|done| | | |].
    + by rewrite (same_dir_list _ _ _ Hs6).
    + pose proof (touched_attributes _ _ Ht3) as Hat. destruct Ht3 as ((_&_&Em&_)&_), Hd3 as (_ & _ & Hal & _).
      split; [done|]. split; [done|]. split; [done|]. by split.
    + by rewrite (same_dir_list _ _ _ Hsp6).
    + intros m d Hm Hmp Hmn Hd. destruct (Ho3 m d Hm Hmp Hmn Hd) as [Hd3' Hs3]. split; [by apply Ho6|].
      eapply same_contents_trans; [exact Hs3|]. apply (Hso6 m); [done|done|]. unfold with_view. by rewrite decide_False.
Qed.

(** * The whole operation *)

Definition made_mode (t : iNodeType) (mode : Z) : Z :=
  if decide (t = T_DIRECTORY) then Z.lor S_IFDIR mode else mode.

(** What came before does not matter when it kept the contents. *)
Lemma created_after t s s1 s' F F1 F' Q Q1 Q' l l' lo dr p dp file num dn dp' :
  fs_ok s F Q l -> moves s s1 F1 Q Q1 lo dr -> inode_num p -> inode_view s Q p dp ->
  created t s1 s' F' Q1 Q' l' p dp file num dn dp' -> created t s s' F' Q Q' l' p dp file num dn dp'.
Proof.
  intros Hfs Hm Hp Hv [A1 A2 A3 A4 A5 A6 A7]. destruct (fs_moves _ _ _ _ _ _ _ _ _ Hfs Hm) as [_ Hs].
  pose proof (m_same _ _ _ _ _ _ _ Hm) as [_ V _]. split; try done.
  - by rewrite A6, (same_dir_list _ _ _ (Hs p dp Hp Hv)).
  - intros m d Hn Hmp Hmn Hd. destruct (A7 m d Hn Hmp Hmn ltac:(by apply V)) as [? ?]. split; [done|].
    eapply same_contents_trans; [by apply (Hs m)|done].
Qed.

(** Nobody uses a root without links. *)
Definition root_idle (s : istate) (Q : Z -> list nat) (p : Z) (dp : iNode) : Prop :=
  p = 0 -> linksCount dp = 0 -> refs s Q 0 0.

(** The parent can be changed under the eyes of the cache. *)
Lemma parent_changeable s s1 F Q F1 Q1 lo dr N p w i dp :
  cache_ok s F Q -> moves s s1 F1 Q Q1 lo dr -> dr p = 1 -> in_hand N s1 F1 Q1 p w -> caches s1 Q1 p w i ->
  inode_num p -> inode_view s Q p dp -> getDiskINodeData i = dp -> root_idle s Q p dp ->
  linked s Q p /\ changeable p i.
Proof.
  intros Hc Hm1 Hdr Hh Hk Hpn Hv Ei Hidle. pose proof (m_same _ _ _ _ _ _ _ Hm1) as [Hc1 V1 R1].
  assert (linked s Q p) as Hlp.
  { destruct Hh as (? & _ & _ & [->|Hl] & _); [by left|right]. intros d Hvd. by apply Hl, V1. }
  split; [done|]. destruct (decide (ic_linksCount i = 0)) as [Hl0|?]; [right|by left].
  assert (linksCount dp = 0) as Hl0' by (rewrite <- Ei; exact Hl0).
  destruct Hlp as [->|Hl]; [|by apply Hl in Hv]. split; [done|].
  apply (refs_cached _ _ _ _ _ _ _ Hc1 Hk). rewrite <- Hdr. exact (R1 _ _ (Hidle eq_refl Hl0')).
Qed.

(** The names that are copied can be read: that of the path, in a buffer of its
    size, and those of the entries of a new directory, which are shorter than an
    entry has room for. *)
Definition names_readable (t : iNodeType) (path : list Z) : Prop :=
  name_readable (length path + 1) /\ (t = T_DIRECTORY -> over_reads = true).

(** What it takes: a number, a few blocks and an entry. *)
Record taken (s s' : istate) (l l' : list Z) (j : nat) (tl : list Z) (dp dn dp' : iNode) : Prop := {
  tk_held : held (ds s') = held (ds s);
  tk_numbers : inode_list (ds s') (replicate (Datatypes.S j) 0 ++ tl);
  tk_blocks : (length l <= length l' + 8)%nat;
  tk_size : size dp' = size dp + 64;
  tk_count : (length (blocks_of (ds s') (dir_of dp')) + length (blocks_of (ds s') (dir_of dn)) + length l' =
    length (blocks_of (ds s) (dir_of dp)) + length l)%nat
}.

Lemma createFile_created t s F Q l dir file p dp j num tl e mode ctx :
  t = T_REGULAR \/ t = T_DIRECTORY -> fs_ok s F Q l -> few_refs s Q -> (2 <= length F)%nat ->
  c_string (dir ++ file) -> last dir = Some slash -> slash ∉ file -> (length file <= 61)%nat ->
  walks s Q 0 (path_names dir) (Some p) -> inode_view s Q p dp -> S_ISDIR (file_mode dp) = true ->
  find_entry file (dir_list (ds s) (dir_of dp)) = None -> root_idle s Q p dp ->
  room l (size dp) 64 -> (8 <= length l)%nat -> free_number s Q j num tl e -> num < 65535 ->
  is_u32 mode -> is_u32 (fc_uid ctx) -> is_u32 (fc_gid ctx) -> names_readable t (dir ++ file) ->
  wp (createFile (dir ++ file) t mode ctx) s (fun v s' => v = 0 /\ exists F' Q' l' dn dp',
    linked s Q p /\ new_inode t (made_mode t mode) (fc_uid ctx) (fc_gid ctx) num dn /\
    created t s s' F' Q Q' l' p dp file num dn dp' /\ taken s s' l l' j tl dp dn dp' /\
    (forall m c, refs s Q m c -> refs s' Q' m c) /\ kept 0 s s' Q Q').
Proof.
  intros Ht Hfs Hfew HF Hpath Hdir Hfile Hlen Hw Hv Hd Hno Hidle Hroom Hl8 Hf Hnum Hm Hu Hg [Hrd Hor].
  pose proof Hfs as [Hc Htree Hb]. pose proof Hf as (_ & Hz & _ & Hn & Hvn & Hln & Hrn & _).
  unfold createFile. apply wp_bind. eapply wp_mono; [by eapply (validate_spec t)|].
  intros r s1 (w & F1 & Q1 & -> & Hm1 & Hh).
  destruct (parent_in_hand _ _ _ _ _ _ _ _ _ _ _ _ _ Hc Htree Hm1 Hh Hv Hd)
    as (i & Hk & Hpos & Ei & Hdok & _ & El & Hpn & HF1).
  destruct (fs_moves _ _ _ _ _ _ _ _ _ Hfs Hm1) as [[Hc1 Ht1 Hb1] Hs1].
  pose proof (m_same _ _ _ _ _ _ _ Hm1) as [_ V1 R1].
  destruct (parent_changeable _ _ _ _ _ _ _ _ _ _ _ _ _ Hc Hm1 (one_self p) Hh Hk Hpn Hv Ei Hidle) as [Hlp Hch].
  assert (num <> p) as Hnp.
  { intros ->. destruct Hlp as [->|Hl]; [done|]. by apply Hl in Hvn. }
  apply Forall_app in Hpath as [Hpd Hpf].
  assert (free_number s1 Q1 j num tl e) as Hf1.
  { eapply free_number_moves; [exact Hc|exact Hm1| |done]. unfold one. by rewrite decide_False. }
  destruct (free_number_disk _ _ _ _ _ _ _ Hc Hf) as (_ & _ & Een & _).
  assert (is_u32 (made_mode t mode)) as Hmm.
  { unfold made_mode. destruct (decide _); [by apply lor_u32|done]. }
  fold (made_mode t mode).
  apply (enter_stage t s1 F1 Q1 l p w i file _ j num tl e); try done; rewrite ?Ei; [by apply V1|..].
  { change (ic_size i) with (size (getDiskINodeData i)). by rewrite Ei. }
  intros s3 i3 l3 now Hent Eh3 Hnos3. cbv beta.
  eapply (fetch_stage t s1 s3 F1 Q1 l l3 p w i i3 file num _ (fun new => iput w ;;; iput new ;;; ret 0));
    [done|exact Hent|done|..]; try done.
  { apply (en_refs _ _ _ _ _ _ _ _ _ _ _ _ _ Hent). replace 0 with (0 + one p num)
      by (unfold one; by rewrite decide_False). by apply R1. }
  { lia. }
  intros s5 F5 Q5 l5 w' i4 i5 Hfe [Eh5 Hnos5] Hl5.
  eapply wp_mono; [by eapply (finish_stage t s1 s3 s5)|].
  intros v s' (-> & F' & l' & dn & dp' & Hnew & Hr & [Eh6 Hnos6] & -> & Esz & Ecnt & K & Hcr). split; [done|].
  rewrite Ei in Hcr. exists F', Q5, l5, dn, dp'. split; [done|]. split; [done|]. split; [by eapply created_after|].
  split.
  { split.
    - rewrite Eh6, Eh5, Eh3. by destruct (changes_env _ _ _ (m_disk _ _ _ _ _ _ _ Hm1)) as (_ & _ & _ & ->).
    - by apply Hnos6, Hnos5.
    - pose proof (en_free _ _ _ _ _ _ _ _ _ _ _ _ _ Hent). lia.
    - rewrite Esz. f_equal. change (size (getDiskINodeData i) = size dp). by rewrite Ei.
    - rewrite Ecnt. do 2 f_equal. destruct (Hs1 p dp Hpn Hv) as [<- _].
      change (blocks_of (ds s1) i) with (blocks_of (ds s1) (dir_of (getDiskINodeData i))). by rewrite Ei. }
  split.
  - intros m c Hmc. replace c with (c + one p m + - one p m) by lia.
    by apply Hr, (en_refs _ _ _ _ _ _ _ _ _ _ _ _ _ Hent), R1.
  - eapply kept_trans; [exact Hc1|by eapply moves_kept|exact R1|exact (one_nonneg p)|done].
Qed.

(** * The file system afterwards *)

Section afterwards.
Context (t : iNodeType) (s s' : istate) (F F' : list nat) (Q Q' : Z -> list nat) (l l' : list Z).
Context (p : Z) (dp : iNode) (file : list Z) (num : Z) (e dn dp' : iNode) (mode uid gid : Z).
Context (Htype : t = T_REGULAR \/ t = T_DIRECTORY) (Hfs : fs_ok s F Q l).
Context (Hcr : created t s s' F' Q Q' l' p dp file num dn dp').
Context (Hnew : new_inode t (made_mode t mode) uid gid num dn).
Context (Hkind : S_ISDIR (made_mode t mode) = bool_decide (t = T_DIRECTORY)).
Context (Hp : inode_num p) (Hv : inode_view s Q p dp) (Hd : S_ISDIR (file_mode dp) = true).
Context (Hlp : linked s Q p) (Hp' : p < 65535).
Context (Hn : inode_num num) (Hz : num <> 0) (Hnum : num < 65535).
Context (Hvn : inode_view s Q num e) (Hln : linksCount e = 0).
Context (Hfile : c_string file) (Hlen : (length file <= 61)%nat).

Lemma new_not_linked : ~ linked s Q num.
Proof. intros [->|Hl]; [done|by apply Hl in Hvn]. Qed.

Lemma new_linked : linked s' Q' num.
Proof.
  right. intros d Hd'. rewrite (inode_view_unique _ _ _ _ _ _ (cr_cache _ _ _ _ _ _ _ _ _ _ _ _ _ Hcr) Hd'
    (cr_new _ _ _ _ _ _ _ _ _ _ _ _ _ Hcr)).
  destruct Hnew as (_&_&_&_&_& -> &_). by destruct (decide _).
Qed.

Lemma others_back m d :
  inode_num m -> m <> p -> m <> num -> inode_view s' Q' m d ->
  inode_view s Q m d /\ same_contents (ds s) (ds s') d.
Proof.
  intros Hm Hmp Hmn Hd'. pose proof (cr_others _ _ _ _ _ _ _ _ _ _ _ _ _ Hcr) as Ho.
  assert (inode_view s Q m d) as Hd0; [|by split; [|apply (Ho m)]].
  eapply (view_back s s'); [apply Hfs|apply Hcr|done| |done]. intros d0 ?. by apply Ho.
Qed.

Lemma linked_after m : inode_num m -> linked s Q m -> linked s' Q' m.
Proof.
  intros Hm Hl. pose proof (cr_parent _ _ _ _ _ _ _ _ _ _ _ _ _ Hcr) as (Hvp & _ & El & _).
  destruct (decide (m = num)) as [->|Hmn]; [by apply new_not_linked in Hl|].
  destruct Hl as [->|Hl]; [by left|right]. intros d Hd'. destruct (decide (m = p)) as [->|Hmp].
  - rewrite (inode_view_unique _ _ _ _ _ _ (cr_cache _ _ _ _ _ _ _ _ _ _ _ _ _ Hcr) Hd' Hvp), El. by apply Hl.
  - apply Hl. by apply others_back.
Qed.

(** The parent and the new directory are well-formed. *)
Lemma parent_after :
  dir_ok (ds s') l' (dir_of dp') /\ Forall (fun x => linked s' Q' (snd x)) (dir_list (ds s') (dir_of dp')).
Proof.
  destruct Hcr as [_ Hb Hvn' _ (Hvp & Em & _ & Hal & _) El _].
  destruct (fs_tree _ _ _ _ Hfs p dp Hp Hv Hd) as ((_ & _ & _ & Hterm) & _ & Hlink).
  destruct (name_bytes_name file Hfile Hlen) as [Hzf _]. split.
  - split; [by apply (b_file _ _ _ Hb p)|]. split; [|split; [done|]].
    + change (S_ISDIR (file_mode dp') = true). by rewrite Em.
    + rewrite El. apply Forall_app_2; [done|]. constructor; [|constructor]. split; [done|].
      cbn [snd]. unfold inode_num in Hn. lia.
  - rewrite El. apply Forall_app_2; [|constructor; [apply new_linked|constructor]].
    rewrite Forall_forall in *. intros x Hx. apply linked_after; [|by apply Hlink].
    apply Hterm in Hx as [_ Hr]. unfold inode_num. consts. lia.
Qed.

Lemma new_after :
  S_ISDIR (file_mode dn) = true ->
  dir_ok (ds s') l' (dir_of dn) /\ Forall (fun x => linked s' Q' (snd x)) (dir_list (ds s') (dir_of dn)).
Proof.
  destruct Hcr as [_ Hb Hvn' El _ _ _]. destruct Hnew as (_&_&Em&_&_&_&Hsz). intros Hdir.
  rewrite Em, Hkind in Hdir. apply bool_decide_eq_true in Hdir as Et.
  rewrite decide_True in Hsz by done. unfold first_entries in El. rewrite decide_True in El by done.
  unfold inode_num in *. destruct c_string_dot as [Hd1 Hd2]. split.
  - split; [by apply (b_file _ _ _ Hb num)|]. split; [|split].
    + change (S_ISDIR (file_mode dn) = true). by rewrite Em, Hkind.
    + change (size dn mod 64 = 0). by rewrite Hsz.
    + rewrite El. destruct (name_bytes_name dot Hd1) as [? _]; [cbn; lia|].
      destruct (name_bytes_name dot_dot Hd2) as [? _]; [cbn; lia|].
      constructor; [by split; [|cbn [snd]; lia]|constructor; [by split; [|cbn [snd]; lia]|constructor]].
  - rewrite El. constructor; [apply new_linked|constructor; [|constructor]]. by apply linked_after.
Qed.

Lemma created_fs_ok : fs_ok s' F' Q' l'.
Proof.
  pose proof Hcr as [Hc Hb Hvn' _ (Hvp & _) _ _]. split; [done| |done].
  apply (tree_step s Q l); [apply Hfs|done|]. intros m d Hm Hd' Hdir.
  destruct (decide (m = p)) as [->|Hmp]; [right|destruct (decide (m = num)) as [->|Hmn]; [right|left]].
  - rewrite (inode_view_unique _ _ _ _ _ _ Hc Hd' Hvp). apply parent_after.
  - pose proof (inode_view_unique _ _ _ _ _ _ Hc Hd' Hvn') as ->. by apply new_after.
  - destruct (others_back m d Hm Hmp Hmn Hd') as [Hd0 Hs]. split_and!; [done|done|].
    intros x _ Hx Hl. by apply linked_after.
Qed.

(** Every path that led somewhere leads there still. *)
Lemma created_keeps_walks nms m : walks s Q 0 nms (Some m) -> walks s' Q' 0 nms (Some m).
Proof.
  intros Hw. pose proof Hcr as [Hc Hb Hvn' _ (Hvp & Em & _) El Ho].
  eapply (walks_step s Q l s' Q'); [apply Hfs|done|by left| | |done].
  - intros n es Hn' Hl (d & Hvd & Hdir & ->).
    assert (n <> num) as Hne by (intros ->; by apply new_not_linked in Hl).
    destruct (decide (n = p)) as [->|Hnp].
    + pose proof (inode_view_unique _ _ _ _ _ _ (fs_cache _ _ _ _ Hfs) Hvd Hv) as ->.
      eexists. split; [exists dp'; split; [done|split; [by rewrite Em|reflexivity]]|].
      intros nm k x Hf. rewrite El. unfold find_entry in *. by apply list_find_app_l.
    + destruct (Ho n d Hn' Hnp Hne Hvd) as [Hvd' Hs]. eexists. split.
      * exists d. split; [done|split; [done|reflexivity]].
      * intros nm k x Hf. by rewrite (same_dir_list _ _ _ Hs).
  - intros n Hn' Hl (d & Hvd & Hdir). exists d. split; [|done].
    apply (Ho n d); [done| |intros ->; by apply new_not_linked in Hl|done].
    intros ->. rewrite (inode_view_unique _ _ _ _ _ _ (fs_cache _ _ _ _ Hfs) Hvd Hv) in Hdir. congruence.
Qed.

(** The new path leads to the new inode. *)
Lemma created_walks dir :
  walks s Q 0 (path_names dir) (Some p) -> last dir = Some slash -> slash ∉ file -> file <> [] ->
  find_entry file (dir_list (ds s) (dir_of dp)) = None ->
  walks s' Q' 0 (path_names (dir ++ file)) (Some num).
Proof.
  intros Hw Hdir Hns Hne Hno. rewrite path_names_app by done.
  eapply walks_app; [by apply created_keeps_walks|].
  pose proof Hcr as [_ _ _ _ (Hvp & Em & _) El _].
  apply (walks_into s' Q' p file [] (dir_list (ds s') (dir_of dp'))
    (length (dir_list (ds s) (dir_of dp))) (name_bytes file, num)).
  - exists dp'. by rewrite Em.
  - rewrite El. by apply find_added.
  - constructor.
Qed.

End afterwards.

(** The numbers along a walk fit into an entry. *)
Lemma walks_num s Q l n nms r m :
  tree_ok s Q l -> inode_num n -> n < 65535 -> walks s Q n nms r -> r = Some m -> m < 65535 /\ inode_num m.
Proof.
  intros Ht Hn Hlt Hw. revert Hn Hlt.
  induction Hw as [n|n nm nms es k x r He Hf Hw IH|n nm nms es He Hf|n nm nms r Hno Hw IH]; intros Hn Hlt E.
  - by injection E as <-.
  - apply IH; [by eapply entry_num| |done]. destruct He as (d & Hvd & Hdir & ->).
    destruct (Ht n d Hn Hvd Hdir) as ((_ & _ & _ & Hterm) & _).
    unfold find_entry in Hf. apply list_find_Some in Hf as (Hk & _). apply list_elem_of_lookup_2 in Hk.
    rewrite Forall_forall in Hterm. by apply Hterm in Hk as [_ [_ ?]].
  - done.
  - by apply IH.
Qed.

(** [createFile] on a file system in a valid state. *)
Lemma createFile_spec t s F Q l dir file p dp j num tl e mode ctx :
  t = T_REGULAR \/ t = T_DIRECTORY -> fs_ok s F Q l -> few_refs s Q -> (2 <= length F)%nat ->
  c_string (dir ++ file) -> last dir = Some slash -> slash ∉ file -> (0 < length file <= 61)%nat ->
  walks s Q 0 (path_names dir) (Some p) -> inode_view s Q p dp -> S_ISDIR (file_mode dp) = true ->
  find_entry file (dir_list (ds s) (dir_of dp)) = None -> root_idle s Q p dp ->
  room l (size dp) 64 -> (8 <= length l)%nat -> free_number s Q j num tl e -> num < 65535 ->
  is_u32 mode -> is_u32 (fc_uid ctx) -> is_u32 (fc_gid ctx) ->
  S_ISDIR (made_mode t mode) = bool_decide (t = T_DIRECTORY) -> names_readable t (dir ++ file) ->
  wp (createFile (dir ++ file) t mode ctx) s (fun v s' => v = 0 /\ exists F' Q' l' dn,
    fs_ok s' F' Q' l' /\ inode_view s' Q' num dn /\
    new_inode t (made_mode t mode) (fc_uid ctx) (fc_gid ctx) num dn /\
    dir_list (ds s') (dir_of dn) = first_entries t num p /\
    walks s' Q' 0 (path_names (dir ++ file)) (Some num) /\
    (forall nms m, walks s Q 0 nms (Some m) -> walks s' Q' 0 nms (Some m)) /\
    (forall m d, inode_num m -> m <> p -> m <> num -> inode_view s Q m d ->
       inode_view s' Q' m d /\ same_contents (ds s) (ds s') d) /\
    (forall m c, refs s Q m c -> refs s' Q' m c)).
Proof.
  intros Ht Hfs Hfew HF Hpath Hdir Hfile Hlen Hw Hv Hd Hno Hidle Hroom Hl8 Hf Hnum Hm Hu Hg Hkind Hrd.
  eapply wp_mono; [by eapply createFile_created; try done; lia|].
  intros v s' (-> & F' & Q' & l' & dn & dp' & Hlp & Hnew & Hcr & _ & Hr & _). split; [done|].
  assert (inode_num 0) as H0n by done.
  destruct (walks_num _ _ _ _ _ _ _ (fs_tree _ _ _ _ Hfs) H0n ltac:(lia) Hw eq_refl) as [Hp' Hp].
  pose proof Hf as (_ & Hz & _ & Hn & Hvn & Hln & _). pose proof Hpath as [_ Hcf]%Forall_app.
  exists F', Q', l', dn. split_and!.
  - eapply (created_fs_ok t s); try done. lia.
  - by destruct Hcr.
  - done.
  - by destruct Hcr.
  - eapply (created_walks t s); try done; [lia|].
    intros ->. cbn in Hlen. lia.
  - intros nms m. by eapply (created_keeps_walks t s).
  - by destruct Hcr.
  - done.
Qed.

End create.
