(* ===== verification/UnlinkSpec.v ===== *)
(** Removals: [unlinkFile] takes the entry out of the parent directory and a link
    from the inode; with the last link of an inode that nobody uses, its blocks
    and its number become free. The invariant of the file system is kept. *)

From S2P Require Export CreateSpec DirUpdate CacheHeld BlockRelease.

(** A program whose first steps are those of [m]. *)
Lemma blind_wp `{Host} {A} w (m : IM A) s (P : A -> istate -> Prop) :
  blind_at w m s -> wp m s (fun a s' => P a (hold w s')) -> wp m (hold w s) P.
Proof. unfold blind_at, wp. intros ->. by destruct (m s). Qed.

Section unlink.
Context `{BlockStore ok} `{shifts : !DefinedShifts}.
Local Abbreviation cache_ok := (cache_ok (ok := ok)).
Local Abbreviation tree_ok := (tree_ok (ok := ok)).
Local Abbreviation moves := (moves (ok := ok)).
Local Abbreviation same_inodes := (same_inodes (ok := ok)).
Local Abbreviation updates := (updates (ok := ok)).
Local Abbreviation dir_ok := (dir_ok (ok := ok)).
Local Abbreviation file_ok := (file_ok (ok := ok)).
Local Abbreviation fs_ok := (fs_ok (ok := ok)).
Local Abbreviation blocks_ok := (blocks_ok (ok := ok)).

(** * A link less *)

(** The part of [unlinkFileFromINode] that works on the removed inode. *)
Definition drop_link (num : Z) : IM unit :=
  let* deletedFile := iget num 0 in
  let* k := deref deletedFile in
  inode_lock k ;;;
  with_inode k (fun i => updateINodeMetadata i 0 (u64 (ic_linksCount i - 1))) ;;;
  inode_unlock k ;;;
  iput k ;;;
  ret tt.

Lemma drop_link_then {A} num (K : IM A) s :
  (let* deletedFile := iget num 0 in
   let* k := deref deletedFile in
   inode_lock k ;;;
   with_inode k (fun i => updateINodeMetadata i 0 (u64 (ic_linksCount i - 1))) ;;;
   inode_unlock k ;;;
   iput k ;;; K) s = (drop_link num ;;; K) s.
Proof.
  unfold drop_link, bind. destruct (iget num 0 s) as [d s1| | |]; try done.
  destruct (deref d s1) as [k s2| | |]; try done. destruct (inode_lock k s2) as [? s3| | |]; try done.
  destruct (with_inode k _ s3) as [? s4| | |]; try done. destruct (inode_unlock k s4) as [? s5| | |]; try done.
  by destruct (iput k s5).
Qed.

(** It does not touch the node [w] of another inode. *)
Lemma blind_drop_link s F Q p w i num :
  cache_ok s F Q -> caches s Q p w i -> 0 < reference_count i -> num <> p -> inode_num num ->
  (forall c, refs s Q num c -> c + 1 < 2 ^ 64) -> blind_at w (drop_link num) s.
Proof.
  intros Hc Hw Hpos Hne Hn Hmax. unfold drop_link.
  apply blind_bind; [by eapply blind_iget|]. intros o s1 Hr.
  pose proof (iget_same s F Q num Hc Hn Hmax) as Hg. unfold wp in Hg. rewrite Hr in Hg.
  destruct o as [k|]; [|done].
  destruct Hg as (F1 & Q1 & ik & [Hc1 _ _] & _ & _ & Hk & _ & _ & _ & _ & Hot).
  assert (k <> w) as Hkw.
  { intros ->. apply (Hot p w i) in Hw as (E & _ & Ew); [|by intros ->|done].
    destruct Hk as (E' & _ & Ek). congruence. }
  apply blind_bind; [done|]. intros k' s2 [= <- <-].
  apply blind_bind; [by apply blind_lock|]. intros u s3 _.
  apply blind_bind; [by apply blind_with|]. intros u' s4 _.
  apply blind_bind; [by apply blind_unlock|]. intros u2 s5 _.
  apply blind_bind; [by apply blind_iput|]. done.
Qed.

(** The inode with [v] links. *)
Definition links_set (v : Z) (d : iNode) : iNode :=
  INode (device_number d) (inode_number d) (access d) (modification d) (status_change d) v (type d)
    (file_mode d) (owner_uid d) (group_uid d) (dataBlockNums d) (size d).

(** The inode is deleted, or has a link less and the same contents. *)
Definition fate (s s' : dstate) (dn dn' : iNode) : Prop :=
  deleted dn' \/
  (dn' = links_set (linksCount dn - 1) dn /\ linksCount dn' <> 0 /\ same_contents s s' dn).

Lemma fate_after s0 s s' s1 dn dn' :
  same_contents s0 s dn -> fate s s' dn dn' -> same_contents s' s1 dn' -> fate s0 s1 dn dn'.
Proof.
  intros H1 [Hd|(-> & Hl & H2)] H3; [by left|right]. split; [done|]. split; [done|].
  eapply same_contents_trans; [exact H1|]. eapply same_contents_trans; [exact H2|]. exact H3.
Qed.

(** What the inode, its blocks and the rest become. *)
Record dropped (s s' : istate) (F F' : list nat) (Q Q' : Z -> list nat) (l l' : list Z) (num : Z)
    (dn dn' : iNode) : Prop := {
  dr_cache : cache_ok s' F' Q';
  dr_view : inode_view s' Q' num dn';
  dr_others : forall m d, inode_num m -> m <> num -> inode_view s Q m d -> inode_view s' Q' m d;
  dr_refs : forall m c, refs s Q m c -> refs s' Q' m c;
  dr_moved : rearranged (ds s) l (dir_of dn) (ds s') l' (dir_of dn');
  dr_file : file_ok (ds s') l' (dir_of dn');
  dr_fate : fate (ds s) (ds s') dn dn';
  dr_nodes : forall m j i1, m <> num -> caches s Q m j i1 -> 0 < reference_count i1 -> caches s' Q' m j i1;
  dr_room : (length F <= length F')%nat /\ (length l <= length l')%nat;
  dr_kept : kept 0 s s' Q Q'
}.

(** It is in a node, with a link less. *)
Lemma drop_link_starts s F Q num dn :
  cache_ok s F Q -> inode_num num -> (forall c, refs s Q num c -> c + 1 < 2 ^ 64) ->
  ~ (F = [] /\ refs s Q num 0) -> inode_view s Q num dn -> linksCount dn <> 0 ->
  forall P : unit -> istate -> Prop,
  (forall s1 F1 Q1 k i, let i1 := relinked (linksCount dn - 1) i in let s2 := inode_set k i1 s1 in
     same_inodes s s1 F1 Q Q1 (one num) -> kept 0 s s1 Q Q1 -> ds s1 = ds s -> caches s1 Q1 num k i ->
     getDiskINodeData i = dn -> 0 < reference_count i ->
     (length F <= length F1 + 1)%nat /\ (reference_count i = 1 \/ (length F <= length F1)%nat) ->
     (forall m j i1, m <> num -> caches s Q m j i1 -> 0 < reference_count i1 -> caches s1 Q1 m j i1) ->
     updates s1 s2 F1 F1 Q1 num k i1 -> wp (iput k ;;; ret tt) s2 P) ->
  wp (drop_link num) s P.
Proof.
  intros Hc Hn Hmax Hfree Hv Hl P HP. unfold drop_link. apply wp_bind.
  eapply wp_mono; [by apply (iget_same s F Q num)|].
  intros [k|] s1; [|by intros (-> & _ & Hr); destruct Hfree].
  intros (F1 & Q1 & i & Hsame & S1 & Ed & Hk & Hvi & Hpos & HF1 & HF1' & Hot).
  pose proof (si_ok _ _ _ _ _ _ Hsame) as Hc1. pose proof Hk as (Hi & _ & _).
  pose proof (inode_view_unique _ _ _ _ _ _ Hc Hvi Hv) as Ei.
  destruct (c_hashed _ _ _ Hc1 _ _ _ Hk) as (_ & _ & Hwf & _).
  pose proof Hwf as (_&_&_&_&_&Hlu&_&_&_&_&_&Hsz).
  assert (ic_linksCount i = linksCount dn) as El by (by rewrite <- Ei).
  apply wp_bind. eapply wp_Ret; [reflexivity|].
  assert (u64 (ic_linksCount i - 1) = linksCount dn - 1) as Eu.
  { change (is_u64 (ic_linksCount i)) in Hlu. rewrite El in *. apply u64_id. unfold is_u64 in *. lia. }
  pose proof (locked_links_Ret s1 k i (fun i => u64 (ic_linksCount i - 1)) Hi
    (c_quiet _ _ _ Hc1 _ _ Hi) Hsz ltac:(done)) as Hrun. cbv beta in Hrun. rewrite Eu in Hrun.
  unfold wp. rewrite (seq3_Ret _ _ _ _ _ _ Hrun).
  apply (HP s1 F1 Q1 k i); try done.
  apply set_links_updates; try done. change (is_u64 (ic_linksCount i)) in Hlu. rewrite El in Hlu.
  unfold is_u64 in *. lia.
Qed.

(** Another link is left: only the number of links changes. *)
Lemma drop_link_keeps s F Q l num dn :
  cache_ok s F Q -> inode_num num -> (forall c, refs s Q num c -> c + 1 < 2 ^ 64) ->
  ~ (F = [] /\ refs s Q num 0) -> inode_view s Q num dn -> 1 < linksCount dn ->
  file_ok (ds s) l (dir_of dn) -> Forall data_area (l ++ blocks_of (ds s) (dir_of dn)) ->
  wp (drop_link num) s (fun _ s' => changes inode_zone (ds s) (ds s') /\ exists F' Q',
    dropped s s' F F' Q Q' l l num dn (links_set (linksCount dn - 1) dn)).
Proof.
  intros Hc Hn Hmax Hfree Hv Hl Hf Hda. eapply drop_link_starts; try done; [lia|].
  intros s1 F1 Q1 k i i1 s2 [Hc1 V1 R1] K1 Ed Hk Ei Hpos [HF HF'] Hot Hu.
  pose proof (updates_ok _ _ _ _ _ _ _ _ _ Hc1 Hk Hu) as Hc2.
  assert (caches s2 Q1 num k i1) as Hk2 by (apply (updates_caches _ _ _ _ _ _ _ _ _ _ _ _ Hu Hk); by left).
  assert (getDiskINodeData i1 = links_set (linksCount dn - 1) dn) as E1
    by exact (f_equal (links_set (linksCount dn - 1)) Ei).
  assert (ic_linksCount i1 <> 0) as Hl1 by (change (linksCount dn - 1 <> 0); lia).
  apply wp_bind. eapply wp_mono; [apply (iput_keeps s2 F1 Q1 num k i1); try done; [by left|]|].
  { left. by exists k, i1. }
  intros z s3 (_ & Hch & F3 & [Hc3 V3 R3] & S3 & HF3 & Hot3). apply wp_ret.
  change (ds s2) with (ds s1) in Hch. rewrite Ed in Hch.
  assert (changes inode_zone (ds s) (ds s3)) as Hch' by (eapply changes_mono; [|exact Hch]; intros b <-; by eapply inode_block_zone).
  split; [done|].
  assert (changes meta_zone (ds s) (ds s3)) as Hmeta by (eapply changes_mono; [|exact Hch']; apply inode_zone_meta).
  destruct (file_meta _ _ _ _ Hf Hda (c_disk _ _ _ Hc3) Hmeta) as (Hf3 & Eb & Edata).
  exists F3, Q1. split.
  - done.
  - rewrite <- E1. apply V3; [done|]. left. by exists k, i1.
  - intros m d Hm Hmn Hd. apply V3; [done|].
    apply (updates_view_other s1 s2 F1 F1 Q1 num k i1 i m d Hc1 Hk Hu Hm Hmn). by apply V1.
  - intros m c Hmc. replace c with (c + one num m + - one num m) by lia. apply R3.
    refine (updates_refs_same s1 s2 F1 F1 Q1 num k i1 i m _ Hc1 Hk Hu eq_refl _). by apply R1.
  - exact (meta_rearranged _ _ (dir_of dn) _ Hmeta Eb).
  - exact Hf3.
  - right. split; [done|]. split; [cbn; lia|]. by split.
  - intros m j i2 Hm Hj Hp. apply Hot3; [done|]. apply (updates_others _ _ _ _ _ _ _ _ _ _ _ _ Hk Hu Hm).
    by apply Hot.
  - change (reference_count i1) with (reference_count i) in HF3.
    split; [|done]. destruct (decide (reference_count i = 1)); [lia|]. destruct HF'; [done|lia].
  - eapply kept_then; [exact Hc2| |exact S3].
    eapply kept_then; [exact Hc1|exact K1|by apply (updates_kept (-1) _ _ _ _ _ _ _ _ _ Hk Hu)].
Qed.

(** The last link of an inode that nobody uses: it is deleted. *)
Lemma drop_link_deletes s F Q l num dn j x tl :
  cache_ok s F Q -> inode_num num -> num <> 0 -> refs s Q num 0 -> F <> [] -> inode_view s Q num dn ->
  linksCount dn = 1 -> file_ok (ds s) l (dir_of dn) ->
  Forall data_area (l ++ blocks_of (ds s) (dir_of dn)) -> (128 <= length l)%nat ->
  FreeMutex ∉ held (ds s) -> IFreeMutex ∉ held (ds s) ->
  inode_list (ds s) (replicate (Datatypes.S j) 0 ++ x :: tl) -> x <> 0 ->
  wp (drop_link num) s (fun _ s' => inode_list (ds s') (replicate j 0 ++ num :: x :: tl) /\
    exists F' Q' l' e, l' ≡ₚ blocks_of (ds s) (dir_of dn) ++ l /\
      dropped s s' F F' Q Q' l l' num dn e /\ deleted e).
Proof.
  intros Hc Hn Hn0 Hr0 HF0 Hv Hl Hf Hda Hlen Hfm Hifm Hil Hx.
  eapply drop_link_starts; try done; [|by intros [? _]|by rewrite Hl|].
  { intros c Hcn. rewrite (refs_unique _ _ _ _ _ _ Hc Hcn Hr0). lia. }
  intros s1 F1 Q1 k i i1 s2 [Hc1 V1 R1] K1 Ed Hk Ei Hpos [HF _] Hot Hu.
  pose proof (updates_ok _ _ _ _ _ _ _ _ _ Hc1 Hk Hu) as Hc2.
  assert (caches s2 Q1 num k i1) as Hk2 by (apply (updates_caches _ _ _ _ _ _ _ _ _ _ _ _ Hu Hk); by left).
  assert (reference_count i1 = 1) as Hr1.
  { change (reference_count i = 1). apply (refs_cached _ _ _ _ _ _ _ Hc1 Hk). apply R1 in Hr0.
    unfold one in Hr0. by rewrite decide_True in Hr0. }
  assert (ic_linksCount i1 = 0) as Hl1 by (change (linksCount dn - 1 = 0); lia).
  assert (ic_dataBlockNums i1 = dataBlockNums dn /\ ic_size i1 = size dn) as [En Es].
  { split; [exact (f_equal dataBlockNums Ei)|exact (f_equal size Ei)]. }
  pose proof Hda as Hda'. apply Forall_app in Hda' as [_ Hdb]. rewrite Forall_forall in Hdb.
  pose proof Hf as (Hok & Ham & Hfl & Hnd & _ & _ & Hu64 & _).
  destruct (file_releasing (ds s) l (dir_of dn)) as (bs & nums' & Hbs & P & Hrel & Hi64).
  { split; [done|]. split; [done|]. split; [by eapply free_room_long|].
    change (0 ∉ blocks_of (ds s) (dir_of dn)). intros Hin. apply Hdb in Hin. unfold data_area in Hin. lia. }
  cbn [dir_of ic_dataBlockNums ic_size] in Hbs, Hi64.
  change (ic_dataBlockNums (dir_of dn)) with (dataBlockNums dn) in Hbs.
  change (ic_size (dir_of dn)) with (size dn) in Hbs, Hi64. rewrite <- En, <- Es in Hbs. rewrite <- Es in Hi64.
  assert (ds s2 = ds s) as Ed2 by done.
  apply wp_bind. eapply wp_mono; [apply (iput_deletes s2 F1 Q1 num k i1 l bs nums' x tl j); rewrite ?Ed2; try done|].
  { by rewrite P. }
  intros z s3 (_ & Hl3 & Hil3 & (e & He & Hdel) & Hch & i' & Hu3 & _ & Hli' & Hri'). apply wp_ret.
  rewrite Ed2 in Hch. split; [done|].
  pose proof (updates_ok _ _ _ _ _ _ _ _ _ Hc2 Hk2 Hu3) as Hc3.
  assert (inode_view s3 Q1 num e) as Hve.
  { right. split; [|done]. intros j' ij Hj.
    apply (updates_caches _ _ _ _ _ _ _ _ _ _ _ _ Hu3 Hk2) in Hj as [(_ & -> & _)|[Hjk Hj]]; [done|].
    by pose proof (c_uniq _ _ _ Hc2 _ _ _ _ _ Hk2 Hj). }
  assert (reverse bs ++ l ≡ₚ blocks_of (ds s) (dir_of dn) ++ l) as Pl by (by rewrite reverse_Permutation, P).
  assert (blocks_of (ds s3) (dir_of e) = []) as Eb by (apply empty_blocks; by destruct Hdel as (_ & _ & _ & ?)).
  exists (F1 ++ [k]), Q1, (reverse bs ++ l), e. split; [done|]. split; [split|done].
  - done.
  - done.
  - intros m d Hm Hmn Hd. apply (updates_view_other s2 s3 F1 _ Q1 num k i' i1 m d Hc2 Hk2 Hu3 Hm Hmn).
    apply (updates_view_other s1 s2 F1 F1 Q1 num k i1 i m d Hc1 Hk Hu Hm Hmn). by apply V1.
  - intros m c Hmc. replace c with (c + one num m + - one num m) by lia.
    eapply (updates_refs s2 s3 F1 _ Q1 num k i' i1 m _ Hc2 Hk2 Hu3); [lia|].
    refine (updates_refs_same s1 s2 F1 F1 Q1 num k i1 i m _ Hc1 Hk Hu eq_refl _). by apply R1.
  - split.
    + by rewrite Eb, Pl.
    + eapply changes_mono; [|exact Hch]. unfold deletion_writes, meta_zone.
      pose proof (inode_block_below num Hn). pose proof (inode_block_ge num Hn).
      intros b [->|[Hb|[->| ->]]]; [by right; left| |left; consts; lia|left; consts; lia].
      right; right. rewrite <- Pl, elem_of_app, elem_of_reverse. left. by apply list_elem_of_In.
  - destruct (inode_view_wf _ _ _ _ _ Hc3 Hn Hve) as (_&_&_&_&_&_&_&_&_&_&[? ?]&_).
    apply empty_file_ok; try done; [by apply (c_disk _ _ _ Hc3)| | |by destruct Hdel as (_ & _ & _ & ?)].
    + by destruct (changes_env _ _ _ Hch) as (_ & _ & _ & ->).
    + rewrite Pl. apply Forall_app_2; [|done]. by eapply blocks_of_u64.
  - by left.
  - intros m j' i2 Hm Hj Hp. apply (updates_others _ _ _ _ _ _ _ _ _ _ _ _ Hk2 Hu3 Hm).
    apply (updates_others _ _ _ _ _ _ _ _ _ _ _ _ Hk Hu Hm). by apply Hot.
  - rewrite !length_app. cbn [length]. lia.
  - intros m j' i2 Hj Hp. destruct (decide (m = num)) as [->|Hmn].
    { rewrite (refs_cached _ _ _ _ _ _ _ Hc Hj Hr0) in Hp. lia. }
    exists i2. split; [|done]. apply (updates_others _ _ _ _ _ _ _ _ _ _ _ _ Hk2 Hu3 Hmn).
    apply (updates_others _ _ _ _ _ _ _ _ _ _ _ _ Hk Hu Hmn). by apply Hot.
Qed.

(** * The parent directory *)

(** The cache over a disk with the same inode table. *)
Lemma disk_step s F Q d' :
  cache_ok s F Q -> ok d' -> inode_area d' -> (forall m, inode_num m -> disk_inode d' m = disk_inode (ds s) m) ->
  cache_ok (set_ds d' s) F Q /\ forall m d, inode_num m -> inode_view s Q m d -> inode_view (set_ds d' s) Q m d.
Proof.
  intros [A1 A2 A3 A4 A5 Ahash A7 A8 A9 Atab Anod] Hok Ha Hd. split.
  - split; try done.
    + intros m k i Hk. destruct (Ahash m k i Hk) as (Hm & ? & ? & ? & Hco). split_and!; [done..|].
      intros Hci Hli. cbn [ds set_ds]. destruct Hk as (_ & _ & Em). rewrite Hd by (by rewrite Em). by apply Hco.
    + intros m e Hm He. cbn [ds set_ds] in He. rewrite Hd in He by done. by apply Atab.
  - intros m d Hm [Hl|[Hno Hdm]]; [by left|right]. split; [done|]. cbn [ds set_ds]. by rewrite Hd.
Qed.

Lemma overwritten_rearranged s s' l i o buf :
  overwritten (ok := ok) s s' l i o buf -> rearranged s l i s' l i.
Proof.
  intros (_ & [Hch Eb] & _). split; [by rewrite Eb|]. eapply changes_mono; [|exact Hch].
  intros b Hb. right; right. apply elem_of_app. by left.
Qed.

(** Files in the data area can shrink when a block of the free list is full. *)
Lemma area_shrinkable s l i :
  file_ok s l i -> Forall data_area (l ++ blocks_of s i) -> FreeMutex ∉ held s -> (128 <= length l)%nat ->
  shrinkable (ok := ok) s l i.
Proof.
  intros Hf Hda Hh Hl. pose proof Hf as (_ & _ & Hfl & _). split; [done|]. split; [done|].
  split; [by eapply free_room_long|]. apply Forall_app in Hda as [_ Hdb]. rewrite Forall_forall in Hdb.
  intros Hin. apply Hdb in Hin. unfold data_area in Hin. lia.
Qed.

Lemma shed_rearranged s l i s' freed i' : shed s i s' i' freed -> rearranged s l i s' (freed ++ l) i'.
Proof.
  intros [Hf Hch]. split; [by rewrite app_assoc, (Permutation_app_comm (blocks_of s' i')), Hf|].
  eapply changes_mono; [|exact Hch]. intros b [->|Hb]; [by right; left|].
  right; right. apply elem_of_app. by left.
Qed.

(** Directories that keep their bytes. *)
Lemma dir_same s s' l l' i :
  dir_ok s l i -> file_ok s' l' i -> same_contents s s' (getDiskINodeData i) ->
  dir_ok s' l' i /\ dir_list s' i = dir_list s i.
Proof.
  intros (_ & Hm & Hal & Hterm) Hf Hs.
  assert (dir_list s' i = dir_list s i) as E by exact (same_dir_list _ _ _ Hs).
  split; [|done]. split; [done|]. split; [done|]. split; [done|]. by rewrite E.
Qed.

(** The entry has been overwritten; the disk is [d2]. *)
Record found (s : istate) (d2 : dstate) (F : list nat) (Q : Z -> list nat) (l : list Z) (p : Z)
    (i : inCoreiNode) (k : nat) (e' : list Z * Z) : Prop := {
  fo_cache : cache_ok (set_ds d2 s) F Q;
  fo_view : forall m d, inode_num m -> inode_view s Q m d -> inode_view (set_ds d2 s) Q m d;
  fo_blocks : blocks_ok d2 (inode_view (set_ds d2 s) Q) l;
  fo_dir : dir_ok d2 l i;
  fo_last : last (dir_list (ds s) i) = Some e';
  fo_list : dir_list d2 i = <[k := e']> (dir_list (ds s) i);
  fo_same : forall m d, inode_num m -> m <> p -> inode_view s Q m d -> same_contents (ds s) d2 d;
  fo_env : same_env (ds s) d2;
  fo_numbers : forall nos, inode_list (ds s) nos -> inode_list d2 nos
}.

Lemma hold_inode_at s w i : inode_at s w = Some i -> hold w s = inode_set w (ic_set_mutex true i) s.
Proof.
  unfold inode_at, hold, inode_set, set_nodes. intros Hi. f_equal. apply list_eq. intros j.
  rewrite !lookup_alter_nodes. destruct (decide (j = w)) as [->|]; [|done].
  destruct (nodes s !! w) as [n|]; [|done]. cbn in *. injection Hi as <-. done.
Qed.

Lemma lock_hold s w i : inode_at s w = Some i -> iNodeMutex i = false -> inode_lock w s = Ret tt (hold w s).
Proof. intros Hi Hm. rewrite (hold_inode_at _ _ _ Hi). by apply inode_lock_Ret. Qed.

Lemma unlock_hold s w i : inode_at s w = Some i -> iNodeMutex i = false -> inode_unlock w (hold w s) = Ret tt s.
Proof. intros Hi Hm. rewrite (hold_inode_at _ _ _ Hi). by apply unlock_held_inode. Qed.

Lemma find_stage s F Q l p w i file k e :
  cache_ok s F Q -> caches s Q p w i -> blocks_ok (ds s) (inode_view s Q) l ->
  inode_view s Q p (getDiskINodeData i) -> dir_ok (ds s) l i -> c_string file -> 64 <= ic_size i ->
  find_entry file (dir_list (ds s) i) = Some (k, e) ->
  wp (look_inode w (fun i =>
        let* entry := malloc_entry in
        searchINodeDirectoryEntries i (Some file) 0 [entry] 0 true)) (hold w s)
    (fun r s' => r = (1, [DirectoryEntry (fst e) (low_bytes (iNodeNum (junk_entry (ds s))) (snd e))]) /\
      exists d2 e', s' = hold w (set_ds d2 s) /\ found s d2 F Q l p i k e').
Proof.
  intros Hc Hk Hb Hv Hd Hfile Hsz Ef. pose proof Hk as (Hi & _ & _).
  destruct (c_hashed _ _ _ Hc _ _ _ Hk) as (Hp & _). set (il := ic_set_mutex true i).
  rewrite (hold_inode_at _ _ _ Hi). fold il. unfold look_inode. apply wp_bind.
  eapply wp_Ret; [apply get_inode_Ret; by eapply inode_at_set_eq|]. unfold on_disk. apply wp_zoom.
  change (ds (inode_set w il s)) with (ds s). apply wp_bind. eapply wp_Ret; [done|].
  eapply wp_mono; [apply (search_overwrites (ds s) l il file k e (junk_entry (ds s))); done|].
  intros r d2 (-> & e' & o & buf & Hlast & El & _ & Hd2 & Hov). split; [done|]. exists d2, e'.
  assert (set_ds d2 (inode_set w il s) = hold w (set_ds d2 s)) as -> by (by rewrite (hold_inode_at (set_ds d2 s) w i)).
  split; [done|]. assert (dir_ok d2 l i) as Hd2' by exact Hd2. pose proof Hov as (Hf2 & [Hch _] & _).
  assert (rearranged (ds s) l i d2 l i) as Hre by exact (overwritten_rearranged _ _ _ _ _ _ Hov).
  pose proof (b_area _ _ _ Hb _ _ Hp Hv) as [_ Hda]%Forall_app. rewrite Forall_forall in Hda.
  destruct (data_writes _ _ _ Hch (fun b Hin => or_intror (Hda b Hin)) (c_area _ _ _ Hc)) as (Ha2 & Hdi & Hnos).
  destruct (disk_step s F Q d2 Hc ltac:(by destruct Hf2) Ha2 Hdi) as [Hc2 Hv2].
  split; try done.
  - apply (blocks_step (ds s) (inode_view s Q) l _ _ l p (getDiskINodeData i) (getDiskINodeData i) Hb);
      try done; [by eapply cache_view_ok|by apply Hv2|].
    intros m Hm _ d Hmd. left. eapply (view_back s (set_ds d2 s)); [done|done|done| |done]. intros d'. by apply Hv2.
  - intros m d Hm Hmp Hmd.
    by apply (contents_step (ds s) (inode_view s Q) l d2 l p (getDiskINodeData i) (getDiskINodeData i) m d Hb).
  - by eapply changes_env.
Qed.

(** The inode has lost a link, and the directory its last entry: what the client
    sees before it gives the directory back. *)
Record cut (s s5 : istate) (F F5 : list nat) (Q Q5 : Z -> list nat) (l l5 : list Z) (p : Z) (w : nat)
    (i i5 : inCoreiNode) (k : nat) (num : Z) (dn dn' : iNode) : Prop := {
  cu_cache : cache_ok s5 F5 Q5;
  cu_parent : caches s5 Q5 p w i5;
  cu_touched : touched i i5 /\ inode_changed i5 = true /\ ic_size i5 = ic_size i - 64;
  cu_blocks : blocks_ok (ds s5) (with_view p (getDiskINodeData i5) (inode_view s5 Q5)) l5;
  cu_dir : dir_ok (ds s5) l5 i5;
  cu_list : dir_list (ds s5) i5 = removed (dir_list (ds s) i) k;
  cu_view : inode_view s5 Q5 num dn';
  cu_fate : fate (ds s) (ds s5) dn dn';
  cu_others : forall m d, inode_num m -> m <> p -> m <> num -> inode_view s Q m d ->
    inode_view s5 Q5 m d /\ same_contents (ds s) (ds s5) d;
  cu_refs : forall m c, refs s Q m c -> refs s5 Q5 m c;
  cu_held : held (ds s5) = held (ds s);
  cu_kept : kept 0 s s5 Q Q5
}.

(** The directory without its last entry, which is copied before. *)
Lemma last_entry_cut s F Q l p w i :
  cache_ok s F Q -> caches s Q p w i -> 0 < reference_count i -> dir_ok (ds s) l i ->
  shrinkable (ok := ok) (ds s) l i -> 64 <= ic_size i < 10240 -> Forall data_area (l ++ blocks_of (ds s) i) ->
  wp (with_inode w (fun i => truncateINode i (u64 (ic_size i - DIRECTORY_ENTRY_SIZE)))) (hold w s)
    (fun _ s' => exists i5 freed s5, s' = hold w s5 /\ touched i i5 /\ inode_changed i5 = true /\
      ic_size i5 = ic_size i - 64 /\
      Z.of_nat (length freed) = nblocks (ic_size i) - nblocks (ic_size i - 64) /\
      updates s s5 F F Q p w i5 /\ rearranged (ds s) l i (ds s5) (freed ++ l) i5 /\
      dir_ok (ds s5) (freed ++ l) i5 /\
      dir_list (ds s5) i5 = take (pred (length (dir_list (ds s) i))) (dir_list (ds s) i) /\
      same_env (ds s) (ds s5) /\ forall nos, inode_list (ds s) nos -> inode_list (ds s5) nos).
Proof.
  intros Hc Hk Hpos Hd Hsh Hsz Hda. pose proof Hk as (Hi & _ & Ep).
  pose proof Hda as [_ Hdb]%Forall_app. rewrite Forall_forall in Hdb.
  set (il := ic_set_mutex true i). rewrite (hold_inode_at _ _ _ Hi). fold il.
  unfold with_inode. apply wp_bind. eapply wp_Ret; [apply get_inode_Ret; by eapply inode_at_set_eq|].
  apply wp_bind. unfold on_disk. apply wp_zoom. change (ds (inode_set w il s)) with (ds s).
  eapply wp_mono; [exact (cut_last_entry (ds s) l il Hd Hsh Hsz)|].
  intros i' d5 (Ht & Hch & Hsz5 & freed & El5 & Hd5 & Hsh5 & En5 & Hfr & Hshed).
  eapply wp_Ret; [apply put_inode_Ret|]. set (i5 := ic_set_mutex false i').
  assert (touched i i5) as Ht5.
  { pose proof (c_quiet _ _ _ Hc _ _ Hi) as Hq. destruct Ht as ((?&?&?&?&?&?&?&?)&?&?&?&?).
    split; [split_and!; done|done]. }
  assert (ic_size i5 = ic_size i - 64) as Hsz5' by exact Hsz5.
  pose proof Hsh5 as (Hf5 & _). assert (file_ok d5 (freed ++ l) i5) as Hf5' by exact Hf5.
  destruct (data_writes (ds s) d5 _ (proj2 Hshed)) with (2 := c_area _ _ _ Hc) as (Ha5 & Hdi5 & Hnos5).
  { intros b [->|Hin]; [by left|right]. by apply Hdb. }
  exists i5, freed, (inode_set w i5 (set_ds d5 s)). split.
  { rewrite (hold_inode_at _ w i5) by (eapply inode_at_set_eq; exact Hi).
    change (set_ds d5 (inode_set w il s)) with (inode_set w il (set_ds d5 s)). rewrite !inode_set_set.
    f_equal. assert (iNodeMutex i' = true) as Hm by (by destruct Ht as ((_&_&_&_&_&_&_&->)&_)).
    unfold i5. destruct i'. cbn in Hm |- *. by subst. }
  do 3 (split; [done|]). split; [rewrite Hfr; by rewrite Hsz5|]. split.
  { pose proof Ht5 as ((E1&E2&_&_&_&_&E7&E8)&_). destruct (c_hashed _ _ _ Hc _ _ _ Hk) as (_ & Hdev & Hw & _).
    apply (client_updates s F Q p w i i5 d5); try done; try congruence.
    - eapply touched_wf; [exact Ht5|exact Hf5'|done].
    - by left.
    - by destruct Hf5. }
  split; [by apply shed_rearranged|]. split; [done|]. split; [exact El5|]. split; [|done].
  by eapply changes_env, (proj2 Hshed).
Qed.

(** The directory, after the removed inode went. *)
Lemma parent_ready s d2 s3 F F3 Q Q3 l l3 p w i k e' num dn dn' :
  cache_ok s F Q -> found s d2 F Q l p i k e' -> caches s Q p w i -> 0 < reference_count i ->
  inode_view s Q p (getDiskINodeData i) -> 64 <= ic_size i < 10240 -> (128 <= length l)%nat ->
  FreeMutex ∉ held (ds s) -> num <> p -> inode_num num -> inode_view s Q num dn ->
  dropped (set_ds d2 s) s3 F F3 Q Q3 l l3 num dn dn' ->
  caches s3 Q3 p w i /\ inode_view s3 Q3 p (getDiskINodeData i) /\ blocks_ok (ds s3) (inode_view s3 Q3) l3 /\
  (forall m d, inode_num m -> m <> num -> inode_view (set_ds d2 s) Q m d -> same_contents d2 (ds s3) d) /\
  dir_ok (ds s3) l3 i /\ dir_list (ds s3) i = dir_list d2 i /\ shrinkable (ok := ok) (ds s3) l3 i.
Proof.
  intros Hc [Hc2 Hv2 Hb2 Hd2 Hlast El2 Hs2 He2 Hnos2] Hk Hpos Hv Hsz Hlen Hfm Hnp Hn Hvn
    [Hc3 Hvn3 Ho3 Hr3 Hre3 Hf3 Hfate3 Hot3 [_ Hl3] K3].
  destruct (c_hashed _ _ _ Hc _ _ _ Hk) as (Hp & _).
  pose proof (Hv2 _ _ Hn Hvn) as Hvn2. pose proof (Hv2 _ _ Hp Hv) as Hvp2.
  assert (p <> num) as Hpn by (by intros ->). pose proof (Ho3 _ _ Hp Hpn Hvp2) as Hvp3.
  assert (caches s3 Q3 p w i) as Hk3 by (by apply Hot3). pose proof Hk3 as (Hi3 & _ & _).
  assert (blocks_ok (ds s3) (inode_view s3 Q3) l3) as Hb3.
  { apply (blocks_step d2 (inode_view (set_ds d2 s) Q) l _ _ l3 num dn dn' Hb2); try done;
      [by eapply cache_view_ok|].
    intros m Hm Hmn d Hmd. left. eapply (view_back (set_ds d2 s) s3); [done|done|done| |done].
    intros d'. by apply Ho3. }
  assert (forall m d, inode_num m -> m <> num -> inode_view (set_ds d2 s) Q m d -> same_contents d2 (ds s3) d) as Hs3.
  { intros m d Hm Hmn Hmd. by apply (contents_step d2 (inode_view (set_ds d2 s) Q) l (ds s3) l3 num dn dn' m d Hb2). }
  destruct (dir_same d2 (ds s3) l l3 i Hd2 (b_file _ _ _ Hb3 _ _ Hp Hvp3) (Hs3 _ _ Hp Hpn Hvp2)) as [Hd3 El3].
  do 6 (split; [done|]).
  apply area_shrinkable; [by destruct Hd3|by apply (b_area _ _ _ Hb3 _ _ Hp Hvp3)| |lia].
  destruct Hre3 as [_ Hch3]. pose proof (changes_env _ _ _ Hch3) as (_ & _ & _ & E3).
  destruct He2 as (_ & _ & _ & E2). cbn [ds set_ds] in E3. by rewrite E3, E2.
Qed.

(** The steps of the parent around those of the removed inode. *)
Lemma cut_stage s d2 s3 F F3 Q Q3 l l3 p w i k e' num dn dn' :
  cache_ok s F Q -> found s d2 F Q l p i k e' -> caches s Q p w i -> 0 < reference_count i ->
  inode_view s Q p (getDiskINodeData i) -> 64 <= ic_size i < 10240 -> (128 <= length l)%nat ->
  FreeMutex ∉ held (ds s) -> num <> p -> inode_num num -> inode_view s Q num dn ->
  dropped (set_ds d2 s) s3 F F3 Q Q3 l l3 num dn dn' ->
  wp (with_inode w (fun i => truncateINode i (u64 (ic_size i - DIRECTORY_ENTRY_SIZE)))) (hold w s3)
    (fun _ s' => exists i5 l5 s5 freed, s' = hold w s5 /\ l5 = freed ++ l3 /\
      Z.of_nat (length freed) = nblocks (ic_size i) - nblocks (ic_size i - 64) /\
      (forall nos, inode_list (ds s3) nos -> inode_list (ds s5) nos) /\
      cut s s5 F F3 Q Q3 l l5 p w i i5 k num dn dn').
Proof.
  intros Hc Hfo Hk Hpos Hv Hsz Hlen Hfm Hnp Hn Hvn Hdr.
  destruct (parent_ready _ _ _ _ _ _ _ _ _ _ _ _ _ _ _ _ _ Hc Hfo Hk Hpos Hv Hsz Hlen Hfm Hnp Hn Hvn Hdr)
    as (Hk3 & Hvp3 & Hb3 & Hs3 & Hd3 & El3 & Hsh3).
  destruct Hfo as [Hc2 Hv2 Hb2 Hd2 Hlast El2 Hs2 He2 Hnos2], Hdr as [Hc3 Hvn3 Ho3 Hr3 Hre3 Hf3 Hfate3 Hot3 _ K3].
  destruct (c_hashed _ _ _ Hc _ _ _ Hk) as (Hp & _).
  eapply wp_mono; [exact (last_entry_cut s3 F3 Q3 l3 p w i Hc3 Hk3 Hpos Hd3 Hsh3 Hsz (b_area _ _ _ Hb3 _ _ Hp Hvp3))|].
  intros [] s' (i5 & freed & s5 & -> & Ht5 & Hch & Hsz5 & Hfr & Hu5 & Hre5 & Hd5 & El5 & He5 & Hnos5).
  pose proof (updates_ok _ _ _ _ _ _ _ _ _ Hc3 Hk3 Hu5) as Hc5.
  assert (forall m d, inode_num m -> m <> p -> inode_view s3 Q3 m d -> inode_view s5 Q3 m d) as Ho5.
  { intros m d Hm Hmp. by apply (updates_view_other s3 s5 F3 F3 Q3 p w i5 i m d Hc3 Hk3 Hu5 Hm Hmp). }
  assert (caches s5 Q3 p w i5) as Hk5 by (apply (updates_caches _ _ _ _ _ _ _ _ _ _ _ _ Hu5 Hk3); by left).
  pose proof Hd5 as (Hf5 & _).
  exists i5, (freed ++ l3), s5, freed. do 4 (split; [done|]). split; try done.
  - apply (blocks_step (ds s3) (inode_view s3 Q3) l3 _ _ (freed ++ l3) p (getDiskINodeData i) (getDiskINodeData i5));
      try done.
    + apply with_view_ok; [by eapply cache_view_ok|]. by apply (c_hashed _ _ _ Hc5 _ _ _ Hk5).
    + unfold with_view. by rewrite decide_True.
    + unfold with_view. intros m Hm Hmp d Hmd. rewrite decide_False in Hmd by done. left.
      eapply (view_back s3 s5); [done|done|done| |done]. intros d'. by apply Ho5.
  - rewrite El5, El3, El2, length_insert. unfold removed. by rewrite Hlast.
  - by apply Ho5.
  - apply (fate_after (ds s) d2 (ds s3) (ds s5) dn dn'); [by apply (Hs2 num)|exact Hfate3|].
    by apply (contents_step (ds s3) (inode_view s3 Q3) l3 (ds s5) (freed ++ l3) p (getDiskINodeData i) (getDiskINodeData i5) num dn' Hb3).
  - intros m d Hm Hmp Hmn Hd. pose proof (Hv2 _ _ Hm Hd) as Hd2'. pose proof (Ho3 _ _ Hm Hmn Hd2') as Hd3'.
    split; [by apply Ho5|]. eapply same_contents_trans; [by apply (Hs2 m)|].
    eapply same_contents_trans; [by apply (Hs3 m)|].
    by apply (contents_step (ds s3) (inode_view s3 Q3) l3 (ds s5) (freed ++ l3) p (getDiskINodeData i) (getDiskINodeData i5) m d Hb3).
  - intros m c Hm. pose proof Ht5 as ((_&_&_&_&_&_&E7&_)&_).
    apply (updates_refs_same s3 s5 F3 F3 Q3 p w i5 i m c Hc3 Hk3 Hu5 E7). by apply Hr3.
  - destruct (changes_env _ _ _ (proj2 Hre3)) as (_ & _ & _ & E3).
    destruct He2 as (_ & _ & _ & E2), He5 as (_ & _ & _ & E5). cbn [ds set_ds] in E3. congruence.
  - apply (kept_then 0 (set_ds d2 s) s3 s5 F3 Q Q3 Q3 Hc3 K3), (updates_kept (-1) _ _ _ _ _ _ _ _ _ Hk3 Hu5).
    by destruct Ht5 as (_ & -> & _).
Qed.

(** What is left after the removal of entry [k], which named [num], from [p]. *)
Record removed_from (s s' : istate) (F' : list nat) (Q Q' : Z -> list nat) (l' : list Z) (p : Z)
    (dp dp' : iNode) (k : nat) (num : Z) (dn dn' : iNode) : Prop := {
  rm_cache : cache_ok s' F' Q';
  rm_blocks : blocks_ok (ds s') (inode_view s' Q') l';
  rm_view : inode_view s' Q' num dn';
  rm_fate : fate (ds s) (ds s') dn dn';
  rm_parent : inode_view s' Q' p dp' /\ file_mode dp' = file_mode dp /\ linksCount dp' = linksCount dp /\
    size dp' = size dp - 64 /\ same_attributes dp dp';
  rm_list : dir_list (ds s') (dir_of dp') = removed (dir_list (ds s) (dir_of dp)) k;
  rm_others : forall m d, inode_num m -> m <> p -> m <> num -> inode_view s Q m d ->
    inode_view s' Q' m d /\ same_contents (ds s) (ds s') d;
  rm_held : held (ds s') = held (ds s);
  rm_kept : kept 0 s s' Q Q'
}.

(** The directory is given back: what its node has is what the cache shows. *)
Definition given (s s' : istate) (Q : Z -> list nat) (p : Z) (i : inCoreiNode) : Prop :=
  changes inode_zone (ds s) (ds s') /\
  (forall m d, inode_num m -> with_view p (getDiskINodeData i) (inode_view s Q) m d ->
    inode_view s' Q m d /\ same_contents (ds s) (ds s') d) /\
  (forall m c, refs s Q m c -> refs s' Q m (c + - one p m)) /\
  (forall m j i1, m <> p -> caches s Q m j i1 -> caches s' Q m j i1).

Lemma put_parent s s5 F F5 Q Q5 l l5 p w i i5 k num dn dn' :
  cut s s5 F F5 Q Q5 l l5 p w i i5 k num dn dn' -> changeable p i -> 0 < reference_count i ->
  inode_num p -> num <> p -> inode_num num ->
  wp (iput w) s5 (fun _ s' => given s5 s' Q5 p i5 /\
    (forall m c, refs s Q m c -> refs s' Q5 m (c + - one p m)) /\
    exists F', removed_from s s' F' Q Q5 l5 p (getDiskINodeData i) (getDiskINodeData i5) k num dn dn').
Proof.
  intros [Hc5 Hk5 (Ht & Hmark & Hsz) Hb5 Hd5 El5 Hvn5 Hfate5 Ho5 Hr5 Eh5 K5] Hch Hpos Hp Hnp Hn.
  pose proof Ht as ((_&_&Em&_&_&_&Er&_)&Elk&_).
  eapply wp_mono; [apply (iput_gives_back s5 F5 Q5 p w i5); [done|done|by rewrite Er|]|].
  { rewrite Elk, Er. destruct Hch as [?|[-> ?]]; [by left|right]. split_and!; [done|done|left].
    intros [E _]. congruence. }
  intros z s6 (_ & Hch6 & S6 & F6 & Hc6 & Hvp6 & Ho6 & Hr6 & _ & Hot6).
  assert (changes inode_zone (ds s5) (ds s6)) as Hzone.
  { eapply changes_mono; [|exact Hch6]. intros b. by apply inode_block_zone. }
  assert (changes meta_zone (ds s5) (ds s6)) as Hmeta by (eapply changes_mono; [|exact Hzone]; apply inode_zone_meta).
  assert (p <> num) as Hpn by (by intros ->).
  assert (forall m d, inode_num m -> with_view p (getDiskINodeData i5) (inode_view s5 Q5) m d -> inode_view s6 Q5 m d) as Hv6.
  { unfold with_view. intros m d Hm. destruct (decide (m = p)) as [->|Hmp]; [by intros ->|by apply Ho6]. }
  assert (forall m d, inode_num m -> with_view p (getDiskINodeData i5) (inode_view s5 Q5) m d ->
    same_contents (ds s5) (ds s6) d) as Hs6.
  { intros m d Hm Hd. apply (contents_meta (ds s5) (with_view p (getDiskINodeData i5) (inode_view s5 Q5)) l5 _ m); try done.
    apply (c_disk _ _ _ Hc6). }
  assert (forall m d, m <> p -> inode_view s5 Q5 m d -> with_view p (getDiskINodeData i5) (inode_view s5 Q5) m d) as HW
    by (intros m d Hmp Hd; unfold with_view; by rewrite decide_False).
  split; [split; [done|split; [by split; [apply Hv6|eapply Hs6]|by split]]|split].
  - intros m c Hm. by apply Hr6, Hr5.
  - exists F6. split.
    + done.
    + apply (blocks_meta (ds s5) (with_view p (getDiskINodeData i5) (inode_view s5 Q5)) l5);
        [done|by eapply cache_view_ok|apply (c_disk _ _ _ Hc6)|done|].
      intros m Hm d Hd. left. destruct (v_total _ (b_view _ _ _ Hb5) m Hm) as [d0 Hd0].
      by rewrite (inode_view_unique _ _ _ _ _ _ Hc6 Hd (Hv6 _ _ Hm Hd0)).
    + by apply Ho6.
    + apply (fate_after (ds s) (ds s) (ds s5) (ds s6) dn dn'); [by split|done|]. apply (Hs6 num); [done|]. by apply HW.
    + split; [done|]. split; [done|]. split; [done|]. split; [done|]. by apply touched_attributes.
    + transitivity (dir_list (ds s5) (dir_of (getDiskINodeData i5))); [|exact El5].
      apply same_dir_list, (Hs6 p); [done|]. unfold with_view. by rewrite decide_True.
    + intros m d Hm Hmp Hmn Hd. destruct (Ho5 m d Hm Hmp Hmn Hd) as [Hd5' Hs5]. split; [by apply Ho6|].
      eapply same_contents_trans; [exact Hs5|]. apply (Hs6 m); [done|]. by apply HW.
    + destruct (changes_env _ _ _ Hch6) as (_ & _ & _ & E6). by rewrite E6.
    + eapply kept_then; [exact Hc5|exact K5|exact S6].
Qed.

(** What came before moves only nodes. *)
Lemma removed_from_moved s s1 s' F F1 F' Q Q1 Q' l l' p dp dp' k num dn dn' dr :
  fs_ok s F Q l -> moves s s1 F1 Q Q1 (fun _ => 0) dr -> (forall m, 0 <= dr m) ->
  inode_num p -> inode_view s Q p dp -> inode_num num -> inode_view s Q num dn ->
  removed_from s1 s' F' Q1 Q' l' p dp dp' k num dn dn' -> removed_from s s' F' Q Q' l' p dp dp' k num dn dn'.
Proof.
  intros Hfs Hm Hdr Hp Hv Hn Hvn [A1 A2 A3 Afate A4 A5 A6 Ah AK]. destruct (fs_moves _ _ _ _ _ _ _ _ _ Hfs Hm) as [[Hc1 _ _] Hs].
  pose proof (m_same _ _ _ _ _ _ _ Hm) as [_ V R]. split; try done.
  - apply (fate_after (ds s) (ds s1) (ds s') (ds s') dn dn'); [by apply (Hs num)|done|by split].
  - by rewrite A5, (same_dir_list _ _ _ (Hs p dp Hp Hv)).
  - intros m d Hm' Hmp Hmn Hmd. destruct (A6 m d Hm' Hmp Hmn ltac:(by apply V)) as [? ?]. split; [done|].
    eapply same_contents_trans; [by apply (Hs m)|done].
  - rewrite Ah. by destruct (changes_env _ _ _ (m_disk _ _ _ _ _ _ _ Hm)) as (_ & _ & _ & ->).
  - eapply kept_trans; [exact Hc1|by eapply moves_kept|exact R|exact Hdr|exact AK].
Qed.

(** * The whole operation *)

(** What [drop_link] does to inode [num], wherever it is called between the
    lookup and the truncation of the directory. *)
Definition drops (s : istate) (Q : Z -> list nat) (l : list Z) (num : Z) (dn : iNode) (nos' : list Z)
    (X : list Z -> iNode -> Prop) : Prop :=
  forall s2 F2 Q2, cache_ok s2 F2 Q2 -> F2 <> [] -> inode_view s2 Q2 num dn ->
    (forall c, refs s Q num c -> refs s2 Q2 num c) ->
    file_ok (ds s2) l (dir_of dn) -> Forall data_area (l ++ blocks_of (ds s2) (dir_of dn)) ->
    blocks_of (ds s2) (dir_of dn) = blocks_of (ds s) (dir_of dn) -> held (ds s2) = held (ds s) ->
    (forall nos, inode_list (ds s) nos -> inode_list (ds s2) nos) ->
    wp (drop_link num) s2 (fun _ s3 => inode_list (ds s3) nos' /\ exists F3 Q3 l3 dn',
      dropped s2 s3 F2 F3 Q2 Q3 l l3 num dn dn' /\ X l3 dn').

(** The entries that [malloc] returns have clear upper bytes in their number.
    [malloc] does not promise this; the code does not clear them, and the search
    copies two bytes of the number only. *)
Definition clean_malloc : Prop := forall v m n, 0 <= fresh_number v m n < 65536.

(** The number that [iget] is given. *)
Lemma low_bytes_number old num :
  0 <= num < 65536 -> u64 (low_bytes old num) = u64 old / 65536 * 65536 + num.
Proof.
  intros Hn. unfold low_bytes. rewrite u64_i64. apply u64_id. pose proof (u64_range old).
  unfold is_u64 in *. Z.to_euclidean_division_equations; lia.
Qed.

Lemma low_bytes_clean s num :
  clean_malloc -> 0 <= num < 65536 -> u64 (low_bytes (iNodeNum (junk_entry s)) num) = num.
Proof.
  intros Hj Hn. rewrite low_bytes_number by done. cbn [junk_entry iNodeNum].
  specialize (Hj (device s) (mem_disk s) (time_calls s)).
  rewrite u64_i64, u64_id by (unfold is_u64; lia). rewrite Z.div_small by done. lia.
Qed.

(** Otherwise it is that of another inode. *)
Lemma low_bytes_dirty old num : 65536 <= u64 old -> 0 <= num < 65536 -> u64 (low_bytes old num) <> num.
Proof. intros Ho Hn. rewrite low_bytes_number by done. Z.to_euclidean_division_equations; lia. Qed.

(** [unlinkFileFromINode], the mutex of the directory being held. *)
Lemma unlink_under_lock s0 Q0 s F Q l p w i file k nb num dn nos' X :
  cache_ok s F Q -> F <> [] -> caches s Q p w i -> 0 < reference_count i ->
  blocks_ok (ds s) (inode_view s Q) l -> inode_view s Q p (getDiskINodeData i) -> dir_ok (ds s) l i ->
  c_string file -> 64 <= ic_size i < 10240 -> (128 <= length l)%nat -> FreeMutex ∉ held (ds s) ->
  find_entry file (dir_list (ds s) i) = Some (k, (nb, num)) -> num <> p -> inode_view s Q num dn ->
  (forall c, refs s Q num c -> c + 1 < 2 ^ 64) -> clean_malloc ->
  (forall c, refs s0 Q0 num c -> refs s Q num c) -> same_contents (ds s0) (ds s) dn ->
  held (ds s) = held (ds s0) -> (forall nos, inode_list (ds s0) nos -> inode_list (ds s) nos) ->
  drops s0 Q0 l num dn nos' X ->
  wp (unlinkFileFromINode w file) (hold w s) (fun r s' => r = 0 /\ exists i5 l5 s5 l3 freed F5 Q5 dn',
    s' = hold w s5 /\ X l3 dn' /\ l5 = freed ++ l3 /\
    Z.of_nat (length freed) = nblocks (ic_size i) - nblocks (ic_size i - 64) /\
    inode_list (ds s5) nos' /\ cut s s5 F F5 Q Q5 l l5 p w i i5 k num dn dn').
Proof.
  intros Hc HF Hk Hpos Hb Hv Hd Hfile Hsz Hlen Hfm Ef Hnp Hvn Hmax Hj Hr0 Hs0 Hh0 Hno0 Hdrop.
  assert (0 <= num < 65535) as Hnum.
  { pose proof Hd as (_ & _ & _ & Hterm). unfold find_entry in Ef. apply list_find_Some in Ef as (Hl & _).
    apply list_elem_of_lookup_2 in Hl. rewrite Forall_forall in Hterm. by apply Hterm in Hl as [_ ?]. }
  assert (inode_num num) as Hn by (unfold inode_num; consts; lia).
  unfold unlinkFileFromINode. apply wp_bind.
  eapply wp_mono; [eapply (find_stage s F Q l p w i file k); try done; lia|].
  intros r s' (-> & d2 & e' & -> & Hfo). cbn beta iota. change (negb (1 =? 1)) with false. cbn iota.
  change (the_entry _) with (DirectoryEntry nb (low_bytes (iNodeNum (junk_entry (ds s))) num)). cbn [iNodeNum].
  rewrite low_bytes_clean by (done || lia).
  pose proof Hfo as [Hc2 Hv2 Hb2 _ _ _ Hs2 (_ & _ & _ & Hh2) Hno2].
  pose proof (Hv2 _ _ Hn Hvn) as Hvn2. set (s2 := set_ds d2 s) in *.
  destruct (Hs2 num dn Hn Hnp Hvn) as [Eb2 _]. destruct Hs0 as [Eb0 _].
  unfold wp. rewrite drop_link_then. apply wp_bind, blind_wp.
  { by apply (blind_drop_link s2 F Q p w i num). }
  eapply wp_mono; [apply (Hdrop s2 F Q); try done|].
  { apply (b_file _ _ _ Hb2 _ _ Hn Hvn2). }
  { apply (b_area _ _ _ Hb2 _ _ Hn Hvn2). }
  { change (blocks_of d2 (dir_of dn) = blocks_of (ds s0) (dir_of dn)). congruence. }
  { change (held d2 = held (ds s0)). congruence. }
  { intros nos Hl. by apply Hno2, Hno0. }
  intros [] s3 (Hnos3 & F3 & Q3 & l3 & dn' & Hdr & HX). apply wp_bind.
  eapply wp_mono; [by apply (cut_stage s d2 s3 F F3 Q Q3 l l3 p w i k e' num dn dn')|].
  intros [] s4 (i5 & l5 & s5 & freed & Hun & El5 & Hfr & Hno5 & Hcut). apply wp_ret. split; [done|].
  exists i5, l5, s5, l3, freed, F3, Q3, dn'. split_and!; try done. by apply Hno5.
Qed.

(** [unlinkFile] on a file system in a valid state, whatever becomes of the
    inode. *)
Lemma unlinkFile_removes s F Q l dir file p dp k nb num dn nos' X :
  fs_ok s F Q l -> few_refs s Q -> (2 <= length F)%nat ->
  c_string (dir ++ file) -> last dir = Some slash -> slash ∉ file ->
  walks s Q 0 (path_names dir) (Some p) -> inode_view s Q p dp -> S_ISDIR (file_mode dp) = true ->
  find_entry file (dir_list (ds s) (dir_of dp)) = Some (k, (nb, num)) -> root_idle s Q p dp ->
  size dp < 10240 -> (128 <= length l)%nat -> FreeMutex ∉ held (ds s) ->
  num <> p -> inode_view s Q num dn -> clean_malloc -> drops s Q l num dn nos' X ->
  wp (unlinkFile (dir ++ file)) s (fun v s' => v = 0 /\ exists F' Q' l3 freed dn' dp',
    X l3 dn' /\ Z.of_nat (length freed) = nblocks (size dp) - nblocks (size dp - 64) /\
    inode_list (ds s') nos' /\ (forall m c, refs s Q m c -> refs s' Q' m c) /\
    removed_from s s' F' Q Q' (freed ++ l3) p dp dp' k num dn dn').
Proof.
  intros Hfs Hfew HF Hpath Hdir Hfile Hw Hv Hd Ef Hidle Hsz Hlen Hfm Hnp Hvn Hj Hdrop.
  pose proof Hfs as [Hc Htree Hb]. pose proof Hpath as [Hpd Hpf]%Forall_app.
  assert (inode_num 0) as H0n by done.
  destruct (entry_num _ _ _ _ _ _ _ _ Htree (proj2 (walks_num _ _ _ _ _ _ _ Htree H0n ltac:(lia) Hw eq_refl))
    (ex_intro _ dp (conj Hv (conj Hd eq_refl))) Ef) as [Hn _]. cbn [snd] in Hn.
  unfold unlinkFile, getParentINode. destruct (parent_and_name dir file s Hdir Hfile) as [E1 _].
  apply wp_bind. apply wp_bind. eapply wp_Ret; [exact E1|].
  eapply wp_mono; [eapply (getFileINode_spec 2 ltac:(lia) s F Q l dir (Some p)); try done; by intros ->|].
  intros o s1 (w & F1 & Q1 & -> & Hm1 & Hh).
  destruct (parent_in_hand _ _ _ _ _ _ _ _ _ _ _ _ _ Hc Htree Hm1 Hh Hv Hd)
    as (i & Hk & Hpos & Ei & Hdok & _ & El & Hpn & HF1).
  destruct (fs_moves _ _ _ _ _ _ _ _ _ Hfs Hm1) as [[Hc1 Ht1 Hb1] Hs1].
  pose proof (m_same _ _ _ _ _ _ _ Hm1) as [_ V1 R1]. pose proof (m_disk _ _ _ _ _ _ _ Hm1) as Hch1.
  pose proof Hk as (Hi & _ & _). pose proof (c_quiet _ _ _ Hc1 _ _ Hi) as Hq.
  pose proof (parent_changeable _ _ _ _ _ _ _ _ _ _ _ _ _ Hc Hm1 (one_self p) Hh Hk Hpn Hv Ei Hidle) as [_ Hch].
  assert (ic_size i = size dp) as Esz by exact (f_equal size Ei).
  assert (64 <= ic_size i) as H64.
  { destruct (dir_count _ _ _ Hdok) as [Hcnt _]. rewrite El in Hcnt.
    unfold find_entry in Ef. apply list_find_Some in Ef as (Hl & _). apply lookup_lt_Some in Hl.
    pose proof (Z.mul_div_le (ic_size i) 64). lia. }
  apply wp_bind. eapply wp_Ret; [by apply inode_lock_Ret|]. rewrite <- (hold_inode_at s1 w i Hi).
  destruct (parent_and_name dir file (hold w s1) Hdir Hfile) as [_ E2].
  apply wp_bind. eapply wp_Ret; [exact E2|]. apply wp_bind.
  eapply wp_mono; [apply (unlink_under_lock s Q s1 F1 Q1 l p w i file k nb num dn nos' X); try done|].
  { intros ->. cbn in HF1. lia. }
  { by rewrite Ei; apply V1. }
  { lia. }
  { by destruct (changes_env _ _ _ Hch1) as (_ & _ & _ & ->). }
  { by rewrite El. }
  { by apply V1. }
  { intros c Hcn. destruct (refs_total _ _ _ _ Hc Hn) as [c0 Hc0]. pose proof (Hfew _ _ Hn Hc0) as Hlt.
    pose proof (R1 _ _ Hc0) as Hc1'. rewrite (refs_unique _ _ _ _ _ _ Hc1 Hcn Hc1').
    unfold one. rewrite decide_False by done. lia. }
  { intros c Hcn. apply R1 in Hcn. unfold one in Hcn. rewrite decide_False in Hcn by done. by rewrite Z.add_0_r in Hcn. }
  { by apply (Hs1 num). }
  { by destruct (changes_env _ _ _ Hch1) as (_ & _ & _ & ->). }
  { intros nos Hl. eapply inode_list_frame; [exact Hl|]. apply Hch1. unfold inode_zone. consts. lia. }
  intros r s4 (-> & i5 & l5 & s5 & l3 & freed & F5 & Q5 & dn' & -> & HX & -> & Hfr & Hnos & Hcut).
  change (0 =? -1) with false. cbn iota. apply wp_bind. pose proof (cu_parent _ _ _ _ _ _ _ _ _ _ _ _ _ _ _ _ Hcut) as (Hi5 & _).
  eapply wp_Ret; [by eapply unlock_hold, (c_quiet _ _ _ (cu_cache _ _ _ _ _ _ _ _ _ _ _ _ _ _ _ _ Hcut))|].
  apply wp_bind.
  eapply wp_mono; [by apply (put_parent s1 s5 F1 F5 Q1 Q5 l (freed ++ l3) p w i i5 k num dn dn')|].
  intros z s6 ((Hch6 & _) & Hr6 & F6 & Hrm). apply wp_ret. split; [done|].
  exists F6, Q5, l3, freed, dn', (getDiskINodeData i5). split; [done|]. split; [by rewrite Hfr, Esz|]. split.
  { eapply inode_list_frame; [exact Hnos|]. apply Hch6. unfold inode_zone. consts. lia. }
  split.
  { intros m c Hmc. replace c with (c + one p m + - one p m) by lia. by apply Hr6, R1. }
  rewrite Ei in Hrm. eapply removed_from_moved; [exact Hfs|exact Hm1|apply one_nonneg|done..].
Qed.

Lemma drops_keeps s Q l num dn c0 nos :
  inode_num num -> refs s Q num c0 -> c0 + 1 < 2 ^ 64 -> 1 < linksCount dn -> inode_list (ds s) nos ->
  drops s Q l num dn nos (fun l3 dn' => l3 = l /\ dn' = links_set (linksCount dn - 1) dn).
Proof.
  intros Hn Hr Hmax Hl Hnos s2 F2 Q2 Hc2 HF Hv2 Hr2 Hf2 Hda2 _ _ Hno2.
  eapply wp_mono; [apply (drop_link_keeps s2 F2 Q2 l num dn); try done|].
  { intros c Hcn. by rewrite (refs_unique _ _ _ _ _ _ Hc2 Hcn (Hr2 _ Hr)). }
  { by intros [? _]. }
  intros [] s3 (Hch & F3 & Q3 & Hdr). split; [|by eexists F3, Q3, l, _].
  eapply inode_list_frame; [by apply Hno2|]. apply Hch. unfold inode_zone. consts. lia.
Qed.

Lemma drops_deletes s Q l num dn j x tl :
  inode_num num -> num <> 0 -> refs s Q num 0 -> linksCount dn = 1 -> (128 <= length l)%nat ->
  FreeMutex ∉ held (ds s) -> IFreeMutex ∉ held (ds s) ->
  inode_list (ds s) (replicate (Datatypes.S j) 0 ++ x :: tl) -> x <> 0 ->
  drops s Q l num dn (replicate j 0 ++ num :: x :: tl)
    (fun l3 dn' => l3 ≡ₚ blocks_of (ds s) (dir_of dn) ++ l /\ deleted dn').
Proof.
  intros Hn Hn0 Hr Hl Hlen Hfm Him Hnos Hx s2 F2 Q2 Hc2 HF Hv2 Hr2 Hf2 Hda2 Eb Eh Hno2.
  eapply wp_mono; [apply (drop_link_deletes s2 F2 Q2 l num dn j x tl); try done; rewrite ?Eh; try done|].
  { by apply Hr2. }
  { by apply Hno2. }
  intros [] s3 (Hil & F3 & Q3 & l3 & e & P & Hdr & Hdel). split; [done|]. exists F3, Q3, l3, e.
  rewrite Eb in P. done.
Qed.

(** * The file system afterwards *)

(** No entry but entry [k] of [p] names [num]. *)
Definition named_once (s : istate) (Q : Z -> list nat) (num p : Z) (k : nat) : Prop :=
  forall m d j x, inode_num m -> inode_view s Q m d -> S_ISDIR (file_mode d) = true ->
    dir_list (ds s) (dir_of d) !! j = Some x -> snd x = num -> m = p /\ j = k.

(** What remains was there, at another place than the entry removed. *)
Lemma elem_of_removed es k x :
  (k < length es)%nat -> x ∈ removed es k -> exists j, j <> k /\ es !! j = Some x.
Proof.
  intros Hk. unfold removed. destruct (last es) as [e|] eqn:El; [|apply last_None in El as ->; cbn in Hk; lia].
  intros Hx. apply list_elem_of_lookup in Hx as [j Hj]. apply lookup_take_Some in Hj as [Hj Hlt].
  destruct (decide (j = k)) as [->|Hne].
  - rewrite list_lookup_insert_eq in Hj by done. injection Hj as ->. exists (pred (length es)).
    split; [lia|]. by rewrite last_lookup in El.
  - rewrite list_lookup_insert_ne in Hj by done. by exists j.
Qed.

Section afterwards.
Context (s s' : istate) (F F' : list nat) (Q Q' : Z -> list nat) (l l' : list Z).
Context (p : Z) (dp dp' : iNode) (file nb : list Z) (k : nat) (num : Z) (dn dn' : iNode).
Context (Hfs : fs_ok s F Q l) (Hrm : removed_from s s' F' Q Q' l' p dp dp' k num dn dn').
Context (Hp : inode_num p) (Hv : inode_view s Q p dp) (Hd : S_ISDIR (file_mode dp) = true).
Context (Ef : find_entry file (dir_list (ds s) (dir_of dp)) = Some (k, (nb, num))).
Context (Hn : inode_num num) (Hnp : num <> p) (Hvn : inode_view s Q num dn).
Context (Hsole : deleted dn' -> named_once s Q num p k).

Lemma entry_place : (k < length (dir_list (ds s) (dir_of dp)))%nat.
Proof. unfold find_entry in Ef. apply list_find_Some in Ef as (Hk & _). by eapply lookup_lt_Some. Qed.

Lemma removed_others_back m d :
  inode_num m -> m <> p -> m <> num -> inode_view s' Q' m d ->
  inode_view s Q m d /\ same_contents (ds s) (ds s') d.
Proof.
  intros Hm Hmp Hmn Hd'. pose proof (rm_others _ _ _ _ _ _ _ _ _ _ _ _ _ Hrm) as Ho.
  assert (inode_view s Q m d) as Hd0; [|by split; [|apply (Ho m)]].
  eapply (view_back s s'); [apply Hfs|apply Hrm|done| |done]. intros d0 ?. by apply Ho.
Qed.

(** What was linked is linked, but for a deleted inode. *)
Lemma removed_linked m : inode_num m -> linked s Q m -> m <> num \/ ~ deleted dn' -> linked s' Q' m.
Proof.
  intros Hm Hl Hor. pose proof Hrm as [Hc' _ Hvn' Hfate (Hvp & _ & El & _) _ _ _].
  destruct Hl as [->|Hl]; [by left|right]. intros d Hd'.
  destruct (decide (m = p)) as [->|Hmp]; [|destruct (decide (m = num)) as [->|Hmn]].
  - rewrite (inode_view_unique _ _ _ _ _ _ Hc' Hd' Hvp), El. by apply Hl.
  - rewrite (inode_view_unique _ _ _ _ _ _ Hc' Hd' Hvn').
    destruct Hfate as [Hdel|(_ & ? & _)]; [|done]. by destruct Hor.
  - apply Hl. by apply removed_others_back.
Qed.

(** The inode of an entry that stays is linked. *)
Lemma stays_linked m d j x :
  inode_num m -> inode_view s Q m d -> S_ISDIR (file_mode d) = true ->
  dir_list (ds s) (dir_of d) !! j = Some x -> ~ (m = p /\ j = k) -> linked s' Q' (snd x).
Proof.
  intros Hm Hmd Hdir Hx Hno. destruct (fs_tree _ _ _ _ Hfs m d Hm Hmd Hdir) as ((_ & _ & _ & Hterm) & _ & Hl).
  apply list_elem_of_lookup_2 in Hx as Hin. rewrite Forall_forall in Hterm, Hl.
  pose proof (Hterm _ Hin) as [_ Hr].
  apply removed_linked; [unfold inode_num; consts; lia|by apply Hl|].
  destruct (decide (snd x = num)) as [E|]; [right|by left]. intros Hdel.
  apply Hno. by eapply (Hsole Hdel).
Qed.

Lemma removed_fs_ok : fs_ok s' F' Q' l'.
Proof.
  pose proof Hrm as [Hc' Hb' Hvn' Hfate (Hvp & Em & _ & Esz & _) El Ho _]. split; [done| |done].
  apply (tree_step s Q l); [apply Hfs|done|]. intros m d Hm Hmd Hdir.
  destruct (decide (m = p)) as [->|Hmp]; [right|destruct (decide (m = num)) as [->|Hmn]; [right|left]].
  - pose proof (inode_view_unique _ _ _ _ _ _ Hc' Hmd Hvp). subst d.
    destruct (fs_tree _ _ _ _ Hfs p dp Hp Hv Hd) as ((_ & _ & Hal & Hterm) & _ & _).
    assert (forall x, x ∈ dir_list (ds s') (dir_of dp') -> exists j, j <> k /\ dir_list (ds s) (dir_of dp) !! j = Some x) as Hx.
    { intros x. rewrite El. apply elem_of_removed, entry_place. }
    rewrite Forall_forall in Hterm. split.
    + split; [by apply (b_file _ _ _ Hb' p)|]. split; [exact Hdir|]. split.
      * change (size dp' mod 64 = 0). change (size dp mod 64 = 0) in Hal. rewrite Esz.
        replace (size dp - 64) with (size dp + (-1) * 64) by lia. by rewrite Z.mod_add.
      * apply Forall_forall. intros x Hin. destruct (Hx x Hin) as (j & _ & Hj). apply Hterm.
        by eapply list_elem_of_lookup_2.
    + apply Forall_forall. intros x Hin. destruct (Hx x Hin) as (j & Hjk & Hj).
      eapply (stays_linked p dp j x); try done. by intros [_ ?].
  - pose proof (inode_view_unique _ _ _ _ _ _ Hc' Hmd Hvn'). subst d.
    destruct Hfate as [(_ & Emode & _)|(Edn & _ & Hs)]; [by rewrite Emode in Hdir|].
    pose proof (b_file _ _ _ Hb' _ _ Hn Hvn') as Hf'. rewrite Edn in Hdir, Hf' |- *.
    change (S_ISDIR (file_mode dn) = true) in Hdir.
    destruct (fs_tree _ _ _ _ Hfs num dn Hn Hvn Hdir) as (Hdn & _ & _).
    destruct (dir_same (ds s) (ds s') l l' (dir_of dn) Hdn Hf') as [Hdn' Edl]; [by rewrite dir_of_data|].
    split; [exact Hdn'|]. change (dir_list (ds s') (dir_of (links_set (linksCount dn - 1) dn)))
      with (dir_list (ds s') (dir_of dn)). rewrite Edl. apply Forall_forall. intros x Hin.
    apply list_elem_of_lookup in Hin as [j Hj]. eapply (stays_linked num dn j x); try done. by intros [? _].
  - destruct (removed_others_back m d Hm Hmp Hmn Hmd) as [Hd0 Hs]. split; [done|]. split; [done|].
    intros x Hin _ _. apply list_elem_of_lookup in Hin as [j Hj].
    eapply (stays_linked m d j x); try done. by intros [? _].
Qed.

(** The name leads nowhere, if the directory had it once. *)
Lemma removed_walks :
  (forall j x, dir_list (ds s) (dir_of dp) !! j = Some x -> named file x -> j = k) ->
  walks s' Q' p [file] None.
Proof.
  intros Honce. pose proof Hrm as [_ _ _ _ (Hvp & Em & _) El _ _].
  eapply (walks_missing s' Q' p file [] (dir_list (ds s') (dir_of dp'))).
  - exists dp'. split; [done|]. split; [by rewrite Em|done].
  - rewrite El. unfold find_entry. apply list_find_None, Forall_forall. intros x Hx Hnx.
    apply elem_of_removed in Hx as (j & Hjk & Hj); [|apply entry_place]. apply Hjk. by eapply Honce.
Qed.

End afterwards.
(** * The two outcomes *)

(** Entry [k] of the directory [p], which is named [file] and leads to [num],
    can be removed: the directory is inside its direct blocks, so that blocks
    are released one by one, and the free list does not run over. *)
Record removable (s : istate) (F : list nat) (Q : Z -> list nat) (l : list Z) (dir file : list Z) (p : Z)
    (dp : iNode) (k : nat) (num : Z) (dn : iNode) : Prop := {
  re_fs : fs_ok s F Q l;
  re_refs : few_refs s Q;
  re_nodes : (2 <= length F)%nat;
  re_path : c_string (dir ++ file) /\ last dir = Some slash /\ slash ∉ file;
  re_walk : walks s Q 0 (path_names dir) (Some p);
  re_parent : inode_view s Q p dp /\ S_ISDIR (file_mode dp) = true /\ size dp < 10240;
  re_entry : exists nb, find_entry file (dir_list (ds s) (dir_of dp)) = Some (k, (nb, num));
  re_idle : root_idle s Q p dp;
  re_room : (128 <= length l)%nat;
  re_held : FreeMutex ∉ held (ds s);
  re_inode : num <> p /\ inode_view s Q num dn;
  re_malloc : clean_malloc
}.

(** What every removal leaves. *)
Record file_unlinked (s s' : istate) (F' : list nat) (Q Q' : Z -> list nat) (l' : list Z) (file : list Z)
    (p : Z) (dp : iNode) (k : nat) (num : Z) (dn' : iNode) : Prop := {
  un_fs : fs_ok s' F' Q' l';
  un_inode : inode_view s' Q' num dn';
  un_list : exists dp', inode_view s' Q' p dp' /\ same_attributes dp dp' /\
    dir_list (ds s') (dir_of dp') = removed (dir_list (ds s) (dir_of dp)) k;
  un_name : (forall j x, dir_list (ds s) (dir_of dp) !! j = Some x -> named file x -> j = k) ->
    walks s' Q' p [file] None;
  un_others : forall m d, inode_num m -> m <> p -> m <> num -> inode_view s Q m d ->
    inode_view s' Q' m d /\ same_contents (ds s) (ds s') d;
  un_refs : forall m c, refs s Q m c -> refs s' Q' m c;
  un_held : held (ds s') = held (ds s);
  un_kept : kept 0 s s' Q Q'
}.

Lemma removable_nums s F Q l dir file p dp k num dn :
  removable s F Q l dir file p dp k num dn -> inode_num p /\ inode_num num.
Proof.
  intros [Hfs _ _ _ Hw (Hv & Hd & _) [nb Ef] _ _ _ _ _].
  assert (inode_num 0) as H0n by done.
  pose proof (proj2 (walks_num _ _ _ _ _ _ _ (fs_tree _ _ _ _ Hfs) H0n ltac:(lia) Hw eq_refl)) as Hp.
  split; [done|].
  by destruct (entry_num _ _ _ _ _ _ _ _ (fs_tree _ _ _ _ Hfs) Hp (ex_intro _ dp (conj Hv (conj Hd eq_refl))) Ef).
Qed.

Lemma removed_unlinked s s' F F' Q Q' l l' file p dp dp' k nb num dn dn' :
  fs_ok s F Q l -> removed_from s s' F' Q Q' l' p dp dp' k num dn dn' -> inode_num p -> inode_view s Q p dp ->
  S_ISDIR (file_mode dp) = true -> find_entry file (dir_list (ds s) (dir_of dp)) = Some (k, (nb, num)) ->
  inode_num num -> num <> p -> inode_view s Q num dn -> (deleted dn' -> named_once s Q num p k) ->
  (forall m c, refs s Q m c -> refs s' Q' m c) -> file_unlinked s s' F' Q Q' l' file p dp k num dn'.
Proof.
  intros Hfs Hrm Hp Hv Hd Ef Hn Hnp Hvn Hs Hr. split.
  - by eapply removed_fs_ok.
  - by destruct Hrm.
  - exists dp'. by destruct Hrm as [_ _ _ _ (? & _ & _ & _ & ?) ? _ _ _].
  - by eapply removed_walks.
  - by destruct Hrm.
  - done.
  - by destruct Hrm.
  - by destruct Hrm.
Qed.

Lemma unlinkFile_outcome s F Q l dir file p dp k num dn nos' X :
  removable s F Q l dir file p dp k num dn -> drops s Q l num dn nos' X ->
  (forall dn', deleted dn' -> named_once s Q num p k \/ forall l3, ~ X l3 dn') ->
  wp (unlinkFile (dir ++ file)) s (fun v s' => v = 0 /\ exists F' Q' l3 freed dn',
    X l3 dn' /\ Z.of_nat (length freed) = nblocks (size dp) - nblocks (size dp - 64) /\
    inode_list (ds s') nos' /\ fate (ds s) (ds s') dn dn' /\
    file_unlinked s s' F' Q Q' (freed ++ l3) file p dp k num dn').
Proof.
  intros Hre Hdrop Hsole. destruct (removable_nums _ _ _ _ _ _ _ _ _ _ _ Hre) as [Hp Hn].
  destruct Hre as [Hfs Hfew HF (Hpath & Hdir & Hfile) Hw (Hv & Hd & Hsz) [nb Ef] Hidle Hlen Hh [Hnp Hvn] Hm].
  eapply wp_mono; [by eapply (unlinkFile_removes s F Q l dir file p dp k nb num dn nos' X)|].
  intros v s' (-> & F' & Q' & l3 & freed & dn' & dp' & HX & Hfr & Hnos & Hr & Hrm). split; [done|].
  exists F', Q', l3, freed, dn'. split; [done|]. split; [done|]. split; [done|].
  split; [by destruct Hrm|].
  assert (deleted dn' -> named_once s Q num p k) as Hs.
  { intros Hdel. destruct (Hsole dn' Hdel) as [|Hno]; [done|by apply Hno in HX]. }
  by eapply (removed_unlinked s s' F F' Q Q' l _ file p dp dp' k nb num dn dn').
Qed.

(** The last link of an inode that nobody uses. *)
Lemma unlinkFile_last s F Q l dir file p dp k num dn j x tl :
  removable s F Q l dir file p dp k num dn -> linksCount dn = 1 -> refs s Q num 0 -> num <> 0 ->
  named_once s Q num p k -> IFreeMutex ∉ held (ds s) ->
  inode_list (ds s) (replicate (Datatypes.S j) 0 ++ x :: tl) -> x <> 0 ->
  wp (unlinkFile (dir ++ file)) s (fun v s' => v = 0 /\ exists F' Q' l' freed e,
    l' ≡ₚ freed ++ blocks_of (ds s) (dir_of dn) ++ l /\
    Z.of_nat (length freed) = nblocks (size dp) - nblocks (size dp - 64) /\
    inode_list (ds s') (replicate j 0 ++ num :: x :: tl) /\ deleted e /\
    file_unlinked s s' F' Q Q' l' file p dp k num e).
Proof.
  intros Hre Hl Hr Hn0 Hone Hif Hnos Hx. destruct (removable_nums _ _ _ _ _ _ _ _ _ _ _ Hre) as [_ Hn].
  eapply wp_mono; [eapply unlinkFile_outcome; [exact Hre| |]|].
  { eapply (drops_deletes s Q l num dn j x tl); try done; by destruct Hre. }
  - by left.
  - intros v s' (-> & F' & Q' & l3 & freed & e & [P Hdel] & Hfr & Hnos' & _ & Hun). split; [done|].
    exists F', Q', (freed ++ l3), freed, e.
    split; [by rewrite P|]. split; [exact Hfr|]. split; [exact Hnos'|]. split; [exact Hdel|exact Hun].
Qed.

(** An inode with other links. *)
Lemma unlinkFile_shared s F Q l dir file p dp k num dn nos :
  removable s F Q l dir file p dp k num dn -> 1 < linksCount dn -> inode_list (ds s) nos ->
  wp (unlinkFile (dir ++ file)) s (fun v s' => v = 0 /\ exists F' Q' freed,
    Z.of_nat (length freed) = nblocks (size dp) - nblocks (size dp - 64) /\ inode_list (ds s') nos /\
    same_contents (ds s) (ds s') dn /\
    file_unlinked s s' F' Q Q' (freed ++ l) file p dp k num (links_set (linksCount dn - 1) dn)).
Proof.
  intros Hre Hl Hnos. destruct (removable_nums _ _ _ _ _ _ _ _ _ _ _ Hre) as [_ Hn].
  pose proof (re_fs _ _ _ _ _ _ _ _ _ _ _ Hre) as Hfs.
  destruct (refs_total _ _ _ _ (fs_cache _ _ _ _ Hfs) Hn) as [c0 Hc0].
  pose proof (re_refs _ _ _ _ _ _ _ _ _ _ _ Hre _ _ Hn Hc0) as Hmax.
  eapply wp_mono; [eapply unlinkFile_outcome; [exact Hre|by eapply drops_keeps|]|].
  - intros dn' (_ & _ & Hz & _). right. intros l3 [_ ->]. cbn in Hz. lia.
  - intros v s' (-> & F' & Q' & l3 & freed & dn' & [-> ->] & Hfr & Hnos' & Hfate & Hun). split; [done|].
    exists F', Q', freed. split_and!; try done. destruct Hfate as [(_ & _ & Hz & _)|(_ & _ & ?)]; [|done].
    cbn in Hz. lia.
Qed.

End unlink.
