(* ===== verification/WriteSpec.v ===== *)
(** A change of the contents of one file keeps the invariant of the file
    system. *)

From S2P Require Export CreateSpec FileAccess.

Section write.
Context `{BlockStore ok} `{shifts : !DefinedShifts}.
Local Abbreviation cache_ok := (cache_ok (ok := ok)).
Local Abbreviation updates := (updates (ok := ok)).
Local Abbreviation file_ok := (file_ok (ok := ok)).
Local Abbreviation fs_ok := (fs_ok (ok := ok)).
Local Abbreviation blocks_ok := (blocks_ok (ok := ok)).

Lemma reworked_rearranged s l i s' l' i' : reworked s l i s' l' i' -> rearranged s l i s' l' i'.
Proof. intros [P Hch]. split; [done|]. eapply changes_mono; [|exact Hch]. naive_solver. Qed.

(** The inode [n] in the node [k] has become [i'], with other contents. *)
Lemma write_fs_ok s F Q l n k i s' i' l' :
  fs_ok s F Q l -> caches s Q n k i -> inode_view s Q n (getDiskINodeData i) ->
  S_ISDIR (ic_file_mode i) = false -> ic_linksCount i <> 0 ->
  touched i i' -> file_ok (ds s') l' i' -> rearranged (ds s) l i (ds s') l' i' -> updates s s' F F Q n k i' ->
  fs_ok s' F Q l' /\ inode_view s' Q n (getDiskINodeData i') /\
  (forall m d, inode_num m -> m <> n -> inode_view s Q m d -> inode_view s' Q m d /\ same_contents (ds s) (ds s') d) /\
  (forall m c, refs s Q m c -> refs s' Q m c).
Proof.
  intros [Hc Htree Hb] Hk Hv Hreg Hl Ht Hf' Hre Hu. destruct (c_hashed _ _ _ Hc _ _ _ Hk) as (Hn & _).
  pose proof (updates_ok _ _ _ _ _ _ _ _ _ Hc Hk Hu) as Hc'.
  pose proof Ht as ((_&_&Em&_&_&_&Er&_)&El&_).
  assert (caches s' Q n k i') as Hk' by (apply (updates_caches _ _ _ _ _ _ _ _ _ _ _ _ Hu Hk); by left).
  assert (inode_view s' Q n (getDiskINodeData i')) as Hv'.
  { left. exists k, i'. split; [done|]. split; [by rewrite El|done]. }
  assert (forall m d, inode_num m -> m <> n -> inode_view s Q m d -> inode_view s' Q m d) as Ho.
  { intros m d Hm Hmn. by apply (updates_view_other s s' F F Q n k i' i m d Hc Hk Hu). }
  assert (forall m d, inode_num m -> m <> n -> inode_view s' Q m d -> inode_view s Q m d) as Hback.
  { intros m d Hm Hmn Hd. eapply (view_back s s'); [done|done|done| |done]. intros d0 ?. by apply Ho. }
  assert (blocks_ok (ds s') (inode_view s' Q) l') as Hb'.
  { apply (blocks_step (ds s) (inode_view s Q) l _ _ l' n (getDiskINodeData i) (getDiskINodeData i') Hb); try done.
    - by eapply cache_view_ok.
    - intros m Hm Hmn d Hd. left. by apply Hback. }
  assert (forall m d, inode_num m -> m <> n -> inode_view s Q m d -> same_contents (ds s) (ds s') d) as Hs.
  { intros m d Hm Hmn Hd.
    by apply (contents_step (ds s) (inode_view s Q) l (ds s') l' n (getDiskINodeData i) (getDiskINodeData i') m d Hb). }
  split; [|split; [done|split]].
  - split; [done| |done]. apply (tree_step s Q l); [done|done|]. intros m d Hm Hd Hdir.
    destruct (decide (m = n)) as [->|Hmn].
    { rewrite (inode_view_unique _ _ _ _ _ _ Hc' Hd Hv') in Hdir. cbn in Hdir. congruence. }
    left. pose proof (Hback m d Hm Hmn Hd) as Hd0. split; [done|]. split; [by apply (Hs m)|].
    intros x _ Hx [->|Hlx]; [by left|right]. intros d' Hd'. destruct (decide (snd x = n)) as [E|Hne].
    + rewrite E in Hd'. rewrite (inode_view_unique _ _ _ _ _ _ Hc' Hd' Hv'). cbn. by rewrite El.
    + apply Hlx. by apply Hback.
  - intros m d Hm Hmn Hd. split; [by apply Ho|by apply (Hs m)].
  - intros m c Hmc. by apply (updates_refs_same s s' F F Q n k i' i m c Hc Hk Hu Er).
Qed.

End write.
