(* ===== verification/TruncSpec.v ===== *)
(** [truncateFile] of [src/interface/truncate.c]: a file gets a new size, by
    path. *)

From S2P Require Export UnlinkSpec WriteSpec.

Section trunc.
Context `{BlockStore ok} `{shifts : !DefinedShifts}.
Local Abbreviation cache_ok := (cache_ok (ok := ok)).
Local Abbreviation fs_ok := (fs_ok (ok := ok)).
Local Abbreviation file_ok := (file_ok (ok := ok)).
Local Abbreviation moves := (moves (ok := ok)).
Local Abbreviation updates := (updates (ok := ok)).

(** * The contents

    They are cut, or continued with zeros: [resize] of the library. *)

(** A file grows as far as there are blocks; one inside its direct blocks can
    also shrink, when a block of the free list is full. *)
Definition can_resize (l : list Z) (old new : Z) : Prop :=
  0 <= new /\
  ((old <= new /\ room l old (new - old)) \/ (new < old < 10240 /\ (128 <= length l)%nat)).

(** How many free blocks are left at least. *)
Definition resize_credit (l l' : list Z) (old new : Z) : Prop :=
  Z.of_nat (length l) - 4 * Z.max 0 (nblocks new - nblocks old) <= Z.of_nat (length l').

Lemma truncateINode_spec s l i size :
  file_ok s l i -> Forall data_area (l ++ blocks_of s i) -> (FreeMutex ∉ held s) -> can_resize l (ic_size i) size ->
  wp (truncateINode i size) s (fun i' s' => exists l', touched i i' /\ (i' = i \/ inode_changed i' = true) /\
    ic_size i' = size /\ file_ok s' l' i' /\ reworked s l i s' l' i' /\
    file_data s' (ic_dataBlockNums i') size = resize (Z.to_nat size) 0 (file_data s (ic_dataBlockNums i) (ic_size i)) /\
    resize_credit l l' (ic_size i) size).
Proof.
  intros Hf Hda Hh [Hs0 Hcase]. pose proof (file_size_u64 _ _ _ Hf) as Hsz.
  pose proof (length_file_data s (ic_dataBlockNums i) (ic_size i)) as Hld. unfold resize_credit.
  unfold truncateINode. destruct (Z.eqb_spec (ic_size i) size) as [<-|Hne].
  { apply wp_ret. exists l. split; [done|]. split; [by left|]. split; [done|]. split; [done|]. split.
    - split; [done|]. apply changes_refl.
    - split; [|lia]. rewrite resize_spec. rewrite take_ge, Hld, Nat.sub_diag by lia. cbn. by rewrite app_nil_r. }
  assert (nblocks size <= nblocks (ic_size i) \/ ic_size i <= size) as Hnb.
  { destruct (Z.le_gt_cases (ic_size i) size); [by right|left]. unfold nblocks. apply Z.div_le_mono; lia. }
  destruct Hcase as [[Hle Hroom]|[[Hlt Hdirect] Hlong]].
  - rewrite (proj2 (Z.ltb_ge _ _)) by lia.
    assert (size <= 2164402176) as Hmax by (destruct Hroom as [Hr _]; change MAX_FILE_SIZE with 2164402176 in Hr; lia).
    rewrite u64_id by (unfold is_u64; lia).
    eapply wp_mono; [apply wp_ret_info, (increaseFileSizeBy_zeros s l i (size - ic_size i) (fun i' s' => exists l',
      appended (ok := ok) s l i s' l' i' (replicate (Z.to_nat (size - ic_size i)) 0))); [done|lia|done|]|].
    { intros i' s' l' Ha. by exists l'. }
    intros i' s' (Hrun & l' & Hf' & _ & Hg & Es & Hl' & Ed). apply increaseFileSizeBy_resized in Hrun as [Ht Hch].
    rewrite length_replicate in Es. assert (ic_size i' = size) as Es' by lia. rewrite Es' in *.
    exists l'. split; [done|]. split; [right; destruct Hch; [lia|done]|]. split; [done|]. split; [done|].
    split; [by apply gained_reworked|]. split; [|lia].
    rewrite Ed. rewrite resize_spec. rewrite take_ge, Hld by lia. do 2 f_equal. lia.
  - rewrite (proj2 (Z.ltb_lt _ _)) by lia. rewrite u64_id by (unfold is_u64; lia).
    eapply wp_mono; [apply wp_ret_info, (decreaseFileSizeBy_direct s l i (ic_size i - size) (fun i' s' => exists freed,
      shrinkable (ok := ok) s' (freed ++ l) i' /\ ic_size i' = ic_size i - (ic_size i - size) /\
      file_data s' (ic_dataBlockNums i') (ic_size i') = file_data s (ic_dataBlockNums i) (ic_size i - (ic_size i - size)) /\
      shed s i s' i' freed)); [by apply area_shrinkable|lia|lia|]|].
    { intros i' s' freed ? ? ? ? ? ?. by exists freed. }
    intros i' s' (Hrun & freed & (Hf' & _) & Es & Ed & [Hfr Hch']). apply decreaseFileSizeBy_resized in Hrun as [Ht Hch].
    replace (ic_size i - (ic_size i - size)) with size in * by lia. rewrite Es in Ed.
    exists (freed ++ l). split; [done|]. split; [right; destruct Hch; [lia|done]|]. split; [done|]. split; [done|].
    split; [|split].
    + split; [by rewrite app_assoc, (Permutation_app_comm (blocks_of s' i')), Hfr|].
      eapply changes_mono; [|exact Hch']. intros b. cbv beta. rewrite elem_of_app. tauto.
    + rewrite Ed. rewrite resize_spec. rewrite Hld. replace (Z.to_nat size - Z.to_nat (ic_size i))%nat with 0%nat by lia.
      cbn [replicate]. rewrite app_nil_r. unfold file_data. rewrite <- fmap_take, take_seq. do 2 f_equal. lia.
    + rewrite length_app. lia.
Qed.

(** * Under the mutex *)

(** The node and the disk after [truncateINode], when the mutex is free again. *)
Record resized_in (s s' : istate) (F : list nat) (Q : Z -> list nat) (l l' : list Z) (n : Z) (k : nat)
    (i i' : inCoreiNode) (new : Z) : Prop := {
  rz_updates : updates s s' F F Q n k i';
  rz_touched : touched i i';
  rz_size : ic_size i' = new;
  rz_file : file_ok (ds s') l' i';
  rz_blocks : reworked (ds s) l i (ds s') l' i';
  rz_bytes : file_data (ds s') (ic_dataBlockNums i') new =
    resize (Z.to_nat new) 0 (file_data (ds s) (ic_dataBlockNums i) (ic_size i));
  rz_credit : resize_credit l l' (ic_size i) new;
  rz_numbers : numbers_kept (ds s) (ds s')
}.

Lemma truncate_locked s F Q l n k i new :
  cache_ok s F Q -> caches s Q n k i -> 0 < reference_count i ->
  file_ok (ds s) l i -> Forall data_area (l ++ blocks_of (ds s) i) -> (FreeMutex ∉ held (ds s)) ->
  can_resize l (ic_size i) new ->
  wp (with_inode k (fun i => truncateINode i new)) (inode_set k (ic_set_mutex true i) s)
    (fun _ s' => exists i' l' s2, inode_unlock k s' = Ret tt s2 /\ resized_in s s2 F Q l l' n k i i' new).
Proof.
  intros Hc Hk Hpos Hf Hda Hh Hcan. pose proof Hk as (Hi & _ & En). pose proof (c_quiet _ _ _ Hc _ _ Hi) as Hq.
  destruct (c_hashed _ _ _ Hc _ _ _ Hk) as (_ & Hdev & Hw & _). set (il := ic_set_mutex true i).
  unfold with_inode. apply wp_bind. eapply wp_Ret; [apply get_inode_Ret; by eapply inode_at_set_eq|].
  apply wp_bind. unfold on_disk. apply wp_zoom. change (ds (inode_set k il s)) with (ds s).
  eapply wp_mono; [exact (truncateINode_spec (ds s) l il new Hf Hda Hh Hcan)|].
  intros i1 d' (l' & Ht & Hch & Hsz & Hf' & Hre & Hbytes & Hcredit).
  eapply wp_Ret; [apply put_inode_Ret|]. set (i' := ic_set_mutex false i1).
  assert (touched i i') as Ht'.
  { destruct Ht as ((?&?&?&?&?&?&?&?)&?&?&?&?). split; [split_and!; done|done]. }
  destruct (reworked_writes (ds s) l i d' l' i' Hre Hda (c_area _ _ _ Hc)) as (Ha' & Hdi & Hnum).
  assert (updates s (inode_set k i' (set_ds d' s)) F F Q n k i') as Hu.
  { pose proof Ht' as ((E1&E2&_&_&_&_&E7&E8)&_). apply (client_updates s F Q n k i i' d'); try done; try congruence.
    - eapply touched_wf; [exact Ht'|exact Hf'|done].
    - destruct Hch as [->|?]; [right|by left]. unfold i', il. by rewrite mutex_mutex, mutex_same.
    - by destruct Hf'. }
  exists i', l', (inode_set k i' (set_ds d' s)). split.
  - erewrite inode_unlock_Ret.
    + change (set_ds d' (inode_set k il s)) with (inode_set k il (set_ds d' s)). by rewrite !inode_set_set.
    + apply (inode_at_set_eq _ _ il). change (inode_at (set_ds d' (inode_set k il s)) k)
        with (inode_at (inode_set k il s) k). by eapply inode_at_set_eq.
  - by split.
Qed.

(** * By path *)

(** The file system after a change of the size of inode [n]. *)
Record truncated (s s' : istate) (F' : list nat) (Q Q' : Z -> list nat) (l l' : list Z) (n : Z) (d d' : iNode) (new : Z)
    : Prop := {
  tr_fs : fs_ok s' F' Q' l';
  tr_view : inode_view s' Q' n d';
  tr_same : same_attributes d d' /\ size d' = new;
  tr_bytes : file_data (ds s') (dataBlockNums d') new = resize (Z.to_nat new) 0 (file_data (ds s) (dataBlockNums d) (size d));
  tr_others : forall m e, inode_num m -> m <> n -> inode_view s Q m e ->
    inode_view s' Q' m e /\ same_contents (ds s) (ds s') e;
  tr_refs : forall m c, refs s Q m c -> refs s' Q' m c;
  tr_credit : resize_credit l l' (size d) new;
  tr_numbers : numbers_kept (ds s) (ds s');
  tr_kept : kept 0 s s' Q Q'
}.

Context (N : nat) (Npos : (0 < N)%nat).

Lemma truncateFile_spec s F Q l path n d new :
  fs_ok (cache s) F Q l -> (N <= length F)%nat -> few_refs (cache s) Q -> c_string path -> path <> [] ->
  walks (cache s) Q 0 (path_names path) (Some n) -> inode_view (cache s) Q n d ->
  type d <> T_DIRECTORY -> S_ISDIR (file_mode d) = false -> linksCount d <> 0 ->
  (FreeMutex ∉ held (ds (cache s))) -> can_resize l (size d) new ->
  wp (truncateFile path new) s (fun v s' => v = 0 /\ fileTable s' = fileTable s /\
    exists F' Q' l' d', truncated (cache s) (cache s') F' Q Q' l l' n d d' new).
Proof.
  intros Hfs HF Hfew Hp Hne Hw Hd Htype Hreg Hl Hh Hcan. unfold truncateFile. apply wp_bind, wp_on_cache.
  eapply wp_mono; [eapply (getFileINode_spec N Npos); try done; apply Hfs|].
  intros o s1 (w & F1 & Q1 & -> & Hm1 & Hhand). cbn iota.
  destruct (fs_moves _ _ _ _ _ _ _ _ _ Hfs Hm1) as [Hfs1 Hs1]. pose proof (m_same _ _ _ _ _ _ _ Hm1) as [Hc1 V1 R1].
  destruct Hhand as (i & Hk & Hpos & Hlk & Hv1 & HF1). pose proof Hk as (Hi & _ & _).
  destruct (c_hashed _ _ _ Hc1 _ _ _ Hk) as (Hn & _).
  assert (getDiskINodeData i = d) as Ei by (eapply (inode_view_unique s1); [exact Hc1|exact Hv1|by apply V1]).
  pose proof (c_quiet _ _ _ Hc1 _ _ Hi) as Hq. pose proof (m_disk _ _ _ _ _ _ _ Hm1) as Hdisk1.
  destruct (changes_env _ _ _ Hdisk1) as (_ & _ & _ & Eh1).
  pose proof (b_file _ _ _ (fs_blocks _ _ _ _ Hfs1) n _ Hn Hv1) as Hfile.
  pose proof (b_area _ _ _ (fs_blocks _ _ _ _ Hfs1) n _ Hn Hv1) as Hda.
  apply wp_bind. eapply wp_Ret; [apply on_cache_Ret; by apply inode_lock_Ret|]. cbn [cache set_cache].
  apply wp_bind. eapply wp_Ret; [apply on_cache_same, get_inode_Ret; by eapply inode_at_set_eq|].
  change (ic_type (ic_set_mutex true i)) with (type (getDiskINodeData i)). rewrite Ei, decide_False by done.
  apply wp_bind, wp_on_cache. cbn [cache set_cache].
  eapply wp_mono; [apply (truncate_locked s1 F1 Q1 l n w i new); try done|].
  { by rewrite Eh1. }
  { change (ic_size i) with (size (getDiskINodeData i)). by rewrite Ei. }
  intros _ sl (i' & l' & s2 & Hun & [Hu Ht Hsz Hf' Hre Hbytes Hcredit Hnum]).
  apply wp_bind. eapply wp_Ret; [apply on_cache_Ret; exact Hun|]. cbn [cache set_cache].
  destruct (write_fs_ok s1 F1 Q1 l n w i s2 i' l' Hfs1 Hk Hv1) as (Hfs2 & Hv2 & Ho2 & Hr2); try done.
  { change (ic_file_mode i) with (file_mode (getDiskINodeData i)). by rewrite Ei. }
  { change (ic_linksCount i) with (linksCount (getDiskINodeData i)). by rewrite Ei. }
  { by apply reworked_rearranged. }
  pose proof (fs_cache _ _ _ _ Hfs2) as Hc2. pose proof Ht as ((_&_&_&_&_&_&Er&_)&El&_).
  assert (caches s2 Q1 n w i') as Hk2 by (apply (updates_caches _ _ _ _ _ _ _ _ _ _ _ _ Hu Hk); by left).
  assert (in_hand N s2 F1 Q1 n w) as Hhand2.
  { exists i'. split; [done|]. split; [lia|]. split; [right|split; [done|by rewrite Er]].
    intros e He. rewrite (inode_view_unique _ _ _ _ _ _ Hc2 He Hv2). change (ic_linksCount i' <> 0). rewrite El.
    change (linksCount (getDiskINodeData i) <> 0). by rewrite Ei. }
  apply wp_bind, wp_on_cache. cbn [cache set_cache]. eapply wp_mono; [by eapply (iput_moves N)|].
  intros z s3 (_ & F3 & Hm3 & _). apply wp_ret. cbn [cache fileTable set_cache]. split; [done|]. split; [done|].
  destruct (fs_moves _ _ _ _ _ _ _ _ _ Hfs2 Hm3) as [Hfs3 Hs3]. pose proof (m_same _ _ _ _ _ _ _ Hm3) as [_ V3 R3].
  exists F3, Q1, l', (getDiskINodeData i'). destruct (Hs3 n _ Hn Hv2) as [_ Ed3]. split.
  - done.
  - by apply V3.
  - split; [|done]. rewrite <- Ei. by apply touched_attributes.
  - change (size (getDiskINodeData i')) with (ic_size i') in Ed3. rewrite Hsz in Ed3.
    rewrite Ed3. change (dataBlockNums (getDiskINodeData i')) with (ic_dataBlockNums i'). rewrite Hbytes.
    destruct (Hs1 n d Hn Hd) as [_ <-]. by rewrite <- Ei.
  - intros m e Hm Hmn He. destruct (Ho2 m e Hm Hmn ltac:(by apply V1)) as [He2 Hc2'].
    split; [by apply V3|]. eapply same_contents_trans; [by apply (Hs1 m)|].
    eapply same_contents_trans; [exact Hc2'|by apply (Hs3 m)].
  - intros m c Hmc. replace c with (c + one n m + - one n m) by lia. by apply R3, Hr2, R1.
  - unfold resize_credit in *. change (ic_size i) with (size (getDiskINodeData i)) in Hcredit. by rewrite Ei in Hcredit.
  - assert (~ inode_zone INODE_LIST_BLOCK) as Hz by (unfold inode_zone; consts; lia).
    eapply numbers_kept_trans; [by eapply numbers_kept_changes|]. eapply numbers_kept_trans; [exact Hnum|].
    eapply numbers_kept_changes; [apply (m_disk _ _ _ _ _ _ _ Hm3)|done].
  - eapply (kept_trans (cache s) s2 s3 _ _ _ _ (one n)); [exact Hc2| | |exact (one_nonneg n)|by eapply moves_kept].
    + eapply kept_then; [exact Hc1|by eapply moves_kept|apply (updates_kept (-1) _ _ _ _ _ _ _ _ _ Hk Hu)].
      by rewrite El.
    + intros m c Hmc. by apply Hr2, R1.
Qed.

End trunc.
