(* ===== verification/RoundTrip.v ===== *)
(** A file that is made and removed again leaves the file system as it was: the
    two operations are inverse to each other, down to the number of free blocks
    and of free nodes in the cache. *)

From S2P Require Export UnlinkSpec.

Section roundtrip.
Context `{BlockStore ok} `{shifts : !DefinedShifts}.
Local Abbreviation fs_ok := (fs_ok (ok := ok)).
Local Abbreviation file_ok := (file_ok (ok := ok)).

Lemma length_blocks_direct s l i :
  file_ok s l i -> ic_size i < 10240 -> Z.of_nat (length (blocks_of s i)) = nblocks (ic_size i).
Proof.
  intros (_ & _ & _ & _ & _ & _ & _ & Hl & _ & Hsz) Hlt. unfold blocks_of.
  pose proof (nblocks_bounds (ic_size i)). rewrite file_blocks_direct by lia.
  rewrite length_take. lia.
Qed.

Lemma removed_last es x : removed (es ++ [x]) (length es) = es.
Proof.
  unfold removed. rewrite last_snoc, list_insert_id by apply list_lookup_middle, eq_refl.
  rewrite length_app, Nat.add_comm. cbn [length Nat.add Nat.pred]. apply take_app_length.
Qed.

(** The state is as it was, up to the contents of the freed inode and the order
    of the free list. *)
Record restored (s s' : istate) (F F' : list nat) (Q Q' : Z -> list nat) (l l' : list Z)
    (p : Z) (dp : iNode) (num : Z) : Prop := {
  rs_fs : fs_ok s' F' Q' l';
  rs_free : length F' = length F /\ length l' = length l;
  rs_list : exists dp', inode_view s' Q' p dp' /\
    dir_list (ds s') (dir_of dp') = dir_list (ds s) (dir_of dp);
  rs_inode : exists e, inode_view s' Q' num e /\ deleted e;
  rs_others : forall m d, inode_num m -> m <> p -> m <> num -> inode_view s Q m d ->
    inode_view s' Q' m d /\ same_contents (ds s) (ds s') d;
  rs_refs : forall m c, refs s Q m c -> refs s' Q' m c
}.

(** The state between the two operations. *)
Section between.
Context (t : iNodeType) (s s1 : istate) (F F1 : list nat) (Q Q1 : Z -> list nat) (l l1 : list Z).
Context (dir file : list Z) (p : Z) (dp : iNode) (j : nat) (num x : Z) (tl : list Z).
Context (e dn dp' : iNode) (mode uid gid : Z).
Context (Hfs : fs_ok s F Q l) (Hfew : few_refs s Q) (HF : (2 <= length F)%nat).
Context (Hpath : c_string (dir ++ file)) (Hdir : last dir = Some slash) (Hfile : slash ∉ file).
Context (Hlen : (length file <= 61)%nat).
Context (Hw : walks s Q 0 (path_names dir) (Some p)) (Hv : inode_view s Q p dp).
Context (Hd : S_ISDIR (file_mode dp) = true) (Hno : find_entry file (dir_list (ds s) (dir_of dp)) = None).
Context (Hidle : root_idle s Q p dp) (Hsz : size dp + 64 < 10240) (Hl : (136 <= length l)%nat).
Context (Hf : free_number s Q j num (x :: tl) e) (Hnum : num < 65535).
Context (Ht : t = T_REGULAR \/ t = T_DIRECTORY).
Context (Hkind : S_ISDIR (made_mode t mode) = bool_decide (t = T_DIRECTORY)).
Context (Hheld : FreeMutex ∉ held (ds s)) (Hj : clean_malloc).
Context (Hlp : linked s Q p) (Hnew : new_inode t (made_mode t mode) uid gid num dn).
Context (Hcr : created (ok := ok) t s s1 F1 Q Q1 l1 p dp file num dn dp').
Context (Htk : taken s s1 l l1 j (x :: tl) dp dn dp').
Context (Hr : forall m c, refs s Q m c -> refs s1 Q1 m c).

Let es := dir_list (ds s) (dir_of dp).

Lemma between_nums : inode_num p /\ p < 65535 /\ inode_num num /\ num <> 0 /\ num <> p.
Proof.
  assert (inode_num 0) as H0n by done.
  destruct (walks_num _ _ _ _ _ _ _ (fs_tree _ _ _ _ Hfs) H0n ltac:(lia) Hw eq_refl) as [Hp' Hp].
  pose proof Hf as (_ & Hz & _ & Hn & Hvn & Hln & _). split_and!; try done.
  intros ->. destruct Hlp as [->|Hlk]; [done|]. by apply Hlk in Hvn.
Qed.

Lemma between_fs : fs_ok s1 F1 Q1 l1.
Proof.
  destruct between_nums as (Hp & Hp' & Hn & Hz & _). pose proof Hf as (_ & _ & _ & _ & Hvn & Hln & _).
  apply Forall_app in Hpath as [_ Hcf].
  by eapply (created_fs_ok t s s1 F F1 Q Q1 l l1 p dp file num e dn dp' mode uid gid).
Qed.

(** A new file is named once: nothing leads to an inode without links. *)
Lemma between_once : t = T_REGULAR -> named_once s1 Q1 num p (length es).
Proof.
  intros Et. destruct between_nums as (Hp & Hp' & Hn & Hz & Hnp). pose proof Hf as (_ & _ & _ & _ & Hvn & Hln & _).
  assert (forall m d y, inode_num m -> inode_view s Q m d -> S_ISDIR (file_mode d) = true ->
    y ∈ dir_list (ds s) (dir_of d) -> snd y <> num) as Hnot.
  { intros m d y Hm Hmd Hdr Hy <-. destruct (fs_tree _ _ _ _ Hfs m d Hm Hmd Hdr) as (_ & _ & Hlk).
    rewrite Forall_forall in Hlk. destruct (Hlk y Hy) as [?|Hlk']; [done|by apply Hlk' in Hvn]. }
  intros m d i y Hm Hmd Hdr Hy En. pose proof Hcr as [Hc1 _ Hvn1 _ (Hvp1 & _) El _].
  destruct (decide (m = p)) as [->|Hmp]; [|destruct (decide (m = num)) as [->|Hmn]].
  - split; [done|]. pose proof (inode_view_unique _ _ _ _ _ _ Hc1 Hmd Hvp1). subst d.
    rewrite El in Hy. apply lookup_snoc_Some in Hy as [[_ Hy]|[Hy _]]; [|by symmetry].
    apply list_elem_of_lookup_2 in Hy. by apply (Hnot p dp y) in Hy.
  - pose proof (inode_view_unique _ _ _ _ _ _ Hc1 Hmd Hvn1). subst d.
    destruct Hnew as (_ & _ & Em & _). by rewrite Em, Hkind, Et in Hdr.
  - destruct (others_back t s s1 F F1 Q Q1 l l1 p dp file num dn dp' Hfs Hcr m d Hm Hmp Hmn Hmd) as [Hmd0 Hs].
    rewrite (same_dir_list _ _ _ Hs) in Hy. apply list_elem_of_lookup_2 in Hy.
    by apply (Hnot m d y) in Hy.
Qed.

Lemma between_removable : removable (ok := ok) s1 F1 Q1 l1 dir file p dp' (length es) num dn.
Proof.
  destruct between_nums as (Hp & Hp' & Hn & Hz & Hnp). pose proof Hf as (_ & _ & _ & _ & Hvn & Hln & _).
  pose proof Hcr as [Hc1 Hb1 Hvn1 _ (Hvp1 & Em1 & Elk1 & _) El _]. pose proof Htk as [Eh _ Hl1 Esz _].
  pose proof Hpath as [_ Hcf]%Forall_app. split.
  - exact between_fs.
  - intros m c Hm Hmc. destruct (refs_total _ _ _ _ (fs_cache _ _ _ _ Hfs) Hm) as [c0 Hc0].
    rewrite (refs_unique _ _ _ _ _ _ Hc1 Hmc (Hr _ _ Hc0)). by apply (Hfew m).
  - rewrite (free_nodes_same _ _ _ _ _ _ (fs_cache _ _ _ _ Hfs) Hc1 Hr). done.
  - done.
  - by eapply (created_keeps_walks t s s1 F F1 Q Q1 l l1 p dp file num e dn dp' mode uid gid).
  - split; [done|]. split; [by rewrite Em1|]. lia.
  - exists (name_bytes file). rewrite El. by apply find_added.
  - intros -> Hz'. apply Hr, Hidle; [done|]. by rewrite <- Elk1.
  - lia.
  - by rewrite Eh.
  - done.
  - exact Hj.
Qed.

(** What the removal makes of it. *)
Lemma between_unlinked s2 F2 Q2 l2 freed e' :
  l2 ≡ₚ freed ++ blocks_of (ds s1) (dir_of dn) ++ l1 ->
  Z.of_nat (length freed) = nblocks (size dp') - nblocks (size dp' - 64) -> deleted e' ->
  file_unlinked (ok := ok) s1 s2 F2 Q1 Q2 l2 file p dp' (length es) num e' ->
  t = T_REGULAR -> restored s s2 F F2 Q Q2 l l2 p dp num.
Proof.
  intros Pl Hfr Hdel [Hfs2 Hv2 (dp2 & Hvp2 & _ & El2) _ Ho2 Hr2 _] Et.
  destruct between_nums as (Hp & Hp' & Hn & Hz & Hnp). pose proof Hf as (_ & _ & _ & _ & Hvn & Hln & _).
  pose proof Hcr as [Hc1 Hb1 Hvn1 _ (Hvp1 & Em1 & Elk1 & _) El Ho1]. pose proof Htk as [_ _ _ Esz Hcnt].
  pose proof (fs_blocks _ _ _ _ Hfs) as Hb. split.
  - done.
  - split; [apply (free_nodes_same (ok := ok) s s2 F F2 Q Q2); [apply Hfs|apply Hfs2|auto]|].
    pose proof (length_blocks_direct _ _ _ (b_file _ _ _ Hb _ _ Hp Hv) ltac:(change (size dp < 10240); lia)) as N0.
    pose proof (length_blocks_direct _ _ _ (b_file _ _ _ Hb1 _ _ Hp Hvp1) ltac:(change (size dp' < 10240); lia)) as N1.
    change (ic_size (dir_of dp)) with (size dp) in N0. change (ic_size (dir_of dp')) with (size dp') in N1.
    rewrite Esz in Hfr, N1. replace (size dp + 64 - 64) with (size dp) in Hfr by lia.
    apply Permutation_length in Pl. rewrite !length_app in Pl.
    rewrite (empty_blocks _ (dir_of dn)) in Pl, Hcnt by 
      by (change (size dn = 0); destruct Hnew as (_&_&_&_&_&_& ->); by rewrite Et).
    cbn [length] in Pl, Hcnt. lia.
  - exists dp2. split; [done|]. rewrite El2, El. apply removed_last.
  - by exists e'.
  - intros m d Hm Hmp Hmn Hmd. destruct (Ho1 m d Hm Hmp Hmn Hmd) as [Hmd1 Hs1].
    destruct (Ho2 m d Hm Hmp Hmn Hmd1) as [Hmd2 Hs2]. split; [done|]. by eapply same_contents_trans.
  - intros m c Hmc. by apply Hr2, Hr.
Qed.

End between.

(** [createFile] of a regular file, then [unlinkFile] of the same path. *)
Lemma create_then_unlink s F Q l dir file p dp j num x tl e mode ctx :
  fs_ok s F Q l -> few_refs s Q -> (2 <= length F)%nat ->
  c_string (dir ++ file) -> last dir = Some slash -> slash ∉ file -> (length file <= 61)%nat ->
  walks s Q 0 (path_names dir) (Some p) -> inode_view s Q p dp -> S_ISDIR (file_mode dp) = true ->
  find_entry file (dir_list (ds s) (dir_of dp)) = None -> root_idle s Q p dp ->
  size dp + 64 < 10240 -> (136 <= length l)%nat ->
  free_number s Q j num (x :: tl) e -> x <> 0 -> num < 65535 ->
  is_u32 mode -> is_u32 (fc_uid ctx) -> is_u32 (fc_gid ctx) -> S_ISDIR mode = false ->
  FreeMutex ∉ held (ds s) -> IFreeMutex ∉ held (ds s) -> name_readable (length (dir ++ file) + 1) -> clean_malloc ->
  wp (let* a := createFile (dir ++ file) T_REGULAR mode ctx in
      let* b := unlinkFile (dir ++ file) in ret (a, b)) s
    (fun v s' => v = (0, 0) /\ inode_list (ds s') (replicate j 0 ++ num :: x :: tl) /\
      exists F' Q' l', restored s s' F F' Q Q' l l' p dp num).
Proof.
  intros Hfs Hfew HF Hpath Hdir Hfile Hlen Hw Hv Hd Hno Hidle Hsz Hl Hf Hx Hnum Hm Hu Hg Hmode Hfm Him Hrd Hj.
  pose proof (nblocks_bounds (size dp)). pose proof (nblocks_bounds (size dp + 64)).
  apply wp_bind. eapply wp_mono; [eapply (createFile_created T_REGULAR); try done; [by left|split|lia]|].
  { change MAX_FILE_SIZE with 2164402176. lia. }
  { lia. }
  intros v s1 (-> & F1 & Q1 & l1 & dn & dp' & Hlp & Hnew & Hcr & Htk & Hr & _). apply wp_bind.
  assert (removable (ok := ok) s1 F1 Q1 l1 dir file p dp' (length (dir_list (ds s) (dir_of dp))) num dn) as Hre
    by (eapply (between_removable T_REGULAR); try done; first [by left|exact Hmode]).
  pose proof Hf as (_ & Hz & _ & _ & _ & _ & Hr0 & _). pose proof Htk as [Eh Hnos _ _ _].
  eapply wp_mono; [eapply unlinkFile_last; [exact Hre| |by apply Hr|done| | |exact Hnos|done]|].
  { by destruct Hnew as (_&_&_&_&_&->&_). }
  { eapply (between_once T_REGULAR); try done; exact Hmode. }
  { by rewrite Eh. }
  intros v s2 (-> & F2 & Q2 & l2 & freed & e' & Pl & Hfr & Hnos2 & Hdel & Hun). apply wp_ret.
  split; [done|]. split; [done|]. exists F2, Q2, l2. eapply (between_unlinked T_REGULAR); try done; exact Hmode.
Qed.

End roundtrip.
