(* ===== verification/MainSpec.v ===== *)
(** Start-up: what [main] of [src/main.c] leaves when it hands over to FUSE. *)

From S2P Require Export FilesSpec Main.

Section main_spec.
Context `{BlockStore ok} `{shifts : !DefinedShifts}.
Local Abbreviation cache_ok := (cache_ok (ok := ok)).
Local Abbreviation files_ok := (files_ok (ok := ok)).

(** The process before [main]: static storage is cleared. *)
Definition fresh_process (d : dstate) (t : list fileTableEntry) : fstate :=
  FState (IState d [] None (replicate 8 None)) t.

(** The disk layer after the device has been opened. *)
Definition mounted (d : dstate) (name : list Z) : dstate :=
  DState true (Some name) (device d) (mem_disk d) std_params (held d) (time_calls d).

(** The argument [fsname=name]. *)
Definition device_arg (name : list Z) : list Z := fsname ++ 61 :: name.

Lemma parse_device_arg prog name (d : dstate) :
  take 6 prog <> fsname -> (length name < 20)%nat ->
  parseCmdArg [prog; device_arg name] d = Ret (Some name) d.
Proof.
  intros Hp Hn. cbn [parseCmdArg]. unfold starts_with_fsname.
  rewrite bool_decide_false by done. cbn [parseCmdArg].
  rewrite bool_decide_true by done.
  destruct (length (device_arg name) <? 7)%nat eqn:E.
  { apply Nat.ltb_lt in E. unfold device_arg in E. rewrite length_app in E. cbn in E. lia. }
  change (drop 7 (device_arg name)) with name. by rewrite (proj2 (Nat.ltb_lt _ _) Hn).
Qed.

Lemma setupDisk_Ret (d : dstate) name :
  isDiskAvailable d = false -> devName d = None ->
  setupDisk name d = if dev_access name (device d)
    then Ret 0 (DState true (Some name) (device d) (mem_disk d) (prm d) (held d) (time_calls d))
    else Ret (-1) d.
Proof.
  intros Ha Hn. unfold setupDisk. rewrite bind_get, Ha. unfold initDeviceAccessor.
  rewrite bind_assoc, bind_get, Hn. destruct (dev_access name (device d)); done.
Qed.

Lemma checkDevMode_Ret (d : dstate) prog name :
  take 6 prog <> fsname -> (length name < 20)%nat -> isDiskAvailable d = false -> devName d = None ->
  checkDevMode [prog; device_arg name] d = if dev_access name (device d)
    then Ret 0 (DState true (Some name) (device d) (mem_disk d) (prm d) (held d) (time_calls d))
    else Ret (-1) d.
Proof.
  intros Hp Hn Ha Hd. unfold checkDevMode.
  rewrite (bind_Ret _ _ _ _ _ (parse_device_arg prog name d Hp Hn)). cbn iota.
  unfold bind. rewrite (setupDisk_Ret d name Ha Hd). by destruct (dev_access name (device d)).
Qed.

Lemma opens_cleared t k : opens (fte_set_valid false <$> t) k = 0.
Proof.
  induction t as [|e t IH]; [done|]. cbn [fmap list_fmap]. rewrite opens_cons, IH. unfold counts.
  by rewrite decide_False by (by intros [? _]).
Qed.

Lemma initTable_ok (c : istate) t F Q :
  cache_ok c F Q -> length t = Z.to_nat MAX_FILE_DESCRIPTORS ->
  files_ok (FState c (fte_set_valid false <$> t)) F Q.
Proof.
  intros Hc Ht. split; cbn [cache fileTable].
  - done.
  - by rewrite length_fmap.
  - intros fd e He Hv. rewrite list_lookup_fmap in He. by destruct (t !! fd); [injection He as <-|].
  - intros k. by rewrite opens_cleared.
Qed.

Lemma main_starts d prog name t :
  take 6 prog <> fsname -> (length name < 20)%nat -> isDiskAvailable d = false -> devName d = None ->
  dev_access name (device d) = true -> length t = Z.to_nat MAX_FILE_DESCRIPTORS -> is_Some stack_word ->
  ok (mounted d name) -> inode_area (mounted d name) -> table_sound (mounted d name) ->
  wp (main [prog; device_arg name]) (fresh_process d t) (fun b s' => b = true /\
    ds (cache s') = mounted d name /\ files_ok s' (seq 0 INODE_BUFFER_SIZE) (fun _ => []) /\
    Forall (fun e => validEntry e = false) (fileTable s') /\
    forall n e, disk_inode (mounted d name) n = Some e -> inode_view (cache s') (fun _ => []) n e).
Proof.
  intros Hp Hn Ha Hd Hacc Ht Hstack Hok Har Hts. unfold main. apply wp_bind, wp_on_cache. unfold on_disk.
  apply wp_zoom. eapply wp_Ret.
  { pose proof (checkDevMode_Ret d prog name Hp Hn Ha Hd) as Hr. rewrite Hacc in Hr. exact Hr. }
  change (0 =? -1) with false. cbn iota. apply wp_bind, wp_on_cache, wp_zoom.
  unfold set_params. rewrite initializeINodeParams_std. eapply wp_Ret; [reflexivity|].
  cbn [cache set_cache fresh_process].
  destruct (wp_inv _ _ _ (boot_cache_ok _ Hstack Hok Har Hts)) as ([] & c & Hrun & Hds & Hc & Hv).
  apply bind_Ret_inv in Hrun as ([] & c1 & Hrun1 & Hrun2).
  apply wp_bind. eapply wp_Ret; [apply on_cache_Ret; exact Hrun1|].
  apply wp_bind. eapply wp_Ret; [apply on_cache_Ret; exact Hrun2|].
  apply wp_bind. eapply wp_Ret; [reflexivity|]. apply wp_ret. cbn [cache fileTable set_cache set_table].
  split_and!; [done|done| | |done].
  - by apply initTable_ok.
  - apply Forall_fmap, Forall_forall. done.
Qed.

(** When the device cannot be opened [main] does not start FUSE and changes
    nothing. *)
Lemma main_refuses d prog name t :
  take 6 prog <> fsname -> (length name < 20)%nat -> isDiskAvailable d = false -> devName d = None ->
  dev_access name (device d) = false ->
  main [prog; device_arg name] (fresh_process d t) = Ret false (fresh_process d t).
Proof.
  intros Hp Hn Ha Hd Hacc. pose proof (checkDevMode_Ret d prog name Hp Hn Ha Hd) as Hr.
  rewrite Hacc in Hr. unfold main. erewrite bind_Ret; cycle 1.
  { apply on_cache_Ret. unfold on_disk, zoom. cbn [cache fresh_process ds]. by rewrite Hr. }
  done.
Qed.

(** Started with the argument [fsname=] and a device that can be opened and
    holds a sound inode table, [main] starts FUSE in a state that satisfies the
    invariant of the table of files and the cache: no entry is valid, nothing is
    cached, and every inode reads as the device has it. *)
Theorem main_mounts d prog name t :
  take 6 prog <> fsname -> (length name < 20)%nat -> isDiskAvailable d = false -> devName d = None ->
  dev_access name (device d) = true -> length t = Z.to_nat MAX_FILE_DESCRIPTORS -> is_Some stack_word ->
  ok (mounted d name) -> inode_area (mounted d name) -> table_sound (mounted d name) ->
  wp (main [prog; device_arg name]) (fresh_process d t) (fun b s' => b = true /\
    ds (cache s') = mounted d name /\ files_ok s' (seq 0 INODE_BUFFER_SIZE) (fun _ => []) /\
    Forall (fun e => validEntry e = false) (fileTable s') /\
    forall n e, disk_inode (mounted d name) n = Some e -> inode_view (cache s') (fun _ => []) n e).
Proof. apply main_starts. Qed.

End main_spec.
