(* ===== verification/RemoveSpec.v ===== *)
(** Removals that are refused, and two operations that end badly: a truncation
    of a directory, and an open when the table of files is full. *)

From S2P Require Export AttrSpec.

Section remove.
Context `{BlockStore ok} `{shifts : !DefinedShifts}.
Local Abbreviation cache_ok := (cache_ok (ok := ok)).
Local Abbreviation tree_ok := (tree_ok (ok := ok)).
Local Abbreviation moves := (moves (ok := ok)).
Local Abbreviation files_ok := (files_ok (ok := ok)).

(** * [validateAndEmptyDirectoryIfNeeded] and [unlinkDir] *)

(** The reason for which the directory [n] may not be removed. *)
Definition refusal (n : Z) (d : iNode) : option Z :=
  if decide (n = 0) then Some (- EACCES)
  else if 128 <? size d then Some (- ENOTEMPTY)
  else if decide (type d = T_DIRECTORY) then None
  else Some (- ENOTDIR).

Lemma validate_Ret fuel s k i :
  inode_at s k = Some i ->
  validateAndEmptyDirectoryIfNeeded (Datatypes.S fuel) k false s =
    Ret (default 0 (refusal (ic_inode_number i) (getDiskINodeData i))) s.
Proof.
  intros Hi. cbn [validateAndEmptyDirectoryIfNeeded].
  rewrite (bind_Ret _ _ _ _ _ (get_inode_Ret _ _ _ Hi)). unfold refusal.
  change (2 * DIRECTORY_ENTRY_SIZE) with 128.
  change (size (getDiskINodeData i)) with (ic_size i). change (type (getDiskINodeData i)) with (ic_type i).
  destruct (Z.eqb_spec (ic_inode_number i) 0) as [E|E];
    [by rewrite decide_True|rewrite decide_False by done].
  rewrite andb_true_r. destruct (128 <? ic_size i); [done|].
  destruct (decide (ic_type i = T_DIRECTORY)) as [Ht|Ht].
  - by rewrite bool_decide_true.
  - by rewrite bool_decide_false.
Qed.

Lemma refusal_negative n d v : refusal n d = Some v -> v < 0.
Proof.
  unfold refusal. repeat case_match; intros [= <-]; unfold EACCES, ENOTEMPTY, ENOTDIR; lia.
Qed.

Lemma unlinkDir_refused N fuel s F Q l path n d v :
  (0 < N <= length F)%nat ->
  cache_ok s F Q -> tree_ok s Q l -> few_refs s Q -> c_string path -> path <> [] ->
  walks s Q 0 (path_names path) (Some n) -> inode_view s Q n d -> refusal n d = Some v ->
  wp (unlinkDir (Datatypes.S fuel) path false) s (fun r s' => r = v /\ exists F' Q',
    moves s s' F' Q Q' (fun _ => 0) (fun _ => 0)).
Proof.
  intros [HN HF] Hc Ht Hfew Hp Hne Hw Hv Hr. unfold unlinkDir. apply wp_bind.
  eapply wp_mono; [by eapply (getFileINode_spec N HN)|].
  intros o s1 (w & F1 & Q1 & -> & Hm1 & Hh). pose proof Hh as (i & Hk & _ & _ & Hv1 & _).
  pose proof (m_same _ _ _ _ _ _ _ Hm1) as [Hc1 V1 _]. pose proof Hk as (Hi & _ & En).
  pose proof (c_quiet _ _ _ Hc1 _ _ Hi) as Hq. destruct (c_hashed _ _ _ Hc1 _ _ _ Hk) as (Hn & _).
  assert (getDiskINodeData i = d) as Ed.
  { eapply (inode_view_unique s F Q n); [done| |done]. by apply V1. }
  apply wp_bind. eapply wp_Ret; [reflexivity|].
  apply wp_bind. eapply wp_Ret; [by apply inode_lock_Ret|]. fold (held_inode w i s1).
  apply wp_bind. eapply wp_Ret.
  { apply validate_Ret. by eapply inode_at_set_eq. }
  change (ic_inode_number (ic_set_mutex true i)) with (ic_inode_number i).
  change (getDiskINodeData (ic_set_mutex true i)) with (getDiskINodeData i).
  rewrite En, Ed, Hr. cbn [default]. unfold id. pose proof (refusal_negative _ _ _ Hr) as Hneg.
  rewrite (proj2 (Z.ltb_lt _ _) Hneg).
  apply wp_bind. eapply wp_Ret; [by apply unlock_held_inode|].
  apply wp_bind. eapply wp_mono; [by eapply (iput_moves N)|].
  intros z s2 (_ & F2 & Hm2 & _). apply wp_ret. split; [done|]. exists F2, Q1.
  eapply moves_trans; [exact Hc|exact Hm1|exact Hm2|..]; intros m; cbv beta; [lia|].
  pose proof (one_nonneg n m). lia.
Qed.

(** C33: [unlinkDir] without [force] refuses, without an effect on any inode or
    reference, to remove the root ([EACCES]), a directory of more than 128 bytes
    ([ENOTEMPTY]) and what is no directory ([ENOTDIR]), in this order. The
    machine defines shifts by 64 and more, which [getHash] makes
    ([DefinedShifts]). *)
Theorem unlinkDir_refuses N fuel s F Q l path n d v :
  (0 < N <= length F)%nat ->
  cache_ok s F Q -> tree_ok s Q l -> few_refs s Q -> c_string path -> path <> [] ->
  walks s Q 0 (path_names path) (Some n) -> inode_view s Q n d -> refusal n d = Some v ->
  wp (unlinkDir (Datatypes.S fuel) path false) s (fun r s' => r = v /\ exists F' Q',
    moves s s' F' Q Q' (fun _ => 0) (fun _ => 0)).
Proof. apply unlinkDir_refused. Qed.

(** [unlinkDir] does not check the result of the lookup: on a path that leads
    nowhere the program dereferences a null pointer. *)
Lemma unlinkDir_missing N fuel s F Q l path force :
  (0 < N <= length F)%nat ->
  cache_ok s F Q -> tree_ok s Q l -> few_refs s Q -> c_string path -> path <> [] ->
  walks s Q 0 (path_names path) None -> unlinkDir fuel path force s = Undef NullDeref.
Proof.
  intros [HN HF] Hc Ht Hfew Hp Hne Hw. unfold unlinkDir.
  pose proof (getFileINode_spec N HN s F Q l path None Hc Ht HF Hfew Hp Hne Hw) as Hg.
  apply wp_inv in Hg as (o & s1 & Hr & -> & _). by rewrite (bind_Ret _ _ _ _ _ Hr).
Qed.

(** * [truncateFile] of a directory *)

(** C35: [truncateFile] of a directory returns [EISDIR] with the mutex of the
    inode held: the next lookup of the directory waits for ever. The machine
    defines shifts by 64 and more, which [getHash] makes ([DefinedShifts]). *)
Lemma truncate_directory N s F Q l path size n d :
  (0 < N <= length F)%nat ->
  cache_ok (cache s) F Q -> tree_ok (cache s) Q l -> few_refs (cache s) Q -> c_string path -> path <> [] ->
  walks (cache s) Q 0 (path_names path) (Some n) -> inode_view (cache s) Q n d -> type d = T_DIRECTORY ->
  wp (truncateFile path size) s (fun r s' => r = - EISDIR /\ iget n 0 (cache s') = Hang).
Proof.
  intros [HN HF] Hc Ht Hfew Hp Hne Hw Hv Htype. unfold truncateFile. apply wp_bind, wp_on_cache.
  eapply wp_mono; [by eapply (getFileINode_spec N HN (cache s) F Q l)|].
  intros o s1 (w & F1 & Q1 & -> & Hm1 & Hh). pose proof Hh as (i & Hk & _ & _ & Hv1 & _).
  pose proof (m_same _ _ _ _ _ _ _ Hm1) as [Hc1 V1 _]. pose proof Hk as (Hi & _ & _).
  pose proof (c_quiet _ _ _ Hc1 _ _ Hi) as Hq. destruct (c_hashed _ _ _ Hc1 _ _ _ Hk) as (Hn & _).
  assert (ic_type i = T_DIRECTORY) as Hti.
  { change (type (getDiskINodeData i) = T_DIRECTORY).
    by rewrite (inode_view_unique _ _ _ _ _ _ Hc (proj1 (V1 _ _ Hn) Hv1) Hv). }
  apply wp_bind. eapply wp_Ret; [apply on_cache_Ret; by apply inode_lock_Ret|].
  apply wp_bind. eapply wp_Ret; [apply on_cache_same, get_inode_Ret; by eapply inode_at_set_eq|].
  change (ic_type (ic_set_mutex true i)) with (ic_type i). rewrite decide_True by done.
  apply wp_ret. split; [done|]. cbn [cache set_cache]. by eapply iget_held_hangs.
Qed.

(** * [openFile] with a full table *)

(** C36: when every entry of the table is in use [openFile] reports success all
    the same: it keeps a reference to the inode for ever and hands out a
    descriptor outside the table, with which a read leaves the array. The
    machine defines shifts by 64 and more, which [getHash] makes
    ([DefinedShifts]). *)
Lemma open_full_table N s F Q l path fi ctx n :
  (0 < N <= length F)%nat ->
  files_ok s F Q -> tree_ok (cache s) Q l -> few_refs (cache s) Q -> c_string path -> path <> [] ->
  walks (cache s) Q 0 (path_names path) (Some n) ->
  Forall (fun e => validEntry e = true) (fileTable s) ->
  wp (openFile path fi ctx) s (fun '(r, fi') s' => r = 0 /\ fileTable s' = fileTable s /\
    (exists F' Q', moves (cache s) (cache s') F' Q Q' (fun _ => 0) (one n)) /\
    forall buf size offset, readFile buf size offset fi' ctx s' = Undef OutOfBounds).
Proof.
  intros [HN HF] Hf Ht Hfew Hp Hne Hw Hfull.
  eapply wp_mono; [by eapply (openFile_spec N HN)|].
  intros [r fi'] s' (w & i & F1 & Q1 & _ & Hm & _ & _ & Hv & Htab).
  unfold opened_table in Hv, Htab.
  assert (free_entry (fileTable s) 0 = None) as E.
  { pose proof (free_entry_spec (fileTable s) 0) as Hs. destruct (free_entry (fileTable s) 0) as [fd|]; [|done].
    destruct Hs as (j & e & _ & Hj & He & _). rewrite Forall_forall in Hfull.
    rewrite (Hfull e) in He; [done|]. by eapply list_elem_of_lookup_2. }
  rewrite E in Hv, Htab. cbn [fst snd] in *. injection Hv as -> ->. split_and!; [done|done|by exists F1, Q1|].
  intros buf sz off. unfold readFile. cbn [fi_fh]. done.
Qed.

End remove.
