(* ===== verification/DirRemoval.v ===== *)
(** [unlinkDir] on a directory: the name goes, the directory stays. A new
    directory has two links, one for its name and one for its entry [.], and
    [unlinkFile] takes one of them, so that nothing ever deletes it. *)

From S2P Require Export RoundTrip RemoveSpec.

Section dir_removal.
Context `{BlockStore ok} `{shifts : !DefinedShifts}.
Local Abbreviation cache_ok := (cache_ok (ok := ok)).
Local Abbreviation moves := (moves (ok := ok)).
Local Abbreviation fs_ok := (fs_ok (ok := ok)).
Local Abbreviation removable := (removable (ok := ok)).
Local Abbreviation file_unlinked := (file_unlinked (ok := ok)).

(** What can be removed can be removed after a lookup. *)
Lemma removable_moves s s1 F F1 Q Q1 lo l dir file p dp k num dn :
  removable s F Q l dir file p dp k num dn -> moves s s1 F1 Q Q1 lo (fun _ => 0) ->
  removable s1 F1 Q1 l dir file p dp k num dn.
Proof.
  intros Hre Hm. destruct (removable_nums _ _ _ _ _ _ _ _ _ _ _ Hre) as [Hp Hn].
  destruct Hre as [Hfs Hfew HF Hpath Hw (Hv & Hd & Hsz) [nb Ef] Hidle Hlen Hh [Hnp Hvn] Hj].
  destruct (fs_moves _ _ _ _ _ _ _ _ _ Hfs Hm) as [Hfs1 Hs].
  pose proof (m_same _ _ _ _ _ _ _ Hm) as [Hc1 V R].
  assert (forall m c, refs s Q m c -> refs s1 Q1 m c) as R'.
  { intros m c Hmc. replace c with (c + 0) by lia. by apply R. }
  split; try done.
  - intros m c Hm' Hmc. destruct (refs_total _ _ _ _ (fs_cache _ _ _ _ Hfs) Hm') as [c0 Hc0].
    rewrite (refs_unique _ _ _ _ _ _ Hc1 Hmc (R' _ _ Hc0)). by apply (Hfew m).
  - by rewrite (free_nodes_same _ _ _ _ _ _ (fs_cache _ _ _ _ Hfs) Hc1 R').
  - eapply walks_moves; [exact Hm|apply Hfs|done|done].
  - split; [|done]. by apply V.
  - exists nb. by rewrite (same_dir_list _ _ _ (Hs p dp Hp Hv)).
  - intros -> Hl. by apply R', Hidle.
  - by destruct (changes_env _ _ _ (m_disk _ _ _ _ _ _ _ Hm)) as (_ & _ & _ & ->).
  - split; [done|]. by apply V.
Qed.

(** And what it becomes is the same. *)
Lemma file_unlinked_moves s s1 s' F F1 F' Q Q1 Q' l l' file p dp k num dn' :
  fs_ok s F Q l -> inode_num p -> inode_view s Q p dp -> moves s s1 F1 Q Q1 (fun _ => 0) (fun _ => 0) ->
  file_unlinked s1 s' F' Q1 Q' l' file p dp k num dn' -> file_unlinked s s' F' Q Q' l' file p dp k num dn'.
Proof.
  intros Hfs Hp Hv Hm [A1 A2 A3 A4 A5 A6 Ah AK]. destruct (fs_moves _ _ _ _ _ _ _ _ _ Hfs Hm) as [_ Hs].
  pose proof (m_same _ _ _ _ _ _ _ Hm) as [Hc1 V R].
  pose proof (same_dir_list _ _ _ (Hs p dp Hp Hv)) as El. rewrite El in A3, A4. split; try done.
  - intros m d Hm' Hmp Hmn Hd. destruct (A5 m d Hm' Hmp Hmn) as [? ?]; [by apply V|]. split; [done|].
    eapply same_contents_trans; [by apply (Hs m)|done].
  - intros m c Hmc. apply A6. replace c with (c + 0) by lia. by apply R.
  - rewrite Ah. by destruct (changes_env _ _ _ (m_disk _ _ _ _ _ _ _ Hm)) as (_ & _ & _ & ->).
  - eapply kept_trans; [exact Hc1|by eapply moves_kept|exact R|done|exact AK].
Qed.

(** The directories whose removal is accepted without a look at their entries:
    the empty ones, and with [force] those of up to 128 entries, since [emptyDir]
    compares an offset, which starts at 128, with the number of entries. *)
Definition passed_over (force : bool) (size : Z) : Prop := 0 <= size <= (if force then 8192 else 128).

Lemma validate_passes fuel s k i force :
  inode_at s k = Some i -> ic_inode_number i <> 0 -> passed_over force (ic_size i) -> ic_type i = T_DIRECTORY ->
  validateAndEmptyDirectoryIfNeeded (Datatypes.S fuel) k force s = Ret 0 s.
Proof.
  intros Hi Hn [Hs0 Hs] Ht. cbn [validateAndEmptyDirectoryIfNeeded].
  rewrite (bind_Ret _ _ _ _ _ (get_inode_Ret _ _ _ Hi)). change (2 * DIRECTORY_ENTRY_SIZE) with 128.
  rewrite (proj2 (Z.eqb_neq _ _) Hn), bool_decide_true by done. destruct force.
  - rewrite andb_false_r. destruct (128 <? ic_size i); [|done]. cbn [negb andb].
    change DIRECTORY_ENTRY_SIZE with 64. cbn [while_do fst].
    assert (ic_size i / 64 <= 128) as Hle by (apply Z.div_le_upper_bound; lia).
    by rewrite (proj2 (Z.ltb_ge _ _) Hle).
  - by rewrite (proj2 (Z.ltb_ge _ _) Hs).
Qed.

(** The removal of such a directory is accepted, and takes away one of its links:
    its number, its inode, its blocks and its entries stay. *)
Lemma unlinkDir_keeps fuel s F Q l dir file p dp k num dn nos force :
  removable s F Q l dir file p dp k num dn -> file <> [] ->
  num <> 0 -> passed_over force (size dn) -> type dn = T_DIRECTORY -> 1 < linksCount dn -> inode_list (ds s) nos ->
  wp (unlinkDir (Datatypes.S fuel) (dir ++ file) force) s (fun v s' => v = 0 /\ exists F' Q' freed,
    Z.of_nat (length freed) = nblocks (size dp) - nblocks (size dp - 64) /\ inode_list (ds s') nos /\
    same_contents (ds s) (ds s') dn /\
    file_unlinked s s' F' Q Q' (freed ++ l) file p dp k num (links_set (linksCount dn - 1) dn)).
Proof.
  intros Hre Hne Hn0 Hsz Htype Hl Hnos. destruct (removable_nums _ _ _ _ _ _ _ _ _ _ _ Hre) as [Hp Hn].
  pose proof Hre as [Hfs Hfew HF (Hpath & Hdir & Hfile) Hw (Hv & Hd & _) [nb Ef] _ _ _ [Hnp Hvn] _].
  pose proof Hfs as [Hc Ht _]. unfold unlinkDir. apply wp_bind.
  assert (walks s Q 0 (path_names (dir ++ file)) (Some num)) as Hwn.
  { rewrite path_names_app by done. eapply walks_app; [exact Hw|].
    eapply (walks_into s Q p file [] _ k (nb, num)); [by exists dp|exact Ef|constructor]. }
  eapply wp_mono; [eapply (getFileINode_spec 2 ltac:(lia) s F Q l (dir ++ file)); try done|].
  { destruct dir; [done|]. done. }
  intros o s1 (w & F1 & Q1 & -> & Hm1 & Hh). pose proof Hh as (i & Hk & _ & _ & Hv1 & _).
  pose proof (m_same _ _ _ _ _ _ _ Hm1) as [Hc1 V1 _]. pose proof Hk as (Hi & _ & En).
  pose proof (c_quiet _ _ _ Hc1 _ _ Hi) as Hq.
  assert (getDiskINodeData i = dn) as Ed.
  { eapply (inode_view_unique s F Q num); [done| |done]. by apply V1. }
  apply wp_bind. eapply wp_Ret; [reflexivity|].
  apply wp_bind. eapply wp_Ret; [by apply inode_lock_Ret|]. fold (held_inode w i s1).
  apply wp_bind. eapply wp_Ret.
  { eapply validate_passes; [by eapply inode_at_set_eq|..].
    - change (ic_inode_number i <> 0). by rewrite En.
    - change (passed_over force (size (getDiskINodeData i))). by rewrite Ed.
    - change (type (getDiskINodeData i) = T_DIRECTORY). by rewrite Ed. }
  change (0 <? 0) with false. cbn iota.
  apply wp_bind. eapply wp_Ret; [by apply unlock_held_inode|].
  apply wp_bind. eapply wp_mono; [by eapply (iput_moves 2)|].
  intros z s2 (_ & F2 & Hm2 & _).
  assert (moves s s2 F2 Q Q1 (fun _ => 0) (fun _ => 0)) as Hm.
  { eapply moves_trans; [exact Hc|exact Hm1|exact Hm2|..]; intros m; cbv beta; [lia|].
    pose proof (one_nonneg num m). lia. }
  destruct (fs_moves _ _ _ _ _ _ _ _ _ Hfs Hm) as [_ Hs].
  pose proof (removable_moves _ _ _ _ _ _ _ _ _ _ _ _ _ _ _ Hre Hm) as Hre2.
  eapply wp_mono; [eapply (unlinkFile_shared s2 F2 Q1 l dir file p dp k num dn nos); [exact Hre2|exact Hl|]|].
  { eapply inode_list_frame; [exact Hnos|]. apply (m_disk _ _ _ _ _ _ _ Hm). unfold inode_zone. consts. lia. }
  intros v s3 (-> & F3 & Q3 & freed & Hfr & Hnos3 & Hsame & Hun). split; [done|].
  exists F3, Q3, freed. split; [done|]. split; [done|]. split.
  - eapply same_contents_trans; [by apply (Hs num)|done].
  - by eapply (file_unlinked_moves s s2).
Qed.
End dir_removal.
