(* ===== verification/RenameSpec.v ===== *)
(** [renameFile] gives a file a second name, as [link] would, and then removes
    the first one: between the two steps the file has a link more. *)

From S2P Require Export DirRemoval.

Section rename.
Context `{BlockStore ok} `{shifts : !DefinedShifts}.
Local Abbreviation cache_ok := (cache_ok (ok := ok)).
Local Abbreviation moves := (moves (ok := ok)).
Local Abbreviation updates := (updates (ok := ok)).
Local Abbreviation fs_ok := (fs_ok (ok := ok)).
Local Abbreviation file_ok := (file_ok (ok := ok)).
Local Abbreviation dir_ok := (dir_ok (ok := ok)).
Local Abbreviation blocks_ok := (blocks_ok (ok := ok)).
Local Abbreviation entry_added := (entry_added (ok := ok)).
Local Abbreviation removable := (removable (ok := ok)).
Local Abbreviation file_unlinked := (file_unlinked (ok := ok)).

(** * Two mutexes *)

Lemma inode_at_hold s w j :
  inode_at (hold w s) j = if decide (j = w) then ic_set_mutex true <$> inode_at s w else inode_at s j.
Proof.
  unfold inode_at, hold. cbn [nodes set_nodes]. rewrite lookup_alter_nodes.
  destruct (decide (j = w)) as [->|]; [|done]. by destruct (nodes s !! w).
Qed.

Lemma hold_comm w w' s : hold w (hold w' s) = hold w' (hold w s).
Proof.
  unfold hold, set_nodes. cbn [nodes ds freeList hashQ]. f_equal. apply list_eq. intros j.
  rewrite !lookup_alter_nodes. destruct (decide (j = w)) as [->|]; destruct (decide (_ = w')) as [->|]; try done;
    by repeat case_decide.
Qed.

(** What is done to one node, while another is locked. *)
Lemma hold_inode_set w w' i s : w <> w' -> hold w' (inode_set w i s) = inode_set w i (hold w' s).
Proof.
  intros Hne. unfold hold, inode_set, set_nodes. cbn [nodes ds freeList hashQ]. f_equal. apply list_eq. intros j.
  rewrite !lookup_alter_nodes. repeat case_decide; subst; done.
Qed.

(** * The new name *)

(** The step on the parent, inode [p] in the locked node [w]. *)
Lemma add_entry_locked s F Q l p w i num nm size :
  cache_ok s F Q -> caches s Q p w i -> 0 < reference_count i -> dir_ok (ds s) l i ->
  Forall data_area (l ++ blocks_of (ds s) i) -> c_string nm -> (length nm <= 61)%nat ->
  name_readable size -> 0 <= num < 65535 -> room l (ic_size i) 64 ->
  wp (update_inode w (fun i => getAndUpdateDirectoryTable i num nm size)) (hold w s) (fun _ s' => exists s3 i3 l3,
    s' = hold w s3 /\ entry_added s s3 F Q l l3 p w i i3 nm num).
Proof.
  intros Hc Hk Hpos Hd Hda Hnm Hlen Hrd Hnum Hroom. pose proof Hk as (Hi & _ & _).
  pose proof Hd as (Hf & Hdir & Hal & _). set (il := ic_set_mutex true i).
  rewrite (hold_inode_at _ _ _ Hi). fold il.
  unfold update_inode. apply wp_bind. eapply wp_Ret; [apply get_inode_Ret; by eapply inode_at_set_eq|].
  apply wp_bind. unfold on_disk. apply wp_zoom. change (ds (inode_set w il s)) with (ds s).
  eapply wp_mono; [eapply (getAndUpdateDirectoryTable_spec (ds s) l il num nm size); [exact Hf|exact Hdir|exact Hal|done|done|lia|exact Hroom]|].
  intros [r i'] d' (l' & Happ & Hdl & Ht & Hch). apply wp_bind. eapply wp_Ret; [apply put_inode_Ret|].
  apply wp_ret. set (i3 := ic_set_mutex false i').
  assert (touched i i3) as Ht3.
  { pose proof (c_quiet _ _ _ Hc _ _ Hi) as Hq. destruct Ht as ((?&?&?&?&?&?&?&?)&?&?&?&?).
    split; [split_and!; done|done]. }
  exists (inode_set w i3 (set_ds d' s)), i3, l'. split.
  - erewrite hold_inode_at by (apply (inode_at_set_eq _ _ i); exact Hi).
    change (set_ds d' (inode_set w il s)) with (inode_set w il (set_ds d' s)). rewrite !inode_set_set.
    f_equal. assert (iNodeMutex i' = true) as Hm by (by destruct Ht as ((_&_&_&_&_&_&_&->)&_)).
    destruct i'. cbn in Hm |- *. by subst.
  - by apply append_adds_entry.
Qed.

(** The step on the file in the locked node [w]. *)
Lemma add_link_locked s w i :
  inode_at s w = Some i -> is_u64 (ic_size i) ->
  with_inode w (fun i => updateINodeMetadata i 0 (u64 (ic_linksCount i + 1))) (hold w s) =
    Ret tt (hold w (inode_set w (relinked (u64 (ic_linksCount i + 1)) i) s)).
Proof.
  intros Hi Hsz. rewrite (hold_inode_at _ _ _ Hi).
  rewrite (set_links_Ret _ w (ic_set_mutex true i) (fun i => u64 (ic_linksCount i + 1)));
    [|by eapply inode_at_set_eq|done].
  f_equal. erewrite hold_inode_at by (by eapply inode_at_set_eq). by rewrite !inode_set_set.
Qed.

(** What is seen when the directory [p] names [num] once more; [dr] is what becomes
    of the references. *)
Record named_more (s s' : istate) (F' : list nat) (Q Q' : Z -> list nat) (l l' : list Z) (p : Z) (dp dp' : iNode)
    (nm : list Z) (num : Z) (dn : iNode) (dr : Z -> Z) : Prop := {
  nm_cache : cache_ok s' F' Q';
  nm_blocks : blocks_ok (ds s') (inode_view s' Q') l';
  nm_parent : inode_view s' Q' p dp' /\ file_mode dp' = file_mode dp /\ linksCount dp' = linksCount dp /\
    size dp' = size dp + 64 /\ same_attributes dp dp';
  nm_list : dir_list (ds s') (dir_of dp') = dir_list (ds s) (dir_of dp) ++ [(name_bytes nm, num)];
  nm_inode : inode_view s' Q' num (links_set (linksCount dn + 1) dn) /\ same_contents (ds s) (ds s') dn;
  nm_others : forall m d, inode_num m -> m <> p -> m <> num -> inode_view s Q m d ->
    inode_view s' Q' m d /\ same_contents (ds s) (ds s') d;
  nm_refs : forall m c, refs s Q m c -> refs s' Q' m (c + dr m);
  nm_numbers : numbers_kept (ds s) (ds s');
  nm_free : (length l <= length l' + 4)%nat
}.

Definition both_given (p num m : Z) : Z := - one p m - one num m.

(** The blocks after the entry was added, and with the link counted. *)
Lemma named_blocks s s3 F Q l l3 p w i i3 num w' j nm :
  let dn := getDiskINodeData j in
  let V3 := with_view p (getDiskINodeData i3) (inode_view s Q) in
  cache_ok s F Q -> blocks_ok (ds s) (with_view p (getDiskINodeData i) (inode_view s Q)) l ->
  caches s Q p w i -> caches s Q num w' j -> p <> num -> inode_view s Q num dn ->
  wf_iNode (links_set (linksCount dn + 1) dn) ->
  Forall data_area (l ++ blocks_of (ds s) i) -> entry_added s s3 F Q l l3 p w i i3 nm num ->
  blocks_ok (ds s3) V3 l3 /\ blocks_ok (ds s3) (with_view num (links_set (linksCount dn + 1) dn) V3) l3 /\
  forall m d, inode_num m -> m <> p -> inode_view s Q m d -> same_contents (ds s) (ds s3) d.
Proof.
  intros dn V3 Hc Hb Hk Hj Hpn Hvn Hwl Hda [Hu3 Hk3 (Ht3 & Hmark & Esz) Hg3 Hd3 Hl3 El3].
  destruct (c_hashed _ _ _ Hc _ _ _ Hk) as (Hp & _). destruct (c_hashed _ _ _ Hc _ _ _ Hj) as (Hn & _ & Hwj & _).
  pose proof (updates_ok _ _ _ _ _ _ _ _ _ Hc Hk Hu3) as Hc3. pose proof (cache_view_ok _ _ _ Hc) as HV.
  pose proof (gained_rearranged _ _ _ _ _ _ Hg3) as Hre. pose proof Hd3 as (Hf3 & _).
  set (dp := getDiskINodeData i) in *. set (d3 := getDiskINodeData i3) in *.
  set (W := with_view p dp (inode_view s Q)) in *.
  assert (W p dp) as Hv by (unfold W, with_view; by rewrite decide_True).
  assert (forall m d, m <> p -> inode_view s Q m d -> W m d) as HW
    by (intros m d Hmp Hd; unfold W, with_view; by rewrite decide_False).
  assert (wf_iNode d3) as Hw3 by apply (c_hashed _ _ _ Hc3 _ _ _ Hk3).
  assert (V3 num dn) as Hvn3 by (unfold V3, with_view; by rewrite decide_False by done).
  assert (blocks_ok (ds s3) V3 l3) as Hb3.
  { apply (blocks_step (ds s) W l _ _ l3 p dp d3); try done.
    - by apply with_view_ok.
    - unfold V3, with_view. by rewrite decide_True.
    - unfold V3, with_view. intros m Hm Hmp d. rewrite decide_False by done. left. by apply HW. }
  split; [done|]. split.
  - apply (blocks_step (ds s3) V3 l3 _ _ l3 num dn (links_set (linksCount dn + 1) dn)); try done.
    + apply with_view_ok; [by apply Hb3|done].
    + unfold with_view at 1. by rewrite decide_True.
    + apply (b_file _ _ _ Hb3 num dn Hn Hvn3).
    + unfold with_view at 1. intros m Hm Hmn d. rewrite decide_False by done. by left.
  - intros m d Hm Hmp Hd. apply (contents_step (ds s) W l (ds s3) l3 p dp d3 m d Hb); try done. by apply HW.
Qed.

(** The disk and the views after both steps and after both nodes are back. The
    cache need not show the directory as its node has it. *)
Lemma named_more_views s s3 s5 s7 F Q l l3 p w i i3 num w' j nm :
  let j5 := relinked (ic_linksCount j + 1) j in
  cache_ok s F Q -> blocks_ok (ds s) (with_view p (getDiskINodeData i) (inode_view s Q)) l ->
  caches s Q p w i -> 0 < reference_count i -> caches s Q num w' j -> p <> num ->
  inode_view s Q num (getDiskINodeData j) ->
  Forall data_area (l ++ blocks_of (ds s) i) ->
  entry_added s s3 F Q l l3 p w i i3 nm num -> caches s3 Q num w' j ->
  updates s3 s5 F F Q num w' j5 -> ds s5 = ds s3 -> both_back (ok := ok) s5 s7 Q p i3 num j5 ->
  exists F7, named_more s s7 F7 Q Q l l3 p (getDiskINodeData i) (getDiskINodeData i3) nm num (getDiskINodeData j)
    (both_given p num) /\ kept (-1) s s7 Q Q.
Proof.
  intros j5 Hc Hb Hk Hpos Hj Hpn Hvn Hda He Hj3 Hu5 Ed5
    (F7 & Hc7 & Hch7 & Hvp7 & Hvn7 & Ho7 & Hr7 & K7).
  assert (wf_iNode (links_set (ic_linksCount j + 1) (getDiskINodeData j))) as Hwl by apply (u_wf _ _ _ _ _ _ _ _ Hu5).
  destruct (named_blocks _ _ _ _ _ _ _ _ _ _ _ _ _ _ Hc Hb Hk Hj Hpn Hvn Hwl Hda He) as (Hb3 & Hb5 & Hs3).
  destruct He as [Hu3 Hk3 (Ht3 & Hmark & Esz) Hg3 Hd3 Hl3 El3].
  destruct (c_hashed _ _ _ Hc _ _ _ Hk) as (Hp & _). destruct (c_hashed _ _ _ Hc _ _ _ Hj) as (Hn & _ & Hwj & _).
  pose proof (updates_ok _ _ _ _ _ _ _ _ _ Hc Hk Hu3) as Hc3.
  pose proof (updates_ok _ _ _ _ _ _ _ _ _ Hc3 Hj3 Hu5) as Hc5.
  set (dp := getDiskINodeData i) in *. set (d3 := getDiskINodeData i3) in *. set (dn := getDiskINodeData j) in *.
  assert (getDiskINodeData j5 = links_set (linksCount dn + 1) dn) as E5 by done. rewrite E5 in Hvn7.
  set (V3 := with_view p d3 (inode_view s Q)) in *.
  set (V5 := with_view num (links_set (linksCount dn + 1) dn) V3) in *.
  assert (V3 num dn) as Hvn3 by (unfold V3, with_view; by rewrite decide_False by done).
  assert (forall m d, inode_num m -> V5 m d -> inode_view s7 Q m d) as Hv7.
  { intros m d Hm. unfold V5, V3, with_view. destruct (decide (m = num)) as [->|Hmn]; [by intros ->|].
    destruct (decide (m = p)) as [->|Hmp]; [by intros ->|]. intros Hd. apply Ho7; [done..|].
    apply (updates_view_other s3 s5 F F Q num w' j5 j m d Hc3 Hj3 Hu5 Hm Hmn).
    by apply (updates_view_other s s3 F F Q p w i3 i m d Hc Hk Hu3 Hm Hmp). }
  rewrite Ed5 in Hch7.
  assert (changes meta_zone (ds s3) (ds s7)) as Hmeta by (eapply changes_mono; [|exact Hch7]; apply inode_zone_meta).
  pose proof (c_disk _ _ _ Hc7) as Hok7.
  assert (forall m d, inode_num m -> m <> p -> inode_view s Q m d -> same_contents (ds s) (ds s7) d) as Hs7.
  { intros m d Hm Hmp Hd. eapply same_contents_trans; [by apply (Hs3 m)|].
    apply (contents_meta (ds s3) V3 l3 (ds s7) m d); try done. unfold V3, with_view. by rewrite decide_False. }
  assert (same_contents (ds s3) (ds s7) d3) as Hsp7.
  { apply (contents_meta (ds s3) V3 l3 (ds s7) p d3); try done. unfold V3, with_view. by rewrite decide_True. }
  exists F7. split; [split|].
  - done.
  - apply (blocks_meta (ds s3) V5 l3); [done|by eapply cache_view_ok|done|done|].
    intros m Hm d Hd. left. destruct (v_total _ (b_view _ _ _ Hb5) m Hm) as [d0 Hd0].
    by rewrite (inode_view_unique _ _ _ _ _ _ Hc7 Hd (Hv7 _ _ Hm Hd0)).
  - pose proof (touched_attributes _ _ Ht3). destruct Ht3 as ((_&_&Em&_)&Elk&_).
    split; [done|]. split; [done|]. split; [done|]. by split.
  - rewrite (same_dir_list _ _ _ Hsp7). exact El3.
  - split; [done|]. by apply (Hs7 num).
  - intros m d Hm Hmp Hmn Hd. split; [|by apply (Hs7 m)]. apply Hv7; [done|].
    unfold V5, V3, with_view. by rewrite !decide_False.
  - intros m c Hmc. replace (c + both_given p num m) with (c + - one p m + - one num m) by (unfold both_given; lia).
    apply Hr7. pose proof Ht3 as ((_&_&_&_&_&_&Er3&_)&_).
    refine (updates_refs_same s3 s5 F F Q num w' j5 j m _ Hc3 Hj3 Hu5 eq_refl _).
    exact (updates_refs_same s s3 F F Q p w i3 i m c Hc Hk Hu3 Er3 Hmc).
  - eapply numbers_kept_trans; [by eapply gained_keeps_numbers|].
    eapply numbers_kept_changes; [exact Hch7|]. unfold inode_zone. consts. lia.
  - done.
  - eapply kept_then; [exact Hc5| |exact K7].
    eapply kept_then; [exact Hc3|apply (updates_kept (-1) _ _ _ _ _ _ _ _ _ Hk Hu3)|].
    + by destruct Ht3 as (_ & -> & _).
    + apply (updates_kept (-1) _ _ _ _ _ _ _ _ _ Hj3 Hu5). intros _. change (ic_linksCount j + 1 <> 0).
      pose proof Hwj as (_&_&_&_&_&[Hlu _]&_). change (0 <= ic_linksCount j) in Hlu. lia.
Qed.

Lemma blind_update {A} w w' (f : inCoreiNode -> DM (A * inCoreiNode)) s :
  w <> w' -> blind_at w' (update_inode w f) s.
Proof.
  intros Hne. unfold update_inode. apply blind_inode; [done|]. intros i.
  apply blind_bind; [apply blind_disk|]. intros [a i'] s1 _. apply blind_bind; [by apply blind_put|]. done.
Qed.

(** The middle of [renameFile], the mutex of the directory being held. *)
Lemma give_name {A} s F Q l p w i num w' j nm size (K : IM A) (P : A -> istate -> Prop) :
  cache_ok s F Q -> blocks_ok (ds s) (with_view p (getDiskINodeData i) (inode_view s Q)) l ->
  caches s Q p w i -> 0 < reference_count i -> caches s Q num w' j -> 0 < reference_count j -> p <> num ->
  inode_view s Q num (getDiskINodeData j) -> dir_ok (ds s) l i ->
  c_string nm -> (length nm <= 61)%nat -> name_readable size -> num < 65535 -> room l (ic_size i) 64 -> changeable p i ->
  ic_linksCount j <> 0 -> ic_linksCount j + 1 < 2 ^ 64 ->
  (forall s7 F7 l3 dp',
     named_more s s7 F7 Q Q l l3 p (getDiskINodeData i) dp' nm num (getDiskINodeData j) (both_given p num) ->
     kept (-1) s s7 Q Q -> wp K s7 P) ->
  wp (inode_lock w' ;;;
      let* i := get_inode w' in
      update_inode w (fun p => getAndUpdateDirectoryTable p (ic_inode_number i) nm size) ;;;
      with_inode w' (fun i => updateINodeMetadata i 0 (u64 (ic_linksCount i + 1))) ;;;
      inode_unlock w ;;;
      iput w ;;;
      inode_unlock w' ;;;
      iput w' ;;; K) (hold w s) P.
Proof.
  intros Hc Hb Hk Hpos Hj Hposj Hpn Hvn Hd Hnm Hlen Hrd Hnum Hroom Hch Hl Hmax HK.
  pose proof Hk as (Hi & _ & Ep). pose proof Hj as (Hij & _ & En).
  assert (w <> w') as Hww by (intros ->; congruence).
  destruct (c_hashed _ _ _ Hc _ _ _ Hk) as (Hp & _). destruct (c_hashed _ _ _ Hc _ _ _ Hj) as (Hn & _ & Hwj & _).
  pose proof Hwj as (_&_&_&_&_&Hlu&_&_&_&_&_&Hsz). change (is_u64 (ic_linksCount j)) in Hlu.
  assert (u64 (ic_linksCount j + 1) = ic_linksCount j + 1) as Eu by (apply u64_id; unfold is_u64 in *; lia).
  assert (Forall data_area (l ++ blocks_of (ds s) i)) as Hda.
  { apply (b_area _ _ _ Hb p (getDiskINodeData i)); [done|]. unfold with_view. by rewrite decide_True. }
  apply wp_bind. eapply wp_Ret.
  { apply (lock_hold _ w' j); [by rewrite inode_at_hold, decide_False|by apply (c_quiet _ _ _ Hc _ _ Hij)]. }
  apply wp_bind. eapply wp_Ret.
  { apply get_inode_Ret. rewrite inode_at_hold, decide_True, inode_at_hold, decide_False, Hij by done. reflexivity. }
  change (ic_inode_number (ic_set_mutex true j)) with (ic_inode_number j). rewrite En.
  apply wp_bind. eapply wp_mono.
  { apply wp_held; [by apply blind_update|].
    apply (add_entry_locked s F Q l p w i num nm size); try done. unfold inode_num in Hn. lia. }
  intros u x (y & -> & s3 & i3 & l3 & -> & Hadd). rewrite hold_comm.
  pose proof Hadd as [Hu3 Hk3 (Ht3 & Hmark & _) _ _ _ _]. pose proof Ht3 as ((_&_&_&_&_&_&Er3&_)&Elk3&_).
  pose proof (updates_ok _ _ _ _ _ _ _ _ _ Hc Hk Hu3) as Hc3.
  assert (caches s3 Q num w' j) as Hj3.
  { refine (updates_others s s3 F F Q p w i3 i num w' j Hk Hu3 _ Hj). by intros ->. }
  pose proof Hj3 as (Hij3 & _ & _). pose proof Hk3 as (Hi3 & _ & _).
  set (j5 := relinked (ic_linksCount j + 1) j). set (s5 := inode_set w' j5 s3).
  assert (updates s3 s5 F F Q num w' j5) as Hu5.
  { apply (set_links_updates s3 F Q num w' j (ic_linksCount j + 1)); try done. unfold is_u64 in *. lia. }
  pose proof (updates_ok _ _ _ _ _ _ _ _ _ Hc3 Hj3 Hu5) as Hc5.
  assert (caches s5 Q num w' j5) as Hj5 by (apply (updates_caches _ _ _ _ _ _ _ _ _ _ _ _ Hu5 Hj3); by left).
  assert (caches s5 Q p w i3) as Hk5 by (exact (updates_others s3 s5 F F Q num w' j5 j p w i3 Hj3 Hu5 Hpn Hk3)).
  apply wp_bind. eapply wp_mono.
  { apply wp_held; [by apply blind_with; intros ->|].
    apply (wp_Ret _ _ tt (hold w' s5) (fun _ t => t = hold w' s5)); [|done].
    rewrite (add_link_locked s3 w' j Hij3 Hsz). by rewrite Eu. }
  intros u' x (y & -> & ->). apply wp_bind. eapply wp_Ret.
  { apply (unlock_hold _ w i3); [rewrite inode_at_hold, decide_False by done; by apply Hk5|].
    by apply (c_quiet _ _ _ Hc3 _ _ Hi3). }
  apply wp_bind. eapply wp_mono.
  { apply wp_held; [by apply blind_iput|].
    apply (put_both s5 F Q p w i3 num w' j5); try done.
    - by rewrite Er3.
    - destruct Hch as [?|[-> ?]]; [left; congruence|right; split; congruence].
    - change (ic_linksCount j + 1 <> 0). unfold is_u64 in Hlu. lia. }
  intros z x (s6 & -> & (F6 & Hc6) & Hj6 & Hput). pose proof Hj6 as (Hij6 & _).
  apply wp_bind. eapply wp_Ret; [apply (unlock_hold _ w' j5 Hij6); by apply (c_quiet _ _ _ Hc6 _ _ Hij6)|].
  apply wp_bind. eapply wp_mono; [exact Hput|]. intros z' s7 Hback.
  destruct (named_more_views s s3 s5 s7 F Q l l3 p w i i3 num w' j nm) as (F7 & Hnm7 & K7); try done.
  by apply (HK s7 F7 l3 (getDiskINodeData i3)).
Qed.

(** There is nothing at the new name. *)
Lemma no_destination fuel s l w i nm :
  inode_at s w = Some i -> dir_ok (ds s) l i -> c_string nm -> find_entry nm (dir_list (ds s) i) = None ->
  removeDestinationIfExists fuel w nm (hold w s) = Ret 0 (hold w s).
Proof.
  intros Hi Hd Hnm Hno. set (il := ic_set_mutex true i).
  destruct (wp_inv _ _ _ (search_by_name (ds s) l il nm (junk_entry (ds s)) 0 Hd Hnm)) as ([r buf] & d1 & Hrun & -> & Hres).
  unfold removeDestinationIfExists.
  erewrite bind_Ret; [|apply (look_inode_Ret (hold w s) w il); [by rewrite inode_at_hold, decide_True, Hi|exact Hrun]].
  unfold search_result in Hres. change (dir_list (ds s) il) with (dir_list (ds s) i) in Hres. rewrite Hno in Hres.
  by injection Hres as -> ->.
Qed.

(** * The file system with both names *)

Section both_names.
Context (s s' : istate) (F F' : list nat) (Q Q' : Z -> list nat) (l l' : list Z).
Context (p : Z) (dp dp' : iNode) (nm : list Z) (num : Z) (dn : iNode) (dr : Z -> Z).
Context (Hfs : fs_ok s F Q l) (Hnm : named_more s s' F' Q Q' l l' p dp dp' nm num dn dr).
Context (Hp : inode_num p) (Hv : inode_view s Q p dp) (Hd : S_ISDIR (file_mode dp) = true).
Context (Hn : inode_num num) (Hnum : num < 65535) (Hnp : num <> p) (Hvn : inode_view s Q num dn).
Context (Hname : c_string nm) (Hlen : (length nm <= 61)%nat).

Let dn1 := links_set (linksCount dn + 1) dn.

Lemma named_others_back m d :
  inode_num m -> m <> p -> m <> num -> inode_view s' Q' m d ->
  inode_view s Q m d /\ same_contents (ds s) (ds s') d.
Proof.
  intros Hm Hmp Hmn Hd'. pose proof (nm_others _ _ _ _ _ _ _ _ _ _ _ _ _ _ Hnm) as Ho.
  assert (inode_view s Q m d) as Hd0; [|by split; [|apply (Ho m)]].
  eapply (view_back s s'); [apply Hfs|apply Hnm|done| |done]. intros d0 ?. by apply Ho.
Qed.

Lemma named_linked_num : linked s' Q' num.
Proof.
  right. intros d Hd'. pose proof Hnm as [Hc' _ _ _ [Hvn' _] _ _ _ _].
  rewrite (inode_view_unique _ _ _ _ _ _ Hc' Hd' Hvn').
  destruct (inode_view_wf _ _ _ _ _ (fs_cache _ _ _ _ Hfs) Hn Hvn) as (_&_&_&_&_&Hl&_).
  cbn. unfold is_u64 in Hl. lia.
Qed.

Lemma named_linked m : inode_num m -> linked s Q m -> linked s' Q' m.
Proof.
  intros Hm Hl. destruct (decide (m = num)) as [->|Hmn]; [exact named_linked_num|].
  pose proof Hnm as [Hc' _ (Hvp & _ & El & _) _ _ _ _ _ _].
  destruct Hl as [->|Hl]; [by left|right]. intros d Hd'. destruct (decide (m = p)) as [->|Hmp].
  - rewrite (inode_view_unique _ _ _ _ _ _ Hc' Hd' Hvp), El. by apply Hl.
  - apply Hl. by apply named_others_back.
Qed.

Lemma named_fs_ok : fs_ok s' F' Q' l'.
Proof.
  pose proof Hnm as [Hc' Hb' (Hvp & Em & _ & Esz & _) El [Hvn' Hsn] Ho _ _ _]. split; [done| |done].
  assert (forall m d x, inode_num m -> inode_view s Q m d -> S_ISDIR (file_mode d) = true ->
    x ∈ dir_list (ds s) (dir_of d) -> linked s' Q' (snd x)) as Hstay.
  { intros m d x Hm Hmd Hdir Hx. destruct (fs_tree _ _ _ _ Hfs m d Hm Hmd Hdir) as ((_ & _ & _ & Hterm) & _ & Hl).
    rewrite Forall_forall in Hterm, Hl. pose proof (Hterm _ Hx) as [_ Hr].
    apply named_linked; [unfold inode_num; consts; lia|by apply Hl]. }
  apply (tree_step s Q l); [apply Hfs|done|]. intros m d Hm Hmd Hdir.
  destruct (decide (m = p)) as [->|Hmp]; [right|destruct (decide (m = num)) as [->|Hmn]; [right|left]].
  - pose proof (inode_view_unique _ _ _ _ _ _ Hc' Hmd Hvp). subst d.
    destruct (fs_tree _ _ _ _ Hfs p dp Hp Hv Hd) as ((_ & _ & Hal & Hterm) & _ & _).
    destruct (name_bytes_name nm Hname Hlen) as [Hzf _]. split.
    + split; [by apply (b_file _ _ _ Hb' p)|]. split; [exact Hdir|]. split.
      * change (size dp' mod 64 = 0). change (size dp mod 64 = 0) in Hal. rewrite Esz.
        replace (size dp + 64) with (size dp + 1 * 64) by lia. by rewrite Z.mod_add.
      * rewrite El. apply Forall_app_2; [done|]. constructor; [|constructor]. split; [done|].
        cbn [snd]. unfold inode_num in Hn. lia.
    + rewrite El. apply Forall_app_2; [|constructor; [exact named_linked_num|constructor]].
      apply Forall_forall. intros x Hx. by apply (Hstay p dp).
  - pose proof (inode_view_unique _ _ _ _ _ _ Hc' Hmd Hvn'). subst d.
    change (S_ISDIR (file_mode dn) = true) in Hdir.
    destruct (fs_tree _ _ _ _ Hfs num dn Hn Hvn Hdir) as (Hdn & _ & _).
    destruct (dir_same (ds s) (ds s') l l' (dir_of dn) Hdn (b_file _ _ _ Hb' _ _ Hn Hvn')) as [Hdn' Edl];
      [by rewrite dir_of_data|].
    split; [exact Hdn'|].
    enough (Forall (fun x => linked s' Q' (snd x)) (dir_list (ds s) (dir_of dn))) as Hall
      by (rewrite <- Edl in Hall; exact Hall).
    apply Forall_forall. intros x Hx. by apply (Hstay num dn).
  - destruct (named_others_back m d Hm Hmp Hmn Hmd) as [Hd0 Hs]. split; [done|]. split; [done|].
    intros x Hx _ _. by apply (Hstay m d).
Qed.

(** A directory has what it had at the same place; a file is a file. *)
Lemma named_inode n d :
  inode_num n -> inode_view s Q n d -> exists d', inode_view s' Q' n d' /\ file_mode d' = file_mode d /\
    exists new, dir_list (ds s') (dir_of d') = dir_list (ds s) (dir_of d) ++ new.
Proof.
  intros Hn' Hvd. pose proof Hnm as [Hc' _ (Hvp & Em & _) El [Hvn' Hsn] Ho _ _ _].
  pose proof (fs_cache _ _ _ _ Hfs) as Hc.
  destruct (decide (n = p)) as [->|Hnp'].
  { rewrite (inode_view_unique _ _ _ _ _ _ Hc Hvd Hv). exists dp'. split; [done|]. split; [done|]. by eexists. }
  destruct (decide (n = num)) as [->|Hne].
  - rewrite (inode_view_unique _ _ _ _ _ _ Hc Hvd Hvn). exists dn1. split; [exact Hvn'|]. split; [done|].
    exists []. rewrite app_nil_r. exact (same_dir_list _ _ _ Hsn).
  - destruct (Ho n d Hn' Hnp' Hne Hvd) as [Hvd' Hs]. exists d. split; [done|]. split; [done|].
    exists []. rewrite app_nil_r. exact (same_dir_list _ _ _ Hs).
Qed.

Lemma named_keeps_walks nms m : walks s Q 0 nms (Some m) -> walks s' Q' 0 nms (Some m).
Proof.
  intros Hw. eapply (walks_step s Q l s' Q'); [apply Hfs|done|by left| | |exact Hw].
  - intros n es Hn' _ (d & Hvd & Hdir & ->). destruct (named_inode n d Hn' Hvd) as (d' & Hvd' & Em & new & El).
    eexists. split; [exists d'; split; [done|split; [by rewrite Em|reflexivity]]|].
    intros nm1 k x Hf. rewrite El. unfold find_entry in *. by apply list_find_app_l.
  - intros n Hn' _ (d & Hvd & Hdir). destruct (named_inode n d Hn' Hvd) as (d' & Hvd' & Em & _).
    exists d'. by rewrite Em.
Qed.

End both_names.

(** * The two inodes in hand *)

(** Entry [k] of the directory [p1], [dir1 ++ file1], can be renamed to
    [dir2 ++ file2], where there is nothing: it is an inode with links, and both
    directories can change by an entry. *)
Record renameable (s : istate) (F : list nat) (Q : Z -> list nat) (l : list Z) (dir1 file1 : list Z) (p1 : Z)
    (dp1 : iNode) (k : nat) (num : Z) (dn : iNode) (dir2 file2 : list Z) (p2 : Z) (dp2 : iNode) : Prop := {
  ra_fs : fs_ok s F Q l;
  ra_refs : forall m c, inode_num m -> refs s Q m c -> c + 2 < 2 ^ 64;
  ra_nodes : (3 <= length F)%nat;
  ra_from : c_string (dir1 ++ file1) /\ last dir1 = Some slash /\ (slash ∉ file1) /\ file1 <> [];
  ra_to : c_string (dir2 ++ file2) /\ last dir2 = Some slash /\ (slash ∉ file2) /\ (length file2 <= 61)%nat;
  ra_walks : walks s Q 0 (path_names dir1) (Some p1) /\ walks s Q 0 (path_names dir2) (Some p2);
  ra_source : inode_view s Q p1 dp1 /\ S_ISDIR (file_mode dp1) = true /\ size dp1 + 64 < 10240 /\
    root_idle s Q p1 dp1;
  ra_target : inode_view s Q p2 dp2 /\ S_ISDIR (file_mode dp2) = true /\ room l (size dp2) 64 /\
    root_idle s Q p2 dp2;
  ra_entry : exists nb, find_entry file1 (dir_list (ds s) (dir_of dp1)) = Some (k, (nb, num));
  ra_room : (132 <= length l)%nat;
  ra_held : FreeMutex ∉ held (ds s);
  ra_inode : num <> p1 /\ num <> p2 /\ inode_view s Q num dn /\ linksCount dn <> 0 /\ linksCount dn + 1 < 2 ^ 64;
  ra_malloc : clean_malloc;
  ra_readable : name_readable (length (dir2 ++ file2) + 1)
}.

Lemma renameable_nums s F Q l dir1 file1 p1 dp1 k num dn dir2 file2 p2 dp2 :
  renameable s F Q l dir1 file1 p1 dp1 k num dn dir2 file2 p2 dp2 ->
  inode_num p1 /\ inode_num p2 /\ inode_num num /\ num < 65535.
Proof.
  intros [Hfs _ _ _ _ [Hw1 Hw2] (Hv & Hd & _) _ [nb Ef] _ _ _ _]. pose proof (fs_tree _ _ _ _ Hfs) as Ht.
  assert (inode_num 0) as H0n by done.
  pose proof (proj2 (walks_num _ _ _ _ _ _ _ Ht H0n ltac:(lia) Hw1 eq_refl)) as Hp1.
  pose proof (proj2 (walks_num _ _ _ _ _ _ _ Ht H0n ltac:(lia) Hw2 eq_refl)) as Hp2.
  assert (walks s Q p1 [file1] (Some num)) as Hwn.
  { eapply (walks_into s Q p1 file1 [] _ k (nb, num)); [by exists dp1|exact Ef|constructor]. }
  split; [done|]. split; [done|]. destruct (walks_num _ _ _ _ _ _ _ Ht H0n ltac:(lia) Hw1 eq_refl) as [Hlt _].
  by destruct (walks_num _ _ _ _ _ _ _ Ht Hp1 Hlt Hwn eq_refl).
Qed.

(** Node [w] has the directory [p2], and [w'] the file. *)
Record both_in_hand (s s2 : istate) (F2 : list nat) (Q Q2 : Z -> list nat) (l : list Z) (num : Z) (dn : iNode)
    (p2 : Z) (dp2 : iNode) (w w' : nat) (i j : inCoreiNode) : Prop := {
  bh_moves : moves s s2 F2 Q Q2 (fun _ => 0) (fun m => one num m + one p2 m);
  bh_dir : caches s2 Q2 p2 w i /\ 0 < reference_count i /\ getDiskINodeData i = dp2;
  bh_dir_ok : dir_ok (ds s2) l i /\ dir_list (ds s2) i = dir_list (ds s) (dir_of dp2);
  bh_changeable : changeable p2 i;
  bh_file : caches s2 Q2 num w' j /\ 0 < reference_count j /\ getDiskINodeData j = dn;
  bh_nodes : (1 <= length F2)%nat
}.

(** An inode in hand keeps its node and its data while others move. *)
Lemma in_hand_stays s s1 s2 F F1 F2 Q Q1 Q2 lo1 dr1 dr2 N n w d :
  cache_ok s F Q -> moves s s1 F1 Q Q1 lo1 dr1 -> moves s1 s2 F2 Q1 Q2 (fun _ => 0) dr2 ->
  in_hand N s1 F1 Q1 n w -> inode_view s Q n d -> linksCount d <> 0 -> 0 <= dr2 n ->
  exists j, caches s2 Q2 n w j /\ 0 < reference_count j /\ getDiskINodeData j = d.
Proof.
  intros Hc Hm1 Hm2 (i & Hk & Hpos & _ & Hvi & _) Hv Hl Hdr. pose proof (m_same _ _ _ _ _ _ _ Hm1) as [Hc1 V1 _].
  pose proof (m_same _ _ _ _ _ _ _ Hm2) as [Hc2 V2 R2].
  destruct (c_hashed _ _ _ Hc1 _ _ _ Hk) as (Hn & _).
  assert (getDiskINodeData i = d) as Ei by (eapply (inode_view_unique s F Q n); [done|by apply V1|done]).
  destruct (m_stays _ _ _ _ _ _ _ Hm2 n w i Hk ltac:(done)) as (j & Hj & Hlj).
  exists j. split; [done|].
  assert (ic_linksCount j <> 0) as Hlj' by (apply Hlj; change (linksCount (getDiskINodeData i) <> 0); by rewrite Ei).
  split.
  - rewrite (refs_cached _ _ _ _ _ _ _ Hc2 Hj (R2 n (reference_count i) ltac:(left; by exists w, i))). lia.
  - eapply (inode_view_unique s2 F2 Q2 n); [done| |by apply V2, V1]. left. by exists w, j.
Qed.

Lemma rename_opens s F Q l dir1 file1 p1 dp1 k num dn dir2 file2 p2 dp2 :
  renameable s F Q l dir1 file1 p1 dp1 k num dn dir2 file2 p2 dp2 ->
  wp (getFileINode (dir1 ++ file1) (length (dir1 ++ file1))) s (fun o s1 => exists w', o = Some w' /\
    wp (getParentINode (dir2 ++ file2)) s1 (fun o2 s2 => exists w i j F2 Q2, o2 = Some w /\
      both_in_hand s s2 F2 Q Q2 l num dn p2 dp2 w w' i j)).
Proof.
  intros Hra. destruct (renameable_nums _ _ _ _ _ _ _ _ _ _ _ _ _ _ _ Hra) as (Hp1 & Hp2 & Hn & _).
  destruct Hra as [Hfs Hfew HF (Hc1 & Hd1 & Hs1 & Hne) (Hcs2 & Hd2 & Hs2 & _) [Hw1 Hw2] (Hv1 & Hdir1 & _)
    (Hv2 & Hdir2 & _ & Hidle) [nb Ef] _ _ (Hnp1 & Hnp2 & Hvn & Hl & _) _]. pose proof Hfs as [Hc Ht _].
  assert (walks s Q 0 (path_names (dir1 ++ file1)) (Some num)) as Hwn.
  { rewrite path_names_app by done. eapply walks_app; [exact Hw1|].
    eapply (walks_into s Q p1 file1 [] _ k (nb, num)); [by exists dp1|exact Ef|constructor]. }
  eapply wp_mono; [eapply (getFileINode_spec 3 ltac:(lia) s F Q l (dir1 ++ file1) (Some num)); try done|].
  { intros m c Hm Hmc. specialize (Hfew m c Hm Hmc). lia. }
  { by destruct dir1. }
  intros o s1 (w' & F1 & Q1 & -> & Hm1 & Hh1). exists w'. split; [done|].
  pose proof (m_same _ _ _ _ _ _ _ Hm1) as [Hca1 V1 R1]. pose proof (tree_ok_moves _ _ _ _ _ _ _ _ Hm1 Ht) as Ht1.
  apply Forall_app in Hcs2 as [Hcd2 _]. destruct (parent_and_name dir2 file2 s1 Hd2 Hs2) as [E1 _].
  unfold getParentINode. apply wp_bind. eapply wp_Ret; [exact E1|].
  eapply wp_mono; [eapply (getFileINode_spec 2 ltac:(lia) s1 F1 Q1 l dir2 (Some p2)); try done|].
  { destruct Hh1 as (? & _ & _ & _ & _ & [?|[? _]]); lia. }
  { intros m c Hm Hmc. destruct (refs_total _ _ _ _ Hc Hm) as [c0 Hc0].
    rewrite (refs_unique _ _ _ _ _ _ Hca1 Hmc (R1 _ _ Hc0)). specialize (Hfew m c0 Hm Hc0). unfold one. case_decide; lia. }
  { intros ->. done. }
  { by eapply walks_moves. }
  intros o2 s2 (w & F2 & Q2 & -> & Hm2 & Hh2).
  assert (moves s s2 F2 Q Q2 (fun _ => 0) (fun m => one num m + one p2 m)) as Hm.
  { eapply moves_trans; [exact Hc|exact Hm1|exact Hm2|..]; intros m; cbv beta; [lia|].
    pose proof (one_nonneg num m). lia. }
  destruct (parent_in_hand _ _ _ _ _ _ _ _ _ _ _ _ _ Hc Ht Hm Hh2 Hv2 Hdir2) as (i & Hk & Hpos & Ei & Hdok & _ & El & _).
  assert (one num p2 + one p2 p2 = 1) as E2 by (unfold one; by rewrite decide_False, decide_True by done).
  destruct (parent_changeable _ _ _ _ _ _ _ _ _ _ _ _ _ Hc Hm E2 Hh2 Hk Hp2 Hv2 Ei Hidle) as [_ Hch].
  destruct (in_hand_stays _ _ _ _ _ _ _ _ _ _ _ _ _ num w' dn Hc Hm1 Hm2 Hh1 Hvn Hl (one_nonneg p2 num)) as (j & Hj).
  exists w, i, j, F2, Q2. split; [done|]. split; try done. destruct Hh2 as (? & _ & _ & _ & _ & [?|[? _]]); lia.
Qed.

(** * The name goes over *)

(** The entries of [p1] between the two steps. *)
Definition with_new (p1 p2 : Z) (es : list (list Z * Z)) (nm : list Z) (num : Z) : list (list Z * Z) :=
  if decide (p1 = p2) then es ++ [(name_bytes nm, num)] else es.

Lemma removed_last_moves es (x : list Z * Z) k : (k < length es)%nat -> removed (es ++ [x]) k = <[k := x]> es.
Proof.
  intros Hk. unfold removed. rewrite last_snoc, length_app. cbn [length].
  replace (pred (length es + 1)) with (length es) by lia.
  rewrite insert_app_l by done. by rewrite take_app_length' by (by rewrite length_insert).
Qed.

Lemma find_inserted es nm num k :
  c_string nm -> (length nm <= 61)%nat -> (k < length es)%nat -> find_entry nm es = None ->
  find_entry nm (<[k := (name_bytes nm, num)]> es) = Some (k, (name_bytes nm, num)).
Proof.
  intros Hnm Hlen Hk Hno. destruct (name_bytes_name nm Hnm Hlen) as [Hz Hcs]. unfold find_entry in *.
  apply list_find_Some. split; [by apply list_lookup_insert_eq|]. split; [done|].
  intros j y Hj Hlt. rewrite list_lookup_insert_ne in Hj by lia. apply list_elem_of_lookup_2 in Hj.
  apply list_find_None in Hno. rewrite Forall_forall in Hno. by apply Hno.
Qed.

(** The renamed file. *)
Record renamed (s s' : istate) (F' : list nat) (Q Q' : Z -> list nat) (l' : list Z) (file1 : list Z) (p1 : Z)
    (dp1 : iNode) (k : nat) (num : Z) (dn : iNode) (file2 : list Z) (p2 : Z) (dp2 : iNode) : Prop := {
  rn_fs : fs_ok s' F' Q' l';
  rn_inode : inode_view s' Q' num dn /\ same_contents (ds s) (ds s') dn;
  rn_source : exists d, inode_view s' Q' p1 d /\ same_attributes dp1 d /\
    dir_list (ds s') (dir_of d) = removed (with_new p1 p2 (dir_list (ds s) (dir_of dp1)) file2 num) k;
  rn_target : p1 <> p2 -> exists d, inode_view s' Q' p2 d /\ same_attributes dp2 d /\
    dir_list (ds s') (dir_of d) = dir_list (ds s) (dir_of dp2) ++ [(name_bytes file2, num)];
  rn_new : walks s' Q' p2 [file2] (Some num);
  rn_old : (forall j x, dir_list (ds s) (dir_of dp1) !! j = Some x -> named file1 x -> j = k) ->
    p1 <> p2 \/ file1 <> file2 -> walks s' Q' p1 [file1] None;
  rn_others : forall m d, inode_num m -> m <> p1 -> m <> p2 -> m <> num -> inode_view s Q m d ->
    inode_view s' Q' m d /\ same_contents (ds s) (ds s') d;
  rn_refs : forall m c, refs s Q m c -> refs s' Q' m c;
  rn_held : held (ds s') = held (ds s)
}.

(** What happened before the name was given moves only nodes. *)
Lemma named_moved s s2 s7 F F2 F7 Q Q2 Q7 l l3 p dp dp' nm num dn :
  fs_ok s F Q l -> inode_num p -> inode_view s Q p dp -> inode_num num -> inode_view s Q num dn ->
  moves s s2 F2 Q Q2 (fun _ => 0) (fun m => one num m + one p m) ->
  named_more s2 s7 F7 Q2 Q7 l l3 p dp dp' nm num dn (both_given p num) ->
  named_more s s7 F7 Q Q7 l l3 p dp dp' nm num dn (fun _ => 0).
Proof.
  intros Hfs Hp Hv Hn Hvn Hm [A1 A2 A3 A4 [A5 A5'] A6 A7 A8 A9]. destruct (fs_moves _ _ _ _ _ _ _ _ _ Hfs Hm) as [_ Hs].
  pose proof (m_same _ _ _ _ _ _ _ Hm) as [_ V R]. split; try done.
  - by rewrite A4, (same_dir_list _ _ _ (Hs p dp Hp Hv)).
  - split; [done|]. eapply same_contents_trans; [by apply (Hs num)|done].
  - intros m d Hm' Hmp Hmn Hd. destruct (A6 m d Hm' Hmp Hmn) as [? ?]; [by apply V|]. split; [done|].
    eapply same_contents_trans; [by apply (Hs m)|done].
  - intros m c Hmc. replace (c + 0) with (c + (one num m + one p m) + both_given p num m) by (unfold both_given; lia).
    by apply A7, R.
  - eapply numbers_kept_trans; [|exact A8]. eapply numbers_kept_changes; [apply (m_disk _ _ _ _ _ _ _ Hm)|].
    unfold inode_zone. consts. lia.
Qed.

Section middle.
Context (s s7 : istate) (F F7 : list nat) (Q Q7 : Z -> list nat) (l l3 : list Z).
Context (dir1 file1 : list Z) (p1 : Z) (dp1 : iNode) (k : nat) (num : Z) (dn : iNode).
Context (dir2 file2 : list Z) (p2 : Z) (dp2 dp' : iNode).
Context (Hra : renameable s F Q l dir1 file1 p1 dp1 k num dn dir2 file2 p2 dp2).
Context (Hunused : find_entry file2 (dir_list (ds s) (dir_of dp2)) = None).
Context (Hnm : named_more s s7 F7 Q Q7 l l3 p2 dp2 dp' file2 num dn (fun _ => 0)).

Let dp1' := if decide (p1 = p2) then dp' else dp1.

Lemma mid_source :
  inode_view s7 Q7 p1 dp1' /\ same_attributes dp1 dp1' /\ size dp1' < 10240 /\
  linksCount dp1' = linksCount dp1 /\
  dir_list (ds s7) (dir_of dp1') = with_new p1 p2 (dir_list (ds s) (dir_of dp1)) file2 num.
Proof.
  destruct (renameable_nums _ _ _ _ _ _ _ _ _ _ _ _ _ _ _ Hra) as (Hp1 & _).
  pose proof Hra as [Hfs _ _ _ _ _ (Hv1 & Hdir1 & Hsz & _) (Hv2 & _) _ _ _ (Hnp1 & _) _].
  pose proof Hnm as [_ _ (Hvp & Em & El & Es & Hat) Edl _ Ho _ _ _].
  unfold dp1', with_new. destruct (decide (p1 = p2)) as [E|Hne].
  - assert (dp2 = dp1) as E' by (subst p2; by eapply (inode_view_unique s F Q p1); [apply Hfs| |]).
    rewrite E' in *. rewrite <- E in Hvp. by rewrite El, Es, Edl.
  - destruct (Ho p1 dp1 Hp1 Hne ltac:(done) Hv1) as [Hv7 Hs7].
    split; [done|]. split; [reflexivity|]. split; [lia|]. split; [done|]. exact (same_dir_list _ _ _ Hs7).
Qed.

Lemma mid_refs m c : refs s Q m c -> refs s7 Q7 m c.
Proof. intros Hmc. replace c with (c + 0) by lia. by apply (nm_refs _ _ _ _ _ _ _ _ _ _ _ _ _ _ Hnm). Qed.

Lemma mid_fs_ok : fs_ok s7 F7 Q7 l3 /\ forall nms m, walks s Q 0 nms (Some m) -> walks s7 Q7 0 nms (Some m).
Proof.
  destruct (renameable_nums _ _ _ _ _ _ _ _ _ _ _ _ _ _ _ Hra) as (Hp1 & Hp2 & Hn & Hnum).
  pose proof Hra as [Hfs _ _ _ (Hc2 & _ & _ & Hlen) _ _ (Hv2 & Hdir2 & _) _ _ _ (_ & Hnp2 & Hvn & _) _].
  apply Forall_app in Hc2 as [_ Hcf]. split.
  - by eapply (named_fs_ok s s7 F F7 Q Q7 l l3 p2 dp2 dp' file2 num dn).
  - intros nms m. by eapply (named_keeps_walks s s7 F F7 Q Q7 l l3 p2 dp2 dp' file2 num dn).
Qed.

(** The old name can be removed. *)
Lemma mid_removable :
  removable s7 F7 Q7 l3 dir1 file1 p1 dp1' k num (links_set (linksCount dn + 1) dn).
Proof.
  destruct mid_source as (Hv & Em & Hsz & El & Edl). destruct mid_fs_ok as (Hfs7 & Hwalks).
  pose proof Hra as [Hfs Hfew HF (? & ? & ? & _) _ [Hw1 _] (_ & Hd & _ & Hidle) _ [nb Ef] Hlen Hheld (Hnp1 & _) Hmal].
  pose proof Hnm as [Hc7 _ _ _ [Hvn _] _ _ [Eh _] Hfree]. split; try done.
  - intros m c Hm Hmc. destruct (refs_total _ _ _ _ (fs_cache _ _ _ _ Hfs) Hm) as [c0 Hc0].
    rewrite (refs_unique _ _ _ _ _ _ Hc7 Hmc (mid_refs _ _ Hc0)). specialize (Hfew m c0 Hm Hc0). lia.
  - rewrite (free_nodes_same _ _ _ _ _ _ (fs_cache _ _ _ _ Hfs) Hc7 mid_refs). lia.
  - by apply Hwalks.
  - by rewrite (same_mode _ _ Em).
  - exists nb. rewrite Edl. unfold with_new. case_decide; [|done]. unfold find_entry in *. by apply list_find_app_l.
  - intros E Hl. apply mid_refs, Hidle; [done|]. by rewrite <- El.
  - lia.
  - by rewrite Eh.
Qed.

(** The entry at the new name. *)
Lemma mid_walks s8 Q8 d1 :
  inode_view s8 Q8 p1 d1 -> same_attributes dp1 d1 ->
  dir_list (ds s8) (dir_of d1) = removed (with_new p1 p2 (dir_list (ds s) (dir_of dp1)) file2 num) k ->
  (p1 <> p2 -> exists d, inode_view s8 Q8 p2 d /\ same_attributes dp2 d /\
    dir_list (ds s8) (dir_of d) = dir_list (ds s) (dir_of dp2) ++ [(name_bytes file2, num)]) ->
  walks s8 Q8 p2 [file2] (Some num).
Proof.
  intros Hv1 Hat El1 Htgt.
  pose proof Hra as [Hfs _ _ _ (Hcf & _ & _ & Hlen) _ (Hv & Hd & _) (Hv2 & Hdir2 & _) [nb Ef] _ _ _ _].
  apply Forall_app in Hcf as [_ Hcf].
  assert (k < length (dir_list (ds s) (dir_of dp1)))%nat as Hk.
  { unfold find_entry in Ef. apply list_find_Some in Ef as (Hk & _). by eapply lookup_lt_Some. }
  destruct (decide (p1 = p2)) as [E|Hne].
  - assert (dp2 = dp1) as E' by (eapply (inode_view_unique s F Q p1); [apply Hfs|by rewrite E|done]).
    rewrite E' in Hunused. set (es := <[k := (name_bytes file2, num)]> (dir_list (ds s) (dir_of dp1))).
    apply (walks_into s8 Q8 p2 file2 [] es k (name_bytes file2, num)); [|by apply find_inserted|constructor].
    exists d1. rewrite <- E at 1. split; [done|]. rewrite (same_mode _ _ Hat). split; [done|].
    rewrite El1. unfold with_new. by rewrite decide_True, removed_last_moves.
  - destruct (Htgt Hne) as (d & Hvd & Emd & El).
    apply (walks_into s8 Q8 p2 file2 [] (dir_list (ds s) (dir_of dp2) ++ [(name_bytes file2, num)])
      (length (dir_list (ds s) (dir_of dp2))) (name_bytes file2, num)); [|by apply find_added|constructor].
    exists d. split; [done|]. by rewrite (same_mode _ _ Emd).
Qed.

(** And then the file is renamed. *)
Lemma mid_renamed s8 F8 Q8 l8 :
  file_unlinked s7 s8 F8 Q7 Q8 l8 file1 p1 dp1' k num dn -> same_contents (ds s7) (ds s8) dn ->
  renamed s s8 F8 Q Q8 l8 file1 p1 dp1 k num dn file2 p2 dp2.
Proof.
  intros [Hfs8 Hvn8 (d1 & Hv1 & Em1 & El1) Hgone Ho8 Hr8 Eh8 _] Hs8.
  destruct (renameable_nums _ _ _ _ _ _ _ _ _ _ _ _ _ _ _ Hra) as (Hp1 & Hp2 & Hn & Hnum).
  destruct mid_source as (Hv7 & Em7 & _ & _ & Edl7).
  pose proof Hra as [Hfs _ _ _ (Hcf & _ & _ & Hlen) _ _ (Hv2 & _) _ _ _ (Hnp1 & Hnp2 & Hvn & _) _].
  apply Forall_app in Hcf as [_ Hcf].
  pose proof Hnm as [_ _ (Hvp & _ & _ & _ & Em) Edl [_ Hsn] Ho _ [Eh7 _] _].
  assert (p1 <> p2 -> exists d, inode_view s8 Q8 p2 d /\ same_attributes dp2 d /\
    dir_list (ds s8) (dir_of d) = dir_list (ds s) (dir_of dp2) ++ [(name_bytes file2, num)]) as Htgt.
  { intros Hne. destruct (Ho8 p2 dp' Hp2 ltac:(done) ltac:(done) Hvp) as [? Hs2]. exists dp'. split; [done|].
    split; [done|]. by rewrite (same_dir_list _ _ _ Hs2), Edl. }
  rewrite Edl7 in El1. pose proof (transitivity Em7 Em1) as Em17. split.
  - done.
  - split; [done|]. by eapply same_contents_trans.
  - by exists d1.
  - intros Hne. by apply Htgt.
  - by apply (mid_walks s8 Q8 d1).
  - intros Honce Hor. apply Hgone. intros j0 x Hj Hnx. rewrite Edl7 in Hj. unfold with_new in Hj.
    case_decide as E; [|by eapply Honce]. apply lookup_app_Some in Hj as [Hj|[_ Hj]]; [by eapply Honce|].
    apply list_lookup_singleton_Some in Hj as [_ <-]. destruct (name_bytes_name file2 Hcf Hlen) as [_ Ec].
    unfold named, entry_name in Hnx. cbn in Hnx. destruct Hor; congruence.
  - intros m d Hm1 Hmp1 Hmp2 Hmn Hvd. destruct (Ho m d Hm1 Hmp2 Hmn Hvd) as [Hv7' Hs7'].
    destruct (Ho8 m d Hm1 Hmp1 Hmn Hv7') as [? ?]. split; [done|]. by eapply same_contents_trans.
  - intros m c Hmc. by apply Hr8, mid_refs.
  - by rewrite Eh8, Eh7.
Qed.

(** The last step. *)
Lemma mid_unlink nos :
  inode_list (ds s) nos ->
  wp (let* retVal := unlinkFile (dir1 ++ file1) in if negb (retVal =? 0) then ret (-1) else ret 0) s7
    (fun v s' => v = 0 /\ inode_list (ds s') nos /\ exists F' Q' l',
      (length l <= length l' + 4)%nat /\ renamed s s' F' Q Q' l' file1 p1 dp1 k num dn file2 p2 dp2 /\
      kept 0 s7 s' Q7 Q').
Proof.
  intros Hnos. pose proof Hra as [Hfs _ _ _ _ _ _ _ _ _ _ (_ & _ & Hvn & Hl & Hmax) _].
  destruct (renameable_nums _ _ _ _ _ _ _ _ _ _ _ _ _ _ _ Hra) as (_ & _ & Hn & _).
  destruct (inode_view_wf _ _ _ _ _ (fs_cache _ _ _ _ Hfs) Hn Hvn) as (_&_&_&_&_&Hlu&_).
  apply wp_bind. eapply wp_mono; [eapply (unlinkFile_shared _ _ _ _ _ _ _ _ _ _ _ nos mid_removable)|].
  - cbn. unfold is_u64 in Hlu. lia.
  - by apply (nm_numbers _ _ _ _ _ _ _ _ _ _ _ _ _ _ Hnm).
  - intros v s8 (-> & F8 & Q8 & freed & _ & Hnos8 & Hs8 & Hun). apply wp_ret. split; [done|]. split; [done|].
    exists F8, Q8, (freed ++ l3).
    split; [rewrite length_app; pose proof (nm_free _ _ _ _ _ _ _ _ _ _ _ _ _ _ Hnm); lia|].
    split; [|by destruct Hun].
    apply mid_renamed; [|exact Hs8].
    replace (links_set _ _) with dn in Hun; [exact Hun|].
    destruct dn. unfold links_set. cbn. by replace (linksCount + 1 - 1) with linksCount by lia.
Qed.

End middle.

(** [renameFile] to a name that is not in use. *)
Lemma renameFile_moves fuel s F Q l dir1 file1 p1 dp1 k num dn dir2 file2 p2 dp2 nos :
  renameable s F Q l dir1 file1 p1 dp1 k num dn dir2 file2 p2 dp2 ->
  find_entry file2 (dir_list (ds s) (dir_of dp2)) = None -> inode_list (ds s) nos ->
  wp (renameFile fuel (dir1 ++ file1) (dir2 ++ file2)) s (fun v s' => v = 0 /\ inode_list (ds s') nos /\
    exists F' Q' l', (length l <= length l' + 4)%nat /\
      renamed s s' F' Q Q' l' file1 p1 dp1 k num dn file2 p2 dp2 /\ kept 0 s s' Q Q').
Proof.
  intros Hra Hno Hnos. pose proof Hra as [Hfs _ _ _ (Hc2 & Hd2 & Hs2 & Hlen) _ _ (Hv2 & _ & Hroom & _) _ _ _
    (_ & Hnp2 & Hvn & Hl & Hmax) _].
  destruct (renameable_nums _ _ _ _ _ _ _ _ _ _ _ _ _ _ _ Hra) as (_ & Hp2 & Hn & Hnum).
  unfold renameFile. apply wp_bind. eapply wp_mono; [by eapply rename_opens|].
  intros o s1 (w' & -> & Hwp). apply wp_bind. eapply wp_mono; [exact Hwp|].
  intros o2 s2 (w & i & j & F2 & Q2 & -> & Hbh).
  pose proof Hbh as [Hm (Hk & Hpos & Ei) [Hdok El] Hch (Hj & Hposj & Ej) _].
  destruct (fs_moves _ _ _ _ _ _ _ _ _ Hfs Hm) as [[Hc2' _ Hb2] _].
  pose proof (m_same _ _ _ _ _ _ _ Hm) as [_ V R]. pose proof Hk as (Hi & _ & _).
  apply Forall_app in Hc2 as [_ Hcf].
  apply wp_bind. eapply wp_Ret; [eapply lock_hold; [exact Hi|by apply (c_quiet _ _ _ Hc2' _ _ Hi)]|].
  apply wp_bind. eapply wp_Ret; [by apply parent_and_name|].
  apply wp_bind. eapply wp_Ret.
  { apply (no_destination fuel s2 l w i file2); [done|done|done|]. by rewrite El. }
  change (0 <? 0) with false. cbn iota.
  apply (give_name s2 F2 Q2 l p2 w i num w' j file2 _); try done.
  - rewrite Ei. apply blocks_ok_with_view; [done|done|by apply V].
  - rewrite Ej. by apply V.
  - change (ic_size i) with (size (getDiskINodeData i)). by rewrite Ei.
  - change (linksCount (getDiskINodeData j) <> 0). by rewrite Ej.
  - change (linksCount (getDiskINodeData j) + 1 < 2 ^ 64). by rewrite Ej.
  - intros s7 F7 l3 dp' Hnm K7. rewrite Ei, Ej in Hnm.
    pose proof (named_moved _ _ _ _ _ _ _ _ _ _ _ _ _ _ _ _ _ Hfs Hp2 Hv2 Hn Hvn Hm Hnm) as Hnm'.
    eapply wp_mono; [by eapply mid_unlink|]. intros v s8 (-> & Hnos8 & F8 & Q8 & l8 & Hl8 & Hrn & K8).
    split; [done|]. split; [done|]. exists F8, Q8, l8. split; [done|]. split; [done|].
    eapply (kept_trans s s7 s8 _ _ _ _ (fun _ => 0)); [apply Hnm'| |apply Hnm'|done|exact K8].
    eapply kept_then; [exact Hc2'|by eapply moves_kept|exact K7].
Qed.
End rename.
