(* ===== verification/RenameOver.v ===== *)
(** [renameFile] to the name of a file: [removeDestinationIfExists] removes that
    file while the parent is locked and the source is in use. *)

From S2P Require Export RenameSpec.

(** The same two states seen from the other one. *)
Lemma changes_sym `{Host} X s s' : changes X s s' -> changes X s' s.
Proof.
  intros [(E1 & E2 & E3 & E4) Hv]. split; [by split_and!|]. intros n Hn. by rewrite Hv.
Qed.

Section rename_over.
Context `{BlockStore ok} `{shifts : !DefinedShifts}.
Local Abbreviation cache_ok := (cache_ok (ok := ok)).
Local Abbreviation moves := (moves (ok := ok)).
Local Abbreviation fs_ok := (fs_ok (ok := ok)).
Local Abbreviation dir_ok := (dir_ok (ok := ok)).
Local Abbreviation blocks_ok := (blocks_ok (ok := ok)).
Local Abbreviation renameable := (renameable (ok := ok)).
Local Abbreviation both_in_hand := (both_in_hand (ok := ok)).
Local Abbreviation named_more := (named_more (ok := ok)).
Local Abbreviation file_unlinked := (file_unlinked (ok := ok)).
Local Abbreviation removed_from := (removed_from (ok := ok)).
Local Abbreviation cut := (cut (ok := ok)).
Local Abbreviation drops := (drops (ok := ok)).

(** An inode in use that does not change keeps its node. *)
Lemma unchanged_in_place s s' F F' Q Q' n k i :
  cache_ok s F Q -> cache_ok s' F' Q' -> kept 0 s s' Q Q' -> caches s Q n k i -> 0 < reference_count i ->
  ic_linksCount i <> 0 -> (forall d, inode_view s Q n d -> inode_view s' Q' n d) ->
  (forall c, refs s Q n c -> refs s' Q' n c) ->
  exists i', caches s' Q' n k i' /\ reference_count i' = reference_count i /\
    getDiskINodeData i' = getDiskINodeData i.
Proof.
  intros Hc Hc' Hkept Hk Hpos Hl Hv Hr. destruct (Hkept n k i Hk Hpos) as (i' & Hk' & Hl'). exists i'. split; [done|].
  split; [exact (refs_cached _ _ _ _ _ _ _ Hc' Hk' (Hr _ (refs_of_caches _ _ _ _ _ Hk)))|].
  eapply (inode_view_unique s' F' Q' n); [done|left; exists k, i'; auto|]. apply Hv. left. by exists k, i.
Qed.

(** What comes after a removal moves only nodes. *)
Lemma removed_from_then s s6 s' F6 F' Q Q6 Q' l' p dp dp' k num dn dn' lo dr :
  fs_ok s6 F6 Q6 l' -> removed_from s s6 F6 Q Q6 l' p dp dp' k num dn dn' -> inode_num p -> inode_num num ->
  moves s6 s' F' Q6 Q' lo dr -> kept (-1) s6 s' Q6 Q' -> removed_from s s' F' Q Q' l' p dp dp' k num dn dn'.
Proof.
  intros Hfs [A1 A2 A3 A4 (A5 & A5') A6 A7 A8 A9] Hp Hn Hm K. destruct (fs_moves _ _ _ _ _ _ _ _ _ Hfs Hm) as [Hfs' Hs].
  pose proof (m_same _ _ _ _ _ _ _ Hm) as [Hc' V _]. split.
  - done.
  - apply Hfs'.
  - by apply V.
  - apply (fate_after (ds s) (ds s) (ds s6) (ds s') dn dn'); [by split|done|]. by apply (Hs num).
  - split; [by apply V|done].
  - by rewrite (same_dir_list _ _ _ (Hs p dp' Hp A5)).
  - intros m d Hm' Hmp Hmn Hd. destruct (A7 m d Hm' Hmp Hmn Hd) as [? ?]. split; [by apply V|].
    eapply same_contents_trans; [done|by apply (Hs m)].
  - rewrite <- A8. by destruct (changes_env _ _ _ (m_disk _ _ _ _ _ _ _ Hm)) as (_ & _ & _ & ->).
  - eapply kept_then; [exact A1|exact A9|exact K].
Qed.

(** A new name, seen from a state with the same inodes and fewer references. *)
Lemma named_more_from s s0 s7 F F0 F7 Q Q0 Q7 l l7 p dp dp' nm num dn dr :
  cache_ok s F Q -> cache_ok s0 F0 Q0 -> inode_num p -> inode_num num ->
  dir_list (ds s) (dir_of dp) = dir_list (ds s0) (dir_of dp) -> inode_view s0 Q0 num dn ->
  (forall m d, inode_num m -> m <> p -> inode_view s Q m d ->
     inode_view s0 Q0 m d /\ same_contents (ds s) (ds s0) d) ->
  inode_view s Q num dn -> (forall m c, refs s Q m c -> refs s0 Q0 m (c + dr m)) ->
  changes inode_zone (ds s0) (ds s) ->
  num <> p -> named_more s s7 F7 Q Q7 l l7 p dp dp' nm num dn dr ->
  named_more s0 s7 F7 Q0 Q7 l l7 p dp dp' nm num dn (fun _ => 0).
Proof.
  intros Hc Hc0 Hp Hn El Hv0 Ho Hv Hr Hch Hnp [A1 A2 A3 A4 [A5 A5'] A6 A7 A8 A9]. split; try done.
  - by rewrite A4, El.
  - split; [done|]. destruct (Ho num dn Hn Hnp Hv) as [_ [E1 E2]]. destruct A5' as [E3 E4]. split; congruence.
  - intros m d Hm Hmp Hmn Hd.
    assert (inode_view s Q m d) as Hd'.
    { eapply (view_back s s0); [exact Hc|exact Hc0|done| |exact Hd]. intros e He. by apply (Ho m). }
    destruct (Ho m d Hm Hmp Hd') as [_ [E1 E2]]. destruct (A6 m d Hm Hmp Hmn Hd') as [? [E3 E4]].
    split; [done|]. split; congruence.
  - intros m c Hmc. rewrite Z.add_0_r. destruct (decide (inode_num m)) as [Hm|Hm].
    + destruct (refs_total _ _ _ _ Hc Hm) as [c1 Hc1]. rewrite (refs_unique _ _ _ _ _ _ Hc0 Hmc (Hr _ _ Hc1)). by apply A7.
    + destruct Hmc as [(k & i & Hk & _)|[-> _]]; [by destruct (c_hashed _ _ _ Hc0 _ _ _ Hk)|]. right.
      split; [done|]. intros k i Hk. by destruct (c_hashed _ _ _ A1 _ _ _ Hk).
  - eapply numbers_kept_trans; [|exact A8]. eapply numbers_kept_changes; [exact Hch|]. unfold inode_zone. consts. lia.
Qed.

(** * A look at the destination *)

(** The inode is taken and given back, while the directory is locked. *)
Lemma look_at_file fuel s F Q p w i num dn (K : IM Z) (P : Z -> istate -> Prop) :
  cache_ok s F Q -> F <> [] -> caches s Q p w i -> 0 < reference_count i -> num <> p -> inode_num num ->
  (forall c, refs s Q num c -> c + 1 < 2 ^ 64) -> inode_view s Q num dn -> linksCount dn <> 0 ->
  type dn <> T_DIRECTORY ->
  (forall s' F' Q', moves s s' F' Q Q' (fun _ => 0) (fun _ => 0) ->
     (forall m j i1, m <> num -> caches s Q m j i1 -> 0 < reference_count i1 -> caches s' Q' m j i1) ->
     wp K (hold w s') P) ->
  wp (let* destination := iget num 0 in
      let* k := deref destination in
      inode_lock k ;;;
      let* i := get_inode k in
      let* retVal :=
        (if decide (ic_type i = T_DIRECTORY)
         then validateAndEmptyDirectoryIfNeeded fuel k true else ret 0) in
      if retVal <? 0 then
        inode_unlock k ;;;
        iput k ;;;
        ret retVal
      else
        inode_unlock k ;;;
        iput k ;;;
        K) (hold w s) P.
Proof.
  intros Hc HF Hk Hpos Hne Hn Hmax Hv Hl Htype HK. apply wp_bind.
  eapply wp_mono; [apply wp_held; [by eapply blind_iget|by apply (iget_same s F Q num)]|].
  intros [k|] x (s1 & -> & Hget); [|by destruct Hget as (-> & _)].
  destruct Hget as (F1 & Q1 & ik & Hsame & S1 & Ed & Hk1 & Hvi & Hpos1 & _ & _ & Hot).
  pose proof (si_ok _ _ _ _ _ _ Hsame) as Hc1. pose proof Hk1 as (Hi1 & _ & En).
  pose proof (inode_view_unique _ _ _ _ _ _ Hc Hvi Hv) as Ei.
  assert (caches s1 Q1 p w i) as Hw1 by (by apply Hot; [intros ->| |]).
  assert (k <> w) as Hkw by (intros ->; destruct Hw1 as (E & _ & Ep); congruence).
  assert (inode_at (hold w s1) k = Some ik) as Hih by (by rewrite inode_at_hold, decide_False).
  pose proof (c_quiet _ _ _ Hc1 _ _ Hi1) as Hq.
  apply wp_bind. eapply wp_Ret; [reflexivity|]. apply wp_bind. eapply wp_Ret; [by apply (lock_hold _ k ik)|].
  apply wp_bind. eapply wp_Ret; [apply get_inode_Ret; rewrite inode_at_hold, decide_True, Hih by done; reflexivity|].
  change (ic_type (ic_set_mutex true ik)) with (type (getDiskINodeData ik)). rewrite Ei, decide_False by done.
  apply wp_bind, wp_ret. change (0 <? 0) with false. cbn iota.
  apply wp_bind. eapply wp_Ret; [by apply (unlock_hold _ k ik)|]. apply wp_bind.
  eapply wp_mono; [apply wp_held; [by apply blind_iput|apply (iput_keeps s1 F1 Q1 num k ik); try done]|].
  { left. change (linksCount (getDiskINodeData ik) <> 0). by rewrite Ei. }
  { apply (si_view _ _ _ _ _ _ Hsame); [done|]. by rewrite Ei. }
  intros z x (s2 & -> & _ & Hch & F2 & Hsame2 & S2 & _ & Hot2). apply (HK s2 F2 Q1); [|by intros; apply Hot2, Hot].
  assert (moves s s1 F1 Q Q1 (fun _ => 0) (one num)) as Hm1 by (split; [done|done|rewrite Ed; apply changes_refl; apply Hc]).
  assert (moves s1 s2 F2 Q1 Q1 (fun _ => 0) (fun m => - one num m)) as Hm2.
  { split; [done|eapply stays_mono; [exact S2|done]|]. eapply changes_mono; [|exact Hch]. intros m.
    by apply inode_block_zone. }
  eapply moves_trans; [exact Hc|exact Hm1|exact Hm2|..]; intros m; cbv beta; [lia|].
  pose proof (one_nonneg num m). lia.
Qed.

(** * The destination goes *)

Section replacing.
Context (s s2 : istate) (F F2 : list nat) (Q Q2 : Z -> list nat) (l : list Z).
Context (dir1 file1 : list Z) (p1 : Z) (dp1 : iNode) (k : nat) (num : Z) (dn : iNode).
Context (dir2 file2 : list Z) (p2 : Z) (dp2 : iNode) (w w' : nat) (i j : inCoreiNode).
Context (k2 : nat) (nb2 : list Z) (num2 : Z) (dn2 : iNode).
Context (Hra : renameable s F Q l dir1 file1 p1 dp1 k num dn dir2 file2 p2 dp2).
Context (Hbh : both_in_hand s s2 F2 Q Q2 l num dn p2 dp2 w w' i j).
Context (Hentry : find_entry file2 (dir_list (ds s) (dir_of dp2)) = Some (k2, (nb2, num2))).
Context (Hother : num2 <> num) (Hp2 : num2 <> p2) (Hv2 : inode_view s Q num2 dn2).
Context (Hl2 : linksCount dn2 <> 0) (Htype : type dn2 <> T_DIRECTORY) (Hsz : size dp2 < 10240).

Definition both_taken (m : Z) : Z := one num m + one p2 m.

Lemma destination_num : inode_num num2 /\ 0 <= num2 < 65535.
Proof.
  destruct (renameable_nums _ _ _ _ _ _ _ _ _ _ _ _ _ _ _ Hra) as (_ & Hp & _).
  pose proof Hra as [Hfs _ _ _ _ _ _ (Hv & Hd & _) _ _ _ _ _].
  destruct (fs_tree _ _ _ _ Hfs p2 dp2 Hp Hv Hd) as ((_ & _ & _ & Hterm) & _).
  unfold find_entry in Hentry. apply list_find_Some in Hentry as (Hin & _). apply list_elem_of_lookup_2 in Hin.
  rewrite Forall_forall in Hterm. destruct (Hterm _ Hin) as [_ Hr]. cbn [snd] in Hr.
  split; [|done]. unfold inode_num. consts. lia.
Qed.

(** The directory, its list and its size are as they were. *)
Lemma directory_stays s3 F3 Q3 dr :
  moves s s3 F3 Q Q3 (fun _ => 0) dr -> fs_ok s3 F3 Q3 l /\ inode_view s3 Q3 p2 (getDiskINodeData i) /\
    dir_ok (ds s3) l i /\ dir_list (ds s3) i = dir_list (ds s) (dir_of dp2) /\ 64 <= ic_size i < 10240.
Proof.
  intros Hm. destruct (renameable_nums _ _ _ _ _ _ _ _ _ _ _ _ _ _ _ Hra) as (_ & Hp & _).
  pose proof Hra as [Hfs _ _ _ _ _ _ (Hv & Hd & _) _ _ _ _ _]. pose proof Hbh as [_ (_ & _ & Ei) _ _ _ _].
  destruct (fs_moves _ _ _ _ _ _ _ _ _ Hfs Hm) as [Hfs3 Hs]. pose proof (m_same _ _ _ _ _ _ _ Hm) as [_ V _].
  assert (inode_view s3 Q3 p2 dp2) as Hv3 by (by apply V). rewrite Ei. split; [done|]. split; [done|].
  destruct (fs_tree _ _ _ _ Hfs3 p2 dp2 Hp Hv3 Hd) as (Hdok & _).
  destruct (dir_ok_data (ok := ok) (ds s3) l (dir_of dp2) i ltac:(by rewrite dir_of_data)) as (Hd' & El' & _).
  assert (dir_list (ds s3) i = dir_list (ds s) (dir_of dp2)) as El by (by rewrite El', (same_dir_list _ _ _ (Hs p2 dp2 Hp Hv))).
  apply Hd' in Hdok. split; [done|]. split; [done|]. assert (ic_size i = size dp2) as Esz by exact (f_equal size Ei).
  split; [|lia]. destruct (dir_count _ _ _ Hdok) as [Hcnt _]. rewrite El in Hcnt.
  unfold find_entry in Hentry. apply list_find_Some in Hentry as (Hx & _). apply lookup_lt_Some in Hx.
  pose proof (Z.mul_div_le (ic_size i) 64). lia.
Qed.

Lemma removes_destination fuel nos' X :
  drops s Q l num2 dn2 nos' X ->
  wp (removeDestinationIfExists fuel w file2) (hold w s2) (fun r s' => r = 0 /\
    exists s3 F3 Q3 i5 s5 l3 freed F5 Q5 dn2', moves s s3 F3 Q Q3 (fun _ => 0) both_taken /\
      caches s3 Q3 num w' j /\ s' = hold w s5 /\ X l3 dn2' /\ Z.of_nat (length freed) = nblocks (size dp2) - nblocks (size dp2 - 64) /\
      inode_list (ds s5) nos' /\
      cut s3 s5 F3 F5 Q3 Q5 l (freed ++ l3) p2 w i i5 k2 num2 dn2 dn2').
Proof.
  intros Hdrop. destruct destination_num as [Hn2 Hr2].
  pose proof Hra as [Hfs Hfew _ _ (Hcf & _ & _ & _) _ _ _ _ Hroom Hheld _ Hmal].
  pose proof Hbh as [Hm (Hk & Hpos & Ei) [Hdok El] _ (Hj & Hposj & _) HF2]. apply Forall_app in Hcf as [_ Hcf].
  pose proof (m_same _ _ _ _ _ _ _ Hm) as [Hc2 V R]. pose proof Hk as (Hi & _ & _).
  pose proof (fs_cache _ _ _ _ Hfs) as Hc. set (il := ic_set_mutex true i).
  destruct (refs_total _ _ _ _ Hc Hn2) as [c2 Hcn2]. pose proof (Hfew _ _ Hn2 Hcn2) as Hc64.
  assert (both_taken num2 = 0) as E0 by (unfold both_taken, one; rewrite !decide_False by done; done).
  destruct (wp_inv _ _ _ (search_by_name (ds s2) l il file2 (junk_entry (ds s2)) 0 Hdok Hcf)) as ([r buf] & d1 & Hrun & -> & Hres).
  unfold removeDestinationIfExists. apply wp_bind.
  eapply wp_Ret; [apply (look_inode_Ret (hold w s2) w il); [by rewrite inode_at_hold, decide_True, Hi|exact Hrun]|].
  unfold search_result in Hres. change (dir_list (ds s2) il) with (dir_list (ds s2) i) in Hres.
  rewrite El, Hentry in Hres. injection Hres as -> ->. cbn beta iota. change (1 =? 1) with true. cbn iota.
  change (the_entry _) with (DirectoryEntry nb2 (low_bytes (iNodeNum (junk_entry (ds s2))) num2)). cbn [iNodeNum name fst snd].
  rewrite low_bytes_clean by (done || lia).
  apply (look_at_file fuel s2 F2 Q2 p2 w i num2 dn2); try done.
  { intros ->. cbn in HF2. lia. }
  { intros c Hcc. rewrite (refs_unique _ _ _ _ _ _ Hc2 Hcc (R _ _ Hcn2)). fold (both_taken num2). lia. }
  { by apply V. }
  intros s3 F3 Q3 Hm3 Hot3. pose proof (Hot3 p2 w i ltac:(done) Hk Hpos) as Hk3.
  pose proof (Hot3 num w' j ltac:(done) Hj Hposj) as Hj3. assert (moves s s3 F3 Q Q3 (fun _ => 0) both_taken) as Hm03.
  { eapply moves_trans; [exact Hc|exact Hm|exact Hm3|..]; intros m; unfold both_taken; cbv beta; [lia|].
    pose proof (one_nonneg num m). pose proof (one_nonneg p2 m). lia. }
  destruct (directory_stays _ _ _ _ Hm03) as ([Hc3 Ht3 Hb3] & Hvp3 & Hd3 & El3 & Hsz3).
  destruct (fs_moves _ _ _ _ _ _ _ _ _ Hfs Hm03) as [_ Hs3]. pose proof (m_same _ _ _ _ _ _ _ Hm03) as [_ V3 R3].
  pose proof (m_disk _ _ _ _ _ _ _ Hm03) as Hch3. pose proof (changes_env _ _ _ Hch3) as (_ & _ & _ & Eh3).
  pose proof (R3 _ _ Hcn2) as Hcn3. rewrite E0 in Hcn3.
  apply wp_bind. eapply (wp_Ret _ _ file2).
  { unfold name_string. destruct Hd3 as (_ & _ & _ & Hterm). rewrite El3 in Hterm. unfold find_entry in Hentry.
    apply list_find_Some in Hentry as (Hin & Hnm & _). apply list_elem_of_lookup_2 in Hin.
    rewrite Forall_forall in Hterm. destruct (Hterm _ Hin) as [Hz _]. rewrite decide_True by done.
    unfold named, entry_name in Hnm. cbn [fst] in Hnm. by rewrite Hnm. }
  apply wp_bind. eapply wp_mono; [apply (unlink_under_lock s Q s3 F3 Q3 l p2 w i file2 k2 nb2 num2 dn2 nos' X); try done|].
  { assert (length F3 = length F2) as E; [|intros ->; cbn in E; lia].
    apply (free_nodes_same (ok := ok) s2 s3 F2 F3 Q2 Q3 Hc2 Hc3). intros m c Hmc.
    replace c with (c + 0) by lia. by apply (m_same _ _ _ _ _ _ _ Hm3). }
  { lia. }
  { by rewrite Eh3. }
  { by rewrite El3. }
  { by apply V3. }
  { intros c Hcc. rewrite (refs_unique _ _ _ _ _ _ Hc3 Hcc Hcn3). lia. }
  { intros c Hcc. apply R3 in Hcc. rewrite E0 in Hcc. by rewrite Z.add_0_r in Hcc. }
  { by apply (Hs3 num2). }
  { intros nos Hl. eapply inode_list_frame; [exact Hl|]. apply Hch3. unfold inode_zone. consts. lia. }
  intros r s' (-> & i5 & l5 & s5 & l3 & freed & F5 & Q5 & dn' & -> & HX & -> & Hfr & Hnos & Hcut).
  change (0 <? 0) with false. cbn iota. apply wp_ret. split; [done|].
  exists s3, F3, Q3, i5, s5, l3, freed, F5, Q5, dn'. rewrite <- Ei. by split_and!.
Qed.

(** What would be seen if both nodes were given back here. *)
Section given_back.
Context (s3 s5 : istate) (F3 F5 : list nat) (Q3 Q5 : Z -> list nat) (l5 : list Z) (i5 : inCoreiNode) (dn2' : iNode).
Context (Hm : moves s s3 F3 Q Q3 (fun _ => 0) both_taken) (Hj : caches s3 Q3 num w' j).
Context (Hcut : cut s3 s5 F3 F5 Q3 Q5 l l5 p2 w i i5 k2 num2 dn2 dn2').
Context (Hsole : deleted dn2' -> named_once s Q num2 p2 k2).

Lemma source_in_place :
  exists j5, caches s5 Q5 num w' j5 /\ 0 < reference_count j5 /\ getDiskINodeData j5 = dn /\ inode_view s5 Q5 num dn.
Proof.
  destruct (renameable_nums _ _ _ _ _ _ _ _ _ _ _ _ _ _ _ Hra) as (_ & _ & Hn & _).
  pose proof Hra as [_ _ _ _ _ _ _ _ _ _ _ (_ & Hnp2 & Hvn & Hl & _) _]. pose proof Hbh as [_ _ _ _ (_ & Hpos & Ej) _].
  pose proof (m_same _ _ _ _ _ _ _ Hm) as [Hc3 V _]. pose proof Hcut as [Hc5 _ _ _ _ _ _ _ Ho5 Hr5 _ K5].
  assert (inode_view s3 Q3 num dn) as Hv3 by (by apply V).
  destruct (unchanged_in_place s3 s5 F3 F5 Q3 Q5 num w' j) as (j5 & Hj5 & Er & Ed); try done.
  - change (linksCount (getDiskINodeData j) <> 0). by rewrite Ej.
  - intros d Hd. by apply Ho5.
  - intros c. apply Hr5.
  - exists j5. split; [done|]. split; [lia|]. split; [by rewrite Ed|]. by apply Ho5.
Qed.

Lemma given_back :
  exists s' F', file_unlinked s s' F' Q Q5 l5 file2 p2 dp2 k2 num2 dn2' /\ fate (ds s) (ds s') dn2 dn2' /\
    (forall nos, inode_list (ds s5) nos -> inode_list (ds s') nos) /\ inode_view s' Q5 p2 (getDiskINodeData i5) /\
    forall s7 F7 l7 dp' nm,
      named_more s5 s7 F7 Q5 Q5 l5 l7 p2 (getDiskINodeData i5) dp' nm num dn (both_given p2 num) ->
      named_more s' s7 F7 Q5 Q5 l5 l7 p2 (getDiskINodeData i5) dp' nm num dn (fun _ => 0).
Proof.
  destruct (renameable_nums _ _ _ _ _ _ _ _ _ _ _ _ _ _ _ Hra) as (_ & Hnp & Hn & _).
  destruct destination_num as [Hn2 _]. destruct source_in_place as (j5 & Hj5 & Hpos5 & Ej5 & Hv5).
  pose proof Hra as [Hfs _ _ _ _ _ _ (Hv & Hd & _) _ _ _ (_ & Hnp2 & Hvn & Hl & _) _].
  pose proof Hbh as [_ (_ & Hpos & Ei) _ Hch _ _].
  pose proof Hcut as [Hc5 _ _ _ _ _ _ _ _ Hr5 _ _].
  destruct (fs_moves _ _ _ _ _ _ _ _ _ Hfs Hm) as [Hfs3 Hs3]. pose proof (m_same _ _ _ _ _ _ _ Hm) as [_ V R].
  destruct (wp_inv _ _ _ (put_parent _ _ _ _ _ _ _ _ _ _ _ _ _ _ _ _ Hcut Hch Hpos Hnp Hp2 Hn2))
    as (z6 & s6 & _ & (Hch6 & Hg6 & Hr56 & Hot6) & Hr6 & F6 & Hrm). rewrite Ei in Hrm.
  assert (removed_from s s6 F6 Q Q5 l5 p2 dp2 (getDiskINodeData i5) k2 num2 dn2 dn2') as Hrm6.
  { eapply removed_from_moved; [exact Hfs|exact Hm| |done..]. intros m. unfold both_taken.
    pose proof (one_nonneg num m). pose proof (one_nonneg p2 m). lia. }
  assert (fs_ok s6 F6 Q5 l5) as Hfs6 by (by eapply (removed_fs_ok s s6 F F6 Q Q5 l l5 p2 dp2)).
  assert (forall m d, m <> p2 -> inode_view s5 Q5 m d -> with_view p2 (getDiskINodeData i5) (inode_view s5 Q5) m d) as HW
    by (intros m d Hmp Hd'; unfold with_view; by rewrite decide_False).
  pose proof (Hot6 num w' j5 Hnp2 Hj5) as Hj6. destruct (Hg6 num dn Hn (HW num dn Hnp2 Hv5)) as [Hv6 _].
  destruct (wp_inv _ _ _ (iput_keeps s6 F6 Q5 num w' j5 (fs_cache _ _ _ _ Hfs6) Hj6 Hpos5
    ltac:(left; change (linksCount (getDiskINodeData j5) <> 0); by rewrite Ej5) ltac:(by rewrite Ej5)))
    as (z & s' & _ & _ & Hch' & F' & Hsame & S' & _ & _).
  assert (changes inode_zone (ds s6) (ds s')) as Hzone by (eapply changes_mono; [|exact Hch']; intros m; by apply inode_block_zone).
  assert (moves s6 s' F' Q5 Q5 (fun _ => 0) (fun m => - one num m)) as Hm6.
  { split; [done|eapply stays_mono; [exact S'|done]|done]. }
  pose proof Hsame as [Hc' V' R'].
  assert (removed_from s s' F' Q Q5 l5 p2 dp2 (getDiskINodeData i5) k2 num2 dn2 dn2') as Hrm'
    by (by eapply removed_from_then).
  exists s', F'. split; [|split; [by destruct Hrm'|split; [|split; [by destruct Hrm' as [_ _ _ _ (? & _) _ _ _ _]|]]]].
  - eapply removed_unlinked; [exact Hfs|exact Hrm'|done..|]. intros m c Hmc.
    replace c with (c + both_taken m + - one p2 m + - one num m) by (unfold both_taken; lia). by apply R', Hr6, R.
  - intros nos Hnos. eapply inode_list_frame; [|apply Hzone; unfold inode_zone; consts; lia].
    eapply inode_list_frame; [exact Hnos|]. apply Hch6. unfold inode_zone. consts. lia.
  - intros s7 F7 l7 dp' nm Hnm. destruct (fs_moves _ _ _ _ _ _ _ _ _ Hfs6 Hm6) as [_ Hs6].
    assert (forall m d, inode_num m -> with_view p2 (getDiskINodeData i5) (inode_view s5 Q5) m d ->
      inode_view s' Q5 m d /\ same_contents (ds s5) (ds s') d) as Hboth.
    { intros m d Hm' Hd'. destruct (Hg6 m d Hm' Hd') as [Hd6 ?]. split; [by apply V'|].
      eapply same_contents_trans; [done|by apply (Hs6 m)]. }
    destruct (Hboth num dn Hn ltac:(by apply HW)) as [Hvn' _].
    eapply (named_more_from s5 s' s7 F5 F' F7 Q5 Q5 Q5); [exact Hc5|exact Hc'|exact Hnp|exact Hn| |exact Hvn'| |exact Hv5| | |exact Hnp2|exact Hnm].
    + symmetry. apply same_dir_list, (Hboth p2); [done|]. unfold with_view. by rewrite decide_True.
    + intros m d Hm' Hmp Hd'. apply Hboth; [done|]. by apply HW.
    + intros m c Hmc. replace (c + both_given p2 num m) with (c + - one p2 m + - one num m) by (unfold both_given; lia).
      by apply R', Hr56.
    + apply changes_sym. eapply changes_trans; [| |exact Hch6|exact Hzone]; done.
Qed.

End given_back.

End replacing.

(** * The whole operation *)

(** [renameFile] on the name of another file is the removal of that file followed
    by the renaming: [s'] is what the removal leaves, and what the renaming starts
    from. *)
Lemma renameFile_over fuel s F Q l dir1 file1 p1 dp1 k num dn dir2 file2 p2 dp2 k2 nb2 num2 dn2 nos' X P :
  renameable s F Q l dir1 file1 p1 dp1 k num dn dir2 file2 p2 dp2 ->
  find_entry file2 (dir_list (ds s) (dir_of dp2)) = Some (k2, (nb2, num2)) -> num2 <> num -> num2 <> p2 ->
  inode_view s Q num2 dn2 -> linksCount dn2 <> 0 -> type dn2 <> T_DIRECTORY -> size dp2 < 10240 ->
  drops s Q l num2 dn2 nos' X -> (forall dn', deleted dn' -> named_once s Q num2 p2 k2 \/ forall l3, ~ X l3 dn') ->
  (forall s' F' Q' l3 freed dn2', X l3 dn2' -> Z.of_nat (length freed) = nblocks (size dp2) - nblocks (size dp2 - 64) ->
     inode_list (ds s') nos' -> fate (ds s) (ds s') dn2 dn2' ->
     file_unlinked s s' F' Q Q' (freed ++ l3) file2 p2 dp2 k2 num2 dn2' ->
     exists dp1' k' dn' dp2',
       renameable s' F' Q' (freed ++ l3) dir1 file1 p1 dp1' k' num dn' dir2 file2 p2 dp2' /\
       find_entry file2 (dir_list (ds s') (dir_of dp2')) = None /\
       forall s8 F8 Q8 l8, (length (freed ++ l3) <= length l8 + 4)%nat -> inode_list (ds s8) nos' ->
         renamed (ok := ok) s' s8 F8 Q' Q8 l8 file1 p1 dp1' k' num dn' file2 p2 dp2' -> kept 0 s s8 Q Q8 -> P 0 s8) ->
  wp (renameFile fuel (dir1 ++ file1) (dir2 ++ file2)) s P.
Proof.
  intros Hra Hentry Hother Hp2 Hv2 Hl2 Htype Hsz Hdrop Hsole Hthen.
  pose proof Hra as [Hfs _ _ _ (Hc2 & Hd2 & Hs2 & Hlen) _ _ (Hvp2 & _) _ _ _ (_ & Hnp2 & Hvn & Hl & Hmax) _].
  destruct (renameable_nums _ _ _ _ _ _ _ _ _ _ _ _ _ _ _ Hra) as (_ & Hp2n & Hn & Hnum).
  unfold renameFile. apply wp_bind. eapply wp_mono; [by eapply rename_opens|].
  intros o s1 (w' & -> & Hwp). apply wp_bind. eapply wp_mono; [exact Hwp|].
  intros o2 s2 (w & i & j & F2 & Q2 & -> & Hbh). pose proof Hbh as [Hm2 (Hk & Hpos & Ei) _ Hch _ _].
  pose proof (m_same _ _ _ _ _ _ _ Hm2) as [Hc2' _ _]. pose proof Hk as (Hi & _ & _). apply Forall_app in Hc2 as [_ Hcf].
  apply wp_bind. eapply wp_Ret; [eapply lock_hold; [exact Hi|by apply (c_quiet _ _ _ Hc2' _ _ Hi)]|].
  apply wp_bind. eapply wp_Ret; [by apply parent_and_name|].
  apply wp_bind. eapply wp_mono; [by eapply (removes_destination s s2 F F2 Q Q2 l)|].
  intros r x (-> & s3 & F3 & Q3 & i5 & s5 & l3 & freed & F5 & Q5 & dn2' & Hm & Hj3 & -> & HX & Hfr & Hnos & Hcut).
  change (0 <? 0) with false. cbn iota.
  assert (deleted dn2' -> named_once s Q num2 p2 k2) as Hs.
  { intros Hdel. destruct (Hsole dn2' Hdel) as [|Hno]; [done|by apply Hno in HX]. }
  edestruct (source_in_place s s2 F F2 Q Q2 l dir1 file1 p1 dp1 k num dn dir2 file2 p2 dp2 w w' i j k2 num2 dn2)
    as (j5 & Hj5 & Hpos5 & Ej5 & Hv5); [done..|].
  edestruct (given_back s s2 F F2 Q Q2 l dir1 file1 p1 dp1 k num dn dir2 file2 p2 dp2 w w' i j k2 nb2 num2 dn2)
    as (sv & Fv & Hun & Hfate & Hnosv & Hvpv & Hback); [done..|].
  destruct (Hthen sv Fv Q5 l3 freed dn2' HX Hfr ltac:(by apply Hnosv) Hfate Hun)
    as (dp1' & k' & dn' & dp2' & Hrav & Hunused & HP).
  pose proof Hrav as [Hfsv _ _ _ _ _ _ (Hvp2' & _ & Hroom & _) _ _ _ (_ & _ & Hvn' & _) _].
  pose proof (fs_cache _ _ _ _ Hfsv) as Hcv.
  pose proof (inode_view_unique _ _ _ _ _ _ Hcv Hvp2' Hvpv) as ->.
  destruct (un_others _ _ _ _ _ _ _ _ _ _ _ _ Hun num dn Hn Hnp2 ltac:(done) Hvn) as [Hvnv _].
  pose proof (inode_view_unique _ _ _ _ _ _ Hcv Hvn' Hvnv) as ->.
  pose proof Hcut as [Hc5 Hk5 (Ht5 & _) Hb5 Hd5 _ _ _ _ Hr5 _ K5]. pose proof Ht5 as ((_&_&_&_&_&_&Er5&_)&El5&_).
  apply (give_name s5 F5 Q5 (freed ++ l3) p2 w i5 num w' j5 file2 _); try done.
  - by rewrite Er5.
  - by rewrite Ej5.
  - destruct Hch as [?|[-> ?]]; [left|right; split; [done|]]; congruence.
  - change (linksCount (getDiskINodeData j5) <> 0). by rewrite Ej5.
  - change (linksCount (getDiskINodeData j5) + 1 < 2 ^ 64). by rewrite Ej5.
  - intros s7 F7 l7 dp' Hnm K7. rewrite Ej5 in Hnm. pose proof (Hback _ _ _ _ _ Hnm) as Hnm'.
    eapply wp_mono; [eapply (mid_unlink sv s7); [exact Hrav|exact Hunused|exact Hnm'|by apply Hnosv]|].
    intros v s8 (-> & Hnos8 & F8 & Q8 & l8 & Hl8 & Hrn & K8). apply (HP s8 F8 Q8 l8); try done.
    pose proof (m_same _ _ _ _ _ _ _ Hm) as [Hc3 _ R3].
    eapply (kept_trans s s7 s8 _ _ _ _ (fun _ => 0)); [apply Hnm| |..|done|exact K8].
    + eapply kept_then; [exact Hc5| |exact K7].
      eapply (kept_trans s s3 s5); [exact Hc3|by eapply moves_kept|exact R3| |exact K5].
      intros m. unfold both_taken. pose proof (one_nonneg num m). pose proof (one_nonneg p2 m). lia.
    + intros m c Hmc. replace (c + 0) with (c + both_taken num p2 m + both_given p2 num m)
        by (unfold both_taken, both_given; lia).
      apply (nm_refs _ _ _ _ _ _ _ _ _ _ _ _ _ _ Hnm), Hr5. by apply R3.
Qed.

End rename_over.
