(* ===== verification/Handles.v ===== *)
(** Open files as a client knows them: descriptors that stand for inode numbers. *)

From S2P Require Export FilesSpec.

(** How many descriptors stand for inode [n], and for which inodes there are any. *)
Definition open_count (O : gmap nat Z) (n : Z) : Z := Z.of_nat (base.size (filter (fun x => snd x = n) O)).
Definition open_nodes (O : gmap nat Z) : gset Z := map_img O.

(** The first descriptor that is not in use. *)
Fixpoint free_from (O : gmap nat Z) (fd n : nat) : option nat :=
  match n with
  | 0%nat => None
  | S n => match O !! fd with None => Some fd | Some _ => free_from O (S fd) n end
  end.
Definition free_handle (O : gmap nat Z) : option nat := free_from O 0 (Z.to_nat MAX_FILE_DESCRIPTORS).

Lemma open_count_empty n : open_count ∅ n = 0.
Proof. unfold open_count. by rewrite map_filter_empty, map_size_empty. Qed.

Lemma open_count_insert O fd n m :
  O !! fd = None -> open_count (<[fd := n]> O) m = open_count O m + one n m.
Proof.
  intros Hfd. unfold open_count, one. destruct (decide (m = n)) as [->|Hne].
  - rewrite map_filter_insert_True by done. rewrite map_size_insert_None; [lia|].
    by apply map_lookup_filter_None_2; left.
  - rewrite map_filter_insert_False by (cbn; congruence). rewrite delete_id by done. lia.
Qed.

Lemma open_count_delete O fd n m :
  O !! fd = Some n -> open_count (delete fd O) m = open_count O m + - one n m.
Proof.
  intros Hfd. rewrite <- (insert_delete_id O fd n Hfd) at 2. rewrite open_count_insert by apply lookup_delete_eq. lia.
Qed.

Lemma open_count_nonneg O n : 0 <= open_count O n.
Proof. unfold open_count. lia. Qed.

Lemma open_count_pos O fd n : O !! fd = Some n -> 0 < open_count O n.
Proof.
  intros Hfd. pose proof (open_count_delete O fd n n Hfd) as E. pose proof (open_count_nonneg (delete fd O) n).
  unfold one in E. rewrite decide_True in E by done. lia.
Qed.

Lemma open_count_some O n : open_count O n <> 0 -> exists fd, O !! fd = Some n.
Proof.
  intros Hne. destruct (map_choose (filter (fun x => snd x = n) O)) as (fd & m & Hfd).
  { intros E. apply Hne. unfold open_count. by rewrite E, map_size_empty. }
  apply map_lookup_filter_Some in Hfd as [Hfd E]. cbn in E. subst m. by exists fd.
Qed.

Lemma open_count_le O n (N : nat) : (forall fd m, O !! fd = Some m -> (fd < N)%nat) -> open_count O n <= Z.of_nat N.
Proof.
  intros HN. unfold open_count. apply Nat2Z.inj_le. rewrite <- size_dom. rewrite <- (size_set_seq (C := gset nat) 0 N).
  apply subseteq_size. intros fd Hfd. apply elem_of_dom in Hfd as [m Hm].
  apply map_lookup_filter_Some in Hm as [Hm _]. apply elem_of_set_seq. apply HN in Hm. lia.
Qed.

Lemma free_from_spec O fd n :
  match free_from O fd n with
  | Some x => (fd <= x < fd + n)%nat /\ O !! x = None
  | None => True
  end.
Proof.
  revert fd. induction n as [|n IH]; intros fd; [done|]. cbn [free_from]. destruct (O !! fd) eqn:E; [|split; [lia|done]].
  specialize (IH (S fd)). destruct (free_from O (S fd) n); [|done]. destruct IH. split; [lia|done].
Qed.

(** It is the one that the table gives out. *)
Lemma free_entry_from (t : list fileTableEntry) O off :
  (forall j e, t !! j = Some e -> validEntry e = bool_decide (is_Some (O !! (off + j)%nat))) ->
  free_entry t off = free_from O off (length t).
Proof.
  revert off. induction t as [|e t IH]; intros off Ht; [done|]. cbn [free_entry length free_from].
  pose proof (Ht 0%nat e eq_refl) as He. rewrite Nat.add_0_r in He. rewrite He.
  rewrite (IH (S off)); [by destruct (O !! off)|]. intros j x Hj. rewrite (Ht (S j) x Hj). by rewrite Nat.add_succ_comm.
Qed.
