(* ===== verification/AbstractTree.v ===== *)
(** What the file system is for its clients: a tree of named nodes. The requests
    that FUSE passes on are functions on such trees; [Refinement.v] shows that
    the code implements them.

    A request is a partial function: it is defined where the code does what is
    asked for ([permit]) or says that it cannot ([refuse]). *)

From S2P Require Export Handles RenameOver TruncSpec MainSpec DirListing AttrTree.

(** * Trees *)

(** A directory is a list of names and numbers, a file a sequence of bytes. *)
Inductive content : Type :=
| Entries (es : list (list Z * Z))
| Bytes (bs : list Z).

Record anode : Type := ANode {
  a_type : iNodeType;
  a_mode : Z;
  a_uid : Z;
  a_gid : Z;
  a_links : Z;
  a_content : content
}.

(** The nodes by their numbers (the root is 0), the free numbers in the order in
    which they are given out, a number of blocks that are free at least, and the
    descriptors of the open files. *)
Record atree : Type := ATree {
  t_nodes : gmap Z anode;
  t_numbers : list Z;
  t_blocks : Z;
  t_open : gmap nat Z
}.

(** A change of a node. *)
Definition set_node (n : Z) (a : anode) (T : atree) : atree :=
  ATree (<[n := a]> (t_nodes T)) (t_numbers T) (t_blocks T) (t_open T).

(** At most 28 files can be open: four nodes of the cache are for the requests. *)
Definition can_open (T : atree) (n : Z) : Prop :=
  n <> 0 /\ (base.size (open_nodes (t_open T) ∪ {[n]}) <= 28)%nat.

#[export] Instance can_open_dec T n : Decision (can_open T n).
Proof. unfold can_open. apply _. Defined.

Definition set_open (O : gmap nat Z) (T : atree) : atree := ATree (t_nodes T) (t_numbers T) (t_blocks T) O.

Definition set_content (c : content) (a : anode) : anode :=
  ANode (a_type a) (a_mode a) (a_uid a) (a_gid a) (a_links a) c.
Definition set_links (v : Z) (a : anode) : anode :=
  ANode (a_type a) (a_mode a) (a_uid a) (a_gid a) v (a_content a).

Definition set_owner_mode (mode uid gid : Z) (a : anode) : anode :=
  ANode (a_type a) mode uid gid (a_links a) (a_content a).

Definition put_entries (n : Z) (es : list (list Z * Z)) (ns : gmap Z anode) : gmap Z anode :=
  alter (set_content (Entries es)) n ns.

(** The first entry with a name. *)
Definition look (nm : list Z) (es : list (list Z * Z)) : option (nat * (list Z * Z)) :=
  list_find (fun e => fst e = nm) es.

Definition entries_at (T : atree) (n : Z) : option (list (list Z * Z)) :=
  a ← t_nodes T !! n; match a_content a with Entries es => Some es | Bytes _ => None end.

(** The node that names lead to, and the directory at a path. *)
Fixpoint resolve (T : atree) (n : Z) (nms : list (list Z)) : option Z :=
  match nms with
  | [] => Some n
  | nm :: nms => es ← entries_at T n; e ← look nm es; resolve T (snd (snd e)) nms
  end.

Definition locate (T : atree) (dir : list Z) : option (Z * list (list Z * Z)) :=
  p ← resolve T 0 (path_names dir); es ← entries_at T p; Some (p, es).

(** A path: a directory that ends with a slash, and a name that fits. *)
Definition proper (dir file : list Z) : Prop :=
  c_string (dir ++ file) /\ last dir = Some slash /\ (slash ∉ file) /\ (0 < length file <= 61)%nat.

#[export] Instance c_string_dec l : Decision (c_string l).
Proof. unfold c_string. apply _. Defined.
#[export] Instance proper_dec dir file : Decision (proper dir file).
Proof. unfold proper. apply _. Defined.

(** No entry but entry [k] of [p] has the number [num]. *)
Definition sole (T : atree) (num p : Z) (k : nat) : Prop :=
  map_Forall (fun m a => match a_content a with
    | Entries es => Forall (fun x => snd (snd x) = num -> m = p /\ fst x = k) (imap pair es)
    | Bytes _ => True end) (t_nodes T).

#[export] Instance sole_dec T num p k : Decision (sole T num p k).
Proof. unfold sole. apply map_Forall_dec. intros m a. destruct (a_content a); apply _. Defined.

(** * Requests *)

Inductive request : Type :=
| Getattr (path : list Z)
| Mkdir (dir file : list Z) (mode : Z) (ctx : fuse_context)
| Create (dir file : list Z) (mode : Z) (fi : fuse_file_info) (ctx : fuse_context)
| Open (path : list Z) (fi : fuse_file_info) (ctx : fuse_context)
| Write (path : list Z) (flags : Z) (fd : nat) (buf : list Z) (offset : Z) (ctx : fuse_context)
| Read (path : list Z) (flags : Z) (fd : nat) (offset : Z) (n : nat) (ctx : fuse_context)
| Release (path : list Z) (flags : Z) (fd : nat) (ctx : fuse_context)
| Unlink (dir file : list Z)
| Rmdir (dir file : list Z)
| Rename (dir1 file1 dir2 file2 : list Z)
| Readdir (path : list Z)
| Chmod (path : list Z) (mode : Z)
| Chown (path : list Z) (uid gid : Z)
| Truncate (path : list Z) (new : Z).

(** What comes back: the value of the call, a descriptor, bytes, names, or
    attributes. *)
Inductive reply : Type :=
| Status (v : Z)
| Handle (fd : Z)
| Contents (bs : list Z)
| Names (ns : list (list Z))
| Attributes (mode uid gid size : Z).

(** A directory with so many entries is inside its direct blocks, and can grow. *)
Definition can_grow (es : list (list Z * Z)) : Prop := (length es < 159)%nat.
Definition can_shrink (es : list (list Z * Z)) : Prop := (length es < 160)%nat.

#[export] Instance can_grow_dec es : Decision (can_grow es).
Proof. unfold can_grow. apply _. Defined.
#[export] Instance can_shrink_dec es : Decision (can_shrink es).
Proof. unfold can_shrink. apply _. Defined.

(** A new node. *)
Definition new_anode (t : iNodeType) (mode : Z) (ctx : fuse_context) (num p : Z) : anode :=
  ANode t (made_mode t mode) (fc_uid ctx) (fc_gid ctx) (if decide (t = T_DIRECTORY) then 2 else 1)
    (if decide (t = T_DIRECTORY) then Entries [(dot, num); (dot_dot, p)] else Bytes []).

Definition fitting (t : iNodeType) (mode : Z) (ctx : fuse_context) : Prop :=
  is_u32 mode /\ is_u32 (fc_uid ctx) /\ is_u32 (fc_gid ctx) /\
  S_ISDIR (made_mode t mode) = bool_decide (t = T_DIRECTORY).

#[export] Instance fitting_dec t mode ctx : Decision (fitting t mode ctx).
Proof. unfold fitting. apply _. Defined.

(** [mkdir] and [create]: the first free number gets a name. The last number of
    the list is never given out. *)
Definition make_node (t : iNodeType) (T : atree) (dir file : list Z) (mode : Z) (ctx : fuse_context)
  : option atree :=
  '(p, es) ← locate T dir;
  match look file es, t_numbers T with
  | None, num :: x :: nos =>
      if decide (proper dir file /\ fitting t mode ctx /\ can_grow es /\ 8 <= t_blocks T)
      then Some (ATree (<[num := new_anode t mode ctx num p]> (put_entries p (es ++ [(file, num)]) (t_nodes T)))
                   (x :: nos) (t_blocks T - 8) (t_open T))
      else None
  | _, _ => None
  end.

(** [unlink]: the last entry takes the place of the one removed. A node without
    other links, which must not be open, goes, and its number is the next to be
    given out. *)
Definition drop_name (T : atree) (dir file : list Z) : option atree :=
  '(p, es) ← locate T dir;
  '(k, (_, num)) ← look file es;
  a ← t_nodes T !! num;
  let ns := put_entries p (removed es k) (t_nodes T) in
  if decide (proper dir file /\ can_shrink es /\ 128 <= t_blocks T /\ num <> p) then
    if decide (1 < a_links a) then
      Some (ATree (<[num := set_links (a_links a - 1) a]> ns) (t_numbers T) (t_blocks T) (t_open T))
    else if decide (a_links a = 1 /\ num <> 0 /\ sole T num p k /\ (0 < length (t_numbers T) < 512)%nat /\
                    open_count (t_open T) num = 0) then
      Some (ATree (delete num ns) (num :: t_numbers T) (t_blocks T) (t_open T))
    else None
  else None.

(** [rmdir] of an empty directory: its name goes, one of its two links goes, and
    the directory stays, out of reach. *)
Definition drop_directory (T : atree) (dir file : list Z) : option atree :=
  '(p, es) ← locate T dir;
  '(k, (_, num)) ← look file es;
  a ← t_nodes T !! num;
  match a_content a with
  | Entries es' =>
      if decide (a_type a = T_DIRECTORY /\ num <> 0 /\ 1 < a_links a /\ (length es' <= 2)%nat)
      then drop_name T dir file else None
  | Bytes _ => None
  end.

(** [rename]: the source, with its directory and its place there, and the
    directory of the new name, when both directories can change by an entry. *)
Definition movable (T : atree) (dir1 file1 dir2 file2 : list Z)
  : option (Z * list (list Z * Z) * nat * Z * (Z * list (list Z * Z))) :=
  '(p1, es1) ← locate T dir1;
  '(p2, es2) ← locate T dir2;
  '(k, (_, num)) ← look file1 es1;
  a ← t_nodes T !! num;
  if decide (proper dir1 file1 /\ proper dir2 file2 /\ can_grow es1 /\ can_grow es2 /\ 132 <= t_blocks T /\
             num <> p1 /\ num <> p2 /\ a_links a <> 0 /\ a_links a + 1 < 2 ^ 64)
  then Some (p1, es1, k, num, (p2, es2)) else None.

(** In one directory the entry keeps its place, between two it leaves the one and
    ends the other. *)
Definition moved (T : atree) (p1 : Z) (es1 : list (list Z * Z)) (k : nat) (num p2 : Z) (es2 : list (list Z * Z))
    (file2 : list Z) : atree :=
  ATree (if decide (p1 = p2) then put_entries p1 (<[k := (file2, num)]> es1) (t_nodes T)
         else put_entries p2 (es2 ++ [(file2, num)]) (put_entries p1 (removed es1 k) (t_nodes T)))
    (t_numbers T) (t_blocks T - 4) (t_open T).

(** To a new name. *)
Definition move_name (T : atree) (dir1 file1 dir2 file2 : list Z) : option atree :=
  '(p1, es1, k, num, (p2, es2)) ← movable T dir1 file1 dir2 file2;
  match look file2 es2 with
  | None => Some (moved T p1 es1 k num p2 es2 file2)
  | Some _ => None
  end.

(** To the name of another file, which goes first; the paths lead where they led. *)
Definition move_over (T : atree) (dir1 file1 dir2 file2 : list Z) : option atree :=
  '(p1, _, _, num, (p2, es2)) ← movable T dir1 file1 dir2 file2;
  '(_, (_, num2)) ← look file2 es2;
  a2 ← t_nodes T !! num2;
  if decide (num2 <> num /\ a_type a2 <> T_DIRECTORY) then
    T1 ← drop_name T dir2 file2;
    '(p1', _, _, num', (p2', _)) ← movable T1 dir1 file1 dir2 file2;
    if decide (p1' = p1 /\ num' = num /\ p2' = p2) then move_name T1 dir1 file1 dir2 file2 else None
  else None.

(** [open]: the first free descriptor stands for the node. *)
Definition open_path (T : atree) (path : list Z) : option (reply * atree) :=
  n ← resolve T 0 (path_names path);
  fd ← free_handle (t_open T);
  if decide (c_string path /\ path <> [] /\ is_Some (t_nodes T !! n) /\ can_open T n)
  then Some (Handle (Z.of_nat fd), set_open (<[fd := n]> (t_open T)) T) else None.

Definition release (T : atree) (fd : nat) : option (reply * atree) :=
  _ ← t_open T !! fd; Some (Status 0, set_open (delete fd (t_open T)) T).

(** The file that a descriptor stands for. *)
Definition opened_node (T : atree) (fd : nat) : option (Z * anode) :=
  n ← t_open T !! fd; a ← t_nodes T !! n; Some (n, a).

(** A write that starts where the file ends, as far as there are blocks for it,
    or one inside the file. *)
Definition write_bytes (T : atree) (fd : nat) (buf : list Z) (o : Z) : option atree :=
  '(n, a) ← opened_node T fd;
  match a_content a with
  | Bytes bs =>
      let len := Z.of_nat (length buf) in
      let size := Z.of_nat (length bs) in
      let more := 4 * (nblocks (Z.max size (o + len)) - nblocks size) in
      if decide (Forall is_byte buf /\ len < 2 ^ 31 /\
                 ((o = size /\ size + len <= MAX_FILE_SIZE /\ more <= t_blocks T) \/ (0 <= o /\ o + len <= size)))
      then Some (ATree (<[n := set_content (Bytes (memcpy_at bs (Z.to_nat o) buf)) a]> (t_nodes T))
                   (t_numbers T) (t_blocks T - more) (t_open T))
      else None
  | Entries _ => None
  end.

(** A read from the start of a file, or of whole blocks inside it. *)
Definition read_bytes (T : atree) (fd : nat) (offset : Z) (m : nat) : option (list Z) :=
  '(n, a) ← opened_node T fd;
  match a_content a with
  | Bytes bs =>
      if decide (Z.of_nat m < 2 ^ 31 /\
                 (offset = 0 \/ (0 <= offset /\ offset mod 1024 = 0 /\ Z.of_nat m mod 1024 = 0 /\
                  offset + Z.of_nat m <= Z.of_nat (length bs))))
      then Some (take m (drop (Z.to_nat offset) bs)) else None
  | Entries _ => None
  end.

Definition attributes (T : atree) (path : list Z) : option reply :=
  n ← resolve T 0 (path_names path);
  a ← t_nodes T !! n;
  if decide (c_string path /\ path <> []) then
    Some (Attributes (a_mode a) (a_uid a) (a_gid a)
      match a_content a with Entries es => 64 * Z.of_nat (length es) | Bytes bs => Z.of_nat (length bs) end)
  else None.

(** [truncate]: a file grows as far as there are blocks for it; one inside its
    direct blocks can also shrink. *)
Definition set_size (T : atree) (path : list Z) (new : Z) : option atree :=
  n ← resolve T 0 (path_names path);
  a ← t_nodes T !! n;
  match a_content a with
  | Bytes bs =>
      let old := Z.of_nat (length bs) in
      let more := 4 * Z.max 0 (nblocks new - nblocks old) in
      if decide (c_string path /\ path <> [] /\ n <> 0 /\ a_type a <> T_DIRECTORY /\ 0 <= new <= MAX_FILE_SIZE /\
                 ((old <= new /\ more <= t_blocks T) \/ (new < old < 10240 /\ 128 <= t_blocks T)))
      then Some (ATree (<[n := set_content (Bytes (resize (Z.to_nat new) 0 bs)) a]> (t_nodes T))
                   (t_numbers T) (t_blocks T - more) (t_open T))
      else None
  | Entries _ => None
  end.

(** The names in a directory, in their order. *)
Definition list_names (T : atree) (path : list Z) : option (list (list Z)) :=
  n ← resolve T 0 (path_names path);
  es ← entries_at T n;
  if decide (c_string path /\ path <> []) then Some (es.*1) else None.

(** [chmod] and [chown], which do not make a directory out of a file. A number
    of -1 leaves an owner as it is. *)
Definition with_mode (mode : Z) (a : anode) : anode :=
  set_owner_mode (if decide (a_type a = T_DIRECTORY) then Z.lor S_IFDIR mode else mode) (a_uid a) (a_gid a) a.
Definition with_owner (uid gid : Z) (a : anode) : anode :=
  set_owner_mode (a_mode a) (if decide (uid = NO_ID) then a_uid a else uid)
    (if decide (gid = NO_ID) then a_gid a else gid) a.

Definition alter_node (T : atree) (path : list Z) (h : anode -> anode) : option atree :=
  n ← resolve T 0 (path_names path);
  a ← t_nodes T !! n;
  if decide (c_string path /\ path <> [] /\ S_ISDIR (a_mode (h a)) = S_ISDIR (a_mode a))
  then Some (set_node n (h a) T) else None.

(** The reply to a request, and the tree afterwards. *)
Definition answer (v : Z) (T : option atree) : option (reply * atree) := T' ← T; Some (Status v, T').

Definition permit (T : atree) (r : request) : option (reply * atree) :=
  match r with
  | Getattr path => v ← attributes T path; Some (v, T)
  | Mkdir dir file mode ctx => answer 0 (make_node T_DIRECTORY T dir file mode ctx)
  | Create dir file mode fi ctx => T' ← make_node T_REGULAR T dir file mode ctx; open_path T' (dir ++ file)
  | Open path fi ctx => open_path T path
  | Write path flags fd buf offset ctx => answer (Z.of_nat (length buf)) (write_bytes T fd buf offset)
  | Read path flags fd offset n ctx => bs ← read_bytes T fd offset n; Some (Contents bs, T)
  | Release path flags fd ctx => release T fd
  | Unlink dir file => answer 0 (drop_name T dir file)
  | Rmdir dir file => answer 0 (drop_directory T dir file)
  | Rename dir1 file1 dir2 file2 => 
      answer 0 match move_name T dir1 file1 dir2 file2 with
               | Some T' => Some T' | None => move_over T dir1 file1 dir2 file2 end
  | Readdir path => ns ← list_names T path; Some (Names ns, T)
  | Chmod path mode => if decide (is_u32 mode) then answer 0 (alter_node T path (with_mode mode)) else None
  | Chown path uid gid =>
      if decide (is_u32 uid /\ is_u32 gid) then answer 0 (alter_node T path (with_owner uid gid)) else None
  | Truncate path new => answer 0 (set_size T path new)
  end.

(** A walk that ends at a directory without the next name. *)
Fixpoint lost_at (T : atree) (n : Z) (nms : list (list Z)) : bool :=
  match nms with
  | [] => false
  | nm :: nms =>
      match entries_at T n with
      | Some es => match look nm es with None => true | Some (_, e) => lost_at T (snd e) nms end
      | None => false
      end
  end.

Definition lost (T : atree) (path : list Z) : Prop :=
  c_string path /\ path <> [] /\ lost_at T 0 (path_names path) = true.

#[export] Instance lost_dec T path : Decision (lost T path).
Proof. unfold lost. apply _. Defined.

(** A request that fails leaves the tree as it is. [chmod] and [chown] of a path
    that leads nowhere fail as well, but what is reported is success. *)
Definition lost_reply (T : atree) (path : list Z) (v : Z) : option reply :=
  if decide (lost T path) then Some (Status v) else None.

Definition no_parent (T : atree) (dir file : list Z) (v : Z) : option reply :=
  if decide (proper dir file) then lost_reply T dir v else None.

Definition no_name (T : atree) (dir file : list Z) : option reply :=
  '(p, es) ← locate T dir;
  if decide (proper dir file /\ es <> [] /\ look file es = None) then Some (Status (-1)) else None.

(** Why what is at the end of a path is no directory that [rmdir] removes. *)
Definition not_removed (T : atree) (path : list Z) : option reply :=
  n ← resolve T 0 (path_names path);
  a ← t_nodes T !! n;
  let size := match a_content a with Entries es => 64 * Z.of_nat (length es) | Bytes bs => Z.of_nat (length bs) end in
  if decide (c_string path /\ path <> []) then
    if decide (n = 0) then Some (Status (- EACCES))
    else if 128 <? size then Some (Status (- ENOTEMPTY))
    else if decide (a_type a = T_DIRECTORY) then None
    else Some (Status (- ENOTDIR))
  else None.

(** A descriptor that stands for nothing, which [release] does not mind, and a
    write that starts behind the end of the file. *)
Definition closed (T : atree) (fd : nat) : Prop := t_open T !! fd = None /\ Z.of_nat fd < 2 ^ 31.

#[export] Instance closed_dec T fd : Decision (closed T fd).
Proof. unfold closed. apply _. Defined.

Definition not_open (T : atree) (fd : nat) (v : Z) : option reply :=
  if decide (closed T fd) then Some (Status v) else None.

Definition behind_end (T : atree) (fd : nat) (o : Z) : option reply :=
  '(n, a) ← opened_node T fd;
  match a_content a with
  | Bytes bs => if decide (Z.of_nat (length bs) < o < 2 ^ 64) then Some (Status (-1)) else None
  | Entries _ => None
  end.

Definition refuse (T : atree) (r : request) : option reply :=
  match r with
  | Getattr path | Open path _ _ | Truncate path _ => lost_reply T path (- ENOENT)
  | Readdir path => lost_reply T path (-1)
  | Chmod path _ | Chown path _ _ => lost_reply T path 0
  | Mkdir dir file _ _ | Create dir file _ _ _ => no_parent T dir file (-1)
  | Unlink dir file =>
      match no_parent T dir file (- ENOENT) with Some v => Some v | None => no_name T dir file end
  | Rmdir dir file => not_removed T (dir ++ file)
  | Rename dir1 file1 _ _ => lost_reply T (dir1 ++ file1) (- ENOENT)
  | Write _ _ fd _ offset _ =>
      match not_open T fd (-1) with Some v => Some v | None => behind_end T fd offset end
  | Read _ _ fd _ _ _ => not_open T fd (- EBADF)
  | Release _ _ fd _ => not_open T fd 0
  end.

Definition request_step (T : atree) (r : request) : option (reply * atree) :=
  match permit T r with
  | Some res => Some res
  | None => v ← refuse T r; Some (v, T)
  end.

(** A client's session. *)
Fixpoint session (T : atree) (rs : list request) : option (list reply * atree) :=
  match rs with
  | [] => Some ([], T)
  | r :: rs => '(v, T') ← request_step T r; '(vs, T'') ← session T' rs; Some (v :: vs, T'')
  end.

(** * What the code is asked to do *)

Section serve.
Context `{Host}.

(** What [fuse_file_info] has after a call. *)
Definition handle (r : Z * fuse_file_info) : reply := if fst r =? 0 then Handle (fi_fh (snd r)) else Status (fst r).

(** The call of FUSE for a request, which passes a descriptor on in
    [fuse_file_info]; FUSE reads the names of a directory as strings. *)
Definition serve (r : request) : FM reply :=
  match r with
  | Getattr path =>
      let* (v, st) := getattr_callback path in
      ret (if v =? 0 then Attributes (st_mode st) (st_uid st) (st_gid st) (st_size st) else Status v)
  | Mkdir dir file mode ctx => let* v := mkdir_callback (dir ++ file) mode ctx in ret (Status v)
  | Create dir file mode fi ctx => let* r := create_callback (dir ++ file) mode fi ctx in ret (handle r)
  | Open path fi ctx => let* r := open_callback path fi ctx in ret (handle r)
  | Write path flags fd buf offset ctx =>
      let* v := write_callback path buf (Z.of_nat (length buf)) offset (FuseFileInfo flags (Z.of_nat fd)) ctx in
      ret (Status v)
  | Read path flags fd offset n ctx =>
      let* (v, buf) := read_callback path (replicate n 0) (Z.of_nat n) offset (FuseFileInfo flags (Z.of_nat fd)) ctx in
      ret (if v <? 0 then Status v else Contents (take (Z.to_nat v) buf))
  | Release path flags fd ctx =>
      let* v := release_callback path (FuseFileInfo flags (Z.of_nat fd)) ctx in ret (Status v)
  | Unlink dir file => let* v := unlink_callback (dir ++ file) in ret (Status v)
  | Rmdir dir file => let* v := unlink_dir_callback 1 (dir ++ file) in ret (Status v)
  | Rename dir1 file1 dir2 file2 =>
      let* v := rename_callback 0 (dir1 ++ file1) (dir2 ++ file2) in ret (Status v)
  | Readdir path =>
      let* (v, names) := readdir_callback path in
      ret (if v =? 0 then Names (c_str <$> names) else Status v)
  | Chmod path mode => let* v := chmod_callback path mode in ret (Status v)
  | Chown path uid gid => let* v := chown_callback path uid gid in ret (Status v)
  | Truncate path new => let* v := truncate_callback path new in ret (Status v)
  end.

Fixpoint serve_all (rs : list request) : FM (list reply) :=
  match rs with
  | [] => ret []
  | r :: rs => let* v := serve r in let* vs := serve_all rs in ret (v :: vs)
  end.

End serve.
