(* ===== verification/Refinement.v ===== *)
(** The code implements the tree of [AbstractTree.v]: every request that the tree
    permits returns 0, and leaves a file system that shows the next tree. *)

From S2P Require Export FreshSystem AbstractTree.

Section refinement.
Context `{BlockStore ok} `{shifts : !DefinedShifts}.
Local Abbreviation cache_ok := (cache_ok (ok := ok)).
Local Abbreviation tree_ok := (tree_ok (ok := ok)).
Local Abbreviation moves := (moves (ok := ok)).
Local Abbreviation fs_ok := (fs_ok (ok := ok)).
Local Abbreviation files_ok := (files_ok (ok := ok)).
Local Abbreviation removable := (removable (ok := ok)).
Local Abbreviation renameable := (renameable (ok := ok)).
Local Abbreviation file_unlinked := (file_unlinked (ok := ok)).
Local Abbreviation created := (created (ok := ok)).

(** * What the file system shows *)

Definition entry_names (es : list (list Z * Z)) : list (list Z * Z) :=
  (fun e => (entry_name e, snd e)) <$> es.

(** The node of an inode, without its times and its blocks. *)
Definition node_of (s : dstate) (d : iNode) : anode :=
  ANode (type d) (file_mode d) (owner_uid d) (group_uid d) (linksCount d)
    (if S_ISDIR (file_mode d) then Entries (entry_names (dir_list s (dir_of d)))
     else Bytes (file_data s (dataBlockNums d) (size d))).

(** The tree has the root and the inodes with links; the others are empty. *)
Definition shows (s : dstate) (m : Z) (d : iNode) (o : option anode) : Prop :=
  match o with
  | Some a => (m = 0 \/ linksCount d <> 0) /\ a = node_of s d
  | None => m <> 0 /\ linksCount d = 0 /\ size d = 0 /\ S_ISDIR (file_mode d) = false
  end.

(** The descriptors: each stands for a node other than the root, which FUSE does
    not open. *)
Definition open_ok (T : atree) : Prop :=
  (forall fd n, t_open T !! fd = Some n -> (fd < Z.to_nat MAX_FILE_DESCRIPTORS)%nat /\ n <> 0 /\ is_Some (t_nodes T !! n)) /\
  (base.size (open_nodes (t_open T)) <= 28)%nat.

(** The file system between two requests: an inode has as many references as
    there are descriptors for it. *)
Record tree_state (s : istate) (F : list nat) (Q : Z -> list nat) (l : list Z) (T : atree) : Prop := {
  ts_fs : fs_ok s F Q l;
  ts_refs : forall m, refs s Q m (open_count (t_open T) m);
  ts_open : open_ok T;
  ts_held : held (ds s) = [];
  ts_shows : forall m d, inode_num m -> inode_view s Q m d -> shows (ds s) m d (t_nodes T !! m);
  ts_range : forall m, is_Some (t_nodes T !! m) -> inode_num m;
  ts_numbers : inode_list (ds s) (replicate (512 - length (t_numbers T)) 0 ++ t_numbers T);
  ts_free : (length (t_numbers T) <= 512)%nat /\ NoDup (t_numbers T) /\
    Forall (fun n => 0 < n < 65535 /\ t_nodes T !! n = None) (t_numbers T);
  ts_blocks : t_blocks T <= Z.of_nat (length l)
}.

Lemma node_of_same s s' d : same_contents s s' d -> node_of s' d = node_of s d.
Proof.
  intros Hs. unfold node_of. by rewrite (same_dir_list _ _ _ Hs), (proj2 Hs).
Qed.

Lemma shows_same s s' m d o : same_contents s s' d -> shows s m d o -> shows s' m d o.
Proof. intros Hs. unfold shows. destruct o; [by rewrite (node_of_same _ _ _ Hs)|done]. Qed.

Lemma look_find nm es k e :
  look nm (entry_names es) = Some (k, e) -> exists nb, find_entry nm es = Some (k, (nb, snd e)) /\ fst e = nm.
Proof.
  unfold look, entry_names, find_entry. rewrite list_find_fmap. intros Hl.
  destruct (list_find _ es) as [[k' e']|] eqn:E in Hl; [|done]. cbn in Hl. injection Hl as -> <-.
  exists (fst e'). apply list_find_Some in E as (He & Hn & Hf). cbn in Hn. split; [|done].
  apply list_find_Some. split; [destruct e'; done|]. split; [done|]. intros j y Hj Hlt. by apply (Hf j y).
Qed.

Lemma look_none nm es : look nm (entry_names es) = None -> find_entry nm es = None.
Proof.
  unfold look, entry_names, find_entry. rewrite !list_find_None, Forall_fmap. done.
Qed.

Lemma entry_names_removed es k : entry_names (removed es k) = removed (entry_names es) k.
Proof.
  unfold removed, entry_names. rewrite fmap_last, length_fmap. destruct (last es) as [e|]; [|done].
  cbn. by rewrite fmap_take, list_fmap_insert.
Qed.

Lemma entry_names_added es nm num :
  c_string nm -> (length nm <= 61)%nat ->
  entry_names (es ++ [(name_bytes nm, num)]) = entry_names es ++ [(nm, num)].
Proof.
  intros Hn Hl. unfold entry_names. rewrite fmap_app. cbn [fmap list_fmap].
  unfold entry_name. cbn [fst snd]. by destruct (name_bytes_name nm Hn Hl) as [_ ->].
Qed.

(** * Reading the tree *)

Section reading.
Context (s : istate) (F : list nat) (Q : Z -> list nat) (l : list Z) (T : atree).
Context (Hts : tree_state s F Q l T).

Lemma open_counts m : 0 <= open_count (t_open T) m <= 10000.
Proof.
  split; [apply open_count_nonneg|]. change 10000 with (Z.of_nat (Z.to_nat MAX_FILE_DESCRIPTORS)).
  apply open_count_le. intros fd n Hfd. by apply (ts_open _ _ _ _ _ Hts) in Hfd as [? _].
Qed.

Lemma few m c k : inode_num m -> refs s Q m c -> 0 <= k < 2 ^ 63 -> c + k < 2 ^ 64.
Proof.
  intros Hm Hc Hk. pose proof (open_counts m).
  rewrite (refs_unique _ _ _ _ _ _ (fs_cache _ _ _ _ (ts_fs _ _ _ _ _ Hts)) Hc (ts_refs _ _ _ _ _ Hts m)). lia.
Qed.

(** The nodes that are not for open files. *)
Lemma free_nodes : (4 <= length F)%nat.
Proof.
  pose proof (fs_cache _ _ _ _ (ts_fs _ _ _ _ _ Hts)) as Hc. pose proof (nodes_counted _ _ _ Hc) as Hn.
  unfold INODE_BUFFER_SIZE in Hn. enough (length (busy F) <= 28)%nat by lia.
  destruct (ts_open _ _ _ _ _ Hts) as [_ Hle]. etransitivity; [|exact Hle].
  rewrite <- (length_fmap (held_number s)), <- (size_list_to_set (C := gset Z) _ (busy_nodup _ _ _ Hc)).
  apply subseteq_size. intros m Hm%elem_of_list_to_set. apply (busy_numbers _ _ _ _ Hc) in Hm as (_ & c & Hcm & Hc0).
  rewrite (refs_unique _ _ _ _ _ _ Hc Hcm (ts_refs _ _ _ _ _ Hts m)) in Hc0.
  apply open_count_some in Hc0 as [fd Hfd]. by apply elem_of_map_img_2 with fd.
Qed.

Lemma unopened m : open_count (t_open T) m = 0 -> refs s Q m 0.
Proof. intros <-. apply (ts_refs _ _ _ _ _ Hts). Qed.

Lemma no_node_unopened m : t_nodes T !! m = None -> open_count (t_open T) m = 0.
Proof.
  intros Hno. destruct (decide (open_count (t_open T) m = 0)) as [|Hc]; [done|].
  apply open_count_some in Hc as [fd Hfd]. apply (ts_open _ _ _ _ _ Hts) in Hfd as (_ & _ & [a Ha]). congruence.
Qed.

Lemma root_unopened : open_count (t_open T) 0 = 0.
Proof.
  destruct (decide (open_count (t_open T) 0 = 0)) as [|Hc]; [done|].
  apply open_count_some in Hc as [fd Hfd]. by apply (ts_open _ _ _ _ _ Hts) in Hfd as (_ & ? & _).
Qed.

Lemma node_view n a :
  t_nodes T !! n = Some a ->
  exists d, inode_num n /\ inode_view s Q n d /\ (n = 0 \/ linksCount d <> 0) /\ a = node_of (ds s) d.
Proof.
  intros Hn. assert (inode_num n) as Hnum by (apply (ts_range _ _ _ _ _ Hts); by exists a).
  pose proof (fs_cache _ _ _ _ (ts_fs _ _ _ _ _ Hts)) as Hc.
  destruct (v_total _ (cache_view_ok _ _ _ Hc) n Hnum) as [d Hd]. exists d.
  pose proof (ts_shows _ _ _ _ _ Hts n d Hnum Hd) as Hs. rewrite Hn in Hs. by destruct Hs.
Qed.

(** A directory of the tree. *)
Lemma directory_view n es :
  entries_at T n = Some es -> exists d, t_nodes T !! n = Some (node_of (ds s) d) /\
    inode_num n /\ inode_view s Q n d /\ (n = 0 \/ linksCount d <> 0) /\ S_ISDIR (file_mode d) = true /\
    es = entry_names (dir_list (ds s) (dir_of d)) /\ size d = 64 * Z.of_nat (length es).
Proof.
  unfold entries_at. intros He. destruct (t_nodes T !! n) as [a|] eqn:En; [|done]. cbn in He.
  destruct (node_view n a En) as (d & Hn & Hd & Hl & ->). unfold node_of in He. cbn [a_content] in He.
  destruct (S_ISDIR (file_mode d)) eqn:Hdir; [|done]. injection He as <-. exists d. do 6 (split; [done|]).
  destruct (fs_tree _ _ _ _ (ts_fs _ _ _ _ _ Hts) n d Hn Hd Hdir) as (Hdk & _).
  destruct (dir_count _ _ _ Hdk) as [El E]. change (ic_size (dir_of d)) with (size d) in *.
  assert (0 <= size d) as Hsz.
  { pose proof (file_size_u64 _ _ _ (b_file _ _ _ (fs_blocks _ _ _ _ (ts_fs _ _ _ _ _ Hts)) n d Hn Hd)) as Hsz.
    change (ic_size (dir_of d)) with (size d) in Hsz. lia. }
  unfold entry_names. rewrite length_fmap, El. lia.
Qed.

Lemma resolve_walks nms n m : resolve T n nms = Some m -> walks s Q n nms (Some m).
Proof.
  revert n. induction nms as [|nm nms IH]; intros n Hr; cbn in Hr; [injection Hr as ->; constructor|].
  destruct (entries_at T n) as [es|] eqn:He; [|done]. cbn in Hr.
  destruct (look nm es) as [[k e]|] eqn:Hlk; [|done]. cbn in Hr.
  destruct (directory_view n es He) as (d & _ & _ & Hd & _ & Hdir & -> & _).
  destruct (look_find _ _ _ _ Hlk) as (nb & Hf & _).
  eapply (walks_into s Q n nm nms _ k (nb, snd e)); [by exists d|exact Hf|]. by apply IH.
Qed.

Lemma locate_view dir p es :
  locate T dir = Some (p, es) -> walks s Q 0 (path_names dir) (Some p) /\
  exists d, t_nodes T !! p = Some (node_of (ds s) d) /\ inode_num p /\ inode_view s Q p d /\
    (p = 0 \/ linksCount d <> 0) /\ S_ISDIR (file_mode d) = true /\
    es = entry_names (dir_list (ds s) (dir_of d)) /\ size d = 64 * Z.of_nat (length es).
Proof.
  unfold locate. intros Hl. destruct (resolve T 0 (path_names dir)) as [p'|] eqn:Er; [|done]. cbn in Hl.
  destruct (entries_at T p') as [es'|] eqn:Ee; [|done]. cbn in Hl. injection Hl as -> ->.
  split; [by apply resolve_walks|]. destruct (directory_view p es Ee) as (d & ? & ? & ? & ? & ? & ? & ?).
  by exists d.
Qed.

Lemma idle_root p d : root_idle s Q p d.
Proof. intros -> _. by apply unopened, root_unopened. Qed.

End reading.

(** * One tree after the other *)

(** Open files stay open when their nodes stay. *)
Lemma open_ok_step T T' :
  open_ok T -> t_open T' = t_open T ->
  (forall m, open_count (t_open T) m <> 0 -> is_Some (t_nodes T !! m) -> is_Some (t_nodes T' !! m)) -> open_ok T'.
Proof.
  intros [Hfd Hsz] E Hk. unfold open_ok. rewrite E. split; [|done]. intros fd n Hn.
  destruct (Hfd fd n Hn) as (? & ? & ?). split_and!; [done|done|]. apply Hk; [|done].
  pose proof (open_count_pos _ _ _ Hn). lia.
Qed.

(** Only the inodes of [xs] and the nodes of their numbers have changed. *)
Lemma tree_state_step s F Q l T s' F' Q' l' T' (xs : list Z) :
  tree_state s F Q l T -> fs_ok s' F' Q' l' -> (forall m c, refs s Q m c -> refs s' Q' m c) ->
  held (ds s') = held (ds s) -> t_open T' = t_open T ->
  (forall m d, inode_num m -> m ∉ xs -> inode_view s Q m d ->
     inode_view s' Q' m d /\ same_contents (ds s) (ds s') d) ->
  (forall m, m ∉ xs -> t_nodes T' !! m = t_nodes T !! m) ->
  (forall m, m ∈ xs -> open_count (t_open T) m <> 0 -> is_Some (t_nodes T !! m) -> is_Some (t_nodes T' !! m)) ->
  (forall m, m ∈ xs -> inode_num m /\ exists d, inode_view s' Q' m d /\ shows (ds s') m d (t_nodes T' !! m)) ->
  inode_list (ds s') (replicate (512 - length (t_numbers T')) 0 ++ t_numbers T') ->
  (length (t_numbers T') <= 512)%nat /\ NoDup (t_numbers T') /\
    Forall (fun n => 0 < n < 65535 /\ t_nodes T' !! n = None) (t_numbers T') ->
  t_blocks T' <= Z.of_nat (length l') -> tree_state s' F' Q' l' T'.
Proof.
  intros [Hfs Hrefs Hopen Hh Hshow Hrange _ _ _] Hfs' Hr Hh' Eo Ho HT Hk Hx Hnum Hfree Hl.
  pose proof (fs_cache _ _ _ _ Hfs) as Hc. pose proof (fs_cache _ _ _ _ Hfs') as Hc'. split; try done.
  - intros m. rewrite Eo. apply Hr, Hrefs.
  - apply (open_ok_step T); [done|done|]. intros m Hm Hs. destruct (decide (m ∈ xs)); [by apply Hk|by rewrite HT].
  - by rewrite Hh', Hh.
  - intros m d Hm Hd. destruct (decide (m ∈ xs)) as [Hin|Hout].
    + destruct (Hx m Hin) as (_ & d' & Hd' & Hs). by rewrite (inode_view_unique _ _ _ _ _ _ Hc' Hd Hd').
    + assert (inode_view s Q m d) as Hd0.
      { eapply (view_back s s'); [done|done|done| |done]. intros d0 ?. by apply Ho. }
      rewrite HT by done. destruct (Ho m d Hm Hout Hd0) as [_ Hs]. eapply shows_same; [exact Hs|]. by apply Hshow.
  - intros m Hsome. destruct (decide (m ∈ xs)) as [Hin|Hout]; [by apply Hx|]. rewrite HT in Hsome by done. by apply Hrange.
Qed.

(** The cache moves, and with it the descriptors. *)
Lemma tree_state_opens s F Q l T s' F' Q' lo dr O' :
  tree_state s F Q l T -> moves s s' F' Q Q' lo dr ->
  (forall m, open_count O' m = open_count (t_open T) m + dr m) -> open_ok (set_open O' T) ->
  tree_state s' F' Q' l (set_open O' T).
Proof.
  intros [Hfs Hrefs _ Hh Hshow Hrange Hnum Hfree Hl] Hm HO Hok.
  destruct (fs_moves _ _ _ _ _ _ _ _ _ Hfs Hm) as [Hfs' Hs].
  pose proof (m_same _ _ _ _ _ _ _ Hm) as [_ V R]. pose proof (m_disk _ _ _ _ _ _ _ Hm) as Hch.
  split; cbn [set_open t_nodes t_numbers t_blocks t_open]; try done.
  - intros m. rewrite HO. apply R, Hrefs.
  - by destruct (changes_env _ _ _ Hch) as (_ & _ & _ & ->).
  - intros m d Hn Hd. apply V in Hd; [|done]. eapply shows_same; [by apply (Hs m)|by apply Hshow].
  - eapply inode_list_frame; [exact Hnum|]. apply Hch. unfold inode_zone. consts. lia.
Qed.

Lemma tree_state_moves s F Q l T s' F' Q' lo :
  tree_state s F Q l T -> moves s s' F' Q Q' lo (fun _ => 0) -> tree_state s' F' Q' l T.
Proof.
  intros Hts Hm. assert (T = set_open (t_open T) T) as E by (by destruct T). rewrite E.
  eapply tree_state_opens; [done|done|intros m; cbv beta; lia|]. destruct T. exact (ts_open _ _ _ _ _ Hts).
Qed.

(** What a request leaves: the next tree, and the inodes of open files where they were. *)
Definition becomes (s : istate) (Q : Z -> list nat) (s' : istate) (T' : atree) : Prop :=
  exists F' Q' l', tree_state s' F' Q' l' T' /\ kept 0 s s' Q Q'.

Lemma moves_becomes s F Q l T s' F' Q' :
  tree_state s F Q l T -> moves s s' F' Q Q' (fun _ => 0) (fun _ => 0) -> becomes s Q s' T.
Proof. intros Hts Hm. exists F', Q', l. split; [by eapply tree_state_moves|by eapply moves_kept]. Qed.

(** A directory whose entries have changed. *)
Lemma shows_entries s s' n d d' es ns :
  ns !! n = Some (node_of s d) -> S_ISDIR (file_mode d) = true -> (n = 0 \/ linksCount d <> 0) ->
  same_attributes d d' -> entry_names (dir_list s' (dir_of d')) = es ->
  shows s' n d' (put_entries n es ns !! n).
Proof.
  intros Hn Hd Hl (E1 & E2 & E3 & E4 & E5) El. unfold put_entries. rewrite lookup_alter_eq, Hn.
  cbn [fmap option_fmap option_map shows]. rewrite E5. split; [done|].
  unfold node_of, set_content. cbn [a_type a_mode a_uid a_gid a_links]. by rewrite E1, E2, E3, E4, E5, Hd, El.
Qed.

Lemma put_entries_ne n m es ns : m <> n -> put_entries n es ns !! m = ns !! m.
Proof. intros Hne. by apply lookup_alter_ne. Qed.

Lemma put_entries_is_Some n m es ns : is_Some (ns !! m) -> is_Some (put_entries n es ns !! m).
Proof. unfold put_entries. by rewrite lookup_alter_is_Some. Qed.

(** * New nodes *)

Lemma fitting_new t (mode : Z) ctx num p s' Q' dn :
  t = T_REGULAR \/ t = T_DIRECTORY -> fitting t mode ctx -> num <> 0 ->
  new_inode t (made_mode t mode) (fc_uid ctx) (fc_gid ctx) num dn ->
  inode_view s' Q' num dn -> dir_list (ds s') (dir_of dn) = first_entries t num p ->
  shows (ds s') num dn (Some (new_anode t mode ctx num p)).
Proof.
  intros Ht (_ & _ & _ & Hkind) Hz (En & Et & Em & Eu & Eg & Elk & Esz) Hv El. split.
  - right. rewrite Elk. by destruct (decide _).
  - unfold new_anode, node_of. rewrite Et, Em, Eu, Eg, Elk, Hkind, El, Esz. unfold first_entries.
    destruct Ht as [-> | ->].
    + rewrite bool_decide_false by done. rewrite !decide_False by done. reflexivity.
    + rewrite bool_decide_true by done. rewrite !decide_True by done. reflexivity.
Qed.

Lemma can_grow_room (l : list Z) sz (es : list (list Z * Z)) :
  can_grow es -> sz = 64 * Z.of_nat (length es) -> 4 <= Z.of_nat (length l) -> room l sz 64.
Proof.
  unfold can_grow. intros Hes -> Hl. unfold room. change MAX_FILE_SIZE with 2164402176.
  unfold nblocks. split; [lia|].
  assert ((64 * Z.of_nat (length es) + 64 + 1023) / 1024 <= (64 * Z.of_nat (length es) + 1023) / 1024 + 1); [|lia].
  rewrite <- Z.div_add by lia. apply Z.div_le_mono; lia.
Qed.

(** The number that is given out next. *)
Lemma next_number s F Q l T num x nos :
  tree_state s F Q l T -> t_numbers T = num :: x :: nos -> exists e,
  free_number s Q (512 - Datatypes.S (Datatypes.S (length nos))) num (x :: nos) e /\ 0 < num < 65535.
Proof.
  intros Hts E. pose proof Hts as [Hfs Hrefs Hopen Hh Hshow _ Hnum (Hlen & Hnd & Hfree) _]. rewrite E in *.
  apply Forall_cons in Hfree as [[Hr Hno] _]. pose proof (fs_cache _ _ _ _ Hfs) as Hc.
  assert (inode_num num) as Hn by (unfold inode_num; consts; lia).
  destruct (v_total _ (cache_view_ok _ _ _ Hc) num Hn) as [e He]. exists e. split; [|done].
  pose proof (Hshow num e Hn He) as Hs. rewrite Hno in Hs. destruct Hs as (_ & Hl & Hsz & _).
  cbn [length] in *. split; [exact Hnum|]. do 2 (split; [lia|]). do 3 (split; [done|]).
  split; [by eapply unopened, no_node_unopened|]. split; [|done].
  rewrite Hh. apply not_elem_of_nil.
Qed.

Lemma make_node_implements t s F Q l T T' dir file mode ctx :
  t = T_REGULAR \/ t = T_DIRECTORY -> tree_state s F Q l T -> make_node t T dir file mode ctx = Some T' ->
  names_readable t (dir ++ file) ->
  wp (createFile (dir ++ file) t mode ctx) s (fun v s' => v = 0 /\ becomes s Q s' T').
Proof.
  intros Ht Hts. unfold make_node. destruct (locate T dir) as [[p es]|] eqn:Eloc; [|done]. cbn [mbind option_bind].
  destruct (look file es) eqn:Elook; [done|]. destruct (t_numbers T) as [|num [|x nos]] eqn:Enum; [done..|].
  case_decide as Hg; [|done]. intros [= <-] Hrd. destruct Hg as ((Hpath & Hdir & Hfile & Hlen) & Hfit & Hgrow & Hbl).
  destruct (locate_view _ _ _ _ _ Hts _ _ _ Eloc) as (Hw & dp & HTp & Hp & Hv & Hlp0 & Hd & Ees & Hsz).
  rewrite Ees in Elook. apply look_none in Elook.
  destruct (next_number _ _ _ _ _ _ _ _ Hts Enum) as (e & Hfn & Hnr).
  pose proof Hts as [Hfs Hrefs Hopen Hh _ _ _ (Hnl & Hnd & Hfree) Hl]. rewrite Enum in *.
  assert (4 <= Z.of_nat (length l)) as Hl4 by lia.
  pose proof Hfit as (Hm & Hu & Hgid & Hkind).
  eapply wp_mono; [eapply (createFile_created t s F Q l dir file p dp); try done|].
  - intros m c Hm' Hc. by eapply (few _ _ _ _ _ Hts).
  - pose proof (free_nodes _ _ _ _ _ Hts). lia.
  - lia.
  - by eapply idle_root.
  - by eapply can_grow_room.
  - lia.
  - lia.
  - intros v s' (-> & F' & Q' & l' & dn & dp' & Hlp & Hnew & Hcr & Htk & Hr & Hkept). split; [done|].
    pose proof Hfn as (_ & Hz & _ & Hn & Hvn & Hln & _).
    exists F', Q', l'. split; [|done].
    assert (c_string file) as Hcf by (by apply Forall_app in Hpath as [_ ?]).
    assert (num <> p) as Hnp by (intros ->; destruct Hlp as [E|Hlp']; [congruence|by apply Hlp' in Hvn]).
    assert (length file <= 61)%nat as Hlen1 by lia. assert (inode_num 0) as H0n by done.
    destruct (walks_num _ _ _ _ _ _ _ (fs_tree _ _ _ _ Hfs) H0n ltac:(lia) Hw eq_refl) as [Hp' _].
    pose proof Hcr as [Hc' _ Hvn' El (Hvp & _ & _ & _ & Hat) Elp Ho].
    eapply (tree_state_step s F Q l T s' F' Q' l' _ [p; num]); try done; cbn [t_nodes t_numbers t_blocks].
    + eapply (created_fs_ok t s); try done; lia.
    + apply Htk.
    + intros m d Hm' Hx Hd'. apply Ho; [done|set_solver|set_solver|done].
    + intros m Hx. rewrite lookup_insert_ne by set_solver. apply put_entries_ne. set_solver.
    + intros m _ _ Hsome. by apply lookup_insert_is_Some', or_intror, put_entries_is_Some.
    + intros m [->|[->|[]%elem_of_nil]%elem_of_cons]%elem_of_cons.
      * split; [done|]. exists dp'. split; [done|]. rewrite lookup_insert_ne by done.
        eapply shows_entries; [done..|]. rewrite Elp, Ees. by apply entry_names_added.
      * split; [done|]. exists dn. split; [done|]. rewrite lookup_insert_eq. by eapply fitting_new.
    + replace (512 - length (x :: nos))%nat with (Datatypes.S (512 - Datatypes.S (Datatypes.S (length nos))))
        by (cbn [length] in *; lia). apply Htk.
    + apply NoDup_cons in Hnd as [Hni Hnd]. apply Forall_cons in Hfree as [_ Hfree]. cbn [length] in *.
      split; [lia|]. split; [done|]. rewrite Forall_forall in Hfree |- *. intros n Hin.
      destruct (Hfree n Hin) as [Hrn Hno]. split; [done|].
      rewrite lookup_insert_ne by (intros ->; done). rewrite put_entries_ne; [done|]. intros ->. congruence.
    + pose proof (tk_blocks _ _ _ _ _ _ _ _ _ Htk). lia.
Qed.

(** * Names that go *)

Context (Hmalloc : clean_malloc).

(** An entry of the tree that can be removed. *)
Record droppable (s : istate) (F : list nat) (Q : Z -> list nat) (l : list Z) (T : atree) (dir file : list Z)
    (p : Z) (es : list (list Z * Z)) (dp : iNode) (k : nat) (num : Z) (a : anode) (dn : iNode) : Prop := {
  dp_state : tree_state s F Q l T;
  dp_removable : removable s F Q l dir file p dp k num dn;
  dp_parent : t_nodes T !! p = Some (node_of (ds s) dp) /\ (p = 0 \/ linksCount dp <> 0) /\
    es = entry_names (dir_list (ds s) (dir_of dp));
  dp_node : t_nodes T !! num = Some a /\ a = node_of (ds s) dn;
  dp_number : 0 <= num < 65535
}.

Lemma entry_droppable s F Q l T dir file p es k nm num a :
  tree_state s F Q l T -> locate T dir = Some (p, es) -> look file es = Some (k, (nm, num)) ->
  t_nodes T !! num = Some a -> proper dir file -> can_shrink es -> 128 <= t_blocks T -> num <> p ->
  exists dp dn, droppable s F Q l T dir file p es dp k num a dn.
Proof.
  intros Hts Eloc Elook Ha (Hpath & Hdir & Hfile & _) Hes Hbl Hnp.
  destruct (locate_view _ _ _ _ _ Hts _ _ _ Eloc) as (Hw & dp & HTp & Hp & Hv & Hlp & Hd & Ees & Hsz).
  destruct (node_view _ _ _ _ _ Hts num a Ha) as (dn & Hn & Hvn & _ & Ea). rewrite Ees in Elook.
  destruct (look_find _ _ _ _ Elook) as (nb & Ef & _). cbn [snd] in Ef. unfold can_shrink in Hes.
  pose proof Hts as [Hfs _ _ Hh _ _ _ _ Hl]. exists dp, dn. split; try done.
  - split; try done.
    + intros m c Hm Hc. by eapply (few _ _ _ _ _ Hts).
    + pose proof (free_nodes _ _ _ _ _ Hts). lia.
    + split; [done|]. split; [done|]. lia.
    + by exists nb.
    + by eapply idle_root.
    + lia.
    + rewrite Hh. apply not_elem_of_nil.
  - destruct (fs_tree _ _ _ _ Hfs p dp Hp Hv Hd) as ((_ & _ & _ & Hterm) & _). rewrite Forall_forall in Hterm.
    unfold find_entry in Ef. apply list_find_Some in Ef as (Hin & _). apply list_elem_of_lookup_2 in Hin.
    by destruct (Hterm _ Hin) as [_ ?].
Qed.

Lemma dropped_state s F Q l T dir file p es dp k num a dn s' F' Q' l' dn' T' :
  droppable s F Q l T dir file p es dp k num a dn -> file_unlinked s s' F' Q Q' l' file p dp k num dn' ->
  (forall m, m <> num -> t_nodes T' !! m = put_entries p (removed es k) (t_nodes T) !! m) ->
  shows (ds s') num dn' (t_nodes T' !! num) -> t_open T' = t_open T ->
  (open_count (t_open T) num <> 0 -> is_Some (t_nodes T' !! num)) ->
  inode_list (ds s') (replicate (512 - length (t_numbers T')) 0 ++ t_numbers T') ->
  (length (t_numbers T') <= 512)%nat /\ NoDup (t_numbers T') /\
    Forall (fun n => 0 < n < 65535 /\ t_nodes T' !! n = None) (t_numbers T') ->
  t_blocks T' <= Z.of_nat (length l') -> tree_state s' F' Q' l' T'.
Proof.
  intros [Hts Hre (HTp & Hlp & Ees) _ _] [Hfs' Hvn' (dp' & Hvp' & Hat & El') _ Ho Hr Hh' _] HT Hsn Eo Hopen Hnum Hfree Hl.
  destruct (removable_nums _ _ _ _ _ _ _ _ _ _ _ Hre) as [Hp Hn].
  pose proof Hre as [_ _ _ _ _ (Hv & Hd & _) _ _ _ _ [Hnp _] _].
  apply (tree_state_step s F Q l T s' F' Q' l' T' [p; num]); try done.
  - intros m d Hm Hx Hd'. apply Ho; [done|set_solver|set_solver|done].
  - intros m Hx. rewrite HT by set_solver. apply put_entries_ne. set_solver.
  - intros m [->|[->|[]%elem_of_nil]%elem_of_cons]%elem_of_cons ?; [|by intros _; apply Hopen].
    rewrite HT by done. apply put_entries_is_Some.
  - intros m [->|[->|[]%elem_of_nil]%elem_of_cons]%elem_of_cons; [|split; [done|by exists dn']].
    split; [done|]. exists dp'. split; [done|]. rewrite HT by done.
    eapply shows_entries; [done..|]. by rewrite El', entry_names_removed, Ees.
Qed.

Lemma node_of_links s s' v d : same_contents s s' d -> node_of s' (links_set v d) = set_links v (node_of s d).
Proof. intros Hs. rewrite <- (node_of_same _ _ _ Hs). done. Qed.

(** A link less. *)
Lemma shared_state s F Q l T dir file p es dp k num a dn s' F' Q' freed :
  droppable s F Q l T dir file p es dp k num a dn -> 1 < linksCount dn ->
  inode_list (ds s') (replicate (512 - length (t_numbers T)) 0 ++ t_numbers T) -> same_contents (ds s) (ds s') dn ->
  file_unlinked s s' F' Q Q' (freed ++ l) file p dp k num (links_set (linksCount dn - 1) dn) ->
  tree_state s' F' Q' (freed ++ l)
    (ATree (<[num := set_links (a_links a - 1) a]> (put_entries p (removed es k) (t_nodes T)))
      (t_numbers T) (t_blocks T) (t_open T)).
Proof.
  intros Hdr Hl Hnos Hs Hun. pose proof Hdr as [Hts _ (HTp & _) (Ha & Ea) _].
  pose proof Hts as [_ _ _ _ _ _ _ (Hlen & Hnd & Hfree) Hbl].
  apply (dropped_state _ _ _ _ _ _ _ _ _ _ _ _ _ _ _ _ _ _ _ _ Hdr Hun); cbn [t_nodes t_numbers t_blocks].
  - intros m Hm. by rewrite lookup_insert_ne.
  - rewrite lookup_insert_eq, Ea. split; [right; cbn; lia|]. by rewrite (node_of_links _ _ _ _ Hs).
  - done.
  - intros _. by rewrite lookup_insert_eq.
  - done.
  - split; [done|]. split; [done|]. rewrite Forall_forall in Hfree |- *. intros n Hin.
    destruct (Hfree n Hin) as [Hr Hno]. split; [done|].
    rewrite lookup_insert_ne by congruence. rewrite put_entries_ne by congruence. done.
  - rewrite length_app. lia.
Qed.

Lemma sole_named s F Q l T num p k : tree_state s F Q l T -> sole T num p k -> named_once s Q num p k.
Proof.
  intros Hts Hone m d j x Hm Hd Hdir Hx Hnum. pose proof (ts_shows _ _ _ _ _ Hts m d Hm Hd) as Hs.
  unfold shows in Hs. destruct (t_nodes T !! m) as [a|] eqn:Ea; [|destruct Hs as (_ & _ & _ & Hs); congruence].
  destruct Hs as [_ ->]. specialize (Hone m _ Ea). cbv beta in Hone. unfold node_of in Hone. cbn [a_content] in Hone.
  rewrite Hdir in Hone. rewrite Forall_lookup in Hone. apply (Hone j (j, (entry_name x, snd x))); [|done].
  by rewrite list_lookup_imap; unfold entry_names; rewrite list_lookup_fmap, Hx.
Qed.

(** The last link: the number is free again. *)
Lemma last_state s F Q l T dir file p es dp k num a dn s' F' Q' l' e x nos :
  droppable s F Q l T dir file p es dp k num a dn -> num <> 0 -> t_numbers T = x :: nos -> (length (x :: nos) < 512)%nat ->
  open_count (t_open T) num = 0 ->
  inode_list (ds s') (replicate (512 - Datatypes.S (length (x :: nos))) 0 ++ num :: x :: nos) -> deleted e ->
  (length l <= length l')%nat -> file_unlinked s s' F' Q Q' l' file p dp k num e ->
  tree_state s' F' Q' l'
    (ATree (delete num (put_entries p (removed es k) (t_nodes T))) (num :: t_numbers T) (t_blocks T) (t_open T)).
Proof.
  intros Hdr Hz Enum Hlt Hcl Hnos (_ & Em & Elk & Esz) Hl Hun. pose proof Hdr as [Hts _ (HTp & _) (Ha & _) Hr].
  pose proof Hts as [_ _ _ _ _ _ _ (Hlen & Hnd & Hfree) Hbl]. rewrite Enum in *.
  apply (dropped_state _ _ _ _ _ _ _ _ _ _ _ _ _ _ _ _ _ _ _ _ Hdr Hun); cbn [t_nodes t_numbers t_blocks].
  - intros m Hm. by rewrite lookup_delete_ne.
  - rewrite lookup_delete_eq. split; [done|]. split; [done|]. split; [done|]. by rewrite Em.
  - done.
  - done.
  - done.
  - split; [cbn [length] in *; lia|]. rewrite Forall_forall in Hfree. split.
    + apply NoDup_cons. split; [|done]. intros Hin. destruct (Hfree _ Hin) as [_ Hno]. congruence.
    + apply Forall_cons. split; [split; [lia|by rewrite lookup_delete_eq]|]. apply Forall_forall. intros n Hin.
      destruct (Hfree n Hin) as [Hrn Hno]. split; [done|].
      rewrite lookup_delete_ne by congruence. by rewrite put_entries_ne by congruence.
  - lia.
Qed.

(** What becomes of the inode, and the tree that this leads to. *)
Definition leads_to (s : istate) (Q : Z -> list nat) (l : list Z) (file : list Z) (p : Z) (dp : iNode) (k : nat)
    (num : Z) (dn : iNode) (T' : atree) : Prop :=
  let nos' := replicate (512 - length (t_numbers T')) 0 ++ t_numbers T' in
  linksCount dn <> 0 /\ exists X, drops (ok := ok) s Q l num dn nos' X /\
    (forall dn', deleted dn' -> named_once s Q num p k \/ forall l3, ~ X l3 dn') /\
    forall s' F' Q' l3 freed dn', X l3 dn' -> inode_list (ds s') nos' -> fate (ds s) (ds s') dn dn' ->
      file_unlinked s s' F' Q Q' (freed ++ l3) file p dp k num dn' -> tree_state s' F' Q' (freed ++ l3) T'.

Lemma shared_leads s F Q l T dir file p es dp k num a dn :
  droppable s F Q l T dir file p es dp k num a dn -> 1 < a_links a ->
  leads_to s Q l file p dp k num dn (ATree (<[num := set_links (a_links a - 1) a]>
    (put_entries p (removed es k) (t_nodes T))) (t_numbers T) (t_blocks T) (t_open T)).
Proof.
  intros Hdr Hl. pose proof Hdr as [Hts Hre _ (_ & Edn) _].
  assert (a_links a = linksCount dn) as El by (by rewrite Edn).
  destruct (removable_nums _ _ _ _ _ _ _ _ _ _ _ Hre) as [_ Hn]. pose proof (re_fs _ _ _ _ _ _ _ _ _ _ _ Hre) as Hfs.
  destruct (refs_total _ _ _ _ (fs_cache _ _ _ _ Hfs) Hn) as [c0 Hc0].
  pose proof (re_refs _ _ _ _ _ _ _ _ _ _ _ Hre _ _ Hn Hc0) as Hmax. split; [lia|].
  eexists _. split; [eapply drops_keeps; [done|exact Hc0|done|lia|exact (ts_numbers _ _ _ _ _ Hts)]|]. split.
  - intros dn' (_ & _ & Hz & _). right. intros l3 [_ ->]. cbn in Hz. lia.
  - intros s' F' Q' l3 freed dn' [-> ->] Hnos Hfate Hun. eapply (shared_state s F Q l T dir file p es dp k num a dn); try done; [lia|].
    destruct Hfate as [(_ & _ & Hz & _)|(_ & _ & ?)]; [|done]. cbn in Hz. lia.
Qed.

Lemma last_leads s F Q l T dir file p es dp k num a dn :
  droppable s F Q l T dir file p es dp k num a dn -> a_links a = 1 -> num <> 0 -> sole T num p k ->
  (0 < length (t_numbers T) < 512)%nat -> open_count (t_open T) num = 0 ->
  leads_to s Q l file p dp k num dn (ATree (delete num (put_entries p (removed es k) (t_nodes T)))
    (num :: t_numbers T) (t_blocks T) (t_open T)).
Proof.
  intros Hdr Hl Hz Hone Hlen Hcl. pose proof Hdr as [Hts Hre _ (_ & Edn) _].
  assert (a_links a = linksCount dn) as El by (by rewrite Edn).
  destruct (removable_nums _ _ _ _ _ _ _ _ _ _ _ Hre) as [_ Hn].
  pose proof Hts as [_ _ _ Hh _ _ Hnum (_ & _ & Hfree) _].
  destruct (t_numbers T) as [|x nos] eqn:Enum; [cbn in Hlen; lia|].
  assert (x <> 0) as Hx by (apply Forall_cons in Hfree as [[? _] _]; lia).
  split; [lia|]. eexists _. split; [eapply (drops_deletes s Q l num dn (512 - Datatypes.S (length (x :: nos))) x nos)|].
  - done.
  - done.
  - by eapply unopened.
  - lia.
  - by destruct Hre.
  - by destruct Hre.
  - rewrite Hh. apply not_elem_of_nil.
  - replace (Datatypes.S (512 - Datatypes.S (length (x :: nos)))) with (512 - length (x :: nos))%nat by lia. done.
  - done.
  - split; [left; by eapply sole_named|]. intros s' F' Q' l3 freed dn' [P Hdel] Hnos _ Hun. rewrite <- Enum.
    eapply (last_state s F Q l T dir file p es dp k num a dn); try done; [lia|]. rewrite P, !length_app. lia.
Qed.

Lemma drop_name_leads s F Q l T T' dir file :
  tree_state s F Q l T -> drop_name T dir file = Some T' ->
  exists p es dp k nm num a dn, locate T dir = Some (p, es) /\ look file es = Some (k, (nm, num)) /\
    t_nodes T !! num = Some a /\ droppable s F Q l T dir file p es dp k num a dn /\
    leads_to s Q l file p dp k num dn T'.
Proof.
  intros Hts. unfold drop_name. destruct (locate T dir) as [[p es]|] eqn:Eloc; [|done]. cbn [mbind option_bind].
  destruct (look file es) as [[k [nm num]]|] eqn:Elook; [|done]. cbn [mbind option_bind].
  destruct (t_nodes T !! num) as [a|] eqn:Ea; [|done]. cbn [mbind option_bind].
  case_decide as Hg; [|done]. destruct Hg as (Hprop & Hes & Hbl & Hnp).
  destruct (entry_droppable _ _ _ _ _ _ _ _ _ _ _ _ _ Hts Eloc Elook Ea Hprop Hes Hbl Hnp) as (dp & dn & Hdr).
  intros HT. exists p, es, dp, k, nm, num, a, dn. do 4 (split; [done|]). case_decide as Hl.
  - injection HT as <-. by eapply shared_leads.
  - case_decide as Hlast; [|done]. destruct Hlast as (Hl1 & Hz & Hone & Hn & Hcl). injection HT as <-.
    by eapply last_leads.
Qed.

Lemma drop_name_implements s F Q l T T' dir file :
  tree_state s F Q l T -> drop_name T dir file = Some T' ->
  wp (unlinkFile (dir ++ file)) s (fun v s' => v = 0 /\ becomes s Q s' T').
Proof.
  intros Hts HT.
  destruct (drop_name_leads _ _ _ _ _ _ _ _ Hts HT)
    as (p & es & dp & k & nm & num & a & dn & _ & _ & _ & Hdr & _ & X & Hdrop & Hsole & Hthen).
  eapply wp_mono; [eapply unlinkFile_outcome; [by destruct Hdr|exact Hdrop|exact Hsole]|].
  intros v s' (-> & F' & Q' & l3 & freed & dn' & HX & _ & Hnos & Hfate & Hun). split; [done|].
  exists F', Q', (freed ++ l3). split; [by eapply Hthen|by eapply un_kept].
Qed.

Lemma drop_directory_implements s F Q l T T' dir file :
  tree_state s F Q l T -> drop_directory T dir file = Some T' ->
  wp (unlinkDir 1 (dir ++ file) false) s (fun v s' => v = 0 /\ becomes s Q s' T').
Proof.
  intros Hts. unfold drop_directory, drop_name.
  destruct (locate T dir) as [[p es]|] eqn:Eloc; [|done]. cbn [mbind option_bind].
  destruct (look file es) as [[k [nm num]]|] eqn:Elook; [|done]. cbn [mbind option_bind].
  destruct (t_nodes T !! num) as [a|] eqn:Ea; [|done]. cbn [mbind option_bind].
  destruct (a_content a) as [es'|] eqn:Ec; [|done]. case_decide as Hd; [|done]. destruct Hd as (Htype & Hz & Hl & Hes').
  case_decide as Hg; [|done]. destruct Hg as (Hprop & Hes & Hbl & Hnp). rewrite decide_True by done. intros [= <-].
  destruct (entry_droppable _ _ _ _ _ _ _ _ _ _ _ _ _ Hts Eloc Elook Ea Hprop Hes Hbl Hnp) as (dp & dn & Hdr).
  pose proof Hdr as [_ Hre _ (_ & Edn) _]. pose proof Hts as [_ _ _ _ _ _ Hnum _ _].
  assert (a_links a = linksCount dn /\ a_type a = type dn) as [El Et] by (by rewrite Edn).
  destruct (directory_view _ _ _ _ _ Hts num es') as (d & Ed & Hn & Hvd & _ & _ & _ & Hsz).
  { unfold entries_at. rewrite Ea. cbn [mbind option_bind]. by rewrite Ec. }
  assert (d = dn) as ->.
  { pose proof Hre as [Hfs _ _ _ _ _ _ _ _ _ [_ Hvn] _]. by eapply (inode_view_unique s F Q num); [apply Hfs| |]. }
  eapply wp_mono; [eapply (unlinkDir_keeps 0 s F Q l dir file p dp k num dn _ false Hre)|].
  - destruct Hprop as (_ & _ & _ & Hlen). intros ->. cbn in Hlen. lia.
  - done.
  - unfold passed_over. lia.
  - by rewrite <- Et.
  - lia.
  - exact Hnum.
  - intros v s' (-> & F' & Q' & freed & _ & Hnos & Hs & Hun). split; [done|].
    exists F', Q', (freed ++ l). split; [|by eapply un_kept].
    eapply (shared_state s F Q l T dir file p es dp k num a dn); try done. lia.
Qed.

(** * Names that move *)

Lemma entry_names_moved p1 p2 es nm num k :
  c_string nm -> (length nm <= 61)%nat -> (k < length es)%nat ->
  entry_names (removed (with_new p1 p2 es nm num) k) =
    if decide (p1 = p2) then <[k := (nm, num)]> (entry_names es) else removed (entry_names es) k.
Proof.
  intros Hn Hl Hk. unfold with_new. case_decide; [|apply entry_names_removed].
  rewrite removed_last_moves by done. unfold entry_names. rewrite list_fmap_insert. do 2 f_equal.
  unfold entry_name. cbn [fst snd]. by destruct (name_bytes_name nm Hn Hl) as [_ ->].
Qed.

(** A rename of the tree, and the inodes that take part in it. *)
Record moving (s : istate) (F : list nat) (Q : Z -> list nat) (l : list Z) (T : atree) (dir1 file1 : list Z)
    (p1 : Z) (es1 : list (list Z * Z)) (dp1 : iNode) (k : nat) (num : Z) (dn : iNode) (dir2 file2 : list Z)
    (p2 : Z) (es2 : list (list Z * Z)) (dp2 : iNode) : Prop := {
  mv_state : tree_state s F Q l T;
  mv_renameable : renameable s F Q l dir1 file1 p1 dp1 k num dn dir2 file2 p2 dp2;
  mv_source : t_nodes T !! p1 = Some (node_of (ds s) dp1) /\ (p1 = 0 \/ linksCount dp1 <> 0) /\
    es1 = entry_names (dir_list (ds s) (dir_of dp1));
  mv_target : t_nodes T !! p2 = Some (node_of (ds s) dp2) /\ (p2 = 0 \/ linksCount dp2 <> 0) /\
    es2 = entry_names (dir_list (ds s) (dir_of dp2));
  mv_node : t_nodes T !! num = Some (node_of (ds s) dn);
  mv_names : locate T dir2 = Some (p2, es2) /\ can_grow es2
}.

Lemma movable_moving s F Q l T dir1 file1 dir2 file2 p1 es1 k num p2 es2 :
  tree_state s F Q l T -> movable T dir1 file1 dir2 file2 = Some (p1, es1, k, num, (p2, es2)) ->
  name_readable (length (dir2 ++ file2) + 1) ->
  exists dp1 dn dp2, moving s F Q l T dir1 file1 p1 es1 dp1 k num dn dir2 file2 p2 es2 dp2.
Proof.
  intros Hts. unfold movable. destruct (locate T dir1) as [[p1' es1']|] eqn:Eloc1; [|done]. cbn [mbind option_bind].
  destruct (locate T dir2) as [[p2' es2']|] eqn:Eloc2; [|done]. cbn [mbind option_bind].
  destruct (look file1 es1') as [[k' [nm num']]|] eqn:Elook1; [|done]. cbn [mbind option_bind].
  destruct (t_nodes T !! num') as [a|] eqn:Ea; [|done]. cbn [mbind option_bind].
  case_decide as Hg; [|done]. intros [= -> -> -> -> -> ->] Hrd.
  destruct Hg as ((Hpath1 & Hd1 & Hs1 & Hlen1) & (Hpath2 & Hd2 & Hs2 & Hlen2) & Hes1 & Hes2 & Hbl & Hnp1 & Hnp2 & Hl & Hmax).
  destruct (locate_view _ _ _ _ _ Hts _ _ _ Eloc1) as (Hw1 & dp1 & HTp1 & Hp1 & Hv1 & Hlp1 & Hdir1 & Ees1 & Hsz1).
  destruct (locate_view _ _ _ _ _ Hts _ _ _ Eloc2) as (Hw2 & dp2 & HTp2 & Hp2 & Hv2 & Hlp2 & Hdir2 & Ees2 & Hsz2).
  destruct (node_view _ _ _ _ _ Hts num a Ea) as (dn & Hn & Hvn & _ & Edn).
  rewrite Ees1 in Elook1. destruct (look_find _ _ _ _ Elook1) as (nb & Ef & _). cbn [snd] in Ef.
  pose proof (ts_fs _ _ _ _ _ Hts) as Hfs. pose proof (ts_held _ _ _ _ _ Hts) as Hh. pose proof (ts_blocks _ _ _ _ _ Hts).
  assert (a_links a = linksCount dn) as El by (by rewrite Edn). rewrite El in Hl, Hmax.
  exists dp1, dn, dp2. split; try done; [|by rewrite Ea, Edn]. unfold can_grow in Hes1. split; try done.
  - intros m c Hm Hc. by eapply (few _ _ _ _ _ Hts).
  - pose proof (free_nodes _ _ _ _ _ Hts). lia.
  - split; [done|]. split; [done|]. split; [done|]. intros ->. cbn in Hlen1. lia.
  - split; [done|]. split; [done|]. split; [done|]. lia.
  - split; [done|]. split; [done|]. split; [lia|]. by eapply idle_root.
  - split; [done|]. split; [done|]. split; [|by eapply idle_root]. eapply can_grow_room; [done|done|lia].
  - by exists nb.
  - lia.
  - rewrite Hh. apply not_elem_of_nil.
Qed.

Lemma moved_state s F Q l T dir1 file1 p1 es1 dp1 k num dn dir2 file2 p2 es2 dp2 s' F' Q' l' :
  moving s F Q l T dir1 file1 p1 es1 dp1 k num dn dir2 file2 p2 es2 dp2 ->
  renamed (ok := ok) s s' F' Q Q' l' file1 p1 dp1 k num dn file2 p2 dp2 ->
  inode_list (ds s') (replicate (512 - length (t_numbers T)) 0 ++ t_numbers T) -> (length l <= length l' + 4)%nat ->
  tree_state s' F' Q' l' (moved T p1 es1 k num p2 es2 file2).
Proof.
  intros [Hts Hra (HTp1 & Hlp1 & Ees1) (HTp2 & Hlp2 & Ees2) Ea _]
    [Hfs' [Hvn' Hsn] (d1 & Hvd1 & Hat1 & El1) Htgt _ _ Ho Hr Hh'] Hnos Hll.
  destruct (renameable_nums _ _ _ _ _ _ _ _ _ _ _ _ _ _ _ Hra) as (Hp1 & Hp2 & Hn & _).
  pose proof Hra as [_ _ _ _ (Hpath2 & _ & _ & Hlen61) _ (_ & Hdir1 & _) (_ & Hdir2 & _) [nb Ef] _ _ (Hnp1 & Hnp2 & _ & Hl & _) _].
  pose proof Hts as [_ _ _ _ _ _ _ (Hlen & Hnd & Hfree) Hbl']. apply Forall_app in Hpath2 as [_ Hcf].
  assert (k < length (dir_list (ds s) (dir_of dp1)))%nat as Hk.
  { unfold find_entry in Ef. apply list_find_Some in Ef as (Hk & _). by eapply lookup_lt_Some. }
  pose proof (entry_names_moved p1 p2 _ file2 num k Hcf Hlen61 Hk) as Emv. rewrite <- El1, <- Ees1 in Emv.
  unfold moved. set (ns := if decide (p1 = p2) then _ else _).
  assert (forall m, m <> p1 -> m <> p2 -> ns !! m = t_nodes T !! m) as Hns.
  { intros m Hm1 Hm2. unfold ns. case_decide; by rewrite !put_entries_ne. }
  eapply (tree_state_step s F Q l T s' F' Q' l' _ [p1; p2; num]); try done; cbn [t_nodes t_numbers t_blocks].
  - intros m d Hm Hx Hd. apply Ho; [done|set_solver..|done].
  - intros m Hx. apply Hns; set_solver.
  - intros m _ _ Hsome. unfold ns. case_decide; by repeat apply put_entries_is_Some.
  - intros m [->|[->|[->|[]%elem_of_nil]%elem_of_cons]%elem_of_cons]%elem_of_cons.
    + split; [done|]. exists d1. split; [done|]. unfold ns. case_decide as E.
      * by eapply shows_entries.
      * rewrite put_entries_ne by done. by eapply shows_entries.
    + split; [done|]. destruct (decide (p1 = p2)) as [E|E].
      * exists d1. rewrite <- E. split; [done|]. unfold ns. by eapply shows_entries.
      * destruct (Htgt E) as (d2 & Hvd2 & Hat2 & El2). exists d2. split; [done|]. unfold ns.
        eapply (shows_entries (ds s) (ds s') p2 dp2); [by rewrite put_entries_ne|done..|].
        by rewrite El2, Ees2, entry_names_added.
    + split; [done|]. exists dn. split; [done|]. rewrite Hns, Ea by done. split; [by right|].
      symmetry. by apply node_of_same.
  - split; [done|]. split; [done|]. rewrite Forall_forall in Hfree |- *. intros n Hin.
    destruct (Hfree n Hin) as [Hrn Hno]. split; [done|]. rewrite Hns by congruence. done.
  - lia.
Qed.

Lemma move_name_moving s F Q l T T' dir1 file1 dir2 file2 :
  tree_state s F Q l T -> move_name T dir1 file1 dir2 file2 = Some T' ->
  name_readable (length (dir2 ++ file2) + 1) ->
  exists p1 es1 dp1 k num dn p2 es2 dp2, moving s F Q l T dir1 file1 p1 es1 dp1 k num dn dir2 file2 p2 es2 dp2 /\
    movable T dir1 file1 dir2 file2 = Some (p1, es1, k, num, (p2, es2)) /\
    find_entry file2 (dir_list (ds s) (dir_of dp2)) = None /\ T' = moved T p1 es1 k num p2 es2 file2.
Proof.
  intros Hts. unfold move_name. destruct (movable T dir1 file1 dir2 file2) as [[[[[p1 es1] k] num] [p2 es2]]|] eqn:Em; [|done].
  cbn [mbind option_bind]. destruct (look file2 es2) eqn:Elook; [done|]. intros [= <-] Hrd.
  destruct (movable_moving _ _ _ _ _ _ _ _ _ _ _ _ _ _ _ Hts Em Hrd) as (dp1 & dn & dp2 & Hmv).
  exists p1, es1, dp1, k, num, dn, p2, es2, dp2. split; [done|]. split; [done|]. split; [|done].
  destruct Hmv as [_ _ _ (_ & _ & ->) _ _]. by apply look_none in Elook.
Qed.

Lemma move_name_implements s F Q l T T' fuel dir1 file1 dir2 file2 :
  tree_state s F Q l T -> move_name T dir1 file1 dir2 file2 = Some T' ->
  name_readable (length (dir2 ++ file2) + 1) ->
  wp (renameFile fuel (dir1 ++ file1) (dir2 ++ file2)) s (fun v s' => v = 0 /\ becomes s Q s' T').
Proof.
  intros Hts HT Hrd. destruct (move_name_moving _ _ _ _ _ _ _ _ _ _ Hts HT Hrd)
    as (p1 & es1 & dp1 & k & num & dn & p2 & es2 & dp2 & Hmv & _ & Hno & ->).
  eapply wp_mono; [eapply renameFile_moves; [by destruct Hmv|exact Hno|
    exact (ts_numbers _ _ _ _ _ Hts)]|].
  intros v s' (-> & Hnos & F' & Q' & l' & Hll & Hrn & Hk). split; [done|]. exists F', Q', l'. split; [|done].
  by eapply moved_state.
Qed.

(** The name of another file. *)
Lemma move_over_implements s F Q l T T' fuel dir1 file1 dir2 file2 :
  tree_state s F Q l T -> move_over T dir1 file1 dir2 file2 = Some T' ->
  name_readable (length (dir2 ++ file2) + 1) ->
  wp (renameFile fuel (dir1 ++ file1) (dir2 ++ file2)) s (fun v s' => v = 0 /\ becomes s Q s' T').
Proof.
  intros Hts. unfold move_over.
  destruct (movable T dir1 file1 dir2 file2) as [[[[[p1 es1] k] num] [p2 es2]]|] eqn:Em; [|done]. cbn [mbind option_bind].
  destruct (look file2 es2) as [[k2 [nm2 num2]]|] eqn:Elook; [|done]. cbn [mbind option_bind].
  destruct (t_nodes T !! num2) as [a2|] eqn:Ea2; [|done]. cbn [mbind option_bind].
  case_decide as Hg; [|done]. destruct Hg as [Hother Htype].
  destruct (drop_name T dir2 file2) as [T1|] eqn:ET1; [|done]. cbn [mbind option_bind].
  destruct (movable T1 dir1 file1 dir2 file2) as [[[[[p1' es1'] k'] num'] [p2' es2']]|] eqn:Em1; [|done].
  cbn [mbind option_bind]. case_decide as Hsame; [|done]. destruct Hsame as (-> & -> & ->). intros HT Hrd.
  destruct (movable_moving _ _ _ _ _ _ _ _ _ _ _ _ _ _ _ Hts Em Hrd) as (dp1 & dn & dp2 & Hmv).
  pose proof Hmv as [_ Hra _ _ _ [Eloc Hgrow]].
  destruct (drop_name_leads _ _ _ _ _ _ _ _ Hts ET1) as (p & es & dp & k0 & nm & num0 & a & dn2 & Eloc' & Elook' & Ea & Hdr
    & Hl2 & X & Hdrop & Hsole & Hthen).
  rewrite Eloc in Eloc'. injection Eloc' as <- <-. rewrite Elook in Elook'. injection Elook' as <- <- <-.
  rewrite Ea2 in Ea. injection Ea as <-.
  pose proof Hdr as [_ Hre _ (_ & Edn2) _]. pose proof Hre as [Hfs _ _ _ _ (Hvp & _ & Hsz) [nb2 Hentry] _ _ _ [Hp2 Hv2] _].
  pose proof Hra as [_ _ _ _ _ _ _ (Hvp2 & _) _ _ _ _ _].
  pose proof (inode_view_unique _ _ _ _ _ _ (fs_cache _ _ _ _ Hfs) Hvp Hvp2) as ->.
  eapply (renameFile_over fuel s F Q l dir1 file1 p1 dp1 k num dn dir2 file2 p2 dp2 k2 nb2 num2 dn2 _ X); try done.
  { intros E. apply Htype. by rewrite Edn2. }
  intros s' F' Q' l3 freed dn2' HX _ Hnos Hfate Hun. pose proof (Hthen _ _ _ _ _ _ HX Hnos Hfate Hun) as Hts1.
  destruct (move_name_moving _ _ _ _ _ _ _ _ _ _ Hts1 HT Hrd)
    as (p1' & es & dp1' & k1 & num' & dn' & p2' & es2'' & dp2' & Hmv1 & Em1' & Hno & ->).
  rewrite Em1 in Em1'. injection Em1' as <- <- <- <- <- <-.
  exists dp1', k', dn', dp2'. split; [by destruct Hmv1|]. split; [done|].
  intros s8 F8 Q8 l8 Hl8 Hnos8 Hrn Hk. split; [done|]. exists F8, Q8, l8. split; [|done].
  by eapply moved_state.
Qed.

End refinement.
