(* ===== verification/TreeRequests.v ===== *)
(** More requests of the abstract tree: listing a directory, changes of
    attributes, and other contents for a file. *)

From S2P Require Export Refinement.

Section tree_requests.
Context `{BlockStore ok} `{shifts : !DefinedShifts}.
Local Abbreviation tree_state := (tree_state (ok := ok)).
Local Abbreviation becomes := (becomes (ok := ok)).
Local Abbreviation moves := (moves (ok := ok)).
Local Abbreviation fs_ok := (fs_ok (ok := ok)).
Local Abbreviation file_ok := (file_ok (ok := ok)).

(** * Attributes *)

(** The change [g] of an inode is the change [h] of its node. *)
Definition changes_node (g : iNode -> iNode) (h : anode -> anode) : Prop :=
  (forall d, dataBlockNums (g d) = dataBlockNums d /\ size (g d) = size d /\ linksCount (g d) = linksCount d) /\
  (forall s d, a_mode (h (node_of s d)) = file_mode (g d)) /\
  (forall s d, S_ISDIR (file_mode (g d)) = S_ISDIR (file_mode d) -> node_of s (g d) = h (node_of s d)).

Lemma alter_node_implements s F Q l T T' path f g h :
  tree_state s F Q l T -> alter_node T path h = Some T' -> sound_change f g -> changes_node g h ->
  wp (change_at path f) s (fun v s' => v = 0 /\ becomes s Q s' T').
Proof.
  intros Hts Ha Hf (Hg & Hmode & Hnode). unfold alter_node in Ha.
  destruct (resolve T 0 (path_names path)) as [n|] eqn:En; [|done]. cbn [mbind option_bind] in Ha.
  destruct (t_nodes T !! n) as [a|] eqn:Ea; [|done]. cbn [mbind option_bind] in Ha.
  case_decide as Hok; [|done]. injection Ha as <-. destruct Hok as (Hp & Hne & Hdir).
  pose proof Hts as [Hfs Hrefs Hopen Hheld _ _ Hnum (Hnl & Hnd & Hfree) Hbl].
  destruct (node_view _ _ _ _ _ Hts n a Ea) as (d & Hn & Hd & Hl & ->).
  eapply wp_mono; [eapply (change_at_spec 1 ltac:(lia) s F Q l path f g (Some n)); try done; try apply Hfs|].
  { pose proof (free_nodes _ _ _ _ _ Hts). lia. }
  { intros m c Hm Hc. by eapply (few _ _ _ _ _ Hts). }
  { by eapply resolve_walks. }
  { intros m e [= <-] He. rewrite (inode_view_unique _ _ _ _ _ _ (fs_cache _ _ _ _ Hfs) He Hd).
    destruct Hl as [->|?]; [right; split; [done|by eapply unopened, root_unopened]|by left]. }
  intros v s' (F' & Q' & d' & Hd' & -> & Hch). split; [done|]. exists F', Q', l.
  split; [|apply Hch].
  rewrite (inode_view_unique _ _ _ _ _ _ (fs_cache _ _ _ _ Hfs) Hd' Hd) in Hch. clear d' Hd'.
  assert (S_ISDIR (file_mode (g d)) = S_ISDIR (file_mode d)) as Hkind by (by rewrite <- (Hmode (ds s) d)).
  destruct (Hg d) as (Eb & Es & El). assert (same_file d (g d)) as Hsf by done.
  destruct (changed_fs_ok s F Q l s' F' Q' n d (g d) Hfs Hn Hd Hch Hsf) as [Hfs' Hs].
  destruct Hch as (Hc' & Hvn & Ho & Hr & _ & Hdisk).
  apply (tree_state_step s F Q l T s' F' Q' l _ [n]); try done; cbn [set_node t_nodes t_numbers t_blocks].
  - by destruct (changes_env _ _ _ Hdisk) as (_ & _ & _ & ->).
  - intros m e Hm Hx He. split; [|by apply (Hs m)]. apply Ho; [done|set_solver|done].
  - intros m Hx. by rewrite lookup_insert_ne by set_solver.
  - intros m _ _ Hsome. by apply lookup_insert_is_Some', or_intror.
  - intros m [->|[]%elem_of_nil]%elem_of_cons. split; [done|]. exists (g d). split; [done|].
    rewrite lookup_insert_eq. split; [by rewrite El|]. rewrite <- (Hnode (ds s) d Hkind). symmetry.
    apply node_of_same. destruct (Hs n d Hn Hd) as [Ebl Eda]. split; [|by rewrite Eb, Es].
    by rewrite !(same_file_blocks _ _ _ Hsf).
  - eapply inode_list_frame; [exact Hnum|]. apply Hdisk. unfold inode_zone. consts. lia.
  - split; [done|]. split; [done|]. rewrite Forall_forall in Hfree |- *. intros x Hin.
    destruct (Hfree x Hin) as [Hrx Hno]. split; [done|]. by rewrite lookup_insert_ne by congruence.
Qed.

Lemma new_mode_node mode : changes_node (new_mode mode) (with_mode mode).
Proof.
  split; [done|]. split; [done|]. intros s d Hk. unfold node_of. rewrite Hk. done.
Qed.

Lemma new_owner_node uid gid : changes_node (new_owner uid gid) (with_owner uid gid).
Proof. split; [done|]. split; [done|]. intros s d Hk. done. Qed.

(** * Names *)

Lemma list_names_implements (s : fstate) F Q l T path ns :
  tree_state (cache s) F Q l T -> list_names T path = Some ns ->
  wp (readDirectory path) s (fun v s' => fileTable s' = fileTable s /\ v.1 = 0 /\ c_str <$> v.2 = ns /\
    becomes (cache s) Q (cache s') T).
Proof.
  intros Hts Hn. unfold list_names in Hn.
  destruct (resolve T 0 (path_names path)) as [n|] eqn:En; [|done]. cbn [mbind option_bind] in Hn.
  destruct (entries_at T n) as [es|] eqn:Ee; [|done]. cbn [mbind option_bind] in Hn.
  case_decide as Hp; [|done]. injection Hn as <-. destruct Hp as [Hp Hne]. pose proof (ts_fs _ _ _ _ _ Hts) as Hfs.
  destruct (directory_view _ _ _ _ _ Hts n es Ee) as (d & _ & Hnum & Hd & _ & Hdir & -> & _).
  eapply wp_mono; [eapply (readDirectory_spec 1 ltac:(lia) s F Q l path (Some n)); try done; try apply Hfs|].
  { pose proof (free_nodes _ _ _ _ _ Hts). lia. }
  { intros m c Hm Hc. by eapply (few _ _ _ _ _ Hts). }
  { by eapply resolve_walks. }
  { intros m [= <-]. eexists. by exists d. }
  intros v s' (Et & (F' & Q' & Hm) & es & (d' & Hd' & _ & ->) & ->). split; [done|]. split; [done|]. split.
  - rewrite (inode_view_unique _ _ _ _ _ _ (fs_cache _ _ _ _ Hfs) Hd' Hd). cbn [snd]. unfold entry_names.
    by rewrite <- !list_fmap_compose.
  - by eapply moves_becomes.
Qed.

(** * Contents *)

(** A regular file of the tree. *)
Lemma file_view s F Q l T n a bs :
  tree_state s F Q l T -> t_nodes T !! n = Some a -> a_content a = Bytes bs ->
  exists d, inode_num n /\ inode_view s Q n d /\ (n = 0 \/ linksCount d <> 0) /\ a = node_of (ds s) d /\
    S_ISDIR (file_mode d) = false /\ bs = file_data (ds s) (dataBlockNums d) (size d) /\
    size d = Z.of_nat (length bs) /\ file_ok (ds s) l (dir_of d).
Proof.
  intros Hts Ha Hb. destruct (node_view _ _ _ _ _ Hts n a Ha) as (d & Hn & Hd & Hl & ->).
  exists d. split; [done|]. split; [done|]. pose proof (b_file _ _ _ (fs_blocks _ _ _ _ (ts_fs _ _ _ _ _ Hts)) n d Hn Hd) as Hf.
  pose proof (file_size_u64 _ _ _ Hf) as Hsz. change (ic_size (dir_of d)) with (size d) in Hsz.
  unfold node_of in Hb. cbn [a_content] in Hb. destruct (S_ISDIR (file_mode d)) eqn:Hdir; [done|]. injection Hb as <-.
  do 4 (split; [done|]). split; [|done]. rewrite length_file_data. lia.
Qed.

(** The tree after a step that has changed the contents of the file [n] alone. *)
Lemma content_state s F Q l T s' F' Q' l' n d d' bs' more :
  tree_state s F Q l T -> t_nodes T !! n = Some (node_of (ds s) d) ->
  inode_num n -> linksCount d <> 0 -> S_ISDIR (file_mode d) = false ->
  fs_ok s' F' Q' l' -> inode_view s' Q' n d' -> same_attributes d d' ->
  file_data (ds s') (dataBlockNums d') (size d') = bs' ->
  (forall m e, inode_num m -> m <> n -> inode_view s Q m e -> inode_view s' Q' m e /\ same_contents (ds s) (ds s') e) ->
  (forall m c, refs s Q m c -> refs s' Q' m c) -> numbers_kept (ds s) (ds s') ->
  t_blocks T - more <= Z.of_nat (length l') ->
  tree_state s' F' Q' l' (ATree (<[n := set_content (Bytes bs') (node_of (ds s) d)]> (t_nodes T))
    (t_numbers T) (t_blocks T - more) (t_open T)).
Proof.
  intros Hts Ha Hn Hl Hreg Hfs' Hv' (E1 & E2 & E3 & E4 & E5) Ed Ho Hr [Eh Hnos] Hbl.
  pose proof Hts as [_ _ _ _ _ _ Hnum (Hnl & Hnd & Hfree) _].
  apply (tree_state_step s F Q l T s' F' Q' l' _ [n]); try done; cbn [t_nodes t_numbers t_blocks].
  - intros m e Hm Hx He. apply Ho; [done|set_solver|done].
  - intros m Hx. by rewrite lookup_insert_ne by set_solver.
  - intros m _ _ Hsome. by apply lookup_insert_is_Some', or_intror.
  - intros m [->|[]%elem_of_nil]%elem_of_cons. split; [done|]. exists d'. split; [done|].
    rewrite lookup_insert_eq. split; [right; by rewrite E5|]. unfold node_of, set_content.
    cbn [a_type a_mode a_uid a_gid a_links]. rewrite E1, E2, E3, E4, E5, Hreg. by rewrite Ed.
  - by apply Hnos.
  - split; [done|]. split; [done|]. rewrite Forall_forall in Hfree |- *. intros x Hin.
    destruct (Hfree x Hin) as [Hrx Hno]. split; [done|]. rewrite lookup_insert_ne by congruence. done.
Qed.

Lemma set_size_implements (s : fstate) F Q l T T' path new :
  tree_state (cache s) F Q l T -> set_size T path new = Some T' ->
  wp (truncate_callback path new) s (fun v s' => v = 0 /\ fileTable s' = fileTable s /\
    becomes (cache s) Q (cache s') T').
Proof.
  intros Hts Hn. unfold set_size in Hn.
  destruct (resolve T 0 (path_names path)) as [n|] eqn:En; [|done]. cbn [mbind option_bind] in Hn.
  destruct (t_nodes T !! n) as [a|] eqn:Ea; [|done]. cbn [mbind option_bind] in Hn.
  destruct (a_content a) as [|bs] eqn:Ec; [done|]. case_decide as Hg; [|done]. injection Hn as <-.
  destruct Hg as (Hp & Hne & Hn0 & Htype & Hnew & Hcase). pose proof Hts as [Hfs _ _ Hheld _ _ _ _ Hbl].
  destruct (file_view _ _ _ _ _ _ _ _ Hts Ea Ec) as (d & Hn & Hd & [?|Hl] & -> & Hreg & -> & Esz & Hfile); [done|].
  rewrite <- Esz in *. unfold truncate_callback. change MAX_FILE_SIZE with 2164402176 in Hnew.
  rewrite u64_id by (unfold is_u64; lia).
  eapply wp_mono; [eapply (truncateFile_spec 1 ltac:(lia) s F Q l path n d new); try done|].
  { pose proof (free_nodes _ _ _ _ _ Hts). lia. }
  { intros m c Hm Hc. by eapply (few _ _ _ _ _ Hts). }
  { by eapply resolve_walks. }
  { rewrite Hheld. apply not_elem_of_nil. }
  { split; [lia|]. destruct Hcase as [[Hle Hm]|[Hlt Hm]]; [left|right; split; [done|lia]].
    split; [done|]. unfold room. change MAX_FILE_SIZE with 2164402176.
    replace (size d + (new - size d)) with new by lia. lia. }
  intros v s' (-> & Et & F' & Q' & l' & d' & [Hfs' Hv' [Hsame Es'] Hb' Ho' Hr' Hcr Hnum' Hkept]). split; [done|]. split; [done|].
  exists F', Q', l'. split; [|done]. eapply content_state; try done.
  - by rewrite Es'.
  - unfold resize_credit in Hcr. lia.
Qed.

End tree_requests.
