(* ===== verification/Refusals.v ===== *)
(** Requests that fail: the code returns an error and leaves the tree of
    [AbstractTree.v] as it is. *)

From S2P Require Export TreeRequests.

Section refusals.
Context `{BlockStore ok} `{shifts : !DefinedShifts}.
Local Abbreviation tree_state := (tree_state (ok := ok)).
Local Abbreviation becomes := (becomes (ok := ok)).
Local Abbreviation moves := (moves (ok := ok)).

Lemma lost_walks s F Q l T n nms : tree_state s F Q l T -> lost_at T n nms = true -> walks s Q n nms None.
Proof.
  intros Hts. revert n. induction nms as [|nm nms IH]; intros n Hl; cbn in Hl; [done|].
  destruct (entries_at T n) as [es|] eqn:He; [|done].
  destruct (directory_view _ _ _ _ _ Hts n es He) as (d & _ & _ & Hd & _ & Hdir & -> & _).
  destruct (look nm _) as [[k e]|] eqn:Hlk.
  - destruct (look_find _ _ _ _ Hlk) as (nb & Hf & _). cbn [snd] in Hl.
    eapply (walks_into s Q n nm nms _ k (nb, snd e)); [by exists d|exact Hf|]. by apply IH.
  - eapply walks_missing; [by exists d|]. by apply look_none.
Qed.

Section failing.
Context (s : istate) (F : list nat) (Q : Z -> list nat) (l : list Z) (T : atree).
Context (Hts : tree_state s F Q l T).

Lemma lost_lookup path :
  lost T path -> wp (getFileINode path (length path)) s (fun o s' => o = None /\ becomes s Q s' T).
Proof.
  intros (Hp & Hne & Hl). pose proof (ts_fs _ _ _ _ _ Hts) as Hfs.
  eapply wp_mono; [eapply (getFileINode_spec 1 ltac:(lia) s F Q l path None); try done; try apply Hfs|].
  - pose proof (free_nodes _ _ _ _ _ Hts). lia.
  - intros m c Hm Hc. by eapply (few _ _ _ _ _ Hts).
  - by eapply lost_walks.
  - intros o s' (-> & F' & Q' & Hm). split; [done|]. by eapply moves_becomes.
Qed.

Lemma lost_attributes path st :
  lost T path -> wp (attrPopulate path st) s (fun v s' => v = (- ENOENT, st) /\ becomes s Q s' T).
Proof.
  intros Hl. unfold attrPopulate. apply wp_bind. eapply wp_mono; [by apply lost_lookup|].
  intros o s' [-> Hk]. by apply wp_ret.
Qed.

Lemma lost_change path f : lost T path -> wp (change_at path f) s (fun _ s' => becomes s Q s' T).
Proof.
  intros Hl. unfold change_at. apply wp_bind. eapply wp_mono; [by apply lost_lookup|].
  intros o s' [-> Hk]. by apply wp_ret.
Qed.

Lemma lost_source fuel path to :
  lost T path -> wp (renameFile fuel path to) s (fun v s' => v = - ENOENT /\ becomes s Q s' T).
Proof.
  intros Hl. unfold renameFile. apply wp_bind. eapply wp_mono; [by apply lost_lookup|].
  intros o s' [-> Hk]. by apply wp_ret.
Qed.

(** The directory of a new name, or of one to be removed. *)
Lemma lost_parent dir file :
  last dir = Some slash -> slash ∉ file -> lost T dir ->
  wp (getParentINode (dir ++ file)) s (fun o s' => o = None /\ becomes s Q s' T).
Proof.
  intros Hd Hf Hl. unfold getParentINode. apply wp_bind.
  destruct (parent_and_name dir file s Hd Hf) as [E _]. eapply wp_Ret; [exact E|]. by apply lost_lookup.
Qed.

Lemma lost_create t dir file mode ctx :
  t = T_REGULAR \/ t = T_DIRECTORY -> proper dir file -> lost T dir ->
  wp (createFile (dir ++ file) t mode ctx) s (fun v s' => v = -1 /\ becomes s Q s' T).
Proof.
  intros Ht (_ & Hd & Hf & _) Hl. unfold createFile, validateThenGetParentINode.
  replace (negb (bool_decide (t = T_DIRECTORY)) && negb (bool_decide (t = T_REGULAR))) with false
    by (by destruct Ht as [-> | ->]).
  cbn iota. apply wp_bind, wp_bind. eapply wp_mono; [by apply lost_parent|]. intros o s' [-> Hk].
  by apply wp_ret, wp_ret.
Qed.

Lemma lost_unlink dir file :
  proper dir file -> lost T dir -> wp (unlinkFile (dir ++ file)) s (fun v s' => v = - ENOENT /\ becomes s Q s' T).
Proof.
  intros (_ & Hd & Hf & _) Hl. unfold unlinkFile. apply wp_bind. eapply wp_mono; [by apply lost_parent|].
  intros o s' [-> Hk]. by apply wp_ret.
Qed.

(** The directory is there, but not the name. *)
Lemma unlink_no_name dir file p es :
  proper dir file -> locate T dir = Some (p, es) -> es <> [] -> look file es = None ->
  wp (unlinkFile (dir ++ file)) s (fun v s' => v = -1 /\ becomes s Q s' T).
Proof.
  intros (Hpath & Hdir & Hfile & _) Eloc Hes Elook. pose proof (ts_fs _ _ _ _ _ Hts) as Hfs.
  pose proof Hfs as [Hc Htree _]. pose proof Hpath as [Hpd Hpf]%Forall_app.
  destruct (locate_view _ _ _ _ _ Hts _ _ _ Eloc) as (Hw & dp & _ & _ & Hv & _ & Hd & Ees & Hsz).
  rewrite Ees in Elook. apply look_none in Elook.
  unfold unlinkFile, getParentINode. destruct (parent_and_name dir file s Hdir Hfile) as [E1 _].
  apply wp_bind, wp_bind. eapply wp_Ret; [exact E1|].
  eapply wp_mono; [eapply (getFileINode_spec 1 ltac:(lia) s F Q l dir (Some p)); try done|].
  { pose proof (free_nodes _ _ _ _ _ Hts). lia. }
  { intros m c Hm Hcn. by eapply (few _ _ _ _ _ Hts). }
  { by intros ->. }
  intros o s1 (w & F1 & Q1 & -> & Hm1 & Hh).
  destruct (parent_in_hand _ _ _ _ _ _ _ _ _ _ _ _ _ Hc Htree Hm1 Hh Hv Hd)
    as (i & Hk & _ & Ei & Hdok & _ & El & _ & _).
  pose proof (m_same _ _ _ _ _ _ _ Hm1) as [Hc1 _ _]. pose proof Hk as (Hi & _ & _).
  pose proof (c_quiet _ _ _ Hc1 _ _ Hi) as Hq. set (il := ic_set_mutex true i).
  assert (64 <= ic_size i) as H64.
  { change (ic_size i) with (size (getDiskINodeData i)). rewrite Ei, Hsz. destruct es; [done|cbn [length]; lia]. }
  apply wp_bind. eapply wp_Ret; [by apply inode_lock_Ret|].
  destruct (parent_and_name dir file (inode_set w il s1) Hdir Hfile) as [_ E2].
  apply wp_bind. eapply wp_Ret; [exact E2|]. apply wp_bind. unfold unlinkFileFromINode. apply wp_bind.
  destruct (wp_inv _ _ _ (search_for_unlink (ds s1) l il file (junk_entry (ds s1)) 0 Hdok Hpf H64))
    as ([r buf] & d1 & Hrun & Hres & Hsame).
  unfold search_result in Hres. change (dir_list (ds s1) il) with (dir_list (ds s1) i) in Hres, Hsame.
  rewrite El, Elook in Hres, Hsame. cbn iota in Hsame. subst d1. injection Hres as -> ->.
  eapply wp_Ret; [apply (look_inode_Ret (inode_set w il s1) w il); [by eapply inode_at_set_eq|exact Hrun]|].
  cbn beta iota. change (negb (0 =? 1)) with true. cbn iota. apply wp_ret.
  change (-1 =? -1) with true. cbn iota. apply wp_bind. fold (held_inode w i s1).
  eapply wp_Ret; [by apply unlock_held_inode|]. apply wp_bind.
  eapply wp_mono; [by eapply (iput_moves 1)|]. intros z s2 (_ & F2 & Hm2 & _). apply wp_ret. split; [done|].
  eapply (moves_becomes s F Q l T s2 F2 Q1); [done|].
  eapply moves_trans; [exact Hc|exact Hm1|exact Hm2|..]; intros m; cbv beta; [lia|].
  pose proof (one_nonneg p m). lia.
Qed.

Lemma rmdir_refused fuel path v :
  not_removed T path = Some v ->
  wp (unlinkDir (Datatypes.S fuel) path false) s (fun r s' => v = Status r /\ becomes s Q s' T).
Proof.
  unfold not_removed. destruct (resolve T 0 (path_names path)) as [n|] eqn:En; [|done]. cbn [mbind option_bind].
  destruct (t_nodes T !! n) as [a|] eqn:Ea; [|done]. cbn [mbind option_bind]. case_decide as Hp; [|done].
  destruct Hp as [Hp Hne]. intros Hr. pose proof (ts_fs _ _ _ _ _ Hts) as Hfs. pose proof Hfs as [Hc Htree _].
  destruct (node_view _ _ _ _ _ Hts n a Ea) as (d & Hn & Hd & _ & Eda).
  assert (exists r, refusal n d = Some r /\ v = Status r) as (r & Hrf & ->).
  { set (sz := match a_content a with Entries es => _ | Bytes bs => _ end) in Hr. assert (sz = size d) as Esz.
    { unfold sz. destruct (a_content a) as [es|bs] eqn:Ec.
      - destruct (directory_view _ _ _ _ _ Hts n es) as (d2 & _ & _ & Hd2 & _ & _ & _ & E2).
        { unfold entries_at. rewrite Ea. cbn [mbind option_bind]. by rewrite Ec. }
        by rewrite (inode_view_unique _ _ _ _ _ _ Hc Hd Hd2), E2.
      - destruct (file_view _ _ _ _ _ n a bs Hts Ea Ec) as (d2 & _ & Hd2 & _ & _ & _ & _ & E2 & _).
        by rewrite (inode_view_unique _ _ _ _ _ _ Hc Hd Hd2), E2. }
    rewrite Esz in Hr. assert (a_type a = type d) as Et by (by rewrite Eda). rewrite Et in Hr. unfold refusal.
    repeat case_match; try done; injection Hr as <-; by eexists. }
  eapply wp_mono; [eapply (unlinkDir_refused 1 fuel s F Q l path n d r); try done|].
  - pose proof (free_nodes _ _ _ _ _ Hts). lia.
  - intros m c Hm Hcn. by eapply (few _ _ _ _ _ Hts).
  - by eapply resolve_walks.
  - intros z s' (-> & F' & Q' & Hm). split; [done|]. by eapply moves_becomes.
Qed.

End failing.

End refusals.
