(* ===== verification/OpenFiles.v ===== *)
(** Open files between requests: a descriptor of the tree is an entry of the table
    that holds a reference to its inode. Opening, releasing, writing and reading
    do what [AbstractTree.v] says. *)

From S2P Require Export Refusals.

(** Most requests leave the descriptors as they are. *)
Local Ltac keeps_descriptors :=
  intros HT; repeat (case_match; try discriminate HT); injection HT as <-; reflexivity.

Lemma make_node_open t T dir file mode ctx T' :
  make_node t T dir file mode ctx = Some T' -> t_open T' = t_open T.
Proof. unfold make_node, mbind, option_bind. keeps_descriptors. Qed.

Lemma drop_name_open T dir file T' : drop_name T dir file = Some T' -> t_open T' = t_open T.
Proof. unfold drop_name, mbind, option_bind. keeps_descriptors. Qed.

Lemma drop_directory_open T dir file T' : drop_directory T dir file = Some T' -> t_open T' = t_open T.
Proof.
  unfold drop_directory, mbind, option_bind. intros HT. repeat (case_match; try discriminate HT).
  by eapply drop_name_open.
Qed.

Lemma move_name_open T dir1 file1 dir2 file2 T' :
  move_name T dir1 file1 dir2 file2 = Some T' -> t_open T' = t_open T.
Proof.
  unfold move_name. destruct (movable T dir1 file1 dir2 file2) as [[[[[p1 es1] k] num] [p2 es2]]|]; [|done].
  cbn [mbind option_bind]. destruct (look file2 es2); [done|]. by intros [= <-].
Qed.

Lemma move_over_open T dir1 file1 dir2 file2 T' :
  move_over T dir1 file1 dir2 file2 = Some T' -> t_open T' = t_open T.
Proof.
  unfold move_over, mbind, option_bind. intros HT.
  destruct (drop_name T dir2 file2) as [T1|] eqn:E; repeat (case_match; try discriminate HT).
  rewrite (move_name_open _ _ _ _ _ _ HT). by eapply drop_name_open.
Qed.

Lemma set_size_open T path new T' : set_size T path new = Some T' -> t_open T' = t_open T.
Proof. unfold set_size, mbind, option_bind. keeps_descriptors. Qed.

Lemma alter_node_open T path h T' : alter_node T path h = Some T' -> t_open T' = t_open T.
Proof. unfold alter_node, mbind, option_bind. keeps_descriptors. Qed.

Section open_files.
Context `{BlockStore ok} `{shifts : !DefinedShifts}.
Local Abbreviation moves := (moves (ok := ok)).
Local Abbreviation files_ok := (files_ok (ok := ok)).
Local Abbreviation file_ok := (file_ok (ok := ok)).
Local Abbreviation tree_state := (tree_state (ok := ok)).
Local Abbreviation becomes := (becomes (ok := ok)).

(** What an entry of the table stands for: its node keeps an inode with links. *)
Definition stands_for (c : istate) (Q : Z -> list nat) (e : fileTableEntry) (o : option Z) : Prop :=
  match o with
  | Some n => exists k i, opened k e /\ caches c Q n k i /\ ic_linksCount i <> 0
  | None => validEntry e = false
  end.

Definition table_shows (c : istate) (Q : Z -> list nat) (t : list fileTableEntry) (O : gmap nat Z) : Prop :=
  forall fd e, t !! fd = Some e -> stands_for c Q e (O !! fd).

(** What the process shows between two requests. *)
Record process_state (s : fstate) (F : list nat) (Q : Z -> list nat) (l : list Z) (T : atree) : Prop := {
  ps_tree : tree_state (cache s) F Q l T;
  ps_files : files_ok s F Q;
  ps_table : table_shows (cache s) Q (fileTable s) (t_open T)
}.

Definition models (s : fstate) (T : atree) : Prop := exists F Q l, process_state s F Q l T.

(** * Descriptors *)

Section descriptors.
Context (s : fstate) (F : list nat) (Q : Z -> list nat) (l : list Z) (T : atree).
Context (Hps : process_state s F Q l T).

(** Nodes in the table are in use, so that they stay. *)
Lemma stands_for_kept c Q' fd e o :
  kept 0 (cache s) c Q Q' -> fileTable s !! fd = Some e ->
  stands_for (cache s) Q e o -> stands_for c Q' e o.
Proof.
  intros Hk He. destruct o as [n|]; [|done]. intros (k & i & Ho & Hki & Hl).
  destruct (Hk n k i Hki) as (i' & Hk' & Hl'); [by eapply held_reference; [apply Hps|..]|]. exists k, i'. auto.
Qed.

Lemma table_shows_kept c Q' :
  kept 0 (cache s) c Q Q' -> table_shows c Q' (fileTable s) (t_open T).
Proof. intros Hk fd e He. eapply stands_for_kept; [done..|]. by apply Hps. Qed.

(** The first free entry is the first free descriptor. *)
Lemma free_entry_handle : free_entry (fileTable s) 0 = free_handle (t_open T).
Proof.
  destruct Hps as [_ Hf Ht]. unfold free_handle. rewrite <- (f_size _ _ _ Hf). apply free_entry_from.
  intros j e He. specialize (Ht j e He). cbn [Nat.add]. destruct (t_open T !! j); cbn [stands_for] in Ht.
  - destruct Ht as (k & i & [-> _] & _). by rewrite bool_decide_true by (by eexists).
  - rewrite Ht, bool_decide_false; [done|by intros [? ?]].
Qed.

(** The inode that a descriptor stands for. *)
Lemma opened_entry fd n :
  t_open T !! fd = Some n -> exists e k i, fileTable s !! fd = Some e /\ opened k e /\
    caches (cache s) Q n k i /\ 0 < reference_count i /\ ic_linksCount i <> 0 /\
    inode_num n /\ inode_view (cache s) Q n (getDiskINodeData i).
Proof.
  intros Hn. destruct Hps as [Hts Hf Ht]. destruct (proj1 (ts_open _ _ _ _ _ Hts) fd n Hn) as (Hfd & _ & Ha).
  rewrite <- (f_size _ _ _ Hf) in Hfd. destruct (lookup_lt_is_Some_2 _ _ Hfd) as [e He].
  pose proof (Ht fd e He) as Hs. rewrite Hn in Hs. destruct Hs as (k & i & Ho & Hk & Hl). exists e, k, i.
  split; [done|]. split; [done|]. split; [done|]. split; [by eapply held_reference|]. split; [done|].
  split; [by apply (ts_range _ _ _ _ _ Hts)|]. left. by exists k, i.
Qed.

Lemma opened_in_hand fd n e k i :
  t_open T !! fd = Some n -> fileTable s !! fd = Some e -> opened k e -> caches (cache s) Q n k i ->
  in_hand 1 (cache s) F Q n k.
Proof.
  intros Hn He Ho Hk. destruct (opened_entry fd n Hn) as (e' & k' & i' & He' & [_ Ho'] & Hk' & Hpos & Hl & Hnum & Hv).
  rewrite He in He'. injection He' as <-. destruct Ho as [_ Ho]. rewrite Ho in Ho'. injection Ho' as <-.
  exists i'. split; [done|]. split; [done|]. pose proof (free_nodes _ _ _ _ _ (ps_tree _ _ _ _ _ Hps)).
  split; [|split; [done|left; lia]]. right. intros d Hd.
  by rewrite (inode_view_unique _ _ _ _ _ _ (f_cache _ _ _ (ps_files _ _ _ _ _ Hps)) Hd Hv).
Qed.

(** A call that works on the cache, and opens and closes nothing. *)
Lemma becomes_models s' T' :
  becomes (cache s) Q (cache s') T' -> fileTable s' = fileTable s -> t_open T' = t_open T -> models s' T'.
Proof.
  intros (F' & Q' & l' & Hts' & Hk) Et Eo. exists F', Q', l'. split; [done| |].
  - destruct Hps as [Hts [Hc Hsz Hop Hh] _]. pose proof (fs_cache _ _ _ _ (ts_fs _ _ _ _ _ Hts')) as Hc'.
    split; [done|by rewrite Et|rewrite Et; exact Hop|]. rewrite Et. intros k Hpos. destruct (Hh k Hpos) as (n & i & Hki & Hle).
    destruct (Hk n k i Hki) as (i' & Hki' & _); [lia|]. exists n, i'. split; [done|].
    rewrite (refs_cached _ _ _ _ _ _ _ Hc' Hki' (ts_refs _ _ _ _ _ Hts' n)), Eo.
    by rewrite <- (refs_cached _ _ _ _ _ _ _ Hc Hki (ts_refs _ _ _ _ _ Hts n)).
  - rewrite Et, Eo. by apply table_shows_kept.
Qed.

End descriptors.

(** * Opening and releasing *)

Lemma open_ok_insert T fd n :
  open_ok T -> can_open T n -> is_Some (t_nodes T !! n) -> free_handle (t_open T) = Some fd ->
  open_ok (set_open (<[fd := n]> (t_open T)) T) /\ t_open T !! fd = None.
Proof.
  intros [Hfd _] [Hz Hsz] Ha Hfree. pose proof (free_from_spec (t_open T) 0 (Z.to_nat MAX_FILE_DESCRIPTORS)) as Hs.
  unfold free_handle in Hfree. rewrite Hfree in Hs. destruct Hs as [Hlt Hno]. split; [|done].
  split; cbn [set_open t_open t_nodes].
  - intros j m [[<- <-]|[_ Hm]]%lookup_insert_Some; [split; [lia|by split]|exact (Hfd j m Hm)].
  - etransitivity; [|exact Hsz]. apply subseteq_size. rewrite (comm_L (∪)). apply map_img_insert_subseteq.
Qed.

Lemma open_serves s T T' path fi ctx r :
  models s T -> open_path T path = Some (r, T') ->
  wp (openFile path fi ctx) s (fun v s' => handle v = r /\ models s' T').
Proof.
  intros (F & Q & l & Hps). pose proof Hps as [Hts Hf Ht]. unfold open_path.
  destruct (resolve T 0 (path_names path)) as [n|] eqn:En; [|done]. cbn [mbind option_bind].
  destruct (free_handle (t_open T)) as [fd|] eqn:Efd; [|done]. cbn [mbind option_bind].
  case_decide as Hg; [|done]. intros [= <- <-]. destruct Hg as (Hp & Hne & [a Ha] & Hcan).
  destruct (open_ok_insert T fd n (ts_open _ _ _ _ _ Hts) Hcan ltac:(by eexists) Efd) as [Hok Hno].
  destruct (node_view _ _ _ _ _ Hts n a Ha) as (d & Hn & Hd & [?|Hl] & _); [by destruct Hcan|].
  pose proof (ts_fs _ _ _ _ _ Hts) as Hfs.
  eapply wp_mono; [eapply (openFile_spec 1 ltac:(lia) s F Q l path fi ctx (Some n)); try done; try apply Hfs|].
  { pose proof (free_nodes _ _ _ _ _ Hts). lia. }
  { intros m c Hm Hc. by eapply (few _ _ _ _ _ Hts). }
  { by eapply resolve_walks. }
  intros [v fi'] s' (k & i & F' & Q' & Hf' & Hm & Hh & Hk & Hv & Htab).
  unfold opened_table in Hv, Htab. rewrite (free_entry_handle _ _ _ _ _ Hps), Efd in Hv, Htab.
  cbn [fst snd] in Hv, Htab. injection Hv as -> ->. split; [done|]. exists F', Q', l. split; [|done|].
  - eapply tree_state_opens; [exact Hts|exact Hm|intros m; by apply open_count_insert|done].
  - rewrite Htab. intros j e [(-> & <- & _)|[Hj He]]%list_lookup_insert_Some; cbn [set_open t_open].
    + rewrite lookup_insert_eq. exists k, i. split; [done|]. split; [done|].
      destruct Hh as (i' & Hk' & _ & _ & Hv & _). assert (i' = i) as ->.
      { destruct Hk as [E _], Hk' as [E' _]. congruence. }
      pose proof (m_same _ _ _ _ _ _ _ Hm) as [Hc' V _].
      change (linksCount (getDiskINodeData i) <> 0).
      by rewrite (inode_view_unique _ _ _ _ _ _ (fs_cache _ _ _ _ Hfs) (proj1 (V _ _ Hn) Hv) Hd).
    + rewrite lookup_insert_ne by done. eapply stands_for_kept; [done|by eapply moves_kept|done|by apply Ht].
Qed.

Lemma release_serves s T T' path flags fd ctx r :
  models s T -> release T fd = Some (r, T') ->
  wp (serve (Release path flags fd ctx)) s (fun v s' => v = r /\ models s' T').
Proof.
  intros (F & Q & l & Hps). pose proof Hps as [Hts Hf Ht]. unfold release.
  destruct (t_open T !! fd) as [n|] eqn:En; [|done]. cbn [mbind option_bind]. intros [= <- <-].
  destruct (opened_entry _ _ _ _ _ Hps fd n En) as (e & k & i & He & Ho & Hk & _).
  cbn [serve]. unfold release_callback. apply wp_bind, wp_bind.
  eapply wp_mono; [eapply (closeFile_spec 1 s F Q n k fd e); try done; by eapply opened_in_hand|].
  intros v s' (-> & Htab & F' & _ & Hf' & Hm). apply wp_ret, wp_ret. split; [done|].
  exists F', Q, l. split; [|done|].
  - eapply tree_state_opens; [exact Hts|exact Hm|intros m; by apply open_count_delete|].
    destruct (ts_open _ _ _ _ _ Hts) as [Hfd Hsz]. split; cbn [set_open t_open t_nodes].
    + intros j m [_ Hj]%lookup_delete_Some. exact (Hfd j m Hj).
    + etransitivity; [|exact Hsz]. apply subseteq_size, map_img_delete_subseteq.
  - rewrite Htab. intros j e' [(-> & <- & _)|[Hj He']]%list_lookup_insert_Some; cbn [set_open t_open].
    + by rewrite lookup_delete_eq.
    + rewrite lookup_delete_ne by done. eapply stands_for_kept; [done|by eapply moves_kept|done|by apply Ht].
Qed.

(** * Writing and reading *)

(** A new offset in an entry does not matter. *)
Lemma table_shows_offset c Q t O fd e off :
  table_shows c Q t O -> t !! fd = Some e -> table_shows c Q (<[fd := fte_set_offset off e]> t) O.
Proof.
  intros Ht He j x [(-> & <- & _)|[_ Hj]]%list_lookup_insert_Some; [|by apply Ht]. exact (Ht j e He).
Qed.

(** The open file behind a descriptor. *)
Lemma opened_bytes s F Q l T fd n a bs :
  process_state s F Q l T -> opened_node T fd = Some (n, a) -> a_content a = Bytes bs ->
  exists e k i, fileTable s !! fd = Some e /\ opened k e /\ caches (cache s) Q n k i /\ ic_linksCount i <> 0 /\
    inode_num n /\ inode_view (cache s) Q n (getDiskINodeData i) /\ t_nodes T !! n = Some a /\
    a = node_of (ds (cache s)) (getDiskINodeData i) /\ S_ISDIR (ic_file_mode i) = false /\
    bs = file_data (ds (cache s)) (ic_dataBlockNums i) (ic_size i) /\ ic_size i = Z.of_nat (length bs) /\
    file_ok (ds (cache s)) l i.
Proof.
  intros Hps Hn Hb. unfold opened_node in Hn. destruct (t_open T !! fd) as [m|] eqn:Em; [|done]. cbn [mbind option_bind] in Hn.
  destruct (t_nodes T !! m) as [a'|] eqn:Ea; [|done]. injection Hn as -> ->.
  destruct (opened_entry _ _ _ _ _ Hps fd n Em) as (e & k & i & He & Ho & Hk & _ & Hl & Hnum & Hv).
  pose proof Hps as [Hts _ _]. destruct (file_view _ _ _ _ _ _ _ _ Hts Ea Hb) as (d & _ & Hd & _ & E1 & E2 & E3 & E4 & E5).
  pose proof (inode_view_unique _ _ _ _ _ _ (fs_cache _ _ _ _ (ts_fs _ _ _ _ _ Hts)) Hv Hd) as <-.
  exists e, k, i. do 11 (split; [done|]). exact E5.
Qed.

Lemma write_serves s T T' path flags fd buf o ctx :
  models s T -> write_bytes T fd buf o = Some T' ->
  wp (serve (Write path flags fd buf o ctx)) s (fun v s' => v = Status (Z.of_nat (length buf)) /\ models s' T').
Proof.
  intros (F & Q & l & Hps). pose proof Hps as [Hts Hf Htab]. unfold write_bytes.
  destruct (opened_node T fd) as [[n a]|] eqn:En; [|done]. cbn [mbind option_bind].
  destruct (a_content a) as [|bs] eqn:Ec; [done|]. case_decide as Hg; [|done]. intros [= <-]. destruct Hg as (Hbuf & Hlen & Hcan).
  destruct (opened_bytes _ _ _ _ _ _ _ _ _ Hps En Ec)
    as (e & k & i & He & Ho & Hk & Hl & Hn & Hv & Ha & -> & Hreg & Ebs & Esz & Hfile). rewrite <- Esz in *.
  pose proof (ts_fs _ _ _ _ _ Hts) as Hfs. pose proof (ts_blocks _ _ _ _ _ Hts) as Hbl.
  assert (Forall data_area (l ++ blocks_of (ds (cache s)) i)) as Hda
    by exact (b_area _ _ _ (fs_blocks _ _ _ _ Hfs) n _ Hn Hv).
  cbn [serve]. unfold write_callback. apply wp_bind.
  eapply wp_mono; [apply (writeToFile_writes s F Q l n k i fd e flags ctx buf o); try done|].
  { destruct Hcan as [(-> & Hmax & Hm)|?]; [left|by right]. split; [done|]. unfold room. split; [done|].
    rewrite Z.max_r in Hm by lia. lia. }
  intros v s' (-> & i' & l' & off & Hk' & Ht & Hwr & Hf' & Et & Hu). apply wp_ret. split; [done|].
  pose proof Hwr as (Hfile' & Hre & Es' & Ed' & Hll). rewrite <- Es' in Ed'.
  destruct (write_fs_ok (cache s) F Q l n k i (cache s') i' l' Hfs Hk Hv Hreg Hl Ht)
    as (Hfs' & Hv' & Hothers & Hr'); [done|by apply reworked_rearranged|done|].
  assert (kept 0 (cache s) (cache s') Q Q) as Hkept.
  { apply (updates_kept 0 _ _ _ _ _ _ _ _ _ Hk Hu). by destruct Ht as (_ & -> & _). }
  exists F, Q, l'. split; [|done|].
  - apply (content_state (cache s) F Q l T (cache s') F Q l' n (getDiskINodeData i) (getDiskINodeData i')); try done.
    + by apply touched_attributes.
    + change (file_data (ds (cache s')) (ic_dataBlockNums i') (ic_size i') = memcpy_at bs (Z.to_nat o) buf).
      by rewrite Ed', Ebs.
    + eapply reworked_writes; [exact Hre|exact Hda|by apply (c_area _ _ _ (fs_cache _ _ _ _ Hfs))].
    + lia.
  - rewrite Et. apply table_shows_offset; [|done]. exact (table_shows_kept _ _ _ _ _ Hps _ _ Hkept).
Qed.

(** What FUSE takes out of the buffer. *)
Lemma bytes_read bs o m buf :
  let r := Z.min (Z.of_nat m) (Z.of_nat (length bs) - o) in
  0 <= o <= Z.of_nat (length bs) ->
  take (Z.to_nat r) (memcpy_at buf 0 (bytes_at bs (Z.to_nat o) (Z.to_nat r))) = take m (drop (Z.to_nat o) bs).
Proof.
  intros r Ho. unfold memcpy_at, bytes_at. rewrite take_0, app_nil_l, take_app_le, take_take, Nat.min_id.
  - unfold r. destruct (Z.min_spec (Z.of_nat m) (Z.of_nat (length bs) - o)) as [[_ ->]|[Hle ->]].
    + by rewrite Nat2Z.id.
    + rewrite !take_ge; [done|rewrite length_drop; lia..].
  - rewrite length_take, length_drop. lia.
Qed.

Lemma read_serves s T path flags fd o m ctx bs :
  models s T -> read_bytes T fd o m = Some bs ->
  wp (serve (Read path flags fd o m ctx)) s (fun v s' => v = Contents bs /\ models s' T).
Proof.
  intros (F & Q & l & Hps). pose proof Hps as [Hts Hf Htab]. unfold read_bytes.
  destruct (opened_node T fd) as [[n a]|] eqn:En; [|done]. cbn [mbind option_bind].
  destruct (a_content a) as [|bs0] eqn:Ec; [done|]. case_decide as Hg; [|done]. intros [= <-]. destruct Hg as (Hm & Ho).
  destruct (opened_bytes _ _ _ _ _ _ _ _ _ Hps En Ec)
    as (e & k & i & He & Hoe & Hk & _ & _ & _ & _ & _ & _ & Ebs & Esz & Hfile).
  assert (0 <= o <= ic_size i) as Hoi by (destruct Ho; lia).
  cbn [serve]. unfold read_callback. apply wp_bind.
  pose proof (readFile_spec s F Q l n k i fd e flags ctx (replicate m 0) o) as Hread. cbv zeta in Hread.
  rewrite length_replicate in Hread. set (r := Z.min (Z.of_nat m) (ic_size i - o)) in *.
  assert (0 <= r) as Hr0 by (unfold r; lia).
  eapply wp_mono; [apply Hread; try done|].
  { destruct Ho as [?|(_ & ? & ? & ?)]; [by left|right]. split_and!; [done|done|lia]. }
  intros v s' (-> & Ec' & off & Et). apply wp_ret. rewrite (proj2 (Z.ltb_ge _ _)) by done. split.
  - f_equal. rewrite (file_range_data _ _ _ _ (ic_size i)), <- Ebs by lia. unfold r. rewrite Esz. apply bytes_read. lia.
  - pose proof (files_ok_offset s F Q fd e off Hf He) as Hf'. destruct s' as [c' t']. cbn in Ec', Et. subst c' t'.
    exists F, Q, l. split; [done|done|]. by apply table_shows_offset.
Qed.

(** * Descriptors that stand for nothing *)

Lemma closed_descriptor s F Q l T fd pid :
  process_state s F Q l T -> closed T fd ->
  getFileDescriptor pid (i32 (Z.of_nat fd)) s = Ret (inl (- EBADF)) s.
Proof.
  intros [_ Hf Htab] [Hno Hlt]. unfold getFileDescriptor. rewrite i32_id by lia.
  destruct (MAX_FILE_DESCRIPTORS <=? Z.of_nat fd) eqn:E; [done|]. apply Z.leb_gt in E.
  rewrite (proj2 (Z.ltb_ge _ _)) by lia. rewrite Nat2Z.id.
  destruct (lookup_lt_is_Some_2 (fileTable s) fd) as [e He]; [rewrite (f_size _ _ _ Hf); lia|].
  rewrite (bind_Ret _ _ _ _ _ (get_entry_Ret _ _ _ He)). specialize (Htab fd e He). rewrite Hno in Htab.
  cbn [stands_for] in Htab. by rewrite Htab.
Qed.

Lemma not_open_inv T fd v r : not_open T fd v = Some r -> closed T fd /\ r = Status v.
Proof. unfold not_open. case_decide; [|done]. by intros [= <-]. Qed.

Lemma release_closed s T path flags fd ctx :
  models s T -> closed T fd ->
  wp (serve (Release path flags fd ctx)) s (fun v s' => v = Status 0 /\ models s' T).
Proof.
  intros (F & Q & l & Hps) Hcl. cbn [serve]. unfold release_callback, closeFile. cbn [fi_fh].
  apply wp_bind, wp_bind, wp_bind. eapply wp_Ret; [by eapply closed_descriptor|]. apply wp_ret, wp_ret, wp_ret.
  split; [done|]. by exists F, Q, l.
Qed.

Lemma read_closed s T path flags fd o m ctx :
  models s T -> closed T fd ->
  wp (serve (Read path flags fd o m ctx)) s (fun v s' => v = Status (- EBADF) /\ models s' T).
Proof.
  intros (F & Q & l & Hps) Hcl. cbn [serve]. unfold read_callback, readFile. cbn [fi_fh].
  apply wp_bind, wp_bind. eapply wp_Ret; [by eapply closed_descriptor|]. apply wp_ret, wp_ret.
  split; [done|]. by exists F, Q, l.
Qed.

Lemma write_closed s T path flags fd buf o ctx :
  models s T -> closed T fd ->
  wp (serve (Write path flags fd buf o ctx)) s (fun v s' => v = Status (-1) /\ models s' T).
Proof.
  intros (F & Q & l & Hps) Hcl. cbn [serve]. unfold write_callback, writeToFile. cbn [fi_fh].
  apply wp_bind, wp_bind. eapply wp_Ret; [by eapply closed_descriptor|]. apply wp_ret, wp_ret.
  split; [done|]. by exists F, Q, l.
Qed.

(** The code does not fill the gap that such a write would leave. *)
Lemma write_behind_end s T path flags fd buf o ctx r :
  models s T -> behind_end T fd o = Some r ->
  wp (serve (Write path flags fd buf o ctx)) s (fun v s' => v = r /\ models s' T).
Proof.
  intros (F & Q & l & Hps). pose proof Hps as [Hts Hf Htab]. unfold behind_end.
  destruct (opened_node T fd) as [[n a]|] eqn:En; [|done]. cbn [mbind option_bind].
  destruct (a_content a) as [|bs] eqn:Ec; [done|]. case_decide as Ho; [|done]. intros [= <-].
  destruct (opened_bytes _ _ _ _ _ _ _ _ _ Hps En Ec)
    as (e & k & i & He & [Hv Hi] & Hk & _ & _ & _ & _ & _ & _ & _ & Esz & _).
  pose proof Hk as (Hik & _ & _). pose proof (c_quiet _ _ _ (f_cache _ _ _ Hf) _ _ Hik) as Hq.
  cbn [serve]. unfold write_callback, writeToFile. cbn [fi_fh]. apply wp_bind, wp_bind.
  eapply wp_Ret; [by eapply getFileDescriptor_valid; [apply Hf|..]|]. cbn iota.
  apply wp_bind. eapply wp_Ret; [by apply get_entry_Ret|]. rewrite Hi.
  apply wp_bind. eapply wp_Ret; [by apply on_cache_same|].
  apply wp_bind. eapply wp_Ret; [apply on_cache_Ret; by apply inode_lock_Ret|].
  fold (held_inode k i (cache s)).
  apply wp_bind. eapply wp_Ret; [apply on_cache_same, get_inode_Ret; by eapply inode_at_set_eq|].
  rewrite (u64_id o) by (unfold is_u64; lia). change (ic_size (ic_set_mutex true i)) with (ic_size i).
  rewrite Esz, (proj2 (Z.ltb_lt _ _)) by lia.
  apply wp_bind. eapply wp_Ret; [apply on_cache_Ret; by apply unlock_held_inode|]. apply wp_ret, wp_ret.
  split; [done|]. exists F, Q, l. by destruct s.
Qed.

End open_files.
