(* ===== verification/Sessions.v ===== *)
(** Requests and sessions: what FUSE asks for, one call after the other, from the
    start of the program on. *)

From S2P Require Export FreshSystem OpenFiles.

(** A program whose first part is known. *)
Lemma wp_unbind {S A B} (m : M S A) (k : A -> M S B) s Q :
  wp (bind m k) s Q -> wp m s (fun a s' => wp (k a) s' Q).
Proof. unfold wp, bind. by destruct (m s). Qed.

Section sessions.
Context `{BlockStore ok} `{shifts : !DefinedShifts}.
Local Abbreviation cache_ok := (cache_ok (ok := ok)).
Local Abbreviation moves := (moves (ok := ok)).
Local Abbreviation fs_ok := (fs_ok (ok := ok)).
Local Abbreviation file_ok := (file_ok (ok := ok)).
Local Abbreviation files_ok := (files_ok (ok := ok)).
Local Abbreviation tree_state := (tree_state (ok := ok)).
Local Abbreviation becomes := (becomes (ok := ok)).
Local Abbreviation process_state := (process_state (ok := ok)).
Local Abbreviation models := (models (ok := ok)).

(** What a request needs of the memory: a name that is put into a directory is
    read as 62 bytes, from its own buffer or from what is behind it (the names of
    the entries of a new directory always from there), and a name is removed with
    an entry whose number [malloc] returned and of which only two bytes are set.
    The other requests need nothing. *)
Definition memory_serves (r : request) : Prop :=
  match r with
  | Mkdir dir file _ _ => names_readable T_DIRECTORY (dir ++ file)
  | Create dir file _ _ _ => names_readable T_REGULAR (dir ++ file)
  | Unlink _ _ | Rmdir _ _ => clean_malloc
  | Rename _ _ dir2 file2 => name_readable (length (dir2 ++ file2) + 1) /\ clean_malloc
  | _ => True
  end.

(** No file is open. *)
Definition all_closed (t : list fileTableEntry) : Prop :=
  length t = Z.to_nat MAX_FILE_DESCRIPTORS /\ Forall (fun e => validEntry e = false) t.

Lemma closed_opens t k : Forall (fun e => validEntry e = false) t -> opens t k = 0.
Proof.
  induction 1 as [|e t He _ IH]; [done|]. rewrite opens_cons, IH. unfold counts.
  rewrite decide_False; [done|]. intros [E _]. congruence.
Qed.

Lemma closed_models s F Q l T :
  tree_state (cache s) F Q l T -> all_closed (fileTable s) -> t_open T = ∅ -> models s T.
Proof.
  intros Hts [Hsz Hcl] Eo. pose proof (fs_cache _ _ _ _ (ts_fs _ _ _ _ _ Hts)) as Hc. exists F, Q, l. split; [done| |].
  - split; [done|done| |].
    + intros fd e He Hv. rewrite Forall_lookup in Hcl. specialize (Hcl fd e He). cbv beta in Hcl. congruence.
    + intros k. by rewrite closed_opens.
  - intros fd e He. rewrite Eo, lookup_empty. rewrite Forall_lookup in Hcl. exact (Hcl fd e He).
Qed.

(** * The requests *)

(** A call that works on the cache, and opens and closes nothing. *)
Lemma models_on_cache (m : IM Z) s T T' :
  models s T -> t_open T' = t_open T ->
  (forall F Q l, tree_state (cache s) F Q l T -> wp m (cache s) (fun v s' => v = 0 /\ becomes (cache s) Q s' T')) ->
  wp (let* v := on_cache m in ret (Status v)) s (fun r s' => r = Status 0 /\ models s' T').
Proof.
  intros (F & Q & l & Hps) Eo Hm. apply wp_bind, wp_on_cache. eapply wp_mono; [eapply Hm; apply Hps|].
  intros v c (-> & Hb). apply wp_ret. split; [done|]. by eapply becomes_models.
Qed.

Lemma getattr_serves s T path r :
  models s T -> attributes T path = Some r ->
  wp (serve (Getattr path)) s (fun v s' => v = r /\ models s' T).
Proof.
  intros (F & Q & l & Hps). pose proof (ps_tree _ _ _ _ _ Hps) as Hts. unfold attributes.
  destruct (resolve T 0 (path_names path)) as [n|] eqn:En; [|done]. cbn [mbind option_bind].
  destruct (t_nodes T !! n) as [a|] eqn:Ea; [|done]. cbn [mbind option_bind].
  case_decide as Hg; [|done]. intros [= <-]. destruct Hg as [Hp Hne]. pose proof (ts_fs _ _ _ _ _ Hts) as Hfs.
  cbn [serve]. unfold getattr_callback. apply wp_bind, wp_on_cache.
  eapply wp_mono; [eapply (attrPopulate_spec 1 ltac:(lia) (cache s) F Q l path zero_stat (Some n)); try done; try apply Hfs|].
  { pose proof (free_nodes _ _ _ _ _ Hts). lia. }
  { intros m c Hm Hc. by eapply (few _ _ _ _ _ Hts). }
  { by eapply resolve_walks. }
  intros v c ((F' & Q' & Hm) & d & Hd & ->). apply wp_ret. split.
  - destruct (node_view _ _ _ _ _ Hts n a Ea) as (d' & _ & Hd' & _ & Eda).
    rewrite (inode_view_unique _ _ _ _ _ _ (fs_cache _ _ _ _ Hfs) Hd' Hd) in Eda. change (0 =? 0) with true. cbn iota.
    cbn [stat_of st_mode st_uid st_gid st_size]. destruct (a_content a) as [es|bs] eqn:Ec.
    + destruct (directory_view _ _ _ _ _ Hts n es) as (d2 & _ & _ & Hd2 & _ & _ & _ & Esz).
      { unfold entries_at. rewrite Ea. cbn [mbind option_bind]. by rewrite Ec. }
      rewrite (inode_view_unique _ _ _ _ _ _ (fs_cache _ _ _ _ Hfs) Hd Hd2) in *. by rewrite Eda, Esz.
    + destruct (file_view _ _ _ _ _ n a bs Hts Ea Ec) as (d2 & _ & Hd2 & _ & _ & _ & _ & Esz & _).
      rewrite (inode_view_unique _ _ _ _ _ _ (fs_cache _ _ _ _ Hfs) Hd Hd2) in *. by rewrite Eda, Esz.
  - eapply becomes_models; [done|by eapply moves_becomes|done..].
Qed.

Lemma readdir_serves s T path ns :
  models s T -> list_names T path = Some ns ->
  wp (serve (Readdir path)) s (fun v s' => v = Names ns /\ models s' T).
Proof.
  intros (F & Q & l & Hps) Hn. cbn [serve]. unfold readdir_callback. apply wp_bind.
  eapply wp_mono; [by eapply list_names_implements; [apply Hps|]|]. intros [v names] s' (Et & Ev & <- & Hb).
  cbn [fst snd] in Ev. subst v. apply wp_ret. split; [done|]. by eapply becomes_models.
Qed.

Lemma create_serves s T T1 T' dir file mode fi ctx r :
  models s T -> make_node T_REGULAR T dir file mode ctx = Some T1 -> open_path T1 (dir ++ file) = Some (r, T') ->
  names_readable T_REGULAR (dir ++ file) ->
  wp (serve (Create dir file mode fi ctx)) s (fun v s' => v = r /\ models s' T').
Proof.
  intros (F & Q & l & Hps) Hr Ho Hrd. cbn [serve]. unfold create_callback. apply wp_bind, wp_bind, wp_on_cache.
  eapply wp_mono; [eapply (make_node_implements T_REGULAR); [by left|apply Hps|done..]|].
  intros v c (-> & Hb). change (negb (0 =? 0)) with false. cbn iota.
  eapply wp_mono; [eapply (open_serves (set_cache c s) T1); [|exact Ho]|].
  - eapply becomes_models; [done|exact Hb|done|by eapply make_node_open].
  - intros [v fi'] s' [<- Hs']. by apply wp_ret.
Qed.

Lemma open_callback_serves s T T' path fi ctx r :
  models s T -> open_path T path = Some (r, T') ->
  wp (serve (Open path fi ctx)) s (fun v s' => v = r /\ models s' T').
Proof.
  intros Hs Ho. cbn [serve]. unfold open_callback. apply wp_bind.
  eapply wp_mono; [by eapply open_serves|]. intros v s' [<- Hs']. by apply wp_ret.
Qed.

Lemma truncate_serves s T T' path new :
  models s T -> set_size T path new = Some T' ->
  wp (serve (Truncate path new)) s (fun v s' => v = Status 0 /\ models s' T').
Proof.
  intros (F & Q & l & Hps) Hn. cbn [serve]. apply wp_bind.
  eapply wp_mono; [by eapply set_size_implements; [apply Hps|]|]. intros v s' (-> & Et & Hb).
  apply wp_ret. split; [done|]. eapply becomes_models; [done..|by eapply set_size_open].
Qed.

(** [main.c] does not look at what [changeMode] and [changeOwner] return. *)
Lemma alter_serves s T T' path f g h :
  models s T -> alter_node T path h = Some T' -> sound_change f g -> changes_node g h ->
  wp (let* v := (on_cache (change_at path f) ;;; ret 0) in ret (Status v)) s (fun v s' => v = Status 0 /\ models s' T').
Proof.
  intros (F & Q & l & Hps) Ha Hf Hg. apply wp_bind, wp_bind, wp_on_cache.
  eapply wp_mono; [by eapply alter_node_implements; [apply Hps|..]|]. intros v c (_ & Hb). apply wp_ret, wp_ret.
  split; [done|]. eapply becomes_models; [done..|by eapply alter_node_open].
Qed.

Lemma serve_permitted s T T' r v :
  models s T -> memory_serves r -> permit T r = Some (v, T') -> wp (serve r) s (fun v' s' => v' = v /\ models s' T').
Proof.
  intros Hs Hmem Hr. destruct r; cbn [permit memory_serves] in Hr, Hmem; unfold answer in Hr; try (case_decide as Hg; [|done]);
    try (match type of Hr with (?m ≫= _) = _ => destruct m eqn:E; [|done] end;
      cbn [mbind option_bind] in Hr; try (injection Hr as <- <-)).
  - by apply getattr_serves.
  - apply (models_on_cache _ _ T); [done|by eapply make_node_open|]. intros F Q l Hts.
    eapply (make_node_implements T_DIRECTORY); [by right|done..].
  - by eapply create_serves.
  - by eapply open_callback_serves.
  - by eapply write_serves.
  - by apply read_serves.
  - by eapply release_serves.
  - apply (models_on_cache _ _ T); [done|by eapply drop_name_open|]. intros F Q l Hts. by eapply drop_name_implements.
  - apply (models_on_cache _ _ T); [done|by eapply drop_directory_open|]. intros F Q l Hts.
    by eapply drop_directory_implements.
  - destruct Hmem as [Hrd Hmal]. destruct (move_name T dir1 file1 dir2 file2) as [T1|] eqn:Em.
    + injection E as ->. apply (models_on_cache _ _ T); [done|by eapply move_name_open|]. intros F Q l Hts.
      by eapply move_name_implements.
    + apply (models_on_cache _ _ T); [done|by eapply move_over_open|]. intros F Q l Hts. by eapply move_over_implements.
  - by apply readdir_serves.
  - by eapply alter_serves; [done|done|apply changeMode_sound|apply new_mode_node].
  - destruct Hg. by eapply alter_serves; [done|done|apply changeOwner_sound|apply new_owner_node].
  - by apply (truncate_serves s T).
Qed.

(** * Requests that fail *)

Lemma open_lost s T path fi ctx :
  models s T -> lost T path ->
  wp (serve (Open path fi ctx)) s (fun v s' => v = Status (- ENOENT) /\ models s' T).
Proof.
  intros (F & Q & l & Hps) (Hp & Hne & Hl). pose proof Hps as [Hts Hf _]. pose proof (ts_fs _ _ _ _ _ Hts) as Hfs.
  cbn [serve]. unfold open_callback. apply wp_bind.
  eapply wp_mono; [eapply (openFile_spec 1 ltac:(lia) s F Q l path fi ctx None); try done; try apply Hfs|].
  - pose proof (free_nodes _ _ _ _ _ Hts). lia.
  - intros m c Hm Hc. by eapply (few _ _ _ _ _ Hts).
  - by eapply lost_walks.
  - intros [v fi'] s' (E & Et & F' & Q' & _ & Hm). injection E as -> ->. apply wp_ret. split; [done|].
    eapply becomes_models; [done|by eapply moves_becomes|done..].
Qed.

Lemma lost_reply_inv T path v r : lost_reply T path v = Some r -> lost T path /\ r = Status v.
Proof. unfold lost_reply. case_decide; [|done]. by intros [= <-]. Qed.

Lemma no_parent_inv T dir file v r : no_parent T dir file v = Some r -> proper dir file /\ lost T dir /\ r = Status v.
Proof. unfold no_parent. case_decide; [|done]. by intros [? ->]%lost_reply_inv. Qed.

(** A call that fails on the cache. *)
Lemma fails_on_cache (m : IM Z) s T r :
  models s T -> (forall F Q l, tree_state (cache s) F Q l T -> wp m (cache s) (fun v s' => r = Status v /\ becomes (cache s) Q s' T)) ->
  wp (let* v := on_cache m in ret (Status v)) s (fun v s' => v = r /\ models s' T).
Proof.
  intros (F & Q & l & Hps) Hm. apply wp_bind, wp_on_cache. eapply wp_mono; [eapply Hm; apply Hps|].
  intros v c [-> Hk]. apply wp_ret. split; [done|]. by eapply becomes_models.
Qed.

Lemma readdir_lost s T path : 
  models s T -> lost T path -> wp (serve (Readdir path)) s (fun v s' => v = Status (-1) /\ models s' T).
Proof.
  intros (F & Q & l & Hps) Hl. cbn [serve]. unfold readdir_callback, readDirectory.
  apply wp_bind, wp_bind, wp_on_cache. eapply wp_mono; [by eapply lost_lookup; [apply Hps|]|]. intros o c [-> Hk].
  apply wp_ret, wp_ret. split; [done|]. by eapply becomes_models.
Qed.

Lemma truncate_lost s T path new :
  models s T -> lost T path -> wp (serve (Truncate path new)) s (fun v s' => v = Status (- ENOENT) /\ models s' T).
Proof.
  intros (F & Q & l & Hps) Hl. cbn [serve]. unfold truncate_callback, truncateFile.
  apply wp_bind, wp_bind, wp_on_cache. eapply wp_mono; [by eapply lost_lookup; [apply Hps|]|]. intros o c [-> Hk].
  apply wp_ret, wp_ret. split; [done|]. by eapply becomes_models.
Qed.

Lemma change_lost s T path f :
  models s T -> lost T path ->
  wp (let* v := (on_cache (change_at path f) ;;; ret 0) in ret (Status v)) s (fun v s' => v = Status 0 /\ models s' T).
Proof.
  intros (F & Q & l & Hps) Hl. apply wp_bind, wp_bind, wp_on_cache.
  eapply wp_mono; [by eapply lost_change; [apply Hps|]|]. intros v c Hk.
  apply wp_ret, wp_ret. split; [done|]. by eapply becomes_models.
Qed.

Lemma getattr_lost s T path :
  models s T -> lost T path -> wp (serve (Getattr path)) s (fun v s' => v = Status (- ENOENT) /\ models s' T).
Proof.
  intros (F & Q & l & Hps) Hl. cbn [serve]. unfold getattr_callback. apply wp_bind, wp_on_cache.
  eapply wp_mono; [by eapply lost_attributes; [apply Hps|]|]. intros v c [-> Hk].
  apply wp_ret. split; [done|]. by eapply becomes_models.
Qed.

Lemma create_lost s T dir file mode fi ctx :
  models s T -> proper dir file -> lost T dir ->
  wp (serve (Create dir file mode fi ctx)) s (fun v s' => v = Status (-1) /\ models s' T).
Proof.
  intros (F & Q & l & Hps) Hp Hl. cbn [serve]. unfold create_callback. apply wp_bind, wp_bind, wp_on_cache.
  eapply wp_mono; [eapply (lost_create (cache s) F Q l T); [apply Hps|by left|done..]|].
  intros v c [-> Hk]. apply wp_ret, wp_ret. split; [done|]. by eapply becomes_models.
Qed.

Lemma serve_refused s T r v :
  models s T -> refuse T r = Some v -> wp (serve r) s (fun v' s' => v' = v /\ models s' T).
Proof.
  intros Hs Hr. destruct r; cbn [refuse] in Hr; try apply lost_reply_inv in Hr as [Hl ->];
    try apply no_parent_inv in Hr as (Hp & Hl & ->); try apply not_open_inv in Hr as [Hcl ->].
  - by apply getattr_lost.
  - apply fails_on_cache; [done|]. intros F Q l Hts.
    eapply wp_mono; [by eapply (lost_create _ _ _ _ _ Hts T_DIRECTORY); [right|..]|]. by intros v s' [-> Hk].
  - by apply create_lost.
  - by apply open_lost.
  - destruct (not_open T fd (-1)) as [v'|] eqn:E; [|by apply write_behind_end].
    injection Hr as ->. apply not_open_inv in E as [Hcl ->]. by apply write_closed.
  - by apply read_closed.
  - by apply release_closed.
  - apply fails_on_cache; [done|]. intros F Q l Hts. destruct (no_parent T dir file (- ENOENT)) as [v'|] eqn:E.
    + injection Hr as ->. apply no_parent_inv in E as (Hp & Hl & ->).
      eapply wp_mono; [by eapply lost_unlink|]. by intros v s' [-> Hk].
    + unfold no_name in Hr. destruct (locate T dir) as [[p es]|] eqn:Eloc; [|done]. cbn [mbind option_bind] in Hr.
      case_decide as Hg; [|done]. injection Hr as <-. destruct Hg as (Hp & Hes & Hlook).
      eapply wp_mono; [by eapply unlink_no_name|]. by intros v s' [-> Hk].
  - apply fails_on_cache; [done|]. intros F Q l Hts. by eapply rmdir_refused.
  - apply fails_on_cache; [done|]. intros F Q l Hts.
    eapply wp_mono; [by eapply lost_source|]. by intros v s' [-> Hk].
  - by apply readdir_lost.
  - by apply change_lost.
  - by apply change_lost.
  - by apply truncate_lost.
Qed.

Lemma serve_implements s T T' r v :
  models s T -> memory_serves r -> request_step T r = Some (v, T') -> wp (serve r) s (fun v' s' => v' = v /\ models s' T').
Proof.
  intros Hs Hmem. unfold request_step. destruct (permit T r) as [res|] eqn:E.
  - intros [= ->]. by eapply serve_permitted.
  - destruct (refuse T r) as [v'|] eqn:E'; [|done]. intros [= -> <-]. by apply serve_refused.
Qed.

(** And so for a whole session. *)
Lemma session_implements s T T' rs vs :
  models s T -> Forall memory_serves rs -> session T rs = Some (vs, T') ->
  wp (serve_all rs) s (fun v s' => v = vs /\ models s' T').
Proof.
  revert s T vs. induction rs as [|r rs IH]; intros s T vs Hs Hmem Hr; cbn [session serve_all] in *.
  - injection Hr as <- <-. by apply wp_ret.
  - apply Forall_cons in Hmem as [Hm Hmem]. destruct (request_step T r) as [[v T1]|] eqn:E; [|done]. cbn [mbind option_bind] in Hr.
    destruct (session T1 rs) as [[vs1 T2]|] eqn:E'; [|done]. cbn [mbind option_bind] in Hr. injection Hr as <- <-.
    apply wp_bind. eapply wp_mono; [by eapply serve_implements|]. intros v' s1 [-> Hs1]. apply wp_bind.
    eapply wp_mono; [by eapply IH|]. intros vs' s' [-> Hs']. by apply wp_ret.
Qed.

(** * The start *)

Definition fresh_tree : atree :=
  ATree {[0 := ANode T_DIRECTORY (Z.lor S_IFDIR 511) 0 0 0 (Entries [])]} (seqZ 1 512) 31440892 ∅.

Lemma fresh_tree_state s F :
  cache_ok s F (fun _ => []) -> new_file_system (ds s) -> held (ds s) = [] ->
  tree_state s F (fun _ => []) all_free fresh_tree.
Proof.
  intros Hc Hnew Hh. pose proof Hnew as (_ & _ & Hil & _). unfold fresh_tree. split; cbn [t_nodes t_numbers t_blocks t_open].
  - by apply fresh_fs_ok.
  - intros m. rewrite open_count_empty. apply no_refs.
  - split; cbn [t_open t_nodes]; [intros fd n Hn; by rewrite lookup_empty in Hn|].
    unfold open_nodes. rewrite map_img_empty, size_empty. lia.
  - done.
  - intros m d Hm Hd. destruct (fresh_root s Hnew) as [r Hr]. destruct (decide (m = 0)) as [->|Hne].
    + rewrite lookup_singleton_eq, (inode_view_unique _ _ _ _ _ _ Hc Hd Hr). split; [by left|]. done.
    + rewrite lookup_singleton_ne by done. rewrite (fresh_view s Hnew m d Hm Hd Hne). unfold inode_num in Hm.
      rewrite initializeINode_lt by lia. done.
  - intros m [a Ha]. apply lookup_singleton_Some in Ha as [<- _]. done.
  - exact Hil.
  - rewrite length_seqZ. split; [lia|]. split; [apply NoDup_seqZ|]. apply Forall_forall. intros n Hn.
    apply elem_of_seqZ in Hn. split; [lia|]. by rewrite lookup_singleton_ne by lia.
  - by rewrite length_all_free.
Qed.

Lemma main_then_session d prog name t rs vs T' :
  take 6 prog <> fsname -> (length name < 20)%nat -> isDiskAvailable d = false -> devName d = None ->
  dev_access name (device d) = true -> length t = Z.to_nat MAX_FILE_DESCRIPTORS ->
  ok (mounted d name) -> new_file_system (mounted d name) -> held d = [] ->
  is_Some stack_word -> Forall memory_serves rs -> session fresh_tree rs = Some (vs, T') ->
  wp (let* started := main [prog; device_arg name] in if started then serve_all rs else ret []) (fresh_process d t)
    (fun v s' => v = vs /\ models s' T').
Proof.
  intros Hp Hn Ha Hd Hacc Ht Hok Hnew Hh Hstack Hmem Hrs. apply wp_bind.
  eapply wp_mono; [apply main_starts; auto using new_inode_area, new_table_sound|]. intros b s (-> & Eds & Hf & Hcl & _).
  eapply session_implements; [|exact Hmem|exact Hrs].
  apply (closed_models s (seq 0 INODE_BUFFER_SIZE) (fun _ => []) all_free); [|split; [apply Hf|done]|done].
  apply fresh_tree_state; [apply Hf|by rewrite Eds|by rewrite Eds].
Qed.

End sessions.
