(* ===== verification/Tools.v ===== *)
(** The command-line tools: [src/mkfs/exec-mkfs.c], which makes a file system
    on a device, and [src/mkfs/diskReader.c], which prints its first blocks.
    What a tool prints is part of its result. *)

From S2P Require Export Sessions.

Section tools.
Context `{Host}.

(** [main] of [exec-mkfs.c]: the exit code. *)
Definition mkfs_main (argv : list (list Z)) : DM Z :=
  match argv with
  | [_; inputDev] =>
      let* retValue := setupDisk inputDev in
      if retValue =? -1 then ret (-1)
      else makeFileSystem ;;; ret 0
  | _ => ret 0
  end.

(** The numbers are printed with [%ld]. *)
Definition printFreeList : DM (list Z) :=
  let* (_, dataBlock) := getDiskBlock FREE_LIST_BLOCK junk_block in
  ret (i64 <$> blkNos (makeFreeDiskListBlock dataBlock)).

Definition printFreeINodeList : DM (list Z) :=
  let* (_, dataBlock) := getDiskBlock INODE_LIST_BLOCK junk_block in
  ret (i64 <$> iNodeNos (makeINodeListBlock dataBlock)).

Definition printAFreeINode (i : iNode) : list Z :=
  [i64 (device_number i); i64 (inode_number i); i64 (linksCount i); type_code (type i)].

(** [listOfINodes] has room for [INODES_PER_BLOCK] inodes; the first one is
    printed. *)
Definition printINodeForSanity : DM (list Z) :=
  let* (_, dataBlock) := getDiskBlock INODE_BLOCKS_HEAD junk_block in
  let* s := get in
  match iNodesList (makeINodesBlock (Z.to_nat (INODES_PER_BLOCK (prm s))) dataBlock) with
  | [] => undefined OutOfBounds
  | i :: _ => ret (printAFreeINode i)
  end.

(** [main] of [diskReader.c]: the numbers that it prints. *)
Definition reader_main (argv : list (list Z)) : DM (list Z) :=
  match argv with
  | [_; inputDev] =>
      let* retValue := setupDisk inputDev in
      if retValue =? -1 then ret []
      else
        let* l1 := printFreeList in
        let* l2 := printFreeINodeList in
        let* l3 := printINodeForSanity in
        ret (l1 ++ l2 ++ l3)
  | _ => ret []
  end.

(** A process that has just been started on a device. *)
Definition started_on (dv : dev) (d : dstate) : Prop :=
  isDiskAvailable d = false /\ devName d = None /\ held d = [] /\ device d = dv.

End tools.

(** * Making a file system and using it *)

Section format.
Context `{Host} (dev_ok : Z -> dev -> Prop) `{!DeviceLaws dev_ok} `{!DefinedShifts}.
Local Abbreviation dev_fs := (device_ok dev_ok).

Lemma mkfs_main_formats d prog name dv :
  started_on dv d -> dev_access name dv = true -> dev_ok (NUM_OF_BLOCKS std_params) dv ->
  wp (mkfs_main [prog; name]) d (fun v d' => v = 0 /\
    dev_fs d' /\ new_file_system d' /\ isDiskAvailable d' = true /\ held d' = []).
Proof.
  intros (Ha & Hn & Hh & <-) Hacc Hdev. unfold mkfs_main. apply wp_bind.
  eapply wp_Ret; [rewrite (setupDisk_Ret d name Ha Hn), Hacc; reflexivity|].
  change (0 =? -1) with false. cbn iota. apply wp_bind. eapply wp_mono; [apply (makeFileSystem_spec (ok := dev_fs))|].
  - by split_and!.
  - done.
  - cbn [held]. rewrite Hh. apply not_elem_of_nil.
  - intros _ s' (Hok & Hnew & (E1 & _ & _ & E4)). apply wp_ret. split_and!; try done. by rewrite E4.
Qed.

(** What is on the device is all that the next process sees. *)
Lemma formatted_mounted d d' name :
  dev_fs d -> new_file_system d -> started_on (device d) d' ->
  dev_fs (mounted d' name) /\ new_file_system (mounted d' name).
Proof.
  intros Hok Hnew (_ & _ & Hh & E). destruct d as [av nm dv md pr hl tc]. destruct Hok as (Ha & Hd & Hb).
  cbn in Ha, E. subst av dv. unfold mounted. rewrite Hh. pose proof Hnew as (Hp & _). cbn in Hp. subst pr. done.
Qed.

Lemma mkfs_then_session d prog name dv :
  is_Some stack_word -> started_on dv d -> dev_access name dv = true -> dev_ok (NUM_OF_BLOCKS std_params) dv ->
  wp (mkfs_main [prog; name]) d (fun v d' => v = 0 /\
    forall d2 prog2 t rs vs T', started_on (device d') d2 -> take 6 prog2 <> fsname -> (length name < 20)%nat ->
      dev_access name (device d') = true -> length t = Z.to_nat MAX_FILE_DESCRIPTORS ->
      Forall memory_serves rs -> session fresh_tree rs = Some (vs, T') ->
      wp (let* started := main [prog2; device_arg name] in if started then serve_all rs else ret []) (fresh_process d2 t)
        (fun v s' => v = vs /\ models (ok := dev_fs) s' T')).
Proof.
  intros Hm Hs Hacc Hdev. eapply wp_mono; [by apply (mkfs_main_formats d prog name dv)|].
  intros v d' (-> & Hok & Hnew & _). split; [done|]. intros d2 prog2 t rs vs T' Hs2 Hp Hl Hacc2 Ht Hm2 Hrs.
  destruct (formatted_mounted d' d2 name Hok Hnew Hs2) as [Hok2 Hnew2]. destruct Hs2 as (Ha & Hn & Hh & E).
  apply main_then_session; try done. by rewrite E.
Qed.

End format.

(** * What the reader prints *)

(** On a new file system, once [initializeINodeParams] has run. *)
Lemma reader_prints `{BlockStore ok} s :
  ok s -> new_file_system s ->
  printFreeINodeList s = Ret (seqZ 1 512) s /\ printINodeForSanity s = Ret [0; 0; 0; type_code T_DIRECTORY] s.
Proof.
  intros Hok Hnew. destruct (new_inode_area s Hnew) as (_ & Hper & Hcap).
  destruct Hnew as (_ & _ & (b & Hb & El) & _ & (r & Hr) & _). split.
  - unfold printFreeINodeList.
    destruct (store_get s INODE_LIST_BLOCK junk_block Hok) as (b' & _ & Hb' & Hrun).
    { unfold in_disk. consts. lia. }
    rewrite Hb in Hb'. injection Hb' as <-.
    rewrite (bind_Ret _ _ _ _ _ (Hrun junk_block_wf)). cbn beta iota. by rewrite El.
  - unfold printINodeForSanity.
    destruct (store_get s INODE_BLOCKS_HEAD junk_block Hok) as (b' & Hwf & Hb' & Hrun).
    { unfold in_disk. consts. lia. }
    rewrite (bind_Ret _ _ _ _ _ (Hrun junk_block_wf)), bind_get, Hper.
    unfold disk_inode in Hr. change (inode_block 0) with INODE_BLOCKS_HEAD in Hr. rewrite Hb' in Hr.
    apply (inj Some) in Hr. change (Z.to_nat (0 mod 4 * 256)) with 0%nat in Hr. cbn [makeINodesBlock iNodesList seq fmap list_fmap].
    change (Z.to_nat 4) with 4%nat. cbn [seq fmap list_fmap Nat.mul]. by rewrite Hr.
Qed.

(** Without it the number of blocks is 0, and no block can be read. *)
Definition unset_params : params := Params 0 0 0 0.

Section unset.
Context `{Host} (s : dstate).
Context (Hs : isDiskAvailable s = true) (Hp : prm s = unset_params).

Lemma getDiskBlock_unset n buf : 0 <= n -> getDiskBlock n buf s = Ret (-1, buf) s.
Proof.
  intros Hn. apply getDiskBlock_out; [|done]. unfold in_disk, capacity. rewrite Hs, Hp. cbn. lia.
Qed.

Lemma printFreeList_unset : printFreeList s = Ret (i64 <$> blkNos (makeFreeDiskListBlock junk_block)) s.
Proof.
  unfold printFreeList. by rewrite (bind_Ret _ _ _ _ _ (getDiskBlock_unset FREE_LIST_BLOCK junk_block ltac:(done))).
Qed.

Lemma printFreeINodeList_unset : printFreeINodeList s = Ret (i64 <$> iNodeNos (makeINodeListBlock junk_block)) s.
Proof.
  unfold printFreeINodeList. by rewrite (bind_Ret _ _ _ _ _ (getDiskBlock_unset INODE_LIST_BLOCK junk_block ltac:(done))).
Qed.

Lemma printINodeForSanity_unset : printINodeForSanity s = Undef OutOfBounds.
Proof.
  unfold printINodeForSanity. rewrite (bind_Ret _ _ _ _ _ (getDiskBlock_unset INODE_BLOCKS_HEAD junk_block ltac:(done))).
  by rewrite bind_get, Hp.
Qed.

End unset.

(** C38: [diskReader] never calls [initializeINodeParams], so that the number of
    blocks of its process is 0: every block is out of range, what it prints for
    the two lists is the fresh memory of its buffers, whatever the device holds,
    and then it reads the first inode of a buffer of no inodes. *)
Theorem reader_undefined `{Host} d prog name :
  isDiskAvailable d = false -> devName d = None -> prm d = unset_params -> dev_access name (device d) = true ->
  (forall s v, setupDisk name d = Ret v s ->
     printFreeList s = Ret (i64 <$> blkNos (makeFreeDiskListBlock junk_block)) s /\
     printFreeINodeList s = Ret (i64 <$> iNodeNos (makeINodeListBlock junk_block)) s) /\
  reader_main [prog; name] d = Undef OutOfBounds.
Proof.
  intros Ha Hn Hp Hacc. pose proof (setupDisk_Ret d name Ha Hn) as Hs. rewrite Hacc in Hs. split.
  - intros s v Hr. rewrite Hs in Hr. injection Hr as <- <-. split; [by apply printFreeList_unset|by apply printFreeINodeList_unset].
  - unfold reader_main. rewrite (bind_Ret _ _ _ _ _ Hs). change (0 =? -1) with false. cbn iota.
    set (s := DState true _ _ _ _ _ _). assert (isDiskAvailable s = true /\ prm s = unset_params) as [Ha' Hp'] by done.
    rewrite (bind_Ret _ _ _ _ _ (printFreeList_unset s Ha' Hp')), (bind_Ret _ _ _ _ _ (printFreeINodeList_unset s Ha' Hp')).
    unfold bind. by rewrite (printINodeForSanity_unset s Ha' Hp').
Qed.
