(* ===== verification/StringSplit.v ===== *)
(** [string_split] of [src/utils/utils.c], which cuts a string at delimiters
    with [strtok]. A C string is the list of its characters. *)

From S2P Require Export NameiSpec.

(** * [strtok] *)

(** What [strspn] and [strcspn] skip. *)
Fixpoint skip_delimiters (delim s : list Z) : list Z :=
  match s with
  | c :: s' => if decide (c ∈ delim) then skip_delimiters delim s' else s
  | [] => []
  end.

(** The token up to the next delimiter, and what [strtok] remembers: the
    characters behind that delimiter. *)
Fixpoint cut_token (delim s : list Z) : list Z * list Z :=
  match s with
  | c :: s' => if decide (c ∈ delim) then ([], s')
               else let '(t, r) := cut_token delim s' in (c :: t, r)
  | [] => ([], [])
  end.

(** [strtok(s, delim)], and [strtok(NULL, delim)] when [s] is what it
    remembers. *)
Definition strtok (delim s : list Z) : option (list Z) * list Z :=
  match skip_delimiters delim s with
  | [] => (None, [])
  | s' => let '(t, r) := cut_token delim s' in (Some t, r)
  end.

(** * [string_split] *)

Section string_split.
(** Whether the n-th [strdup] finds memory. The copy of the string is the first,
    and the one of the token with the number [i] has the number [i + 1]. *)
Context (strdup_ok : nat -> bool).

(** The array of the caller: [None] for a pointer to memory that is freed. *)
Abbreviation token_array := (list (option (list Z))).

(** [tokens[i++] = temp] *)
Definition store_token {S} (tokens : token_array) (i : nat) (temp : list Z) : M S (token_array * nat) :=
  if (i <? length tokens)%nat then ret (<[i := Some temp]> tokens, Datatypes.S i) else undefined OutOfBounds.

(** What [error] does to the array. *)
Definition free_tokens (i : nat) (tokens : token_array) : token_array := replicate i None ++ drop i tokens.

(** The variables of the loop, and whether it is left for [error]: the token,
    what [strtok] remembers, the array and the counter. *)
Definition split_state : Type := option (list Z) * list Z * token_array * nat * bool.

Definition split_body {S} (delim : list Z) (st : split_state) : M S (ctl split_state) :=
  let '(_, rest, tokens, i, _) := st in
  match strtok delim rest with
  | (None, rest) => ret (Break (None, rest, tokens, i, false))
  | (Some token, rest) =>
      if negb (strdup_ok (Datatypes.S i)) then ret (Break (Some token, rest, tokens, i, true))
      else
        let* (tokens, i) := store_token tokens i token in
        ret (Next (Some token, rest, tokens, i, false))
  end.

(** [strdup] of the null pointer that [strtok] returns when there is no token
    is undefined. *)
Definition string_split {S} (path : list Z) (tokens : token_array) (delim : list Z) : M S (Z * token_array) :=
  if negb (strdup_ok 0) then ret (-1, tokens)
  else
    match strtok delim path with
    | (None, _) => undefined NullDeref
    | (Some token, rest) =>
        if negb (strdup_ok 1) then ret (-1, tokens)
        else
          let* (tokens, i) := store_token tokens 0 token in
          let* r := while_do (Datatypes.S (length path)) (fun '(t, _, _, _, _) => bool_decide (is_Some t))
                      (split_body delim) (Some token, rest, tokens, i, false) in
          let '(_, _, tokens, i, error) := r in
          if error then ret (-1, free_tokens i tokens) else ret (Z.of_nat i, tokens)
    end.

End string_split.

(** * What it computes *)

(** The pieces between delimiters, and those that are not empty. *)
Fixpoint fields (delim s : list Z) : list (list Z) :=
  match s with
  | [] => [[]]
  | c :: s' =>
      if decide (c ∈ delim) then [] :: fields delim s'
      else match fields delim s' with f :: fs => (c :: f) :: fs | [] => [[c]] end
  end.

Definition words (delim s : list Z) : list (list Z) := filter (fun w => w <> []) (fields delim s).

Lemma fields_cons delim s : exists f fs, fields delim s = f :: fs.
Proof.
  destruct s as [|c s]; cbn; [by do 2 eexists|]. case_decide; [by do 2 eexists|].
  destruct (fields delim s); by do 2 eexists.
Qed.

Lemma words_delimiter delim c s : c ∈ delim -> words delim (c :: s) = words delim s.
Proof. intros Hc. unfold words. cbn. by rewrite decide_True by done. Qed.

(** Up to the next delimiter. *)
Lemma fields_cut delim s :
  let '(t, r) := cut_token delim s in
  (length r <= length s)%nat /\ (fields delim s = t :: fields delim r \/ (r = [] /\ fields delim s = [t])).
Proof.
  induction s as [|c s IH]; cbn; [split; [done|by right]|]. case_decide; [split; [lia|by left]|].
  destruct (cut_token delim s) as [t r]. destruct IH as [Hl [->|[-> ->]]]; (split; [cbn; lia|]); [by left|by right].
Qed.

Lemma strtok_words delim s :
  match strtok delim s with
  | (None, _) => words delim s = []
  | (Some t, r) => (length r < length s)%nat /\ words delim s = t :: words delim r
  end.
Proof.
  unfold strtok. induction s as [|c s IH]; cbn [skip_delimiters]; [done|]. case_decide as Hc.
  { rewrite words_delimiter by done. destruct (skip_delimiters delim s) as [|c' s']; [done|].
    destruct (cut_token delim (c' :: s')) as [t r]. destruct IH as [Hl ->]. split; [cbn; lia|done]. }
  cbn [cut_token]. rewrite decide_False by done. pose proof (fields_cut delim s) as Hf.
  destruct (cut_token delim s) as [t r]. destruct Hf as [Hl Hf]. split; [cbn; lia|].
  unfold words. cbn [fields]. rewrite decide_False by done.
  destruct Hf as [->|[-> ->]]; by rewrite filter_cons_True.
Qed.

(** The words go into the array one by one, as long as there is memory. *)
Fixpoint stored {S} (strdup_ok : nat -> bool) (i : nat) (ws : list (list Z)) (tokens : list (option (list Z)))
    : M S (Z * list (option (list Z))) :=
  match ws with
  | [] => ret (Z.of_nat i, tokens)
  | w :: ws =>
      if negb (strdup_ok (Datatypes.S i)) then ret (-1, free_tokens i tokens)
      else let* (tokens, i) := store_token tokens i w in stored strdup_ok i ws tokens
  end.

Lemma split_loop {S} strdup_ok delim fuel rest tokens i t (s : S) :
  (length rest < fuel)%nat ->
  (let* r := while_do fuel (fun '(t, _, _, _, _) => bool_decide (is_Some t)) (split_body strdup_ok delim)
               (Some t, rest, tokens, i, false) in
   let '(_, _, tokens, i, error) := r in
   if error then ret (-1, free_tokens i tokens) else ret (Z.of_nat i, tokens)) s =
  stored strdup_ok i (words delim rest) tokens s.
Proof.
  revert rest tokens i t. induction fuel as [|fuel IH]; intros rest tokens i t Hf; [lia|].
  cbn [while_do]. rewrite bool_decide_true by done. unfold split_body at 1. pose proof (strtok_words delim rest) as Hw.
  destruct (strtok delim rest) as [[t'|] r]; [|by rewrite Hw, !bind_assoc, bind_ret].
  destruct Hw as [Hl ->]. cbn [stored]. destruct (negb (strdup_ok _)); [by rewrite !bind_assoc, bind_ret|].
  unfold store_token. destruct (i <? length tokens)%nat; [|done].
  rewrite !bind_assoc, !bind_ret. apply IH. lia.
Qed.

Lemma string_split_eq {S} strdup_ok path tokens delim (s : S) :
  string_split strdup_ok path tokens delim s =
  if negb (strdup_ok 0%nat) then Ret (-1, tokens) s
  else match words delim path with
       | [] => Undef NullDeref
       | ws => stored strdup_ok 0 ws tokens s
       end.
Proof.
  unfold string_split. destruct (negb (strdup_ok 0%nat)); [done|]. pose proof (strtok_words delim path) as Hw.
  destruct (strtok delim path) as [[t|] r]; [|by rewrite Hw].
  destruct Hw as [Hl ->]. cbn [stored]. destruct (negb (strdup_ok 1%nat)); [done|].
  unfold store_token. destruct (0 <? length tokens)%nat; [|done]. rewrite !bind_ret. apply split_loop. lia.
Qed.

(** All of them. *)
Lemma stored_all {S} strdup_ok i ws tokens (s : S) :
  (forall k, strdup_ok k = true) -> (i <= length tokens)%nat ->
  stored strdup_ok i ws tokens s =
  if (i + length ws <=? length tokens)%nat
  then Ret (Z.of_nat (i + length ws), take i tokens ++ (Some <$> ws) ++ drop (i + length ws) tokens) s
  else Undef OutOfBounds.
Proof.
  intros Hok. revert i tokens. induction ws as [|w ws IH]; intros i tokens Hi; cbn [stored length fmap list_fmap].
  { rewrite Nat.add_0_r, (proj2 (Nat.leb_le _ _)) by done. cbn [app]. by rewrite take_drop. }
  rewrite Hok. cbn [negb]. unfold store_token. destruct (Nat.ltb_spec i (length tokens)) as [Hlt|Hge]; cycle 1.
  { by rewrite (proj2 (Nat.leb_gt _ _)) by lia. }
  rewrite bind_ret, IH, length_insert by (rewrite length_insert; lia).
  replace (Datatypes.S i + length ws)%nat with (i + Datatypes.S (length ws))%nat by lia.
  destruct (_ <=? _)%nat; [|done]. do 2 f_equal. rewrite drop_insert_lt by lia.
  rewrite (take_S_r _ i (Some w)) by (by rewrite list_lookup_insert_eq). rewrite take_insert_ge by lia. by rewrite <- app_assoc.
Qed.

(** Up to the word for which there is no memory. *)
Lemma stored_fails {S} strdup_ok i j ws tokens (s : S) :
  (forall k, (i < k <= i + j)%nat -> strdup_ok k = true) -> strdup_ok (Datatypes.S (i + j)) = false ->
  (j < length ws)%nat -> (i + j <= length tokens)%nat ->
  stored strdup_ok i ws tokens s = Ret (-1, free_tokens (i + j) tokens) s.
Proof.
  revert i tokens ws. induction j as [|j IH]; intros i tokens ws Hok Hno Hj Hi; destruct ws as [|w ws]; cbn [length] in Hj;
    try lia; cbn [stored].
  { rewrite Nat.add_0_r in Hno |- *. by rewrite Hno. }
  rewrite Hok by lia. cbn [negb]. unfold store_token. rewrite (proj2 (Nat.ltb_lt _ _)), bind_ret by lia.
  replace (i + Datatypes.S j)%nat with (Datatypes.S i + j)%nat in * by lia.
  rewrite IH by (try rewrite length_insert; try lia; try done; intros; apply Hok; lia).
  unfold free_tokens. by rewrite drop_insert_lt by lia.
Qed.

(** * The names along a path *)

Lemma fields_component l :
  fields [slash] l = if decide (component l < length l)%nat
    then take (component l) l :: fields [slash] (drop (S (component l)) l) else [l].
Proof.
  induction l as [|c l IH]; cbn [component fields length]; [done|].
  destruct (Z.eqb_spec c slash) as [->|Hne].
  - by rewrite decide_True by set_solver.
  - rewrite decide_False by set_solver. rewrite IH. cbn [drop take].
    repeat case_decide; try lia; done.
Qed.

Lemma split_names_words n l : (length l <= n)%nat -> filter (fun w => w <> []) (split_names n l) = words [slash] l.
Proof.
  revert l. induction n as [|n IH]; intros l Hl; [by destruct l; cbn in Hl; [|lia]|].
  destruct l as [|c l]; [done|]. cbn [split_names]. set (l0 := c :: l) in *. unfold words. rewrite fields_component.
  pose proof (component_le l0) as Hc. case_decide as Hlt.
  - rewrite !filter_cons. rewrite IH by (rewrite length_drop; lia). done.
  - rewrite take_ge, drop_ge by lia. rewrite !filter_cons. by destruct n.
Qed.

Lemma path_names_words path : head path = Some slash -> path_names path = words [slash] path.
Proof.
  destruct path as [|c path]; [done|]. intros [= ->]. unfold path_names. change (drop 1 (slash :: path)) with path. cbn [length].
  rewrite split_names_words by lia. symmetry. by apply words_delimiter, list_elem_of_singleton.
Qed.

(** C31: two ways of taking a path apart agree. For an absolute path that names
    something other than the root, [string_split] at slashes counts and stores
    exactly the names that the lookup of [getFileINode] follows, and leaves the
    rest of the caller's array as it was; with an array that is too short it
    writes behind its end, and for the root it copies a null pointer. When the
    memory for a name is missing it returns -1, and every pointer it has stored
    is freed. *)
Theorem string_split_path_names {S} strdup_ok path tokens (s : S) :
  head path = Some slash ->
  let names := path_names path in
  let n := length names in
  ((forall k, strdup_ok k = true) ->
   string_split strdup_ok path tokens [slash] s =
     if (n =? 0)%nat then Undef NullDeref
     else if (n <=? length tokens)%nat then Ret (Z.of_nat n, (Some <$> names) ++ drop n tokens) s
     else Undef OutOfBounds) /\
  (forall j, (forall k, (k <= j)%nat -> strdup_ok k = true) -> strdup_ok (Datatypes.S j) = false ->
     (j < n)%nat -> (j <= length tokens)%nat ->
     string_split strdup_ok path tokens [slash] s = Ret (-1, replicate j None ++ drop j tokens) s).
Proof.
  intros Hp names n. unfold n, names. rewrite string_split_eq, (path_names_words _ Hp). split.
  - intros Hok. rewrite Hok. cbn [negb]. destruct (words [slash] path) eqn:E; [done|]. rewrite <- E.
    rewrite stored_all by (done || lia). rewrite E. done.
  - intros j Hok Hno Hj Hl. rewrite (Hok 0%nat) by lia. cbn [negb]. destruct (words [slash] path) as [|w ws]; [cbn in Hj; lia|].
    by apply (stored_fails strdup_ok 0 j); [intros; apply Hok; lia|..].
Qed.

(** Of [/ab//c]: with memory for all of it, and with none for the second name. *)
Lemma string_split_path_names_witness :
  string_split (fun _ => true) [slash; 97; 98; slash; slash; 99] [None; None; None] [slash] tt =
    Ret (2, [Some [97; 98]; Some [99]; None]) tt /\
  string_split (fun k => negb (k =? 2)%nat) [slash; 97; 98; slash; slash; 99] [None; None; None] [slash] tt =
    Ret (-1, [None; None; None]) tt.
Proof.
  split.
  - exact (proj1 (string_split_path_names (fun _ => true) [slash; 97; 98; slash; slash; 99] [None; None; None] tt eq_refl)
      (fun _ => eq_refl)).
  - apply (proj2 (string_split_path_names (fun k => negb (k =? 2)%nat) [slash; 97; 98; slash; slash; 99] [None; None; None]
      tt eq_refl) 1%nat); [|done|by apply (bool_decide_unpack _)|cbn; lia].
    intros [|[|k]] Hk; [done|done|lia].
Defined.
