(* ===== verification/Samples.v ===== *)
(** Concrete disks, files and caches on which the theorems are instantiated:
    a memory disk with eight free blocks, one that is exhausted, a small file
    and a small directory, and the device that [makeFileSystem] prepares. *)

From S2P Require Export DirectorySpec FreshSystem.

(** * Memory disks *)

(** The head of the free list points to the empty block 20008, which ends it. *)
Definition some_free : list Z := [20001; 20002; 20003; 20004; 20005; 20006; 20007; 20008].
Definition some_inodes : list Z := replicate 2 0 ++ seqZ 3 510.

Definition disk_with (blocks : gmap Z block) : dstate (H := sim_host) :=
  sim_mem std_params (<[FREE_LIST_BLOCK := enc_words 8 (replicate 120 0 ++ some_free)]>
    (<[INODE_LIST_BLOCK := enc_words 2 some_inodes]> blocks)).

(** No free block, no free inode. *)
Definition exhausted_disk : dstate (H := sim_host) := sim_mem std_params ∅.

(** A memory disk shows what its map has. *)
Lemma view_mem p m n : 0 <= n < 65536 -> view (sim_mem p m) n = Some (mem_get m n).
Proof. intros Hn. unfold view. by rewrite decide_True. Qed.

Lemma disk_with_ok blocks :
  map_Forall (fun _ b => wf_block b) blocks -> mem_ok (disk_with blocks).
Proof. intros Hb. apply sim_mem_ok. do 2 (apply map_Forall_insert_2; [by apply (bool_decide_unpack _); vm_compute|]). done. Qed.

Lemma exhausted_disk_ok : mem_ok exhausted_disk.
Proof. apply sim_mem_ok, map_Forall_empty. Qed.

Lemma disk_with_area blocks : inode_area (disk_with blocks).
Proof. by vm_compute. Qed.

Lemma disk_with_inodes blocks : inode_list (disk_with blocks) some_inodes.
Proof.
  eexists. split; [by apply view_mem|]. unfold mem_get.
  rewrite lookup_insert_ne, lookup_insert_eq by done. by vm_compute.
Qed.

Definition head_block : block := enc_words 8 (replicate 120 0 ++ some_free).

Lemma disk_with_head blocks : view (disk_with blocks) FREE_LIST_BLOCK = Some head_block.
Proof.
  unfold disk_with. rewrite view_mem by done. unfold mem_get. by rewrite lookup_insert_eq.
Qed.

Lemma view_disk_with blocks n :
  n <> FREE_LIST_BLOCK -> n <> INODE_LIST_BLOCK -> 0 <= n < 65536 ->
  view (disk_with blocks) n = Some (mem_get blocks n).
Proof.
  intros H2 H3 Hn. unfold disk_with. rewrite view_mem by done. unfold mem_get.
  by rewrite !lookup_insert_ne.
Qed.

Lemma head_entries : BlockAlloc.entries head_block = replicate 120 0 ++ some_free.
Proof. by vm_compute. Qed.

Lemma zero_entries : BlockAlloc.entries zero_block = replicate 128 0.
Proof. by vm_compute. Qed.

Lemma disk_with_free blocks : blocks !! 20008 = None -> free_list (disk_with blocks) some_free.
Proof.
  intros Hb. exists head_block. split_and!; [apply disk_with_head| |..].
  - rewrite head_entries.
    change (BlockAlloc.chain (view (disk_with blocks)) (replicate 120 0 ++ some_free) some_free).
    replace some_free with (live (replicate 120 0 ++ some_free) ++ []) at 2 by (by vm_compute).
    apply (chain_next _ _ 20008 zero_block); [done|done| | |].
    + exists 120%nat, some_free. split; [done|]. by repeat constructor.
    + rewrite view_disk_with by done. unfold mem_get. by rewrite Hb.
    + rewrite zero_entries. replace (@nil Z) with (live (replicate 128 0)) by apply live_zeros.
      by apply chain_last.
  - apply (bool_decide_unpack _). by vm_compute.
  - simpl. unfold FREE_LIST_BLOCK. lia.
  - repeat constructor; done.
Qed.

Lemma disk_with_room blocks : free_room (disk_with blocks).
Proof. exists head_block. split; [apply disk_with_head|]. right. by rewrite head_entries. Qed.

(** All inodes of these disks are free and cleared. *)
Lemma disk_with_inode blocks n :
  (forall m, 4 <= m < 16388 -> blocks !! m = None) -> inode_num n ->
  disk_inode (disk_with blocks) n = Some zero_iNode.
Proof.
  intros Hb Hn. unfold disk_inode. pose proof (inode_block_below n Hn).
  assert (INODE_BLOCKS_HEAD <= inode_block n) as Hge.
  { unfold inode_block, inode_num in *. pose proof (Z.div_pos n 4). lia. }
  consts. rewrite view_disk_with by (consts; lia). unfold mem_get. rewrite Hb by lia.
  cbn [default]. pose proof (Z.mod_pos_bound n 4 ltac:(lia)) as Hm.
  assert (n mod 4 = 0 \/ n mod 4 = 1 \/ n mod 4 = 2 \/ n mod 4 = 3) as [->|[->|[->| ->]]] by lia;
    by vm_compute.
Qed.

Definition plain_disk : dstate (H := sim_host) := disk_with ∅.

Lemma plain_disk_ok : mem_ok plain_disk.
Proof. apply disk_with_ok, map_Forall_empty. Qed.

Lemma plain_free : free_list plain_disk some_free.
Proof. by apply disk_with_free. Qed.

(** * Files *)

(** A regular file of [size] bytes in the blocks 20101 to 20103. *)
Definition some_file (size : Z) : inCoreiNode :=
  ic_set_links 1 (ic_set_size size
    (ic_set_blocks ([20101; 20102; 20103] ++ replicate 10 0) zero_inCoreiNode)).

(** A directory of two entries and one file, in block 20104. *)
Definition dir_block : block :=
  entry_bytes (name_bytes (H := sim_host) dot) 0 ++ entry_bytes (name_bytes (H := sim_host) dot_dot) 0 ++
  entry_bytes (name_bytes (H := sim_host) [97]) 7 ++ replicate 832 0.
Definition some_dir : inCoreiNode :=
  ic_set_mode (Z.lor S_IFDIR 511) (ic_set_links 2 (ic_set_size 192
    (ic_set_blocks (20104 :: replicate 12 0) zero_inCoreiNode))).

Definition file_disk : dstate (H := sim_host) :=
  disk_with {[20101 := replicate 1024 1; 20102 := replicate 1024 2; 20104 := dir_block]}.

Lemma file_disk_ok : mem_ok file_disk.
Proof. apply disk_with_ok. do 3 (apply map_Forall_insert_2; [by apply (bool_decide_unpack _); vm_compute|]). apply map_Forall_empty. Qed.

Lemma file_disk_free : free_list file_disk some_free.
Proof. by apply disk_with_free. Qed.

Lemma some_file_blocks size :
  0 <= size <= 3072 ->
  file_blocks (addrs file_disk) (ic_dataBlockNums (some_file size)) (nblocks size) =
    take (Z.to_nat (nblocks size)) [20101; 20102; 20103].
Proof.
  intros Hs. pose proof (nblocks_bounds size). change (ic_dataBlockNums _) with ([20101; 20102; 20103] ++ replicate 10 0).
  rewrite file_blocks_direct by lia. rewrite take_app_le; [done|]. simpl. lia.
Qed.

Lemma some_file_ok size :
  0 <= size <= 3072 -> file_ok (ok := mem_ok) file_disk some_free (some_file size).
Proof.
  intros Hs. unfold file_ok. change (ic_size (some_file size)) with size.
  rewrite some_file_blocks by done. set (k := Z.to_nat (nblocks size)).
  assert (take k [20101; 20102; 20103] `prefix_of` [20101; 20102; 20103]) as Hp.
  { exists (drop k [20101; 20102; 20103]). by rewrite take_drop. }
  assert (take k [20101; 20102; 20103] `sublist_of` [20101; 20102; 20103]) as Hsub by (by apply sublist_take).
  split_and!.
  - apply file_disk_ok.
  - apply not_elem_of_nil.
  - apply file_disk_free.
  - eapply sublist_NoDup; [|by apply sublist_app]. apply (bool_decide_unpack _). by vm_compute.
  - apply Forall_take. by repeat constructor.
  - intros Hin. apply (elem_of_sublist _ _ _ Hin) in Hsub.
    revert Hsub. apply (bool_decide_unpack _). by vm_compute.
  - by repeat constructor.
  - done.
  - by repeat constructor.
  - change TRIPLE_INDIRECT_LIMIT with 2113673. simpl. lia.
  - change TRIPLE_INDIRECT_LIMIT with 2113673. simpl. lia.
Qed.

Lemma some_file_shrinkable size :
  0 <= size <= 3072 -> shrinkable (ok := mem_ok) file_disk some_free (some_file size).
Proof.
  intros Hs. split_and!; [by apply some_file_ok|apply not_elem_of_nil|apply disk_with_room|].
  change (ic_size (some_file size)) with size. rewrite some_file_blocks by done.
  intros Hin. apply elem_of_take in Hin as (j & Hj & _).
  do 3 (destruct j as [|j]; [done|]). done.
Qed.

Lemma some_dir_ok : dir_ok (ok := mem_ok) file_disk some_free some_dir.
Proof.
  assert (file_blocks (addrs file_disk) (ic_dataBlockNums some_dir) 1 = [20104]) as Hb.
  { by rewrite file_blocks_direct. }
  split_and!; [|done|done|].
  - unfold file_ok. change (nblocks (ic_size some_dir)) with 1. rewrite Hb.
    split_and!; try done.
    + apply file_disk_ok.
    + apply not_elem_of_nil.
    + apply file_disk_free.
    + apply (bool_decide_unpack _). by vm_compute.
    + by repeat constructor.
    + apply (bool_decide_unpack _). by vm_compute.
    + by repeat constructor.
    + by repeat constructor.
  - assert (dir_list file_disk some_dir =
      [(name_bytes (H := sim_host) dot, 0); (name_bytes (H := sim_host) dot_dot, 0);
       (name_bytes (H := sim_host) [97], 7)]) as ->; [by vm_compute|].
    repeat constructor; try done; apply list_elem_of_In; vm_compute; tauto.
Qed.

(** * A disk with 256 free blocks *)

Definition long_disk_with (blocks : gmap Z block) : dstate (H := sim_host) := sim_mem std_params
  (<[FREE_LIST_BLOCK := enc_words 8 (seqZ 20001 128)]>
    (<[20128 := enc_words 8 (seqZ 20129 128)]> blocks)).

Lemma long_disk_with_ok blocks :
  map_Forall (fun _ b => wf_block b) blocks -> mem_ok (long_disk_with blocks).
Proof.
  intros Hb. apply sim_mem_ok.
  do 2 (apply map_Forall_insert_2; [by apply (bool_decide_unpack _); vm_compute|]). done.
Qed.

Lemma view_long_disk blocks n b :
  0 <= n < 65536 -> <[FREE_LIST_BLOCK := enc_words 8 (seqZ 20001 128)]>
    (<[20128 := enc_words 8 (seqZ 20129 128)]> blocks) !! n = Some b ->
  view (long_disk_with blocks) n = Some b.
Proof. intros Hn Hb. unfold long_disk_with. rewrite view_mem by done. unfold mem_get. by rewrite Hb. Qed.

Lemma long_disk_with_free blocks :
  blocks !! 20256 = None -> free_list (long_disk_with blocks) (seqZ 20001 256).
Proof.
  intros Hb. exists (enc_words 8 (seqZ 20001 128)). split_and!.
  - apply view_long_disk; [done|]. by rewrite lookup_insert_eq.
  - rewrite entries_enc by (apply (bool_decide_unpack _); by vm_compute).
    change (seqZ 20001 256) with (live (seqZ 20001 128) ++ (live (seqZ 20129 128) ++ [])).
    apply (BlockAlloc.chain_next _ _ 20128 (enc_words 8 (seqZ 20129 128))); [done|done| | |].
    + exists 0%nat, (seqZ 20001 128). split; [done|]. apply (bool_decide_unpack _). by vm_compute.
    + apply view_long_disk; [done|]. by rewrite lookup_insert_ne, lookup_insert_eq.
    + rewrite entries_enc by (apply (bool_decide_unpack _); by vm_compute).
      apply (BlockAlloc.chain_next _ _ 20256 zero_block); [done|done| | |].
      * exists 0%nat, (seqZ 20129 128). split; [done|]. apply (bool_decide_unpack _). by vm_compute.
      * unfold long_disk_with. rewrite view_mem by done. unfold mem_get.
        by rewrite !lookup_insert_ne, Hb by done.
      * rewrite zero_entries. replace (@nil Z) with (live (replicate 128 0)) by apply live_zeros.
        by apply BlockAlloc.chain_last.
  - apply NoDup_seqZ.
  - rewrite <- list_elem_of_In, elem_of_seqZ. unfold FREE_LIST_BLOCK. lia.
  - apply Forall_forall. intros x Hx. apply elem_of_seqZ in Hx. change (0 <= x < 65536). lia.
Qed.

(** With a directory of three entries in block 20300. *)
Definition long_dir_disk : dstate (H := sim_host) := long_disk_with {[20300 := dir_block]}.
Definition long_dir : inCoreiNode := ic_set_blocks (20300 :: replicate 12 0) some_dir.

Lemma long_dir_list : dir_list long_dir_disk long_dir =
  [(name_bytes (H := sim_host) dot, 0); (name_bytes (H := sim_host) dot_dot, 0);
   (name_bytes (H := sim_host) [97], 7)].
Proof. by vm_compute. Qed.

Lemma long_dir_blocks : file_blocks (addrs long_dir_disk) (ic_dataBlockNums long_dir) 1 = [20300].
Proof. by rewrite file_blocks_direct. Qed.

Lemma long_dir_ok : dir_ok (ok := mem_ok) long_dir_disk (seqZ 20001 256) long_dir.
Proof.
  split_and!; [|done|done|].
  - unfold file_ok. change (nblocks (ic_size long_dir)) with 1. rewrite long_dir_blocks.
    split_and!; try done.
    + apply long_disk_with_ok. apply map_Forall_insert_2; [apply (bool_decide_unpack _); by vm_compute|].
      apply map_Forall_empty.
    + apply not_elem_of_nil.
    + by apply long_disk_with_free.
    + apply (bool_decide_unpack _). by vm_compute.
    + by repeat constructor.
    + apply (bool_decide_unpack _). by vm_compute.
    + apply Forall_forall. intros x Hx. apply elem_of_seqZ in Hx. unfold is_u64. lia.
    + by repeat constructor.
  - rewrite long_dir_list. repeat constructor; try done; apply list_elem_of_In; vm_compute; tauto.
Qed.

Lemma long_dir_shrinkable : shrinkable (ok := mem_ok) long_dir_disk (seqZ 20001 256) long_dir.
Proof.
  destruct long_dir_ok as (Hf & _). split_and!; [done|apply not_elem_of_nil| |].
  - eexists. split; [apply view_long_disk; [done|by rewrite lookup_insert_eq]|]. right.
    rewrite entries_enc by (apply (bool_decide_unpack _); by vm_compute). done.
  - change (nblocks (ic_size long_dir)) with 1. rewrite long_dir_blocks.
    apply (bool_decide_unpack _). by vm_compute.
Qed.

(** * A formatted device and its cache *)

Definition blank_device : dstate (H := sim_host) := sim_dev std_params ∅.

Lemma blank_device_ok : device_ok sim_dev_ok blank_device.
Proof. apply sim_dev_store; [done|]. apply map_Forall_empty. Qed.

Lemma formatted_device : exists d : dstate (H := sim_host),
  device_ok sim_dev_ok d /\ new_file_system d /\ held d = [] /\ inode_area d /\ table_sound d.
Proof.
  destruct (wp_inv _ _ _ (makeFileSystem_spec (ok := device_ok sim_dev_ok) blank_device
    blank_device_ok ltac:(by vm_compute) ltac:(apply not_elem_of_nil))) as (u & d & _ & Hok & Hnew & He).
  destruct He as (_ & _ & _ & Hh). exists d.
  split_and!; [done|done|done|by apply new_inode_area|by apply new_table_sound].
Qed.

(** The cache that [main] sets up. *)
Definition boot_state (d : dstate (H := sim_host)) : istate := IState d [] None (replicate 8 None).

Local Abbreviation cache_ok := (cache_ok (ok := device_ok sim_dev_ok)).

Lemma booted_cache (d : dstate (H := sim_host)) :
  device_ok sim_dev_ok d -> inode_area d -> table_sound d ->
  exists s, ds s = d /\ cache_ok s (seq 0 INODE_BUFFER_SIZE) (fun _ => []).
Proof.
  intros Hok Ha Ht.
  destruct (wp_inv _ _ _ (boot_cache_ok (ok := device_ok sim_dev_ok) d ltac:(by eexists) Hok Ha Ht)) as (u & s & _ & Hd & Hc & _).
  by exists s.
Qed.

(** Inode [n] in use once. *)
Lemma cached_inode (d : dstate (H := sim_host)) n e :
  device_ok sim_dev_ok d -> inode_area d -> table_sound d -> inode_num n -> disk_inode d n = Some e ->
  exists s F Q k i, ds s = d /\ cache_ok s F Q /\ caches s Q n k i /\ reference_count i = 1 /\
    getDiskINodeData i = e.
Proof.
  intros Hok Ha Ht Hn He. destruct (booted_cache d Hok Ha Ht) as (s0 & Hd & Hc).
  assert (forall j i, ~ caches s0 (fun _ => []) n j i) as Hno.
  { intros j i (_ & [h Hh] & _). by apply elem_of_nil in Hh. }
  destruct (cache_uniq_hashLookup _ _ _ _ Hc Hn) as [(k & i & Hk & _)|[_ Hl]]; [by apply Hno in Hk|].
  destruct (wp_inv _ _ _ (iget_miss (ok := device_ok sim_dev_ok) s0 _ _ n 0%nat (seq 1 31) Hc Hn Hno
    eq_refl Hl)) as (r & s & _ & -> & i & i' & Hacq & Hr).
  eexists s, _, _, 0%nat, i'. split_and!.
  - by rewrite (a_ds _ _ _ _ _ _ _ _ _ _ Hacq).
  - eapply acquires_ok; [exact Hc|exact Hacq].
  - apply (acquires_caches _ _ _ _ _ _ _ _ _ _ _ _ _ Hacq). by left.
  - done.
  - eapply inode_view_unique; [exact Hc|apply (a_view _ _ _ _ _ _ _ _ _ _ Hacq)|].
    right. rewrite Hd. split; [|done]. intros j i0 Hj. by apply Hno in Hj.
Qed.

(** A number has been taken for a file that was never linked. *)
Lemma numbered_device : exists d : dstate (H := sim_host),
  device_ok sim_dev_ok d /\ inode_area d /\ table_sound d /\ held d = [] /\
  free_list d (seqZ 16388 (31457280 - 16388)) /\ inode_list d (replicate 1 0 ++ 2 :: seqZ 3 510) /\
  disk_inode d 1 = Some (updated_inode (initializeINode 1) 1500000000 T_REGULAR 420 0 0 0 0).
Proof.
  destruct formatted_device as (d & Hok & (_ & Hfl & Hil & _ & _ & Hn) & Hh & Ha & Ht).
  destruct (wp_inv _ _ _ (getNewINode_pop (ok := device_ok sim_dev_ok) d 0 1 (2 :: seqZ 3 510)
    (initializeINode 1) T_REGULAR 420 0 0 Hok ltac:(rewrite Hh; apply not_elem_of_nil) Ha Hil
    ltac:(done) ltac:(lia) (Hn 1 ltac:(done)) ltac:(done) eq_refl ltac:(done) ltac:(done) ltac:(done)))
    as (r & d' & _ & -> & Hok' & Hil' & Hi' & Ho' & Hch).
  pose proof (changes_env _ _ _ Hch) as He. exists d'. split_and!; try done.
  - by eapply inode_area_env.
  - intros m e Hm Hme. destruct (decide (m = 1)) as [->|Hne].
    + rewrite Hi' in Hme. by injection Hme as <-.
    + rewrite Ho' in Hme by done. by apply Ht.
  - destruct He as (_ & _ & _ & ->). exact Hh.
  - eapply free_list_frame; [exact Hfl|done|]. destruct Hch as [_ Hch]. intros m Hm. apply Hch.
    intros E. assert (m = 2 \/ 16388 <= m) as Hm'.
    { destruct Hm as [->|Hm]; [by left|right]. apply list_elem_of_In, elem_of_seqZ in Hm. lia. }
    destruct E as [-> | ->]; vm_compute in Hm'; destruct Hm' as [Hm'|Hm']; [done|by apply Hm'|done|by apply Hm'].
Qed.

