(* ===== verification/DiskProps.v ===== *)
(** What the disk layer guarantees: the file system that [makeFileSystem]
    makes, the allocators of blocks and of inode numbers, and the encodings of
    what they keep on disk. Each theorem is followed by an instance. *)

From S2P Require Export Samples FreeStack BlockRelease.

Section disk_props.
Context `{BlockStore ok}.
Local Abbreviation shrinkable := (shrinkable (ok := ok)).
Local Abbreviation released := (released (ok := ok)).

(** * Making a file system *)

(** C4: [makeFileSystem] terminates on any disk of 30 GB and leaves a file
    system: the free list is exactly the blocks behind the inode table, in
    order and without repetition; the list of free inodes holds the numbers 1 to
    512; the super block remembers 512; the root is a directory and every other
    inode is free. *)
Theorem makeFileSystem_ready s :
  ok (set_prm std_params s) -> 31457280 <= capacity (set_prm std_params s) ->
  AllocMutex ∉ held s ->
  wp makeFileSystem s (fun _ s' => ok s' /\ new_file_system s' /\ held s' = held s).
Proof.
  intros Hok Hcap Hh. eapply wp_mono; [by apply makeFileSystem_spec|].
  intros _ s' (Hok' & Hnew & (_ & _ & _ & He)). done.
Qed.

(** * Blocks *)

(** C29: two descriptions of the blocks of a file agree. [inodeBlocksFree] walks
    down the trees of the direct, single, double and triple slots; [blocks_of]
    lists, level by level, the data blocks that [bmap] finds below the size and
    the index blocks above them. For every file in a valid state, of any size up
    to the largest, the recursion terminates and puts exactly the blocks of
    [blocks_of], each once, in front of the free list, clears the slots of the
    inode, and changes no block but these and the head of the list. *)
Theorem inodeBlocksFree_frees_tree s l i :
  shrinkable s l i ->
  wp (inodeBlocksFree i) s (fun i' s' => exists bs nums',
    bs ≡ₚ blocks_of s i /\ i' = ic_set_blocks nums' i /\
    free_list s' (reverse bs ++ l) /\
    changes (fun n => n = FREE_LIST_BLOCK \/ In n bs) s s').
Proof.
  intros Hs. destruct (file_releasing s l i Hs) as (bs & nums' & Hb & P & Hr & Hsz).
  eapply wp_mono; [by eapply inodeBlocksFree_releases|].
  intros i' s' (-> & (_ & _ & Hl & _) & Hch). by exists bs, nums'.
Qed.

(** With no free block left [blockAlloc] returns 0, the number of the boot
    block, and changes nothing: exhaustion is not reported in any other way. *)
Theorem blockAlloc_exhausted s :
  ok s -> AllocMutex ∉ held s -> free_list s [] ->
  wp blockAlloc s (fun r s' => r = 0 /\ ok s' /\ changes (fun _ => False) s s').
Proof. apply blockAlloc_empty. Qed.

(** C39: a free list whose last entry lies beyond the disk, as that of a file
    system of 30 GB in the memory disk of 64 MB does, hands out that entry for
    ever: the allocation succeeds and changes nothing. *)
Theorem blockAlloc_beyond_disk s raw b :
  ok s -> AllocMutex ∉ held s -> view s FREE_LIST_BLOCK = Some raw ->
  BlockAlloc.entries raw = replicate 127 0 ++ [b] -> 0 < b -> ~ in_disk s b ->
  wp blockAlloc s (fun r s' => r = b /\ ok s' /\ changes (fun _ => False) s s').
Proof. apply blockAlloc_off_disk. Qed.

(** C40: when a block is released into an exhausted list, the next allocation
    returns it and installs its contents, the user's data, as the free list. *)
Theorem release_into_exhausted_list s raw b data :
  ok s -> AllocMutex ∉ held s -> FreeMutex ∉ held s ->
  view s FREE_LIST_BLOCK = Some raw -> BlockAlloc.entries raw = replicate 128 0 ->
  view s b = Some data -> b <> 0 -> is_u64 b -> b <> FREE_LIST_BLOCK ->
  wp (blockFree b ;;; blockAlloc) s (fun r s' => r = b /\ view s' FREE_LIST_BLOCK = Some data).
Proof. apply free_exhausted_installs_data. Qed.

(** * Inode numbers *)

(** The inode table stores inodes: an inode written with [writeDiskInode]
    is read back by [getDiskInode] field for field, and every other number
    reads as before. *)
Theorem inode_table_roundtrip s n i buf :
  ok s -> inode_area s -> inode_num n -> wf_iNode i ->
  exists s', writeDiskInode n i s = Ret 0 s' /\ ok s' /\
    getDiskInode n buf s' = Ret (0, i) s' /\
    forall m, inode_num m -> m <> n ->
      exists j, getDiskInode m buf s = Ret (0, j) s /\ getDiskInode m buf s' = Ret (0, j) s'.
Proof. apply writeDiskInode_getDiskInode. Qed.


(** [getNewINode] takes the first number of the list, stores the type, the
    mode and the owner in its inode with no links and size 0, and changes no
    other inode. *)
Theorem getNewINode_takes_first s k x tl i t mode uid gid :
  ok s -> IAllocMutex ∉ held s -> inode_area s ->
  inode_list s (replicate k 0 ++ x :: tl) -> x <> 0 -> (k < 511)%nat ->
  disk_inode s x = Some i -> t = T_REGULAR \/ t = T_DIRECTORY ->
  is_u32 mode -> is_u32 uid -> is_u32 gid ->
  wp (getNewINode t mode uid gid) s (fun r s' => r = x /\ ok s' /\
    inode_list s' (replicate (S k) 0 ++ tl) /\
    disk_inode s' x = Some (updated_inode i (time_at (time_calls s)) t mode uid gid 0 0) /\
    (forall m, inode_num m -> m <> x -> disk_inode s' m = disk_inode s m) /\
    changes (fun n => n = INODE_LIST_BLOCK \/ n = inode_block x) s s').
Proof. intros ? ? ? ? ? ? ? [-> | ->] ? ? ?; by apply getNewINode_pop. Qed.

(** Allocating a number and freeing it again puts it back in its place in
    the list, and leaves its inode free. *)
Theorem getNewINode_freeINode s k x y tl i t mode uid gid :
  ok s -> IAllocMutex ∉ held s -> IFreeMutex ∉ held s -> inode_area s -> inode_num x ->
  inode_list s (replicate k 0 ++ x :: y :: tl) -> x <> 0 -> y <> 0 -> (k < 511)%nat ->
  disk_inode s x = Some i -> t = T_REGULAR \/ t = T_DIRECTORY ->
  is_u32 mode -> is_u32 uid -> is_u32 gid ->
  wp (let* n := getNewINode t mode uid gid in freeINode n) s (fun _ s' => ok s' /\
    inode_list s' (replicate k 0 ++ x :: y :: tl) /\
    (exists e, disk_inode s' x = Some e /\ type e = T_FREE /\ linksCount e = 0) /\
    forall m, inode_num m -> m <> x -> disk_inode s' m = disk_inode s m).
Proof.
  intros Hok Hh1 Hh2 Ha Hn Hl Hx Hy Hk Hi Ht Hm Hu Hg. apply wp_bind. eapply wp_mono.
  { eapply getNewINode_pop; try done; by destruct Ht as [-> | ->]. }
  intros r s1 (-> & Hok1 & Hl1 & Hi1 & Ho1 & Hch). pose proof (changes_env _ _ _ Hch) as He.
  eapply wp_mono.
  { eapply freeINode_push; [done| |by eapply inode_area_env|done|done|exact Hl1|done].
    by destruct He as (_ & _ & _ & ->). }
  intros [] s2 (Hok2 & Hl2 & Hi2 & Ho2 & _). split_and!; [done|done|by eexists|].
  intros m Hm' Hne. by rewrite Ho2, Ho1.
Qed.

(** When the first 511 places of the list are empty [getNewINode] returns
    the largest [size_t], not the 0 that its caller tests for, and changes
    nothing: the number in the last place is never handed out, and the list is
    never filled again from the table. *)
Theorem getNewINode_without_numbers s nos t mode uid gid :
  ok s -> IAllocMutex ∉ held s -> inode_area s ->
  inode_list s nos -> live (take 511 nos) = [] ->
  wp (getNewINode t mode uid gid) s (fun r s' => r = SIZE_MAX /\ ok s' /\
    changes (fun _ => False) s s').
Proof. apply getNewINode_exhausted. Qed.

(** A number freed while the list is empty is lost: its inode becomes free,
    and the list stays empty. *)
Theorem freeINode_loses_number s n i :
  ok s -> IFreeMutex ∉ held s -> inode_area s -> inode_num n ->
  disk_inode s n = Some i -> inode_list s (replicate 512 0) ->
  wp (freeINode n) s (fun _ s' => ok s' /\ inode_list s' (replicate 512 0) /\
    disk_inode s' n = Some (updated_inode i (time_at (time_calls s)) T_FREE 0 0 0 0 0) /\
    changes (eq (inode_block n)) s s').
Proof. apply freeINode_lost. Qed.

(** With a full list [freeINode] frees the buffer of the list twice. *)
Theorem freeINode_double_free s n x tl :
  ok s -> IFreeMutex ∉ held s -> inode_area s -> inode_num n ->
  inode_list s (x :: tl) -> x <> 0 -> freeINode n s = Undef DoubleFree.
Proof. apply freeINode_full. Qed.

End disk_props.

(** * Encodings *)

(** The encodings of the meta-data blocks are inverse to their decodings:
    the free list and the list of inode numbers in both directions, and the
    number in the super block. *)
Theorem meta_blocks_encodings :
  (forall t b, wf_blkNos (blkNos t) -> wf_block b ->
     makeFreeDiskListBlock (writeFreeDiskListBlock t b) = t) /\
  (forall b b', wf_block b -> wf_block b' ->
     writeFreeDiskListBlock (makeFreeDiskListBlock b) b' = b) /\
  (forall t b, wf_iNodeNos (iNodeNos t) -> wf_block b ->
     makeINodeListBlock (writeINodeListBlock t b) = t) /\
  (forall b b', wf_block b -> wf_block b' ->
     writeINodeListBlock (makeINodeListBlock b) b' = b) /\
  (forall t b, 0 <= rememberedINode t < NUM_OF_INODES -> wf_block b ->
     makeSuperBlock (writeSuperBlock t b) = t).
Proof. apply meta_blocks_roundtrip. Qed.

(** An inode reaches the cache and comes back without loss: decoding the
    bytes of a well-formed inode gives it back, whatever follows them in the
    block, and copying it to the in-core inode and back is the identity. *)
Theorem iNode_encodings i c tl :
  wf_iNode i ->
  iNode_of_bytes (iNode_bytes i ++ tl) = i /\
  getDiskINodeData (insertDiskInodeData i c) = i.
Proof. intros Hi. split; [by apply iNode_of_bytes_of|apply incore_disk_roundtrip]. Qed.

(** C32: the loop that computes [INODE_SIZE] terminates for every structure size
    of a [size_t] below 2^63, with the least power of two above it; for the
    structure of 176 bytes that gives slots of 256 bytes, 4 in a block, in 16384
    blocks. *)
Theorem initializeINodeParams_result s :
  0 < s < 2 ^ 63 ->
  (exists p, initializeINodeParams s = Some p /\
     INODE_SIZE p = 2 ^ (Z.log2 s + 1) /\ s < INODE_SIZE p <= 2 * s) /\
  initializeINodeParams sizeof_iNode = Some std_params.
Proof.
  intros Hs. split; [by apply initializeINodeParams_size|apply initializeINodeParams_std].
Qed.

(** * Instances *)

Lemma makeFileSystem_ready_witness :
  exists d : dstate (H := sim_host), makeFileSystem blank_device = Ret tt d /\ new_file_system d.
Proof.
  destruct (wp_inv _ _ _ (makeFileSystem_ready (ok := device_ok sim_dev_ok) blank_device
    blank_device_ok ltac:(by vm_compute) ltac:(apply not_elem_of_nil))) as ([] & d & Hr & _ & Hn & _).
  exists d. exact (conj Hr Hn).
Defined.

Lemma run_ops_refines_stack_witness :
  wp (run_ops [OpAlloc; OpAlloc; OpFree 20001; OpAlloc]) (long_disk_with ∅) (fun rs s' =>
    rs = [Some 20001; Some 20002; None; Some 20001] /\
    stack_state (ok := mem_ok) 65536 (seqZ 20003 254) s').
Proof.
  apply (run_ops_refines_stack (ok := mem_ok) 65536 (seqZ 20001 256)).
  - split_and!; [apply long_disk_with_ok, map_Forall_empty|apply not_elem_of_nil|apply not_elem_of_nil|reflexivity|by apply long_disk_with_free].
  - change (seqZ 20001 256) with (20001 :: 20002 :: seqZ 20003 254).
    repeat econstructor; try done; simpl; lia.
Defined.

(** Two data blocks. *)
Lemma inodeBlocksFree_frees_tree_witness :
  wp (inodeBlocksFree (some_file 1500)) file_disk (fun i' s' => exists bs nums',
    bs ≡ₚ [20101; 20102] /\ i' = ic_set_blocks nums' (some_file 1500) /\
    free_list s' (reverse bs ++ some_free) /\
    changes (fun n => n = FREE_LIST_BLOCK \/ In n bs) file_disk s').
Proof.
  assert (blocks_of file_disk (some_file 1500) = [20101; 20102]) as <- by by vm_compute.
  apply (inodeBlocksFree_frees_tree (ok := mem_ok) file_disk some_free (some_file 1500)).
  apply some_file_shrinkable. lia.
Defined.

Lemma blockAlloc_exhausted_witness :
  wp blockAlloc exhausted_disk (fun r s' => r = 0 /\ mem_ok s' /\
    changes (fun _ => False) exhausted_disk s').
Proof.
  apply (blockAlloc_exhausted (ok := mem_ok)); [apply exhausted_disk_ok|apply not_elem_of_nil|].
  exists zero_block. split_and!; [by vm_compute| |constructor|apply in_nil|constructor].
  rewrite zero_entries. replace (@nil Z) with (live (replicate 128 0)) by apply live_zeros.
  by apply BlockAlloc.chain_last.
Defined.

(** The last entry that the 64 MB of the memory disk leave. *)
Definition beyond_disk : dstate (H := sim_host) :=
  sim_mem std_params {[FREE_LIST_BLOCK := enc_words 8 (replicate 127 0 ++ [65540])]}.

Lemma blockAlloc_beyond_disk_witness :
  wp blockAlloc beyond_disk (fun r s' => r = 65540 /\ mem_ok s' /\
    changes (fun _ => False) beyond_disk s').
Proof.
  eapply (blockAlloc_beyond_disk (ok := mem_ok)); [|apply not_elem_of_nil|by vm_compute|by vm_compute|done|].
  - apply sim_mem_ok. apply map_Forall_insert_2; [apply (bool_decide_unpack _); by vm_compute|].
    apply map_Forall_empty.
  - intros [_ Hlt]. vm_compute in Hlt. discriminate.
Defined.

(** Block 30000 holds user data that reads as the list of the one block 77. *)
Definition user_data : block := enc_words 8 (replicate 127 0 ++ [77]).
Definition user_disk : dstate (H := sim_host) := sim_mem std_params {[30000 := user_data]}.

Lemma release_into_exhausted_list_witness :
  wp (blockFree 30000 ;;; blockAlloc) user_disk (fun r s' =>
    r = 30000 /\ view s' FREE_LIST_BLOCK = Some user_data).
Proof.
  eapply (release_into_exhausted_list (ok := mem_ok) _ zero_block);
    [|apply not_elem_of_nil|apply not_elem_of_nil|by vm_compute|apply zero_entries|by vm_compute|done|done|done].
  apply sim_mem_ok. apply map_Forall_insert_2; [apply (bool_decide_unpack _); by vm_compute|].
  apply map_Forall_empty.
Defined.

Definition some_iNode : iNode :=
  INode 0 9 5 6 7 1 T_REGULAR 420 1000 1000 (20101 :: replicate 12 0) 100.

Lemma inode_table_roundtrip_witness :
  exists s', writeDiskInode 9 some_iNode plain_disk = Ret 0 s' /\ mem_ok s' /\
    getDiskInode 9 zero_iNode s' = Ret (0, some_iNode) s' /\
    forall m, inode_num m -> m <> 9 ->
      exists j, getDiskInode m zero_iNode plain_disk = Ret (0, j) plain_disk /\
        getDiskInode m zero_iNode s' = Ret (0, j) s'.
Proof.
  apply (inode_table_roundtrip (ok := mem_ok) plain_disk 9 some_iNode zero_iNode);
    [apply plain_disk_ok|apply disk_with_area|by vm_compute|by apply (bool_decide_unpack _); vm_compute].
Defined.


Lemma plain_inode n : inode_num n -> disk_inode plain_disk n = Some zero_iNode.
Proof. by apply disk_with_inode. Qed.

Lemma getNewINode_takes_first_witness :
  wp (getNewINode T_REGULAR 420 1000 1000) plain_disk (fun r s' => r = 3 /\ mem_ok s' /\
    inode_list s' (replicate 3 0 ++ seqZ 4 509) /\
    disk_inode s' 3 = Some (updated_inode zero_iNode 1500000000 T_REGULAR 420 1000 1000 0 0) /\
    (forall m, inode_num m -> m <> 3 -> disk_inode s' m = disk_inode plain_disk m) /\
    changes (fun n => n = INODE_LIST_BLOCK \/ n = inode_block 3) plain_disk s').
Proof.
  apply (getNewINode_takes_first (ok := mem_ok) plain_disk 2 3 (seqZ 4 509) zero_iNode);
    [apply plain_disk_ok|apply not_elem_of_nil|apply disk_with_area|apply disk_with_inodes|done|lia
    |by apply plain_inode|by left|done|done|done].
Defined.

Lemma getNewINode_freeINode_witness :
  wp (let* n := getNewINode T_REGULAR 420 1000 1000 in freeINode n) plain_disk (fun _ s' =>
    mem_ok s' /\ inode_list s' (replicate 2 0 ++ 3 :: 4 :: seqZ 5 508) /\
    (exists e, disk_inode s' 3 = Some e /\ type e = T_FREE /\ linksCount e = 0) /\
    forall m, inode_num m -> m <> 3 -> disk_inode s' m = disk_inode plain_disk m).
Proof.
  eapply (getNewINode_freeINode (ok := mem_ok) plain_disk 2 3 4 (seqZ 5 508));
    [apply plain_disk_ok|apply not_elem_of_nil|apply not_elem_of_nil|apply disk_with_area|done
    |apply disk_with_inodes|done|done|lia|by apply plain_inode|by left|done|done|done].
Defined.

Lemma exhausted_list : inode_list exhausted_disk (replicate 512 0).
Proof. eexists. split; [by apply view_mem|]. by vm_compute. Qed.

Lemma getNewINode_without_numbers_witness :
  wp (getNewINode T_REGULAR 420 0 0) exhausted_disk (fun r s' => r = SIZE_MAX /\ mem_ok s' /\
    changes (fun _ => False) exhausted_disk s').
Proof.
  eapply (getNewINode_without_numbers (ok := mem_ok));
    [apply exhausted_disk_ok|apply not_elem_of_nil|by vm_compute|apply exhausted_list|by vm_compute].
Defined.

Lemma freeINode_loses_number_witness :
  wp (freeINode 9) exhausted_disk (fun _ s' => mem_ok s' /\ inode_list s' (replicate 512 0) /\
    disk_inode s' 9 = Some (updated_inode zero_iNode 1500000000 T_FREE 0 0 0 0 0) /\
    changes (eq (inode_block 9)) exhausted_disk s').
Proof.
  apply (freeINode_loses_number (ok := mem_ok) exhausted_disk 9 zero_iNode);
    [apply exhausted_disk_ok|apply not_elem_of_nil|by vm_compute|done|by vm_compute|apply exhausted_list].
Defined.

(** The list as [makeFileSystem] leaves it. *)
Definition full_disk : dstate (H := sim_host) :=
  sim_mem std_params {[INODE_LIST_BLOCK := enc_words 2 (seqZ 1 512)]}.

Lemma freeINode_double_free_witness : freeINode 9 full_disk = Undef DoubleFree.
Proof.
  eapply (freeINode_double_free (ok := mem_ok) full_disk 9 1 (seqZ 2 511));
    [|apply not_elem_of_nil|by vm_compute|done| |done].
  - apply sim_mem_ok. apply map_Forall_insert_2; [apply (bool_decide_unpack _); by vm_compute|].
    apply map_Forall_empty.
  - eexists. split; [by apply view_mem|]. by vm_compute.
Defined.

Lemma iNode_encodings_witness :
  iNode_of_bytes (iNode_bytes some_iNode ++ [1; 2; 3]) = some_iNode /\
  getDiskINodeData (insertDiskInodeData some_iNode zero_inCoreiNode) = some_iNode.
Proof. apply (iNode_encodings some_iNode). by apply (bool_decide_unpack _); vm_compute. Defined.

Lemma initializeINodeParams_result_witness :
  (exists p, initializeINodeParams 200 = Some p /\
     INODE_SIZE p = 2 ^ (Z.log2 200 + 1) /\ 200 < INODE_SIZE p <= 2 * 200) /\
  initializeINodeParams sizeof_iNode = Some std_params.
Proof. apply (initializeINodeParams_result 200). lia. Defined.
