(* ===== verification/FileProps.v ===== *)
(** What the file layer guarantees: where the bytes of a file are, how a file
    grows and shrinks, and what reading and writing do. Each theorem is followed
    by an instance. *)

From S2P Require Export Samples.

Section file_props.
Context `{BlockStore ok}.
Local Abbreviation file_ok := (file_ok (ok := ok)).
Local Abbreviation may_grow := (may_grow (ok := ok)).
Local Abbreviation file_grows := (file_grows (ok := ok)).
Local Abbreviation appended := (appended (ok := ok)).
Local Abbreviation overwritten := (overwritten (ok := ok)).
Local Abbreviation shrinkable := (shrinkable (ok := ok)).

(** * The index tree *)

(** [calculateOffset] finds the level of the tree that holds a byte offset,
    and the digits to base 128 of its position inside that level, for every
    offset up to the end of the triple indirect level. *)
Theorem calculateOffset_digits offset d i :
  i = offset / BLOCK_SIZE -> (d <= 3)%nat ->
  level_base d <= i < level_base d + level_cap d ->
  exists t, calculateOffset offset = Some t /\ level_nat (offsetIndirection t) = d /\
    match d with
    | O => offsets t !! 0%nat = Some i
    | _ => indirect_offsets t = digits d (i - level_base d)
    end.
Proof. apply calculateOffset_level. Qed.

(** C15: adding a block to a file of [k] blocks makes it its last block: the
    blocks before it keep their numbers and contents, index blocks are taken
    from the free list where the tree needs them (at most three), the blocks in
    use are exactly the old ones, the new one and those index blocks, and
    nothing outside the file and the free list changes. *)
Theorem insertDataBlockInINode_appends s l i new k :
  ic_size i = 1024 * k -> 0 <= k <= TRIPLE_INDIRECT_LIMIT -> (3 <= length l)%nat ->
  length (ic_dataBlockNums i) = 13%nat -> Forall is_u64 (ic_dataBlockNums i) ->
  may_grow s l new (file_blocks (addrs s) (ic_dataBlockNums i) k) ->
  wp (insertDataBlockInINode i new) s (fun i' s' => exists nums',
    i' = grown_inode i k nums' /\ file_grows s s' l (ic_dataBlockNums i) nums' k new).
Proof. intros. eapply insertDataBlockInINode_spec; try done. intros nums' s' Hg. by exists nums'. Qed.

(** C20: for every byte of a file [bmap] returns the block that holds it and its
    offset there, in both modes, and changes nothing; no two bytes in different
    blocks of the file are mapped to the same block; offsets beyond the end are
    refused with -1. *)
Theorem bmap_maps_bytes s l i offset offset' resp mode :
  file_ok s l i -> 0 <= offset < ic_size i -> 0 <= offset' < ic_size i ->
  let blk o := file_block (addrs s) (ic_dataBlockNums i) (o / 1024) in
  bmap i offset resp mode s =
    Ret (0, i, BmapResponse (blk offset) (offset mod 1024) (1024 - offset mod 1024)
                 (readAheadBlockNum resp)) s /\
  (blk offset = blk offset' -> offset / 1024 = offset' / 1024) /\
  forall beyond, ic_size i < beyond -> bmap i beyond resp mode s = Ret (-1, i, resp) s.
Proof.
  intros Hf Ho Ho'. cbv zeta. split_and!.
  - assert (wp (bmap i offset resp mode) s (fun r s' => s' = s /\
      r = (0, i, BmapResponse (file_block (addrs s) (ic_dataBlockNums i) (offset / 1024))
        (offset mod 1024) (1024 - offset mod 1024) (readAheadBlockNum resp)))) as Hw.
    { by eapply bmap_in_file. }
    by destruct (wp_inv _ _ _ Hw) as (r & s' & -> & -> & ->).
  - pose proof (nblocks_bounds (ic_size i)). pose proof Hf as (_ & _ & _ & Hnd & _).
    apply NoDup_app in Hnd as (Hnd & _).
    apply (file_block_inj _ _ _ _ (nblocks (ic_size i))); [by eapply file_ok_wf|done|..];
      (split; [apply Z.div_pos; lia|apply Z.div_lt_upper_bound; lia]).
  - intros beyond Hb. apply bmap_beyond. by left.
Qed.

(** * Writing *)

(** Writing [buf] at the end of a file appends it: all bytes are accepted,
    the contents become the old contents followed by [buf], the blocks of the
    file stay its own, and the free list loses the blocks that the file gains. *)
Theorem writeBytes_appends s l i fo buf :
  let n := Z.of_nat (length buf) in
  file_ok s l i -> Forall is_byte buf -> n < 2 ^ 31 -> room l (ic_size i) n ->
  wp (writeBytes i fo buf n (ic_size i)) s (fun '(i', w, _) s' => w = n /\
    exists l', appended s l i s' l' i' buf).
Proof.
  intros n Hf Hb Hn Hr. eapply writeBytes_append; [done..|].
  intros i' fo' s' l' Ha _. by split; [|exists l'].
Qed.

(** C23: writing inside a file replaces exactly the bytes it covers: the inode
    and every other byte of the file's blocks are unchanged. *)
Theorem writeBytes_overwrites s l i fo buf o :
  let n := Z.of_nat (length buf) in
  file_ok s l i -> Forall is_byte buf -> n < 2 ^ 31 -> 0 <= o -> o + n <= ic_size i ->
  wp (writeBytes i fo buf n o) s (fun '(i', w, _) s' => i' = i /\ w = n /\
    overwritten s s' l i o buf).
Proof. intros n Hf Hb Hn Ho Hon. eapply writeBytes_inside; try done. Qed.

(** A write that starts inside the last block and ends behind the end of
    the file, but is not longer than the file, reports that all its bytes were
    written and leaves the size as it was: the bytes past the end are lost. *)
Theorem writeBytes_loses_tail s l i fo buf o :
  let n := Z.of_nat (length buf) in
  file_ok s l i -> Forall is_byte buf -> 0 <= o < ic_size i -> ic_size i < o + n ->
  n <= ic_size i -> o mod 1024 + n <= 1024 ->
  wp (writeBytes i fo buf n o) s (fun '(i', w, _) s' => w = n /\ i' = i /\ file_ok s' l i).
Proof. apply writeBytes_across_end. Qed.

(** * Reading *)

(** [readBytes] from the start of a file, or of whole blocks inside it,
    fills the buffer with the bytes of the file there, as many as there are, and
    changes nothing on disk. *)
Theorem readBytes_reads s l i fo buf o :
  let n := Z.of_nat (length buf) in
  let m := Z.min n (ic_size i - o) in
  file_ok s l i -> n < 2 ^ 62 -> 0 <= o <= ic_size i -> read_request i o n ->
  wp (readBytes i fo buf n o) s (fun '(r, _, buf') s' => r = m /\ s' = s /\
    buf' = memcpy_at buf 0 (file_range s (ic_dataBlockNums i) o m)).
Proof. intros n m Hf Hn Ho Hr. eapply readBytes_spec; try done. Qed.

(** C37: a read of fewer bytes than the rest of the block, at an offset above 0,
    copies more bytes than the caller asked for: it overruns the caller's
    buffer, since the count left is taken from the end offset without taking
    off where the read started. *)
Theorem readBytes_overruns s l i fo buf o :
  let n := Z.of_nat (length buf) in
  file_ok s l i -> 0 < o -> 0 < n -> o + n <= ic_size i -> n < 1024 - o mod 1024 ->
  readBytes i fo buf n o s = Undef OutOfBounds.
Proof. apply readBytes_overrun. Qed.

(** What was written is read back: after [buf] has been appended to an empty
    file, reading the file from its start gives [buf]. *)
Theorem write_read_roundtrip s l i fo fo' buf :
  let n := Z.of_nat (length buf) in
  file_ok s l i -> Forall is_byte buf -> n < 2 ^ 31 -> ic_size i = 0 -> room l 0 n ->
  wp (let* (i', _, _) := writeBytes i fo buf n 0 in
      readBytes i' fo' (replicate (length buf) 0) n 0) s
    (fun '(r, _, buf') _ => r = n /\ buf' = buf).
Proof.
  intros n Hf Hb Hn Hz Hr. apply wp_bind. rewrite <- Hz at 1.
  eapply writeBytes_append; [done..|by rewrite Hz|].
  intros i' fo1 s' l' (Hf' & _ & _ & Hsz & _ & Hd) _. rewrite Hz, Z.add_0_l in Hsz.
  cbv beta iota.
  pose proof (readBytes_spec s' l' i' fo' (replicate (length buf) 0) 0
    (fun '(r, _, buf') _ => r = n /\ buf' = buf)) as Hread.
  cbv zeta in Hread. rewrite length_replicate in Hread. fold n in Hread. apply Hread;
    [done|lia|lia|by left|]. intros fo2. rewrite Hsz, Z.sub_0_r, Z.min_id. split; [done|].
  rewrite Hsz, Hz in Hd. unfold file_range. unfold file_data in Hd. cbn [seq fmap list_fmap app] in Hd.
  change (Z.to_nat 0) with 0%nat in *. rewrite Hd. cbn [seq fmap list_fmap app].
  unfold memcpy_at. cbn [take app]. by rewrite drop_ge, app_nil_r by (rewrite length_replicate; lia).
Qed.

(** * Truncation *)

(** [truncateINode] to a larger size appends zeros. *)
Theorem truncateINode_extends s l i size :
  file_ok s l i -> ic_size i < size -> room l (ic_size i) (size - ic_size i) ->
  wp (truncateINode i size) s (fun i' s' => ic_size i' = size /\
    exists l', appended s l i s' l' i' (replicate (Z.to_nat (size - ic_size i)) 0)).
Proof.
  intros Hf Hs Hr. pose proof (file_size_u64 _ _ _ Hf). unfold truncateINode.
  rewrite (proj2 (Z.eqb_neq _ _)), (proj2 (Z.ltb_ge _ _)) by lia.
  assert (size <= 2164402176) as Hmax by (destruct Hr as [Hr _]; change MAX_FILE_SIZE with 2164402176 in Hr; lia).
  rewrite u64_id by (unfold is_u64; lia).
  eapply increaseFileSizeBy_zeros; [done|lia|done|]. intros i' s' l' Ha.
  split; [|by exists l']. destruct Ha as (_ & _ & _ & -> & _). rewrite length_replicate. lia.
Qed.

(** C25: [truncateINode] to a smaller size, for a file inside its direct blocks,
    keeps the first bytes, puts exactly the blocks behind the new end on the free
    list, and writes no block of another file. *)
Theorem truncateINode_shrinks s l i size :
  shrinkable s l i -> 0 < ic_size i < 10240 -> 0 <= size < ic_size i ->
  wp (truncateINode i size) s (fun i' s' => ic_size i' = size /\
    file_data s' (ic_dataBlockNums i') size = file_data s (ic_dataBlockNums i) size /\
    exists freed, shrinkable s' (freed ++ l) i' /\
      Z.of_nat (length freed) = nblocks (ic_size i) - nblocks size /\ shed s i s' i' freed).
Proof.
  intros Hsh Hs Hsz. unfold truncateINode.
  rewrite (proj2 (Z.eqb_neq _ _)), (proj2 (Z.ltb_lt _ _)) by lia.
  rewrite u64_id by (unfold is_u64; lia).
  eapply decreaseFileSizeBy_direct; [done|done|lia|].
  intros i' s' freed Hsh' Hsz' Hnums Hd Hfr Hs'.
  replace (ic_size i - (ic_size i - size)) with size in * by lia.
  rewrite Hsz' in *. split_and!; [done|done|]. by exists freed.
Qed.

(** Removing the last block of a file of exactly ten blocks, which uses no
    index block, also releases what its eleventh slot holds: the level is
    computed from the size and not from the last byte. *)
Theorem freeDataBlock_at_ten_blocks s i b slot :
  ic_size i = 10240 -> ic_dataBlockNums i !! 10%nat = Some slot ->
  freeDataBlockInINode i b s =
    (blockFree b ;;; getDiskBlock slot junk_block ;;; blockFree slot ;;; ret tt) s.
Proof.
  intros Hs Hslot. unfold freeDataBlockInINode. rewrite Hs.
  change (calculateOffset 10240) with (Some (blkTreeOffsetConstructor (-1) 0 (-1) (-1) SINGLE_INDIRECT)).
  unfold freeNeededBlocks. cbn [offsetIndirection blkTreeOffsetConstructor].
  rewrite decide_False by done.
  change (Z.to_nat DIRECT_BLOCK_LIMIT + level_nat SINGLE_INDIRECT)%nat with 10%nat.
  rewrite Hslot. unfold bind at 1. symmetry. unfold bind at 1.
  destruct (blockFree b s) as [[] s1| | |]; try done.
  unfold indirect_offsets. cbn [level_nat offsetIndirection offsets drop take blkTreeOffsetConstructor].
  cbn [blocks_to_be_freed default]. unfold id. rewrite bind_assoc. unfold bind.
  destruct (getDiskBlock slot junk_block s1) as [[r blk] s2| | |]; done.
Qed.

End file_props.

(** * Instances *)

Lemma calculateOffset_digits_witness :
  exists t, calculateOffset 1500000 = Some t /\ level_nat (offsetIndirection t) = 2%nat /\
    indirect_offsets t = digits 2 (1464 - level_base 2).
Proof. apply (calculateOffset_digits 1500000 2 1464); [done|lia|]. vm_compute. split; congruence. Defined.

(** A new fourth block for the file of three. *)
Lemma insertDataBlockInINode_appends_witness :
  wp (insertDataBlockInINode (some_file 3072) 20999) file_disk (fun i' s' => exists nums',
    i' = grown_inode (some_file 3072) 3 nums' /\
    file_grows (ok := mem_ok) file_disk s' some_free (ic_dataBlockNums (some_file 3072)) nums' 3 20999).
Proof.
  apply (insertDataBlockInINode_appends (ok := mem_ok));
    [done|change TRIPLE_INDIRECT_LIMIT with 2113673; lia|simpl; lia|done|by repeat constructor|].
  change 3 with (nblocks 3072) at 1. change 3072 with (ic_size (some_file 3072)).
  destruct (some_file_ok 3072) as (H1' & H2' & H3' & _); [lia|].
  change (ic_size (some_file 3072)) with 3072 in *. rewrite some_file_blocks by lia.
  split_and!; [done|done|done|apply (bool_decide_unpack _); by vm_compute
    |repeat constructor; done|apply (bool_decide_unpack _); by vm_compute|repeat constructor; done].
Defined.

Definition some_response : bmapResponse := BmapResponse 0 0 0 0.

Lemma bmap_maps_bytes_witness :
  let blk o := file_block (addrs file_disk) (ic_dataBlockNums (some_file 1500)) (o / 1024) in
  bmap (some_file 1500) 1100 some_response READ_MODE file_disk =
    Ret (0, some_file 1500, BmapResponse (blk 1100) 76 948 0) file_disk /\
  (blk 1100 = blk 1499 -> 1100 / 1024 = 1499 / 1024) /\
  forall beyond, 1500 < beyond ->
    bmap (some_file 1500) beyond some_response READ_MODE file_disk =
      Ret (-1, some_file 1500, some_response) file_disk.
Proof.
  apply (bmap_maps_bytes (ok := mem_ok) file_disk some_free (some_file 1500) 1100 1499 some_response READ_MODE);
    [apply some_file_ok|change (ic_size (some_file 1500)) with 1500|change (ic_size (some_file 1500)) with 1500];
    lia.
Defined.

Definition hello : list Z := [104; 101; 108; 108; 111].

Lemma some_room size n : 0 <= size <= 1024 -> 0 <= n <= 1024 -> room some_free size n.
Proof.
  intros Hs Hn. unfold room. change MAX_FILE_SIZE with 2164402176. split; [lia|].
  change (Z.of_nat (length some_free)) with 8.
  pose proof (nblocks_bounds size). pose proof (nblocks_bounds (size + n)). lia.
Qed.

Lemma writeBytes_appends_witness :
  wp (writeBytes (some_file 1000) 0 hello 5 1000) file_disk (fun '(i', w, _) s' => w = 5 /\
    exists l', appended (ok := mem_ok) file_disk some_free (some_file 1000) s' l' i' hello).
Proof.
  apply (writeBytes_appends (ok := mem_ok) file_disk some_free (some_file 1000) 0 hello);
    [apply some_file_ok; lia|by repeat constructor|done|apply some_room; cbn; lia].
Defined.

Lemma writeBytes_overwrites_witness :
  wp (writeBytes (some_file 1500) 0 hello 5 1022) file_disk (fun '(i', w, _) s' =>
    i' = some_file 1500 /\ w = 5 /\
    overwritten (ok := mem_ok) file_disk s' some_free (some_file 1500) 1022 hello).
Proof.
  apply (writeBytes_overwrites (ok := mem_ok) file_disk some_free (some_file 1500) 0 hello 1022);
    [apply some_file_ok; lia|by repeat constructor|done|lia|cbn; lia].
Defined.

Lemma writeBytes_loses_tail_witness :
  wp (writeBytes (some_file 100) 0 hello 5 98) file_disk (fun '(i', w, _) s' => w = 5 /\
    i' = some_file 100 /\ file_ok (ok := mem_ok) s' some_free (some_file 100)).
Proof.
  apply (writeBytes_loses_tail (ok := mem_ok) file_disk some_free (some_file 100) 0 hello 98);
    [apply some_file_ok; lia|by repeat constructor|cbn; lia|cbn; lia|cbn; lia|].
  change (98 mod 1024) with 98. cbn. lia.
Defined.

Lemma readBytes_reads_witness :
  wp (readBytes (some_file 1500) 0 (replicate 2000 7) 2000 0) file_disk (fun '(r, _, buf') s' =>
    r = 1500 /\ s' = file_disk /\
    buf' = memcpy_at (replicate 2000 7) 0 (file_range file_disk (ic_dataBlockNums (some_file 1500)) 0 1500)).
Proof.
  apply (readBytes_reads (ok := mem_ok) file_disk some_free (some_file 1500) 0 (replicate 2000 7) 0);
    [apply some_file_ok; lia|done|cbn; lia|by left].
Defined.

Lemma readBytes_overruns_witness :
  readBytes (some_file 1500) 0 (replicate 10 7) 10 100 file_disk = Undef OutOfBounds.
Proof.
  apply (readBytes_overruns (ok := mem_ok) file_disk some_free (some_file 1500) 0 (replicate 10 7) 100);
    [apply some_file_ok; lia|lia|done|cbn; lia|done].
Defined.

Lemma write_read_roundtrip_witness :
  wp (let* (i', _, _) := writeBytes (some_file 0) 0 hello 5 0 in
      readBytes i' 0 (replicate 5 0) 5 0) file_disk (fun '(r, _, buf') _ => r = 5 /\ buf' = hello).
Proof.
  apply (write_read_roundtrip (ok := mem_ok) file_disk some_free (some_file 0) 0 0 hello);
    [apply some_file_ok; lia|by repeat constructor|done|done|apply some_room; cbn; lia].
Defined.

Lemma truncateINode_extends_witness :
  wp (truncateINode (some_file 1000) 1500) file_disk (fun i' s' => ic_size i' = 1500 /\
    exists l', appended (ok := mem_ok) file_disk some_free (some_file 1000) s' l' i'
      (replicate (Z.to_nat (1500 - 1000)) 0)).
Proof.
  apply (truncateINode_extends (ok := mem_ok) file_disk some_free (some_file 1000) 1500);
    [apply some_file_ok; lia|cbn; lia|apply some_room; cbn; lia].
Defined.

Lemma truncateINode_shrinks_witness :
  wp (truncateINode (some_file 1500) 500) file_disk (fun i' s' => ic_size i' = 500 /\
    file_data s' (ic_dataBlockNums i') 500 = file_data file_disk (ic_dataBlockNums (some_file 1500)) 500 /\
    exists freed, shrinkable (ok := mem_ok) s' (freed ++ some_free) i' /\
      Z.of_nat (length freed) = nblocks 1500 - nblocks 500 /\ shed file_disk (some_file 1500) s' i' freed).
Proof.
  apply (truncateINode_shrinks (ok := mem_ok) file_disk some_free (some_file 1500) 500);
    [apply some_file_shrinkable; lia|cbn; lia|cbn; lia].
Defined.

Lemma freeDataBlock_at_ten_blocks_witness :
  freeDataBlockInINode (some_file 10240) 20103 file_disk =
    (blockFree (H := sim_host) 20103 ;;; getDiskBlock (H := sim_host) 0 zero_block ;;;
     blockFree (H := sim_host) 0 ;;; ret tt) file_disk.
Proof. apply (freeDataBlock_at_ten_blocks file_disk (some_file 10240) 20103 0); reflexivity. Defined.
