(* ===== verification/CacheProps.v ===== *)
(** What the cache of inodes guarantees its clients, and where it fails them.
    Each theorem is followed by an instance. *)

From S2P Require Export Samples CacheUse FreeStack.

Section cache_props.
Context `{BlockStore ok} `{shifts : !DefinedShifts}.
Local Abbreviation cache_ok := (cache_ok (ok := ok)).
Local Abbreviation same_inodes := (same_inodes (ok := ok)).
Local Abbreviation releasing := (releasing (ok := ok)).

(** C11: on a cache in a valid state [iget] terminates, and fails only when the
    inode is not cached and no node is free. Otherwise the node it returns holds
    the inode as the cache and the disk give it, the cache stays valid, the
    inode has one reference more, every other inode has the same contents and
    the same references as before, and nodes in use keep their inodes: eviction
    cannot be observed. The machine defines shifts by 64 and more, which
    [getHash] makes ([DefinedShifts]). *)
Theorem iget_takes_reference s F Q n :
  cache_ok s F Q -> inode_num n -> (forall c, refs s Q n c -> c + 1 < 2 ^ 64) ->
  wp (iget n 0) s (fun r s' =>
    match r with
    | None => F = [] /\ s' = s /\ refs s Q n 0
    | Some k => exists F' Q' i, same_inodes s s' F' Q Q' (one n) /\
        stays s s' Q Q' (fun _ => 0) /\ ds s' = ds s /\ caches s' Q' n k i /\ inode_view s Q n (getDiskINodeData i)
    end).
Proof.
  intros Hc Hn Hr. eapply wp_mono; [by apply (iget_same s F Q n)|]. intros [k|] s'; [|done].
  intros (F' & Q' & i & Hs & Hst & Hd & Hk & Hv & _). by exists F', Q', i.
Qed.

(** C12: on a cache in a valid state [iput] of an inode in use terminates with
    0, takes one reference away, keeps the cache valid, the contents of every
    inode and the inodes of nodes in use; the disk changes at most in the block
    of the table that holds the inode. (An inode without links is deleted
    instead; the root is not.) The machine defines shifts by 64 and more, which
    [getHash] makes ([DefinedShifts]). *)
Theorem iput_drops_reference s F Q n k i :
  cache_ok s F Q -> caches s Q n k i -> 0 < reference_count i ->
  ic_linksCount i <> 0 \/ n = 0 -> inode_view s Q n (getDiskINodeData i) ->
  wp (iput k) s (fun r s' => r = 0 /\ changes (eq (inode_block n)) (ds s) (ds s') /\
    exists F', same_inodes s s' F' Q Q (fun m => - one n m) /\ stays s s' Q Q (fun _ => 0)).
Proof.
  intros Hc Hk Hr Hl Hv. eapply wp_mono; [by eapply iput_keeps|].
  intros r s' (-> & Hch & F' & Hs & Hst & _). split_and!; [done|done|]. exists F'. split; [done|].
  by eapply stays_mono.
Qed.

(** The last [iput] of a changed inode writes it back: the table then holds
    exactly the in-core data. *)
Theorem iput_writes_back s F Q n k i :
  cache_ok s F Q -> caches s Q n k i -> reference_count i = 1 ->
  ic_linksCount i <> 0 \/ n = 0 -> ~ clean i ->
  wp (iput k) s (fun r s' => r = 0 /\ disk_inode (ds s') n = Some (getDiskINodeData i) /\
    exists i', caches s' Q n k i' /\ clean i' /\ reference_count i' = 0 /\
      cache_ok s' (F ++ [k]) Q).
Proof.
  intros Hc Hk Hr Hl Hcl. eapply wp_mono; [by eapply iput_release|].
  intros r s' (-> & _ & Hd & _ & i' & Hu & _ & Hr'). split_and!; [done|by apply Hd; left|].
  exists i'. split_and!; [|by apply (u_clean _ _ _ _ _ _ _ _ Hu)|done|by eapply updates_ok].
  apply (updates_caches _ _ _ _ _ _ _ _ _ _ _ _ Hu Hk). by left.
Qed.

(** The last [iput] of an inode without links deletes the file: every block
    of its tree goes to the free list, its number goes to the front of the list
    of free numbers, its inode in the table becomes free, and the cache stays
    valid. *)
Theorem iput_deletes_file s F Q n k i l bs nums' x tl j :
  cache_ok s F Q -> caches s Q n k i -> reference_count i = 1 ->
  ic_linksCount i = 0 -> n <> 0 -> is_i64 (ic_size i) ->
  inode_blocks (view (ds s)) (ic_dataBlockNums i) (ic_size i) = Some (bs, nums') ->
  releasing (ds s) l bs -> Forall data_area (l ++ bs) -> IFreeMutex ∉ held (ds s) ->
  inode_list (ds s) (replicate (S j) 0 ++ x :: tl) -> x <> 0 ->
  wp (iput k) s (fun r s' => r = 0 /\ cache_ok s' (F ++ [k]) Q /\
    free_list (ds s') (reverse bs ++ l) /\
    inode_list (ds s') (replicate j 0 ++ n :: x :: tl) /\
    exists e, disk_inode (ds s') n = Some e /\ type e = T_FREE /\ linksCount e = 0).
Proof.
  intros Hc Hk Hr Hl Hn Hsz Hb Hrel Hda Hh Hil Hx.
  eapply wp_mono; [by eapply (iput_deletes s F Q n k i l bs nums' x tl j)|].
  intros r s' (-> & Hl' & Hil' & (e & He & Het & _ & Hel & _) & _ & i' & Hu & _).
  split_and!; [done|by eapply updates_ok|done|done|by exists e].
Qed.

(** [iput] of an inode that nobody uses is refused with -1 and changes
    nothing. *)
Theorem iput_refuses_unused s F Q k i :
  cache_ok s F Q -> inode_at s k = Some i -> reference_count i = 0 -> iput k s = Ret (-1) s.
Proof. apply iput_unreferenced. Qed.

(** On a machine whose shifts use the low six bits of the count, as x86-64
    does, [getHash] maps every inode to queue 0: the operators bind as
    [(d + n) << (6 + n) << (16 - n)], so that the hash table is one list. *)
Theorem getHash_constant n d s : masked_shifts -> getHash n d s = Ret 0 s.
Proof. apply getHash_masked. Qed.

(** With shifts as C defines them, [getHash] of an inode above 16 is undefined. *)
Theorem getHash_large n d s : shl_over = None -> 17 <= n < 2 ^ 63 -> getHash n d s = Undef ShiftRange.
Proof. intros. by apply getHash_undefined. Qed.

(** A thread that holds the mutex of an inode and looks the same inode up
    again never returns: [iget] waits for the mutex. *)
Theorem iget_of_locked_hangs s F Q n k i :
  cache_ok s F Q -> caches s Q n k i -> (inode_lock k ;;; iget n 0) s = Hang.
Proof.
  intros Hc Hk. pose proof Hk as (Hi & _ & _). pose proof (c_quiet _ _ _ Hc _ _ Hi) as Hq.
  rewrite (bind_Ret _ _ _ _ _ (inode_lock_Ret _ _ _ Hi Hq)). by eapply iget_held_hangs.
Qed.

End cache_props.

(** * Instances *)

Lemma linked_root_witness_state : exists s F Q k i,
  cache_ok (ok := device_ok sim_dev_ok) s F Q /\ caches s Q 0 k i /\ reference_count i = 1 /\
  ic_linksCount i = 0 /\ inode_view s Q 0 (getDiskINodeData i).
Proof.
  destruct formatted_device as (d & Hok & (_ & _ & _ & _ & (r & Hr) & _) & _ & Ha & Ht).
  destruct (cached_inode d 0 _ Hok Ha Ht ltac:(done) Hr) as (s & F & Q & k & i & Hd & Hc & Hk & Hrc & E).
  assert (ic_linksCount i = 0) as Hl by (change (linksCount (getDiskINodeData i) = 0); by rewrite E).
  exists s, F, Q, k, i. split_and!; [done..|]. right. split; [|by rewrite Hd, E].
  intros k' i' Hk'. pose proof (c_uniq _ _ _ Hc _ _ _ _ _ Hk Hk') as <-.
  destruct Hk as [E1 _], Hk' as [E2 _]. congruence.
Qed.

Lemma iget_takes_reference_witness : exists s F Q,
  cache_ok (ok := device_ok sim_dev_ok) s F Q /\
  wp (iget 0 0) s (fun r s' =>
    match r with
    | None => F = [] /\ s' = s /\ refs s Q 0 0
    | Some k => exists F' Q' i,
        same_inodes (ok := device_ok sim_dev_ok) s s' F' Q Q' (one 0) /\
        stays s s' Q Q' (fun _ => 0) /\ ds s' = ds s /\
        caches s' Q' 0 k i /\ inode_view s Q 0 (getDiskINodeData i)
    end).
Proof.
  destruct formatted_device as (d & Hok & _ & _ & Ha & Ht).
  destruct (booted_cache d Hok Ha Ht) as (s & Hd & Hc).
  exists s, (seq 0 INODE_BUFFER_SIZE), (fun _ => []). split; [exact Hc|].
  apply (iget_takes_reference (ok := device_ok sim_dev_ok)); [exact Hc|done|].
  intros c [(k & i & (_ & [h Hh] & _) & _)|[-> _]]; [by apply elem_of_nil in Hh|done].
Defined.

Lemma iput_drops_reference_witness : exists s F Q k,
  wp (iput k) s (fun r s' => r = 0 /\ changes (eq (inode_block 0)) (ds s) (ds s') /\
    exists F', same_inodes (ok := device_ok sim_dev_ok) s s' F' Q Q (fun m => - one 0 m) /\
      stays s s' Q Q (fun _ => 0)) /\
  cache_ok (ok := device_ok sim_dev_ok) s F Q.
Proof.
  destruct linked_root_witness_state as (s & F & Q & k & i & Hc & Hk & Hr & Hl & Hv).
  exists s, F, Q, k. split; [|exact Hc].
  apply (iput_drops_reference (ok := device_ok sim_dev_ok) s F Q 0 k i);
    [exact Hc|exact Hk|rewrite Hr; lia|by right|exact Hv].
Defined.

(** The root in use, with a new owner that is not on disk yet. *)
Lemma iput_writes_back_witness : exists s F Q k i,
  wp (iput k) s (fun r s' => r = 0 /\ disk_inode (ds s') 0 = Some (getDiskINodeData i) /\
    exists i', caches s' Q 0 k i' /\ clean i' /\ reference_count i' = 0 /\
      cache_ok (ok := device_ok sim_dev_ok) s' (F ++ [k]) Q) /\
  ic_owner_uid i = 1000.
Proof.
  destruct linked_root_witness_state as (s & F & Q & k & i & Hc & Hk & Hr & Hl & _).
  pose proof (c_hashed _ _ _ Hc _ _ _ Hk) as (_ & Hd & Hw & _). pose proof Hk as (Hi & _ & En).
  set (i' := ic_set_changed true (ic_set_owner 1000 i)).
  assert (updates (ok := device_ok sim_dev_ok) s (inode_set k i' (set_ds (ds s) s)) F F Q 0 k i') as Hu.
  { apply (client_updates _ _ _ _ _ i).
    - exact Hc.
    - exact Hk.
    - rewrite Hr; lia.
    - reflexivity.
    - exact (c_quiet _ _ _ Hc _ _ Hi).
    - exact En.
    - exact Hd.
    - destruct Hw as (?&?&?&?&?&?&[? ?]&?&?&?&[? ?]&?). unfold wf_iNode. split_and!; done.
    - by left.
    - exact (c_disk _ _ _ Hc).
    - exact (c_area _ _ _ Hc).
    - reflexivity. }
  exists (inode_set k i' (set_ds (ds s) s)), F, Q, k, i'. split; [|done].
  apply (iput_writes_back (ok := device_ok sim_dev_ok)).
  - by eapply updates_ok.
  - apply (updates_caches _ _ _ _ _ _ _ _ _ _ _ _ Hu Hk). by left.
  - exact Hr.
  - by right.
  - intros [E _]. discriminate E.
Defined.

Lemma iput_deletes_file_witness : exists s F Q k,
  wp (iput k) s (fun r s' => r = 0 /\ cache_ok (ok := device_ok sim_dev_ok) s' (F ++ [k]) Q /\
    free_list (ds s') (reverse [] ++ seqZ 16388 (31457280 - 16388)) /\
    inode_list (ds s') (replicate 0 0 ++ 1 :: 2 :: seqZ 3 510) /\
    exists e, disk_inode (ds s') 1 = Some e /\ type e = T_FREE /\ linksCount e = 0).
Proof.
  destruct numbered_device as (d & Hok & Ha & Ht & Hh & Hfl & Hil & Hi).
  destruct (cached_inode d 1 _ Hok Ha Ht ltac:(done) Hi) as (s & F & Q & k & i & Hd & Hc & Hk & Hr & E).
  exists s, F, Q, k.
  assert (ic_linksCount i = 0 /\ ic_size i = 0 /\ ic_dataBlockNums i = replicate 13 0) as (E1 & E2 & E3).
  { unfold getDiskINodeData in E. by injection E as ? ? ? ? ? ? ? ? ? ? -> ->. }
  apply (iput_deletes_file (ok := device_ok sim_dev_ok) s F Q 1 k i
    (seqZ 16388 (31457280 - 16388)) [] (replicate 13 0) 2 (seqZ 3 510) 0);
    [exact Hc|exact Hk|exact Hr|exact E1|done|by rewrite E2| | | | |by rewrite Hd|done].
  - by rewrite E2, E3.
  - rewrite Hd. split_and!; [exact Hok|rewrite Hh; apply not_elem_of_nil|exact Hfl| |].
    + eapply free_room_long; [exact Hfl|]. rewrite length_seqZ. lia.
    + split; constructor.
  - rewrite app_nil_r. apply Forall_forall. intros m Hm. apply elem_of_seqZ in Hm. unfold data_area. lia.
  - rewrite Hd, Hh. apply not_elem_of_nil.
Defined.

Lemma iput_refuses_unused_witness : exists s : istate (H := sim_host), iput 5 s = Ret (-1) s.
Proof.
  destruct formatted_device as (d & Hok & _ & _ & Ha & Ht).
  destruct (wp_inv _ _ _ (boot_cache_ok (ok := device_ok sim_dev_ok) d ltac:(by eexists) Hok Ha Ht)) as (u & s & _ & Hd & Hc & _).
  exists s. destruct (inode_at s 5) as [i|] eqn:Hi.
  - eapply (iput_refuses_unused (ok := device_ok sim_dev_ok)); [exact Hc|exact Hi|].
    apply (c_refs _ _ _ Hc _ _ Hi), elem_of_seq. unfold INODE_BUFFER_SIZE. lia.
  - exfalso. destruct (c_free _ _ _ Hc) as (_ & _ & Hv & _). rewrite Forall_forall in Hv.
    assert (5%nat ∈ seq 0 INODE_BUFFER_SIZE) as H5 by (apply elem_of_seq; unfold INODE_BUFFER_SIZE; lia).
    apply Hv in H5. apply lookup_lt_is_Some_2 in H5 as [nd E]. unfold inode_at in Hi. by rewrite E in Hi.
Defined.

Lemma sim_host_masked : masked_shifts (H := sim_host).
Proof. by eexists. Qed.

Lemma getHash_constant_witness : exists s : istate (H := sim_host), getHash 12345 7 s = Ret 0 s.
Proof. exists (boot_state blank_device). apply (getHash_constant (H := sim_host)). exact sim_host_masked. Defined.

Lemma iget_of_locked_hangs_witness : exists (s : istate (H := sim_host)) k, (inode_lock k ;;; iget 0 0) s = Hang.
Proof.
  destruct linked_root_witness_state as (s & F & Q & k & i & Hc & Hk & _).
  exists s, k. eapply (iget_of_locked_hangs (ok := device_ok sim_dev_ok)); [exact Hc|exact Hk].
Defined.

Lemma init_cache_ok_witness : exists d : dstate (H := sim_host),
  wp (initFreeInCoreINodeList ;;; initHashQueues) (boot_state d) (fun _ s' =>
    ds s' = d /\ cache_ok (ok := device_ok sim_dev_ok) s' (seq 0 INODE_BUFFER_SIZE) (fun _ => []) /\
    forall n e, disk_inode d n = Some e -> inode_view s' (fun _ => []) n e).
Proof.
  destruct formatted_device as (d & Hok & _ & _ & Ha & Ht). exists d.
  apply (init_cache_ok (ok := device_ok sim_dev_ok)); [by eexists|exact Hok|exact Ha|exact Ht].
Defined.
