(* ===== verification/DirProps.v ===== *)
(** What the directory layer guarantees. Each theorem is followed by an
    instance. *)

From S2P Require Export Samples DirUpdate.

Section dir_props.
Context `{BlockStore ok}.
Local Abbreviation file_ok := (file_ok (ok := ok)).
Local Abbreviation dir_ok := (dir_ok (ok := ok)).
Local Abbreviation shrinkable := (shrinkable (ok := ok)).

(** C22: searching a directory for a name finds the first entry with that name,
    through all its blocks, terminates, and changes nothing; the result is 1 and
    that entry, or 0 and the buffer as it was. *)
Theorem search_finds_first s l i nm e0 num :
  dir_ok s l i -> c_string nm ->
  wp (searchINodeDirectoryEntries i (Some nm) 0 [e0] num false) s (fun r s' =>
    s' = s /\ search_result (dir_list s i) nm e0 r).
Proof. apply search_by_name. Qed.

(** A search of anything but a directory returns -1 and reads nothing. *)
Theorem search_refuses_files s i nm off buf num u :
  S_ISDIR (ic_file_mode i) = false ->
  searchINodeDirectoryEntries i nm off buf num u s = Ret (-1, buf) s.
Proof. apply search_not_directory. Qed.

(** C16: removing a name from a directory of less than 10240 bytes, which is
    inside its direct blocks, while at least 128 blocks are free: the search
    that swaps entries followed by the truncation removes exactly the first
    entry with that name. The last entry takes its place, all other entries stay
    where they are, the result is a valid directory 64 bytes shorter with the
    same identity, and the block it no longer needs goes to the free list.
    Without that name nothing changes. *)
Theorem remove_entry_removes s l i nm e0 :
  dir_ok s l i -> shrinkable s l i -> c_string nm -> 64 <= ic_size i < 10240 ->
  (128 <= length l)%nat ->
  wp (remove_entry i nm e0) s (fun '(r, buf, i') s' =>
    search_result (dir_list s i) nm e0 (r, buf) /\ touched i i' /\
    match find_entry nm (dir_list s i) with
    | None => i' = i /\ s' = s
    | Some (k, _) => exists freed, dir_list s' i' = removed (dir_list s i) k /\
        dir_ok s' (freed ++ l) i' /\ shrinkable s' (freed ++ l) i' /\
        ic_size i' = ic_size i - 64 /\
        Z.of_nat (length freed) = nblocks (ic_size i) - nblocks (ic_size i')
    end).
Proof. apply remove_entry_spec. Qed.

(** C21: a name of at most 61 characters that is added to a directory which does
    not have it, from a buffer that can be read as one of 62 bytes, is found afterwards, with the number it was added with, and
    every entry that was there before is still there. *)
Theorem add_then_find s l i num nm size e0 :
  dir_ok s l i -> c_string nm -> (length nm <= 61)%nat -> name_readable size -> 0 <= num < 65535 ->
  room l (ic_size i) 64 -> find_entry nm (dir_list s i) = None ->
  wp (let* (_, i') := getAndUpdateDirectoryTable i num nm size in
      searchINodeDirectoryEntries i' (Some nm) 0 [e0] 0 false) s (fun r s' =>
    exists l' i', dir_ok s' l' i' /\ dir_list s' i' = dir_list s i ++ [(name_bytes nm, num)] /\
      r = (1, [DirectoryEntry (name_bytes nm) (low_bytes (iNodeNum e0) num)])).
Proof.
  intros Hd Hnm Hlen Hsz Hnum Hroom Hno. pose proof Hd as (Hf & Hdir & Hal & _).
  apply wp_bind. eapply wp_mono; [by eapply (getAndUpdateDirectoryTable_spec s l); [..|lia|]|].
  intros [r i'] s' (l' & Happ & Hdl & Ht & _).
  assert (dir_ok s' l' i') as Hd' by (by eapply added_dir_ok).
  eapply wp_mono; [by eapply (search_by_name s' l')|]. intros r' s2 [-> Hres]. exists l', i'.
  split_and!; [done|done|]. unfold search_result in Hres. by rewrite Hdl, find_added in Hres.
Qed.

(** The first block of a new directory gets the entries ["."] with its own
    number and [".."] with that of its parent, in this order, and two links,
    provided that the 62 bytes can be read which are copied of either name. *)
Theorem new_directory_entries s l i parent :
  over_reads = true -> file_ok s l i -> ic_size i = 0 -> 0 <= ic_inode_number i < 65536 -> 0 <= parent < 65536 ->
  room l 0 128 ->
  wp (updateNewDirMetaData i parent) s (fun '(_, i') s' =>
    exists l', file_ok s' l' i' /\ (exists alloc, l = alloc ++ l') /\ same_env s s' /\
      dir_list s' i' = [(name_bytes dot, ic_inode_number i); (name_bytes dot_dot, parent)] /\
      same_id i i' /\ ic_linksCount i' = 2).
Proof.
  intros Ho Hf Hz Hn Hp Hr. eapply wp_mono; [by eapply updateNewDirMetaData_spec|].
  intros [r i'] s' (l' & (Hf' & He & (al & Hal & _) & _) & Hdl & (Hid & Hlk & _) & _).
  exists l'. split_and!; [done|by exists al|done|done|done|done].
Qed.

End dir_props.

(** * Instances *)

Lemma search_finds_first_witness :
  wp (searchINodeDirectoryEntries some_dir (Some [97]) 0 [zero_entry] 0 false) file_disk (fun r s' =>
    s' = file_disk /\ search_result (dir_list file_disk some_dir) [97] zero_entry r).
Proof.
  apply (search_finds_first (ok := mem_ok) _ some_free); [apply some_dir_ok|by repeat constructor].
Defined.

Lemma search_refuses_files_witness :
  searchINodeDirectoryEntries (some_file 100) (Some [97]) 0 [zero_entry] 0 false file_disk =
    Ret (-1, [zero_entry]) file_disk.
Proof. apply search_refuses_files. reflexivity. Defined.

Lemma remove_entry_removes_witness :
  wp (remove_entry long_dir dot_dot zero_entry) long_dir_disk (fun '(r, buf, i') s' =>
    search_result (dir_list long_dir_disk long_dir) dot_dot zero_entry (r, buf) /\ touched long_dir i' /\
    match find_entry dot_dot (dir_list long_dir_disk long_dir) with
    | None => i' = long_dir /\ s' = long_dir_disk
    | Some (k, _) => exists freed,
        dir_list s' i' = removed (dir_list long_dir_disk long_dir) k /\
        dir_ok (ok := mem_ok) s' (freed ++ seqZ 20001 256) i' /\
        shrinkable (ok := mem_ok) s' (freed ++ seqZ 20001 256) i' /\
        ic_size i' = ic_size long_dir - 64 /\
        Z.of_nat (length freed) = nblocks (ic_size long_dir) - nblocks (ic_size i')
    end).
Proof.
  apply (remove_entry_removes (ok := mem_ok)); [apply long_dir_ok|apply long_dir_shrinkable
    |by repeat constructor|cbn; lia|rewrite length_seqZ; lia].
Defined.

Lemma add_then_find_witness :
  wp (let* (_, i') := getAndUpdateDirectoryTable some_dir 9 [98; 99] 62 in
      searchINodeDirectoryEntries i' (Some [98; 99]) 0 [zero_entry] 0 false) file_disk (fun r s' =>
    exists l' i', dir_ok (ok := mem_ok) s' l' i' /\
      dir_list s' i' = dir_list file_disk some_dir ++ [(name_bytes (H := sim_host) [98; 99], 9)] /\
      r = (1, [DirectoryEntry (name_bytes (H := sim_host) [98; 99]) (low_bytes 0 9)])).
Proof.
  apply (add_then_find (ok := mem_ok) file_disk some_free some_dir 9 [98; 99] 62 zero_entry);
    [apply some_dir_ok|by repeat constructor|cbn; lia|by right|lia| |by vm_compute].
  unfold room. change MAX_FILE_SIZE with 2164402176. vm_compute. split; congruence.
Defined.

Lemma new_directory_entries_witness :
  wp (updateNewDirMetaData (some_file 0) 5) file_disk (fun '(_, i') s' =>
    exists l', file_ok (ok := mem_ok) s' l' i' /\ (exists alloc, some_free = alloc ++ l') /\
      same_env file_disk s' /\
      dir_list s' i' = [(name_bytes (H := sim_host) dot, 0); (name_bytes (H := sim_host) dot_dot, 5)] /\
      same_id (some_file 0) i' /\ ic_linksCount i' = 2).
Proof.
  apply (new_directory_entries (ok := mem_ok)); [done|apply some_file_ok; lia|done|cbn; lia|lia|].
  unfold room. change MAX_FILE_SIZE with 2164402176. vm_compute. split; congruence.
Defined.
