(* ===== verification/TreeSamples.v ===== *)
(** A mounted file system on which the theorems about paths are instantiated:
    the device that [makeFileSystem] prepares under a fresh cache, and one on
    which an empty file has been opened. *)

From S2P Require Export Samples FreshSystem MainSpec RemoveSpec RenameSpec.

Local Abbreviation cache_ok := (cache_ok (ok := device_ok sim_dev_ok)).
Local Abbreviation tree_ok := (tree_ok (ok := device_ok sim_dev_ok)).
Local Abbreviation file_ok := (file_ok (ok := device_ok sim_dev_ok)).
Local Abbreviation fs_ok := (fs_ok (ok := device_ok sim_dev_ok)).
Local Abbreviation files_ok := (files_ok (ok := device_ok sim_dev_ok)).

(** The root directory is empty, and there is nothing else. *)
Lemma mounted_root : exists (s : istate (H := sim_host)) r,
  fs_ok s (seq 0 INODE_BUFFER_SIZE) (fun _ => []) all_free /\
  inode_view s (fun _ => []) 0 (root_iNode r) /\ new_file_system (ds s) /\ held (ds s) = [].
Proof.
  destruct formatted_device as (d & Hok & Hnew & Hh & Ha & Ht).
  destruct (booted_cache d Hok Ha Ht) as (s & <- & Hc).
  destruct (fresh_root s Hnew) as [r Hr]. exists s, r.
  split; [by apply (fresh_fs_ok (ok := device_ok sim_dev_ok))|done].
Qed.

(** An open file: inode 1, which has no links yet, at descriptor 3. *)
Definition open_entry (k : nat) : fileTableEntry := FileTableEntry (Some k) 7 2 0 true.
Definition one_open (k : nat) : list fileTableEntry :=
  <[3%nat := open_entry k]> (replicate (Z.to_nat MAX_FILE_DESCRIPTORS) zero_fte).

Lemma one_open_at k : one_open k !! 3%nat = Some (open_entry k).
Proof. reflexivity. Qed.

Lemma one_open_counts k j : opens (one_open k) j = if decide (j = k) then 1 else 0.
Proof.
  unfold one_open. rewrite (opens_fresh _ _ zero_fte) by done.
  assert (opens (replicate (Z.to_nat MAX_FILE_DESCRIPTORS) zero_fte) j = 0) as -> by done.
  unfold counts. destruct (decide (opened j (open_entry k))) as [[_ E]|Hn].
  - cbn in E. injection E as ->. by rewrite decide_True.
  - rewrite decide_False; [done|]. intros ->. by apply Hn.
Qed.

Lemma opened_file : exists (s : fstate (H := sim_host)) F Q k i,
  files_ok s F Q /\ fileTable s = one_open k /\ caches (cache s) Q 1 k i /\
  getDiskINodeData i = updated_inode (initializeINode 1) 1500000000 T_REGULAR 420 0 0 0 0 /\
  file_ok (ds (cache s)) all_free i.
Proof.
  destruct numbered_device as (d & Hok & Ha & Ht & Hh & Hfl & _ & Hi).
  destruct (cached_inode d 1 _ Hok Ha Ht ltac:(done) Hi) as (s & F & Q & k & i & Hd & Hc & Hk & Hr & E).
  exists (FState s (one_open k)), F, Q, k, i. split_and!; [|done|done|done|].
  - split; cbn [cache fileTable]; [done|done| |].
    + intros fd e Hfd Hv. unfold one_open in Hfd.
      apply list_lookup_insert_Some in Hfd as [(_ & <- & _)|[_ Hfd]]; [done|].
      apply lookup_replicate in Hfd as [-> _]. done.
    + intros j. rewrite one_open_counts. destruct (decide (j = k)) as [->|]; [|lia].
      intros _. exists 1, i. split; [done|]. lia.
  - cbn [cache]. unfold getDiskINodeData in E. injection E as ? ? ? ? ? ? ? ? ? ? E11 E12. rewrite Hd.
    apply empty_file_ok; [done|rewrite Hh; apply not_elem_of_nil|done|apply all_free_u64|by rewrite E11|
      rewrite E11; by repeat constructor|done].
Qed.

(** * A new name in the root *)

Definition root_path : list Z := [slash].
Definition path_a : list Z := [slash; 97].
Definition some_context : fuse_context := FuseContext 7 1000 1000.

Lemma root_walk (s : istate (H := sim_host)) Q : walks s Q 0 (path_names root_path) (Some 0).
Proof. constructor. Qed.

Lemma first_number (s : istate (H := sim_host)) :
  new_file_system (ds s) -> held (ds s) = [] ->
  free_number s (fun _ => []) 0 1 (seqZ 2 511) (initializeINode 1).
Proof.
  intros (_ & _ & Hil & _ & _ & Hn) Hh. split; [exact Hil|]. split; [done|]. split; [lia|]. split; [done|].
  split; [|split; [done|split; [apply no_refs|split; [|done]]]].
  - right. split; [intros k i Hk; by apply nothing_cached in Hk|by apply Hn].
  - rewrite Hh. apply not_elem_of_nil.
Qed.

(** The root has one entry, [a], for a new file or a new directory. *)
Lemma one_name t mode :
  t = T_REGULAR \/ t = T_DIRECTORY -> is_u32 mode ->
  S_ISDIR (made_mode t mode) = bool_decide (t = T_DIRECTORY) ->
  exists (s : istate (H := sim_host)) F Q l dp dn,
  removable (ok := device_ok sim_dev_ok) s F Q l root_path [97] 0 dp 0 1 dn /\
  new_inode t (made_mode t mode) 1000 1000 1 dn /\ size dp = 64 /\ (forall m, refs s Q m 0) /\
  (t = T_REGULAR -> named_once s Q 1 0 0) /\ held (ds s) = [] /\
  inode_list (ds s) (replicate 1 0 ++ 2 :: seqZ 3 510) /\
  ((3 <= length F)%nat /\ (length all_free <= length l + 8)%nat) /\
  dir_list (ds s) (dir_of dp) = [(name_bytes (H := sim_host) [97], 1)].
Proof.
  intros Ht Hmode Hkind. destruct mounted_root as (s & r & Hfs & Hv & Hnew & Hh).
  pose proof (first_number s Hnew Hh) as Hf. change (seqZ 2 511) with (2 :: seqZ 3 510) in Hf.
  assert (dir_list (ds s) (dir_of (root_iNode r)) = []) as El by done.
  assert (2 <= length (seq 0 INODE_BUFFER_SIZE))%nat as HF by (rewrite length_seq; unfold INODE_BUFFER_SIZE; lia).
  assert (8 <= length all_free /\ 136 <= length all_free)%nat as [Hl8 Hl136] by (pose proof length_all_free; lia).
  assert (is_u32 1000) as Hid by done.
  assert (c_string (root_path ++ [97])) as Hpath by (by repeat constructor).
  assert (slash ∉ [97]) as Hslash by (by apply (bool_decide_unpack _)).
  assert (length [97] <= 61)%nat as Hl61 by (cbn; lia).
  assert (root_idle s (fun _ => []) 0 (root_iNode r)) as Hidle by (intros _ _; apply no_refs).
  assert (room all_free (size (root_iNode r)) 64) as Hroom.
  { unfold room. change MAX_FILE_SIZE with 2164402176. rewrite length_all_free. change (size (root_iNode r)) with 0.
    change (nblocks (0 + 64)) with 1. change (nblocks 0) with 0. lia. }
  pose proof (createFile_created (ok := device_ok sim_dev_ok) t s (seq 0 INODE_BUFFER_SIZE) (fun _ => []) all_free
    root_path [97] 0 (root_iNode r) 0 1 (2 :: seqZ 3 510) (initializeINode 1) mode some_context Ht Hfs
    (nothing_in_use s) HF Hpath eq_refl Hslash Hl61 (root_walk s _) Hv eq_refl) as Hwp.
  rewrite El in Hwp. specialize (Hwp eq_refl Hidle Hroom Hl8 Hf eq_refl Hmode Hid Hid).
  specialize (Hwp ltac:(by split; [left|])).
  destruct (wp_inv _ _ _ Hwp) as (v & s1 & _ & _ & F1 & Q1 & l1 & dn & dp' & Hlp & Hn & Hcr & Htk & Hr & _).
  pose proof Htk as [Eh Hnos _ Esz _].
  exists s1, F1, Q1, l1, dp', dn. split; [|split; [done|split; [done|split; [intros m; by apply Hr, no_refs|]]]].
  2: split; [|split; [|split; [|split; [split|]]]].
  - change 0%nat with (length (@nil (list Z * Z))). rewrite <- El.
    eapply (between_removable (ok := device_ok sim_dev_ok) t s s1); try done; try (rewrite Hh; apply not_elem_of_nil).
    + apply nothing_in_use.
    + apply root_walk.
  - intros Et. change 0%nat with (length (@nil (list Z * Z))). rewrite <- El. 
    eapply (between_once (ok := device_ok sim_dev_ok) t s s1); try done; [cbn; lia|apply root_walk].
  - by rewrite Eh.
  - exact Hnos.
  - assert (length F1 = length (seq 0 INODE_BUFFER_SIZE)) as ->; [|rewrite length_seq; unfold INODE_BUFFER_SIZE; lia].
    eapply (free_nodes_same (ok := device_ok sim_dev_ok)); [apply Hfs|apply Hcr|exact Hr].
  - exact (tk_blocks _ _ _ _ _ _ _ _ _ Htk).
  - by rewrite (cr_list _ _ _ _ _ _ _ _ _ _ _ _ _ Hcr), El.
Qed.
