(* ===== verification/NamespaceProps.v ===== *)
(** What the calls of the interface guarantee, from paths and descriptors to the
    tree of directories, and where they fail. Instances are in
    [NamespaceInst.v]. *)

From S2P Require Export RemoveSpec Tools.

Section namespace_props.
Context `{BlockStore ok} `{shifts : !DefinedShifts}.
Local Abbreviation cache_ok := (cache_ok (ok := ok)).
Local Abbreviation tree_ok := (tree_ok (ok := ok)).
Local Abbreviation moves := (moves (ok := ok)).
Local Abbreviation file_ok := (file_ok (ok := ok)).
Local Abbreviation files_ok := (files_ok (ok := ok)).
Local Abbreviation fs_ok := (fs_ok (ok := ok)).
Local Abbreviation models := (models (ok := ok)).
Local Abbreviation renameable := (renameable (ok := ok)).
Local Abbreviation renamed := (renamed (ok := ok)).
Local Abbreviation removable := (removable (ok := ok)).
Local Abbreviation restored := (restored (ok := ok)).
Local Abbreviation file_unlinked := (file_unlinked (ok := ok)).
Local Abbreviation appended := (appended (ok := ok)).
Local Abbreviation changed_only := (changed_only (ok := ok)).
Local Abbreviation truncated := (truncated (ok := ok)).

(** C9: the lookup of a path is a walk through the tree of directories. For a
    path of letters, digits, [_], [-] and [/] whose names lead through
    directories, on a valid cache over well-formed directories, [getFileINode]
    terminates: with [NULL] when a directory on the way has not got the next
    name, and otherwise with a node that holds the inode at the end, which then
    has one reference more. All the references taken on the way are given back,
    and no inode changes. Paths that go on behind a regular file are no part of
    this: the code looks the rest up in the root. The machine defines shifts by
    64 and more, which [getHash] makes ([DefinedShifts]). *)
Theorem getFileINode_walks N s F Q l path r :
  (0 < N <= length F)%nat -> cache_ok s F Q -> tree_ok s Q l -> few_refs s Q ->
  clean_path path -> path <> [] -> leads s Q 0 (path_names path) r ->
  wp (getFileINode path (length path)) s (fun o s' =>
    match r with
    | None => o = None /\ exists F' Q', moves s s' F' Q Q' (fun _ => 0) (fun _ => 0)
    | Some n => exists w F' Q', o = Some w /\
        moves s s' F' Q Q' (fun _ => 0) (one n) /\ in_hand N s' F' Q' n w
    end).
Proof.
  intros [HN HF] Hc Ht Hfew Hp%clean_path_c_string Hne Hw%leads_walks. by eapply getFileINode_spec.
Qed.

(** C14: [openFile] fails with [ENOENT] exactly when the path leads nowhere, and
    leaves the table as it is. Otherwise the first entry that is not valid
    becomes an entry for the inode at the end of the path, which has one
    reference more, and the descriptor is the index of that entry; every inode
    keeps its contents and the invariant of the table is kept. The machine
    defines shifts by 64 and more, which [getHash] makes ([DefinedShifts]). *)
Theorem openFile_opens N s F Q l path fi ctx r :
  (0 < N <= length F)%nat -> files_ok s F Q -> tree_ok (cache s) Q l -> few_refs (cache s) Q ->
  c_string path -> path <> [] -> walks (cache s) Q 0 (path_names path) r ->
  wp (openFile path fi ctx) s (opens_as (ok := ok) N s Q r fi ctx).
Proof. intros [HN HF] Hf Ht Hfew Hp Hne Hw. by eapply openFile_spec. Qed.

(** C26: opening a file and closing the descriptor again gives back what was
    taken: every inode has the references and the contents it had, and the entry
    of the table is not valid any more. The machine defines shifts by 64 and
    more, which [getHash] makes ([DefinedShifts]). *)
Theorem open_close_neutral N s F Q l path fi ctx n fd :
  (0 < N <= length F)%nat -> files_ok s F Q -> tree_ok (cache s) Q l -> few_refs (cache s) Q ->
  c_string path -> path <> [] -> walks (cache s) Q 0 (path_names path) (Some n) ->
  free_entry (fileTable s) 0 = Some fd ->
  wp (let* (_, fi) := openFile path fi ctx in closeFile fi ctx) s (fun v s' =>
    v = 0 /\ (exists e, validEntry e = false /\ fileTable s' = <[fd := e]> (fileTable s)) /\
    exists F' Q', files_ok s' F' Q' /\
      moves (cache s) (cache s') F' Q Q' (fun _ => 0) (fun _ => 0)).
Proof. intros [HN HF] Hf Ht Hfew Hp Hne Hw Hfd. by eapply open_close. Qed.

(** C13: a write through a descriptor at the end of the file appends the buffer:
    all of it is written, the contents grow by exactly these bytes, the
    invariant of the table is kept and no other inode changes. The machine
    defines shifts by 64 and more, which [getHash] makes ([DefinedShifts]). *)
Theorem writeToFile_appends s F Q l n k i fd e flags ctx buf :
  let len := Z.of_nat (length buf) in
  files_ok s F Q -> fileTable s !! fd = Some e -> opened k e -> caches (cache s) Q n k i ->
  file_ok (ds (cache s)) l i -> Forall data_area (l ++ blocks_of (ds (cache s)) i) ->
  Forall is_byte buf -> len < 2 ^ 31 -> room l (ic_size i) len ->
  wp (writeToFile buf len (ic_size i) (FuseFileInfo flags (Z.of_nat fd)) ctx) s (fun v s' =>
    v = len /\ exists i' l' off,
      caches (cache s') Q n k i' /\ touched i i' /\
      appended (ds (cache s)) l i (ds (cache s')) l' i' buf /\ files_ok s' F Q /\
      fileTable s' = <[fd := fte_set_offset off e]> (fileTable s) /\
      forall m d, inode_num m -> m <> n -> inode_view (cache s) Q m d -> inode_view (cache s') Q m d).
Proof.
  intros len Hf Hfd He Hk Hfile Hda Hb Hlen Hroom.
  eapply wp_mono; [by apply (writeToFile_spec s F Q l n k i fd e)|].
  intros v s' (-> & i' & l' & off & Hk' & Ht & Happ & Hf' & Et & Hu). split; [done|]. exists i', l', off.
  split_and!; try done. intros m d Hm Hmn. eapply updates_view_other; [apply Hf|done..].
Qed.

(** C18: a read through a descriptor from the start of the file, or of whole
    blocks inside it ([read_request]: offset 0, or offset and length multiples
    of 1024 with the end inside the file), returns the bytes of the file from
    the offset on, as many as were asked for or are left, and leaves the cache
    and the disk as they are. Other requests can overrun the buffer. *)
Theorem readFile_reads s F Q l n k i fd e flags ctx buf o :
  let len := Z.of_nat (length buf) in
  let m := Z.min len (ic_size i - o) in
  files_ok s F Q -> fileTable s !! fd = Some e -> opened k e -> caches (cache s) Q n k i ->
  file_ok (ds (cache s)) l i -> len < 2 ^ 31 -> 0 <= o <= ic_size i -> read_request i o len ->
  wp (readFile buf len o (FuseFileInfo flags (Z.of_nat fd)) ctx) s (fun v s' =>
    v = (m, memcpy_at buf 0 (file_range (ds (cache s)) (ic_dataBlockNums i) o m)) /\
    cache s' = cache s /\ exists off, fileTable s' = <[fd := fte_set_offset off e]> (fileTable s)).
Proof. apply readFile_spec. Qed.

(** C17: what has been written through a descriptor is read back through it: a
    buffer appended to a file that is empty, or consists of whole blocks like
    the buffer, comes back unchanged from a read at the old end. The machine
    defines shifts by 64 and more, which [getHash] makes ([DefinedShifts]). *)
Theorem write_then_read_back s F Q l n k i fd e flags ctx buf dst :
  let len := Z.of_nat (length buf) in
  let fi := FuseFileInfo flags (Z.of_nat fd) in
  files_ok s F Q -> fileTable s !! fd = Some e -> opened k e -> caches (cache s) Q n k i ->
  file_ok (ds (cache s)) l i -> Forall data_area (l ++ blocks_of (ds (cache s)) i) ->
  Forall is_byte buf -> len < 2 ^ 31 -> room l (ic_size i) len -> length dst = length buf ->
  ic_size i = 0 \/ (ic_size i mod 1024 = 0 /\ len mod 1024 = 0) ->
  wp (let* w := writeToFile buf len (ic_size i) fi ctx in
      let* r := readFile dst len (ic_size i) fi ctx in ret (w, r)) s
    (fun v _ => v = (len, (len, buf))).
Proof.
  intros len fi Hf Hfd He Hk Hfile Hda Hb Hlen Hroom Hdst Hal. apply wp_bind.
  eapply wp_mono; [by eapply (writeToFile_spec s F Q l n k i fd e)|].
  intros w s1 (-> & i' & l' & off & Hk1 & _ & (Hfile1 & _ & _ & Hsz & _ & Hdata) & Hf1 & Htab & _).
  fold len in Hsz. pose proof (file_size_u64 _ _ _ Hfile) as H64.
  assert (fileTable s1 !! fd = Some (fte_set_offset off e)) as Hfd1.
  { rewrite Htab. apply list_lookup_insert_eq. by eapply lookup_lt_Some. }
  apply wp_bind. pose proof (readFile_spec s1 F Q l' n k i' fd _ flags ctx dst (ic_size i) Hf1 Hfd1) as Hread.
  cbv zeta in Hread. rewrite Hdst in Hread. fold len fi in Hread.
  eapply wp_mono; [apply Hread; [by destruct He|done|done|done|lia|]|].
  { destruct Hal as [->|[? ?]]; [by left|right]. split_and!; [done|done|lia]. }
  intros v s2 (-> & _). apply wp_ret. do 2 f_equal. rewrite Hsz.
  replace (Z.min len (ic_size i + len - ic_size i)) with len by lia. f_equal.
  rewrite (file_range_data _ _ _ _ (ic_size i + len)), <- Hsz, Hdata by lia.
  unfold bytes_at. rewrite drop_app_length' by (rewrite length_file_data; lia).
  rewrite take_ge by lia. unfold memcpy_at. cbn [take app].
  by rewrite drop_ge, app_nil_r by (rewrite Hdst; lia).
Qed.

(** C27: [attrPopulate] fails with [ENOENT] when the path leads nowhere, and
    otherwise reports exactly the times, mode, size and owners of the inode at
    its end; it changes no inode and keeps no reference. The machine defines
    shifts by 64 and more, which [getHash] makes ([DefinedShifts]). *)
Theorem attrPopulate_reports N s F Q l path st r :
  (0 < N <= length F)%nat -> cache_ok s F Q -> tree_ok s Q l -> few_refs s Q -> c_string path -> path <> [] ->
  walks s Q 0 (path_names path) r ->
  wp (attrPopulate path st) s (fun v s' =>
    (exists F' Q', moves s s' F' Q Q' (fun _ => 0) (fun _ => 0)) /\
    match r with
    | None => v = (- ENOENT, st)
    | Some n => exists d, inode_view s Q n d /\ v = (0, stat_of d)
    end).
Proof. intros [HN HF] Hc Ht Hfew Hp Hne Hw. by eapply attrPopulate_spec. Qed.

(** [changeMode] sets the mode of the inode at the end of the path, with the
    bit for directories added for a directory, and nothing else: all its other
    fields, all other inodes and all references stay. (The inode has links; the
    root, which has none, must not be in use.) *)
Theorem changeMode_changes N s F Q l path mode r :
  (0 < N <= length F)%nat -> cache_ok s F Q -> tree_ok s Q l -> few_refs s Q -> c_string path -> path <> [] ->
  walks s Q 0 (path_names path) r -> is_u32 mode ->
  (forall n d, r = Some n -> inode_view s Q n d -> linksCount d <> 0 \/ (n = 0 /\ refs s Q 0 0)) ->
  wp (changeMode path mode) s (fun v s' => exists F' Q',
    match r with
    | None => v = - ENOENT /\ moves s s' F' Q Q' (fun _ => 0) (fun _ => 0)
    | Some n => exists d, inode_view s Q n d /\ v = 0 /\ changed_only s s' F' Q Q' n (new_mode mode d)
    end).
Proof.
  intros [HN HF] Hc Ht Hfew Hp Hne Hw Hm Hl. unfold changeMode.
  by eapply (change_at_spec N HN); [..|by apply changeMode_sound|].
Qed.

(** [changeOwner] sets the owners that are not -1 in the inode at the end
    of the path, and nothing else. *)
Theorem changeOwner_changes N s F Q l path uid gid r :
  (0 < N <= length F)%nat -> cache_ok s F Q -> tree_ok s Q l -> few_refs s Q -> c_string path -> path <> [] ->
  walks s Q 0 (path_names path) r -> is_u32 uid -> is_u32 gid ->
  (forall n d, r = Some n -> inode_view s Q n d -> linksCount d <> 0 \/ (n = 0 /\ refs s Q 0 0)) ->
  wp (changeOwner path uid gid) s (fun v s' => exists F' Q',
    match r with
    | None => v = - ENOENT /\ moves s s' F' Q Q' (fun _ => 0) (fun _ => 0)
    | Some n => exists d, inode_view s Q n d /\ v = 0 /\ changed_only s s' F' Q Q' n (new_owner uid gid d)
    end).
Proof.
  intros [HN HF] Hc Ht Hfew Hp Hne Hw Hu Hg Hl. unfold changeOwner.
  by eapply (change_at_spec N HN); [..|by apply changeOwner_sound|].
Qed.

(** C28: [changeMode] sets the mode of the inode at the end of the path, with
    the bit for directories added for a directory, [changeOwner] the owners that
    are not -1, and nothing else changes: all other fields, all other inodes and
    all references stay. A path that leads nowhere is [ENOENT]. (The inode has
    links; the root, which has none, must not be in use.) The machine defines
    shifts by 64 and more, which [getHash] makes ([DefinedShifts]). *)
Theorem attributes_change N s F Q l path mode uid gid r :
  (0 < N <= length F)%nat -> cache_ok s F Q -> tree_ok s Q l -> few_refs s Q -> c_string path -> path <> [] ->
  walks s Q 0 (path_names path) r -> is_u32 mode -> is_u32 uid -> is_u32 gid ->
  (forall n d, r = Some n -> inode_view s Q n d -> linksCount d <> 0 \/ (n = 0 /\ refs s Q 0 0)) ->
  let changed_to new := fun v s' => exists F' Q',
    match r with
    | None => v = - ENOENT /\ moves s s' F' Q Q' (fun _ => 0) (fun _ => 0)
    | Some n => exists d, inode_view s Q n d /\ v = 0 /\ changed_only s s' F' Q Q' n (new d)
    end in
  wp (changeMode path mode) s (changed_to (new_mode mode)) /\
  wp (changeOwner path uid gid) s (changed_to (new_owner uid gid)).
Proof.
  intros. split; [by eapply changeMode_changes|by eapply changeOwner_changes].
Qed.

(** C19: [truncateFile] gives the file at the end of a path a new size: its
    bytes are cut, or continued with zeros; its attributes, all other inodes
    with their contents, all references, the list of free numbers and the
    invariant of the file system are kept, and a larger file takes no more free
    blocks than its new bytes need. (A file grows as far as there are blocks;
    one inside its direct blocks can also shrink.) The machine defines shifts by
    64 and more, which [getHash] makes ([DefinedShifts]). *)
Theorem truncateFile_resizes N s F Q l path n d new :
  fs_ok (cache s) F Q l -> (0 < N <= length F)%nat -> few_refs (cache s) Q -> c_string path -> path <> [] ->
  walks (cache s) Q 0 (path_names path) (Some n) -> inode_view (cache s) Q n d ->
  type d <> T_DIRECTORY -> S_ISDIR (file_mode d) = false -> linksCount d <> 0 ->
  FreeMutex ∉ held (ds (cache s)) -> can_resize l (size d) new ->
  wp (truncateFile path new) s (fun v s' => v = 0 /\ fileTable s' = fileTable s /\
    exists F' Q' l' d', truncated (cache s) (cache s') F' Q Q' l l' n d d' new).
Proof. intros Hfs [HN HF]. by apply (truncateFile_spec N HN s F Q). Qed.

(** C24: [readDirectory] lists the names of the directory at the end of a path,
    all of them, each once for each of its entries and in their order, whatever
    the number of its blocks; it fails when the path leads nowhere, and keeps
    every inode, reference and open file. The machine defines shifts by 64 and
    more, which [getHash] makes ([DefinedShifts]). *)
Theorem readDirectory_lists N s F Q l path r :
  (0 < N <= length F)%nat -> cache_ok (cache s) F Q -> tree_ok (cache s) Q l -> few_refs (cache s) Q ->
  c_string path -> path <> [] -> walks (cache s) Q 0 (path_names path) r ->
  (forall n, r = Some n -> exists es, entries_in (cache s) Q n es) ->
  wp (readDirectory path) s (fun v s' =>
    fileTable s' = fileTable s /\ (exists F' Q', moves (cache s) (cache s') F' Q Q' (fun _ => 0) (fun _ => 0)) /\
    match r with
    | None => v = (-1, [])
    | Some n => exists es, entries_in (cache s) Q n es /\ v = (0, fst <$> es)
    end).
Proof. intros [HN HF] Hc Ht. by apply (readDirectory_spec N HN s F Q l). Qed.

(** C5: [createFile] puts a new file or directory into a file system in a valid
    state and keeps the invariant: every inode owns its blocks, none is shared
    or free, none is lost, every directory is well-formed and names linked
    inodes. The new inode has the number, type, mode, owners and links asked
    for, a new directory holds exactly the entries for itself and its parent,
    the path now leads to the new inode, every path that led somewhere before
    still leads there, all other inodes keep their data and contents, and no
    reference is kept. The call is free of undefined behaviour only where the 62
    bytes can be read that are copied of each name ([names_readable]): for a
    file a buffer of 62 bytes or a machine that reads behind it, for a
    directory, with its ["."] of two bytes, always the latter. The machine
    defines shifts by 64 and more, which [getHash] makes ([DefinedShifts]). *)
Theorem createFile_creates t s F Q l dir file p dp j num tl e mode ctx :
  t = T_REGULAR \/ t = T_DIRECTORY -> fs_ok s F Q l -> few_refs s Q -> (2 <= length F)%nat ->
  c_string (dir ++ file) -> last dir = Some slash -> slash ∉ file -> (0 < length file <= 61)%nat ->
  walks s Q 0 (path_names dir) (Some p) -> inode_view s Q p dp -> S_ISDIR (file_mode dp) = true ->
  find_entry file (dir_list (ds s) (dir_of dp)) = None -> root_idle s Q p dp ->
  room l (size dp) 64 -> (8 <= length l)%nat -> free_number s Q j num tl e -> num < 65535 ->
  is_u32 mode -> is_u32 (fc_uid ctx) -> is_u32 (fc_gid ctx) ->
  S_ISDIR (made_mode t mode) = bool_decide (t = T_DIRECTORY) -> names_readable t (dir ++ file) ->
  wp (createFile (dir ++ file) t mode ctx) s (fun v s' => v = 0 /\ exists F' Q' l' dn,
    fs_ok s' F' Q' l' /\ inode_view s' Q' num dn /\
    new_inode t (made_mode t mode) (fc_uid ctx) (fc_gid ctx) num dn /\
    dir_list (ds s') (dir_of dn) = first_entries t num p /\
    walks s' Q' 0 (path_names (dir ++ file)) (Some num) /\
    (forall nms m, walks s Q 0 nms (Some m) -> walks s' Q' 0 nms (Some m)) /\
    (forall m d, inode_num m -> m <> p -> m <> num -> inode_view s Q m d ->
       inode_view s' Q' m d /\ same_contents (ds s) (ds s') d) /\
    (forall m c, refs s Q m c -> refs s' Q' m c)).
Proof. apply createFile_spec. Qed.

(** * Removal *)

(** C6: [createFile] of a regular file followed by [unlinkFile] of the same path
    leaves the file system as it was: both return 0, the invariant holds, the
    directory has its old entries, every other inode its old contents and every
    inode its old references, the number is back at the front of the list of
    free numbers, and there are as many free blocks and free cache nodes as
    before. The directory is inside its direct blocks, 136 blocks and a further
    number are free, and the cache has two free nodes. Conditions on the
    machine, which neither C nor malloc promises: the 62 bytes that are copied
    of the name can be read ([name_readable]), and the entry that [unlinkFile]
    gets from malloc has clear upper bytes in its number ([clean_malloc],
    without which it looks another inode up). The machine defines shifts by 64
    and more, which [getHash] makes ([DefinedShifts]). *)
Theorem createFile_unlinkFile s F Q l dir file p dp j num x tl e mode ctx :
  fs_ok s F Q l -> few_refs s Q -> (2 <= length F)%nat ->
  c_string (dir ++ file) -> last dir = Some slash -> slash ∉ file -> (length file <= 61)%nat ->
  walks s Q 0 (path_names dir) (Some p) -> inode_view s Q p dp -> S_ISDIR (file_mode dp) = true ->
  find_entry file (dir_list (ds s) (dir_of dp)) = None -> root_idle s Q p dp ->
  size dp + 64 < 10240 -> (136 <= length l)%nat ->
  free_number s Q j num (x :: tl) e -> x <> 0 -> num < 65535 ->
  is_u32 mode -> is_u32 (fc_uid ctx) -> is_u32 (fc_gid ctx) -> S_ISDIR mode = false ->
  FreeMutex ∉ held (ds s) -> IFreeMutex ∉ held (ds s) ->
  name_readable (length (dir ++ file) + 1) -> clean_malloc ->
  wp (let* a := createFile (dir ++ file) T_REGULAR mode ctx in
      let* b := unlinkFile (dir ++ file) in ret (a, b)) s
    (fun v s' => v = (0, 0) /\ inode_list (ds s') (replicate j 0 ++ num :: x :: tl) /\
      exists F' Q' l', restored s s' F F' Q Q' l l' p dp num).
Proof. apply create_then_unlink. Qed.

(** C7: removing the last name of an inode that nobody uses deletes it: its
    entry is taken out of the directory, all blocks of its tree and the block
    that the directory no longer needs go to the free list, its number to the
    list of free numbers, and the inode is cleared; the invariant holds, the
    name leads nowhere, and every other inode keeps its contents and its
    references. The entry is [removable]: its directory is inside its direct
    blocks, 128 blocks and two nodes of the cache are free, and the entry that
    [unlinkFile] gets from malloc has clear upper bytes in its number
    ([clean_malloc]). malloc does not promise this; without it another inode is
    looked up. The machine defines shifts by 64 and more, which [getHash] makes
    ([DefinedShifts]). *)
Theorem unlinkFile_deletes s F Q l dir file p dp k num dn j x tl :
  removable s F Q l dir file p dp k num dn -> linksCount dn = 1 -> refs s Q num 0 -> num <> 0 ->
  named_once s Q num p k -> IFreeMutex ∉ held (ds s) ->
  inode_list (ds s) (replicate (Datatypes.S j) 0 ++ x :: tl) -> x <> 0 ->
  wp (unlinkFile (dir ++ file)) s (fun v s' => v = 0 /\ exists F' Q' l' freed e,
    l' ≡ₚ freed ++ blocks_of (ds s) (dir_of dn) ++ l /\
    Z.of_nat (length freed) = nblocks (size dp) - nblocks (size dp - 64) /\
    inode_list (ds s') (replicate j 0 ++ num :: x :: tl) /\ deleted e /\
    file_unlinked s s' F' Q Q' l' file p dp k num e).
Proof. apply unlinkFile_last. Qed.


(** C8: [renameFile] to a name that is not in use moves the entry: the call
    returns 0, the new name leads to the inode and the old one nowhere, in one
    directory the entry keeps its place and between two it leaves the one and
    ends the other; the inode has its data, its links and its contents as
    before, although it is given a link and loses one on the way, so is every
    other inode, and the invariant of the file system, the references and the
    list of free numbers are kept; the directories take at most four free
    blocks. The name is [renameable]: the old directory is inside its direct
    blocks, 132 blocks and three nodes of the cache are free. Conditions on the
    machine, which neither C nor malloc promises: the 62 bytes that are copied
    of the new name can be read ([name_readable]), and the entries from malloc
    have clear upper bytes in their number ([clean_malloc], without which
    another inode loses its link). The machine defines shifts by 64 and more,
    which [getHash] makes ([DefinedShifts]). *)
Theorem renameFile_renames fuel s F Q l dir1 file1 p1 dp1 k num dn dir2 file2 p2 dp2 nos :
  renameable s F Q l dir1 file1 p1 dp1 k num dn dir2 file2 p2 dp2 ->
  find_entry file2 (dir_list (ds s) (dir_of dp2)) = None -> inode_list (ds s) nos ->
  wp (renameFile fuel (dir1 ++ file1) (dir2 ++ file2)) s (fun v s' => v = 0 /\ inode_list (ds s') nos /\
    exists F' Q' l', (length l <= length l' + 4)%nat /\ renamed s s' F' Q Q' l' file1 p1 dp1 k num dn file2 p2 dp2).
Proof.
  intros Hra Hno Hnos. eapply wp_mono; [by eapply renameFile_moves|].
  intros v s' (-> & ? & F' & Q' & l' & ? & ? & _). split; [done|]. split; [done|]. by exists F', Q', l'.
Qed.

(** C1: the file system implements a tree. [models s T] says that a process
    shows the tree [T]: the invariant of the whole holds, the mode, the owners,
    the links and the contents of every inode are those of its node, and the
    entries of the table of open files hold references to the inodes that the
    descriptors of the tree stand for. Whatever sequence of requests the tree
    permits (attributes and their changes, new directories and their listing,
    new files, opening and releasing, writing, reading and truncating, also
    while a file is open more than once, removals of files and of empty
    directories, renaming to a new name or over another file, and requests that
    fail) and the memory serves, the callbacks of FUSE serve it: on a machine
    that meets the conditions below every call returns what the tree says,
    without undefined behaviour, deadlock or endless loop, and at the end the
    process shows the tree that the requests lead to. Conditions on the machine,
    which neither C nor malloc promises: shifts by 64 and more are defined
    ([DefinedShifts], hashQ.c); for a new name, the 62 bytes that
    [addDirectoryEntry] copies can be read behind a shorter buffer
    (directory.c); for removals and renamings, the entries that malloc returns
    have clear upper bytes in their number ([clean_malloc]), without which the
    code looks another inode up (unlink.c). The last two are asked for only by
    the requests that need them ([memory_serves]); all other requests are served
    on any memory. *)
Theorem session_refines s T T' rs vs :
  models s T -> Forall memory_serves rs -> session T rs = Some (vs, T') ->
  wp (serve_all rs) s (fun v s' => v = vs /\ models s' T').
Proof. apply session_implements. Qed.

(** C3: from the start of the program on. Started on a device that
    [makeFileSystem] has prepared, the program mounts it as the tree that has an
    empty root, 512 free numbers, all its blocks and no open file, and then
    serves every sequence of requests that this tree permits and the memory
    serves. Conditions on the machine, which neither C nor malloc promises:
    shifts by 64 and more are defined ([DefinedShifts]), the counter that
    [initHashQueues] does not set has some value ([stack_word]), and what
    [memory_serves] says of each request: for a new name the 62 bytes that are
    copied from a shorter buffer can be read, for removals and renamings the
    entries from malloc have clear upper bytes ([clean_malloc]). *)
Theorem main_serves d prog name t rs vs T' :
  take 6 prog <> fsname -> (length name < 20)%nat -> isDiskAvailable d = false -> devName d = None ->
  dev_access name (device d) = true -> length t = Z.to_nat MAX_FILE_DESCRIPTORS ->
  ok (mounted d name) -> new_file_system (mounted d name) -> held d = [] ->
  is_Some stack_word -> Forall memory_serves rs -> session fresh_tree rs = Some (vs, T') ->
  wp (let* started := main [prog; device_arg name] in if started then serve_all rs else ret []) (fresh_process d t)
    (fun v s' => v = vs /\ models s' T').
Proof. apply main_then_session. Qed.

End namespace_props.

(** C2: the two programs together. [mkfs_main] on a device that reads and writes
    as a file of 30 GB succeeds, and whatever process is started on that device
    afterwards serves every session that the tree with an empty root permits and
    the memory serves, with the replies of the tree: the device is all that the
    two processes share. Conditions on the machine, which neither C nor malloc
    promises: shifts by 64 and more are defined ([DefinedShifts]), the counter
    that [initHashQueues] does not set has some value ([stack_word]), and what
    [memory_serves] says of each request: for a new name the 62 bytes that are
    copied from a shorter buffer can be read, for removals and renamings the
    entries from malloc have clear upper bytes ([clean_malloc]). *)
Theorem mkfs_then_serve `{Host} (dev_ok : Z -> dev -> Prop) `{!DeviceLaws dev_ok} `{!DefinedShifts} d prog name dv :
  is_Some stack_word -> started_on dv d -> dev_access name dv = true -> dev_ok (NUM_OF_BLOCKS std_params) dv ->
  wp (mkfs_main [prog; name]) d (fun v d' => v = 0 /\
    forall d2 prog2 t rs vs T', started_on (device d') d2 -> take 6 prog2 <> fsname -> (length name < 20)%nat ->
      dev_access name (device d') = true -> length t = Z.to_nat MAX_FILE_DESCRIPTORS ->
      Forall memory_serves rs -> session fresh_tree rs = Some (vs, T') ->
      wp (let* started := main [prog2; device_arg name] in if started then serve_all rs else ret []) (fresh_process d2 t)
        (fun v s' => v = vs /\ models (ok := device_ok dev_ok) s' T')).
Proof. apply mkfs_then_session; exact _. Qed.
