(* ===== verification/NamespaceInst.v ===== *)
(** Instances of the theorems about paths, descriptors and the tree, on the file
    systems of [TreeSamples.v]. *)

From S2P Require Export TreeSamples NamespaceProps.

#[local] Existing Instance sim_host.
Local Abbreviation dev_fs := (device_ok sim_dev_ok).
Local Abbreviation nodes32 := (seq 0 INODE_BUFFER_SIZE).
Local Abbreviation none := (fun _ : Z => @nil nat).

(** The path [/a/b]. *)
Definition path_a_b : list Z := [slash; 97; slash; 98].
(** The root directory has no name [a]. *)
Lemma missing_lead (s : istate) r :
  inode_view s none 0 (root_iNode r) -> leads s none 0 (path_names path_a_b) None.
Proof.
  intros Hv. apply (leads_missing s none 0 [97] [[98]] []); [|done].
  exists (root_iNode r). split_and!; [exact Hv|done|]. unfold dir_list, dir_data. done.
Qed.

Lemma missing_walk (s : istate) r :
  inode_view s none 0 (root_iNode r) -> walks s none 0 (path_names path_a_b) None.
Proof. intros Hv. eapply leads_walks, missing_lead, Hv. Qed.

Lemma clean_path_a_b : clean_path path_a_b.
Proof. by repeat constructor. Qed.

(** The machine of the instances defines what C leaves undefined, and its
    fresh memory is clear. *)
Lemma sim_reads size : name_readable (H := sim_host) size.
Proof. by left. Qed.

Lemma sim_names t path : names_readable (H := sim_host) t path.
Proof. split; [apply sim_reads|done]. Qed.

Lemma sim_stack : is_Some (stack_word (Host := sim_host)).
Proof. by eexists. Qed.

Lemma sim_clean_malloc : clean_malloc (H := sim_host).
Proof. unfold clean_malloc. cbn. lia. Qed.

Lemma sim_memory_serves rs : Forall (memory_serves (H := sim_host)) rs.
Proof.
  apply Forall_true. intros []; cbn [memory_serves]; auto using sim_names, sim_clean_malloc, sim_reads.
Qed.

Lemma root_paths : c_string root_path /\ root_path <> [] /\ c_string path_a_b /\ path_a_b <> [].
Proof. split_and!; by repeat constructor. Qed.

Lemma one_free : (0 < 32 <= length nodes32)%nat.
Proof. rewrite length_seq. unfold INODE_BUFFER_SIZE. lia. Qed.

(** The mounted file system with an empty table, or one full of the same node. *)
Definition table_of (k : nat) (v : bool) : list fileTableEntry :=
  replicate (Z.to_nat MAX_FILE_DESCRIPTORS) (FileTableEntry (Some k) 0 0 0 v).

Lemma opens_replicate n e k : opens (replicate n e) k = Z.of_nat n * counts k e.
Proof. induction n as [|n IH]; [done|]. cbn [replicate]. rewrite opens_cons, IH. lia. Qed.

Lemma empty_table (s : istate) :
  cache_ok (ok := dev_fs) s nodes32 none -> files_ok (ok := dev_fs) (FState s (table_of 0 false)) nodes32 none.
Proof.
  intros Hc. split; cbn [cache fileTable].
  - exact Hc.
  - apply length_replicate.
  - intros fd e He Hv. apply lookup_replicate in He as [-> _]. done.
  - intros k Hk. unfold table_of in Hk. rewrite opens_replicate in Hk. unfold counts in Hk.
    rewrite decide_False in Hk by (by intros [? _]). lia.
Qed.

(** * Paths *)

(** [/a/b] leads nowhere. *)
Lemma getFileINode_walks_witness : exists s : istate,
  wp (getFileINode path_a_b (length path_a_b)) s (fun o s' =>
    o = None /\ exists F' Q', moves (ok := dev_fs) s s' F' none Q' (fun _ => 0) (fun _ => 0)).
Proof.
  destruct mounted_root as (s & r & [Hc Ht _] & Hv & _). destruct root_paths as (_ & _ & _ & Hne). exists s.
  apply (getFileINode_walks (ok := dev_fs) 32 s nodes32 none all_free path_a_b None);
    [exact one_free|exact Hc|exact Ht|apply nothing_in_use|exact clean_path_a_b|exact Hne|by eapply missing_lead].
Defined.

(** The root directory is opened at the first entry of the table. *)
Lemma openFile_opens_witness : exists s : fstate,
  wp (openFile root_path (FuseFileInfo 0 0) some_context) s
    (opens_as (ok := dev_fs) 32 s none (Some 0) (FuseFileInfo 0 0) some_context).
Proof.
  destruct mounted_root as (s & r & [Hc Ht _] & Hv & _). destruct root_paths as (Hp & Hne & _).
  exists (FState s (table_of 0 false)).
  apply (openFile_opens (ok := dev_fs) 32 (FState s (table_of 0 false)) nodes32 none all_free);
    [exact one_free|by apply empty_table|exact Ht|apply nothing_in_use|exact Hp|exact Hne|apply root_walk].
Defined.

Lemma open_close_neutral_witness : exists s : fstate,
  wp (let* (_, fi) := openFile root_path (FuseFileInfo 0 0) some_context in closeFile fi some_context) s
    (fun v s' => v = 0 /\
      (exists e, validEntry e = false /\ fileTable s' = <[0%nat := e]> (fileTable s)) /\
      exists F' Q', files_ok (ok := dev_fs) s' F' Q' /\
        moves (ok := dev_fs) (cache s) (cache s') F' none Q' (fun _ => 0) (fun _ => 0)).
Proof.
  destruct mounted_root as (s & r & [Hc Ht _] & Hv & _). destruct root_paths as (Hp & Hne & _).
  exists (FState s (table_of 0 false)).
  apply (open_close_neutral (ok := dev_fs) 32 (FState s (table_of 0 false)) nodes32 none all_free
    root_path (FuseFileInfo 0 0) some_context 0 0);
    [exact one_free|by apply empty_table|exact Ht|apply nothing_in_use|exact Hp|exact Hne|apply root_walk|done].
Defined.


(** A node in use may have any number of references. *)
Lemma recounted s F Q n k i c :
  cache_ok (ok := dev_fs) s F Q -> caches s Q n k i -> 0 < reference_count i -> 0 < c < 2 ^ 64 ->
  updates (ok := dev_fs) s (inode_set k (ic_set_refs c i) s) F F Q n k (ic_set_refs c i).
Proof.
  intros Hc Hk Hpos Hcr. pose proof Hk as (Hi & _ & En). pose proof (inode_at_lt _ _ _ Hi) as Hlt.
  destruct (c_hashed _ _ _ Hc _ _ _ Hk) as (Hnum & Hdev & Hwf & _ & Hco).
  pose proof (proj2 (c_refs _ _ _ Hc _ _ Hi)) as Hfree.
  split.
  - intros j. by rewrite inode_at_set.
  - apply freelist_ok_set, (c_free _ _ _ Hc).
  - eapply (hash_ok_set k _ i); [exact (c_hash _ _ _ Hc)|exact Hi|done].
  - done.
  - cbn. unfold is_u64. split; [lia|]. rewrite Hfree. lia.
  - exact (c_quiet _ _ _ Hc _ _ Hi).
  - by split.
  - exact Hwf.
  - cbn. lia.
  - exact Hco.
  - exact (c_disk _ _ _ Hc).
  - exact (c_area _ _ _ Hc).
  - done.
  - intros d Hd. by eapply (c_table _ _ _ Hc).
Qed.

(** Ten thousand descriptors of the root. *)
Lemma full_table : exists (s : fstate) F Q l,
  (0 < 1 <= length F)%nat /\ files_ok (ok := dev_fs) s F Q /\ tree_ok (ok := dev_fs) (cache s) Q l /\
  few_refs (cache s) Q /\ Forall (fun e => validEntry e = true) (fileTable s).
Proof.
  destruct mounted_root as (s0 & r & [Hc0 Ht0 _] & Hv & _).
  destruct (wp_inv _ _ _ (iget_moves (ok := dev_fs) 32 ltac:(lia) s0 nodes32 none 0 Hc0 (proj2 one_free)
    ltac:(done) (nothing_in_use s0) ltac:(by left)))
    as (o & s1 & _ & k & F & Q & -> & Hm & Hds & i & Hk & Hpos & _ & Hv1 & HF).
  pose proof (m_same _ _ _ _ _ _ _ Hm) as [Hc1 V1 R1].
  pose proof (inode_view_unique (ok := dev_fs) _ _ _ _ _ _ Hc0 (proj1 (V1 0 _ ltac:(done)) Hv1) Hv) as Ei.
  assert (ic_linksCount i = 0) as Hl by (change (linksCount (getDiskINodeData i) = 0); by rewrite Ei).
  pose proof (recounted s1 F Q 0 k i 10000 Hc1 Hk Hpos ltac:(lia)) as Hu.
  set (i' := ic_set_refs 10000 i) in *. set (s2 := inode_set k i' s1) in *.
  pose proof (updates_ok (ok := dev_fs) _ _ _ _ _ _ _ _ _ Hc1 Hk Hu) as Hc2.
  assert (caches s2 Q 0 k i') as Hk2 by (apply (updates_caches _ _ _ _ _ _ _ _ _ _ _ _ Hu Hk); by left).
  assert (forall m d, inode_num m -> inode_view s2 Q m d <-> inode_view s1 Q m d) as V2.
  { eapply (views_agree (ok := dev_fs)); [exact Hc1|exact Hc2|]. intros m d Hn.
    by apply (updates_view_unlinked (ok := dev_fs) _ _ _ _ _ _ _ _ _ _ _ Hc1 Hk Hu). }
  assert (moves (ok := dev_fs) s1 s2 F Q Q (fun _ => 0) (fun m => (10000 - reference_count i) * one 0 m)) as Hm2.
  { split; [split|..]; [exact Hc2|exact V2| | |apply changes_refl].
    - intros m c Hmc. eapply (updates_refs_by (ok := dev_fs)); [exact Hc1|exact Hk|exact Hu|cbn; lia|exact Hmc].
    - eapply updates_stays; [exact Hk|exact Hu|done]. }
  exists (FState s2 (table_of k true)), F, Q, all_free. cbn [cache fileTable]. split_and!.
  - lia.
  - destruct HF as [HF|[HF _]]; lia.
  - split; cbn [cache fileTable]; [exact Hc2|apply length_replicate| |].
    + intros fd e He _. apply lookup_replicate in He as [-> _]. done.
    + intros j Hj. unfold table_of in *. rewrite opens_replicate in *. unfold counts in *.
      destruct (decide (opened j _)) as [[_ E]|_]; [|lia]. cbn in E. injection E as ->.
      exists 0, i'. split; [exact Hk2|]. change (reference_count i') with 10000.
      change MAX_FILE_DESCRIPTORS with 10000. lia.
  - eapply tree_ok_moves; [exact Hm2|]. by eapply tree_ok_moves.
  - intros m c Hn Hmc. pose proof (R1 m 0 (no_refs s0 m)) as Hr1.
    pose proof (si_refs _ _ _ _ _ _ (m_same _ _ _ _ _ _ _ Hm2) m _ Hr1) as Hr2.
    rewrite (refs_unique (ok := dev_fs) _ _ _ _ _ _ Hc2 Hmc Hr2). unfold one. destruct (decide (m = 0)); [|lia].
    assert (reference_count i = 1) as ->; [|lia].
    subst m. pose proof (refs_cached (ok := dev_fs) _ _ _ _ _ _ _ Hc1 Hk Hr1) as E. unfold one in E.
    rewrite decide_True in E by done. lia.
  - apply Forall_replicate. done.
Qed.

Lemma open_full_table_witness : exists (s : fstate) Q,
  wp (openFile root_path (FuseFileInfo 0 0) some_context) s (fun '(r, fi') s' => r = 0 /\
    fileTable s' = fileTable s /\
    (exists F' Q', moves (ok := dev_fs) (cache s) (cache s') F' Q Q' (fun _ => 0) (one 0)) /\
    forall buf size offset, readFile buf size offset fi' some_context s' = Undef OutOfBounds).
Proof.
  destruct full_table as (s & F & Q & l & HF & Hf & Ht & Hfew & Hall). destruct root_paths as (Hp & Hne & _).
  exists s, Q. apply (open_full_table (ok := dev_fs) 1 s F Q l root_path (FuseFileInfo 0 0) some_context 0);
    [exact HF|exact Hf|exact Ht|exact Hfew|exact Hp|exact Hne|apply root_walk|exact Hall].
Defined.

(** * Descriptors *)

Definition five_bytes : list Z := [104; 101; 108; 108; 111].

Lemma enough_room : room all_free 0 5.
Proof.
  unfold room. change MAX_FILE_SIZE with 2164402176. rewrite length_all_free.
  change (nblocks (0 + 5)) with 1. change (nblocks 0) with 0. lia.
Qed.

(** An open, empty file. *)
Lemma opened_empty : exists (s : fstate) F Q k i,
  files_ok (ok := dev_fs) s F Q /\ fileTable s !! 3%nat = Some (open_entry k) /\ opened k (open_entry k) /\
  caches (cache s) Q 1 k i /\ file_ok (ok := dev_fs) (ds (cache s)) all_free i /\ ic_size i = 0 /\
  Forall data_area (all_free ++ blocks_of (ds (cache s)) i).
Proof.
  destruct opened_file as (s & F & Q & k & i & Hf & Ht & Hk & E & Hfile).
  assert (ic_size i = 0) as Hz by (change (size (getDiskINodeData i) = 0); by rewrite E).
  exists s, F, Q, k, i. split; [done|]. split; [by rewrite Ht|]. do 4 (split; [done|]).
  rewrite empty_blocks, app_nil_r by done. apply all_free_area.
Qed.

Lemma writeToFile_appends_witness : exists (s : fstate) F Q k i,
  wp (writeToFile five_bytes 5 0 (FuseFileInfo 2 3) some_context) s (fun v s' =>
    v = 5 /\ exists i' l' off,
      caches (cache s') Q 1 k i' /\ touched i i' /\
      appended (ok := dev_fs) (ds (cache s)) all_free i (ds (cache s')) l' i' five_bytes /\
      files_ok (ok := dev_fs) s' F Q /\
      fileTable s' = <[3%nat := fte_set_offset off (open_entry k)]> (fileTable s) /\
      forall m d, inode_num m -> m <> 1 -> inode_view (cache s) Q m d -> inode_view (cache s') Q m d).
Proof.
  destruct opened_empty as (s & F & Q & k & i & Hf & Ht & Ho & Hk & Hfile & Hz & Hda).
  exists s, F, Q, k, i. rewrite <- Hz.
  apply (writeToFile_appends (ok := dev_fs) s F Q all_free 1 k i 3 (open_entry k) 2 some_context five_bytes);
    [exact Hf|exact Ht|exact Ho|exact Hk|exact Hfile|exact Hda|by repeat constructor|done|].
  rewrite Hz. exact enough_room.
Defined.

(** The file after the write. *)
Lemma written_file : exists (s : fstate) F Q l k i e,
  files_ok (ok := dev_fs) s F Q /\ fileTable s !! 3%nat = Some e /\ opened k e /\ caches (cache s) Q 1 k i /\
  file_ok (ok := dev_fs) (ds (cache s)) l i /\ ic_size i = 5.
Proof.
  destruct opened_empty as (s & F & Q & k & i & Hf & Ht & Ho & Hk & Hfile & Hz & Hda).
  destruct (wp_inv _ _ _ (writeToFile_spec (ok := dev_fs) s F Q all_free 1 k i 3 (open_entry k) 2
    some_context five_bytes Hf Ht Ho Hk Hfile Hda ltac:(by repeat constructor) ltac:(done)
    ltac:(rewrite Hz; exact enough_room)))
    as (v & s' & _ & _ & i' & l' & off & Hk' & _ & (Hfile' & _ & _ & Hsz & _) & Hf' & Ht' & _).
  exists s', F, Q, l', k, i', (fte_set_offset off (open_entry k)).
  split; [done|]. split; [|do 3 (split; [done|])].
  - rewrite Ht'. apply list_lookup_insert_eq. by eapply lookup_lt_Some.
  - rewrite Hsz, Hz. done.
Qed.

Lemma readFile_reads_witness : exists (s : fstate) i,
  wp (readFile (replicate 4 0) 4 0 (FuseFileInfo 2 3) some_context) s (fun v s' =>
    v = (4, memcpy_at (replicate 4 0) 0 (file_range (ds (cache s)) (ic_dataBlockNums i) 0 4)) /\
    cache s' = cache s /\ exists off e, fileTable s' = <[3%nat := fte_set_offset off e]> (fileTable s)).
Proof.
  destruct written_file as (s & F & Q & l & k & i & e & Hf & Ht & Ho & Hk & Hfile & Hz). exists s, i.
  pose proof (readFile_reads (ok := dev_fs) s F Q l 1 k i 3 e 2 some_context (replicate 4 0) 0) as Hread.
  cbv zeta in Hread. rewrite Hz in Hread. change (Z.of_nat (length (replicate 4 0))) with 4 in Hread.
  change (Z.min 4 (5 - 0)) with 4 in Hread.
  eapply wp_mono; [apply Hread; [exact Hf|exact Ht|exact Ho|exact Hk|exact Hfile|done|done|by left]|].
  intros v s' (? & ? & off & ?). split_and!; [done|done|by exists off, e].
Defined.

Lemma write_then_read_back_witness : exists s : fstate,
  wp (let* w := writeToFile five_bytes 5 0 (FuseFileInfo 2 3) some_context in
      let* r := readFile (replicate 5 0) 5 0 (FuseFileInfo 2 3) some_context in ret (w, r)) s
    (fun v _ => v = (5, (5, five_bytes))).
Proof.
  destruct opened_empty as (s & F & Q & k & i & Hf & Ht & Ho & Hk & Hfile & Hz & Hda). exists s.
  pose proof (write_then_read_back (ok := dev_fs) s F Q all_free 1 k i 3 (open_entry k) 2 some_context five_bytes
    (replicate 5 0)) as Hw.
  cbv zeta in Hw. rewrite Hz in Hw. change (Z.of_nat (length five_bytes)) with 5 in Hw.
  change (Z.of_nat 3) with 3 in Hw.
  apply Hw; [exact Hf|exact Ht|exact Ho|exact Hk|exact Hfile|exact Hda|by repeat constructor|done|
    exact enough_room|done|by left].
Defined.

(** * Attributes *)

Lemma attrPopulate_reports_witness : exists s r,
  wp (attrPopulate root_path zero_stat) s (fun v s' =>
    (exists F' Q', moves (ok := dev_fs) s s' F' none Q' (fun _ => 0) (fun _ => 0)) /\
    exists d, inode_view s none 0 d /\ v = (0, stat_of d)) /\
  stat_of (root_iNode r) = Stat 0 0 0 16895 0 0 0.
Proof.
  destruct mounted_root as (s & r & [Hc Ht _] & Hv & _). destruct root_paths as (Hp & Hne & _).
  exists s, r. split; [|done].
  apply (attrPopulate_reports (ok := dev_fs) 32 s nodes32 none all_free root_path zero_stat (Some 0));
    [exact one_free|exact Hc|exact Ht|apply nothing_in_use|exact Hp|exact Hne|apply root_walk].
Defined.

Lemma attributes_change_witness : exists s,
  wp (changeMode root_path 448) s (fun v s' => exists F' Q' d, inode_view s none 0 d /\ v = 0 /\
    changed_only (ok := dev_fs) s s' F' none Q' 0 (new_mode 448 d)) /\
  wp (changeOwner root_path 1000 (u32 (-1))) s (fun v s' => exists F' Q' d, inode_view s none 0 d /\ v = 0 /\
    changed_only (ok := dev_fs) s s' F' none Q' 0 (new_owner 1000 (u32 (-1)) d)).
Proof.
  destruct mounted_root as (s & r & [Hc Ht _] & Hv & _). destruct root_paths as (Hp & Hne & _). exists s.
  destruct (attributes_change (ok := dev_fs) 32 s nodes32 none all_free root_path 448 1000 (u32 (-1)) (Some 0))
    as [Hmode Hown];
    [exact one_free|exact Hc|exact Ht|apply nothing_in_use|exact Hp|exact Hne|apply root_walk|done|done|done| |].
  { intros n d [= <-] _. right. split; [done|apply no_refs]. }
  split; (eapply wp_mono; [eassumption|]); intros v s' (F' & Q' & d & ? & ? & ?); by exists F', Q', d.
Defined.

(** * Creation *)

(** The directory [/a] is made in the empty root directory. *)
Lemma createFile_creates_witness : exists s,
  wp (createFile path_a T_DIRECTORY 493 some_context) s (fun v s' => v = 0 /\ exists F' Q' l' dn,
    fs_ok (ok := dev_fs) s' F' Q' l' /\ inode_view s' Q' 1 dn /\
    new_inode T_DIRECTORY 16877 1000 1000 1 dn /\
    dir_list (ds s') (dir_of dn) = [(name_bytes dot, 1); (name_bytes dot_dot, 0)] /\
    walks s' Q' 0 (path_names path_a) (Some 1)).
Proof.
  destruct mounted_root as (s & r & Hfs & Hv & Hnew & Hh). exists s.
  eapply wp_mono.
  - apply (createFile_creates (ok := dev_fs) T_DIRECTORY s nodes32 none all_free root_path [97] 0 (root_iNode r)
      0 1 (seqZ 2 511) (initializeINode 1) 493 some_context).
    + by right.
    + exact Hfs.
    + apply nothing_in_use.
    + rewrite length_seq. unfold INODE_BUFFER_SIZE. lia.
    + by repeat constructor.
    + done.
    + by apply (bool_decide_unpack _).
    + cbn. lia.
    + apply root_walk.
    + exact Hv.
    + done.
    + done.
    + intros _ _. apply no_refs.
    + unfold room. change MAX_FILE_SIZE with 2164402176. rewrite length_all_free.
      change (size (root_iNode r)) with 0. change (nblocks (0 + 64)) with 1. change (nblocks 0) with 0. lia.
    + pose proof length_all_free. lia.
    + exact (first_number s Hnew Hh).
    + lia.
    + done.
    + done.
    + done.
    + done.
    + apply sim_names.
  - intros v s' (-> & F' & Q' & l' & dn & H1 & H2 & H3 & H4 & H5 & _). split; [done|].
    exists F', Q', l', dn. split_and!; done.
Defined.

(** * Removal *)

Lemma unlinkDir_refuses_witness : exists s,
  wp (unlinkDir 5 root_path false) s (fun v s' => v = - EACCES /\ exists F' Q',
    moves (ok := dev_fs) s s' F' none Q' (fun _ => 0) (fun _ => 0)).
Proof.
  destruct mounted_root as (s & r & [Hc Ht _] & Hv & _). destruct root_paths as (Hp & Hne & _). exists s.
  apply (unlinkDir_refuses (ok := dev_fs) 32 4 s nodes32 none all_free root_path 0 (root_iNode r) (- EACCES));
    [exact one_free|exact Hc|exact Ht|apply nothing_in_use|exact Hp|exact Hne|apply root_walk|exact Hv|done].
Defined.

Lemma unlinkDir_missing_witness : exists s : istate, unlinkDir 5 path_a_b false s = Undef NullDeref.
Proof.
  destruct mounted_root as (s & r & [Hc Ht _] & Hv & _). destruct root_paths as (_ & _ & Hp & Hne). exists s.
  apply (unlinkDir_missing (ok := dev_fs) 32 5 s nodes32 none all_free path_a_b false);
    [exact one_free|exact Hc|exact Ht|apply nothing_in_use|exact Hp|exact Hne|by eapply missing_walk].
Defined.

Lemma truncate_directory_witness : exists s : fstate,
  wp (truncateFile root_path 100) s (fun v s' => v = - EISDIR /\ iget 0 0 (cache s') = Hang).
Proof.
  destruct mounted_root as (s & r & [Hc Ht _] & Hv & _). destruct root_paths as (Hp & Hne & _).
  exists (FState s (table_of 0 false)).
  apply (truncate_directory (ok := dev_fs) 32 (FState s (table_of 0 false)) nodes32 none all_free root_path 100 0
    (root_iNode r));
    [exact one_free|exact Hc|exact Ht|apply nothing_in_use|exact Hp|exact Hne|apply root_walk|exact Hv|done].
Defined.

(** The file [/a] comes and goes. *)
Lemma createFile_unlinkFile_witness : exists (s : istate) r,
  wp (let* a := createFile path_a T_REGULAR 420 some_context in
      let* b := unlinkFile path_a in ret (a, b)) s
    (fun v s' => v = (0, 0) /\ inode_list (ds s') (1 :: 2 :: seqZ 3 510) /\
      exists F' Q' l', restored (ok := dev_fs) s s' nodes32 F' none Q' all_free l' 0 (root_iNode r) 1).
Proof.
  destruct mounted_root as (s & r & Hfs & Hv & Hnew & Hh). exists s, r.
  apply (createFile_unlinkFile (ok := dev_fs) s nodes32 none all_free root_path [97] 0 (root_iNode r)
    0 1 2 (seqZ 3 510) (initializeINode 1) 420 some_context).
  - exact Hfs.
  - apply nothing_in_use.
  - rewrite length_seq. unfold INODE_BUFFER_SIZE. lia.
  - by repeat constructor.
  - done.
  - by apply (bool_decide_unpack _).
  - cbn. lia.
  - apply root_walk.
  - exact Hv.
  - done.
  - done.
  - intros _ _. apply no_refs.
  - done.
  - pose proof length_all_free. lia.
  - exact (first_number s Hnew Hh).
  - done.
  - done.
  - done.
  - done.
  - done.
  - done.
  - rewrite Hh. apply not_elem_of_nil.
  - rewrite Hh. apply not_elem_of_nil.
  - apply sim_reads.
  - exact sim_clean_malloc.
Defined.

(** The only file is removed. *)
Lemma unlinkFile_deletes_witness : exists (s : istate) (F : list nat) Q l dp dn,
  wp (unlinkFile path_a) s (fun v s' => v = 0 /\ exists F' Q' l' freed e,
    l' ≡ₚ freed ++ blocks_of (ds s) (dir_of dn) ++ l /\
    Z.of_nat (length freed) = nblocks (size dp) - nblocks (size dp - 64) /\
    inode_list (ds s') (1 :: 2 :: seqZ 3 510) /\ deleted e /\
    file_unlinked (ok := dev_fs) s s' F' Q Q' l' [97] 0 dp 0 1 e) /\
  (0 < length F)%nat.
Proof.
  destruct (one_name T_REGULAR 420 ltac:(by left) ltac:(done) eq_refl)
    as (s & F & Q & l & dp & dn & Hre & Hnew & Hsz & Hr & Hone & Hh & Hnos & _).
  exists s, F, Q, l, dp, dn. split.
  - apply (unlinkFile_deletes (ok := dev_fs) s F Q l root_path [97] 0 dp 0 1 dn 0 2 (seqZ 3 510)).
    + exact Hre.
    + by destruct Hnew as (_ & _ & _ & _ & _ & ? & _).
    + exact (Hr 1).
    + done.
    + by apply Hone.
    + rewrite Hh. apply not_elem_of_nil.
    + exact Hnos.
    + done.
  - pose proof (re_nodes _ _ _ _ _ _ _ _ _ _ _ Hre). lia.
Defined.

(** The path [/a] and what it leads to. *)
Lemma one_name_walk (s : istate) F Q l dp dn :
  removable (ok := dev_fs) s F Q l root_path [97] 0 dp 0 1 dn -> walks s Q 0 (path_names path_a) (Some 1).
Proof.
  intros Hre. destruct (re_parent _ _ _ _ _ _ _ _ _ _ _ Hre) as (Hv & Hd & _).
  destruct (re_entry _ _ _ _ _ _ _ _ _ _ _ Hre) as (nb & He). eapply walks_into; [by exists dp|exact He|constructor].
Qed.

(** The file [/a] gets seven bytes. *)
Lemma truncateFile_resizes_witness : exists (s : fstate) Q l dn,
  wp (truncateFile path_a 7) s (fun v s' => v = 0 /\ fileTable s' = fileTable s /\
    exists F' Q' l' d', truncated (ok := dev_fs) (cache s) (cache s') F' Q Q' l l' 1 dn d' 7) /\ size dn = 0.
Proof.
  destruct (one_name T_REGULAR 420 ltac:(by left) ltac:(done) eq_refl)
    as (s & F & Q & l & dp & dn & Hre & (_ & Et & Em & _ & _ & El & Es) & _ & _ & _ & Hh & _ & [HF Hl] & _).
  exists (FState s (table_of 0 false)), Q, l, dn. split; [|exact Es].
  destruct root_paths as (Hp & Hne & _).
  apply (truncateFile_resizes (ok := dev_fs) 1 (FState s (table_of 0 false)) F Q l path_a 1 dn 7); cbn [cache].
  - exact (re_fs _ _ _ _ _ _ _ _ _ _ _ Hre).
  - lia.
  - exact (re_refs _ _ _ _ _ _ _ _ _ _ _ Hre).
  - by repeat constructor.
  - done.
  - by eapply one_name_walk.
  - by destruct (re_inode _ _ _ _ _ _ _ _ _ _ _ Hre).
  - by rewrite Et.
  - by rewrite Em.
  - by rewrite El.
  - rewrite Hh. apply not_elem_of_nil.
  - change (size dn = 0) in Es. rewrite Es. split; [lia|]. left. split; [lia|]. unfold room.
    change MAX_FILE_SIZE with 2164402176. change (nblocks (0 + (7 - 0))) with 1. change (nblocks 0) with 0.
    pose proof length_all_free. lia.
Defined.

(** The root directory with its one name is listed. *)
Lemma readDirectory_lists_witness : exists s : fstate,
  wp (readDirectory root_path) s (fun v s' => fileTable s' = fileTable s /\ v = (0, [name_bytes [97]])).
Proof.
  destruct (one_name T_DIRECTORY 493 ltac:(by right) ltac:(done) eq_refl)
    as (s & F & Q & l & dp & dn & Hre & _ & _ & _ & _ & _ & _ & [HF _] & El).
  pose proof (re_fs _ _ _ _ _ _ _ _ _ _ _ Hre) as [Hc Ht _].
  destruct (re_parent _ _ _ _ _ _ _ _ _ _ _ Hre) as (Hv & Hd & _).
  destruct root_paths as (Hp & Hne & _). exists (FState s (table_of 0 false)).
  eapply wp_mono.
  - apply (readDirectory_lists (ok := dev_fs) 1 (FState s (table_of 0 false)) F Q l root_path (Some 0)); cbn [cache];
      [lia|exact Hc|exact Ht|exact (re_refs _ _ _ _ _ _ _ _ _ _ _ Hre)|exact Hp|exact Hne|apply root_walk|].
    intros n [= <-]. eexists. by exists dp.
  - intros v s' (Et & _ & es & (d & Hd' & _ & ->) & ->). split; [exact Et|].
    cbn [cache]. by rewrite (inode_view_unique (ok := dev_fs) _ _ _ _ _ _ Hc Hd' Hv), El.
Defined.


(** The file [/a] of the root is renamed to [/b]. *)
Lemma renameFile_renames_witness : exists (s : istate) Q (l : list Z) dp dn,
  wp (renameFile 5 path_a (root_path ++ [98])) s (fun v s' => v = 0 /\ inode_list (ds s') (0 :: 2 :: seqZ 3 510) /\
    exists F' Q' l', (length l <= length l' + 4)%nat /\ renamed (ok := dev_fs) s s' F' Q Q' l' [97] 0 dp 0 1 dn [98] 0 dp) /\
  dir_list (ds s) (dir_of dp) = [(name_bytes [97], 1)] /\ linksCount dn = 1.
Proof.
  destruct (one_name T_REGULAR 420 ltac:(by left) ltac:(done) eq_refl)
    as (s & F & Q & l & dp & dn & Hre & Hnew & Hsz & Hr & _ & Hh & Hnos & [HF Hl] & El).
  exists s, Q, l, dp, dn. destruct Hnew as (_ & _ & _ & _ & _ & Elk & _).
  pose proof Hre as [Hfs Hfew _ Hpath Hw (Hv & Hd & _) He Hidle Hlen Hheld [Hn0 Hvn] Hmal].
  split; [|by split].
  apply (renameFile_renames (ok := dev_fs) 5 s F Q l root_path [97] 0 dp 0 1 dn root_path [98] 0 dp (0 :: 2 :: seqZ 3 510)).
  - split; try done.
    + intros m c Hm Hc. rewrite (refs_unique _ _ _ _ _ _ (fs_cache _ _ _ _ Hfs) Hc (Hr m)). lia.
    + by destruct Hpath as (? & ? & ?).
    + split; [by repeat constructor|]. split; [done|]. split; [by apply (bool_decide_unpack _)|cbn; lia].
    + rewrite Hsz. by split_and!.
    + split; [done|]. split; [done|]. split; [|done]. unfold room. change MAX_FILE_SIZE with 2164402176. rewrite Hsz.
      change (nblocks (64 + 64)) with 1. change (nblocks 64) with 1. lia.
    + pose proof length_all_free. lia.
    + change (linksCount dn = 1) in Elk. rewrite Elk. by split_and!.
    + apply sim_reads.
  - rewrite El. unfold find_entry. apply list_find_None. constructor; [|constructor].
    destruct (name_bytes_name [97]) as [_ E]; [by repeat constructor|cbn; lia|].
    unfold named, entry_name. cbn [fst]. by rewrite E.
  - exact Hnos.
Defined.

(** * Start-up *)

(** The device is called [dev]. *)
Lemma main_mounts_witness : exists (d : dstate),
  wp (main [[110]; device_arg [100; 101; 118]]) (fresh_process d (table_of 0 true)) (fun b s' => b = true /\
    ds (cache s') = mounted d [100; 101; 118] /\ files_ok (ok := dev_fs) s' nodes32 none /\
    Forall (fun e => validEntry e = false) (fileTable s') /\
    forall n e, disk_inode (mounted d [100; 101; 118]) n = Some e -> inode_view (cache s') none n e).
Proof.
  destruct formatted_device as (d & (Ha & Hdev & Hn) & (Hp & _) & Hh & Har & Hts).
  destruct d as [av nm dv md pr hl tc]. cbn in Ha, Hp, Hh. subst av pr hl.
  set (d0 := @DState sim_host false None dv md std_params [] tc). exists d0.
  apply (main_mounts (ok := dev_fs) d0 [110] [100; 101; 118] (table_of 0 true));
    [done|cbn; lia|done|done|done|apply length_replicate|exact sim_stack|by split_and!|exact Har|exact Hts].
Defined.

(** * Sessions *)

(** [mkdir /d], [create /a], five bytes into the new file and two of them again,
    [rename /a /d/b] while the file is open, which is then opened a second time,
    read and released again, six requests that fail, the names in [/d], reads of
    the file before and after it has been made longer and shorter, [chmod] and
    [chown], [create /c], [rename /d/b /c] over the new file, the attributes, the
    release of the first descriptor, [unlink /c] and [rmdir /d]. *)
Definition in_d : list Z := [slash; 100; slash].
Definition no_handle : fuse_file_info := FuseFileInfo 0 0.

Definition some_session : list request :=
  [Mkdir root_path [100] 493 some_context;
   Create root_path [97] 420 no_handle some_context;
   Write (root_path ++ [97]) 0 0 five_bytes 0 some_context;
   Write (root_path ++ [97]) 0 0 [76; 76] 2 some_context;
   Rename root_path [97] in_d [98];
   Getattr (root_path ++ [97]);
   Open (in_d ++ [98]) no_handle some_context;
   Read (in_d ++ [98]) 0 1 0 3 some_context;
   Release (in_d ++ [98]) 0 1 some_context;
   Read (in_d ++ [98]) 0 1 0 3 some_context;
   Write (in_d ++ [98]) 0 0 five_bytes 6 some_context;
   Unlink in_d [120];
   Rmdir in_d [98];
   Rmdir root_path [100];
   Readdir (root_path ++ [100]);
   Read (in_d ++ [98]) 0 0 0 100 some_context;
   Truncate (in_d ++ [98]) 7;
   Read (in_d ++ [98]) 0 0 0 100 some_context;
   Truncate (in_d ++ [98]) 2;
   Chmod (in_d ++ [98]) 384;
   Chown (in_d ++ [98]) 5 NO_ID;
   Create root_path [99] 420 no_handle some_context;
   Release (root_path ++ [99]) 0 1 some_context;
   Rename in_d [98] root_path [99];
   Getattr (root_path ++ [99]);
   Release (root_path ++ [99]) 0 0 some_context;
   Unlink root_path [99];
   Rmdir root_path [100]].

Definition some_replies : list reply :=
  [Status 0; Handle 0; Status 5; Status 2; Status 0; Status (- ENOENT); Handle 1; Contents [104; 101; 76];
   Status 0; Status (- EBADF); Status (-1); Status (-1); Status (- ENOTDIR); Status (- ENOTEMPTY);
   Names [dot; dot_dot; [98]]; Contents [104; 101; 76; 76; 111]; Status 0;
   Contents [104; 101; 76; 76; 111; 0; 0]; Status 0; Status 0; Status 0; Handle 1; Status 0; Status 0;
   Attributes 384 5 1000 2; Status 0; Status 0; Status 0].

(** After five requests the file is in the directory, and at the end number 2
    is free again, while the directory without a name keeps number 1. *)
Definition directory_node (links : Z) (es : list (list Z * Z)) : anode :=
  ANode T_DIRECTORY 16877 1000 1000 links (Entries es).

Definition final_tree : atree :=
  ATree {[0 := ANode T_DIRECTORY (Z.lor S_IFDIR 511) 0 0 0 (Entries []);
          1 := directory_node 1 [(dot, 1); (dot_dot, 0)]]} (seqZ 2 511) 31440856 ∅.

Lemma some_session_tree :
  session fresh_tree some_session = Some (some_replies, final_tree) /\
  ((fun r => t_nodes (snd r)) <$> session fresh_tree (take 5 some_session)) = Some {[
    0 := ANode T_DIRECTORY (Z.lor S_IFDIR 511) 0 0 0 (Entries [([100], 1)]);
    1 := directory_node 2 [(dot, 1); (dot_dot, 0); ([98], 2)];
    2 := ANode T_REGULAR 420 1000 1000 1 (Bytes [104; 101; 76; 76; 111])]}.
Proof. split; by vm_compute. Qed.

Lemma session_refines_witness : exists s : fstate,
  wp (serve_all some_session) s (fun vs s' => vs = some_replies /\ models (ok := dev_fs) s' final_tree).
Proof.
  destruct mounted_root as (c & r & Hfs & _ & Hnew & Hh). exists (FState c (table_of 0 false)).
  apply (session_refines (ok := dev_fs) (FState c (table_of 0 false)) fresh_tree final_tree some_session some_replies).
  - apply (closed_models (ok := dev_fs) _ nodes32 none all_free); [|split; [apply length_replicate|by apply Forall_replicate]|done].
    by apply (fresh_tree_state (ok := dev_fs)); [apply Hfs|..].
  - apply sim_memory_serves.
  - apply some_session_tree.
Defined.

(** The same from the start of the program on. *)
Lemma main_serves_witness : exists (d : dstate),
  wp (let* started := main [[110]; device_arg [100; 101; 118]] in if started then serve_all some_session else ret [])
    (fresh_process d (table_of 0 true))
    (fun vs s' => vs = some_replies /\ models (ok := dev_fs) s' final_tree).
Proof.
  destruct formatted_device as (d & (Ha & Hdev & Hn) & Hnew & Hh & Har & Hts). pose proof Hnew as (Hp & _).
  destruct d as [av nm dv md pr hl tc]. cbn in Ha, Hp, Hh. subst av pr hl.
  set (d0 := @DState sim_host false None dv md std_params [] tc). exists d0.
  apply (main_serves (ok := dev_fs) d0 [110] [100; 101; 118] (table_of 0 true) some_session some_replies final_tree);
    [done|cbn; lia|done|done|done|apply length_replicate|by split_and!|exact Hnew|done|exact sim_stack|
     apply sim_memory_serves|apply some_session_tree].
Defined.

(** A device is formatted, and then used. *)
Definition new_process (dv : dev (Host := sim_host)) : dstate (H := sim_host) :=
  @DState sim_host false None dv ∅ unset_params [] 0.

Lemma new_process_started dv : started_on dv (new_process dv).
Proof. unfold started_on, new_process. cbn. repeat split. Qed.

Lemma mkfs_then_serve_witness : exists d : dstate (H := sim_host),
  mkfs_main [[109]; [100; 101; 118]] (new_process ∅) = Ret 0 d /\
  wp (let* started := main [[110]; device_arg [100; 101; 118]] in if started then serve_all some_session else ret [])
    (fresh_process (new_process (device d)) (table_of 0 true))
    (fun vs s' => vs = some_replies /\ models (ok := dev_fs) s' final_tree).
Proof.
  destruct (wp_inv _ _ _ (mkfs_then_serve sim_dev_ok (new_process ∅) [109] [100; 101; 118] ∅
    sim_stack (new_process_started ∅) eq_refl (map_Forall_empty _))) as (v & d & Hr & -> & Hserve).
  exists d. split; [exact Hr|].
  apply (Hserve (new_process (device d)) [110] (table_of 0 true) some_session some_replies final_tree);
    [apply new_process_started|done|cbn; lia|done|apply length_replicate|apply sim_memory_serves|apply some_session_tree].
Defined.

(** * The reader *)

Lemma reader_undefined_witness :
  (forall s v, setupDisk [100] (new_process ∅) = Ret v s ->
     printFreeList s = Ret (i64 <$> blkNos (makeFreeDiskListBlock (junk_block (Host := sim_host)))) s /\
     printFreeINodeList s = Ret (i64 <$> iNodeNos (makeINodeListBlock (junk_block (Host := sim_host)))) s) /\
  reader_main [[114]; [100]] (new_process ∅) = Undef OutOfBounds.
Proof. by apply (reader_undefined (new_process ∅) [114] [100]). Defined.

(** * Fresh memory that is not clear *)

(** [sim_host] with something in the upper bytes of the entries from [malloc]. *)
Definition dirty_host (fresh : Z) : Host := {|
  dev := gmap Z block;
  dev_access := fun _ _ => true;
  dev_read := fun d off => mem_get d off;
  dev_write := fun d off b => (true, <[off := b]> d);
  time_at := fun _ => 1500000000;
  time_at_range := fun _ => bool_decide_eq_true_1 (is_i64 1500000000) eq_refl;
  junk_block := zero_block;
  junk_block_wf := zero_block_wf;
  junk_word := 0;
  fresh_number := fun _ _ _ => fresh;
  junk_bytes := [];
  junk_bytes_ok := Forall_nil_2 _;
  shl_over := Some (fun x n => Z.shiftl x (n mod 64));
  stack_word := Some 0;
  over_reads := true
|}.

(** A memory disk with an empty root and the free inode 1, without a cache. *)
Definition small_system (fresh : Z) : istate (H := dirty_host fresh) :=
  IState (@DState (dirty_host fresh) false None ∅
    (<[FREE_LIST_BLOCK := enc_words 8 (replicate 120 0 ++ some_free)]>
    (<[INODE_LIST_BLOCK := enc_words 2 (seqZ 1 512)]>
      {[INODE_BLOCKS_HEAD := memcpy_at (memcpy_at zero_block 0 (iNode_bytes (root_iNode 0)))
          256 (iNode_bytes (initializeINode 1))]})) std_params [] 0) [] None (replicate 8 None).

(** The file [/a] is created and removed again. The outcome: what the calls
    return, the size of the root, and the type and the links of inode 1 on disk. *)
Definition comes_and_goes (fresh : Z) : option ((Z * Z) * Z * (iNodeType * Z)) :=
  match (initFreeInCoreINodeList ;;; initHashQueues ;;;
    let* a := createFile (H := dirty_host fresh) path_a T_REGULAR 420 some_context in
    let* b := unlinkFile path_a in ret (a, b)) (small_system fresh)
  with
  | Ret v s => match disk_inode (ds s) 0, disk_inode (ds s) 1 with
               | Some r, Some e => Some (v, size r, (type e, linksCount e))
               | _, _ => None
               end
  | _ => None
  end.

(** The premise [clean_malloc] of the theorems about removals is needed. On
    clear memory the file is deleted. With one bit in the upper bytes of the
    entry from [malloc] both calls return 0 and the name is gone as well, but
    [unlinkFile] looks another inode up, and inode 1 keeps its link: it is lost. *)
Lemma removal_needs_clean_memory :
  comes_and_goes 0 = Some ((0, 0), 0, (T_FREE, 0)) /\
  comes_and_goes 65536 = Some ((0, 0), 0, (T_REGULAR, 1)).
Proof. split; by vm_compute. Qed.
